(* ===== verification/_CoqProject ===== *)
-Q . S2P
Prelude.v
Bits.v
Pbuf.v
PbufData.v
PbufChain.v
PbufIO.v
PbufLife.v
PbufClaims.v
PbufCopy.v
PbufOwn.v
PbufHdr.v
Def.v
IpAddr.v
Chksum.v
NetifRec.v
Netif.v
NetifThm.v
Ip4Addr.v
Ip4AddrThm.v
Timeouts.v
TimeoutsThm.v
XnetTap.v
XnetTapThm.v
Ethernet.v
EthernetThm.v
Etharp.v
EtharpTable.v
EtharpOps.v
EtharpOut.v
EtharpSend.v
EtharpIn.v
EtharpClaims.v
EtharpNet.v
IpState.v
EthInput.v
NetifLoop.v
NetifLoopThm.v
Ip4Out.v
Icmp.v
Ip4In.v
Ip4Hdr.v
IpEnv.v
IpRes.v
Ip4OutThm.v
IcmpThm.v
Ip4InThm.v
Ip4Round.v
IpLoop.v
EthInputThm.v
IpClaims.v
XnetService.v
XnetServiceThm.v
XnetLife.v
XnetServiceClaims.v
XnetSocket.v
JniBridge.v
IpUpper.v
Udp.v
UdpPcb.v
UdpOps.v
UdpIn.v
UdpOut.v
UdpClaims.v
SysArch.v
SysMbox.v
SysClaims.v
Ip4Frag.v
Ip4ReassThm.v
Ip4ReassClaims.v
Ip4FragThm.v
Ip4FragClaims.v
TcpIn.v
TcpOut.v
TcpProcess.v
TcpTmr.v
TcpStream.v
TcpConn.v
TcpSend.v
TcpWrite.v
TcpClaims.v
