(* ===== verification/Prelude.v ===== *)
(** * Verification of the native library of the XNet VPN client

    The program is an Android VPN client.  Its native part, [libxnet]
    ([src/externals/libzt-jni]), runs a ZeroTier node in a thread and gives each
    joined network a virtual Ethernet interface of lwIP
    ([src/externals/lwip], compiled in with [lwipopts.h]); Java talks to it
    through JNI and uses lwIP's sockets over the joined networks.  Frames from
    the wire go [cb_vframe] -> [xnet_tap_rx] -> pbuf -> [ethernet_input] -> ARP or
    IP -> ICMP, UDP, TCP; datagrams go [ip4_output_if] -> [etharp_output] ->
    [ethernet_output] -> [netif_linkoutput] -> ZeroTier, or back to ourselves
    through the loopback queue of the interface.  Configuration changes go
    [cb_vnet_config] -> tap registry -> [xnet_tap_setup_netif] -> [netif_add].

    ** What is modelled, and where

    - this file: the C integers ([u8], [u16], [u32] as [Z] with the wrap-around
      written out), byte buffers as lists with bounds-checked reads and writes,
      the notations, tactics and hint databases the other files share;
      [Bits]: masks, shifts and the bytes of a word.
    - packet buffers, [core/pbuf.c]: [Pbuf] (the store of pbufs with reference
      counts, and every operation that is compiled in), [PbufData], [PbufChain],
      [PbufIO], [PbufLife] (lemmas), [PbufClaims];
      [PbufCopy], [PbufOwn] (who holds which packet: the class [Frame] for the
      packets others keep), [PbufHdr] (headers put in front and fields patched).
    - [core/def.c] and [def.h]: [Def] (byte order, string helpers, [lwip_itoa]).
    - addresses: [IpAddr] (types and predicates of the headers), [Ip4Addr],
      [Ip4AddrThm] ([core/ipv4/ip4_addr.c]).
    - the Internet checksum, [core/inet_chksum.c]: [Chksum].
    - network interfaces, [core/netif.c]: [NetifRec] ([struct netif]), [Netif]
      (the operations over a memory of interfaces with lwIP's linked list),
      [NetifThm] (the list invariant, and the class [NetifDriver], which is what
      [netif_add] asks of a driver's init callback).
    - timers, [core/timeouts.c]: [Timeouts], [TimeoutsThm].
    - [xnet_tap.c] and the glue's globals: [XnetTap], [XnetTapThm] (whose init
      callback is an instance of [NetifDriver]).
    - Ethernet and ARP, [netif/ethernet.c] and [core/ipv4/etharp.c]: [Ethernet],
      [Etharp], [EthInput] (the functions); [EthernetThm], [EtharpTable],
      [EtharpOps], [EtharpOut], [EtharpSend], [EtharpIn],
      [EtharpNet] (the table's invariant and each operation), [EtharpClaims].
    - IP, [core/ipv4/ip4.c], [core/ipv4/icmp.c], [core/ip.c]: [IpState] (the
      globals; the class [Upper] leaves the state of the protocols above open),
      [Ip4Out], [Icmp], [Ip4In] (the functions), [Ip4Hdr] (headers and
      checksums), [IpEnv], [IpRes] (the invariant of the stack), [Ip4OutThm],
      [IcmpThm], [Ip4InThm], [Ip4Round], [EthInputThm] (the lemmas),
      [IpClaims].  Modules meet through classes: [Sender] (what sends a packet),
      [Reassembler], [Protocol] (what IP delivers to) and [Consumer] (what
      Ethernet delivers to), each with its instances.
    - fragments, [core/ipv4/ip4_frag.c]: [Ip4Frag] (reassembly: the queue of
      a datagram's fragments, eviction, the timer; fragmentation: pbufs that
      refer to the datagram), [Ip4ReassThm], [Ip4ReassClaims], [Ip4FragThm] (a fragment under construction beside the
      datagram; the class [Device] is what the loop asks of
      [netif->output]), [Ip4FragClaims].  In [Ip4Out] and [Ip4In] both are still
      parameters with the contracts [Sender] and [Reassembler]: the real
      [ip4_reass] does not fulfil the second for all frames, as its joined
      packets can be longer than their length field ([reass_len_wraps]).
    - the loopback queues of [core/netif.c]: [NetifLoop], [NetifLoopThm]
      (the queue as an abstract machine), [IpLoop].
    - UDP, [core/udp.c]: [IpUpper] (how a module above IP keeps its own part of
      the upper state: the classes [Component] and [Sound]), [Udp] (the
      functions), [UdpPcb] (ports, bindings, the choice of a PCB), [UdpOps] (the
      invariant of the PCBs and every operation; PCBs over time as a step
      relation), [UdpIn] (an instance of [Protocol], for callbacks that are a
      [Receiver]), [UdpOut] (sending), [UdpClaims].
    - TCP, [core/tcp_in.c], [core/tcp_out.c], [core/tcp.c]: [TcpIn] (the PCB, the
      receive window, SACKs, the data of [tcp_receive]), [TcpOut] ([tcp_output] and
      the retransmissions), [TcpProcess] (acknowledgements, options,
      [tcp_process], the callbacks of [tcp_input]), [TcpTmr] (SYN and FIN, closing,
      what the timers do to a PCB); [TcpStream] (sequence numbers modulo 2^32 and
      the segments of a stream), [TcpConn] (a connection over time), [TcpSend]
      (the queues of the sender), [TcpWrite] ([tcp_write], and the sender as a step
      relation), [TcpClaims].
    - the POSIX port, [lwip-contrib/ports/unix/port/sys_arch.c]: [SysArch]
      (semaphores, and mailboxes as a machine of interleaved threads), [SysMbox]
      (its invariants, the queue it implements, wake-ups), [SysClaims] (with the
      critical sections).
    - [xnet_service.c]: [XnetService] (callbacks, I/O thread, API),
      [XnetServiceThm] (the registry as a finite map, its invariant with lwIP's
      list), [XnetLife] (the service as a step relation), [XnetServiceClaims] (with
      paths and state files).
    - [xnet_socket.c] and [lwip_fcntl]: [XnetSocket]; [jni_bridge.c]:
      [JniBridge].

    ** How the code is represented

    A function that may fault, read uninitialised memory or run for ever returns
    an [option]; [None] is never a normal result, and the theorems show that
    calls return [Some].  Pointers to pbufs are keys of a store, pointers to
    interfaces are numbers that key a memory of [struct netif], so that the
    struct copy of a tap slot and lwIP's pointers into the slot are told apart.
    Calls out of the library (Java, the ZeroTier node, sockets, reports of
    netif.c to ARP, ND6, TCP and UDP) are events on a trace.  Allocation, the
    clock, results of the operating system and of the ZeroTier core are
    arguments.

    ** What the theorems show

    - the service: bringing networks up and down implements insertion and
      deletion on a finite map ([vnet_up_refines], [vnet_down_refines]); the
      registry agrees with lwIP's list in all reachable states of the machine
      that moves no interface in use ([service_consistent]); stopping cleans up
      ([xnet_stop_spec]); queries and state files answer what was stored.
    - what goes wrong: a slot that is moved while in use leaves a stale pointer
      and a later hang ([vnet_down_dangling], [netif_add_twice_diverges]); the
      service is never ready again after a stop ([restart_never_ready]), so that the
      socket calls that ask for it are refused ([sockets_dead_after_stop]); IPv6 addresses never reach lwIP
      ([xnet_tap_setup_ip6_dead]); large frames are refused
      ([tap_full_mtu_refused]); non-blocking mode cannot be left
      ([fcntl_cannot_clear_nonblock]); [hasAddress] ignores its network
      ([hasAddress_sticky]).
    - frames: received and sent frames are exactly the bytes given, through the
      pbuf layer ([xnet_tap_rx_spec], [tap_linkoutput_spec],
      [tap_rx_tx_roundtrip]).
    - pbufs: reference counting frees each buffer once, allocation is all or
      nothing, and copying, writing, concatenating, truncating and header
      operations do to the flat packet what they should.  The account of the
      references ([PbufOwn.owned]) is exact: a pbuf counts as many references as there
      are owners, and every pbuf in the store has one, so that an operation that
      forgets to free, or frees twice, does not keep it.
    - ARP: the table and its packet queues stay well formed ([arp_ops_safe]),
      addresses are learned, aged and forgotten, packets wait for them and leave
      in order ([etharp_update_resolves], [arp_entry_lifetime],
      [etharp_output_spec], [etharp_find_entry_policy], [arp_input_for_us]); short
      ARP packets are not noticed ([arp_short_packet_learned]).
    - IP: whatever a frame holds, input is memory safe and frees it or passes it on
      exactly once ([input_path_safe]); headers are right and packets go where they should
      ([ip4_output_if_spec], [ip4_route_spec], [ip4_input_delivers]); pings are
      answered ([icmp_echo_answered]); errors quote stale memory
      ([icmp_error_quotes]).
    - loopback: what we send to ourselves comes back ([loopback_roundtrip]), in
      order as long as the packets do not cause ever more of them
      ([netif_poll_fifo]); a poll that cannot be posted stops the queue for
      good ([loopback_stuck]).
    - fragments: fragmentation cuts the data exactly and gives all memory back
      ([ip4_frag_cuts]), reassembly takes the pieces in any order
      ([ip4_reass_any_order], [reass_place_spec]), so that one undoes the other
      ([frag_reass_roundtrip]); incomplete datagrams expire ([reass_expires]).  An
      MTU that leaves no multiple of eight breaks datagrams of some sizes
      ([frag_mf_early]), and lengths can wrap ([reass_len_wraps]).
    - UDP: bindings exclude each other in every reachable state
      ([udp_bindings_exclusive], [udp_bind_spec]) unless an interface changes to an
      address on which the port is taken ([udp_readdress_clash]); ports are found when there are any
      ([udp_new_port_spec]); datagrams get correct headers and checksums
      ([udp_sendto_spec]), go to the right PCB ([udp_input_delivers]), and what is
      sent to our own address arrives ([udp_loopback_roundtrip]); both directions
      are safe ([udp_paths_safe]).
    - TCP: what one application writes ([tcp_write_appends]) the other gets, in
      order and once, whatever is lost, repeated or reordered ([tcp_end_to_end]);
      so it does with any peer that sends a stream ([tcp_stream_in_order]); the sender keeps what is not
      acknowledged ([tcp_sender_keeps]) and stays in the window
      ([tcp_output_window]); the states change as RFC 793 says
      ([tcp_process_transitions]); the options of a SYN are understood
      ([syn_options_roundtrip]).  Data can be lost on the way to TIME_WAIT
      ([tcp_closing_loses_data]), FIN can overtake data ([tcp_fin_too_early]),
      data and FIN can be put on a segment in the middle of the stream
      ([tcp_write_after_rexmit]) or on one that is too long already
      ([tcp_write_past_mss]), the window can wrap and SACKs be wrong
      ([tcp_oos_errors]), an ACK can be forgotten ([fasttmr_forgets_ack]).
    - threads: a mailbox is a queue whatever the interleaving
      ([mbox_refines_queue], [mbox_exclusive]); with one fetcher no wake-up is lost
      ([mbox_progress]), with two it can be ([mbox_two_fetchers_stuck]); its
      counters overflow in the end ([mbox_wears_out]); critical sections exclude
      each other ([protect_exclusive]).
    - interfaces: fresh numbers, list surgery, IPv6 address slots; checksums
      equal the RFC 1071 sum; addresses print and parse; timers run in order.

    ** Bounds and fuel

    Loops over linked structures take fuel: the number of records in memory
    bounds every acyclic walk ([list_fuel], the pbuf store likewise); the
    numbering of [netif_add] needs at most 257 turns ([num_fuel], 255 numbers);
    [ip4addr_aton] follows at most three dots ([aton_fuel]); the netmask loops
    see 32 bits ([mask_fuel]); [sys_check_timeouts] makes at most two calls per
    timer; [netif_poll] needs as many turns as the packets that wait stand for
    work, where [LoopConsumer] bounds it (an assumption about the applications: two that
    answer each other for ever keep the loop running); [udp_new_port] makes at most 0x4000 turns
    ([port_fuel]); reassembly's loops go over the queued datagrams;
    [ip4_frag] sends at most 8192 fragments; [deliver_loop] and
    [refused_loop] offer at least a byte per turn and get one turn more than there
    are bytes, [sent_loop] one for each 64 KiB, [parseopt_loop] one for each
    option byte, [write_segs] as many as pbufs fit into the queue.  Each bound is proved sufficient by the theorem that the call
    returns, those of TCP by [refused_fuel], [deliver_fuel], [sent_fuel],
    [parseopt_fuel] and [write_fuel].

    ** What is not modelled

    Of TCP: opening and accepting connections, the lists of PCBs and
    the choice of the PCB for a segment (the model starts where a segment belongs
    to a connection).  IPv6 and its neighbour discovery, the sequential and
    the socket API (but [lwip_fcntl]), and of the tcpip thread all but posting
    [netif_poll]; the mutex of the registry (callbacks are atomic steps); the
    Java application; the ZeroTier core, which is not part of the repository. *)
From stdpp Require Export base list gmap.
From Stdlib Require Export ZArith Lia.

#[export] Set Default Proof Using "Type".
Open Scope Z_scope.

(** ** Machine integers

    A C integer of a given width is a [Z]; every cast or store of the source
    that truncates is written with one of these functions. *)
Declare Scope cint_scope.
Delimit Scope cint_scope with cint.
Open Scope cint_scope.

Definition u8 (z : Z) : Z := z mod 2 ^ 8.

Definition u16 (z : Z) : Z := z mod 2 ^ 16.

Definition u32 (z : Z) : Z := z mod 2 ^ 32.

Definition u64 (z : Z) : Z := z mod 2 ^ 64.

Definition s32 (z : Z) : Z := (z + 2 ^ 31) mod 2 ^ 32 - 2 ^ 31.

Notation "a .& b" := (Z.land a b) (at level 45, left associativity) : cint_scope.
Notation "a .| b" := (Z.lor a b) (at level 48, left associativity) : cint_scope.
Notation "a .>> n" := (Z.shiftr a n) (at level 42, left associativity) : cint_scope.
Notation "a .<< n" := (Z.shiftl a n) (at level 42, left associativity) : cint_scope.

Create HintDb cint.

Lemma u8_small z : 0 <= z < 256 -> u8 z = z.
Proof. intros; unfold u8; apply Z.mod_small; lia. Qed.

Lemma u16_small z : 0 <= z < 65536 -> u16 z = z.
Proof. intros; unfold u16; apply Z.mod_small; lia. Qed.

Lemma u32_small z : 0 <= z < 4294967296 -> u32 z = z.
Proof. intros; unfold u32; apply Z.mod_small; lia. Qed.

Lemma u64_small z : 0 <= z < 18446744073709551616 -> u64 z = z.
Proof. intros; unfold u64; apply Z.mod_small; lia. Qed.

Lemma u8_range z : 0 <= u8 z < 256.
Proof. apply (Z.mod_pos_bound z 256); lia. Qed.

Lemma u16_range z : 0 <= u16 z < 65536.
Proof. apply (Z.mod_pos_bound z 65536); lia. Qed.

Lemma u32_range z : 0 <= u32 z < 4294967296.
Proof. apply (Z.mod_pos_bound z 4294967296); lia. Qed.

Lemma u64_range z : 0 <= u64 z < 18446744073709551616.
Proof. apply (Z.mod_pos_bound z 18446744073709551616); lia. Qed.

#[export] Hint Resolve u8_range u16_range u32_range u64_range : cint.

(** Pose the range of every wrapped term in sight, then [lia]. *)
Ltac cint_ranges :=
  repeat match goal with
  | |- context [u8 ?z] => lazymatch goal with H : 0 <= u8 z < 256 |- _ => fail | _ => pose proof (u8_range z) end
  | |- context [u16 ?z] => lazymatch goal with H : 0 <= u16 z < 65536 |- _ => fail | _ => pose proof (u16_range z) end
  | |- context [u32 ?z] => lazymatch goal with H : 0 <= u32 z < 4294967296 |- _ => fail | _ => pose proof (u32_range z) end
  | _ : context [u8 ?z] |- _ => lazymatch goal with H : 0 <= u8 z < 256 |- _ => fail | _ => pose proof (u8_range z) end
  | _ : context [u16 ?z] |- _ => lazymatch goal with H : 0 <= u16 z < 65536 |- _ => fail | _ => pose proof (u16_range z) end
  | _ : context [u32 ?z] |- _ => lazymatch goal with H : 0 <= u32 z < 4294967296 |- _ => fail | _ => pose proof (u32_range z) end
  end.

Ltac clia := cint_ranges; lia.

(** Turn the boolean tests of the code into propositions. *)
Ltac zbool :=
  repeat match goal with
  | H : context [Z.eqb ?a ?b] |- _ => destruct (Z.eqb_spec a b)
  | H : context [Z.leb ?a ?b] |- _ => destruct (Z.leb_spec a b)
  | H : context [Z.ltb ?a ?b] |- _ => destruct (Z.ltb_spec a b)
  | |- context [Z.eqb ?a ?b] => destruct (Z.eqb_spec a b)
  | |- context [Z.leb ?a ?b] => destruct (Z.leb_spec a b)
  | |- context [Z.ltb ?a ?b] => destruct (Z.ltb_spec a b)
  end; try lia.

(** Step through an [option] computation in a hypothesis. *)
Ltac inv_opt :=
  repeat match goal with
  | H : Some _ = Some _ |- _ => injection H; clear H; intros; subst
  | H : None = Some _ |- _ => discriminate H
  | H : Some _ = None |- _ => discriminate H
  | H : (?m ≫= ?f) = Some _ |- _ =>
      let E := fresh "E" in destruct m eqn:E; cbn in H; [|discriminate H]
  end.

(** ** Byte buffers

    A C buffer is the list of its bytes.  Lengths are [Z], as the code's
    counters are.  Reading or writing outside of the buffer is undefined
    behaviour in C; the accessors return [None] there. *)
Definition byte_ok (b : Z) : Prop := 0 <= b < 256.

Definition bytes_ok (l : list Z) : Prop := Forall byte_ok l.

#[global] Instance byte_ok_dec b : Decision (byte_ok b) := _.

Definition zlen {A} (l : list A) : Z := Z.of_nat (length l).

Definition ztake {A} (n : Z) (l : list A) : list A := take (Z.to_nat n) l.

Definition zdrop {A} (n : Z) (l : list A) : list A := drop (Z.to_nat n) l.

(** [memcpy] out of a buffer: [n] bytes at offset [o]. *)
Definition mem_read (m : list Z) (o n : Z) : option (list Z) :=
  if (0 <=? o) && (0 <=? n) && (o + n <=? zlen m)
  then Some (ztake n (zdrop o m)) else None.

(** [memcpy] into a buffer: the bytes [bs] at offset [o]. *)
Definition mem_write (m : list Z) (o : Z) (bs : list Z) : option (list Z) :=
  if (0 <=? o) && (o + zlen bs <=? zlen m)
  then Some (ztake o m ++ bs ++ zdrop (o + zlen bs) m) else None.

Lemma zlen_nonneg {A} (l : list A) : 0 <= zlen l.
Proof. unfold zlen; lia. Qed.

#[export] Hint Resolve zlen_nonneg : cint.

Lemma zlen_app {A} (l k : list A) : zlen (l ++ k) = zlen l + zlen k.
Proof. unfold zlen; rewrite length_app; lia. Qed.

Lemma zlen_cons {A} (x : A) l : zlen (x :: l) = 1 + zlen l.
Proof. unfold zlen; cbn [length]; lia. Qed.

Lemma zlen_nil {A} : zlen (@nil A) = 0.
Proof. done. Qed.

Lemma zlen_ztake {A} n (l : list A) : 0 <= n <= zlen l -> zlen (ztake n l) = n.
Proof. unfold zlen, ztake; rewrite length_take; lia. Qed.

Lemma zlen_ztake_gen {A} n (l : list A) : zlen (ztake n l) = Z.max 0 (Z.min n (zlen l)).
Proof. unfold zlen, ztake; rewrite length_take; lia. Qed.

Lemma zlen_zdrop {A} n (l : list A) : zlen (zdrop n l) = Z.max 0 (zlen l - Z.max 0 n).
Proof. unfold zlen, zdrop; rewrite length_drop; lia. Qed.

Lemma zlen_map {A B} (f : A -> B) l : zlen (map f l) = zlen l.
Proof. unfold zlen; by rewrite length_map. Qed.

Lemma zlen_replicate {A} n (x : A) : 0 <= n -> zlen (replicate (Z.to_nat n) x) = n.
Proof. unfold zlen; rewrite length_replicate; lia. Qed.

Lemma zlen_resize {A} n (x : A) l : 0 <= n -> zlen (resize (Z.to_nat n) x l) = n.
Proof. unfold zlen; rewrite length_resize; lia. Qed.

Lemma zlen_zero_nil {A} (l : list A) : zlen l = 0 -> l = [].
Proof. destruct l; [done|rewrite zlen_cons]; pose proof (zlen_nonneg l); lia. Qed.

Create Rewrite HintDb zlen.

#[export] Hint Rewrite @zlen_app @zlen_cons @zlen_nil @zlen_map @zlen_ztake_gen @zlen_zdrop : zlen.

Lemma ztake_zdrop {A} n (l : list A) : ztake n l ++ zdrop n l = l.
Proof. apply take_drop. Qed.

Lemma ztake_0 {A} (l : list A) : ztake 0 l = [].
Proof. done. Qed.

Lemma zdrop_0 {A} (l : list A) : zdrop 0 l = l.
Proof. done. Qed.

Lemma ztake_neg {A} n (l : list A) : n <= 0 -> ztake n l = [].
Proof. intros; unfold ztake; by replace (Z.to_nat n) with 0%nat by lia. Qed.

Lemma ztake_ge {A} n (l : list A) : zlen l <= n -> ztake n l = l.
Proof. unfold zlen, ztake; intros; apply take_ge; lia. Qed.

Lemma zdrop_ge {A} n (l : list A) : zlen l <= n -> zdrop n l = [].
Proof. unfold zlen, zdrop; intros; apply drop_ge; lia. Qed.

Lemma ztake_app_le {A} n (l k : list A) : n <= zlen l -> ztake n (l ++ k) = ztake n l.
Proof. unfold zlen, ztake; intros; apply take_app_le; lia. Qed.

Lemma ztake_app_ge {A} n (l k : list A) :
  zlen l <= n -> ztake n (l ++ k) = l ++ ztake (n - zlen l) k.
Proof.
  unfold zlen, ztake; intros; rewrite take_app_ge by lia; do 2 f_equal; lia.
Qed.

Lemma zdrop_app_le {A} n (l k : list A) : n <= zlen l -> zdrop n (l ++ k) = zdrop n l ++ k.
Proof. unfold zlen, zdrop; intros; apply drop_app_le; lia. Qed.

Lemma zdrop_app_ge {A} n (l k : list A) : zlen l <= n -> zdrop n (l ++ k) = zdrop (n - zlen l) k.
Proof. unfold zlen, zdrop; intros; rewrite drop_app_ge by lia; f_equal; lia. Qed.

Lemma ztake_ztake {A} n m (l : list A) : ztake n (ztake m l) = ztake (Z.min n m) l.
Proof. unfold ztake; rewrite take_take; f_equal; lia. Qed.

Lemma zdrop_zdrop {A} n m (l : list A) : 0 <= n -> 0 <= m -> zdrop n (zdrop m l) = zdrop (n + m) l.
Proof. intros; unfold zdrop; rewrite drop_drop; f_equal; lia. Qed.

Lemma zdrop_ztake {A} n m (l : list A) :
  0 <= n <= m -> zdrop n (ztake m l) = ztake (m - n) (zdrop n l).
Proof. intros; unfold zdrop, ztake; rewrite skipn_firstn_comm; f_equal; lia. Qed.

Lemma ztake_zdrop_split {A} n m (l : list A) :
  0 <= n -> 0 <= m -> ztake (n + m) l = ztake n l ++ ztake m (zdrop n l).
Proof.
  intros; unfold ztake, zdrop; rewrite take_take_drop; f_equal; lia.
Qed.

Lemma mem_read_spec m o n :
  0 <= o -> 0 <= n -> o + n <= zlen m -> mem_read m o n = Some (ztake n (zdrop o m)).
Proof. intros; unfold mem_read; zbool; done. Qed.

Lemma mem_write_spec m o bs :
  0 <= o -> o + zlen bs <= zlen m ->
  mem_write m o bs = Some (ztake o m ++ bs ++ zdrop (o + zlen bs) m).
Proof. intros; unfold mem_write; zbool; done. Qed.

Lemma mem_write_len m o bs m' : mem_write m o bs = Some m' -> zlen m' = zlen m.
Proof.
  unfold mem_write; intros H; destruct (_ && _) eqn:E; [|done]; inv_opt.
  apply andb_true_iff in E as [E1 E2]; pose proof (zlen_nonneg bs).
  autorewrite with zlen; lia.
Qed.

(** Taking and dropping past a written region. *)
Lemma ztake_write {A} o n (m x : list A) :
  0 <= o -> zlen x = n -> o + n <= zlen m ->
  ztake (o + n) (ztake o m ++ x ++ zdrop (o + n) m) = ztake o m ++ x.
Proof.
  intros ? Hx ?; pose proof (zlen_nonneg x).
  rewrite app_assoc, ztake_app_le, ztake_ge; [done|..];
    rewrite zlen_app, zlen_ztake by lia; lia.
Qed.

Lemma zdrop_write {A} o n k (m x : list A) :
  0 <= o -> 0 <= k -> zlen x = n -> o + n <= zlen m ->
  zdrop (o + n + k) (ztake o m ++ x ++ zdrop (o + n) m) = zdrop (o + n + k) m.
Proof.
  intros ? ? Hx ?; pose proof (zlen_nonneg x).
  rewrite app_assoc, zdrop_app_ge by (rewrite zlen_app, zlen_ztake by lia; lia).
  rewrite zlen_app, zlen_ztake by lia.
  rewrite zdrop_zdrop by lia; f_equal; lia.
Qed.

Lemma bytes_ok_app l k : bytes_ok (l ++ k) <-> bytes_ok l /\ bytes_ok k.
Proof. apply Forall_app. Qed.

Lemma bytes_ok_ztake n l : bytes_ok l -> bytes_ok (ztake n l).
Proof. apply Forall_take. Qed.

Lemma bytes_ok_zdrop n l : bytes_ok l -> bytes_ok (zdrop n l).
Proof. apply Forall_drop. Qed.

#[export] Hint Resolve bytes_ok_ztake bytes_ok_zdrop : cint.
