(* ===== verification/Bits.v ===== *)
(** Bit-level lemmas shared by the components: masks and shifts of the source
    as [mod], [/] and [*], so that [lia] can finish. *)
From S2P Require Import Prelude.

Lemma land_mask k z m : 0 <= k -> m = 2 ^ k - 1 -> z .& m = z mod 2 ^ k.
Proof. intros ? ->; replace (2 ^ k - 1) with (Z.ones k) by (rewrite Z.ones_equiv; lia). by apply Z.land_ones. Qed.

Lemma land_255 z : z .& 255 = z mod 256.
Proof. by apply (land_mask 8). Qed.

Lemma land_65535 z : z .& 65535 = z mod 65536.
Proof. by apply (land_mask 16). Qed.

Lemma shr_div z k : 0 <= k -> z .>> k = z / 2 ^ k.
Proof. apply Z.shiftr_div_pow2. Qed.

Lemma shl_mul z k : 0 <= k -> z .<< k = z * 2 ^ k.
Proof. apply Z.shiftl_mul_pow2. Qed.

(** A field below bit [k] and a field at bit [k] do not overlap. *)
Lemma land_low_high a b k : 0 <= k -> 0 <= a < 2 ^ k -> a .& (b .<< k) = 0.
Proof.
  intros Hk Ha; apply Z.bits_inj'; intros n Hn; rewrite Z.land_spec, Z.bits_0.
  destruct (Z.lt_ge_cases n k).
  - by rewrite (Z.shiftl_spec_low b) by lia; rewrite andb_false_r.
  - destruct (Z.eq_dec a 0) as [->|]; [by rewrite Z.bits_0|].
    rewrite Z.bits_above_log2; [done|lia|].
    apply Z.log2_lt_pow2; [lia|]. apply Z.lt_le_trans with (2 ^ k); [lia|].
    by apply Z.pow_le_mono_r; lia.
Qed.

Lemma lor_add_shl a b k : 0 <= k -> 0 <= a < 2 ^ k -> a .| (b .<< k) = a + b * 2 ^ k.
Proof.
  intros. rewrite <- Z.lxor_lor by by apply land_low_high.
  rewrite <- Z.add_nocarry_lxor by by apply land_low_high.
  by rewrite shl_mul.
Qed.

Lemma lor_shl_add a b k : 0 <= k -> 0 <= a < 2 ^ k -> (b .<< k) .| a = b * 2 ^ k + a.
Proof. intros; rewrite Z.lor_comm, lor_add_shl by done; lia. Qed.

(** A mask that selects bits [k .. k+w-1] commutes with the shift down. *)
Lemma land_field z k w m :
  0 <= k -> 0 <= w -> m = Z.ones w .<< k -> (z .& m) = ((z / 2 ^ k) mod 2 ^ w) * 2 ^ k.
Proof.
  intros ? ? ->.
  rewrite <- Z.land_ones, <- shr_div, <- shl_mul by done.
  apply Z.bits_inj'; intros n Hn. rewrite Z.land_spec.
  destruct (Z.lt_ge_cases n k).
  - rewrite !(Z.shiftl_spec_low _ k n) by lia; by rewrite andb_false_r.
  - rewrite !Z.shiftl_spec by lia. rewrite Z.land_spec, Z.shiftr_spec by lia.
    do 2 f_equal; lia.
Qed.

Lemma testbit_land_pow z k : 0 <= k -> (z .& 2 ^ k =? 0) = negb (Z.testbit z k).
Proof.
  intros Hk. rewrite (land_field z k 1) by (try rewrite shl_mul by lia; change (Z.ones 1) with 1; lia).
  change (2 ^ 1) with 2.
  assert (0 < 2 ^ k) by (apply Z.pow_pos_nonneg; lia).
  pose proof (Z.mod_pos_bound (z / 2 ^ k) 2).
  pose proof (Z.testbit_true z k Hk) as [T1 T2].
  destruct (Z.testbit z k) eqn:T; destruct (Z.eqb_spec ((z / 2 ^ k) mod 2 * 2 ^ k) 0) as [E|E]; try done.
  - specialize (T1 eq_refl); nia.
  - exfalso; apply E. destruct (Z.eq_dec ((z / 2 ^ k) mod 2) 1) as [F|F]; [specialize (T2 F); done|nia].
Qed.

(** Little-endian bytes of a 16/32-bit value. *)
Definition byte_of (z i : Z) : Z := (z / 2 ^ (8 * i)) mod 256.

Lemma byte_of_range z i : 0 <= byte_of z i < 256.
Proof. apply Z.mod_pos_bound; lia. Qed.

Lemma byte_of_ok z i : byte_ok (byte_of z i).
Proof. apply byte_of_range. Qed.

#[export] Hint Resolve byte_of_range byte_of_ok : cint.

Ltac zdm := Z.to_euclidean_division_equations.

Lemma bytes_of_u16 z : 0 <= z < 65536 -> z = byte_of z 0 + 256 * byte_of z 1.
Proof. intros; unfold byte_of; cbn -[Z.div Z.modulo]; change (2 ^ 8) with 256; zdm; lia. Qed.

Lemma bytes_of_u32 z :
  0 <= z < 4294967296 ->
  z = byte_of z 0 + 256 * byte_of z 1 + 65536 * byte_of z 2 + 16777216 * byte_of z 3.
Proof.
  intros; unfold byte_of. change (8 * 0) with 0; change (8 * 1) with 8; change (8 * 2) with 16; change (8 * 3) with 24.
  change (2 ^ 0) with 1; change (2 ^ 8) with 256; change (2 ^ 16) with 65536; change (2 ^ 24) with 16777216.
  zdm; lia.
Qed.
