(* ===== verification/Pbuf.v ===== *)
(** Packet buffers: the data model and every operation of
    [externals/lwip/src/core/pbuf.c], over an explicit store of pbufs.

    A pbuf is identified by its address.  The store maps live addresses to
    the fields of [struct pbuf] together with the memory block its payload
    pointer points into; a freed pbuf has no entry.  Dereferencing NULL or a
    freed pbuf, and copying outside of a memory block, is undefined behaviour
    in C and makes an operation return [None]. *)
From S2P Require Import Prelude.

(** ** Constants ([pbuf.h], [err.h], and the configuration of [lwipopts.h]) *)
Definition PBUF_TYPE_FLAG_STRUCT_DATA_CONTIGUOUS := 0x80.
Definition PBUF_TYPE_FLAG_DATA_VOLATILE := 0x40.
Definition PBUF_TYPE_ALLOC_SRC_MASK := 0x0F.
Definition SRC_STD_HEAP := 0x00.
Definition SRC_STD_MEMP_PBUF := 0x01.
Definition SRC_STD_MEMP_PBUF_POOL := 0x02.

(** [pbuf_type]: allocation flags, payload flags and allocation source. *)
Definition PBUF_RAM := 0x0280.
Definition PBUF_ROM := 0x0001.
Definition PBUF_REF := 0x0041.
Definition PBUF_POOL := 0x0182.

Definition PBUF_FLAG_IS_CUSTOM := 0x02.
Definition PBUF_FLAG_LLBCAST := 0x08.
Definition PBUF_FLAG_LLMCAST := 0x10.
Definition PBUF_FLAG_TCP_FIN := 0x20.

(** [pbuf_layer], with [LWIP_IPV6] on and no link encapsulation. *)
Definition PBUF_TRANSPORT := 74.
Definition PBUF_IP := 54.
Definition PBUF_LINK := 14.
Definition PBUF_RAW_TX := 0.
Definition PBUF_RAW := 0.

Definition NETIF_NO_INDEX := 0.

Definition ERR_OK := 0.
Definition ERR_MEM := -1.
Definition ERR_BUF := -2.
Definition ERR_TIMEOUT := -3.
Definition ERR_RTE := -4.
Definition ERR_VAL := -6.
Definition ERR_IF := -12.
Definition ERR_ARG := -16.

(** [LWIP_MEM_ALIGN_SIZE] with [MEM_ALIGNMENT = 4]. *)
Definition align4 (n : Z) : Z := (n + 3) .& Z.lnot 3.

(** [PBUF_POOL_BUFSIZE_ALIGNED]: [align4 (TCP_MSS + 40 + 0 + 14)], [TCP_MSS = 1460]. *)
Definition PBUF_POOL_BUFSIZE_ALIGNED := 1516.

(** [LWIP_MEM_ALIGN_SIZE(sizeof(struct pbuf))] on an LP64 target. *)
Definition SIZEOF_STRUCT_PBUF := 24.

(** ** The pbuf store *)
Definition addr := positive.

(** [struct pbuf].  [pb_mem] is the memory the payload pointer points into
    (the block behind the struct, or the referenced buffer), [pb_payload] the
    payload pointer as an offset in it. *)
Record pbuf := Pbuf {
  pb_next : option addr;
  pb_mem : list Z;
  pb_payload : Z;
  pb_tot_len : Z;
  pb_len : Z;
  pb_type : Z;
  pb_flags : Z;
  pb_ref : Z;
  pb_if_idx : Z;
}.

(** The store of live pbufs, the allocator and the state of the
    out-of-sequence reclaim request.  [h_orc] decides what the C library's
    [malloc] answers: [None] for NULL, [Some c] for a block that happens to
    hold the bytes [c]; an exhausted list answers NULL. *)
Record heap := Heap {
  h_pbufs : gmap addr pbuf;
  h_next : addr;
  h_orc : list (option (list Z));
  h_ooseq_pending : bool;
  h_try_callback : list bool;
}.

Definition get (h : heap) (p : addr) : option pbuf := h_pbufs h !! p.

Definition put (h : heap) (p : addr) (b : pbuf) : heap :=
  Heap (<[p := b]> (h_pbufs h)) (h_next h) (h_orc h) (h_ooseq_pending h) (h_try_callback h).

Definition del (h : heap) (p : addr) : heap :=
  Heap (delete p (h_pbufs h)) (h_next h) (h_orc h) (h_ooseq_pending h) (h_try_callback h).

Definition set_next (n : option addr) (b : pbuf) : pbuf :=
  Pbuf n (pb_mem b) (pb_payload b) (pb_tot_len b) (pb_len b) (pb_type b) (pb_flags b) (pb_ref b) (pb_if_idx b).

Definition set_tot_len (t : Z) (b : pbuf) : pbuf :=
  Pbuf (pb_next b) (pb_mem b) (pb_payload b) t (pb_len b) (pb_type b) (pb_flags b) (pb_ref b) (pb_if_idx b).

Definition set_len (l : Z) (b : pbuf) : pbuf :=
  Pbuf (pb_next b) (pb_mem b) (pb_payload b) (pb_tot_len b) l (pb_type b) (pb_flags b) (pb_ref b) (pb_if_idx b).

Definition set_ref (r : Z) (b : pbuf) : pbuf :=
  Pbuf (pb_next b) (pb_mem b) (pb_payload b) (pb_tot_len b) (pb_len b) (pb_type b) (pb_flags b) r (pb_if_idx b).

Definition set_flags (f : Z) (b : pbuf) : pbuf :=
  Pbuf (pb_next b) (pb_mem b) (pb_payload b) (pb_tot_len b) (pb_len b) (pb_type b) f (pb_ref b) (pb_if_idx b).

Definition set_mem (m : list Z) (b : pbuf) : pbuf :=
  Pbuf (pb_next b) m (pb_payload b) (pb_tot_len b) (pb_len b) (pb_type b) (pb_flags b) (pb_ref b) (pb_if_idx b).

Definition set_if_idx (i : Z) (b : pbuf) : pbuf :=
  Pbuf (pb_next b) (pb_mem b) (pb_payload b) (pb_tot_len b) (pb_len b) (pb_type b) (pb_flags b) (pb_ref b) i.

(** The payload pointer moved to [o], with both lengths. *)
Definition set_payload (o l t : Z) (b : pbuf) : pbuf :=
  Pbuf (pb_next b) (pb_mem b) o t l (pb_type b) (pb_flags b) (pb_ref b) (pb_if_idx b).

(** [mem_malloc]/[memp_malloc] of a block with [size] bytes behind the pbuf
    struct (both are [malloc] in this configuration, see [lwipopts.h]). *)
Definition mem_malloc (size : Z) (h : heap) : option (addr * list Z) * heap :=
  match h_orc h with
  | [] => (None, h)
  | None :: o => (None, Heap (h_pbufs h) (h_next h) o (h_ooseq_pending h) (h_try_callback h))
  | Some c :: o =>
      (Some (h_next h, resize (Z.to_nat size) 0 c),
       Heap (h_pbufs h) (Pos.succ (h_next h)) o (h_ooseq_pending h) (h_try_callback h))
  end.

(** [tcpip_try_callback(pbuf_free_ooseq_callback, NULL) == ERR_OK]. *)
Definition try_callback (h : heap) : bool * heap :=
  match h_try_callback h with
  | [] => (false, h)
  | r :: rs => (r, Heap (h_pbufs h) (h_next h) (h_orc h) (h_ooseq_pending h) rs)
  end.

Definition set_ooseq_pending (v : bool) (h : heap) : heap :=
  Heap (h_pbufs h) (h_next h) (h_orc h) v (h_try_callback h).

Definition pbuf_pool_is_empty (h : heap) : heap :=
  let queued := h_ooseq_pending h in
  let h := set_ooseq_pending true h in
  if negb queued then
    let '(ok, h) := try_callback h in
    if negb ok then set_ooseq_pending false h else h
  else h.

(** Loops over a chain visit each live pbuf at most once. *)
Definition chain_fuel (h : heap) : nat := S (size (h_pbufs h)).

Definition pbuf_get_allocsrc (b : pbuf) : Z := pb_type b .& PBUF_TYPE_ALLOC_SRC_MASK.

Definition pbuf_init_alloced_pbuf (mem : list Z) (payload tot_len len type flags : Z) : pbuf :=
  Pbuf None mem payload tot_len len (u8 type) flags 1 NETIF_NO_INDEX.

Section ops.
  (** The [custom_free_function] pointer of a [struct pbuf_custom]. *)
  Context (custom_free : addr -> heap -> option heap).

(** *** Reference counting *)

(** One turn of the deallocation in [pbuf_free]: the pbuf's memory goes back
    to where it came from. *)
Definition pbuf_dealloc (p : addr) (b : pbuf) (h : heap) : option heap :=
  let alloc_src := pbuf_get_allocsrc b in
  if negb (pb_flags b .& PBUF_FLAG_IS_CUSTOM =? 0) then custom_free p h
  else if alloc_src =? SRC_STD_MEMP_PBUF_POOL then Some (del h p)
  else if alloc_src =? SRC_STD_MEMP_PBUF then Some (del h p)
  else if alloc_src =? SRC_STD_HEAP then Some (del h p)
  else Some h.

Fixpoint pbuf_free_loop (fuel : nat) (p : option addr) (count : Z) (h : heap)
    : option (Z * heap) :=
  match p, fuel with
  | None, _ => Some (count, h)
  | Some _, O => None
  | Some a, S fuel =>
      b ← get h a;
      let ref := u8 (pb_ref b - 1) in
      let h := put h a (set_ref ref b) in
      if ref =? 0 then
        let q := pb_next b in
        h ← pbuf_dealloc a b h;
        pbuf_free_loop fuel q (u8 (count + 1)) h
      else Some (count, h)
  end.

Definition pbuf_free (p : option addr) (h : heap) : option (Z * heap) :=
  pbuf_free_loop (chain_fuel h) p 0 h.

Definition pbuf_ref (p : option addr) (h : heap) : option heap :=
  match p with
  | None => Some h
  | Some a => b ← get h a; Some (put h a (set_ref (u8 (pb_ref b + 1)) b))
  end.

Fixpoint pbuf_clen_loop (fuel : nat) (p : option addr) (len : Z) (h : heap) : option Z :=
  match p, fuel with
  | None, _ => Some len
  | Some _, O => None
  | Some a, S fuel => b ← get h a; pbuf_clen_loop fuel (pb_next b) (u16 (len + 1)) h
  end.

Definition pbuf_clen (p : option addr) (h : heap) : option Z :=
  pbuf_clen_loop (chain_fuel h) p 0 h.

(** *** Allocation *)

Definition pbuf_alloc_reference (payload : option (list Z * Z)) (length type : Z) (h : heap)
    : option addr * heap :=
  let '(r, h) := mem_malloc 0 h in
  match r with
  | None => (None, h)
  | Some (p, _) =>
      let '(mem, off) := default ([], 0) payload in
      (Some p, put h p (pbuf_init_alloced_pbuf mem off length length type 0))
  end.

(** [q] becomes the head of the chain, or the successor of [last]. *)
Definition pbuf_pool_link (p last : option addr) (q : addr) (h : heap) : option (option addr * heap) :=
  match p with
  | None => Some (Some q, h)
  | Some _ => l ← last; lb ← get h l; Some (p, put h l (set_next (Some q) lb))
  end.

(** The [do ... while (rem_len > 0)] of the PBUF_POOL case. *)
Fixpoint pbuf_alloc_pool (fuel : nat) (p last : option addr) (rem_len offset : Z) (h : heap)
    : option (option addr * heap) :=
  match fuel with
  | O => None
  | S fuel =>
      let '(r, h) := mem_malloc PBUF_POOL_BUFSIZE_ALIGNED h in
      match r with
      | None =>
          let h := pbuf_pool_is_empty h in
          match p with
          | Some _ => '(_, h) ← pbuf_free p h; Some (None, h)
          | None => Some (None, h)
          end
      | Some (q, mem) =>
          let qlen := Z.min rem_len (u16 (PBUF_POOL_BUFSIZE_ALIGNED - align4 offset)) in
          let h := put h q (pbuf_init_alloced_pbuf mem (align4 offset) rem_len qlen PBUF_POOL 0) in
          '(p, h) ← pbuf_pool_link p last q h;
          let rem_len := u16 (rem_len - qlen) in
          if 0 <? rem_len then pbuf_alloc_pool fuel p (Some q) rem_len 0 h
          else Some (p, h)
      end
  end.

Definition pbuf_alloc (layer length type : Z) (h : heap) : option (option addr * heap) :=
  let offset := u16 layer in
  if (type =? PBUF_REF) || (type =? PBUF_ROM) then
    Some (pbuf_alloc_reference None length type h)
  else if type =? PBUF_POOL then
    pbuf_alloc_pool (S (Z.to_nat length)) None None length offset h
  else if type =? PBUF_RAM then
    let payload_len := u16 (align4 offset + align4 length) in
    let alloc_len := u64 (align4 SIZEOF_STRUCT_PBUF + payload_len) in
    if (payload_len <? align4 length) || (alloc_len <? align4 length) then Some (None, h)
    else
      let '(r, h) := mem_malloc payload_len h in
      match r with
      | None => Some (None, h)
      | Some (p, mem) =>
          Some (Some p,
                put h p (pbuf_init_alloced_pbuf mem (align4 offset) length length type 0))
      end
  else Some (None, h).

(** [p] is the address of the caller's [struct pbuf_custom]. *)
Definition pbuf_alloced_custom (l length type : Z) (p : addr) (payload_mem : option (list Z))
    (payload_mem_len : Z) (h : heap) : option addr * heap :=
  let offset := u16 l in
  if payload_mem_len <? align4 offset + length then (None, h)
  else
    let '(mem, payload) :=
      match payload_mem with
      | Some m => (m, align4 offset)
      | None => ([], 0)
      end in
    (Some p, put h p (pbuf_init_alloced_pbuf mem payload length length type PBUF_FLAG_IS_CUSTOM)).

(** *** Lengths and headers *)

(** Step over the pbufs that stay whole; returns the new last pbuf and its
    remaining length. *)
Fixpoint pbuf_realloc_loop (fuel : nat) (q : addr) (rem_len shrink : Z) (h : heap)
    : option (addr * Z * heap) :=
  match fuel with
  | O => None
  | S fuel =>
      b ← get h q;
      if pb_len b <? rem_len then
        let h := put h q (set_tot_len (u16 (pb_tot_len b - shrink)) b) in
        n ← pb_next b;
        pbuf_realloc_loop fuel n (u16 (rem_len - pb_len b)) shrink h
      else Some (q, rem_len, h)
  end.

(** [mem_trim] returns its argument in this configuration, so the heap case
    of the source leaves the block alone. *)
Definition pbuf_realloc (p : addr) (new_len : Z) (h : heap) : option heap :=
  b ← get h p;
  if pb_tot_len b <=? new_len then Some h
  else
    let shrink := u16 (pb_tot_len b - new_len) in
    '(q, rem_len, h) ← pbuf_realloc_loop (chain_fuel h) p new_len shrink h;
    qb ← get h q;
    let h := put h q (set_tot_len rem_len (set_len rem_len qb)) in
    h ← match pb_next qb with
        | Some _ => '(_, h) ← pbuf_free (pb_next qb) h; Some h
        | None => Some h
        end;
    qb ← get h q;
    Some (put h q (set_next None qb)).

Definition pbuf_add_header_impl (p : option addr) (inc : Z) (force : bool) (h : heap)
    : option (Z * heap) :=
  match p with
  | None => Some (1, h)
  | Some a =>
      if 0xFFFF <? inc then Some (1, h)
      else if inc =? 0 then Some (0, h)
      else
        b ← get h a;
        let increment_magnitude := u16 inc in
        if u16 (increment_magnitude + pb_tot_len b) <? increment_magnitude then Some (1, h)
        else
          let moved :=
            Some (0, put h a (set_payload (pb_payload b - inc)
                                (u16 (pb_len b + increment_magnitude))
                                (u16 (pb_tot_len b + increment_magnitude)) b)) in
          if negb (pb_type b .& PBUF_TYPE_FLAG_STRUCT_DATA_CONTIGUOUS =? 0) then
            if pb_payload b - inc <? 0 then Some (1, h) else moved
          else if force then moved else Some (1, h)
  end.

Definition pbuf_add_header (p : option addr) (inc : Z) (h : heap) : option (Z * heap) :=
  pbuf_add_header_impl p inc false h.

Definition pbuf_add_header_force (p : option addr) (inc : Z) (h : heap) : option (Z * heap) :=
  pbuf_add_header_impl p inc true h.

Definition pbuf_remove_header (p : option addr) (dec : Z) (h : heap) : option (Z * heap) :=
  match p with
  | None => Some (1, h)
  | Some a =>
      if 0xFFFF <? dec then Some (1, h)
      else if dec =? 0 then Some (0, h)
      else
        b ← get h a;
        let increment_magnitude := u16 dec in
        if pb_len b <? increment_magnitude then Some (1, h)
        else Some (0, put h a (set_payload (pb_payload b + dec)
                                 (u16 (pb_len b - increment_magnitude))
                                 (u16 (pb_tot_len b - increment_magnitude)) b))
  end.

Definition pbuf_header_impl (p : option addr) (inc : Z) (force : bool) (h : heap)
    : option (Z * heap) :=
  if inc <? 0 then pbuf_remove_header p (- inc) h
  else pbuf_add_header_impl p inc force h.

Definition pbuf_header (p : option addr) (inc : Z) (h : heap) : option (Z * heap) :=
  pbuf_header_impl p inc false h.

Definition pbuf_header_force (p : option addr) (inc : Z) (h : heap) : option (Z * heap) :=
  pbuf_header_impl p inc true h.

Fixpoint pbuf_free_header_loop (fuel : nat) (p : option addr) (free_left : Z) (h : heap)
    : option (option addr * heap) :=
  match p with
  | None => Some (None, h)
  | Some a =>
      if free_left =? 0 then Some (p, h)
      else match fuel with
      | O => None
      | S fuel =>
          b ← get h a;
          if pb_len b <=? free_left then
            let h := put h a (set_next None b) in
            '(_, h) ← pbuf_free (Some a) h;
            pbuf_free_header_loop fuel (pb_next b) (u16 (free_left - pb_len b)) h
          else
            '(_, h) ← pbuf_remove_header p free_left h;
            pbuf_free_header_loop fuel p 0 h
      end
  end.

Definition pbuf_free_header (q : option addr) (size : Z) (h : heap)
    : option (option addr * heap) :=
  pbuf_free_header_loop (chain_fuel h) q size h.

(** *** Chains *)

(** The [for] loop of [pbuf_cat]: add [t_tot] to every total up to the last
    pbuf of the chain, which is returned untouched. *)
Fixpoint pbuf_cat_loop (fuel : nat) (p : addr) (t : addr) (h : heap) : option (addr * heap) :=
  match fuel with
  | O => None
  | S fuel =>
      b ← get h p;
      match pb_next b with
      | None => Some (p, h)
      | Some n =>
          tb ← get h t;
          pbuf_cat_loop fuel n t (put h p (set_tot_len (u16 (pb_tot_len b + pb_tot_len tb)) b))
      end
  end.

Definition pbuf_cat (hd t : option addr) (h : heap) : option heap :=
  match hd, t with
  | Some hd, Some t =>
      '(p, h) ← pbuf_cat_loop (chain_fuel h) hd t h;
      tb ← get h t;
      b ← get h p;
      Some (put h p (set_next (Some t) (set_tot_len (u16 (pb_tot_len b + pb_tot_len tb)) b)))
  | _, _ => Some h
  end.

Definition pbuf_chain (hd t : option addr) (h : heap) : option heap :=
  h ← pbuf_cat hd t h;
  pbuf_ref t h.

Definition pbuf_dechain (p : addr) (h : heap) : option (option addr * heap) :=
  b ← get h p;
  match pb_next b with
  | Some q =>
      qb ← get h q;
      let h := put h q (set_tot_len (u16 (pb_tot_len b - pb_len b)) qb) in
      b ← get h p;
      let h := put h p (set_tot_len (pb_len b) (set_next None b)) in
      '(tail_gone, h) ← pbuf_free (Some q) h;
      Some ((if 0 <? tail_gone then None else Some q), h)
  | None => Some (None, h)
  end.

End ops.
