(* ===== verification/PbufData.v ===== *)
(** Packet buffers, second part: the operations of
    [externals/lwip/src/core/pbuf.c] that read and write payload bytes. *)
From S2P Require Import Prelude Pbuf.

(** [memcpy] from and to a pbuf's payload, at an offset of the payload
    pointer. *)
Definition payload_read (b : pbuf) (o n : Z) : option (list Z) :=
  mem_read (pb_mem b) (pb_payload b + o) n.

Definition payload_write (b : pbuf) (o : Z) (bs : list Z) : option pbuf :=
  m ← mem_write (pb_mem b) (pb_payload b + o) bs;
  Some (set_mem m b).

(** *** Positions in a chain *)
Fixpoint pbuf_skip_loop (fuel : nat) (q : option addr) (offset_left : Z) (h : heap)
    : option (option addr * Z) :=
  match q, fuel with
  | None, _ => Some (None, offset_left)
  | Some _, O => None
  | Some a, S fuel =>
      b ← get h a;
      if pb_len b <=? offset_left
      then pbuf_skip_loop fuel (pb_next b) (u16 (offset_left - pb_len b)) h
      else Some (Some a, offset_left)
  end.

Definition pbuf_skip_const (q : option addr) (in_offset : Z) (h : heap) : option (option addr * Z) :=
  pbuf_skip_loop (chain_fuel h) q in_offset h.

Definition pbuf_skip (q : option addr) (in_offset : Z) (h : heap) : option (option addr * Z) :=
  pbuf_skip_const q in_offset h.

(** *** Single bytes *)
Definition pbuf_try_get_at (p : option addr) (offset : Z) (h : heap) : option Z :=
  '(q, q_idx) ← pbuf_skip_const p offset h;
  match q with
  | Some a =>
      b ← get h a;
      if q_idx <? pb_len b
      then bs ← payload_read b q_idx 1; head bs
      else Some (-1)
  | None => Some (-1)
  end.

Definition pbuf_get_at (p : option addr) (offset : Z) (h : heap) : option Z :=
  ret ← pbuf_try_get_at p offset h;
  Some (if 0 <=? ret then u8 ret else 0).

Definition pbuf_put_at (p : option addr) (offset data : Z) (h : heap) : option heap :=
  '(q, q_idx) ← pbuf_skip p offset h;
  match q with
  | Some a =>
      b ← get h a;
      if q_idx <? pb_len b
      then b ← payload_write b q_idx [u8 data]; Some (put h a b)
      else Some h
  | None => Some h
  end.

(** *** Copying out *)

(** The loop of [pbuf_copy_partial]; [dst] is the application's buffer and
    [left] the write position in it. *)
Fixpoint pbuf_copy_partial_loop (fuel : nat) (p : option addr) (dst : list Z)
    (left len offset copied_total : Z) (h : heap) : option (Z * list Z) :=
  if len =? 0 then Some (copied_total, dst)
  else match p, fuel with
  | None, _ => Some (copied_total, dst)
  | Some _, O => None
  | Some a, S fuel =>
      b ← get h a;
      if negb (offset =? 0) && (pb_len b <=? offset) then
        pbuf_copy_partial_loop fuel (pb_next b) dst left len (u16 (offset - pb_len b)) copied_total h
      else
        let l := u16 (pb_len b - offset) in
        let buf_copy_len := if len <? l then len else l in
        bs ← payload_read b offset buf_copy_len;
        dst ← mem_write dst left bs;
        pbuf_copy_partial_loop fuel (pb_next b) dst (u16 (left + buf_copy_len))
          (u16 (len - buf_copy_len)) 0 (u16 (copied_total + buf_copy_len)) h
  end.

Definition pbuf_copy_partial (buf : option addr) (dataptr : option (list Z)) (len offset : Z)
    (h : heap) : option (Z * option (list Z)) :=
  match buf, dataptr with
  | Some _, Some dst =>
      '(n, dst) ← pbuf_copy_partial_loop (chain_fuel h) buf dst 0 len offset 0 h;
      Some (n, Some dst)
  | _, _ => Some (0, dataptr)
  end.

(** The pointer [pbuf_get_contiguous] returns: NULL, into a pbuf's payload,
    or the caller's buffer with its new content. *)
Inductive contiguous :=
| CNull
| CInPbuf (q : addr) (out_offset : Z)
| CBuffer (content : list Z).

Definition pbuf_get_contiguous (p : option addr) (buffer : option (list Z)) (bufsize len offset : Z)
    (h : heap) : option contiguous :=
  match p, buffer with
  | Some _, Some buf =>
      if bufsize <? len then Some CNull
      else
        '(q, out_offset) ← pbuf_skip_const p offset h;
        match q with
        | Some a =>
            b ← get h a;
            if out_offset + len <=? pb_len b then Some (CInPbuf a out_offset)
            else
              '(n, buf) ← pbuf_copy_partial q buffer len out_offset h;
              if negb (n =? len) then Some CNull
              else buf ← buf; Some (CBuffer buf)
        | None => Some CNull
        end
  | _, _ => Some CNull
  end.

(** *** Copying in *)
Fixpoint pbuf_take_loop (fuel : nat) (p : option addr) (src : list Z)
    (total_copy_len copied_total : Z) (h : heap) : option heap :=
  if total_copy_len =? 0 then Some h
  else match fuel with
  | O => None
  | S fuel =>
      a ← p;
      b ← get h a;
      let buf_copy_len := if pb_len b <? total_copy_len then pb_len b else total_copy_len in
      bs ← mem_read src copied_total buf_copy_len;
      b' ← payload_write b 0 bs;
      pbuf_take_loop fuel (pb_next b) src (u64 (total_copy_len - buf_copy_len))
        (u64 (copied_total + buf_copy_len)) (put h a b')
  end.

Definition pbuf_take (buf : option addr) (dataptr : option (list Z)) (len : Z) (h : heap)
    : option (Z * heap) :=
  match buf, dataptr with
  | Some a, Some src =>
      b ← get h a;
      if pb_tot_len b <? len then Some (ERR_MEM, h)
      else h ← pbuf_take_loop (chain_fuel h) buf src len 0 h; Some (ERR_OK, h)
  | _, _ => Some (ERR_ARG, h)
  end.

(** The body of [pbuf_take_at] once the first pbuf [a] is found: the part that
    goes into it, then the rest with [pbuf_take]. *)
Definition pbuf_take_from (a : addr) (b : pbuf) (dataptr : list Z) (len target_offset : Z) (h : heap)
    : option (Z * heap) :=
  let first_copy_len := u16 (Z.min (pb_len b - target_offset) len) in
  bs ← mem_read dataptr 0 first_copy_len;
  b' ← payload_write b target_offset bs;
  let h := put h a b' in
  let remaining_len := u16 (len - first_copy_len) in
  if 0 <? remaining_len
  then pbuf_take (pb_next b) (Some (zdrop first_copy_len dataptr)) remaining_len h
  else Some (ERR_OK, h).

Definition pbuf_take_at (buf : option addr) (dataptr : list Z) (len offset : Z) (h : heap)
    : option (Z * heap) :=
  '(q, target_offset) ← pbuf_skip buf offset h;
  match q with
  | Some a =>
      b ← get h a;
      if target_offset + len <=? pb_tot_len b
      then pbuf_take_from a b dataptr len target_offset h
      else Some (ERR_MEM, h)
  | None => Some (ERR_MEM, h)
  end.

(** *** Pbuf to pbuf *)

(** The packet-queue guard after each part of [pbuf_copy]. *)
Definition pbuf_queue_guard (p : option addr) (h : heap) : option bool :=
  match p with
  | None => Some true
  | Some a =>
      b ← get h a;
      Some (if pb_len b =? pb_tot_len b then bool_decide (pb_next b = None) else true)
  end.

Fixpoint pbuf_copy_loop (fuel : nat) (p_to p_from : option addr) (offset_to offset_from : Z)
    (h : heap) : option (Z * heap) :=
  match fuel with
  | O => None
  | S fuel =>
      ta ← p_to; tb ← get h ta;
      fa ← p_from; fb ← get h fa;
      let len :=
        if u64 (pb_len fb - offset_from) <=? u64 (pb_len tb - offset_to)
        then u64 (pb_len fb - offset_from) else u64 (pb_len tb - offset_to) in
      bs ← payload_read fb offset_from len;
      tb' ← payload_write tb offset_to bs;
      let h := put h ta tb' in
      let offset_to := offset_to + len in
      let offset_from := offset_from + len in
      let '(p_from, offset_from) :=
        if pb_len fb <=? offset_from then (pb_next fb, 0) else (p_from, offset_from) in
      let '(p_to, offset_to, to_end) :=
        if offset_to =? pb_len tb then (pb_next tb, 0, true) else (p_to, offset_to, false) in
      if to_end && bool_decide (p_to = None) && negb (bool_decide (p_from = None))
      then Some (ERR_ARG, h)
      else
        okf ← pbuf_queue_guard p_from h;
        if negb okf then Some (ERR_VAL, h)
        else
          okt ← pbuf_queue_guard p_to h;
          if negb okt then Some (ERR_VAL, h)
          else match p_from with
          | None => Some (ERR_OK, h)
          | Some _ => pbuf_copy_loop fuel p_to p_from offset_to offset_from h
          end
  end.

Definition pbuf_copy (p_to p_from : option addr) (h : heap) : option (Z * heap) :=
  match p_to, p_from with
  | Some ta, Some fa =>
      tb ← get h ta; fb ← get h fa;
      if pb_tot_len tb <? pb_tot_len fb then Some (ERR_ARG, h)
      else pbuf_copy_loop (2 * chain_fuel h) p_to p_from 0 0 h
  | _, _ => Some (ERR_ARG, h)
  end.

Section alloc.
  Context (custom_free : addr -> heap -> option heap).

Definition pbuf_clone (layer type : Z) (p : addr) (h : heap) : option (option addr * heap) :=
  b ← get h p;
  '(q, h) ← pbuf_alloc custom_free layer (pb_tot_len b) type h;
  match q with
  | None => Some (None, h)
  | Some _ => '(_, h) ← pbuf_copy q (Some p) h; Some (q, h)
  end.

Definition pbuf_coalesce (p : addr) (layer : Z) (h : heap) : option (addr * heap) :=
  b ← get h p;
  match pb_next b with
  | None => Some (p, h)
  | Some _ =>
      '(q, h) ← pbuf_clone layer PBUF_RAM p h;
      match q with
      | None => Some (p, h)
      | Some q => '(_, h) ← pbuf_free custom_free (Some p) h; Some (q, h)
      end
  end.

End alloc.

(** The search loop of [pbuf_split_64k]: the last pbuf of the first part, and
    the rest. *)
Fixpoint pbuf_split_find (fuel : nat) (i : addr) (r : option addr) (tot_len_front : Z) (h : heap)
    : option (addr * option addr) :=
  match r, fuel with
  | None, _ => Some (i, None)
  | Some _, O => None
  | Some a, S fuel =>
      rb ← get h a;
      if tot_len_front <=? u16 (tot_len_front + pb_len rb)
      then pbuf_split_find fuel a (pb_next rb) (u16 (tot_len_front + pb_len rb)) h
      else Some (i, r)
  end.

(** Its second loop: take the rest's total off every total of the first part. *)
Fixpoint pbuf_split_sub (fuel : nat) (i : option addr) (r_tot : Z) (h : heap) : option heap :=
  match i, fuel with
  | None, _ => Some h
  | Some _, O => None
  | Some a, S fuel =>
      b ← get h a;
      pbuf_split_sub fuel (pb_next b) r_tot (put h a (set_tot_len (u16 (pb_tot_len b - r_tot)) b))
  end.

Definition pbuf_split_64k (p : option addr) (h : heap) : option (option addr * heap) :=
  match p with
  | None => Some (None, h)
  | Some a =>
      b ← get h a;
      match pb_next b with
      | None => Some (None, h)
      | Some n =>
          '(i, r) ← pbuf_split_find (chain_fuel h) a (Some n) (pb_len b) h;
          ib ← get h i;
          let h := put h i (set_next None ib) in
          match r with
          | None => Some (None, h)
          | Some ra =>
              rb ← get h ra;
              h ← pbuf_split_sub (chain_fuel h) p (pb_tot_len rb) h;
              b ← get h a;
              rb ← get h ra;
              let h := if negb (pb_flags b .& PBUF_FLAG_TCP_FIN =? 0)
                       then put h ra (set_flags (pb_flags rb .| PBUF_FLAG_TCP_FIN) rb) else h in
              Some (r, h)
          end
      end
  end.

(** *** Comparing and searching *)
Fixpoint pbuf_memcmp_loop (fuel : nat) (q : option addr) (start i n : Z) (s2 : list Z) (h : heap)
    : option Z :=
  if i <? n then
    match fuel with
    | O => None
    | S fuel =>
        a ← pbuf_get_at q (u16 (start + i)) h;
        b ← s2 !! Z.to_nat i;
        if negb (a =? b) then Some (u16 (Z.min (i + 1) 0xFFFF))
        else pbuf_memcmp_loop fuel q start (u16 (i + 1)) n s2 h
    end
  else Some 0.

Definition pbuf_memcmp (p : addr) (offset : Z) (s2 : list Z) (n : Z) (h : heap) : option Z :=
  pb ← get h p;
  if pb_tot_len pb <? offset + n then Some 0xffff
  else
    '(q, start) ← pbuf_skip_loop (chain_fuel h) (Some p) offset h;
    pbuf_memcmp_loop (Z.to_nat n) q start 0 n s2 h.

Fixpoint pbuf_memfind_loop (fuel : nat) (p : addr) (mem : list Z) (mem_len i max_cmp_start : Z)
    (h : heap) : option Z :=
  if i <=? max_cmp_start then
    match fuel with
    | O => None
    | S fuel =>
        plus ← pbuf_memcmp p i mem mem_len h;
        if plus =? 0 then Some i
        else pbuf_memfind_loop fuel p mem mem_len (u16 (i + 1)) max_cmp_start h
    end
  else Some 0xFFFF.

(** At most 65536 starting positions are tried. *)
Definition pbuf_memfind (p : addr) (mem : list Z) (mem_len start_offset : Z) (h : heap) : option Z :=
  pb ← get h p;
  let max_cmp_start := u16 (pb_tot_len pb - mem_len) in
  if mem_len + start_offset <=? pb_tot_len pb
  then pbuf_memfind_loop (Z.to_nat 65536) p mem mem_len start_offset max_cmp_start h
  else Some 0xFFFF.

(** [substr] is a C string: its bytes up to the terminating 0. *)
Definition pbuf_strstr (p : addr) (substr : option (list Z)) (h : heap) : option Z :=
  match substr with
  | None => Some 0xFFFF
  | Some s =>
      if zlen s =? 0 then Some 0xFFFF
      else
        pb ← get h p;
        if pb_tot_len pb =? 0xFFFF then Some 0xFFFF
        else if 0xFFFF <=? zlen s then Some 0xFFFF
        else pbuf_memfind p s (u16 (zlen s)) 0 h
  end.
