(* ===== verification/PbufChain.v ===== *)
(** Chains of pbufs in the store, and the packet well-formedness invariant
    the operations of [pbuf.c] maintain.  The lemmas relate the store to the
    abstract view of a packet: the byte string it carries. *)
From S2P Require Import Prelude Pbuf.

(** A chain as the list of its cells. *)
Definition cell : Type := addr * pbuf.

Definition cells := list (addr * pbuf).

(** [lseg h p l e]: the pointers from [p] lead through exactly the cells [l]
    of the store [h] to [e]. *)
Fixpoint lseg (h : heap) (p : option addr) (l : list (addr * pbuf)) (e : option addr) : Prop :=
  match l with
  | [] => p = e
  | (a, b) :: l => p = Some a /\ get h a = Some b /\ lseg h (pb_next b) l e
  end.

(** The payload of one pbuf, and the byte string a chain carries. *)
Definition pb_bytes (b : pbuf) : list Z := ztake (pb_len b) (zdrop (pb_payload b) (pb_mem b)).

Definition content (l : list (addr * pbuf)) : list Z := concat (map (fun c => pb_bytes c.2) l).

Fixpoint sum_len (l : list (addr * pbuf)) : Z :=
  match l with [] => 0 | (_, b) :: l => pb_len b + sum_len l end.

(** A pbuf whose payload lies inside its memory and which is referenced. *)
Definition pb_ok (b : pbuf) : Prop :=
  0 <= pb_len b < 65536 /\ 0 <= pb_payload b /\
  pb_payload b + pb_len b <= zlen (pb_mem b) /\ 0 < pb_ref b < 256.

(** [tot_len] of each pbuf is the length of the packet from there on. *)
Fixpoint tots_ok (l : list (addr * pbuf)) : Prop :=
  match l with
  | [] => True
  | (_, b) :: l' => pb_tot_len b = pb_len b + sum_len l' /\ tots_ok l'
  end.

(** The invariant of one packet (not a packet queue) in the store. *)
Record packet (h : heap) (p : option addr) (l : list (addr * pbuf)) : Prop := Packet {
  packet_lseg : lseg h p l None;
  packet_nodup : NoDup (fst <$> l);
  packet_ok : Forall (fun c => pb_ok c.2) l;
  packet_tots : tots_ok l;
  packet_sum : sum_len l < 65536;
}.

(** Cells of a packet after a write into payloads: same pbufs, same fields,
    memory of the same size. *)
Definition rewritten (x y : addr * pbuf) : Prop :=
  y.1 = x.1 /\ exists m, y.2 = set_mem m x.2 /\ zlen m = zlen (pb_mem x.2).

(** ** The store *)
Lemma get_put_eq h a b : get (put h a b) a = Some b.
Proof. apply lookup_insert_eq. Qed.

Lemma get_put_ne h a a' b : a <> a' -> get (put h a b) a' = get h a'.
Proof. intros; by apply lookup_insert_ne. Qed.

Lemma get_del_eq h a : get (del h a) a = None.
Proof. apply lookup_delete_eq. Qed.

Lemma get_del_ne h a a' : a <> a' -> get (del h a) a' = get h a'.
Proof. intros; by apply lookup_delete_ne. Qed.

Create Rewrite HintDb heap.
#[export] Hint Rewrite get_put_eq get_del_eq : heap.

Lemma size_put h a b b' : get h a = Some b -> size (h_pbufs (put h a b')) = size (h_pbufs h).
Proof. intros H; cbn. rewrite map_size_insert. unfold get in H; by rewrite H. Qed.

Lemma chain_fuel_put h a b b' : get h a = Some b -> chain_fuel (put h a b') = chain_fuel h.
Proof. intros; unfold chain_fuel; by erewrite size_put. Qed.

(** ** Segments *)
Lemma lseg_frame h h' p l e :
  (forall a, a ∈ fst <$> l -> get h' a = get h a) -> lseg h p l e -> lseg h' p l e.
Proof.
  revert p; induction l as [|[a b] l IH]; intros p Hf; [done|].
  intros (-> & Hg & Hl); split; [done|split].
  - rewrite Hf; [done|]. set_solver.
  - apply IH; [|done]. intros a' ?; apply Hf; set_solver.
Qed.

Lemma lseg_put h p l e a b : a ∉ fst <$> l -> lseg h p l e -> lseg (put h a b) p l e.
Proof.
  intros Hn; apply lseg_frame; intros a' Ha'; apply get_put_ne; set_solver.
Qed.

Lemma lseg_app h p l1 l2 e :
  lseg h p (l1 ++ l2) e <-> exists m, lseg h p l1 m /\ lseg h m l2 e.
Proof.
  revert p; induction l1 as [|[a b] l1 IH]; intros p; cbn.
  - split; [eauto|]. intros (m & -> & ?); done.
  - split.
    + intros (-> & Hg & Hl). apply IH in Hl as (m & ? & ?); eauto.
    + intros (m & (-> & Hg & Hl) & Hl2); split_and!; [done..|]. apply IH; eauto.
Qed.

Lemma lseg_get h p l e a b : lseg h p l e -> (a, b) ∈ l -> get h a = Some b.
Proof.
  revert p; induction l as [|[a' b'] l IH]; intros p; cbn; [set_solver|].
  intros (-> & Hg & Hl) [[= -> ->]|?]%elem_of_cons; eauto.
Qed.

Lemma lseg_nil_inv h p l : lseg h p l None -> p = None -> l = [].
Proof. destruct l as [|[]]; [done|]. intros (? & _) ?; congruence. Qed.

Lemma lseg_length h p l :
  lseg h p l None -> NoDup (fst <$> l) -> (length l < chain_fuel h)%nat.
Proof.
  intros Hl Hn. unfold chain_fuel.
  assert (length l <= size (h_pbufs h))%nat; [|lia].
  rewrite <- size_dom, <- (length_fmap fst).
  rewrite <- (size_list_to_set (C := gset addr)) by done.
  apply subseteq_size. intros a Ha.
  apply elem_of_list_to_set, list_elem_of_fmap in Ha as ([a' b'] & -> & Hin).
  apply elem_of_dom. exists b'. by eapply lseg_get in Hl.
Qed.

Lemma sum_len_app l k : sum_len (l ++ k) = sum_len l + sum_len k.
Proof. induction l as [|[a b] l IH]; cbn; lia. Qed.

Lemma sum_len_nonneg l : Forall (fun c => pb_ok c.2) l -> 0 <= sum_len l.
Proof.
  induction 1 as [|[a b] l Hb _ IH]; cbn; [lia|].
  destruct Hb as (? & _); cbn in *; lia.
Qed.

Lemma pb_bytes_len b : pb_ok b -> zlen (pb_bytes b) = pb_len b.
Proof.
  intros (? & ? & ? & ?); unfold pb_bytes.
  rewrite zlen_ztake; [done|]. rewrite zlen_zdrop; lia.
Qed.

Lemma content_cons a b l : content ((a, b) :: l) = pb_bytes b ++ content l.
Proof. done. Qed.

Lemma content_app l k : content (l ++ k) = content l ++ content k.
Proof. unfold content; by rewrite map_app, concat_app. Qed.

Lemma content_len l : Forall (fun c => pb_ok c.2) l -> zlen (content l) = sum_len l.
Proof.
  induction 1 as [|[a b] l Hb _ IH]; [done|].
  rewrite content_cons, zlen_app, IH, pb_bytes_len by done; done.
Qed.

(** ** Rewriting payloads keeps the shape of a packet *)
Lemma rewritten_refl x : rewritten x x.
Proof. destruct x as [a []]; split; [done|]; eexists; split; done. Qed.

Lemma rewritten_all_refl l : Forall2 rewritten l l.
Proof. induction l; constructor; auto using rewritten_refl. Qed.

Lemma rewritten_trans x y z : rewritten x y -> rewritten y z -> rewritten x z.
Proof.
  intros (E1 & m1 & F1 & G1) (E2 & m2 & F2 & G2); split; [congruence|].
  exists m2; split; [by rewrite F2, F1|]. rewrite F1 in G2; cbn in G2; lia.
Qed.

Lemma rewritten_all_trans l1 l2 l3 :
  Forall2 rewritten l1 l2 -> Forall2 rewritten l2 l3 -> Forall2 rewritten l1 l3.
Proof.
  intros H; revert l3; induction H as [|x y l1 l2 Hxy _ IH]; intros l3 H3.
  - by inversion H3.
  - inversion H3; subst; constructor; eauto using rewritten_trans.
Qed.

Lemma rewritten_addrs l l' : Forall2 rewritten l l' -> fst <$> l' = fst <$> l.
Proof. induction 1 as [|x y l l' (E & _) _ IH]; [done|]. cbn; by rewrite E, IH. Qed.

Lemma rewritten_pb_ok l l' :
  Forall2 rewritten l l' -> Forall (fun c => pb_ok c.2) l -> Forall (fun c => pb_ok c.2) l'.
Proof.
  induction 1 as [|x y l l' (_ & m & E & Em) _ IH]; [done|].
  intros [Hx Hl]%Forall_cons; constructor; [|auto].
  rewrite E; destruct Hx as (? & ? & ? & ?); unfold pb_ok; cbn; rewrite Em; done.
Qed.

Lemma rewritten_sum l l' : Forall2 rewritten l l' -> sum_len l' = sum_len l.
Proof.
  induction 1 as [|[a b] [a' b'] l l' (_ & m & E & _) _ IH]; [done|].
  cbn in *; subst; cbn; lia.
Qed.

Lemma rewritten_tots l l' : Forall2 rewritten l l' -> tots_ok l -> tots_ok l'.
Proof.
  induction 1 as [|[a b] [a' b'] l l' (_ & m & E & _) HF IH]; [done|].
  cbn in *; subst; cbn. rewrite (rewritten_sum _ _ HF). naive_solver.
Qed.

Lemma rewritten_packet h h' p l l' :
  packet h p l -> Forall2 rewritten l l' -> lseg h' p l' None -> packet h' p l'.
Proof.
  intros [] HF Hl; constructor; [done|..].
  - by rewrite (rewritten_addrs _ _ HF).
  - by eapply rewritten_pb_ok.
  - by eapply rewritten_tots.
  - by rewrite (rewritten_sum _ _ HF).
Qed.

Lemma packet_cons h a b l :
  packet h (Some a) ((a, b) :: l) ->
  get h a = Some b /\ pb_ok b /\ (a ∉ fst <$> l) /\ pb_tot_len b = pb_len b + sum_len l /\
  packet h (pb_next b) l.
Proof.
  intros [(_ & Hg & Hl) Hn [Hb Ho]%Forall_cons [Ht Hts] Hs].
  rewrite fmap_cons in Hn; apply NoDup_cons in Hn as [Ha Hn]; cbn in *.
  split_and!; try done. constructor; try done. destruct Hb; lia.
Qed.

Lemma packet_inv h p l :
  packet h p l -> (p = None /\ l = []) \/ exists a b l', p = Some a /\ l = (a, b) :: l'.
Proof.
  intros [Hl _ _ _ _]; destruct l as [|[a b] l']; cbn in Hl; [by left|].
  right; destruct Hl as (-> & _); eauto.
Qed.

Lemma packet_tot h a l : packet h (Some a) l -> exists b, get h a = Some b /\ pb_tot_len b = sum_len l.
Proof.
  intros H; destruct (packet_inv _ _ _ H) as [[? ?]|(a' & b & l' & [= <-] & ->)]; [done|].
  apply packet_cons in H as (? & ? & ? & ? & ?); exists b; split; [done|]; cbn; lia.
Qed.

Lemma packet_frame h h' p l :
  (forall a, a ∈ fst <$> l -> get h' a = get h a) -> packet h p l -> packet h' p l.
Proof. intros Hf []; constructor; eauto using lseg_frame. Qed.

(** A chain is determined by its start. *)
Lemma lseg_fun h p l l' : lseg h p l None -> lseg h p l' None -> l = l'.
Proof.
  revert p l'; induction l as [|[a b] l IH]; intros p l'.
  - intros ->; destruct l' as [|[]]; cbn; naive_solver.
  - intros (-> & Hg & Hl); destruct l' as [|[a' b'] l']; cbn; [done|].
    intros ([= ->] & Hg' & Hl'). assert (b' = b) as -> by congruence.
    f_equal; eauto.
Qed.
