(* ===== verification/PbufIO.v ===== *)
(** Reading and writing packets: the operations of [pbuf.c] that move
    payload bytes implement the obvious operations on the byte string the
    packet carries. *)
From S2P Require Import Prelude Pbuf PbufData PbufChain.

(** ** Finding a position *)

(** The cell and offset where byte [off] of a chain lies. *)
Fixpoint locate (l : list (addr * pbuf)) (off : Z) : option addr * Z :=
  match l with
  | [] => (None, off)
  | (a, b) :: l => if pb_len b <=? off then locate l (off - pb_len b) else (Some a, off)
  end.

Lemma pbuf_skip_loop_spec h p l off fuel :
  lseg h p l None -> Forall (fun c => pb_ok c.2) l -> 0 <= off < 65536 ->
  (length l < fuel)%nat -> pbuf_skip_loop fuel p off h = Some (locate l off).
Proof.
  revert p off fuel; induction l as [|[a b] l IH]; intros p off fuel Hl Ho Hoff Hf.
  - cbn in Hl; subst; by destruct fuel.
  - destruct Hl as (-> & Hg & Hl); destruct fuel as [|fuel]; [cbn in Hf; lia|].
    apply Forall_cons in Ho as [Hb Ho]; destruct Hb as (? & _); cbn in *.
    rewrite Hg; cbn. zbool; [|done].
    rewrite u16_small by lia. apply IH; auto; lia.
Qed.

Lemma pbuf_skip_spec h p l off :
  packet h p l -> 0 <= off < 65536 -> pbuf_skip_const p off h = Some (locate l off).
Proof.
  intros [] ?; unfold pbuf_skip_const; apply pbuf_skip_loop_spec; eauto using lseg_length.
Qed.

Lemma locate_Some l off a o :
  0 <= off -> Forall (fun c => pb_ok c.2) l -> locate l off = (Some a, o) ->
  exists l1 b l2, l = l1 ++ (a, b) :: l2 /\ off = sum_len l1 + o /\ 0 <= o < pb_len b.
Proof.
  revert off; induction l as [|[a' b'] l IH]; intros off Hoff Ho; cbn; [done|].
  apply Forall_cons in Ho as [(? & _) Ho]; cbn in *. zbool.
  - intros (l1 & b & l2 & -> & ? & ?)%IH; [|lia|done].
    exists ((a', b') :: l1), b, l2; cbn; split; [done|lia].
  - intros [= -> ->]. exists [], b', l; cbn; split; [done|lia].
Qed.

Lemma locate_None l off o :
  0 <= off -> Forall (fun c => pb_ok c.2) l -> locate l off = (None, o) -> sum_len l <= off.
Proof.
  revert off; induction l as [|[a' b'] l IH]; intros off Hoff Ho; cbn; [lia|].
  apply Forall_cons in Ho as [(? & _) Ho]; cbn in *. zbool; [|done].
  intros ?%IH; [lia|lia|done].
Qed.

(** ** Reading *)
Lemma payload_read_spec b o n :
  pb_ok b -> 0 <= o -> 0 <= n -> o + n <= pb_len b ->
  payload_read b o n = Some (ztake n (zdrop o (pb_bytes b))).
Proof.
  intros (? & ? & ? & ?) ???; unfold payload_read, pb_bytes.
  rewrite mem_read_spec by lia.
  rewrite zdrop_ztake, ztake_ztake, zdrop_zdrop by lia. f_equal; f_equal; [lia|].
  f_equal; lia.
Qed.

Lemma pbuf_copy_partial_loop_spec h p l dst left len off copied fuel :
  lseg h p l None -> Forall (fun c => pb_ok c.2) l -> (length l < fuel)%nat ->
  0 <= left -> 0 <= len -> left + len < 65536 -> 0 <= off < 65536 ->
  0 <= copied -> copied + len < 65536 ->
  let data := ztake len (zdrop off (content l)) in
  left + zlen data <= zlen dst ->
  pbuf_copy_partial_loop fuel p dst left len off copied h =
    Some (copied + zlen data, ztake left dst ++ data ++ zdrop (left + zlen data) dst).
Proof.
  revert p dst left len off copied fuel.
  induction l as [|[a b] l IH]; intros p dst left len off copied fuel Hl Ho Hf H1 H2 H3 H4 H5 H6 data Hd.
  - cbn in Hl; subst p. assert (data = []) as E by (subst data; unfold ztake, zdrop; cbn; by rewrite drop_nil, take_nil).
    rewrite E in *; rewrite zlen_nil, !Z.add_0_r, app_nil_l, ztake_zdrop.
    destruct fuel; cbn; by destruct (len =? 0).
  - destruct Hl as (-> & Hg & Hl); destruct fuel as [|fuel]; [cbn in Hf; lia|].
    apply Forall_cons in Ho as [Hb Ho]; cbn [snd] in Hb.
    pose proof (pb_bytes_len b Hb) as Hbl; pose proof Hb as (? & _).
    cbn [pbuf_copy_partial_loop]. subst data; rewrite content_cons in *.
    destruct (Z.eqb_spec len 0) as [->|Hn].
    { rewrite ztake_0, zlen_nil, !Z.add_0_r, app_nil_l, ztake_zdrop; done. }
    rewrite Hg; cbn [mbind option_bind].
    destruct (negb (off =? 0) && (pb_len b <=? off)) eqn:Et.
    + apply andb_true_iff in Et as [E1 E2]; zbool; try done.
      rewrite u16_small by lia. rewrite zdrop_app_ge in * by lia; rewrite Hbl in *.
      apply IH; auto; cbn in Hf; lia.
    + assert (off = 0 /\ pb_len b = 0 \/ off < pb_len b) as Hoff.
      { destruct (Z.eqb_spec off 0); cbn in Et; zbool. }
      rewrite (u16_small (pb_len b - off)) by lia.
      set (n := if len <? pb_len b - off then len else pb_len b - off).
      assert (n = Z.min len (pb_len b - off)) as En by (subst n; zbool).
      rewrite payload_read_spec by (done || lia); cbn [mbind option_bind].
      rewrite zdrop_app_le in Hd by lia. rewrite zdrop_app_le by lia.
      set (d0 := zdrop off (pb_bytes b)) in *.
      assert (zlen d0 = pb_len b - off) as Hd0 by (subst d0; rewrite zlen_zdrop; lia).
      assert (ztake len (d0 ++ content l) = ztake n d0 ++ ztake (len - n) (content l)) as Esp.
      { destruct (Z.le_gt_cases len (zlen d0)).
        - rewrite ztake_app_le by lia. replace n with len by lia.
          by rewrite Z.sub_diag, ztake_0, app_nil_r.
        - rewrite ztake_app_ge by lia. rewrite (ztake_ge n) by lia. do 2 f_equal; lia. }
      rewrite Esp in *. rewrite zlen_app in *.
      assert (zlen (ztake n d0) = n) as Hn' by (rewrite zlen_ztake; lia).
      rewrite Hn' in *. pose proof (zlen_nonneg (ztake (len - n) (content l))).
      rewrite mem_write_spec by (rewrite ?Hn'; lia). cbn [mbind option_bind].
      rewrite !u16_small by lia. rewrite Hn'.
      erewrite IH; [|done|done|cbn in Hf; lia|lia|lia|lia|lia|lia|lia|].
      * rewrite zdrop_0. f_equal; f_equal; [lia|].
        clearbody n d0. rewrite ztake_write by lia.
        rewrite (zdrop_write left n _ dst) by (done || lia).
        rewrite <- !app_assoc. do 4 f_equal; lia.
      * rewrite zdrop_0, !zlen_app, Hn', zlen_zdrop, (zlen_ztake left) by lia. lia.
Qed.

Lemma pbuf_copy_partial_ok h a l dst len off :
  packet h (Some a) l -> 0 <= len < 65536 -> 0 <= off < 65536 ->
  zlen (ztake len (zdrop off (content l))) <= zlen dst ->
  pbuf_copy_partial (Some a) (Some dst) len off h =
    Some (zlen (ztake len (zdrop off (content l))),
          Some (ztake len (zdrop off (content l)) ++
                zdrop (zlen (ztake len (zdrop off (content l)))) dst)).
Proof.
  intros [] ? ? Hd; unfold pbuf_copy_partial.
  rewrite (pbuf_copy_partial_loop_spec h _ l) by (eauto using lseg_length; lia).
  done.
Qed.

(** The byte of a chain at an offset. *)
Lemma content_lookup l off a o :
  0 <= off -> Forall (fun c => pb_ok c.2) l -> locate l off = (Some a, o) ->
  exists b, (a, b) ∈ l /\ pb_ok b /\ 0 <= o < pb_len b /\
    zdrop off (content l) = zdrop o (pb_bytes b) ++ zdrop (off - o + pb_len b) (content l).
Proof.
  intros Hoff Ho E; destruct (locate_Some _ _ _ _ Hoff Ho E) as (l1 & b & l2 & -> & -> & Hr).
  apply Forall_app in Ho as [Ho1 [Hb _]%Forall_cons]; cbn in Hb.
  pose proof (sum_len_nonneg _ Ho1). pose proof (content_len _ Ho1) as E1.
  pose proof (pb_bytes_len _ Hb) as E2.
  exists b; split_and!; try done || lia; [set_solver|].
  rewrite content_app, content_cons.
  rewrite !(zdrop_app_ge _ (content l1)) by lia. rewrite E1.
  replace (sum_len l1 + o - sum_len l1) with o by lia.
  rewrite zdrop_app_le by lia. f_equal.
  rewrite zdrop_app_ge, E2 by lia.
  replace (sum_len l1 + o - o + pb_len b - sum_len l1 - pb_len b) with 0 by lia.
  by rewrite zdrop_0.
Qed.

Lemma pbuf_try_get_at_ok h p l off :
  packet h p l -> bytes_ok (content l) -> 0 <= off < 65536 ->
  pbuf_try_get_at p off h = Some (default (-1) (content l !! Z.to_nat off)).
Proof.
  intros Hp Hby Hoff; unfold pbuf_try_get_at.
  rewrite (pbuf_skip_spec _ _ _ _ Hp Hoff); cbn [mbind option_bind].
  pose proof Hp as [Hl _ Ho _ _].
  destruct (locate l off) as [[a|] o] eqn:E.
  - destruct (content_lookup _ _ _ _ (proj1 Hoff) Ho E) as (b & Hin & Hb & Hr & Ed).
    rewrite (lseg_get _ _ _ _ _ _ Hl Hin); cbn [mbind option_bind].
    destruct (Z.ltb_spec o (pb_len b)); [|lia].
    rewrite payload_read_spec by (done || lia); cbn [mbind option_bind].
    pose proof (pb_bytes_len _ Hb).
    assert (zlen (zdrop o (pb_bytes b)) = pb_len b - o) as Hz by (rewrite zlen_zdrop; lia).
    destruct (zdrop o (pb_bytes b)) as [|x k] eqn:Ek; [rewrite zlen_nil in Hz; lia|].
    cbn. rewrite <- (Nat.add_0_r (Z.to_nat off)), <- lookup_drop.
    unfold zdrop in Ed at 1; rewrite Ed. done.
  - apply locate_None in E; [|lia|done]. rewrite lookup_ge_None_2; [done|].
    pose proof (content_len _ Ho) as Ec; unfold zlen in Ec; lia.
Qed.

(** ** Writing *)
Lemma payload_write_spec b o bs :
  pb_ok b -> 0 <= o -> o + zlen bs <= pb_len b ->
  exists b', payload_write b o bs = Some b' /\ pb_next b' = pb_next b /\
    (forall a, rewritten (a, b) (a, b')) /\
    pb_bytes b' = ztake o (pb_bytes b) ++ bs ++ zdrop (o + zlen bs) (pb_bytes b).
Proof.
  intros (? & ? & ? & ?) ??; unfold payload_write; pose proof (zlen_nonneg bs).
  rewrite mem_write_spec by lia; cbn [mbind option_bind]; eexists; split_and!; [done..| |].
  - intros a; split; [done|]; eexists; split; [done|]; cbn.
    rewrite !zlen_app, zlen_zdrop, zlen_ztake by lia; lia.
  - unfold pb_bytes; cbn. set (P := pb_payload b) in *. set (L := pb_len b) in *. set (m := pb_mem b) in *.
    rewrite zdrop_app_le by (rewrite zlen_ztake by lia; lia).
    rewrite (zdrop_ztake P (P + o)) by lia.
    replace (P + o - P) with o by lia.
    rewrite ztake_app_ge by (rewrite zlen_ztake by (rewrite zlen_zdrop; lia); lia).
    rewrite zlen_ztake by (rewrite zlen_zdrop; lia).
    rewrite ztake_app_ge by lia.
    rewrite ztake_ztake, Z.min_l by lia. do 2 f_equal.
    rewrite zdrop_ztake by lia. rewrite zdrop_zdrop by lia. f_equal; [lia|]. f_equal; lia.
Qed.

(** Writing [bs] at the start of a chain of cells that is long enough. *)
Lemma pbuf_take_loop_spec h p l src n c fuel :
  lseg h p l None -> NoDup (fst <$> l) -> Forall (fun c => pb_ok c.2) l -> (length l < fuel)%nat ->
  0 <= c -> 0 <= n <= sum_len l -> c + n <= zlen src -> c + n < 2 ^ 64 ->
  exists h' l', pbuf_take_loop fuel p src n c h = Some h' /\
    lseg h' p l' None /\ Forall2 rewritten l l' /\
    content l' = ztake n (zdrop c src) ++ zdrop n (content l) /\
    forall a, a ∉ fst <$> l -> get h' a = get h a.
Proof.
  revert h p n c fuel; induction l as [|[a b] l IH]; intros h p n c fuel Hl Hnd Ho Hf Hc Hn Hs Hw.
  - exists h, []; cbn in *; assert (n = 0) as -> by lia. destruct fuel; cbn; split_and!; auto.
  - destruct Hl as (-> & Hg & Hl); destruct fuel as [|fuel]; [cbn in Hf; lia|].
    apply Forall_cons in Ho as [Hb Ho]; cbn [snd] in Hb.
    rewrite fmap_cons in Hnd; apply NoDup_cons in Hnd as [Ha Hnd]; cbn [fst] in Ha.
    pose proof (pb_bytes_len b Hb) as Hbl; pose proof Hb as (? & _).
    pose proof (sum_len_nonneg _ Ho). cbn [pbuf_take_loop sum_len] in *.
    destruct (Z.eqb_spec n 0) as [->|Hn0].
    { exists h, ((a, b) :: l); cbn; split_and!; auto using rewritten_all_refl. }
    cbn [mbind option_bind]; rewrite Hg; cbn [mbind option_bind].
    set (k := if pb_len b <? n then pb_len b else n).
    assert (k = Z.min (pb_len b) n) as Ek by (subst k; zbool). clearbody k.
    rewrite mem_read_spec by lia; cbn [mbind option_bind].
    assert (zlen (ztake k (zdrop c src)) = k) as Hk by (rewrite zlen_ztake; [done|rewrite zlen_zdrop; lia]).
    destruct (payload_write_spec b 0 (ztake k (zdrop c src))) as (b' & -> & Hnx & Hrw & Hby);
      [done|lia|lia|]. cbn [mbind option_bind].
    rewrite !u64_small by lia.
    destruct (IH (put h a b') (pb_next b) (n - k) (c + k) fuel) as (h' & l' & -> & Hl' & HF & Hc' & Hfr);
      [by apply lseg_put|done|done|cbn in Hf; lia|lia|lia|lia|lia|].
    exists h', ((a, b') :: l'); split_and!; [done|..].
    + cbn; split; [done|split]; [|by rewrite Hnx].
      rewrite Hfr by done. apply get_put_eq.
    + constructor; [apply Hrw|done].
    + rewrite !content_cons, Hc', Hby, ztake_0, app_nil_l, Z.add_0_l, Hk.
      replace n with (k + (n - k)) at 3 by lia.
      rewrite ztake_zdrop_split, zdrop_zdrop by lia. rewrite <- !app_assoc. f_equal.
      replace (n - k + (c)) with (c + (n - k)) by lia.
      destruct (Z.le_gt_cases n (pb_len b)).
      * replace k with n by lia. rewrite Z.sub_diag, !ztake_0, !app_nil_l, zdrop_0.
        by rewrite zdrop_app_le by lia.
      * replace k with (pb_len b) by lia. rewrite zdrop_ge, app_nil_l by lia.
        rewrite zdrop_app_ge by lia. rewrite Hbl. do 3 f_equal; lia.
    + intros x Hx. rewrite Hfr by set_solver. apply get_put_ne; set_solver.
Qed.

Lemma pbuf_take_ok h a l src n :
  packet h (Some a) l -> 0 <= n <= zlen src -> n <= sum_len l ->
  exists h' l', pbuf_take (Some a) (Some src) n h = Some (ERR_OK, h') /\
    packet h' (Some a) l' /\ Forall2 rewritten l l' /\
    content l' = ztake n src ++ zdrop n (content l) /\
    forall x, x ∉ fst <$> l -> get h' x = get h x.
Proof.
  intros Hp Hn Hs; pose proof (packet_tot _ _ _ Hp) as (b & Hg & Ht).
  unfold pbuf_take; rewrite Hg; cbn [mbind option_bind]. zbool.
  pose proof Hp as [Hl Hnd Ho _ Hsum].
  destruct (pbuf_take_loop_spec h (Some a) l src n 0 (chain_fuel h)) as (h' & l' & -> & ? & ? & Hc & ?);
    eauto using lseg_length; try lia.
  exists h', l'; split_and!; eauto using rewritten_packet.
Qed.

Lemma tots_ok_app l1 l2 : tots_ok (l1 ++ l2) -> tots_ok l2.
Proof. induction l1 as [|[a b] l1 IH]; [done|]. intros [_ ?]; auto. Qed.

Lemma packet_suffix h p l1 a b l2 :
  packet h p (l1 ++ (a, b) :: l2) -> packet h (Some a) ((a, b) :: l2).
Proof.
  intros [Hl Hn Ho Ht Hs].
  apply lseg_app in Hl as (m & Hl1 & (-> & Hg & Hl2)).
  rewrite fmap_app in Hn. apply NoDup_app in Hn as (_ & _ & Hn).
  apply Forall_app in Ho as [Ho1 Ho]. pose proof (sum_len_nonneg _ Ho1).
  rewrite sum_len_app in Hs.
  constructor; [done|done|done|by eapply tots_ok_app|lia].
Qed.

(** Put together a chain whose tail was rewritten in place. *)
Lemma packet_replace_tail h h' p l1 k k' a :
  packet h p (l1 ++ k) -> Forall2 rewritten k k' -> lseg h' (Some a) k' None ->
  lseg h p l1 (Some a) -> (forall x, x ∉ fst <$> k -> get h' x = get h x) ->
  packet h' p (l1 ++ k') /\ Forall2 rewritten (l1 ++ k) (l1 ++ k').
Proof.
  intros Hp HF Hk Hl1 Hfr; pose proof Hp as [_ Hn _ _ _].
  rewrite fmap_app in Hn; apply NoDup_app in Hn as (_ & Hdis & _).
  assert (Forall2 rewritten (l1 ++ k) (l1 ++ k')) as HF'.
  { apply Forall2_app; auto using rewritten_all_refl. }
  split; [|done]. eapply rewritten_packet; [done..|].
  apply lseg_app; exists (Some a); split; [|done].
  eapply lseg_frame; [|done]. intros x Hx; apply Hfr; set_solver.
Qed.

(** What a write leaves behind: the same pbufs, with the content [bs]. *)
Definition wrote (h : heap) (p : option addr) (l : list (addr * pbuf)) (bs : list Z) (h' : heap) : Prop :=
  exists l', packet h' p l' /\ Forall2 rewritten l l' /\ content l' = bs /\
    forall x, x ∉ fst <$> l -> get h' x = get h x.

Lemma pbuf_take_from_spill h q b l data len o :
  packet h (Some q) ((q, b) :: l) -> 0 <= len <= zlen data -> 0 <= o < pb_len b ->
  pb_len b - o < len -> o + len <= pb_len b + sum_len l ->
  exists h', pbuf_take_from q b data len o h = Some (ERR_OK, h') /\
    wrote h (Some q) ((q, b) :: l)
      (ztake o (content ((q, b) :: l)) ++ ztake len data ++ zdrop (o + len) (content ((q, b) :: l))) h'.
Proof.
  intros Hp Hlen Ho Hsp Hfit; pose proof Hp as [_ _ _ _ Hs].
  pose proof (packet_cons _ _ _ _ Hp) as (Hg & Hb & Hq & Ht & Hp2).
  pose proof (pb_bytes_len _ Hb) as Hbl; cbn [sum_len] in Hs.
  unfold pbuf_take_from; rewrite (u16_small (Z.min _ _)) by lia. rewrite Z.min_l by lia.
  set (k := pb_len b - o) in *; assert (o + k = pb_len b) by lia; clearbody k.
  rewrite mem_read_spec, zdrop_0 by lia; cbn [mbind option_bind].
  assert (zlen (ztake k data) = k) as Hk by (rewrite zlen_ztake; lia).
  destruct (payload_write_spec b o (ztake k data)) as (b' & -> & Hnx & Hrw & Hby); [done|lia|lia|].
  cbn [mbind option_bind]. rewrite u16_small by lia. rewrite Hk in Hby.
  destruct (Z.ltb_spec 0 (len - k)) as [_|]; [|lia].
  destruct (packet_inv _ _ _ Hp2) as [(Hnn & ->)|(a2 & b2 & l2' & Hnn & El2)]; [cbn in *; lia|].
  rewrite Hnn in *.
  assert (packet (put h q b') (Some a2) l) as Hp2'.
  { eapply packet_frame; [|done]. intros x Hx; apply get_put_ne; set_solver. }
  destruct (pbuf_take_ok _ _ _ (zdrop k data) (len - k) Hp2') as (h' & l2 & -> & Hp' & HF & Hc & Hfr);
    [rewrite zlen_zdrop; lia|lia|].
  exists h'; split; [done|]; exists ((q, b') :: l2); split_and!.
  - eapply rewritten_packet; [done|constructor; [apply Hrw|done]|].
    cbn; split_and!; [done| |rewrite Hnx; by destruct Hp']. rewrite Hfr by done. apply get_put_eq.
  - constructor; [apply Hrw|done].
  - rewrite !content_cons, Hc, Hby, (zdrop_ge (o + k)), app_nil_r by lia.
    rewrite (ztake_app_le o) by lia. rewrite <- !app_assoc. f_equal.
    replace (ztake len data) with (ztake k data ++ ztake (len - k) (zdrop k data))
      by (rewrite <- ztake_zdrop_split by lia; f_equal; lia).
    rewrite <- !app_assoc. do 2 f_equal. rewrite zdrop_app_ge by lia. f_equal; lia.
  - intros x Hx; rewrite fmap_cons in Hx. rewrite Hfr by set_solver. apply get_put_ne; set_solver.
Qed.

Lemma pbuf_take_from_inside h q b l data len o :
  packet h (Some q) ((q, b) :: l) -> 0 <= len <= zlen data -> 0 <= o < pb_len b -> o + len <= pb_len b ->
  exists h', pbuf_take_from q b data len o h = Some (ERR_OK, h') /\
    wrote h (Some q) ((q, b) :: l)
      (ztake o (content ((q, b) :: l)) ++ ztake len data ++ zdrop (o + len) (content ((q, b) :: l))) h'.
Proof.
  intros Hp Hlen Ho Hfit; pose proof Hp as [_ _ _ _ Hs].
  pose proof (packet_cons _ _ _ _ Hp) as (Hg & Hb & Hq & Ht & Hp2).
  pose proof (pb_bytes_len _ Hb) as Hbl; pose proof Hb as (? & _).
  unfold pbuf_take_from; rewrite (u16_small (Z.min _ _)) by lia. rewrite Z.min_r by lia.
  rewrite mem_read_spec, zdrop_0 by lia; cbn [mbind option_bind].
  assert (zlen (ztake len data) = len) as Hk by (rewrite zlen_ztake; lia).
  destruct (payload_write_spec b o (ztake len data)) as (b' & -> & Hnx & Hrw & Hby); [done|lia|lia|].
  cbn [mbind option_bind]. rewrite Z.sub_diag. change (0 <? u16 0) with false.
  exists (put h q b'); split; [done|]; exists ((q, b') :: l); split_and!.
  - eapply rewritten_packet; [done|constructor; [apply Hrw|apply rewritten_all_refl]|].
    cbn; split_and!; [done|apply get_put_eq|]. rewrite Hnx; apply lseg_put; [done|by destruct Hp2].
  - constructor; [apply Hrw|apply rewritten_all_refl].
  - rewrite !content_cons, Hby, Hk, (ztake_app_le o), zdrop_app_le by lia.
    by rewrite <- !app_assoc.
  - intros x Hx; rewrite fmap_cons in Hx. apply get_put_ne; set_solver.
Qed.

(** A write behind a prefix [l1] of the packet. *)
Lemma wrote_suffix h p l1 q k h' o n d :
  packet h p (l1 ++ k) -> lseg h p l1 (Some q) -> 0 <= o -> 0 <= n ->
  wrote h (Some q) k (ztake o (content k) ++ d ++ zdrop (o + n) (content k)) h' ->
  wrote h p (l1 ++ k)
    (ztake (sum_len l1 + o) (content (l1 ++ k)) ++ d ++
     zdrop (sum_len l1 + o + n) (content (l1 ++ k))) h'.
Proof.
  intros Hp Hl1 Ho Hn (k' & [Hk _ _ _ _] & HF & Hc & Hfr).
  destruct (packet_replace_tail _ _ _ _ _ _ _ Hp HF Hk Hl1 Hfr) as [Hp' HF'].
  pose proof Hp as [_ _ [Ho1 _]%Forall_app _ _].
  pose proof (content_len _ Ho1) as Hc1; pose proof (sum_len_nonneg _ Ho1).
  exists (l1 ++ k'); split_and!; try done.
  - rewrite !content_app, Hc, ztake_app_ge, zdrop_app_ge by lia. rewrite Hc1, <- app_assoc.
    do 2 f_equal; [f_equal; lia|]. do 2 f_equal; lia.
  - intros x; rewrite fmap_app; intros; apply Hfr; set_solver.
Qed.

Lemma pbuf_take_at_fits h a l data len off :
  packet h (Some a) l -> 0 <= len <= zlen data -> 0 <= off < sum_len l -> off + len <= sum_len l ->
  exists h', pbuf_take_at (Some a) data len off h = Some (ERR_OK, h') /\
    wrote h (Some a) l (ztake off (content l) ++ ztake len data ++ zdrop (off + len) (content l)) h'.
Proof.
  intros Hp Hlen Hoff Hfit; pose proof Hp as [Hl Hnd Ho Htots Hsum]; unfold pbuf_take_at, pbuf_skip.
  rewrite (pbuf_skip_spec _ _ _ _ Hp) by lia; cbn [mbind option_bind].
  destruct (locate l off) as [[q|] o] eqn:E; [|apply locate_None in E; [lia|lia|done]].
  destruct (locate_Some _ _ _ _ (proj1 Hoff) Ho E) as (l1 & b & l2 & -> & -> & Hr).
  apply lseg_app in Hl as (m & Hl1 & (-> & Hg & Hl2)).
  pose proof (packet_suffix _ _ _ _ _ _ Hp) as Hq.
  pose proof (packet_cons _ _ _ _ Hq) as (_ & _ & _ & Htot & _).
  rewrite Hg; cbn [mbind option_bind]; rewrite Htot.
  rewrite sum_len_app in *; cbn [sum_len] in *.
  destruct (Z.leb_spec (o + len) (pb_len b + sum_len l2)); [|lia].
  destruct (Z.le_gt_cases (o + len) (pb_len b)).
  - destruct (pbuf_take_from_inside h q b l2 data len o) as (h' & -> & Hw); auto; try lia.
    exists h'; split; [done|]. eapply wrote_suffix; eauto; lia.
  - destruct (pbuf_take_from_spill h q b l2 data len o) as (h' & -> & Hw); auto; try lia.
    exists h'; split; [done|]. eapply wrote_suffix; eauto; lia.
Qed.

Lemma pbuf_take_at_too_long h a l data len off :
  packet h (Some a) l -> 0 <= off < 65536 -> 0 <= len -> sum_len l <= off \/ sum_len l < off + len ->
  pbuf_take_at (Some a) data len off h = Some (ERR_MEM, h).
Proof.
  intros Hp Hoff Hlen Hfit; pose proof Hp as [Hl Hnd Ho Htots Hsum]; unfold pbuf_take_at, pbuf_skip.
  rewrite (pbuf_skip_spec _ _ _ _ Hp) by lia; cbn [mbind option_bind].
  destruct (locate l off) as [[q|] o] eqn:E; [|done].
  destruct (locate_Some _ _ _ _ (proj1 Hoff) Ho E) as (l1 & b & l2 & -> & -> & Hr).
  apply lseg_app in Hl as (m & Hl1 & (-> & Hg & Hl2)).
  pose proof (packet_suffix _ _ _ _ _ _ Hp) as Hq.
  pose proof (packet_cons _ _ _ _ Hq) as (_ & _ & _ & Htot & Hp2).
  pose proof Hp2 as [_ _ ?%sum_len_nonneg _ _].
  rewrite Hg; cbn [mbind option_bind]; rewrite Htot.
  rewrite sum_len_app in *; cbn [sum_len] in *.
  by destruct (Z.leb_spec (o + len) (pb_len b + sum_len l2)); [lia|].
Qed.
