(* ===== verification/PbufLife.v ===== *)
(** The life of packets: reference counting, allocation, concatenation and
    shrinking keep the store well formed, free exactly what is no longer
    referenced, and change the packet's content as documented. *)
From S2P Require Import Prelude Pbuf PbufData PbufChain PbufIO.

(** A pbuf that [pbuf_free] gives back to the allocator it came from. *)
Definition pb_std (b : pbuf) : Prop :=
  pb_flags b .& PBUF_FLAG_IS_CUSTOM = 0 /\
  (pbuf_get_allocsrc b = SRC_STD_HEAP \/ pbuf_get_allocsrc b = SRC_STD_MEMP_PBUF \/
   pbuf_get_allocsrc b = SRC_STD_MEMP_PBUF_POOL).

(** The documented effect of [pbuf_free]: the leading pbufs that were
    referenced once disappear, the first other one loses a reference. *)
Fixpoint freed (l : list (addr * pbuf)) : Z :=
  match l with
  | [] => 0
  | (_, b) :: l => if pb_ref b =? 1 then 1 + freed l else 0
  end.

Fixpoint free_heap (l : list (addr * pbuf)) (h : heap) : heap :=
  match l with
  | [] => h
  | (a, b) :: l =>
      if pb_ref b =? 1 then free_heap l (del h a) else put h a (set_ref (pb_ref b - 1) b)
  end.

(** Addresses the allocator has not handed out yet are free. *)
Definition heap_wf (h : heap) : Prop := forall a b, get h a = Some b -> (a < h_next h)%positive.

(** [tot_len] fields of the front part of a packet that goes on for [ext]
    more bytes. *)
Fixpoint tots_ext (ext : Z) (l : list (addr * pbuf)) : Prop :=
  match l with
  | [] => True
  | (_, b) :: l' => pb_tot_len b = pb_len b + sum_len l' + ext /\ tots_ext ext l'
  end.

(** ** Freeing *)
Lemma del_put h a b : del (put h a b) a = del h a.
Proof. unfold del, put; cbn; f_equal. apply delete_insert_eq. Qed.

Lemma lseg_del h p l e a : a ∉ fst <$> l -> lseg h p l e -> lseg (del h a) p l e.
Proof. intros Hn; apply lseg_frame; intros a' Ha'; apply get_del_ne; set_solver. Qed.

Lemma pbuf_dealloc_std cf a b h : pb_std b -> pbuf_dealloc cf a b h = Some (del h a).
Proof.
  intros (Hf & Hs); unfold pbuf_dealloc; rewrite Hf; cbn.
  destruct Hs as [->|[->| ->]]; reflexivity.
Qed.

Lemma pbuf_free_loop_spec cf h p l count fuel :
  lseg h p l None -> NoDup (fst <$> l) -> Forall (fun c => pb_ok c.2 /\ pb_std c.2) l ->
  (length l < fuel)%nat ->
  pbuf_free_loop cf fuel p (u8 count) h = Some (u8 (count + freed l), free_heap l h).
Proof.
  revert h p count fuel; induction l as [|[a b] l IH]; intros h p count fuel Hl Hnd Ho Hf.
  - cbn in *; subst; rewrite Z.add_0_r; by destruct fuel.
  - destruct Hl as (-> & Hg & Hl); destruct fuel as [|fuel]; [cbn in Hf; lia|].
    apply Forall_cons in Ho as [[(? & ? & ? & Hr) Hstd] Ho].
    rewrite fmap_cons in Hnd; apply NoDup_cons in Hnd as [Ha Hnd]; cbn [fst snd] in *.
    cbn [pbuf_free_loop freed free_heap]; rewrite Hg; cbn [mbind option_bind].
    rewrite (u8_small (pb_ref b - 1)) by lia.
    destruct (Z.eqb_spec (pb_ref b - 1) 0), (Z.eqb_spec (pb_ref b) 1); try lia.
    + rewrite pbuf_dealloc_std by done; cbn [mbind option_bind]. rewrite del_put.
      replace (u8 (u8 count + 1)) with (u8 (count + 1)) by (unfold u8; by rewrite Zplus_mod_idemp_l).
      rewrite IH; [do 2 f_equal; f_equal; lia|by apply lseg_del|done|done|cbn in Hf; lia].
    + by rewrite Z.add_0_r.
Qed.

Lemma pbuf_free_spec cf h p l :
  lseg h p l None -> NoDup (fst <$> l) -> Forall (fun c => pb_ok c.2 /\ pb_std c.2) l ->
  pbuf_free cf p h = Some (u8 (freed l), free_heap l h).
Proof.
  intros; unfold pbuf_free. change 0 with (u8 0) at 1.
  rewrite (pbuf_free_loop_spec cf h p l 0) by eauto using lseg_length. done.
Qed.

Lemma free_heap_frame l h x : x ∉ fst <$> l -> get (free_heap l h) x = get h x.
Proof.
  revert h; induction l as [|[a b] l IH]; intros h Hx; [done|].
  rewrite fmap_cons in Hx; cbn in *. destruct (_ =? _).
  - rewrite IH by set_solver. apply get_del_ne; set_solver.
  - apply get_put_ne; set_solver.
Qed.

Lemma free_heap_all l h x :
  NoDup (fst <$> l) -> Forall (fun c => pb_ref c.2 = 1) l -> x ∈ fst <$> l -> get (free_heap l h) x = None.
Proof.
  revert h; induction l as [|[a b] l IH]; intros h; [set_solver|].
  rewrite fmap_cons; intros [Ha Hn]%NoDup_cons [Hr Ho]%Forall_cons Hx; cbn in *.
  rewrite Hr; cbn. destruct (decide (x ∈ fst <$> l)); [by apply IH|].
  rewrite free_heap_frame by done. assert (x = a) as -> by set_solver. apply get_del_eq.
Qed.

Lemma free_heap_next l h : h_next (free_heap l h) = h_next h.
Proof.
  revert h; induction l as [|[a b] l IH]; intros h; cbn; [done|].
  destruct (_ =? _); [by rewrite IH|done].
Qed.

Lemma free_heap_orc l h : h_orc (free_heap l h) = h_orc h.
Proof.
  revert h; induction l as [|[a b] l IH]; intros h; cbn; [done|].
  destruct (_ =? _); [by rewrite IH|done].
Qed.

(** ** Concatenation *)
Lemma tots_ext_0 l : tots_ext 0 l <-> tots_ok l.
Proof. induction l as [|[a b] l IH]; cbn; [done|]. rewrite IH; intuition lia. Qed.

Lemma tots_ext_app ext l k : tots_ext (sum_len k + ext) l -> tots_ext ext k -> tots_ext ext (l ++ k).
Proof.
  induction l as [|[a b] l IH]; cbn; [done|]. intros [-> ?] ?; rewrite sum_len_app.
  split; [lia|auto].
Qed.

(** What [pbuf_cat] does to the cells of its first argument. *)
Fixpoint cat_cells (l : list (addr * pbuf)) (t : addr) (n : Z) : list (addr * pbuf) :=
  match l with
  | [] => []
  | [(a, b)] => [(a, set_next (Some t) (set_tot_len (pb_tot_len b + n) b))]
  | (a, b) :: l => (a, set_tot_len (pb_tot_len b + n) b) :: cat_cells l t n
  end.

Lemma cat_cells_fst l t n : fst <$> cat_cells l t n = fst <$> l.
Proof. induction l as [|[a b] [|c l] IH]; [done|done|]. cbn in *; by f_equal. Qed.

Lemma cat_cells_sum l t n : sum_len (cat_cells l t n) = sum_len l.
Proof. induction l as [|[a b] [|c l] IH]; [done|done|]. cbn in *; lia. Qed.

Lemma cat_cells_content l t n : content (cat_cells l t n) = content l.
Proof. induction l as [|[a b] [|c l] IH]; [done|done|]. unfold content in *; cbn in *; by f_equal. Qed.

Lemma cat_cells_ok l t n : Forall (fun c => pb_ok c.2) l -> Forall (fun c => pb_ok c.2) (cat_cells l t n).
Proof.
  induction l as [|[a b] [|c l] IH]; [done|..]; intros [Hb Ho]%Forall_cons; constructor;
    solve [exact Hb | constructor | exact (IH Ho)].
Qed.

Lemma cat_cells_tots l t n : tots_ok l -> tots_ext n (cat_cells l t n).
Proof.
  induction l as [|[a b] [|c l] IH]; [done|..].
  - intros [H _]; cbn in *; split; [lia|done].
  - intros [Ht Hts]. specialize (IH Hts). change (cat_cells ((a, b) :: c :: l) t n) with
      ((a, set_tot_len (pb_tot_len b + n) b) :: cat_cells (c :: l) t n).
    cbn [tots_ext]; split; [|done]. rewrite cat_cells_sum; cbn [pb_tot_len set_tot_len pb_len]; lia.
Qed.

(** The loop of [pbuf_cat] followed by the linking of the last pbuf. *)
Lemma pbuf_cat_loop_spec h p l t tb fuel :
  lseg h (Some p) l None -> NoDup (fst <$> l) -> t ∉ fst <$> l -> get h t = Some tb ->
  Forall (fun c => 0 <= pb_tot_len c.2 + pb_tot_len tb < 65536) l -> (length l < fuel)%nat ->
  exists q qb h', pbuf_cat_loop fuel p t h = Some (q, h') /\ get h' q = Some qb /\ q ∈ fst <$> l /\
    0 <= pb_tot_len qb + pb_tot_len tb < 65536 /\
    lseg (put h' q (set_next (Some t) (set_tot_len (pb_tot_len qb + pb_tot_len tb) qb)))
      (Some p) (cat_cells l t (pb_tot_len tb)) (Some t) /\
    forall x, x ∉ fst <$> l -> get h' x = get h x.
Proof.
  revert h p fuel; induction l as [|[a b] l IH]; intros h p fuel; [done|].
  intros ([= ->] & Hg & Hl) Hnd Ht Htb Ho Hf; destruct fuel as [|fuel]; [cbn in Hf; lia|].
  rewrite fmap_cons in *; apply NoDup_cons in Hnd as [Ha Hnd]; cbn [fst] in *.
  apply Forall_cons in Ho as [Hb Ho]; cbn [snd] in Hb.
  cbn [pbuf_cat_loop]; rewrite Hg; cbn [mbind option_bind].
  destruct (pb_next b) as [n|] eqn:En.
  - rewrite Htb; cbn [mbind option_bind]. rewrite u16_small by lia.
    destruct l as [|c l]; [done|].
    destruct (IH (put h a (set_tot_len (pb_tot_len b + pb_tot_len tb) b)) n fuel)
      as (q & qb & h' & -> & Hq & Hql & Hr & Hs & Hfr); auto.
    { by apply lseg_put. } { set_solver. }
    { rewrite get_put_ne by set_solver; done. } { cbn in *; lia. }
    exists q, qb, h'; split_and!; auto; try lia; [set_solver| |].
    + change (cat_cells ((a, b) :: c :: l) t (pb_tot_len tb)) with
        ((a, set_tot_len (pb_tot_len b + pb_tot_len tb) b) :: cat_cells (c :: l) t (pb_tot_len tb)).
      cbn [lseg pb_next set_tot_len]; split_and!; [done| |by rewrite En].
      rewrite get_put_ne by set_solver. rewrite Hfr by done. apply get_put_eq.
    + intros x Hx; rewrite Hfr by set_solver. apply get_put_ne; set_solver.
  - destruct l as [|[a' b'] l']; [|by destruct Hl as (? & _)]. exists a, b, h; split_and!; auto; try lia; [set_solver|].
    cbn. split_and!; auto. apply get_put_eq.
Qed.

(** The packet [pbuf_cat] builds. *)
Lemma pbuf_cat_ok h p t l k :
  packet h (Some p) l -> packet h (Some t) k -> (forall x, x ∈ fst <$> l -> x ∉ fst <$> k) ->
  sum_len l + sum_len k < 65536 ->
  exists h', pbuf_cat (Some p) (Some t) h = Some h' /\
    packet h' (Some p) (cat_cells l t (sum_len k) ++ k) /\
    forall x, x ∉ fst <$> l -> get h' x = get h x.
Proof.
  intros Hp Hk Hd Hs; pose proof (packet_tot _ _ _ Hk) as (tb & Htb & Htot).
  pose proof Hp as [Hl Hnd Ho Hts _]; pose proof Hk as [Hlk Hndk Hok Htk _].
  assert (t ∉ fst <$> l) as Htl.
  { intros Hin; apply (Hd t Hin). destruct k as [|[a b] k]; [cbn in Hlk; done|].
    destruct Hlk as ([= ->] & _); set_solver. }
  assert (Forall (fun c => 0 <= pb_tot_len c.2 + pb_tot_len tb < 65536) l) as Hbnd.
  { rewrite Htot; pose proof (sum_len_nonneg _ Hok). clear -Ho Hts Hs H.
    induction l as [|[a b] l IH]; constructor; apply Forall_cons in Ho as [(? & _) Ho]; destruct Hts as [E Hts];
      cbn in *; pose proof (sum_len_nonneg _ Ho); [lia|apply IH; auto; lia]. }
  destruct (pbuf_cat_loop_spec h p l t tb (chain_fuel h)) as (q & qb & h' & E & Hq & Hql & Hr & Hs' & Hfr);
    eauto using lseg_length.
  unfold pbuf_cat; rewrite E; cbn [mbind option_bind].
  rewrite (Hfr t), Htb by done; cbn [mbind option_bind]. rewrite Hq; cbn [mbind option_bind].
  rewrite u16_small by lia. eexists; split; [done|]; split.
  - rewrite Htot in *. constructor.
    + apply lseg_app; exists (Some t); split; [done|]. eapply lseg_frame; [|done].
      intros x Hx; rewrite get_put_ne by set_solver. apply Hfr; set_solver.
    + rewrite fmap_app, cat_cells_fst. apply NoDup_app; naive_solver.
    + apply Forall_app; split; auto using cat_cells_ok.
    + apply tots_ext_0, tots_ext_app; [|by apply tots_ext_0].
      rewrite Z.add_0_r; by apply cat_cells_tots.
    + rewrite sum_len_app, cat_cells_sum; lia.
  - intros x Hx; rewrite get_put_ne by set_solver. by apply Hfr.
Qed.

(** ** Allocation *)

(** The cells [l] are what [h] has more than [h0]. *)
Definition fresh_cells (h0 h : heap) (l : list (addr * pbuf)) : Prop :=
  (forall x, x ∉ fst <$> l -> get h x = get h0 x) /\ (forall x, x ∈ fst <$> l -> get h0 x = None).

(** A pbuf as allocation leaves it: usable, standard, referenced once. *)
Definition pb_new (b : pbuf) : Prop := pb_ok b /\ pb_std b /\ pb_ref b = 1.

Lemma mem_malloc_spec size h r h' :
  0 <= size -> mem_malloc size h = (r, h') ->
  (forall x, get h' x = get h x) /\
  match r with
  | None => h_next h' = h_next h
  | Some (q, m) => q = h_next h /\ h_next h' = Pos.succ (h_next h) /\ zlen m = size
  end.
Proof.
  intros Hs; unfold mem_malloc; destruct (h_orc h) as [|[c|] o]; intros [= <- <-]; split; try done.
  split_and!; [done..|]. by apply zlen_resize.
Qed.

Lemma pool_is_empty_pbufs h : h_pbufs (pbuf_pool_is_empty h) = h_pbufs h /\
  h_next (pbuf_pool_is_empty h) = h_next h.
Proof.
  unfold pbuf_pool_is_empty, try_callback; destruct (h_ooseq_pending h); cbn; [done|].
  by destruct (h_try_callback h) as [|[] ?].
Qed.

Lemma align4_bound n : n <= align4 n <= n + 3.
Proof.
  unfold align4. change (Z.lnot 3) with (Z.lnot (Z.ones 2)).
  rewrite <- Z.ldiff_land, Z.ldiff_ones_r, Z.shiftr_div_pow2, Z.shiftl_mul_pow2 by lia.
  change (2 ^ 2) with 4. pose proof (Z.div_mod (n + 3) 4); pose proof (Z.mod_pos_bound (n + 3) 4); lia.
Qed.

(** A pool pbuf of [rem] remaining bytes behind [off] bytes of headers. *)
Lemma pool_pbuf_new m off rem :
  zlen m = PBUF_POOL_BUFSIZE_ALIGNED -> 0 <= off <= 74 -> 0 <= rem < 65536 ->
  let qlen := Z.min rem (u16 (PBUF_POOL_BUFSIZE_ALIGNED - align4 off)) in
  (0 < rem -> 0 < qlen) /\ 0 <= qlen <= rem /\
  pb_new (pbuf_init_alloced_pbuf m (align4 off) rem qlen PBUF_POOL 0).
Proof.
  intros Hm Ho Hr qlen; pose proof (align4_bound off); unfold PBUF_POOL_BUFSIZE_ALIGNED in *.
  assert (qlen = Z.min rem (1516 - align4 off)) as -> by (subst qlen; rewrite u16_small by lia; done).
  split_and!; try lia. unfold pb_new, pb_ok, pb_std; cbn. split_and!; try lia; try done.
  right; right; reflexivity.
Qed.

Lemma lseg_snoc h p l0 la lb q b :
  lseg h p (l0 ++ [(la, lb)]) None -> q ∉ fst <$> (l0 ++ [(la, lb)]) ->
  NoDup (fst <$> (l0 ++ [(la, lb)])) -> pb_next b = None ->
  lseg (put (put h q b) la (set_next (Some q) lb)) p (l0 ++ [(la, set_next (Some q) lb); (q, b)]) None.
Proof.
  rewrite !fmap_app; cbn. intros Hl Hq (Hn0 & Hla & _)%NoDup_app Hb.
  apply lseg_app in Hl as (m & Hl0 & (-> & Hg & Hx)); cbn in Hx.
  apply lseg_app; exists (Some la); split.
  - apply lseg_put; [set_solver|]. apply lseg_put; [set_solver|done].
  - cbn; split_and!; auto; [apply get_put_eq|].
    rewrite get_put_ne by set_solver. apply get_put_eq.
Qed.

Lemma tots_ext_snoc l b ext q :
  tots_ext (pb_len b + ext) l -> pb_tot_len b = pb_len b + ext -> tots_ext ext (l ++ [(q, b)]).
Proof.
  intros Hl Hb; apply tots_ext_app; cbn; [by rewrite Z.add_0_r|].
  split; [rewrite Hb; lia|done].
Qed.

Lemma tots_ext_set_next ext l0 la lb n :
  tots_ext ext (l0 ++ [(la, lb)]) -> tots_ext ext (l0 ++ [(la, set_next n lb)]).
Proof.
  induction l0 as [|[a b] l0 IH]; cbn; [done|]. rewrite !sum_len_app; cbn.
  intros [-> ?]; auto.
Qed.

(** The state between two turns of the allocation loop: [l] is allocated,
    [rem] bytes are to come. *)
Record pool_inv (h0 h : heap) (p last : option addr) (l : list (addr * pbuf)) (rem : Z) : Prop := PoolInv {
  pi_lseg : lseg h p l None;
  pi_nodup : NoDup (fst <$> l);
  pi_new : Forall (fun c => pb_new c.2) l;
  pi_tots : tots_ext rem l;
  pi_last : last = fst <$> list.last l;
  pi_fresh : fresh_cells h0 h l;
  pi_wf : heap_wf h;
}.

Lemma pool_inv_first h0 h1 q b rem :
  heap_wf h0 -> q = h_next h0 -> h_next h1 = Pos.succ q -> (forall x, get h1 x = get h0 x) ->
  pb_new b -> pb_next b = None -> pb_tot_len b = pb_len b + rem ->
  pool_inv h0 (put h1 q b) (Some q) (Some q) [(q, b)] rem.
Proof.
  intros Hwf -> Hn Hg Hb Hnx Ht.
  assert (get h0 (h_next h0) = None) as Hq.
  { destruct (get h0 (h_next h0)) eqn:E; [|done]. apply Hwf in E; lia. }
  constructor; cbn.
  - split_and!; auto using get_put_eq.
  - apply NoDup_singleton.
  - by constructor.
  - split; [lia|done].
  - done.
  - split; intros x Hx; cbn in Hx; [rewrite get_put_ne by set_solver; auto|].
    assert (x = h_next h0) as -> by set_solver; done.
  - intros x c; destruct (decide (h_next h0 = x)) as [<-|]; cbn; rewrite Hn; [lia|].
    rewrite get_put_ne by done. rewrite Hg; intros ?%Hwf; lia.
Qed.

Lemma pool_inv_next h0 h h1 p l q b rem :
  pool_inv h0 h p (fst <$> list.last l) l (pb_len b + rem) -> heap_wf h0 -> l <> [] ->
  q = h_next h -> (h_next h0 <= q)%positive -> h_next h1 = Pos.succ q -> (forall x, get h1 x = get h x) ->
  pb_new b -> pb_next b = None -> pb_tot_len b = pb_len b + rem ->
  exists la lb l', list.last l = Some (la, lb) /\ get (put h1 q b) la = Some lb /\
    sum_len l' = sum_len l + pb_len b /\ l' <> [] /\ fst <$> list.last l' = Some q /\
    pool_inv h0 (put (put h1 q b) la (set_next (Some q) lb)) p (Some q) l' rem.
Proof.
  intros [Hl Hnd Hnw Ht _ [Hf1 Hf2] Hwf] Hwf0 Hne -> Hle Hn Hg Hb Hnx Htb.
  destruct (exists_last Hne) as (l0 & [la lb] & ->).
  assert (h_next h ∉ fst <$> (l0 ++ [(la, lb)])) as Hq.
  { intros ([a' b'] & E & Hin)%list_elem_of_fmap; cbn in E; subst.
    pose proof (lseg_get _ _ _ _ _ _ Hl Hin) as E%Hwf; lia. }
  assert (get h0 (h_next h) = None) as Hq0.
  { destruct (get h0 (h_next h)) eqn:E; [|done]. apply Hwf0 in E; lia. }
  assert (get h la = Some lb) as Hla by (eapply lseg_get; [done|set_solver]).
  assert (h_next h <> la) by set_solver.
  exists la, lb, (l0 ++ [(la, set_next (Some (h_next h)) lb); (h_next h, b)]).
  rewrite last_snoc, !sum_len_app; cbn.
  split_and!; try lia; [done|rewrite get_put_ne by done; by rewrite Hg|by destruct l0|
    by rewrite last_app|].
  constructor.
  - apply lseg_snoc; auto. eapply lseg_frame; [|done]; auto.
  - rewrite fmap_app in *; cbn in *. apply NoDup_app in Hnd as (? & ? & _).
    apply NoDup_app; split_and!; [done| |]; [set_solver|].
    apply NoDup_cons; split; [set_solver|apply NoDup_singleton].
  - apply Forall_app in Hnw as [? [? _]%Forall_cons]. apply Forall_app; split; [done|].
    constructor; [done|]. by constructor.
  - rewrite cons_middle, app_assoc. apply tots_ext_snoc; [|done]. by apply tots_ext_set_next.
  - by rewrite last_app.
  - split; intros x Hx; rewrite fmap_app in *; cbn in Hx.
    + rewrite !get_put_ne by set_solver. rewrite Hg; apply Hf1; set_solver.
    + destruct (decide (x = h_next h)) as [->|]; [done|]. apply Hf2; set_solver.
  - intros x c; cbn; rewrite Hn. destruct (decide (la = x)) as [<-|Hx]; [apply Hwf in Hla; lia|].
    rewrite get_put_ne by done. destruct (decide (h_next h = x)) as [<-|]; [lia|].
    rewrite get_put_ne by done. rewrite Hg; intros ?%Hwf; lia.
Qed.

(** What an allocation of [n] bytes may do to a store: a fresh packet of that
    length, or NULL and nothing allocated. *)
Definition alloc_outcome (h0 : heap) (n : Z) (r : option addr) (h' : heap) : Prop :=
  heap_wf h' /\
  match r with
  | Some a => exists l, packet h' (Some a) l /\ sum_len l = n /\
                Forall (fun c => pb_new c.2) l /\ fresh_cells h0 h' l
  | None => h_pbufs h' = h_pbufs h0
  end.

Lemma heap_wf_ext h h' :
  h_next h' = h_next h -> (forall x, get h' x = get h x \/ get h' x = None) -> heap_wf h -> heap_wf h'.
Proof. intros Hn Hg Hwf a b Ha; rewrite Hn; destruct (Hg a) as [E|E]; rewrite E in Ha; eauto; done. Qed.

(** Running out of pool pbufs frees the chain built so far. *)
Lemma pool_inv_fail cf h0 h p last l rem :
  pool_inv h0 h p last l rem ->
  exists n h', pbuf_free cf p h = Some (n, h') /\ h_pbufs h' = h_pbufs h0 /\ heap_wf h'.
Proof.
  intros [Hl Hnd Hnw _ _ [Hf1 Hf2] Hwf].
  assert (Forall (fun c => pb_ref c.2 = 1) l) as Hr by (eapply Forall_impl; [exact Hnw|]; by intros ? (_ & _ & ?)).
  exists (u8 (freed l)), (free_heap l h); split_and!.
  - apply pbuf_free_spec; auto. eapply Forall_impl; [exact Hnw|]. by intros ? (? & ? & _).
  - apply map_eq; intros x. destruct (decide (x ∈ fst <$> l)) as [Hx|Hx].
    + transitivity (@None pbuf); [by apply free_heap_all|symmetry; by apply Hf2].
    + transitivity (get h x); [by apply free_heap_frame|by apply Hf1].
  - eapply heap_wf_ext; [apply free_heap_next| |done]. intros x.
    destruct (decide (x ∈ fst <$> l)); [right; by apply free_heap_all|left; by apply free_heap_frame].
Qed.

Lemma pool_inv_malloc h0 h p last l rem h' :
  pool_inv h0 h p last l rem -> (forall x, get h' x = get h x) -> h_next h' = h_next h ->
  pool_inv h0 h' p last l rem.
Proof.
  intros [Hl Hnd Hnw Ht Hla [Hf1 Hf2] Hwf] Hg Hn; constructor; auto.
  - eapply lseg_frame; [|done]; auto.
  - split; [|done]. intros x Hx; rewrite Hg; auto.
  - eapply heap_wf_ext; [done| |done]; auto.
Qed.

Lemma pool_inv_done h0 h p last l :
  pool_inv h0 h p last l 0 -> sum_len l < 65536 -> packet h p l.
Proof.
  intros [Hl Hnd Hnw Ht _ _ _] Hs; constructor; auto.
  - eapply Forall_impl; [exact Hnw|]. by intros ? (? & _).
  - by apply tots_ext_0.
Qed.

(** One turn of the allocation loop that got a pbuf. *)
Lemma pool_inv_step h0 h h1 p l q b rem :
  heap_wf h0 -> pool_inv h0 h p (fst <$> list.last l) l (pb_len b + rem) ->
  (h_next h0 <= h_next h)%positive -> (p = None <-> l = []) -> (l = [] -> h = h0) ->
  q = h_next h -> h_next h1 = Pos.succ (h_next h) -> (forall x, get h1 x = get h x) ->
  pb_new b -> pb_next b = None -> pb_tot_len b = pb_len b + rem ->
  exists a h2 l2, pbuf_pool_link p (fst <$> list.last l) q (put h1 q b) = Some (Some a, h2) /\
    sum_len l2 = sum_len l + pb_len b /\ l2 <> [] /\ fst <$> list.last l2 = Some q /\
    h_next h2 = Pos.succ (h_next h) /\ pool_inv h0 h2 (Some a) (Some q) l2 rem.
Proof.
  intros Hwf0 Hi Hle Hpl Hnil Hq Hn1 Hg Hnew Hnx Htb.
  destruct (decide (l = [])) as [->|Hne].
  - rewrite (proj2 Hpl eq_refl) in *. specialize (Hnil eq_refl) as ->.
    exists q, (put h1 q b), [(q, b)]; split_and!; try done; [cbn; lia|].
    apply pool_inv_first; auto. by rewrite Hq.
  - destruct p as [a|]; [|by destruct Hne; apply Hpl].
    destruct (pool_inv_next h0 h h1 (Some a) l q b rem)
      as (la & lb & l2 & El & Egl & Hs & Hne2 & Hla2 & Hi2); auto; try by rewrite Hq.
    exists a, (put (put h1 q b) la (set_next (Some q) lb)), l2.
    unfold pbuf_pool_link; rewrite El; cbn [fmap option_fmap option_map fst mbind option_bind].
    rewrite Egl; cbn [mbind option_bind]. split_and!; auto.
Qed.

Lemma pbuf_alloc_pool_spec cf h0 fuel :
  heap_wf h0 -> forall h p l rem off,
  pool_inv h0 h p (fst <$> list.last l) l rem -> (h_next h0 <= h_next h)%positive ->
  (p = None <-> l = []) -> (l = [] -> h = h0) ->
  0 <= rem < 65536 -> (l <> [] -> 0 < rem) -> sum_len l + rem < 65536 -> 0 <= off <= 74 ->
  (Z.to_nat rem < fuel)%nat ->
  exists r h', pbuf_alloc_pool cf fuel p (fst <$> list.last l) rem off h = Some (r, h') /\
    alloc_outcome h0 (sum_len l + rem) r h'.
Proof.
  intros Hwf0; induction fuel as [|fuel IH]; intros h p l rem off Hi Hle Hpl Hnil Hrem Hpos Hsum Hoff Hf; [lia|].
  cbn [pbuf_alloc_pool]. destruct (mem_malloc PBUF_POOL_BUFSIZE_ALIGNED h) as [r h1] eqn:Em.
  apply mem_malloc_spec in Em as [Hg Hr]; [|unfold PBUF_POOL_BUFSIZE_ALIGNED; lia].
  destruct r as [[q m]|].
  - destruct Hr as (Hq & Hn1 & Hm).
    destruct (pool_pbuf_new m off rem Hm Hoff Hrem) as (Hq0 & Hqr & Hnew).
    set (qlen := Z.min rem (u16 (PBUF_POOL_BUFSIZE_ALIGNED - align4 off))) in *.
    set (b := pbuf_init_alloced_pbuf m (align4 off) rem qlen PBUF_POOL 0) in *.
    rewrite (u16_small (rem - qlen)) by lia.
    destruct (pool_inv_step h0 h h1 p l q b (rem - qlen)) as (a & h2 & l2 & -> & Hs2 & Hne2 & Hla2 & Hn2 & Hi2);
      auto; try (cbn; lia). { by replace (pb_len b + (rem - qlen)) with rem by (cbn; lia). }
    cbn [mbind option_bind]. change (pb_len b) with qlen in Hs2.
    destruct (Z.ltb_spec 0 (rem - qlen)).
    + rewrite <- Hla2. destruct (IH h2 (Some a) l2 (rem - qlen) 0) as (r & h' & E & Ho); auto; try lia.
      { by rewrite Hla2. } { naive_solver. } { done. }
      exists r, h'; split; [done|]. by replace (sum_len l + rem) with (sum_len l2 + (rem - qlen)) by lia.
    + replace (rem - qlen) with 0 in Hi2 by lia.
      pose proof (pool_inv_done _ _ _ _ _ Hi2 ltac:(lia)) as Hpk.
      destruct Hi2 as [_ _ Hnw _ _ Hfr Hwf].
      exists (Some a), h2; split; [done|]. split; [done|]. exists l2; split_and!; [done|lia|done|done].
  - destruct (pool_is_empty_pbufs h1) as [E1 E2].
    assert (pool_inv h0 (pbuf_pool_is_empty h1) p (fst <$> list.last l) l rem) as Hi'.
    { eapply pool_inv_malloc; [done| |by rewrite E2]. intros x; rewrite <- Hg; unfold get; by rewrite E1. }
    destruct (pool_inv_fail cf _ _ _ _ _ _ Hi') as (n & h' & E & Hh & Hwf).
    destruct p as [a|].
    + rewrite E; cbn. exists None, h'; split; [done|]. split; done.
    + cbn in E. injection E as <- <-. exists None, (pbuf_pool_is_empty h1); split; [done|]. split; done.
Qed.

Lemma pool_inv_start h : heap_wf h -> forall rem, pool_inv h h None None [] rem.
Proof.
  intros; constructor; try done; [constructor..|]. split; [done|]. intros x Hx; set_solver.
Qed.

Lemma pbuf_alloc_pool_ok cf layer length h :
  heap_wf h -> 0 <= layer <= 74 -> 0 <= length < 65536 ->
  exists r h', pbuf_alloc cf layer length PBUF_POOL h = Some (r, h') /\ alloc_outcome h length r h'.
Proof.
  intros Hwf Hl Hn; unfold pbuf_alloc; cbn [Z.eqb Pos.eqb orb PBUF_POOL PBUF_REF PBUF_ROM].
  rewrite u16_small by lia.
  apply (pbuf_alloc_pool_spec cf h (S (Z.to_nat length)) Hwf h None [] length layer);
    try done; try (cbn; lia); by apply pool_inv_start.
Qed.

Lemma pbuf_alloc_ram_ok cf layer length h :
  heap_wf h -> 0 <= layer <= 74 -> 0 <= length < 65536 ->
  exists r h', pbuf_alloc cf layer length PBUF_RAM h = Some (r, h') /\ alloc_outcome h length r h'.
Proof.
  intros Hwf Hl Hn; unfold pbuf_alloc; cbn [Z.eqb Pos.eqb orb PBUF_POOL PBUF_REF PBUF_ROM PBUF_RAM].
  rewrite (u16_small layer) by lia.
  pose proof (align4_bound layer); pose proof (align4_bound length).
  set (pl := u16 (align4 layer + align4 length)).
  pose proof (u16_range (align4 layer + align4 length)) as Hpl; fold pl in Hpl.
  destruct (_ || _) eqn:Ec; [exists None, h; by split|].
  apply orb_false_iff in Ec as [Ec _]; apply Z.ltb_ge in Ec.
  assert (pl = align4 layer + align4 length) as Epl.
  { subst pl; unfold u16 in *. pose proof (Z.mod_le (align4 layer + align4 length) (2 ^ 16)).
    pose proof (Z.div_mod (align4 layer + align4 length) (2 ^ 16)). nia. }
  destruct (mem_malloc pl h) as [r h1] eqn:Em.
  apply mem_malloc_spec in Em as [Hg Hr]; [|lia].
  destruct r as [[q m]|].
  - destruct Hr as (Hq & Hn1 & Hm). eexists (Some q), _; split; [done|].
    set (b := pbuf_init_alloced_pbuf m (align4 layer) length length PBUF_RAM 0).
    assert (pb_new b) as Hb.
    { unfold pb_new, pb_ok, pb_std; cbn; split_and!; try lia; try done. left; reflexivity. }
    pose proof (pool_inv_first h h1 q b 0 Hwf Hq ltac:(by rewrite Hq) Hg Hb eq_refl ltac:(cbn; lia)) as Hi.
    pose proof (pool_inv_done _ _ _ _ _ Hi ltac:(cbn; lia)) as Hpk.
    destruct Hi as [_ _ Hnw _ _ Hfr Hwf']. split; [done|].
    exists [(q, b)]; split_and!; try done. cbn; lia.
  - exists None, h1; split; [done|]. split.
    + eapply heap_wf_ext; [done| |done]; auto.
    + apply map_eq; intros x; apply Hg.
Qed.

(** ** Shrinking *)

(** A pbuf that shrinking keeps: the same one, not longer. *)
Definition trimmed (x y : addr * pbuf) : Prop :=
  y.1 = x.1 /\ exists n t l, 0 <= l <= pb_len x.2 /\ y.2 = set_next n (set_tot_len t (set_len l x.2)).

(** The loop of [pbuf_realloc] stops at the pbuf where the new end lies. *)
Lemma pbuf_realloc_loop_spec h q l rem shrink fuel :
  lseg h (Some q) l None -> NoDup (fst <$> l) -> Forall (fun c => pb_ok c.2) l -> tots_ok l ->
  0 <= rem -> shrink = sum_len l - rem -> 0 < shrink -> sum_len l < 65536 -> (length l < fuel)%nat ->
  exists l1 l1' e b l2 h' r, pbuf_realloc_loop fuel q rem shrink h = Some (e, r, h') /\
    l = l1 ++ (e, b) :: l2 /\ rem = sum_len l1 + r /\ 0 <= r <= pb_len b /\
    lseg h' (Some q) l1' (Some e) /\ get h' e = Some b /\
    fst <$> l1' = fst <$> l1 /\ content l1' = content l1 /\ sum_len l1' = sum_len l1 /\
    Forall (fun c => pb_ok c.2) l1' /\ tots_ext r l1' /\
    (forall x, x ∉ fst <$> l1 -> get h' x = get h x) /\
    Forall2 trimmed l1 l1' /\ Forall2 (fun c c' => pb_len c'.2 = pb_len c.2) l1 l1' /\ (l1 = [] \/ 0 < r) /\ h_next h' = h_next h.
Proof.
  revert h q rem fuel; induction l as [|[a b] l IH]; intros h q rem fuel; [done|].
  intros ([= ->] & Hg & Hl) Hnd Ho [Ht Hts] Hrem Hsh Hpos Hs Hf; destruct fuel as [|fuel]; [cbn in Hf; lia|].
  rewrite fmap_cons in *; apply NoDup_cons in Hnd as [Ha Hnd]; cbn [fst sum_len] in *.
  apply Forall_cons in Ho as [Hb Ho]; cbn [snd] in Hb; pose proof Hb as (? & _).
  pose proof (sum_len_nonneg _ Ho).
  cbn [pbuf_realloc_loop]; rewrite Hg; cbn [mbind option_bind].
  destruct (Z.ltb_spec (pb_len b) rem).
  - destruct l as [|[n nb] l]; [cbn in *; lia|]. destruct Hl as (En & Hln). rewrite En; cbn [mbind option_bind].
    rewrite (u16_small (rem - pb_len b)), (u16_small (pb_tot_len b - shrink)) by lia.
    set (b' := set_tot_len (pb_tot_len b - shrink) b).
    destruct (IH (put h a b') n (rem - pb_len b) fuel) as
      (l1 & l1' & e & eb & l2 & h' & r & -> & El & Er & Hr & Hl1 & He & Hf1 & Hc1 & Hs1 & Ho1 & Ht1 & Hfr & Htr & Hle & Hr0 & Hnx);
      auto; try lia.
    { apply lseg_put; [done|]. by split. } { cbn in *; lia. }
    rewrite El in *. rewrite fmap_app, fmap_cons in Ha.
    exists ((a, b) :: l1), ((a, b') :: l1'), e, eb, l2, h', r; split_and!; auto; try lia.
    + cbn [sum_len]; lia.
    + cbn; split_and!; auto; [|by rewrite En]. rewrite Hfr by set_solver. apply get_put_eq.
    + rewrite !fmap_cons; by f_equal.
    + rewrite !content_cons; by f_equal.
    + cbn [sum_len]; rewrite Hs1; cbn; lia.
    + cbn [tots_ext]; split; [|done]. cbn. rewrite Hs1. cbn in Hsh. lia.
    + intros x; rewrite fmap_cons; intros Hx. rewrite Hfr by set_solver. apply get_put_ne; set_solver.
    + constructor; [|done]. split; [done|]. exists (pb_next b), (pb_tot_len b - shrink), (pb_len b). split; [cbn; lia|].
      by destruct b.
    + right. destruct Hr0 as [->|?]; [cbn in Er; lia|done].
  - exists [], [], a, b, l, h, rem; split_and!; auto; try done; lia.
Qed.

(** The pbuf a shrunk packet ends with. *)
Definition cut_pbuf (r : Z) (b : pbuf) : pbuf := set_next None (set_tot_len r (set_len r b)).

Lemma cut_pbuf_bytes r b : pb_ok b -> 0 <= r <= pb_len b -> pb_bytes (cut_pbuf r b) = ztake r (pb_bytes b).
Proof. intros (? & ? & ? & ?) ?; unfold pb_bytes; cbn. rewrite ztake_ztake; f_equal; lia. Qed.

Lemma cut_content l1 e b l2 r :
  Forall (fun c => pb_ok c.2) (l1 ++ (e, b) :: l2) -> 0 <= r <= pb_len b ->
  content (l1 ++ [(e, cut_pbuf r b)]) = ztake (sum_len l1 + r) (content (l1 ++ (e, b) :: l2)).
Proof.
  intros [Ho1 [Hb _]%Forall_cons]%Forall_app Hr; cbn [snd] in *.
  pose proof (content_len _ Ho1) as Hcl.
  rewrite !content_app, !content_cons, cut_pbuf_bytes by (done || lia).
  rewrite ztake_app_ge by lia. rewrite Hcl; replace (sum_len l1 + r - sum_len l1) with r by lia.
  rewrite ztake_app_le by (rewrite pb_bytes_len by done; lia). f_equal. by rewrite app_nil_r.
Qed.

Lemma cut_packet h a l e b r :
  lseg h (Some a) l (Some e) -> get h e = Some (cut_pbuf r b) -> NoDup (fst <$> l) -> e ∉ fst <$> l ->
  Forall (fun c => pb_ok c.2) l -> tots_ext r l -> pb_ok b -> 0 <= r <= pb_len b -> sum_len l + r < 65536 ->
  packet h (Some a) (l ++ [(e, cut_pbuf r b)]).
Proof.
  intros Hl He Hnd Hel Ho Ht (? & ? & ? & ?) Hr Hs; constructor.
  - apply lseg_app; exists (Some e); split; [done|]. cbn; split_and!; auto.
  - rewrite fmap_app; apply NoDup_app; split_and!; [done|set_solver|apply NoDup_singleton].
  - apply Forall_app; split; [done|]. constructor; [|done]. unfold pb_ok; cbn; lia.
  - apply tots_ext_0, tots_ext_app; cbn; [by rewrite !Z.add_0_r|split; [lia|done]].
  - rewrite sum_len_app; cbn; lia.
Qed.

Lemma free_heap_ext k h h' x : get h x = get h' x -> get (free_heap k h) x = get (free_heap k h') x.
Proof.
  revert h h'; induction k as [|[a b] k IH]; intros h h' E; cbn; [done|].
  destruct (_ =? _); [apply IH|]; destruct (decide (a = x)) as [->|].
  - by rewrite !get_del_eq.
  - by rewrite !get_del_ne.
  - by rewrite !get_put_eq.
  - by rewrite !get_put_ne.
Qed.

(** Freeing what hangs off the new last pbuf. *)
Lemma pbuf_free_rest cf h p l :
  lseg h p l None -> NoDup (fst <$> l) -> Forall (fun c => pb_ok c.2) l -> Forall (fun c => pb_std c.2) l ->
  match p with
  | Some _ => '(_, h') ← pbuf_free cf p h; Some h'
  | None => Some h
  end = Some (free_heap l h).
Proof.
  intros Hl Hnd Ho Hs; destruct p as [a|].
  - rewrite (pbuf_free_spec cf h _ l); auto. apply Forall_and; done.
  - by rewrite (lseg_nil_inv _ _ _ Hl).
Qed.

Lemma pbuf_realloc_trim cf h a l n :
  packet h (Some a) l -> Forall (fun c => pb_std c.2) l -> 0 <= n < sum_len l ->
  exists h' l1 l2 k, pbuf_realloc cf a n h = Some h' /\ l = l1 ++ l2 /\ fst <$> k = fst <$> l1 /\
    packet h' (Some a) k /\ content k = ztake n (content l) /\
    (forall x, x ∉ fst <$> l1 -> get h' x = get (free_heap l2 h) x) /\
    Forall2 trimmed l1 k /\ (Forall (fun c => 0 < pb_len c.2) (tail l) -> Forall (fun c => 0 < pb_len c.2) (tail k)) /\
    (forall c c', head l = Some c -> head k = Some c' -> pb_len c'.2 = Z.min (pb_len c.2) n) /\ h_next h' = h_next h.
Proof.
  intros Hp Hstd Hn; pose proof Hp as [Hl Hnd Ho Hts Hs].
  pose proof (packet_tot _ _ _ Hp) as (b0 & Hg0 & Ht0).
  unfold pbuf_realloc; rewrite Hg0; cbn [mbind option_bind]; rewrite Ht0; clear Hg0 Ht0 b0.
  destruct (Z.leb_spec (sum_len l) n); [lia|]. rewrite u16_small by lia.
  destruct (pbuf_realloc_loop_spec h a l n (sum_len l - n) (chain_fuel h)) as
    (l1 & l1' & e & b & l2 & h1 & r & -> & -> & -> & Hr & Hl1 & He & Hf1 & Hc1 & Hs1 & Ho1 & Ht1 & Hfr & Htr & Hle & Hr0 & Hnx);
    eauto using lseg_length; try lia.
  cbn [mbind option_bind]; rewrite He; cbn [mbind option_bind].
  apply lseg_app in Hl as (m & _ & (-> & Hge & Hl2)).
  rewrite fmap_app, fmap_cons in Hnd; apply NoDup_app in Hnd as (Hnd1 & Hd & [He2 Hnd2]%NoDup_cons); cbn [fst] in *.
  pose proof Ho as [_ [Hb Ho2]%Forall_cons]%Forall_app.
  apply Forall_app in Hstd as [_ [_ Hst2]%Forall_cons]; cbn [snd] in *.
  set (h2 := put h1 e (set_tot_len r (set_len r b))).
  assert (lseg h2 (pb_next b) l2 None) as Hl2'.
  { eapply lseg_frame; [|done]. intros x Hx. unfold h2; rewrite get_put_ne by set_solver. apply Hfr; set_solver. }
  rewrite (pbuf_free_rest cf h2 _ l2) by done; cbn [mbind option_bind].
  assert (get h2 e = Some (set_tot_len r (set_len r b))) as Eh2 by apply get_put_eq.
  rewrite free_heap_frame, Eh2 by done; cbn [mbind option_bind]. fold (cut_pbuf r b).
  exists (put (free_heap l2 h2) e (cut_pbuf r b)), (l1 ++ [(e, b)]), l2, (l1' ++ [(e, cut_pbuf r b)]).
  split_and!; [done|by rewrite <- app_assoc|by rewrite !fmap_app, Hf1| | | | | | |].
  - apply cut_packet; auto using get_put_eq; rewrite ?Hf1; auto; [|set_solver|lia].
    eapply lseg_frame; [|done]. rewrite Hf1; intros x Hx.
    rewrite get_put_ne, free_heap_frame by set_solver. apply get_put_ne; set_solver.
  - rewrite <- cut_content by done. by rewrite !content_app, Hc1.
  - intros x; rewrite fmap_app; cbn; intros Hx. rewrite get_put_ne by set_solver.
    apply free_heap_ext. unfold h2; rewrite get_put_ne by set_solver. apply Hfr; set_solver.
  - apply Forall2_app; [done|]. constructor; [|constructor]. split; [done|]. exists None, r, r. split; [cbn; lia|done].
  - intros Hpos. destruct Hr0 as [->|Hr0].
    + inversion Htr; subst. by constructor.
    + destruct l1 as [|c l1]; inversion Htr; subst; [by constructor|]. inversion Hle; subst. cbn [tail app] in *.
      apply Forall_app in Hpos as [Hpos _]. apply Forall_app. split; [|by apply Forall_singleton].
      eapply Forall2_Forall_r; [eassumption|]. eapply Forall_impl; [exact Hpos|]. cbn beta. intros x Hx y0 Hy. lia.
  - intros c c'. apply Forall_app in Ho as [Ho1' _]. inversion Hle as [|x y l1a l1b Hxy Hll]; subst; cbn; intros [= <-] [= <-].
    + cbn. lia.
    + apply Forall_cons in Ho1' as [_ Ho1']. pose proof (sum_len_nonneg _ Ho1'). destruct Hr0 as [?|?]; [done|].
      destruct x as [? xb]; cbn in *. lia.
  - cbn. by rewrite free_heap_next.
Qed.

Lemma pbuf_realloc_cut cf h a l n :
  packet h (Some a) l -> Forall (fun c => pb_std c.2) l -> 0 <= n < sum_len l ->
  exists h' l1 l2 k, pbuf_realloc cf a n h = Some h' /\ l = l1 ++ l2 /\ fst <$> k = fst <$> l1 /\
    packet h' (Some a) k /\ content k = ztake n (content l) /\
    forall x, x ∉ fst <$> l1 -> get h' x = get (free_heap l2 h) x.
Proof.
  intros Hp Hs Hn. destruct (pbuf_realloc_trim cf h a l n Hp Hs Hn) as (h' & l1 & l2 & k & ? & ? & ? & ? & ? & ? & _).
  by exists h', l1, l2, k.
Qed.
