(* ===== verification/PbufClaims.v ===== *)
(** The contract of packet buffers: the operations of [pbuf.c] refine the
    operations on byte strings, never leave the store's memory, and account
    for every pbuf.  First a concrete heap for the witnesses. *)
From S2P Require Import Prelude Pbuf PbufChain PbufLife.
From S2P Require Import Prelude Pbuf PbufData PbufChain PbufIO PbufLife.

(** A packet of two pbufs, used to exercise the statements below. *)
Definition ex_b2 : pbuf := Pbuf None [9; 4; 5; 9] 1 2 2 0x82 0 1 0.
Definition ex_b1 : pbuf := Pbuf (Some 2%positive) [7; 7; 1; 2; 3; 7] 2 5 3 0x80 0 1 0.
Definition ex_cells : list (addr * pbuf) := [(1%positive, ex_b1); (2%positive, ex_b2)].
Definition ex_heap : heap :=
  Heap (<[1%positive := ex_b1]> (<[2%positive := ex_b2]> ∅)) 5%positive [Some [1; 1]; Some []] false [].
Definition ex_free (p : addr) (h : heap) : option heap := Some (del h p).

Lemma ex_packet : packet ex_heap (Some 1%positive) ex_cells.
Proof.
  constructor; [vm_compute; intuition| |repeat constructor; unfold zlen; cbn; lia|cbn; lia|cbn; lia].
  apply (bool_decide_unpack _); vm_compute; exact I.
Qed.

Lemma ex_wf : heap_wf ex_heap.
Proof.
  intros a b; unfold get; cbn. intros [[<- _]|[_ [[<- _]|[_ H]]%lookup_insert_Some]]%lookup_insert_Some; try lia.
  by rewrite lookup_empty in H.
Qed.

Lemma ex_std : Forall (fun c => pb_std c.2) ex_cells.
Proof. constructor; [|constructor; [|constructor]]; (split; [reflexivity|vm_compute; auto]). Qed.

(** Copying out of a packet reads exactly the requested window of the
    byte string the packet carries, shortened at the packet's end, into the
    front of the caller's buffer, and reports its length; no pbuf outside of
    the chain and no byte outside of a payload is touched. *)
Theorem pbuf_copy_partial_spec h a l dst len off :
  packet h (Some a) l -> 0 <= len < 65536 -> 0 <= off < 65536 ->
  zlen (ztake len (zdrop off (content l))) <= zlen dst ->
  pbuf_copy_partial (Some a) (Some dst) len off h =
    Some (zlen (ztake len (zdrop off (content l))),
          Some (ztake len (zdrop off (content l)) ++
                zdrop (zlen (ztake len (zdrop off (content l)))) dst)).
Proof. apply pbuf_copy_partial_ok. Qed.

Lemma pbuf_copy_partial_spec_witness :
  pbuf_copy_partial (Some 1%positive) (Some [0; 0; 0; 0]) 3 2 ex_heap = Some (3, Some [3; 4; 5; 0]).
Proof.
  apply (pbuf_copy_partial_spec ex_heap 1%positive ex_cells [0; 0; 0; 0] 3 2 ex_packet);
    vm_compute; intuition discriminate.
Defined.

(** Writing into a packet at an offset either replaces exactly that
    window of the carried byte string, keeping every pbuf, its lengths and
    its links, or, when the window does not lie inside the packet, changes
    nothing and answers [ERR_MEM]. *)
Theorem pbuf_take_at_spec h a l data len off :
  packet h (Some a) l -> 0 <= len <= zlen data -> 0 <= off < 65536 ->
  if (off <? sum_len l) && (off + len <=? sum_len l)
  then exists h' l', pbuf_take_at (Some a) data len off h = Some (ERR_OK, h') /\
         packet h' (Some a) l' /\ Forall2 rewritten l l' /\
         content l' = ztake off (content l) ++ ztake len data ++ zdrop (off + len) (content l) /\
         forall x, x ∉ fst <$> l -> get h' x = get h x
  else pbuf_take_at (Some a) data len off h = Some (ERR_MEM, h).
Proof.
  intros Hp Hl Ho; destruct (Z.ltb_spec off (sum_len l)), (Z.leb_spec (off + len) (sum_len l)); cbn [andb].
  - destruct (pbuf_take_at_fits h a l data len off) as (h' & E & l' & ? & ? & ? & ?); auto; try lia.
    exists h', l'; auto.
  - apply (pbuf_take_at_too_long h a l); auto; lia.
  - apply (pbuf_take_at_too_long h a l); auto; lia.
  - apply (pbuf_take_at_too_long h a l); auto; lia.
Qed.

Lemma pbuf_take_at_spec_witness :
  exists h' l', pbuf_take_at (Some 1%positive) [10; 11; 12] 3 1 ex_heap = Some (ERR_OK, h') /\
    packet h' (Some 1%positive) l' /\ content l' = [1; 10; 11; 12; 5].
Proof.
  destruct (pbuf_take_at_spec ex_heap 1%positive ex_cells [10; 11; 12] 3 1 ex_packet)
    as (h' & l' & E & Hp & _ & Hc & _); [vm_compute; intuition discriminate..|].
  exists h', l'; split; [exact E|split; [exact Hp|]]. rewrite Hc; reflexivity.
Defined.

(** What is written into a packet is read back from it. *)
Theorem pbuf_take_copy_roundtrip h a l data off :
  packet h (Some a) l -> 0 <= off < sum_len l -> off + zlen data <= sum_len l ->
  exists h', pbuf_take_at (Some a) data (zlen data) off h = Some (ERR_OK, h') /\
    forall dst, zlen dst = zlen data ->
      pbuf_copy_partial (Some a) (Some dst) (zlen data) off h' = Some (zlen data, Some data).
Proof.
  intros Hp Ho Hf; pose proof (zlen_nonneg data); pose proof Hp as [_ _ Hok _ Hs].
  destruct (pbuf_take_at_fits h a l data (zlen data) off) as (h' & E & l' & Hp' & _ & Hc & _); auto; try lia.
  exists h'; split; [done|]; intros dst Hd. pose proof (content_len _ Hok) as Hcl.
  assert (ztake (zlen data) (zdrop off (content l')) = data) as Ed.
  { rewrite Hc, zdrop_app_ge by (rewrite zlen_ztake; lia). rewrite zlen_ztake, Z.sub_diag, zdrop_0 by lia.
    by rewrite (ztake_ge _ data), ztake_app_le, ztake_ge by lia. }
  rewrite (pbuf_copy_partial_ok h' a l') by (rewrite ?Ed; auto; lia).
  by rewrite Ed, zdrop_ge, app_nil_r by lia.
Qed.

Lemma pbuf_take_copy_roundtrip_witness :
  exists h', pbuf_take_at (Some 1%positive) [10; 11; 12] 3 1 ex_heap = Some (ERR_OK, h') /\
    pbuf_copy_partial (Some 1%positive) (Some [0; 0; 0]) 3 1 h' = Some (3, Some [10; 11; 12]).
Proof.
  destruct (pbuf_take_copy_roundtrip ex_heap 1%positive ex_cells [10; 11; 12] 1 ex_packet)
    as (h' & E & Hr); [vm_compute; intuition discriminate..|].
  exists h'; split; [exact E|exact (Hr [0; 0; 0] eq_refl)].
Defined.

(** Freeing a chain deallocates exactly the leading pbufs that were
    referenced once, takes one reference off the first pbuf that has more,
    leaves everything else as it is, and returns how many went (modulo 256,
    the width of the counter). *)
Theorem pbuf_free_refcount cf h p l :
  lseg h p l None -> NoDup (fst <$> l) -> Forall (fun c => pb_ok c.2 /\ pb_std c.2) l ->
  pbuf_free cf p h = Some (u8 (freed l), free_heap l h).
Proof. apply pbuf_free_spec. Qed.

Lemma pbuf_free_refcount_witness :
  exists h', pbuf_free ex_free (Some 1%positive) ex_heap = Some (2, h') /\ h_pbufs h' = ∅.
Proof.
  exists (free_heap ex_cells ex_heap); split; [|vm_compute; reflexivity].
  apply (pbuf_free_refcount ex_free ex_heap (Some 1%positive) ex_cells).
  - apply ex_packet.
  - apply ex_packet.
  - apply Forall_and; split; [apply ex_packet|apply ex_std].
Defined.

(** Allocating a PBUF_POOL or PBUF_RAM packet never fails to terminate or
    to stay inside memory; it returns either a fresh well-formed packet of
    exactly the requested length whose pbufs are referenced once, leaving all
    other pbufs alone, or NULL with every pbuf it had taken given back. *)
Theorem pbuf_alloc_all_or_nothing cf layer length type h :
  heap_wf h -> 0 <= layer <= 74 -> 0 <= length < 65536 -> type = PBUF_POOL \/ type = PBUF_RAM ->
  exists r h', pbuf_alloc cf layer length type h = Some (r, h') /\ alloc_outcome h length r h'.
Proof. intros ??? [-> | ->]; [by apply pbuf_alloc_pool_ok|by apply pbuf_alloc_ram_ok]. Qed.

Lemma pbuf_alloc_all_or_nothing_witness :
  exists r h', pbuf_alloc ex_free PBUF_RAW 2000 PBUF_POOL ex_heap = Some (r, h') /\
    alloc_outcome ex_heap 2000 r h' /\ r = Some 5%positive.
Proof.
  destruct (pbuf_alloc_all_or_nothing ex_free PBUF_RAW 2000 PBUF_POOL ex_heap ex_wf) as (r & h' & E & Ho);
    [vm_compute; intuition discriminate|lia|left; reflexivity|].
  exists r, h'; split; [exact E|split; [exact Ho|]].
  assert (fst <$> pbuf_alloc ex_free PBUF_RAW 2000 PBUF_POOL ex_heap = Some (Some 5%positive)) as F
    by (vm_compute; reflexivity).
  rewrite E in F; cbn in F; congruence.
Defined.

(** Concatenating two disjoint packets yields one well-formed packet
    that carries the bytes of the first followed by those of the second. *)
Theorem pbuf_cat_concatenates h p t l k :
  packet h (Some p) l -> packet h (Some t) k -> (forall x, x ∈ fst <$> l -> x ∉ fst <$> k) ->
  sum_len l + sum_len k < 65536 ->
  exists h' l', pbuf_cat (Some p) (Some t) h = Some h' /\ packet h' (Some p) (l' ++ k) /\
    fst <$> l' = fst <$> l /\ content (l' ++ k) = content l ++ content k /\
    forall x, x ∉ fst <$> l -> get h' x = get h x.
Proof.
  intros Hp Hk Hd Hs; destruct (pbuf_cat_ok h p t l k Hp Hk Hd Hs) as (h' & E & Hpk & Hfr).
  exists h', (cat_cells l t (sum_len k)); split_and!; auto using cat_cells_fst.
  by rewrite content_app, cat_cells_content.
Qed.

Definition ex_c1 : pbuf := Pbuf None [1; 2; 3] 0 3 3 0x80 0 1 0.
Definition ex_c2 : pbuf := Pbuf None [4; 5] 0 2 2 0x80 0 1 0.
Definition ex_two : heap :=
  Heap (<[1%positive := ex_c1]> (<[2%positive := ex_c2]> ∅)) 5%positive [] false [].

Lemma pbuf_cat_concatenates_witness :
  exists h' l', pbuf_cat (Some 1%positive) (Some 2%positive) ex_two = Some h' /\
    packet h' (Some 1%positive) l' /\ content l' = [1; 2; 3; 4; 5].
Proof.
  destruct (pbuf_cat_concatenates ex_two 1%positive 2%positive [(1%positive, ex_c1)] [(2%positive, ex_c2)])
    as (h' & l' & E & Hp & _ & Hc & _).
  - constructor; [vm_compute; intuition|apply NoDup_singleton|repeat constructor; unfold zlen; cbn; lia|cbn; lia..].
  - constructor; [vm_compute; intuition|apply NoDup_singleton|repeat constructor; unfold zlen; cbn; lia|cbn; lia..].
  - set_solver.
  - cbn; lia.
  - exists h', (l' ++ [(2%positive, ex_c2)]); split; [exact E|split; [exact Hp|rewrite Hc; reflexivity]].
Defined.

(** Shrinking a packet keeps the requested number of leading bytes in a
    well-formed packet made of its leading pbufs and drops the rest of the
    chain exactly as [pbuf_free] would; a request that is not shorter than
    the packet changes nothing. *)
Theorem pbuf_realloc_truncates cf h a l n :
  packet h (Some a) l -> Forall (fun c => pb_std c.2) l -> 0 <= n ->
  if n <? sum_len l
  then exists h' l1 l2 k, pbuf_realloc cf a n h = Some h' /\ l = l1 ++ l2 /\ fst <$> k = fst <$> l1 /\
         packet h' (Some a) k /\ content k = ztake n (content l) /\
         forall x, x ∉ fst <$> l1 -> get h' x = get (free_heap l2 h) x
  else pbuf_realloc cf a n h = Some h.
Proof.
  intros Hp Hs Hn; destruct (Z.ltb_spec n (sum_len l)).
  - by apply pbuf_realloc_cut.
  - destruct (packet_tot _ _ _ Hp) as (b & Hg & Ht). unfold pbuf_realloc; rewrite Hg; cbn.
    by destruct (Z.leb_spec (pb_tot_len b) n); [|lia].
Qed.

Lemma pbuf_realloc_truncates_witness :
  exists h' k, pbuf_realloc ex_free 1%positive 2 ex_heap = Some h' /\
    packet h' (Some 1%positive) k /\ content k = [1; 2] /\ get h' 2%positive = None.
Proof.
  destruct (pbuf_realloc_truncates ex_free ex_heap 1%positive ex_cells 2 ex_packet ex_std)
    as (h' & l1 & l2 & k & E & _ & _ & Hp & Hc & _); [lia|].
  exists h', k; split; [exact E|split; [exact Hp|split; [rewrite Hc; reflexivity|]]].
  assert (option_map (fun h => get h 2%positive) (pbuf_realloc ex_free 1%positive 2 ex_heap) = Some None) as F
    by (vm_compute; reflexivity).
  rewrite E in F; cbn in F; congruence.
Defined.

(** Revealing a header of [n] bytes in front of a packet with enough
    headroom succeeds, prepends [n] bytes to the carried string, and hiding
    the header again restores the very same store. *)
Theorem pbuf_header_roundtrip h a b l n :
  packet h (Some a) ((a, b) :: l) -> pb_type b .& PBUF_TYPE_FLAG_STRUCT_DATA_CONTIGUOUS <> 0 ->
  0 < n <= pb_payload b -> n + pb_tot_len b < 65536 ->
  exists h' b' hdr, pbuf_add_header (Some a) n h = Some (0, h') /\ packet h' (Some a) ((a, b') :: l) /\
    content ((a, b') :: l) = hdr ++ content ((a, b) :: l) /\ zlen hdr = n /\
    pbuf_remove_header (Some a) n h' = Some (0, h).
Proof.
  intros Hp Ht Hn Hw; pose proof Hp as [_ Hnd Hok Hts Hs].
  destruct (packet_cons _ _ _ _ Hp) as (Hg & Hb & Ha & Htot & Hp2); pose proof Hb as (? & ? & ? & ?).
  pose proof (sum_len_nonneg _ (packet_ok _ _ _ Hp2)) as Hsl; cbn [sum_len] in Hs.
  set (b' := set_payload (pb_payload b - n) (pb_len b + n) (pb_tot_len b + n) b).
  exists (put h a b'), b', (ztake n (zdrop (pb_payload b - n) (pb_mem b))); split_and!.
  - unfold pbuf_add_header, pbuf_add_header_impl. destruct (Z.ltb_spec 0xFFFF n), (Z.eqb_spec n 0); try lia.
    rewrite Hg; cbn [mbind option_bind]. rewrite (u16_small n) by lia; rewrite !u16_small by lia.
    destruct (Z.ltb_spec (n + pb_tot_len b) n); [lia|].
    destruct (Z.eqb_spec (pb_type b .& PBUF_TYPE_FLAG_STRUCT_DATA_CONTIGUOUS) 0); [done|]; cbn [negb].
    by destruct (Z.ltb_spec (pb_payload b - n) 0); [lia|].
  - constructor; [|done| | |cbn; lia].
    + cbn; split_and!; auto using get_put_eq. apply lseg_put; [done|]. by destruct Hp2.
    + constructor; [unfold pb_ok; cbn; lia|]. by destruct Hp2.
    + cbn; split; [lia|]. by destruct Hp2.
  - rewrite !content_cons, app_assoc; f_equal. unfold pb_bytes; cbn.
    rewrite (Z.add_comm (pb_len b)), ztake_zdrop_split by lia. f_equal.
    rewrite zdrop_zdrop by lia. do 2 f_equal; lia.
  - rewrite zlen_ztake; [done|]. rewrite zlen_zdrop; lia.
  - unfold pbuf_remove_header. destruct (Z.ltb_spec 0xFFFF n), (Z.eqb_spec n 0); try lia.
    rewrite get_put_eq; cbn [mbind option_bind]. rewrite (u16_small n) by lia.
    subst b'; cbn [pb_len pb_tot_len pb_payload set_payload].
    destruct (Z.ltb_spec (pb_len b + n) n); [lia|]. rewrite !u16_small by lia. do 2 f_equal.
    destruct h as [hm hn ho hp ht]; unfold put, get in *; cbn in *; f_equal.
    rewrite insert_insert_eq. unfold set_payload; cbn.
    replace (pb_payload b - n + n) with (pb_payload b) by lia.
    replace (pb_len b + n - n) with (pb_len b) by lia.
    replace (pb_tot_len b + n - n) with (pb_tot_len b) by lia.
    destruct b; cbn. by apply insert_id.
Qed.

Lemma pbuf_header_roundtrip_witness :
  exists h' b' hdr, pbuf_add_header (Some 1%positive) 2 ex_heap = Some (0, h') /\
    content ((1%positive, b') :: [(2%positive, ex_b2)]) = hdr ++ [1; 2; 3; 4; 5] /\ zlen hdr = 2 /\
    pbuf_remove_header (Some 1%positive) 2 h' = Some (0, ex_heap).
Proof.
  destruct (pbuf_header_roundtrip ex_heap 1%positive ex_b1 [(2%positive, ex_b2)] 2 ex_packet)
    as (h' & b' & hdr & E & _ & Hc & Hz & Hr); [vm_compute; discriminate|cbn; lia|cbn; lia|].
  exists h', b', hdr; auto.
Defined.
