(* ===== verification/PbufCopy.v ===== *)
(** Copying a packet into a single new pbuf: [pbuf_copy] and [pbuf_clone] of
    [pbuf.c], as the ARP queue and the loopback queue use them. *)
From S2P Require Import Prelude Pbuf PbufData PbufChain PbufIO PbufLife.

(** Every pbuf of the packet carries data.  [pbuf_copy] takes a pbuf with
    [len == tot_len] and a successor for the end of a packet queue, so it
    refuses packets with empty pbufs at the end. *)
Definition no_empty (l : list (addr * pbuf)) : Prop := Forall (fun c => 0 < pb_len c.2) l.

Lemma queue_guard_ok h p k : packet h p k -> no_empty k -> pbuf_queue_guard p h = Some true.
Proof.
  intros Hp Hne; destruct (packet_inv _ _ _ Hp) as [[-> ->]|(a & b & k' & -> & ->)]; [done|].
  pose proof (packet_cons _ _ _ _ Hp) as (Hg & _ & _ & Ht & Hp').
  cbn; rewrite Hg; cbn. f_equal. destruct (Z.eqb_spec (pb_len b) (pb_tot_len b)); [|done].
  apply bool_decide_eq_true_2. destruct (packet_inv _ _ _ Hp') as [[? _]|(a' & b' & k'' & _ & ->)]; [done|].
  exfalso. apply Forall_cons in Hne as [_ Hne]. apply Forall_cons in Hne as [Hb' _]; cbn in Hb'.
  pose proof Hp' as [_ _ [_ Ho]%Forall_cons _ _]. pose proof (sum_len_nonneg _ Ho). cbn in Ht; lia.
Qed.

Lemma queue_guard_last h a b :
  get h a = Some b -> pb_next b = None -> pbuf_queue_guard (Some a) h = Some true.
Proof. intros Hg Hn; cbn; rewrite Hg; cbn. rewrite Hn. by destruct (_ =? _). Qed.

Lemma pbuf_copy_loop_single ta fuel : forall k h tb fa o,
  get h ta = Some tb -> pb_ok tb -> pb_next tb = None -> packet h (Some fa) k -> no_empty k ->
  ta ∉ fst <$> k -> 0 <= o -> o + sum_len k <= pb_len tb -> (length k < fuel)%nat ->
  exists h' tb', pbuf_copy_loop fuel (Some ta) (Some fa) o 0 h = Some (ERR_OK, h') /\
    get h' ta = Some tb' /\ rewritten (ta, tb) (ta, tb') /\
    pb_bytes tb' = ztake o (pb_bytes tb) ++ content k ++ zdrop (o + sum_len k) (pb_bytes tb) /\
    h_next h' = h_next h /\ forall x, x <> ta -> get h' x = get h x.
Proof.
  induction fuel as [|fuel IH]; intros k h tb fa o Ht Htb Hnx Hp Hne Hta Ho Hs Hf; [lia|].
  destruct (packet_inv _ _ _ Hp) as [[? _]|(a & fb & k' & [= <-] & ->)]; [done|].
  pose proof (packet_cons _ _ _ _ Hp) as (Hg & Hfb & Hfa & Htot & Hp').
  apply Forall_cons in Hne as [Hb Hne]; cbn [snd] in Hb. pose proof Hfb as (? & ? & ? & ?).
  pose proof Hp' as [_ _ Hok _ _]. pose proof (sum_len_nonneg _ Hok) as Hnn.
  rewrite fmap_cons in Hta; cbn [fst sum_len] in *.
  assert (ta <> fa) as Hne' by set_solver. pose proof Htb as (? & ? & ? & ?).
  pose proof (pb_bytes_len _ Htb) as Hlt. pose proof (pb_bytes_len _ Hfb) as Hlf.
  cbn [pbuf_copy_loop mbind option_bind]. rewrite Ht; cbn [mbind option_bind].
  rewrite Hg; cbn [mbind option_bind]. rewrite Z.sub_0_r, !u64_small by lia.
  destruct (Z.leb_spec (pb_len fb) (pb_len tb - o)); [|lia].
  rewrite payload_read_spec by (auto; lia). cbn [mbind option_bind].
  rewrite zdrop_0, (ztake_ge (pb_len fb)) by lia.
  destruct (payload_write_spec tb o (pb_bytes fb)) as (tb1 & -> & Hn1 & Hrw1 & Hby1); [done|lia|lia|].
  cbn [mbind option_bind]. rewrite Z.add_0_l. destruct (Z.leb_spec (pb_len fb) (pb_len fb)); [|lia].
  assert (Hpk : packet (put h ta tb1) (pb_next fb) k').
  { eapply packet_frame; [|done]. intros x Hx; apply get_put_ne. intros ->. set_solver. }
  assert (Htb1 : pb_ok tb1 /\ pb_next tb1 = None /\ pb_len tb1 = pb_len tb).
  { specialize (Hrw1 ta). destruct Hrw1 as (_ & m & E & Hm); cbn in E, Hm. subst tb1. unfold pb_ok; cbn.
    rewrite Hm. auto. }
  destruct Htb1 as (Hok1 & Hnx1 & Hl1).
  rewrite Hlf in Hby1. rewrite Hnx.
  destruct (packet_inv _ _ _ Hp') as [[En ->]|(a' & b' & k'' & En & ->)]; rewrite En in *.
  - destruct (Z.eqb_spec (o + pb_len fb) (pb_len tb)).
    + cbn. do 2 eexists; split; [done|]. split; [apply get_put_eq|]. split; [by apply Hrw1|].
      split; [|split; [done|intros; by apply get_put_ne]]. cbn; rewrite Hby1, app_nil_r, Z.add_0_r. done.
    + cbn [andb pbuf_queue_guard mbind option_bind negb].
      change (b ← get (put h ta tb1) ta; Some (if pb_len b =? pb_tot_len b then bool_decide (pb_next b = None) else true))
        with (pbuf_queue_guard (Some ta) (put h ta tb1)).
      rewrite (queue_guard_last _ _ tb1) by (done || apply get_put_eq). cbn. do 2 eexists; split; [done|]. split; [apply get_put_eq|]. split; [by apply Hrw1|].
      split; [|split; [done|intros; by apply get_put_ne]]. rewrite Hby1, app_nil_r, Z.add_0_r. done.
  - pose proof (packet_cons _ _ _ _ Hp') as (_ & (? & _) & _ & _ & Hp'').
    pose proof Hp'' as [_ _ Hok'' _ _]. pose proof (sum_len_nonneg _ Hok'') as Hnn''.
    pose proof Hne as [Hb' _]%Forall_cons; cbn [snd sum_len] in *.
    destruct (Z.eqb_spec (o + pb_len fb) (pb_len tb)); [lia|]. cbn [andb].
    rewrite (queue_guard_ok _ _ _ Hpk Hne). cbn [mbind option_bind negb].
    rewrite (queue_guard_last _ _ tb1) by (done || apply get_put_eq). cbn [mbind option_bind negb].
    destruct (IH _ _ tb1 a' (o + pb_len fb) (get_put_eq _ _ _) Hok1 Hnx1 Hpk Hne)
      as (h' & tb' & -> & Hg' & Hrw' & Hby' & Hnx' & Hfr); [set_solver|lia|cbn [sum_len]; lia|cbn in Hf |- *; lia|].
    exists h', tb'. split_and!; [done|done|eapply rewritten_trans; [apply Hrw1|done]| |done|].
    + rewrite Hby', Hby1, (content_cons fa). cbn [sum_len].
      set (B := pb_bytes tb) in *. set (F := pb_bytes fb) in *. set (R := content _).
      assert (Ho1 : zlen (ztake o B) = o) by (rewrite zlen_ztake; lia).
      rewrite (app_assoc (ztake o B) F), ztake_app_le, ztake_ge by (rewrite zlen_app; lia).
      rewrite <- !app_assoc. do 3 f_equal. rewrite (app_assoc (ztake o B)), zdrop_app_ge by (rewrite zlen_app; lia).
      rewrite zlen_app, zdrop_zdrop by lia. f_equal; lia.
    + intros x Hx. rewrite Hfr by done. by apply get_put_ne.
Qed.

Lemma pbuf_copy_single h ta tb fa k :
  get h ta = Some tb -> pb_ok tb -> pb_next tb = None -> (pb_tot_len tb = pb_len tb) ->
  packet h (Some fa) k -> no_empty k -> ta ∉ fst <$> k -> sum_len k <= pb_len tb ->
  exists h' tb', pbuf_copy (Some ta) (Some fa) h = Some (ERR_OK, h') /\
    get h' ta = Some tb' /\ rewritten (ta, tb) (ta, tb') /\
    pb_bytes tb' = content k ++ zdrop (sum_len k) (pb_bytes tb) /\
    h_next h' = h_next h /\ forall x, x <> ta -> get h' x = get h x.
Proof.
  intros Ht Htb Hnx Htot Hp Hne Hta Hs. destruct (packet_tot _ _ _ Hp) as (fb & Hg & Hft).
  cbn [pbuf_copy]. rewrite Ht, Hg; cbn [mbind option_bind].
  destruct (Z.ltb_spec (pb_tot_len tb) (pb_tot_len fb)); [lia|].
  destruct (pbuf_copy_loop_single ta (2 * chain_fuel h) k h tb fa 0)
    as (h' & tb' & E & ? & ? & Hby & ? & ?); try done; [|eauto 10].
  pose proof (lseg_length h (Some fa) k). destruct Hp. unfold chain_fuel in *. naive_solver lia.
Qed.

(** An allocation from the C library's heap is one pbuf with the header room
    in front of its payload. *)
Lemma pbuf_alloc_ram_single cf layer length h :
  heap_wf h -> 0 <= layer <= 74 -> 0 <= length < 65536 ->
  exists r h', pbuf_alloc cf layer length PBUF_RAM h = Some (r, h') /\ heap_wf h' /\
    match r with
    | None => h_pbufs h' = h_pbufs h
    | Some q => exists b, get h q = None /\ get h' q = Some b /\ pb_new b /\ pb_len b = length /\
                  pb_tot_len b = length /\ pb_next b = None /\ align4 layer = pb_payload b /\
                  pb_type b = u8 PBUF_RAM /\ forall x, x <> q -> get h' x = get h x
    end.
Proof.
  intros Hwf Hl Hn. destruct (pbuf_alloc_ram_ok cf layer length h Hwf Hl Hn) as (r & h' & E & Hwf' & Hr).
  exists r, h'. split_and!; [done..|]. destruct r as [q|]; [|done].
  destruct Hr as (l & Hp & Hs & Hnew & Hfr & Hfree).
  revert E. unfold pbuf_alloc; cbn [Z.eqb Pos.eqb orb PBUF_POOL PBUF_REF PBUF_ROM PBUF_RAM].
  destruct (_ || _); [done|]. destruct (mem_malloc _ h) as [[[q' m]|] h1]; [|done].
  cbn [mbind option_bind]. intros [= -> <-]. rewrite u16_small in * by lia.
  destruct (packet_inv _ _ _ Hp) as [[? _]|(a & b & k & [= <-] & ->)]; [done|].
  pose proof (packet_cons _ _ _ _ Hp) as (Hg & _ & _ & _ & Hp').
  rewrite get_put_eq in Hg. injection Hg as <-. destruct (packet_inv _ _ _ Hp') as [[_ ->]|(? & ? & ? & ? & _)]; [|done].
  apply Forall_cons in Hnew as [Hnew _]. eexists; split_and!; [|by rewrite get_put_eq|done..|].
  - apply Hfree. set_solver.
  - intros x Hx. apply Hfr. set_solver.
Qed.

Lemma packet_single h q b :
  get h q = Some b -> pb_ok b -> pb_next b = None -> pb_tot_len b = pb_len b -> packet h (Some q) [(q, b)].
Proof.
  intros Hg Hok Hn Ht. pose proof Hok as (? & _). constructor; cbn [fmap list_fmap fst sum_len].
  - cbn. by rewrite Hn.
  - apply NoDup_singleton.
  - by apply Forall_singleton.
  - cbn. split; [lia|done].
  - lia.
Qed.

(** Cloning into one new pbuf: no memory and nothing changes, or a fresh
    pbuf that carries the bytes of the packet and leaves the packet alone. *)
Lemma pbuf_clone_ram cf layer h a k :
  heap_wf h -> 0 <= layer <= 74 -> packet h (Some a) k -> no_empty k ->
  exists r h', pbuf_clone cf layer PBUF_RAM a h = Some (r, h') /\ heap_wf h' /\
    match r with
    | None => h_pbufs h' = h_pbufs h
    | Some q => exists b, get h q = None /\ packet h' (Some q) [(q, b)] /\ content [(q, b)] = content k /\
                  pb_new b /\ align4 layer = pb_payload b /\
                  pb_type b = u8 PBUF_RAM /\ forall x, x <> q -> get h' x = get h x
    end.
Proof.
  intros Hwf Hl Hp Hne. destruct (packet_tot _ _ _ Hp) as (fb & Hg & Hft).
  pose proof Hp as [_ _ Hok _ Hsum]. pose proof (sum_len_nonneg _ Hok).
  unfold pbuf_clone. rewrite Hg; cbn [mbind option_bind]. rewrite Hft.
  destruct (pbuf_alloc_ram_single cf layer (sum_len k) h Hwf Hl ltac:(lia)) as (r & h1 & -> & Hwf1 & Hr).
  cbn [mbind option_bind]. destruct r as [q|]; [|by exists None, h1].
  destruct Hr as (b & Hfree & Hg1 & Hn & Hlen & Htl & Hnx & Hpay & Hty & Hfr).
  destruct Hn as (Hbok & Hbstd & Hbref).
  assert (Hqk : q ∉ fst <$> k).
  { intros ([x bx] & Ex & Hx)%list_elem_of_fmap. cbn in Ex; subst x.
    pose proof (lseg_get _ _ _ _ _ _ (packet_lseg _ _ _ Hp) Hx). congruence. }
  destruct (pbuf_copy_single h1 q b a k) as (h2 & b2 & -> & Hg2 & Hrw & Hby & Hnx2 & Hfr2); try done; try lia.
  { eapply packet_frame; [|done]. intros x Hx. apply Hfr. set_solver. }
  cbn [mbind option_bind]. exists (Some q), h2. split; [done|].
  destruct Hrw as (_ & m & E & Hm); cbn in E, Hm. subst b2.
  assert (content [(q, set_mem m b)] = content k).
  { cbn [content map concat snd]. rewrite app_nil_r, Hby, zdrop_ge, app_nil_r; [done|]. rewrite pb_bytes_len by done. lia. }
  assert (pb_ok (set_mem m b)) by (unfold pb_ok in *; cbn; rewrite Hm; done).
  split.
  { intros x bx Hx. rewrite Hnx2.
    destruct (decide (x = q)) as [->|]; [by eapply Hwf1|]. rewrite Hfr2 in Hx by done. by eapply Hwf1. }
  exists (set_mem m b). split_and!; try done.
  - apply packet_single; cbn; [done..|lia].
  - intros x Hx. by rewrite Hfr2, Hfr.
Qed.
