(* ===== verification/PbufOwn.v ===== *)
(** Ownership of packets by reference counts.  A part of the stack that keeps
    packets (a queue, or a function that was handed one) holds one reference
    per packet it keeps; the store is consistent with a list [Q] of held
    references when every packet of [Q] is intact, standard, and counted
    exactly as often as it occurs, different packets share no pbuf, and every
    live pbuf is part of a packet of [Q] or of the frame, the pbufs that belong
    to somebody else and keep their contents.  The account is exact in both
    directions: a reference too many or a packet forgotten (a leak) violates
    it as much as a reference too few.  The invariants and the operations'
    theorems hold for every frame. *)
From S2P Require Import Prelude Pbuf PbufData PbufChain PbufIO PbufLife PbufCopy.

Fixpoint occ (p : addr) (Q : list addr) : Z :=
  match Q with
  | [] => 0
  | q :: Q => (if decide (p = q) then 1 else 0) + occ p Q
  end.

Lemma occ_nonneg p Q : 0 <= occ p Q.
Proof. induction Q; cbn; [lia|]. case_decide; lia. Qed.

Lemma occ_perm p Q Q' : Permutation Q Q' -> occ p Q = occ p Q'.
Proof. induction 1; cbn; lia. Qed.

Lemma occ_pos p Q : p ∈ Q <-> 1 <= occ p Q.
Proof.
  induction Q as [|q Q IH]; cbn.
  - split; [intros H; inversion H|lia].
  - rewrite elem_of_cons, IH. pose proof (occ_nonneg p Q). case_decide; intuition lia.
Qed.

Lemma occ_app p Q Q' : occ p (Q ++ Q') = occ p Q + occ p Q'.
Proof. induction Q; cbn; lia. Qed.

(** Only the pbuf before it refers to a later pbuf of a packet. *)
Definition once (l : list (addr * pbuf)) : Prop := Forall (fun c => pb_ref c.2 = 1) (tail l).

(** One packet that [pbuf_free] can dispose of. *)
Definition std_packet (h : heap) (p : addr) (l : list (addr * pbuf)) : Prop :=
  packet h (Some p) l /\ Forall (fun c => pb_std c.2) l /\ once l.

(** Pbufs that belong to somebody else, with their contents. *)
Class Frame := frame : gmap addr pbuf.

Definition no_frame : Frame := (∅ : gmap addr pbuf).

Lemma no_frame_none a : ~ is_Some (@frame no_frame !! a).
Proof. unfold frame, no_frame. rewrite lookup_empty. apply is_Some_None. Qed.

Record owned {F : Frame} (h : heap) (cs : addr -> list (addr * pbuf)) (Q : list addr) : Prop := Owned {
  owned_packet : forall p, p ∈ Q -> std_packet h p (cs p);
  owned_ref : forall p b, p ∈ Q -> get h p = Some b -> occ p Q = pb_ref b;
  owned_sep : forall p p', p ∈ Q -> p' ∈ Q -> p <> p' -> (fst <$> cs p) ## (fst <$> cs p');
  owned_out : forall a b, frame !! a = Some b -> get h a = Some b /\ forall p, p ∈ Q -> a ∉ fst <$> cs p;
  owned_all : forall a, is_Some (get h a) -> is_Some (frame !! a) \/ exists p, p ∈ Q /\ a ∈ fst <$> cs p;
}.

Lemma owned_perm {F : Frame} h cs Q Q' : Permutation Q Q' -> owned h cs Q -> owned h cs Q'.
Proof.
  intros HP [H1 H2 H3 H4 H5]; split.
  - intros p Hp; apply H1. by rewrite HP.
  - intros p b Hp Hg. rewrite <- (occ_perm _ _ _ HP). apply H2; [by rewrite HP|done].
  - intros p p' Hp Hp'; apply H3; by rewrite HP.
  - intros a b Ha. destruct (H4 a b Ha) as [? Hn]. split; [done|]. intros p Hp; apply Hn. by rewrite HP.
  - intros a Ha. destruct (H5 a Ha) as [?|(p & Hp & ?)]; [by left|]. right. exists p. by rewrite <- HP.
Qed.

#[export] Instance owned_proper {F : Frame} h cs : Proper (Permutation ==> iff) (owned h cs).
Proof. intros Q Q' HP; split; by apply owned_perm. Qed.

Lemma std_packet_frame h h' p l :
  (forall a, a ∈ fst <$> l -> get h' a = get h a) -> std_packet h p l -> std_packet h' p l.
Proof. intros Hf [Hp Hs]; split; [by eapply packet_frame|done]. Qed.

Lemma std_packet_head h p l : std_packet h p l -> exists b t, l = (p, b) :: t /\ get h p = Some b.
Proof.
  intros [Hp _]. destruct (packet_inv _ _ _ Hp) as [[? _]|(a & b & t & [= <-] & ->)]; [done|].
  apply packet_cons in Hp as (? & _). eauto.
Qed.

Lemma std_packet_in h p l : std_packet h p l -> p ∈ fst <$> l.
Proof. intros (b & t & -> & _)%std_packet_head. set_solver. Qed.

(** A change of the store, and of the frame, outside of the owned packets. *)
Lemma owned_reframe {F : Frame} (F' : Frame) h h' cs Q :
  owned (F := F) h cs Q -> (forall p a, p ∈ Q -> a ∈ fst <$> cs p -> get h' a = get h a) ->
  (forall a b, @frame F' !! a = Some b -> get h' a = Some b /\ forall p, p ∈ Q -> a ∉ fst <$> cs p) ->
  (forall a, is_Some (get h' a) -> is_Some (@frame F' !! a) \/ exists p, p ∈ Q /\ a ∈ fst <$> cs p) ->
  owned (F := F') h' cs Q.
Proof.
  intros [H1 H2 H3 H4 _] Hf Hr Ha; split; [..|done|done|done].
  - intros p Hp. eapply std_packet_frame; [|by apply H1]. eauto.
  - intros p b Hp. rewrite (Hf p p Hp) by by eapply std_packet_in, H1. by apply H2.
Qed.

Lemma owned_same {F : Frame} h h' cs Q : (forall a, get h' a = get h a) -> owned h cs Q -> owned h' cs Q.
Proof.
  intros Hg HO. apply (owned_reframe F h); [done|by intros; rewrite Hg|..].
  - intros a b Ha. rewrite Hg. by apply (owned_out _ _ _ HO).
  - intros a. rewrite Hg. by apply (owned_all _ _ _ HO).
Qed.

Lemma cells_live h p l a : std_packet h p l -> a ∈ fst <$> l -> is_Some (get h a).
Proof.
  intros [Hp _] ([x b] & -> & Hx)%list_elem_of_fmap. cbn. eexists. by eapply lseg_get; [apply Hp|].
Qed.

(** Changes of one packet [p]: its cells become [k], other pbufs stay. *)
Definition cs_set (p : addr) (k : list (addr * pbuf)) (cs : addr -> list (addr * pbuf)) : addr -> list (addr * pbuf) :=
  fun x => if decide (x = p) then k else cs x.

Lemma cs_set_eq p k cs : cs_set p k cs p = k.
Proof. unfold cs_set. by rewrite decide_True. Qed.

Lemma cs_set_ne p k cs x : x <> p -> cs_set p k cs x = cs x.
Proof. intros; unfold cs_set. by rewrite decide_False. Qed.

Lemma owned_replace {F : Frame} h h' cs Q p k b :
  owned h cs Q -> p ∈ Q -> std_packet h' p k -> (forall a, a ∈ fst <$> k -> a ∈ fst <$> cs p) ->
  (forall a, a ∈ fst <$> cs p -> a ∉ fst <$> k -> get h' a = None) ->
  get h' p = Some b -> occ p Q = pb_ref b ->
  (forall a, a ∉ fst <$> cs p -> get h' a = get h a) ->
  owned h' (cs_set p k cs) Q.
Proof.
  intros [H1 H2 H3 H4 H5] Hp Hk Ha Hgone Hg Hr Hf. split.
  - intros q Hq. destruct (decide (q = p)) as [->|Hne]; [by rewrite cs_set_eq|].
    rewrite cs_set_ne by done. eapply std_packet_frame; [|by apply H1].
    intros a Ha'. apply Hf. pose proof (H3 q p Hq Hp Hne). set_solver.
  - intros q c Hq Hc. destruct (decide (q = p)) as [->|Hne]; [by simplify_eq|].
    apply H2; [done|]. rewrite <- Hc. symmetry; apply Hf.
    pose proof (H3 q p Hq Hp Hne). pose proof (std_packet_in _ _ _ (H1 q Hq)). set_solver.
  - intros q q' Hq Hq' Hne. unfold cs_set. repeat case_decide; subst; [done|..|by apply H3].
    + intros x Hx. apply (H3 p q' Hq Hq' Hne x). by apply Ha.
    + intros x Hx Hx'. by apply (H3 q p Hq Hq' Hne x); [|apply Ha].
  - intros a c Hc. destruct (H4 a c Hc) as [Hga Hn]. split; [rewrite Hf; auto|].
    intros q Hq. unfold cs_set. case_decide; subst; [|by apply Hn]. intros Hx%Ha. by eapply Hn.
  - intros a [c Hc]. destruct (decide (a ∈ fst <$> k)) as [Hk'|Hk'].
    { right. exists p. by rewrite cs_set_eq. }
    destruct (decide (a ∈ fst <$> cs p)) as [Hcp|Hcp]; [rewrite Hgone in Hc; done|].
    rewrite Hf in Hc by done. destruct (H5 a ltac:(eauto)) as [?|(q & Hq & Hqa)]; [by left|].
    right. exists q. rewrite cs_set_ne; [done|]. by intros ->.
Qed.

Lemma owned_update {F : Frame} h h' cs Q p k b :
  owned h cs Q -> p ∈ Q -> std_packet h' p k -> fst <$> k = fst <$> cs p ->
  get h' p = Some b -> occ p Q = pb_ref b ->
  (forall a, a ∉ fst <$> cs p -> get h' a = get h a) ->
  owned h' (cs_set p k cs) Q.
Proof. intros HO Hp Hk Ha. eapply owned_replace; try done; by rewrite Ha. Qed.

(** A packet that was held once and is gone. *)
Lemma owned_drop {F : Frame} h h' cs p Q :
  owned h cs (p :: Q) -> p ∉ Q -> (forall a, a ∈ fst <$> cs p -> get h' a = None) ->
  (forall a, a ∉ fst <$> cs p -> get h' a = get h a) -> owned h' cs Q.
Proof.
  intros [H1 H2 H3 H4 H5] Hn Hgone Hf.
  assert (Hout : forall q a, q ∈ Q -> a ∈ fst <$> cs q -> a ∉ fst <$> cs p).
  { intros q a Hq Ha Hp. apply (H3 q p ltac:(by right) ltac:(by left) ltac:(by intros ->) a Ha Hp). }
  split.
  - intros q Hq. eapply std_packet_frame; [|apply H1; by right]. eauto.
  - intros q b Hq Hg. specialize (H2 q b ltac:(by right)). cbn in H2. rewrite decide_False in H2 by by intros ->.
    apply H2. rewrite <- Hf; [done|]. eapply Hout; [done|]. eapply std_packet_in, H1. by right.
  - intros q q' Hq Hq'. apply H3; by right.
  - intros a b Ha. destruct (H4 a b Ha) as [Hg Ho]. rewrite Hf by (apply Ho; by left). split; [done|]. intros q Hq; apply Ho. by right.
  - intros a [b Hb]. destruct (decide (a ∈ fst <$> cs p)) as [Ha|Ha]; [by rewrite Hgone in Hb|].
    rewrite Hf in Hb by done. destruct (H5 a ltac:(eauto)) as [?|(q & [->|Hq]%elem_of_cons & ?)]; [by left|done|eauto].
Qed.

Lemma heap_without (l : list addr) h :
  exists h', (forall a, a ∈ l -> get h' a = None) /\ (forall a, a ∉ l -> get h' a = get h a).
Proof.
  induction l as [|x l (h1 & H1 & H2)]; [exists h; set_solver|]. exists (del h1 x). split; intros a Ha.
  - destruct (decide (a = x)) as [->|Hne]; [apply get_del_eq|]. rewrite get_del_ne by done. set_solver.
  - rewrite get_del_ne by set_solver. set_solver.
Qed.

(** Taking a packet that is held once out of the account. *)
Lemma owned_without {F : Frame} h cs p Q :
  owned h cs (p :: Q) -> p ∉ Q ->
  exists h', owned h' cs Q /\ (forall a, a ∈ fst <$> cs p -> get h' a = None) /\ (forall a, a ∉ fst <$> cs p -> get h' a = get h a).
Proof.
  intros HO Hp. destruct (heap_without (fst <$> cs p) h) as (h' & H1 & H2). exists h'. split; [|done]. by eapply owned_drop.
Qed.

Lemma packet_head_ref h p b t r :
  packet h (Some p) ((p, b) :: t) -> 0 < r < 256 ->
  packet (put h p (set_ref r b)) (Some p) ((p, set_ref r b) :: t).
Proof.
  intros Hp Hr. pose proof (packet_cons _ _ _ _ Hp) as (Hg & (? & ? & ? & ?) & Hn & Ht & [? ? ? ? ?]).
  destruct Hp as [Hl Hnd Ho [_ Hts] Hs]. constructor.
  - cbn. split; [done|]. split; [apply get_put_eq|]. apply lseg_put; [done|]. apply Hl.
  - done.
  - apply Forall_cons in Ho as [_ Ho]. constructor; [done|done].
  - done.
  - done.
Qed.

Lemma heap_wf_put h a b b' : get h a = Some b -> heap_wf h -> heap_wf (put h a b').
Proof.
  intros Hg Hwf x c. destruct (decide (x = a)) as [->|].
  - intros _. by apply (Hwf a b).
  - rewrite get_put_ne by done. apply Hwf.
Qed.

Lemma free_heap_wf l h : lseg h (fst <$> head l) l None -> NoDup (fst <$> l) -> heap_wf h -> heap_wf (free_heap l h).
Proof.
  revert h; induction l as [|[a b] l IH]; intros h Hl Hnd Hwf; cbn; [done|].
  destruct Hl as (_ & Hg & Hl). rewrite fmap_cons in Hnd; apply NoDup_cons in Hnd as [Ha Hnd].
  destruct (_ =? _); [|by eapply heap_wf_put].
  apply IH; [|done|].
  - assert (Hd : lseg (del h a) (pb_next b) l None) by by apply lseg_del.
    destruct l as [|[a' b'] l]; [done|]. cbn in *. naive_solver.
  - intros x c. destruct (decide (x = a)) as [->|]; [by rewrite get_del_eq|].
    rewrite get_del_ne by done. apply Hwf.
Qed.

(** Packets that at most lost references. *)
Definition less_ref (c c' : addr * pbuf) : Prop :=
  c'.1 = c.1 /\ exists r, r <= pb_ref c.2 /\ c'.2 = set_ref r c.2.

Definition same_packets (cs cs' : addr -> list (addr * pbuf)) : Prop :=
  forall q, Forall2 less_ref (cs q) (cs' q).

Lemma less_ref_refl c : less_ref c c.
Proof. split; [done|]. exists (pb_ref c.2). split; [done|]. by destruct c as [? []]. Qed.

Lemma less_ref_trans c1 c2 c3 : less_ref c1 c2 -> less_ref c2 c3 -> less_ref c1 c3.
Proof.
  intros (E1 & r1 & H1 & Ec1) (E2 & r2 & H2 & Ec2). split; [congruence|]. exists r2.
  rewrite Ec2, Ec1. rewrite Ec1 in H2. cbn in *. split; [lia|done].
Qed.

Lemma less_refs_refl k : Forall2 less_ref k k.
Proof. induction k; constructor; auto using less_ref_refl. Qed.

Lemma same_packets_refl cs : same_packets cs cs.
Proof. intros q; apply less_refs_refl. Qed.

Lemma less_refs_trans k1 : forall k2 k3, Forall2 less_ref k1 k2 -> Forall2 less_ref k2 k3 -> Forall2 less_ref k1 k3.
Proof.
  induction k1; intros k2 k3 H1 H2; inversion H1; subst; inversion H2; subst; constructor; eauto using less_ref_trans.
Qed.

Lemma same_packets_trans cs1 cs2 cs3 : same_packets cs1 cs2 -> same_packets cs2 cs3 -> same_packets cs1 cs3.
Proof. intros H1 H2 q. eapply less_refs_trans; [apply H1|apply H2]. Qed.

Lemma less_refs_view k k' : Forall2 less_ref k k' ->
  content k' = content k /\ fst <$> k' = fst <$> k /\ sum_len k' = sum_len k /\ (no_empty k -> no_empty k').
Proof.
  induction 1 as [|[a b] [a' b'] k k' (E & r & Hr & Eb) HF IH]; [done|]. destruct IH as (I1 & I2 & I3 & I4).
  cbn in E, Eb; subst. rewrite !content_cons, !fmap_cons, I1, I2. cbn [sum_len fst]. rewrite I3. split_and!; try done.
  unfold no_empty in *. rewrite !Forall_cons. cbn. intros [? ?]; auto.
Qed.

(** The references of one packet change with its count. *)
Lemma owned_counted {F : Frame} h h' cs Q Q' p k b :
  owned h cs Q -> p ∈ Q -> p ∈ Q' -> (forall q, q <> p -> occ q Q' = occ q Q) ->
  std_packet h' p k -> fst <$> k = fst <$> cs p ->
  get h' p = Some b -> occ p Q' = pb_ref b ->
  (forall a, a ∉ fst <$> cs p -> get h' a = get h a) ->
  owned h' (cs_set p k cs) Q'.
Proof.
  intros [H1 H2 H3 H4 H5] Hp Hp' Hocc Hk Ek Hg Hr Hf.
  assert (HQ : forall q, q ∈ Q' <-> q ∈ Q).
  { intros q. destruct (decide (q = p)) as [->|Hne]; [done|]. rewrite !occ_pos. by rewrite Hocc. }
  assert (Hcs : forall q, fst <$> cs_set p k cs q = fst <$> cs q).
  { intros q. unfold cs_set. case_decide; by subst. }
  assert (Hout : forall q a, q ∈ Q -> q <> p -> a ∈ fst <$> cs q -> get h' a = get h a).
  { intros q a Hq Hne Ha. apply Hf. intros Hap. by apply (H3 q p Hq Hp Hne a). }
  split.
  - intros q Hq%HQ. destruct (decide (q = p)) as [->|Hne]; [by rewrite cs_set_eq|].
    rewrite cs_set_ne by done. eapply std_packet_frame; [|by apply H1]. eauto.
  - intros q c Hq%HQ Hc. destruct (decide (q = p)) as [->|Hne]; [by simplify_eq|].
    rewrite Hocc by done. apply H2; [done|]. rewrite <- Hc. symmetry. eapply Hout; [done..|]. by eapply std_packet_in, H1.
  - intros q q' Hq%HQ Hq'%HQ. rewrite !Hcs. auto.
  - intros a c Hc. destruct (H4 a c Hc) as [Hga Hn]. split; [rewrite Hf; auto|]. intros q Hq%HQ. rewrite Hcs. auto.
  - intros a [c Hc]. destruct (decide (a ∈ fst <$> cs p)) as [Ha|Ha]; [right; exists p; by rewrite Hcs|].
    rewrite Hf in Hc by done. destruct (H5 a ltac:(eauto)) as [?|(q & Hq & Hqa)]; [by left|].
    right. exists q. rewrite HQ, Hcs. done.
Qed.

(** Giving back one reference. *)
Lemma pbuf_free_owned {F : Frame} cf h cs p Q :
  owned h cs (p :: Q) -> heap_wf h ->
  exists n h' cs', pbuf_free cf (Some p) h = Some (n, h') /\ owned h' cs' Q /\ heap_wf h' /\
    same_packets cs cs' /\
    (forall a, a ∉ fst <$> cs p -> get h' a = get h a) /\ (forall q, q <> p -> cs' q = cs q) /\
    h_orc h' = h_orc h.
Proof.
  intros HO Hwf. pose proof (owned_packet _ _ _ HO p ltac:(by left)) as Hp.
  pose proof (std_packet_head _ _ _ Hp) as (b & t & Ec & Hg). destruct Hp as (Hp & Hs & Hon).
  assert (Hos : Forall (fun c => pb_ok c.2 /\ pb_std c.2) (cs p)).
  { apply Forall_and; split; [apply Hp|done]. }
  rewrite (pbuf_free_spec cf h (Some p) (cs p)); [|apply Hp|apply Hp|done].
  assert (Hw' : heap_wf (free_heap (cs p) h)).
  { apply free_heap_wf; [rewrite Ec in *; apply Hp|apply Hp|done]. }
  pose proof (owned_ref _ _ _ HO p b ltac:(by left) Hg) as Hr. cbn in Hr. rewrite decide_True in Hr by done.
  rewrite Ec in *. pose proof (packet_cons _ _ _ _ Hp) as (_ & (? & ? & ? & ?) & _).
  cbn [free_heap] in *. destruct (Z.eqb_spec (pb_ref b) 1) as [E1|E1].
  - assert (p ∉ Q) as Hn by (rewrite occ_pos; lia).
    assert (Hall : forall a, a ∈ fst <$> cs p -> get (free_heap t (del h p)) a = None).
    { intros a. rewrite Ec. intros Ha. pose proof (free_heap_all ((p, b) :: t) h a) as HA.
      cbn [free_heap] in HA. rewrite E1, Z.eqb_refl in HA. apply HA; [apply Hp|by constructor|done]. }
    assert (Hoth : forall a, a ∉ fst <$> cs p -> get (free_heap t (del h p)) a = get h a).
    { intros a Ha. rewrite Ec, fmap_cons in Ha; cbn in Ha. rewrite free_heap_frame, get_del_ne; set_solver. }
    exists (u8 (freed ((p, b) :: t))), (free_heap t (del h p)), cs.
    split_and!; [done|by eapply owned_drop|done|apply same_packets_refl|by rewrite <- Ec|done|by rewrite free_heap_orc].
  - assert (p ∈ Q) as Hin by (rewrite occ_pos; lia).
    exists (u8 (freed ((p, b) :: t))), (put h p (set_ref (pb_ref b - 1) b)), (cs_set p ((p, set_ref (pb_ref b - 1) b) :: t) cs).
    split_and!; [done| |done| | | |done].
    + assert (HU : std_packet (put h p (set_ref (pb_ref b - 1) b)) p ((p, set_ref (pb_ref b - 1) b) :: t)).
      { split; [apply packet_head_ref; [done|lia]|]. split; [|done]. apply Forall_cons in Hs as [? ?]. by constructor. }
      eapply owned_counted; [exact HO|by left|done| |exact HU|by rewrite Ec|apply get_put_eq|cbn; lia|].
      { intros q Hq. cbn. by rewrite decide_False. }
      intros a. rewrite Ec, fmap_cons. intros Ha; apply get_put_ne. set_solver.
    + intros q. unfold cs_set. case_decide as E; [subst; rewrite Ec|apply less_refs_refl].
      constructor; [|apply less_refs_refl]. split; [done|]. exists (pb_ref b - 1). split; [cbn; lia|done].
    + intros a. rewrite fmap_cons. intros Ha; apply get_put_ne. set_solver.
    + intros q Hq. by apply cs_set_ne.
Qed.

(** Taking one more reference. *)
Lemma pbuf_ref_owned {F : Frame} h cs p b Q :
  owned h cs (p :: Q) -> get h p = Some b -> pb_ref b < 255 -> heap_wf h ->
  exists h' cs', pbuf_ref (Some p) h = Some h' /\ owned h' cs' (p :: p :: Q) /\ heap_wf h' /\
    (forall q, content (cs' q) = content (cs q) /\ fst <$> cs' q = fst <$> cs q) /\
    (forall a, a ∉ fst <$> cs p -> get h' a = get h a).
Proof.
  intros HO Hg Hr Hwf. pose proof (owned_packet _ _ _ HO p ltac:(by left)) as Hp.
  pose proof (std_packet_head _ _ _ Hp) as (b' & t & Ec & Hg'). simplify_eq. destruct Hp as (Hp & Hs & Hon).
  rewrite Ec in *. pose proof (packet_cons _ _ _ _ Hp) as (_ & (? & ? & ? & ?) & _).
  pose proof (owned_ref _ _ _ HO p b ltac:(by left) Hg) as Hocc. cbn in Hocc; rewrite decide_True in Hocc by done.
  cbn [pbuf_ref]. rewrite Hg; cbn [mbind option_bind]. rewrite u8_small by lia.
  set (b1 := set_ref (pb_ref b + 1) b). eexists _, (cs_set p ((p, b1) :: t) cs).
  split_and!; [done| |by eapply heap_wf_put| |].
  - eapply (owned_counted h _ cs (p :: Q) _ p _ b1); [done|by left|by left| | |by rewrite Ec|apply get_put_eq| |].
    + intros q Hq. cbn. rewrite (decide_False (P := q = p)) by done. lia.
    + split; [apply packet_head_ref; [done|lia]|]. split; [|done]. apply Forall_cons in Hs as [? ?]. by constructor.
    + cbn. rewrite decide_True by done. lia.
    + intros a. rewrite Ec, fmap_cons. intros Ha; apply get_put_ne. set_solver.
  - intros q. unfold cs_set. case_decide as E; [subst; rewrite Ec|]; done.
  - intros a. rewrite fmap_cons. intros Ha; apply get_put_ne. set_solver.
Qed.

(** A new packet, of pbufs that were not in use. *)
Lemma owned_add {F : Frame} h h' cs Q p k b :
  owned h cs Q -> std_packet h' p k -> get h' p = Some b -> pb_ref b = 1 ->
  (forall a, a ∈ fst <$> k -> get h a = None) -> (forall a, a ∉ fst <$> k -> get h' a = get h a) ->
  owned h' (cs_set p k cs) (p :: Q) /\ (p ∉ Q).
Proof.
  intros [H1 H2 H3 H4 H5] Hk Hg Hr Hfree Hfr.
  assert (Hlive : forall x a, x ∈ Q -> a ∈ fst <$> cs x -> a ∉ fst <$> k).
  { intros x a Hx Hin Hak. destruct (cells_live _ _ _ _ (H1 x Hx) Hin). rewrite Hfree in *; done. }
  pose proof (std_packet_in _ _ _ Hk) as Hpk.
  assert (Hn : p ∉ Q).
  { intros Hin. apply (Hlive p p); [done| |done]. by eapply std_packet_in, H1. }
  split; [|done]. split.
  - intros q [->|Hq]%elem_of_cons; [by rewrite cs_set_eq|]. rewrite cs_set_ne by by intros ->.
    eapply std_packet_frame; [|by apply H1]. eauto.
  - intros q c [->|Hq]%elem_of_cons Hc.
    + simplify_eq. cbn. rewrite decide_True by done. rewrite occ_pos in Hn. pose proof (occ_nonneg p Q). lia.
    + cbn. rewrite decide_False by by intros ->. apply H2; [done|]. rewrite <- Hfr; [done|].
      eapply Hlive; [done|]. by eapply std_packet_in, H1.
  - intros q q' [->|Hq]%elem_of_cons [->|Hq']%elem_of_cons Hne; [done|..].
    + rewrite cs_set_eq, cs_set_ne by done. intros a Ha Ha'. by eapply Hlive.
    + rewrite cs_set_eq, cs_set_ne by done. intros a Ha Ha'. by eapply Hlive.
    + rewrite !cs_set_ne by (intros ->; done). auto.
  - intros a c Hc. destruct (H4 a c Hc) as [Hga Hna].
    assert (Hak : a ∉ fst <$> k) by (intros Hak; rewrite Hfree in Hga; done).
    split; [by rewrite Hfr|]. intros q [->|Hq]%elem_of_cons; [by rewrite cs_set_eq|].
    rewrite cs_set_ne by (intros ->; done). auto.
  - intros a [c Hc]. destruct (decide (a ∈ fst <$> k)) as [Hak|Hak].
    + right. exists p. rewrite cs_set_eq. split; [by left|done].
    + rewrite Hfr in Hc by done. destruct (H5 a ltac:(eauto)) as [?|(q & Hq & ?)]; [by left|].
      right. exists q. rewrite cs_set_ne by by intros ->. split; [by right|done].
Qed.

(** A packet of one pbuf that was just allocated. *)
Lemma owned_fresh {F : Frame} h h' cs Q p b :
  owned h cs Q -> get h p = None -> (forall a, a <> p -> get h' a = get h a) -> packet h' (Some p) [(p, b)] -> pb_std b ->
  pb_ref b = 1 -> owned h' (cs_set p [(p, b)] cs) (p :: Q) /\ (p ∉ Q).
Proof.
  intros HO Hfree Hfr Hp Hstd Hr. pose proof (packet_cons _ _ _ _ Hp) as (Hg' & _).
  apply (owned_add h h' cs Q p [(p, b)] b); [done| |done|done|..].
  - split; [done|]. split; [by apply Forall_singleton|]. by apply Forall_nil.
  - intros a. cbn. by intros ->%list_elem_of_singleton.
  - intros a Ha. apply Hfr. intros ->. apply Ha. cbn. by apply list_elem_of_singleton.
Qed.

(** What is no longer accounted for is no longer there. *)
Lemma owned_gone {F : Frame} h h' cs P O f a :
  owned h cs (P ++ O) -> owned h' cs O -> f ∈ P -> f ∉ O -> a ∈ fst <$> cs f -> get h' a = None.
Proof.
  intros HO HO' Hf Hn Ha. destruct (get h' a) as [b|] eqn:E; [exfalso|done].
  assert (Hf' : f ∈ P ++ O) by set_solver. destruct (owned_all _ _ _ HO' a) as [[c Hc]|(x & Hx & Hax)]; [by rewrite E|..].
  - destruct (owned_out _ _ _ HO a c Hc) as [_ Hout]. by apply (Hout f).
  - apply (owned_sep _ _ _ HO f x Hf' ltac:(set_solver) ltac:(by intros ->) a Ha Hax).
Qed.

Lemma occ_nodup p Q : NoDup Q -> p ∈ Q -> occ p Q = 1.
Proof.
  induction 1 as [|q Q Hq Hnd IH]; [by intros ?%not_elem_of_nil|]. cbn. intros [->|Hp]%elem_of_cons.
  - rewrite decide_True by done. rewrite occ_pos in Hq. pose proof (occ_nonneg q Q). lia.
  - rewrite decide_False by by intros ->. by rewrite IH.
Qed.

(** A store of packets of one pbuf each. *)
Lemma owned_singles h cs Q :
  NoDup Q ->
  (forall p, p ∈ Q -> exists b, cs p = [(p, b)] /\ get h p = Some b /\ pb_ok b /\ pb_next b = None /\ pb_tot_len b = pb_len b /\ pb_std b /\ pb_ref b = 1) ->
  (forall a, is_Some (get h a) -> a ∈ Q) -> owned (F := no_frame) h cs Q.
Proof.
  intros Hnd Hg Hall. split.
  - intros p Hp. destruct (Hg p Hp) as (b & E & Hb & H1 & H2 & H3 & H4 & _). rewrite E.
    split; [by apply packet_single|split; [by apply Forall_singleton|by apply Forall_nil]].
  - intros p b Hp Hb. destruct (Hg p Hp) as (b' & _ & Hb' & _ & _ & _ & _ & Hr). rewrite occ_nodup by done. congruence.
  - intros p q Hp Hq Hne. destruct (Hg p Hp) as (b & -> & _). destruct (Hg q Hq) as (b' & -> & _). set_solver.
  - done.
  - intros a Ha. right. exists a. pose proof (Hall a Ha) as Hin. split; [done|]. destruct (Hg a Hin) as (b & -> & _). set_solver.
Qed.
