(* ===== verification/PbufHdr.v ===== *)
(** Adding and removing headers, and shrinking, on owned packets. *)
From S2P Require Import Prelude Bits Pbuf PbufData PbufChain PbufIO PbufLife PbufCopy PbufOwn.

(** The first pbuf with [n] more, or [n] fewer bytes in front. *)
Definition grown (n : Z) (b : pbuf) : pbuf := set_payload (pb_payload b - n) (pb_len b + n) (pb_tot_len b + n) b.

Definition shrunk (n : Z) (b : pbuf) : pbuf := set_payload (pb_payload b + n) (pb_len b - n) (pb_tot_len b - n) b.

Definition room (n : Z) (b : pbuf) : bool :=
  negb (pb_type b .& PBUF_TYPE_FLAG_STRUCT_DATA_CONTIGUOUS =? 0) && (n <=? pb_payload b) && (n + pb_tot_len b <? 65536).

Lemma add_header_eq h p b t n :
  packet h (Some p) ((p, b) :: t) -> 0 < n < 65536 ->
  pbuf_add_header (Some p) n h = Some (if room n b then (0, put h p (grown n b)) else (1, h)).
Proof.
  intros Hp Hn. pose proof (packet_cons _ _ _ _ Hp) as (Hg & Hb & _ & Htot & Hp').
  pose proof Hp as [_ _ _ _ Hsum]. pose proof Hp' as [_ _ Ho _ _]. pose proof (sum_len_nonneg _ Ho). pose proof Hb as (? & ? & ? & ?).
  cbn [sum_len] in *. unfold pbuf_add_header, pbuf_add_header_impl, room.
  destruct (Z.ltb_spec 0xFFFF n); [lia|]. destruct (Z.eqb_spec n 0); [lia|]. rewrite Hg; cbn [mbind option_bind].
  rewrite (u16_small n) by lia. destruct (Z.ltb_spec (n + pb_tot_len b) 65536) as [Hfit|Hno].
  - rewrite (u16_small (n + pb_tot_len b)) by lia. destruct (Z.ltb_spec (n + pb_tot_len b) n); [lia|]. rewrite andb_true_r.
    destruct (_ =? 0); cbn [negb andb]; [done|]. destruct (Z.leb_spec n (pb_payload b)).
    + destruct (Z.ltb_spec (pb_payload b - n) 0); [lia|]. by rewrite !u16_small by lia.
    + destruct (Z.ltb_spec (pb_payload b - n) 0); [done|lia].
  - rewrite andb_false_r. destruct (Z.ltb_spec (u16 (n + pb_tot_len b)) n) as [|Hw]; [done|]. exfalso. revert Hw.
    unfold u16. change (2 ^ 16) with 65536. zdm. lia.
Qed.

Lemma remove_header_eq h p b t n :
  packet h (Some p) ((p, b) :: t) -> 0 < n < 65536 ->
  pbuf_remove_header (Some p) n h = Some (if n <=? pb_len b then (0, put h p (shrunk n b)) else (1, h)).
Proof.
  intros Hp Hn. pose proof (packet_cons _ _ _ _ Hp) as (Hg & Hb & _ & Htot & Hp').
  pose proof Hp as [_ _ _ _ Hsum]. pose proof Hp' as [_ _ Ho _ _]. pose proof (sum_len_nonneg _ Ho). pose proof Hb as (? & ? & ? & ?).
  cbn [sum_len] in *. unfold pbuf_remove_header.
  destruct (Z.ltb_spec 0xFFFF n); [lia|]. destruct (Z.eqb_spec n 0); [lia|]. rewrite Hg; cbn [mbind option_bind].
  rewrite (u16_small n) by lia. destruct (Z.leb_spec n (pb_len b)), (Z.ltb_spec (pb_len b) n); try lia; [|done].
  by rewrite !u16_small by lia.
Qed.

(** Rewriting the first pbuf of an owned packet, keeping its links. *)
Lemma owned_head {F : Frame} h cs Q p b t b' :
  owned h cs Q -> p ∈ Q -> cs p = (p, b) :: t -> pb_ok b' -> pb_std b' -> pb_next b' = pb_next b -> pb_ref b' = pb_ref b ->
  pb_tot_len b' = pb_len b' + sum_len t -> pb_tot_len b' < 65536 ->
  owned (put h p b') (cs_set p ((p, b') :: t) cs) Q.
Proof.
  intros HO Hp Ec Hok Hstd Hnx Hrf Htl Hlen.
  pose proof (owned_packet _ _ _ HO p Hp) as (Hk & Hs & Hon). rewrite Ec in Hk, Hs, Hon.
  pose proof (packet_cons _ _ _ _ Hk) as (Hg & _ & Ha & _ & _).
  destruct Hk as [Hl Hnd Ho [_ Hts] Hsum]. eapply (owned_update h _ cs Q p _ b'); [done|done| | | | |].
  - split; [|split; [apply Forall_cons in Hs as [_ Hs]; by constructor|done]]. constructor; cbn [sum_len] in *.
    + cbn. split; [done|]. split; [apply get_put_eq|]. rewrite Hnx. apply lseg_put; [done|]. apply Hl.
    + done.
    + apply Forall_cons in Ho as [_ Ho]. by constructor.
    + done.
    + lia.
  - by rewrite Ec.
  - apply get_put_eq.
  - rewrite Hrf. by eapply owned_ref.
  - intros a. rewrite Ec, fmap_cons. intros Hna; apply get_put_ne. set_solver.
Qed.

(** Writing a header into the space it got. *)
Lemma header_written n b hdr :
  pb_ok b -> zlen hdr = n -> n <= pb_payload b -> n + pb_len b < 65536 ->
  exists b', payload_write (grown n b) 0 hdr = Some b' /\ pb_ok b' /\ pb_bytes b' = hdr ++ pb_bytes b /\
    exists m, b' = set_mem m (grown n b) /\ zlen m = zlen (pb_mem b).
Proof.
  intros Hb Hz Hn Hlen. pose proof Hb as (? & ? & ? & ?). pose proof (zlen_nonneg hdr).
  assert (Hg : pb_ok (grown n b)) by (unfold pb_ok, grown; cbn; lia).
  destruct (payload_write_spec (grown n b) 0 hdr) as (b' & -> & _ & Hr & Hby); [done|lia|cbn; lia|].
  exists b'. split; [done|]. destruct (Hr 1%positive) as (_ & m & E & Hm); cbn in E, Hm. subst b'. split; [|split].
  - unfold pb_ok in *; cbn in *. by rewrite Hm.
  - rewrite Hby, ztake_0. cbn [app]. f_equal. unfold pb_bytes, grown; cbn. rewrite Hz.
    rewrite zdrop_ztake, zdrop_zdrop by lia. f_equal; [lia|]. f_equal; lia.
  - eauto.
Qed.

Lemma shrunk_bytes n b : pb_ok b -> 0 <= n <= pb_len b -> pb_bytes (shrunk n b) = zdrop n (pb_bytes b).
Proof.
  intros (? & ? & ? & ?) Hn. unfold pb_bytes, shrunk; cbn. rewrite zdrop_ztake, zdrop_zdrop by lia.
  f_equal. f_equal; lia.
Qed.

Lemma grown_shrunk n b : grown n (shrunk n b) = b.
Proof. destruct b; unfold grown, shrunk, set_payload; cbn. f_equal; lia. Qed.

Lemma shrunk_grown n b : shrunk n (grown n b) = b.
Proof. destruct b; unfold grown, shrunk, set_payload; cbn. f_equal; lia. Qed.

(** Shrinking a packet. *)
Lemma pbuf_realloc_owned {F : Frame} cf h cs Q p b t n :
  owned h cs Q -> heap_wf h -> p ∈ Q -> cs p = (p, b) :: t -> 0 <= n < sum_len (cs p) ->
  exists h' b' t', pbuf_realloc cf p n h = Some h' /\ owned h' (cs_set p ((p, b') :: t') cs) Q /\ heap_wf h' /\
    get h' p = Some b' /\ content ((p, b') :: t') = ztake n (content (cs p)) /\ trimmed (p, b) (p, b') /\ (no_empty t -> no_empty t') /\
    pb_len b' = Z.min (pb_len b) n.
Proof.
  intros HO Hwf Hp Ec Hn. pose proof (owned_packet _ _ _ HO p Hp) as Hstp. pose proof Hstp as (Hk & Hs & Hon).
  destruct (pbuf_realloc_trim cf h p (cs p) n Hk Hs Hn) as (h' & l1 & l2 & k & E & El & Hf & Hk' & Hc & Hfr & Htr & Hpos & Hhd & Hnx).
  destruct (packet_inv _ _ _ Hk') as [[? _]|(a & b' & t' & [= <-] & ->)]; [done|].
  pose proof (packet_cons _ _ _ _ Hk') as (Hg' & _). exists h', b', t'.
  destruct l1 as [|c l1]; [inversion Htr|]. rewrite Ec in El. injection El as <- Et.
  apply Forall2_cons in Htr as [Ht1 Htr].
  assert (Hstd : Forall (fun c => pb_std c.2) ((p, b') :: t')).
  { rewrite Ec in Hs. apply Forall_cons in Hs as [Hsb Hst]. rewrite Et in Hst. apply Forall_app in Hst as [Hst _]. constructor.
    - destruct Ht1 as (_ & ? & ? & ? & _ & E2). cbn in E2. rewrite E2. exact Hsb.
    - eapply Forall2_Forall_r; [exact Htr|]. eapply Forall_impl; [exact Hst|]. cbn beta. intros x Hx y (_ & ? & ? & ? & _ & ->). exact Hx. }
  assert (Hon' : Forall (fun c => pb_ref c.2 = 1) l2 /\ once ((p, b') :: t')).
  { unfold once in *. rewrite Ec, Et in Hon. cbn [tail] in Hon. apply Forall_app in Hon as [Hon1 Hon2]. split; [done|].
    cbn [tail]. eapply Forall2_Forall_r; [exact Htr|]. eapply Forall_impl; [exact Hon1|]. cbn beta. intros x Hx y (_ & ? & ? & ? & _ & ->). exact Hx. }
  destruct Hon' as (Hon2 & Hon').
  assert (Hout : forall a, a ∉ fst <$> cs p -> get h' a = get h a).
  { intros a Ha. rewrite Ec, Et in Ha. rewrite app_comm_cons, fmap_app, elem_of_app in Ha. rewrite Hfr by tauto.
    apply free_heap_frame. tauto. }
  split_and!; try done.
  - eapply (owned_replace h _ cs Q p _ b'); [done|done|by split| | |done| |done].
    + intros a Ha. rewrite Hf in Ha. rewrite Ec, Et, app_comm_cons, fmap_app. set_solver.
    + intros a Ha Hna. rewrite Hf in Hna. rewrite Hfr by done. apply free_heap_all; [|done|].
      * destruct Hk as [_ Hnd _ _ _]. rewrite Ec, Et, app_comm_cons, fmap_app in Hnd. by apply NoDup_app in Hnd as (_ & _ & ?).
      * rewrite Ec, Et, app_comm_cons, fmap_app in Ha. set_solver.
    + destruct (std_packet_head _ _ _ Hstp) as (b0 & t0 & Ec0 & Hg0). rewrite Ec in Ec0. injection Ec0 as <- <-.
      destruct Ht1 as (_ & ? & ? & ? & _ & E2). cbn in E2. rewrite E2. cbn. by eapply owned_ref.
  - intros x c Hx. rewrite Hnx. destruct (decide (x ∈ fst <$> cs p)) as [Hin|Hin].
    + destruct (cells_live _ _ _ _ Hstp Hin) as [d Hd]. by eapply Hwf.
    + rewrite Hout in Hx by done. by eapply Hwf.
  - intros Hne. apply Hpos. by rewrite Ec.
  - rewrite Ec in Hhd. exact (Hhd (p, b) (p, b') eq_refl eq_refl).
Qed.

(** ** Overwriting parts of a payload *)
Definition patched (b b' : pbuf) : Prop := exists m, b' = set_mem m b /\ zlen m = zlen (pb_mem b).

#[export] Instance patched_refl : Reflexive patched.
Proof. intros b. exists (pb_mem b). by destruct b. Qed.

#[export] Instance patched_trans : Transitive patched.
Proof. intros b1 b2 b3 (m & -> & E) (m' & -> & E'). exists m'. split; [by destruct b1|]. cbn in E'. congruence. Qed.

Lemma payload_patch b x y z o d :
  pb_ok b -> pb_bytes b = x ++ y ++ z -> zlen x = o -> zlen d = zlen y ->
  exists b', payload_write b o d = Some b' /\ patched b b' /\ pb_ok b' /\ pb_bytes b' = x ++ d ++ z.
Proof.
  intros Hb E Hx Hd. pose proof (pb_bytes_len b Hb) as Hl. rewrite E, !zlen_app in Hl.
  pose proof (zlen_nonneg x). pose proof (zlen_nonneg y). pose proof (zlen_nonneg z).
  destruct (payload_write_spec b o d Hb ltac:(lia) ltac:(lia)) as (b' & -> & _ & Hr & Hby). exists b'. split; [done|].
  destruct (Hr 1%positive) as (_ & m & E' & Hm); cbn in E', Hm. split; [by exists m|].
  split; [subst b'; unfold pb_ok in *; cbn in *; by rewrite Hm|]. rewrite Hby, E.
  rewrite ztake_app_le, ztake_ge by lia. f_equal. f_equal. rewrite zdrop_app_ge by lia. rewrite zdrop_app_ge by lia.
  replace (o + zlen d - zlen x - zlen y) with 0 by lia. by rewrite zdrop_0.
Qed.

(** A byte string cut in two. *)
Lemma zsplit {A} n (l : list A) : 0 <= n <= zlen l -> exists x y, l = x ++ y /\ zlen x = n /\ zlen y = zlen l - n.
Proof.
  intros Hn. exists (ztake n l), (zdrop n l). split; [by rewrite ztake_zdrop|]. rewrite zlen_ztake, zlen_zdrop by lia. lia.
Qed.

(** A payload as a sequence of fields, with their lengths. *)
Definition zsum (l : list Z) : Z := foldr Z.add 0 l.

Lemma zlen_concat {A} (segs : list (list A)) : zlen (concat segs) = zsum (zlen <$> segs).
Proof. induction segs; cbn; [done|]. rewrite zlen_app. by rewrite IHsegs. Qed.

(** The fields of a first pbuf's payload. *)
Record fields (segs : list (list Z)) (lens : list Z) (b : pbuf) : Prop := Fields {
  fl_ok : pb_ok b; fl_bytes : pb_bytes b = concat segs; fl_lens : zlen <$> segs = lens;
}.

Lemma concat_field {A} (segs : list (list A)) i y :
  segs !! i = Some y -> concat segs = concat (take i segs) ++ y ++ concat (drop (S i) segs).
Proof.
  intros Hi. rewrite <- (take_drop_middle segs i y Hi) at 1. by rewrite concat_app.
Qed.

Lemma field_at segs lens b i n :
  fields segs lens b -> lens !! i = Some n -> exists y, segs !! i = Some y /\ zlen y = n /\ zlen (concat (take i segs)) = zsum (take i lens).
Proof.
  intros [_ _ E] Hn. rewrite <- E, list_lookup_fmap in Hn. destruct (segs !! i) as [y|]; [|done]. injection Hn as Hn.
  exists y. split; [done|]. split; [done|]. by rewrite zlen_concat, <- E, fmap_take.
Qed.

(** Assigning a field, and reading one. *)
Lemma field_write segs lens b i d :
  fields segs lens b -> lens !! i = Some (zlen d) ->
  exists b', payload_write b (zsum (take i lens)) d = Some b' /\ patched b b' /\ fields (<[i := d]> segs) lens b'.
Proof.
  intros HF Hn. destruct (field_at _ _ _ _ _ HF Hn) as (y & Hy & Hl & Ho). destruct HF as [Hok Hb El].
  destruct (payload_patch b _ y _ (zsum (take i lens)) d Hok ltac:(rewrite Hb; by apply concat_field) Ho ltac:(done)) as (b' & E & P & O & B).
  exists b'. split; [done|]. split; [done|]. split; [done|..].
  - rewrite B. assert (Hi : (i < length segs)%nat) by by eapply lookup_lt_Some. rewrite (concat_field (<[i := d]> segs) i d) by by apply list_lookup_insert_eq.
    rewrite take_insert_ge, drop_insert_lt by lia. done.
  - rewrite list_fmap_insert, El. apply list_insert_id. done.
Qed.

Lemma field_read segs lens b i y :
  fields segs lens b -> segs !! i = Some y -> payload_read b (zsum (take i lens)) (zlen y) = Some y.
Proof.
  intros [Hok Hb El] Hy. pose proof (concat_field segs i y Hy) as Hc. rewrite <- Hb in Hc.
  pose proof (pb_bytes_len b Hok) as Hl. rewrite Hc, !zlen_app in Hl.
  pose proof (zlen_nonneg (concat (take i segs))). pose proof (zlen_nonneg y). pose proof (zlen_nonneg (concat (drop (S i) segs))).
  assert (Ho : zlen (concat (take i segs)) = zsum (take i lens)) by by rewrite zlen_concat, <- El, fmap_take.
  rewrite payload_read_spec by (done || lia). rewrite Hc, zdrop_app_ge by lia. rewrite Ho, Z.sub_diag, zdrop_0.
  by rewrite ztake_app_le, ztake_ge by lia.
Qed.

(** The bytes in front of the payload. *)
Definition front (n : Z) (b : pbuf) : list Z := ztake n (zdrop (pb_payload b - n) (pb_mem b)).

Lemma front_len n b : pb_ok b -> 0 <= n <= pb_payload b -> zlen (front n b) = n.
Proof. intros (? & ? & ? & ?) Hn. unfold front. rewrite zlen_ztake; [done|]. rewrite zlen_zdrop. lia. Qed.

Lemma grown_bytes n b : pb_ok b -> 0 <= n <= pb_payload b -> pb_bytes (grown n b) = front n b ++ pb_bytes b.
Proof.
  intros (? & ? & ? & ?) Hn. unfold pb_bytes, grown, front; cbn. set (m := zdrop (pb_payload b - n) (pb_mem b)).
  replace (zdrop (pb_payload b) (pb_mem b)) with (zdrop n m) by (unfold m; rewrite zdrop_zdrop by lia; f_equal; lia).
  rewrite <- (ztake_zdrop n (ztake (pb_len b + n) m)), ztake_ztake, zdrop_ztake by lia. f_equal; f_equal; lia.
Qed.

Lemma grown_ok n b : pb_ok b -> 0 <= n <= pb_payload b -> pb_len b + n < 65536 -> pb_ok (grown n b).
Proof. intros (? & ? & ? & ?) Hn Hl. unfold pb_ok, grown; cbn. lia. Qed.

(** Moving the payload back over a header that was removed. *)
Lemma header_force_eq h p b t n :
  packet h (Some p) ((p, b) :: t) -> 0 < n < 32768 -> n <= pb_payload b -> n + pb_tot_len b < 65536 ->
  pbuf_header_force (Some p) n h = Some (0, put h p (grown n b)).
Proof.
  intros Hp Hn Hpl Hl. pose proof (packet_cons _ _ _ _ Hp) as (Hg & Hb & _ & Htot & [_ _ Ho _ _]). pose proof (sum_len_nonneg _ Ho).
  pose proof Hb as (? & ? & ? & ?). unfold pbuf_header_force, pbuf_header_impl.
  destruct (Z.ltb_spec n 0); [lia|]. unfold pbuf_add_header_impl. destruct (Z.ltb_spec 0xFFFF n); [lia|]. destruct (Z.eqb_spec n 0); [lia|].
  rewrite Hg; cbn [mbind option_bind]. rewrite (u16_small n), !u16_small by lia. destruct (Z.ltb_spec (n + pb_tot_len b) n); [lia|].
  destruct (negb _); [|done]. destruct (Z.ltb_spec (pb_payload b - n) 0); [lia|done].
Qed.
