(* ===== verification/Def.v ===== *)
(** Byte order, C strings and number formatting: [core/def.c].

    A C string is the list of the bytes that follow the pointer; reading past
    the end of the list is undefined behaviour ([None]).  The C library
    functions the code calls ([strlen], [strncmp], [atoi]) are modelled as the
    C standard gives them. *)
From S2P Require Import Prelude Bits.

(** ** Byte order (little-endian hosts: all the Android ABIs) *)
Definition PP_HTONS (x : Z) : Z := u16 (((x .& 0x00ff) .<< 8) .| ((x .& 0xff00) .>> 8)).

Definition PP_HTONL (x : Z) : Z :=
  u32 ((((x .& 0x000000ff) .<< 24) .| ((x .& 0x0000ff00) .<< 8))
       .| ((x .& 0x00ff0000) .>> 8) .| ((x .& 0xff000000) .>> 24)).

Definition lwip_htons (n : Z) : Z := PP_HTONS n.

Definition lwip_htonl (n : Z) : Z := PP_HTONL n.

(** ** C strings *)
Fixpoint strlen (s : list Z) : option Z :=
  match s with
  | [] => None
  | c :: r => if c =? 0 then Some 0 else n ← strlen r; Some (n + 1)
  end.

Fixpoint strncmp (s1 s2 : list Z) (n : nat) : option Z :=
  match n with
  | O => Some 0
  | S n' =>
      match s1, s2 with
      | c1 :: r1, c2 :: r2 =>
          if negb (c1 =? c2) then Some (c1 - c2)
          else if c1 =? 0 then Some 0 else strncmp r1 r2 n'
      | _, _ => None
      end
  end.

(** The test the two comparison loops share: [false] is "return 1". *)
Definition same_letter (c1 c2 : Z) : bool :=
  if c1 =? c2 then true
  else
    let c1_upc := c1 .| 0x20 in
    if (97 <=? c1_upc) && (c1_upc <=? 122)
    then let c2_upc := c2 .| 0x20 in c1_upc =? c2_upc
    else false.

Fixpoint lwip_stricmp (str1 str2 : list Z) : option Z :=
  match str1, str2 with
  | c1 :: r1, c2 :: r2 =>
      if same_letter c1 c2
      then if c1 =? 0 then Some 0 else lwip_stricmp r1 r2
      else Some 1
  | _, _ => None
  end.

(** [len] is a [size_t]: the decrement before the test makes a zero length
    the longest one. *)
Fixpoint lwip_strnicmp (str1 str2 : list Z) (len : Z) : option Z :=
  match str1, str2 with
  | c1 :: r1, c2 :: r2 =>
      if same_letter c1 c2
      then let len := u64 (len - 1) in
           if negb (len =? 0) && negb (c1 =? 0) then lwip_strnicmp r1 r2 len else Some 0
      else Some 1
  | _, _ => None
  end.

(** The search loops walk [p] over the buffer; [off] is [p - buffer].  The
    result is the offset of the match, or no match. *)
Fixpoint strnstr_loop (p token : list Z) (tokenlen n off : Z) : option (option Z) :=
  match p with
  | [] => None
  | c :: r =>
      if (c =? 0) || negb (off + tokenlen <=? n) then Some None
      else
        t0 ← head token;
        if c =? t0
        then d ← strncmp p token (Z.to_nat tokenlen);
             if d =? 0 then Some (Some off) else strnstr_loop r token tokenlen n (off + 1)
        else strnstr_loop r token tokenlen n (off + 1)
  end.

Definition lwip_strnstr (buffer token : list Z) (n : Z) : option (option Z) :=
  tokenlen ← strlen token;
  if tokenlen =? 0 then Some (Some 0) else strnstr_loop buffer token tokenlen n 0.

Fixpoint strnistr_loop (p token : list Z) (tokenlen n off : Z) : option (option Z) :=
  match p with
  | [] => None
  | c :: r =>
      if (c =? 0) || negb (off + tokenlen <=? n) then Some None
      else
        d ← lwip_strnicmp p token tokenlen;
        if d =? 0 then Some (Some off) else strnistr_loop r token tokenlen n (off + 1)
  end.

Definition lwip_strnistr (buffer token : list Z) (n : Z) : option (option Z) :=
  tokenlen ← strlen token;
  if tokenlen =? 0 then Some (Some 0) else strnistr_loop buffer token tokenlen n 0.

(** ** Numbers as text *)
Fixpoint itoa_loop (fuel : nat) (buf : list Z) (n tmp res : Z) : option (list Z * Z * Z) :=
  match fuel with
  | O => None
  | S fuel' =>
      if negb (n =? 0) && (res <? tmp)
      then let val := 48 + Z.rem n 10 in
           let tmp := tmp - 1 in
           buf ← mem_write buf tmp [val];
           itoa_loop fuel' buf (Z.quot n 10) tmp res
      else Some (buf, n, tmp)
  end.

(** [buf] is the memory at [result]; the offsets [res] and [tmp] are the
    pointers of the source.  [- number] overflows for [INT_MIN]. *)
Definition lwip_itoa (buf : list Z) (bufsize number : Z) : option (list Z) :=
  if number =? - 2 ^ 31 then None
  else
    let n := if 0 <=? number then number else - number in
    if bufsize <? 2
    then if bufsize =? 1 then mem_write buf 0 [0] else Some buf
    else
      '(buf, res) ← (if number <? 0 then buf ← mem_write buf 0 [45]; Some (buf, 1) else Some (buf, 0));
      buf ← mem_write buf (bufsize - 1) [0];
      '(buf, n, tmp) ← itoa_loop (Z.to_nat bufsize) buf n (bufsize - 1) res;
      if negb (n =? 0) then mem_write buf 0 [0]
      else
        c ← buf !! Z.to_nat tmp;
        if c =? 0 then mem_write buf res [48; 0]
        else
          moved ← mem_read buf tmp (bufsize - tmp);
          mem_write buf res moved.

Definition isspace (c : Z) : bool := (c =? 32) || ((9 <=? c) && (c <=? 13)).

Definition isdigit (c : Z) : bool := (48 <=? c) && (c <=? 57).

Fixpoint atoi_digits (s : list Z) (acc : Z) : Z :=
  match s with
  | c :: r => if isdigit c then atoi_digits r (acc * 10 + (c - 48)) else acc
  | [] => acc
  end.

(** [atoi] of the C library, where the value is representable. *)
Fixpoint atoi (s : list Z) : Z :=
  match s with
  | [] => 0
  | c :: r =>
      if isspace c then atoi r
      else if c =? 45 then - atoi_digits r 0
      else if c =? 43 then atoi_digits r 0
      else atoi_digits s 0
  end.

(** ** Byte-order lemmas *)
Lemma htons_bytes x : 0 <= x < 65536 -> lwip_htons x = byte_of x 1 + 256 * byte_of x 0.
Proof.
  intros Hx. unfold lwip_htons, PP_HTONS.
  rewrite land_255, (land_field x 8 8) by first [reflexivity | lia].
  rewrite shr_div, Z.div_mul by first [reflexivity | lia].
  unfold byte_of; change (8 * 0) with 0; change (8 * 1) with 8.
  change (2 ^ 0) with 1; change (2 ^ 8) with 256; rewrite Z.div_1_r.
  pose proof (Z.mod_pos_bound x 256). pose proof (Z.mod_pos_bound (x / 256) 256).
  rewrite lor_shl_add by lia. change (2 ^ 8) with 256. rewrite u16_small; lia.
Qed.

Lemma htonl_bytes x :
  0 <= x < 4294967296 ->
  lwip_htonl x = byte_of x 3 + 256 * byte_of x 2 + 65536 * byte_of x 1 + 16777216 * byte_of x 0.
Proof.
  intros Hx. unfold lwip_htonl, PP_HTONL.
  rewrite land_255, (land_field x 8 8), (land_field x 16 8), (land_field x 24 8) by first [reflexivity | lia].
  rewrite !shr_div by lia.
  replace (((x / 2 ^ 16) mod 2 ^ 8 * 2 ^ 16) / 2 ^ 8) with (((x / 2 ^ 16) mod 2 ^ 8) .<< 8)
    by (rewrite shl_mul by lia; change (2 ^ 16) with (2 ^ 8 * 2 ^ 8);
        rewrite Z.mul_assoc, Z.div_mul by lia; done).
  rewrite Z.div_mul by lia.
  fold (byte_of x 3) (byte_of x 2) (byte_of x 1).
  change ((x / 2 ^ 24) mod 2 ^ 8) with (byte_of x 3).
  change ((x / 2 ^ 16) mod 2 ^ 8) with (byte_of x 2).
  change ((x / 2 ^ 8) mod 2 ^ 8) with (byte_of x 1).
  replace (x mod 256) with (byte_of x 0) by (unfold byte_of; cbn [Z.mul]; by rewrite Z.pow_0_r, Z.div_1_r).
  pose proof (byte_of_range x 0). pose proof (byte_of_range x 1).
  pose proof (byte_of_range x 2). pose proof (byte_of_range x 3).
  rewrite <- !Z.lor_assoc.
  rewrite (lor_shl_add (byte_of x 3) (byte_of x 2) 8) by lia.
  replace ((byte_of x 1 * 2 ^ 8) .<< 8) with (byte_of x 1 .<< 16) by (rewrite !shl_mul by lia; lia).
  rewrite (lor_shl_add _ (byte_of x 1) 16) by lia.
  rewrite (lor_shl_add _ (byte_of x 0) 24) by lia.
  rewrite u32_small; lia.
Qed.

(** The little-endian value of four bytes, and its bytes. *)
Definition of_bytes (b0 b1 b2 b3 : Z) : Z := b0 + 256 * b1 + 65536 * b2 + 16777216 * b3.

Lemma of_bytes_range b0 b1 b2 b3 :
  byte_ok b0 -> byte_ok b1 -> byte_ok b2 -> byte_ok b3 -> 0 <= of_bytes b0 b1 b2 b3 < 4294967296.
Proof. unfold byte_ok, of_bytes; lia. Qed.

Lemma byte_of_bytes b0 b1 b2 b3 :
  byte_ok b0 -> byte_ok b1 -> byte_ok b2 -> byte_ok b3 ->
  byte_of (of_bytes b0 b1 b2 b3) 0 = b0 /\ byte_of (of_bytes b0 b1 b2 b3) 1 = b1 /\
  byte_of (of_bytes b0 b1 b2 b3) 2 = b2 /\ byte_of (of_bytes b0 b1 b2 b3) 3 = b3.
Proof.
  unfold byte_ok, of_bytes, byte_of; intros.
  change (8 * 0) with 0; change (8 * 1) with 8; change (8 * 2) with 16; change (8 * 3) with 24.
  change (2 ^ 0) with 1; change (2 ^ 8) with 256; change (2 ^ 16) with 65536; change (2 ^ 24) with 16777216.
  repeat split; zdm; lia.
Qed.

Lemma u32_as_bytes x :
  0 <= x < 4294967296 -> x = of_bytes (byte_of x 0) (byte_of x 1) (byte_of x 2) (byte_of x 3).
Proof. apply bytes_of_u32. Qed.

Lemma htonl_of_bytes b0 b1 b2 b3 :
  byte_ok b0 -> byte_ok b1 -> byte_ok b2 -> byte_ok b3 ->
  lwip_htonl (of_bytes b0 b1 b2 b3) = of_bytes b3 b2 b1 b0.
Proof.
  intros. rewrite htonl_bytes by by apply of_bytes_range.
  destruct (byte_of_bytes b0 b1 b2 b3) as (-> & -> & -> & ->); done.
Qed.

Lemma htonl_range x : 0 <= lwip_htonl x < 4294967296.
Proof. apply u32_range. Qed.

Lemma htonl_invol x : 0 <= x < 4294967296 -> lwip_htonl (lwip_htonl x) = x.
Proof.
  intros Hx. rewrite (u32_as_bytes x Hx). rewrite !htonl_of_bytes by auto with cint. done.
Qed.

Lemma htons_invol x : 0 <= x < 65536 -> lwip_htons (lwip_htons x) = x.
Proof.
  intros Hx. rewrite (htons_bytes x Hx).
  pose proof (byte_of_range x 0). pose proof (byte_of_range x 1).
  rewrite htons_bytes by lia. rewrite (bytes_of_u16 x Hx) at 5.
  set (a := byte_of x 0) in *; set (b := byte_of x 1) in *. unfold byte_of.
  change (8 * 0) with 0; change (8 * 1) with 8; change (2 ^ 0) with 1; change (2 ^ 8) with 256.
  zdm; lia.
Qed.

(** ** Formatting a number *)
Definition digits_ok (ds : list Z) : Prop := Forall (fun c => 48 <= c <= 57) ds.

(** The number a list of decimal digits denotes, most significant first. *)
Fixpoint dec_val (ds : list Z) : Z :=
  match ds with
  | [] => 0
  | c :: r => (c - 48) * 10 ^ zlen r + dec_val r
  end.

Lemma atoi_digits_dec ds rest acc :
  digits_ok ds -> atoi_digits (ds ++ 0 :: rest) acc = acc * 10 ^ zlen ds + dec_val ds.
Proof.
  intros H; revert acc; induction H as [|c r Hc _ IH]; intros acc; cbn [app atoi_digits dec_val].
  - change (zlen (@nil Z)) with 0; rewrite Z.pow_0_r; cbn; lia.
  - unfold isdigit; zbool; cbn [andb]. rewrite IH, zlen_cons.
    rewrite Z.pow_add_r by (pose proof (zlen_nonneg r); lia). ring.
Qed.

(** The state of the digit loop: the digits written so far end the buffer, and
    with what is left of [n] they denote the number. *)
Lemma itoa_loop_ok fuel buf n tmp res ds rest :
  0 <= n -> 0 <= res <= tmp -> (Z.to_nat (tmp - res) < fuel)%nat ->
  digits_ok ds -> zdrop tmp buf = ds ++ 0 :: rest -> tmp <= zlen buf ->
  exists buf' n' tmp' ds',
    itoa_loop fuel buf n tmp res = Some (buf', n', tmp') /\
    0 <= n' /\ res <= tmp' <= tmp /\ (n' = 0 \/ tmp' = res) /\ digits_ok ds' /\
    zlen buf' = zlen buf /\ ztake tmp' buf' = ztake tmp' buf /\
    zdrop tmp' buf' = ds' ++ 0 :: rest /\ tmp' + zlen ds' = tmp + zlen ds /\
    n' * 10 ^ zlen ds' + dec_val ds' = n * 10 ^ zlen ds + dec_val ds.
Proof.
  revert buf n tmp ds; induction fuel as [|fuel IH]; intros buf n tmp ds Hn Hr Hf Hd Hs Ht; [lia|].
  cbn [itoa_loop]. destruct (Z.eqb_spec n 0) as [->|Hn0]; cbn [negb andb].
  { exists buf, 0, tmp, ds; split_and!; auto; lia. }
  destruct (Z.ltb_spec res tmp); cbn [andb]; [|exists buf, n, tmp, ds; split_and!; auto; lia].
  rewrite Z.rem_mod_nonneg, Z.quot_div_nonneg by lia.
  pose proof (Z.mod_pos_bound n 10). set (c := 48 + n mod 10).
  rewrite mem_write_spec by (rewrite ?zlen_cons, ?zlen_nil; lia). cbn [mbind option_bind].
  rewrite zlen_cons, zlen_nil; replace (tmp - 1 + (1 + 0)) with tmp by lia.
  set (b1 := ztake (tmp - 1) buf ++ [c] ++ zdrop tmp buf).
  assert (Hb1 : zlen b1 = zlen buf)
    by (unfold b1; rewrite !zlen_app, zlen_ztake, zlen_zdrop by lia; rewrite zlen_cons, zlen_nil; lia).
  destruct (IH b1 (n / 10) (tmp - 1) (c :: ds)) as (b' & n' & t' & ds' & E & ? & ? & ? & ? & Hl & Htk & Hdr & Hp & Hv).
  - apply Z.div_pos; lia.
  - lia.
  - lia.
  - constructor; [unfold c; lia|done].
  - unfold b1. rewrite zdrop_app_ge by (rewrite zlen_ztake by lia; lia).
    rewrite zlen_ztake, Z.sub_diag by lia. cbn. by rewrite Hs.
  - lia.
  - exists b', n', t', ds'. split_and!; auto; try lia.
    + rewrite Htk. unfold b1. rewrite ztake_app_le by (rewrite zlen_ztake by lia; lia).
      rewrite ztake_ztake; f_equal; lia.
    + rewrite zlen_cons in Hp; lia.
    + rewrite Hv, zlen_cons, Z.pow_add_r by (pose proof (zlen_nonneg ds); lia). cbn [dec_val].
      unfold c. pose proof (Z.div_mod n 10 ltac:(lia)) as E10.
      generalize dependent (n / 10); generalize dependent (n mod 10); intros; subst n; ring.
Qed.

Lemma dec_val_bound ds : digits_ok ds -> 0 <= dec_val ds < 10 ^ zlen ds.
Proof.
  induction 1 as [|c r Hc Hr IH]; cbn [dec_val]; [change (10 ^ zlen []) with 1; lia|].
  rewrite zlen_cons, Z.pow_add_r by (pose proof (zlen_nonneg r); lia).
  change (10 ^ 1) with 10. nia.
Qed.

(** The text a number is written as: its sign and its digits. *)
Definition itoa_text (number : Z) (ds : list Z) : list Z :=
  (if number <? 0 then [45] else []) ++ ds.

Lemma itoa_text_atoi number ds rest :
  digits_ok ds -> ds ≠ [] -> dec_val ds = Z.abs number ->
  atoi (itoa_text number ds ++ 0 :: rest) = number.
Proof.
  intros Hd Hne Hv. unfold itoa_text. destruct (Z.ltb_spec number 0).
  - cbn [app atoi]. cbn. rewrite atoi_digits_dec by done. lia.
  - destruct ds as [|c r]; [done|]. inversion Hd; subst. cbn [app atoi].
    unfold isspace; zbool; cbn [orb andb]. change (c :: r ++ 0 :: rest) with ((c :: r) ++ 0 :: rest).
    rewrite atoi_digits_dec by done. lia.
Qed.

(** Bytes before and after a one-byte store. *)
Lemma mem_write1 buf o b :
  0 <= o < zlen buf -> mem_write buf o [b] = Some (ztake o buf ++ b :: zdrop (o + 1) buf).
Proof. intros; rewrite mem_write_spec by (rewrite ?zlen_cons, ?zlen_nil; lia). by rewrite zlen_cons, zlen_nil. Qed.

Lemma zdrop_cons_S {A} o (l : list A) (x : A) k :
  0 <= o <= zlen l -> zdrop o l = x :: k -> l !! Z.to_nat o = Some x /\ zdrop (o + 1) l = k.
Proof.
  unfold zdrop, zlen; intros Ho E. split.
  - rewrite <- (Nat.add_0_r (Z.to_nat o)), <- lookup_drop, E; done.
  - replace (Z.to_nat (o + 1)) with (Z.to_nat o + 1)%nat by lia. by rewrite <- drop_drop, E.
Qed.

(** The buffer when the digit loop starts: the sign, then anything, then the
    terminator at [bufsize - 1]. *)
Lemma itoa_start buf bufsize number :
  2 <= bufsize <= zlen buf ->
  exists buf1, let sign := if number <? 0 then [45] else [] in
    ('(buf, res) ← (if number <? 0 then buf ← mem_write buf 0 [45]; Some (buf, 1) else Some (buf, 0));
     buf ← mem_write buf (bufsize - 1) [0]; Some (buf, res)) = Some (buf1, zlen sign) /\
    ztake (zlen sign) buf1 = sign /\ zdrop (bufsize - 1) buf1 = 0 :: zdrop bufsize buf /\ zlen buf1 = zlen buf.
Proof.
  intros Hb. destruct (Z.ltb_spec number 0); cbn [mbind option_bind].
  - rewrite mem_write1 by lia. cbn [mbind option_bind]. rewrite mem_write1; cycle 1.
    { cbn [app ztake]. rewrite ztake_0; cbn [app]; rewrite zlen_cons, zlen_zdrop; lia. }
    rewrite ztake_0; cbn [app]. eexists; split; [done|].
    rewrite zlen_cons, zlen_nil. replace (bufsize - 1 + 1) with bufsize by lia.
    split_and!.
    + rewrite ztake_app_le by (rewrite zlen_ztake; rewrite ?zlen_cons, ?zlen_zdrop; lia).
      rewrite ztake_ztake. by replace (Z.min (1 + 0) (bufsize - 1)) with 1 by lia.
    + rewrite zdrop_app_ge by (rewrite zlen_ztake; rewrite ?zlen_cons, ?zlen_zdrop; lia).
      rewrite zlen_ztake by (rewrite zlen_cons, zlen_zdrop; lia).
      rewrite Z.sub_diag, zdrop_0. f_equal.
      change (45 :: zdrop (0 + 1) buf) with ([45] ++ zdrop 1 buf).
      rewrite zdrop_app_ge by (rewrite zlen_cons, zlen_nil; lia). rewrite zlen_cons, zlen_nil.
      rewrite zdrop_zdrop by lia; f_equal; lia.
    + rewrite zlen_app, zlen_cons, zlen_ztake, zlen_zdrop; rewrite !zlen_cons, zlen_zdrop; lia.
  - rewrite mem_write1 by lia. eexists; split; [done|]. replace (bufsize - 1 + 1) with bufsize by lia.
    split_and!; [done|..].
    + rewrite zdrop_app_ge by (rewrite zlen_ztake by lia; lia).
      by rewrite zlen_ztake, Z.sub_diag by lia.
    + rewrite zlen_app, zlen_cons, zlen_ztake, zlen_zdrop by lia; lia.
Qed.

Lemma itoa_unfold buf bufsize number :
  number ≠ - 2 ^ 31 -> 2 <= bufsize ->
  lwip_itoa buf bufsize number =
  ('(buf, res) ← ('(buf, res) ← (if number <? 0 then buf ← mem_write buf 0 [45]; Some (buf, 1) else Some (buf, 0));
                  buf ← mem_write buf (bufsize - 1) [0]; Some (buf, res));
   '(buf, n, tmp) ← itoa_loop (Z.to_nat bufsize) buf (Z.abs number) (bufsize - 1) res;
   if negb (n =? 0) then mem_write buf 0 [0]
   else c ← buf !! Z.to_nat tmp;
        if c =? 0 then mem_write buf res [48; 0]
        else moved ← mem_read buf tmp (bufsize - tmp); mem_write buf res moved).
Proof.
  intros H1 H2. unfold lwip_itoa. destruct (Z.eqb_spec number (- 2 ^ 31)); [done|].
  replace (if 0 <=? number then number else - number) with (Z.abs number) by (zbool; lia).
  destruct (Z.ltb_spec bufsize 2); [lia|].
  destruct (number <? 0); cbn [mbind option_bind].
  - destruct (mem_write buf 0 [45]); cbn [mbind option_bind]; [|done].
    by destruct (mem_write _ _ _).
  - by destruct (mem_write _ _ _).
Qed.

Lemma zdrop_past_write m o x m' k :
  0 <= o -> mem_write m o x = Some m' -> o + zlen x <= k -> zdrop k m' = zdrop k m.
Proof.
  unfold mem_write; intros Ho H Hk; destruct (_ && _) eqn:E; [|done]; inv_opt.
  apply andb_true_iff in E as [_ E%Z.leb_le].
  rewrite <- (Z.sub_add (o + zlen x) k), Z.add_comm. apply zdrop_write; lia.
Qed.

(** What the code after the loop makes of the digits. *)
Lemma itoa_finish buf bufsize tmp sign ds rest :
  zlen sign <= tmp -> digits_ok ds -> ztake (zlen sign) buf = sign ->
  zdrop tmp buf = ds ++ 0 :: rest -> tmp + zlen ds = bufsize - 1 -> 2 <= bufsize <= zlen buf ->
  (ds = [] -> sign = []) ->
  exists buf' ds',
    (c ← buf !! Z.to_nat tmp;
     if c =? 0 then mem_write buf (zlen sign) [48; 0]
     else moved ← mem_read buf tmp (bufsize - tmp); mem_write buf (zlen sign) moved) = Some buf' /\
    zdrop bufsize buf' = rest /\ (exists rest', buf' = sign ++ ds' ++ 0 :: rest') /\
    digits_ok ds' /\ ds' ≠ [] /\ dec_val ds' = dec_val ds.
Proof.
  intros Hs Hd Htk Hdr Hp Hb Hnil. pose proof (zlen_nonneg sign). pose proof (zlen_nonneg ds).
  assert (Hrest : zdrop bufsize buf = rest).
  { replace bufsize with ((zlen ds + 1) + tmp) by lia. rewrite <- zdrop_zdrop by lia. rewrite Hdr.
    rewrite zdrop_app_ge by lia. by replace (zlen ds + 1 - zlen ds) with 1 by lia. }
  destruct ds as [|c r].
  - rewrite (Hnil eq_refl) in *. destruct (zdrop_cons_S tmp buf 0 rest ltac:(lia) Hdr) as [-> _].
    cbn -[mem_write]. destruct (mem_write buf 0 [48; 0]) eqn:E; [|rewrite mem_write_spec in E by (rewrite ?zlen_cons, ?zlen_nil; lia); discriminate].
    exists l, [48]; split_and!; auto.
    + rewrite <- Hrest. eapply zdrop_past_write; [|done|]; rewrite ?zlen_cons, ?zlen_nil; lia.
    + unfold mem_write in E; destruct (_ && _); [|done]; inv_opt. by eexists.
    + repeat constructor; lia.
  - destruct (zdrop_cons_S tmp buf c (r ++ 0 :: rest) ltac:(lia) Hdr) as [-> _].
    pose proof (proj1 (proj1 (Forall_cons _ _ _) Hd)) as Hc; cbn in Hc. cbn -[mem_write mem_read zlen]. destruct (Z.eqb_spec c 0); [lia|].
    rewrite mem_read_spec, Hdr by lia. cbn [mbind option_bind].
    replace (bufsize - tmp) with (zlen (c :: r) + 1) by lia.
    rewrite ztake_app_ge by lia. replace (zlen (c :: r) + 1 - zlen (c :: r)) with 1 by lia.
    change (ztake 1 (0 :: rest)) with [0].
    destruct (mem_write buf (zlen sign) ((c :: r) ++ [0])) eqn:E; cycle 1.
    { rewrite mem_write_spec in E by (rewrite ?zlen_app, ?(zlen_cons 0), ?zlen_nil; lia); discriminate. }
    exists l, (c :: r); split_and!; auto.
    + rewrite <- Hrest. eapply zdrop_past_write; [|done|]; rewrite ?zlen_app, ?(zlen_cons 0), ?zlen_nil; lia.
    + unfold mem_write in E; destruct (_ && _); [|done]; inv_opt. rewrite Htk.
      eexists; by rewrite <- app_assoc.
Qed.

Lemma lwip_itoa_ok buf bufsize number :
  2 <= bufsize <= zlen buf -> - 2 ^ 31 < number < 2 ^ 31 ->
  exists buf', lwip_itoa buf bufsize number = Some buf' /\
    zdrop bufsize buf' = zdrop bufsize buf /\
    if Z.abs number <? 10 ^ (bufsize - 1 - (if number <? 0 then 1 else 0))
    then atoi buf' = number /\ exists ds rest, digits_ok ds /\ ds ≠ [] /\ buf' = itoa_text number ds ++ 0 :: rest
    else exists rest, buf' = 0 :: rest.
Proof.
  intros Hb Hn. rewrite itoa_unfold by lia.
  destruct (itoa_start buf bufsize number Hb) as (b1 & -> & Hsign & Hend & Hl1).
  cbn [mbind option_bind].
  set (sign := if number <? 0 then [45] else []) in *.
  replace (if number <? 0 then 1 else 0) with (zlen sign) by (unfold sign; by destruct (number <? 0)).
  assert (Hs : 0 <= zlen sign <= 1) by (unfold sign; destruct (number <? 0); [change (zlen [45]) with 1|change (zlen (@nil Z)) with 0]; lia).
  destruct (itoa_loop_ok (Z.to_nat bufsize) b1 (Z.abs number) (bufsize - 1) (zlen sign) [] (zdrop bufsize buf))
    as (b' & n' & t' & ds & -> & Hn' & Ht' & Hor & Hd & Hl & Htk & Hdr & Hp & Hv);
    [lia..|constructor|done|lia|].
  cbn [mbind option_bind]. change (zlen (@nil Z)) with 0 in *. cbn [dec_val] in Hv.
  rewrite Z.pow_0_r, Z.add_0_r, Z.mul_1_r in *. pose proof (dec_val_bound ds Hd).
  pose proof (zlen_nonneg ds).
  destruct (Z.eqb_spec n' 0) as [->|Hn0]; cbn [negb].
  - destruct (itoa_finish b' bufsize t' sign ds (zdrop bufsize buf)) as (buf' & ds' & -> & ? & [rest' ->] & ? & ? & ?);
      try done; try lia.
    + transitivity (ztake (zlen sign) (ztake t' b')); [rewrite ztake_ztake; f_equal; lia|].
      by rewrite Htk, ztake_ztake, Z.min_l by lia.
    + intros ->. cbn in Hv. unfold sign. destruct (Z.ltb_spec number 0); [lia|done].
    + eexists; split; [done|]. split; [done|]. destruct (Z.ltb_spec (Z.abs number) (10 ^ (bufsize - 1 - zlen sign))).
      * rewrite app_assoc. fold (itoa_text number ds'). split; [apply itoa_text_atoi; auto; lia|].
        exists ds', rest'; done.
      * exfalso. assert (10 ^ zlen ds <= 10 ^ (bufsize - 1 - zlen sign)) by (apply Z.pow_le_mono_r; lia). lia.
  - destruct Hor as [|Hor]; [done|]. rewrite mem_write1 by lia. eexists; split; [done|].
    split.
    + rewrite (zdrop_past_write b' 0 [0] _ bufsize ltac:(lia) (mem_write1 b' 0 0 ltac:(lia))) by (change (zlen [0]) with 1; lia).
      replace bufsize with ((zlen ds + 1) + t') at 1 by lia. rewrite <- zdrop_zdrop, Hdr, zdrop_app_ge by lia.
      by replace (zlen ds + 1 - zlen ds) with 1 by lia.
    + destruct (Z.ltb_spec (Z.abs number) (10 ^ (bufsize - 1 - zlen sign))); [|by eexists].
      replace (bufsize - 1 - zlen sign) with (zlen ds) in * by lia. nia.
Qed.

(** [lwip_itoa] writes the decimal text of the number, which [atoi] reads
    back, whenever the digits and the terminator fit in the buffer; otherwise
    it leaves the empty string.  Bytes past [bufsize] are not touched. *)
Theorem lwip_itoa_roundtrip buf bufsize number :
  2 <= bufsize <= zlen buf -> - 2 ^ 31 < number < 2 ^ 31 ->
  exists buf', lwip_itoa buf bufsize number = Some buf' /\
    zdrop bufsize buf' = zdrop bufsize buf /\
    if Z.abs number <? 10 ^ (bufsize - 1 - (if number <? 0 then 1 else 0))
    then atoi buf' = number /\ exists ds rest, digits_ok ds /\ ds ≠ [] /\ buf' = itoa_text number ds ++ 0 :: rest
    else exists rest, buf' = 0 :: rest.
Proof. apply lwip_itoa_ok. Qed.

Lemma lwip_itoa_roundtrip_witness :
  exists buf', lwip_itoa (replicate 5 7) 4 254 = Some buf' /\ atoi buf' = 254.
Proof.
  destruct (lwip_itoa_roundtrip (replicate 5 7) 4 254) as (b & E & _ & H); [change (zlen (replicate 5 7)) with 5; lia|lia|].
  exists b; split; [exact E|]. exact (proj1 H).
Defined.
