(* ===== verification/IpAddr.v ===== *)
(** IP addresses: the types of [ip4_addr.h], [ip6_addr.h], [ip_addr.h] and the
    address predicates of [ip6_addr.h] and [ip6_zone.h].

    An IPv4 address, and each word of an IPv6 address, is the 32-bit number the
    struct holds on a little-endian host: network byte order in memory. *)
From S2P Require Import Prelude Bits Def.

Record ip6_addr := Ip6Addr { addr0 : Z; addr1 : Z; addr2 : Z; addr3 : Z; zone : Z }.

(** [ip_addr_t]: the union with its type tag.  The type of both versions is only
    ever used with a zero address ([ip_addr_any_type]). *)
Inductive ip_addr := IPADDR_V4 (a : Z) | IPADDR_V6 (a : ip6_addr) | IPADDR_ANY_TYPE.

#[export] Instance ip6_addr_eq_dec : EqDecision ip6_addr.
Proof. solve_decision. Defined.

#[export] Instance ip_addr_eq_dec : EqDecision ip_addr.
Proof. solve_decision. Defined.

Definition IPADDR_ANY : Z := 0.

Definition IPADDR_BROADCAST : Z := 0xffffffff.

Definition IPADDR_NONE : Z := 0xffffffff.

(** [IP4_ADDR(ipaddr, a, b, c, d)]. *)
Definition LWIP_MAKEU32 (a b c d : Z) : Z :=
  ((a .& 0xff) .<< 24) .| ((b .& 0xff) .<< 16) .| ((c .& 0xff) .<< 8) .| (d .& 0xff).

Definition IP4_ADDR (a b c d : Z) : Z := PP_HTONL (LWIP_MAKEU32 a b c d).

Definition IP6_NO_ZONE : Z := 0.

Definition ip6_addr_any : ip6_addr := Ip6Addr 0 0 0 0 IP6_NO_ZONE.

Definition ip6_addr_cmp_zoneless (a b : ip6_addr) : bool :=
  (addr0 a =? addr0 b) && (addr1 a =? addr1 b) && (addr2 a =? addr2 b) && (addr3 a =? addr3 b).

Definition ip6_addr_islinklocal (a : ip6_addr) : bool :=
  (addr0 a .& PP_HTONL 0xffc00000) =? PP_HTONL 0xfe800000.

Definition ip6_set_zone (z : Z) (a : ip6_addr) : ip6_addr :=
  Ip6Addr (addr0 a) (addr1 a) (addr2 a) (addr3 a) z.

(** [ip6_addr_has_scope(a, IP6_UNICAST)]: for a unicast address only
    link-local addresses have a scope. *)
Definition ip6_addr_has_scope_unicast (a : ip6_addr) : bool := ip6_addr_islinklocal a.

(** [ip6_addr_assign_zone(a, IP6_UNICAST, netif)], [index] being the netif's. *)
Definition ip6_addr_assign_zone (index : Z) (a : ip6_addr) : ip6_addr :=
  ip6_set_zone (if ip6_addr_has_scope_unicast a then index else 0) a.

Definition ip6_addr_isany (a : ip6_addr) : bool :=
  (addr0 a =? 0) && (addr1 a =? 0) && (addr2 a =? 0) && (addr3 a =? 0).

Definition ip6_addr_cmp (a b : ip6_addr) : bool := ip6_addr_cmp_zoneless a b && (zone a =? zone b).

Definition ip6_addr_ismulticast (a : ip6_addr) : bool :=
  (addr0 a .& PP_HTONL 0xff000000) =? PP_HTONL 0xff000000.

(** [ip6_addr_has_scope(a, IP6_UNKNOWN)]. *)
Definition ip6_addr_has_scope_unknown (a : ip6_addr) : bool :=
  ip6_addr_islinklocal a || ((addr0 a .& PP_HTONL 0xff8f0000) =? PP_HTONL 0xff010000) ||
  ((addr0 a .& PP_HTONL 0xff8f0000) =? PP_HTONL 0xff020000).

(** [ip6_addr_lacks_zone(a, IP6_UNKNOWN)]. *)
Definition ip6_addr_lacks_zone (a : ip6_addr) : bool := (zone a =? IP6_NO_ZONE) && ip6_addr_has_scope_unknown a.

(** ** Addresses of either version *)
Definition IP_IS_V4 (a : ip_addr) : bool := match a with IPADDR_V4 _ => true | _ => false end.

Definition IP_IS_V6 (a : ip_addr) : bool := match a with IPADDR_V6 _ => true | _ => false end.

Definition IP_IS_ANY_TYPE (a : ip_addr) : bool := match a with IPADDR_ANY_TYPE => true | _ => false end.

(** The members of the union. *)
Definition ip_2_ip4 (a : ip_addr) : Z :=
  match a with IPADDR_V4 a => a | IPADDR_V6 a => addr0 a | IPADDR_ANY_TYPE => 0 end.

Definition ip_2_ip6 (a : ip_addr) : ip6_addr :=
  match a with IPADDR_V4 a => Ip6Addr a 0 0 0 0 | IPADDR_V6 a => a | IPADDR_ANY_TYPE => ip6_addr_any end.

(** [IP_GET_TYPE(a) == IP_GET_TYPE(b)]. *)
Definition same_type (a b : ip_addr) : bool :=
  match a, b with
  | IPADDR_V4 _, IPADDR_V4 _ | IPADDR_V6 _, IPADDR_V6 _ | IPADDR_ANY_TYPE, IPADDR_ANY_TYPE => true
  | _, _ => false
  end.

Definition ip_addr_cmp (a b : ip_addr) : bool :=
  if negb (same_type a b) then false
  else if IP_IS_V6 a then ip6_addr_cmp (ip_2_ip6 a) (ip_2_ip6 b) else ip_2_ip4 a =? ip_2_ip4 b.

Definition ip_addr_isany (a : ip_addr) : bool :=
  if IP_IS_V6 a then ip6_addr_isany (ip_2_ip6 a) else ip_2_ip4 a =? IPADDR_ANY.

Lemma ip6_addr_cmp_zoneless_spec a b :
  ip6_addr_cmp_zoneless a b = true <-> ip6_set_zone 0 a = ip6_set_zone 0 b.
Proof.
  unfold ip6_addr_cmp_zoneless, ip6_set_zone. rewrite !andb_true_iff, !Z.eqb_eq.
  split; [intros [[[-> ->] ->] ->]; done|]. by intros [= -> -> -> ->].
Qed.
