(* ===== verification/Chksum.v ===== *)
(** The Internet checksum: [core/inet_chksum.c] with
    [LWIP_CHKSUM_ALGORITHM == 2], over flat buffers and over pbuf chains, and
    its equality with the one's-complement sum of RFC 1071. *)
From S2P Require Import Prelude Bits Def IpAddr Pbuf PbufData PbufChain PbufLife PbufClaims.

(** ** The code *)
Definition FOLD_U32T (u : Z) : Z := u32 ((u .>> 16) + (u .& 0x0000ffff)).

Definition SWAP_BYTES_IN_WORD (w : Z) : Z := ((w .& 0xff) .<< 8) .| ((w .& 0xff00) .>> 8).

(** The loop over the aligned 16-bit words (little-endian loads). *)
Fixpoint chksum_words (ps : list Z) (len sum : Z) : option (list Z * Z * Z) :=
  if 1 <? len then
    match ps with
    | lo :: hi :: ps => chksum_words ps (len - 2) (u32 (sum + (lo + 256 * hi)))
    | _ => None
    end
  else Some (ps, len, sum).

(** [odd] is the low bit of the buffer's address. *)
Definition lwip_standard_chksum (odd : bool) (dataptr : list Z) (len : Z) : option Z :=
  '(t1, pb, len) ← (if odd && (0 <? len)
                    then match dataptr with b :: pb => Some (b, pb, len - 1) | [] => None end
                    else Some (0, dataptr, len));
  '(ps, len, sum) ← chksum_words pb len 0;
  t0 ← (if 0 <? len then head ps else Some 0);
  let sum := u32 (sum + (t0 + 256 * t1)) in
  let sum := FOLD_U32T sum in
  let sum := FOLD_U32T sum in
  let sum := if odd then SWAP_BYTES_IN_WORD sum else sum in
  Some (u16 sum).

Definition inet_chksum (odd : bool) (dataptr : list Z) (len : Z) : option Z :=
  c ← lwip_standard_chksum odd dataptr len; Some (u16 (Z.lnot c)).

Section chain.
  (** The parity of the address a payload pointer holds. *)
  Context (odd_payload : addr -> pbuf -> bool).

(** [LWIP_CHKSUM(q->payload, len)]. *)
Definition pbuf_chksum (a : addr) (b : pbuf) (len : Z) : option Z :=
  bs ← payload_read b 0 len; lwip_standard_chksum (odd_payload a b) bs len.

(** The loop over a chain: the running sum and whether it is byte-swapped. *)
Fixpoint chksum_chain (fuel : nat) (q : option addr) (acc : Z) (swapped : bool) (h : heap)
    : option (Z * bool) :=
  match q, fuel with
  | None, _ => Some (acc, swapped)
  | Some _, O => None
  | Some a, S fuel =>
      b ← get h a;
      c ← pbuf_chksum a b (pb_len b);
      let acc := FOLD_U32T (u32 (acc + c)) in
      if negb (pb_len b mod 2 =? 0)
      then chksum_chain fuel (pb_next b) (SWAP_BYTES_IN_WORD acc) (negb swapped) h
      else chksum_chain fuel (pb_next b) acc swapped h
  end.

Definition inet_chksum_pbuf (p : option addr) (h : heap) : option Z :=
  '(acc, swapped) ← chksum_chain (chain_fuel h) p 0 false h;
  let acc := if (swapped : bool) then SWAP_BYTES_IN_WORD acc else acc in
  Some (u16 (Z.lnot (acc .& 0xffff))).

Definition inet_cksum_pseudo_base (p : option addr) (proto proto_len acc : Z) (h : heap) : option Z :=
  '(acc, swapped) ← chksum_chain (chain_fuel h) p acc false h;
  let acc := if (swapped : bool) then SWAP_BYTES_IN_WORD acc else acc in
  let acc := u32 (acc + lwip_htons proto) in
  let acc := u32 (acc + lwip_htons proto_len) in
  let acc := FOLD_U32T acc in
  let acc := FOLD_U32T acc in
  Some (u16 (Z.lnot (acc .& 0xffff))).

(** The two halves of an address word added to the sum. *)
Definition add_addr (acc a : Z) : Z :=
  u32 (u32 (acc + (a .& 0xffff)) + ((a .>> 16) .& 0xffff)).

Definition inet_chksum_pseudo (p : option addr) (proto proto_len src dest : Z) (h : heap) : option Z :=
  let acc := u32 ((src .& 0xffff) + ((src .>> 16) .& 0xffff)) in
  let acc := add_addr acc dest in
  inet_cksum_pseudo_base p proto proto_len (FOLD_U32T (FOLD_U32T acc)) h.

Definition ip6_addr_acc (src dest : ip6_addr) : Z :=
  foldl (fun acc '(s, d) => add_addr (add_addr acc s) d) 0
    [(addr0 src, addr0 dest); (addr1 src, addr1 dest); (addr2 src, addr2 dest); (addr3 src, addr3 dest)].

Definition ip6_chksum_pseudo (p : option addr) (proto proto_len : Z) (src dest : ip6_addr) (h : heap)
    : option Z :=
  inet_cksum_pseudo_base p proto proto_len (FOLD_U32T (FOLD_U32T (ip6_addr_acc src dest))) h.

(** The partial variants stop after [chksum_len] bytes. *)
Fixpoint chksum_chain_partial (fuel : nat) (q : option addr) (chksum_len acc : Z) (swapped : bool)
    (h : heap) : option (Z * bool) :=
  match q with
  | None => Some (acc, swapped)
  | Some a =>
      if 0 <? chksum_len then
        match fuel with
        | O => None
        | S fuel =>
            b ← get h a;
            let chklen := if chksum_len <? pb_len b then chksum_len else pb_len b in
            c ← pbuf_chksum a b chklen;
            let acc := FOLD_U32T (u32 (acc + c)) in
            let chksum_len := u16 (chksum_len - chklen) in
            if negb (pb_len b mod 2 =? 0)
            then chksum_chain_partial fuel (pb_next b) chksum_len (SWAP_BYTES_IN_WORD acc) (negb swapped) h
            else chksum_chain_partial fuel (pb_next b) chksum_len acc swapped h
        end
      else Some (acc, swapped)
  end.

Definition inet_cksum_pseudo_partial_base (p : option addr) (proto proto_len chksum_len acc : Z) (h : heap)
    : option Z :=
  '(acc, swapped) ← chksum_chain_partial (chain_fuel h) p chksum_len acc false h;
  let acc := if (swapped : bool) then SWAP_BYTES_IN_WORD acc else acc in
  let acc := u32 (acc + lwip_htons proto) in
  let acc := u32 (acc + lwip_htons proto_len) in
  let acc := FOLD_U32T acc in
  let acc := FOLD_U32T acc in
  Some (u16 (Z.lnot (acc .& 0xffff))).

Definition inet_chksum_pseudo_partial (p : option addr) (proto proto_len chksum_len src dest : Z) (h : heap)
    : option Z :=
  let acc := u32 ((src .& 0xffff) + ((src .>> 16) .& 0xffff)) in
  let acc := add_addr acc dest in
  inet_cksum_pseudo_partial_base p proto proto_len chksum_len (FOLD_U32T (FOLD_U32T acc)) h.

Definition ip6_chksum_pseudo_partial (p : option addr) (proto proto_len chksum_len : Z)
    (src dest : ip6_addr) (h : heap) : option Z :=
  inet_cksum_pseudo_partial_base p proto proto_len chksum_len
    (FOLD_U32T (FOLD_U32T (ip6_addr_acc src dest))) h.

(** A call with addresses of different families reads a union through the
    other member: it is not modelled ([None]). *)
Definition ip_chksum_pseudo (p : option addr) (proto proto_len : Z) (src dest : ip_addr) (h : heap)
    : option Z :=
  match dest, src with
  | IPADDR_V6 d, IPADDR_V6 s => ip6_chksum_pseudo p proto proto_len s d h
  | IPADDR_V4 d, IPADDR_V4 s => inet_chksum_pseudo p proto proto_len s d h
  | _, _ => None
  end.

Definition ip_chksum_pseudo_partial (p : option addr) (proto proto_len chksum_len : Z)
    (src dest : ip_addr) (h : heap) : option Z :=
  match dest, src with
  | IPADDR_V6 d, IPADDR_V6 s => ip6_chksum_pseudo_partial p proto proto_len chksum_len s d h
  | IPADDR_V4 d, IPADDR_V4 s => inet_chksum_pseudo_partial p proto proto_len chksum_len s d h
  | _, _ => None
  end.

End chain.

(** ** The reference: RFC 1071

    The sum of the little-endian 16-bit words, an odd last byte padded with
    zero, and its one's-complement reduction. *)
Fixpoint wsum (l : list Z) : Z :=
  match l with
  | lo :: hi :: r => lo + 256 * hi + wsum r
  | [b] => b
  | [] => 0
  end.

Definition ones (s : Z) : Z := if s =? 0 then 0 else (s - 1) mod 65535 + 1.

(** [oc a b]: the same one's-complement number. *)
Record oc (a b : Z) : Prop := Oc {
  oc_l : 0 <= a; oc_r : 0 <= b;
  oc_mod : a mod 65535 = b mod 65535;
  oc_zero : a = 0 <-> b = 0;
}.

Lemma oc_refl a : 0 <= a -> oc a a.
Proof. by constructor. Qed.

#[export] Instance oc_sym : Symmetric oc.
Proof. intros a b []; constructor; [done..|symmetry; done]. Qed.

#[export] Instance oc_trans : Transitive oc.
Proof. intros a b c [] []; constructor; [done..|congruence|tauto]. Qed.

#[export] Instance oc_add : Proper (oc ==> oc ==> oc) Z.add.
Proof.
  intros a b [? ? M ?] c d [? ? M' ?]; constructor; [lia..| |lia].
  by rewrite Z.add_mod, M, M', <- Z.add_mod by lia.
Qed.

Lemma oc_scale k a b : 0 < k -> oc a b -> oc (k * a) (k * b).
Proof.
  intros Hk [? ? M ?]; constructor; [nia..| |nia].
  by rewrite Z.mul_mod, M, <- Z.mul_mod by lia.
Qed.

(** Two byte swaps are one full turn. *)
Lemma oc_65536 a : 0 <= a -> oc (65536 * a) a.
Proof.
  intros; constructor; [lia..| |lia].
  replace (65536 * a) with (a + a * 65535) by lia. apply Z.mod_add; lia.
Qed.

Lemma ones_range s : 0 <= ones s < 65536.
Proof.
  unfold ones; destruct (Z.eqb_spec s 0); [lia|].
  pose proof (Z.mod_pos_bound (s - 1) 65535 ltac:(lia)); lia.
Qed.

Lemma oc_ones r s : oc r s -> r <= 65535 -> r = ones s.
Proof.
  intros [? ? M Z0] Hr. unfold ones. destruct (Z.eqb_spec s 0); [tauto|].
  assert (r <> 0) by tauto.
  assert (r - 1 = (s - 1) mod 65535); [|lia].
  rewrite <- (Z.mod_small (r - 1) 65535) by lia. by rewrite Zminus_mod, M, <- Zminus_mod.
Qed.

(** *** The word operations in this algebra *)
Lemma fold_val u : 0 <= u < 4294967296 -> FOLD_U32T u = u / 65536 + u mod 65536.
Proof.
  intros. unfold FOLD_U32T. rewrite land_65535, shr_div by lia. change (2 ^ 16) with 65536.
  apply u32_small. zdm; lia.
Qed.

Lemma fold_oc u s : 0 <= u < 4294967296 -> oc u s -> oc (FOLD_U32T u) s.
Proof.
  intros Hu; rewrite fold_val by done; intros <-.
  constructor; [zdm; lia|lia| |zdm; lia].
  rewrite (Z.div_mod u 65536) at 3 by lia.
  replace (65536 * (u / 65536) + u mod 65536) with (u / 65536 + u mod 65536 + u / 65536 * 65535) by lia.
  symmetry; apply Z.mod_add; lia.
Qed.

Lemma fold_bound u : 0 <= u < 4294967296 -> 0 <= FOLD_U32T u <= 131070.
Proof. intros; rewrite fold_val by done; zdm; lia. Qed.

Lemma fold_bound_small u : 0 <= u <= 131070 -> 0 <= FOLD_U32T u <= 65535.
Proof. intros; rewrite fold_val by lia; zdm; lia. Qed.

Lemma fold2_ones u s : 0 <= u < 4294967296 -> oc u s -> FOLD_U32T (FOLD_U32T u) = ones s.
Proof.
  intros Hu Ho. pose proof (fold_bound u Hu). pose proof (fold_bound_small (FOLD_U32T u)).
  apply oc_ones; [|lia]. apply fold_oc; [lia|]. by apply fold_oc.
Qed.

Lemma swap_val w : 0 <= w <= 65535 -> SWAP_BYTES_IN_WORD w = 256 * (w mod 256) + w / 256.
Proof.
  intros. unfold SWAP_BYTES_IN_WORD.
  rewrite land_255, (land_field w 8 8) by first [reflexivity|lia].
  rewrite shr_div, Z.div_mul by lia. change (2 ^ 8) with 256.
  rewrite (Z.mod_small (w / 256)) by (zdm; lia).
  rewrite lor_shl_add; [lia|lia|]. zdm; lia.
Qed.

Lemma swap_bound w : 0 <= w <= 65535 -> 0 <= SWAP_BYTES_IN_WORD w <= 65535.
Proof. intros; rewrite swap_val by done; zdm; lia. Qed.

Lemma swap_oc w s : 0 <= w <= 65535 -> oc w s -> oc (SWAP_BYTES_IN_WORD w) (256 * s).
Proof.
  intros Hw Hs. rewrite swap_val by done. rewrite <- (oc_scale 256 _ _ ltac:(lia) Hs).
  constructor; [zdm; lia..| |zdm; lia].
  rewrite (Z.div_mod w 256) at 3 by lia.
  replace (256 * (256 * (w / 256) + w mod 256)) with (256 * (w mod 256) + w / 256 + w / 256 * 65535) by lia.
  symmetry; apply Z.mod_add; lia.
Qed.

(** *** Byte strings as numbers: the word sum is the base-256 value, since
    65536 is one in this algebra. *)
Fixpoint leval (l : list Z) : Z :=
  match l with [] => 0 | b :: r => b + 256 * leval r end.

Lemma leval_nonneg l : bytes_ok l -> 0 <= leval l.
Proof. induction 1 as [|b r Hb _ IH]; cbn [leval]; unfold byte_ok in *; lia. Qed.

Lemma pair_ind {A} (P : list A -> Prop) :
  P [] -> (forall x, P [x]) -> (forall x y l, P l -> P (x :: y :: l)) -> forall l, P l.
Proof.
  intros H0 H1 H2 l. assert (P l /\ forall x, P (x :: l)) as [? _]; [|done].
  induction l as [|x l [? ?]]; auto.
Qed.

Lemma wsum_oc l : bytes_ok l -> oc (wsum l) (leval l).
Proof.
  induction l as [|x|x y l IH] using pair_ind; cbn [wsum leval]; intros H.
  - by apply oc_refl.
  - apply Forall_cons in H as [Hx _]; unfold byte_ok in Hx. replace (x + 256 * 0) with x by lia.
    apply oc_refl; lia.
  - apply Forall_cons in H as [Hx H]; apply Forall_cons in H as [Hy H]. unfold byte_ok in *.
    replace (x + 256 * (y + 256 * leval l)) with (x + 256 * y + 65536 * leval l) by lia.
    apply oc_add; [apply oc_refl; lia|]. rewrite IH by done. symmetry; by apply oc_65536, leval_nonneg.
Qed.

Lemma leval_app l k : leval (l ++ k) = leval l + 256 ^ zlen l * leval k.
Proof.
  induction l as [|b r IH]; cbn [app leval]; [change (256 ^ zlen []) with 1; lia|].
  rewrite IH, zlen_cons, Z.pow_add_r by (pose proof (zlen_nonneg r); lia). change (256 ^ 1) with 256. lia.
Qed.

(** Scaling by the swap, and by an even or odd number of bytes. *)
Definition swp (sw : bool) (s : Z) : Z := if sw then 256 * s else s.

Lemma swp_nonneg sw s : 0 <= s -> 0 <= swp sw s.
Proof. destruct sw; cbn; lia. Qed.

Lemma swp_oc sw a b : oc a b -> oc (swp sw a) (swp sw b).
Proof. destruct sw; [apply oc_scale; lia|done]. Qed.

Lemma swp_swp a b s : 0 <= s -> oc (swp a (swp b s)) (swp (xorb a b) s).
Proof.
  intros; destruct a, b; cbn; try (apply oc_refl; lia).
  replace (256 * (256 * s)) with (65536 * s) by lia. by apply oc_65536.
Qed.

Lemma swp_add sw a b : swp sw (a + b) = swp sw a + swp sw b.
Proof. destruct sw; cbn; lia. Qed.

Lemma pow_256_oc n s : 0 <= n -> 0 <= s -> oc (256 ^ n * s) (swp (Z.odd n) s).
Proof.
  intros Hn Hs; revert n Hn. apply natlike_ind.
  - rewrite Z.pow_0_r, Z.mul_1_l. by apply oc_refl.
  - intros n Hn IH. rewrite Z.pow_succ_r, Z.odd_succ, <- Z.negb_odd by done.
    replace (256 * 256 ^ n * s) with (256 * (256 ^ n * s)) by lia.
    etrans; [apply (oc_scale 256); [lia|exact IH]|].
    etrans; [apply (swp_swp true (Z.odd n) s Hs)|]. destruct (Z.odd n); apply oc_refl; cbn; lia.
Qed.

Lemma leval_app_oc l k :
  bytes_ok l -> bytes_ok k -> oc (leval (l ++ k)) (leval l + swp (Z.odd (zlen l)) (leval k)).
Proof.
  intros Hl Hk. rewrite leval_app. apply oc_add; [by apply oc_refl, leval_nonneg|].
  apply pow_256_oc; [apply zlen_nonneg|by apply leval_nonneg].
Qed.

(** *** The flat checksum *)
Lemma wsum_bound l : bytes_ok l -> 0 <= wsum l /\ 2 * wsum l <= 65535 * (zlen l + 1).
Proof.
  induction l as [|x|x y l IH] using pair_ind; cbn [wsum]; intros H.
  - change (zlen (@nil Z)) with 0; lia.
  - apply Forall_cons in H as [Hx _]; unfold byte_ok in Hx. change (zlen [x]) with 1; lia.
  - apply Forall_cons in H as [Hx H]; apply Forall_cons in H as [Hy H]. unfold byte_ok in *.
    specialize (IH H). rewrite !zlen_cons. lia.
Qed.

(** The loop adds all whole words; what is left is the last byte of an odd
    length. *)
Lemma chksum_words_ok l sum :
  bytes_ok l -> 0 <= sum -> sum + wsum l < 4294967296 ->
  exists ps len sum' t0, chksum_words l (zlen l) sum = Some (ps, len, sum') /\
    (if 0 <? len then head ps else Some 0) = Some t0 /\ 0 <= t0 /\ 0 <= sum' /\ sum' + t0 = sum + wsum l.
Proof.
  revert sum; induction l as [|x|x y l IH] using pair_ind; intros sum H Hs Hb.
  - exists [], 0, sum, 0. cbn; split_and!; try done; lia.
  - exists [x], 1, sum, x. apply Forall_cons in H as [Hx _]; unfold byte_ok in Hx. cbn; split_and!; try done; lia.
  - apply Forall_cons in H as [Hx H]; apply Forall_cons in H as [Hy H]. unfold byte_ok in *.
    cbn [chksum_words]. rewrite !zlen_cons. pose proof (zlen_nonneg l). cbn [wsum] in *.
    pose proof (wsum_bound l H).
    destruct (Z.ltb_spec 1 (1 + (1 + zlen l))); [|lia].
    replace (1 + (1 + zlen l) - 2) with (zlen l) by lia. rewrite u32_small by lia.
    destruct (IH (sum + (x + 256 * y)) H) as (ps & len & sum' & t0 & ? & ? & ? & ? & ?); [lia..|].
    exists ps, len, sum', t0; split_and!; auto; lia.
Qed.

Lemma lwip_standard_chksum_ok odd data :
  bytes_ok data -> zlen data <= 131072 -> lwip_standard_chksum odd data (zlen data) = Some (ones (wsum data)).
Proof.
  intros Hd Hl. pose proof (wsum_oc data Hd) as Hw. unfold lwip_standard_chksum. destruct odd.
  - destruct data as [|b r].
    { cbn. done. }
    apply Forall_cons in Hd as [Hb Hr]; unfold byte_ok in Hb. pose proof (wsum_bound r Hr). rewrite zlen_cons in *.
    pose proof (zlen_nonneg r). destruct (Z.ltb_spec 0 (1 + zlen r)); [|lia]. cbn [andb mbind option_bind].
    replace (1 + zlen r - 1) with (zlen r) by lia.
    destruct (chksum_words_ok r 0 Hr) as (ps & len & sum & t0 & -> & Ht & ? & ? & ?); [lia..|].
    cbn [mbind option_bind]. rewrite Ht. cbn [mbind option_bind]. rewrite (u32_small (sum + _)) by lia.
    replace (sum + (t0 + 256 * b)) with (wsum r + 256 * b) by lia.
    assert (Ho : oc (wsum r + 256 * b) (leval r + 256 * b)) by (apply oc_add; [by apply wsum_oc|apply oc_refl; lia]).
    pose proof (fold_bound (wsum r + 256 * b)). pose proof (fold_bound_small (FOLD_U32T (wsum r + 256 * b))).
    set (f := FOLD_U32T (FOLD_U32T (wsum r + 256 * b))) in *.
    assert (Hf : oc f (leval r + 256 * b)) by (unfold f; apply fold_oc; [lia|]; apply fold_oc; [lia|done]).
    pose proof (swap_bound f). rewrite u16_small by lia. f_equal. apply oc_ones; [|lia].
    etrans; [apply swap_oc; [lia|exact Hf]|]. etrans; [|symmetry; exact Hw]. cbn [leval].
    replace (256 * (leval r + 256 * b)) with (65536 * b + 256 * leval r) by lia.
    pose proof (leval_nonneg r Hr). apply oc_add; [apply oc_65536; lia|apply oc_refl; lia].
  - cbn [andb mbind option_bind]. pose proof (wsum_bound data Hd).
    destruct (chksum_words_ok data 0 Hd) as (ps & len & sum & t0 & -> & Ht & ? & ? & ?); [lia..|].
    cbn [mbind option_bind]. rewrite Ht. cbn [mbind option_bind]. rewrite u32_small by lia.
    replace (sum + (t0 + 256 * 0)) with (wsum data) by lia.
    rewrite (fold2_ones (wsum data) (wsum data)) by (try apply oc_refl; lia). rewrite u16_small; [done|].
    apply ones_range.
Qed.

Lemma ones_oc s : 0 <= s -> oc (ones s) s.
Proof.
  intros Hs. pose proof (ones_range s). constructor; [lia..| |]; unfold ones in *;
    destruct (Z.eqb_spec s 0) as [->|]; try done.
  - rewrite Zplus_mod_idemp_l; f_equal; lia.
  - pose proof (Z.mod_pos_bound (s - 1) 65535 ltac:(lia)); lia.
Qed.

Lemma ones_eq a b : oc a b -> ones a = ones b.
Proof.
  intros H. apply oc_ones; [|pose proof (ones_range a); lia].
  etrans; [apply ones_oc; apply H|done].
Qed.

(** *** Chains: the sum does not depend on where the packet is cut into pbufs
    nor on the alignment of the payloads. *)
Section chain_ok.
  Context (odd_payload : addr -> pbuf -> bool).

Lemma pbuf_chksum_ok a b n :
  pb_ok b -> bytes_ok (pb_bytes b) -> 0 <= n <= pb_len b ->
  pbuf_chksum odd_payload a b n = Some (ones (wsum (ztake n (pb_bytes b)))).
Proof.
  intros (? & ? & ? & ?) Hb Hn. unfold pbuf_chksum, payload_read.
  rewrite Z.add_0_r, mem_read_spec by lia. cbn [mbind option_bind].
  assert (E : ztake n (zdrop (pb_payload b) (pb_mem b)) = ztake n (pb_bytes b))
    by (unfold pb_bytes; rewrite ztake_ztake; f_equal; lia).
  rewrite E. assert (Hl : zlen (ztake n (pb_bytes b)) = n)
    by (unfold pb_bytes; rewrite ztake_ztake, zlen_ztake; rewrite ?zlen_zdrop; lia).
  rewrite <- Hl at 2. apply lwip_standard_chksum_ok; [by apply bytes_ok_ztake|lia].
Qed.

(** One pbuf's contribution: [s] is the sum so far, in the byte order [sw]. *)
Lemma chksum_step acc sw s d :
  0 <= acc <= 65535 -> oc acc (swp sw s) -> bytes_ok d ->
  0 <= FOLD_U32T (u32 (acc + ones (wsum d))) <= 65535 /\
  oc (FOLD_U32T (u32 (acc + ones (wsum d)))) (swp sw (s + swp sw (leval d))).
Proof.
  intros Ha Ho Hd. pose proof (ones_range (wsum d)). rewrite u32_small by lia.
  split; [apply fold_bound_small; lia|]. apply fold_oc; [lia|].
  rewrite swp_add. apply oc_add; [done|]. pose proof (leval_nonneg d Hd).
  etrans; [apply ones_oc; by apply wsum_bound|]. etrans; [by apply wsum_oc|].
  symmetry; etrans; [by apply swp_swp|]. rewrite xorb_nilpotent. by apply oc_refl.
Qed.

Lemma chksum_chain_ok h l : forall fuel q acc sw s,
  lseg h q l None -> Forall (fun c => pb_ok c.2) l -> bytes_ok (content l) -> (length l < fuel)%nat ->
  0 <= s -> 0 <= acc <= 65535 -> oc acc (swp sw s) ->
  exists acc' sw', chksum_chain odd_payload fuel q acc sw h = Some (acc', sw') /\
    0 <= acc' <= 65535 /\ oc acc' (swp sw' (s + swp sw (leval (content l)))).
Proof.
  induction l as [|[a b] l IH]; intros fuel q acc sw s Hl Ho Hb Hf Hs Ha Hacc.
  - cbn in Hl; subst q. exists acc, sw. destruct fuel; cbn [chksum_chain]; (split; [done|]; split; [done|]);
      cbn; destruct sw; cbn in *; by rewrite Z.add_0_r.
  - cbn in Hl; destruct Hl as (-> & Hg & Hl). apply Forall_cons in Ho as [Hob Ho]; cbn [snd] in Hob; pose proof Hob as (Hl0 & _).
    rewrite content_cons in Hb. apply bytes_ok_app in Hb as [Hbb Hb].
    destruct fuel as [|fuel]; [cbn in Hf; lia|]. cbn [chksum_chain]. rewrite Hg; cbn [mbind option_bind].
    pose proof (pb_bytes_len b Hob) as Hlen. destruct (chksum_step acc sw s (pb_bytes b) Ha Hacc Hbb) as [Hr Hstep].
    rewrite pbuf_chksum_ok by (auto; lia). cbn [mbind option_bind].
    rewrite ztake_ge by lia. set (f := FOLD_U32T _) in *.
    assert (Hodd : negb (pb_len b mod 2 =? 0) = Z.odd (zlen (pb_bytes b))).
    { rewrite Hlen, Zmod_odd. by destruct (Z.odd (pb_len b)). }
    pose proof (leval_nonneg _ Hbb) as Hv. pose proof (leval_nonneg _ Hb) as Hv'.
    pose proof (swp_nonneg sw _ Hv).
    assert (Hnext : exists acc' sw', chksum_chain odd_payload fuel (pb_next b)
        (if Z.odd (zlen (pb_bytes b)) then SWAP_BYTES_IN_WORD f else f) (xorb (Z.odd (zlen (pb_bytes b))) sw) h
        = Some (acc', sw') /\ 0 <= acc' <= 65535 /\
        oc acc' (swp sw' (s + swp sw (leval (pb_bytes b)) +
                          swp (xorb (Z.odd (zlen (pb_bytes b))) sw) (leval (content l))))).
    { destruct (Z.odd (zlen (pb_bytes b))) eqn:E.
      - apply IH; auto; [cbn in Hf; lia|lia|by apply swap_bound|].
        etrans; [apply swap_oc; [done|exact Hstep]|].
        change (256 * ?x) with (swp true x). apply swp_swp. lia.
      - apply IH; auto; [cbn in Hf; lia|lia]. }
    destruct Hnext as (acc' & sw' & E & ? & Hfin). exists acc', sw'. split; [|split; [done|]].
    + rewrite Hodd. rewrite <- E. by destruct (Z.odd (zlen (pb_bytes b))).
    + etrans; [exact Hfin|]. apply swp_oc. rewrite <- Z.add_assoc. apply oc_add; [by apply oc_refl|].
      rewrite content_cons. symmetry. etrans; [apply swp_oc, leval_app_oc; done|].
      rewrite swp_add. apply oc_add; [by apply oc_refl|]. rewrite xorb_comm. by apply swp_swp.
Qed.

(** The chain sum, brought back to the packet's own byte order. *)
Lemma chksum_chain_total h p l acc s :
  packet h p l -> bytes_ok (content l) -> 0 <= s -> 0 <= acc <= 65535 -> oc acc s ->
  exists acc', (x ← chksum_chain odd_payload (chain_fuel h) p acc false h;
                Some (if (x.2 : bool) then SWAP_BYTES_IN_WORD x.1 else x.1)) = Some acc' /\
    0 <= acc' <= 65535 /\ oc acc' (s + leval (content l)).
Proof.
  intros [Hl Hn Ho _ _] Hb Hs Ha Hacc. pose proof (leval_nonneg _ Hb).
  destruct (chksum_chain_ok h l (chain_fuel h) p acc false s) as (acc' & sw & -> & Hr & Hfin); auto.
  { by eapply lseg_length. }
  cbn [mbind option_bind fst snd]. destruct sw; eexists; (split; [done|]); [|done].
  split; [by apply swap_bound|]. etrans; [apply swap_oc; [done|exact Hfin]|].
  cbn [swp]. replace (256 * (256 * (s + leval (content l)))) with (65536 * (s + leval (content l))) by lia.
  apply oc_65536; lia.
Qed.

End chain_ok.

(** ** What the checksum routines promise *)

(** The pseudo headers of RFC 793 and RFC 8200, as they lie in memory. *)
Definition le32 (x : Z) : list Z := [byte_of x 0; byte_of x 1; byte_of x 2; byte_of x 3].

Definition pseudo4 (src dest proto proto_len : Z) : list Z :=
  le32 src ++ le32 dest ++ [0; proto; byte_of proto_len 1; byte_of proto_len 0].

Definition ip6_bytes (a : ip6_addr) : list Z :=
  le32 (addr0 a) ++ le32 (addr1 a) ++ le32 (addr2 a) ++ le32 (addr3 a).

Definition pseudo6 (src dest : ip6_addr) (proto proto_len : Z) : list Z :=
  ip6_bytes src ++ ip6_bytes dest ++ [0; 0; byte_of proto_len 1; byte_of proto_len 0; 0; 0; 0; proto].

Definition ip6_ok (a : ip6_addr) : Prop :=
  0 <= addr0 a < 4294967296 /\ 0 <= addr1 a < 4294967296 /\
  0 <= addr2 a < 4294967296 /\ 0 <= addr3 a < 4294967296.

Lemma complement16 acc : 0 <= acc <= 65535 -> u16 (Z.lnot (acc .& 0xffff)) = 65535 - acc.
Proof.
  intros. rewrite land_65535, Z.mod_small by lia. unfold Z.lnot, u16.
  replace (Z.pred (- acc)) with ((65535 - acc) + (-1) * 2 ^ 16) by lia.
  rewrite Z.mod_add by lia. apply Z.mod_small; lia.
Qed.

Lemma add_addr_val acc a :
  0 <= a < 4294967296 -> 0 <= acc <= 4294967295 - 131070 ->
  add_addr acc a = acc + wsum (le32 a) /\ 0 <= wsum (le32 a) <= 131070.
Proof.
  intros Ha Hacc. unfold add_addr. rewrite !land_65535, shr_div by lia. change (2 ^ 16) with 65536.
  cbn [wsum le32]. pose proof (byte_of_range a 0). pose proof (byte_of_range a 1).
  pose proof (byte_of_range a 2). pose proof (byte_of_range a 3).
  assert (E1 : a mod 65536 = byte_of a 0 + 256 * byte_of a 1).
  { rewrite (bytes_of_u32 a Ha) at 1. zdm; lia. }
  assert (E2 : (a / 65536) mod 65536 = byte_of a 2 + 256 * byte_of a 3).
  { rewrite (bytes_of_u32 a Ha) at 1. zdm; lia. }
  rewrite E1, E2. rewrite !u32_small by (rewrite ?u32_small; lia). lia.
Qed.

Lemma wsum_le32_app a k : wsum (le32 a ++ k) = wsum (le32 a) + wsum k.
Proof. cbn; lia. Qed.

Lemma htons_wsum x k : 0 <= x < 65536 -> wsum (byte_of x 1 :: byte_of x 0 :: k) = lwip_htons x + wsum k.
Proof. intros; rewrite htons_bytes by done; cbn [wsum]; lia. Qed.

Lemma htons_proto x : 0 <= x < 256 -> lwip_htons x = 256 * x.
Proof.
  intros; rewrite htons_bytes by lia. unfold byte_of. change (8 * 0) with 0; change (8 * 1) with 8.
  change (2 ^ 0) with 1; change (2 ^ 8) with 256. zdm; lia.
Qed.

Section claims.
  Context (odd_payload : addr -> pbuf -> bool).

Lemma finish_ok acc s proto proto_len :
  0 <= acc <= 65535 -> oc acc s -> 0 <= proto < 256 -> 0 <= proto_len < 65536 ->
  u16 (Z.lnot (FOLD_U32T (FOLD_U32T (u32 (u32 (acc + lwip_htons proto) + lwip_htons proto_len))) .& 0xffff))
  = 65535 - ones (s + (256 * proto + lwip_htons proto_len)).
Proof.
  intros Ha Ho Hp Hl. rewrite htons_proto by done. pose proof (u16_range proto_len).
  assert (0 <= lwip_htons proto_len < 65536) by apply u16_range.
  rewrite !u32_small by (rewrite ?u32_small; lia).
  rewrite (fold2_ones _ (s + (256 * proto + lwip_htons proto_len))).
  - apply complement16. pose proof (ones_range (s + (256 * proto + lwip_htons proto_len))); lia.
  - lia.
  - rewrite <- Z.add_assoc. apply oc_add; [done|apply oc_refl; lia].
Qed.

(** The common part of the pseudo checksums: [hdr] is the sum of the addresses. *)
Lemma pseudo_base_ok h p l proto proto_len acc hdr :
  packet h p l -> bytes_ok (content l) -> 0 <= proto < 256 -> 0 <= proto_len < 65536 ->
  0 <= hdr -> 0 <= acc <= 65535 -> oc acc hdr ->
  inet_cksum_pseudo_base odd_payload p proto proto_len acc h =
    Some (65535 - ones (hdr + (256 * proto + lwip_htons proto_len) + wsum (content l))).
Proof.
  intros Hp Hb Hpr Hlen Hh Ha Ho. unfold inet_cksum_pseudo_base.
  destruct (chksum_chain_total odd_payload h p l acc hdr Hp Hb Hh Ha Ho) as (acc' & E & Hr & Hs).
  destruct (chksum_chain _ _ _ _ _ _) as [[x sw]|]; [|done]. cbn [mbind option_bind fst snd] in E |- *.
  injection E as ->. f_equal. rewrite (finish_ok _ _ _ _ Hr Hs Hpr Hlen). f_equal. apply ones_eq.
  assert (0 <= lwip_htons proto_len < 65536) by apply u16_range.
  replace (hdr + (256 * proto + lwip_htons proto_len) + wsum (content l))
    with (hdr + wsum (content l) + (256 * proto + lwip_htons proto_len)) by lia.
  apply oc_add; [|apply oc_refl; lia]. apply oc_add; [by apply oc_refl|].
  symmetry; by apply wsum_oc.
Qed.

(** The folded sum of the two IPv4 addresses. *)
Lemma addr4_acc_ok src dest :
  0 <= src < 4294967296 -> 0 <= dest < 4294967296 ->
  let acc := FOLD_U32T (FOLD_U32T (add_addr (u32 ((src .& 0xffff) + ((src .>> 16) .& 0xffff))) dest)) in
  0 <= acc <= 65535 /\ oc acc (wsum (le32 src) + wsum (le32 dest)) /\ 0 <= wsum (le32 src) + wsum (le32 dest).
Proof.
  intros Hs Hd acc.
  destruct (add_addr_val 0 src Hs) as [Es ?]; [lia|].
  destruct (add_addr_val (wsum (le32 src)) dest Hd) as [Ed ?]; [lia|].
  assert (Ei : u32 ((src .& 0xffff) + ((src .>> 16) .& 0xffff)) = wsum (le32 src)).
  { rewrite <- (Z.add_0_l (wsum _)), <- Es. unfold add_addr. rewrite !land_65535, Z.add_0_l.
    rewrite (u32_small (src mod _)); [done|]. pose proof (Z.mod_pos_bound src 65536); lia. }
  unfold acc. rewrite Ei, Ed. set (w := wsum (le32 src) + wsum (le32 dest)) in *.
  pose proof (fold_bound w). pose proof (fold_bound_small (FOLD_U32T w)).
  split; [lia|]. split; [|lia]. apply fold_oc; [lia|]. apply fold_oc; [lia|]. apply oc_refl; lia.
Qed.

Lemma wsum_pseudo4 src dest proto proto_len k :
  0 <= proto_len < 65536 ->
  wsum (pseudo4 src dest proto proto_len ++ k) =
  wsum (le32 src) + wsum (le32 dest) + (256 * proto + lwip_htons proto_len) + wsum k.
Proof.
  intros. unfold pseudo4. rewrite <- !app_assoc, !wsum_le32_app. cbn [app].
  change (wsum (0 :: proto :: ?k)) with (0 + 256 * proto + wsum k). rewrite htons_wsum by done. lia.
Qed.

Lemma chksum_pseudo4 h p l proto proto_len src dest :
  packet h p l -> bytes_ok (content l) -> 0 <= proto < 256 -> 0 <= proto_len < 65536 ->
  0 <= src < 4294967296 -> 0 <= dest < 4294967296 ->
  inet_chksum_pseudo odd_payload p proto proto_len src dest h =
    Some (65535 - ones (wsum (pseudo4 src dest proto proto_len ++ content l))).
Proof.
  intros Hp Hb Hpr Hl Hs Hd. destruct (addr4_acc_ok src dest Hs Hd) as (? & ? & ?).
  unfold inet_chksum_pseudo. rewrite wsum_pseudo4 by done. by apply pseudo_base_ok.
Qed.

(** C39. The checksum over the IPv4 pseudo header and a pbuf chain is the
    RFC 1071 checksum of the pseudo header followed by the bytes the packet
    carries, wherever the packet is cut into pbufs and however the payloads
    are aligned. *)
Theorem inet_chksum_pseudo_rfc h p l proto proto_len src dest :
  packet h p l -> bytes_ok (content l) -> 0 <= proto < 256 -> 0 <= proto_len < 65536 ->
  0 <= src < 4294967296 -> 0 <= dest < 4294967296 ->
  inet_chksum_pseudo odd_payload p proto proto_len src dest h =
    Some (65535 - ones (wsum (pseudo4 src dest proto proto_len ++ content l))).
Proof. apply chksum_pseudo4. Qed.

Lemma ip6_addr_acc_val src dest :
  ip6_ok src -> ip6_ok dest ->
  ip6_addr_acc src dest = wsum (ip6_bytes src ++ ip6_bytes dest) /\
  0 <= wsum (ip6_bytes src ++ ip6_bytes dest) <= 8 * 131070.
Proof.
  intros (? & ? & ? & ?) (? & ? & ? & ?). unfold ip6_addr_acc, ip6_bytes. cbn [foldl].
  rewrite <- !app_assoc, !wsum_le32_app, <- (app_nil_r (le32 (addr3 dest))), wsum_le32_app.
  cbn [wsum].
  repeat match goal with
  | |- context [add_addr ?acc ?a] =>
      lazymatch acc with context [add_addr] => fail | _ =>
        destruct (add_addr_val acc a) as [-> ?]; [lia|lia|]
      end
  end. lia.
Qed.

(** The checksum over the IPv6 pseudo header (RFC 8200) and a pbuf chain
    is the RFC 1071 checksum of the pseudo header followed by the packet. *)
Theorem ip6_chksum_pseudo_rfc h p l proto proto_len src dest :
  packet h p l -> bytes_ok (content l) -> 0 <= proto < 256 -> 0 <= proto_len < 65536 ->
  ip6_ok src -> ip6_ok dest ->
  ip6_chksum_pseudo odd_payload p proto proto_len src dest h =
    Some (65535 - ones (wsum (pseudo6 src dest proto proto_len ++ content l))).
Proof.
  intros Hp Hb Hpr Hl Hs Hd. unfold ip6_chksum_pseudo.
  destruct (ip6_addr_acc_val src dest Hs Hd) as [-> ?].
  set (hdr := wsum (ip6_bytes src ++ ip6_bytes dest)) in *.
  assert (E : wsum (pseudo6 src dest proto proto_len ++ content l)
              = hdr + (256 * proto + lwip_htons proto_len) + wsum (content l)).
  { unfold hdr, pseudo6, ip6_bytes. rewrite <- !app_assoc, !wsum_le32_app.
    rewrite <- (app_nil_r (le32 (addr3 dest))), !wsum_le32_app. cbn [app].
    change (wsum (0 :: 0 :: ?k)) with (0 + 256 * 0 + wsum k). rewrite htons_wsum by done. cbn [wsum]. lia. }
  rewrite E. pose proof (fold_bound hdr). pose proof (fold_bound_small (FOLD_U32T hdr)).
  apply pseudo_base_ok; auto; try lia.
  apply fold_oc; [lia|]. apply fold_oc; [lia|]. apply oc_refl; lia.
Qed.

(** The bounded loop sums the first [n] bytes. *)
Lemma chksum_chain_partial_ok h l : forall fuel q n acc sw s,
  lseg h q l None -> Forall (fun c => pb_ok c.2) l -> bytes_ok (content l) -> (length l < fuel)%nat ->
  0 <= n < 65536 -> 0 <= s -> 0 <= acc <= 65535 -> oc acc (swp sw s) ->
  exists acc' sw', chksum_chain_partial odd_payload fuel q n acc sw h = Some (acc', sw') /\
    0 <= acc' <= 65535 /\ oc acc' (swp sw' (s + swp sw (leval (ztake n (content l))))).
Proof.
  induction l as [|[a b] l IH]; intros fuel q n acc sw s Hl Ho Hb Hf Hn Hs Ha Hacc.
  - cbn in Hl; subst q. exists acc, sw. change (content []) with (@nil Z). unfold ztake; rewrite take_nil.
    destruct fuel; cbn [chksum_chain_partial]; (split; [done|]; split; [done|]);
      cbn; destruct sw; cbn in *; by rewrite Z.add_0_r.
  - cbn in Hl; destruct Hl as (-> & Hg & Hl). apply Forall_cons in Ho as [Hob Ho]; cbn [snd] in Hob.
    pose proof Hob as (Hl0 & _). rewrite content_cons in *. apply bytes_ok_app in Hb as [Hbb Hb].
    destruct fuel as [|fuel]; [cbn in Hf; lia|]. cbn [chksum_chain_partial].
    destruct (Z.ltb_spec 0 n) as [Hn0|Hn0]; cycle 1.
    { exists acc, sw. split; [done|]; split; [done|]. rewrite ztake_neg by lia. cbn. destruct sw; cbn in *; by rewrite Z.add_0_r. }
    rewrite Hg; cbn [mbind option_bind]. pose proof (pb_bytes_len b Hob) as Hlen.
    set (c := if n <? pb_len b then n else pb_len b).
    assert (Hc : 0 <= c <= pb_len b /\ c <= n /\ c = Z.min n (pb_len b)) by (unfold c; zbool).
    rewrite pbuf_chksum_ok by (auto; lia). cbn [mbind option_bind].
    set (d := ztake c (pb_bytes b)). assert (Hd : bytes_ok d) by by apply bytes_ok_ztake.
    destruct (chksum_step acc sw s d Ha Hacc Hd) as [Hr Hstep]. set (f := FOLD_U32T _) in *.
    rewrite (u16_small (n - c)) by lia.
    assert (Hodd : negb (pb_len b mod 2 =? 0) = Z.odd (pb_len b)) by (rewrite Zmod_odd; by destruct (Z.odd (pb_len b))).
    pose proof (leval_nonneg _ Hd) as Hv. pose proof (swp_nonneg sw _ Hv).
    pose proof (leval_nonneg _ (bytes_ok_ztake (n - c) _ Hb)) as Hv'.
    set (o := Z.odd (pb_len b)) in *.
    assert (Hnext : exists acc' sw', chksum_chain_partial odd_payload fuel (pb_next b) (n - c)
        (if o then SWAP_BYTES_IN_WORD f else f) (xorb o sw) h = Some (acc', sw') /\ 0 <= acc' <= 65535 /\
        oc acc' (swp sw' (s + swp sw (leval d) + swp (xorb o sw) (leval (ztake (n - c) (content l)))))).
    { apply IH; auto; [cbn in Hf; lia|lia|lia|destruct o; [by apply swap_bound|done]|].
      destruct o; [|done]. etrans; [apply swap_oc; [done|exact Hstep]|].
      change (256 * ?x) with (swp true x). apply swp_swp. lia. }
    destruct Hnext as (acc' & sw' & E & ? & Hfin). exists acc', sw'. split; [|split; [done|]].
    + rewrite Hodd, <- E. by destruct o.
    + etrans; [exact Hfin|]. apply swp_oc. rewrite <- Z.add_assoc. apply oc_add; [by apply oc_refl|].
      destruct (Z.le_ge_cases n (pb_len b)) as [Hcase|Hcase].
      * replace (n - c) with 0 by lia. rewrite ztake_0. cbn [leval]. rewrite ztake_app_le by lia.
        unfold d. replace c with n by lia. destruct (xorb o sw); cbn [swp]; rewrite Z.add_0_r; by apply oc_refl, swp_nonneg, leval_nonneg, bytes_ok_ztake.
      * rewrite ztake_app_ge by lia. rewrite Hlen. unfold d in *. replace c with (pb_len b) in * by lia.
        rewrite (ztake_ge (pb_len b)) in * by lia.
        symmetry. etrans; [apply swp_oc, leval_app_oc; [done|by apply bytes_ok_ztake]|].
        rewrite swp_add, Hlen. apply oc_add; [by apply oc_refl|]. rewrite xorb_comm. by apply swp_swp.
Qed.

(** The partial checksum used by UDP-Lite covers exactly the pseudo header
    and the first [chksum_len] bytes of the packet. *)
Theorem inet_chksum_pseudo_partial_rfc h p l proto proto_len n src dest :
  packet h p l -> bytes_ok (content l) -> 0 <= proto < 256 -> 0 <= proto_len < 65536 ->
  0 <= n < 65536 -> 0 <= src < 4294967296 -> 0 <= dest < 4294967296 ->
  inet_chksum_pseudo_partial odd_payload p proto proto_len n src dest h =
    Some (65535 - ones (wsum (pseudo4 src dest proto proto_len ++ ztake n (content l)))).
Proof.
  intros [Hseg Hnd Hok _ _] Hb Hpr Hlen Hn Hs Hd. destruct (addr4_acc_ok src dest Hs Hd) as (Hr & Ho & Hw).
  unfold inet_chksum_pseudo_partial, inet_cksum_pseudo_partial_base. rewrite wsum_pseudo4 by done.
  set (hdr := wsum (le32 src) + wsum (le32 dest)) in *.
  set (acc := FOLD_U32T (FOLD_U32T (add_addr _ dest))) in *.
  destruct (chksum_chain_partial_ok h l (chain_fuel h) p n acc false hdr) as (acc' & sw & -> & Hr' & Hfin); auto.
  { by eapply lseg_length. }
  cbn [mbind option_bind]. set (v := leval (ztake n (content l))) in *.
  assert (0 <= v) by by apply leval_nonneg, bytes_ok_ztake.
  assert (Hx : 0 <= (if sw then SWAP_BYTES_IN_WORD acc' else acc') <= 65535 /\
               oc (if sw then SWAP_BYTES_IN_WORD acc' else acc') (hdr + v)).
  { destruct sw; [|done]. split; [by apply swap_bound|]. etrans; [apply swap_oc; [done|exact Hfin]|].
    cbn [swp]. replace (256 * (256 * (hdr + v))) with (65536 * (hdr + v)) by lia. apply oc_65536; lia. }
  destruct Hx as [Hx1 Hx2]. f_equal. rewrite (finish_ok _ _ _ _ Hx1 Hx2 Hpr Hlen). f_equal. apply ones_eq.
  assert (0 <= lwip_htons proto_len < 65536) by apply u16_range.
  replace (hdr + (256 * proto + lwip_htons proto_len) + wsum (ztake n (content l)))
    with (hdr + wsum (ztake n (content l)) + (256 * proto + lwip_htons proto_len)) by lia.
  apply oc_add; [|apply oc_refl; lia]. apply oc_add; [by apply oc_refl|].
  symmetry; by apply wsum_oc, bytes_ok_ztake.
Qed.

End claims.

Lemma ex_bytes : bytes_ok (content ex_cells).
Proof. vm_compute content. repeat (apply Forall_cons; split; [unfold byte_ok; lia|]). constructor. Qed.

Lemma inet_chksum_pseudo_rfc_witness :
  inet_chksum_pseudo (fun _ b => Z.odd (pb_payload b)) (Some 1%positive) 17 5 0x0100007f 0x0200007f ex_heap
  = Some (65535 - ones (wsum (pseudo4 0x0100007f 0x0200007f 17 5 ++ [1; 2; 3; 4; 5]))).
Proof. apply (inet_chksum_pseudo_rfc _ ex_heap _ ex_cells 17 5 0x0100007f 0x0200007f ex_packet ex_bytes); lia. Defined.

Lemma ip6_chksum_pseudo_rfc_witness :
  ip6_chksum_pseudo (fun _ b => Z.odd (pb_payload b)) (Some 1%positive) 58 5
    (Ip6Addr 0x80fe 0 1 2 0) (Ip6Addr 0x02ff 0 0 0x01000000 0) ex_heap
  = Some (65535 - ones (wsum (pseudo6 (Ip6Addr 0x80fe 0 1 2 0) (Ip6Addr 0x02ff 0 0 0x01000000 0) 58 5 ++ [1; 2; 3; 4; 5]))).
Proof.
  apply (ip6_chksum_pseudo_rfc _ ex_heap _ ex_cells 58 5 _ _ ex_packet ex_bytes);
    unfold ip6_ok; cbn [addr0 addr1 addr2 addr3]; lia.
Defined.

Lemma inet_chksum_pseudo_partial_rfc_witness :
  inet_chksum_pseudo_partial (fun _ _ => false) (Some 1%positive) 136 5 4 0x0100007f 0x0200007f ex_heap
  = Some (65535 - ones (wsum (pseudo4 0x0100007f 0x0200007f 136 5 ++ [1; 2; 3; 4]))).
Proof.
  apply (inet_chksum_pseudo_partial_rfc _ ex_heap _ ex_cells 136 5 4 0x0100007f 0x0200007f ex_packet ex_bytes); lia.
Defined.

(** [lwip_standard_chksum] is the one's-complement sum of the buffer's
    16-bit words for every length up to the documented 0x20000 and for both
    alignments of the buffer: the 32-bit accumulator does not overflow. *)
Theorem lwip_standard_chksum_rfc odd data :
  bytes_ok data -> zlen data <= 0x20000 ->
  lwip_standard_chksum odd data (zlen data) = Some (ones (wsum data)).
Proof. apply lwip_standard_chksum_ok. Qed.

Lemma lwip_standard_chksum_rfc_witness :
  lwip_standard_chksum true [0x45; 0; 1; 2; 3] 5 = Some (ones (wsum [0x45; 0; 1; 2; 3])).
Proof.
  apply (lwip_standard_chksum_rfc true [0x45; 0; 1; 2; 3]); [repeat constructor; unfold byte_ok; lia|vm_compute; discriminate].
Defined.

Lemma bytes_ok2 x y : byte_ok x -> byte_ok y -> bytes_ok [x; y].
Proof. intros; apply Forall_cons; split; [done|]. apply Forall_cons; by split. Qed.

(** Checksums verify: storing the checksum of a buffer, computed with the
    checksum field zero, in that field makes the checksum of the whole zero. *)
Theorem inet_chksum_verifies odd pre post c :
  bytes_ok pre -> bytes_ok post -> Z.odd (zlen pre) = false -> zlen pre + 2 + zlen post <= 65535 ->
  inet_chksum odd (pre ++ [0; 0] ++ post) (zlen (pre ++ [0; 0] ++ post)) = Some c ->
  inet_chksum odd (pre ++ [byte_of c 0; byte_of c 1] ++ post)
    (zlen (pre ++ [byte_of c 0; byte_of c 1] ++ post)) = Some 0.
Proof.
  intros Hpre Hpost Hev Hlen. unfold inet_chksum.
  assert (Hz : forall x y, byte_ok x -> byte_ok y -> bytes_ok (pre ++ [x; y] ++ post)).
  { intros; apply bytes_ok_app; split; [done|]. apply bytes_ok_app; split; [by apply bytes_ok2|done]. }
  assert (Hw : forall x y, byte_ok x -> byte_ok y ->
    oc (wsum (pre ++ [x; y] ++ post)) (x + 256 * y + (leval pre + leval post))).
  { intros x y Hx Hy. etrans; [by apply wsum_oc, Hz|]. etrans; [apply leval_app_oc; [done|]|].
    { apply bytes_ok_app; split; [by apply bytes_ok2|done]. }
    rewrite Hev. cbn [swp app leval]. unfold byte_ok in *.
    pose proof (leval_nonneg _ Hpre). pose proof (leval_nonneg _ Hpost).
    replace (leval pre + (x + 256 * (y + 256 * leval post)))
      with ((x + 256 * y + leval pre) + 65536 * leval post) by lia.
    rewrite Z.add_assoc. apply oc_add; [apply oc_refl; lia|by apply oc_65536]. }
  assert (0 <= zlen pre /\ 0 <= zlen post) as [Hn1 Hn2] by (split; apply zlen_nonneg).
  rewrite !lwip_standard_chksum_ok; [|apply Hz; auto with cint|rewrite !zlen_app, !zlen_cons, zlen_nil; lia
    |apply Hz; unfold byte_ok; lia|rewrite !zlen_app, !zlen_cons, zlen_nil; lia].
  cbn [mbind option_bind]. intros Hc.
  assert (Ec : u16 (Z.lnot (ones (wsum (pre ++ [0; 0] ++ post)))) = c) by congruence. clear Hc. f_equal.
  pose proof (Hw 0 0 ltac:(unfold byte_ok; lia) ltac:(unfold byte_ok; lia)) as Hz0.
  set (s := ones (wsum (pre ++ [0; 0] ++ post))) in *. pose proof (ones_range (wsum (pre ++ [0; 0] ++ post))) as Hs.
  assert (E : forall x, 0 <= x <= 65535 -> u16 (Z.lnot x) = 65535 - x).
  { intros; rewrite <- complement16 by lia. by rewrite land_65535, Z.mod_small by lia. }
  rewrite (E s) in Ec by (unfold s; lia).
  pose proof (Hw (byte_of c 0) (byte_of c 1) ltac:(auto with cint) ltac:(auto with cint)) as H1.
  rewrite <- (bytes_of_u16 c) in H1 by (unfold s in *; lia).
  pose proof (leval_nonneg _ Hpre). pose proof (leval_nonneg _ Hpost).
  set (v := leval pre + leval post) in *. rewrite Z.mul_0_r, !Z.add_0_l in Hz0.
  assert (Hsv : oc s v). { etrans; [apply ones_oc; apply Hz0|done]. }
  assert (Hsum : oc (wsum (pre ++ [byte_of c 0; byte_of c 1] ++ post)) 65535).
  { etrans; [exact H1|]. etrans; [apply oc_add; [apply oc_refl; unfold s in *; lia|symmetry; exact Hsv]|].
    replace (c + s) with 65535 by lia. by apply oc_refl. }
  rewrite (ones_eq _ _ Hsum). reflexivity.
Qed.

Lemma inet_chksum_verifies_witness :
  exists c, inet_chksum false [0x45; 0; 0; 0; 7] 5 = Some c /\
    inet_chksum false [0x45; 0; byte_of c 0; byte_of c 1; 7] 5 = Some 0.
Proof.
  eexists; split; [vm_compute; reflexivity|].
  apply (inet_chksum_verifies false [0x45; 0] [7]);
    [apply bytes_ok2; unfold byte_ok; lia|apply Forall_cons; split; [unfold byte_ok; lia|constructor]|reflexivity
    |vm_compute; discriminate|vm_compute; reflexivity].
Defined.

(** The checksum over a pbuf chain is the checksum of the flat buffer
    holding the same bytes. *)
Theorem inet_chksum_pbuf_flat odd_payload odd h p l :
  packet h p l -> bytes_ok (content l) ->
  inet_chksum_pbuf odd_payload p h = inet_chksum odd (content l) (zlen (content l)).
Proof.
  intros Hp Hb. unfold inet_chksum_pbuf, inet_chksum.
  destruct (chksum_chain_total odd_payload h p l 0 0 Hp Hb) as (acc & E & Hr & Hs); [lia..|by apply oc_refl|].
  destruct (chksum_chain _ _ _ _ _ _) as [[x sw]|]; [|done]. cbn [mbind option_bind fst snd] in E |- *.
  injection E as ->. rewrite lwip_standard_chksum_ok by (auto; rewrite content_len by apply Hp; pose proof (packet_sum _ _ _ Hp); lia).
  cbn [mbind option_bind]. do 2 f_equal. rewrite land_65535, Z.mod_small by lia. f_equal.
  rewrite Z.add_0_l in Hs. apply oc_ones; [|lia]. etrans; [exact Hs|]. symmetry; by apply wsum_oc.
Qed.

Lemma inet_chksum_pbuf_flat_witness :
  inet_chksum_pbuf (fun _ b => Z.odd (pb_payload b)) (Some 1%positive) ex_heap = inet_chksum false [1; 2; 3; 4; 5] 5.
Proof. apply (inet_chksum_pbuf_flat _ false ex_heap _ ex_cells ex_packet ex_bytes). Defined.
