(* ===== verification/NetifRec.v ===== *)
(** Network interfaces: [struct netif] of [include/lwip/netif.h] in this
    configuration (IPv4 and IPv6, three IPv6 addresses per interface, no status
    callbacks, loopback with at most 16 queued pbufs), with one update function
    per field the code assigns. *)
From S2P Require Import Prelude Pbuf IpAddr.

Definition NETIF_FLAG_UP : Z := 0x01.
Definition NETIF_FLAG_BROADCAST : Z := 0x02.
Definition NETIF_FLAG_LINK_UP : Z := 0x04.
Definition NETIF_FLAG_ETHARP : Z := 0x08.
Definition NETIF_FLAG_ETHERNET : Z := 0x10.
Definition NETIF_FLAG_MLD6 : Z := 0x40.
Definition LWIP_IPV6_NUM_ADDRESSES : nat := 3.
Definition NETIF_NAMESIZE : Z := 6.
Definition IP6_ADDR_INVALID : Z := 0x00.
Definition IP6_ADDR_TENTATIVE : Z := 0x08.
Definition IP6_ADDR_VALID : Z := 0x10.
Definition IP6_ADDR_LIFE_STATIC : Z := 0.
Definition LWIP_ND6_MAX_MULTICAST_SOLICIT : Z := 3.

(** The functions the code stores in the function-pointer fields. *)
Inductive input_fn := tcpip_input.
Inductive output_fn := output_unset | netif_null_output_ip4 | netif_loop_output_ipv4 | etharp_output.
Inductive output_ip6_fn := output_ip6_unset | netif_null_output_ip6 | netif_loop_output_ipv6 | ethip6_output.
Inductive linkoutput_fn := linkoutput_unset | netif_linkoutput.

(** [ip_addr], [netmask] and [gw] are [ip_addr_t] whose type tag is always
    IPv4; [state], [client_data], [mld_mac_filter] and [hints] are pointers. *)
Record netif := Netif {
  nif_next : option Z;
  nif_ip_addr : Z;
  nif_netmask : Z;
  nif_gw : Z;
  nif_ip6_addr : list ip6_addr;
  nif_ip6_addr_state : list Z;
  nif_ip6_addr_valid_life : list Z;
  nif_ip6_addr_pref_life : list Z;
  nif_input : option input_fn;
  nif_output : output_fn;
  nif_linkoutput : linkoutput_fn;
  nif_output_ip6 : output_ip6_fn;
  nif_state : option Z;
  nif_client_data : option Z;
  nif_mtu : Z;
  nif_mtu6 : Z;
  nif_hwaddr : list Z;
  nif_hwaddr_len : Z;
  nif_flags : Z;
  nif_name : Z * Z;
  nif_num : Z;
  nif_ip6_autoconfig_enabled : Z;
  nif_rs_count : Z;
  nif_mld_mac_filter : option Z;
  nif_hints : option Z;
  nif_loop_first : option addr;
  nif_loop_last : option addr;
  nif_loop_cnt_current : Z;
}.

Definition nset_next (v : option Z) (n : netif) : netif :=
  Netif v (nif_ip_addr n) (nif_netmask n) (nif_gw n) (nif_ip6_addr n) (nif_ip6_addr_state n)
    (nif_ip6_addr_valid_life n) (nif_ip6_addr_pref_life n) (nif_input n) (nif_output n) (nif_linkoutput n)
    (nif_output_ip6 n) (nif_state n) (nif_client_data n) (nif_mtu n) (nif_mtu6 n) (nif_hwaddr n)
    (nif_hwaddr_len n) (nif_flags n) (nif_name n) (nif_num n) (nif_ip6_autoconfig_enabled n) (nif_rs_count n)
    (nif_mld_mac_filter n) (nif_hints n) (nif_loop_first n) (nif_loop_last n) (nif_loop_cnt_current n).

Definition nset_ip_addr (v : Z) (n : netif) : netif :=
  Netif (nif_next n) v (nif_netmask n) (nif_gw n) (nif_ip6_addr n) (nif_ip6_addr_state n)
    (nif_ip6_addr_valid_life n) (nif_ip6_addr_pref_life n) (nif_input n) (nif_output n) (nif_linkoutput n)
    (nif_output_ip6 n) (nif_state n) (nif_client_data n) (nif_mtu n) (nif_mtu6 n) (nif_hwaddr n)
    (nif_hwaddr_len n) (nif_flags n) (nif_name n) (nif_num n) (nif_ip6_autoconfig_enabled n) (nif_rs_count n)
    (nif_mld_mac_filter n) (nif_hints n) (nif_loop_first n) (nif_loop_last n) (nif_loop_cnt_current n).

Definition nset_netmask (v : Z) (n : netif) : netif :=
  Netif (nif_next n) (nif_ip_addr n) v (nif_gw n) (nif_ip6_addr n) (nif_ip6_addr_state n)
    (nif_ip6_addr_valid_life n) (nif_ip6_addr_pref_life n) (nif_input n) (nif_output n) (nif_linkoutput n)
    (nif_output_ip6 n) (nif_state n) (nif_client_data n) (nif_mtu n) (nif_mtu6 n) (nif_hwaddr n)
    (nif_hwaddr_len n) (nif_flags n) (nif_name n) (nif_num n) (nif_ip6_autoconfig_enabled n) (nif_rs_count n)
    (nif_mld_mac_filter n) (nif_hints n) (nif_loop_first n) (nif_loop_last n) (nif_loop_cnt_current n).

Definition nset_gw (v : Z) (n : netif) : netif :=
  Netif (nif_next n) (nif_ip_addr n) (nif_netmask n) v (nif_ip6_addr n) (nif_ip6_addr_state n)
    (nif_ip6_addr_valid_life n) (nif_ip6_addr_pref_life n) (nif_input n) (nif_output n) (nif_linkoutput n)
    (nif_output_ip6 n) (nif_state n) (nif_client_data n) (nif_mtu n) (nif_mtu6 n) (nif_hwaddr n)
    (nif_hwaddr_len n) (nif_flags n) (nif_name n) (nif_num n) (nif_ip6_autoconfig_enabled n) (nif_rs_count n)
    (nif_mld_mac_filter n) (nif_hints n) (nif_loop_first n) (nif_loop_last n) (nif_loop_cnt_current n).

Definition nset_ip6_addr (v : list ip6_addr) (n : netif) : netif :=
  Netif (nif_next n) (nif_ip_addr n) (nif_netmask n) (nif_gw n) v (nif_ip6_addr_state n)
    (nif_ip6_addr_valid_life n) (nif_ip6_addr_pref_life n) (nif_input n) (nif_output n) (nif_linkoutput n)
    (nif_output_ip6 n) (nif_state n) (nif_client_data n) (nif_mtu n) (nif_mtu6 n) (nif_hwaddr n)
    (nif_hwaddr_len n) (nif_flags n) (nif_name n) (nif_num n) (nif_ip6_autoconfig_enabled n) (nif_rs_count n)
    (nif_mld_mac_filter n) (nif_hints n) (nif_loop_first n) (nif_loop_last n) (nif_loop_cnt_current n).

Definition nset_ip6_addr_state (v : list Z) (n : netif) : netif :=
  Netif (nif_next n) (nif_ip_addr n) (nif_netmask n) (nif_gw n) (nif_ip6_addr n) v (nif_ip6_addr_valid_life n)
    (nif_ip6_addr_pref_life n) (nif_input n) (nif_output n) (nif_linkoutput n) (nif_output_ip6 n)
    (nif_state n) (nif_client_data n) (nif_mtu n) (nif_mtu6 n) (nif_hwaddr n) (nif_hwaddr_len n) (nif_flags n)
    (nif_name n) (nif_num n) (nif_ip6_autoconfig_enabled n) (nif_rs_count n) (nif_mld_mac_filter n)
    (nif_hints n) (nif_loop_first n) (nif_loop_last n) (nif_loop_cnt_current n).

Definition nset_ip6_addr_valid_life (v : list Z) (n : netif) : netif :=
  Netif (nif_next n) (nif_ip_addr n) (nif_netmask n) (nif_gw n) (nif_ip6_addr n) (nif_ip6_addr_state n) v
    (nif_ip6_addr_pref_life n) (nif_input n) (nif_output n) (nif_linkoutput n) (nif_output_ip6 n)
    (nif_state n) (nif_client_data n) (nif_mtu n) (nif_mtu6 n) (nif_hwaddr n) (nif_hwaddr_len n) (nif_flags n)
    (nif_name n) (nif_num n) (nif_ip6_autoconfig_enabled n) (nif_rs_count n) (nif_mld_mac_filter n)
    (nif_hints n) (nif_loop_first n) (nif_loop_last n) (nif_loop_cnt_current n).

Definition nset_ip6_addr_pref_life (v : list Z) (n : netif) : netif :=
  Netif (nif_next n) (nif_ip_addr n) (nif_netmask n) (nif_gw n) (nif_ip6_addr n) (nif_ip6_addr_state n)
    (nif_ip6_addr_valid_life n) v (nif_input n) (nif_output n) (nif_linkoutput n) (nif_output_ip6 n)
    (nif_state n) (nif_client_data n) (nif_mtu n) (nif_mtu6 n) (nif_hwaddr n) (nif_hwaddr_len n) (nif_flags n)
    (nif_name n) (nif_num n) (nif_ip6_autoconfig_enabled n) (nif_rs_count n) (nif_mld_mac_filter n)
    (nif_hints n) (nif_loop_first n) (nif_loop_last n) (nif_loop_cnt_current n).

Definition nset_input (v : option input_fn) (n : netif) : netif :=
  Netif (nif_next n) (nif_ip_addr n) (nif_netmask n) (nif_gw n) (nif_ip6_addr n) (nif_ip6_addr_state n)
    (nif_ip6_addr_valid_life n) (nif_ip6_addr_pref_life n) v (nif_output n) (nif_linkoutput n)
    (nif_output_ip6 n) (nif_state n) (nif_client_data n) (nif_mtu n) (nif_mtu6 n) (nif_hwaddr n)
    (nif_hwaddr_len n) (nif_flags n) (nif_name n) (nif_num n) (nif_ip6_autoconfig_enabled n) (nif_rs_count n)
    (nif_mld_mac_filter n) (nif_hints n) (nif_loop_first n) (nif_loop_last n) (nif_loop_cnt_current n).

Definition nset_output (v : output_fn) (n : netif) : netif :=
  Netif (nif_next n) (nif_ip_addr n) (nif_netmask n) (nif_gw n) (nif_ip6_addr n) (nif_ip6_addr_state n)
    (nif_ip6_addr_valid_life n) (nif_ip6_addr_pref_life n) (nif_input n) v (nif_linkoutput n)
    (nif_output_ip6 n) (nif_state n) (nif_client_data n) (nif_mtu n) (nif_mtu6 n) (nif_hwaddr n)
    (nif_hwaddr_len n) (nif_flags n) (nif_name n) (nif_num n) (nif_ip6_autoconfig_enabled n) (nif_rs_count n)
    (nif_mld_mac_filter n) (nif_hints n) (nif_loop_first n) (nif_loop_last n) (nif_loop_cnt_current n).

Definition nset_linkoutput (v : linkoutput_fn) (n : netif) : netif :=
  Netif (nif_next n) (nif_ip_addr n) (nif_netmask n) (nif_gw n) (nif_ip6_addr n) (nif_ip6_addr_state n)
    (nif_ip6_addr_valid_life n) (nif_ip6_addr_pref_life n) (nif_input n) (nif_output n) v (nif_output_ip6 n)
    (nif_state n) (nif_client_data n) (nif_mtu n) (nif_mtu6 n) (nif_hwaddr n) (nif_hwaddr_len n) (nif_flags n)
    (nif_name n) (nif_num n) (nif_ip6_autoconfig_enabled n) (nif_rs_count n) (nif_mld_mac_filter n)
    (nif_hints n) (nif_loop_first n) (nif_loop_last n) (nif_loop_cnt_current n).

Definition nset_output_ip6 (v : output_ip6_fn) (n : netif) : netif :=
  Netif (nif_next n) (nif_ip_addr n) (nif_netmask n) (nif_gw n) (nif_ip6_addr n) (nif_ip6_addr_state n)
    (nif_ip6_addr_valid_life n) (nif_ip6_addr_pref_life n) (nif_input n) (nif_output n) (nif_linkoutput n) v
    (nif_state n) (nif_client_data n) (nif_mtu n) (nif_mtu6 n) (nif_hwaddr n) (nif_hwaddr_len n) (nif_flags n)
    (nif_name n) (nif_num n) (nif_ip6_autoconfig_enabled n) (nif_rs_count n) (nif_mld_mac_filter n)
    (nif_hints n) (nif_loop_first n) (nif_loop_last n) (nif_loop_cnt_current n).

Definition nset_state (v : option Z) (n : netif) : netif :=
  Netif (nif_next n) (nif_ip_addr n) (nif_netmask n) (nif_gw n) (nif_ip6_addr n) (nif_ip6_addr_state n)
    (nif_ip6_addr_valid_life n) (nif_ip6_addr_pref_life n) (nif_input n) (nif_output n) (nif_linkoutput n)
    (nif_output_ip6 n) v (nif_client_data n) (nif_mtu n) (nif_mtu6 n) (nif_hwaddr n) (nif_hwaddr_len n)
    (nif_flags n) (nif_name n) (nif_num n) (nif_ip6_autoconfig_enabled n) (nif_rs_count n)
    (nif_mld_mac_filter n) (nif_hints n) (nif_loop_first n) (nif_loop_last n) (nif_loop_cnt_current n).

Definition nset_client_data (v : option Z) (n : netif) : netif :=
  Netif (nif_next n) (nif_ip_addr n) (nif_netmask n) (nif_gw n) (nif_ip6_addr n) (nif_ip6_addr_state n)
    (nif_ip6_addr_valid_life n) (nif_ip6_addr_pref_life n) (nif_input n) (nif_output n) (nif_linkoutput n)
    (nif_output_ip6 n) (nif_state n) v (nif_mtu n) (nif_mtu6 n) (nif_hwaddr n) (nif_hwaddr_len n)
    (nif_flags n) (nif_name n) (nif_num n) (nif_ip6_autoconfig_enabled n) (nif_rs_count n)
    (nif_mld_mac_filter n) (nif_hints n) (nif_loop_first n) (nif_loop_last n) (nif_loop_cnt_current n).

Definition nset_mtu (v : Z) (n : netif) : netif :=
  Netif (nif_next n) (nif_ip_addr n) (nif_netmask n) (nif_gw n) (nif_ip6_addr n) (nif_ip6_addr_state n)
    (nif_ip6_addr_valid_life n) (nif_ip6_addr_pref_life n) (nif_input n) (nif_output n) (nif_linkoutput n)
    (nif_output_ip6 n) (nif_state n) (nif_client_data n) v (nif_mtu6 n) (nif_hwaddr n) (nif_hwaddr_len n)
    (nif_flags n) (nif_name n) (nif_num n) (nif_ip6_autoconfig_enabled n) (nif_rs_count n)
    (nif_mld_mac_filter n) (nif_hints n) (nif_loop_first n) (nif_loop_last n) (nif_loop_cnt_current n).

Definition nset_mtu6 (v : Z) (n : netif) : netif :=
  Netif (nif_next n) (nif_ip_addr n) (nif_netmask n) (nif_gw n) (nif_ip6_addr n) (nif_ip6_addr_state n)
    (nif_ip6_addr_valid_life n) (nif_ip6_addr_pref_life n) (nif_input n) (nif_output n) (nif_linkoutput n)
    (nif_output_ip6 n) (nif_state n) (nif_client_data n) (nif_mtu n) v (nif_hwaddr n) (nif_hwaddr_len n)
    (nif_flags n) (nif_name n) (nif_num n) (nif_ip6_autoconfig_enabled n) (nif_rs_count n)
    (nif_mld_mac_filter n) (nif_hints n) (nif_loop_first n) (nif_loop_last n) (nif_loop_cnt_current n).

Definition nset_hwaddr (v : list Z) (n : netif) : netif :=
  Netif (nif_next n) (nif_ip_addr n) (nif_netmask n) (nif_gw n) (nif_ip6_addr n) (nif_ip6_addr_state n)
    (nif_ip6_addr_valid_life n) (nif_ip6_addr_pref_life n) (nif_input n) (nif_output n) (nif_linkoutput n)
    (nif_output_ip6 n) (nif_state n) (nif_client_data n) (nif_mtu n) (nif_mtu6 n) v (nif_hwaddr_len n)
    (nif_flags n) (nif_name n) (nif_num n) (nif_ip6_autoconfig_enabled n) (nif_rs_count n)
    (nif_mld_mac_filter n) (nif_hints n) (nif_loop_first n) (nif_loop_last n) (nif_loop_cnt_current n).

Definition nset_hwaddr_len (v : Z) (n : netif) : netif :=
  Netif (nif_next n) (nif_ip_addr n) (nif_netmask n) (nif_gw n) (nif_ip6_addr n) (nif_ip6_addr_state n)
    (nif_ip6_addr_valid_life n) (nif_ip6_addr_pref_life n) (nif_input n) (nif_output n) (nif_linkoutput n)
    (nif_output_ip6 n) (nif_state n) (nif_client_data n) (nif_mtu n) (nif_mtu6 n) (nif_hwaddr n) v
    (nif_flags n) (nif_name n) (nif_num n) (nif_ip6_autoconfig_enabled n) (nif_rs_count n)
    (nif_mld_mac_filter n) (nif_hints n) (nif_loop_first n) (nif_loop_last n) (nif_loop_cnt_current n).

Definition nset_flags (v : Z) (n : netif) : netif :=
  Netif (nif_next n) (nif_ip_addr n) (nif_netmask n) (nif_gw n) (nif_ip6_addr n) (nif_ip6_addr_state n)
    (nif_ip6_addr_valid_life n) (nif_ip6_addr_pref_life n) (nif_input n) (nif_output n) (nif_linkoutput n)
    (nif_output_ip6 n) (nif_state n) (nif_client_data n) (nif_mtu n) (nif_mtu6 n) (nif_hwaddr n)
    (nif_hwaddr_len n) v (nif_name n) (nif_num n) (nif_ip6_autoconfig_enabled n) (nif_rs_count n)
    (nif_mld_mac_filter n) (nif_hints n) (nif_loop_first n) (nif_loop_last n) (nif_loop_cnt_current n).

Definition nset_name (v : Z * Z) (n : netif) : netif :=
  Netif (nif_next n) (nif_ip_addr n) (nif_netmask n) (nif_gw n) (nif_ip6_addr n) (nif_ip6_addr_state n)
    (nif_ip6_addr_valid_life n) (nif_ip6_addr_pref_life n) (nif_input n) (nif_output n) (nif_linkoutput n)
    (nif_output_ip6 n) (nif_state n) (nif_client_data n) (nif_mtu n) (nif_mtu6 n) (nif_hwaddr n)
    (nif_hwaddr_len n) (nif_flags n) v (nif_num n) (nif_ip6_autoconfig_enabled n) (nif_rs_count n)
    (nif_mld_mac_filter n) (nif_hints n) (nif_loop_first n) (nif_loop_last n) (nif_loop_cnt_current n).

Definition nset_num (v : Z) (n : netif) : netif :=
  Netif (nif_next n) (nif_ip_addr n) (nif_netmask n) (nif_gw n) (nif_ip6_addr n) (nif_ip6_addr_state n)
    (nif_ip6_addr_valid_life n) (nif_ip6_addr_pref_life n) (nif_input n) (nif_output n) (nif_linkoutput n)
    (nif_output_ip6 n) (nif_state n) (nif_client_data n) (nif_mtu n) (nif_mtu6 n) (nif_hwaddr n)
    (nif_hwaddr_len n) (nif_flags n) (nif_name n) v (nif_ip6_autoconfig_enabled n) (nif_rs_count n)
    (nif_mld_mac_filter n) (nif_hints n) (nif_loop_first n) (nif_loop_last n) (nif_loop_cnt_current n).

Definition nset_ip6_autoconfig_enabled (v : Z) (n : netif) : netif :=
  Netif (nif_next n) (nif_ip_addr n) (nif_netmask n) (nif_gw n) (nif_ip6_addr n) (nif_ip6_addr_state n)
    (nif_ip6_addr_valid_life n) (nif_ip6_addr_pref_life n) (nif_input n) (nif_output n) (nif_linkoutput n)
    (nif_output_ip6 n) (nif_state n) (nif_client_data n) (nif_mtu n) (nif_mtu6 n) (nif_hwaddr n)
    (nif_hwaddr_len n) (nif_flags n) (nif_name n) (nif_num n) v (nif_rs_count n) (nif_mld_mac_filter n)
    (nif_hints n) (nif_loop_first n) (nif_loop_last n) (nif_loop_cnt_current n).

Definition nset_rs_count (v : Z) (n : netif) : netif :=
  Netif (nif_next n) (nif_ip_addr n) (nif_netmask n) (nif_gw n) (nif_ip6_addr n) (nif_ip6_addr_state n)
    (nif_ip6_addr_valid_life n) (nif_ip6_addr_pref_life n) (nif_input n) (nif_output n) (nif_linkoutput n)
    (nif_output_ip6 n) (nif_state n) (nif_client_data n) (nif_mtu n) (nif_mtu6 n) (nif_hwaddr n)
    (nif_hwaddr_len n) (nif_flags n) (nif_name n) (nif_num n) (nif_ip6_autoconfig_enabled n) v
    (nif_mld_mac_filter n) (nif_hints n) (nif_loop_first n) (nif_loop_last n) (nif_loop_cnt_current n).

Definition nset_mld_mac_filter (v : option Z) (n : netif) : netif :=
  Netif (nif_next n) (nif_ip_addr n) (nif_netmask n) (nif_gw n) (nif_ip6_addr n) (nif_ip6_addr_state n)
    (nif_ip6_addr_valid_life n) (nif_ip6_addr_pref_life n) (nif_input n) (nif_output n) (nif_linkoutput n)
    (nif_output_ip6 n) (nif_state n) (nif_client_data n) (nif_mtu n) (nif_mtu6 n) (nif_hwaddr n)
    (nif_hwaddr_len n) (nif_flags n) (nif_name n) (nif_num n) (nif_ip6_autoconfig_enabled n) (nif_rs_count n)
    v (nif_hints n) (nif_loop_first n) (nif_loop_last n) (nif_loop_cnt_current n).

Definition nset_hints (v : option Z) (n : netif) : netif :=
  Netif (nif_next n) (nif_ip_addr n) (nif_netmask n) (nif_gw n) (nif_ip6_addr n) (nif_ip6_addr_state n)
    (nif_ip6_addr_valid_life n) (nif_ip6_addr_pref_life n) (nif_input n) (nif_output n) (nif_linkoutput n)
    (nif_output_ip6 n) (nif_state n) (nif_client_data n) (nif_mtu n) (nif_mtu6 n) (nif_hwaddr n)
    (nif_hwaddr_len n) (nif_flags n) (nif_name n) (nif_num n) (nif_ip6_autoconfig_enabled n) (nif_rs_count n)
    (nif_mld_mac_filter n) v (nif_loop_first n) (nif_loop_last n) (nif_loop_cnt_current n).

Definition nset_loop_first (v : option addr) (n : netif) : netif :=
  Netif (nif_next n) (nif_ip_addr n) (nif_netmask n) (nif_gw n) (nif_ip6_addr n) (nif_ip6_addr_state n)
    (nif_ip6_addr_valid_life n) (nif_ip6_addr_pref_life n) (nif_input n) (nif_output n) (nif_linkoutput n)
    (nif_output_ip6 n) (nif_state n) (nif_client_data n) (nif_mtu n) (nif_mtu6 n) (nif_hwaddr n)
    (nif_hwaddr_len n) (nif_flags n) (nif_name n) (nif_num n) (nif_ip6_autoconfig_enabled n) (nif_rs_count n)
    (nif_mld_mac_filter n) (nif_hints n) v (nif_loop_last n) (nif_loop_cnt_current n).

Definition nset_loop_last (v : option addr) (n : netif) : netif :=
  Netif (nif_next n) (nif_ip_addr n) (nif_netmask n) (nif_gw n) (nif_ip6_addr n) (nif_ip6_addr_state n)
    (nif_ip6_addr_valid_life n) (nif_ip6_addr_pref_life n) (nif_input n) (nif_output n) (nif_linkoutput n)
    (nif_output_ip6 n) (nif_state n) (nif_client_data n) (nif_mtu n) (nif_mtu6 n) (nif_hwaddr n)
    (nif_hwaddr_len n) (nif_flags n) (nif_name n) (nif_num n) (nif_ip6_autoconfig_enabled n) (nif_rs_count n)
    (nif_mld_mac_filter n) (nif_hints n) (nif_loop_first n) v (nif_loop_cnt_current n).

Definition nset_loop_cnt_current (v : Z) (n : netif) : netif :=
  Netif (nif_next n) (nif_ip_addr n) (nif_netmask n) (nif_gw n) (nif_ip6_addr n) (nif_ip6_addr_state n)
    (nif_ip6_addr_valid_life n) (nif_ip6_addr_pref_life n) (nif_input n) (nif_output n) (nif_linkoutput n)
    (nif_output_ip6 n) (nif_state n) (nif_client_data n) (nif_mtu n) (nif_mtu6 n) (nif_hwaddr n)
    (nif_hwaddr_len n) (nif_flags n) (nif_name n) (nif_num n) (nif_ip6_autoconfig_enabled n) (nif_rs_count n)
    (nif_mld_mac_filter n) (nif_hints n) (nif_loop_first n) (nif_loop_last n) v.

(** [memset(netif, 0, sizeof(struct netif))]. *)
Definition zero_netif : netif :=
  Netif None 0 0 0 (replicate LWIP_IPV6_NUM_ADDRESSES ip6_addr_any) (replicate LWIP_IPV6_NUM_ADDRESSES 0)
    (replicate LWIP_IPV6_NUM_ADDRESSES 0) (replicate LWIP_IPV6_NUM_ADDRESSES 0) None output_unset linkoutput_unset
    output_ip6_unset None None 0 0 (replicate 6 0) 0 0 (0, 0) 0 0 0 None None None None 0.
