(* ===== verification/Netif.v ===== *)
(** Network interfaces: the operations of [core/netif.c].

    Interfaces live in memory the caller provides; the list [netif_list] is the
    chain of [next] pointers through that memory.  The model keeps the memory
    as a map from addresses, so that an interface that is overwritten while it
    is still on the list behaves as it does in C.  An access to memory that
    holds no [struct netif] is undefined behaviour ([None]).

    Calls into other modules are recorded, in order, in [ns_trace]. *)
From S2P Require Import Prelude Bits Def IpAddr Pbuf NetifRec.

(** Calls out of [netif.c]; an interface is named by its address. *)
Inductive nevent :=
| tcp_netif_ip_addr_changed (old_addr : ip_addr) (new_addr : option ip_addr)
| udp_netif_ip_addr_changed (old_addr : ip_addr) (new_addr : option ip_addr)
| etharp_gratuitous (netif : Z)
| etharp_cleanup_netif (netif : Z)
| mld6_report_groups (netif : Z)
| mld6_stop (netif : Z)
| nd6_cleanup_netif (netif : Z)
| nd6_adjust_mld_membership (netif addr_idx state : Z).

Record nstate := NState {
  ns_mem : gmap Z netif;
  netif_list : option Z;
  netif_default : option Z;
  netif_num : Z;
  ns_trace : list nevent;
}.

Definition nget (s : nstate) (n : Z) : option netif := ns_mem s !! n.

Definition nput (s : nstate) (n : Z) (v : netif) : nstate :=
  NState (<[n := v]> (ns_mem s)) (netif_list s) (netif_default s) (netif_num s) (ns_trace s).

Definition set_list (p : option Z) (s : nstate) : nstate :=
  NState (ns_mem s) p (netif_default s) (netif_num s) (ns_trace s).

Definition set_default (p : option Z) (s : nstate) : nstate :=
  NState (ns_mem s) (netif_list s) p (netif_num s) (ns_trace s).

Definition set_netif_num (k : Z) (s : nstate) : nstate :=
  NState (ns_mem s) (netif_list s) (netif_default s) k (ns_trace s).

Definition emit (e : list nevent) (s : nstate) : nstate :=
  NState (ns_mem s) (netif_list s) (netif_default s) (netif_num s) (ns_trace s ++ e).

(** Assign fields of the interface at [n]. *)
Definition nmod (s : nstate) (n : Z) (f : netif -> netif) : option nstate :=
  v ← nget s n; Some (nput s n (f v)).

Definition netif_get_index (v : netif) : Z := u8 (nif_num v + 1).

Definition flag_set (v : netif) (f : Z) : bool := negb (nif_flags v .& f =? 0).

Definition netif_set_flags (f : Z) (v : netif) : netif := nset_flags (u8 (nif_flags v .| f)) v.

Definition netif_clear_flags (f : Z) (v : netif) : netif :=
  nset_flags (u8 (nif_flags v .& (Z.lnot f .& 0xff))) v.

Definition netif_is_up (v : netif) : bool := flag_set v NETIF_FLAG_UP.

(** Walks along the list visit each interface in memory at most once, unless
    the list has been made circular. *)
Definition list_fuel (s : nstate) : nat := S (size (ns_mem s)).

(** ** Status changes *)
Definition NETIF_REPORT_TYPE_IPV4 : Z := 0x01.
Definition NETIF_REPORT_TYPE_IPV6 : Z := 0x02.

Definition netif_issue_reports (n report_type : Z) (s : nstate) : option nstate :=
  v ← nget s n;
  if negb (flag_set v NETIF_FLAG_LINK_UP) || negb (flag_set v NETIF_FLAG_UP) then Some s
  else
    let s := if negb (report_type .& NETIF_REPORT_TYPE_IPV4 =? 0) && negb (nif_ip_addr v =? IPADDR_ANY)
             then if flag_set v NETIF_FLAG_ETHARP then emit [etharp_gratuitous n] s else s
             else s in
    let s := if negb (report_type .& NETIF_REPORT_TYPE_IPV6 =? 0)
             then emit [mld6_report_groups n] s else s in
    Some s.

(** [nd6.c]. *)
Definition nd6_restart_netif (n : Z) (s : nstate) : option nstate :=
  nmod s n (nset_rs_count LWIP_ND6_MAX_MULTICAST_SOLICIT).

Definition netif_set_up (n : option Z) (s : nstate) : option nstate :=
  match n with
  | None => Some s
  | Some n =>
      v ← nget s n;
      if negb (flag_set v NETIF_FLAG_UP) then
        s ← nmod s n (netif_set_flags NETIF_FLAG_UP);
        s ← netif_issue_reports n (NETIF_REPORT_TYPE_IPV4 .| NETIF_REPORT_TYPE_IPV6) s;
        nd6_restart_netif n s
      else Some s
  end.

Definition netif_set_down (n : option Z) (s : nstate) : option nstate :=
  match n with
  | None => Some s
  | Some n =>
      v ← nget s n;
      if flag_set v NETIF_FLAG_UP then
        s ← nmod s n (netif_clear_flags NETIF_FLAG_UP);
        v ← nget s n;
        let s := if flag_set v NETIF_FLAG_ETHARP then emit [etharp_cleanup_netif n] s else s in
        Some (emit [nd6_cleanup_netif n] s)
      else Some s
  end.

Definition netif_set_link_up (n : option Z) (s : nstate) : option nstate :=
  match n with
  | None => Some s
  | Some n =>
      v ← nget s n;
      if negb (flag_set v NETIF_FLAG_LINK_UP) then
        s ← nmod s n (netif_set_flags NETIF_FLAG_LINK_UP);
        s ← netif_issue_reports n (NETIF_REPORT_TYPE_IPV4 .| NETIF_REPORT_TYPE_IPV6) s;
        nd6_restart_netif n s
      else Some s
  end.

Definition netif_set_link_down (n : option Z) (s : nstate) : option nstate :=
  match n with
  | None => Some s
  | Some n =>
      v ← nget s n;
      if flag_set v NETIF_FLAG_LINK_UP then
        s ← nmod s n (netif_clear_flags NETIF_FLAG_LINK_UP);
        nmod s n (fun v => nset_mtu6 (nif_mtu v) v)
      else Some s
  end.

Definition netif_set_default (n : option Z) (s : nstate) : nstate := set_default n s.

(** ** IPv4 configuration *)
Definition netif_do_ip_addr_changed (old_addr : ip_addr) (new_addr : option ip_addr) (s : nstate) : nstate :=
  emit [tcp_netif_ip_addr_changed old_addr new_addr; udp_netif_ip_addr_changed old_addr new_addr] s.

(** The result tells whether the address was changed. *)
Definition netif_do_set_ipaddr (n ipaddr : Z) (s : nstate) : option (bool * nstate) :=
  v ← nget s n;
  if negb (ipaddr =? nif_ip_addr v) then
    let s := netif_do_ip_addr_changed (IPADDR_V4 (nif_ip_addr v)) (Some (IPADDR_V4 ipaddr)) s in
    s ← nmod s n (nset_ip_addr ipaddr);
    s ← netif_issue_reports n NETIF_REPORT_TYPE_IPV4 s;
    Some (true, s)
  else Some (false, s).

Definition netif_do_set_netmask (n netmask : Z) (s : nstate) : option (bool * nstate) :=
  v ← nget s n;
  if negb (netmask =? nif_netmask v)
  then s ← nmod s n (nset_netmask netmask); Some (true, s)
  else Some (false, s).

Definition netif_do_set_gw (n gw : Z) (s : nstate) : option (bool * nstate) :=
  v ← nget s n;
  if negb (gw =? nif_gw v)
  then s ← nmod s n (nset_gw gw); Some (true, s)
  else Some (false, s).

Definition addr_or_any (a : option Z) : Z := default IPADDR_ANY a.

Definition netif_set_ipaddr (n : option Z) (ipaddr : option Z) (s : nstate) : option nstate :=
  match n with
  | None => Some s
  | Some n => '(_, s) ← netif_do_set_ipaddr n (addr_or_any ipaddr) s; Some s
  end.

Definition netif_set_netmask (n : option Z) (netmask : option Z) (s : nstate) : option nstate :=
  match n with
  | None => Some s
  | Some n => '(_, s) ← netif_do_set_netmask n (addr_or_any netmask) s; Some s
  end.

Definition netif_set_gw (n : option Z) (gw : option Z) (s : nstate) : option nstate :=
  match n with
  | None => Some s
  | Some n => '(_, s) ← netif_do_set_gw n (addr_or_any gw) s; Some s
  end.

Definition netif_set_addr (n : Z) (ipaddr netmask gw : option Z) (s : nstate) : option nstate :=
  let ipaddr := addr_or_any ipaddr in
  let netmask := addr_or_any netmask in
  let gw := addr_or_any gw in
  let remove := ipaddr =? IPADDR_ANY in
  s ← (if remove then '(_, s) ← netif_do_set_ipaddr n ipaddr s; Some s else Some s);
  '(_, s) ← netif_do_set_netmask n netmask s;
  '(_, s) ← netif_do_set_gw n gw s;
  if negb remove then '(_, s) ← netif_do_set_ipaddr n ipaddr s; Some s else Some s.

(** ** Adding an interface *)

(** The [for] loop over the list: does an interface have the number [num]? *)
Fixpoint num_scan (fuel : nat) (netif2 : option Z) (num : Z) (s : nstate) : option bool :=
  match netif2, fuel with
  | None, _ => Some false
  | Some _, O => None
  | Some n2, S fuel =>
      v2 ← nget s n2;
      if nif_num v2 =? num then Some true else num_scan fuel (nif_next v2) num s
  end.

(** The [do ... while (netif2 != NULL)] loop, which assigns [netif->num]. *)
Fixpoint num_loop (fuel : nat) (n : Z) (s : nstate) : option nstate :=
  match fuel with
  | O => None
  | S fuel =>
      s ← nmod s n (fun v => if nif_num v =? 255 then nset_num 0 v else v);
      v ← nget s n;
      clash ← num_scan (list_fuel s) (netif_list s) (nif_num v) s;
      if (clash : bool) then
        s ← nmod s n (fun v => nset_num (u8 (nif_num v + 1)) v);
        num_loop fuel n s
      else Some s
  end.

(** 255 numbers, and one turn to see that the last one is free. *)
Definition num_fuel : nat := 257.

(** The resets before the [init] callback. *)
Definition netif_reset (state : option Z) (input : option input_fn) (num : Z) (v : netif) : netif :=
  let v := nset_gw 0 (nset_netmask 0 (nset_ip_addr 0 v)) in
  let v := nset_output netif_null_output_ip4 v in
  let v := nset_ip6_addr (replicate LWIP_IPV6_NUM_ADDRESSES ip6_addr_any) v in
  let v := nset_ip6_addr_state (replicate LWIP_IPV6_NUM_ADDRESSES IP6_ADDR_INVALID) v in
  let v := nset_ip6_addr_valid_life (replicate LWIP_IPV6_NUM_ADDRESSES IP6_ADDR_LIFE_STATIC) v in
  let v := nset_ip6_addr_pref_life (replicate LWIP_IPV6_NUM_ADDRESSES IP6_ADDR_LIFE_STATIC) v in
  let v := nset_output_ip6 netif_null_output_ip6 v in
  let v := nset_flags 0 (nset_mtu 0 v) in
  let v := nset_ip6_autoconfig_enabled 0 (nset_client_data None v) in
  let v := nset_rs_count LWIP_ND6_MAX_MULTICAST_SOLICIT v in
  let v := nset_loop_last None (nset_loop_first None (nset_mld_mac_filter None v)) in
  let v := nset_input input (nset_num num (nset_state state v)) in
  nset_loop_cnt_current 0 (nset_hints None v).

(** The result is the returned pointer.  [init] is the driver's callback. *)
Definition netif_add (n : option Z) (ipaddr netmask gw : option Z) (state : option Z)
    (init : option (Z -> nstate -> option (Z * nstate))) (input : option input_fn) (s : nstate)
    : option (option Z * nstate) :=
  match n, init with
  | Some n, Some init =>
      s ← nmod s n (netif_reset state input (netif_num s));
      s ← netif_set_addr n (Some (addr_or_any ipaddr)) (Some (addr_or_any netmask)) (Some (addr_or_any gw)) s;
      '(err, s) ← init n s;
      if negb (err =? ERR_OK) then Some (None, s)
      else
        s ← nmod s n (fun v => nset_mtu6 (nif_mtu v) v);
        s ← num_loop num_fuel n s;
        v ← nget s n;
        let s := set_netif_num (if nif_num v =? 254 then 0 else u8 (nif_num v + 1)) s in
        s ← nmod s n (nset_next (netif_list s));
        Some (Some n, set_list (Some n) s)
  | _, _ => Some (None, s)
  end.

Definition netif_add_noaddr (n : option Z) (state : option Z)
    (init : option (Z -> nstate -> option (Z * nstate))) (input : option input_fn) (s : nstate)
    : option (option Z * nstate) :=
  netif_add n None None None state init input s.

(** ** Removing an interface *)

(** The search for the predecessor of [n]: [Some (Some s)] when it was
    unlinked, [Some None] when the interface is not on the list. *)
Fixpoint unlink_loop (fuel : nat) (tmp_netif : option Z) (n : Z) (s : nstate) : option (option nstate) :=
  match tmp_netif, fuel with
  | None, _ => Some None
  | Some _, O => None
  | Some t, S fuel =>
      vt ← nget s t;
      if bool_decide (nif_next vt = Some n) then
        v ← nget s n;
        s ← nmod s t (nset_next (nif_next v));
        Some (Some s)
      else unlink_loop fuel (nif_next vt) n s
  end.

(** The loop over the IPv6 addresses of [netif_remove]. *)
Fixpoint ip6_removed (addrs : list ip6_addr) (states : list Z) (s : nstate) : nstate :=
  match addrs, states with
  | a :: addrs, st :: states =>
      let s := if negb (st .& IP6_ADDR_VALID =? 0)
               then netif_do_ip_addr_changed (IPADDR_V6 a) None s else s in
      ip6_removed addrs states s
  | _, _ => s
  end.

Definition netif_remove (n : option Z) (s : nstate) : option nstate :=
  match n with
  | None => Some s
  | Some n =>
      v ← nget s n;
      let s := if negb (nif_ip_addr v =? IPADDR_ANY)
               then netif_do_ip_addr_changed (IPADDR_V4 (nif_ip_addr v)) None s else s in
      let s := ip6_removed (nif_ip6_addr v) (nif_ip6_addr_state v) s in
      let s := emit [mld6_stop n] s in
      s ← (if netif_is_up v then netif_set_down (Some n) s else Some s);
      let s := if bool_decide (netif_default s = Some n) then netif_set_default None s else s in
      if bool_decide (netif_list s = Some n) then
        v ← nget s n;
        Some (set_list (nif_next v) s)
      else
        r ← unlink_loop (list_fuel s) (netif_list s) n s;
        match r with
        | Some s => Some s
        | None => Some s
        end
  end.

(** ** IPv6 addresses of an interface *)
Definition netif_ip6_addr (v : netif) (i : Z) : option ip6_addr := nif_ip6_addr v !! Z.to_nat i.

Definition netif_ip6_addr_state (v : netif) (i : Z) : option Z := nif_ip6_addr_state v !! Z.to_nat i.

Definition ip6_addr_isvalid (st : Z) : bool := negb (st .& IP6_ADDR_VALID =? 0).

Definition ip6_addr_isinvalid (st : Z) : bool := st =? IP6_ADDR_INVALID.

(** An index outside of the array is undefined behaviour. *)
Definition ip6_index_ok (i : Z) : bool := (0 <=? i) && (i <? Z.of_nat LWIP_IPV6_NUM_ADDRESSES).

Definition set_ip6_addr (i : Z) (a : ip6_addr) (v : netif) : netif :=
  nset_ip6_addr (<[Z.to_nat i := a]> (nif_ip6_addr v)) v.

Definition set_ip6_state (i st : Z) (v : netif) : netif :=
  nset_ip6_addr_state (<[Z.to_nat i := st]> (nif_ip6_addr_state v)) v.

Definition netif_ip6_addr_set_parts (n addr_idx i0 i1 i2 i3 : Z) (s : nstate) : option nstate :=
  if negb (ip6_index_ok addr_idx) then None
  else
    v ← nget s n;
    old ← netif_ip6_addr v addr_idx;
    st ← netif_ip6_addr_state v addr_idx;
    if negb (addr0 old =? i0) || negb (addr1 old =? i1) || negb (addr2 old =? i2) || negb (addr3 old =? i3)
    then
      let new_ipaddr := ip6_addr_assign_zone (netif_get_index v) (Ip6Addr i0 i1 i2 i3 IP6_NO_ZONE) in
      let s := if ip6_addr_isvalid st
               then netif_do_ip_addr_changed (IPADDR_V6 old) (Some (IPADDR_V6 new_ipaddr)) s else s in
      s ← nmod s n (set_ip6_addr addr_idx new_ipaddr);
      if ip6_addr_isvalid st then netif_issue_reports n NETIF_REPORT_TYPE_IPV6 s else Some s
    else Some s.

Definition netif_ip6_addr_set (n addr_idx : Z) (addr6 : ip6_addr) (s : nstate) : option nstate :=
  netif_ip6_addr_set_parts n addr_idx (addr0 addr6) (addr1 addr6) (addr2 addr6) (addr3 addr6) s.

Definition netif_ip6_addr_set_state (n addr_idx state : Z) (s : nstate) : option nstate :=
  if negb (ip6_index_ok addr_idx) then None
  else
    v ← nget s n;
    old_state ← netif_ip6_addr_state v addr_idx;
    if negb (old_state =? state) then
      let old_valid := ip6_addr_isvalid old_state in
      let new_valid := ip6_addr_isvalid state in
      let s := if flag_set v NETIF_FLAG_MLD6
               then emit [nd6_adjust_mld_membership n addr_idx state] s else s in
      a ← netif_ip6_addr v addr_idx;
      let s := if old_valid && negb new_valid
               then netif_do_ip_addr_changed (IPADDR_V6 a) None s else s in
      s ← nmod s n (set_ip6_state addr_idx state);
      if negb old_valid && new_valid then netif_issue_reports n NETIF_REPORT_TYPE_IPV6 s else Some s
    else Some s.

(** The search loop, from index [i]. *)
Fixpoint ip6_match_loop (addrs : list ip6_addr) (states : list Z) (i : Z) (ip6addr : ip6_addr) : Z :=
  match addrs, states with
  | a :: addrs, st :: states =>
      if negb (ip6_addr_isinvalid st) && ip6_addr_cmp_zoneless a ip6addr then i
      else ip6_match_loop addrs states (i + 1) ip6addr
  | _, _ => -1
  end.

(** [ip6_addr_test_zone] is the comparison of the zone with the interface's
    index when the zone is set. *)
Definition netif_get_ip6_addr_match (v : netif) (ip6addr : ip6_addr) : Z :=
  if negb (zone ip6addr =? IP6_NO_ZONE) && negb (zone ip6addr =? netif_get_index v) then -1
  else ip6_match_loop (nif_ip6_addr v) (nif_ip6_addr_state v) 0 ip6addr.

(** The free-slot loop: the first invalid state at or after [i]. *)
Fixpoint ip6_free_slot (states : list Z) (i start : Z) : option Z :=
  match states with
  | st :: states =>
      if (start <=? i) && ip6_addr_isinvalid st then Some i else ip6_free_slot states (i + 1) start
  | [] => None
  end.

(** Returns the error code and [*chosen_idx]. *)
Definition netif_add_ip6_address (n : Z) (ip6addr : ip6_addr) (s : nstate) : option (Z * Z * nstate) :=
  v ← nget s n;
  let i := netif_get_ip6_addr_match v ip6addr in
  if 0 <=? i then Some (ERR_OK, i, s)
  else
    match ip6_free_slot (nif_ip6_addr_state v) 0 (if ip6_addr_islinklocal ip6addr then 0 else 1) with
    | Some i =>
        s ← nmod s n (set_ip6_addr i (ip6_addr_assign_zone (netif_get_index v) ip6addr));
        s ← netif_ip6_addr_set_state n i IP6_ADDR_TENTATIVE s;
        Some (ERR_OK, i, s)
    | None => Some (ERR_VAL, -1, s)
    end.

(** The loop that packs [hwaddr] into the interface identifier when it is not
    a 48-bit MAC: [w2] and [w3] are words 2 and 3 of the address. *)
Fixpoint linklocal_loop (k : nat) (i : Z) (hwaddr : list Z) (hwaddr_len w2 w3 : Z) : option (Z * Z) :=
  match k with
  | O => Some (w2, w3)
  | S k =>
      if i <? hwaddr_len then
        b ← hwaddr !! Z.to_nat (hwaddr_len - i - 1);
        let part := lwip_htonl (u32 (b .<< (8 * (i .& 3)))) in
        if i <? 4
        then linklocal_loop k (i + 1) hwaddr hwaddr_len w2 (w3 .| part)
        else linklocal_loop k (i + 1) hwaddr hwaddr_len (w2 .| part) w3
      else Some (w2, w3)
  end.

Definition netif_create_ip6_linklocal_address (n : Z) (from_mac_48bit : bool) (s : nstate) : option nstate :=
  v ← nget s n;
  '(w2, w3) ←
    (if from_mac_48bit then
       match nif_hwaddr v with
       | [b0; b1; b2; b3; b4; b5] =>
           Some (lwip_htonl (((u32 (Z.lxor b0 0x02) .<< 24) .| (b1 .<< 16)) .| (b2 .<< 8) .| 0xff),
                 lwip_htonl (((u32 (0xfe .<< 24)) .| (b3 .<< 16)) .| (b4 .<< 8) .| b5))
       | _ => None
       end
     else linklocal_loop 8 0 (nif_hwaddr v) (nif_hwaddr_len v) 0 0);
  s ← nmod s n (set_ip6_addr 0 (ip6_addr_assign_zone (netif_get_index v)
                                  (Ip6Addr (PP_HTONL 0xfe800000) 0 w2 w3 IP6_NO_ZONE)));
  netif_ip6_addr_set_state n 0 IP6_ADDR_TENTATIVE s.

(** ** Looking interfaces up *)
Fixpoint find_loop (fuel : nat) (p : option Z) (test : netif -> bool) (s : nstate) : option (option Z) :=
  match p, fuel with
  | None, _ => Some None
  | Some _, O => None
  | Some n, S fuel =>
      v ← nget s n;
      if test v then Some (Some n) else find_loop fuel (nif_next v) test s
  end.

Definition netif_get_by_index (idx : Z) (s : nstate) : option (option Z) :=
  if negb (idx =? NETIF_NO_INDEX)
  then find_loop (list_fuel s) (netif_list s) (fun v => idx =? netif_get_index v) s
  else Some None.

Definition netif_find (name : option (list Z)) (s : nstate) : option (option Z) :=
  match name with
  | None => Some None
  | Some name =>
      c0 ← name !! 0%nat;
      c1 ← name !! 1%nat;
      let num := u8 (atoi (drop 2 name)) in
      find_loop (list_fuel s) (netif_list s)
        (fun v => (num =? nif_num v) && (c0 =? (nif_name v).1) && (c1 =? (nif_name v).2)) s
  end.

Definition netif_name_to_index (name : option (list Z)) (s : nstate) : option Z :=
  r ← netif_find name s;
  match r with
  | Some n => v ← nget s n; Some (netif_get_index v)
  | None => Some NETIF_NO_INDEX
  end.

(** [name] is the caller's buffer; the result is the buffer, or NULL. *)
Definition netif_index_to_name (idx : Z) (name : list Z) (s : nstate) : option (option (list Z)) :=
  r ← netif_get_by_index idx s;
  match r with
  | Some n =>
      v ← nget s n;
      name ← mem_write name 0 [(nif_name v).1; (nif_name v).2];
      text ← lwip_itoa (zdrop 2 name) (NETIF_NAMESIZE - 2) (idx - 1);
      Some (Some (ztake 2 name ++ text))
  | None => Some None
  end.

(** ** The loopback interface *)
Definition loop_netif : Z := 0.

Definition netif_loopif_init (n : Z) (s : nstate) : option (Z * nstate) :=
  s ← nmod s n (fun v => nset_output_ip6 netif_loop_output_ipv6
                           (nset_output netif_loop_output_ipv4 (nset_name (108, 111) v)));
  Some (ERR_OK, s).

Definition netif_init (s : nstate) : option nstate :=
  '(_, s) ← netif_add (Some loop_netif) (Some (IP4_ADDR 127 0 0 1)) (Some (IP4_ADDR 255 0 0 0))
              (Some (IP4_ADDR 127 0 0 1)) None (Some netif_loopif_init) (Some tcpip_input) s;
  s ← nmod s loop_netif (fun v => set_ip6_state 0 IP6_ADDR_VALID
                                    (set_ip6_addr 0 (Ip6Addr 0 0 0 (PP_HTONL 0x00000001) IP6_NO_ZONE) v));
  s ← netif_set_link_up (Some loop_netif) s;
  netif_set_up (Some loop_netif) s.
