(* ===== verification/NetifThm.v ===== *)
(** The interface list: its invariant, and what the operations of [netif.c]
    do to it.
    At the end, what [netif.c] promises. *)
From S2P Require Import Prelude Bits Def IpAddr Pbuf NetifRec Netif.

(** ** The list invariant *)
Fixpoint nlist (s : nstate) (p : option Z) (l : list Z) : Prop :=
  match l with
  | [] => p = None
  | n :: l => p = Some n /\ exists v, nget s n = Some v /\ nlist s (nif_next v) l
  end.

(** The number of the interface at [n]. *)
Definition num_at (s : nstate) (n : Z) : Z := default (-1) (nif_num <$> nget s n).

(** The invariant of the module: the list is a list, the numbers are distinct
    and below 255 (so that number + 1 is an index that fits a byte), and the
    default interface is on the list. *)
Record netifs_ok (s : nstate) (l : list Z) : Prop := NetifsOk {
  nok_list : nlist s (netif_list s) l;
  nok_nodup : NoDup l;
  nok_nums : NoDup (num_at s <$> l);
  nok_range : Forall (fun n => 0 <= num_at s n < 255) l;
  nok_default : match netif_default s with Some d => d ∈ l | None => True end;
  nok_next_num : 0 <= netif_num s < 255;
}.

Lemma nget_put_eq s n v : nget (nput s n v) n = Some v.
Proof. apply lookup_insert_eq. Qed.

Lemma nget_put_ne s n m v : n <> m -> nget (nput s n v) m = nget s m.
Proof. intros; by apply lookup_insert_ne. Qed.

Lemma nlist_frame s s' p l :
  (forall n, n ∈ l -> nif_next <$> nget s' n = nif_next <$> nget s n) -> nlist s p l -> nlist s' p l.
Proof.
  revert p; induction l as [|n l IH]; intros p Hf; [done|]. intros (-> & v & Hv & Hl). split; [done|].
  specialize (Hf n ltac:(set_solver)) as Hn. rewrite Hv in Hn; cbn in Hn.
  destruct (nget s' n) as [v'|] eqn:Hv'; [|done]. injection Hn as Hn.
  exists v'; split; [done|]. rewrite Hn. apply IH; [|done]. intros; apply Hf; set_solver.
Qed.

Lemma nlist_length s p l : nlist s p l -> NoDup l -> (length l < list_fuel s)%nat.
Proof.
  intros Hl Hn. unfold list_fuel. assert (length l <= size (ns_mem s))%nat; [|lia].
  rewrite <- size_dom, <- (size_list_to_set (C := gset Z)) by done. apply subseteq_size.
  intros n Hin. apply elem_of_list_to_set in Hin. apply elem_of_dom.
  clear Hn. revert p Hl; induction l as [|m l IH]; intros p; [set_solver|].
  intros (_ & v & Hv & Hl). apply elem_of_cons in Hin as [->|Hin]; [by eexists|]. by eapply IH.
Qed.

Lemma nlist_get s p l n : nlist s p l -> n ∈ l -> exists v, nget s n = Some v.
Proof.
  revert p; induction l as [|m l IH]; intros p; [set_solver|].
  intros (_ & v & Hv & Hl) [->|Hin]%elem_of_cons; [by eexists|]. by eapply IH.
Qed.

Lemma num_at_get s n v : nget s n = Some v -> num_at s n = nif_num v.
Proof. unfold num_at; by intros ->. Qed.

(** ** Operations that touch one interface

    [touched n s s' v v']: the step from [s] to [s'] changes only the
    interface at [n], from [v] to [v'], and neither its place on the list nor
    its number. *)
Record touched (n : Z) (s s' : nstate) (v v' : netif) : Prop := Touched {
  t_get : nget s n = Some v;
  t_mem : ns_mem s' = <[n := v']> (ns_mem s);
  t_list : netif_list s' = netif_list s;
  t_default : netif_default s' = netif_default s;
  t_num : netif_num s' = netif_num s;
  t_next : nif_next v' = nif_next v;
  t_nnum : nif_num v' = nif_num v;
}.

Lemma touched_refl n s v : nget s n = Some v -> touched n s s v v.
Proof. intros H; constructor; try done. cbn. by rewrite insert_id. Qed.

Lemma touched_get n s s' v v' : touched n s s' v v' -> nget s' n = Some v'.
Proof. intros []. unfold nget. rewrite t_mem0. apply lookup_insert_eq. Qed.

Lemma touched_trans n s1 s2 s3 v1 v2 v3 :
  touched n s1 s2 v1 v2 -> touched n s2 s3 v2 v3 -> touched n s1 s3 v1 v3.
Proof.
  intros [] []; constructor; try congruence.
  rewrite t_mem1, t_mem0. apply insert_insert_eq.
Qed.

Lemma touched_emit n s s' v v' e : touched n s s' v v' -> touched n s (emit e s') v v'.
Proof. by intros []. Qed.

Lemma touched_nput n s v v' :
  nget s n = Some v -> nif_next v' = nif_next v -> nif_num v' = nif_num v -> touched n s (nput s n v') v v'.
Proof. by constructor. Qed.

Lemma touched_ok n s s' v v' l : touched n s s' v v' -> netifs_ok s l -> netifs_ok s' l.
Proof.
  intros [] [].
  assert (Hnum : forall m, num_at s' m = num_at s m).
  { intros m; unfold num_at, nget. rewrite t_mem0. destruct (decide (n = m)) as [<-|].
    - unfold nget in t_get0. rewrite lookup_insert_eq, t_get0; cbn; congruence.
    - by rewrite lookup_insert_ne. }
  constructor; try congruence.
  - rewrite t_list0. eapply nlist_frame; [|done]. intros m _. unfold nget. rewrite t_mem0.
    destruct (decide (n = m)) as [<-|]; [|by rewrite lookup_insert_ne].
    unfold nget in t_get0. rewrite lookup_insert_eq, t_get0; cbn; congruence.
  - erewrite list_fmap_ext; [exact nok_nums0|]. intros; apply Hnum.
  - eapply Forall_impl; [done|]. intros m; by rewrite Hnum.
  - by rewrite t_default0.
Qed.

Create HintDb netif.

#[export] Hint Resolve touched_refl touched_emit : netif.

(** ** Status flags *)
Definition reports (n report_type : Z) (v : netif) : list nevent :=
  if flag_set v NETIF_FLAG_LINK_UP && flag_set v NETIF_FLAG_UP then
    (if negb (report_type .& NETIF_REPORT_TYPE_IPV4 =? 0) && negb (nif_ip_addr v =? IPADDR_ANY)
        && flag_set v NETIF_FLAG_ETHARP then [etharp_gratuitous n] else []) ++
    (if negb (report_type .& NETIF_REPORT_TYPE_IPV6 =? 0) then [mld6_report_groups n] else [])
  else [].

Lemma emit_emit e1 e2 s : emit e2 (emit e1 s) = emit (e1 ++ e2) s.
Proof. unfold emit; cbn. by rewrite app_assoc. Qed.

Lemma emit_nil s : emit [] s = s.
Proof. destruct s; unfold emit; cbn. by rewrite app_nil_r. Qed.

Lemma netif_issue_reports_eq n t s v :
  nget s n = Some v -> netif_issue_reports n t s = Some (emit (reports n t v) s).
Proof.
  intros Hv. unfold netif_issue_reports, reports. rewrite Hv; cbn [mbind option_bind].
  destruct (flag_set v NETIF_FLAG_LINK_UP); cbn [negb orb andb]; [|by rewrite emit_nil].
  destruct (flag_set v NETIF_FLAG_UP); cbn [negb]; [|by rewrite emit_nil].
  destruct (negb (t .& NETIF_REPORT_TYPE_IPV4 =? 0) && negb (nif_ip_addr v =? IPADDR_ANY));
    destruct (flag_set v NETIF_FLAG_ETHARP); destruct (negb (t .& NETIF_REPORT_TYPE_IPV6 =? 0));
    cbn [andb app]; by rewrite ?emit_emit, ?emit_nil.
Qed.

Lemma nmod_eq s n f v : nget s n = Some v -> nmod s n f = Some (nput s n (f v)).
Proof. unfold nmod; by intros ->. Qed.

Lemma emit_nput e s n v : emit e (nput s n v) = nput (emit e s) n v.
Proof. done. Qed.

Lemma nput_nput s n v v' : nput (nput s n v) n v' = nput s n v'.
Proof. unfold nput; cbn. by rewrite insert_insert_eq. Qed.

Lemma nget_emit e s n : nget (emit e s) n = nget s n.
Proof. done. Qed.

Create Rewrite HintDb nstate.
#[export] Hint Rewrite nget_put_eq nput_nput nget_emit emit_emit emit_nil : nstate.

(** What [netif_set_up] and [netif_set_link_up] make of an interface. *)
Definition upped (flag : Z) (v : netif) : netif :=
  if flag_set v flag then v else nset_rs_count LWIP_ND6_MAX_MULTICAST_SOLICIT (netif_set_flags flag v).

Definition up_events (flag n : Z) (v : netif) : list nevent :=
  if flag_set v flag then [] else reports n 3 (netif_set_flags flag v).

Lemma nput_id s n v : nget s n = Some v -> nput s n v = s.
Proof. destruct s; unfold nput, nget; cbn; intros; by rewrite insert_id. Qed.

Lemma netif_set_up_eq n s v :
  nget s n = Some v ->
  netif_set_up (Some n) s = Some (emit (up_events NETIF_FLAG_UP n v) (nput s n (upped NETIF_FLAG_UP v))).
Proof.
  intros Hv. unfold netif_set_up, up_events, upped. rewrite Hv; cbn [mbind option_bind].
  destruct (flag_set v NETIF_FLAG_UP); cbn [negb]; [by rewrite emit_nil, nput_id|].
  erewrite nmod_eq by done; cbn [mbind option_bind].
  erewrite netif_issue_reports_eq by apply nget_put_eq; cbn [mbind option_bind].
  unfold nd6_restart_netif. erewrite nmod_eq by (rewrite nget_emit; apply nget_put_eq).
  by rewrite !emit_nput, nput_nput.
Qed.

Lemma netif_set_link_up_eq n s v :
  nget s n = Some v ->
  netif_set_link_up (Some n) s =
    Some (emit (up_events NETIF_FLAG_LINK_UP n v) (nput s n (upped NETIF_FLAG_LINK_UP v))).
Proof.
  intros Hv. unfold netif_set_link_up, up_events, upped. rewrite Hv; cbn [mbind option_bind].
  destruct (flag_set v NETIF_FLAG_LINK_UP); cbn [negb]; [by rewrite emit_nil, nput_id|].
  erewrite nmod_eq by done; cbn [mbind option_bind].
  erewrite netif_issue_reports_eq by apply nget_put_eq; cbn [mbind option_bind].
  unfold nd6_restart_netif. erewrite nmod_eq by (rewrite nget_emit; apply nget_put_eq).
  by rewrite !emit_nput, nput_nput.
Qed.

Definition downed (v : netif) : netif :=
  if flag_set v NETIF_FLAG_UP then netif_clear_flags NETIF_FLAG_UP v else v.

Definition down_events (n : Z) (v : netif) : list nevent :=
  if flag_set v NETIF_FLAG_UP then
    (if flag_set (downed v) NETIF_FLAG_ETHARP then [etharp_cleanup_netif n] else []) ++ [nd6_cleanup_netif n]
  else [].

Lemma netif_set_down_eq n s v :
  nget s n = Some v ->
  netif_set_down (Some n) s = Some (emit (down_events n v) (nput s n (downed v))).
Proof.
  intros Hv. unfold netif_set_down, down_events, downed. rewrite Hv; cbn [mbind option_bind].
  destruct (flag_set v NETIF_FLAG_UP); [|by rewrite emit_nil, nput_id].
  erewrite nmod_eq by done; cbn [mbind option_bind]. rewrite nget_put_eq; cbn [mbind option_bind].
  destruct (flag_set _ NETIF_FLAG_ETHARP); by rewrite ?emit_emit.
Qed.

Definition link_downed (v : netif) : netif :=
  if flag_set v NETIF_FLAG_LINK_UP
  then let v := netif_clear_flags NETIF_FLAG_LINK_UP v in nset_mtu6 (nif_mtu v) v else v.

Lemma netif_set_link_down_eq n s v :
  nget s n = Some v -> netif_set_link_down (Some n) s = Some (nput s n (link_downed v)).
Proof.
  intros Hv. unfold netif_set_link_down, link_downed. rewrite Hv; cbn [mbind option_bind].
  destruct (flag_set v NETIF_FLAG_LINK_UP); [|by rewrite nput_id].
  erewrite nmod_eq by done; cbn [mbind option_bind]. erewrite nmod_eq by apply nget_put_eq.
  by rewrite nput_nput.
Qed.

(** ** IPv4 configuration *)
Definition addr_events (n ipaddr : Z) (v : netif) : list nevent :=
  if ipaddr =? nif_ip_addr v then []
  else [tcp_netif_ip_addr_changed (IPADDR_V4 (nif_ip_addr v)) (Some (IPADDR_V4 ipaddr));
        udp_netif_ip_addr_changed (IPADDR_V4 (nif_ip_addr v)) (Some (IPADDR_V4 ipaddr))]
       ++ reports n NETIF_REPORT_TYPE_IPV4 (nset_ip_addr ipaddr v).

Lemma nset_same_ip v : nset_ip_addr (nif_ip_addr v) v = v.
Proof. by destruct v. Qed.

Lemma netif_do_set_ipaddr_eq n a s v :
  nget s n = Some v ->
  netif_do_set_ipaddr n a s =
    Some (negb (a =? nif_ip_addr v), emit (addr_events n a v) (nput s n (nset_ip_addr a v))).
Proof.
  intros Hv. unfold netif_do_set_ipaddr, addr_events. rewrite Hv; cbn [mbind option_bind].
  destruct (Z.eqb_spec a (nif_ip_addr v)) as [->|]; cbn [negb].
  { by rewrite emit_nil, nset_same_ip, nput_id. }
  unfold netif_do_ip_addr_changed. erewrite nmod_eq by done; cbn [mbind option_bind].
  erewrite netif_issue_reports_eq by apply nget_put_eq; cbn [mbind option_bind].
  by rewrite <- emit_nput, emit_emit.
Qed.

Lemma netif_do_set_netmask_eq n a s v :
  nget s n = Some v ->
  netif_do_set_netmask n a s = Some (negb (a =? nif_netmask v), nput s n (nset_netmask a v)).
Proof.
  intros Hv. unfold netif_do_set_netmask. rewrite Hv; cbn [mbind option_bind].
  destruct (Z.eqb_spec a (nif_netmask v)) as [->|]; cbn [negb].
  - replace (nset_netmask (nif_netmask v) v) with v by by destruct v. by rewrite nput_id.
  - by erewrite nmod_eq.
Qed.

Lemma netif_do_set_gw_eq n a s v :
  nget s n = Some v ->
  netif_do_set_gw n a s = Some (negb (a =? nif_gw v), nput s n (nset_gw a v)).
Proof.
  intros Hv. unfold netif_do_set_gw. rewrite Hv; cbn [mbind option_bind].
  destruct (Z.eqb_spec a (nif_gw v)) as [->|]; cbn [negb].
  - replace (nset_gw (nif_gw v) v) with v by by destruct v. by rewrite nput_id.
  - by erewrite nmod_eq.
Qed.

Definition addressed (a m g : Z) (v : netif) : netif := nset_gw g (nset_netmask m (nset_ip_addr a v)).

Lemma addr_events_cfg n a m g v :
  addr_events n a (nset_gw g (nset_netmask m v)) = addr_events n a v.
Proof. done. Qed.

(** The events do not depend on the order in which address, mask and gateway
    are set: the order only matters to what the callees find in the interface. *)
Lemma netif_set_addr_eq n a m g s v :
  nget s n = Some v ->
  netif_set_addr n (Some a) (Some m) (Some g) s =
    Some (emit (addr_events n a v) (nput s n (addressed a m g v))).
Proof.
  intros Hv. unfold netif_set_addr, addr_or_any, addressed; cbn [default from_option]; unfold id.
  destruct (Z.eqb_spec a IPADDR_ANY) as [->|]; cbn [negb mbind option_bind].
  - erewrite netif_do_set_ipaddr_eq by done; cbn [mbind option_bind].
    erewrite netif_do_set_netmask_eq by (rewrite nget_emit; apply nget_put_eq); cbn [mbind option_bind].
    erewrite netif_do_set_gw_eq by apply nget_put_eq; cbn [mbind option_bind].
    by rewrite !emit_nput, !nput_nput.
  - erewrite netif_do_set_netmask_eq by done; cbn [mbind option_bind].
    erewrite netif_do_set_gw_eq by apply nget_put_eq; cbn [mbind option_bind].
    erewrite netif_do_set_ipaddr_eq by apply nget_put_eq; cbn [mbind option_bind].
    by rewrite !nput_nput.
Qed.

(** ** Interface numbers *)
Lemma num_scan_ok s p l k fuel :
  nlist s p l -> (length l < fuel)%nat ->
  num_scan fuel p k s = Some (bool_decide (k ∈ num_at s <$> l)).
Proof.
  revert p fuel; induction l as [|n l IH]; intros p fuel Hl Hf.
  - cbn in Hl; subst p. destruct fuel; [done|]. cbn. by rewrite bool_decide_eq_false_2 by set_solver.
  - destruct Hl as (-> & v & Hv & Hl). destruct fuel as [|fuel]; [cbn in Hf; lia|]. cbn [num_scan].
    rewrite Hv; cbn [mbind option_bind fmap list_fmap]. rewrite (num_at_get _ _ _ Hv).
    destruct (Z.eqb_spec (nif_num v) k) as [<-|Hne].
    + by rewrite bool_decide_eq_true_2 by set_solver.
    + rewrite IH by (auto; cbn in Hf; lia). f_equal. apply bool_decide_ext. set_solver.
Qed.

Definition norm_num (k : Z) : Z := if k =? 255 then 0 else k.

Lemma num_at_nput_ne s n v m : n <> m -> num_at (nput s n v) m = num_at s m.
Proof. intros; unfold num_at; by rewrite nget_put_ne. Qed.

Lemma nlist_nput_off s n v p l : n ∉ l -> nlist s p l -> nlist (nput s n v) p l.
Proof. intros Hn; apply nlist_frame. intros m Hm. rewrite nget_put_ne; [done|]. set_solver. Qed.

Lemma nums_nput_off s n v (l : list Z) : n ∉ l -> num_at (nput s n v) <$> l = num_at s <$> l.
Proof.
  intros Hn. apply list_fmap_ext. intros i m Hi. apply num_at_nput_ne.
  intros <-. apply Hn. by eapply list_elem_of_lookup_2.
Qed.

(** The search for a free number succeeds if one lies within [fuel] steps. *)
Lemma num_loop_ok n l : forall fuel s v j,
  nget s n = Some v -> n ∉ l -> NoDup l -> nlist s (netif_list s) l -> 0 <= nif_num v <= 255 ->
  0 <= j < Z.of_nat fuel -> (norm_num (nif_num v) + j) mod 255 ∉ num_at s <$> l ->
  exists k, num_loop fuel n s = Some (nput s n (nset_num k v)) /\
    0 <= k < 255 /\ k ∉ num_at s <$> l.
Proof.
  induction fuel as [|fuel IH]; intros s v j Hv Hn Hd Hl Hr Hj Hfree; [lia|].
  cbn [num_loop]. erewrite nmod_eq by done; cbn [mbind option_bind].
  rewrite nget_put_eq; cbn [mbind option_bind].
  set (v1 := if nif_num v =? 255 then nset_num 0 v else v).
  assert (Hv1 : v1 = nset_num (norm_num (nif_num v)) v).
  { unfold v1, norm_num. destruct (nif_num v =? 255); [done|]. by destruct v. }
  set (k := norm_num (nif_num v)) in *.
  assert (Hk : 0 <= k < 255) by (unfold k, norm_num; zbool).
  rewrite Hv1. cbn [nif_num nset_num].
  assert (Hl1 : nlist (nput s n (nset_num k v)) (netif_list s) l) by by apply nlist_nput_off.
  rewrite (num_scan_ok _ _ l) by first [exact Hl1|eapply nlist_length; [exact Hl1|done]].
  rewrite nums_nput_off by done. cbn [mbind option_bind].
  destruct (decide (k ∈ num_at s <$> l)) as [Hin|Hin].
  - rewrite bool_decide_eq_true_2 by done. erewrite nmod_eq by apply nget_put_eq. cbn [mbind option_bind].
    rewrite nput_nput. cbn [nif_num nset_num]. rewrite (u8_small (k + 1)) by lia.
    assert (j <> 0).
    { intros ->. rewrite Z.add_0_r, Z.mod_small in Hfree by lia. done. }
    destruct (IH (nput s n (nset_num (k + 1) (nset_num k v))) (nset_num (k + 1) (nset_num k v)) (j - 1))
      as (k' & -> & ? & ?); auto.
    + apply nget_put_eq.
    + by apply nlist_nput_off.
    + cbn; lia.
    + lia.
    + rewrite nums_nput_off by done. cbn [nif_num nset_num].
      replace ((norm_num (k + 1) + (j - 1)) mod 255) with ((k + j) mod 255); [done|].
      unfold norm_num. destruct (Z.eqb_spec (k + 1) 255); [|f_equal; lia].
      replace (k + j) with (0 + (j - 1) + 1 * 255) by lia. apply Z.mod_add; lia.
    + exists k'. rewrite nums_nput_off in * by done. rewrite nput_nput. done.
  - rewrite bool_decide_eq_false_2 by done. exists k. done.
Qed.

(** Fewer than 255 numbers leave one free. *)
Lemma free_number (used : list Z) : (length used < 255)%nat -> exists k, 0 <= k < 255 /\ k ∉ used.
Proof.
  intros Hlen. destruct (decide (Exists (fun k => k ∉ used) (seqZ 0 255))) as [He|He].
  - apply Exists_exists in He as (k & Hin & Hk). exists k; split; [|done].
    apply elem_of_seqZ in Hin; lia.
  - exfalso. assert (seqZ 0 255 ⊆+ used).
    { apply NoDup_submseteq; [apply NoDup_seqZ|]. intros k Hin. destruct (decide (k ∈ used)); [done|].
      exfalso; apply He, Exists_exists; eauto. }
    apply submseteq_length in H. rewrite length_seqZ in H. lia.
Qed.

Lemma num_loop_total n l s v :
  nget s n = Some v -> n ∉ l -> NoDup l -> nlist s (netif_list s) l -> 0 <= nif_num v <= 255 ->
  (length l < 255)%nat ->
  exists k, num_loop num_fuel n s = Some (nput s n (nset_num k v)) /\ 0 <= k < 255 /\ k ∉ num_at s <$> l.
Proof.
  intros Hv Hn Hd Hl Hr Hlen. destruct (free_number (num_at s <$> l)) as (k & Hk & Hf).
  { by rewrite length_fmap. }
  apply (num_loop_ok n l num_fuel s v ((k - norm_num (nif_num v)) mod 255)); auto.
  - pose proof (Z.mod_pos_bound (k - norm_num (nif_num v)) 255). unfold num_fuel; lia.
  - rewrite Zplus_mod_idemp_r. replace (norm_num (nif_num v) + (k - norm_num (nif_num v))) with k by lia.
    by rewrite Z.mod_small by lia.
Qed.

(** An interface that is already on the list always clashes with itself. *)
Lemma num_loop_listed n l : forall fuel s v,
  nget s n = Some v -> n ∈ l -> NoDup l -> nlist s (netif_list s) l -> num_loop fuel n s = None.
Proof.
  induction fuel as [|fuel IH]; intros s v Hv Hn Hd Hl; [done|]. cbn [num_loop].
  erewrite nmod_eq by done; cbn [mbind option_bind]. rewrite nget_put_eq; cbn [mbind option_bind].
  set (v1 := if nif_num v =? 255 then _ else _).
  assert (Hf : forall w, nif_next w = nif_next v -> nlist (nput s n w) (netif_list s) l).
  { intros w Hw. eapply nlist_frame; [|exact Hl]. intros m _. destruct (decide (n = m)) as [<-|].
    - by rewrite nget_put_eq, Hv; cbn; rewrite Hw.
    - by rewrite nget_put_ne. }
  assert (Hv1 : nif_next v1 = nif_next v) by (unfold v1; by destruct (nif_num v =? 255)).
  rewrite (num_scan_ok _ _ l) by first [exact (Hf v1 Hv1)|eapply nlist_length; [exact (Hf v1 Hv1)|done]].
  cbn [mbind option_bind]. rewrite bool_decide_eq_true_2; cycle 1.
  { apply list_elem_of_fmap. exists n; split; [|done]. unfold num_at. by rewrite nget_put_eq. }
  erewrite nmod_eq by apply nget_put_eq. cbn [mbind option_bind]. rewrite nput_nput.
  eapply IH; [apply nget_put_eq|done|done|]. apply Hf. done.
Qed.

(** ** Adding *)

(** What [netif_add] needs of a driver's [init] callback, for interfaces whose
    [state] pointer is [st]; [Q] is what the driver makes true of the
    interface, whatever its place on the list and its number. *)
Class NetifDriver (st : option Z) (init : Z -> nstate -> option (Z * nstate)) (Q : netif -> Prop) : Prop := {
  driver_ok : forall n s v, nget s n = Some v -> nif_state v = st ->
    exists s' v', init n s = Some (ERR_OK, s') /\ touched n s s' v v' /\ Q v' /\
      nif_ip_addr v' = nif_ip_addr v /\ nif_netmask v' = nif_netmask v /\ nif_gw v' = nif_gw v /\
      nif_state v' = nif_state v /\ nif_input v' = nif_input v;
  driver_stable : forall v m k p, Q v -> Q (nset_next p (nset_num k (nset_mtu6 m v)));
}.

#[export] Instance loopif_driver st :
  NetifDriver st netif_loopif_init (fun v => nif_name v = (108, 111) /\ nif_output v = netif_loop_output_ipv4).
Proof.
  split; [|done]. intros n s v Hv _. unfold netif_loopif_init. erewrite nmod_eq by done; cbn [mbind option_bind].
  do 2 eexists; split; [done|]. split; [by apply touched_nput|done].
Qed.

(** The interface is put at the head of the list with the number [k]. *)
Lemma netifs_ok_cons s s' n v l k :
  netifs_ok s l -> n ∉ l -> (forall m, m <> n -> nget s' m = nget s m) ->
  nget s' n = Some v -> nif_num v = k -> nif_next v = netif_list s -> netif_list s' = Some n ->
  netif_default s' = netif_default s -> 0 <= netif_num s' < 255 ->
  0 <= k < 255 -> k ∉ num_at s <$> l -> netifs_ok s' (n :: l).
Proof.
  intros [] Hn Hoff Hv Hk Hnext Hlist Hdef Hnn Hr Hfree.
  assert (Hoff' : forall m, m ∈ l -> nget s' m = nget s m) by (intros; apply Hoff; set_solver).
  assert (Hnums : num_at s' <$> l = num_at s <$> l).
  { apply list_fmap_ext. intros i m Hi. unfold num_at. rewrite Hoff'; [done|]. by eapply list_elem_of_lookup_2. }
  constructor; auto.
  - rewrite Hlist. split; [done|]. exists v; split; [done|]. rewrite Hnext.
    eapply nlist_frame; [|done]. intros m Hm; by rewrite Hoff'.
  - by constructor.
  - cbn. rewrite Hnums, (num_at_get _ _ _ Hv), Hk. by constructor.
  - constructor; [by rewrite (num_at_get _ _ _ Hv), Hk|].
    apply Forall_forall. intros m Hm. unfold num_at. rewrite Hoff' by done.
    by eapply (proj1 (Forall_forall _ _) nok_range0).
  - rewrite Hdef. destruct (netif_default s); set_solver.
Qed.

Lemma touched_off n s s' v v' m : touched n s s' v v' -> m <> n -> nget s' m = nget s m.
Proof. intros [] Hne. unfold nget. rewrite t_mem0. by apply lookup_insert_ne. Qed.

Lemma netif_add_ok st init Q `{!NetifDriver st init Q} s l n v0 a m g inp :
  netifs_ok s l -> nget s n = Some v0 -> n ∉ l -> (length l < 255)%nat ->
  exists s' v', netif_add (Some n) a m g st (Some init) inp s = Some (Some n, s') /\
    netifs_ok s' (n :: l) /\ nget s' n = Some v' /\ Q v' /\
    nif_ip_addr v' = addr_or_any a /\ nif_netmask v' = addr_or_any m /\ nif_gw v' = addr_or_any g /\
    nif_state v' = st /\ nif_input v' = inp /\ nif_mtu6 v' = nif_mtu v' /\
    netif_default s' = netif_default s /\ (forall k, k <> n -> nget s' k = nget s k).
Proof.
  intros Hok Hv0 Hn Hlen. unfold netif_add.
  erewrite nmod_eq by done; cbn [mbind option_bind].
  set (v1 := netif_reset st inp (netif_num s) v0).
  erewrite netif_set_addr_eq by apply nget_put_eq; cbn [mbind option_bind].
  rewrite nput_nput. set (v2 := addressed _ _ _ v1). set (s2 := emit _ _).
  assert (Hv2 : nget s2 n = Some v2) by apply nget_put_eq.
  destruct (driver_ok n s2 v2 Hv2 eq_refl) as (s3 & v3 & -> & Ht & HQ & E1 & E2 & E3 & E4 & E5).
  cbn [mbind option_bind]. destruct (Z.eqb_spec ERR_OK ERR_OK); [|done]. cbn [negb].
  pose proof (touched_get _ _ _ _ _ Ht) as Hv3.
  erewrite nmod_eq by done; cbn [mbind option_bind]. set (v4 := nset_mtu6 (nif_mtu v3) v3).
  destruct Hok as [HL HD HN HR Hdef Hnn]. pose proof (NetifsOk _ _ HL HD HN HR Hdef Hnn) as Hok.
  assert (Hoff : forall k, k <> n -> nget s3 k = nget s k).
  { intros k Hk. rewrite (touched_off _ _ _ _ _ k Ht Hk). by apply nget_put_ne. }
  assert (HL3 : nlist (nput s3 n v4) (netif_list (nput s3 n v4)) l).
  { apply nlist_nput_off; [done|]. cbn. rewrite (t_list _ _ _ _ _ Ht).
    eapply nlist_frame; [|exact HL]. intros k Hk. rewrite Hoff; [done|]. set_solver. }
  destruct (num_loop_total n l (nput s3 n v4) v4) as (k & -> & Hk & Hfree); auto.
  { apply nget_put_eq. }
  { cbn. rewrite (t_nnum _ _ _ _ _ Ht). cbn. lia. }
  cbn [mbind option_bind]. rewrite nput_nput, nget_put_eq; cbn [mbind option_bind nif_num nset_num].
  erewrite nmod_eq by apply nget_put_eq; cbn [mbind option_bind].
  do 2 eexists; split; [done|].
  rewrite nums_nput_off in Hfree by done.
  assert (Hf : k ∉ num_at s <$> l).
  { erewrite list_fmap_ext in Hfree; [exact Hfree|]. intros i x Hi. unfold num_at. rewrite Hoff; [done|].
    intros ->. apply Hn. by eapply list_elem_of_lookup_2. }
  pose proof (t_default _ _ _ _ _ Ht) as Hd3. pose proof (t_list _ _ _ _ _ Ht) as Hl3.
  split; [|split; [apply nget_put_eq|]].
  - eapply (netifs_ok_cons s _ n _ l k); try done.
    + intros x Hx. unfold nget; cbn. rewrite !lookup_insert_ne by done. by apply Hoff.
    + apply nget_put_eq.
    + done.
    + cbn. by rewrite Hl3.
    + cbn -[u8]. destruct (Z.eqb_spec k 254); [lia|]. rewrite u8_small; lia.
  - split; [by apply (driver_stable v3)|]. cbn. rewrite E1, E2, E3, E4, E5. split_and!; try done.
    intros x Hx. unfold nget; cbn. rewrite !lookup_insert_ne by done. by apply Hoff.
Qed.

(** [netif_add] of a listed interface does not get past the numbering. *)
Lemma netif_add_listed st init Q `{!NetifDriver st init Q} s l n v0 a m g inp :
  nlist s (netif_list s) l -> NoDup l -> nget s n = Some v0 -> n ∈ l ->
  netif_add (Some n) a m g st (Some init) inp s = None.
Proof.
  intros HL HD Hv0 Hn. unfold netif_add.
  erewrite nmod_eq by done; cbn [mbind option_bind].
  set (v1 := netif_reset st inp (netif_num s) v0).
  erewrite netif_set_addr_eq by apply nget_put_eq; cbn [mbind option_bind].
  rewrite nput_nput. set (v2 := addressed _ _ _ v1). set (s2 := emit _ _).
  assert (Hv2 : nget s2 n = Some v2) by apply nget_put_eq.
  destruct (driver_ok n s2 v2 Hv2 eq_refl) as (s3 & v3 & -> & Ht & _).
  cbn [mbind option_bind]. change (negb (ERR_OK =? ERR_OK)) with false. cbn iota.
  pose proof (touched_get _ _ _ _ _ Ht) as Hv3.
  erewrite nmod_eq by done; cbn [mbind option_bind].
  erewrite (num_loop_listed n l); [done|apply nget_put_eq|done|done|].
  change (netif_list (nput s3 n _)) with (netif_list s3). rewrite (t_list _ _ _ _ _ Ht).
  eapply nlist_frame; [|exact HL]. intros k _. destruct (decide (n = k)) as [<-|Hne].
  - rewrite nget_put_eq, Hv0. cbn. by rewrite (t_next _ _ _ _ _ Ht).
  - rewrite nget_put_ne by done. rewrite (touched_off _ _ _ _ _ k Ht) by done. unfold s2. by rewrite nget_emit, nget_put_ne.
Qed.

(** Clearing a listed interface cuts the list after it. *)
Lemma nlist_cut s n v : forall l p, nif_next v = None -> nlist s p l -> NoDup l -> n ∈ l ->
  exists l', nlist (nput s n v) p l' /\ NoDup l' /\ n ∈ l' /\ l' ⊆ l.
Proof.
  induction l as [|m l IH]; intros p Hv HL HD Hn; [by apply elem_of_nil in Hn|].
  cbn in HL. destruct HL as [-> (w & Hw & HL)]. apply NoDup_cons in HD as [Hm HD].
  destruct (decide (m = n)) as [->|Hne].
  - exists [n]. split_and!; [|apply NoDup_singleton|by left|set_solver].
    split; [done|]. exists v. split; [apply nget_put_eq|]. by rewrite Hv.
  - destruct (IH (nif_next w) Hv HL HD) as (l' & HL' & HD' & Hn' & Hsub); [set_solver|].
    exists (m :: l'). split_and!; [|constructor; [set_solver|done]|by right|set_solver].
    split; [done|]. exists w. split; [by rewrite nget_put_ne|done].
Qed.

(** ** Removing *)
Lemma unlink_ok s n t post : forall pre p fuel,
  nlist s p (pre ++ t :: n :: post) -> NoDup (pre ++ t :: n :: post) -> (length pre < fuel)%nat ->
  exists vt vn, nget s t = Some vt /\ nget s n = Some vn /\
    unlink_loop fuel p n s = Some (Some (nput s t (nset_next (nif_next vn) vt))) /\
    nlist (nput s t (nset_next (nif_next vn) vt)) p (pre ++ t :: post).
Proof.
  induction pre as [|a pre IH]; intros p fuel Hl Hd Hf; destruct fuel as [|fuel]; try (cbn in Hf; lia).
  - destruct Hl as (-> & vt & Ht & Hnext & vn & Hn & Hl). exists vt, vn. split_and!; try done.
    + cbn [unlink_loop]. rewrite Ht; cbn [mbind option_bind]. rewrite bool_decide_eq_true_2 by done.
      rewrite Hn; cbn [mbind option_bind]. by erewrite nmod_eq.
    + split; [done|]. eexists; split; [apply nget_put_eq|]. cbn.
      apply nlist_nput_off; [|done]. cbn in Hd. apply NoDup_cons in Hd as [Hd _].
      rewrite not_elem_of_cons in Hd; tauto.
  - destruct Hl as (-> & va & Ha & Hl). rewrite <- app_comm_cons in Hd. apply NoDup_cons in Hd as [Hda Hd].
    destruct (IH (nif_next va) fuel Hl Hd) as (vt & vn & Ht & Hn & E & Hl'); [cbn in Hf; lia|].
    exists vt, vn. split_and!; try done.
    + cbn [unlink_loop]. rewrite Ha; cbn [mbind option_bind]. rewrite bool_decide_eq_false_2; [done|].
      intros Hx. rewrite Hx in Hl. destruct pre as [|b pre]; cbn in Hl; destruct Hl as ([= ->] & _);
        cbn in Hd; apply NoDup_cons in Hd as [Hd _]; apply Hd.
      * by left.
      * apply elem_of_app; right; right; by left.
    + split; [done|]. exists va. split; [|done]. rewrite nget_put_ne; [done|]. set_solver.
Qed.

(** The events [netif_remove] emits before it takes the interface down. *)
Lemma ip6_removed_emit addrs sts s : exists e, ip6_removed addrs sts s = emit e s.
Proof.
  revert sts s; induction addrs as [|a addrs IH]; intros sts s; [exists []; by rewrite emit_nil|].
  destruct sts as [|st sts]; cbn [ip6_removed]; [exists []; by rewrite emit_nil|].
  destruct (negb (st .& IP6_ADDR_VALID =? 0)); [|apply IH].
  destruct (IH sts (netif_do_ip_addr_changed (IPADDR_V6 a) None s)) as [e ->].
  unfold netif_do_ip_addr_changed. rewrite emit_emit. by eexists.
Qed.

(** [netif_remove] up to the unlinking. *)
Lemma netif_remove_unfold s n v :
  nget s n = Some v ->
  exists e, let s1 := set_default (if bool_decide (netif_default s = Some n) then None else netif_default s)
                        (emit e (nput s n (downed v))) in
    netif_remove (Some n) s =
    (if bool_decide (netif_list s = Some n) then Some (set_list (nif_next v) s1)
     else r ← unlink_loop (list_fuel s1) (netif_list s1) n s1; Some (default s1 r)).
Proof.
  intros Hv. unfold netif_remove. rewrite Hv; cbn [mbind option_bind].
  set (sa := if negb (nif_ip_addr v =? IPADDR_ANY) then _ else _).
  assert (exists e, sa = emit e s) as [e1 ->].
  { unfold sa, netif_do_ip_addr_changed. destruct (negb _); [by eexists|]. exists []; by rewrite emit_nil. }
  destruct (ip6_removed_emit (nif_ip6_addr v) (nif_ip6_addr_state v) (emit e1 s)) as [e2 ->].
  rewrite !emit_emit. set (e3 := e1 ++ e2 ++ [mld6_stop n]).
  assert (E : (if netif_is_up v then netif_set_down (Some n) (emit e3 s) else Some (emit e3 s))
              = Some (emit (e3 ++ down_events n v) (nput s n (downed v)))).
  { unfold netif_is_up. destruct (flag_set v NETIF_FLAG_UP) eqn:Eu.
    - erewrite netif_set_down_eq by done. by rewrite <- emit_nput, emit_emit.
    - unfold down_events, downed. rewrite Eu, app_nil_r. by rewrite nput_id. }
  exists (e3 ++ down_events n v). cbn zeta.
  replace (emit ((e1 ++ e2) ++ [mld6_stop n]) s) with (emit e3 s) by (unfold e3; by rewrite app_assoc).
  rewrite E. cbn [mbind option_bind].
  set (s1 := set_default _ _).
  assert (Es : (if bool_decide (netif_default (emit (e3 ++ down_events n v) (nput s n (downed v))) = Some n)
                then netif_set_default None (emit (e3 ++ down_events n v) (nput s n (downed v)))
                else emit (e3 ++ down_events n v) (nput s n (downed v))) = s1).
  { unfold s1, netif_set_default, set_default, emit, nput; cbn. by destruct (bool_decide _). }
  rewrite Es. change (netif_list s1) with (netif_list s).
  destruct (bool_decide (netif_list s = Some n)).
  - change (nget s1 n) with (nget (nput s n (downed v)) n). rewrite nget_put_eq. cbn [mbind option_bind].
    unfold downed. by destruct (flag_set v NETIF_FLAG_UP).
  - destruct (unlink_loop _ _ _ _) as [[r|]|]; done.
Qed.

(** Everything but the place on the list. *)
Definition eq_up_to_next (v v' : netif) : Prop := nset_next None v = nset_next None v'.

Lemma netifs_ok_shrink s s' l l' :
  netifs_ok s l -> sublist l' l -> nlist s' (netif_list s') l' ->
  (forall m, m ∈ l' -> num_at s' m = num_at s m) ->
  match netif_default s' with Some d => d ∈ l' | None => True end ->
  netif_num s' = netif_num s -> netifs_ok s' l'.
Proof.
  intros [] Hs Hl Hn Hdef Hnn.
  assert (E : num_at s' <$> l' = num_at s <$> l').
  { apply list_fmap_ext. intros i m Hi. apply Hn. by eapply list_elem_of_lookup_2. }
  constructor; auto.
  - by eapply sublist_NoDup; [exact nok_nodup0|].
  - rewrite E. eapply sublist_NoDup; [done|by apply fmap_sublist].
  - apply Forall_forall. intros m Hm. rewrite Hn by done.
    eapply (proj1 (Forall_forall _ _) nok_range0). by eapply elem_of_sublist.
  - by rewrite Hnn.
Qed.

Lemma u8_land z : u8 z = z .& 255.
Proof. by rewrite land_255. Qed.

(** Clearing the flag [f] clears it and keeps the flags apart from it. *)
Lemma flag_clear v f g :
  Z.lnot f .& (0xff .& (255 .& g)) = 0 -> flag_set (netif_clear_flags f v) g = false.
Proof.
  intros E. unfold flag_set, netif_clear_flags; cbn [nif_flags nset_flags].
  rewrite u8_land, <- !Z.land_assoc, E. by rewrite Z.land_0_r.
Qed.

Lemma flag_clear_other v f g :
  Z.lnot f .& (0xff .& (255 .& g)) = g -> flag_set (netif_clear_flags f v) g = flag_set v g.
Proof.
  intros E. unfold flag_set, netif_clear_flags; cbn [nif_flags nset_flags].
  by rewrite u8_land, <- !Z.land_assoc, E.
Qed.

Lemma flag_set_or v f g :
  255 .& g = g -> flag_set (netif_set_flags f v) g = flag_set v g || negb (f .& g =? 0).
Proof.
  intros E. unfold flag_set, netif_set_flags; cbn [nif_flags nset_flags].
  rewrite u8_land, <- Z.land_assoc, E, Z.land_lor_distr_l.
  pose proof (Z.lor_eq_0_iff (nif_flags v .& g) (f .& g)).
  destruct (Z.eqb_spec (nif_flags v .& g .| f .& g) 0), (Z.eqb_spec (nif_flags v .& g) 0), (Z.eqb_spec (f .& g) 0);
    cbn; tauto.
Qed.

Lemma downed_not_up v : flag_set (downed v) NETIF_FLAG_UP = false.
Proof. unfold downed. destruct (flag_set v NETIF_FLAG_UP) eqn:E; [by apply flag_clear|done]. Qed.

Lemma filter_not_in (n : Z) (l : list Z) : n ∉ l -> filter (fun m => m <> n) l = l.
Proof.
  induction l as [|m l IH]; intros Hn; [done|]. rewrite not_elem_of_cons in Hn.
  rewrite filter_cons_True by naive_solver. f_equal. apply IH. tauto.
Qed.

Lemma nlist_unique s p l l' : nlist s p l -> nlist s p l' -> l = l'.
Proof.
  revert p l'; induction l as [|n l IH]; intros p [|m l']; cbn; [done|naive_solver..|].
  intros (-> & v & Hv & Hl) ([= ->] & v' & Hv' & Hl'). f_equal.
  assert (v' = v) as -> by congruence. eauto.
Qed.

(** The list without [n], given where [n] stands on it. *)
Lemma netif_remove_ok s l n :
  netifs_ok s l -> n ∈ l ->
  exists s', netif_remove (Some n) s = Some s' /\ netifs_ok s' (filter (fun m => m <> n) l) /\
    netif_default s' = (if bool_decide (netif_default s = Some n) then None else netif_default s) /\
    (exists v', nget s' n = Some v' /\ flag_set v' NETIF_FLAG_UP = false) /\
    (forall m v, m <> n -> nget s m = Some v -> exists v', nget s' m = Some v' /\ eq_up_to_next v v').
Proof.
  intros Hok Hin. pose proof Hok as [HL HD HN HR Hdef Hnn].
  destruct (nlist_get _ _ _ _ HL Hin) as [v Hv].
  destruct (netif_remove_unfold s n v Hv) as [e ->]. set (s1 := set_default _ _).
  assert (Hnext : nif_next (downed v) = nif_next v) by (unfold downed; by destruct (flag_set v NETIF_FLAG_UP)).
  assert (Hnum : nif_num (downed v) = nif_num v) by (unfold downed; by destruct (flag_set v NETIF_FLAG_UP)).
  assert (Hoff : forall m, m <> n -> nget s1 m = nget s m) by (intros; by apply nget_put_ne).
  assert (Hs1n : nget s1 n = Some (downed v)) by apply nget_put_eq.
  assert (Hnum1 : forall m, num_at s1 m = num_at s m).
  { intros m; unfold num_at. destruct (decide (m = n)) as [->|]; [by rewrite Hs1n, Hv; cbn; rewrite Hnum|by rewrite Hoff]. }
  assert (HL1 : nlist s1 (netif_list s1) l).
  { eapply nlist_frame; [|exact HL]. intros m _. destruct (decide (m = n)) as [->|]; [|by rewrite Hoff].
    rewrite Hs1n, Hv; cbn; by rewrite Hnext. }
  assert (Hd1 : forall l' : list Z, (forall m, m ∈ l -> m <> n -> m ∈ l') ->
            match netif_default s1 with Some d => d ∈ l' | None => True end).
  { intros l' Hl'. cbn. case_bool_decide as Hd; [done|]. destruct (netif_default s) as [d|]; [|done].
    apply Hl'; [done|congruence]. }
  apply list_elem_of_split in Hin as (pre & post & ->).
  apply NoDup_app in HD as HD'. destruct HD' as (_ & Hdis & Hdp). apply NoDup_cons in Hdp as [Hnp Hdp].
  assert (Hnpre : n ∉ pre) by (intros Hx; apply (Hdis n Hx); by left).
  assert (Ef : filter (fun m => m <> n) (pre ++ n :: post) = pre ++ post).
  { rewrite filter_app, filter_cons_False by naive_solver. by rewrite !filter_not_in. }
  rewrite Ef. assert (Hsub : pre ++ post `sublist_of` pre ++ n :: post)
    by (apply sublist_app; [done|by apply sublist_cons]).
  assert (Hsplit : forall m, m ∈ pre ++ n :: post -> m <> n -> m ∈ pre ++ post) by set_solver.
  destruct pre as [|t pre _] using rev_ind.
  - cbn in HL. destruct HL as (Hhd & v' & Hv' & HL). assert (v' = v) as -> by congruence.
    rewrite bool_decide_eq_true_2 by done. eexists; split; [done|]. split_and!.
    + apply (netifs_ok_shrink s _ ([] ++ n :: post)); [exact Hok|done| |intros; apply Hnum1|by apply Hd1|done].
      cbn. eapply nlist_frame; [|exact HL]. intros m Hm. unfold nget; cbn. rewrite lookup_insert_ne; [done|]. set_solver.
    + done.
    + exists (downed v). split; [done|apply downed_not_up].
    + intros m w Hm Hw. exists w. split; [|done]. rewrite <- Hw. by apply Hoff.
  - repeat rewrite <- app_assoc in *. cbn [app] in *.
    assert (bool_decide (netif_list s = Some n) = false) as ->.
    { apply bool_decide_eq_false. intros Hx. rewrite Hx in HL. destruct pre as [|b pre]; cbn in HL; destruct HL as ([= ->] & _); set_solver. }
    destruct (unlink_ok s1 n t post pre (netif_list s1) (list_fuel s1) HL1 HD) as (vt & vn & Ht & Hn' & -> & HL2).
    { apply nlist_length in HL1; [|done]. rewrite length_app in HL1; cbn in HL1. lia. }
    assert (Htn : t <> n) by set_solver. cbn [mbind option_bind default from_option]; unfold id.
    eexists; split; [done|]. split_and!.
    + apply (netifs_ok_shrink s _ (pre ++ t :: n :: post)); [exact Hok|exact Hsub|exact HL2| |by apply Hd1|done].
      intros m _. rewrite <- Hnum1. unfold num_at. destruct (decide (m = t)) as [->|].
      * by rewrite nget_put_eq, Ht.
      * by rewrite nget_put_ne.
    + done.
    + exists (downed v). split; [by rewrite nget_put_ne|apply downed_not_up].
    + intros m w Hm Hw. destruct (decide (m = t)) as [->|].
      * exists (nset_next (nif_next vn) vt). rewrite nget_put_eq. split; [done|]. rewrite Hoff in Ht by done.
        assert (vt = w) as -> by congruence. done.
      * exists w. rewrite nget_put_ne by done. by rewrite Hoff.
Qed.

(** ** Lookup *)

(** A search along the list finds the only interface that passes the test. *)
Lemma find_loop_unique s test n v : forall l p fuel,
  nlist s p l -> (length l < fuel)%nat -> n ∈ l -> nget s n = Some v -> test v = true ->
  (forall m w, m ∈ l -> nget s m = Some w -> test w = true -> m = n) ->
  find_loop fuel p test s = Some (Some n).
Proof.
  induction l as [|m l IH]; intros p fuel Hl Hf Hin Hv Ht Hu; [set_solver|].
  destruct Hl as (-> & w & Hw & Hl). destruct fuel as [|fuel]; [cbn in Hf; lia|]. cbn [find_loop].
  rewrite Hw; cbn [mbind option_bind]. destruct (test w) eqn:E.
  - rewrite (Hu m w); auto. by left.
  - apply IH; auto; [cbn in Hf; lia| |].
    + apply elem_of_cons in Hin as [<-|]; [congruence|done].
    + intros; eapply Hu; eauto. by right.
Qed.

(** Numbers determine interfaces. *)
Lemma num_unique s l n m v w :
  netifs_ok s l -> n ∈ l -> m ∈ l -> nget s n = Some v -> nget s m = Some w -> nif_num v = nif_num w -> n = m.
Proof.
  intros Hok Hn Hm Hv Hw E.
  apply list_elem_of_lookup_1 in Hn as [i Hi]. apply list_elem_of_lookup_1 in Hm as [j Hj].
  assert (i = j); [|congruence]. eapply (NoDup_lookup _ i j (nif_num v) (nok_nums _ _ Hok)).
  - by rewrite list_lookup_fmap, Hi; cbn; rewrite (num_at_get _ _ _ Hv).
  - by rewrite list_lookup_fmap, Hj; cbn; rewrite (num_at_get _ _ _ Hw), E.
Qed.

Lemma netif_get_by_index_ok s l n v :
  netifs_ok s l -> n ∈ l -> nget s n = Some v ->
  netif_get_by_index (netif_get_index v) s = Some (Some n) /\ netif_get_index v = nif_num v + 1 /\
  0 <= nif_num v < 255.
Proof.
  intros Hok Hn Hv. pose proof Hok as [HL HD HN HR _ _].
  assert (Hr : forall m w, m ∈ l -> nget s m = Some w -> 0 <= nif_num w < 255).
  { intros m w Hm Hw. rewrite <- (num_at_get _ _ _ Hw). by eapply (proj1 (Forall_forall _ _) HR). }
  assert (Hi : forall m w, m ∈ l -> nget s m = Some w -> netif_get_index w = nif_num w + 1).
  { intros m w Hm Hw. unfold netif_get_index. apply u8_small. specialize (Hr _ _ Hm Hw); lia. }
  pose proof (Hr _ _ Hn Hv) as Hrv. pose proof (Hi _ _ Hn Hv) as Hiv.
  split; [|by split]. unfold netif_get_by_index, NETIF_NO_INDEX.
  destruct (Z.eqb_spec (netif_get_index v) 0); [lia|]. cbn [negb].
  eapply (find_loop_unique s _ n v l); try done; [by eapply nlist_length|by apply Z.eqb_refl|].
  intros m w Hm Hw E%Z.eqb_eq. rewrite (Hi _ _ Hm Hw), Hiv in E.
  symmetry; eapply num_unique; eauto; lia.
Qed.

(** ** IPv6 addresses *)
Definition ip6_wf (v : netif) : Prop :=
  length (nif_ip6_addr v) = LWIP_IPV6_NUM_ADDRESSES /\ length (nif_ip6_addr_state v) = LWIP_IPV6_NUM_ADDRESSES.

Lemma ip6_match_ok addrs sts i a :
  let r := ip6_match_loop addrs sts i a in
  (r = -1 /\ forall j b st, addrs !! j = Some b -> sts !! j = Some st -> st = IP6_ADDR_INVALID \/ ip6_addr_cmp_zoneless b a = false)
  \/ (exists j b st, r = i + Z.of_nat j /\ addrs !! j = Some b /\ sts !! j = Some st /\
        st <> IP6_ADDR_INVALID /\ ip6_addr_cmp_zoneless b a = true).
Proof.
  revert sts i; induction addrs as [|b addrs IH]; intros sts i; cbn.
  { left; split; [done|]. intros j; by rewrite lookup_nil. }
  destruct sts as [|st sts]; cbn.
  { left; split; [done|]. intros j ? ? _; by rewrite lookup_nil. }
  unfold ip6_addr_isinvalid. destruct (Z.eqb_spec st IP6_ADDR_INVALID) as [->|Hst]; cbn [negb andb].
  - destruct (IH sts (i + 1)) as [[Hr H]|(j & b' & st' & Hr & H)].
    + left; split; [done|]. intros [|j] b' st'; cbn; [intros [= <-] [= <-]; by left|apply H].
    + right; exists (S j), b', st'. split; [lia|done].
  - destruct (ip6_addr_cmp_zoneless b a) eqn:E.
    + right; exists 0%nat, b, st. split_and!; try done; lia.
    + destruct (IH sts (i + 1)) as [[Hr H]|(j & b' & st' & Hr & H)].
      * left; split; [done|]. intros [|j] b' st'; cbn; [intros [= <-] [= <-]; by right|apply H].
      * right; exists (S j), b', st'. split; [lia|done].
Qed.

Lemma ip6_free_slot_ok sts i start :
  match ip6_free_slot sts i start with
  | Some r => exists j, r = i + Z.of_nat j /\ start <= r /\ sts !! j = Some IP6_ADDR_INVALID
  | None => forall j st, sts !! j = Some st -> start <= i + Z.of_nat j -> st <> IP6_ADDR_INVALID
  end.
Proof.
  revert i; induction sts as [|st sts IH]; intros i; cbn [ip6_free_slot]; [intros j ?; by rewrite lookup_nil|].
  unfold ip6_addr_isinvalid. destruct (Z.leb_spec start i), (Z.eqb_spec st IP6_ADDR_INVALID) as [->|]; cbn [andb].
  1: { exists 0%nat; split_and!; [lia|lia|done]. }
  all: specialize (IH (i + 1)); destruct (ip6_free_slot sts (i + 1) start) as [r|].
  1,3,5: destruct IH as (j & -> & ? & ?); exists (S j); split_and!; [lia|lia|done].
  all: intros [|j] st'; cbn; [intros [= <-]; try done; lia|intros Hj ?; eapply IH; [done|lia]].
Qed.

Lemma set_state_tentative_eq n i s v :
  nget s n = Some v -> ip6_index_ok i = true -> ip6_wf v -> netif_ip6_addr_state v i = Some IP6_ADDR_INVALID ->
  netif_ip6_addr_set_state n i IP6_ADDR_TENTATIVE s =
    Some (nput (emit (if flag_set v NETIF_FLAG_MLD6 then [nd6_adjust_mld_membership n i IP6_ADDR_TENTATIVE] else []) s)
               n (set_ip6_state i IP6_ADDR_TENTATIVE v)).
Proof.
  intros Hv Hi [Hl1 Hl2] Hst. unfold netif_ip6_addr_set_state. rewrite Hi; cbn [negb]. rewrite Hv; cbn [mbind option_bind].
  rewrite Hst; cbn [mbind option_bind]. change (negb (IP6_ADDR_INVALID =? IP6_ADDR_TENTATIVE)) with true. cbn iota.
  unfold ip6_index_ok in Hi. apply andb_true_iff in Hi as [H1%Z.leb_le H2%Z.ltb_lt].
  destruct (lookup_lt_is_Some_2 (nif_ip6_addr v) (Z.to_nat i)) as [a Ha]; [lia|].
  unfold netif_ip6_addr. rewrite Ha; cbn [mbind option_bind].
  change (ip6_addr_isvalid IP6_ADDR_INVALID) with false; change (ip6_addr_isvalid IP6_ADDR_TENTATIVE) with false.
  cbn [negb andb]. destruct (flag_set v NETIF_FLAG_MLD6).
  - by erewrite nmod_eq.
  - erewrite nmod_eq by done. by rewrite emit_nil.
Qed.

(** The outcome of [netif_add_ip6_address] for an address without a zone. *)
Lemma netif_add_ip6_address_ok n s v a :
  nget s n = Some v -> ip6_wf v -> zone a = IP6_NO_ZONE ->
  exists err idx s', netif_add_ip6_address n a s = Some (err, idx, s') /\
    ((err = ERR_OK /\ exists v' b st, nget s' n = Some v' /\ 0 <= idx < 3 /\
        netif_ip6_addr v' idx = Some b /\ ip6_set_zone 0 b = ip6_set_zone 0 a /\
        netif_ip6_addr_state v' idx = Some st /\ st <> IP6_ADDR_INVALID /\
        (v' = v \/ (netif_ip6_addr_state v idx = Some IP6_ADDR_INVALID /\ st = IP6_ADDR_TENTATIVE /\
                    (ip6_addr_islinklocal a = false -> 1 <= idx))) /\
        (forall j, j <> idx -> 0 <= j -> netif_ip6_addr v' j = netif_ip6_addr v j /\
                    netif_ip6_addr_state v' j = netif_ip6_addr_state v j))
     \/ (err = ERR_VAL /\ idx = -1 /\ s' = s /\
         forall j st, netif_ip6_addr_state v j = Some st -> (if ip6_addr_islinklocal a then 0 else 1) <= j ->
           st <> IP6_ADDR_INVALID)).
Proof.
  intros Hv Hwf Hz. pose proof Hwf as [Hl1 Hl2]. unfold netif_add_ip6_address. rewrite Hv; cbn [mbind option_bind].
  unfold netif_get_ip6_addr_match. rewrite Hz. change (IP6_NO_ZONE =? IP6_NO_ZONE) with true. cbn [negb andb].
  destruct (ip6_match_ok (nif_ip6_addr v) (nif_ip6_addr_state v) 0 a) as [[-> Hno]|(j & b & st & -> & Hb & Hst & Hne & Hcmp)].
  - change (0 <=? -1) with false. cbn iota.
    pose proof (ip6_free_slot_ok (nif_ip6_addr_state v) 0 (if ip6_addr_islinklocal a then 0 else 1)) as Hfree.
    destruct (ip6_free_slot _ _ _) as [r|].
    + destruct Hfree as (j & -> & Hr & Hj). rewrite Z.add_0_l in *.
      assert (Hlt : (j < 3)%nat) by (apply lookup_lt_Some in Hj; rewrite Hl2 in Hj; done).
      erewrite nmod_eq by done; cbn [mbind option_bind].
      set (a' := ip6_addr_assign_zone (netif_get_index v) a).
      set (v1 := set_ip6_addr (Z.of_nat j) a' v).
      erewrite (set_state_tentative_eq n (Z.of_nat j) _ v1).
      * cbn [mbind option_bind]. do 3 eexists; split; [done|]. left. split; [done|].
        exists (set_ip6_state (Z.of_nat j) IP6_ADDR_TENTATIVE v1), a', IP6_ADDR_TENTATIVE.
        unfold netif_ip6_addr, netif_ip6_addr_state; cbn. rewrite !Nat2Z.id.
        split_and!; try done; try lia.
        -- apply nget_put_eq.
        -- apply list_lookup_insert_eq. rewrite Hl1; done.
        -- apply list_lookup_insert_eq. rewrite Hl2; done.
        -- right. split_and!; try done. intros E. rewrite E in Hr. done.
        -- intros k Hk Hk0. rewrite !list_lookup_insert_ne by lia. done.
      * apply nget_put_eq.
      * unfold ip6_index_ok. apply andb_true_iff; split; [apply Z.leb_le|apply Z.ltb_lt]; unfold LWIP_IPV6_NUM_ADDRESSES; lia.
      * unfold ip6_wf; cbn. by rewrite length_insert.
      * unfold netif_ip6_addr_state; cbn. by rewrite Nat2Z.id.
    + do 3 eexists; split; [done|]. right. split_and!; try done. intros j st Hj Hle.
      eapply (Hfree (Z.to_nat j)); [done|]. destruct (ip6_addr_islinklocal a); lia.
  - rewrite Z.add_0_l. destruct (Z.leb_spec 0 (Z.of_nat j)); [|lia]. do 3 eexists; split; [done|].
    left. split; [done|]. exists v, b, st. unfold netif_ip6_addr, netif_ip6_addr_state. rewrite Nat2Z.id.
    apply lookup_lt_Some in Hb as Hlt. rewrite Hl1 in Hlt. unfold LWIP_IPV6_NUM_ADDRESSES in Hlt.
    split_and!; try done; try lia; [by apply ip6_addr_cmp_zoneless_spec|by left].
Qed.

(** ** Link-local addresses *)
Lemma lor4_bytes b0 b1 b2 b3 :
  byte_ok b0 -> byte_ok b1 -> byte_ok b2 -> byte_ok b3 ->
  ((b3 .<< 24) .| (b2 .<< 16)) .| (b1 .<< 8) .| b0 = of_bytes b0 b1 b2 b3.
Proof.
  unfold byte_ok, of_bytes; intros. rewrite <- !Z.lor_assoc.
  rewrite (lor_shl_add b0 b1 8) by lia. rewrite (lor_shl_add _ b2 16) by lia.
  rewrite (lor_shl_add _ b3 24) by lia. lia.
Qed.

Lemma lxor2_byte b : byte_ok b -> byte_ok (Z.lxor b 2).
Proof.
  unfold byte_ok; intros H. split; [apply Z.lxor_nonneg; lia|].
  destruct (Z.eq_dec (Z.lxor b 2) 0) as [->|]; [lia|].
  assert (0 < Z.lxor b 2) by (assert (0 <= Z.lxor b 2) by (apply Z.lxor_nonneg; lia); lia).
  change 256 with (2 ^ 8). apply Z.log2_lt_pow2; [done|].
  eapply Z.le_lt_trans; [apply Z.log2_lxor; lia|].
  apply Z.max_lub_lt; [|cbn; lia]. destruct (Z.eq_dec b 0) as [->|]; [cbn; lia|].
  apply Z.log2_lt_pow2; lia.
Qed.

(** ** Initialisation *)
Lemma touched_up flag n s v e :
  nget s n = Some v -> touched n s (emit e (nput s n (upped flag v))) v (upped flag v).
Proof.
  intros Hv. apply touched_emit, touched_nput; [done|..]; unfold upped; by destruct (flag_set v flag).
Qed.

(** The loopback interface is listed first, every other interface is kept. *)
Lemma netif_init_ok s l v0 :
  netifs_ok s l -> nget s loop_netif = Some v0 -> loop_netif ∉ l -> (length l < 255)%nat ->
  exists s' v', netif_init s = Some s' /\ netifs_ok s' (loop_netif :: l) /\ nget s' loop_netif = Some v' /\
    nif_ip_addr v' = IP4_ADDR 127 0 0 1 /\ (forall k, k <> loop_netif -> nget s' k = nget s k).
Proof.
  intros Hok Hv0 Hn Hlen. unfold netif_init.
  destruct (netif_add_ok None netif_loopif_init _ s l loop_netif v0 (Some (IP4_ADDR 127 0 0 1))
    (Some (IP4_ADDR 255 0 0 0)) (Some (IP4_ADDR 127 0 0 1)) (Some tcpip_input) Hok Hv0 Hn Hlen)
    as (s1 & v1 & -> & Hok1 & Hv1 & _ & Ea & _ & _ & _ & _ & _ & _ & Hoff).
  cbn [mbind option_bind]. erewrite nmod_eq by done; cbn [mbind option_bind].
  set (v2 := set_ip6_state _ _ _). set (s2 := nput s1 loop_netif v2).
  assert (T2 : touched loop_netif s1 s2 v1 v2) by by apply touched_nput.
  rewrite (netif_set_link_up_eq _ _ v2) by apply nget_put_eq. cbn [mbind option_bind].
  set (s3 := emit _ _). set (v3 := upped NETIF_FLAG_LINK_UP v2) in *.
  assert (T3 : touched loop_netif s2 s3 v2 v3) by (apply touched_up, nget_put_eq).
  rewrite (netif_set_up_eq _ _ v3) by apply (touched_get _ _ _ _ _ T3). set (s4 := emit _ _).
  set (v4 := upped NETIF_FLAG_UP v3) in *.
  assert (T4 : touched loop_netif s3 s4 v3 v4) by (apply touched_up, (touched_get _ _ _ _ _ T3)).
  pose proof (touched_trans _ _ _ _ _ _ _ T2 (touched_trans _ _ _ _ _ _ _ T3 T4)) as T.
  exists s4, v4. split; [done|]. split; [by eapply touched_ok|]. split; [apply (touched_get _ _ _ _ _ T)|]. split.
  - transitivity (nif_ip_addr v1); [|exact Ea]. unfold v4, v3, upped. by repeat case_match.
  - intros k Hk. rewrite (touched_off _ _ _ _ _ k T Hk). by apply Hoff.
Qed.

(** Memory for two interfaces, nothing added yet. *)
Definition ex_nstate : nstate :=
  NState (<[0 := zero_netif]> (<[7 := zero_netif]> ∅)) None None 0 [].

Lemma ex_nstate_ok : netifs_ok ex_nstate [].
Proof. constructor; cbn; try done; constructor. Qed.

(** Adding an interface that is not on the list, with fewer than 255
    interfaces on it, terminates, returns the interface, puts it at the head of
    the list with the given configuration, what the driver's [init] establishes,
    and a number below 255 that no other
    interface has (its index, number + 1, fits a byte), and changes no other
    interface nor the default one. *)
Theorem netif_add_spec st init Q `{!NetifDriver st init Q} s l n v0 a m g inp :
  netifs_ok s l -> nget s n = Some v0 -> n ∉ l -> (length l < 255)%nat ->
  exists s' v', netif_add (Some n) a m g st (Some init) inp s = Some (Some n, s') /\
    netifs_ok s' (n :: l) /\ nget s' n = Some v' /\ Q v' /\
    nif_ip_addr v' = addr_or_any a /\ nif_netmask v' = addr_or_any m /\ nif_gw v' = addr_or_any g /\
    nif_state v' = st /\ nif_input v' = inp /\ nif_mtu6 v' = nif_mtu v' /\
    netif_default s' = netif_default s /\ (forall k, k <> n -> nget s' k = nget s k).
Proof. by apply netif_add_ok. Qed.

Lemma netif_add_spec_witness :
  exists s', netif_add (Some 7) (Some 1) None None None (Some netif_loopif_init) None ex_nstate = Some (Some 7, s')
    /\ netifs_ok s' [7].
Proof.
  destruct (netif_add_spec None netif_loopif_init _ ex_nstate [] 7 zero_netif (Some 1) None None None)
    as (s' & v' & E & Hok & _); [exact ex_nstate_ok|reflexivity|apply not_elem_of_nil|cbn; lia|].
  exists s'; split; [exact E|exact Hok].
Defined.

(** Adding an interface that is already on the list never returns: the
    search for a free number keeps finding the interface itself, however long
    it runs (the assertion against this is compiled out). *)
Theorem netif_add_twice_diverges n l fuel s v :
  nget s n = Some v -> n ∈ l -> NoDup l -> nlist s (netif_list s) l -> num_loop fuel n s = None.
Proof. apply num_loop_listed. Qed.

Definition ex_listed : nstate := NState (<[7 := zero_netif]> ∅) (Some 7) None 1 [].

Lemma netif_add_twice_diverges_witness : num_loop 5000 7 ex_listed = None.
Proof.
  apply (netif_add_twice_diverges 7 [7] 5000 ex_listed zero_netif); [reflexivity|by left| |].
  - apply NoDup_singleton.
  - split; [reflexivity|]. exists zero_netif. split; reflexivity.
Defined.

(** Removing an interface takes exactly it off the list, clears the
    default if it was the default, leaves it administratively down, and leaves
    the other interfaces as they were but for their place on the list. *)
Theorem netif_remove_spec s l n :
  netifs_ok s l -> n ∈ l ->
  exists s', netif_remove (Some n) s = Some s' /\ netifs_ok s' (filter (fun m => m <> n) l) /\
    netif_default s' = (if bool_decide (netif_default s = Some n) then None else netif_default s) /\
    (exists v', nget s' n = Some v' /\ flag_set v' NETIF_FLAG_UP = false) /\
    (forall m v, m <> n -> nget s m = Some v -> exists v', nget s' m = Some v' /\ eq_up_to_next v v').
Proof. apply netif_remove_ok. Qed.

Lemma ex_listed_ok : netifs_ok ex_listed [7].
Proof.
  constructor; [|apply NoDup_singleton|apply NoDup_singleton| |exact I|cbn; lia].
  - split; [reflexivity|]. exists zero_netif; split; reflexivity.
  - repeat constructor; vm_compute; congruence.
Qed.

Lemma netif_remove_spec_witness : exists s', netif_remove (Some 7) ex_listed = Some s' /\ netifs_ok s' [].
Proof.
  destruct (netif_remove_spec ex_listed [7] 7 ex_listed_ok) as (s' & E & Hok & _); [by left|].
  exists s'. split; [exact E|exact Hok].
Defined.

(** [netif_set_addr] leaves the interface with the given address, mask and
    gateway (NULL meaning 0.0.0.0) and nothing else changed; TCP and UDP are
    told of the old and the new address exactly when the address changes, and
    a gratuitous ARP follows when the interface is up and the new address is
    not 0.0.0.0. *)
Theorem netif_set_addr_spec n a m g s v :
  nget s n = Some v ->
  netif_set_addr n a m g s =
    Some (emit (addr_events n (addr_or_any a) v)
               (nput s n (addressed (addr_or_any a) (addr_or_any m) (addr_or_any g) v))).
Proof.
  intros Hv. rewrite <- (netif_set_addr_eq n (addr_or_any a) (addr_or_any m) (addr_or_any g) s v Hv). by destruct a, m, g.
Qed.

Lemma netif_set_addr_spec_witness :
  netif_set_addr 7 (Some 5) None (Some 9) ex_nstate =
  Some (emit [tcp_netif_ip_addr_changed (IPADDR_V4 0) (Some (IPADDR_V4 5));
              udp_netif_ip_addr_changed (IPADDR_V4 0) (Some (IPADDR_V4 5))]
             (nput ex_nstate 7 (addressed 5 0 9 zero_netif))).
Proof. apply (netif_set_addr_spec 7 (Some 5) None (Some 9) ex_nstate zero_netif). reflexivity. Defined.

(** Interface names and indices translate into each other: the name
    [netif_index_to_name] writes for an interface on the list is found again
    by [netif_name_to_index], with the same index. *)
Theorem netif_index_name_roundtrip s l n v name :
  netifs_ok s l -> n ∈ l -> nget s n = Some v -> NETIF_NAMESIZE <= zlen name ->
  exists name', netif_index_to_name (netif_get_index v) name s = Some (Some name') /\
    netif_name_to_index (Some name') s = Some (netif_get_index v).
Proof.
  intros Hok Hn Hv Hlen. unfold NETIF_NAMESIZE in Hlen.
  destruct (netif_get_by_index_ok s l n v Hok Hn Hv) as (Eg & Ei & Hr).
  unfold netif_index_to_name. rewrite Eg; cbn [mbind option_bind]. rewrite Hv; cbn [mbind option_bind].
  set (c0 := (nif_name v).1). set (c1 := (nif_name v).2).
  destruct (mem_write name 0 [c0; c1]) as [nm|] eqn:Ew; cycle 1.
  { rewrite mem_write_spec in Ew by (change (zlen [c0; c1]) with 2; lia). discriminate. }
  pose proof (mem_write_len _ _ _ _ Ew) as Hlw. cbn [mbind option_bind].
  rewrite mem_write_spec in Ew by (change (zlen [c0; c1]) with 2; lia). injection Ew as Ew.
  rewrite Ei. replace (nif_num v + 1 - 1) with (nif_num v) by lia.
  destruct (lwip_itoa_ok (zdrop 2 nm) (NETIF_NAMESIZE - 2) (nif_num v)) as (text & -> & _ & Ht).
  { unfold NETIF_NAMESIZE. rewrite zlen_zdrop. lia. }
  { lia. }
  cbn [mbind option_bind]. eexists; split; [done|].
  destruct (Z.ltb_spec (nif_num v) 0) as [|_]; [lia|].
  change (10 ^ (NETIF_NAMESIZE - 2 - 1 - 0)) with 1000 in Ht.
  destruct (Z.ltb_spec (Z.abs (nif_num v)) 1000) as [_|]; [|lia]. destruct Ht as [Hatoi _].
  assert (E2 : ztake 2 nm = [c0; c1]) by (subst nm; reflexivity).
  rewrite E2. unfold netif_name_to_index, netif_find. cbn [app lookup list_lookup mbind option_bind drop].
  rewrite drop_0, Hatoi. rewrite u8_small by lia. pose proof Hok as [HL HD _ _ _ _].
  rewrite (find_loop_unique s _ n v l); try done.
  - cbn [mbind option_bind]. rewrite Hv; cbn [mbind option_bind]. by rewrite Ei.
  - by eapply nlist_length.
  - unfold c0, c1. by rewrite !Z.eqb_refl.
  - intros m w Hm Hw [[E%Z.eqb_eq _]%andb_true_iff _]%andb_true_iff. symmetry; eapply num_unique; eauto.
Qed.

Lemma netif_index_name_roundtrip_witness :
  exists name', netif_index_to_name 1 (replicate 6 0) ex_listed = Some (Some name') /\
    netif_name_to_index (Some name') ex_listed = Some 1.
Proof.
  apply (netif_index_name_roundtrip ex_listed [7] 7 zero_netif (replicate 6 0) ex_listed_ok);
    [by left|reflexivity|vm_compute; discriminate].
Defined.

(** [netif_add_ip6_address] never disturbs another address: it reports the
    slot that already holds the address, or puts the address tentative into
    the first invalid slot (never the link-local slot 0 for another kind of
    address), or answers [ERR_VAL] and changes nothing when no slot is free. *)
Theorem netif_add_ip6_address_spec n s v a :
  nget s n = Some v -> ip6_wf v -> zone a = IP6_NO_ZONE ->
  exists err idx s', netif_add_ip6_address n a s = Some (err, idx, s') /\
    ((err = ERR_OK /\ exists v' b st, nget s' n = Some v' /\ 0 <= idx < 3 /\
        netif_ip6_addr v' idx = Some b /\ ip6_set_zone 0 b = ip6_set_zone 0 a /\
        netif_ip6_addr_state v' idx = Some st /\ st <> IP6_ADDR_INVALID /\
        (v' = v \/ (netif_ip6_addr_state v idx = Some IP6_ADDR_INVALID /\ st = IP6_ADDR_TENTATIVE /\
                    (ip6_addr_islinklocal a = false -> 1 <= idx))) /\
        (forall j, j <> idx -> 0 <= j -> netif_ip6_addr v' j = netif_ip6_addr v j /\
                    netif_ip6_addr_state v' j = netif_ip6_addr_state v j))
     \/ (err = ERR_VAL /\ idx = -1 /\ s' = s /\
         forall j st, netif_ip6_addr_state v j = Some st -> (if ip6_addr_islinklocal a then 0 else 1) <= j ->
           st <> IP6_ADDR_INVALID)).
Proof. apply netif_add_ip6_address_ok. Qed.

Definition ex_v6 : netif :=
  nset_ip6_addr_state [0; 0x30; 0] (nset_ip6_addr [ip6_addr_any; Ip6Addr 1 2 3 4 0; ip6_addr_any] zero_netif).

Lemma netif_add_ip6_address_spec_witness :
  exists err idx s', netif_add_ip6_address 7 (Ip6Addr 9 9 9 9 0) (nput ex_nstate 7 ex_v6) = Some (err, idx, s').
Proof.
  destruct (netif_add_ip6_address_spec 7 (nput ex_nstate 7 ex_v6) ex_v6 (Ip6Addr 9 9 9 9 0)) as (err & idx & s' & E & _);
    [reflexivity|split; reflexivity|reflexivity|].
  exists err, idx, s'. exact E.
Defined.

(** The link-local address made from a 48-bit MAC is [fe80::] with the
    modified EUI-64 identifier of the MAC (RFC 4291, appendix A), in slot 0. *)
Theorem netif_linklocal_eui64 n s v b0 b1 b2 b3 b4 b5 :
  nget s n = Some v -> ip6_wf v -> nif_hwaddr v = [b0; b1; b2; b3; b4; b5] ->
  bytes_ok [b0; b1; b2; b3; b4; b5] ->
  netif_ip6_addr_state v 0 = Some IP6_ADDR_INVALID ->
  exists s' v', netif_create_ip6_linklocal_address n true s = Some s' /\ nget s' n = Some v' /\
    netif_ip6_addr v' 0 = Some (Ip6Addr (of_bytes 0xfe 0x80 0 0) 0 (of_bytes (Z.lxor b0 2) b1 b2 0xff)
                                  (of_bytes 0xfe b3 b4 b5) (netif_get_index v)) /\
    netif_ip6_addr_state v' 0 = Some IP6_ADDR_TENTATIVE.
Proof.
  intros Hv Hwf Hhw Hb Hst. pose proof Hwf as [Hl1 Hl2].
  unfold bytes_ok in Hb. rewrite !Forall_cons in Hb. destruct Hb as (H0 & H1 & H2 & H3 & H4 & H5 & _).
  unfold netif_create_ip6_linklocal_address. rewrite Hv; cbn [mbind option_bind]. rewrite Hhw; cbn [mbind option_bind].
  pose proof (lxor2_byte b0 H0). rewrite (u32_small (Z.lxor b0 2)) by (unfold byte_ok in *; lia).
  change (u32 (0xfe .<< 24)) with (0xfe .<< 24).
  rewrite !lor4_bytes by (unfold byte_ok in *; (done || lia)).
  rewrite !htonl_of_bytes by (unfold byte_ok in *; (done || lia)).
  set (ll := Ip6Addr _ _ _ _ _). assert (E : ip6_addr_assign_zone (netif_get_index v) ll = ip6_set_zone (netif_get_index v) ll) by done.
  rewrite E. erewrite nmod_eq by done; cbn [mbind option_bind]. set (v1 := set_ip6_addr 0 _ v).
  erewrite (set_state_tentative_eq n 0 _ v1); cycle 1.
  - apply nget_put_eq.
  - done.
  - unfold ip6_wf; cbn. by rewrite length_insert.
  - done.
  - do 2 eexists; split; [done|]. split; [apply nget_put_eq|]. unfold netif_ip6_addr, netif_ip6_addr_state; cbn [Z.to_nat].
    cbn [nif_ip6_addr nif_ip6_addr_state set_ip6_state set_ip6_addr nset_ip6_addr_state nset_ip6_addr v1].
    split; apply list_lookup_insert_eq; [rewrite Hl1|cbn; rewrite Hl2]; unfold LWIP_IPV6_NUM_ADDRESSES; lia.
Qed.

Lemma netif_linklocal_eui64_witness :
  exists s', netif_create_ip6_linklocal_address 7 true
    (nput ex_nstate 7 (nset_hwaddr [0x02; 0; 0; 1; 2; 3] ex_v6)) = Some s'.
Proof.
  destruct (netif_linklocal_eui64 7 (nput ex_nstate 7 (nset_hwaddr [0x02; 0; 0; 1; 2; 3] ex_v6))
    (nset_hwaddr [0x02; 0; 0; 1; 2; 3] ex_v6) 2 0 0 1 2 3) as (s' & v' & E & _);
    [reflexivity|split; reflexivity|reflexivity| |reflexivity|].
  - unfold bytes_ok; rewrite !Forall_cons; unfold byte_ok; repeat split; try lia; constructor.
  - exists s'; exact E.
Defined.
