(* ===== verification/Ip4Addr.v ===== *)
(** [ip4_addr.c]: broadcast addresses, netmasks, and IPv4 addresses as text.

    A C string is the list of its characters from the pointer on, its NUL
    included; reading past the list is undefined. *)
From S2P Require Import Prelude Bits Def IpAddr NetifRec Netif.

(** ** Broadcast addresses and netmasks *)
Definition ip4_addr_netcmp (a b mask : Z) : bool := (a .& mask) =? (b .& mask).

(** The complement of a 32-bit word. *)
Definition not32 (z : Z) : Z := u32 (Z.lnot z).

Definition ip4_addr_isbroadcast_u32 (addr : Z) (v : netif) : bool :=
  if (not32 addr =? IPADDR_ANY) || (addr =? IPADDR_ANY) then true
  else if negb (flag_set v NETIF_FLAG_BROADCAST) then false
  else if addr =? nif_ip_addr v then false
  else if ip4_addr_netcmp addr (nif_ip_addr v) (nif_netmask v) &&
          ((addr .& not32 (nif_netmask v)) =? (IPADDR_BROADCAST .& not32 (nif_netmask v)))
  then true
  else false.

(** The first loop: [mask] at the first zero bit, or 0. *)
Fixpoint first_zero (fuel : nat) (nm mask : Z) : option Z :=
  match fuel with
  | O => None
  | S fuel =>
      if mask =? 0 then Some mask
      else if nm .& mask =? 0 then Some mask else first_zero fuel nm (mask .>> 1)
  end.

(** The second loop: whether no bit is set from [mask] down. *)
Fixpoint no_ones (fuel : nat) (nm mask : Z) : option bool :=
  match fuel with
  | O => None
  | S fuel =>
      if mask =? 0 then Some true
      else if negb (nm .& mask =? 0) then Some false else no_ones fuel nm (mask .>> 1)
  end.

(** 32 bits and the final test. *)
Definition mask_fuel : nat := 33.

Definition ip4_addr_netmask_valid (netmask : Z) : option bool :=
  let nm_hostorder := lwip_htonl netmask in
  mask ← first_zero mask_fuel nm_hostorder (1 .<< 31);
  no_ones mask_fuel nm_hostorder mask.

(** ** Text to address *)
Definition isxdigit (c : Z) : bool :=
  isdigit c || ((97 <=? c) && (c <=? 102)) || ((65 <=? c) && (c <=? 70)).

Definition islower (c : Z) : bool := (97 <=? c) && (c <=? 122).

(** The inner loop: the value and the rest of the string. *)
Fixpoint aton_digits (cp : list Z) (base val : Z) : option (Z * list Z) :=
  match cp with
  | [] => None
  | c :: r =>
      if isdigit c then aton_digits r base (u32 (val * base + (c - 48)))
      else if (base =? 16) && isxdigit c
      then aton_digits r base (u32 (val .<< 4) .| (c + 10 - (if islower c then 97 else 65)))
      else Some (val, cp)
  end.

(** The base of a number from its prefix: 0x is hexadecimal, 0 octal. *)
Definition aton_base (cp : list Z) : option (Z * list Z) :=
  match cp with
  | [] => None
  | c :: r =>
      if c =? 48 then
        match r with
        | [] => None
        | c :: r' => if (c =? 120) || (c =? 88) then Some (16, r') else Some (8, r)
        end
      else Some (10, cp)
  end.

(** The outer loop: the stored parts, the last value and the rest of the
    string; [Some None] is [return 0]. *)
Fixpoint aton_loop (fuel : nat) (cp : list Z) (parts : list Z) : option (option (list Z * Z * list Z)) :=
  match fuel, cp with
  | S fuel, c :: _ =>
      if negb (isdigit c) then Some None
      else
        '(base, cp) ← aton_base cp;
        '(val, cp) ← aton_digits cp base 0;
        match cp with
        | [] => None
        | c :: r =>
            if c =? 46 then
              if 3 <=? zlen parts then Some None else aton_loop fuel r (parts ++ [val])
            else Some (Some (parts, val, cp))
        end
  | _, _ => None
  end.

(** At most three dots are followed. *)
Definition aton_fuel : nat := 4.

(** The switch on the number of parts. *)
Definition aton_concoct (parts : list Z) (val : Z) : option Z :=
  match parts with
  | [] => Some val
  | [p0] =>
      if 0xffffff <? val then None
      else if 0xff <? p0 then None
      else Some (val .| u32 (p0 .<< 24))
  | [p0; p1] =>
      if 0xffff <? val then None
      else if (0xff <? p0) || (0xff <? p1) then None
      else Some (val .| (u32 (p0 .<< 24) .| u32 (p1 .<< 16)))
  | [p0; p1; p2] =>
      if 0xff <? val then None
      else if (0xff <? p0) || (0xff <? p1) || (0xff <? p2) then None
      else Some (val .| (u32 (p0 .<< 24) .| u32 (p1 .<< 16) .| u32 (p2 .<< 8)))
  | _ => Some val
  end.

(** [Some None] is the return value 0; otherwise what is stored in [*addr]. *)
Definition ip4addr_aton (cp : list Z) : option (option Z) :=
  r ← aton_loop aton_fuel cp [];
  match r with
  | None => Some None
  | Some (parts, val, cp) =>
      c ← cp !! 0%nat;
      if negb (c =? 0) && negb (isspace c) then Some None
      else Some (lwip_htonl <$> aton_concoct parts val)
  end.

Definition ipaddr_addr (cp : list Z) : option Z :=
  r ← ip4addr_aton cp;
  match r with
  | Some a => Some a
  | None => Some IPADDR_NONE
  end.

(** ** Address to text *)

(** The [do ... while] loop over one byte: its digits, last first. *)
Fixpoint inv_digits (fuel : nat) (ap : Z) : option (list Z) :=
  match fuel with
  | O => None
  | S fuel =>
      let rem := Z.rem ap 10 in
      let ap := Z.quot ap 10 in
      if negb (ap =? 0) then r ← inv_digits fuel ap; Some (48 + rem :: r) else Some [48 + rem]
  end.

(** [if (len++ >= buflen) return NULL; *rp++ = c]; the answer is [None] outside
    of the buffer, [Some (inl buf)] for NULL. *)
Definition ntoa_put (c buflen : Z) (st : list Z * Z * Z) : option (list Z + list Z * Z * Z) :=
  let '(buf, rp, len) := st in
  if buflen <=? len then Some (inl buf)
  else buf ← mem_write buf rp [c]; Some (inr (buf, rp + 1, len + 1)).

Fixpoint ntoa_puts (cs : list Z) (buflen : Z) (st : list Z * Z * Z) : option (list Z + list Z * Z * Z) :=
  match cs with
  | [] => Some (inr st)
  | c :: cs =>
      r ← ntoa_put c buflen st;
      match r with
      | inl buf => Some (inl buf)
      | inr st => ntoa_puts cs buflen st
      end
  end.

(** The loop over the bytes of the address. *)
Fixpoint ntoa_loop (bytes : list Z) (buflen : Z) (st : list Z * Z * Z) : option (list Z + list Z * Z * Z) :=
  match bytes with
  | [] => Some (inr st)
  | ap :: bytes =>
      inv ← inv_digits 3 ap;
      r ← ntoa_puts (reverse inv) buflen st;
      match r with
      | inl buf => Some (inl buf)
      | inr st =>
          r ← ntoa_put 46 buflen st;
          match r with
          | inl buf => Some (inl buf)
          | inr st => ntoa_loop bytes buflen st
          end
      end
  end.

(** Whether the result is not NULL, and the memory at [buf]. *)
Definition ip4addr_ntoa_r (addr : Z) (buf : list Z) (buflen : Z) : option (bool * list Z) :=
  r ← ntoa_loop [byte_of addr 0; byte_of addr 1; byte_of addr 2; byte_of addr 3] buflen (buf, 0, 0);
  match r with
  | inl buf => Some (false, buf)
  | inr (buf, rp, _) => buf ← mem_write buf (rp - 1) [0]; Some (true, buf)
  end.

Definition IP4ADDR_STRLEN_MAX : Z := 16.

(** [str] is the static buffer. *)
Definition ip4addr_ntoa (addr : Z) (str : list Z) : option (bool * list Z) :=
  ip4addr_ntoa_r addr str IP4ADDR_STRLEN_MAX.
