(* ===== verification/Ip4AddrThm.v ===== *)
(** IPv4 addresses as text: printing, parsing, and that they agree; netmasks
    and broadcast addresses.
    At the end, what [ip4_addr.c] promises. *)
From S2P Require Import Prelude Bits Def IpAddr NetifRec Netif Ip4Addr.

(** A check of all 256 bytes. *)
Lemma byte_forall (P : Z -> bool) : forallb P (seqZ 0 256) = true -> forall b, byte_ok b -> P b = true.
Proof.
  intros H b Hb. rewrite forallb_forall in H. apply H. apply list_elem_of_In, elem_of_seqZ. unfold byte_ok in Hb; lia.
Qed.

(** ** Printing *)

(** The decimal digits of a byte. *)
Definition dec_byte (b : Z) : list Z :=
  if b <? 10 then [48 + b]
  else if b <? 100 then [48 + b / 10; 48 + b mod 10]
  else [48 + b / 100; 48 + (b / 10) mod 10; 48 + b mod 10].

Lemma dec_byte_len b : 1 <= zlen (dec_byte b) <= 3.
Proof. unfold dec_byte. unfold zlen. repeat case_match; cbn [length]; lia. Qed.

Lemma inv_digits_ok b : byte_ok b -> inv_digits 3 b = Some (reverse (dec_byte b)).
Proof.
  intros Hb. apply (bool_decide_eq_true_1 (inv_digits 3 b = Some (reverse (dec_byte b)))).
  revert b Hb. apply byte_forall. by vm_compute.
Qed.

(** Dotted decimal. *)
Definition ip4_text (a : Z) : list Z :=
  dec_byte (byte_of a 0) ++ 46 :: dec_byte (byte_of a 1) ++ 46 :: dec_byte (byte_of a 2) ++ 46 :: dec_byte (byte_of a 3).

Lemma ip4_text_len a : 7 <= zlen (ip4_text a) <= 15.
Proof.
  unfold ip4_text. repeat rewrite ?zlen_app, ?zlen_cons.
  pose proof (dec_byte_len (byte_of a 0)). pose proof (dec_byte_len (byte_of a 1)).
  pose proof (dec_byte_len (byte_of a 2)). pose proof (dec_byte_len (byte_of a 3)). lia.
Qed.

Lemma ntoa_puts_app cs ds buflen : forall st,
  ntoa_puts (cs ++ ds) buflen st =
    (r ← ntoa_puts cs buflen st; match r with inl buf => Some (inl buf) | inr st => ntoa_puts ds buflen st end).
Proof.
  induction cs as [|c cs IH]; intros st; cbn [app ntoa_puts]; [done|].
  destruct (ntoa_put c buflen st) as [[buf|st']|]; cbn [mbind option_bind]; [done|apply IH|done].
Qed.

Lemma ntoa_loop_puts bytes buflen : forall st, Forall byte_ok bytes ->
  ntoa_loop bytes buflen st = ntoa_puts (concat ((fun b => dec_byte b ++ [46]) <$> bytes)) buflen st.
Proof.
  induction bytes as [|b bytes IH]; intros st Hb; [done|]. apply Forall_cons in Hb as [Hb1 Hb2].
  cbn [ntoa_loop fmap list_fmap concat]. rewrite inv_digits_ok by done. cbn [mbind option_bind].
  rewrite reverse_involutive, <- app_assoc, ntoa_puts_app. destruct (ntoa_puts (dec_byte b) buflen st) as [[buf|st1]|]; try done.
  cbn [mbind option_bind app ntoa_puts]. destruct (ntoa_put 46 buflen st1) as [[buf|st2]|]; cbn [mbind option_bind]; try done.
  by apply IH.
Qed.

(** Enough room: the characters go behind what is there. *)
Lemma ntoa_puts_fit cs buflen : forall out mid rest,
  length mid = length cs -> zlen out + zlen cs <= buflen ->
  ntoa_puts cs buflen (out ++ mid ++ rest, zlen out, zlen out) =
    Some (inr (out ++ cs ++ rest, zlen out + zlen cs, zlen out + zlen cs)).
Proof.
  induction cs as [|c cs IH]; intros out [|m mid] rest Hl Hb; try done.
  - cbn [ntoa_puts app]. change (zlen (@nil Z)) with 0. by rewrite Z.add_0_r.
  - rewrite zlen_cons in Hb. pose proof (zlen_nonneg cs). cbn [ntoa_puts]. unfold ntoa_put. destruct (Z.leb_spec buflen (zlen out)); [lia|].
    assert (E : mem_write (out ++ (m :: mid) ++ rest) (zlen out) [c] = Some ((out ++ [c]) ++ mid ++ rest)).
    { pose proof (zlen_nonneg out). pose proof (zlen_nonneg (mid ++ rest)). rewrite mem_write1.
      - rewrite ztake_app_le by lia. rewrite ztake_ge by lia. rewrite zdrop_app_ge by lia. rewrite Z.add_simpl_l, <- app_assoc. done.
      - rewrite zlen_app, <- app_comm_cons, zlen_cons. lia. }
    rewrite E. cbn [mbind option_bind].
    replace (zlen out + 1) with (zlen (out ++ [c])) by (rewrite zlen_app; done).
    assert (Hl' : length mid = length cs) by (cbn in Hl; lia).
    assert (Hz : zlen (out ++ [c]) + zlen cs <= buflen) by (rewrite zlen_app; change (zlen [c]) with 1; lia).
    rewrite (IH (out ++ [c]) mid rest Hl' Hz).
    rewrite <- app_assoc, zlen_app. change (zlen [c]) with 1. by rewrite (zlen_cons c cs), Z.add_assoc.
Qed.

(** Too little room: NULL, and nothing past the given length is touched. *)
Lemma ntoa_puts_short cs buflen : forall buf n,
  0 <= n <= buflen -> buflen < n + zlen cs -> buflen <= zlen buf ->
  exists buf', ntoa_puts cs buflen (buf, n, n) = Some (inl buf') /\ zdrop buflen buf' = zdrop buflen buf /\ zlen buf' = zlen buf.
Proof.
  induction cs as [|c cs IH]; intros buf n Hn Hs Hb.
  { change (zlen (@nil Z)) with 0 in Hs. lia. }
  rewrite zlen_cons in Hs. cbn [ntoa_puts]. unfold ntoa_put. destruct (Z.leb_spec buflen n); [by exists buf|].
  rewrite mem_write1 by lia. cbn [mbind option_bind]. set (b1 := ztake n buf ++ _).
  assert (Hl1 : zlen b1 = zlen buf).
  { unfold b1. rewrite zlen_app, zlen_cons, zlen_ztake, zlen_zdrop by lia. lia. }
  destruct (IH b1 (n + 1)) as (b2 & E & Hd & Hl2); [lia..|]. exists b2. split; [exact E|]. split; [|lia].
  rewrite Hd. unfold b1. rewrite zdrop_app_ge by (rewrite zlen_ztake; lia). rewrite zlen_ztake by lia.
  change (c :: zdrop (n + 1) buf) with ([c] ++ zdrop (n + 1) buf). rewrite zdrop_app_ge by (change (zlen [c]) with 1; lia).
  change (zlen [c]) with 1. rewrite zdrop_zdrop by lia. f_equal. lia.
Qed.

Lemma ntoa_r_ok a buf buflen :
  0 <= buflen <= zlen buf ->
  if zlen (ip4_text a) <? buflen
  then ip4addr_ntoa_r a buf buflen = Some (true, ip4_text a ++ 0 :: zdrop (zlen (ip4_text a) + 1) buf)
  else exists buf', ip4addr_ntoa_r a buf buflen = Some (false, buf') /\ zdrop buflen buf' = zdrop buflen buf.
Proof.
  intros Hb. unfold ip4addr_ntoa_r. rewrite ntoa_loop_puts by (rewrite !Forall_cons; split_and!; auto using Forall_nil_2 with cint).
  assert (Et : concat ((fun b => dec_byte b ++ [46]) <$> [byte_of a 0; byte_of a 1; byte_of a 2; byte_of a 3]) = ip4_text a ++ [46]).
  { unfold ip4_text. cbn [fmap list_fmap concat]. by rewrite app_nil_r, <- !app_assoc, <- !app_comm_cons, <- !app_assoc, <- !app_comm_cons, <- app_assoc. }
  rewrite Et. set (T := ip4_text a). pose proof (ip4_text_len a) as HT. fold T in HT.
  assert (HT1 : zlen (T ++ [46]) = zlen T + 1) by (rewrite zlen_app; done).
  destruct (Z.ltb_spec (zlen T) buflen).
  - pose proof (ntoa_puts_fit (T ++ [46]) buflen [] (ztake (zlen T + 1) buf) (zdrop (zlen T + 1) buf)) as H1.
    cbn [app] in H1. rewrite ztake_zdrop in H1. change (zlen (@nil Z)) with 0 in H1. rewrite !Z.add_0_l in H1. rewrite H1.
    + cbn [mbind option_bind]. rewrite HT1, Z.add_simpl_r, <- app_assoc. cbn [app].
      rewrite mem_write1 by (rewrite zlen_app, zlen_cons; pose proof (zlen_nonneg (zdrop (zlen T + 1) buf)); lia).
      cbn [mbind option_bind]. rewrite ztake_app_le, ztake_ge by lia. rewrite zdrop_app_ge by lia. by rewrite Z.add_simpl_l.
    + apply Nat2Z.inj. fold (zlen (T ++ [46])). fold (zlen (ztake (zlen T + 1) buf)). rewrite HT1, zlen_ztake; lia.
    + rewrite HT1. lia.
  - destruct (ntoa_puts_short (T ++ [46]) buflen buf 0) as (b' & -> & Hd & _); [lia..|]. by exists b'.
Qed.

(** ** Parsing *)
Lemma isdigit_dec d : 0 <= d < 10 -> isdigit (48 + d) = true.
Proof. intros. unfold isdigit. by zbool. Qed.

Lemma aton_digit cp d base val :
  0 <= d < 10 -> aton_digits (48 + d :: cp) base val = aton_digits cp base (u32 (val * base + d)).
Proof. intros Hd. cbn [aton_digits]. rewrite isdigit_dec by done. do 2 f_equal. lia. Qed.

(** A character that ends a number in any base. *)
Definition ends_number (c : Z) : Prop := isxdigit c = false /\ c <> 120 /\ c <> 88.

Lemma ends_not_digit c : ends_number c -> isdigit c = false.
Proof. intros (H & _). unfold isxdigit in H. by destruct (isdigit c). Qed.

Lemma aton_digits_end c r base val : ends_number c -> aton_digits (c :: r) base val = Some (val, c :: r).
Proof. intros H. cbn [aton_digits]. rewrite ends_not_digit by done. destruct H as (-> & _). by rewrite andb_false_r. Qed.

(** A decimal byte is read back, whatever comes after it. *)
Lemma aton_byte b c r :
  byte_ok b -> ends_number c ->
  isdigit (default 0 (head (dec_byte b))) = true /\
  ('(base, cp) ← aton_base (dec_byte b ++ c :: r); aton_digits cp base 0) = Some (b, c :: r).
Proof.
  intros Hb Hc. unfold byte_ok in Hb. unfold dec_byte.
  assert (Hne : forall d, d <> 0 -> (48 + d =? 48) = false) by (intros; apply Z.eqb_neq; lia).
  destruct (Z.ltb_spec b 10); [|destruct (Z.ltb_spec b 100)].
  - cbn [head default app]. split; [apply isdigit_dec; lia|]. unfold aton_base. destruct (decide (b = 0)) as [->|Hn].
    + destruct Hc as (H1 & H2 & H3). change (48 + 0 =? 48) with true. cbv iota.
      destruct (Z.eqb_spec c 120), (Z.eqb_spec c 88); try done. cbn [orb mbind option_bind]. by apply aton_digits_end.
    + rewrite Hne by done. cbn [mbind option_bind]. rewrite aton_digit, aton_digits_end by (done || lia). rewrite u32_small; [done|lia].
  - cbn [head default app]. pose proof (Z.div_mod b 10 ltac:(lia)). pose proof (Z.mod_pos_bound b 10 ltac:(lia)).
    assert (1 <= b / 10 < 10) by lia. split; [apply isdigit_dec; lia|]. unfold aton_base. rewrite Hne by lia. cbn [mbind option_bind].
    rewrite !aton_digit, aton_digits_end by (done || lia). rewrite (u32_small (0 * 10 + _)) by lia.
    rewrite u32_small by lia. do 2 f_equal. lia.
  - cbn [head default app]. pose proof (Z.div_mod b 10 ltac:(lia)). pose proof (Z.mod_pos_bound b 10 ltac:(lia)).
    pose proof (Z.div_mod (b / 10) 10 ltac:(lia)). pose proof (Z.mod_pos_bound (b / 10) 10 ltac:(lia)).
    assert (E : b / 100 = b / 10 / 10) by (rewrite Z.div_div; [done|lia|lia]). rewrite E.
    assert (1 <= b / 10 / 10 < 10) by lia. split; [apply isdigit_dec; lia|]. unfold aton_base. rewrite Hne by lia. cbn [mbind option_bind].
    rewrite !aton_digit, aton_digits_end by (done || lia). rewrite (u32_small (0 * 10 + _)) by lia.
    rewrite (u32_small ((0 * 10 + _) * 10 + _)) by lia. rewrite u32_small by lia. do 2 f_equal. lia.
Qed.

Lemma dot_ends : ends_number 46.
Proof. by vm_compute. Qed.

Lemma dec_byte_head b : exists c r, dec_byte b = c :: r.
Proof. unfold dec_byte. repeat case_match; eauto. Qed.

(** One turn of the outer loop on a decimal byte. *)
Lemma aton_step fuel b c r parts :
  byte_ok b -> ends_number c ->
  aton_loop (S fuel) (dec_byte b ++ c :: r) parts =
    if c =? 46 then if 3 <=? zlen parts then Some None else aton_loop fuel r (parts ++ [b])
    else Some (Some (parts, b, c :: r)).
Proof.
  intros Hb Hc. destruct (aton_byte b c r Hb Hc) as [Hd E]. cbn [aton_loop].
  destruct (dec_byte_head b) as (c0 & r0 & E0). rewrite E0 in Hd, E |- *. change (isdigit c0 = true) in Hd. cbn [app] in *. rewrite Hd. cbn [negb].
  destruct (aton_base (c0 :: r0 ++ c :: r)) as [[base cp]|]; [|done]. cbn [mbind option_bind] in *. rewrite E. done.
Qed.

(** A dotted text followed by a character that may end it. *)
Lemma aton_text a c r :
  0 <= a < 2 ^ 32 -> ends_number c -> c <> 46 -> c = 0 \/ isspace c = true ->
  ip4addr_aton (ip4_text a ++ c :: r) = Some (Some a).
Proof.
  intros Ha Hc Hdot Hend. unfold ip4addr_aton, aton_fuel, ip4_text.
  rewrite <- !app_assoc, <- !app_comm_cons, <- !app_assoc, <- !app_comm_cons, <- !app_assoc, <- !app_comm_cons.
  rewrite !aton_step by auto using dot_ends with cint. change (46 =? 46) with true. cbv iota.
  change (3 <=? zlen (@nil Z)) with false. change (3 <=? zlen ([] ++ [byte_of a 0])) with false.
  change (3 <=? zlen (([] ++ [byte_of a 0]) ++ [byte_of a 1])) with false. cbv iota.
  destruct (Z.eqb_spec c 46); [done|]. cbn [mbind option_bind lookup list_lookup app].
  assert (E : negb (c =? 0) && negb (isspace c) = false).
  { destruct Hend as [-> | ->]; [done|]. by rewrite andb_false_r. }
  rewrite E. cbn [aton_concoct].
  pose proof (byte_of_range a 0). pose proof (byte_of_range a 1). pose proof (byte_of_range a 2). pose proof (byte_of_range a 3).
  destruct (Z.ltb_spec 0xff (byte_of a 0)), (Z.ltb_spec 0xff (byte_of a 1)), (Z.ltb_spec 0xff (byte_of a 2)), (Z.ltb_spec 0xff (byte_of a 3)); try lia.
  cbn [orb fmap option_fmap option_map]. do 2 f_equal. rewrite !shl_mul by lia. rewrite !u32_small by lia.
  set (b0 := byte_of a 0) in *. set (b1 := byte_of a 1) in *. set (b2 := byte_of a 2) in *. set (b3 := byte_of a 3) in *.
  assert (Ev : b3 .| (b0 * 2 ^ 24 .| b1 * 2 ^ 16 .| b2 * 2 ^ 8) = of_bytes b3 b2 b1 b0).
  { rewrite <- !shl_mul by lia.
    transitivity (((b3 .| (b2 .<< 8)) .| (b1 .<< 16)) .| (b0 .<< 24)).
    - apply Z.bits_inj. intros k. rewrite !Z.lor_spec.
      by destruct (Z.testbit b3 k), (Z.testbit (b2 .<< 8) k), (Z.testbit (b1 .<< 16) k), (Z.testbit (b0 .<< 24) k).
    - rewrite (lor_add_shl b3 b2 8) by lia. rewrite (lor_add_shl _ b1 16) by lia. rewrite (lor_add_shl _ b0 24) by lia.
      unfold of_bytes. lia. }
  rewrite Ev, htonl_of_bytes by auto with cint. symmetry. apply u32_as_bytes. done.
Qed.

(** The parser always answers on a string with its NUL. *)
Lemma elem_tail (c : Z) r : 0 ∈ c :: r -> c <> 0 -> 0 ∈ r.
Proof. intros [E|?]%elem_of_cons ?; [by subst|done]. Qed.

Lemma digit_not_nul c : isdigit c = true -> c <> 0.
Proof. by intros H ->. Qed.

Lemma aton_digits_total cp : forall base val, 0 ∈ cp -> exists v cp', aton_digits cp base val = Some (v, cp') /\ 0 ∈ cp'.
Proof.
  induction cp as [|c r IH]; intros base val H; [by apply elem_of_nil in H|]. cbn [aton_digits].
  destruct (isdigit c) eqn:Hd; [apply IH, (elem_tail c); auto using digit_not_nul|].
  destruct ((base =? 16) && isxdigit c) eqn:Hx; [|eauto]. apply IH, (elem_tail c); [done|].
  intros ->. by rewrite andb_false_r in Hx.
Qed.

Lemma aton_base_total cp c r : cp = c :: r -> 0 ∈ cp -> isdigit c = true -> exists b cp', aton_base cp = Some (b, cp') /\ 0 ∈ cp'.
Proof.
  intros -> H Hd. cbn [aton_base]. assert (Hr : 0 ∈ r) by (apply (elem_tail c); auto using digit_not_nul).
  destruct (Z.eqb_spec c 48); [|eauto]. destruct r as [|c' r']; [by apply elem_of_nil in Hr|].
  destruct (Z.eqb_spec c' 120), (Z.eqb_spec c' 88); cbn [orb]; subst; eauto 6 using elem_tail.
Qed.

Lemma aton_loop_total fuel : forall cp parts, 0 ∈ cp -> zlen parts + Z.of_nat fuel = 4 -> (fuel <> 0)%nat ->
  exists r, aton_loop fuel cp parts = Some r /\ forall ps v cp', r = Some (ps, v, cp') -> 0 ∈ cp'.
Proof.
  induction fuel as [|fuel IH]; intros cp parts H Hp Hf; [done|].
  destruct cp as [|c r]; [by apply elem_of_nil in H|]. cbn [aton_loop].
  destruct (isdigit c) eqn:Hd; cbn [negb]; [|by eexists].
  destruct (aton_base_total (c :: r) c r eq_refl H Hd) as (b & cp1 & -> & H1). cbn [mbind option_bind].
  destruct (aton_digits_total cp1 b 0 H1) as (v & cp2 & -> & H2). cbn [mbind option_bind].
  destruct cp2 as [|c2 r2]; [by apply elem_of_nil in H2|]. destruct (Z.eqb_spec c2 46) as [->|].
  - destruct (Z.leb_spec 3 (zlen parts)); [by eexists|]. apply IH; [by apply (elem_tail 46)| |lia].
    rewrite zlen_app. change (zlen [v]) with 1. lia.
  - eexists; split; [done|]. by intros ps v' cp' [= <- <- <-].
Qed.

Lemma aton_total cp : 0 ∈ cp -> exists r, ip4addr_aton cp = Some r.
Proof.
  intros H. unfold ip4addr_aton.
  destruct (aton_loop_total aton_fuel cp [] H) as (r & -> & Hr); [done|done|]. cbn [mbind option_bind].
  destruct r as [[[ps v] cp']|]; [|by eexists]. specialize (Hr ps v cp' eq_refl).
  destruct cp' as [|c r]; [by apply elem_of_nil in Hr|]. cbn. case_match; eauto.
Qed.

(** ** Netmasks *)

(** A word whose ones are the bits from [k] up. *)
Lemma ones_from k h :
  0 <= k <= 32 -> 0 <= h < 2 ^ 32 ->
  h = 2 ^ 32 - 2 ^ k <-> (forall j, 0 <= j < 32 -> Z.testbit h j = (k <=? j)).
Proof.
  intros Hk Hh. assert (E : 2 ^ 32 - 2 ^ k = Z.ones (32 - k) .<< k).
  { rewrite shl_mul by lia. rewrite Z.ones_equiv. unfold Z.pred. rewrite Z.mul_add_distr_r, <- Z.pow_add_r by lia.
    replace (32 - k + k) with 32 by lia. lia. }
  assert (Hb : forall j, 0 <= j < 32 -> Z.testbit (2 ^ 32 - 2 ^ k) j = (k <=? j)).
  { intros j Hj. rewrite E, Z.shiftl_spec by lia. destruct (Z.leb_spec k j); [apply Z.ones_spec_low; lia|].
    apply Z.testbit_neg_r. lia. }
  split; [by intros ->|]. intros H. apply Z.bits_inj'. intros j Hj. destruct (Z.ltb_spec j 32).
  - by rewrite H, Hb by lia.
  - pose proof (Z.pow_pos_nonneg 2 k ltac:(lia) ltac:(lia)). pose proof (Z.pow_le_mono_r 2 k 32 ltac:(lia) ltac:(lia)).
    assert (Hhigh : forall z, 0 <= z < 2 ^ 32 -> Z.testbit z j = false).
    { intros z Hz. destruct (decide (z = 0)) as [->|]; [apply Z.bits_0|]. apply Z.bits_above_log2; [lia|].
      apply Z.log2_lt_pow2; [lia|]. eapply Z.lt_le_trans; [apply Hz|]. apply Z.pow_le_mono_r; lia. }
    rewrite !Hhigh; [done|lia|lia].
Qed.

Lemma shr_pow2 i : (2 ^ Z.of_nat (S i)) .>> 1 = 2 ^ Z.of_nat i.
Proof. rewrite shr_div by lia. rewrite Nat2Z.inj_succ, Z.pow_succ_r by lia. rewrite Z.mul_comm. apply Z.div_mul. lia. Qed.

Lemma pow2_not0 i : (2 ^ Z.of_nat i =? 0) = false.
Proof. apply Z.eqb_neq. pose proof (Z.pow_pos_nonneg 2 (Z.of_nat i)). lia. Qed.

(** Where the first loop stops, from bit [i] down. *)
Lemma first_zero_ok nm i : forall fuel, (i + 2 <= fuel)%nat ->
  exists k, first_zero fuel nm (2 ^ Z.of_nat i) = Some (if k =? 0 then 0 else 2 ^ (k - 1)) /\
    0 <= k <= Z.of_nat i + 1 /\ (forall j, k <= j <= Z.of_nat i -> Z.testbit nm j = true) /\
    (k <> 0 -> Z.testbit nm (k - 1) = false).
Proof.
  induction i as [|i IH]; intros [|fuel] Hf; try lia; cbn [first_zero]; rewrite pow2_not0, testbit_land_pow by lia.
  - destruct (Z.testbit nm (Z.of_nat 0)) eqn:Hb; cbn [negb].
    + exists 0. split; [|split; [lia|split; [|done]]].
      * destruct fuel; [lia|]. reflexivity.
      * intros j Hj. by replace j with (Z.of_nat 0) by lia.
    + exists 1. split; [done|]. split; [lia|]. split; [intros; lia|done].
  - destruct (Z.testbit nm (Z.of_nat (S i))) eqn:Hb; cbn [negb].
    + rewrite shr_pow2. destruct (IH fuel) as (k & -> & Hk & Hs & Hz); [lia|]. exists k. split; [done|]. split; [lia|]. split; [|done].
      intros j Hj. destruct (decide (j = Z.of_nat (S i))) as [->|]; [done|]. apply Hs. lia.
    + exists (Z.of_nat (S i) + 1). split; [|split; [lia|split; [intros; lia|]]].
      * destruct (Z.eqb_spec (Z.of_nat (S i) + 1) 0); [lia|]. by rewrite Z.add_simpl_r.
      * intros _. by rewrite Z.add_simpl_r.
Qed.

Lemma no_ones_ok nm i : forall fuel, (i + 2 <= fuel)%nat ->
  exists b, no_ones fuel nm (2 ^ Z.of_nat i) = Some b /\
    (b = true <-> forall j, 0 <= j <= Z.of_nat i -> Z.testbit nm j = false).
Proof.
  induction i as [|i IH]; intros [|fuel] Hf; try lia; cbn [no_ones]; rewrite pow2_not0, testbit_land_pow by lia.
  - destruct (Z.testbit nm (Z.of_nat 0)) eqn:Hb; cbn [negb].
    + exists false. split; [done|]. split; [done|]. intros H. rewrite <- Hb. symmetry. apply H. lia.
    + destruct fuel; [lia|]. exists true. split; [done|]. split; [|done]. intros _ j Hj. by replace j with (Z.of_nat 0) by lia.
  - destruct (Z.testbit nm (Z.of_nat (S i))) eqn:Hb; cbn [negb].
    + exists false. split; [done|]. split; [done|]. intros H. rewrite <- Hb. symmetry. apply H. lia.
    + rewrite shr_pow2. destruct (IH fuel) as (b & -> & Hs); [lia|]. exists b. split; [done|]. rewrite Hs. split; intros H j Hj.
      * destruct (decide (j = Z.of_nat (S i))) as [->|]; [done|]. apply H. lia.
      * apply H. lia.
Qed.

Lemma netmask_valid_ok nm :
  exists b, ip4_addr_netmask_valid nm = Some b /\ (b = true <-> exists k, 0 <= k <= 32 /\ lwip_htonl nm = 2 ^ 32 - 2 ^ k).
Proof.
  unfold ip4_addr_netmask_valid. set (h := lwip_htonl nm). pose proof (htonl_range nm) as Hh. fold h in Hh.
  destruct (first_zero_ok h 31 mask_fuel) as (k & E & Hk & Hs & Hz); [unfold mask_fuel; lia|].
  change (2 ^ Z.of_nat 31) with (1 .<< 31) in E. rewrite E; cbn [mbind option_bind].
  assert (Huniq : forall k', 0 <= k' <= 32 -> h = 2 ^ 32 - 2 ^ k' -> k' = k).
  { intros k' Hk' Hb. pose proof (proj1 (ones_from k' h Hk' Hh) Hb) as Hbits.
    destruct (Z.lt_trichotomy k' k) as [Hlt|[?|Hlt]]; [|done|].
    - pose proof (Hbits (k - 1) ltac:(lia)) as H1. rewrite Hz in H1 by lia. symmetry in H1. apply Z.leb_gt in H1. lia.
    - pose proof (Hbits k ltac:(lia)) as H1. rewrite Hs in H1 by lia. symmetry in H1. apply Z.leb_le in H1. lia. }
  destruct (Z.eqb_spec k 0) as [Hk0|Hk0].
  - exists true. split; [reflexivity|]. split; [|done]. intros _. exists 0. split; [lia|]. apply ones_from; [lia|exact Hh|].
    intros j Hj. rewrite Hs by lia. symmetry. apply Z.leb_le. lia.
  - destruct (no_ones_ok h (Z.to_nat (k - 1)) mask_fuel) as (b & Eb & Hb); [unfold mask_fuel; lia|].
    rewrite Z2Nat.id in Eb, Hb by lia. rewrite Eb. exists b. split; [done|]. rewrite Hb. split.
    + intros H. exists k. split; [lia|]. apply ones_from; [lia|exact Hh|]. intros j Hj. destruct (Z.leb_spec k j).
      * apply Hs. lia.
      * apply H. lia.
    + intros (k' & Hk' & Hv) j Hj. pose proof (Huniq k' Hk' Hv) as ->. pose proof (proj1 (ones_from k h Hk' Hh) Hv) as Hbits.
      rewrite Hbits by lia. apply Z.leb_gt. lia.
Qed.

(** C40. Printing and parsing: [ip4addr_ntoa_r] into a buffer of [buflen] bytes
    writes the dotted decimal text and its NUL when they fit, and the text is
    parsed back to the address; otherwise it answers NULL and leaves
    everything past [buflen] alone. *)
Theorem ip4addr_text_roundtrip a buf buflen :
  0 <= a < 2 ^ 32 -> 0 <= buflen <= zlen buf ->
  if zlen (ip4_text a) <? buflen
  then exists buf', ip4addr_ntoa_r a buf buflen = Some (true, buf') /\
         buf' = ip4_text a ++ 0 :: zdrop (zlen (ip4_text a) + 1) buf /\ ip4addr_aton buf' = Some (Some a)
  else exists buf', ip4addr_ntoa_r a buf buflen = Some (false, buf') /\ zdrop buflen buf' = zdrop buflen buf.
Proof.
  intros Ha Hb. pose proof (ntoa_r_ok a buf buflen Hb) as H. destruct (zlen (ip4_text a) <? buflen); [|exact H].
  eexists. split; [exact H|]. split; [done|]. apply aton_text; [done|by vm_compute|lia|by left].
Qed.

Lemma ip4addr_text_roundtrip_witness :
  exists buf', ip4addr_ntoa_r (IP4_ADDR 10 0 200 7) (replicate 16 1) 16 = Some (true, buf') /\
    ip4addr_aton buf' = Some (Some (IP4_ADDR 10 0 200 7)).
Proof.
  destruct (ip4addr_text_roundtrip (IP4_ADDR 10 0 200 7) (replicate 16 1) 16) as (buf' & E & _ & H);
    [vm_compute; split; congruence|vm_compute; split; congruence|].
  exists buf'. split; [exact E|exact H].
Defined.

(** [ip4addr_aton] answers on every NUL-terminated string: it reads nothing
    past the NUL and follows at most three dots. *)
Theorem ip4addr_aton_terminates cp : 0 ∈ cp -> exists r, ip4addr_aton cp = Some r.
Proof. apply aton_total. Qed.

Lemma ip4addr_aton_terminates_witness : exists r, ip4addr_aton [49; 46; 46; 120; 0] = Some r.
Proof. apply (ip4addr_aton_terminates [49; 46; 46; 120; 0]). set_solver. Defined.

(** [ip4_addr_netmask_valid] answers 1 exactly for the 33 words that, in
    host order, are ones followed by zeros. *)
Theorem ip4_netmask_valid_spec nm :
  exists b, ip4_addr_netmask_valid nm = Some b /\ (b = true <-> exists k, 0 <= k <= 32 /\ lwip_htonl nm = 2 ^ 32 - 2 ^ k).
Proof. apply netmask_valid_ok. Qed.

Lemma land_mask24 z : z .& 0x00ffffff = z mod 2 ^ 24.
Proof. apply (land_mask 24); lia. Qed.

Lemma land_top8 z : 0 <= z < 2 ^ 32 -> z .& 0xff000000 = z / 2 ^ 24 * 2 ^ 24.
Proof.
  intros Hz. change 0xff000000 with (255 .<< 24). rewrite <- (shl_mul (z / 2 ^ 24) 24) by lia. rewrite <- shr_div by lia.
  apply Z.bits_inj'. intros n Hn. rewrite Z.land_spec. destruct (Z.ltb_spec n 24).
  - rewrite !(Z.shiftl_spec _ _ n) by lia. rewrite (Z.testbit_neg_r _ (n - 24)) by lia. rewrite andb_false_r.
    symmetry. apply Z.testbit_neg_r. lia.
  - rewrite !(Z.shiftl_spec _ _ n) by lia. rewrite Z.shiftr_spec by lia. replace (n - 24 + 24) with n by lia.
    destruct (Z.ltb_spec n 32).
    + change 255 with (Z.ones 8). rewrite Z.ones_spec_low by lia. apply andb_true_r.
    + change 255 with (Z.ones 8). rewrite Z.ones_spec_high by lia. rewrite andb_false_r. symmetry.
      destruct (decide (z = 0)) as [->|]; [apply Z.bits_0|]. apply Z.bits_above_log2; [lia|].
      apply Z.log2_lt_pow2; [lia|]. eapply Z.lt_le_trans; [apply Hz|]. apply Z.pow_le_mono_r; lia.
Qed.

(** On an interface with broadcast support and the mask 255.255.255.0 (as
    every tap has) the broadcast addresses are exactly 255.255.255.255,
    0.0.0.0, and the address of the interface's network that ends in 255, when
    it is not the interface's own. *)
Theorem tap_broadcast_addresses v addr :
  0 <= addr < 2 ^ 32 -> 0 <= nif_ip_addr v < 2 ^ 32 ->
  flag_set v NETIF_FLAG_BROADCAST = true -> nif_netmask v = IP4_ADDR 255 255 255 0 ->
  ip4_addr_isbroadcast_u32 addr v = true <->
    addr = 2 ^ 32 - 1 \/ addr = 0 \/
    (addr <> nif_ip_addr v /\ addr mod 2 ^ 24 = nif_ip_addr v mod 2 ^ 24 /\ addr / 2 ^ 24 = 255).
Proof.
  intros Ha Hi Hf Hm. unfold ip4_addr_isbroadcast_u32, ip4_addr_netcmp, IPADDR_ANY. rewrite Hf, Hm. cbn [negb].
  change (IP4_ADDR 255 255 255 0) with 0x00ffffff. change (not32 0x00ffffff) with 0xff000000.
  change (IPADDR_BROADCAST .& 0xff000000) with (255 * 2 ^ 24).
  rewrite land_top8, !land_mask24 by done.
  assert (En : not32 addr = 2 ^ 32 - 1 - addr).
  { unfold not32, Z.lnot, u32. symmetry. apply (Z.mod_unique_pos _ _ (-1)); lia. }
  rewrite En. destruct (Z.eqb_spec (2 ^ 32 - 1 - addr) 0), (Z.eqb_spec addr 0); cbn [orb]; try (split; [intros _|done]; lia).
  destruct (Z.eqb_spec addr (nif_ip_addr v)); [split; [done|lia]|].
  destruct (Z.eqb_spec (addr mod 2 ^ 24) (nif_ip_addr v mod 2 ^ 24)), (Z.eqb_spec (addr / 2 ^ 24 * 2 ^ 24) (255 * 2 ^ 24));
    cbn [andb]; split; try done; try lia; intros; right; right; split_and!; try done; lia.
Qed.

Definition ex_tap_netif : netif :=
  nset_flags NETIF_FLAG_BROADCAST (nset_netmask (IP4_ADDR 255 255 255 0) (nset_ip_addr (IP4_ADDR 10 0 0 1) zero_netif)).

Lemma tap_broadcast_addresses_witness : ip4_addr_isbroadcast_u32 (IP4_ADDR 10 0 0 255) ex_tap_netif = true.
Proof.
  apply (tap_broadcast_addresses ex_tap_netif (IP4_ADDR 10 0 0 255));
    [vm_compute; split; congruence|vm_compute; split; congruence|reflexivity|reflexivity|].
  right; right. split_and!; [vm_compute; congruence|reflexivity|reflexivity].
Defined.
