(* ===== verification/Timeouts.v ===== *)
(** [timeouts.c]: the one-shot timers of the stack, the cyclic timers built on
    them, and the clock arithmetic that survives the wrap-around of the 32-bit
    millisecond clock.

    The timer records are reachable only through [next_timeout], so the linked
    list is a list.  The clock, the allocator and the functions behind the
    handler pointers are the environment. *)
From S2P Require Import Prelude Bits.

(** The handlers the file itself installs, and those of other modules. *)
Inductive sys_timeout_handler := tcpip_tcp_timer | lwip_cyclic_timer | other_handler (h : Z).

#[export] Instance handler_eq_dec : EqDecision sys_timeout_handler.
Proof. solve_decision. Defined.

(** [struct sys_timeo]; a handler may be NULL. *)
Record sys_timeo := Timeo { t_time : Z; t_h : option sys_timeout_handler; t_arg : Z }.

#[export] Instance sys_timeo_eq_dec : EqDecision sys_timeo.
Proof. solve_decision. Defined.

Definition LWIP_MAX_TIMEOUT : Z := 0x7fffffff.

Definition TIME_LESS_THAN (t compare_to : Z) : bool := LWIP_MAX_TIMEOUT <? u32 (t - compare_to).

(** The intervals of [lwip_cyclic_timers]: TCP, IPv4 reassembly, ARP, neighbour
    discovery, IPv6 reassembly, multicast listener discovery. *)
Definition lwip_cyclic_timers : list Z := [250; 1000; 1000; 1000; 1000; 100].

Definition TCP_TMR_INTERVAL : Z := 250.

Definition SYS_TIMEOUTS_SLEEPTIME_INFINITE : Z := 0xffffffff.

(** What a handler call is seen to do: the handler and the due time. *)
Record tstate := TState {
  next_timeout : list sys_timeo;
  current_timeout_due_time : Z;
  tcpip_tcp_timer_active : bool;
  n_now : nat;      (** calls of [sys_now] so far *)
  n_malloc : nat;   (** calls of [memp_malloc] so far *)
  fired : list sys_timeo;
}.

Definition set_next (l : list sys_timeo) (s : tstate) : tstate :=
  TState l (current_timeout_due_time s) (tcpip_tcp_timer_active s) (n_now s) (n_malloc s) (fired s).

Definition set_active (b : bool) (s : tstate) : tstate :=
  TState (next_timeout s) (current_timeout_due_time s) b (n_now s) (n_malloc s) (fired s).

Section env.
  (** The readings of the clock, one after the other; which allocations
      succeed; whether there are TCP connections after the n-th handler call;
      the handlers of other modules. *)
  Context (sys_now : nat -> Z) (malloc_ok : nat -> bool) (tcp_pcbs : nat -> bool).
  Context (call_other : Z -> Z -> tstate -> tstate).

Definition read_clock (s : tstate) : Z * tstate :=
  (sys_now (n_now s),
   TState (next_timeout s) (current_timeout_due_time s) (tcpip_tcp_timer_active s) (S (n_now s)) (n_malloc s) (fired s)).

(** The loop behind the first entry. *)
Fixpoint insert_after (timeout : sys_timeo) (l : list sys_timeo) : list sys_timeo :=
  match l with
  | [] => []
  | t :: rest =>
      match rest with
      | [] => [t; timeout]
      | n :: _ =>
          if TIME_LESS_THAN (t_time timeout) (t_time n) then t :: timeout :: rest
          else t :: insert_after timeout rest
      end
  end.

Definition sys_timeout_abs (abs_time : Z) (handler : option sys_timeout_handler) (arg : Z) (s : tstate) : tstate :=
  let ok := malloc_ok (n_malloc s) in
  let s := TState (next_timeout s) (current_timeout_due_time s) (tcpip_tcp_timer_active s) (n_now s)
                  (S (n_malloc s)) (fired s) in
  if negb ok then s
  else
    let timeout := Timeo abs_time handler arg in
    match next_timeout s with
    | [] => set_next [timeout] s
    | t0 :: _ =>
        if TIME_LESS_THAN (t_time timeout) (t_time t0)
        then set_next (timeout :: next_timeout s) s
        else set_next (insert_after timeout (next_timeout s)) s
    end.

Definition sys_timeout (msecs : Z) (handler : option sys_timeout_handler) (arg : Z) (s : tstate) : tstate :=
  let '(now, s) := read_clock s in
  sys_timeout_abs (u32 (now + msecs)) handler arg s.

(** [tcpip_tcp_timer]; [tcp_tmr()] does not use the timers. *)
Definition do_tcp_timer (s : tstate) : tstate :=
  if tcp_pcbs (length (fired s))
  then sys_timeout TCP_TMR_INTERVAL (Some tcpip_tcp_timer) 0 s
  else set_active false s.

Definition tcp_timer_needed (s : tstate) : tstate :=
  if negb (tcpip_tcp_timer_active s) && tcp_pcbs (length (fired s))
  then sys_timeout TCP_TMR_INTERVAL (Some tcpip_tcp_timer) 0 (set_active true s)
  else s.

(** [lwip_cyclic_timer]; [arg] is the index into the table. *)
Definition do_cyclic_timer (arg : Z) (s : tstate) : option tstate :=
  interval_ms ← lwip_cyclic_timers !! Z.to_nat arg;
  let '(now, s) := read_clock s in
  let next_timeout_time := u32 (current_timeout_due_time s + interval_ms) in
  if TIME_LESS_THAN next_timeout_time now
  then Some (sys_timeout_abs (u32 (now + interval_ms)) (Some lwip_cyclic_timer) arg s)
  else Some (sys_timeout_abs next_timeout_time (Some lwip_cyclic_timer) arg s).

(** [for (i = (LWIP_TCP ? 1 : 0); ...)] over the table. *)
Fixpoint timeouts_init_loop (intervals : list Z) (i : Z) (s : tstate) : tstate :=
  match intervals with
  | [] => s
  | ms :: intervals => timeouts_init_loop intervals (i + 1) (sys_timeout ms (Some lwip_cyclic_timer) i s)
  end.

Definition sys_timeouts_init (s : tstate) : tstate := timeouts_init_loop (drop 1 lwip_cyclic_timers) 1 s.

(** The search; the list without the first match. *)
Fixpoint untimeout_loop (l : list sys_timeo) (handler : option sys_timeout_handler) (arg : Z) : list sys_timeo :=
  match l with
  | [] => []
  | t :: rest =>
      if bool_decide (t_h t = handler) && (t_arg t =? arg) then rest
      else t :: untimeout_loop rest handler arg
  end.

Definition sys_untimeout (handler : option sys_timeout_handler) (arg : Z) (s : tstate) : tstate :=
  set_next (untimeout_loop (next_timeout s) handler arg) s.

(** [handler(arg)]. *)
Definition call_handler (h : option sys_timeout_handler) (arg : Z) (s : tstate) : option tstate :=
  match h with
  | None => Some s
  | Some tcpip_tcp_timer => Some (do_tcp_timer s)
  | Some lwip_cyclic_timer => do_cyclic_timer arg s
  | Some (other_handler h) => Some (call_other h arg s)
  end.

(** Taking the first entry off the list, with its due time noted. *)
Definition take_first (t : sys_timeo) (rest : list sys_timeo) (s : tstate) : tstate :=
  TState rest (t_time t) (tcpip_tcp_timer_active s) (n_now s) (n_malloc s) (fired s ++ [t]).

Fixpoint check_loop (fuel : nat) (now : Z) (s : tstate) : option tstate :=
  match next_timeout s with
  | [] => Some s
  | t :: rest =>
      if TIME_LESS_THAN now (t_time t) then Some s
      else
        match fuel with
        | O => None
        | S fuel =>
            s ← call_handler (t_h t) (t_arg t) (take_first t rest s);
            check_loop fuel now s
        end
  end.

Definition sys_check_timeouts (fuel : nat) (s : tstate) : option tstate :=
  let '(now, s) := read_clock s in check_loop fuel now s.

Definition sys_restart_timeouts (s : tstate) : tstate :=
  match next_timeout s with
  | [] => s
  | t0 :: _ =>
      let '(now, s) := read_clock s in
      set_next ((fun t => Timeo (u32 (u32 (t_time t - t_time t0) + now)) (t_h t) (t_arg t)) <$> next_timeout s) s
  end.

Definition sys_timeouts_sleeptime (s : tstate) : Z * tstate :=
  match next_timeout s with
  | [] => (SYS_TIMEOUTS_SLEEPTIME_INFINITE, s)
  | t0 :: _ =>
      let '(now, s) := read_clock s in
      if TIME_LESS_THAN (t_time t0) now then (0, s) else (u32 (t_time t0 - now), s)
  end.

End env.
