(* ===== verification/TimeoutsThm.v ===== *)
(** The timer list stays sorted across the wrap-around of the clock, and
    [sys_check_timeouts] runs exactly the timers that are due, in order.
    At the end, what [timeouts.c] promises. *)
From Stdlib Require Import Sorting.Sorted.
From S2P Require Import Prelude Bits Timeouts.

(** ** Clock arithmetic *)

(** How far [t] is after [base] on the 32-bit clock. *)
Definition off (base t : Z) : Z := u32 (t - base).

Lemma off_range base t : 0 <= off base t < 2 ^ 32.
Proof. apply u32_range. Qed.

(** Within half a turn of a common base the comparison is the true one. *)
Lemma less_off base t c :
  off base t < 2 ^ 31 -> off base c < 2 ^ 31 -> TIME_LESS_THAN t c = (off base t <? off base c).
Proof.
  intros Ht Hc. unfold TIME_LESS_THAN, LWIP_MAX_TIMEOUT.
  pose proof (off_range base t). pose proof (off_range base c).
  assert (E : u32 (t - c) = u32 (off base t - off base c)).
  { unfold off, u32. rewrite <- Zminus_mod. f_equal. lia. }
  rewrite E. destruct (Z.ltb_spec (off base t) (off base c)).
  - replace (u32 (off base t - off base c)) with (off base t - off base c + 2 ^ 32).
    + apply Z.ltb_lt. lia.
    + unfold u32. apply (Z.mod_unique_pos _ _ (-1)); lia.
  - rewrite u32_small by lia. apply Z.ltb_ge. lia.
Qed.

Lemma off_add base t d : 0 <= d -> off base t + d < 2 ^ 32 -> off base (u32 (t + d)) = off base t + d.
Proof.
  intros Hd Hb. pose proof (off_range base t). unfold off in *. unfold u32 at 1 2.
  change 4294967296 with (2 ^ 32). rewrite Zminus_mod_idemp_l.
  replace (t + d - base) with (t - base + d) by lia. rewrite <- Zplus_mod_idemp_l. apply Z.mod_small.
  unfold u32 in *. change 4294967296 with (2 ^ 32) in *. lia.
Qed.

(** ** The sorted list *)
Section base.
  Context (base : Z).

(** When a timer is due, from [base]. *)
Definition due (t : sys_timeo) : Z := off base (t_time t).

Definition in_window (t : sys_timeo) : Prop := due t < 2 ^ 31.

Record sorted_from (l : list sys_timeo) : Prop := SortedFrom {
  sf_window : Forall in_window l;
  sf_sorted : StronglySorted (fun a b => due a <= due b) l;
}.

(** The insertion of [sys_timeout_abs]. *)
Definition inserted (timeout : sys_timeo) (l : list sys_timeo) : list sys_timeo :=
  match l with
  | [] => [timeout]
  | t0 :: _ => if TIME_LESS_THAN (t_time timeout) (t_time t0) then timeout :: l else insert_after timeout l
  end.

Lemma insert_after_split n l : forall t,
  in_window n -> sorted_from (t :: l) -> due t <= due n ->
  exists l1 l2, t :: l = l1 ++ l2 /\ insert_after n (t :: l) = l1 ++ n :: l2 /\
    Forall (fun u => due u <= due n) l1 /\ Forall (fun u => due n < due u) l2.
Proof.
  induction l as [|u l IH]; intros t Hn [Hw Hs] Hle; cbn [insert_after].
  { exists [t], []. split_and!; try done. by constructor. }
  apply Forall_cons in Hw as [Ht Hw]. apply StronglySorted_inv in Hs as [Hs Hts].
  pose proof (proj1 (Forall_cons _ _ _) Hw) as [Hu _]. rewrite (less_off base) by done. fold (due n) (due u).
  destruct (Z.ltb_spec (due n) (due u)) as [Hlt|Hge].
  - exists [t], (u :: l). split_and!; try done; [by constructor|].
    apply StronglySorted_inv in Hs as [_ Hus]. constructor; [done|].
    eapply Forall_impl; [exact Hus|]. intros w Hw'. cbv beta in *. lia.
  - destruct (IH u Hn) as (l1 & l2 & E1 & E2 & H1 & H2); [by constructor|done|].
    exists (t :: l1), l2. rewrite E1. split_and!; [done| |by constructor|done].
    change (t :: insert_after n (u :: l) = t :: l1 ++ n :: l2). by rewrite E2.
Qed.

(** A new timer goes behind those that are due no later, before the others. *)
Lemma inserted_split n l :
  in_window n -> sorted_from l ->
  exists l1 l2, l = l1 ++ l2 /\ inserted n l = l1 ++ n :: l2 /\
    Forall (fun u => due u <= due n) l1 /\ Forall (fun u => due n < due u) l2.
Proof.
  intros Hn Hs. destruct l as [|t l]; [exists [], []; split_and!; done|]. unfold inserted.
  pose proof (proj1 (Forall_cons _ _ _) (sf_window _ Hs)) as [Ht _]. rewrite (less_off base) by done. fold (due n) (due t).
  destruct (Z.ltb_spec (due n) (due t)); [|by apply insert_after_split].
  exists [], (t :: l). split_and!; try done. destruct Hs as [_ Hs]. apply StronglySorted_inv in Hs as [_ Hs].
  constructor; [done|]. eapply Forall_impl; [exact Hs|]. intros w Hw. cbv beta in *. lia.
Qed.

Lemma sorted_app_inv l1 l2 : StronglySorted (fun a b => due a <= due b) (l1 ++ l2) ->
  StronglySorted (fun a b => due a <= due b) l1 /\ StronglySorted (fun a b => due a <= due b) l2 /\
  Forall (fun a => Forall (fun b => due a <= due b) l2) l1.
Proof.
  induction l1 as [|t l1 IH]; cbn [app]; intros H; [split_and!; [constructor|done|constructor]|].
  apply StronglySorted_inv in H as [H Ht]. destruct (IH H) as (H1 & H2 & H3). apply Forall_app in Ht as [Ht1 Ht2].
  split_and!; [by constructor|done|by constructor].
Qed.

Lemma sorted_app_intro l1 l2 : StronglySorted (fun a b => due a <= due b) l1 ->
  StronglySorted (fun a b => due a <= due b) l2 -> Forall (fun a => Forall (fun b => due a <= due b) l2) l1 ->
  StronglySorted (fun a b => due a <= due b) (l1 ++ l2).
Proof.
  induction l1 as [|t l1 IH]; cbn [app]; intros H1 H2 H3; [done|].
  apply StronglySorted_inv in H1 as [H1 Ht]. apply Forall_cons in H3 as [H3 H4].
  constructor; [by apply IH|]. by apply Forall_app.
Qed.

Lemma inserted_sorted n l : in_window n -> sorted_from l -> sorted_from (inserted n l).
Proof.
  intros Hn Hs. destruct (inserted_split n l Hn Hs) as (l1 & l2 & -> & -> & H1 & H2). destruct Hs as [Hw Hs].
  apply Forall_app in Hw as [Hw1 Hw2]. apply sorted_app_inv in Hs as (S1 & S2 & S3).
  constructor; [apply Forall_app; split; [done|by constructor]|].
  apply sorted_app_intro; [done| |].
  - constructor; [done|]. eapply Forall_impl; [exact H2|]. intros u Hu. cbv beta in *. lia.
  - apply Forall_forall. intros a Ha. constructor.
    + by eapply (proj1 (Forall_forall _ _) H1).
    + by eapply (proj1 (Forall_forall _ _) S3).
Qed.

Lemma inserted_perm n l : in_window n -> sorted_from l -> inserted n l ≡ₚ n :: l.
Proof.
  intros Hn Hs. destruct (inserted_split n l Hn Hs) as (l1 & l2 & -> & -> & _). by rewrite Permutation_middle.
Qed.

Lemma inserted_sublist n l : in_window n -> sorted_from l -> sublist l (inserted n l).
Proof.
  intros Hn Hs. destruct (inserted_split n l Hn Hs) as (l1 & l2 & -> & -> & _).
  apply sublist_app; [done|]. by apply sublist_cons.
Qed.

Lemma sorted_tail t l : sorted_from (t :: l) -> sorted_from l.
Proof. intros [Hw Hs]. apply Forall_cons in Hw as [_ Hw]. apply StronglySorted_inv in Hs as [Hs _]. by constructor. Qed.

(** ** Running the due timers *)
Section run.
  Context (sys_now : nat -> Z) (malloc_ok : nat -> bool) (tcp_pcbs : nat -> bool).
  Context (call_other : Z -> Z -> tstate -> tstate).
  (** The time at which [sys_check_timeouts] starts; the clock does not go back
      behind it while handlers run, and stays in the window. *)
  Context (now : Z).
  Context (Hclock : forall i, off base now <= off base (sys_now i) < 2 ^ 31 - 1000).
  (** Handlers of other modules do not touch the timers. *)
  Context (Hquiet : forall h a s, next_timeout (call_other h a s) = next_timeout s /\ fired (call_other h a s) = fired s).

(** A cyclic timer's argument is an index into the table. *)
Definition wf_timer (t : sys_timeo) : Prop := t_h t = Some lwip_cyclic_timer -> 0 <= t_arg t < 6.

(** What a timer is, whenever it is due. *)
Definition key (t : sys_timeo) : option sys_timeout_handler * Z := (t_h t, t_arg t).

Lemma timeout_abs_eq a h arg s :
  next_timeout (sys_timeout_abs malloc_ok a h arg s) =
    (if malloc_ok (n_malloc s) then inserted (Timeo a h arg) (next_timeout s) else next_timeout s) /\
  fired (sys_timeout_abs malloc_ok a h arg s) = fired s.
Proof.
  unfold sys_timeout_abs. destruct (malloc_ok (n_malloc s)); cbn [negb]; [|done]. cbn [next_timeout].
  unfold inserted. cbn [t_time]. destruct (next_timeout s) as [|t0 l]; [done|]. by destruct (TIME_LESS_THAN a (t_time t0)).
Qed.

Lemma interval_bound arg iv : lwip_cyclic_timers !! Z.to_nat arg = Some iv -> 0 < iv <= 1000.
Proof.
  intros H. apply list_elem_of_lookup_2 in H. unfold lwip_cyclic_timers in H. rewrite !elem_of_cons, elem_of_nil in H.
  intuition lia.
Qed.

Lemma interval_of arg : 0 <= arg < 6 -> exists iv, lwip_cyclic_timers !! Z.to_nat arg = Some iv.
Proof. intros H. apply lookup_lt_is_Some. cbn. lia. Qed.

(** What a handler call leaves on the list: the rest, or the rest and one new
    timer that is not due before [now], and after it if the one that ran was due
    at [now]. *)
Record rearmed (t new : sys_timeo) : Prop := Rearmed {
  ra_window : in_window new;
  ra_now : off base now <= due new;
  ra_later : due t = off base now -> off base now < due new;
  ra_wf : wf_timer new;
}.

Lemma handler_ok t rest s :
  due t <= off base now -> wf_timer t ->
  exists s1 new, call_handler sys_now malloc_ok tcp_pcbs call_other (t_h t) (t_arg t) (take_first t rest s) = Some s1 /\
    fired s1 = fired s ++ [t] /\
    next_timeout s1 = match new with Some n => inserted n rest | None => rest end /\
    (forall n, new = Some n -> rearmed t n) /\
    ((forall i, malloc_ok i = true) -> t_h t = Some lwip_cyclic_timer -> exists n, new = Some n /\ key n = key t).
Proof using Hclock Hquiet.
  intros Hd Hwf. unfold call_handler. destruct (t_h t) as [[| |h]|] eqn:Eh.
  - unfold do_tcp_timer. destruct (tcp_pcbs _); [|exists (set_active false (take_first t rest s)), None; split_and!; done].
    unfold sys_timeout, read_clock. cbn [fst snd]. set (s0 := TState _ _ _ _ _ _). set (a := u32 _).
    pose proof (timeout_abs_eq a (Some tcpip_tcp_timer) 0 s0) as [E1 E2].
    eexists _, (if malloc_ok (n_malloc s0) then Some (Timeo a (Some tcpip_tcp_timer) 0) else None).
    split; [done|]. split; [exact E2|]. split; [rewrite E1; by destruct (malloc_ok _)|]. split; [|done].
    intros n Hn. destruct (malloc_ok _); [|done]. injection Hn as <-.
    pose proof (Hclock (n_now (take_first t rest s))) as Hc. unfold TCP_TMR_INTERVAL in a.
    assert (Ha : off base a = off base (sys_now (n_now (take_first t rest s))) + 250) by (apply off_add; lia).
    constructor; unfold in_window, due; cbn [t_time]; try lia. by intros ?.
  - destruct (interval_of (t_arg t) (Hwf Eh)) as [iv Hiv]. pose proof (interval_bound _ _ Hiv) as Hb.
    unfold do_cyclic_timer. rewrite Hiv; cbn [mbind option_bind]. unfold read_clock.
    set (s0 := TState _ _ _ _ _ _). set (now' := sys_now _). pose proof (Hclock (n_now (take_first t rest s))) as Hc. fold now' in Hc.
    change (current_timeout_due_time s0) with (t_time t).
    assert (Hn1 : off base (u32 (t_time t + iv)) = due t + iv) by (apply off_add; [lia|unfold due in *; lia]).
    assert (Hn2 : off base (u32 (now' + iv)) = off base now' + iv) by (apply off_add; lia).
    pose proof (off_range base (t_time t)) as Hr. fold (due t) in Hr.
    set (a := if TIME_LESS_THAN (u32 (t_time t + iv)) now' then u32 (now' + iv) else u32 (t_time t + iv)).
    assert (Ea : off base now <= off base a < 2 ^ 31 /\ (due t = off base now -> off base now < off base a)).
    { unfold a. rewrite (less_off base) by lia. rewrite Hn1. destruct (Z.ltb_spec (due t + iv) (off base now')); lia. }
    pose proof (timeout_abs_eq a (Some lwip_cyclic_timer) (t_arg t) s0) as [E1 E2].
    exists (sys_timeout_abs malloc_ok a (Some lwip_cyclic_timer) (t_arg t) s0),
      (if malloc_ok (n_malloc s0) then Some (Timeo a (Some lwip_cyclic_timer) (t_arg t)) else None).
    split; [unfold a; by destruct (TIME_LESS_THAN _ _)|]. split; [exact E2|].
    split; [rewrite E1; by destruct (malloc_ok _)|]. split.
    + intros n Hn. destruct (malloc_ok _); [|done]. injection Hn as <-.
      constructor; unfold in_window; cbn; [apply Ea|apply Ea|apply Ea|intros _; by apply Hwf].
    + intros Hall _. rewrite Hall. eexists; split; [done|]. unfold key; cbn. by rewrite Eh.
  - destruct (Hquiet h (t_arg t) (take_first t rest s)) as [E1 E2]. eexists _, None. split_and!; try done.
  - eexists _, None. split_and!; try done.
Qed.

(** Twice the timers that are late, once those due right now: a bound on the
    handler calls that are left. *)
Definition weight (t : sys_timeo) : nat :=
  if due t <? off base now then 2%nat else if due t =? off base now then 1%nat else 0%nat.

Definition weights (l : list sys_timeo) : nat := sum_list (weight <$> l).

Lemma weights_perm l k : l ≡ₚ k -> weights l = weights k.
Proof. intros H. unfold weights. by rewrite H. Qed.

Lemma weights_length l : (weights l <= 2 * length l)%nat.
Proof. induction l as [|t l IH]; cbn; [lia|]. unfold weights in IH. unfold weight at 1. repeat case_match; lia. Qed.

Lemma sorted_all_later t l : sorted_from (t :: l) -> off base now < due t -> Forall (fun u => off base now < due u) (t :: l).
Proof.
  intros [_ Hs] Ht. apply StronglySorted_inv in Hs as [_ Hs]. constructor; [done|].
  eapply Forall_impl; [exact Hs|]. intros u Hu. cbv beta in *. lia.
Qed.

Definition is_due (t : sys_timeo) : Prop := due t <= off base now.

#[global] Instance is_due_dec t : Decision (is_due t) := _.

Lemma none_due l : Forall (fun u => off base now < due u) l -> filter is_due l = [].
Proof.
  induction 1 as [|u l Hu _ IH]; [done|]. rewrite filter_cons_False; [done|]. unfold is_due. lia.
Qed.

Lemma sublist_filter (l k : list sys_timeo) : sublist l k -> sublist (filter is_due l) (filter is_due k).
Proof.
  induction 1 as [|u l k _ IH|u l k _ IH]; [done| |].
  - rewrite !filter_cons. case_decide; [by apply sublist_skip|done].
  - rewrite (filter_cons _ u k). case_decide; [by apply sublist_cons|done].
Qed.

(** What [sys_check_timeouts] leaves and has run. *)
Record checked (s s' : tstate) (fs : list sys_timeo) : Prop := Checked {
  ck_sorted : sorted_from (next_timeout s');
  ck_wf : Forall wf_timer (next_timeout s');
  ck_later : Forall (fun u => off base now < due u) (next_timeout s');
  ck_fired : fired s' = fired s ++ fs;
  ck_all : sublist (filter is_due (next_timeout s)) fs;
  ck_due : Forall is_due fs;
  ck_order : StronglySorted (fun a b => due a <= due b) fs;
  ck_from : forall m, m <= off base now -> Forall (fun u => m <= due u) (next_timeout s) -> Forall (fun u => m <= due u) fs;
  ck_keys : (forall i, malloc_ok i = true) -> Forall (fun u => t_h u = Some lwip_cyclic_timer) (next_timeout s) ->
    key <$> next_timeout s' ≡ₚ key <$> next_timeout s;
}.

Lemma checked_nil s : sorted_from (next_timeout s) -> Forall wf_timer (next_timeout s) ->
  Forall (fun u => off base now < due u) (next_timeout s) -> checked s s [].
Proof. intros Hs Hw Hl. constructor; auto; try constructor. - by rewrite app_nil_r. - by rewrite none_due. Qed.

Lemma check_step s s1 s' t rest new fs :
  next_timeout s = t :: rest -> sorted_from (next_timeout s) -> due t <= off base now -> fired s1 = fired s ++ [t] ->
  next_timeout s1 = match new with Some n => inserted n rest | None => rest end ->
  (forall n, new = Some n -> rearmed t n) ->
  ((forall i, malloc_ok i = true) -> t_h t = Some lwip_cyclic_timer -> exists n, new = Some n /\ key n = key t) ->
  checked s1 s' fs -> checked s s' (t :: fs).
Proof.
  intros El Hs Hd Ef En Hra Hkey []. rewrite El in Hs. pose proof (sorted_tail t rest Hs) as Hrest.
  destruct Hs as [Hw Hs]. apply StronglySorted_inv in Hs as [_ Ht].
  assert (Hperm : next_timeout s1 ≡ₚ match new with Some n => n :: rest | None => rest end).
  { rewrite En. destruct new as [n|]; [|done]. apply inserted_perm; [by apply (ra_window _ _ (Hra n eq_refl))|done]. }
  assert (Hfrom : forall m, m <= off base now -> Forall (fun u => m <= due u) rest -> Forall (fun u => m <= due u) fs).
  { intros m Hm Hr. apply ck_from0; [done|]. rewrite Hperm. destruct new as [n|]; [|done].
    constructor; [|done]. pose proof (ra_now _ _ (Hra n eq_refl)). lia. }
  constructor; auto.
  - by rewrite ck_fired0, Ef, <- app_assoc.
  - rewrite El, filter_cons_True by done. apply sublist_skip. etrans; [|exact ck_all0]. apply sublist_filter. rewrite En.
    destruct new as [n|]; [|done]. apply inserted_sublist; [by apply (ra_window _ _ (Hra n eq_refl))|done].
  - constructor; [done|]. by apply Hfrom.
  - intros m Hm Hall. rewrite El in Hall. apply Forall_cons in Hall as [? ?]. constructor; [done|]. by apply Hfrom.
  - intros Hm Hc. rewrite El in Hc |- *. apply Forall_cons in Hc as [Hc1 Hc2]. destruct (Hkey Hm Hc1) as (n & -> & Hk).
    rewrite ck_keys0; [|done|]; cycle 1.
    + rewrite Hperm. constructor; [|done]. apply (f_equal fst) in Hk. cbn in Hk. congruence.
    + rewrite Hperm. cbn. by rewrite Hk.
Qed.

Lemma check_loop_ok fuel : forall s,
  sorted_from (next_timeout s) -> Forall wf_timer (next_timeout s) -> (weights (next_timeout s) <= fuel)%nat ->
  exists s' fs, check_loop sys_now malloc_ok tcp_pcbs call_other fuel now s = Some s' /\ checked s s' fs.
Proof using Hclock Hquiet.
  induction fuel as [|fuel IH]; intros s Hs Hw Hm; cbn [check_loop];
    (destruct (next_timeout s) as [|t rest] eqn:El; [exists s, []; split; [done|]; apply checked_nil; by rewrite El|]);
    pose proof (proj1 (Forall_cons _ _ _) (sf_window _ Hs)) as [Ht _]; pose proof (Hclock 0) as Hc0;
    rewrite (less_off base) by (done || lia); fold (due t);
    (destruct (Z.ltb_spec (off base now) (due t)) as [Hlt|Hge];
     [exists s, []; split; [done|]; apply checked_nil; rewrite El; auto using sorted_all_later|]).
  { exfalso. cbn in Hm. unfold weight in Hm at 1. destruct (Z.ltb_spec (due t) (off base now)), (Z.eqb_spec (due t) (off base now)); lia. }
  apply Forall_cons in Hw as [Hwt Hw]. pose proof (sorted_tail _ _ Hs) as Hrest.
  destruct (handler_ok t rest s Hge Hwt) as (s1 & new & -> & Ef & En & Hra & Hkey). cbn [mbind option_bind].
  assert (Hperm : next_timeout s1 ≡ₚ match new with Some n => n :: rest | None => rest end).
  { rewrite En. destruct new as [n|]; [|done]. apply inserted_perm; [by apply (ra_window _ _ (Hra n eq_refl))|done]. }
  destruct (IH s1) as (s' & fs & -> & Hck).
  - rewrite En. destruct new as [n|]; [|done]. apply inserted_sorted; [by apply (ra_window _ _ (Hra n eq_refl))|done].
  - rewrite Hperm. destruct new as [n|]; [|done]. constructor; [apply (ra_wf _ _ (Hra n eq_refl))|done].
  - rewrite (weights_perm _ _ Hperm). cbn in Hm. unfold weight in Hm at 1. destruct new as [n|].
    + pose proof (ra_now _ _ (Hra n eq_refl)) as H1. pose proof (ra_later _ _ (Hra n eq_refl)) as H2. cbn. unfold weight at 1.
      fold (weights rest) in *. unfold weights in *.
      destruct (Z.ltb_spec (due t) (off base now)), (Z.eqb_spec (due t) (off base now)),
        (Z.ltb_spec (due n) (off base now)), (Z.eqb_spec (due n) (off base now)); lia.
    + unfold weights in *. destruct (Z.ltb_spec (due t) (off base now)), (Z.eqb_spec (due t) (off base now)); lia.
  - exists s', (t :: fs). split; [done|]. eapply check_step; try done. by rewrite El.
Qed.

End run.
End base.

(** [sys_timeout] keeps the list sorted, also across the wrap-around of the
    clock: the new timer goes behind every timer that is due no later (so
    timers with the same due time run in the order in which they were set) and
    before the others; when there is no memory the list does not change. *)
Theorem sys_timeout_sorted sys_now malloc_ok base msecs h arg s :
  sorted_from base (next_timeout s) -> 0 <= msecs -> off base (sys_now (n_now s)) + msecs < 2 ^ 31 ->
  let l' := next_timeout (sys_timeout sys_now malloc_ok msecs h arg s) in
  let n := Timeo (u32 (sys_now (n_now s) + msecs)) h arg in
  sorted_from base l' /\
  if malloc_ok (n_malloc s)
  then exists l1 l2, next_timeout s = l1 ++ l2 /\ l' = l1 ++ n :: l2 /\
    Forall (fun u => due base u <= due base n) l1 /\ Forall (fun u => due base n < due base u) l2
  else l' = next_timeout s.
Proof.
  intros Hs Hm Hw. cbv zeta. set (n := Timeo _ h arg).
  assert (Hn : in_window base n).
  { unfold in_window, due; cbn [t_time n]. rewrite off_add by lia. lia. }
  unfold sys_timeout, read_clock. cbn [fst snd]. rewrite (proj1 (timeout_abs_eq malloc_ok _ h arg _)). cbn [n_malloc next_timeout].
  fold n. destruct (malloc_ok (n_malloc s)); [|done]. split; [by apply inserted_sorted|by apply inserted_split].
Qed.

Definition ex_t0 : tstate := TState [] 0 false 0 0 [].

Lemma sys_timeout_sorted_witness :
  sorted_from 0xfffffff0 (next_timeout (sys_timeout (fun _ => 0xfffffffa) (fun _ => true) 1000 None 7 ex_t0)).
Proof.
  refine (proj1 (sys_timeout_sorted (fun _ => 0xfffffffa) (fun _ => true) 0xfffffff0 1000 None 7 ex_t0 _ _ _)).
  - constructor; constructor.
  - lia.
  - vm_compute. reflexivity.
Defined.

(** C38. [sys_check_timeouts] terminates, with at most two handler calls for each
    timer on the list: it runs every timer that is due when it starts, in the
    order of their due times, and only such timers; those that are left, the
    cyclic timers re-armed meanwhile included, are due later; and when no
    allocation fails no cyclic timer is lost.  This holds as long as the clock
    does not go back, timers and clock stay within half a turn of the 32-bit
    clock, and the handlers of other modules leave the timers alone. *)
Theorem sys_check_timeouts_runs_due sys_now malloc_ok tcp_pcbs call_other base s :
  let now := sys_now (n_now s) in
  (forall i, off base now <= off base (sys_now i) < 2 ^ 31 - 1000) ->
  (forall h a s, next_timeout (call_other h a s) = next_timeout s /\ fired (call_other h a s) = fired s) ->
  sorted_from base (next_timeout s) -> Forall wf_timer (next_timeout s) ->
  exists s' fs, sys_check_timeouts sys_now malloc_ok tcp_pcbs call_other (2 * length (next_timeout s)) s = Some s' /\
    fired s' = fired s ++ fs /\ sublist (filter (is_due base now) (next_timeout s)) fs /\ Forall (is_due base now) fs /\
    StronglySorted (fun a b => due base a <= due base b) fs /\
    sorted_from base (next_timeout s') /\ Forall (fun u => off base now < due base u) (next_timeout s') /\
    ((forall i, malloc_ok i = true) -> Forall (fun u => t_h u = Some lwip_cyclic_timer) (next_timeout s) ->
     key <$> next_timeout s' ≡ₚ key <$> next_timeout s).
Proof.
  intros now Hclock Hquiet Hs Hw. unfold sys_check_timeouts, read_clock. set (s0 := TState _ _ _ _ _ _). fold now.
  destruct (check_loop_ok base sys_now malloc_ok tcp_pcbs call_other now Hclock Hquiet (2 * length (next_timeout s)) s0)
    as (s' & fs & E & []); [done|done|apply weights_length|].
  exists s', fs. split_and!; done.
Qed.

(** Two cyclic timers, one of them late, shortly before the clock wraps. *)
Definition ex_t1 : tstate :=
  TState [Timeo 0xfffffff8 (Some lwip_cyclic_timer) 5; Timeo 20 (Some lwip_cyclic_timer) 2] 0 false 0 0 [].

Lemma sys_check_timeouts_runs_due_witness :
  exists s' fs, sys_check_timeouts (fun _ => 2) (fun _ => true) (fun _ => false) (fun _ _ s => s) 4 ex_t1 = Some s' /\
    fired s' = fs /\ sublist [Timeo 0xfffffff8 (Some lwip_cyclic_timer) 5] fs.
Proof.
  destruct (sys_check_timeouts_runs_due (fun _ => 2) (fun _ => true) (fun _ => false) (fun _ _ s => s) 0xfffffff0 ex_t1)
    as (s' & fs & E & Ef & Hsub & _).
  - intros i. vm_compute. split; [discriminate|reflexivity].
  - intros h a s. split; reflexivity.
  - constructor; [repeat constructor|repeat constructor; vm_compute; discriminate].
  - repeat constructor; vm_compute; congruence.
  - exists s', fs. split; [exact E|]. split; [exact Ef|exact Hsub].
Defined.

(** The sleep time: infinite without timers; otherwise no timer is due
    before it has passed, and the first one is due when it has (now, if it is
    late). *)
Theorem sys_timeouts_sleeptime_spec sys_now base s :
  sorted_from base (next_timeout s) -> off base (sys_now (n_now s)) < 2 ^ 31 ->
  let r := (sys_timeouts_sleeptime sys_now s).1 in
  match next_timeout s with
  | [] => r = SYS_TIMEOUTS_SLEEPTIME_INFINITE
  | t0 :: _ =>
      r = Z.max 0 (due base t0 - off base (sys_now (n_now s))) /\
      (0 < r -> Forall (fun u => off base (sys_now (n_now s)) + r <= due base u) (next_timeout s))
  end.
Proof.
  intros Hs Hnow. cbv zeta. unfold sys_timeouts_sleeptime. destruct (next_timeout s) as [|t0 l] eqn:El; [done|].
  pose proof (proj1 (Forall_cons _ _ _) (sf_window _ _ Hs)) as [Ht _]. unfold read_clock.
  set (now := sys_now (n_now s)) in *. pose proof (off_range base now). pose proof (off_range base (t_time t0)) as Hr.
  rewrite (less_off base) by done. fold (due base t0) in *.
  assert (Eq : u32 (t_time t0 - now) = u32 (due base t0 - off base now)).
  { unfold due, off, u32. rewrite <- Zminus_mod. f_equal. lia. }
  destruct (Z.ltb_spec (due base t0) (off base now)); cbn [fst].
  - split; lia.
  - rewrite Eq, u32_small by (unfold in_window in *; lia). split; [lia|]. intros _. constructor; [lia|].
    destruct Hs as [_ Hs]. apply StronglySorted_inv in Hs as [_ Hs]. eapply Forall_impl; [exact Hs|].
    intros u Hu. cbv beta in *. lia.
Qed.

Lemma sys_timeouts_sleeptime_spec_witness : (sys_timeouts_sleeptime (fun _ => 0xfffffff2) ex_t1).1 = 6.
Proof.
  destruct (sys_timeouts_sleeptime_spec (fun _ => 0xfffffff2) 0xfffffff0 ex_t1) as [E _].
  - constructor; [repeat constructor|repeat constructor; vm_compute; discriminate].
  - vm_compute. reflexivity.
  - rewrite E. reflexivity.
Defined.

(** [sys_untimeout] takes the first timer with that handler and argument off
    the list and leaves the others. *)
Lemma sys_untimeout_first h arg s :
  (exists l1 t l2, next_timeout s = l1 ++ t :: l2 /\ key t = (h, arg) /\ Forall (fun u => key u <> (h, arg)) l1 /\
     next_timeout (sys_untimeout h arg s) = l1 ++ l2) \/
  (Forall (fun u => key u <> (h, arg)) (next_timeout s) /\ next_timeout (sys_untimeout h arg s) = next_timeout s).
Proof.
  unfold sys_untimeout; cbn [next_timeout set_next]. induction (next_timeout s) as [|t l IH]; [by right|]. cbn [untimeout_loop].
  unfold key in *. destruct (bool_decide (t_h t = h) && (t_arg t =? arg)) eqn:E.
  - apply andb_true_iff in E as [E1%bool_decide_eq_true_1 E2%Z.eqb_eq]. left. exists [], t, l. split_and!; try done. by subst.
  - assert (Hk : (t_h t, t_arg t) <> (h, arg)).
    { intros [= E1 E2]. rewrite E1, E2, bool_decide_eq_true_2, Z.eqb_refl in E by done. done. }
    destruct IH as [(l1 & u & l2 & -> & Hu & H1 & ->)|[H1 ->]].
    + left. exists (t :: l1), u, l2. split_and!; try done. by constructor.
    + right. split; [by constructor|done].
Qed.

(** Rebasing keeps the distances between the timers and makes the first one due
    now. *)
Lemma sys_restart_distance sys_now s t0 l t :
  next_timeout s = t0 :: l -> t ∈ next_timeout s ->
  exists t', t' ∈ next_timeout (sys_restart_timeouts sys_now s) /\ key t' = key t /\
    off (sys_now (n_now s)) (t_time t') = off (t_time t0) (t_time t).
Proof.
  intros El Ht. unfold sys_restart_timeouts. rewrite El. unfold read_clock. cbn [next_timeout set_next]. rewrite El in Ht |- *.
  eexists. split; [apply list_elem_of_fmap_2; exact Ht|]. split; [done|]. cbn [t_time]. unfold off, u32.
  rewrite Zminus_mod_idemp_l. rewrite Z.add_simpl_r. apply Z.mod_mod. lia.
Qed.
