(* ===== verification/XnetTap.v ===== *)
(** [xnet_tap.c]: the lwIP side of the glue.  Start and stop of the stack, the
    virtual Ethernet interface of each joined network, and the bridging of
    Ethernet frames between ZeroTier and lwIP.  First, the globals of the glue library:
    a tap slot [i] of [g_taps] is a record together with the [struct netif] embedded in it,
    which lives at the address [tap_netif i] of the interface memory, so that the pointers of
    lwIP into the slot keep their meaning when the slot is overwritten. *)
From S2P Require Import Prelude Pbuf IpAddr NetifRec Netif.
From S2P Require Import Prelude Bits Def IpAddr Pbuf PbufData NetifRec Netif.

(** [struct xnet_tap] (and its copy [xnet_tap_s]) without the netif. *)
Record xnet_tap := Tap {
  nwid : Z;
  mac : Z;
  mtu : Z;
  has_ip4 : bool;
  has_ip6 : bool;
  tap_ip4_addr : Z;
  tap_ip6_addr : list Z;
  netif_up : bool;
}.

(** [memset(tap, 0, sizeof( *tap ))]. *)
Definition zero_tap : xnet_tap := Tap 0 0 0 false false 0 (replicate 16 0) false.

Definition set_nwid (v : Z) (t : xnet_tap) : xnet_tap :=
  Tap v (mac t) (mtu t) (has_ip4 t) (has_ip6 t) (tap_ip4_addr t) (tap_ip6_addr t) (netif_up t).

Definition set_mac_mtu (m u : Z) (t : xnet_tap) : xnet_tap :=
  Tap (nwid t) m u (has_ip4 t) (has_ip6 t) (tap_ip4_addr t) (tap_ip6_addr t) (netif_up t).

Definition set_ip4 (a : Z) (t : xnet_tap) : xnet_tap :=
  Tap (nwid t) (mac t) (mtu t) true (has_ip6 t) a (tap_ip6_addr t) (netif_up t).

Definition set_ip6 (a : list Z) (t : xnet_tap) : xnet_tap :=
  Tap (nwid t) (mac t) (mtu t) (has_ip4 t) true (tap_ip4_addr t) a (netif_up t).

Definition set_netif_up (v : bool) (t : xnet_tap) : xnet_tap :=
  Tap (nwid t) (mac t) (mtu t) (has_ip4 t) (has_ip6 t) (tap_ip4_addr t) (tap_ip6_addr t) v.

Definition clear_addrs (t : xnet_tap) : xnet_tap :=
  Tap (nwid t) (mac t) (mtu t) false false (tap_ip4_addr t) (tap_ip6_addr t) (netif_up t).

Definition MAX_TAPS : Z := 4.

Definition MAX_TAP_ADDRS : Z := 4.

(** Calls out of the library. *)
Inductive xevent :=
| Callback (event_code : Z)
| ProcessFrame (nwid src dst etype : Z) (data : list Z)
| Sendto (fd : Z) (family : Z) (addrlen : Z) (data : list Z)
| CloseFd (fd : Z)
| Mkdir (path : list Z)
| ProcessWirePacket (data : list Z)
| ProcessBackgroundTasks
| NodeDelete.

Record xstate := XState {
  g_node : bool;
  g_callback : bool;
  g_running : bool;
  g_lwip_up : bool;
  g_node_online : bool;
  lwip_inited : bool;
  g_home : list Z;
  g_port : Z;
  g_udp4 : Z;
  g_udp6 : Z;
  g_taps : list xnet_tap;
  g_tap_count : Z;
  x_net : nstate;
  x_heap : heap;
  x_out : list xevent;
}.

Definition tap_netif (i : Z) : Z := i + 1.

Definition set_node (v : bool) (x : xstate) : xstate :=
  XState v (g_callback x) (g_running x) (g_lwip_up x) (g_node_online x) (lwip_inited x) (g_home x) (g_port x)
    (g_udp4 x) (g_udp6 x) (g_taps x) (g_tap_count x) (x_net x) (x_heap x) (x_out x).

Definition set_running (v : bool) (x : xstate) : xstate :=
  XState (g_node x) (g_callback x) v (g_lwip_up x) (g_node_online x) (lwip_inited x) (g_home x) (g_port x)
    (g_udp4 x) (g_udp6 x) (g_taps x) (g_tap_count x) (x_net x) (x_heap x) (x_out x).

Definition set_lwip_up (v : bool) (x : xstate) : xstate :=
  XState (g_node x) (g_callback x) (g_running x) v (g_node_online x) (lwip_inited x) (g_home x) (g_port x)
    (g_udp4 x) (g_udp6 x) (g_taps x) (g_tap_count x) (x_net x) (x_heap x) (x_out x).

Definition set_node_online (v : bool) (x : xstate) : xstate :=
  XState (g_node x) (g_callback x) (g_running x) (g_lwip_up x) v (lwip_inited x) (g_home x) (g_port x)
    (g_udp4 x) (g_udp6 x) (g_taps x) (g_tap_count x) (x_net x) (x_heap x) (x_out x).

Definition set_lwip_inited (v : bool) (x : xstate) : xstate :=
  XState (g_node x) (g_callback x) (g_running x) (g_lwip_up x) (g_node_online x) v (g_home x) (g_port x)
    (g_udp4 x) (g_udp6 x) (g_taps x) (g_tap_count x) (x_net x) (x_heap x) (x_out x).

Definition set_config (home : list Z) (port : Z) (x : xstate) : xstate :=
  XState (g_node x) true (g_running x) (g_lwip_up x) (g_node_online x) (lwip_inited x) home port
    (g_udp4 x) (g_udp6 x) (g_taps x) (g_tap_count x) (x_net x) (x_heap x) (x_out x).

Definition set_udp (u4 u6 : Z) (x : xstate) : xstate :=
  XState (g_node x) (g_callback x) (g_running x) (g_lwip_up x) (g_node_online x) (lwip_inited x) (g_home x)
    (g_port x) u4 u6 (g_taps x) (g_tap_count x) (x_net x) (x_heap x) (x_out x).

Definition set_taps (ts : list xnet_tap) (c : Z) (x : xstate) : xstate :=
  XState (g_node x) (g_callback x) (g_running x) (g_lwip_up x) (g_node_online x) (lwip_inited x) (g_home x)
    (g_port x) (g_udp4 x) (g_udp6 x) ts c (x_net x) (x_heap x) (x_out x).

Definition set_net (ns : nstate) (x : xstate) : xstate :=
  XState (g_node x) (g_callback x) (g_running x) (g_lwip_up x) (g_node_online x) (lwip_inited x) (g_home x)
    (g_port x) (g_udp4 x) (g_udp6 x) (g_taps x) (g_tap_count x) ns (x_heap x) (x_out x).

Definition set_heap (h : heap) (x : xstate) : xstate :=
  XState (g_node x) (g_callback x) (g_running x) (g_lwip_up x) (g_node_online x) (lwip_inited x) (g_home x)
    (g_port x) (g_udp4 x) (g_udp6 x) (g_taps x) (g_tap_count x) (x_net x) h (x_out x).

Definition out (e : list xevent) (x : xstate) : xstate :=
  XState (g_node x) (g_callback x) (g_running x) (g_lwip_up x) (g_node_online x) (lwip_inited x) (g_home x)
    (g_port x) (g_udp4 x) (g_udp6 x) (g_taps x) (g_tap_count x) (x_net x) (x_heap x) (x_out x ++ e).

(** [if (g_callback) g_callback(code, NULL)]. *)
Definition callback (code : Z) (x : xstate) : xstate :=
  if g_callback x then out [Callback code] x else x.

(** The tap at slot [i]; a slot outside of the array is undefined. *)
Definition tap_at (x : xstate) (i : Z) : option xnet_tap :=
  if (0 <=? i) && (i <? MAX_TAPS) then g_taps x !! Z.to_nat i else None.

Definition tap_set (i : Z) (t : xnet_tap) (x : xstate) : xstate :=
  set_taps (<[Z.to_nat i := t]> (g_taps x)) (g_tap_count x) x.

(** The state before the first [xnet_start]: no stack yet. *)
Definition x_init (h : heap) : xstate :=
  XState false false false false false false [] 9994 (-1) (-1) (replicate 4 zero_tap) 0
    (NState (list_to_map ((fun i => (i, zero_netif)) <$> [0; 1; 2; 3; 4])) None None 0 []) h [].

Definition XNET_EV_STACK_UP : Z := 230.
Definition XNET_EV_STACK_DOWN : Z := 231.
Definition AF_INET : Z := 2.
Definition AF_INET6 : Z := 10.

(** ** Stack start and stop *)

(** The callback [tcpip_init] runs on the new tcpip thread. *)
Definition tcpip_init_done (x : xstate) : xstate :=
  let x := set_lwip_up true (set_lwip_inited true x) in
  callback XNET_EV_STACK_UP x.

(** [tcpip_init(tcpip_init_done, NULL)] followed by the wait for
    [lwip_inited]: the interface module is initialised, then the callback runs. *)
Definition xnet_lwip_init (x : xstate) : option xstate :=
  if negb (lwip_inited x) then
    ns ← netif_init (x_net x);
    Some (tcpip_init_done (set_net ns x))
  else Some x.

Definition xnet_lwip_shutdown (x : xstate) : xstate :=
  callback XNET_EV_STACK_DOWN (set_lwip_up false x).

(** ** MAC addresses *)
Definition mac_to_bytes (mac : Z) : list Z :=
  [mac .>> 40 .& 0xff; mac .>> 32 .& 0xff; mac .>> 24 .& 0xff; mac .>> 16 .& 0xff;
   mac .>> 8 .& 0xff; mac .& 0xff].

Definition bytes_to_mac (b : list Z) : option Z :=
  match b with
  | b0 :: b1 :: b2 :: b3 :: b4 :: b5 :: _ =>
      Some ((b0 .<< 40) .| (b1 .<< 32) .| (b2 .<< 24) .| (b3 .<< 16) .| (b4 .<< 8) .| b5)
  | _ => None
  end.

(** ** Ethernet TX: lwIP to ZeroTier *)

(** [buf] is the stack buffer [buf[2048]] with whatever it holds on entry. *)
Definition tap_linkoutput (buf : list Z) (nif : Z) (p : addr) (x : xstate) : option (Z * xstate) :=
  v ← nget (x_net x) nif;
  match nif_state v with
  | None => Some (ERR_IF, x)
  | Some slot =>
      if negb (g_node x) then Some (ERR_IF, x)
      else
        b ← get (x_heap x) p;
        let total := pb_tot_len b in
        if (2048 <? total) || (total <? 14) then Some (ERR_BUF, x)
        else
          '(_, buf) ← pbuf_copy_partial (Some p) (Some buf) total 0 (x_heap x);
          buf ← buf;
          dst ← bytes_to_mac buf;
          src ← bytes_to_mac (zdrop 6 buf);
          b12 ← buf !! 12%nat;
          b13 ← buf !! 13%nat;
          let etype := (b12 .<< 8) .| b13 in
          tap ← tap_at x slot;
          data ← mem_read buf 14 (total - 14);
          Some (ERR_OK, out [ProcessFrame (nwid tap) src dst etype data] x)
  end.

(** ** The interface of a tap *)

(** The [init] callback of [netif_add]; [taps] is the memory behind
    [nif->state]. *)
Definition netif_init_cb (taps : Z -> option xnet_tap) (nif : Z) (ns : nstate) : option (Z * nstate) :=
  v ← nget ns nif;
  slot ← nif_state v;
  tap ← taps slot;
  let v := nset_hwaddr_len 6 (nset_name (120, 110) v) in
  let v := nset_hwaddr (mac_to_bytes (mac tap)) v in
  let v := nset_mtu (u16 (if negb (mtu tap =? 0) then mtu tap else 1400)) v in
  let v := nset_output_ip6 ethip6_output (nset_output etharp_output (nset_linkoutput netif_linkoutput v)) in
  let v := nset_flags (NETIF_FLAG_BROADCAST .| NETIF_FLAG_ETHARP .| NETIF_FLAG_ETHERNET .| NETIF_FLAG_LINK_UP) v in
  let ns := nput ns nif v in
  ns ← netif_set_link_up (Some nif) ns;
  ns ← netif_set_up (Some nif) ns;
  Some (ERR_OK, ns).

(** A word of an IPv6 address from four bytes in memory order. *)
Definition word_at (b : list Z) (o : nat) : option Z :=
  b0 ← b !! o; b1 ← b !! S o; b2 ← b !! S (S o); b3 ← b !! S (S (S o)); Some (of_bytes b0 b1 b2 b3).

(** [ip6_zone] is the zone field of the local [ip6_addr_t], which the code does
    not initialise. *)
Definition xnet_tap_setup_netif (ip6_zone : Z) (i family : Z) (x : xstate) : option xstate :=
  tap ← tap_at x i;
  if netif_up tap then Some x
  else
    x ← (if (family =? AF_INET) && has_ip4 tap then
           '(_, ns) ← netif_add (Some (tap_netif i)) (Some (tap_ip4_addr tap)) (Some (IP4_ADDR 255 255 255 0))
                        (Some (IP4_ADDR 0 0 0 0)) (Some i) (Some (netif_init_cb (tap_at x))) (Some tcpip_input)
                        (x_net x);
           let ns := netif_set_default (Some (tap_netif i)) ns in
           Some (tap_set i (set_netif_up true tap) (set_net ns x))
         else Some x);
    tap ← tap_at x i;
    if (family =? AF_INET6) && has_ip6 tap && netif_up tap then
      w0 ← word_at (tap_ip6_addr tap) 0; w1 ← word_at (tap_ip6_addr tap) 4;
      w2 ← word_at (tap_ip6_addr tap) 8; w3 ← word_at (tap_ip6_addr tap) 12;
      '(_, idx, ns) ← netif_add_ip6_address (tap_netif i) (Ip6Addr w0 w1 w2 w3 ip6_zone) (x_net x);
      ns ← (if 0 <=? idx then netif_ip6_addr_set_state (tap_netif i) idx IP6_ADDR_VALID ns else Some ns);
      ns ← netif_create_ip6_linklocal_address (tap_netif i) true ns;
      Some (set_net ns x)
    else Some x.

Definition xnet_tap_teardown (i : Z) (x : xstate) : option xstate :=
  tap ← tap_at x i;
  if negb (netif_up tap) then Some x
  else
    ns ← netif_set_down (Some (tap_netif i)) (x_net x);
    ns ← netif_set_link_down (Some (tap_netif i)) ns;
    ns ← netif_remove (Some (tap_netif i)) ns;
    Some (tap_set i (clear_addrs (set_netif_up false tap)) (set_net ns x)).

(** ** Ethernet RX: ZeroTier to lwIP *)

Section rx.
  (** [pbuf_custom] free functions, and the function behind the pointer
      [netif.input] ([tcpip_input]), which answers an error code. *)
  Context (custom_free : addr -> heap -> option heap).
  Context (netif_input : addr -> Z -> heap -> option (Z * heap)).

Definition eth_hdr (srcMac dstMac etherType : Z) : list Z :=
  mac_to_bytes dstMac ++ mac_to_bytes srcMac ++ [etherType .>> 8 .& 0xff; etherType .& 0xff].

(** [len] is the length of [data]. *)
Definition xnet_tap_rx (i srcMac dstMac etherType : Z) (data : list Z) (len : Z) (x : xstate) : option xstate :=
  tap ← tap_at x i;
  if negb (netif_up tap) || negb (g_lwip_up x) then Some x
  else
    let total := u16 (14 + len) in
    '(p, h) ← pbuf_alloc custom_free PBUF_RAW total PBUF_POOL (x_heap x);
    match p with
    | None => Some (set_heap h x)
    | Some p =>
        '(_, h) ← pbuf_take_at (Some p) (eth_hdr srcMac dstMac etherType) 14 0 h;
        '(_, h) ← pbuf_take_at (Some p) data (u16 len) 14 h;
        '(err, h) ← netif_input p (tap_netif i) h;
        if negb (err =? ERR_OK)
        then '(_, h) ← pbuf_free custom_free (Some p) h; Some (set_heap h x)
        else Some (set_heap h x)
    end.

End rx.
