(* ===== verification/XnetTapThm.v ===== *)
(** Lemmas about [xnet_tap.c]: MAC addresses, frames through pbufs, and the
    life of a tap's interface.
    At the end, what [xnet_tap.c] promises. *)
From S2P Require Import Prelude Bits Def IpAddr Pbuf PbufData PbufChain PbufIO PbufLife.
From S2P Require Import NetifRec Netif NetifThm XnetTap.
From S2P Require Import Prelude Bits Def IpAddr Pbuf PbufData PbufChain PbufIO PbufLife PbufClaims.

(** ** MAC addresses *)
Lemma shr_byte z i : 0 <= i -> z .>> (8 * i) .& 0xff = byte_of z i.
Proof. intros; rewrite land_255, shr_div by lia. done. Qed.

Lemma mac_to_bytes_eq m :
  mac_to_bytes m = [byte_of m 5; byte_of m 4; byte_of m 3; byte_of m 2; byte_of m 1; byte_of m 0].
Proof.
  rewrite <- !shr_byte by lia. reflexivity.
Qed.

Lemma mac_to_bytes_ok m : bytes_ok (mac_to_bytes m).
Proof. rewrite mac_to_bytes_eq. unfold bytes_ok; rewrite !Forall_cons. split_and!; auto with cint. Qed.

Lemma bytes_of_u48 z :
  0 <= z < 2 ^ 48 ->
  z = byte_of z 0 + 256 * byte_of z 1 + 65536 * byte_of z 2 + 16777216 * byte_of z 3
      + 4294967296 * byte_of z 4 + 1099511627776 * byte_of z 5.
Proof.
  change (2 ^ 48) with 281474976710656. intros; unfold byte_of.
  change (8 * 0) with 0; change (8 * 1) with 8; change (8 * 2) with 16; change (8 * 3) with 24;
    change (8 * 4) with 32; change (8 * 5) with 40.
  change (2 ^ 0) with 1; change (2 ^ 8) with 256; change (2 ^ 16) with 65536; change (2 ^ 24) with 16777216;
    change (2 ^ 32) with 4294967296; change (2 ^ 40) with 1099511627776.
  zdm; lia.
Qed.

Lemma lor6_bytes b0 b1 b2 b3 b4 b5 :
  byte_ok b0 -> byte_ok b1 -> byte_ok b2 -> byte_ok b3 -> byte_ok b4 -> byte_ok b5 ->
  (b5 .<< 40) .| (b4 .<< 32) .| (b3 .<< 24) .| (b2 .<< 16) .| (b1 .<< 8) .| b0 =
  b0 + 256 * b1 + 65536 * b2 + 16777216 * b3 + 4294967296 * b4 + 1099511627776 * b5.
Proof.
  unfold byte_ok; intros. rewrite <- !Z.lor_assoc.
  rewrite (lor_shl_add b0 b1 8), (lor_shl_add _ b2 16), (lor_shl_add _ b3 24), (lor_shl_add _ b4 32), (lor_shl_add _ b5 40);
    lia.
Qed.

Lemma mac_roundtrip m rest : 0 <= m < 2 ^ 48 -> bytes_to_mac (mac_to_bytes m ++ rest) = Some m.
Proof.
  intros Hm. rewrite mac_to_bytes_eq. cbn [app bytes_to_mac]. f_equal.
  rewrite lor6_bytes by auto with cint. symmetry; by apply bytes_of_u48.
Qed.

Lemma mac_bytes_surj b0 b1 b2 b3 b4 b5 :
  bytes_ok [b0; b1; b2; b3; b4; b5] ->
  exists m, bytes_to_mac [b0; b1; b2; b3; b4; b5] = Some m /\ 0 <= m < 2 ^ 48 /\
    mac_to_bytes m = [b0; b1; b2; b3; b4; b5].
Proof.
  unfold bytes_ok; rewrite !Forall_cons; intros (? & ? & ? & ? & ? & ? & _).
  eexists; split; [done|]. rewrite lor6_bytes by done. unfold byte_ok in *.
  split; [change (2 ^ 48) with 281474976710656; lia|]. rewrite mac_to_bytes_eq. unfold byte_of.
  change (8 * 0) with 0; change (8 * 1) with 8; change (8 * 2) with 16; change (8 * 3) with 24;
    change (8 * 4) with 32; change (8 * 5) with 40.
  change (2 ^ 0) with 1; change (2 ^ 8) with 256; change (2 ^ 16) with 65536; change (2 ^ 24) with 16777216;
    change (2 ^ 32) with 4294967296; change (2 ^ 40) with 1099511627776.
  f_equal; [zdm; lia|]. f_equal; [zdm; lia|]. f_equal; [zdm; lia|].
  f_equal; [zdm; lia|]. f_equal; [zdm; lia|]. f_equal. zdm; lia.
Qed.

(** ** Frames *)
Definition frame_ok (src dst etype : Z) (data : list Z) : Prop :=
  0 <= src < 2 ^ 48 /\ 0 <= dst < 2 ^ 48 /\ 0 <= etype < 65536 /\ bytes_ok data.

Lemma eth_hdr_len s d e : zlen (eth_hdr s d e) = 14.
Proof. done. Qed.

Lemma eth_hdr_ok s d e : bytes_ok (eth_hdr s d e).
Proof.
  unfold eth_hdr. rewrite !bytes_ok_app. split_and!; try apply mac_to_bytes_ok.
  unfold bytes_ok; rewrite !Forall_cons. split_and!; [..|constructor].
  - rewrite land_255; apply Z.mod_pos_bound; lia.
  - rewrite land_255; apply Z.mod_pos_bound; lia.
Qed.

Lemma etype_roundtrip e : 0 <= e < 65536 -> ((e .>> 8 .& 0xff) .<< 8) .| (e .& 0xff) = e.
Proof.
  intros. rewrite !land_255, shr_div by lia. change (2 ^ 8) with 256.
  rewrite lor_shl_add; [|lia|change (2 ^ 8) with 256; apply Z.mod_pos_bound; lia].
  change (2 ^ 8) with 256. zdm; lia.
Qed.

(** The header and payload the code decodes from a copied-out frame. *)
Lemma linkoutput_sends x nif v slot tap p l buf src dst etype data :
  nget (x_net x) nif = Some v -> nif_state v = Some slot -> tap_at x slot = Some tap -> g_node x = true ->
  packet (x_heap x) (Some p) l -> content l = eth_hdr src dst etype ++ data ->
  0 <= src < 2 ^ 48 -> 0 <= dst < 2 ^ 48 -> 0 <= etype < 65536 ->
  zlen buf = 2048 -> 14 + zlen data <= 2048 ->
  tap_linkoutput buf nif p x = Some (ERR_OK, out [ProcessFrame (nwid tap) src dst etype data] x).
Proof.
  intros Hv Hst Htap Hnode Hp Hc Hs Hd He Hbuf Hlen. unfold tap_linkoutput.
  rewrite Hv; cbn [mbind option_bind]. rewrite Hst, Hnode. cbn [negb].
  destruct (packet_tot _ _ _ Hp) as (b & Hg & Htot). rewrite Hg; cbn [mbind option_bind].
  pose proof (zlen_nonneg data). assert (Hsum : sum_len l = 14 + zlen data).
  { rewrite <- content_len by apply Hp. by rewrite Hc, zlen_app, eth_hdr_len. }
  rewrite Htot, Hsum. destruct (Z.ltb_spec 2048 (14 + zlen data)); [lia|].
  destruct (Z.ltb_spec (14 + zlen data) 14); [lia|]. cbn [orb].
  rewrite (pbuf_copy_partial_ok _ _ l); [|done|lia|lia|rewrite zdrop_0, zlen_ztake_gen; lia].
  rewrite zdrop_0, ztake_ge, Hc by (rewrite Hc, zlen_app, eth_hdr_len; lia). cbn [mbind option_bind].
  rewrite <- (app_assoc (eth_hdr src dst etype)). set (tl := data ++ _).
  unfold eth_hdr. rewrite <- !app_assoc. rewrite mac_roundtrip by done. cbn [mbind option_bind].
  replace (zdrop 6 (mac_to_bytes dst ++ mac_to_bytes src ++ [etype .>> 8 .& 255; etype .& 255] ++ tl))
    with (mac_to_bytes src ++ [etype .>> 8 .& 255; etype .& 255] ++ tl) by done.
  rewrite mac_roundtrip by done. cbn [mbind option_bind].
  cbn [mac_to_bytes app lookup list_lookup mbind option_bind]. rewrite etype_roundtrip by done.
  rewrite Htap; cbn [mbind option_bind].
  replace (14 + zlen data - 14) with (zlen data) by lia.
  assert (Hr : mem_read (eth_hdr src dst etype ++ tl) 14 (zlen data) = Some data).
  { assert (zlen data <= zlen tl) by (unfold tl; rewrite zlen_app; pose proof (zlen_nonneg (zdrop (zlen (eth_hdr src dst etype ++ data)) buf)); lia).
    rewrite mem_read_spec by (rewrite ?zlen_app, ?eth_hdr_len; lia).
    change (zdrop 14 (eth_hdr src dst etype ++ tl)) with tl. unfold tl.
    rewrite ztake_app_le, ztake_ge by lia. done. }
  change (mem_read _ 14 (zlen data)) with (mem_read (eth_hdr src dst etype ++ tl) 14 (zlen data)).
  rewrite Hr. done.
Qed.

Lemma linkoutput_ok x nif v slot tap p l buf src dst etype data :
  nget (x_net x) nif = Some v -> nif_state v = Some slot -> tap_at x slot = Some tap -> g_node x = true ->
  packet (x_heap x) (Some p) l -> content l = eth_hdr src dst etype ++ data -> frame_ok src dst etype data ->
  zlen buf = 2048 -> 14 + zlen data <= 2048 ->
  tap_linkoutput buf nif p x = Some (ERR_OK, out [ProcessFrame (nwid tap) src dst etype data] x).
Proof. intros ? ? ? ? ? ? (? & ? & ? & _) ? ?. by eapply linkoutput_sends. Qed.

(** The frame of a received packet, written into a fresh chain. *)
Lemma eth_frame_built h p l hdr data :
  packet h (Some p) l -> zlen hdr = 14 -> sum_len l = 14 + zlen data ->
  exists h', ('(_, h) ← pbuf_take_at (Some p) hdr 14 0 h;
              '(_, h) ← pbuf_take_at (Some p) data (u16 (zlen data)) 14 h; Some h) = Some h' /\
    wrote h (Some p) l (hdr ++ data) h'.
Proof.
  intros Hp Hh Hs. pose proof (zlen_nonneg data). pose proof (packet_sum _ _ _ Hp).
  destruct (pbuf_take_at_fits h p l hdr 14 0 Hp) as (h1 & -> & l1 & Hp1 & Hr1 & Hc1 & Hf1); [lia..|].
  cbn [mbind option_bind]. rewrite ztake_0 in Hc1. rewrite (ztake_ge 14) in Hc1 by lia. cbn [app] in Hc1.
  rewrite u16_small by lia. pose proof (rewritten_sum _ _ Hr1) as Hs1.
  destruct (Z.eq_dec (zlen data) 0) as [E0|E0].
  - rewrite (pbuf_take_at_too_long h1 p l1) by (auto; lia). cbn [mbind option_bind].
    eexists; split; [done|]. exists l1. split_and!; try done. rewrite (zlen_zero_nil data E0), Hc1.
    rewrite zdrop_ge; [done|]. rewrite content_len by apply Hp. lia.
  - destruct (pbuf_take_at_fits h1 p l1 data (zlen data) 14 Hp1) as (h2 & -> & l2 & Hp2 & Hr2 & Hc2 & Hf2); [lia..|].
    cbn [mbind option_bind]. eexists; split; [done|]. exists l2. split_and!; [done|by eapply rewritten_all_trans|..].
    + rewrite Hc2, Hc1. rewrite ztake_app_le, (ztake_ge 14), (ztake_ge (zlen data)), zdrop_ge by
        (rewrite ?zlen_app, ?zlen_zdrop, ?content_len by apply Hp; lia).
      by rewrite app_nil_r.
    + intros y Hy. rewrite Hf2, Hf1; [done|done|]. by rewrite (rewritten_addrs _ _ Hr1).
Qed.

Section rx.
  Context (custom_free : addr -> heap -> option heap).
  Context (netif_input : addr -> Z -> heap -> option (Z * heap)).

(** Reception: without memory nothing happens; otherwise [netif.input] gets a
    fresh packet that carries the frame. *)
Lemma xnet_tap_rx_ok x i tap src dst etype data :
  tap_at x i = Some tap -> netif_up tap = true -> g_lwip_up x = true -> heap_wf (x_heap x) ->
  14 + zlen data < 65536 ->
  exists r h0, pbuf_alloc custom_free PBUF_RAW (14 + zlen data) PBUF_POOL (x_heap x) = Some (r, h0) /\
    match r with
    | None => xnet_tap_rx custom_free netif_input i src dst etype data (zlen data) x = Some (set_heap h0 x) /\ h_pbufs h0 = h_pbufs (x_heap x)
    | Some p => exists h l, packet h (Some p) l /\ content l = eth_hdr src dst etype ++ data /\
        Forall (fun c => pb_ok c.2 /\ pb_std c.2 /\ pb_ref c.2 = 1) l /\
        (forall a, a ∈ fst <$> l -> get (x_heap x) a = None) /\
        (forall a, a ∉ fst <$> l -> get h a = get (x_heap x) a) /\
        xnet_tap_rx custom_free netif_input i src dst etype data (zlen data) x =
          ('(err, h) ← netif_input p (tap_netif i) h;
           if negb (err =? ERR_OK)
           then '(_, h) ← pbuf_free custom_free (Some p) h; Some (set_heap h x) else Some (set_heap h x))
    end.
Proof.
  intros Ht Hup Hlw Hwf Hlen. pose proof (zlen_nonneg data). unfold xnet_tap_rx.
  rewrite Ht; cbn [mbind option_bind]. rewrite Hup, Hlw. cbn [negb orb]. rewrite (u16_small (14 + zlen data)) by lia.
  destruct (pbuf_alloc_pool_ok custom_free PBUF_RAW (14 + zlen data) (x_heap x) Hwf) as (r & h & Ea & Hwf' & Ho);
    [unfold PBUF_RAW; lia|lia|]. exists r, h. split; [done|]. rewrite Ea.
  cbn [mbind option_bind]. destruct r as [p|]; [|done].
  destruct Ho as (l & Hp & Hs & Hnew & Hfr).
  destruct (eth_frame_built h p l (eth_hdr src dst etype) data Hp eq_refl Hs) as (h2 & E & l2 & Hp2 & Hr2 & Hc2 & Hf2).
  exists h2, l2. destruct Hfr as [Hfr1 Hfr2].
  split_and!; try done.
  - apply Forall_forall. intros c Hc. apply list_elem_of_lookup_1 in Hc as [k Hk].
    destruct (Forall2_lookup_r _ _ _ _ _ Hr2 Hk) as (c0 & Hk0 & _ & m & E2 & Em).
    apply (Forall_lookup_1 _ _ _ _ Hnew) in Hk0. destruct Hk0 as ((? & ? & ? & ?) & Hstd & Href).
    rewrite E2. unfold pb_ok, pb_std in *; cbn. rewrite Em. done.
  - rewrite (rewritten_addrs _ _ Hr2). intros a Ha. by apply Hfr2.
  - rewrite (rewritten_addrs _ _ Hr2). intros a Ha. rewrite Hf2 by done. by apply Hfr1.
  - destruct (pbuf_take_at (Some p) (eth_hdr src dst etype) 14 0 h) as [[e1 h1]|]; [|done].
    cbn [mbind option_bind] in *. destruct (pbuf_take_at _ _ _ _ h1) as [[e2 h2']|]; [|done].
    cbn [mbind option_bind] in *. by injection E as ->.
Qed.

End rx.

(** ** The interface of a tap *)

(** What [netif_init_cb] makes of the interface of [tap]: all its flags are
    set, [UP] included. *)
Record tap_netif_ok (tap : xnet_tap) (v : netif) : Prop := TapNetifOk {
  tno_hwaddr : nif_hwaddr v = mac_to_bytes (mac tap);
  tno_hwlen : nif_hwaddr_len v = 6;
  tno_mtu : nif_mtu v = u16 (if negb (mtu tap =? 0) then mtu tap else 1400);
  tno_flags : nif_flags v = NETIF_FLAG_UP .| NETIF_FLAG_BROADCAST .| NETIF_FLAG_LINK_UP .| NETIF_FLAG_ETHARP .| NETIF_FLAG_ETHERNET;
  tno_link : nif_linkoutput v = netif_linkoutput;
  tno_out : nif_output v = etharp_output;
  tno_out6 : nif_output_ip6 v = ethip6_output;
}.

#[export] Instance init_cb_driver taps slot tap (H : taps slot = Some tap) :
  NetifDriver (Some slot) (netif_init_cb taps) (tap_netif_ok tap).
Proof.
  split; cycle 1.
  { intros v m k p []; by constructor. }
  intros n s v Hv Hst. unfold netif_init_cb. rewrite Hv; cbn [mbind option_bind]. rewrite Hst; cbn [mbind option_bind].
  rewrite H; cbn [mbind option_bind].
  set (v1 := nset_flags _ _). erewrite netif_set_link_up_eq by apply nget_put_eq; cbn [mbind option_bind].
  assert (Hl : flag_set v1 NETIF_FLAG_LINK_UP = true) by done.
  unfold upped, up_events. rewrite Hl, emit_nil, nput_nput.
  erewrite netif_set_up_eq by apply nget_put_eq; cbn [mbind option_bind]. rewrite nput_nput.
  assert (Hu : flag_set v1 NETIF_FLAG_UP = false) by done. unfold upped. rewrite Hu.
  do 2 eexists; split; [done|]. split; [apply touched_emit; by apply touched_nput|].
  split; [|done]. constructor; done.
Qed.

Lemma tap_at_set x i t t' : tap_at x i = Some t -> tap_at (tap_set i t' x) i = Some t'.
Proof.
  unfold tap_at, tap_set. destruct (_ && _); [|done]. cbn. intros Hl.
  apply list_lookup_insert_eq. by eapply lookup_lt_Some.
Qed.

Lemma tap_at_set_ne x i j t' : 0 <= i -> 0 <= j -> i <> j -> tap_at (tap_set i t' x) j = tap_at x j.
Proof. intros. unfold tap_at, tap_set. cbn. by rewrite list_lookup_insert_ne by lia. Qed.

Lemma netifs_ok_default s l n : netifs_ok s l -> n ∈ l -> netifs_ok (netif_set_default (Some n) s) l.
Proof.
  intros [HL HD HN HR _ Hnn] Hin; constructor; [|exact HD|exact HN|exact HR|exact Hin|exact Hnn].
  eapply nlist_frame; [|exact HL]. done.
Qed.

Lemma setup_ip4_ok z x i tap l v0 :
  tap_at x i = Some tap -> netif_up tap = false -> has_ip4 tap = true ->
  netifs_ok (x_net x) l -> nget (x_net x) (tap_netif i) = Some v0 -> tap_netif i ∉ l -> (length l < 255)%nat ->
  exists ns v, xnet_tap_setup_netif z i AF_INET x = Some (tap_set i (set_netif_up true tap) (set_net ns x)) /\
    netifs_ok ns (tap_netif i :: l) /\ netif_default ns = Some (tap_netif i) /\
    nget ns (tap_netif i) = Some v /\ tap_netif_ok tap v /\ nif_state v = Some i /\
    nif_ip_addr v = tap_ip4_addr tap /\ nif_netmask v = IP4_ADDR 255 255 255 0 /\ nif_gw v = 0 /\
    (forall k, k <> tap_netif i -> nget ns k = nget (x_net x) k).
Proof.
  intros Ht Hup H4 Hok Hv0 Hn Hlen. unfold xnet_tap_setup_netif. rewrite Ht; cbn [mbind option_bind]. rewrite Hup, H4.
  change (AF_INET =? AF_INET) with true. change (AF_INET =? AF_INET6) with false. cbn [andb].
  assert (Hdrv : NetifDriver (Some i) (netif_init_cb (tap_at x)) (tap_netif_ok tap)) by by apply init_cb_driver.
  destruct (netif_add_ok (Some i) (netif_init_cb (tap_at x)) (tap_netif_ok tap) (x_net x) l (tap_netif i) v0
    (Some (tap_ip4_addr tap)) (Some (IP4_ADDR 255 255 255 0)) (Some (IP4_ADDR 0 0 0 0)) (Some tcpip_input))
    as (ns & v & -> & Hok' & Hv & HQ & Ea & Em & Eg & Est & _ & _ & _ & Hoff); auto.
  cbn [mbind option_bind]. rewrite (tap_at_set _ _ tap) by exact Ht. cbn [mbind option_bind].
  do 2 eexists; split; [done|]. split_and!; try done.
  apply netifs_ok_default; [done|]. by left.
Qed.

(** The IPv6 branch asks for an interface that is up, after the function has
    returned for exactly those. *)
Lemma setup_ip6_dead z x i tap :
  tap_at x i = Some tap -> xnet_tap_setup_netif z i AF_INET6 x = Some x.
Proof.
  intros Ht. unfold xnet_tap_setup_netif. rewrite Ht; cbn [mbind option_bind].
  destruct (netif_up tap) eqn:Eup; [done|]. cbn [Z.eqb AF_INET6 AF_INET Pos.eqb andb mbind option_bind].
  rewrite Ht; cbn [mbind option_bind]. rewrite Eup, andb_false_r. done.
Qed.

Lemma touched_down n s v : nget s n = Some v -> touched n s (emit (down_events n v) (nput s n (downed v))) v (downed v).
Proof.
  intros Hv. apply touched_emit, touched_nput; [done|..]; unfold downed; by destruct (flag_set v NETIF_FLAG_UP).
Qed.

Lemma touched_link_down n s v : nget s n = Some v -> touched n s (nput s n (link_downed v)) v (link_downed v).
Proof.
  intros Hv. apply touched_nput; [done|..]; unfold link_downed; by destruct (flag_set v NETIF_FLAG_LINK_UP).
Qed.

Lemma teardown_ok x i tap l :
  tap_at x i = Some tap -> netif_up tap = true -> netifs_ok (x_net x) l -> tap_netif i ∈ l ->
  exists ns, xnet_tap_teardown i x = Some (tap_set i (clear_addrs (set_netif_up false tap)) (set_net ns x)) /\
    netifs_ok ns (filter (fun m => m <> tap_netif i) l) /\
    netif_default ns = (if bool_decide (netif_default (x_net x) = Some (tap_netif i)) then None
                        else netif_default (x_net x)) /\
    (exists v, nget ns (tap_netif i) = Some v /\ flag_set v NETIF_FLAG_UP = false) /\
    (forall m v, m <> tap_netif i -> nget (x_net x) m = Some v -> exists v', nget ns m = Some v' /\ eq_up_to_next v v').
Proof.
  intros Ht Hup Hok Hin. unfold xnet_tap_teardown. rewrite Ht; cbn [mbind option_bind]. rewrite Hup; cbn [negb].
  destruct (nlist_get _ _ _ _ (nok_list _ _ Hok) Hin) as [v Hv].
  rewrite (netif_set_down_eq _ _ v) by done; cbn [mbind option_bind].
  pose proof (touched_down _ _ _ Hv) as T1. rewrite (netif_set_link_down_eq _ _ (downed v)) by apply (touched_get _ _ _ _ _ T1).
  cbn [mbind option_bind]. set (s1 := emit _ _) in *.
  pose proof (touched_link_down _ _ _ (touched_get _ _ _ _ _ T1)) as T2. pose proof (touched_trans _ _ _ _ _ _ _ T1 T2) as T.
  pose proof (touched_ok _ _ _ _ _ _ T Hok) as Hok2.
  destruct (netif_remove_ok _ _ _ Hok2 Hin) as (ns & -> & Hok3 & Hdef & Hflag & Hoth). cbn [mbind option_bind].
  exists ns. split; [done|]. split; [done|]. split; [|split; [done|]].
  - rewrite Hdef, (t_default _ _ _ _ _ T). done.
  - intros m w Hm Hw. apply Hoth; [done|]. by rewrite (touched_off _ _ _ _ _ m T).
Qed.

(** A library state with one tap, network 0x2a, in slot 0, its interface not
    yet added, and memory for one frame. *)
Definition ex_tap : xnet_tap := Tap 0x2a 0x020000000001 1400 true false 0x0100000a (replicate 16 0) false.

Definition ex_x : xstate :=
  XState true true true true true true [] 9994 3 4 [ex_tap; zero_tap; zero_tap; zero_tap] 1
    (NState (<[1 := zero_netif]> ∅) None None 0 []) (Heap ∅ 1%positive [Some []; Some []] false []) [].

(** MAC addresses survive the conversion to wire bytes and back, in both
    directions. *)
Theorem mac_bytes_roundtrip :
  (forall m rest, 0 <= m < 2 ^ 48 -> bytes_to_mac (mac_to_bytes m ++ rest) = Some m) /\
  (forall b0 b1 b2 b3 b4 b5, bytes_ok [b0; b1; b2; b3; b4; b5] ->
     exists m, bytes_to_mac [b0; b1; b2; b3; b4; b5] = Some m /\ 0 <= m < 2 ^ 48 /\
       mac_to_bytes m = [b0; b1; b2; b3; b4; b5]).
Proof. split; [intros; by apply mac_roundtrip|apply mac_bytes_surj]. Qed.

(** Transmission hands ZeroTier exactly the frame the packet carries:
    network, source, destination, type and payload; packets shorter than an
    Ethernet header or longer than the 2048-byte buffer are refused with
    [ERR_BUF], and without a node with [ERR_IF], and nothing is sent. *)
Theorem tap_linkoutput_spec x nif v slot tap p l buf src dst etype data :
  nget (x_net x) nif = Some v -> nif_state v = Some slot -> tap_at x slot = Some tap ->
  packet (x_heap x) (Some p) l -> zlen buf = 2048 ->
  (g_node x = false -> tap_linkoutput buf nif p x = Some (ERR_IF, x)) /\
  (g_node x = true -> sum_len l < 14 \/ 2048 < sum_len l -> tap_linkoutput buf nif p x = Some (ERR_BUF, x)) /\
  (g_node x = true -> content l = eth_hdr src dst etype ++ data -> frame_ok src dst etype data ->
   14 + zlen data <= 2048 ->
   tap_linkoutput buf nif p x = Some (ERR_OK, out [ProcessFrame (nwid tap) src dst etype data] x)).
Proof.
  intros Hv Hst Htap Hp Hbuf. split_and!.
  - intros Hn. unfold tap_linkoutput. rewrite Hv; cbn [mbind option_bind]. by rewrite Hst, Hn.
  - intros Hn Hl. unfold tap_linkoutput. rewrite Hv; cbn [mbind option_bind]. rewrite Hst, Hn. cbn [negb].
    destruct (packet_tot _ _ _ Hp) as (b & Hg & Htot). rewrite Hg; cbn [mbind option_bind]. rewrite Htot.
    destruct (Z.ltb_spec 2048 (sum_len l)); [done|]. destruct (Z.ltb_spec (sum_len l) 14); [done|lia].
  - intros Hn Hc Hf Hd. by eapply linkoutput_ok.
Qed.

(** A 14-byte frame: destination 1, source 2, type 0x0800, no payload. *)
Definition ex_frame : pbuf := Pbuf None (eth_hdr 2 1 0x0800) 0 14 14 0x82 0 1 0.

Definition ex_tx : xstate :=
  set_heap (Heap {[1%positive := ex_frame]} 2%positive [] false [])
    (set_net (NState (<[1 := nset_state (Some 0) zero_netif]> ∅) None None 0 []) ex_x).

Lemma ex_frame_packet : packet (x_heap ex_tx) (Some 1%positive) [(1%positive, ex_frame)].
Proof.
  constructor; [vm_compute; intuition|apply NoDup_singleton| |cbn; lia|cbn; lia].
  repeat constructor; unfold zlen; cbn; lia.
Qed.

Lemma tap_linkoutput_spec_witness :
  tap_linkoutput (replicate 2048 0) 1 1%positive ex_tx = Some (ERR_OK, out [ProcessFrame 0x2a 2 1 0x0800 []] ex_tx).
Proof.
  apply (tap_linkoutput_spec ex_tx 1 (nset_state (Some 0) zero_netif) 0 ex_tap 1%positive [(1%positive, ex_frame)]
    (replicate 2048 0) 2 1 0x0800 []); try reflexivity; try exact ex_frame_packet;
    [split_and!; try lia; constructor|vm_compute; discriminate].
Defined.

(** Reception on a live tap builds a fresh, well-formed packet that carries
    the Ethernet header made of the addresses and the type followed by the
    payload, disturbs no other pbuf, and hands it to the interface's input
    function once; without memory it drops the frame and leaks nothing. *)
Theorem xnet_tap_rx_spec custom_free netif_input x i tap src dst etype data :
  tap_at x i = Some tap -> netif_up tap = true -> g_lwip_up x = true -> heap_wf (x_heap x) ->
  14 + zlen data < 65536 ->
  exists r h0, pbuf_alloc custom_free PBUF_RAW (14 + zlen data) PBUF_POOL (x_heap x) = Some (r, h0) /\
    match r with
    | None => xnet_tap_rx custom_free netif_input i src dst etype data (zlen data) x = Some (set_heap h0 x) /\ h_pbufs h0 = h_pbufs (x_heap x)
    | Some p => exists h l, packet h (Some p) l /\ content l = eth_hdr src dst etype ++ data /\
        Forall (fun c => pb_ok c.2 /\ pb_std c.2 /\ pb_ref c.2 = 1) l /\
        (forall a, a ∈ fst <$> l -> get (x_heap x) a = None) /\
        (forall a, a ∉ fst <$> l -> get h a = get (x_heap x) a) /\
        xnet_tap_rx custom_free netif_input i src dst etype data (zlen data) x =
          ('(err, h) ← netif_input p (tap_netif i) h;
           if negb (err =? ERR_OK)
           then '(_, h) ← pbuf_free custom_free (Some p) h; Some (set_heap h x) else Some (set_heap h x))
    end.
Proof. apply xnet_tap_rx_ok. Qed.

Definition ex_up : xstate := tap_set 0 (set_netif_up true ex_tap) ex_x.

Lemma ex_up_wf : heap_wf (x_heap ex_up).
Proof. intros a b; unfold get; cbn. by rewrite lookup_empty. Qed.

Lemma xnet_tap_rx_spec_witness :
  (exists h, xnet_tap_rx ex_free (fun _ _ h => Some (ERR_OK, h)) 0 2 1 0x0800 [7] 1 ex_up = Some (set_heap h ex_up)).
Proof.
  destruct (xnet_tap_rx_spec ex_free (fun _ _ h => Some (ERR_OK, h)) ex_up 0 (set_netif_up true ex_tap) 2 1 0x0800 [7])
    as ([p|] & h0 & _ & Hr);
    [reflexivity|reflexivity|reflexivity|exact ex_up_wf|reflexivity| |].
  - destruct Hr as (h & l & _ & _ & _ & _ & _ & E). exists h. exact E.
  - exists h0. exact (proj1 Hr).
Defined.

(** A frame the stack refuses leaves no trace in the store: every pbuf
    taken for it is given back. *)
Theorem xnet_tap_rx_no_leak custom_free err x i tap src dst etype data :
  tap_at x i = Some tap -> netif_up tap = true -> g_lwip_up x = true -> heap_wf (x_heap x) ->
  14 + zlen data < 65536 -> err <> ERR_OK ->
  exists h, xnet_tap_rx custom_free (fun _ _ h => Some (err, h)) i src dst etype data (zlen data) x
    = Some (set_heap h x) /\ h_pbufs h = h_pbufs (x_heap x).
Proof.
  intros Ht Hup Hlw Hwf Hlen Herr.
  destruct (xnet_tap_rx_ok custom_free (fun _ _ h => Some (err, h)) x i tap src dst etype data Ht Hup Hlw Hwf Hlen)
    as ([p|] & h0 & _ & Hr); [|by exists h0]. destruct Hr as (h & l & Hp & _ & Hl & Hfresh & Hoth & ->).
  cbn [mbind option_bind]. destruct (Z.eqb_spec err ERR_OK); [done|]. cbn [negb].
  assert (Hr : Forall (fun c => pb_ref c.2 = 1) l) by (eapply Forall_impl; [exact Hl|]; by intros ? (_ & _ & ?)).
  rewrite (pbuf_free_spec custom_free h (Some p) l); [|apply Hp|apply Hp|eapply Forall_impl; [exact Hl|]; by intros ? (? & ? & _)].
  cbn [mbind option_bind]. eexists; split; [done|]. apply map_eq. intros a.
  change (get (free_heap l h) a = get (x_heap x) a).
  destruct (decide (a ∈ fst <$> l)) as [Ha|Ha].
  - rewrite Hfresh by done. apply free_heap_all; [apply Hp|done|done].
  - rewrite free_heap_frame by done. by apply Hoth.
Qed.

Lemma xnet_tap_rx_no_leak_witness :
  exists h, xnet_tap_rx ex_free (fun _ _ h => Some (ERR_MEM, h)) 0 2 1 0x0800 [7] 1 ex_up
    = Some (set_heap h ex_up) /\ h_pbufs h = ∅.
Proof.
  apply (xnet_tap_rx_no_leak ex_free ERR_MEM ex_up 0 (set_netif_up true ex_tap) 2 1 0x0800 [7]);
    [reflexivity|reflexivity|reflexivity|exact ex_up_wf|reflexivity|discriminate].
Defined.

(** The C library has two blocks. *)
Definition two_blocks (h : heap) : Prop := exists c1 c2 o, h_orc h = Some c1 :: Some c2 :: o.

Lemma pool_two_blocks cf len h : 1 <= len <= 2048 -> two_blocks h -> exists p h', pbuf_alloc cf PBUF_RAW len PBUF_POOL h = Some (Some p, h').
Proof.
  intros Hlen (c1 & c2 & o & Eo). unfold pbuf_alloc. cbn [Z.eqb Pos.eqb orb PBUF_POOL PBUF_REF PBUF_ROM].
  assert (exists f, S (Z.to_nat len) = S (S f)) as [f ->] by (exists (Z.to_nat len - 1)%nat; lia). cbn [pbuf_alloc_pool]. unfold mem_malloc at 1. rewrite Eo. cbn [pbuf_pool_link mbind option_bind].
  set (q1 := Z.min len _). destruct (Z.ltb_spec 0 (u16 (len - q1))) as [Hr|]; [|by do 2 eexists].
  assert (Eq1 : q1 = Z.min len 1516) by reflexivity.
  unfold mem_malloc. cbn [h_orc put mbind option_bind pbuf_pool_link].
  match goal with |- context [get ?hh ?a] => assert (Hget : is_Some (get hh a)) end.
  { unfold get. cbn. rewrite lookup_insert_ne by lia. rewrite lookup_insert_eq. eauto. }
  destruct Hget as [b Hb]. rewrite Hb. cbn [mbind option_bind].
  match goal with |- context [0 <? u16 (?r - ?q)] => assert (Er : u16 (r - q) = 0) end.
  { change (u16 (PBUF_POOL_BUFSIZE_ALIGNED - align4 0)) with 1516. rewrite Eq1 in *. rewrite (u16_small (len - Z.min len 1516)) in * by lia. rewrite u16_small by lia. lia. }
  rewrite Er. cbn. by do 2 eexists.
Qed.


Definition ex_blocks : xstate := set_heap (Heap ∅ 2%positive [Some []; Some []] false []) (set_net (x_net ex_tx) ex_up).

Lemma ex_blocks_wf : heap_wf (x_heap ex_blocks).
Proof. intros a b; unfold get; cbn. by rewrite lookup_empty. Qed.


(** Setting up the IPv4 interface of a tap adds it to lwIP's list as the
    default interface: up, with the tap's MAC, MTU and address, a /24 mask and
    no gateway, its state pointing back to the tap; other interfaces are not
    touched. *)
Theorem xnet_tap_setup_netif_spec z x i tap l v0 :
  tap_at x i = Some tap -> netif_up tap = false -> has_ip4 tap = true ->
  netifs_ok (x_net x) l -> nget (x_net x) (tap_netif i) = Some v0 -> tap_netif i ∉ l -> (length l < 255)%nat ->
  exists ns v, xnet_tap_setup_netif z i AF_INET x = Some (tap_set i (set_netif_up true tap) (set_net ns x)) /\
    netifs_ok ns (tap_netif i :: l) /\ netif_default ns = Some (tap_netif i) /\
    nget ns (tap_netif i) = Some v /\ tap_netif_ok tap v /\ nif_state v = Some i /\
    nif_ip_addr v = tap_ip4_addr tap /\ nif_netmask v = IP4_ADDR 255 255 255 0 /\ nif_gw v = 0 /\
    (forall k, k <> tap_netif i -> nget ns k = nget (x_net x) k).
Proof. apply setup_ip4_ok. Qed.

Lemma ex_x_net_ok : netifs_ok (x_net ex_x) [].
Proof. constructor; cbn; try done; constructor. Qed.

Lemma xnet_tap_setup_netif_spec_witness :
  exists ns, xnet_tap_setup_netif 0 0 AF_INET ex_x = Some (tap_set 0 (set_netif_up true ex_tap) (set_net ns ex_x)) /\
    netifs_ok ns [1].
Proof.
  destruct (xnet_tap_setup_netif_spec 0 ex_x 0 ex_tap [] zero_netif) as (ns & v & E & Hok & _);
    [reflexivity|reflexivity|reflexivity|exact ex_x_net_ok|reflexivity|apply not_elem_of_nil|cbn; lia|].
  exists ns. split; [exact E|exact Hok].
Defined.

(** The IPv6 branch of [xnet_tap_setup_netif] is dead code: the function
    returns early for an interface that is up, and the branch requires one, so
    a call for AF_INET6 never changes anything and no IPv6 address ever
    reaches lwIP. *)
Theorem xnet_tap_setup_ip6_dead z x i tap :
  tap_at x i = Some tap -> xnet_tap_setup_netif z i AF_INET6 x = Some x.
Proof. apply setup_ip6_dead. Qed.

Lemma xnet_tap_setup_ip6_dead_witness : xnet_tap_setup_netif 0 0 AF_INET6 ex_up = Some ex_up.
Proof. apply (xnet_tap_setup_ip6_dead 0 ex_up 0 (set_netif_up true ex_tap)). reflexivity. Defined.

(** Tearing a tap down undoes its setup: lwIP's list is what it was before,
    the interface is down and no longer the default, the tap has no addresses,
    and every other interface is as it was. *)
Theorem xnet_tap_setup_teardown z x i tap l v0 :
  tap_at x i = Some tap -> netif_up tap = false -> has_ip4 tap = true ->
  netifs_ok (x_net x) l -> nget (x_net x) (tap_netif i) = Some v0 -> tap_netif i ∉ l -> (length l < 255)%nat ->
  exists x1 x2, xnet_tap_setup_netif z i AF_INET x = Some x1 /\ xnet_tap_teardown i x1 = Some x2 /\
    netifs_ok (x_net x2) l /\ netif_default (x_net x2) = None /\
    tap_at x2 i = Some (clear_addrs (set_netif_up false tap)) /\
    (exists v, nget (x_net x2) (tap_netif i) = Some v /\ flag_set v NETIF_FLAG_UP = false) /\
    (forall m v, m <> tap_netif i -> nget (x_net x) m = Some v ->
       exists v', nget (x_net x2) m = Some v' /\ eq_up_to_next v v').
Proof.
  intros Ht Hup H4 Hok Hv0 Hn Hlen.
  destruct (setup_ip4_ok z x i tap l v0 Ht Hup H4 Hok Hv0 Hn Hlen) as (ns & v & E & Hok1 & Hd1 & Hv1 & _ & _ & _ & _ & _ & Hoff).
  set (x1 := tap_set i (set_netif_up true tap) (set_net ns x)) in *.
  assert (Ht1 : tap_at x1 i = Some (set_netif_up true tap)) by by apply (tap_at_set (set_net ns x) i tap).
  destruct (teardown_ok x1 i _ (tap_netif i :: l) Ht1 eq_refl Hok1) as (ns2 & E2 & Hok2 & Hd2 & Hf2 & Hoth); [by left|].
  exists x1. eexists. split; [done|]. split; [exact E2|]. rewrite filter_cons_False, filter_not_in in Hok2 by naive_solver.
  split; [exact Hok2|]. split.
  { etrans; [exact Hd2|]. change (netif_default (x_net x1)) with (netif_default ns). by rewrite Hd1, bool_decide_eq_true_2. }
  split; [by apply (tap_at_set (set_net ns2 x1) i (set_netif_up true tap))|]. split; [exact Hf2|].
  intros m w Hm Hw. apply Hoth; [done|]. change (x_net x1) with ns. by rewrite Hoff.
Qed.

Lemma xnet_tap_setup_teardown_witness :
  exists x1 x2, xnet_tap_setup_netif 0 0 AF_INET ex_x = Some x1 /\ xnet_tap_teardown 0 x1 = Some x2 /\
    netifs_ok (x_net x2) [].
Proof.
  destruct (xnet_tap_setup_teardown 0 ex_x 0 ex_tap [] zero_netif) as (x1 & x2 & E1 & E2 & Hok & _);
    [reflexivity|reflexivity|reflexivity|exact ex_x_net_ok|reflexivity|apply not_elem_of_nil|cbn; lia|].
  exists x1, x2. split; [exact E1|]. split; [exact E2|exact Hok].
Defined.

(** A network whose MTU exceeds 2034 gets an interface with that MTU, but
    a full-sized frame of it (header and MTU bytes) does not fit the transmit
    buffer: every such packet is refused. *)
Theorem tap_full_mtu_refused x nif v tap slot p l buf :
  tap_netif_ok tap v -> 2034 < mtu tap < 65536 - 14 ->
  nget (x_net x) nif = Some v -> nif_state v = Some slot -> g_node x = true ->
  packet (x_heap x) (Some p) l -> sum_len l = 14 + nif_mtu v ->
  tap_linkoutput buf nif p x = Some (ERR_BUF, x).
Proof.
  intros Hok Hm Hv Hst Hn Hp Hl. unfold tap_linkoutput. rewrite Hv; cbn [mbind option_bind].
  rewrite Hst, Hn. cbn [negb]. destruct (packet_tot _ _ _ Hp) as (b & Hg & Htot). rewrite Hg; cbn [mbind option_bind].
  rewrite Htot, Hl, (tno_mtu _ _ Hok). destruct (Z.eqb_spec (mtu tap) 0); [lia|]. cbn [negb].
  rewrite u16_small by lia. destruct (Z.ltb_spec 2048 (14 + mtu tap)); [done|lia].
Qed.

(** Network default: MTU 2800. *)
Definition ex_big_tap : xnet_tap := set_mac_mtu 0x020000000001 2800 ex_tap.
Definition ex_big_netif : netif :=
  nset_flags 0x1f (nset_output_ip6 ethip6_output (nset_output etharp_output (nset_linkoutput netif_linkoutput
    (nset_mtu 2800 (nset_hwaddr_len 6 (nset_hwaddr (mac_to_bytes 0x020000000001) (nset_state (Some 0) zero_netif))))))).
Definition ex_big_frame : pbuf := Pbuf None (replicate 2814 0) 0 2814 2814 0x82 0 1 0.
Definition ex_big : xstate :=
  set_heap (Heap {[1%positive := ex_big_frame]} 2%positive [] false [])
    (set_net (NState (<[1 := ex_big_netif]> ∅) None None 0 []) (tap_set 0 ex_big_tap ex_x)).

Lemma ex_big_packet : packet (x_heap ex_big) (Some 1%positive) [(1%positive, ex_big_frame)].
Proof.
  constructor; [vm_compute; intuition|apply NoDup_singleton| |cbn; lia|cbn; lia].
  repeat constructor; try (cbn; lia). vm_compute. discriminate.
Qed.

Lemma tap_full_mtu_refused_witness : tap_linkoutput (replicate 2048 0) 1 1%positive ex_big = Some (ERR_BUF, ex_big).
Proof.
  apply (tap_full_mtu_refused ex_big 1 ex_big_netif ex_big_tap 0 1%positive [(1%positive, ex_big_frame)]);
    [constructor; reflexivity|cbn; lia|reflexivity|reflexivity|reflexivity|exact ex_big_packet|reflexivity].
Defined.
