(* ===== verification/Ethernet.v ===== *)
(** Ethernet framing, output side: [ethernet_output] of [netif/ethernet.c], the
    constants of [prot/ethernet.h] and [prot/ieee.h], and the state of the link
    layer.  The input side is in [EthInput]: it calls the ARP module.

    The link layer works on the globals of the glue library ([xstate]: the
    pbufs, the interfaces, the frames handed to ZeroTier) and on the ARP table
    of [etharp.c]. *)
From S2P Require Import Prelude Bits Def IpAddr Pbuf PbufData NetifRec Netif XnetTap.

Definition ETH_HWADDR_LEN : Z := 6.
Definition SIZEOF_ETH_HDR : Z := 14.
Definition ETHTYPE_IP : Z := 0x0800.
Definition ETHTYPE_ARP : Z := 0x0806.
Definition ETHTYPE_IPV6 : Z := 0x86DD.
Definition LL_IP4_MULTICAST_ADDR_0 : Z := 0x01.
Definition LL_IP4_MULTICAST_ADDR_1 : Z := 0x00.
Definition LL_IP4_MULTICAST_ADDR_2 : Z := 0x5e.
Definition LL_IP6_MULTICAST_ADDR_0 : Z := 0x33.
Definition LL_IP6_MULTICAST_ADDR_1 : Z := 0x33.

Definition ethbroadcast : list Z := [0xff; 0xff; 0xff; 0xff; 0xff; 0xff].
Definition ethzero : list Z := [0; 0; 0; 0; 0; 0].

(** A 16-bit field as the host stores it, and the number stored. *)
Definition bytes16 (v : Z) : list Z := [byte_of v 0; byte_of v 1].
Definition u16_at (b0 b1 : Z) : Z := b0 + 256 * b1.

(** [enum etharp_state] (no static entries). *)
Definition ETHARP_STATE_EMPTY : Z := 0.
Definition ETHARP_STATE_PENDING : Z := 1.
Definition ETHARP_STATE_STABLE : Z := 2.
Definition ETHARP_STATE_STABLE_REREQUESTING_1 : Z := 3.
Definition ETHARP_STATE_STABLE_REREQUESTING_2 : Z := 4.

(** [struct etharp_entry].  The queue is the list of the pbufs its
    [etharp_q_entry] cells hold, first to last: the cells are never shared. *)
Record etharp_entry := Entry {
  e_q : list addr;
  e_ipaddr : Z;
  e_netif : option Z;
  e_ethaddr : list Z;
  e_ctime : Z;
  e_state : Z;
}.

(** [l_hints] is the memory behind the [hints] pointers of the interfaces: the
    [addr_hint] of each [struct netif_hint]. *)
Record lstate := LState {
  l_x : xstate;
  l_arp : list etharp_entry;
  l_hints : gmap Z Z;
}.

Definition lx (x : xstate) (l : lstate) : lstate := LState x (l_arp l) (l_hints l).

Definition l_heap (l : lstate) : heap := x_heap (l_x l).

Definition lheap (h : heap) (l : lstate) : lstate := lx (set_heap h (l_x l)) l.

Definition larp (t : list etharp_entry) (l : lstate) : lstate := LState (l_x l) t (l_hints l).

Definition lnif (l : lstate) (n : Z) : option netif := nget (x_net (l_x l)) n.

Section output.
  (** The uninitialised stack buffer of [netif_linkoutput]. *)
  Context (buf : list Z).

(** The call through [netif->linkoutput]; calling the NULL pointer of an
    interface without one is undefined. *)
Definition linkoutput (nif : Z) (p : addr) (l : lstate) : option (Z * lstate) :=
  v ← lnif l nif;
  match nif_linkoutput v with
  | linkoutput_unset => None
  | netif_linkoutput => '(e, x) ← tap_linkoutput buf nif p (l_x l); Some (e, lx x l)
  end.

Definition ethernet_output (nif : Z) (p : addr) (src dst : list Z) (eth_type : Z) (l : lstate)
    : option (Z * lstate) :=
  let eth_type_be := lwip_htons eth_type in
  '(r, h) ← pbuf_add_header (Some p) SIZEOF_ETH_HDR (l_heap l);
  if negb (r =? 0) then Some (ERR_BUF, lheap h l)
  else
    b ← get h p;
    b ← payload_write b 12 (bytes16 eth_type_be);
    b ← payload_write b 0 (ztake ETH_HWADDR_LEN dst);
    b ← payload_write b 6 (ztake ETH_HWADDR_LEN src);
    linkoutput nif p (lheap (put h p b) l).

End output.
