(* ===== verification/EthernetThm.v ===== *)
(** What [ethernet_output] does: the packet leaves as one frame with the given
    header when there is room for the header, the node runs and the frame fits
    the tap's buffer; otherwise an error code is returned and nothing leaves.
    Either way the packet stays intact and keeps its references. *)
From S2P Require Import Prelude Bits Def IpAddr Pbuf PbufData PbufChain PbufIO PbufLife PbufCopy PbufOwn.
From S2P Require Import NetifRec Netif XnetTap XnetTapThm Ethernet.

(** An Ethernet address in memory, and the number ZeroTier gets for it. *)
Definition hwaddr_ok (a : list Z) : Prop := zlen a = 6 /\ bytes_ok a.

Definition mac_of (a : list Z) : Z := default 0 (bytes_to_mac a).

(** An interface of the tap [tap]. *)
Definition tap_nif (x : xstate) (n : Z) (v : netif) (tap : xnet_tap) : Prop :=
  nget (x_net x) n = Some v /\ nif_linkoutput v = netif_linkoutput /\ hwaddr_ok (nif_hwaddr v) /\
  exists slot, nif_state v = Some slot /\ tap_at x slot = Some tap.

(** Whether a packet can leave. *)
Definition sends (x : xstate) (k : list (addr * pbuf)) : bool :=
  match k with
  | (_, b) :: _ =>
      g_node x && negb (pb_type b .& PBUF_TYPE_FLAG_STRUCT_DATA_CONTIGUOUS =? 0) &&
      (14 <=? pb_payload b) && (14 + sum_len k <=? 2048)
  | [] => false
  end.

Definition frame_of (tap : xnet_tap) (src dst : list Z) (ty : Z) (data : list Z) : xevent :=
  ProcessFrame (nwid tap) (mac_of src) (mac_of dst) ty data.

(** The world after a call that changed pbufs and emitted [evs]. *)
Definition lout (evs : list xevent) (h : heap) (l : lstate) : lstate := lx (out evs (set_heap h (l_x l))) l.

Lemma lout_nil h l : lout [] h l = lheap h l.
Proof. unfold lout, lheap, out. destruct l as [[] ? ?]; cbn. by rewrite app_nil_r. Qed.

Lemma lout_lout e e' h h' l : lout e' h' (lout e h l) = lout (e ++ e') h' l.
Proof. unfold lout, lx, out, set_heap; cbn. by rewrite app_assoc. Qed.

Lemma lheap_lout e h h' l : lheap h' (lout e h l) = lout e h' l.
Proof. done. Qed.

Lemma hwaddr_mac a :
  hwaddr_ok a -> 0 <= mac_of a < 2 ^ 48 /\ mac_to_bytes (mac_of a) = a.
Proof.
  intros [Hl Hb]. unfold zlen in Hl.
  destruct a as [|b0 [|b1 [|b2 [|b3 [|b4 [|b5 [|]]]]]]]; cbn in Hl; try lia.
  destruct (mac_bytes_surj _ _ _ _ _ _ Hb) as (m & Em & ? & Eb). unfold mac_of. rewrite Em; cbn. done.
Qed.

Lemma hwaddr_broadcast : hwaddr_ok ethbroadcast.
Proof. split; [done|]. repeat constructor; done. Qed.

Lemma hwaddr_zero : hwaddr_ok ethzero.
Proof. split; [done|]. repeat constructor; done. Qed.

#[export] Hint Resolve hwaddr_broadcast hwaddr_zero : cint.

Lemma bytes16_htons e : 0 <= e < 65536 -> bytes16 (lwip_htons e) = [e .>> 8 .& 0xff; e .& 0xff].
Proof.
  intros He. unfold bytes16, lwip_htons, PP_HTONS, byte_of.
  change (Z.land e 0xff00) with (Z.land e (Z.ones 8 .<< 8)).
  change 0x00ff with (Z.ones 8). change 0xff with (Z.ones 8).
  rewrite !Z.land_ones by lia. rewrite (shr_div e) by lia.
  assert (E : Z.land e (Z.ones 8 .<< 8) .>> 8 = e / 2 ^ 8).
  { rewrite Z.shiftr_land, Z.shiftr_shiftl_l by lia. change (8 - 8) with 0. rewrite Z.shiftl_0_r.
    rewrite Z.land_ones, Z.shiftr_div_pow2 by lia. apply Z.mod_small. change (2 ^ 8) with 256. zdm; lia. }
  rewrite E. rewrite lor_shl_add; [|lia|change (2 ^ 8) with 256; zdm; lia].
  rewrite u16_small by (change (2 ^ 8) with 256; zdm; lia).
  change (8 * 0) with 0; change (8 * 1) with 8. change (2 ^ 0) with 1; change (2 ^ 8) with 256.
  f_equal; [zdm; lia|]. f_equal. zdm; lia.
Qed.

Lemma eth_hdr_bytes src dst ty :
  hwaddr_ok src -> hwaddr_ok dst -> 0 <= ty < 65536 ->
  eth_hdr (mac_of src) (mac_of dst) ty = dst ++ src ++ bytes16 (lwip_htons ty).
Proof.
  intros Hs Hd Ht. unfold eth_hdr. rewrite bytes16_htons by done.
  by rewrite (proj2 (hwaddr_mac _ Hs)), (proj2 (hwaddr_mac _ Hd)).
Qed.

(** The header written in the order of the code. *)
Lemma eth_header_written b dst src ty :
  pb_ok b -> 14 <= pb_len b -> zlen dst = 6 -> zlen src = 6 ->
  exists b', (b ← payload_write b 12 (bytes16 ty); b ← payload_write b 0 dst; payload_write b 6 src) = Some b' /\
    (forall a, rewritten (a, b) (a, b')) /\ pb_bytes b' = dst ++ src ++ bytes16 ty ++ zdrop 14 (pb_bytes b).
Proof.
  intros Hb Hlen Hd Hs. assert (Ht : zlen (bytes16 ty) = 2) by done.
  destruct (payload_write_spec b 12 (bytes16 ty)) as (b1 & -> & _ & Hr1 & Hy1); [done|lia|lia|].
  cbn [mbind option_bind].
  assert (H1 : pb_ok b1 /\ pb_len b1 = pb_len b).
  { destruct (Hr1 1%positive) as (_ & m & E & Hm); cbn in E, Hm; subst b1. unfold pb_ok in *; cbn; rewrite Hm. done. }
  destruct H1 as [Hb1 Hl1].
  destruct (payload_write_spec b1 0 dst) as (b2 & -> & _ & Hr2 & Hy2); [done|lia|lia|].
  cbn [mbind option_bind].
  assert (H2 : pb_ok b2 /\ pb_len b2 = pb_len b).
  { destruct (Hr2 1%positive) as (_ & m & E & Hm); cbn in E, Hm; subst b2. unfold pb_ok in *; cbn; rewrite Hm. done. }
  destruct H2 as [Hb2 Hl2].
  destruct (payload_write_spec b2 6 src) as (b3 & -> & _ & Hr3 & Hy3); [done|lia|lia|].
  exists b3. split; [done|]. split.
  { intros a. eapply rewritten_trans; [apply Hr1|]. eapply rewritten_trans; [apply Hr2|apply Hr3]. }
  pose proof (pb_bytes_len _ Hb) as Hlb. rewrite Hy3, Hy2, Hy1, Hd, Hs, Ht. rewrite ztake_0; cbn [app].
  set (B := pb_bytes b) in *.
  rewrite ztake_app_le, (ztake_ge 6 dst) by lia. rewrite zdrop_app_ge by lia. f_equal. f_equal.
  rewrite Hd. rewrite zdrop_zdrop by lia. change (6 + 6 - 6 + (0 + 6)) with 12. change (12 + 2) with 14.
  assert (zlen (ztake 12 B) = 12) as H12 by (rewrite zlen_ztake; lia).
  rewrite zdrop_app_ge by lia. rewrite H12. done.
Qed.

Lemma tap_linkoutput_refuses x nif v tap p k buf :
  tap_nif x nif v tap -> packet (x_heap x) (Some p) k -> (g_node x && (sum_len k <=? 2048)) = false ->
  exists r, tap_linkoutput buf nif p x = Some (r, x) /\ r <> ERR_OK.
Proof.
  intros (Hv & _ & _ & slot & Hst & Htap) Hp Hn. unfold tap_linkoutput.
  rewrite Hv; cbn [mbind option_bind]. rewrite Hst. destruct (g_node x); cbn [negb andb] in *; [|by eexists].
  destruct (packet_tot _ _ _ Hp) as (b & Hg & Htot). rewrite Hg; cbn [mbind option_bind]. rewrite Htot.
  apply Z.leb_gt in Hn. destruct (Z.ltb_spec 2048 (sum_len k)); [|lia]. cbn. by eexists.
Qed.

(** What [ethernet_output] leaves of a packet: its pbufs and references. *)
Definition kept (h h' : heap) (p : addr) (k k' : list (addr * pbuf)) : Prop :=
  std_packet h' p k' /\ fst <$> k' = fst <$> k /\ (h_next h' = h_next h /\ h_orc h' = h_orc h) /\
  (forall a, a <> p -> get h' a = get h a) /\
  (forall b, get h p = Some b -> exists b', get h' p = Some b' /\ pb_ref b' = pb_ref b).

Lemma kept_refl h p k : std_packet h p k -> kept h h p k k.
Proof. intros Hk. split; [done|]. split_and!; try done. eauto. Qed.

(** A pbuf with the frame header in front of its payload. *)
Definition framed (b b' : pbuf) (hdr : list Z) : Prop :=
  pb_ok b' /\ pb_std b' /\ pb_next b' = pb_next b /\ pb_ref b' = pb_ref b /\
  pb_len b' = 14 + pb_len b /\ pb_tot_len b' = 14 + pb_tot_len b /\ pb_bytes b' = hdr ++ pb_bytes b.

Lemma framed_kept h p b t b' hdr :
  std_packet h p ((p, b) :: t) -> framed b b' hdr -> 14 + sum_len ((p, b) :: t) < 65536 ->
  kept h (put h p b') p ((p, b) :: t) ((p, b') :: t) /\ content ((p, b') :: t) = hdr ++ content ((p, b) :: t).
Proof.
  intros (Hp & Hs & Hon) (Hok & Hst & Hnx & Hrf & Hlen & Htot & Hby) Hsum.
  pose proof (packet_cons _ _ _ _ Hp) as (Hg & _ & Ha & Ht & _).
  destruct Hp as [Hl Hnd Ho [_ Hts] _]. split.
  - split.
    + split; [|split; [apply Forall_cons in Hs as [_ Hs]; by constructor|done]]. cbn [sum_len] in *. constructor; cbn [sum_len].
      * cbn. split; [done|]. split; [apply get_put_eq|]. rewrite Hnx. apply lseg_put; [done|]. apply Hl.
      * done.
      * apply Forall_cons in Ho as [_ Ho]. by constructor.
      * split; [lia|done].
      * lia.
    + split; [done|]. split; [done|]. split.
      * intros a Hne. by apply get_put_ne.
      * intros c Hc. simplify_eq. exists b'. split; [apply get_put_eq|done].
  - rewrite !content_cons, Hby. by rewrite <- app_assoc.
Qed.

(** Room for the header, and the header in it. *)
Lemma eth_header_added h p b t dst src ty :
  std_packet h p ((p, b) :: t) -> zlen dst = 6 -> zlen src = 6 -> 14 + sum_len ((p, b) :: t) < 65536 ->
  pb_type b .& PBUF_TYPE_FLAG_STRUCT_DATA_CONTIGUOUS <> 0 -> 14 <= pb_payload b ->
  exists b1 b', pbuf_add_header (Some p) SIZEOF_ETH_HDR h = Some (0, put h p b1) /\
    (b ← payload_write b1 12 (bytes16 ty); b ← payload_write b 0 dst; payload_write b 6 src) = Some b' /\
    framed b b' (dst ++ src ++ bytes16 ty).
Proof.
  intros (Hp & Hs & _) Hd Hsr Hsum Hty Hpay. pose proof (packet_cons _ _ _ _ Hp) as (Hg & Hb & _ & Htot & Hp').
  pose proof Hp' as [_ _ Ho _ _]. pose proof (sum_len_nonneg _ Ho). pose proof Hb as (? & ? & ? & ?).
  cbn [sum_len] in Hsum. unfold pbuf_add_header, pbuf_add_header_impl, SIZEOF_ETH_HDR.
  cbn [Z.ltb Z.compare Pos.compare Pos.compare_cont Z.eqb]. rewrite Hg; cbn [mbind option_bind].
  rewrite (u16_small 14), !u16_small by lia.
  destruct (Z.ltb_spec (14 + pb_tot_len b) 14); [lia|]. destruct (Z.eqb_spec (pb_type b .& PBUF_TYPE_FLAG_STRUCT_DATA_CONTIGUOUS) 0); [lia|].
  cbn [negb]. destruct (Z.ltb_spec (pb_payload b - 14) 0); [lia|].
  set (b1 := set_payload (pb_payload b - 14) (pb_len b + 14) (pb_tot_len b + 14) b).
  assert (Hb1 : pb_ok b1) by (unfold pb_ok, b1; cbn; lia).
  destruct (eth_header_written b1 dst src ty Hb1) as (b' & Hw & Hr & Hby); [cbn; lia|done|done|].
  exists b1, b'. split; [done|]. split; [done|].
  destruct (Hr p) as (_ & m & E & Hm); cbn in E, Hm. subst b'. split.
  { unfold pb_ok in *; cbn in *. rewrite Hm. lia. }
  apply Forall_cons in Hs as [Hs _]. split; [exact Hs|]. cbn [set_mem pb_next pb_ref pb_len pb_tot_len b1 set_payload].
  split_and!; [done|done|lia|lia|]. rewrite Hby, <- !app_assoc. do 3 f_equal.
  unfold pb_bytes, b1; cbn. rewrite zdrop_ztake, zdrop_zdrop by lia. f_equal; [lia|]. f_equal; lia.
Qed.

Lemma add_header_refused h p b t :
  packet h (Some p) ((p, b) :: t) ->
  (negb (pb_type b .& PBUF_TYPE_FLAG_STRUCT_DATA_CONTIGUOUS =? 0) && (14 <=? pb_payload b) &&
   (14 + sum_len ((p, b) :: t) <? 65536)) = false ->
  pbuf_add_header (Some p) SIZEOF_ETH_HDR h = Some (1, h).
Proof.
  intros Hp Hf. pose proof (packet_cons _ _ _ _ Hp) as (Hg & Hb & _ & Htot & Hp').
  pose proof Hp as [_ _ _ _ Hsum]. pose proof Hp' as [_ _ Ho _ _]. pose proof (sum_len_nonneg _ Ho). pose proof Hb as (? & ? & ? & ?).
  cbn [sum_len] in *. unfold pbuf_add_header, pbuf_add_header_impl, SIZEOF_ETH_HDR.
  cbn [Z.ltb Z.compare Pos.compare Pos.compare_cont Z.eqb]. rewrite Hg; cbn [mbind option_bind].
  rewrite (u16_small 14) by lia.
  destruct (Z.ltb_spec (u16 (14 + pb_tot_len b)) 14) as [|Hw]; [done|].
  assert (14 + pb_tot_len b < 65536).
  { destruct (Z.lt_ge_cases (14 + pb_tot_len b) 65536); [done|]. exfalso. revert Hw.
    unfold u16. change (2 ^ 16) with 65536. zdm. lia. }
  destruct (_ =? 0); cbn [negb andb] in *; [done|].
  destruct (Z.ltb_spec (pb_payload b - 14) 0); [done|].
  destruct (Z.leb_spec 14 (pb_payload b)), (Z.ltb_spec (14 + (pb_len b + sum_len t)) 65536); cbn in Hf; try done; lia.
Qed.

Section output.
  Context (buf : list Z) (Hbuf : zlen buf = 2048).

Lemma ethernet_output_spec nif p src dst ty l v tap k :
  tap_nif (l_x l) nif v tap -> std_packet (l_heap l) p k -> hwaddr_ok src -> hwaddr_ok dst -> 0 <= ty < 65536 ->
  exists r h' k', ethernet_output buf nif p src dst ty l =
      Some (r, lout (if sends (l_x l) k then [frame_of tap src dst ty (content k)] else []) h' l) /\
    (r = ERR_OK <-> sends (l_x l) k = true) /\ kept (l_heap l) h' p k k'.
Proof using Hbuf.
  intros Hnif Hk Hsrc Hdst Hty. pose proof Hk as [Hp Hs].
  pose proof (std_packet_head _ _ _ Hk) as (b & t & -> & Hg). pose proof Hp as [_ _ Ho _ Hsum].
  pose proof (sum_len_nonneg _ Ho).
  unfold ethernet_output. cbn [sends].
  set (room := negb (pb_type b .& PBUF_TYPE_FLAG_STRUCT_DATA_CONTIGUOUS =? 0) && (14 <=? pb_payload b) &&
               (14 + sum_len ((p, b) :: t) <? 65536)).
  destruct room eqn:Er; subst room; last first.
  { rewrite (add_header_refused _ _ _ _ Hp Er). cbn [mbind option_bind Z.eqb negb].
    assert (sends (l_x l) ((p, b) :: t) = false) as Es.
    { cbn [sends]. destruct (g_node _); [|done]. cbn [andb]. destruct (negb _), (_ <=? pb_payload b); cbn [andb] in *; try done.
      apply Z.ltb_ge in Er. apply Z.leb_gt. lia. }
    cbn [sends] in Es; rewrite Es. rewrite <- lout_nil. do 3 eexists. split; [done|]. split; [done|].
    by apply kept_refl. }
  apply andb_true_iff in Er as [[E1 E2]%andb_true_iff E3].
  apply negb_true_iff, Z.eqb_neq in E1. apply Z.leb_le in E2. apply Z.ltb_lt in E3.
  destruct (eth_header_added _ _ _ _ dst src (lwip_htons ty) Hk (proj1 Hdst) (proj1 Hsrc) E3 E1 E2)
    as (b1 & b' & -> & Hw & Hfr).
  cbn [mbind option_bind Z.eqb negb]. rewrite get_put_eq; cbn [mbind option_bind].
  rewrite (ztake_ge ETH_HWADDR_LEN dst), (ztake_ge ETH_HWADDR_LEN src) by (unfold ETH_HWADDR_LEN, hwaddr_ok in *; lia).
  destruct (payload_write b1 12 _) as [c1|]; cbn [mbind option_bind] in *; [|done].
  destruct (payload_write c1 0 _) as [c2|]; cbn [mbind option_bind] in *; [|done].
  rewrite Hw; cbn [mbind option_bind].
  destruct (framed_kept _ _ _ _ _ _ Hk Hfr E3) as [Hkept Hc].
  assert (Eput : put (put (l_heap l) p b1) p b' = put (l_heap l) p b').
  { unfold put; cbn. f_equal. apply insert_insert_eq. }
  rewrite Eput. unfold linkoutput.
  destruct Hnif as (Hv & Hlo & Hhw & slot & Hst & Htap).
  change (lnif (lheap _ l) nif) with (nget (x_net (l_x l)) nif). rewrite Hv; cbn [mbind option_bind]. rewrite Hlo.
  set (x1 := l_x (lheap (put (l_heap l) p b') l)).
  assert (Ekc : zlen (content ((p, b) :: t)) = sum_len ((p, b) :: t)) by by apply content_len.
  assert (Hs14 : sum_len ((p, b') :: t) = 14 + sum_len ((p, b) :: t)).
  { cbn [sum_len]. destruct Hfr as (_ & _ & _ & _ & -> & _). lia. }
  apply Z.eqb_neq in E1. apply Z.leb_le in E2. rewrite E1, E2. cbn [negb]. rewrite !andb_true_r.
  destruct (g_node (l_x l) && (14 + sum_len ((p, b) :: t) <=? 2048)) eqn:Es.
  - pose proof Es as [En Ef]%andb_true_iff. apply Z.leb_le in Ef.
    rewrite (linkoutput_sends x1 nif v slot tap p ((p, b') :: t) buf (mac_of src) (mac_of dst) ty (content ((p, b) :: t)));
      try done; try lia; try by apply hwaddr_mac.
    + cbn [mbind option_bind]. do 3 eexists. split; [done|]. split; [done|]. done.
    + apply Hkept.
    + rewrite Hc, eth_hdr_bytes by done. by rewrite <- !app_assoc.
  - destruct (tap_linkoutput_refuses x1 nif v tap p ((p, b') :: t) buf) as (r & -> & Hr).
    + split; [done|]. eauto 10.
    + apply Hkept.
    + rewrite Hs14. exact Es.
    + cbn [mbind option_bind]. exists r, (put (l_heap l) p b'), ((p, b') :: t).
      split; [rewrite lout_nil; done|]. split; [|done]. split; [done|]. intros E; discriminate E.
Qed.

End output.
