(* ===== verification/Etharp.v ===== *)
(** Address resolution: the table of [core/ipv4/etharp.c] and every function of
    the file that is compiled in (no static entries, no address conflict
    detection, no [LWIP_AUTOIP], queueing on, entries matched by interface).

    An address of a table slot outside of [arp_table] is undefined ([None]).
    Debug output, statistics and [LWIP_ASSERT] are compiled out. *)
From S2P Require Import Prelude Bits Def IpAddr Pbuf PbufData NetifRec Netif Ip4Addr XnetTap Ethernet.

(** ** Configuration *)
Definition ARP_TABLE_SIZE : Z := 64.
Definition ARP_MAXAGE : Z := 300.
Definition ARP_QUEUE_LEN : nat := 3.
Definition ARP_AGE_REREQUEST_USED_UNICAST : Z := ARP_MAXAGE - 30.
Definition ARP_AGE_REREQUEST_USED_BROADCAST : Z := ARP_MAXAGE - 15.
Definition ARP_MAXPENDING : Z := 5.
Definition ETHARP_FLAG_TRY_HARD : Z := 1.
Definition ETHARP_FLAG_FIND_ONLY : Z := 2.
Definition ARP_REQUEST : Z := 1.
Definition ARP_REPLY : Z := 2.
Definition LWIP_IANA_HWTYPE_ETHERNET : Z := 1.
Definition SIZEOF_ETHARP_HDR : Z := 28.

(** ** Address tests ([ip4_addr.h]) *)
Definition ip4_addr_ismulticast (a : Z) : bool := (a .& PP_HTONL 0xf0000000) =? PP_HTONL 0xe0000000.
Definition ip4_addr_islinklocal (a : Z) : bool := (a .& PP_HTONL 0xffff0000) =? PP_HTONL 0xa9fe0000.

(** The 4 bytes of an address in memory order. *)
Definition ip4_bytes (a : Z) : list Z := [byte_of a 0; byte_of a 1; byte_of a 2; byte_of a 3].

(** ** Table slots *)
Definition set_q (q : list addr) (e : etharp_entry) : etharp_entry :=
  Entry q (e_ipaddr e) (e_netif e) (e_ethaddr e) (e_ctime e) (e_state e).

Definition set_state (s : Z) (e : etharp_entry) : etharp_entry :=
  Entry (e_q e) (e_ipaddr e) (e_netif e) (e_ethaddr e) (e_ctime e) s.

Definition set_ctime (c : Z) (e : etharp_entry) : etharp_entry :=
  Entry (e_q e) (e_ipaddr e) (e_netif e) (e_ethaddr e) c (e_state e).

Definition set_netif (n : option Z) (e : etharp_entry) : etharp_entry :=
  Entry (e_q e) (e_ipaddr e) n (e_ethaddr e) (e_ctime e) (e_state e).

Definition set_ipaddr (a : Z) (e : etharp_entry) : etharp_entry :=
  Entry (e_q e) a (e_netif e) (e_ethaddr e) (e_ctime e) (e_state e).

Definition set_ethaddr (a : list Z) (e : etharp_entry) : etharp_entry :=
  Entry (e_q e) (e_ipaddr e) (e_netif e) a (e_ctime e) (e_state e).

(** [arp_table[i]] read and written. *)
Definition arp_at (l : lstate) (i : nat) : option etharp_entry := l_arp l !! i.

Definition arp_set (i : nat) (e : etharp_entry) (l : lstate) : lstate := larp (<[i := e]> (l_arp l)) l.

(** The static table before the first use: all zero. *)
Definition zero_entry : etharp_entry := Entry [] 0 None ethzero 0 ETHARP_STATE_EMPTY.

Definition arp_init : list etharp_entry := replicate 64 zero_entry.

(** ** Search for an entry *)

(** The candidates a search remembers: an index and its age. *)
Record candidates := Cand {
  old_pending : Z; age_pending : Z;
  old_stable : Z; age_stable : Z;
  old_queue : Z; age_queue : Z;
  empty_slot : Z;
}.

Definition cand_init : candidates := Cand ARP_TABLE_SIZE 0 ARP_TABLE_SIZE 0 ARP_TABLE_SIZE 0 ARP_TABLE_SIZE.

Definition netif_matches (nif : option Z) (e : etharp_entry) : bool :=
  match nif with None => true | Some _ => bool_decide (nif = e_netif e) end.

(** One slot that did not match. *)
Definition remember (i : Z) (e : etharp_entry) (c : candidates) : candidates :=
  if e_state e =? ETHARP_STATE_PENDING then
    match e_q e with
    | _ :: _ =>
        if age_queue c <=? e_ctime e
        then Cand (old_pending c) (age_pending c) (old_stable c) (age_stable c) i (e_ctime e) (empty_slot c)
        else c
    | [] =>
        if age_pending c <=? e_ctime e
        then Cand i (e_ctime e) (old_stable c) (age_stable c) (old_queue c) (age_queue c) (empty_slot c)
        else c
    end
  else if ETHARP_STATE_STABLE <=? e_state e then
    if age_stable c <=? e_ctime e
    then Cand (old_pending c) (age_pending c) i (e_ctime e) (old_queue c) (age_queue c) (empty_slot c)
    else c
  else c.

(** The search sweep from slot [i] on: the index of a match, or the
    candidates. *)
Fixpoint find_sweep (ipaddr : option Z) (nif : option Z) (t : list etharp_entry) (i : Z) (c : candidates)
    : Z + candidates :=
  match t with
  | [] => inr c
  | e :: t =>
      let state := e_state e in
      if (empty_slot c =? ARP_TABLE_SIZE) && (state =? ETHARP_STATE_EMPTY) then
        find_sweep ipaddr nif t (i + 1)
          (Cand (old_pending c) (age_pending c) (old_stable c) (age_stable c) (old_queue c) (age_queue c) i)
      else if negb (state =? ETHARP_STATE_EMPTY) then
        if match ipaddr with Some a => a =? e_ipaddr e | None => false end && netif_matches nif e
        then inl i
        else find_sweep ipaddr nif t (i + 1) (remember i e c)
      else find_sweep ipaddr nif t (i + 1) c
  end.

Section etharp.
  (** The free functions of custom pbufs, and the stack buffer of
      [netif_linkoutput]. *)
  Context (custom_free : addr -> heap -> option heap).
  Context (buf : list Z).

Fixpoint free_etharp_q (q : list addr) (h : heap) : option heap :=
  match q with
  | [] => Some h
  | p :: q => '(_, h) ← pbuf_free custom_free (Some p) h; free_etharp_q q h
  end.

Definition etharp_free_entry (i : nat) (l : lstate) : option lstate :=
  e ← arp_at l i;
  l ← match e_q e with
      | [] => Some l
      | q => h ← free_etharp_q q (l_heap l); Some (arp_set i (set_q [] e) (lheap h l))
      end;
  e ← arp_at l i;
  Some (arp_set i (set_state ETHARP_STATE_EMPTY e) l).

Definition etharp_find_entry (ipaddr : option Z) (flags : Z) (nif : option Z) (l : lstate)
    : option (Z * lstate) :=
  match find_sweep ipaddr nif (l_arp l) 0 cand_init with
  | inl i => Some (i, l)
  | inr c =>
      if negb (flags .& ETHARP_FLAG_FIND_ONLY =? 0) ||
         ((empty_slot c =? ARP_TABLE_SIZE) && (flags .& ETHARP_FLAG_TRY_HARD =? 0))
      then Some (ERR_MEM, l)
      else
        let recycled :=
          if old_stable c <? ARP_TABLE_SIZE then Some (old_stable c)
          else if old_pending c <? ARP_TABLE_SIZE then Some (old_pending c)
          else if old_queue c <? ARP_TABLE_SIZE then Some (old_queue c)
          else None in
        match (if empty_slot c <? ARP_TABLE_SIZE then Some (empty_slot c, false)
               else i ← recycled; Some (i, true)) with
        | None => Some (ERR_MEM, l)
        | Some (i, busy) =>
            l ← (if busy : bool then etharp_free_entry (Z.to_nat i) l else Some l);
            e ← arp_at l (Z.to_nat i);
            let e := match ipaddr with Some a => set_ipaddr a e | None => e end in
            Some (i, arp_set (Z.to_nat i) (set_netif nif (set_ctime 0 e)) l)
        end
  end.

(** ** ARP packets *)

(** The 28 bytes of the [etharp_hdr] that [etharp_raw] fills in. *)
Definition etharp_hdr_bytes (hwsrc_addr : list Z) (ipsrc_addr : Z) (hwdst_addr : list Z) (ipdst_addr opcode : Z)
    : list Z :=
  bytes16 (PP_HTONS LWIP_IANA_HWTYPE_ETHERNET) ++ bytes16 (PP_HTONS ETHTYPE_IP) ++
  [ETH_HWADDR_LEN; 4] ++ bytes16 (lwip_htons opcode) ++
  ztake ETH_HWADDR_LEN hwsrc_addr ++ ip4_bytes ipsrc_addr ++
  ztake ETH_HWADDR_LEN hwdst_addr ++ ip4_bytes ipdst_addr.

Definition etharp_raw (nif : Z) (ethsrc_addr ethdst_addr hwsrc_addr : list Z) (ipsrc_addr : Z)
    (hwdst_addr : list Z) (ipdst_addr opcode : Z) (l : lstate) : option (Z * lstate) :=
  '(p, h) ← pbuf_alloc custom_free PBUF_LINK SIZEOF_ETHARP_HDR PBUF_RAM (l_heap l);
  match p with
  | None => Some (ERR_MEM, lheap h l)
  | Some p =>
      b ← get h p;
      b ← payload_write b 0 (etharp_hdr_bytes hwsrc_addr ipsrc_addr hwdst_addr ipdst_addr opcode);
      '(_, l) ← ethernet_output buf nif p ethsrc_addr ethdst_addr ETHTYPE_ARP (lheap (put h p b) l);
      '(_, h) ← pbuf_free custom_free (Some p) (l_heap l);
      Some (ERR_OK, lheap h l)
  end.

Definition etharp_request_dst (nif ipaddr : Z) (hw_dst_addr : list Z) (l : lstate) : option (Z * lstate) :=
  v ← lnif l nif;
  etharp_raw nif (nif_hwaddr v) hw_dst_addr (nif_hwaddr v) (nif_ip_addr v) ethzero ipaddr ARP_REQUEST l.

Definition etharp_request (nif ipaddr : Z) (l : lstate) : option (Z * lstate) :=
  etharp_request_dst nif ipaddr ethbroadcast l.

(** ** The timer *)

(** The body of the loop of [etharp_tmr] for slot [i]. *)
Definition etharp_tmr_slot (i : nat) (l : lstate) : option lstate :=
  e ← arp_at l i;
  if negb (e_state e =? ETHARP_STATE_EMPTY) then
    let e := set_ctime (u16 (e_ctime e + 1)) e in
    let l := arp_set i e l in
    if (ARP_MAXAGE <=? e_ctime e) ||
       ((e_state e =? ETHARP_STATE_PENDING) && (ARP_MAXPENDING <=? e_ctime e))
    then etharp_free_entry i l
    else if e_state e =? ETHARP_STATE_STABLE_REREQUESTING_1
    then Some (arp_set i (set_state ETHARP_STATE_STABLE_REREQUESTING_2 e) l)
    else if e_state e =? ETHARP_STATE_STABLE_REREQUESTING_2
    then Some (arp_set i (set_state ETHARP_STATE_STABLE e) l)
    else if e_state e =? ETHARP_STATE_PENDING
    then nif ← e_netif e; '(_, l) ← etharp_request nif (e_ipaddr e) l; Some l
    else Some l
  else Some l.

(** A [for] loop over slots [i], [i+1], ..., [i+n-1]. *)
Fixpoint for_slots (body : nat -> lstate -> option lstate) (n i : nat) (l : lstate) : option lstate :=
  match n with
  | O => Some l
  | S n => l ← body i l; for_slots body n (S i) l
  end.

Definition etharp_tmr (l : lstate) : option lstate :=
  for_slots etharp_tmr_slot (Z.to_nat ARP_TABLE_SIZE) 0 l.

(** ** Updating the table *)

(** The [while] loop that sends the packets queued on slot [i]; [q] is the
    queue of the slot. *)
Fixpoint etharp_send_queue (i : nat) (nif : Z) (ethaddr : list Z) (q : list addr) (l : lstate) : option lstate :=
  match q with
  | [] => Some l
  | p :: q =>
      e ← arp_at l i;
      let l := arp_set i (set_q q e) l in
      v ← lnif l nif;
      '(_, l) ← ethernet_output buf nif p (nif_hwaddr v) ethaddr ETHTYPE_IP l;
      '(_, h) ← pbuf_free custom_free (Some p) (l_heap l);
      etharp_send_queue i nif ethaddr q (lheap h l)
  end.

Definition etharp_update_arp_entry (nif ipaddr : Z) (ethaddr : list Z) (flags : Z) (l : lstate)
    : option (Z * lstate) :=
  v ← lnif l nif;
  if (ipaddr =? IPADDR_ANY) || ip4_addr_isbroadcast_u32 ipaddr v || ip4_addr_ismulticast ipaddr
  then Some (ERR_ARG, l)
  else
    '(i, l) ← etharp_find_entry (Some ipaddr) flags (Some nif) l;
    if i <? 0 then Some (i, l)
    else
      let i := Z.to_nat i in
      e ← arp_at l i;
      let e := set_netif (Some nif) (set_state ETHARP_STATE_STABLE e) in
      let e := set_ctime 0 (set_ethaddr (ztake ETH_HWADDR_LEN ethaddr) e) in
      l ← etharp_send_queue i nif ethaddr (e_q e) (arp_set i e l);
      Some (ERR_OK, l).

Definition etharp_cleanup_slot (nif : Z) (i : nat) (l : lstate) : option lstate :=
  e ← arp_at l i;
  if negb (e_state e =? ETHARP_STATE_EMPTY) && bool_decide (e_netif e = Some nif)
  then etharp_free_entry i l else Some l.

Definition etharp_cleanup_netif (nif : Z) (l : lstate) : option lstate :=
  for_slots (etharp_cleanup_slot nif) (Z.to_nat ARP_TABLE_SIZE) 0 l.

(** ** Queries *)

(** The table index, with the two addresses the output pointers get. *)
Definition etharp_find_addr (nif : option Z) (ipaddr : Z) (l : lstate)
    : option (Z * option (list Z * Z) * lstate) :=
  '(i, l) ← etharp_find_entry (Some ipaddr) ETHARP_FLAG_FIND_ONLY nif l;
  if 0 <=? i then
    e ← arp_at l (Z.to_nat i);
    if ETHARP_STATE_STABLE <=? e_state e then Some (i, Some (e_ethaddr e, e_ipaddr e), l)
    else Some (-1, None, l)
  else Some (-1, None, l).

Definition etharp_get_entry (i : Z) (l : lstate) : option (Z * option (Z * option Z * list Z)) :=
  if i <? ARP_TABLE_SIZE then
    e ← arp_at l (Z.to_nat i);
    if ETHARP_STATE_STABLE <=? e_state e then Some (1, Some (e_ipaddr e, e_netif e, e_ethaddr e))
    else Some (0, None)
  else Some (0, None).

(** ** Output *)

(** [ETHARP_SET_ADDRHINT]. *)
Definition etharp_set_addrhint (nif i : Z) (l : lstate) : option lstate :=
  v ← lnif l nif;
  match nif_hints v with
  | Some a => Some (LState (l_x l) (l_arp l) (<[a := i]> (l_hints l)))
  | None => Some l
  end.

(** The entry marked when its re-request was sent. *)
Definition etharp_rerequested (arp_idx : nat) (res : Z * lstate) : option lstate :=
  let '(r, l) := res in
  e ← arp_at l arp_idx;
  Some (if r =? ERR_OK then arp_set arp_idx (set_state ETHARP_STATE_STABLE_REREQUESTING_1 e) l else l).

(** An entry about to expire is asked for again. *)
Definition etharp_rerequest (nif : Z) (arp_idx : nat) (l : lstate) : option lstate :=
  e ← arp_at l arp_idx;
  if e_state e =? ETHARP_STATE_STABLE then
    if ARP_AGE_REREQUEST_USED_BROADCAST <=? e_ctime e
    then etharp_request nif (e_ipaddr e) l ≫= etharp_rerequested arp_idx
    else if ARP_AGE_REREQUEST_USED_UNICAST <=? e_ctime e
    then etharp_request_dst nif (e_ipaddr e) (e_ethaddr e) l ≫= etharp_rerequested arp_idx
    else Some l
  else Some l.

Definition etharp_output_to_arp_index (nif : Z) (q : addr) (arp_idx : nat) (l : lstate) : option (Z * lstate) :=
  l ← etharp_rerequest nif arp_idx l;
  v ← lnif l nif;
  e ← arp_at l arp_idx;
  ethernet_output buf nif q (nif_hwaddr v) (e_ethaddr e) ETHTYPE_IP l.

(** [PBUF_NEEDS_COPY] on some pbuf of the packet. *)
Fixpoint copy_needed (fuel : nat) (p : option addr) (h : heap) : option bool :=
  match p, fuel with
  | None, _ => Some false
  | Some _, O => None
  | Some a, S fuel =>
      b ← get h a;
      if negb (pb_type b .& PBUF_TYPE_FLAG_DATA_VOLATILE =? 0) then Some true
      else copy_needed fuel (pb_next b) h
  end.

(** Packet [p] put at the end of the queue of slot [i], the oldest one dropped
    when the queue was full already. *)
Definition etharp_enqueue (i : nat) (p : addr) (l : lstate) : option (Z * lstate) :=
  let '(new_entry, h) := mem_malloc 0 (l_heap l) in
  let l := lheap h l in
  match new_entry with
  | Some _ =>
      e ← arp_at l i;
      let qlen := length (e_q e) in
      let q := e_q e ++ [p] in
      let l := arp_set i (set_q q e) l in
      if (ARP_QUEUE_LEN <=? qlen)%nat then
        match q with
        | old :: q =>
            let l := arp_set i (set_q q e) l in
            '(_, h) ← pbuf_free custom_free (Some old) (l_heap l);
            Some (ERR_OK, lheap h l)
        | [] => None
        end
      else Some (ERR_OK, l)
  | None => '(_, h) ← pbuf_free custom_free (Some p) (l_heap l); Some (ERR_MEM, lheap h l)
  end.

(** The packet taken over for a queue: a copy when some pbuf of it may change,
    otherwise another reference. *)
Definition etharp_take_over (q : addr) (h : heap) : option (option addr * heap) :=
  copy ← copy_needed (chain_fuel h) (Some q) h;
  if copy : bool then pbuf_clone custom_free PBUF_LINK PBUF_RAM q h
  else h ← pbuf_ref (Some q) h; Some (Some q, h).

Definition etharp_query_queue (i : nat) (q : addr) (l : lstate) : option (Z * lstate) :=
  '(p, h) ← etharp_take_over q (l_heap l);
  match p with
  | Some p => etharp_enqueue i p (lheap h l)
  | None => Some (ERR_MEM, lheap h l)
  end.

(** "packet given?" on: slot [i] is stable or pending. *)
Definition etharp_query_packet (nif : Z) (v : netif) (i : nat) (q : addr) (result : Z) (l : lstate)
    : option (Z * lstate) :=
  e ← arp_at l i;
  if ETHARP_STATE_STABLE <=? e_state e then
    l ← etharp_set_addrhint nif (Z.of_nat i) l;
    ethernet_output buf nif q (nif_hwaddr v) (e_ethaddr e) ETHTYPE_IP l
  else if e_state e =? ETHARP_STATE_PENDING then etharp_query_queue i q l
  else Some (result, l).

(** The request for a new entry, or for a query without a packet. *)
Definition etharp_query_request (nif ipaddr : Z) (i : nat) (is_new_entry : bool) (q : option addr) (l : lstate)
    : option (Z * lstate) :=
  if is_new_entry || bool_decide (q = None) then
    '(result, l) ← etharp_request nif ipaddr l;
    if result =? ERR_OK then
      e ← arp_at l i;
      Some (result, if (e_state e =? ETHARP_STATE_PENDING) && negb is_new_entry
                    then arp_set i (set_ctime 0 e) l else l)
    else Some (result, l)
  else Some (ERR_MEM, l).

Definition etharp_query (nif ipaddr : Z) (q : option addr) (l : lstate) : option (Z * lstate) :=
  v ← lnif l nif;
  if ip4_addr_isbroadcast_u32 ipaddr v || ip4_addr_ismulticast ipaddr || (ipaddr =? IPADDR_ANY)
  then Some (ERR_ARG, l)
  else
    '(i_err, l) ← etharp_find_entry (Some ipaddr) ETHARP_FLAG_TRY_HARD (Some nif) l;
    if i_err <? 0 then Some (i_err, l)
    else
      let i := Z.to_nat i_err in
      e ← arp_at l i;
      let is_new_entry := e_state e =? ETHARP_STATE_EMPTY in
      let l := if is_new_entry
               then arp_set i (set_netif (Some nif) (set_state ETHARP_STATE_PENDING e)) l else l in
      '(result, l) ← etharp_query_request nif ipaddr i is_new_entry q l;
      match q with
      | None => Some (result, l)
      | Some q => etharp_query_packet nif v i q result l
      end.

(** The [for] loop of [etharp_output]: the first stable entry for an address
    of an interface, from slot [i] on. *)
Fixpoint find_stable (nif dst : Z) (t : list etharp_entry) (i : nat) : option nat :=
  match t with
  | [] => None
  | e :: t =>
      if (ETHARP_STATE_STABLE <=? e_state e) && bool_decide (e_netif e = Some nif) && (dst =? e_ipaddr e)
      then Some i else find_stable nif dst t (S i)
  end.

(** The Ethernet address of an IPv4 multicast group. *)
Definition mcast_hwaddr (ipaddr : Z) : list Z :=
  [LL_IP4_MULTICAST_ADDR_0; LL_IP4_MULTICAST_ADDR_1; LL_IP4_MULTICAST_ADDR_2;
   byte_of ipaddr 1 .& 0x7f; byte_of ipaddr 2; byte_of ipaddr 3].

(** The unicast branch of [etharp_output], [dst_addr] being the next hop. *)
Definition etharp_output_unicast (nif : Z) (q : addr) (dst_addr : Z) (l : lstate) : option (Z * lstate) :=
  v ← lnif l nif;
  hit ← match nif_hints v with
        | Some a =>
            cached ← l_hints l !! a;
            if cached <? ARP_TABLE_SIZE then
              e ← arp_at l (Z.to_nat cached);
              Some (if (ETHARP_STATE_STABLE <=? e_state e) && bool_decide (e_netif e = Some nif) &&
                       (dst_addr =? e_ipaddr e)
                    then Some (Z.to_nat cached) else None)
            else Some None
        | None => Some None
        end;
  match hit with
  | Some i => etharp_output_to_arp_index nif q i l
  | None =>
      match find_stable nif dst_addr (l_arp l) 0 with
      | Some i =>
          l ← etharp_set_addrhint nif (Z.of_nat i) l;
          etharp_output_to_arp_index nif q i l
      | None => etharp_query nif dst_addr (Some q) l
      end
  end.

Definition etharp_output (nif : Z) (q : addr) (ipaddr : Z) (l : lstate) : option (Z * lstate) :=
  v ← lnif l nif;
  if ip4_addr_isbroadcast_u32 ipaddr v
  then ethernet_output buf nif q (nif_hwaddr v) ethbroadcast ETHTYPE_IP l
  else if ip4_addr_ismulticast ipaddr
  then ethernet_output buf nif q (nif_hwaddr v) (mcast_hwaddr ipaddr) ETHTYPE_IP l
  else if negb (ip4_addr_netcmp ipaddr (nif_ip_addr v) (nif_netmask v)) && negb (ip4_addr_islinklocal ipaddr)
  then
    if negb (nif_gw v =? IPADDR_ANY) then etharp_output_unicast nif q (nif_gw v) l
    else Some (ERR_RTE, l)
  else etharp_output_unicast nif q ipaddr l.

(** ** Input *)

(** The fields of the received header, read where the code reads them: the
    payload may be shorter than the header, the memory behind it may not. *)
Record arp_hdr := ArpHdr {
  ah_opcode : Z;
  ah_shwaddr : list Z;
  ah_sipaddr : Z;
  ah_dipaddr : Z;
}.

Definition ip4_at (b : list Z) : option Z :=
  match b with [b0; b1; b2; b3] => Some (of_bytes b0 b1 b2 b3) | _ => None end.

Definition u16_of (b : list Z) : option Z :=
  match b with [b0; b1] => Some (u16_at b0 b1) | _ => None end.

(** Whether the packet is ARP for IPv4 over Ethernet. *)
Definition arp_hdr_valid (b : pbuf) : option bool :=
  hwtype ← payload_read b 0 2 ≫= u16_of;
  proto ← payload_read b 2 2 ≫= u16_of;
  lens ← payload_read b 4 2;
  Some ((hwtype =? PP_HTONS LWIP_IANA_HWTYPE_ETHERNET) && bool_decide (lens = [ETH_HWADDR_LEN; 4]) &&
        (proto =? PP_HTONS ETHTYPE_IP)).

Definition arp_hdr_read (b : pbuf) : option arp_hdr :=
  opcode ← payload_read b 6 2 ≫= u16_of;
  shwaddr ← payload_read b 8 6;
  sipaddr ← payload_read b 14 4 ≫= ip4_at;
  dipaddr ← payload_read b 24 4 ≫= ip4_at;
  Some (ArpHdr opcode shwaddr sipaddr dipaddr).

Definition etharp_input (p : addr) (nif : Z) (l : lstate) : option lstate :=
  b ← get (l_heap l) p;
  valid ← arp_hdr_valid b;
  if negb valid then '(_, h) ← pbuf_free custom_free (Some p) (l_heap l); Some (lheap h l)
  else
    hdr ← arp_hdr_read b;
    v ← lnif l nif;
    let unconfigured := nif_ip_addr v =? IPADDR_ANY in
    let for_us := negb unconfigured && (ah_dipaddr hdr =? nif_ip_addr v) in
    let from_us := negb unconfigured && (ah_sipaddr hdr =? nif_ip_addr v) in
    '(_, l) ← etharp_update_arp_entry nif (ah_sipaddr hdr) (ah_shwaddr hdr)
                (if for_us then ETHARP_FLAG_TRY_HARD else ETHARP_FLAG_FIND_ONLY) l;
    l ← (if (ah_opcode hdr =? PP_HTONS ARP_REQUEST) && (for_us && negb from_us) then
           '(_, l) ← etharp_raw nif (nif_hwaddr v) (ah_shwaddr hdr) (nif_hwaddr v) (nif_ip_addr v)
                       (ah_shwaddr hdr) (ah_sipaddr hdr) ARP_REPLY l;
           Some l
         else Some l);
    '(_, h) ← pbuf_free custom_free (Some p) (l_heap l);
    Some (lheap h l).

End etharp.
