(* ===== verification/EtharpTable.v ===== *)
(** The ARP table: its well-formedness, and what [etharp_find_entry] finds or
    recycles. *)
From S2P Require Import Prelude Bits Def IpAddr Pbuf PbufData PbufChain PbufLife PbufOwn NetifRec Netif.
From S2P Require Import XnetTap Ethernet EthernetThm Ip4Addr Etharp.

Definition live (e : etharp_entry) : Prop := e_state e <> ETHARP_STATE_EMPTY.

(** What an entry is looked up by. *)
Definition key (e : etharp_entry) : Z * option Z := (e_ipaddr e, e_netif e).

Record entry_ok (e : etharp_entry) : Prop := EntryOk {
  ent_state : 0 <= e_state e <= 4;
  ent_queue : (length (e_q e) <= ARP_QUEUE_LEN)%nat;
  ent_queue_pending : e_q e <> [] -> e_state e = ETHARP_STATE_PENDING;
  ent_ctime : 0 <= e_ctime e /\ (live e -> e_ctime e < ARP_MAXAGE);
  ent_pending : e_state e = ETHARP_STATE_PENDING -> e_ctime e < ARP_MAXPENDING;
  ent_ethaddr : hwaddr_ok (e_ethaddr e);
}.

(** The invariant of the table: 64 well-formed entries, at most one of them in
    use for each address of an interface. *)
Record table_ok (t : list etharp_entry) : Prop := TableOk {
  tab_len : length t = Z.to_nat ARP_TABLE_SIZE;
  tab_entries : Forall entry_ok t;
  tab_unique : forall i j e e', t !! i = Some e -> t !! j = Some e' -> live e -> live e' ->
    key e = key e' -> i = j;
}.

(** The kinds of entries a search tells apart. *)
Definition is_empty (e : etharp_entry) : Prop := e_state e = ETHARP_STATE_EMPTY.
Definition is_stable (e : etharp_entry) : Prop := ETHARP_STATE_STABLE <= e_state e.
Definition is_pending (e : etharp_entry) : Prop := e_state e = ETHARP_STATE_PENDING /\ e_q e = [].
Definition is_queued (e : etharp_entry) : Prop := e_state e = ETHARP_STATE_PENDING /\ e_q e <> [].

Definition none (P : etharp_entry -> Prop) (t : list etharp_entry) : Prop := Forall (fun e => ~ P e) t.

Definition oldest (P : etharp_entry -> Prop) (t : list etharp_entry) (i : nat) : Prop :=
  exists e, t !! i = Some e /\ P e /\ Forall (fun e' => P e' -> e_ctime e' <= e_ctime e) t.

(** The slot a new address gets: the first empty one, else the one whose loss
    matters least. *)
Definition victim (t : list etharp_entry) (i : nat) : Prop :=
  (exists e, t !! i = Some e /\ is_empty e /\ none is_empty (take i t)) \/
  (none is_empty t /\
   (oldest is_stable t i \/
    (none is_stable t /\ (oldest is_pending t i \/ (none is_pending t /\ oldest is_queued t i))))).

(** ** The search sweep *)
Definition cand (P : etharp_entry -> Prop) (t : list etharp_entry) (old age : Z) : Prop :=
  (old = ARP_TABLE_SIZE /\ age = 0 /\ none P t) \/
  (0 <= old < zlen t /\ exists e, t !! Z.to_nat old = Some e /\ P e /\ age = e_ctime e /\
     Forall (fun e' => P e' -> e_ctime e' <= age) t).

Record cands_ok (t : list etharp_entry) (c : candidates) : Prop := CandsOk {
  co_pending : cand is_pending t (old_pending c) (age_pending c);
  co_stable : cand is_stable t (old_stable c) (age_stable c);
  co_queue : cand is_queued t (old_queue c) (age_queue c);
  co_empty : (empty_slot c = ARP_TABLE_SIZE /\ none is_empty t) \/
    (0 <= empty_slot c < zlen t /\ exists e, t !! Z.to_nat (empty_slot c) = Some e /\ is_empty e /\
       none is_empty (take (Z.to_nat (empty_slot c)) t));
}.

Lemma none_nil P : none P [].
Proof. constructor. Qed.

Lemma none_snoc P t e : none P t -> ~ P e -> none P (t ++ [e]).
Proof. intros; apply Forall_app; split; [done|by constructor]. Qed.

(** A slot of another kind. *)
Lemma cand_skip P t old age e : cand P t old age -> ~ P e -> cand P (t ++ [e]) old age.
Proof.
  intros [(-> & -> & Hn)|(Ho & e' & Hl & HP & -> & Hall)] He; [left; auto using none_snoc|].
  right. rewrite zlen_app, zlen_cons. change (zlen []) with 0. split; [lia|].
  exists e'. split_and!; [by apply lookup_app_l_Some|done|done|].
  apply Forall_app; split; [done|]. by constructor.
Qed.

Lemma cand_take P t old age e :
  cand P t old age -> P e -> age <= e_ctime e -> cand P (t ++ [e]) (zlen t) (e_ctime e).
Proof.
  intros HC He Ha. right. rewrite zlen_app, zlen_cons. change (zlen []) with 0. pose proof (zlen_nonneg t).
  split; [lia|]. exists e. split_and!; [|done|done|].
  - unfold zlen. rewrite Nat2Z.id. by apply list_lookup_middle.
  - apply Forall_app; split; [|by constructor].
    destruct HC as [(_ & _ & Hn)|(_ & e' & _ & _ & -> & Hall)].
    + eapply Forall_impl; [exact Hn|]; cbn beta; intros; done.
    + eapply Forall_impl; [exact Hall|]; cbn beta; intros x Hx HPx; specialize (Hx HPx); lia.
Qed.

Lemma cand_leave P t old age e :
  cand P t old age -> 0 <= e_ctime e < age -> cand P (t ++ [e]) old age.
Proof.
  intros [(-> & -> & Hn)|(Ho & e' & Hl & HP & -> & Hall)] He; [lia|].
  right. rewrite zlen_app, zlen_cons. change (zlen []) with 0. split; [lia|].
  exists e'. split_and!; [by apply lookup_app_l_Some|done|done|].
  apply Forall_app; split; [done|]. constructor; [intros; lia|constructor].
Qed.

Lemma cands_init : cands_ok [] cand_init.
Proof. split; left; auto using none_nil. Qed.

Lemma entry_kinds e :
  entry_ok e -> live e ->
  (is_queued e /\ ~ is_pending e /\ ~ is_stable e) \/
  (is_pending e /\ ~ is_queued e /\ ~ is_stable e) \/
  (is_stable e /\ ~ is_pending e /\ ~ is_queued e).
Proof.
  intros [Hs _ _ _ _ _] Hl. unfold live, is_queued, is_pending, is_stable, ETHARP_STATE_EMPTY, ETHARP_STATE_PENDING,
    ETHARP_STATE_STABLE in *.
  destruct (Z.eq_dec (e_state e) 1) as [->|]; [|right; right; lia].
  destruct (e_q e); [right; left|left]; split_and!; try done; try lia; naive_solver.
Qed.

(** An empty slot leaves the aged candidates alone. *)
Lemma empty_kinds e : is_empty e -> ~ is_pending e /\ ~ is_stable e /\ ~ is_queued e.
Proof.
  unfold is_empty, is_pending, is_stable, is_queued, ETHARP_STATE_EMPTY, ETHARP_STATE_PENDING, ETHARP_STATE_STABLE.
  intros ->; lia.
Qed.

Lemma remember_ok t e c :
  cands_ok t c -> entry_ok e -> live e -> cands_ok (t ++ [e]) (remember (zlen t) e c).
Proof.
  intros [Hp Hs Hq He] Hok Hl. pose proof (proj1 (ent_ctime _ Hok)).
  assert (HE : (empty_slot c = ARP_TABLE_SIZE /\ none is_empty (t ++ [e])) \/
    (0 <= empty_slot c < zlen (t ++ [e]) /\ exists e0, (t ++ [e]) !! Z.to_nat (empty_slot c) = Some e0 /\ is_empty e0 /\
       none is_empty (take (Z.to_nat (empty_slot c)) (t ++ [e])))).
  { destruct He as [[-> Hn]|(Hr & e0 & H0 & He0 & Hn)]; [left; split; [done|by apply none_snoc]|right].
    rewrite zlen_app, zlen_cons. change (zlen []) with 0. split; [lia|]. exists e0.
    split_and!; [by apply lookup_app_l_Some|done|]. by rewrite take_app_le by (unfold zlen in Hr; lia). }
  unfold remember.
  destruct (entry_kinds e Hok Hl) as [((Est & Hnq) & Hn1 & Hn2)|[((Est & Hqn) & Hn1 & Hn2)|(Hst & Hn1 & Hn2)]].
  - rewrite Est, Z.eqb_refl. destruct (e_q e) as [|q0 q] eqn:Eq; [done|].
    assert (is_queued e) by (split; [done|by rewrite Eq]).
    destruct (Z.leb_spec (age_queue c) (e_ctime e)); split; cbn; eauto using cand_skip, cand_take;
      (apply cand_leave; [done|lia]).
  - rewrite Est, Z.eqb_refl, Hqn. assert (is_pending e) by done.
    destruct (Z.leb_spec (age_pending c) (e_ctime e)); split; cbn; eauto using cand_skip, cand_take;
      (apply cand_leave; [done|lia]).
  - unfold is_stable in Hst. destruct (Z.eqb_spec (e_state e) ETHARP_STATE_PENDING) as [E|_];
      [rewrite E in Hst; unfold ETHARP_STATE_STABLE, ETHARP_STATE_PENDING in Hst; lia|].
    destruct (Z.leb_spec ETHARP_STATE_STABLE (e_state e)); [|lia].
    destruct (Z.leb_spec (age_stable c) (e_ctime e)); split; cbn; eauto using cand_skip, cand_take;
      (apply cand_leave; [done|lia]).
Qed.

(** Whether an entry in use is the one looked for. *)
Definition matches (a : Z) (nif : option Z) (e : etharp_entry) : Prop :=
  live e /\ e_ipaddr e = a /\ match nif with None => True | Some _ => e_netif e = nif end.

Lemma match_test a nif e :
  live e -> (a =? e_ipaddr e) && netif_matches nif e = true <-> matches a nif e.
Proof.
  intros Hl. rewrite andb_true_iff, Z.eqb_eq. unfold matches, netif_matches.
  destruct nif; [rewrite bool_decide_eq_true|]; naive_solver.
Qed.

Lemma find_sweep_ok a nif t : forall pre c,
  (length pre + length t <= Z.to_nat ARP_TABLE_SIZE)%nat -> Forall entry_ok t -> cands_ok pre c ->
  match find_sweep (Some a) nif t (zlen pre) c with
  | inl k => exists e, 0 <= k /\ (pre ++ t) !! Z.to_nat k = Some e /\ matches a nif e
  | inr c' => cands_ok (pre ++ t) c' /\ Forall (fun e => ~ matches a nif e) t
  end.
Proof.
  induction t as [|e t IH]; intros pre c Hlen Hok Hc; cbn [find_sweep].
  - rewrite app_nil_r. auto.
  - apply Forall_cons in Hok as [He Hok]. cbn in Hlen.
    assert (Hz : zlen pre + 1 = zlen (pre ++ [e])) by (rewrite zlen_app; done).
    assert (Ha : pre ++ e :: t = (pre ++ [e]) ++ t) by by rewrite <- app_assoc.
    assert (Hl : (length (pre ++ [e]) + length t <= Z.to_nat ARP_TABLE_SIZE)%nat) by (rewrite length_app; cbn; lia).
    rewrite Hz, Ha.
    assert (Hstep : forall c', cands_ok (pre ++ [e]) c' -> ~ matches a nif e ->
      match find_sweep (Some a) nif t (zlen (pre ++ [e])) c' with
      | inl k => exists e0, 0 <= k /\ ((pre ++ [e]) ++ t) !! Z.to_nat k = Some e0 /\ matches a nif e0
      | inr c0 => cands_ok ((pre ++ [e]) ++ t) c0 /\ Forall (fun e => ~ matches a nif e) (e :: t)
      end).
    { intros c' Hc' Hm. specialize (IH (pre ++ [e]) c' Hl Hok Hc'). destruct (find_sweep _ _ _ _ _); [done|].
      destruct IH; split; [done|]. by constructor. }
    destruct (Z.eqb_spec (e_state e) ETHARP_STATE_EMPTY) as [Ee|Ee].
    + pose proof (empty_kinds e Ee) as (? & ? & ?).
      assert (~ matches a nif e) by (intros [Hlv _]; done).
      destruct Hc as [Hp Hs Hq Hemp]. cbn [negb]. destruct (Z.eqb_spec (empty_slot c) ARP_TABLE_SIZE) as [E64|E64]; cbn [andb].
      * apply Hstep; [|done]. split; cbn; auto using cand_skip. right. pose proof (zlen_nonneg pre).
        rewrite <- Hz. split; [lia|]. exists e. unfold zlen. rewrite Nat2Z.id.
        split_and!; [by apply list_lookup_middle|done|]. rewrite take_app_le, take_ge by lia.
        destruct Hemp as [[_ ?]|(Hr & _)]; [done|]. unfold zlen in Hr. lia.
      * apply Hstep; [|done]. split; auto using cand_skip. right.
        destruct Hemp as [[? _]|(Hr & e0 & Hl0 & He0 & Hn)]; [done|]. rewrite <- Hz. split; [lia|].
        exists e0. split_and!; [by apply lookup_app_l_Some|done|]. by rewrite take_app_le by (unfold zlen in Hr; lia).
    + rewrite andb_false_r. cbn [negb]. destruct (_ && netif_matches nif e) eqn:Em.
      * pose proof (zlen_nonneg pre). exists e. split; [done|]. unfold zlen. rewrite Nat2Z.id. split.
        -- rewrite <- app_assoc. by apply list_lookup_middle.
        -- by apply match_test in Em.
      * apply Hstep; [by apply remember_ok|]. rewrite <- match_test by done. by rewrite Em.
Qed.

(** ** The slot for a new address *)
Lemma cand_oldest P t old age :
  cand P t old age -> (length t <= Z.to_nat ARP_TABLE_SIZE)%nat ->
  if old <? ARP_TABLE_SIZE then oldest P t (Z.to_nat old) /\ 0 <= old else none P t.
Proof.
  intros [(-> & -> & Hn)|(Hr & e & Hl & HP & -> & Hall)] Hlen; [done|].
  unfold zlen in Hr. destruct (Z.ltb_spec old ARP_TABLE_SIZE); [|lia]. split; [|lia]. by exists e.
Qed.

(** The slot [etharp_find_entry] picks when nothing matches. *)
Definition pick (c : candidates) : option Z :=
  if empty_slot c <? ARP_TABLE_SIZE then Some (empty_slot c)
  else if old_stable c <? ARP_TABLE_SIZE then Some (old_stable c)
  else if old_pending c <? ARP_TABLE_SIZE then Some (old_pending c)
  else if old_queue c <? ARP_TABLE_SIZE then Some (old_queue c)
  else None.

Lemma none_all_kinds t :
  Forall entry_ok t -> none is_empty t -> none is_stable t -> none is_pending t -> none is_queued t -> t = [].
Proof.
  intros Hok H1 H2 H3 H4. destruct t as [|e t]; [done|exfalso].
  unfold none in *. rewrite Forall_cons in *. destruct Hok as [Hok _].
  destruct (entry_kinds e Hok); naive_solver.
Qed.

Lemma pick_victim t c :
  table_ok t -> cands_ok t c -> exists i, pick c = Some i /\ 0 <= i /\ victim t (Z.to_nat i).
Proof.
  intros [Hlen Hok _] [Hp Hs Hq He]. assert (Hle : (length t <= Z.to_nat ARP_TABLE_SIZE)%nat) by lia.
  apply (cand_oldest _ _ _ _) in Hp, Hs, Hq; [|done..]. unfold pick, victim.
  destruct He as [[-> Hn]|(Hr & e & Hl & Hee & Hn)].
  - rewrite Z.ltb_irrefl. destruct (old_stable c <? _); [destruct Hs; eauto 10|].
    destruct (old_pending c <? _); [destruct Hp; eauto 10|].
    destruct (old_queue c <? _); [destruct Hq; eauto 12|]. exfalso.
    rewrite (none_all_kinds t) in Hlen by done. done.
  - destruct (Z.ltb_spec (empty_slot c) ARP_TABLE_SIZE); [|unfold zlen in Hr; lia].
    eexists; split; [done|]. split; [lia|]. left; eauto.
Qed.

Lemma victim_slot t i : victim t i -> exists e, t !! i = Some e.
Proof. unfold victim, oldest. naive_solver. Qed.

(** ** Updating a slot *)
Lemma table_upd t i e e' :
  table_ok t -> t !! i = Some e -> entry_ok e' ->
  (live e' -> forall j e2, j <> i -> t !! j = Some e2 -> live e2 -> key e2 <> key e') ->
  table_ok (<[i := e']> t).
Proof.
  intros [Hlen Hok Hu] Hi He' Huq. split.
  - by rewrite length_insert.
  - by apply Forall_insert.
  - intros j k ej ek. assert (Hil : (i < length t)%nat) by by eapply lookup_lt_Some.
    destruct (decide (j = i)) as [->|], (decide (k = i)) as [->|];
      rewrite ?list_lookup_insert_eq, ?list_lookup_insert_ne by done.
    + done.
    + intros [= <-] Hk L1 L2 Hkey. by destruct (Huq L1 k ek ltac:(done) Hk L2).
    + intros Hj [= <-] L1 L2 Hkey. by destruct (Huq L2 j ej ltac:(done) Hj L1).
    + eauto.
Qed.

Lemma table_upd_same_key t i e e' :
  table_ok t -> t !! i = Some e -> entry_ok e' -> (live e' -> live e /\ key e' = key e) ->
  table_ok (<[i := e']> t).
Proof.
  intros Ht Hi He' Hk. eapply table_upd; [done..|].
  intros Hl j e2 Hj He2 Hl2 Heq. destruct (Hk Hl) as [Hle Hke]. rewrite Hke in Heq.
  by destruct (tab_unique _ Ht j i e2 e He2 Hi Hl2 Hle Heq).
Qed.

Lemma table_upd_dead t i e e' : table_ok t -> t !! i = Some e -> entry_ok e' -> ~ live e' -> table_ok (<[i := e']> t).
Proof. intros; eapply table_upd; [done..|]. by intros. Qed.

(** A slot given back by [etharp_free_entry]. *)
Definition cleared (e : etharp_entry) : etharp_entry := set_state ETHARP_STATE_EMPTY (set_q [] e).

(** A slot prepared for an address. *)
Definition prepared (a : Z) (nif : option Z) (e : etharp_entry) : etharp_entry :=
  set_netif nif (set_ctime 0 (set_ipaddr a (cleared e))).

Lemma cleared_ok_gen e : 0 <= e_ctime e -> hwaddr_ok (e_ethaddr e) -> entry_ok (cleared e).
Proof. intros; split; cbn; unfold ETHARP_STATE_EMPTY, ARP_QUEUE_LEN; try done; try lia. Qed.

Lemma cleared_ok e : entry_ok e -> entry_ok (cleared e).
Proof. intros [_ _ _ [] _ ?]; by apply cleared_ok_gen. Qed.

Lemma prepared_ok a nif e : entry_ok e -> entry_ok (prepared a nif e).
Proof.
  intros [? ? ? [] ? ?]; split; cbn; unfold ETHARP_STATE_EMPTY, ARP_QUEUE_LEN; try done; lia.
Qed.

Lemma cleared_empty e : entry_ok e -> is_empty e -> cleared e = e.
Proof.
  intros [_ _ Hq _ _ _] He. unfold is_empty in He. destruct e as [q ip n ea ct st]; cbn in *; subst.
  unfold cleared, set_state, set_q; cbn. f_equal. destruct q; [done|]. by specialize (Hq ltac:(done)).
Qed.

(** ** The queued packets *)
Definition queued (t : list etharp_entry) : list addr := concat (e_q <$> t).

Lemma queued_upd t i e :
  t !! i = Some e -> exists R, forall e', Permutation (queued (<[i := e']> t)) (e_q e' ++ R).
Proof.
  intros Hi. exists (queued (take i t) ++ queued (drop (S i) t)). intros e'.
  assert (Hlt : (i < length t)%nat) by by eapply lookup_lt_Some.
  rewrite insert_take_drop by done. unfold queued. rewrite fmap_app, concat_app, fmap_cons. cbn.
  rewrite !app_assoc. apply Permutation_app_tail, Permutation_app_comm.
Qed.

Lemma queued_same t i e e' : t !! i = Some e -> e_q e' = e_q e -> Permutation (queued (<[i := e']> t)) (queued t).
Proof.
  intros Hi Hq. destruct (queued_upd t i e Hi) as [R HR]. rewrite HR, Hq.
  rewrite <- (HR e), list_insert_id by done. done.
Qed.

Lemma queued_split t i e : t !! i = Some e -> exists R, Permutation (queued t) (e_q e ++ R) /\
  forall e', Permutation (queued (<[i := e']> t)) (e_q e' ++ R).
Proof.
  intros Hi. destruct (queued_upd t i e Hi) as [R HR]. exists R. split; [|done].
  rewrite <- (HR e), list_insert_id by done. done.
Qed.
