(* ===== verification/EtharpOps.v ===== *)
(** The operations of the ARP module on a well-formed state: none of them runs
    into undefined behaviour, each keeps the table well formed and the
    references to the queued packets counted. *)
From S2P Require Import Prelude Bits Def IpAddr Pbuf PbufData PbufChain PbufIO PbufLife PbufCopy PbufOwn NetifRec Netif.
From S2P Require Import XnetTap XnetTapThm Ethernet EthernetThm Ip4Addr Etharp EtharpTable.

(** The interfaces of the entries in use are interfaces of taps. *)
Definition nifs_ok (x : xstate) (t : list etharp_entry) : Prop :=
  Forall (fun e => live e -> exists n v tap, e_netif e = Some n /\ tap_nif x n v tap) t.

(** The invariant of the module.  [H] are the references to packets that the
    callers hold, [cs] the pbufs each packet consists of. *)
Record arp_inv {F : Frame} (H : list addr) (cs : addr -> list (addr * pbuf)) (l : lstate) : Prop := ArpInv {
  inv_table : table_ok (l_arp l);
  inv_owned : owned (l_heap l) cs (H ++ queued (l_arp l));
  inv_wf : heap_wf (l_heap l);
  inv_nifs : nifs_ok (l_x l) (l_arp l);
}.

Create HintDb arp.

#[export] Hint Resolve same_packets_refl same_packets_trans : arp.

(** The state with the table [t], after events [evs], with pbufs [h]. *)
Definition arp_to (t : list etharp_entry) (evs : list xevent) (h : heap) (l : lstate) : lstate :=
  larp t (lout evs h l).

Lemma arp_to_self l : arp_to (l_arp l) [] (l_heap l) l = l.
Proof. unfold arp_to, lout, lx, out, set_heap, larp, l_heap. destruct l as [[] ? ?]; cbn. by rewrite app_nil_r. Qed.

Lemma arp_to_to t t' e e' h h' l : arp_to t' e' h' (arp_to t e h l) = arp_to t' (e ++ e') h' l.
Proof. unfold arp_to, lout, lx, out, set_heap, larp; cbn. by rewrite app_assoc. Qed.

Lemma nifs_upd x t i e e' :
  nifs_ok x t -> t !! i = Some e ->
  (live e' -> exists n v tap, e_netif e' = Some n /\ tap_nif x n v tap) -> nifs_ok x (<[i := e']> t).
Proof. intros Hn Hi He'. by apply Forall_insert. Qed.

Lemma nifs_upd_same x t i e e' :
  nifs_ok x t -> t !! i = Some e -> (live e' -> live e /\ e_netif e' = e_netif e) -> nifs_ok x (<[i := e']> t).
Proof.
  intros Hn Hi He'. eapply nifs_upd; [done..|]. intros Hl. destruct (He' Hl) as [Hle ->].
  unfold nifs_ok in Hn; rewrite Forall_lookup in Hn. eauto.
Qed.

(** Reading the slot of a well-formed table. *)
Lemma inv_entry {F : Frame} H cs l i e : arp_inv H cs l -> l_arp l !! i = Some e -> entry_ok e.
Proof. intros [[_ Hok _] _ _ _] Hi. rewrite Forall_lookup in Hok. eauto. Qed.

Section ops.
  Context (custom_free : addr -> heap -> option heap) (buf : list Z) (Hbuf : zlen buf = 2048).

(** ** Freeing entries *)
Lemma free_etharp_q_owned {F : Frame} q : forall h cs R,
  owned h cs (q ++ R) -> heap_wf h ->
  exists h' cs', free_etharp_q custom_free q h = Some h' /\ owned h' cs' R /\ heap_wf h' /\ same_packets cs cs' /\
    h_orc h' = h_orc h.
Proof.
  induction q as [|p q IH]; intros h cs R HO Hwf; cbn [free_etharp_q].
  - eauto 10 with arp.
  - destruct (pbuf_free_owned custom_free h cs p (q ++ R) HO Hwf) as (n & h1 & cs1 & -> & HO1 & Hwf1 & Hs1 & _ & _ & Ho1).
    cbn [mbind option_bind]. destruct (IH h1 cs1 R HO1 Hwf1) as (h2 & cs2 & -> & HO2 & Hwf2 & Hs2 & Ho2).
    exists h2, cs2. split_and!; eauto with arp. congruence.
Qed.

Lemma etharp_free_entry_owned {F : Frame} H cs l i e :
  owned (l_heap l) cs (H ++ queued (l_arp l)) -> heap_wf (l_heap l) -> l_arp l !! i = Some e ->
  exists h' cs', let t' := <[i := cleared e]> (l_arp l) in
    etharp_free_entry custom_free i l = Some (arp_to t' [] h' l) /\
    owned h' cs' (H ++ queued t') /\ heap_wf h' /\ same_packets cs cs' /\ h_orc h' = h_orc (l_heap l).
Proof.
  intros HO Hwf Hi. destruct (queued_split _ _ _ Hi) as (R & HR & HR').
  assert (Hlt : (i < length (l_arp l))%nat) by by eapply lookup_lt_Some.
  rewrite HR in HO. assert (HO2 : owned (l_heap l) cs (e_q e ++ (H ++ R))).
  { eapply owned_perm; [|exact HO]. rewrite !app_assoc. apply Permutation_app_tail, Permutation_app_comm. }
  destruct (free_etharp_q_owned (e_q e) _ _ _ HO2 Hwf) as (h' & cs' & Hf & HO' & Hwf' & Hs' & Ho').
  exists h', cs'. cbn zeta. split_and!; [|by rewrite (HR' (cleared e))|done|done|done].
  unfold etharp_free_entry, arp_at. rewrite Hi; cbn [mbind option_bind].
  destruct (e_q e) as [|q0 q] eqn:Eq.
  - cbn [free_etharp_q] in Hf. injection Hf as <-. cbn [mbind option_bind]. rewrite Hi; cbn [mbind option_bind].
    unfold arp_set. assert (Ec : cleared e = set_state ETHARP_STATE_EMPTY e).
    { unfold cleared, set_state, set_q; cbn. by rewrite Eq. }
    rewrite Ec. unfold arp_to. rewrite lout_nil. unfold lheap, lx, larp, l_heap, set_heap; cbn. by destruct (l_x l).
  - rewrite Hf; cbn [mbind option_bind]. cbn [arp_set larp l_arp]. rewrite list_lookup_insert_eq by done.
    cbn [mbind option_bind]. unfold arp_set, arp_to. rewrite lout_nil. cbn. by rewrite list_insert_insert_eq.
Qed.

Lemma etharp_free_entry_inv {F : Frame} H cs l i e :
  arp_inv H cs l -> l_arp l !! i = Some e ->
  exists h' cs', let l' := arp_to (<[i := cleared e]> (l_arp l)) [] h' l in
    etharp_free_entry custom_free i l = Some l' /\ arp_inv H cs' l' /\ same_packets cs cs'.
Proof.
  intros HI Hi. pose proof HI as [Ht HO Hwf Hn].
  destruct (etharp_free_entry_owned H cs l i e HO Hwf Hi) as (h' & cs' & -> & HO' & Hwf' & Hs & Ho).
  exists h', cs'. cbn zeta. split; [done|]. split; [|done]. split; try done.
  - eapply table_upd_dead; [done..|eapply cleared_ok, inv_entry; done|]. by intros [].
  - eapply (nifs_upd_same (l_x l)); [done..|]. by intros [].
Qed.

(** ** Sending ARP packets *)
Lemma etharp_hdr_len a ip b ip' op : zlen a = 6 -> zlen b = 6 -> zlen (etharp_hdr_bytes a ip b ip' op) = 28.
Proof.
  intros Ha Hb. unfold etharp_hdr_bytes. rewrite (ztake_ge _ a), (ztake_ge _ b) by (unfold ETH_HWADDR_LEN; lia).
  rewrite !zlen_app, Ha, Hb. done.
Qed.

(** Without memory nothing happens and the error is reported; otherwise the
    packet is sent if the node runs, and the store is as before. *)
Lemma etharp_raw_spec nif esrc edst hsrc ipsrc hdst ipdst op l v tap :
  tap_nif (l_x l) nif v tap -> heap_wf (l_heap l) -> hwaddr_ok esrc -> hwaddr_ok edst -> hwaddr_ok hsrc -> hwaddr_ok hdst ->
  exists r evs h', etharp_raw custom_free buf nif esrc edst hsrc ipsrc hdst ipdst op l = Some (r, lout evs h' l) /\
    heap_wf h' /\ (forall a, get h' a = get (l_heap l) a) /\
    ((r = ERR_MEM /\ evs = []) \/
     (r = ERR_OK /\ evs = if g_node (l_x l)
        then [frame_of tap esrc edst ETHTYPE_ARP (etharp_hdr_bytes hsrc ipsrc hdst ipdst op)] else [])).
Proof using Hbuf.
  intros Hnif Hwf Hes Hed Hhs Hhd. unfold etharp_raw, SIZEOF_ETHARP_HDR, PBUF_LINK.
  destruct (pbuf_alloc_ram_single custom_free 14 28 (l_heap l) Hwf ltac:(lia) ltac:(lia)) as (r & h1 & -> & Hwf1 & Hr).
  cbn [mbind option_bind]. destruct r as [p|]; last first.
  { rewrite <- lout_nil. do 3 eexists; split; [done|]. split; [done|]. split; [|by left].
    intros a. unfold get. by rewrite Hr. }
  destruct Hr as (b & Hfree & Hg & (Hbok & Hbstd & Hbref) & Hlen & Htl & Hnx & Hpay & Hty & Hfr).
  rewrite Hg; cbn [mbind option_bind]. set (hdr := etharp_hdr_bytes _ _ _ _ _).
  assert (Hh : zlen hdr = 28) by (apply etharp_hdr_len; [apply Hhs|apply Hhd]).
  destruct (payload_write_spec b 0 hdr Hbok) as (b1 & -> & _ & Hrw & Hby); [lia|lia|]. cbn [mbind option_bind].
  destruct (Hrw p) as (_ & m & E & Hm); cbn in E, Hm. subst b1.
  assert (Hby' : pb_bytes (set_mem m b) = hdr).
  { rewrite Hby, ztake_0, Hh, zdrop_ge by (rewrite pb_bytes_len by done; lia). apply app_nil_r. }
  set (b1 := set_mem m b) in *. set (l1 := lheap (put h1 p b1) l).
  assert (Hok1 : pb_ok b1) by (unfold pb_ok in *; cbn; rewrite Hm; done).
  assert (Hp1 : std_packet (l_heap l1) p [(p, b1)]).
  { split; [|split; [by constructor|by apply Forall_nil]]. apply packet_single; [apply get_put_eq|done|done|cbn; lia]. }
  destruct (ethernet_output_spec buf Hbuf nif p esrc edst ETHTYPE_ARP l1 v tap [(p, b1)])
    as (e & h2 & k & -> & He & Hkept); [done..|]. cbn [mbind option_bind].
  assert (Es : sends (l_x l1) [(p, b1)] = g_node (l_x l)).
  { unfold sends. cbn [pb_type pb_payload b1 set_mem sum_len pb_len]. rewrite Hty, <- Hpay, Hlen.
    change (g_node (l_x l1)) with (g_node (l_x l)). by destruct (g_node (l_x l)). }
  destruct Hkept as (Hp2 & Ha2 & [Hn2 _] & Hfr2 & Href2).
  destruct k as [|[p' b2] k]; [done|]. destruct k; [|done]. injection Ha2 as ->.
  destruct Hp2 as (Hp2 & Hs2 & _). pose proof (packet_cons _ _ _ _ Hp2) as (Hg2 & _).
  destruct (Href2 b1 (get_put_eq _ _ _)) as (b2' & Hg2' & Hr2). simplify_eq.
  assert (Hos : Forall (fun c => pb_ok c.2 /\ pb_std c.2) [(p, b2)]) by (apply Forall_and; split; [apply Hp2|done]).
  change (l_heap (lout ?e ?h ?l)) with h.
  rewrite (pbuf_free_spec custom_free h2 (Some p) [(p, b2)]) by (done || apply Hp2). cbn [mbind option_bind].
  assert (Er : pb_ref b2 = 1) by (rewrite Hr2; done). cbn [free_heap]. rewrite Er, Z.eqb_refl.
  rewrite lheap_lout. unfold l1 at 2. change (lout ?e ?h (lheap ?h' l)) with (lout e h l).
  rewrite Es. do 3 eexists; split; [done|]. split_and!.
  - intros a c. destruct (decide (a = p)) as [->|Hne]; [by rewrite get_del_eq|].
    rewrite get_del_ne, Hfr2 by done. unfold l1; cbn. rewrite get_put_ne by done. intros Hc.
    change (h_next (del h2 p)) with (h_next h2). rewrite Hn2. by eapply Hwf1.
  - intros a. destruct (decide (a = p)) as [->|Hne]; [by rewrite get_del_eq|].
    rewrite get_del_ne, Hfr2 by done. unfold l1; cbn. rewrite get_put_ne by done. by apply Hfr.
  - right. split; [done|]. destruct (g_node (l_x l)); [|done]. f_equal. unfold frame_of. f_equal.
    cbn. by rewrite app_nil_r.
Qed.

(** ** Finding entries *)

(** What [etharp_find_entry] answers for address [a] of interface [nif]: the
    entry in use for it; no entry, when none may be made; or a fresh entry in
    the slot [victim] names. *)
Definition found (a nif flags : Z) (t : list etharp_entry) (r : Z) (t' : list etharp_entry) : Prop :=
  (exists i e, r = Z.of_nat i /\ t' = t /\ t !! i = Some e /\ matches a (Some nif) e) \/
  (Forall (fun e => ~ matches a (Some nif) e) t /\ r = ERR_MEM /\ t' = t /\
   (flags .& ETHARP_FLAG_FIND_ONLY <> 0 \/ flags .& ETHARP_FLAG_TRY_HARD = 0)) \/
  (Forall (fun e => ~ matches a (Some nif) e) t /\ flags .& ETHARP_FLAG_FIND_ONLY = 0 /\
   exists i e, r = Z.of_nat i /\ t !! i = Some e /\ victim t i /\ t' = <[i := prepared a (Some nif) e]> t).

Lemma prepared_eq a nif e : set_netif nif (set_ctime 0 (set_ipaddr a (cleared e))) = prepared a nif e.
Proof. done. Qed.

Lemma etharp_find_entry_spec {F : Frame} H cs l a nif flags :
  arp_inv H cs l ->
  exists r t' h' cs', etharp_find_entry custom_free (Some a) flags (Some nif) l = Some (r, arp_to t' [] h' l) /\
    found a nif flags (l_arp l) r t' /\
    owned h' cs' (H ++ queued t') /\ heap_wf h' /\ same_packets cs cs' /\
    (Exists (matches a (Some nif)) (l_arp l) -> h' = l_heap l /\ cs' = cs) /\ h_orc h' = h_orc (l_heap l).
Proof.
  intros HI. pose proof HI as [Ht HO Hwf Hn]. pose proof Ht as [Hlen Hok _].
  unfold etharp_find_entry.
  pose proof (find_sweep_ok a (Some nif) (l_arp l) [] cand_init) as HS. change (zlen []) with 0 in HS.
  specialize (HS ltac:(cbn; lia) Hok cands_init). cbn [app] in HS.
  destruct (find_sweep _ _ _ _ _) as [k|c].
  { destruct HS as (e & Hk & He & Hm). exists k, (l_arp l), (l_heap l), cs. rewrite arp_to_self.
    split; [done|]. split; [|by split_and!; auto using same_packets_refl]. left. exists (Z.to_nat k), e. by rewrite Z2Nat.id. }
  destruct HS as [Hc Hnm].
  assert (Hex : ~ Exists (matches a (Some nif)) (l_arp l)) by by apply Forall_Exists_neg.
  destruct (_ || _) eqn:Eg.
  { exists ERR_MEM, (l_arp l), (l_heap l), cs. rewrite arp_to_self. split; [done|]. split; [|by split_and!; auto using same_packets_refl].
    right; left. split_and!; try done. apply orb_true_iff in Eg as [E|[_ E]%andb_true_iff].
    - left. by apply negb_true_iff, Z.eqb_neq in E.
    - right. by apply Z.eqb_eq in E. }
  apply orb_false_iff in Eg as [Eg1 _]. apply negb_false_iff, Z.eqb_eq in Eg1.
  destruct (pick_victim _ _ Ht Hc) as (i & Ep & Hi & Hv). pose proof (victim_slot _ _ Hv) as (e & He).
  assert (Hlt : (Z.to_nat i < length (l_arp l))%nat) by by eapply lookup_lt_Some.
  pose proof (inv_entry _ _ _ _ _ HI He) as Heok.
  unfold pick in Ep. destruct (Z.ltb_spec (empty_slot c) ARP_TABLE_SIZE) as [Hem|Hem].
  - injection Ep as Ep.
    assert (is_empty e) as Hee.
    { rewrite <- Ep in He. destruct (co_empty _ _ Hc) as [[E _]|(_ & e' & He' & Hee & _)]; [lia|].
      by simplify_eq. }
    rewrite Ep; cbn [mbind option_bind]. unfold arp_at. rewrite He; cbn [mbind option_bind].
    exists i, (<[Z.to_nat i := prepared a (Some nif) e]> (l_arp l)), (l_heap l), cs.
    split. { rewrite <- (cleared_empty e) at 1 by done. rewrite prepared_eq.
      unfold arp_set, arp_to. rewrite lout_nil. unfold lheap, lx, larp, l_heap, set_heap; cbn. by destruct (l_x l). }
    split; [right; right; split_and!; try done; exists (Z.to_nat i), e; by rewrite Z2Nat.id|].
    split_and!; [|done|apply same_packets_refl|by intros ?%Hex|done].
    rewrite (queued_same _ _ e); [done|done|]. cbn. by rewrite <- (cleared_empty e) by done.
  - rewrite Ep. cbn [mbind option_bind].
    destruct (etharp_free_entry_owned H cs l (Z.to_nat i) e HO Hwf He) as (h' & cs' & -> & HO' & Hwf' & Hs & Ho).
    cbn [mbind option_bind]. unfold arp_at. change (l_arp (arp_to ?t _ _ _)) with t. rewrite list_lookup_insert_eq by done.
    cbn [mbind option_bind]. rewrite prepared_eq.
    exists i, (<[Z.to_nat i := prepared a (Some nif) e]> (l_arp l)), h', cs'.
    split. { unfold arp_set, arp_to. cbn. by rewrite list_insert_insert_eq. }
    split; [right; right; split_and!; try done; exists (Z.to_nat i), e; by rewrite Z2Nat.id|].
    split_and!; [|done|done|by intros ?%Hex|done].
    destruct (queued_split _ _ _ He) as (R & _ & HR). rewrite HR. rewrite HR in HO'. done.
Qed.

(** The table after a search. *)
Lemma found_table a nif flags t r t' x :
  table_ok t -> nifs_ok x t -> found a nif flags t r t' -> table_ok t' /\ nifs_ok x t'.
Proof.
  intros Ht Hn [(i & e & _ & -> & _)|[(_ & _ & -> & _)|(_ & _ & i & e & _ & He & _ & ->)]]; [done|done|].
  pose proof (tab_entries _ Ht) as Hok. rewrite Forall_lookup in Hok. split.
  - eapply table_upd_dead; [done..|by eapply prepared_ok, Hok|]. by intros [].
  - eapply nifs_upd_same; [done..|]. by intros [].
Qed.

(** ** The timer *)

(** One second in the life of an entry. *)
Definition tick (e : etharp_entry) : etharp_entry :=
  if e_state e =? ETHARP_STATE_EMPTY then e
  else
    let e := set_ctime (e_ctime e + 1) e in
    if (ARP_MAXAGE <=? e_ctime e) || ((e_state e =? ETHARP_STATE_PENDING) && (ARP_MAXPENDING <=? e_ctime e))
    then cleared e
    else if e_state e =? ETHARP_STATE_STABLE_REREQUESTING_1 then set_state ETHARP_STATE_STABLE_REREQUESTING_2 e
    else if e_state e =? ETHARP_STATE_STABLE_REREQUESTING_2 then set_state ETHARP_STATE_STABLE e
    else e.

Lemma tick_key e : live (tick e) -> live e /\ key (tick e) = key e.
Proof.
  unfold tick, live. destruct (Z.eqb_spec (e_state e) ETHARP_STATE_EMPTY); [done|]. cbn.
  destruct (_ || _); [by intros []|]. destruct (_ =? ETHARP_STATE_STABLE_REREQUESTING_1); [done|].
  by destruct (_ =? ETHARP_STATE_STABLE_REREQUESTING_2).
Qed.

Lemma tick_ok e : entry_ok e -> entry_ok (tick e).
Proof.
  intros He. unfold tick.
  destruct (Z.eqb_spec (e_state e) ETHARP_STATE_EMPTY) as [|Hne]; [done|]. cbn [set_ctime e_ctime e_state].
  pose proof He as [Hs Hq Hqp [Hc Hm] Hp Ha].
  destruct (_ || _) eqn:E.
  - apply cleared_ok_gen; [cbn; lia|done].
  - apply orb_false_iff in E as [E1 E2]. apply Z.leb_gt in E1.
    assert (Hok : forall s, 0 <= s <= 4 -> (s = ETHARP_STATE_PENDING <-> e_state e = ETHARP_STATE_PENDING) ->
      entry_ok (Entry (e_q e) (e_ipaddr e) (e_netif e) (e_ethaddr e) (e_ctime e + 1) s)).
    { intros s Hs4 Hiff. split; try done; cbn; [by intros ?%Hqp%Hiff|lia|].
      intros Hst%Hiff. rewrite Hst in E2. by apply Z.leb_gt in E2. }
    destruct (Z.eqb_spec (e_state e) ETHARP_STATE_STABLE_REREQUESTING_1) as [E3|_];
      [apply Hok; [done|rewrite E3; done]|].
    destruct (Z.eqb_spec (e_state e) ETHARP_STATE_STABLE_REREQUESTING_2) as [E4|_];
      [apply Hok; [done|rewrite E4; done]|].
    by apply Hok.
Qed.

(** Loops over the table that treat every slot alike. *)
Lemma for_slots_map {F : Frame} H f body :
  (forall cs l i e, arp_inv H cs l -> l_arp l !! i = Some e ->
     exists evs h' cs', let l' := arp_to (<[i := f e]> (l_arp l)) evs h' l in
       body i l = Some l' /\ arp_inv H cs' l') ->
  forall n i cs l, arp_inv H cs l -> (i + n = length (l_arp l))%nat ->
  exists evs h' cs', let l' := arp_to (take i (l_arp l) ++ (f <$> drop i (l_arp l))) evs h' l in
    for_slots body n i l = Some l' /\ arp_inv H cs' l'.
Proof.
  intros Hb. induction n as [|n IH]; intros i cs l HI Hn.
  - exists [], (l_heap l), cs. rewrite drop_ge, take_ge, app_nil_r, arp_to_self by lia. done.
  - destruct (lookup_lt_is_Some_2 (l_arp l) i ltac:(lia)) as [e He].
    destruct (Hb cs l i e HI He) as (evs & h' & cs' & Eb & HI'). cbn [for_slots]. rewrite Eb. cbn [mbind option_bind].
    set (l1 := arp_to _ _ _ _) in *.
    destruct (IH (S i) cs' l1 HI') as (evs2 & h2 & cs2 & -> & HI2).
    { unfold l1; cbn. rewrite length_insert. lia. }
    exists (evs ++ evs2), h2, cs2. cbn zeta.
    assert (Et : take (S i) (l_arp l1) ++ (f <$> drop (S i) (l_arp l1)) = take i (l_arp l) ++ (f <$> drop i (l_arp l))).
    { unfold l1; cbn [arp_to larp l_arp]. rewrite drop_insert_lt by lia. rewrite (drop_S _ e i He).
      rewrite (take_S_r _ _ (f e)) by (apply list_lookup_insert_eq; lia). rewrite take_insert_ge by lia.
      rewrite fmap_cons, <- app_assoc. done. }
    rewrite Et in *. unfold l1 in HI2 |- *. rewrite arp_to_to in HI2 |- *. done.
Qed.

Lemma etharp_tmr_slot_spec {F : Frame} H cs l i e :
  arp_inv H cs l -> l_arp l !! i = Some e ->
  exists evs h' cs', let l' := arp_to (<[i := tick e]> (l_arp l)) evs h' l in
    etharp_tmr_slot custom_free buf i l = Some l' /\ arp_inv H cs' l'.
Proof using Hbuf.
  intros HI Hi. pose proof HI as [Ht HO Hwf Hn]. pose proof (inv_entry _ _ _ _ _ HI Hi) as He.
  assert (Hlt : (i < length (l_arp l))%nat) by by eapply lookup_lt_Some.
  unfold etharp_tmr_slot, arp_at. rewrite Hi; cbn [mbind option_bind].
  assert (Hself : is_empty e -> arp_to (<[i := e]> (l_arp l)) [] (l_heap l) l = l).
  { intros _. rewrite list_insert_id by done. apply arp_to_self. }
  assert (Htick : table_ok (<[i := tick e]> (l_arp l)) /\ nifs_ok (l_x l) (<[i := tick e]> (l_arp l))).
  { split; [eapply table_upd_same_key; [done..|by apply tick_ok|apply tick_key]|].
    eapply nifs_upd_same; [done..|]. intros [? [= _ ?]]%tick_key. done. }
  destruct Htick as [Ht' Hn']. pose proof He as [_ _ _ [Hc0 Hc1] _ _].
  unfold tick in *. destruct (Z.eqb_spec (e_state e) ETHARP_STATE_EMPTY) as [Ee|Ee]; cbn [negb].
  { exists [], (l_heap l), cs. rewrite Hself by done. done. }
  specialize (Hc1 Ee). unfold ARP_MAXAGE in Hc1. rewrite u16_small by lia.
  cbn [set_ctime e_ctime e_state e_netif e_ipaddr] in *. set (e1 := set_ctime (e_ctime e + 1) e) in *.
  change (Entry (e_q e) (e_ipaddr e) (e_netif e) (e_ethaddr e) (e_ctime e + 1) (e_state e)) with e1 in *.
  assert (HO1 : owned (l_heap l) cs (H ++ queued (<[i := e1]> (l_arp l)))) by by rewrite (queued_same _ _ e).
  assert (Hset : forall e2, e_q e2 = e_q e -> owned (l_heap l) cs (H ++ queued (<[i := e2]> (l_arp l))))
    by (intros; by rewrite (queued_same _ _ e)).
  destruct (_ || _) eqn:Ex.
  - destruct (etharp_free_entry_owned H cs (arp_set i e1 l) i e1) as (h' & cs' & -> & HO' & Hwf' & _);
      [done|done|by apply list_lookup_insert_eq|].
    cbn [arp_set larp l_arp] in *. rewrite list_insert_insert_eq in *.
    exists [], h', cs'. cbn zeta. split; [done|]. by split.
  - destruct (e_state e =? ETHARP_STATE_STABLE_REREQUESTING_1).
    { exists [], (l_heap l), cs. cbn zeta. split; [|split; [done|by apply Hset|done|done]].
      unfold arp_set, arp_to. rewrite lout_nil. cbn. rewrite list_insert_insert_eq.
      unfold lheap, lx, larp, l_heap, set_heap; cbn. by destruct (l_x l). }
    destruct (e_state e =? ETHARP_STATE_STABLE_REREQUESTING_2).
    { exists [], (l_heap l), cs. cbn zeta. split; [|split; [done|by apply Hset|done|done]].
      unfold arp_set, arp_to. rewrite lout_nil. cbn. rewrite list_insert_insert_eq.
      unfold lheap, lx, larp, l_heap, set_heap; cbn. by destruct (l_x l). }
    assert (Hdone : arp_set i e1 l = arp_to (<[i := e1]> (l_arp l)) [] (l_heap l) l).
    { unfold arp_set, arp_to. rewrite lout_nil. unfold lheap, lx, larp, l_heap, set_heap; cbn. by destruct (l_x l). }
    destruct (e_state e =? ETHARP_STATE_PENDING).
    + unfold nifs_ok in Hn; rewrite Forall_lookup in Hn. destruct (Hn i e Hi Ee) as (n & v & tap & En & Hnif).
      rewrite En; cbn [mbind option_bind]. unfold etharp_request, etharp_request_dst.
      change (lnif (arp_set i e1 l) n) with (nget (x_net (l_x l)) n). pose proof Hnif as (Hv & _ & Hhw & _).
      rewrite Hv; cbn [mbind option_bind].
      destruct (etharp_raw_spec n (nif_hwaddr v) ethbroadcast (nif_hwaddr v) (nif_ip_addr v) ethzero (e_ipaddr e)
        ARP_REQUEST (arp_set i e1 l) v tap) as (r & evs & h' & -> & Hwf' & Hg & _); auto with cint.
      cbn [mbind option_bind]. exists evs, h', cs. cbn zeta. split; [done|]. split; try done.
      eapply owned_same; [|exact HO1]. intros; apply Hg.
    + exists [], (l_heap l), cs. rewrite <- Hdone. cbn zeta. split; [done|]. by split.
Qed.

Lemma etharp_tmr_spec {F : Frame} H cs l :
  arp_inv H cs l ->
  exists evs h' cs', let l' := arp_to (tick <$> l_arp l) evs h' l in
    etharp_tmr custom_free buf l = Some l' /\ arp_inv H cs' l'.
Proof using Hbuf.
  intros HI. unfold etharp_tmr.
  apply (for_slots_map H tick _ (fun cs l i e HI Hi => etharp_tmr_slot_spec H cs l i e HI Hi) _ 0 cs l HI).
  rewrite (tab_len _ (inv_table _ _ _ HI)). lia.
Qed.

(** ** Forgetting an interface *)
Definition forget (nif : Z) (e : etharp_entry) : etharp_entry :=
  if negb (e_state e =? ETHARP_STATE_EMPTY) && bool_decide (e_netif e = Some nif) then cleared e else e.

Lemma etharp_cleanup_netif_spec {F : Frame} H cs nif l :
  arp_inv H cs l ->
  exists evs h' cs', let l' := arp_to (forget nif <$> l_arp l) evs h' l in
    etharp_cleanup_netif custom_free nif l = Some l' /\ arp_inv H cs' l'.
Proof.
  intros HI. unfold etharp_cleanup_netif.
  refine (for_slots_map H (forget nif) _ _ _ 0 cs l HI _); last by rewrite (tab_len _ (inv_table _ _ _ HI)); lia.
  clear. intros cs l i e HI Hi. unfold etharp_cleanup_slot, arp_at. rewrite Hi; cbn [mbind option_bind].
  unfold forget. destruct (_ && _).
  - destruct (etharp_free_entry_inv H cs l i e HI Hi) as (h' & cs' & -> & HI' & _). eauto.
  - exists [], (l_heap l), cs. rewrite list_insert_id, arp_to_self by done. done.
Qed.
End ops.
