(* ===== verification/EtharpOut.v ===== *)
(** Sending IP packets through the ARP module: [etharp_query] and
    [etharp_output].  First, resolving an address: [etharp_update_arp_entry]
    and the queue of packets that waited for it. *)
From S2P Require Import Prelude Bits Def IpAddr Pbuf PbufData PbufChain PbufIO PbufLife PbufCopy PbufOwn NetifRec Netif.
From S2P Require Import XnetTap XnetTapThm Ethernet EthernetThm Ip4Addr Etharp EtharpTable EtharpOps.

(** The frames of a queue of packets, sent in order. *)
Definition queue_frames (x : xstate) (tap : xnet_tap) (src dst : list Z) (cs : addr -> list (addr * pbuf))
    (q : list addr) : list xevent :=
  concat ((fun p => if sends x (cs p) then [frame_of tap src dst ETHTYPE_IP (content (cs p))] else []) <$> q).

Lemma set_q_self e : set_q (e_q e) e = e.
Proof. by destruct e. Qed.

Lemma set_q_set_q q q' e : set_q q (set_q q' e) = set_q q e.
Proof. done. Qed.

Section queue.
  Context (custom_free : addr -> heap -> option heap) (buf : list Z) (Hbuf : zlen buf = 2048).

(** One packet sent, the reference kept. *)
Lemma ethernet_output_owned {F : Frame} nif p src dst ty l v tap cs Q :
  tap_nif (l_x l) nif v tap -> owned (l_heap l) cs Q -> heap_wf (l_heap l) -> p ∈ Q ->
  hwaddr_ok src -> hwaddr_ok dst -> 0 <= ty < 65536 ->
  exists r h' cs', ethernet_output buf nif p src dst ty l =
      Some (r, lout (if sends (l_x l) (cs p) then [frame_of tap src dst ty (content (cs p))] else []) h' l) /\
    (r = ERR_OK <-> sends (l_x l) (cs p) = true) /\
    owned h' cs' Q /\ heap_wf h' /\ (forall q, q <> p -> cs' q = cs q) /\ h_orc h' = h_orc (l_heap l).
Proof using Hbuf.
  intros Hnif HO Hwf Hp Hs Hd Hty. pose proof (owned_packet _ _ _ HO p Hp) as Hk.
  destruct (ethernet_output_spec buf Hbuf nif p src dst ty l v tap (cs p)) as (r & h' & k' & -> & Hr & Hkept); [done..|].
  destruct Hkept as (Hk' & Hf & [Hn Ho] & Hfr & Href). exists r, h', (cs_set p k' cs).
  destruct (std_packet_head _ _ _ Hk) as (b & t & Ec & Hg). destruct (Href b Hg) as (b' & Hg' & Hrb).
  split; [done|]. split; [done|]. split; [|split; [|split; [|done]]].
  - eapply owned_update; [done|done|done|done|done| |].
    + rewrite Hrb. by eapply owned_ref.
    + intros a Ha. apply Hfr. intros ->. apply Ha. by eapply std_packet_in.
  - intros a c Hc. rewrite Hn. destruct (decide (a = p)) as [->|Hne]; [by eapply Hwf|].
    rewrite Hfr in Hc by done. by eapply Hwf.
  - intros q Hq. by apply cs_set_ne.
Qed.

Lemma etharp_send_queue_spec {F : Frame} i nif dst v tap q : forall l cs e R,
  l_arp l !! i = Some e -> e_q e = q -> tap_nif (l_x l) nif v tap -> hwaddr_ok dst ->
  owned (l_heap l) cs (q ++ R) -> heap_wf (l_heap l) ->
  exists evs h' cs', etharp_send_queue custom_free buf i nif dst q l =
      Some (arp_to (<[i := set_q [] e]> (l_arp l)) evs h' l) /\
    owned h' cs' R /\ heap_wf h' /\ (forall p, p ∉ q -> cs' p = cs p) /\ h_orc h' = h_orc (l_heap l) /\
    (NoDup q -> evs = queue_frames (l_x l) tap (nif_hwaddr v) dst cs q).
Proof using Hbuf.
  induction q as [|p q IH]; intros l cs e R Hi Hq Hnif Hd HO Hwf; cbn [etharp_send_queue].
  - exists [], (l_heap l), cs. assert (Es : set_q [] e = e) by (rewrite <- Hq; apply set_q_self).
    rewrite Es, list_insert_id, arp_to_self by done. done.
  - assert (Hlt : (i < length (l_arp l))%nat) by by eapply lookup_lt_Some.
    unfold arp_at. rewrite Hi; cbn [mbind option_bind]. pose proof Hnif as (Hv & _ & Hhw & _).
    change (lnif (arp_set i (set_q q e) l) nif) with (nget (x_net (l_x l)) nif). rewrite Hv; cbn [mbind option_bind].
    set (l1 := arp_set i (set_q q e) l).
    destruct (ethernet_output_owned nif p (nif_hwaddr v) dst ETHTYPE_IP l1 v tap cs ((p :: q) ++ R))
      as (r & h1 & cs1 & -> & _ & HO1 & Hwf1 & Hcs1 & Ho1); try done; [by left|].
    cbn [mbind option_bind]. change (l_heap (lout ?e ?h ?l)) with h.
    destruct (pbuf_free_owned custom_free h1 cs1 p (q ++ R) HO1 Hwf1) as (n & h2 & cs2 & -> & HO2 & Hwf2 & _ & _ & Hcs2 & Ho2).
    cbn [mbind option_bind]. rewrite lheap_lout. set (l2 := lout _ h2 l1).
    assert (Hi2 : l_arp l2 !! i = Some (set_q q e)) by by apply list_lookup_insert_eq.
    destruct (IH l2 cs2 (set_q q e) R Hi2 eq_refl Hnif Hd HO2 Hwf2) as (evs & h3 & cs3 & -> & HO3 & Hwf3 & Hcs3 & Ho3 & Hev).
    assert (Hc : forall x, x <> p -> cs2 x = cs x) by (intros x Hx; by rewrite Hcs2, Hcs1).
    eexists _, h3, cs3. split; [|split_and!; [done|done| | |]].
    + unfold l2, l1, arp_set, arp_to. rewrite lout_lout. cbn [larp lout l_arp lx]. rewrite list_insert_insert_eq, set_q_set_q. done.
    + intros x Hx. rewrite elem_of_cons in Hx. rewrite Hcs3, Hc by tauto. done.
    + rewrite Ho3. change (l_heap l2) with h2. rewrite Ho2, Ho1. done.
    + intros [Hnp Hnd]%NoDup_cons. rewrite (Hev Hnd). unfold queue_frames. rewrite fmap_cons. cbn [concat]. f_equal.
      f_equal. apply list_fmap_ext. intros j x Hx. rewrite Hc; [done|].
      intros ->. apply Hnp. by eapply list_elem_of_lookup_2.
Qed.

(** ** Updating an entry *)

(** Addresses that never enter the table. *)
Definition unicast (a : Z) (v : netif) : bool :=
  negb ((a =? IPADDR_ANY) || ip4_addr_isbroadcast_u32 a v || ip4_addr_ismulticast a).

(** The entry once its hardware address is known. *)
Definition resolved (nif : Z) (hw : list Z) (e : etharp_entry) : etharp_entry :=
  Entry [] (e_ipaddr e) (Some nif) hw 0 ETHARP_STATE_STABLE.

Lemma resolved_ok nif hw e : hwaddr_ok hw -> entry_ok (resolved nif hw e).
Proof.
  intros. split; cbn; unfold ETHARP_STATE_STABLE, ETHARP_STATE_PENDING, ARP_QUEUE_LEN, ARP_MAXAGE; try done; try lia.
Qed.

(** The slot a search returns, and that no other entry has its key. *)
Lemma found_slot a nif flags t r t' :
  table_ok t -> found a nif flags t r t' -> 0 <= r ->
  exists e, t' !! Z.to_nat r = Some e /\ e_ipaddr e = a /\ e_netif e = Some nif /\
    forall j e2, j <> Z.to_nat r -> t' !! j = Some e2 -> live e2 -> key e2 <> (a, Some nif).
Proof.
  intros Ht [(i & e & -> & -> & He & Hl & Ha & Hn)|[(_ & -> & _)|(Hnm & _ & i & e & -> & He & _ & ->)]] Hr.
  - rewrite Nat2Z.id. exists e. split_and!; [done..|]. intros j e2 Hj He2 Hl2 Hk. apply Hj.
    eapply (tab_unique _ Ht); [exact He2|exact He|done|done|]. unfold key at 2. by rewrite Ha, Hn.
  - unfold ERR_MEM in Hr; lia.
  - rewrite Nat2Z.id. assert (Hlt : (i < length t)%nat) by by eapply lookup_lt_Some.
    exists (prepared a (Some nif) e). rewrite list_lookup_insert_eq by done. split_and!; [done..|].
    intros j e2 Hj. rewrite list_lookup_insert_ne by done. intros He2 Hl2 [= Hk1 Hk2].
    rewrite Forall_lookup in Hnm. by apply (Hnm j e2 He2).
Qed.

Lemma found_err a nif flags t r t' : found a nif flags t r t' -> r < 0 -> r = ERR_MEM /\ t' = t /\
  Forall (fun e => ~ matches a (Some nif) e) t /\
  (flags .& ETHARP_FLAG_FIND_ONLY <> 0 \/ flags .& ETHARP_FLAG_TRY_HARD = 0).
Proof. intros [(? & ? & ? & _)|[(? & -> & -> & ?)|(_ & _ & ? & ? & ? & _)]] Hr; [lia|done|lia]. Qed.

Lemma etharp_update_spec {F : Frame} H cs l nif a hw flags v tap :
  arp_inv H cs l -> tap_nif (l_x l) nif v tap -> hwaddr_ok hw ->
  exists r t' evs h' cs', etharp_update_arp_entry custom_free buf nif a hw flags l = Some (r, arp_to t' evs h' l) /\
    arp_inv H cs' (arp_to t' evs h' l) /\ h_orc h' = h_orc (l_heap l) /\
    ((unicast a v = false /\ r = ERR_ARG /\ t' = l_arp l /\ evs = []) \/
     (unicast a v = true /\ found a nif flags (l_arp l) ERR_MEM t' /\ r = ERR_MEM /\ t' = l_arp l /\ evs = []) \/
     (unicast a v = true /\ r = ERR_OK /\ exists i t1 e,
        found a nif flags (l_arp l) (Z.of_nat i) t1 /\ t1 !! i = Some e /\ t' = <[i := resolved nif hw e]> t1 /\
        (NoDup (e_q e) -> evs = queue_frames (l_x l) tap (nif_hwaddr v) hw cs (e_q e)))).
Proof using Hbuf.
  intros HI Hnif Hhw. pose proof HI as [Ht HO Hwf Hn]. pose proof Hnif as (Hv & _).
  unfold etharp_update_arp_entry. change (lnif l nif) with (nget (x_net (l_x l)) nif). rewrite Hv; cbn [mbind option_bind].
  destruct ((a =? IPADDR_ANY) || _ || _) eqn:Eu.
  { exists ERR_ARG, (l_arp l), [], (l_heap l), cs. rewrite arp_to_self. split; [done|]. split; [done|]. split; [done|].
    left. unfold unicast. by rewrite Eu. }
  assert (unicast a v = true) as Huc by (unfold unicast; by rewrite Eu).
  destruct (etharp_find_entry_spec custom_free H cs l a nif flags HI) as (r & t1 & h1 & cs1 & -> & Hfound & HO1 & Hwf1 & Hs1 & Hex & Ho1).
  cbn [mbind option_bind]. destruct (found_table _ _ _ _ _ _ (l_x l) Ht Hn Hfound) as [Ht1 Hn1].
  destruct (Z.ltb_spec r 0) as [Hr|Hr].
  { destruct (found_err _ _ _ _ _ _ Hfound Hr) as (-> & -> & _).
    exists ERR_MEM, (l_arp l), [], h1, cs1. split; [done|]. split; [by split|]. split; [done|]. right; left. done. }
  destruct (found_slot _ _ _ _ _ _ Ht Hfound Hr) as (e & He & Ha & Hne & Huq).
  set (i := Z.to_nat r) in *. assert (Hlt : (i < length t1)%nat) by by eapply lookup_lt_Some.
  unfold arp_at. change (l_arp (arp_to t1 _ _ _)) with t1. rewrite He; cbn [mbind option_bind].
  rewrite (ztake_ge ETH_HWADDR_LEN) by (unfold ETH_HWADDR_LEN, hwaddr_ok in *; lia).
  set (e1 := set_ctime 0 _). set (l1 := arp_set i e1 _).
  assert (Hi1 : l_arp l1 !! i = Some e1) by by apply list_lookup_insert_eq.
  destruct (queued_split _ _ _ He) as (R & HR & HR').
  assert (HO2 : owned (l_heap l1) cs1 (e_q e1 ++ (H ++ R))).
  { change (l_heap l1) with h1. change (e_q e1) with (e_q e). eapply owned_perm; [|exact HO1]. rewrite HR.
    rewrite !app_assoc. apply Permutation_app_tail, Permutation_app_comm. }
  destruct (etharp_send_queue_spec i nif hw v tap (e_q e1) l1 cs1 e1 (H ++ R) Hi1 eq_refl Hnif Hhw HO2 Hwf1)
    as (evs & h2 & cs2 & -> & HO3 & Hwf3 & _ & Ho3 & Hev). cbn [mbind option_bind].
  assert (Ee : set_q [] e1 = resolved nif hw e) by done.
  exists ERR_OK, (<[i := resolved nif hw e]> t1), evs, h2, cs2.
  assert (El : l1 = arp_to (<[i := e1]> t1) [] h1 l) by done.
  split. { rewrite El, Ee, arp_to_to. change (l_arp (arp_to ?t _ _ _)) with t. by rewrite list_insert_insert_eq. }
  split.
  { split; [|by rewrite (HR' (resolved nif hw e))|done|].
    - eapply table_upd; [done..|by apply resolved_ok|]. intros _ j e2 Hj He2 Hl2. unfold resolved, key at 2; cbn.
      rewrite Ha. by apply (Huq j).
    - eapply nifs_upd; [done..|]. intros _. exists nif, v, tap. done. }
  split; [rewrite Ho3; done|]. right; right. split; [done|]. split; [done|]. exists i, t1, e. unfold i. rewrite Z2Nat.id by done.
  split_and!; [done..|]. intros Hnd. rewrite (Hev Hnd). unfold queue_frames.
  destruct Hfound as [(i0 & e0 & -> & -> & He0 & Hm0)|[(_ & -> & _)|(_ & _ & i0 & e0 & -> & He0 & _ & ->)]].
  - destruct (Hex ltac:(apply Exists_exists; exists e0; split; [by eapply list_elem_of_lookup_2|done])) as [_ ->]. done.
  - unfold ERR_MEM in Hr. lia.
  - assert (e_q e = []) as Eq.
    { subst i. rewrite Nat2Z.id in *. rewrite length_insert in Hlt.
      rewrite list_lookup_insert_eq in He by done. apply (inj Some) in He. by subst e. }
    change (e_q e1) with (e_q e). by rewrite Eq.
Qed.

End queue.

(** A queue with one more packet, at most [ARP_QUEUE_LEN] of them: the newest. *)
Definition push (p : addr) (q : list addr) : list addr :=
  drop (length (q ++ [p]) - ARP_QUEUE_LEN) (q ++ [p]).

Lemma push_length p q : (length (push p q) <= ARP_QUEUE_LEN)%nat.
Proof. unfold push. rewrite length_drop. lia. Qed.

(** The address hints do not matter to the invariant. *)
Definition lhints (hints : gmap Z Z) (l : lstate) : lstate := LState (l_x l) (l_arp l) hints.

Lemma arp_inv_hints {F : Frame} H cs hints l : arp_inv H cs l -> arp_inv H cs (lhints hints l).
Proof. intros [? ? ? ?]; by split. Qed.

(** Held references in another order. *)
Lemma arp_inv_perm {F : Frame} H H' cs l : Permutation H H' -> arp_inv H cs l -> arp_inv H' cs l.
Proof. intros HP [? HO ? ?]; split; try done. by rewrite <- HP. Qed.

(** What a caller must ensure of a packet it sends: every pbuf carries data,
    and there is room for one more reference. *)
Definition sendable_ref (h : heap) (cs : addr -> list (addr * pbuf)) (q : addr) : Prop :=
  no_empty (cs q) /\ forall b, get h q = Some b -> pb_ref b < 255.

Lemma sendable_same {F : Frame} h h' cs cs' q Q Q' :
  owned h cs Q -> owned h' cs' Q' -> q ∈ Q -> q ∈ Q' -> same_packets cs cs' ->
  sendable_ref h cs q -> sendable_ref h' cs' q.
Proof.
  intros HO HO' Hq Hq' Hs [Hne Hr]. specialize (Hs q). split; [by apply (less_refs_view _ _ Hs)|].
  destruct (std_packet_head _ _ _ (owned_packet _ _ _ HO q Hq)) as (b & t & Ec & Hg).
  destruct (std_packet_head _ _ _ (owned_packet _ _ _ HO' q Hq')) as (b' & t' & Ec' & Hg').
  rewrite Ec, Ec' in Hs. inversion Hs as [|x y k k' (_ & r & Hle & Eb) _]; subst. cbn in Hle, Eb.
  intros c Hc. rewrite Hg' in Hc. injection Hc as <-. subst b'. cbn. specialize (Hr b Hg). lia.
Qed.

Section enqueue.
  Context (custom_free : addr -> heap -> option heap).

(** ** Queueing *)
Lemma copy_needed_total h k : forall p fuel,
  lseg h p k None -> (length k < fuel)%nat -> exists c, copy_needed fuel p h = Some c.
Proof.
  induction k as [|[a b] k IH]; intros p fuel Hl Hf; cbn in Hl.
  - subst p. destruct fuel; cbn; eauto.
  - destruct Hl as (-> & Hg & Hl). destruct fuel as [|fuel]; [cbn in Hf; lia|]. cbn. rewrite Hg; cbn.
    destruct (negb _); [eauto|]. apply IH; [done|cbn in Hf; lia].
Qed.

Lemma take_over_owned {F : Frame} h cs q Q :
  owned h cs (q :: Q) -> heap_wf h -> sendable_ref h cs q ->
  exists r h' cs', etharp_take_over custom_free q h = Some (r, h') /\ heap_wf h' /\
    match r with
    | Some p => owned h' cs' (p :: q :: Q) /\ content (cs' p) = content (cs q)
    | None => owned h' cs' (q :: Q)
    end.
Proof.
  intros HO Hwf [Hne Href]. pose proof (owned_packet _ _ _ HO q ltac:(by left)) as Hk.
  pose proof Hk as [Hp _]. pose proof (std_packet_head _ _ _ Hk) as (b & t & Ec & Hg).
  unfold etharp_take_over.
  destruct (copy_needed_total h (cs q) (Some q) (chain_fuel h)) as [c ->];
    [apply Hp|eapply lseg_length; apply Hp|]. cbn [mbind option_bind]. destruct c.
  - destruct (pbuf_clone_ram custom_free PBUF_LINK h q (cs q) Hwf ltac:(unfold PBUF_LINK; lia) Hp Hne)
      as (r & h' & -> & Hwf' & Hr). destruct r as [p|]; last first.
    { exists None, h', cs. split_and!; try done. eapply owned_same; [|done]. intros. unfold get. by rewrite Hr. }
    destruct Hr as (b' & Hfree & Hp' & Hc & Hnew & _ & _ & Hfr).
    exists (Some p), h', (cs_set p [(p, b')] cs). split_and!; try done; [|by rewrite cs_set_eq].
    destruct Hnew as (_ & Hstd & Href1). by apply (owned_fresh h).
  - destruct (pbuf_ref_owned h cs q b Q HO Hg (Href b Hg) Hwf) as (h' & cs' & -> & HO' & Hwf' & Hs' & _).
    cbn [mbind option_bind]. exists (Some q), h', cs'. split_and!; try done. apply Hs'.
Qed.

Lemma etharp_enqueue_spec {F : Frame} H cs l i e p :
  arp_inv (p :: H) cs l -> l_arp l !! i = Some e -> e_state e = ETHARP_STATE_PENDING ->
  exists r t' h' cs', etharp_enqueue custom_free i p l = Some (r, arp_to t' [] h' l) /\
    arp_inv H cs' (arp_to t' [] h' l) /\ same_packets cs cs' /\
    ((r = ERR_MEM /\ t' = l_arp l) \/ (r = ERR_OK /\ t' = <[i := set_q (push p (e_q e)) e]> (l_arp l))).
Proof.
  intros HI Hi Hst. pose proof HI as [Ht HO Hwf Hn]. pose proof (inv_entry _ _ _ _ _ HI Hi) as He.
  assert (Hlt : (i < length (l_arp l))%nat) by by eapply lookup_lt_Some.
  assert (Hok : forall q, (length q <= ARP_QUEUE_LEN)%nat -> table_ok (<[i := set_q q e]> (l_arp l)) /\
    nifs_ok (l_x l) (<[i := set_q q e]> (l_arp l))).
  { intros q Hq. split.
    - eapply table_upd_same_key; [done..| |done]. destruct He; split; try done.
    - by eapply nifs_upd_same. }
  unfold etharp_enqueue. destruct (mem_malloc 0 (l_heap l)) as [ne h1] eqn:Em.
  apply mem_malloc_spec in Em as [Hg Hm]; [|done].
  assert (HO1 : owned h1 cs (p :: H ++ queued (l_arp l))).
  { eapply owned_same; [|exact HO]. intros; apply Hg. }
  assert (Hwf1 : heap_wf h1).
  { intros a b Hb. rewrite Hg in Hb. apply Hwf in Hb. destruct ne as [[]|]; [destruct Hm as (_ & -> & _)|rewrite Hm]; lia. }
  destruct ne as [ne|].
  - unfold arp_at. change (l_arp (lheap h1 l)) with (l_arp l). rewrite Hi; cbn [mbind option_bind].
    destruct (queued_split _ _ _ Hi) as (R & HR & HR').
    destruct (Nat.leb_spec ARP_QUEUE_LEN (length (e_q e))) as [Hfull|Hroom].
    + assert (Hl3 : length (e_q e) = 3%nat) by (pose proof (ent_queue _ He); unfold ARP_QUEUE_LEN in *; lia).
      destruct (e_q e) as [|old q] eqn:Eq; [done|]. cbn [app].
      assert (Epush : push p (old :: q) = q ++ [p]).
      { unfold push. rewrite length_app. rewrite Hl3. unfold ARP_QUEUE_LEN. cbn [length Nat.add Nat.sub]. done. }
      change (l_heap (arp_set i _ _)) with h1.
      assert (HO2 : owned h1 cs (old :: (H ++ queued (<[i := set_q (q ++ [p]) e]> (l_arp l))))).
      { eapply owned_perm; [|exact HO1]. rewrite (HR' (set_q (q ++ [p]) e)), HR. cbn [e_q set_q].
        transitivity (old :: p :: H ++ q ++ R).
        - cbn [app]. rewrite <- Permutation_middle. apply perm_swap.
        - constructor. rewrite <- (app_assoc q). cbn [app]. rewrite !app_assoc. apply Permutation_middle. }
      destruct (pbuf_free_owned custom_free h1 cs old _ HO2 Hwf1) as (n & h2 & cs2 & -> & HO3 & Hwf3 & Hs & _).
      cbn [mbind option_bind]. exists ERR_OK, (<[i := set_q (q ++ [p]) e]> (l_arp l)), h2, cs2.
      destruct (Hok (q ++ [p])) as [Ht' Hn']; [rewrite length_app; cbn in *; unfold ARP_QUEUE_LEN; lia|].
      split; [unfold arp_set, arp_to; rewrite lout_nil; cbn; by rewrite list_insert_insert_eq|].
      split; [by split|]. split; [done|]. right. by rewrite Epush.
    + assert (Epush : push p (e_q e) = e_q e ++ [p]).
      { unfold push. rewrite length_app. cbn [length]. by replace (length (e_q e) + 1 - ARP_QUEUE_LEN)%nat with 0%nat by lia. }
      exists ERR_OK, (<[i := set_q (e_q e ++ [p]) e]> (l_arp l)), h1, cs.
      destruct (Hok (e_q e ++ [p])) as [Ht' Hn']; [rewrite length_app; cbn; lia|].
      split; [unfold arp_set, arp_to; by rewrite lout_nil|]. split; [|split; [apply same_packets_refl|right; by rewrite Epush]].
      split; try done. eapply owned_perm; [|exact HO1]. rewrite (HR' (set_q (e_q e ++ [p]) e)), HR. cbn [e_q set_q].
      rewrite <- !app_assoc. cbn [app]. rewrite !app_assoc. apply Permutation_middle.
  - change (l_heap (lheap h1 l)) with h1.
    destruct (pbuf_free_owned custom_free h1 cs p _ HO1 Hwf1) as (n & h2 & cs2 & -> & HO3 & Hwf3 & Hs & _).
    cbn [mbind option_bind]. exists ERR_MEM, (l_arp l), h2, cs2.
    split; [unfold arp_to; by rewrite lout_nil|]. split; [by split|]. split; [done|by left].
Qed.

End enqueue.

(** ** Queries *)
Section query.
  Context (custom_free : addr -> heap -> option heap) (buf : list Z) (Hbuf : zlen buf = 2048).

(** The request that asks for address [a]. *)
Definition request_frame (tap : xnet_tap) (v : netif) (a : Z) : xevent :=
  frame_of tap (nif_hwaddr v) ethbroadcast ETHTYPE_ARP
    (etharp_hdr_bytes (nif_hwaddr v) (nif_ip_addr v) ethzero a ARP_REQUEST).

Lemma etharp_request_spec {F : Frame} H cs l nif a v tap :
  arp_inv H cs l -> tap_nif (l_x l) nif v tap ->
  exists r evs h', etharp_request custom_free buf nif a l = Some (r, lout evs h' l) /\
    arp_inv H cs (lout evs h' l) /\ (forall x, get h' x = get (l_heap l) x) /\
    ((r = ERR_MEM /\ evs = []) \/
     (r = ERR_OK /\ evs = if g_node (l_x l) then [request_frame tap v a] else [])).
Proof using Hbuf.
  intros HI Hnif. pose proof HI as [Ht HO Hwf Hn]. pose proof Hnif as (Hv & _ & Hhw & _).
  unfold etharp_request, etharp_request_dst. change (lnif l nif) with (nget (x_net (l_x l)) nif). rewrite Hv.
  cbn [mbind option_bind].
  destruct (etharp_raw_spec custom_free buf Hbuf nif (nif_hwaddr v) ethbroadcast (nif_hwaddr v) (nif_ip_addr v) ethzero a
    ARP_REQUEST l v tap) as (r & evs & h' & -> & Hwf' & Hg & Hev); auto with cint.
  exists r, evs, h'. split; [done|]. split; [|by auto]. split; try done.
  eapply owned_same; [|exact HO]. intros; apply Hg.
Qed.

(** A pending entry takes the packet. *)
Lemma query_enqueue {F : Frame} H cs l i e q :
  arp_inv (q :: H) cs l -> sendable_ref (l_heap l) cs q -> l_arp l !! i = Some e -> e_state e = ETHARP_STATE_PENDING ->
  exists r h' cs' p e',
    etharp_query_queue custom_free i q l = Some (r, arp_to (<[i := e']> (l_arp l)) [] h' l) /\
    arp_inv (q :: H) cs' (arp_to (<[i := e']> (l_arp l)) [] h' l) /\
    e_state e' = ETHARP_STATE_PENDING /\ key e' = key e /\ e_ctime e' = e_ctime e /\
    ((r = ERR_OK /\ e_q e' = push p (e_q e) /\ content (cs' p) = content (cs q)) \/ (r = ERR_MEM /\ e_q e' = e_q e)).
Proof.
  intros HI Hsr Hi Hst. pose proof HI as [Ht HO Hwf Hn]. unfold etharp_query_queue.
  destruct (take_over_owned custom_free _ cs q _ HO Hwf Hsr) as (r & h1 & cs1 & -> & Hwf1 & Hr).
  cbn [mbind option_bind]. destruct r as [p|].
  - destruct Hr as [HO1 Hc].
    assert (HI1 : arp_inv (p :: q :: H) cs1 (lheap h1 l)) by by split.
    destruct (etharp_enqueue_spec custom_free (q :: H) cs1 (lheap h1 l) i e p HI1 Hi Hst)
      as (r & t' & h2 & cs2 & -> & HI2 & Hs2 & Hd).
    destruct Hd as [[-> ->]|[-> ->]].
    + exists ERR_MEM, h2, cs2, p, e. rewrite list_insert_id by done. split_and!; try done. by right.
    + exists ERR_OK, h2, cs2, p, (set_q (push p (e_q e)) e). split_and!; try done. left.
      rewrite <- Hc. split_and!; try done. by apply (less_refs_view _ _ (Hs2 p)).
  - exists ERR_MEM, h1, cs1, q, e. rewrite list_insert_id by done.
    split; [unfold arp_to; by rewrite lout_nil|]. split_and!; try done. by right.
Qed.

Lemma etharp_set_addrhint_spec nif i l v :
  nget (x_net (l_x l)) nif = Some v -> exists hints, etharp_set_addrhint nif i l = Some (lhints hints l).
Proof.
  intros Hv. unfold etharp_set_addrhint. change (lnif l nif) with (nget (x_net (l_x l)) nif). rewrite Hv.
  cbn [mbind option_bind]. destruct (nif_hints v); [by eexists|]. exists (l_hints l). by destruct l.
Qed.

(** The outcome of a query for address [a] with packet [q]: refused; sent at
    once to the known hardware address; or queued on a pending entry, a new one
    asking for the address first. *)
Definition query_outcome {F : Frame} (H : list addr) (cs : addr -> list (addr * pbuf)) (nif a : Z) (q : addr) (v : netif)
    (tap : xnet_tap) (l : lstate) (r : Z) (l' : lstate) : Prop :=
  (unicast a v = false /\ r = ERR_ARG /\ l' = l) \/
  (unicast a v = true /\ exists i t1 e e' evs p cs',
     found a nif ETHARP_FLAG_TRY_HARD (l_arp l) (Z.of_nat i) t1 /\ t1 !! i = Some e /\
     x_out (l_x l') = x_out (l_x l) ++ evs /\ l_arp l' = <[i := e']> t1 /\ arp_inv (q :: H) cs' l' /\
     ((is_stable e /\ e' = e /\
       evs = (if sends (l_x l) (cs q) then [frame_of tap (nif_hwaddr v) (e_ethaddr e) ETHTYPE_IP (content (cs q))] else []) /\
       (r = ERR_OK <-> sends (l_x l) (cs q) = true)) \/
      (~ is_stable e /\
       (if decide (is_empty e) then evs = [] \/ evs = [request_frame tap v a] else evs = []) /\
       e_state e' = ETHARP_STATE_PENDING /\ key e' = key e /\ e_ctime e' = e_ctime e /\
       ((r = ERR_OK /\ e_q e' = push p (e_q e) /\ content (cs' p) = content (cs q)) \/
        (r = ERR_MEM /\ e_q e' = e_q e))))).

(** A fresh entry asks for its address. *)
Definition pending (nif : Z) (e : etharp_entry) : etharp_entry :=
  set_netif (Some nif) (set_state ETHARP_STATE_PENDING e).

Lemma pending_table a nif t r t1 x v tap :
  table_ok t -> nifs_ok x t -> tap_nif x nif v tap -> found a nif ETHARP_FLAG_TRY_HARD t r t1 -> 0 <= r ->
  forall e, t1 !! Z.to_nat r = Some e -> is_empty e ->
  table_ok (<[Z.to_nat r := pending nif e]> t1) /\ nifs_ok x (<[Z.to_nat r := pending nif e]> t1).
Proof.
  intros Ht Hn Hnif Hf Hr e He Hemp. destruct (found_table _ _ _ _ _ _ x Ht Hn Hf) as [Ht1 Hn1].
  destruct (found_slot _ _ _ _ _ _ Ht Hf Hr) as (e1 & He1 & Ha & Hne & Huq).
  assert (e1 = e) as -> by congruence. clear He1.
  assert (Hct : e_ctime e = 0).
  { destruct Hf as [(i & e0 & -> & -> & He1 & Hl & _)|[(_ & -> & _)|(_ & _ & i & e0 & -> & He1 & _ & ->)]].
    - rewrite Nat2Z.id in *. simplify_eq. done.
    - done.
    - rewrite Nat2Z.id in *. rewrite list_lookup_insert_eq in He by by eapply lookup_lt_Some.
      injection He as He. by rewrite <- He. }
  pose proof (tab_entries _ Ht1) as Hok. rewrite Forall_lookup in Hok. specialize (Hok _ _ He).
  split.
  - eapply table_upd; [done..| |].
    + destruct Hok as [Hs Hq Hqp Hc Hp Hh]. split; cbn; unfold ETHARP_STATE_PENDING, ARP_MAXAGE, ARP_MAXPENDING; try done; lia.
    + intros _ j e2 Hj He2 Hl2. unfold pending, key at 2; cbn. rewrite Ha. by apply (Huq j).
  - eapply nifs_upd; [done..|]. intros _. exists nif, v, tap. done.
Qed.

(** The entry was there: nothing is asked for. *)
Lemma query_existing {F : Frame} H cs l nif a q v tap i e result :
  arp_inv (q :: H) cs l -> tap_nif (l_x l) nif v tap -> sendable_ref (l_heap l) cs q -> unicast a v = true ->
  l_arp l !! i = Some e -> matches a (Some nif) e ->
  exists r l' cs', etharp_query_packet custom_free buf nif v i q result l = Some (r, l') /\ arp_inv (q :: H) cs' l' /\
    query_outcome H cs nif a q v tap l r l'.
Proof using Hbuf.
  intros HI Hnif Hsr Hu He Hm. pose proof HI as [Ht HO Hwf Hn]. pose proof Hnif as (Hv & _ & Hhw & _).
  pose proof (inv_entry _ _ _ _ _ HI He) as Heok.
  assert (Hfound : found a nif ETHARP_FLAG_TRY_HARD (l_arp l) (Z.of_nat i) (l_arp l)) by (left; eauto 10).
  unfold etharp_query_packet, arp_at. rewrite He; cbn [mbind option_bind].
  destruct (Z.leb_spec ETHARP_STATE_STABLE (e_state e)) as [Hst|Hst].
  - destruct (etharp_set_addrhint_spec nif (Z.of_nat i) l v Hv) as (hints & ->). cbn [mbind option_bind].
    destruct (ethernet_output_owned buf Hbuf nif q (nif_hwaddr v) (e_ethaddr e) ETHTYPE_IP (lhints hints l) v tap cs
      ((q :: H) ++ queued (l_arp l))) as (r & h2 & cs2 & -> & Hr2 & HO2 & Hwf2 & _); try done; [by left|apply Heok|].
    exists r, (lout (if sends (l_x l) (cs q) then [frame_of tap (nif_hwaddr v) (e_ethaddr e) ETHTYPE_IP (content (cs q))] else []) h2
      (lhints hints l)), cs2. split; [done|].
    assert (HI2 : arp_inv (q :: H) cs2 (lout (if sends (l_x l) (cs q) then [frame_of tap (nif_hwaddr v) (e_ethaddr e) ETHTYPE_IP (content (cs q))] else []) h2
      (lhints hints l))) by by split.
    split; [done|]. right. split; [done|]. eexists i, (l_arp l), e, e, _, q, cs2.
    split; [done|]. split; [done|]. split; [done|]. split; [by rewrite list_insert_id|]. split; [done|]. by left.
  - assert (Hpn : e_state e = ETHARP_STATE_PENDING).
    { destruct Heok as [Hs4 _ _ _ _ _], Hm as [Hl _]. unfold live, ETHARP_STATE_STABLE, ETHARP_STATE_EMPTY, ETHARP_STATE_PENDING in *. lia. }
    rewrite Hpn, Z.eqb_refl.
    destruct (query_enqueue H cs l i e q HI Hsr He Hpn) as (r3 & h3 & cs3 & p & e' & -> & HI3 & Hd).
    do 3 eexists. split; [done|]. split; [done|]. right. split; [done|].
    eexists i, (l_arp l), e, e', [], p, cs3. split; [done|]. split; [done|]. split; [done|]. split; [done|]. split; [done|].
    right. split; [unfold is_stable; lia|]. rewrite decide_False by apply Hm. done.
Qed.

(** A new entry: the address is asked for and the packet queued. *)
Lemma query_new {F : Frame} H cs cs1 l nif a q v tap i t1 h1 e :
  arp_inv (q :: H) cs1 (arp_to (<[i := pending nif e]> t1) [] h1 l) -> tap_nif (l_x l) nif v tap ->
  sendable_ref h1 cs1 q -> same_packets cs cs1 -> unicast a v = true ->
  found a nif ETHARP_FLAG_TRY_HARD (l_arp l) (Z.of_nat i) t1 -> t1 !! i = Some e -> is_empty e -> e_netif e = Some nif ->
  exists r l' cs', ('(result, l) ← etharp_query_request custom_free buf nif a i true (Some q) (arp_to (<[i := pending nif e]> t1) [] h1 l);
                    etharp_query_packet custom_free buf nif v i q result l) = Some (r, l') /\ arp_inv (q :: H) cs' l' /\
    query_outcome H cs nif a q v tap l r l'.
Proof using Hbuf.
  intros HI1 Hnif Hsr Hs1 Hu Hf He Hemp Hne. set (l1 := arp_to _ [] h1 l) in *.
  assert (Hlt : (i < length t1)%nat) by by eapply lookup_lt_Some.
  unfold etharp_query_request. cbn [orb].
  destruct (etharp_request_spec (q :: H) cs1 l1 nif a v tap HI1 Hnif) as (r2 & evs & h2 & -> & HI2 & Hg2 & Hev).
  cbn [mbind option_bind]. set (l2 := lout evs h2 l1) in *.
  assert (Hi2 : l_arp l2 !! i = Some (pending nif e)) by by apply list_lookup_insert_eq.
  unfold arp_at. rewrite Hi2; cbn [mbind option_bind negb]. rewrite andb_false_r.
  replace (if r2 =? ERR_OK then Some (r2, l2) else Some (r2, l2)) with (Some (r2, l2)) by by destruct (r2 =? ERR_OK).
  cbn [mbind option_bind]. unfold etharp_query_packet, arp_at. rewrite Hi2; cbn [mbind option_bind].
  change (ETHARP_STATE_STABLE <=? e_state (pending nif e)) with false. change (e_state (pending nif e) =? ETHARP_STATE_PENDING) with true.
  assert (Hsr2 : sendable_ref (l_heap l2) cs1 q).
  { destruct Hsr as [? Hrr]. split; [done|]. intros b. change (l_heap l2) with h2. rewrite Hg2. apply Hrr. }
  destruct (query_enqueue H cs1 l2 i _ q HI2 Hsr2 Hi2 eq_refl) as (r3 & h3 & cs3 & p & e' & -> & HI3 & Hst & Hk & Hct & Hq).
  change (l_arp l2) with (<[i := pending nif e]> t1) in *. rewrite list_insert_insert_eq in *.
  do 3 eexists. split; [done|]. split; [done|]. right. split; [done|].
  exists i, t1, e, e', evs, p, cs3. split; [done|]. split; [done|].
  split. { unfold l2, l1, arp_to, lout; cbn. by rewrite !app_nil_r. }
  split; [done|]. split; [done|]. right.
  split; [unfold is_stable; rewrite Hemp; unfold ETHARP_STATE_STABLE, ETHARP_STATE_EMPTY; lia|].
  rewrite decide_True by done. split.
  { destruct Hev as [[_ ->]|[_ ->]]; [by left|]. destruct (g_node _); auto. }
  split; [done|]. split; [rewrite Hk; unfold key, pending; cbn; by rewrite Hne|]. split; [done|].
  destruct Hq as [(-> & ? & Hc)|?]; [left|by right]. split_and!; try done. rewrite Hc. by apply (less_refs_view _ _ (Hs1 q)).
Qed.

Lemma etharp_query_spec {F : Frame} H cs l nif a q v tap :
  arp_inv (q :: H) cs l -> tap_nif (l_x l) nif v tap -> sendable_ref (l_heap l) cs q ->
  exists r l' cs', etharp_query custom_free buf nif a (Some q) l = Some (r, l') /\ arp_inv (q :: H) cs' l' /\
    query_outcome H cs nif a q v tap l r l'.
Proof using Hbuf.
  intros HI Hnif Hsr. pose proof HI as [Ht HO Hwf Hn]. pose proof Hnif as (Hv & _).
  unfold etharp_query. change (lnif l nif) with (nget (x_net (l_x l)) nif). rewrite Hv; cbn [mbind option_bind].
  assert (Euc : ip4_addr_isbroadcast_u32 a v || ip4_addr_ismulticast a || (a =? IPADDR_ANY) = negb (unicast a v)).
  { unfold unicast. rewrite negb_involutive.
    destruct (a =? IPADDR_ANY), (ip4_addr_isbroadcast_u32 a v), (ip4_addr_ismulticast a); done. }
  rewrite Euc. destruct (unicast a v) eqn:Eu; cbn [negb]; last first.
  { exists ERR_ARG, l, cs. split; [done|]. split; [done|]. by left. }
  destruct (etharp_find_entry_spec custom_free (q :: H) cs l a nif ETHARP_FLAG_TRY_HARD HI)
    as (r & t1 & h1 & cs1 & -> & Hf & HO1 & Hwf1 & Hs1 & Hex & _). cbn [mbind option_bind].
  destruct (Z.ltb_spec r 0) as [Hr|Hr].
  { exfalso. destruct (found_err _ _ _ _ _ _ Hf Hr) as (_ & _ & _ & [E|E]); [by apply E|done]. }
  destruct (found_slot _ _ _ _ _ _ Ht Hf Hr) as (e & He & Ha & Hne & Huq).
  change (arp_at (arp_to t1 [] h1 l) (Z.to_nat r)) with (t1 !! Z.to_nat r). rewrite He; cbn [mbind option_bind].
  destruct (Z.eqb_spec (e_state e) ETHARP_STATE_EMPTY) as [Ee|Ee].
  - destruct (pending_table _ _ _ _ _ (l_x l) v tap Ht Hn Hnif Hf Hr e He Ee) as [Ht2 Hn2].
    apply (query_new H cs cs1 l nif a q v tap (Z.to_nat r) t1 h1 e); try done.
    + split; try done. change (l_heap (arp_to _ _ h1 l)) with h1. change (l_arp (arp_to ?t _ _ _)) with t.
      by rewrite (queued_same _ _ e).
    + eapply (sendable_same _ _ cs); [exact HO|exact HO1|by left|by left|done|done].
    + by rewrite Z2Nat.id.
  - destruct Hf as [(i & e0 & -> & -> & He0 & Hm)|[(_ & -> & _)|(_ & _ & i & e0 & -> & He0 & _ & ->)]];
      [|unfold ERR_MEM in Hr; lia|]; rewrite Nat2Z.id in *.
    + destruct (Hex ltac:(apply Exists_exists; exists e0; split; [by eapply list_elem_of_lookup_2|done])) as [-> ->].
      rewrite arp_to_self. unfold etharp_query_request. rewrite bool_decide_false by done. cbn [orb mbind option_bind].
      apply (query_existing H cs l nif a q v tap i e0 ERR_MEM); done.
    + exfalso. apply lookup_lt_Some in He0. rewrite list_lookup_insert_eq in He by done. injection He as He. by rewrite <- He in Ee.
Qed.

End query.
