(* ===== verification/EtharpSend.v ===== *)
(** [etharp_output]: which hardware address a packet goes to. *)
From S2P Require Import Prelude Bits Def IpAddr Pbuf PbufData PbufChain PbufIO PbufLife PbufCopy PbufOwn NetifRec Netif.
From S2P Require Import XnetTap XnetTapThm Ethernet EthernetThm Ip4Addr Etharp EtharpTable EtharpOps EtharpOut.

(** The entry that resolves address [a] of interface [nif]. *)
Definition resolves (nif a : Z) (e : etharp_entry) : Prop :=
  is_stable e /\ e_netif e = Some nif /\ e_ipaddr e = a.

Lemma resolves_test nif a e :
  (ETHARP_STATE_STABLE <=? e_state e) && bool_decide (e_netif e = Some nif) && (a =? e_ipaddr e) = true <-> resolves nif a e.
Proof.
  rewrite !andb_true_iff, Z.leb_le, bool_decide_eq_true, Z.eqb_eq. unfold resolves, is_stable. naive_solver.
Qed.

Lemma resolves_live nif a e : resolves nif a e -> live e.
Proof.
  intros (Hs & _) E. unfold is_stable in Hs. rewrite E in Hs.
  unfold ETHARP_STATE_STABLE, ETHARP_STATE_EMPTY in Hs. lia.
Qed.

Lemma find_stable_spec nif a t : forall i,
  match find_stable nif a t i with
  | Some k => (i <= k)%nat /\ exists e, t !! (k - i)%nat = Some e /\ resolves nif a e
  | None => Forall (fun e => ~ resolves nif a e) t
  end.
Proof.
  induction t as [|e t IH]; intros i; cbn [find_stable]; [constructor|].
  destruct (_ && _) eqn:E.
  - apply resolves_test in E. split; [lia|]. exists e. by rewrite Nat.sub_diag.
  - specialize (IH (S i)). destruct (find_stable nif a t (S i)) as [k|].
    + destruct IH as (Hk & e' & He' & Hr). split; [lia|]. exists e'.
      replace (k - i)%nat with (S (k - S i)) by lia. done.
    + constructor; [|done]. intros Hr. apply resolves_test in Hr. congruence.
Qed.

(** In a well-formed table the entry is unique, so the cached slot, the scan of
    [etharp_output] and the search of [etharp_query] agree. *)
Lemma resolves_unique t nif a i j e e' :
  table_ok t -> t !! i = Some e -> t !! j = Some e' -> resolves nif a e -> resolves nif a e' -> i = j.
Proof.
  intros Ht Hi Hj Hr Hr'. eapply (tab_unique _ Ht); eauto using resolves_live.
  unfold key. destruct Hr as (_ & -> & <-), Hr' as (_ & -> & ->). done.
Qed.

(** Where the next hop towards [a] is: [a] itself on the local network, the
    gateway for other networks. *)
Definition next_hop (v : netif) (a : Z) : option Z :=
  if ip4_addr_netcmp a (nif_ip_addr v) (nif_netmask v) || ip4_addr_islinklocal a then Some a
  else if nif_gw v =? IPADDR_ANY then None else Some (nif_gw v).

(** The address hint of the interface, if it has one, is in memory. *)
Definition hint_ok (l : lstate) (v : netif) : Prop :=
  forall p, nif_hints v = Some p -> exists c, l_hints l !! p = Some c /\ 0 <= c.

Section send.
  Context (custom_free : addr -> heap -> option heap) (buf : list Z) (Hbuf : zlen buf = 2048).

Lemma etharp_request_dst_spec {F : Frame} H cs l nif a dst v tap :
  arp_inv H cs l -> tap_nif (l_x l) nif v tap -> hwaddr_ok dst ->
  exists r evs h', etharp_request_dst custom_free buf nif a dst l = Some (r, lout evs h' l) /\
    arp_inv H cs (lout evs h' l).
Proof using Hbuf.
  intros HI Hnif Hd. pose proof HI as [Ht HO Hwf Hn]. pose proof Hnif as (Hv & _ & Hhw & _).
  unfold etharp_request_dst. change (lnif l nif) with (nget (x_net (l_x l)) nif). rewrite Hv.
  cbn [mbind option_bind].
  destruct (etharp_raw_spec custom_free buf Hbuf nif (nif_hwaddr v) dst (nif_hwaddr v) (nif_ip_addr v) ethzero a
    ARP_REQUEST l v tap) as (r & evs & h' & -> & Hwf' & Hg & _); auto with cint.
  exists r, evs, h'. split; [done|]. split; try done.
  eapply owned_same; [|exact HO]. intros; apply Hg.
Qed.

(** Changing between the states of a resolved entry. *)
Lemma arp_inv_restate {F : Frame} H cs l i e s :
  arp_inv H cs l -> l_arp l !! i = Some e -> is_stable e -> ETHARP_STATE_STABLE <= s <= 4 ->
  arp_inv H cs (arp_set i (set_state s e) l).
Proof.
  intros HI Hi Hst Hs. pose proof HI as [Ht HO Hwf Hn]. pose proof (inv_entry _ _ _ _ _ HI Hi) as He.
  unfold is_stable, ETHARP_STATE_STABLE in *.
  assert (live e) by (unfold live, ETHARP_STATE_EMPTY; lia).
  split; [| |done|].
  - eapply table_upd_same_key; [done..| |done]. destruct He as [? ? Hq [] Hp ?].
    split; cbn; unfold live, ETHARP_STATE_PENDING in *; try done; try lia. intros Hne. specialize (Hq Hne). lia.
  - change (l_heap (arp_set _ _ l)) with (l_heap l). cbn [arp_set larp l_arp]. by rewrite (queued_same _ _ e).
  - by eapply nifs_upd_same.
Qed.

(** The frame a packet becomes. *)
Definition ip_frames (x : xstate) (cs : addr -> list (addr * pbuf)) (q : addr) (tap : xnet_tap) (v : netif) (dst : list Z) : list xevent :=
  if sends x (cs q) then [frame_of tap (nif_hwaddr v) dst ETHTYPE_IP (content (cs q))] else [].

Lemma rerequested_spec {F : Frame} H cs l i e r :
  arp_inv H cs l -> l_arp l !! i = Some e -> is_stable e ->
  exists e', etharp_rerequested i (r, l) = Some (larp (<[i := e']> (l_arp l)) l) /\
    arp_inv H cs (larp (<[i := e']> (l_arp l)) l) /\
    (e' = e \/ e' = set_state ETHARP_STATE_STABLE_REREQUESTING_1 e).
Proof.
  intros HI Hi Hst. unfold etharp_rerequested, arp_at. rewrite Hi; cbn [mbind option_bind].
  destruct (r =? ERR_OK).
  - exists (set_state ETHARP_STATE_STABLE_REREQUESTING_1 e). split; [done|]. split; [|by right].
    by apply (arp_inv_restate _ _ _ i e).
  - exists e. rewrite list_insert_id by done. destruct l; auto.
Qed.

Lemma rerequest_spec {F : Frame} H cs l nif i e v tap :
  arp_inv H cs l -> tap_nif (l_x l) nif v tap -> l_arp l !! i = Some e -> is_stable e ->
  exists h' reqs e', let l1 := arp_to (<[i := e']> (l_arp l)) reqs h' l in
    etharp_rerequest custom_free buf nif i l = Some l1 /\ arp_inv H cs l1 /\
    (e' = e \/ e' = set_state ETHARP_STATE_STABLE_REREQUESTING_1 e) /\
    (e_ctime e < ARP_AGE_REREQUEST_USED_UNICAST -> reqs = [] /\ e' = e).
Proof using Hbuf.
  intros HI Hnif Hi Hst. pose proof (inv_entry _ _ _ _ _ HI Hi) as He.
  unfold etharp_rerequest, arp_at. rewrite Hi; cbn [mbind option_bind].
  assert (Hno : exists h' reqs e', let l1 := arp_to (<[i := e']> (l_arp l)) reqs h' l in
    Some l = Some l1 /\ arp_inv H cs l1 /\ (e' = e \/ e' = set_state ETHARP_STATE_STABLE_REREQUESTING_1 e) /\
    (e_ctime e < ARP_AGE_REREQUEST_USED_UNICAST -> reqs = [] /\ e' = e)).
  { exists (l_heap l), [], e. rewrite list_insert_id, arp_to_self by done. auto. }
  assert (Hask : forall dst, hwaddr_ok dst -> ARP_AGE_REREQUEST_USED_UNICAST <= e_ctime e ->
    exists h' reqs e', let l1 := arp_to (<[i := e']> (l_arp l)) reqs h' l in
    (etharp_request_dst custom_free buf nif (e_ipaddr e) dst l ≫= etharp_rerequested i) = Some l1 /\ arp_inv H cs l1 /\
    (e' = e \/ e' = set_state ETHARP_STATE_STABLE_REREQUESTING_1 e) /\
    (e_ctime e < ARP_AGE_REREQUEST_USED_UNICAST -> reqs = [] /\ e' = e)).
  { intros dst Hd Hage.
    destruct (etharp_request_dst_spec H cs l nif (e_ipaddr e) dst v tap HI Hnif Hd) as (r & evs & h' & -> & HI1).
    cbn [mbind option_bind]. destruct (rerequested_spec H cs (lout evs h' l) i e r HI1 Hi Hst) as (e' & -> & HI2 & He').
    exists h', evs, e'. cbn zeta. split; [done|]. split; [done|]. split; [done|]. intros; lia. }
  destruct (e_state e =? ETHARP_STATE_STABLE); [|done].
  destruct (Z.leb_spec ARP_AGE_REREQUEST_USED_BROADCAST (e_ctime e)).
  - apply Hask; [auto with cint|]. unfold ARP_AGE_REREQUEST_USED_BROADCAST, ARP_AGE_REREQUEST_USED_UNICAST in *. lia.
  - destruct (Z.leb_spec ARP_AGE_REREQUEST_USED_UNICAST (e_ctime e)); [|done]. apply Hask; [apply He|done].
Qed.

(** A packet sent through a resolved entry. *)
Definition sent_to (H : list addr) (cs : addr -> list (addr * pbuf)) (q : addr) (tap : xnet_tap) (v : netif)
    (i : nat) (e : etharp_entry) (l : lstate) (r : Z) (l' : lstate) : Prop :=
  exists reqs e', l_arp l' = <[i := e']> (l_arp l) /\
    x_out (l_x l') = x_out (l_x l) ++ reqs ++ ip_frames (l_x l) cs q tap v (e_ethaddr e) /\
    (r = ERR_OK <-> sends (l_x l) (cs q) = true) /\
    (e' = e \/ e' = set_state ETHARP_STATE_STABLE_REREQUESTING_1 e) /\
    (e_ctime e < ARP_AGE_REREQUEST_USED_UNICAST -> reqs = [] /\ e' = e).

Lemma output_index_spec {F : Frame} H cs l nif q i e v tap :
  arp_inv (q :: H) cs l -> tap_nif (l_x l) nif v tap -> l_arp l !! i = Some e -> is_stable e ->
  exists r l' cs', etharp_output_to_arp_index custom_free buf nif q i l = Some (r, l') /\
    arp_inv (q :: H) cs' l' /\ sent_to H cs q tap v i e l r l'.
Proof using Hbuf.
  intros HI Hnif Hi Hst. pose proof (inv_entry _ _ _ _ _ HI Hi) as He. pose proof Hnif as (Hv & _ & Hhw & _).
  assert (Hlt : (i < length (l_arp l))%nat) by by eapply lookup_lt_Some.
  unfold etharp_output_to_arp_index.
  destruct (rerequest_spec (q :: H) cs l nif i e v tap HI Hnif Hi Hst) as (h' & reqs & e' & -> & HI1 & Hd & Hyoung).
  cbn [mbind option_bind]. set (l1 := arp_to _ reqs h' l) in *. pose proof HI1 as [Ht1 HO1 Hwf1 Hn1].
  change (lnif l1 nif) with (nget (x_net (l_x l)) nif). rewrite Hv; cbn [mbind option_bind].
  assert (Hi1 : arp_at l1 i = Some e') by by apply list_lookup_insert_eq. rewrite Hi1; cbn [mbind option_bind].
  assert (e_ethaddr e' = e_ethaddr e) as -> by by destruct Hd as [->| ->].
  destruct (ethernet_output_owned buf Hbuf nif q (nif_hwaddr v) (e_ethaddr e) ETHTYPE_IP l1 v tap cs _ Hnif HO1 Hwf1)
    as (r & h2 & cs2 & -> & Hr & HO2 & Hwf2 & _); [by left|done|apply He|done|].
  do 3 eexists. split; [done|]. split; [by split|]. exists reqs, e'. split_and!; try done.
  unfold l1, arp_to, lout; cbn. by rewrite <- app_assoc.
Qed.

(** ** Unicast *)
(** The outcome for next hop [d]: sent through the entry that resolves it, or
    left to a query. *)
Definition unicast_outcome {F : Frame} (H : list addr) (cs : addr -> list (addr * pbuf)) (nif d : Z) (q : addr) (v : netif)
    (tap : xnet_tap) (l : lstate) (r : Z) (l' : lstate) : Prop :=
  (exists i e, l_arp l !! i = Some e /\ resolves nif d e /\ sent_to H cs q tap v i e l r l') \/
  (Forall (fun e => ~ resolves nif d e) (l_arp l) /\ query_outcome H cs nif d q v tap l r l').

Lemma output_unicast_spec {F : Frame} H cs l nif q d v tap :
  arp_inv (q :: H) cs l -> tap_nif (l_x l) nif v tap -> sendable_ref (l_heap l) cs q -> hint_ok l v ->
  exists r l' cs', etharp_output_unicast custom_free buf nif q d l = Some (r, l') /\ arp_inv (q :: H) cs' l' /\
    unicast_outcome H cs nif d q v tap l r l'.
Proof using Hbuf.
  intros HI Hnif Hsr Hh. pose proof Hnif as (Hv & _). unfold etharp_output_unicast.
  change (lnif l nif) with (nget (x_net (l_x l)) nif). rewrite Hv; cbn [mbind option_bind].
  assert (Hscan : exists r l' cs',
    match find_stable nif d (l_arp l) 0 with
    | Some i => l ← etharp_set_addrhint nif (Z.of_nat i) l; etharp_output_to_arp_index custom_free buf nif q i l
    | None => etharp_query custom_free buf nif d (Some q) l
    end = Some (r, l') /\ arp_inv (q :: H) cs' l' /\ unicast_outcome H cs nif d q v tap l r l').
  { pose proof (find_stable_spec nif d (l_arp l) 0) as Hf. destruct (find_stable _ _ _ _) as [i|].
    - destruct Hf as (_ & e & He & Hr). rewrite Nat.sub_0_r in He.
      destruct (etharp_set_addrhint_spec nif (Z.of_nat i) l v Hv) as (hints & ->). cbn [mbind option_bind].
      destruct (output_index_spec H cs (lhints hints l) nif q i e v tap) as (r & l' & cs' & -> & HI' & Hs); auto using arp_inv_hints;
        [apply Hr|]. exists r, l', cs'. split; [done|]. split; [done|]. left. eauto.
    - destruct (etharp_query_spec custom_free buf Hbuf H cs l nif d q v tap HI Hnif Hsr) as (r & l' & cs' & -> & HI' & Hq).
      exists r, l', cs'. split; [done|]. split; [done|]. by right. }
  destruct (nif_hints v) as [p|] eqn:Eh; [|exact Hscan].
  destruct (Hh p Eh) as (c & Hc & Hc0). rewrite Hc; cbn [mbind option_bind].
  destruct (Z.ltb_spec c ARP_TABLE_SIZE); [|exact Hscan].
  destruct (lookup_lt_is_Some_2 (l_arp l) (Z.to_nat c)) as [e He].
  { rewrite (tab_len _ (inv_table _ _ _ HI)). lia. }
  change (arp_at l (Z.to_nat c)) with (l_arp l !! Z.to_nat c). rewrite He; cbn [mbind option_bind].
  destruct (_ && _) eqn:E; [|exact Hscan]. apply resolves_test in E.
  destruct (output_index_spec H cs l nif q (Z.to_nat c) e v tap) as (r & l' & cs' & -> & HI' & Hs); auto; [apply E|].
  exists r, l', cs'. split; [done|]. split; [done|]. left. eauto.
Qed.

(** ** All destinations *)
Definition output_outcome {F : Frame} (H : list addr) (cs : addr -> list (addr * pbuf)) (nif a : Z) (q : addr) (v : netif)
    (tap : xnet_tap) (l : lstate) (r : Z) (l' : lstate) : Prop :=
  if ip4_addr_isbroadcast_u32 a v || ip4_addr_ismulticast a then
    l_arp l' = l_arp l /\ (r = ERR_OK <-> sends (l_x l) (cs q) = true) /\
    x_out (l_x l') = x_out (l_x l) ++
      ip_frames (l_x l) cs q tap v (if ip4_addr_isbroadcast_u32 a v then ethbroadcast else mcast_hwaddr a)
  else match next_hop v a with
       | None => r = ERR_RTE /\ l' = l
       | Some d => unicast_outcome H cs nif d q v tap l r l'
       end.

Lemma hwaddr_mcast a : hwaddr_ok (mcast_hwaddr a).
Proof.
  split; [done|]. unfold mcast_hwaddr, bytes_ok. rewrite !Forall_cons. split_and!; auto with cint; try done.
  change 0x7f with (Z.ones 7). rewrite Z.land_ones by lia. unfold byte_ok. change (2 ^ 7) with 128. zdm; lia.
Qed.

Lemma output_direct {F : Frame} H cs l nif q dst v tap :
  arp_inv (q :: H) cs l -> tap_nif (l_x l) nif v tap -> hwaddr_ok dst ->
  exists r l' cs', ethernet_output buf nif q (nif_hwaddr v) dst ETHTYPE_IP l = Some (r, l') /\ arp_inv (q :: H) cs' l' /\
    l_arp l' = l_arp l /\ (r = ERR_OK <-> sends (l_x l) (cs q) = true) /\
    x_out (l_x l') = x_out (l_x l) ++ ip_frames (l_x l) cs q tap v dst.
Proof using Hbuf.
  intros HI Hnif Hd. pose proof HI as [Ht HO Hwf Hn]. pose proof Hnif as (_ & _ & Hhw & _).
  destruct (ethernet_output_owned buf Hbuf nif q (nif_hwaddr v) dst ETHTYPE_IP l v tap cs _ Hnif HO Hwf)
    as (r & h2 & cs2 & -> & Hr & HO2 & Hwf2 & _); [by left|done..|].
  do 3 eexists. split; [done|]. split; [by split|]. done.
Qed.

Lemma etharp_output_ok {F : Frame} H cs l nif q a v tap :
  arp_inv (q :: H) cs l -> tap_nif (l_x l) nif v tap -> sendable_ref (l_heap l) cs q -> hint_ok l v ->
  exists r l' cs', etharp_output custom_free buf nif q a l = Some (r, l') /\ arp_inv (q :: H) cs' l' /\
    output_outcome H cs nif a q v tap l r l'.
Proof using Hbuf.
  intros HI Hnif Hsr Hh. pose proof Hnif as (Hv & _). unfold etharp_output, output_outcome.
  change (lnif l nif) with (nget (x_net (l_x l)) nif). rewrite Hv; cbn [mbind option_bind].
  destruct (ip4_addr_isbroadcast_u32 a v); cbn [orb]; [apply output_direct; auto with cint|].
  destruct (ip4_addr_ismulticast a); [apply output_direct; auto using hwaddr_mcast|].
  unfold next_hop. rewrite <- negb_orb. destruct (_ || ip4_addr_islinklocal a); cbn [negb].
  - by apply output_unicast_spec.
  - destruct (nif_gw v =? IPADDR_ANY); cbn [negb]; [|by apply output_unicast_spec].
    exists ERR_RTE, l, cs. done.
Qed.

End send.
