(* ===== verification/EtharpIn.v ===== *)
(** Receiving ARP packets: [etharp_input]. *)
From S2P Require Import Prelude Bits Def IpAddr Pbuf PbufData PbufChain PbufIO PbufLife PbufCopy PbufOwn NetifRec Netif.
From S2P Require Import XnetTap XnetTapThm Ethernet EthernetThm Ip4Addr Etharp EtharpTable EtharpOps EtharpOut EtharpSend.

(** ** The header *)

(** What the code needs of the memory behind the payload pointer. *)
Definition arp_readable (b : pbuf) : Prop :=
  0 <= pb_payload b /\ pb_payload b + SIZEOF_ETHARP_HDR <= zlen (pb_mem b) /\ bytes_ok (pb_mem b).

Lemma arp_read b o n :
  arp_readable b -> 0 <= o -> 0 <= n -> o + n <= SIZEOF_ETHARP_HDR ->
  exists bs, payload_read b o n = Some bs /\ zlen bs = n /\ bytes_ok bs.
Proof.
  intros (Hp & Hm & Hb) Ho Hn Hon. unfold payload_read. rewrite mem_read_spec by lia.
  eexists; split; [done|]. split; [|auto with cint]. rewrite zlen_ztake; [done|]. rewrite zlen_zdrop. lia.
Qed.

Lemma two_bytes bs : zlen bs = 2 -> exists w, u16_of bs = Some w.
Proof. unfold zlen. destruct bs as [|b0 [|b1 [|]]]; cbn; try lia. eauto. Qed.

Lemma four_bytes bs : zlen bs = 4 -> exists w, ip4_at bs = Some w.
Proof. unfold zlen. destruct bs as [|b0 [|b1 [|b2 [|b3 [|]]]]]; cbn; try lia. eauto. Qed.

Lemma arp_hdr_valid_total b : arp_readable b -> exists ok, arp_hdr_valid b = Some ok.
Proof.
  intros Hr. unfold arp_hdr_valid, SIZEOF_ETHARP_HDR in *.
  destruct (arp_read b 0 2 Hr) as (x & -> & Hx & _); [unfold SIZEOF_ETHARP_HDR; lia..|]. cbn [mbind option_bind].
  destruct (two_bytes x Hx) as (w & ->). cbn [mbind option_bind].
  destruct (arp_read b 2 2 Hr) as (y & -> & Hy & _); [unfold SIZEOF_ETHARP_HDR; lia..|]. cbn [mbind option_bind].
  destruct (two_bytes y Hy) as (w' & ->). cbn [mbind option_bind].
  destruct (arp_read b 4 2 Hr) as (z & -> & _); [unfold SIZEOF_ETHARP_HDR; lia..|]. by eexists.
Qed.

Lemma arp_hdr_read_total b : arp_readable b -> exists hdr, arp_hdr_read b = Some hdr /\ hwaddr_ok (ah_shwaddr hdr).
Proof.
  intros Hr. unfold arp_hdr_read.
  destruct (arp_read b 6 2 Hr) as (x & -> & Hx & _); [unfold SIZEOF_ETHARP_HDR; lia..|]. cbn [mbind option_bind].
  destruct (two_bytes x Hx) as (w & ->). cbn [mbind option_bind].
  destruct (arp_read b 8 6 Hr) as (hw & -> & Hw & Hwb); [unfold SIZEOF_ETHARP_HDR; lia..|]. cbn [mbind option_bind].
  destruct (arp_read b 14 4 Hr) as (y & -> & Hy & _); [unfold SIZEOF_ETHARP_HDR; lia..|]. cbn [mbind option_bind].
  destruct (four_bytes y Hy) as (a & ->). cbn [mbind option_bind].
  destruct (arp_read b 24 4 Hr) as (z & -> & Hz & _); [unfold SIZEOF_ETHARP_HDR; lia..|]. cbn [mbind option_bind].
  destruct (four_bytes z Hz) as (d & ->). cbn [mbind option_bind]. by eexists.
Qed.

(** The header [etharp_raw] writes is the one [etharp_input] reads. *)
Lemma bytes16_read v : 0 <= v < 65536 -> u16_of (bytes16 v) = Some v.
Proof.
  intros. cbn. f_equal. unfold u16_at, byte_of. change (8 * 0) with 0; change (8 * 1) with 8.
  change (2 ^ 0) with 1; change (2 ^ 8) with 256. zdm; lia.
Qed.

Lemma ip4_bytes_read a : 0 <= a < 2 ^ 32 -> ip4_at (ip4_bytes a) = Some a.
Proof. intros. cbn. f_equal. symmetry; by apply u32_as_bytes. Qed.

Lemma etharp_hdr_layout hs s hd d op :
  zlen hs = 6 -> zlen hd = 6 ->
  etharp_hdr_bytes hs s hd d op =
    bytes16 (PP_HTONS 1) ++ bytes16 (PP_HTONS ETHTYPE_IP) ++ [6; 4] ++ bytes16 (lwip_htons op) ++
    hs ++ ip4_bytes s ++ hd ++ ip4_bytes d.
Proof.
  intros Hs Hd. unfold etharp_hdr_bytes. by rewrite (ztake_ge _ hs), (ztake_ge _ hd) by (unfold ETH_HWADDR_LEN; lia).
Qed.

(** Reading a field of a payload that is laid out as [x ++ y ++ z]. *)
Lemma payload_field b x y z o n :
  pb_ok b -> pb_bytes b = x ++ y ++ z -> zlen x = o -> zlen y = n -> payload_read b o n = Some y.
Proof.
  intros Hok Hb Hx Hy. pose proof (zlen_nonneg x). pose proof (zlen_nonneg y). pose proof (zlen_nonneg z).
  pose proof (pb_bytes_len _ Hok) as Hl. rewrite Hb, !zlen_app in Hl.
  rewrite payload_read_spec by (auto; lia). f_equal. rewrite Hb, zdrop_app_ge by lia. rewrite Hx, Z.sub_diag, zdrop_0.
  rewrite ztake_app_le, ztake_ge by lia. done.
Qed.

Lemma arp_hdr_parse b hs s hd d op rest :
  pb_ok b -> pb_bytes b = etharp_hdr_bytes hs s hd d op ++ rest -> zlen hs = 6 -> zlen hd = 6 ->
  0 <= s < 2 ^ 32 -> 0 <= d < 2 ^ 32 ->
  arp_hdr_valid b = Some true /\ arp_hdr_read b = Some (ArpHdr (PP_HTONS op) hs s d).
Proof.
  intros Hok Hb Hhs Hhd Hs Hd. rewrite etharp_hdr_layout in Hb by done.
  assert (F : forall x y z o n, zlen x = o -> zlen y = n -> pb_bytes b = x ++ y ++ z -> payload_read b o n = Some y).
  { intros. by eapply payload_field. }
  assert (L16 : forall w, zlen (bytes16 w) = 2) by done. assert (L4 : forall w, zlen (ip4_bytes w) = 4) by done.
  assert (R : forall w, u16_of (bytes16 (PP_HTONS w)) = Some (PP_HTONS w)).
  { intros w. apply bytes16_read. apply u16_range. }
  repeat rewrite <- app_assoc in Hb. split.
  - unfold arp_hdr_valid.
    rewrite (F [] _ _ 0 2 eq_refl (L16 _) Hb). cbn [mbind option_bind]. rewrite R; cbn [mbind option_bind].
    rewrite (F (bytes16 (PP_HTONS 1)) (bytes16 (PP_HTONS ETHTYPE_IP)) _ 2 2 eq_refl eq_refl Hb). cbn [mbind option_bind].
    rewrite R; cbn [mbind option_bind].
    rewrite (F (bytes16 (PP_HTONS 1) ++ bytes16 (PP_HTONS ETHTYPE_IP)) [6; 4] _ 4 2 eq_refl eq_refl Hb). cbn [mbind option_bind]. done.
  - unfold arp_hdr_read. set (pre := bytes16 (PP_HTONS 1) ++ bytes16 (PP_HTONS ETHTYPE_IP) ++ [6; 4]) in *.
    rewrite (F pre (bytes16 (lwip_htons op)) _ 6 2 eq_refl eq_refl Hb). cbn [mbind option_bind].
    unfold lwip_htons at 1. rewrite R; cbn [mbind option_bind].
    rewrite (F (pre ++ bytes16 (lwip_htons op)) hs _ 8 6 eq_refl Hhs Hb). cbn [mbind option_bind].
    rewrite (F (pre ++ bytes16 (lwip_htons op) ++ hs) (ip4_bytes s) (hd ++ ip4_bytes d ++ rest) 14 4);
      [|rewrite !zlen_app, Hhs; done|done|by rewrite Hb, <- !app_assoc]. cbn [mbind option_bind].
    rewrite ip4_bytes_read by done. cbn [mbind option_bind].
    rewrite (F (pre ++ bytes16 (lwip_htons op) ++ hs ++ ip4_bytes s ++ hd) (ip4_bytes d) rest 24 4);
      [|rewrite !zlen_app, Hhs, Hhd; done|done|by rewrite Hb, <- !app_assoc]. cbn [mbind option_bind].
    rewrite ip4_bytes_read by done. done.
Qed.

(** ** The handler *)

(** The packet is about our own address. *)
Definition for_us (v : netif) (hdr : arp_hdr) : bool :=
  negb (nif_ip_addr v =? IPADDR_ANY) && (ah_dipaddr hdr =? nif_ip_addr v).

Definition from_us (v : netif) (hdr : arp_hdr) : bool :=
  negb (nif_ip_addr v =? IPADDR_ANY) && (ah_sipaddr hdr =? nif_ip_addr v).

Definition arp_flags (v : netif) (hdr : arp_hdr) : Z :=
  if for_us v hdr then ETHARP_FLAG_TRY_HARD else ETHARP_FLAG_FIND_ONLY.

(** Whether the packet is answered, and the answer. *)
Definition answers (v : netif) (hdr : arp_hdr) : bool :=
  (ah_opcode hdr =? PP_HTONS ARP_REQUEST) && (for_us v hdr && negb (from_us v hdr)).

Definition reply_frame (tap : xnet_tap) (v : netif) (hdr : arp_hdr) : xevent :=
  frame_of tap (nif_hwaddr v) (ah_shwaddr hdr) ETHTYPE_ARP
    (etharp_hdr_bytes (nif_hwaddr v) (nif_ip_addr v) (ah_shwaddr hdr) (ah_sipaddr hdr) ARP_REPLY).

(** What the sender's addresses do to the table: [evs] are the packets that
    waited for them. *)
Definition learned (cs : addr -> list (addr * pbuf)) (nif : Z) (v : netif) (tap : xnet_tap) (hdr : arp_hdr)
    (l : lstate) (t' : list etharp_entry) (evs : list xevent) : Prop :=
  let a := ah_sipaddr hdr in
  (unicast a v = false /\ t' = l_arp l /\ evs = []) \/
  (unicast a v = true /\ found a nif (arp_flags v hdr) (l_arp l) ERR_MEM t' /\ t' = l_arp l /\ evs = []) \/
  (unicast a v = true /\ exists i t1 e,
     found a nif (arp_flags v hdr) (l_arp l) (Z.of_nat i) t1 /\ t1 !! i = Some e /\
     t' = <[i := resolved nif (ah_shwaddr hdr) e]> t1 /\
     (NoDup (e_q e) -> evs = queue_frames (l_x l) tap (nif_hwaddr v) (ah_shwaddr hdr) cs (e_q e))).

Section input.
  Context (custom_free : addr -> heap -> option heap) (buf : list Z) (Hbuf : zlen buf = 2048).

(** The answer to a request: sent unless there is no memory for it. *)
Lemma etharp_reply_spec {F : Frame} H cs l nif v tap hdr :
  arp_inv H cs l -> tap_nif (l_x l) nif v tap -> hwaddr_ok (ah_shwaddr hdr) ->
  exists evs h', (if answers v hdr then
      '(_, l) ← etharp_raw custom_free buf nif (nif_hwaddr v) (ah_shwaddr hdr) (nif_hwaddr v) (nif_ip_addr v)
                  (ah_shwaddr hdr) (ah_sipaddr hdr) ARP_REPLY l; Some l
      else Some l) = Some (lout evs h' l) /\ arp_inv H cs (lout evs h' l) /\
    (evs = [] \/ (answers v hdr = true /\ evs = [reply_frame tap v hdr])) /\
    (answers v hdr = true -> g_node (l_x l) = true ->
     (exists c o, h_orc (l_heap l) = Some c :: o) -> evs = [reply_frame tap v hdr]).
Proof using Hbuf.
  intros HI Hnif Hhw. pose proof HI as [Ht HO Hwf Hn]. pose proof Hnif as (Hv & _ & Hh & _).
  destruct (answers v hdr); last first.
  { exists [], (l_heap l). rewrite lout_nil. assert (lheap (l_heap l) l = l) as ->.
    { unfold lheap, lx, l_heap, set_heap. destruct l as [[] ? ?]; done. } split_and!; auto. done. }
  destruct (etharp_raw_spec custom_free buf Hbuf nif (nif_hwaddr v) (ah_shwaddr hdr) (nif_hwaddr v) (nif_ip_addr v)
    (ah_shwaddr hdr) (ah_sipaddr hdr) ARP_REPLY l v tap) as (r & evs & h' & Er & Hwf' & Hg & Hev); auto.
  rewrite Er; cbn [mbind option_bind]. exists evs, h'. split; [done|]. split.
  { split; try done. eapply owned_same; [|exact HO]. intros; apply Hg. }
  split.
  - destruct Hev as [[_ ->]|[_ ->]]; [by left|]. destruct (g_node (l_x l)); auto.
  - intros _ Hnode (c & o & Ho). rewrite Hnode in Hev.
    destruct Hev as [[-> _]|[_ ->]]; [exfalso|done].
    revert Er. unfold etharp_raw, pbuf_alloc, mem_malloc. cbn [Z.eqb Pos.eqb orb PBUF_RAM PBUF_REF PBUF_ROM PBUF_POOL].
    unfold PBUF_LINK, SIZEOF_ETHARP_HDR. change (u16 14) with 14. change (align4 14) with 16. change (align4 28) with 28.
    change (u16 (16 + 28)) with 44. change (u64 (align4 SIZEOF_STRUCT_PBUF + 44)) with 68. cbn [Z.ltb Z.compare Pos.compare Pos.compare_cont orb].
    rewrite Ho. cbn [mbind option_bind]. intros Er.
    repeat match type of Er with
    | mbind _ ?m = Some _ => destruct m as [?x|]; cbn [mbind option_bind] in Er; [|discriminate Er]; try destruct x
    end. by injection Er.
Qed.

Lemma etharp_input_ok {F : Frame} H cs l p nif v tap b :
  arp_inv (p :: H) cs l -> tap_nif (l_x l) nif v tap -> get (l_heap l) p = Some b -> arp_readable b ->
  exists l' cs', etharp_input custom_free buf p nif l = Some l' /\ arp_inv H cs' l' /\
    ((arp_hdr_valid b = Some false /\ l_arp l' = l_arp l /\ x_out (l_x l') = x_out (l_x l)) \/
     (arp_hdr_valid b = Some true /\ exists hdr evs reply, arp_hdr_read b = Some hdr /\
        learned cs nif v tap hdr l (l_arp l') evs /\
        x_out (l_x l') = x_out (l_x l) ++ evs ++ reply /\
        (reply = [] \/ (answers v hdr = true /\ reply = [reply_frame tap v hdr])) /\
        (answers v hdr = true -> g_node (l_x l) = true -> (exists c o, h_orc (l_heap l) = Some c :: o) ->
         reply = [reply_frame tap v hdr]))).
Proof using Hbuf.
  intros HI Hnif Hg Hr. unfold etharp_input. rewrite Hg; cbn [mbind option_bind].
  destruct (arp_hdr_valid_total b Hr) as (ok & Hok). rewrite Hok; cbn [mbind option_bind].
  assert (Hfree : forall cs1 l1, arp_inv (p :: H) cs1 l1 ->
    exists h' cs', ('(_, h) ← pbuf_free custom_free (Some p) (l_heap l1); Some (lheap h l1)) = Some (lheap h' l1) /\
      arp_inv H cs' (lheap h' l1)).
  { intros cs1 l1 [Ht1 HO1 Hwf1 Hn1].
    destruct (pbuf_free_owned custom_free _ cs1 p _ HO1 Hwf1) as (n & h2 & cs2 & -> & HO2 & Hwf2 & _).
    exists h2, cs2. split; [done|]. by split. }
  destruct ok; cbn [negb]; last first.
  { destruct (Hfree cs l HI) as (h' & cs' & -> & HI'). do 2 eexists. split; [done|]. split; [done|]. by left. }
  destruct (arp_hdr_read_total b Hr) as (hdr & Hh & Hhw). rewrite Hh; cbn [mbind option_bind].
  change (lnif l nif) with (nget (x_net (l_x l)) nif). rewrite (proj1 Hnif); cbn [mbind option_bind].
  fold (for_us v hdr). fold (from_us v hdr). fold (arp_flags v hdr). fold (answers v hdr).
  destruct (etharp_update_spec custom_free buf Hbuf (p :: H) cs l nif (ah_sipaddr hdr) (ah_shwaddr hdr) (arp_flags v hdr) v tap HI Hnif Hhw)
    as (r & t' & evs & h1 & cs1 & -> & HI1 & Ho1 & Hupd). cbn [mbind option_bind].
  set (l1 := arp_to t' evs h1 l) in *.
  destruct (etharp_reply_spec (p :: H) cs1 l1 nif v tap hdr HI1 Hnif Hhw) as (reply & h2 & -> & HI2 & Hrep & Hsent).
  cbn [mbind option_bind]. destruct (Hfree _ _ HI2) as (h3 & cs3 & -> & HI3).
  do 2 eexists. split; [done|]. split; [done|]. right. split; [done|]. exists hdr, evs, reply.
  split; [done|]. split; [|split; [unfold l1, arp_to, lout; cbn; by rewrite app_assoc|split; [done|]]]; last first.
  { intros Ha Hnode Horc. apply Hsent; [done|done|]. change (l_heap l1) with h1. by rewrite Ho1. }
  unfold learned. assert (l_arp (lheap h3 (lout reply h2 l1)) = t') as -> by done.
  destruct Hupd as [(? & _ & ? & ?)|[(? & ? & _ & ? & ?)|(? & _ & i & t1 & e & ? & ? & ? & ?)]];
    [by left|by right; left|]. right; right. split; [done|]. exists i, t1, e. done.
Qed.

End input.
