(* ===== verification/EtharpClaims.v ===== *)
(** What the link layer promises: [etharp.c] and [ethernet.c] on top of a tap.  First, concrete states for the witnesses. *)
From S2P Require Import Prelude Bits Def IpAddr Pbuf PbufData PbufChain PbufIO PbufLife PbufCopy PbufOwn NetifRec Netif.
From S2P Require Import XnetTap XnetTapThm Ethernet EthernetThm Ip4Addr Etharp EtharpTable EtharpOps EtharpOut EtharpSend EtharpIn.

(** No loopback queues. *)
#[export] Instance exa_no_frame : Frame := no_frame.

Definition exa_tap : xnet_tap := Tap 0x2a 0x020000000001 1400 true false 0x0100000a (replicate 16 0) true.

Definition exa_nif : netif :=
  nset_linkoutput netif_linkoutput (nset_hwaddr_len 6 (nset_hwaddr [2; 0; 0; 0; 0; 1]
    (nset_state (Some 0) (nset_flags 0x1f (nset_netmask 0x00ffffff (nset_ip_addr 0x0100000a zero_netif)))))).

Definition exa_pbuf : pbuf := Pbuf None (replicate 60 7) 16 20 20 0x80 0 1 0.

Definition exa_heap_of (b : pbuf) : heap :=
  Heap {[1%positive := b]} 2%positive (replicate 8 (Some [])) false [].

Definition exa_x_of (b : pbuf) : xstate :=
  XState true true true true true true [] 9994 3 4 [exa_tap; zero_tap; zero_tap; zero_tap] 1
    (NState {[1 := exa_nif]} None None 0 []) (exa_heap_of b) [].

Definition exa_l_of (b : pbuf) : lstate := LState (exa_x_of b) arp_init ∅.

Definition exa_l : lstate := exa_l_of exa_pbuf.

Definition exa_buf : list Z := replicate 2048 0.

Definition exa_free (p : addr) (h : heap) : option heap := Some (del h p).

(** The address 10.0.0.2 and its hardware address. *)
Definition exa_peer : Z := 0x0200000a.

Definition exa_hw : list Z := [2; 0; 0; 0; 0; 2].

(** The peer asks for our hardware address. *)
Definition exa_request : list Z := etharp_hdr_bytes exa_hw exa_peer ethzero 0x0100000a ARP_REQUEST.

Definition exa_frame : list Z := ethbroadcast ++ exa_hw ++ bytes16 (PP_HTONS ETHTYPE_ARP) ++ exa_request.

(** The frame of the request; [off] bytes of it are behind the payload pointer. *)
Definition exa_arp (off : Z) : pbuf :=
  Pbuf None (replicate 16 0 ++ exa_frame) (16 + off) (42 - off) (42 - off) 0x80 0 1 0.

Definition exa_cs_of (b : pbuf) (p : addr) : list (addr * pbuf) := [(p, b)].

Definition exa_cs : addr -> list (addr * pbuf) := exa_cs_of exa_pbuf.

Lemma exa_nif_ok b : tap_nif (exa_x_of b) 1 exa_nif exa_tap.
Proof.
  split; [reflexivity|]. split; [reflexivity|]. split; [split; [reflexivity|repeat constructor; done]|].
  exists 0. split; reflexivity.
Qed.

Lemma exa_hw_ok : hwaddr_ok exa_hw.
Proof. split; [reflexivity|repeat constructor; done]. Qed.

(** A packet of one pbuf from the C heap with one reference. *)
Definition exa_good (b : pbuf) : Prop :=
  pb_ok b /\ pb_next b = None /\ pb_tot_len b = pb_len b /\ pb_std b /\ pb_ref b = 1.

Lemma exa_pbuf_good : exa_good exa_pbuf.
Proof. repeat split; cbn; try lia; [unfold zlen; cbn; lia|by left]. Qed.

Lemma exa_arp_good off : 0 <= off <= 42 -> exa_good (exa_arp off).
Proof.
  intros Ho. assert (Hl : zlen (replicate 16 0 ++ exa_frame) = 58) by reflexivity.
  repeat split; cbn [exa_arp pb_payload pb_len pb_mem pb_tot_len pb_ref]; try lia. by left.
Qed.

Lemma exa_arp_bytes : bytes_ok (replicate 16 0 ++ exa_frame).
Proof. apply (bool_decide_unpack _). vm_compute. exact I. Qed.

Section good.
  Context (b : pbuf) (Hb : exa_good b).

Lemma exa_wf : heap_wf (exa_heap_of b).
Proof.
  intros a b' Hg. unfold get, exa_heap_of, h_pbufs in Hg. apply lookup_singleton_Some in Hg as [<- _]. done.
Qed.

Lemma exa_owned : owned (exa_heap_of b) (exa_cs_of b) [1%positive].
Proof using Hb.
  apply owned_singles.
  - apply NoDup_singleton.
  - intros p ->%list_elem_of_singleton. exists b. destruct Hb as (? & ? & ? & ? & ?). by split_and!.
  - intros a [c Hc]. unfold get, exa_heap_of, h_pbufs in Hc. apply lookup_singleton_Some in Hc as [<- _]. by apply list_elem_of_singleton.
Qed.

End good.

Lemma zero_entry_ok : entry_ok zero_entry.
Proof. split; cbn; unfold ETHARP_STATE_EMPTY, ARP_QUEUE_LEN; auto with cint; try done; lia. Qed.

Lemma arp_init_ok : table_ok arp_init.
Proof.
  split; [reflexivity| |].
  - apply Forall_replicate, zero_entry_ok.
  - intros i j e e' Hi Hj Hl. apply lookup_replicate in Hi as [-> _]. by destruct Hl.
Qed.

Lemma queued_init : queued arp_init = [].
Proof. reflexivity. Qed.

Lemma exa_inv_of b : exa_good b -> arp_inv [1%positive] (exa_cs_of b) (exa_l_of b).
Proof.
  intros Hb. split; [exact arp_init_ok| |exact (exa_wf b)|].
  - change (queued (l_arp (exa_l_of b))) with (@nil addr). rewrite app_nil_r. by apply exa_owned.
  - apply Forall_replicate. by intros [].
Qed.

Lemma exa_inv : arp_inv [1%positive] exa_cs exa_l.
Proof. exact (exa_inv_of _ exa_pbuf_good). Qed.

Lemma exa_sendable : sendable_ref (l_heap exa_l) exa_cs 1%positive.
Proof. split; [by repeat constructor|]. intros b Hg. by injection Hg as <-. Qed.

(** The same state with one entry, for the peer, in slot 0. *)
Definition exa_entry (s : Z) (q : list addr) : etharp_entry := Entry q exa_peer (Some 1) exa_hw 0 s.

Definition exa_with (s : Z) (q : list addr) : lstate := larp (<[0%nat := exa_entry s q]> arp_init) exa_l.

Lemma exa_entry_ok s q : 1 <= s <= 4 -> (length q <= 3)%nat -> (q <> [] -> s = 1) -> entry_ok (exa_entry s q).
Proof.
  intros Hs Hq Hqs. split; cbn; unfold ARP_QUEUE_LEN, ETHARP_STATE_PENDING, ARP_MAXAGE, ARP_MAXPENDING; try done; try lia.
  exact exa_hw_ok.
Qed.

Lemma exa_with_inv s q H :
  1 <= s <= 4 -> (length q <= 3)%nat -> (q <> [] -> s = 1) -> Permutation (H ++ q) [1%positive] ->
  arp_inv H exa_cs (exa_with s q).
Proof.
  intros Hs Hq Hqs HP. split.
  - eapply table_upd; [exact arp_init_ok|reflexivity|by apply exa_entry_ok|].
    intros _ j e2 Hj He2 Hl2. apply lookup_replicate in He2 as [-> _]. by destruct Hl2.
  - assert (EQ : Permutation (queued (l_arp (exa_with s q))) q).
    { destruct (queued_split arp_init 0 zero_entry eq_refl) as (R & HR & HR').
      rewrite queued_init in HR. cbn in HR. apply Permutation_nil_l in HR. subst R.
      unfold exa_with. cbn [larp l_arp]. rewrite HR'. cbn. by rewrite app_nil_r. }
    rewrite EQ, HP. exact (exa_owned _ exa_pbuf_good).
  - exact (exa_wf _).
  - eapply nifs_upd; [apply Forall_replicate; by intros []|reflexivity|]. intros _. exists 1, exa_nif, exa_tap.
    split; [reflexivity|exact (exa_nif_ok _)].
Qed.

Section claims.
  Context (custom_free : addr -> heap -> option heap) (buf : list Z).

(** C6. The well-formedness of the link layer is a type its operations respect: on
    a state where the table has 64 valid entries, no address of an interface
    twice, queues only on pending entries and at most three packets each, every
    queued packet intact and counted, no operation meets undefined behaviour,
    and each leaves such a state; [etharp_input] gives back the reference it
    was handed, the others keep the callers' references. *)
Theorem arp_ops_safe {F : Frame} H cs l :
  zlen buf = 2048 -> arp_inv H cs l ->
  (exists l' cs', etharp_tmr custom_free buf l = Some l' /\ arp_inv H cs' l') /\
  (forall nif, exists l' cs', etharp_cleanup_netif custom_free nif l = Some l' /\ arp_inv H cs' l') /\
  (forall nif a hw flags v tap, tap_nif (l_x l) nif v tap -> hwaddr_ok hw ->
     exists r l' cs', etharp_update_arp_entry custom_free buf nif a hw flags l = Some (r, l') /\ arp_inv H cs' l') /\
  (forall q H' nif a v tap, H = q :: H' -> tap_nif (l_x l) nif v tap -> sendable_ref (l_heap l) cs q -> hint_ok l v ->
     exists r l' cs', etharp_output custom_free buf nif q a l = Some (r, l') /\ arp_inv H cs' l') /\
  (forall p H' nif v tap b, H = p :: H' -> tap_nif (l_x l) nif v tap -> get (l_heap l) p = Some b -> arp_readable b ->
     exists l' cs', etharp_input custom_free buf p nif l = Some l' /\ arp_inv H' cs' l').
Proof.
  intros Hbuf HI. split_and!.
  - destruct (etharp_tmr_spec custom_free buf Hbuf H cs l HI) as (evs & h' & cs' & ? & ?). eauto.
  - intros nif. destruct (etharp_cleanup_netif_spec custom_free H cs nif l HI) as (evs & h' & cs' & ? & ?). eauto.
  - intros nif a hw flags v tap Hn Hh.
    destruct (etharp_update_spec custom_free buf Hbuf H cs l nif a hw flags v tap HI Hn Hh) as (r & t & evs & h' & cs' & ? & ? & _). eauto.
  - intros q H' nif a v tap -> Hn Hs Hh.
    destruct (etharp_output_ok custom_free buf Hbuf H' cs l nif q a v tap HI Hn Hs Hh) as (r & l' & cs' & ? & ? & _). eauto.
  - intros p H' nif v tap b -> Hn Hg Hr.
    destruct (etharp_input_ok custom_free buf Hbuf H' cs l p nif v tap b HI Hn Hg Hr) as (l' & cs' & ? & ? & _). eauto.
Qed.

(** The search of the table: the entry in use for the address is returned as it
    is; without one, a search that may not create answers [ERR_MEM], and one
    that tries hard never fails: it takes the first empty slot, else the oldest
    stable entry, else the oldest pending entry without packets, else the
    oldest pending entry, whose packets are freed. *)
Theorem etharp_find_entry_policy {F : Frame} H cs l a nif :
  arp_inv H cs l ->
  (exists r h', etharp_find_entry custom_free (Some a) ETHARP_FLAG_FIND_ONLY (Some nif) l = Some (r, arp_to (l_arp l) [] h' l) /\
     ((exists i e, r = Z.of_nat i /\ l_arp l !! i = Some e /\ matches a (Some nif) e) \/
      (r = ERR_MEM /\ Forall (fun e => ~ matches a (Some nif) e) (l_arp l)))) /\
  (exists i e t' h', etharp_find_entry custom_free (Some a) ETHARP_FLAG_TRY_HARD (Some nif) l = Some (Z.of_nat i, arp_to t' [] h' l) /\
     l_arp l !! i = Some e /\
     ((matches a (Some nif) e /\ t' = l_arp l) \/
      (Forall (fun e => ~ matches a (Some nif) e) (l_arp l) /\ victim (l_arp l) i /\
       t' = <[i := prepared a (Some nif) e]> (l_arp l)))).
Proof.
  intros HI. split.
  - destruct (etharp_find_entry_spec custom_free H cs l a nif ETHARP_FLAG_FIND_ONLY HI) as (r & t' & h' & cs' & -> & Hf & _).
    destruct Hf as [(i & e & -> & -> & He & Hm)|[(Hn & -> & -> & _)|(_ & Hx & _)]]; [..|done].
    + do 2 eexists; split; [done|]. left; eauto.
    + do 2 eexists; split; [done|]. by right.
  - destruct (etharp_find_entry_spec custom_free H cs l a nif ETHARP_FLAG_TRY_HARD HI) as (r & t' & h' & cs' & -> & Hf & _).
    destruct Hf as [(i & e & -> & -> & He & Hm)|[(_ & _ & _ & [Hx|Hx])|(Hn & _ & i & e & -> & He & Hv & ->)]]; [|done|done|].
    + exists i, e. do 2 eexists; split; [done|]. auto.
    + exists i, e. do 2 eexists; split; [done|]. auto.
Qed.

(** Looking an address up does not change anything, and finds the entry that
    resolves it. *)
Lemma find_addr_resolves l nif a i e :
  table_ok (l_arp l) -> l_arp l !! i = Some e -> resolves nif a e ->
  etharp_find_addr custom_free (Some nif) a l = Some (Z.of_nat i, Some (e_ethaddr e, a), l).
Proof.
  intros Ht Hi Hr. pose proof Ht as [Hlen Hok Hu]. unfold etharp_find_addr, etharp_find_entry.
  pose proof (find_sweep_ok a (Some nif) (l_arp l) [] cand_init) as HS. change (zlen []) with 0 in HS.
  specialize (HS ltac:(cbn; lia) Hok cands_init). cbn [app] in HS.
  pose proof (resolves_live _ _ _ Hr) as Hl. destruct Hr as (Hst & Hn & Ha).
  destruct (find_sweep _ _ _ _ _) as [k|c].
  - destruct HS as (e' & Hk & He' & Hl' & Ha' & Hn'). cbn [mbind option_bind].
    assert (Z.to_nat k = i) as Ei.
    { eapply Hu; [exact He'|exact Hi|done|done|]. unfold key. by rewrite Ha, Ha', Hn, Hn'. }
    destruct (Z.leb_spec 0 k); [|lia]. unfold arp_at. rewrite Ei, Hi; cbn [mbind option_bind].
    unfold is_stable in Hst. destruct (Z.leb_spec ETHARP_STATE_STABLE (e_state e)); [|lia]. rewrite Ha. do 4 f_equal. lia.
  - exfalso. destruct HS as [_ HS]. rewrite Forall_lookup in HS. by apply (HS i e Hi).
Qed.

(** C7. Learning an address: a unicast address gets an entry, whatever the table
    holds; [etharp_find_addr] then finds the hardware address; no other slot
    changes, and the slot used is the address's own or the one the recycling
    policy gives up; the packets that waited for the address leave at once, in
    the order they were queued, to the new hardware address. *)
Theorem etharp_update_resolves {F : Frame} H cs l nif a hw v tap :
  zlen buf = 2048 -> arp_inv H cs l -> tap_nif (l_x l) nif v tap -> hwaddr_ok hw -> unicast a v = true ->
  exists i e evs l',
    etharp_update_arp_entry custom_free buf nif a hw ETHARP_FLAG_TRY_HARD l = Some (ERR_OK, l') /\
    etharp_find_addr custom_free (Some nif) a l' = Some (Z.of_nat i, Some (hw, a), l') /\
    (forall j, j <> i -> l_arp l' !! j = l_arp l !! j) /\ l_arp l !! i = Some e /\
    x_out (l_x l') = x_out (l_x l) ++ evs /\
    ((matches a (Some nif) e /\
      (NoDup (e_q e) -> evs = queue_frames (l_x l) tap (nif_hwaddr v) hw cs (e_q e))) \/
     (Forall (fun e => ~ matches a (Some nif) e) (l_arp l) /\ victim (l_arp l) i /\ evs = [])).
Proof.
  intros Hbuf HI Hnif Hhw Hu.
  destruct (etharp_update_spec custom_free buf Hbuf H cs l nif a hw ETHARP_FLAG_TRY_HARD v tap HI Hnif Hhw)
    as (r & t' & evs & h' & cs' & E & HI' & _ & Hd). rewrite E.
  destruct Hd as [(? & _)|[(_ & Hf & _)|(_ & -> & i & t1 & e & Hf & He & -> & Hev)]]; [congruence| |].
  { destruct (found_err _ _ _ _ _ _ Hf) as (_ & _ & _ & [Hx|Hx]); done. }
  destruct (found_slot _ _ _ _ _ _ (inv_table _ _ _ HI) Hf ltac:(lia)) as (e0 & He0 & Ha & Hne & _).
  rewrite Nat2Z.id in He0. assert (e0 = e) as -> by congruence.
  assert (Hlt : (i < length t1)%nat) by by eapply lookup_lt_Some.
  assert (Hfind : etharp_find_addr custom_free (Some nif) a (arp_to (<[i:=resolved nif hw e]> t1) evs h' l) =
    Some (Z.of_nat i, Some (hw, a), arp_to (<[i:=resolved nif hw e]> t1) evs h' l)).
  { apply (find_addr_resolves _ nif a i (resolved nif hw e)); [apply HI'|by apply list_lookup_insert_eq|].
    split_and!; [|done|done]. unfold is_stable; done. }
  destruct Hf as [(i1 & e1 & Ei & -> & He1 & Hm)|[(_ & Ex & _)|(Hnm & _ & i1 & e1 & Ei & He1 & Hvic & ->)]]; [|unfold ERR_MEM in Ex; lia|];
    apply Nat2Z.inj in Ei; subst i1.
  - assert (e1 = e) as -> by congruence. exists i, e, evs. eexists. split; [done|]. split; [done|].
    split; [intros j Hj; by apply list_lookup_insert_ne|]. split; [done|]. split; [done|]. by left.
  - rewrite length_insert in Hlt. rewrite list_lookup_insert_eq in He by done. injection He as He.
    exists i, e1, []. eexists. split; [done|]. split; [done|]. split.
    { intros j Hj. cbn. by rewrite !list_lookup_insert_ne. }
    assert (Hq : e_q e = []) by by rewrite <- He. rewrite Hq in Hev. specialize (Hev (NoDup_nil_2)).
    split; [done|]. split; [cbn; by rewrite Hev|]. by right.
Qed.

(** ** Time *)
Fixpoint ticks (n : nat) (l : lstate) : option lstate :=
  match n with O => Some l | S n => l ← etharp_tmr custom_free buf l; ticks n l end.

(** How many seconds an entry may wait for an answer, or stay without news. *)
Definition lifetime (e : etharp_entry) : Z :=
  if e_state e =? ETHARP_STATE_PENDING then ARP_MAXPENDING else ARP_MAXAGE.

Lemma tick_ages e : live e -> e_ctime e + 1 < lifetime e ->
  live (tick e) /\ key (tick e) = key e /\ e_ctime (tick e) = e_ctime e + 1 /\ lifetime (tick e) = lifetime e /\
  e_ethaddr (tick e) = e_ethaddr e /\ e_q (tick e) = e_q e.
Proof.
  unfold live, lifetime, tick. intros Hl Hc. destruct (Z.eqb_spec (e_state e) ETHARP_STATE_EMPTY) as [|_]; [done|].
  cbn [set_ctime e_ctime e_state]. destruct (_ || _) eqn:E.
  { exfalso. revert E Hc. destruct (_ =? ETHARP_STATE_PENDING); rewrite orb_true_iff, ?andb_true_iff, !Z.leb_le;
      unfold ARP_MAXPENDING, ARP_MAXAGE; intros [?|[? ?]]; lia || done. }
  destruct (Z.eqb_spec (e_state e) ETHARP_STATE_STABLE_REREQUESTING_1) as [->|]; [done|].
  destruct (Z.eqb_spec (e_state e) ETHARP_STATE_STABLE_REREQUESTING_2) as [->|]; done.
Qed.

Lemma tick_dies e : ~ (live e /\ e_ctime e + 1 < lifetime e) -> is_empty (tick e).
Proof.
  unfold live, lifetime, is_empty, tick. intros Hn. destruct (Z.eqb_spec (e_state e) ETHARP_STATE_EMPTY) as [|Hne]; [done|].
  cbn [set_ctime e_ctime e_state]. destruct (_ || _) eqn:E; [done|]. exfalso. apply Hn. split; [done|].
  apply orb_false_iff in E as [E1%Z.leb_gt E2]. destruct (_ =? ETHARP_STATE_PENDING); [by apply Z.leb_gt in E2|done].
Qed.

(** What [n] seconds do to an entry. *)
Definition aged (n : nat) (e e' : etharp_entry) : Prop :=
  (live e' <-> live e /\ e_ctime e + Z.of_nat n < lifetime e) /\
  (live e' -> key e' = key e /\ e_ctime e' = e_ctime e + Z.of_nat n /\ e_ethaddr e' = e_ethaddr e /\ e_q e' = e_q e).

Lemma aged_0 e : entry_ok e -> aged 0 e e.
Proof.
  intros [_ _ _ [_ H3] H5 _]. split; [|intros; split_and!; try done; lia]. split; [|tauto]. intros Hl. split; [done|].
  specialize (H3 Hl). unfold lifetime. destruct (Z.eqb_spec (e_state e) ETHARP_STATE_PENDING) as [Hp|]; [specialize (H5 Hp)|]; lia.
Qed.

Lemma aged_S n e e' : 0 <= e_ctime e -> aged n (tick e) e' -> aged (S n) e e'.
Proof.
  intros H0 [Hi Hk]. destruct (decide (live e /\ e_ctime e + 1 < lifetime e)) as [[Hl Hc]|Hn].
  - destruct (tick_ages e Hl Hc) as (Hl' & Ek & Ec & Et & Ea & Eq). rewrite Ec, Et in Hi. rewrite Ek, Ec, Ea, Eq in Hk. split.
    + rewrite Hi. split; intros [_ ?]; (split; [done|lia]).
    + intros Hle. destruct (Hk Hle) as (? & ? & ? & ?). split_and!; try done. lia.
  - pose proof (tick_dies e Hn) as He. assert (Hd : ~ live e') by (rewrite Hi; by intros [[] _]). split; [|done].
    split; [done|]. intros [Hl Hc]. destruct Hn. split; [done|lia].
Qed.

Lemma ticks_spec {F : Frame} H n : zlen buf = 2048 -> forall cs l, arp_inv H cs l ->
  exists l' cs', ticks n l = Some l' /\ arp_inv H cs' l' /\
    forall i e e', l_arp l !! i = Some e -> l_arp l' !! i = Some e' -> aged n e e'.
Proof.
  intros Hbuf. induction n as [|n IH]; intros cs l HI; cbn [ticks].
  - exists l, cs. split; [done|]. split; [done|]. intros i e e' He He'. simplify_eq. apply aged_0. by eapply inv_entry.
  - destruct (etharp_tmr_spec custom_free buf Hbuf H cs l HI) as (evs & h' & cs1 & -> & HI1). cbn [mbind option_bind].
    destruct (IH cs1 _ HI1) as (l' & cs' & -> & HI' & Hage). exists l', cs'. split; [done|]. split; [done|].
    intros i e e' He He'. pose proof (inv_entry _ _ _ _ _ HI He) as [_ _ _ [H0 _] _ _]. apply aged_S; [done|].
    apply (Hage i); [cbn; by rewrite list_lookup_fmap, He|done].
Qed.

(** C9. How long entries live: the timer never fails, and after [n] seconds
    without traffic an entry stands exactly if its age has not reached the limit, 5
    seconds while it waits for an answer and 300 otherwise, and is then the
    same entry, [n] seconds older, with its packets.  The references stay
    exact: the packets of an entry that went are freed, and after 300 seconds
    the table is empty and no pbuf is left of it, only what the callers hold
    and what belongs to others. *)
Theorem arp_entry_lifetime {F : Frame} H cs l n :
  zlen buf = 2048 -> arp_inv H cs l ->
  exists l' cs', ticks n l = Some l' /\ arp_inv H cs' l' /\
    (forall i e e', l_arp l !! i = Some e -> l_arp l' !! i = Some e' -> aged n e e') /\
    ((300 <= n)%nat -> Forall is_empty (l_arp l') /\
       forall a, is_Some (get (l_heap l') a) -> is_Some (frame !! a) \/ exists p, p ∈ H /\ a ∈ fst <$> cs' p).
Proof.
  intros Hbuf HI. destruct (ticks_spec H n Hbuf cs l HI) as (l' & cs' & E & HI' & Hage).
  exists l', cs'. split; [done|]. split; [done|]. split; [done|]. intros Hn.
  assert (Hlen : length (l_arp l') = length (l_arp l)).
  { by rewrite (tab_len _ (inv_table _ _ _ HI)), (tab_len _ (inv_table _ _ _ HI')). }
  assert (Hall : Forall is_empty (l_arp l')).
  { apply Forall_lookup. intros i e' He'. destruct (Z.eq_dec (e_state e') ETHARP_STATE_EMPTY) as [|Hl]; [done|exfalso].
    destruct (lookup_lt_is_Some_2 (l_arp l) i) as [e He]; [rewrite <- Hlen; by eapply lookup_lt_Some|].
    destruct (Hage i e e' He He') as [[Hlt _] _]. destruct (Hlt Hl) as [_ Hc].
    pose proof (inv_entry _ _ _ _ _ HI He) as [_ _ _ [H0 _] _ _]. unfold lifetime, ARP_MAXPENDING, ARP_MAXAGE in Hc. destruct (_ =? _); lia. }
  split; [done|]. assert (Hq : queued (l_arp l') = []).
  { unfold queued. rewrite (proj2 (concat_nil_Forall _)); [done|].
    apply Forall_fmap. pose proof (tab_entries _ (inv_table _ _ _ HI')) as Hok.
    eapply Forall_impl; [exact (proj2 (Forall_and _ _) (conj Hall Hok))|]. cbn beta. intros e [Hemp Hok'].
    destruct (e_q e) eqn:Eq; [done|]. pose proof (ent_queue_pending _ Hok' ltac:(by rewrite Eq)) as Hp.
    unfold is_empty in Hemp. rewrite Hemp in Hp. done. }
  intros a Ha. pose proof (owned_all _ _ _ (inv_owned _ _ _ HI') a Ha) as Hx. by rewrite Hq, app_nil_r in Hx.
Qed.

(** C8. Where an IP packet goes: broadcasts to the Ethernet broadcast address,
    multicasts to the group's address, other destinations to their next hop
    (the destination itself on the local network, else the gateway, else
    [ERR_RTE]); through the entry that resolves the next hop if there is one,
    whichever way it is found, otherwise left to a query, which asks for a new
    address and keeps the newest three packets on its entry. *)
Theorem etharp_output_spec {F : Frame} H cs l nif q a v tap :
  zlen buf = 2048 -> arp_inv (q :: H) cs l -> tap_nif (l_x l) nif v tap -> sendable_ref (l_heap l) cs q -> hint_ok l v ->
  exists r l' cs', etharp_output custom_free buf nif q a l = Some (r, l') /\ arp_inv (q :: H) cs' l' /\
    output_outcome H cs nif a q v tap l r l'.
Proof. intros Hbuf HI Hnif Hs Hh. by apply etharp_output_ok. Qed.

(** What [etharp_input] does on a header that is addressed to us. *)
Lemma arp_input_learns {F : Frame} H cs l p nif v tap b op a hw :
  zlen buf = 2048 -> arp_inv (p :: H) cs l -> tap_nif (l_x l) nif v tap -> get (l_heap l) p = Some b ->
  arp_readable b -> arp_hdr_valid b = Some true -> arp_hdr_read b = Some (ArpHdr (PP_HTONS op) hw a (nif_ip_addr v)) ->
  0 < nif_ip_addr v -> unicast a v = true -> a <> nif_ip_addr v ->
  exists l' cs' i e evs reply, etharp_input custom_free buf p nif l = Some l' /\ arp_inv H cs' l' /\
    etharp_find_addr custom_free (Some nif) a l' = Some (Z.of_nat i, Some (hw, a), l') /\
    l_arp l !! i = Some e /\ x_out (l_x l') = x_out (l_x l) ++ evs ++ reply /\
    (matches a (Some nif) e -> NoDup (e_q e) -> evs = queue_frames (l_x l) tap (nif_hwaddr v) hw cs (e_q e)) /\
    (op = ARP_REPLY -> reply = []) /\
    (op = ARP_REQUEST -> g_node (l_x l) = true -> (exists c o, h_orc (l_heap l) = Some c :: o) ->
     reply = [frame_of tap (nif_hwaddr v) hw ETHTYPE_ARP
                (etharp_hdr_bytes (nif_hwaddr v) (nif_ip_addr v) hw a ARP_REPLY)]).
Proof.
  intros Hbuf HI Hnif Hg Hr Hval Hread Hip Hu Hne.
  destruct (etharp_input_ok custom_free buf Hbuf H cs l p nif v tap b HI Hnif Hg Hr) as (l' & cs' & E & HI' & Hd).
  destruct Hd as [(? & _)|(_ & hdr & evs & reply & Hh & Hlearn & Hx & Hrep & Hsent)]; [congruence|].
  rewrite Hread in Hh. injection Hh as <-. set (hdr := ArpHdr _ hw a _) in *.
  assert (Hfu : for_us v hdr = true).
  { unfold for_us. cbn. rewrite Z.eqb_refl. destruct (Z.eqb_spec (nif_ip_addr v) IPADDR_ANY) as [Ez|]; [|done].
    unfold IPADDR_ANY in Ez. lia. }
  assert (Hfr : from_us v hdr = false) by (unfold from_us; cbn; destruct (Z.eqb_spec a (nif_ip_addr v)); [done|by rewrite andb_false_r]).
  assert (Hans : answers v hdr = (PP_HTONS op =? PP_HTONS ARP_REQUEST)) by (unfold answers; rewrite Hfu, Hfr; by rewrite andb_true_r).
  unfold learned in Hlearn. cbn [ah_sipaddr ah_shwaddr hdr] in Hlearn. unfold arp_flags in Hlearn. rewrite Hfu in Hlearn.
  destruct Hlearn as [(? & _)|[(_ & Hf & _)|(_ & i & t1 & e & Hf & He & Et & Hev)]]; [congruence| |].
  { destruct (found_err _ _ _ _ _ _ Hf) as (_ & _ & _ & [Hz|Hz]); done. }
  destruct (found_slot _ _ _ _ _ _ (inv_table _ _ _ HI) Hf ltac:(lia)) as (e0 & He0 & Ea & Hnn & _).
  rewrite Nat2Z.id in He0. assert (e0 = e) as -> by congruence. clear He0.
  assert (Hlt : (i < length t1)%nat) by by eapply lookup_lt_Some.
  assert (He0 : exists e0, l_arp l !! i = Some e0 /\ (matches a (Some nif) e0 -> e0 = e)).
  { destruct Hf as [(i1 & e1 & Ei & -> & He1 & _)|[(_ & Ex & _)|(Hnm & _ & i1 & e1 & Ei & He1 & _ & ->)]]; [|unfold ERR_MEM in Ex; lia|];
      apply Nat2Z.inj in Ei; subst i1; exists e1; (split; [done|]).
    - intros _. congruence.
    - intros Hm. rewrite Forall_lookup in Hnm. by destruct (Hnm i e1 He1). }
  destruct He0 as (e0 & He0 & Hsame). exists l', cs', i, e0, evs, reply.
  split; [done|]. split; [done|]. split.
  { apply (find_addr_resolves _ nif a i (resolved nif hw e)); [apply HI'|rewrite Et; by apply list_lookup_insert_eq|].
    split_and!; [|done|done]. unfold is_stable; done. }
  split; [done|]. split; [done|]. split; [intros Hm Hnd; rewrite (Hsame Hm) in *; by apply Hev|]. split.
  - intros ->. destruct Hrep as [->|[Hc _]]; [done|]. rewrite Hans in Hc. done.
  - intros -> Hnode Horc. apply (Hsent ltac:(by rewrite Hans) Hnode Horc).
Qed.

(** An ARP request or reply addressed to us, as [etharp_raw] of the peer writes
    it, resolves the peer: its hardware address is found afterwards, the
    packets that waited for it leave in order, and a request is answered with
    our hardware address (when there is memory for the answer); a reply is not
    answered. *)
Theorem arp_input_for_us {F : Frame} H cs l p nif v tap b op a hw dhw rest :
  zlen buf = 2048 -> arp_inv (p :: H) cs l -> tap_nif (l_x l) nif v tap -> get (l_heap l) p = Some b ->
  pb_ok b -> bytes_ok (pb_mem b) -> op = ARP_REQUEST \/ op = ARP_REPLY ->
  pb_bytes b = etharp_hdr_bytes hw a dhw (nif_ip_addr v) op ++ rest -> hwaddr_ok hw -> zlen dhw = 6 ->
  0 <= a < 2 ^ 32 -> 0 < nif_ip_addr v < 2 ^ 32 -> unicast a v = true -> a <> nif_ip_addr v ->
  exists l' cs' i e evs reply, etharp_input custom_free buf p nif l = Some l' /\ arp_inv H cs' l' /\
    etharp_find_addr custom_free (Some nif) a l' = Some (Z.of_nat i, Some (hw, a), l') /\
    l_arp l !! i = Some e /\ x_out (l_x l') = x_out (l_x l) ++ evs ++ reply /\
    (matches a (Some nif) e -> NoDup (e_q e) -> evs = queue_frames (l_x l) tap (nif_hwaddr v) hw cs (e_q e)) /\
    (op = ARP_REPLY -> reply = []) /\
    (op = ARP_REQUEST -> g_node (l_x l) = true -> (exists c o, h_orc (l_heap l) = Some c :: o) ->
     reply = [frame_of tap (nif_hwaddr v) hw ETHTYPE_ARP
                (etharp_hdr_bytes (nif_hwaddr v) (nif_ip_addr v) hw a ARP_REPLY)]).
Proof.
  intros Hbuf HI Hnif Hg Hok Hbm Hop Hby Hhw Hdh Ha Hip Hu Hne.
  destruct (arp_hdr_parse b hw a dhw (nif_ip_addr v) op rest Hok Hby (proj1 Hhw) Hdh Ha ltac:(lia)) as [Hval Hread].
  assert (Hlen : 28 <= pb_len b).
  { rewrite <- pb_bytes_len, Hby, zlen_app, etharp_hdr_len by (done || apply Hhw). pose proof (zlen_nonneg rest). lia. }
  assert (Hr : arp_readable b) by (destruct Hok as (? & ? & ? & ?); split_and!; try done; unfold SIZEOF_ETHARP_HDR; lia).
  eapply arp_input_learns; eauto; lia.
Qed.

(** The length of the packet is not looked at: a packet shorter than the ARP
    header, with nothing of it received but its first byte for instance, is
    completed with whatever the buffer held behind it; when that is an ARP
    reply of an earlier frame, its sender's address is learned again. *)
Theorem arp_short_packet_learned {F : Frame} H cs l p nif v tap b a hw dhw :
  zlen buf = 2048 -> arp_inv (p :: H) cs l -> tap_nif (l_x l) nif v tap -> get (l_heap l) p = Some b ->
  pb_ok b -> bytes_ok (pb_mem b) -> pb_len b < SIZEOF_ETHARP_HDR ->
  ztake SIZEOF_ETHARP_HDR (zdrop (pb_payload b) (pb_mem b)) = etharp_hdr_bytes hw a dhw (nif_ip_addr v) ARP_REPLY ->
  hwaddr_ok hw -> zlen dhw = 6 -> 0 <= a < 2 ^ 32 -> 0 < nif_ip_addr v < 2 ^ 32 -> unicast a v = true -> a <> nif_ip_addr v ->
  exists l' cs' i, etharp_input custom_free buf p nif l = Some l' /\ arp_inv H cs' l' /\
    etharp_find_addr custom_free (Some nif) a l' = Some (Z.of_nat i, Some (hw, a), l').
Proof.
  intros Hbuf HI Hnif Hg Hok Hbm _ Hby Hhw Hdh Ha Hip Hu Hne. destruct Hok as (Hl0 & Hp0 & Hm & Ht).
  assert (Hfit : pb_payload b + SIZEOF_ETHARP_HDR <= zlen (pb_mem b)).
  { pose proof (etharp_hdr_len hw a dhw (nif_ip_addr v) ARP_REPLY (proj1 Hhw) Hdh) as Hz. rewrite <- Hby in Hz.
    unfold SIZEOF_ETHARP_HDR in *. rewrite zlen_ztake_gen, zlen_zdrop in Hz. lia. }
  set (b' := set_payload (pb_payload b) SIZEOF_ETHARP_HDR SIZEOF_ETHARP_HDR b).
  assert (Hok' : pb_ok b') by (subst b'; repeat split; cbn; unfold SIZEOF_ETHARP_HDR in *; try done; lia).
  destruct (arp_hdr_parse b' hw a dhw (nif_ip_addr v) ARP_REPLY [] Hok') as [Hval Hread];
    [by rewrite app_nil_r|apply Hhw|done|done|lia|].
  destruct (arp_input_learns H cs l p nif v tap b ARP_REPLY a hw) as (l' & cs' & i & e & evs & rp & E & HI' & Hf & _);
    try done; [apply Hip|by eauto 6].
Qed.

(** Forgetting an interface: afterwards no entry in use names it, the entries
    of other interfaces are untouched, and the packets that waited on the
    removed ones are freed (none is left queued for the interface). *)
Theorem etharp_cleanup_forgets {F : Frame} H cs l nif :
  arp_inv H cs l ->
  exists l' cs', etharp_cleanup_netif custom_free nif l = Some l' /\ arp_inv H cs' l' /\
    (forall i e, l_arp l' !! i = Some e -> e_netif e = Some nif -> is_empty e /\ e_q e = []) /\
    (forall i e, l_arp l !! i = Some e -> e_netif e <> Some nif -> l_arp l' !! i = Some e) /\
    (forall n v tap, tap_nif (l_x l) n v tap -> tap_nif (l_x l') n v tap).
Proof.
  intros HI. destruct (etharp_cleanup_netif_spec custom_free H cs nif l HI) as (evs & h' & cs' & E & HI').
  eexists _, cs'. split; [exact E|]. split; [done|]. split_and!.
  - intros i e He Hn. assert (Hemp : is_empty e).
    { cbn in He. rewrite list_lookup_fmap in He. destruct (l_arp l !! i) as [e0|]; [|done]. injection He as <-.
      unfold forget in *. destruct (negb _ && _) eqn:Ec; [done|]. apply andb_false_iff in Ec as [Ec|Ec].
      - by apply negb_false_iff, Z.eqb_eq in Ec.
      - apply bool_decide_eq_false in Ec. done. }
    split; [done|]. pose proof (inv_entry _ _ _ _ _ HI' He) as [_ _ Hq _ _ _].
    destruct (e_q e); [done|]. specialize (Hq ltac:(done)). unfold is_empty in Hemp. rewrite Hemp in Hq. done.
  - intros i e He Hn. cbn. rewrite list_lookup_fmap, He. cbn. unfold forget.
    rewrite bool_decide_eq_false_2 by done. by rewrite andb_false_r.
  - done.
Qed.

End claims.

(** ** Witnesses *)
Lemma exa_hint_ok b : hint_ok (exa_l_of b) exa_nif.
Proof. by intros p Hp. Qed.

Lemma arp_ops_safe_witness :
  exists r l' cs', etharp_output exa_free exa_buf 1 1%positive exa_peer exa_l = Some (r, l') /\ arp_inv [1%positive] cs' l'.
Proof.
  pose proof (arp_ops_safe exa_free exa_buf [1%positive] exa_cs exa_l eq_refl exa_inv) as (_ & _ & _ & Ho & _).
  exact (Ho 1%positive [] 1 exa_peer exa_nif exa_tap eq_refl (exa_nif_ok _) exa_sendable (exa_hint_ok _)).
Defined.

Lemma etharp_find_entry_policy_witness :
  exists i e t' h', etharp_find_entry exa_free (Some exa_peer) ETHARP_FLAG_TRY_HARD (Some 1) (exa_with 2 []) =
      Some (Z.of_nat i, arp_to t' [] h' (exa_with 2 [])) /\
    l_arp (exa_with 2 []) !! i = Some e /\
    ((matches exa_peer (Some 1) e /\ t' = l_arp (exa_with 2 [])) \/
     (Forall (fun e => ~ matches exa_peer (Some 1) e) (l_arp (exa_with 2 [])) /\ victim (l_arp (exa_with 2 [])) i /\
      t' = <[i := prepared exa_peer (Some 1) e]> (l_arp (exa_with 2 [])))).
Proof.
  refine (proj2 (etharp_find_entry_policy exa_free [1%positive] exa_cs (exa_with 2 []) exa_peer 1 _)).
  apply exa_with_inv; [lia|cbn; lia|done|done].
Defined.

Lemma etharp_update_resolves_witness :
  exists i e evs l',
    etharp_update_arp_entry exa_free exa_buf 1 exa_peer exa_hw ETHARP_FLAG_TRY_HARD (exa_with 1 [1%positive]) = Some (ERR_OK, l') /\
    etharp_find_addr exa_free (Some 1) exa_peer l' = Some (Z.of_nat i, Some (exa_hw, exa_peer), l') /\
    (forall j, j <> i -> l_arp l' !! j = l_arp (exa_with 1 [1%positive]) !! j) /\
    l_arp (exa_with 1 [1%positive]) !! i = Some e /\
    x_out (l_x l') = x_out (l_x (exa_with 1 [1%positive])) ++ evs /\
    ((matches exa_peer (Some 1) e /\
      (NoDup (e_q e) -> evs = queue_frames (l_x (exa_with 1 [1%positive])) exa_tap (nif_hwaddr exa_nif) exa_hw exa_cs (e_q e))) \/
     (Forall (fun e => ~ matches exa_peer (Some 1) e) (l_arp (exa_with 1 [1%positive])) /\
      victim (l_arp (exa_with 1 [1%positive])) i /\ evs = [])).
Proof.
  apply (etharp_update_resolves exa_free exa_buf [] exa_cs (exa_with 1 [1%positive]) 1 exa_peer exa_hw exa_nif exa_tap);
    [reflexivity| |exact (exa_nif_ok _)|exact exa_hw_ok|reflexivity].
  apply exa_with_inv; [lia|cbn; lia|done|done].
Defined.

Lemma arp_entry_lifetime_witness :
  (exists l' cs', ticks exa_free exa_buf 4 (exa_with 1 [1%positive]) = Some l' /\ arp_inv [] cs' l' /\
     exists e', l_arp l' !! 0%nat = Some e' /\ live e' /\ e_q e' = [1%positive]) /\
  (exists l', ticks exa_free exa_buf 300 (exa_with 1 [1%positive]) = Some l' /\ Forall is_empty (l_arp l') /\
     forall a, get (l_heap l') a = None).
Proof.
  pose proof (exa_with_inv 1 [1%positive] [] ltac:(lia) ltac:(cbn; lia) ltac:(done) ltac:(done)) as HI0. split.
  - destruct (arp_entry_lifetime exa_free exa_buf [] exa_cs _ 4 eq_refl HI0) as (l' & cs' & E & HI & Hage & _).
    exists l', cs'. split; [exact E|]. split; [exact HI|].
    destruct (lookup_lt_is_Some_2 (l_arp l') 0) as [e' He']; [rewrite (tab_len _ (inv_table _ _ _ HI)); vm_compute; lia|].
    destruct (Hage 0%nat (exa_entry 1 [1%positive]) e' eq_refl He') as [Hl Hk].
    assert (Hlive : live e') by (apply Hl; split; [done|by vm_compute]).
    exists e'. split; [done|]. split; [done|]. apply (Hk Hlive).
  - destruct (arp_entry_lifetime exa_free exa_buf [] exa_cs _ 300 eq_refl HI0) as (l' & cs' & E & HI & _ & Hn).
    exists l'. split; [exact E|]. destruct (Hn ltac:(lia)) as [Hemp Hgone]. split; [done|]. intros a.
    destruct (get (l_heap l') a) eqn:Ea; [|reflexivity]. exfalso. clear E. destruct (Hgone a (ex_intro _ _ Ea)) as [Hx|(q & Hp & _)].
    + exact (no_frame_none _ Hx).
    + exact (not_elem_of_nil _ Hp).
Defined.

Lemma etharp_output_spec_witness :
  exists r l' cs', etharp_output exa_free exa_buf 1 1%positive exa_peer (exa_with 2 []) = Some (r, l') /\
    arp_inv [1%positive] cs' l' /\ output_outcome [] exa_cs 1 exa_peer 1%positive exa_nif exa_tap (exa_with 2 []) r l'.
Proof.
  apply (etharp_output_spec exa_free exa_buf); [reflexivity| |exact (exa_nif_ok _)|exact exa_sendable|exact (exa_hint_ok _)].
  apply exa_with_inv; [lia|cbn; lia|done|done].
Defined.

Lemma arp_input_for_us_witness :
  exists l' cs' i e evs reply, etharp_input exa_free exa_buf 1%positive 1 (exa_l_of (exa_arp 14)) = Some l' /\ arp_inv [] cs' l' /\
    etharp_find_addr exa_free (Some 1) exa_peer l' = Some (Z.of_nat i, Some (exa_hw, exa_peer), l') /\
    l_arp (exa_l_of (exa_arp 14)) !! i = Some e /\ x_out (l_x l') = evs ++ reply /\
    reply = [frame_of exa_tap (nif_hwaddr exa_nif) exa_hw ETHTYPE_ARP
               (etharp_hdr_bytes (nif_hwaddr exa_nif) (nif_ip_addr exa_nif) exa_hw exa_peer ARP_REPLY)].
Proof.
  destruct (arp_input_for_us exa_free exa_buf [] (exa_cs_of (exa_arp 14)) (exa_l_of (exa_arp 14)) 1%positive 1 exa_nif exa_tap
    (exa_arp 14) ARP_REQUEST exa_peer exa_hw ethzero [] eq_refl (exa_inv_of _ (exa_arp_good 14 ltac:(lia))) (exa_nif_ok _) eq_refl
    (proj1 (exa_arp_good 14 ltac:(lia))) exa_arp_bytes (or_introl eq_refl) ltac:(vm_compute; reflexivity) exa_hw_ok eq_refl)
    as (l' & cs' & i & e & evs & reply & E & HI & Hf & He & Hx & _ & _ & Hr);
    [unfold exa_peer; lia|split; reflexivity|reflexivity|discriminate|].
  exists l', cs', i, e, evs, reply. split; [exact E|]. split; [exact HI|]. split; [exact Hf|]. split; [exact He|]. split; [exact Hx|].
  apply Hr; [reflexivity|reflexivity|]. by do 2 eexists.
Defined.

Lemma etharp_cleanup_forgets_witness :
  exists l' cs', etharp_cleanup_netif exa_free 1 (exa_with 1 [1%positive]) = Some l' /\ arp_inv [] cs' l' /\
    (forall i e, l_arp l' !! i = Some e -> e_netif e = Some 1 -> is_empty e /\ e_q e = []) /\
    (forall i e, l_arp (exa_with 1 [1%positive]) !! i = Some e -> e_netif e <> Some 1 -> l_arp l' !! i = Some e) /\
    (forall n v tap, tap_nif (l_x (exa_with 1 [1%positive])) n v tap -> tap_nif (l_x l') n v tap).
Proof.
  apply (etharp_cleanup_forgets exa_free [] exa_cs). apply exa_with_inv; [lia|cbn; lia|done|done].
Defined.

(** One byte of an ARP frame, in a buffer where an earlier reply of the peer is
    still found. *)
Definition exa_stale : pbuf :=
  Pbuf None (replicate 16 0 ++ etharp_hdr_bytes exa_hw exa_peer [2; 0; 0; 0; 0; 1] 0x0100000a ARP_REPLY) 16 1 1 0x80 0 1 0.

Lemma arp_short_packet_learned_witness :
  exists l' cs' i, etharp_input exa_free exa_buf 1%positive 1 (exa_l_of exa_stale) = Some l' /\ arp_inv [] cs' l' /\
    etharp_find_addr exa_free (Some 1) exa_peer l' = Some (Z.of_nat i, Some (exa_hw, exa_peer), l').
Proof.
  assert (Hg : exa_good exa_stale) by (repeat split; cbn; try lia; [unfold zlen; cbn; lia|by left]).
  apply (arp_short_packet_learned exa_free exa_buf [] (exa_cs_of exa_stale) (exa_l_of exa_stale) 1%positive 1 exa_nif exa_tap
    exa_stale exa_peer exa_hw [2; 0; 0; 0; 0; 1]); try reflexivity; try (split; reflexivity); try discriminate.
  - exact (exa_inv_of _ Hg).
  - exact (exa_nif_ok _).
  - exact (proj1 Hg).
  - apply (bool_decide_unpack _). vm_compute. exact I.
  - exact exa_hw_ok.
  - split; [discriminate|reflexivity].
Defined.
