(* ===== verification/EtharpNet.v ===== *)
(** The link layer only changes pbufs, the ARP table and its hints, and emits
    frames: the interfaces, the taps and the rest of the globals stay. *)
From S2P Require Import Prelude Bits Def IpAddr Pbuf PbufData NetifRec Netif XnetTap Ethernet Ip4Addr Etharp.

Definition xsame (x x' : xstate) : Prop := exists h evs, x' = out evs (set_heap h x).

#[export] Instance xsame_refl : Reflexive xsame.
Proof. intros x. exists (x_heap x), []. destruct x; unfold out, set_heap; cbn. by rewrite app_nil_r. Qed.

#[export] Instance xsame_trans : Transitive xsame.
Proof.
  intros x y z (h & e & ->) (h' & e' & ->). exists h', (e ++ e'). unfold out, set_heap; cbn. by rewrite app_assoc.
Qed.

(** Hints stay valid. *)
Definition hints_le (m m' : gmap Z Z) : Prop :=
  forall p c, m !! p = Some c -> 0 <= c -> exists c', m' !! p = Some c' /\ 0 <= c'.

#[export] Instance hints_le_refl : Reflexive hints_le.
Proof. intros m p c; eauto. Qed.

#[export] Instance hints_le_trans : Transitive hints_le.
Proof. intros m1 m2 m3 H1 H2 p c Hp Hc. destruct (H1 p c Hp Hc) as (c' & ? & ?). eauto. Qed.

Definition lsame (l l' : lstate) : Prop := xsame (l_x l) (l_x l') /\ hints_le (l_hints l) (l_hints l').

#[export] Instance lsame_refl : Reflexive lsame.
Proof. intros l. split; reflexivity. Qed.

#[export] Instance lsame_trans : Transitive lsame.
Proof. intros l1 l2 l3 [] []. split; etransitivity; eauto. Qed.

Lemma lsame_heap h l l' : lsame l l' -> lsame l (lheap h l').
Proof. intros H. etransitivity; [exact H|]. split; [|reflexivity]. exists h, []. destruct l' as [[] ? ?]; cbn. unfold out, set_heap; cbn. by rewrite app_nil_r. Qed.

Lemma lsame_arp i e l l' : lsame l l' -> lsame l (arp_set i e l').
Proof. done. Qed.

Lemma lsame_net l l' : lsame l l' -> x_net (l_x l') = x_net (l_x l).
Proof. intros [(h & e & ->) _]. done. Qed.

(** Follow the computation that leads to a state. *)
Ltac follow :=
  repeat match goal with
  | H : Some _ = Some _ |- _ => injection H; clear H; intros; subst
  | H : None = Some _ |- _ => discriminate H
  | H : (?m ≫= ?f) = Some _ |- _ => let E := fresh "E" in destruct m eqn:E; cbn beta iota delta [mbind option_bind] in H; [|discriminate H]
  | H : context [let '(_, _) := ?p in _] |- _ => destruct p
  | H : (if ?c then _ else _) = Some _ |- _ => destruct c
  | H : match ?x with _ => _ end = Some _ |- _ => destruct x
  end.

Create HintDb lsame.

#[export] Hint Resolve lsame_heap lsame_arp lsame_refl : lsame.

Ltac same := follow; eauto 8 using lsame_heap, lsame_arp with lsame.

Section same.
  Context (custom_free : addr -> heap -> option heap) (buf : list Z).

Lemma linkoutput_same nif p l0 l r l' : linkoutput buf nif p l = Some (r, l') -> lsame l0 l -> lsame l0 l'.
Proof.
  unfold linkoutput, tap_linkoutput. intros H Hl. etransitivity; [exact Hl|].
  follow; try reflexivity; (split; [|reflexivity]); cbn; destruct (l_x l); first [reflexivity | by do 2 eexists].
Qed.

Lemma ethernet_output_same nif p src dst ty l0 l r l' : ethernet_output buf nif p src dst ty l = Some (r, l') -> lsame l0 l -> lsame l0 l'.
Proof. unfold ethernet_output. intros H Hl. follow; eauto using linkoutput_same, lsame_heap. Qed.
#[local] Hint Resolve ethernet_output_same : lsame.

Lemma etharp_raw_same nif a b c d e f g l0 l r l' : etharp_raw custom_free buf nif a b c d e f g l = Some (r, l') -> lsame l0 l -> lsame l0 l'.
Proof. unfold etharp_raw. intros H Hl. same. Qed.
#[local] Hint Resolve etharp_raw_same : lsame.

Lemma request_dst_same nif a d l0 l r l' : etharp_request_dst custom_free buf nif a d l = Some (r, l') -> lsame l0 l -> lsame l0 l'.
Proof. unfold etharp_request_dst. intros H Hl. same. Qed.
#[local] Hint Resolve request_dst_same : lsame.

Lemma request_same nif a l0 l r l' : etharp_request custom_free buf nif a l = Some (r, l') -> lsame l0 l -> lsame l0 l'.
Proof. unfold etharp_request. intros H Hl. same. Qed.
#[local] Hint Resolve request_same : lsame.

Lemma free_entry_same i l0 l l' : etharp_free_entry custom_free i l = Some l' -> lsame l0 l -> lsame l0 l'.
Proof. unfold etharp_free_entry. intros H Hl. same. Qed.
#[local] Hint Resolve free_entry_same : lsame.

Lemma find_entry_same a f n l0 l r l' : etharp_find_entry custom_free a f n l = Some (r, l') -> lsame l0 l -> lsame l0 l'.
Proof. unfold etharp_find_entry. intros H Hl. same. Qed.
#[local] Hint Resolve find_entry_same : lsame.

Lemma send_queue_same i nif hw q : forall l0 l l', etharp_send_queue custom_free buf i nif hw q l = Some l' -> lsame l0 l -> lsame l0 l'.
Proof. induction q; cbn [etharp_send_queue]; intros l0 l l' H Hl; same. Qed.
#[local] Hint Resolve send_queue_same : lsame.

Lemma update_same nif a hw f l0 l r l' : etharp_update_arp_entry custom_free buf nif a hw f l = Some (r, l') -> lsame l0 l -> lsame l0 l'.
Proof. unfold etharp_update_arp_entry. intros H Hl. same. Qed.
#[local] Hint Resolve update_same : lsame.

Lemma addrhint_same nif i l0 l l' : etharp_set_addrhint nif i l = Some l' -> 0 <= i -> lsame l0 l -> lsame l0 l'.
Proof.
  unfold etharp_set_addrhint. intros H Hi Hl. follow; auto. etransitivity; [exact Hl|]. split; [reflexivity|]. cbn.
  intros p c Hp Hc. destruct (decide (z = p)) as [->|]; [rewrite lookup_insert_eq|rewrite lookup_insert_ne by done]; eauto.
Qed.
#[local] Hint Resolve addrhint_same Nat2Z.is_nonneg : lsame.

Lemma rerequested_same i p l0 l' : etharp_rerequested i p = Some l' -> lsame l0 p.2 -> lsame l0 l'.
Proof. unfold etharp_rerequested. intros H Hl. destruct p. same. cbn in *. destruct (_ =? _); same. Qed.

Lemma rerequest_same nif i l0 l l' : etharp_rerequest custom_free buf nif i l = Some l' -> lsame l0 l -> lsame l0 l'.
Proof.
  unfold etharp_rerequest. intros H Hl. follow; eauto; match goal with q : Z * lstate |- _ => destruct q end;
    eapply rerequested_same; eauto; cbn; eauto with lsame.
Qed.
#[local] Hint Resolve rerequest_same : lsame.

Lemma output_index_same nif q i l0 l r l' : etharp_output_to_arp_index custom_free buf nif q i l = Some (r, l') -> lsame l0 l -> lsame l0 l'.
Proof. unfold etharp_output_to_arp_index. intros H Hl. same. Qed.
#[local] Hint Resolve output_index_same : lsame.

Lemma enqueue_same i p l0 l r l' : etharp_enqueue custom_free i p l = Some (r, l') -> lsame l0 l -> lsame l0 l'.
Proof. unfold etharp_enqueue. intros H Hl. destruct (mem_malloc 0 (l_heap l)). same. Qed.
#[local] Hint Resolve enqueue_same : lsame.

Lemma query_packet_same nif v i q r0 l0 l r l' : etharp_query_packet custom_free buf nif v i q r0 l = Some (r, l') -> lsame l0 l -> lsame l0 l'.
Proof. unfold etharp_query_packet, etharp_query_queue. intros H Hl. same. Qed.
#[local] Hint Resolve query_packet_same : lsame.

Lemma query_request_same nif a i n q l0 l r l' : etharp_query_request custom_free buf nif a i n q l = Some (r, l') -> lsame l0 l -> lsame l0 l'.
Proof. unfold etharp_query_request. intros H Hl. follow; [destruct (_ && _)|..]; eauto with lsame. Qed.
#[local] Hint Resolve query_request_same : lsame.

Lemma query_same nif a q l0 l r l' : etharp_query custom_free buf nif a q l = Some (r, l') -> lsame l0 l -> lsame l0 l'.
Proof. unfold etharp_query. intros H Hl. follow; eauto with lsame; destruct (e_state _ =? _); eauto 10 with lsame. Qed.
#[local] Hint Resolve query_same : lsame.

Lemma output_unicast_same nif q d l0 l r l' : etharp_output_unicast custom_free buf nif q d l = Some (r, l') -> lsame l0 l -> lsame l0 l'.
Proof. unfold etharp_output_unicast. intros H Hl. follow; eauto with lsame. Qed.
#[local] Hint Resolve output_unicast_same : lsame.

Lemma etharp_output_same nif q a l r l' : etharp_output custom_free buf nif q a l = Some (r, l') -> lsame l l'.
Proof. unfold etharp_output. intros H. follow; eauto with lsame. Qed.

Lemma etharp_input_same p nif l l' : etharp_input custom_free buf p nif l = Some l' -> lsame l l'.
Proof. unfold etharp_input. intros H. follow; eauto 10 with lsame. Qed.

End same.
