(* ===== verification/IpState.v ===== *)
(** The state of the IP layer: the globals of [core/ip.c] and [core/ipv4/ip4.c]
    on top of the link layer, and the callbacks posted to the tcpip thread.  The
    state of the modules above is left open: the class [Upper]. *)
From S2P Require Import Prelude Bits Def IpAddr Pbuf PbufData NetifRec Netif XnetTap Ethernet.

(** A pointer into the memory of a pbuf, as [current_ip4_header] is. *)
Definition ptr : Type := addr * Z.

(** [struct ip_globals] ([include/lwip/ip.h]), without the IPv6 header. *)
Record ip_globals := IpGlobals {
  current_netif : option Z;
  current_input_netif : option Z;
  current_ip4_header : option ptr;
  current_ip_header_tot_len : Z;
  current_iphdr_src : Z;
  current_iphdr_dest : Z;
}.

(** The state of the protocols above IP and of reassembly, the packets they keep
    a reference to, and their invariant. *)
Class Upper := { upper : Type; held : upper -> list addr; up_ok : upper -> Prop }.

(** [i_posts] are the answers of the tcpip thread's mailbox to the next calls of
    [tcpip_try_callback] (whether there was room and memory for the message),
    [i_polls] the interfaces [netif_poll] was posted for and not yet called. *)
Record istate {U : Upper} := IState {
  i_l : lstate;
  i_posts : list bool;
  i_polls : list Z;
  ip_id : Z;
  ip4_default_multicast_netif : option Z;
  ip_data : ip_globals;
  i_up : upper;
}.

Arguments IState {U}.

Section state.
  Context {U : Upper}.

Definition i_heap (s : istate) : heap := l_heap (i_l s).

Definition i_net (s : istate) : nstate := x_net (l_x (i_l s)).

Definition inif (s : istate) (n : Z) : option netif := nget (i_net s) n.

Definition ilink (l : lstate) (s : istate) : istate :=
  IState l (i_posts s) (i_polls s) (ip_id s) (ip4_default_multicast_netif s) (ip_data s) (i_up s).

Definition iheap (h : heap) (s : istate) : istate := ilink (lheap h (i_l s)) s.

Definition inet (ns : nstate) (s : istate) : istate := ilink (lx (set_net ns (l_x (i_l s))) (i_l s)) s.

(** Assigning fields of an interface in memory. *)
Definition inmod (n : Z) (f : netif -> netif) (s : istate) : option istate :=
  ns ← nmod (i_net s) n f; Some (inet ns s).

Definition set_polls (posts : list bool) (polls : list Z) (s : istate) : istate :=
  IState (i_l s) posts polls (ip_id s) (ip4_default_multicast_netif s) (ip_data s) (i_up s).

Definition set_ip_id (v : Z) (s : istate) : istate :=
  IState (i_l s) (i_posts s) (i_polls s) v (ip4_default_multicast_netif s) (ip_data s) (i_up s).

Definition set_mcast_netif (v : option Z) (s : istate) : istate :=
  IState (i_l s) (i_posts s) (i_polls s) (ip_id s) v (ip_data s) (i_up s).

Definition set_ip_data (d : ip_globals) (s : istate) : istate :=
  IState (i_l s) (i_posts s) (i_polls s) (ip_id s) (ip4_default_multicast_netif s) d (i_up s).

(** [tcpip_try_callback(netif_poll, netif)] ([api/tcpip.c]); the callers of this
    development ignore its result. *)
Definition tcpip_try_callback (n : Z) (s : istate) : istate :=
  match i_posts s with
  | true :: posts => set_polls posts (i_polls s ++ [n]) s
  | _ :: posts => set_polls posts (i_polls s) s
  | [] => s
  end.

(** A call of a function of the link layer. *)
Definition lift (f : lstate -> option (Z * lstate)) (s : istate) : option (Z * istate) :=
  '(r, l) ← f (i_l s); Some (r, ilink l s).

Definition pbuf_free_i (custom_free : addr -> heap -> option heap) (p : addr) (s : istate) : option istate :=
  '(_, h) ← pbuf_free custom_free (Some p) (i_heap s); Some (iheap h s).

End state.
