(* ===== verification/EthInput.v ===== *)
(** Ethernet framing, input side: [ethernet_input] of [netif/ethernet.c].  The
    IP modules it hands packets to are parameters. *)
From S2P Require Import Prelude Bits Def IpAddr Pbuf PbufData NetifRec Netif XnetTap Ethernet Ip4Addr Etharp IpState.

(** The link-layer flag of a destination address. *)
Definition ll_flags (dest : list Z) : Z :=
  match dest with
  | d0 :: d1 :: d2 :: _ =>
      if negb (d0 .& 1 =? 0) then
        if d0 =? LL_IP4_MULTICAST_ADDR_0 then
          if (d1 =? LL_IP4_MULTICAST_ADDR_1) && (d2 =? LL_IP4_MULTICAST_ADDR_2) then PBUF_FLAG_LLMCAST else 0
        else if (d0 =? LL_IP6_MULTICAST_ADDR_0) && (d1 =? LL_IP6_MULTICAST_ADDR_1) then PBUF_FLAG_LLMCAST
        else if bool_decide (dest = ethbroadcast) then PBUF_FLAG_LLBCAST
        else 0
      else 0
  | _ => 0
  end.

Section input.
  Context {U : Upper} (custom_free : addr -> heap -> option heap) (buf : list Z).
  Context (ip4_input ip6_input : addr -> Z -> istate -> option (Z * istate)).

(** The label [free_and_return]. *)
Definition free_and_return (p : addr) (s : istate) : option (Z * istate) :=
  s ← pbuf_free_i custom_free p s; Some (ERR_OK, s).

(** The Ethernet header skipped, the packet passed on. *)
Definition pass_on (input : addr -> Z -> istate -> option istate) (p : addr) (nif : Z) (s : istate)
    : option (Z * istate) :=
  '(r, h) ← pbuf_remove_header (Some p) SIZEOF_ETH_HDR (i_heap s);
  if negb (r =? 0) then free_and_return p (iheap h s)
  else s ← input p nif (iheap h s); Some (ERR_OK, s).

(** The functions it passes packets to; the results of IP are ignored. *)
Definition to_ip (input : addr -> Z -> istate -> option (Z * istate)) (p : addr) (nif : Z) (s : istate) : option istate :=
  '(_, s) ← input p nif s; Some s.

Definition to_arp (p : addr) (nif : Z) (s : istate) : option istate :=
  l ← etharp_input custom_free buf p nif (i_l s); Some (ilink l s).

(** The [switch] on the type field. *)
Definition ethernet_demux (type : Z) (p : addr) (nif : Z) (s : istate) : option (Z * istate) :=
  if type =? PP_HTONS ETHTYPE_IP then
    v ← inif s nif;
    if negb (flag_set v NETIF_FLAG_ETHARP) then free_and_return p s else pass_on (to_ip ip4_input) p nif s
  else if type =? PP_HTONS ETHTYPE_ARP then
    v ← inif s nif;
    if negb (flag_set v NETIF_FLAG_ETHARP) then free_and_return p s else pass_on to_arp p nif s
  else if type =? PP_HTONS ETHTYPE_IPV6 then
    b ← get (i_heap s) p;
    if pb_len b <? SIZEOF_ETH_HDR then free_and_return p s else pass_on (to_ip ip6_input) p nif s
  else free_and_return p s.

Definition ethernet_input (p : addr) (nif : Z) (s : istate) : option (Z * istate) :=
  b ← get (i_heap s) p;
  if pb_len b <=? SIZEOF_ETH_HDR then free_and_return p s
  else
    b ← (if pb_if_idx b =? NETIF_NO_INDEX then v ← inif s nif; Some (set_if_idx (netif_get_index v) b) else Some b);
    dest ← payload_read b 0 6;
    type ← payload_read b 12 2 ≫= u16_of;
    let b := set_flags (u8 (pb_flags b .| ll_flags dest)) b in
    ethernet_demux type p nif (iheap (put (i_heap s) p b) s).

End input.
