(* ===== verification/NetifLoop.v ===== *)
(** The loopback queue of [core/netif.c]: packets an interface sends to itself
    are copied, appended to the interface's [loop_first] chain and fed back
    into the stack by [netif_poll] on the tcpip thread. *)
From S2P Require Import Prelude Bits Def IpAddr Pbuf PbufData NetifRec Netif XnetTap Ethernet IpState.

Section upper.
  Context {U : Upper}.

Definition LWIP_LOOPBACK_MAX_PBUFS : Z := 16.

Section loop.
  Context (custom_free : addr -> heap -> option heap).

(** The [for] loop that finds the last pbuf of the copy. *)
Fixpoint last_pbuf (fuel : nat) (last : addr) (h : heap) : option addr :=
  match fuel with
  | O => None
  | S fuel =>
      b ← get h last;
      match pb_next b with
      | Some n => last_pbuf fuel n h
      | None => Some last
      end
  end.

(** Appending the copy [r .. last] to the queue of [nif]; the first packet of a
    queue schedules [netif_poll]. *)
Definition loop_append (nif : Z) (r last : addr) (s : istate) : option istate :=
  v ← inif s nif;
  match nif_loop_first v with
  | Some _ =>
      ll ← nif_loop_last v;
      lb ← get (i_heap s) ll;
      inmod nif (nset_loop_last (Some last)) (iheap (put (i_heap s) ll (set_next (Some r) lb)) s)
  | None =>
      s ← inmod nif (fun v => nset_loop_last (Some last) (nset_loop_first (Some r) v)) s;
      Some (tcpip_try_callback nif s)
  end.

Definition netif_loop_output (nif : Z) (p : addr) (s : istate) : option (Z * istate) :=
  pb ← get (i_heap s) p;
  '(r, h) ← pbuf_alloc custom_free PBUF_LINK (pb_tot_len pb) PBUF_RAM (i_heap s);
  match r with
  | None => Some (ERR_MEM, iheap h s)
  | Some r =>
      clen ← pbuf_clen (Some r) h;
      v ← inif s nif;
      let cnt := nif_loop_cnt_current v in
      if (cnt + clen <? cnt) || (Z.min LWIP_LOOPBACK_MAX_PBUFS 0xFFFF <? cnt + clen) then
        s ← pbuf_free_i custom_free r (iheap h s); Some (ERR_MEM, s)
      else
        s ← inmod nif (nset_loop_cnt_current (u16 (cnt + clen))) (iheap h s);
        '(err, h) ← pbuf_copy (Some r) (Some p) (i_heap s);
        if negb (err =? ERR_OK) then
          s ← pbuf_free_i custom_free r (iheap h s); Some (err, s)
        else
          last ← last_pbuf (chain_fuel h) r h;
          s ← loop_append nif r last (iheap h s);
          Some (ERR_OK, s)
  end.

(** The [while] loop of [netif_poll] that finds the end of a packet. *)
Fixpoint poll_packet_end (fuel : nat) (in_end : addr) (clen : Z) (h : heap) : option (addr * Z) :=
  match fuel with
  | O => None
  | S fuel =>
      b ← get h in_end;
      if negb (pb_len b =? pb_tot_len b) then
        n ← pb_next b; poll_packet_end fuel n (u8 (clen + 1)) h
      else Some (in_end, clen)
  end.

(** Taking the first packet off the queue of [nif]. *)
Definition poll_take (nif : Z) (inp : addr) (s : istate) : option istate :=
  '(in_end, clen) ← poll_packet_end (chain_fuel (i_heap s)) inp 1 (i_heap s);
  s ← inmod nif (fun v => nset_loop_cnt_current (u16 (nif_loop_cnt_current v - clen)) v) s;
  v ← inif s nif;
  e ← get (i_heap s) in_end;
  s ← (if bool_decide (nif_loop_last v = Some in_end)
       then inmod nif (fun v => nset_loop_last None (nset_loop_first None v)) s
       else inmod nif (nset_loop_first (pb_next e)) s);
  let s := iheap (put (i_heap s) in_end (set_next None e)) s in
  b ← get (i_heap s) inp;
  Some (iheap (put (i_heap s) inp (set_if_idx (netif_get_index v) b)) s).

Section poll.
  (** [ip_input] of [core/ip.c]. *)
  Context (ip_input : addr -> Z -> istate -> option (Z * istate)).

(** [ip_input] may queue more packets, so the number of turns is not known in
    advance: [None] when [fuel] of them are not enough. *)
Fixpoint netif_poll (fuel : nat) (nif : Z) (s : istate) : option istate :=
  v ← inif s nif;
  match nif_loop_first v, fuel with
  | None, _ => Some s
  | Some _, O => None
  | Some inp, S fuel =>
      s ← poll_take nif inp s;
      '(r, s) ← ip_input inp nif s;
      s ← (if negb (r =? ERR_OK) then pbuf_free_i custom_free inp s else Some s);
      netif_poll fuel nif s
  end.

(** The tcpip thread gets to the next posted [netif_poll]. *)
Definition tcpip_run_poll (fuel : nat) (s : istate) : option istate :=
  match i_polls s with
  | n :: polls => netif_poll fuel n (set_polls (i_posts s) polls s)
  | [] => Some s
  end.

End poll.

End loop.

End upper.
