(* ===== verification/NetifLoopThm.v ===== *)
(** The invariant of the stack: the link layer's invariant, and the loopback
    queues of the interfaces as the frame of the packets in use.  What
    [netif_loop_output] and [netif_poll] do to the queues.  At the end, [netif_poll]
    serves a queue in the order of arrival, and what becomes of a queue whose poll could not
    be posted. *)
From S2P Require Import Prelude Bits Def IpAddr Pbuf PbufData PbufChain PbufIO PbufLife PbufCopy PbufOwn NetifRec Netif NetifThm.
From S2P Require Import XnetTap XnetTapThm Ethernet EthernetThm Ip4Addr Etharp EtharpTable EtharpOps IpState NetifLoop.
From S2P Require Import XnetTap XnetTapThm Ethernet EthernetThm Ip4Addr Etharp EtharpTable EtharpOps EtharpOut IpState NetifLoop.

Section upper.
  Context {U : Upper}.

(** A queued packet: always one pbuf, which nobody else refers to. *)
Definition loop_node (c : addr * pbuf) : Prop :=
  pb_ok c.2 /\ pb_std c.2 /\ pb_ref c.2 = 1 /\ pb_tot_len c.2 = pb_len c.2 /\ 14 <= pb_payload c.2.

Record loop_queue (h : heap) (v : netif) (q : list (addr * pbuf)) : Prop := LoopQueue {
  lq_seg : lseg h (nif_loop_first v) q None;
  lq_last : nif_loop_last v = fst <$> last q;
  lq_nodup : NoDup (fst <$> q);
  lq_nodes : Forall loop_node q;
  lq_cnt : nif_loop_cnt_current v = zlen q;
  lq_max : zlen q <= LWIP_LOOPBACK_MAX_PBUFS;
}.

(** The packets of a queue, as the bytes they carry. *)
Definition queue_data (q : list (addr * pbuf)) : list (list Z) := (fun c => pb_bytes c.2) <$> q.

(** Every queue is well formed, no pbuf is in two of them, and together they
    are the frame. *)
Record loops_ok (F : Frame) (lo : Z -> list (addr * pbuf)) (ns : nstate) (h : heap) : Prop := LoopsOk {
  lo_queue : forall n v, nget ns n = Some v -> loop_queue h v (lo n);
  lo_none : forall n, nget ns n = None -> lo n = [];
  lo_sep : forall n m, n <> m -> (fst <$> lo n) ## (fst <$> lo m);
  lo_frame : forall a b, @frame F !! a = Some b <-> exists n, (a, b) ∈ lo n;
}.

Record stack (F : Frame) (lo : Z -> list (addr * pbuf)) (H : list addr) (cs : addr -> list (addr * pbuf)) (s : istate) : Prop :=
  Stack { stk_arp : arp_inv (F := F) H cs (i_l s); stk_loops : loops_ok F lo (i_net s) (i_heap s) }.

(** ** Interfaces *)

(** A change of the fields the link layer does not look at. *)
Definition link_same (v v' : netif) : Prop :=
  nif_linkoutput v' = nif_linkoutput v /\ nif_hwaddr v' = nif_hwaddr v /\ nif_state v' = nif_state v.

Lemma tap_nif_nput x n m v v' w tap :
  nget (x_net x) n = Some v -> link_same v v' -> tap_nif x m w tap ->
  exists w', tap_nif (set_net (nput (x_net x) n v') x) m w' tap /\ link_same w w'.
Proof.
  intros Hv (E1 & E2 & E3) (Hw & Hl & Hh & slot & Hs & Ht). destruct (decide (n = m)) as [->|Hne].
  - assert (w = v) as -> by congruence. exists v'. split; [|done]. split; [apply nget_put_eq|].
    rewrite E1, E2, E3. eauto.
  - exists w. split; [|done]. split; [by rewrite <- Hw; apply nget_put_ne|]. eauto.
Qed.

Lemma arp_inv_nput {F : Frame} H cs l n v v' :
  nget (x_net (l_x l)) n = Some v -> link_same v v' -> arp_inv H cs l ->
  arp_inv H cs (lx (set_net (nput (x_net (l_x l)) n v') (l_x l)) l).
Proof.
  intros Hv Hs [Ht HO Hwf Hn]. split; try done. eapply Forall_impl; [exact Hn|]. cbn beta.
  intros e He Hl. destruct (He Hl) as (m & w & tap & En & Hw).
  destruct (tap_nif_nput _ _ _ _ _ _ _ Hv Hs Hw) as (w' & ? & _). eauto.
Qed.

Lemma inmod_eq n f v s : inif s n = Some v -> inmod n f s = Some (inet (nput (i_net s) n (f v)) s).
Proof. intros Hv. unfold inmod, nmod. unfold inif in Hv. by rewrite Hv. Qed.

(** ** Frames *)

(** The queues change only where the interface is [n]. *)
Definition lo_set (n : Z) (q : list (addr * pbuf)) (lo : Z -> list (addr * pbuf)) : Z -> list (addr * pbuf) :=
  fun m => if decide (m = n) then q else lo m.

Lemma lo_set_eq n q lo : lo_set n q lo n = q.
Proof. unfold lo_set. by rewrite decide_True. Qed.

Lemma lo_set_ne n q lo m : m <> n -> lo_set n q lo m = lo m.
Proof. intros; unfold lo_set. by rewrite decide_False. Qed.

Lemma loop_queue_frame h h' v q : (forall a, a ∈ fst <$> q -> get h' a = get h a) -> loop_queue h v q -> loop_queue h' v q.
Proof. intros Hf [? ? ? ? ? ?]; split; try done. by eapply lseg_frame. Qed.

Lemma loops_set F F' lo ns h h' n v v' q :
  loops_ok F lo ns h -> nget ns n = Some v -> loop_queue h' v' q ->
  (forall m, m <> n -> (fst <$> q) ## (fst <$> lo m)) ->
  (forall m a, m <> n -> a ∈ fst <$> lo m -> get h' a = get h a) ->
  (forall a b, @frame F' !! a = Some b <-> (a, b) ∈ q \/ (@frame F !! a = Some b /\ a ∉ fst <$> lo n)) ->
  loops_ok F' (lo_set n q lo) (nput ns n v') h'.
Proof.
  intros [L1 L2 L3 L4] Hv Hq Hsep Hfr HF. split.
  - intros m w Hw. destruct (decide (m = n)) as [->|Hne].
    + rewrite nget_put_eq in Hw. injection Hw as <-. by rewrite lo_set_eq.
    + rewrite nget_put_ne in Hw by done. rewrite lo_set_ne by done.
      eapply loop_queue_frame; [|by apply L1]. eauto.
  - intros m Hm. destruct (decide (m = n)) as [->|Hne]; [by rewrite nget_put_eq in Hm|].
    rewrite nget_put_ne in Hm by done. rewrite lo_set_ne by done. by apply L2.
  - intros m m' Hne. unfold lo_set. repeat case_decide; subst; [done|by apply Hsep|..|by apply L3].
    intros a Ha Ha'. by eapply (Hsep m); eauto.
  - intros a b. rewrite HF, L4. split.
    + intros [Hin|[(m & Hin) Hn]]; [exists n; by rewrite lo_set_eq|].
      exists m. rewrite lo_set_ne; [done|]. intros ->. apply Hn. apply (list_elem_of_fmap_2 fst) in Hin. done.
    + intros (m & Hin). destruct (decide (m = n)) as [->|Hne]; [left; by rewrite lo_set_eq in Hin|right].
      rewrite lo_set_ne in Hin by done. split; [by eexists|]. intros Ha.
      apply (list_elem_of_fmap_2 fst) in Hin. by eapply (L3 n m).
Qed.

Lemma loops_heap F lo ns h h' :
  loops_ok F lo ns h -> (forall a b, @frame F !! a = Some b -> get h' a = Some b) -> loops_ok F lo ns h'.
Proof.
  intros [L1 L2 L3 L4] HF. split; try done. intros n v Hv. pose proof (L1 n v Hv) as HQ.
  eapply (loop_queue_frame h); [|done]. intros a ([a' b] & -> & Hin)%list_elem_of_fmap. cbn [fst].
  transitivity (Some b); [apply HF, L4; eauto|]. symmetry. eapply lseg_get; [apply HQ|done].
Qed.

(** An operation of the link layer keeps the queues. *)
Lemma stack_link F lo H H' cs cs' s l' :
  stack F lo H cs s -> arp_inv (F := F) H' cs' l' -> x_net (l_x l') = i_net s -> stack F lo H' cs' (ilink l' s).
Proof.
  intros [_ HL] HI Hn. split; [done|]. unfold i_net; cbn [ilink i_l]. rewrite Hn.
  eapply loops_heap; [done|]. intros a b Hab. apply (owned_out _ _ _ (inv_owned _ _ _ HI) a b Hab).
Qed.

(** ** What an operation of the IP layer leaves alone *)
Definition unloop (v : netif) : netif := nset_loop_first None (nset_loop_last None (nset_loop_cnt_current 0 v)).

Record ikeeps (s s' : istate) : Prop := IKeeps {
  ik_arp : l_arp (i_l s') = l_arp (i_l s);
  ik_hints : l_hints (i_l s') = l_hints (i_l s);
  ik_out : x_out (l_x (i_l s')) = x_out (l_x (i_l s));
  ik_x : set_heap (x_heap (l_x (i_l s))) (set_net (i_net s) (l_x (i_l s'))) = l_x (i_l s);
  ik_nif : forall n, unloop <$> inif s' n = unloop <$> inif s n;
  ik_list : netif_list (i_net s') = netif_list (i_net s);
  ik_default : netif_default (i_net s') = netif_default (i_net s);
  ik_id : ip_id s' = ip_id s;
  ik_mcast : ip4_default_multicast_netif s' = ip4_default_multicast_netif s;
  ik_data : ip_data s' = ip_data s;
  ik_up : i_up s' = i_up s;
}.

Lemma ikeeps_refl s : ikeeps s s.
Proof. split; try done. by destruct s as [[[] ? ?] ? ? ? ? ? ?]. Qed.

Lemma ikeeps_trans s1 s2 s3 : ikeeps s1 s2 -> ikeeps s2 s3 -> ikeeps s1 s3.
Proof.
  intros [] []. split; try congruence. rewrite <- ik_x0, <- ik_x1. by destruct s3 as [[[] ? ?] ? ? ? ? ? ?].
Qed.

Lemma ikeeps_heap h s : ikeeps s (iheap h s).
Proof. split; try done. by destruct s as [[[] ? ?] ? ? ? ? ? ?]. Qed.

Lemma ikeeps_nput s n v v' : inif s n = Some v -> unloop v' = unloop v -> ikeeps s (inet (nput (i_net s) n v') s).
Proof.
  intros Hv Hu. split; try done; [by destruct s as [[[] ? ?] ? ? ? ? ? ?]|].
  intros m. unfold inif. change (i_net (inet ?a s)) with a. destruct (decide (n = m)) as [<-|Hne].
  - rewrite nget_put_eq. unfold inif in Hv. by rewrite Hv; cbn; rewrite Hu.
  - by rewrite nget_put_ne.
Qed.

Lemma ikeeps_posts posts polls s : ikeeps s (set_polls posts polls s).
Proof. split; try done. by destruct s as [[[] ? ?] ? ? ? ? ? ?]. Qed.

Lemma ikeeps_callback n s : ikeeps s (tcpip_try_callback n s).
Proof. unfold tcpip_try_callback. destruct (i_posts s) as [|[] ?]; auto using ikeeps_posts, ikeeps_refl. Qed.

End upper.

#[export] Hint Resolve ikeeps_refl ikeeps_trans ikeeps_heap ikeeps_posts ikeeps_callback : arp.

Section upper.
  Context {U : Upper}.

Lemma callback_link n s : i_l (tcpip_try_callback n s) = i_l s.
Proof. unfold tcpip_try_callback. by destruct (i_posts s) as [|[] ?]. Qed.

Lemma stack_ext F lo H cs s s' : i_l s' = i_l s -> stack F lo H cs s -> stack F lo H cs s'.
Proof. intros E [HI HL]. unfold i_net, i_heap in *. split; unfold i_net, i_heap; by rewrite E. Qed.

Lemma ikeeps_ext s s1 s' :
  i_l s' = i_l s1 -> ip_id s' = ip_id s1 -> ip4_default_multicast_netif s' = ip4_default_multicast_netif s1 ->
  ip_data s' = ip_data s1 -> i_up s' = i_up s1 -> ikeeps s s1 -> ikeeps s s'.
Proof. intros E1 E2 E3 E4 E5 []. unfold inif, i_net in *. split; unfold inif, i_net; rewrite ?E1; congruence || done. Qed.

(** ** Appending *)

(** The queue [q] with the pbuf [r] linked behind its last one. *)
Definition linked (r : addr) (q : list (addr * pbuf)) : list (addr * pbuf) :=
  match last q with
  | Some (a, b) => removelast q ++ [(a, set_next (Some r) b)]
  | None => []
  end.

Lemma removelast_snoc {A} (l : list A) x : removelast (l ++ [x]) = l.
Proof. rewrite removelast_app by done. cbn. by rewrite app_nil_r. Qed.

Lemma linked_snoc r q a b : linked r (q ++ [(a, b)]) = q ++ [(a, set_next (Some r) b)].
Proof. unfold linked. by rewrite last_snoc, removelast_snoc. Qed.

Lemma linked_fst r q : fst <$> linked r q = fst <$> q.
Proof. destruct q as [|[a b] q _] using rev_ind; [done|]. by rewrite linked_snoc, !fmap_app. Qed.

Lemma linked_data r q : queue_data (linked r q) = queue_data q.
Proof.
  destruct q as [|[a b] q _] using rev_ind; [done|]. unfold queue_data. by rewrite linked_snoc, !fmap_app.
Qed.

Lemma linked_nodes r q : Forall loop_node q -> Forall loop_node (linked r q).
Proof.
  destruct q as [|[a b] q _] using rev_ind; [done|]. rewrite linked_snoc, !Forall_app. intros [? Hb]. split; [done|].
  rewrite Forall_singleton in *. exact Hb.
Qed.

(** The store after the append. *)
Definition append_heap (r : addr) (q : list (addr * pbuf)) (h : heap) : heap :=
  match last q with
  | Some (a, b) => put h a (set_next (Some r) b)
  | None => h
  end.

Lemma append_heap_get r q h a : a ∉ fst <$> q -> get (append_heap r q h) a = get h a.
Proof.
  unfold append_heap. destruct (last q) as [[x b]|] eqn:E; [|done]. intros Ha. apply get_put_ne. intros ->. apply Ha.
  apply last_Some in E as (q' & ->). rewrite fmap_app. set_solver.
Qed.

Lemma append_heap_wf r q h p : lseg h p q None -> heap_wf h -> heap_wf (append_heap r q h).
Proof.
  intros Hs Hwf. unfold append_heap. destruct (last q) as [[a b]|] eqn:E; [|done].
  apply last_Some in E as (q' & ->). eapply (heap_wf_put h a b); [|done]. eapply lseg_get; [exact Hs|]. set_solver.
Qed.

Lemma nset_first_same f v : nif_loop_first v = Some f -> nset_loop_first (Some f) v = v.
Proof. destruct v. cbn. by intros ->. Qed.

(** The queue with one more packet. *)
Lemma loop_queue_append h v q r b :
  loop_queue h v q -> zlen q < LWIP_LOOPBACK_MAX_PBUFS -> get h r = Some b -> loop_node (r, b) -> pb_next b = None ->
  r ∉ fst <$> q ->
  loop_queue (append_heap r q h)
    (nset_loop_last (Some r) (nset_loop_first (Some (default r (nif_loop_first v))) (nset_loop_cnt_current (zlen q + 1) v)))
    (linked r q ++ [(r, b)]).
Proof.
  intros [Hs Hl Hnd Hns Hc Hm] Hlt Hg Hnode Hnx Hr. unfold append_heap.
  destruct q as [|[a lb] q _] using rev_ind.
  - cbn in Hs. split; cbn; rewrite ?Hs; try done; [by apply NoDup_singleton|by apply Forall_singleton].
  - rewrite last_snoc, linked_snoc, <- app_assoc. cbn [app].
    assert (Hf : nif_loop_first v = Some (default r (nif_loop_first v))).
    { destruct q as [|[a0 b0] q]; destruct Hs as [-> _]; done. }
    split; cbn [nif_loop_first nif_loop_last nif_loop_cnt_current nset_loop_last nset_loop_first nset_loop_cnt_current].
    + rewrite <- Hf. pose proof (lseg_snoc h _ q a lb r b Hs Hr Hnd Hnx) as Hsn.
      eapply lseg_frame; [|exact Hsn]. intros x Hx. destruct (decide (x = a)) as [->|]; [by rewrite !get_put_eq|].
      rewrite !(get_put_ne _ a) by done. destruct (decide (x = r)) as [->|]; [by rewrite get_put_eq|by rewrite get_put_ne].
    + change (q ++ [(a, set_next (Some r) lb); (r, b)]) with (q ++ [(a, set_next (Some r) lb)] ++ [(r, b)]).
      by rewrite app_assoc, last_snoc.
    + rewrite fmap_app in *. cbn in *. rewrite (app_assoc _ [a] [r]). apply NoDup_app. split_and!; [done| |apply NoDup_singleton].
      intros x Hx ->%list_elem_of_singleton. done.
    + apply Forall_app in Hns as [Hq Ha]. apply Forall_app. split; [done|]. rewrite Forall_singleton in Ha.
      constructor; [exact Ha|by apply Forall_singleton].
    + rewrite !zlen_app. unfold zlen; cbn. lia.
    + rewrite zlen_app in *. unfold zlen in *; cbn in *. lia.
Qed.

(** The frame after the append. *)
Definition append_frame (r : addr) (b : pbuf) (q : list (addr * pbuf)) (F : Frame) : Frame :=
  <[r := b]> (match last q with
              | Some (a, lb) => <[a := set_next (Some r) lb]> (@frame F)
              | None => @frame F
              end).

Lemma lo_member F lo ns h n a b :
  loops_ok F lo ns h -> @frame F !! a = Some b -> a ∈ fst <$> lo n -> (a, b) ∈ lo n.
Proof.
  intros [_ _ L3 L4] Hab Ha. apply L4 in Hab as (m & Hm). destruct (decide (m = n)) as [->|Hne]; [done|].
  exfalso. eapply (L3 m n Hne a); [|done]. by apply (list_elem_of_fmap_2 fst) in Hm.
Qed.

Lemma append_frame_iff F lo ns h n q r b a c :
  loops_ok F lo ns h -> NoDup (fst <$> q) -> lo n = q -> @frame F !! r = None ->
  @frame (append_frame r b q F) !! a = Some c <->
  (a, c) ∈ linked r q ++ [(r, b)] \/ (@frame F !! a = Some c /\ a ∉ fst <$> lo n).
Proof.
  intros HL Hnd Hq Hr. rewrite elem_of_app, list_elem_of_singleton. unfold append_frame, frame at 1.
  assert (Hrq : r ∉ fst <$> q).
  { intros ([x y] & Ex & Hin)%list_elem_of_fmap. cbn in Ex; subst x.
    assert (@frame F !! r = Some y) by (apply (lo_frame _ _ _ _ HL); exists n; by rewrite Hq). congruence. }
  assert (Hlr : forall c, (r, c) ∉ linked r q).
  { intros d Hd%(list_elem_of_fmap_2 fst). by rewrite linked_fst in Hd. }
  destruct (decide (a = r)) as [->|Hne].
  { rewrite lookup_insert_eq. split; [intros [= ->]; auto|]. intros [[Hd|[= ->]]|[Hd _]]; [by apply Hlr in Hd|done|congruence]. }
  rewrite lookup_insert_ne by done. destruct q as [|[la lb] q _] using rev_ind.
  { cbn. rewrite Hq. split; [intros ?; right; split; [done|by apply not_elem_of_nil]|].
    intros [[?%not_elem_of_nil|[= ? ?]]|[? _]]; done. }
  rewrite last_snoc, linked_snoc. rewrite fmap_app in Hnd. cbn in Hnd. apply NoDup_app in Hnd as (Hn0 & Hn1 & _).
  rewrite elem_of_app, list_elem_of_singleton. destruct (decide (a = la)) as [->|Hla].
  - rewrite lookup_insert_eq. split; [intros [= <-]; auto|]. intros [[[Hd|[= ->]]|[= ? ?]]|[_ Hd]]; [|done|done|].
    + apply (list_elem_of_fmap_2 fst) in Hd. exfalso. apply (Hn1 la); [done|by apply list_elem_of_singleton].
    + exfalso. apply Hd. rewrite Hq, fmap_app. set_solver.
  - rewrite lookup_insert_ne by done. split.
    + intros Hc. destruct (decide (a ∈ fst <$> lo n)) as [Hin|]; [|by right].
      pose proof (lo_member _ _ _ _ _ _ _ HL Hc Hin) as Hm. rewrite Hq, elem_of_app, list_elem_of_singleton in Hm.
      destruct Hm as [?|[= ? ?]]; [auto|done].
    + intros [[[Hd|[= ? ?]]|[= ? ?]]|[? _]]; try done. apply (lo_frame _ _ _ _ HL). exists n. rewrite Hq. set_solver.
Qed.

(** The copy [r] becomes part of the queue. *)
Lemma loop_append_spec F lo H cs s nif v r b :
  stack F lo (r :: H) cs s -> (r ∉ H ++ queued (l_arp (i_l s))) -> cs r = [(r, b)] -> loop_node (r, b) -> pb_next b = None ->
  inif s nif = Some v -> zlen (lo nif) < LWIP_LOOPBACK_MAX_PBUFS ->
  exists s' F', loop_append nif r r (inet (nput (i_net s) nif (nset_loop_cnt_current (zlen (lo nif) + 1) v)) s) = Some s' /\
    stack F' (lo_set nif (linked r (lo nif) ++ [(r, b)]) lo) H cs s' /\ ikeeps s s' /\
    (i_posts s', i_polls s') = match lo nif with
                               | [] => (i_posts (tcpip_try_callback nif s), i_polls (tcpip_try_callback nif s))
                               | _ => (i_posts s, i_polls s)
                               end.
Proof.
  intros [HI HL] Hrn Ec Hnode Hnx Hv Hlt. pose proof HI as [Ht HO Hwf Hn].
  pose proof (owned_packet _ _ _ HO r ltac:(by left)) as Hk. rewrite Ec in Hk.
  pose proof (std_packet_head _ _ _ Hk) as (b' & t & [= <- <-] & Hg).
  assert (HFr : @frame F !! r = None).
  { destruct (@frame F !! r) as [c|] eqn:E; [|done]. destruct (owned_out _ _ _ HO r c E) as [_ Hout].
    exfalso. apply (Hout r); [by left|]. rewrite Ec. set_solver. }
  pose proof (lo_queue _ _ _ _ HL nif v Hv) as HQ. set (q := lo nif) in *.
  assert (Hrq : r ∉ fst <$> q).
  { intros ([x y] & Ex & Hin)%list_elem_of_fmap. cbn in Ex; subst x.
    assert (@frame F !! r = Some y) by (apply (lo_frame _ _ _ _ HL); by exists nif). congruence. }
  set (v2 := nset_loop_last (Some r) (nset_loop_first (Some (default r (nif_loop_first v))) (nset_loop_cnt_current (zlen q + 1) v))).
  pose proof (loop_queue_append _ v q r b HQ Hlt Hg Hnode Hnx Hrq) as HQ'.
  set (s2 := inet (nput (i_net s) nif v2) (iheap (append_heap r q (i_heap s)) s)).
  set (F' := append_frame r b q F).
  assert (Hin_r : forall p, p ∈ H ++ queued (l_arp (i_l s)) -> r ∉ fst <$> cs p).
  { intros p Hp Hin. apply (owned_sep _ _ _ HO r p ltac:(by left) ltac:(by right) ltac:(by intros ->) r); [rewrite Ec; set_solver|done]. }
  assert (Hframe : forall a c, @frame F' !! a = Some c ->
    get (append_heap r q (i_heap s)) a = Some c /\ forall p, p ∈ H ++ queued (l_arp (i_l s)) -> a ∉ fst <$> cs p).
  { intros a c Hc. apply (append_frame_iff F lo _ _ nif q r b a c HL (lq_nodup _ _ _ HQ) eq_refl HFr) in Hc as [Hin|[Hc Ha]].
    - split; [eapply lseg_get; [apply HQ'|done]|]. intros p Hp Hcp. apply elem_of_app in Hin as [Hin|Hin%list_elem_of_singleton].
      + apply (list_elem_of_fmap_2 fst) in Hin. rewrite linked_fst in Hin. cbn in Hin.
        apply list_elem_of_fmap in Hin as ([x y] & -> & Hin). cbn in Hcp.
        destruct (owned_out _ _ _ HO x y) as [_ Hout]; [apply (lo_frame _ _ _ _ HL); eauto|]. apply (Hout p); [by right|done].
      + injection Hin as -> ->. by eapply Hin_r.
    - destruct (owned_out _ _ _ HO a c Hc) as [Hga Hout]. split; [by rewrite append_heap_get|]. intros p Hp. apply Hout. by right. }
  assert (Hin_q : forall a p, a ∈ fst <$> q -> p ∈ H ++ queued (l_arp (i_l s)) -> a ∉ fst <$> cs p).
  { intros a p ([x y] & -> & Hin)%list_elem_of_fmap Hp. cbn.
    destruct (owned_out _ _ _ HO x y) as [_ Hout]; [apply (lo_frame _ _ _ _ HL); eauto|]. apply Hout. by right. }
  assert (HOr : owned (F := F) (del (i_heap s) r) cs (H ++ queued (l_arp (i_l s)))).
  { eapply (owned_drop (F := F)); [exact HO|done|..]; intros a; rewrite Ec; cbn; rewrite list_elem_of_singleton.
    - intros ->. apply get_del_eq.
    - intros Ha. by apply get_del_ne. }
  assert (HS : stack F' (lo_set nif (linked r q ++ [(r, b)]) lo) H cs s2).
  { split.
    - apply (arp_inv_nput (F := F') H cs (lheap (append_heap r q (i_heap s)) (i_l s)) nif v v2 Hv ltac:(done)). split; try done.
      + apply (owned_reframe (F := F) F' (del (i_heap s) r)); [exact HOr| |done|].
        * intros p a Hp Ha. rewrite get_del_ne by (intros ->; by eapply Hin_r). apply append_heap_get. intros Hq. by eapply Hin_q.
        * intros a Ha. destruct (decide (a ∈ fst <$> (linked r q ++ [(r, b)]))) as [Hin|Hin].
          { left. apply list_elem_of_fmap in Hin as ([x c] & -> & Hin). exists c.
            apply (append_frame_iff F lo (i_net s) (i_heap s) nif q r b x c HL (lq_nodup _ _ _ HQ) eq_refl HFr). by left. }
          rewrite fmap_app, linked_fst, elem_of_app in Hin. cbn in Hin. rewrite list_elem_of_singleton in Hin.
          assert ((a ∉ fst <$> q) /\ a <> r) as [Haq Har] by tauto. change (is_Some (get (append_heap r q (i_heap s)) a)) in Ha.
          rewrite append_heap_get in Ha by done.
          destruct (owned_all (F := F) _ _ _ HOr a) as [[c Hc]|?]; [by rewrite get_del_ne| |by right].
          left. exists c. apply (append_frame_iff F lo (i_net s) (i_heap s) nif q r b a c HL (lq_nodup _ _ _ HQ) eq_refl HFr). by right.
      + eapply append_heap_wf; [apply HQ|done].
    - apply (loops_set F F' lo (i_net s) (i_heap s) _ nif v v2); [done|done|exact HQ'|..].
      + intros m Hm a. rewrite fmap_app, linked_fst, elem_of_app. intros [Ha|Ha] Ha'.
        * by eapply (lo_sep _ _ _ _ HL nif m).
        * cbn in Ha. apply list_elem_of_singleton in Ha as ->. apply list_elem_of_fmap in Ha' as ([x y] & Ex & Hin). cbn in Ex; subst x.
          assert (@frame F !! r = Some y) by (apply (lo_frame _ _ _ _ HL); by exists m). congruence.
      + intros m a Hm Ha. apply append_heap_get. intros Ha'. by eapply (lo_sep _ _ _ _ HL m nif Hm).
      + intros a c. exact (append_frame_iff F lo (i_net s) (i_heap s) nif q r b a c HL (lq_nodup _ _ _ HQ) eq_refl HFr). }
  assert (HK : ikeeps s s2).
  { eapply ikeeps_trans; [apply ikeeps_heap|]. eapply (ikeeps_nput (iheap (append_heap r q (i_heap s)) s) nif v v2 Hv). done. }
  set (v1 := nset_loop_cnt_current (zlen q + 1) v) in *. set (s1 := inet (nput (i_net s) nif v1) s).
  assert (Hv1 : inif s1 nif = Some v1) by apply nget_put_eq. assert (Hns : i_net s1 = nput (i_net s) nif v1) by done.
  unfold loop_append. rewrite Hv1. cbn [mbind option_bind]. change (nif_loop_first v1) with (nif_loop_first v).
  change (nif_loop_last v1) with (nif_loop_last v). rewrite (lq_last _ _ _ HQ). destruct HQ as [Hseg _ _ _ _ _].
  destruct (last q) as [[la lb]|] eqn:El.
  - assert (Hf : exists f, nif_loop_first v = Some f).
    { destruct q as [|[x y] q0]; [done|]. destruct Hseg as [-> _]. eauto. }
    destruct Hf as [f Ef]. rewrite Ef. cbn [fmap option_fmap option_map mbind option_bind fst].
    assert (Hla : get (i_heap s1) la = Some lb).
    { apply last_Some in El as (q0 & El). eapply (lseg_get (i_heap s)); [exact Hseg|]. rewrite El. set_solver. }
    rewrite Hla. cbn [mbind option_bind]. rewrite (inmod_eq _ _ v1) by done.
    eexists _, F'. split; [reflexivity|]. split; [|split].
    + apply (stack_ext _ _ _ _ s2); [|exact HS]. subst s2 s1 v2 v1. unfold append_heap. rewrite El, Ef. cbn.
      unfold lx, lheap, set_net, set_heap; cbn. f_equal. f_equal. unfold i_net; cbn.
      by rewrite nput_nput, (nset_first_same f (nset_loop_cnt_current _ _)).
    + apply (ikeeps_ext s s2); [|done..|exact HK]. subst s2 s1 v2 v1. unfold append_heap. rewrite El, Ef. cbn.
      unfold lx, lheap, set_net, set_heap; cbn. f_equal. f_equal. unfold i_net; cbn.
      by rewrite nput_nput, (nset_first_same f (nset_loop_cnt_current _ _)).
    + destruct q; [done|reflexivity].
  - apply last_None in El. rewrite El in Hseg. cbn in Hseg. rewrite Hseg. rewrite (inmod_eq _ _ v1) by done. cbn [mbind option_bind].
    assert (El2 : i_l (tcpip_try_callback nif (inet (nput (i_net s1) nif (nset_loop_last (Some r) (nset_loop_first (Some r) v1))) s1)) = i_l s2).
    { rewrite callback_link. subst s2 s1 v2 v1. unfold append_heap. rewrite El, Hseg. cbn.
      unfold lx, lheap, set_net, set_heap; cbn. unfold i_net, i_heap, l_heap; cbn. rewrite nput_nput. done. }
    eexists _, F'. split; [reflexivity|]. split; [by eapply stack_ext; [exact El2|]|]. split.
    + apply (ikeeps_ext s s2); [exact El2|..|exact HK]; unfold tcpip_try_callback; by destruct (i_posts _) as [|[] ?].
    + rewrite El. unfold tcpip_try_callback. change (i_posts (inet ?a s1)) with (i_posts s). by destruct (i_posts s) as [|[] ?].
Qed.
(** ** Taking the first packet *)

(** The packet as it is handed to [ip_input]. *)
Definition taken (v : netif) (b : pbuf) : pbuf := set_if_idx (netif_get_index v) (set_next None b).

Definition popped (v : netif) (b : pbuf) (q : list (addr * pbuf)) : netif :=
  let v := nset_loop_cnt_current (zlen q) v in
  match q with
  | [] => nset_loop_last None (nset_loop_first None v)
  | _ => nset_loop_first (pb_next b) v
  end.

Lemma loop_queue_pop h h' v a b q :
  loop_queue h v ((a, b) :: q) -> (forall x, x <> a -> get h' x = get h x) -> loop_queue h' (popped v b q) q.
Proof.
  intros [(_ & _ & Hs) Hl Hnd Hns Hc Hm] Hfr. rewrite fmap_cons in Hnd. apply NoDup_cons in Hnd as [Ha Hnd].
  apply Forall_cons in Hns as [_ Hns]. rewrite zlen_cons in Hm.
  assert (Hs' : lseg h' (pb_next b) q None) by (eapply (lseg_frame h); [|exact Hs]; intros x Hx; apply Hfr; by intros ->).
  destruct q as [|c q]; split; cbn [popped nif_loop_first nif_loop_last nif_loop_cnt_current nset_loop_first nset_loop_last nset_loop_cnt_current];
    try done; lia.
Qed.

Lemma pop_frame_iff F lo ns h n a b q x c :
  loops_ok F lo ns h -> NoDup (fst <$> lo n) -> lo n = (a, b) :: q ->
  @frame (delete a (@frame F)) !! x = Some c <-> (x, c) ∈ q \/ (@frame F !! x = Some c /\ x ∉ fst <$> lo n).
Proof.
  intros HL Hnd Hq. rewrite Hq in Hnd. rewrite fmap_cons in Hnd. apply NoDup_cons in Hnd as [Ha _]. unfold frame at 1.
  destruct (decide (x = a)) as [->|Hne].
  - rewrite lookup_delete_eq. split; [done|]. intros [Hin|[_ Hn]].
    + apply (list_elem_of_fmap_2 fst) in Hin. done.
    + rewrite Hq, fmap_cons in Hn. set_solver.
  - rewrite lookup_delete_ne by done. split.
    + intros Hc. destruct (decide (x ∈ fst <$> lo n)) as [Hin|]; [|by right].
      pose proof (lo_member _ _ _ _ _ _ _ HL Hc Hin) as Hm. rewrite Hq in Hm. apply elem_of_cons in Hm as [[= ? ?]|?]; [done|by left].
    + intros [Hin|[? _]]; [|done]. apply (lo_frame _ _ _ _ HL). exists n. rewrite Hq. set_solver.
Qed.

Lemma poll_take_spec F lo H cs s nif v a b q :
  stack F lo H cs s -> inif s nif = Some v -> lo nif = (a, b) :: q ->
  exists s', poll_take nif a s = Some s' /\
    stack (delete a (@frame F)) (lo_set nif q lo) (a :: H) (cs_set a [(a, taken v b)] cs) s' /\ ikeeps s s' /\
    i_posts s' = i_posts s /\ i_polls s' = i_polls s /\ inif s' nif = Some (popped v b q) /\ get (i_heap s') a = Some (taken v b).
Proof.
  intros HS Hv Hq. pose proof HS as [HI HL]. pose proof HI as [Ht HO Hwf Hn].
  pose proof (lo_queue _ _ _ _ HL nif v Hv) as HQ. pose proof (lq_nodup _ _ _ HQ) as Hnd. rewrite Hq in HQ.
  pose proof HQ as [(Hfirst & Hg & Hseg) Hl Hnd' Hns Hc Hm]. apply Forall_cons in Hns as [Hnode _].
  destruct Hnode as (Hok & Hstd & Href & Htl & Hpl). cbn [snd] in *. rewrite fmap_cons in Hnd'. apply NoDup_cons in Hnd' as [Haq _].
  pose proof (zlen_nonneg q). rewrite zlen_cons in Hc, Hm. unfold LWIP_LOOPBACK_MAX_PBUFS in Hm.
  set (h' := put (i_heap s) a (taken v b)). set (s2 := inet (nput (i_net s) nif (popped v b q)) (iheap h' s)).
  set (F' := delete a (@frame F) : Frame). set (cs' := cs_set a [(a, taken v b)] cs).
  assert (HFa : @frame F !! a = Some b) by (apply (lo_frame _ _ _ _ HL); exists nif; rewrite Hq; set_solver).
  destruct (owned_out (F := F) _ _ _ HO a b HFa) as [_ Hout].
  assert (Hfr : forall x, x <> a -> get h' x = get (i_heap s) x) by (intros x Hx; by apply get_put_ne).
  assert (HS' : stack F' (lo_set nif q lo) (a :: H) cs' s2).
  { split.
    - apply (arp_inv_nput (F := F') (a :: H) cs' (lheap h' (i_l s)) nif v (popped v b q) Hv); [by destruct q|]. split; try done.
      + apply (owned_add (F := F') (del (i_heap s) a) h' cs _ a _ (taken v b)).
        * apply (owned_reframe (F := F) F' (i_heap s)); [exact HO|..].
          -- intros p x Hp Hx. apply get_del_ne. intros ->. by eapply Hout.
          -- intros x c Hx. unfold F', frame in Hx. apply lookup_delete_Some in Hx as [Hne Hx].
             destruct (owned_out (F := F) _ _ _ HO x c Hx) as [Hgx Ho]. split; [by rewrite get_del_ne|exact Ho].
          -- intros x [c Hxc]. destruct (decide (x = a)) as [->|Hne]; [by rewrite get_del_eq in Hxc|]. rewrite get_del_ne in Hxc by done.
             destruct (owned_all (F := F) _ _ _ HO x) as [Hx|?]; [by exists c| |by right]. left. unfold F', frame. by rewrite lookup_delete_ne.
        * split; [|split; [by apply Forall_singleton|by apply Forall_nil]]. apply packet_single; [apply get_put_eq|done..].
        * apply get_put_eq.
        * done.
        * intros x. cbn. intros ->%list_elem_of_singleton. apply get_del_eq.
        * intros x. cbn. rewrite list_elem_of_singleton. intros Hx. by rewrite Hfr, get_del_ne.
      + by eapply heap_wf_put.
    - apply (loops_set F F' lo (i_net s) (i_heap s) _ nif v (popped v b q)); [done|done|by eapply loop_queue_pop|..].
      + intros m Hm' x Hx Hx'. eapply (lo_sep _ _ _ _ HL nif m); [done| |done]. rewrite Hq, fmap_cons. set_solver.
      + intros m x Hm' Hx. apply Hfr. intros ->. eapply (lo_sep _ _ _ _ HL m nif Hm'); [done|]. rewrite Hq, fmap_cons. set_solver.
      + intros x c. by eapply pop_frame_iff. }
  assert (E : exists s', poll_take nif a s = Some s' /\ s' = s2); last first.
  { destruct E as (s' & -> & ->). exists s2. split; [done|]. split; [exact HS'|]. split_and!; try done.
    - eapply ikeeps_trans; [apply (ikeeps_heap h')|]. apply (ikeeps_nput (iheap h' s) nif v); [done|]. by destruct q.
    - apply nget_put_eq.
    - apply get_put_eq. }
  eexists. split; [|reflexivity]. unfold poll_take, chain_fuel; cbn [poll_packet_end]. rewrite Hg; cbn [mbind option_bind].
  rewrite Htl, Z.eqb_refl. cbn [negb mbind option_bind]. rewrite (inmod_eq _ _ v) by done. cbn [mbind option_bind]. rewrite Hc.
  replace (u16 (1 + zlen q - 1)) with (zlen q) by (rewrite u16_small; lia).
  set (v1 := nset_loop_cnt_current (zlen q) v). set (s1 := inet (nput (i_net s) nif v1) s).
  assert (Hv1 : inif s1 nif = Some v1) by apply nget_put_eq. rewrite Hv1; cbn [mbind option_bind].
  change (i_heap s1) with (i_heap s). rewrite Hg; cbn [mbind option_bind]. change (nif_loop_last v1) with (nif_loop_last v). rewrite Hl.
  assert (Elast : bool_decide (fst <$> last ((a, b) :: q) = Some a) = bool_decide (q = [])).
  { destruct q as [|c q0] using rev_ind; [by rewrite !bool_decide_eq_true_2|]. rewrite app_comm_cons, last_snoc.
    rewrite !bool_decide_eq_false_2; [done|by destruct q0|]. cbn. intros [= <-]. apply Haq. rewrite fmap_app. set_solver. }
  rewrite Elast.
  assert (Einet : (if bool_decide (q = []) then inmod nif (fun v => nset_loop_last None (nset_loop_first None v)) s1
                   else inmod nif (nset_loop_first (pb_next b)) s1) = Some (inet (nput (i_net s) nif (popped v b q)) s)).
  { rewrite !(inmod_eq _ _ v1) by done. unfold popped. subst s1. unfold inet, ilink, lx, set_net, i_net; cbn. rewrite !nput_nput.
    by destruct q. }
  rewrite Einet. cbn [mbind option_bind].
  match goal with |- context [get (i_heap ?x) a] => change (i_heap x) with (put (i_heap s) a (set_next None b)) end.
  rewrite get_put_eq. cbn [mbind option_bind]. f_equal. subst s2. unfold iheap, ilink, inet, lheap, lx, set_heap, set_net, h'; cbn.
  unfold taken, i_heap, l_heap, put; cbn. by rewrite insert_insert_eq.
Qed.

Section spec.
  Context (custom_free : addr -> heap -> option heap).

(** Sending to ourselves: a copy of the packet is appended to the queue, or
    [ERR_MEM] is returned and nothing changes; the first packet of a queue asks
    the tcpip thread to poll it. *)
Lemma netif_loop_output_spec F lo H cs s nif p v :
  stack F lo (p :: H) cs s -> inif s nif = Some v -> no_empty (cs p) ->
  exists r s' F' lo', netif_loop_output custom_free nif p s = Some (r, s') /\
    (exists cs', stack F' lo' (p :: H) cs' s' /\ forall q, q ∈ (p :: H) ++ queued (l_arp (i_l s)) -> cs' q = cs q) /\ ikeeps s s' /\
    ((r = ERR_MEM /\ lo' = lo /\ i_posts s' = i_posts s /\ i_polls s' = i_polls s) \/
     (r = ERR_OK /\ zlen (lo nif) < LWIP_LOOPBACK_MAX_PBUFS /\ (forall m, m <> nif -> lo' m = lo m) /\
      queue_data (lo' nif) = queue_data (lo nif) ++ [content (cs p)] /\
      (i_posts s', i_polls s') = match lo nif with
                                 | [] => (i_posts (tcpip_try_callback nif s), i_polls (tcpip_try_callback nif s))
                                 | _ => (i_posts s, i_polls s)
                                 end)).
Proof.
  intros HS Hv Hne. pose proof HS as [HI HL]. pose proof HI as [Ht HO Hwf Hn].
  pose proof (owned_packet _ _ _ HO p ltac:(by left)) as Hk. pose proof (std_packet_head _ _ _ Hk) as (pb & t & Ec & Hg).
  destruct Hk as [Hk _]. pose proof (packet_tot _ _ _ Hk) as (pb' & Hg' & Htot). assert (pb' = pb) as -> by congruence.
  pose proof Hk as [_ _ Hoks _ Hsum]. pose proof (sum_len_nonneg _ Hoks).
  unfold netif_loop_output. change (get (i_heap s) p) with (get (l_heap (i_l s)) p). rewrite Hg; cbn [mbind option_bind]. rewrite Htot.
  destruct (pbuf_alloc_ram_single custom_free PBUF_LINK (sum_len (cs p)) (i_heap s) Hwf ltac:(unfold PBUF_LINK; lia) ltac:(lia))
    as (r & h1 & -> & Hwf1 & Hr). cbn [mbind option_bind]. destruct r as [r|]; last first.
  { exists ERR_MEM, (iheap h1 s), F, lo. split; [done|]. split; [|split; [auto with arp|by left]]. exists cs. split; [|done].
    apply (stack_link F lo (p :: H) _ cs _ s (lheap h1 (i_l s)) HS); [|done]. split; try done.
    eapply owned_same; [|exact HO]. intros a. unfold get; cbn. by rewrite Hr. }
  destruct Hr as (b & Hfree & Hgr & Hnew & Hlen & Htl & Hnx & Hpay & Hty & Hfr).
  destruct Hnew as (Hbok & Hbstd & Hbref). pose proof (packet_single h1 r b Hgr Hbok Hnx ltac:(lia)) as Hpr.
  destruct (owned_fresh _ h1 _ _ r b HO Hfree Hfr Hpr Hbstd Hbref) as [HO1 Hrn].
  assert (Ecl : pbuf_clen (Some r) h1 = Some 1) by (unfold pbuf_clen, chain_fuel; cbn; rewrite Hgr; cbn; by rewrite Hnx; destruct (size _)).
  rewrite Ecl; cbn [mbind option_bind].
  unfold inif in Hv. unfold inif at 1. rewrite Hv; cbn [mbind option_bind].
  pose proof (lo_queue _ _ _ _ HL nif v Hv) as HQ. rewrite (lq_cnt _ _ _ HQ). pose proof (lq_max _ _ _ HQ) as Hmax.
  destruct (Z.ltb_spec (zlen (lo nif) + 1) (zlen (lo nif))); [lia|]. cbn [orb].
  change (Z.min LWIP_LOOPBACK_MAX_PBUFS 0xFFFF) with LWIP_LOOPBACK_MAX_PBUFS.
  destruct (Z.ltb_spec LWIP_LOOPBACK_MAX_PBUFS (zlen (lo nif) + 1)) as [Hfull|Hroom].
  - unfold pbuf_free_i. change (i_heap (iheap h1 s)) with h1.
    destruct (pbuf_free_owned custom_free _ _ r _ HO1 Hwf1) as (n & h2 & cs2 & -> & HO2 & Hwf2 & _ & _ & Hcs2 & _).
    cbn [mbind option_bind]. exists ERR_MEM, (iheap h2 s), F, lo. split; [done|]. split; [|split; [auto with arp|by left]].
    exists cs2. split.
    + apply (stack_link F lo (p :: H) _ cs _ s (lheap h2 (i_l s)) HS); [|done]. by split.
    + intros q Hq. assert (q <> r) as Hne' by (intros ->; done). rewrite Hcs2, cs_set_ne by done. done.
  - assert (Hv1 : inif (iheap h1 s) nif = Some v) by done. rewrite (inmod_eq _ _ v _ Hv1). cbn [mbind option_bind].
    pose proof (zlen_nonneg (lo nif)). unfold LWIP_LOOPBACK_MAX_PBUFS in *. rewrite u16_small by lia.
    match goal with |- context [pbuf_copy _ _ (i_heap ?x)] => change (i_heap x) with h1 end.
    assert (Hrp : r ∉ fst <$> cs p).
    { intros Hin. destruct (cells_live _ _ _ _ (owned_packet _ _ _ HO p ltac:(by left)) Hin) as [? Hx]. unfold i_heap in Hfree. congruence. }
    assert (Hp1 : packet h1 (Some p) (cs p)) by (eapply packet_frame; [|exact Hk]; intros a Ha; apply Hfr; by intros ->).
    destruct (pbuf_copy_single h1 r b p (cs p) Hgr Hbok Hnx ltac:(lia) Hp1 Hne Hrp ltac:(lia))
      as (h2 & b2 & -> & Hg2 & Hrw & Hby & Hnx2 & Hfr2). cbn [mbind option_bind]. cbn [Z.eqb negb ERR_OK].
    rewrite (zdrop_ge (sum_len (cs p))), app_nil_r in Hby by (rewrite pb_bytes_len by done; lia).
    destruct Hrw as (_ & m & Eb & Hm). cbn [snd] in Eb, Hm.
    assert (Hnode : loop_node (r, b2)).
    { subst b2. unfold loop_node, pb_ok in *. cbn. rewrite Hm. split_and!; try done; try lia; try tauto.
      rewrite <- Hpay. done. }
    assert (Hnx3 : pb_next b2 = None) by (by subst b2). destruct Hnode as (Hok2 & Hstd2 & Href2 & Htl2 & Hpl2).
    assert (Hlast : last_pbuf (chain_fuel h2) r h2 = Some r) by (unfold chain_fuel; cbn; rewrite Hg2; cbn; by rewrite Hnx3).
    rewrite Hlast. cbn [mbind option_bind].
    pose proof (packet_single h2 r b2 Hg2 Hok2 Hnx3 Htl2) as Hpr2.
    destruct (owned_fresh _ h2 _ _ r b2 HO Hfree) as [HO2 _]; [intros a Ha; by rewrite Hfr2, Hfr|done..|].
    assert (Hwf2 : heap_wf h2).
    { intros x c. rewrite Hnx2. destruct (decide (x = r)) as [->|Hx]; [intros _; by eapply Hwf1|]. rewrite Hfr2 by done. apply Hwf1. }
    destruct (loop_append_spec F lo (p :: H) (cs_set r [(r, b2)] cs) (iheap h2 s) nif v r b2) as (s' & F' & E & HS' & HK & Hpo); try done.
    { apply (stack_link F lo (p :: H) _ cs _ s (lheap h2 (i_l s)) HS); [|done]. by split. }
    { by rewrite cs_set_eq. }
    { unfold LWIP_LOOPBACK_MAX_PBUFS. lia. }
    match goal with |- context [loop_append nif r r ?x] => change (loop_append nif r r x) with
      (loop_append nif r r (inet (nput (i_net (iheap h2 s)) nif (nset_loop_cnt_current (zlen (lo nif) + 1) v)) (iheap h2 s))) end.
    rewrite E. cbn [mbind option_bind]. do 4 eexists. split; [reflexivity|]. split; [exists (cs_set r [(r, b2)] cs); split; [exact HS'|]|].
    { intros q Hq. apply cs_set_ne. by intros ->. }
    split; [by eapply ikeeps_trans; [apply (ikeeps_heap h2)|]|]. right. split; [done|]. split; [lia|].
    split; [intros m' Hm'; by apply lo_set_ne|].
    split; [|rewrite Hpo; destruct (lo nif); [|done]; unfold tcpip_try_callback; cbn; by destruct (i_posts s) as [|[] ?]].
    rewrite lo_set_eq. unfold queue_data at 1. rewrite fmap_app. fold (queue_data (linked r (lo nif))). rewrite linked_data. cbn. by rewrite Hby.
Qed.

End spec.

End upper.

Section poll.
  Context {U : Upper} (custom_free : addr -> heap -> option heap) (ip_input : addr -> Z -> istate -> option (Z * istate)) (nif : Z).

(** The abstract machine: the oldest packet is handed to [ip_input], what that
    sends to ourselves goes to the end of the queue. *)
Inductive serves : list (list Z) -> istate -> istate -> Prop :=
  | serves_end s : serves [] s s
  | serves_packet d q added inp b s s1 s2 s' :
      poll_take nif inp s = Some s1 -> get (i_heap s1) inp = Some b -> pb_bytes b = d -> pb_next b = None ->
      ip_input inp nif s1 = Some (ERR_OK, s2) -> serves (q ++ added) s2 s' ->
      serves (d :: q) s s'.

(** The work a queue stands for. *)
Definition load (work : list Z -> nat) (q : list (list Z)) : nat := foldr Nat.add 0%nat (work <$> q).

Lemma load_app work q q' : load work (q ++ q') = (load work q + load work q')%nat.
Proof. unfold load. induction q; cbn; lia. Qed.

(** What the machine relies on from [ip_input]: it takes the packet over, and
    what it queues is less work than the packet was. *)
Class LoopConsumer (work : list Z -> nat) : Prop :=
  loop_consumes : forall F lo H cs s p b,
    stack F lo (p :: H) cs s -> cs p = [(p, b)] -> is_Some (inif s nif) ->
    exists s' F' lo' cs' added, ip_input p nif s = Some (ERR_OK, s') /\ stack F' lo' H cs' s' /\ is_Some (inif s' nif) /\
      queue_data (lo' nif) = queue_data (lo nif) ++ added /\ (load work added < work (pb_bytes b))%nat.

Lemma netif_poll_serves work `{!LoopConsumer work} fuel : forall F lo H cs s,
  stack F lo H cs s -> is_Some (inif s nif) -> (load work (queue_data (lo nif)) <= fuel)%nat ->
  exists s' F' lo' cs', netif_poll custom_free ip_input fuel nif s = Some s' /\ serves (queue_data (lo nif)) s s' /\
    stack F' lo' H cs' s' /\ lo' nif = [].
Proof.
  induction fuel as [|fuel IH]; intros F lo H cs s HS [v Hv] Hf; pose proof HS as [_ HL];
    pose proof (lo_queue _ _ _ _ HL nif v Hv) as HQ; cbn [netif_poll]; rewrite Hv; cbn [mbind option_bind].
  - destruct (lo nif) as [|[a b] q] eqn:Eq.
    + destruct HQ as [Hs _ _ _ _ _]. cbn in Hs. rewrite Hs. exists s, F, lo, cs. split_and!; try done. constructor.
    + destruct (poll_take_spec F lo H cs s nif v a b q HS Hv Eq) as (s1 & E1 & HS1 & HK & _ & _ & Hv1 & Hg1).
      destruct (loop_consumes _ _ _ _ _ a (taken v b) HS1 (cs_set_eq _ _ _)) as (s2 & F2 & lo2 & cs2 & added & _ & _ & _ & _ & Hw); [by eexists|].
      cbn [load fmap list_fmap foldr queue_data snd] in Hf. unfold load in Hf; cbn in Hf. change (pb_bytes (taken v b)) with (pb_bytes b) in Hw. lia.
  - destruct (lo nif) as [|[a b] q] eqn:Eq.
    + destruct HQ as [Hs _ _ _ _ _]. cbn in Hs. rewrite Hs. exists s, F, lo, cs. split_and!; try done. constructor.
    + pose proof HQ as [(Hfirst & _) _ _ _ _ _]. rewrite Hfirst.
      destruct (poll_take_spec F lo H cs s nif v a b q HS Hv Eq) as (s1 & E1 & HS1 & HK & _ & _ & Hv1 & Hg1).
      destruct (loop_consumes _ _ _ _ _ a (taken v b) HS1 (cs_set_eq _ _ _)) as (s2 & F2 & lo2 & cs2 & added & E2 & HS2 & Hv2 & Hq2 & Hw); [by eexists|].
      rewrite E1; cbn [mbind option_bind]. rewrite E2; cbn [mbind option_bind Z.eqb negb ERR_OK].
      rewrite lo_set_eq in Hq2. change (pb_bytes (taken v b)) with (pb_bytes b) in Hw.
      destruct (IH F2 lo2 H cs2 s2 HS2 Hv2) as (s' & F' & lo' & cs' & E & Hserves & HS' & Hempty).
      { rewrite Hq2, load_app. cbn in Hf. unfold load in *. cbn in Hf. fold (queue_data q) in Hf. lia. }
      exists s', F', lo', cs'. split; [exact E|]. split; [|done].
      cbn [queue_data fmap list_fmap]. fold (queue_data q). rewrite Hq2 in Hserves. by eapply (serves_packet _ _ added a (taken v b)).
Qed.

End poll.

(** ** A poll that was not posted *)
Section stuck.
  Context {U : Upper} (custom_free : addr -> heap -> option heap) (nif : Z).

(** Sending the packets [ps] to ourselves, one after the other. *)
Fixpoint loop_outputs (ps : list addr) (s : istate) : option (list Z * istate) :=
  match ps with
  | [] => Some ([], s)
  | p :: ps => '(r, s) ← netif_loop_output custom_free nif p s; '(rs, s) ← loop_outputs ps s; Some (r :: rs, s)
  end.

Lemma stack_perm F lo H H' cs s : Permutation H H' -> stack F lo H cs s -> stack F lo H' cs s.
Proof. intros HP [HI HL]. split; [by eapply (arp_inv_perm (F := F))|done]. Qed.

Lemma loop_output_any F lo H cs s p v :
  stack F lo H cs s -> inif s nif = Some v -> p ∈ H -> no_empty (cs p) -> lo nif <> [] ->
  exists r s' F' lo' cs', netif_loop_output custom_free nif p s = Some (r, s') /\ stack F' lo' H cs' s' /\
    (forall q, q ∈ H -> cs' q = cs q) /\ ikeeps s s' /\ i_posts s' = i_posts s /\ i_polls s' = i_polls s /\
    ((r = ERR_MEM /\ queue_data (lo' nif) = queue_data (lo nif)) \/
     (r = ERR_OK /\ zlen (lo nif) < LWIP_LOOPBACK_MAX_PBUFS /\ queue_data (lo' nif) = queue_data (lo nif) ++ [content (cs p)])).
Proof.
  intros HS Hv Hp Hne Hq. apply list_elem_of_In, in_split in Hp as (H1 & H2 & ->).
  assert (HP : Permutation (H1 ++ p :: H2) (p :: H1 ++ H2)) by (symmetry; apply Permutation_middle).
  destruct (netif_loop_output_spec custom_free F lo (H1 ++ H2) cs s nif p v) as (r & s' & F' & lo' & E & (cs' & HS' & Hcs) & HK & Hr);
    [by eapply stack_perm|done|done|].
  exists r, s', F', lo', cs'. split; [done|]. split; [by eapply stack_perm|]. split; [intros q Hq'; apply Hcs; rewrite HP in Hq'; set_solver|].
  split; [done|]. destruct Hr as [(-> & -> & Ho & Hl)|(-> & Hz & Hlo & Hd & Hpo)]; [by split_and!; auto|].
  destruct (lo nif); [done|]. injection Hpo as -> ->. split_and!; auto.
Qed.

(** Once packets wait, none of the later ones asks for a poll. *)
Lemma loop_outputs_wait ps : forall F lo H cs s,
  stack F lo H cs s -> is_Some (inif s nif) -> lo nif <> [] -> (forall p, p ∈ ps -> p ∈ H /\ no_empty (cs p)) ->
  exists rs s' F' lo' cs', loop_outputs ps s = Some (rs, s') /\ stack F' lo' H cs' s' /\ i_posts s' = i_posts s /\ i_polls s' = i_polls s /\
    queue_data (lo nif) `prefix_of` queue_data (lo' nif) /\
    zlen (lo nif) + Z.of_nat (length (filter (fun r => r = ERR_OK) rs)) <= LWIP_LOOPBACK_MAX_PBUFS.
Proof.
  induction ps as [|p ps IH]; intros F lo H cs s HS [v Hv] Hq Hps; cbn [loop_outputs].
  - exists [], s, F, lo, cs. split_and!; try done. rewrite Z.add_0_r. apply (lq_max _ _ _ (lo_queue _ _ _ _ (stk_loops _ _ _ _ _ HS) nif v Hv)).
  - destruct (Hps p ltac:(set_solver)) as [Hp Hne].
    destruct (loop_output_any F lo H cs s p v HS Hv Hp Hne Hq) as (r & s1 & F1 & lo1 & cs1 & E1 & HS1 & Hcs1 & HK & Hpo & Hpl & Hr).
    rewrite E1; cbn [mbind option_bind]. pose proof (ik_nif _ _ HK nif) as En. rewrite Hv in En.
    assert (Hlen : forall q q' : list (addr * pbuf), queue_data q = queue_data q' -> zlen q = zlen q').
    { intros q q' Eq. apply (f_equal length) in Eq. unfold queue_data in Eq. rewrite !length_fmap in Eq. unfold zlen. lia. }
    assert (Hq1 : queue_data (lo nif) `prefix_of` queue_data (lo1 nif) /\ zlen (lo1 nif) = zlen (lo nif) + (if decide (r = ERR_OK) then 1 else 0)).
    { destruct Hr as [[-> Hd]|(-> & _ & Hd)]; rewrite Hd.
      - rewrite decide_False by done. split; [done|]. rewrite (Hlen _ _ Hd). lia.
      - rewrite decide_True by done. split; [by apply prefix_app_r|]. apply (f_equal length) in Hd. unfold queue_data in Hd.
        rewrite length_app, !length_fmap in Hd. unfold zlen. cbn in Hd. lia. }
    destruct Hq1 as [Hpre Hz]. destruct (IH F1 lo1 H cs1 s1 HS1) as (rs & s2 & F2 & lo2 & cs2 & E2 & HS2 & Hpo2 & Hpl2 & Hpre2 & Hc2).
    + destruct (inif s1 nif); [by eexists|done].
    + intros E0. rewrite E0 in Hpre. destruct (lo nif); [done|]. by apply prefix_nil_not in Hpre.
    + intros x Hx. destruct (Hps x ltac:(set_solver)) as [Hx1 Hx2]. split; [done|]. by rewrite Hcs1.
    + exists (r :: rs), s2, F2, lo2, cs2. rewrite E2; cbn [mbind option_bind]. split_and!; try congruence; [by etransitivity|].
      rewrite filter_cons. rewrite Hz in Hc2. destruct (decide (r = ERR_OK)); cbn [length]; lia.
Qed.

End stuck.
