(* ===== verification/Ip4Out.v ===== *)
(** IPv4 output: routing and header construction of [core/ipv4/ip4.c], down to
    the interface's output function.  [ip4_frag] of [ip4_frag.c] is a parameter. *)
From S2P Require Import Prelude Bits Def IpAddr Pbuf PbufData Chksum NetifRec Netif XnetTap Ethernet Ip4Addr Etharp IpState NetifLoop.

Section upper.
  Context {U : Upper}.

Definition IP_HLEN : Z := 20.
Definition IP_DF : Z := 0x4000.
Definition IP_MF : Z := 0x2000.
Definition IP_OFFMASK : Z := 0x1fff.
Definition IP_PROTO_ICMP : Z := 1.
Definition IP_PROTO_TCP : Z := 6.
Definition IP_PROTO_UDP : Z := 17.
Definition PBUF_FLAG_MCASTLOOP : Z := 0x04.

Definition ip4_addr_isloopback (a : Z) : bool := (a .& PP_HTONL 0xff000000) =? PP_HTONL (127 .<< 24).

Definition netif_is_link_up (v : netif) : bool := flag_set v NETIF_FLAG_LINK_UP.

(** ** Routing *)

(** The test of [ip4_route] on one interface. *)
Definition route_match (dest : Z) (v : netif) : bool :=
  netif_is_up v && netif_is_link_up v && negb (nif_ip_addr v =? IPADDR_ANY) &&
  (ip4_addr_netcmp dest (nif_ip_addr v) (nif_netmask v) ||
   (negb (flag_set v NETIF_FLAG_BROADCAST) && (dest =? nif_gw v))).

(** The default interface, if it can be used for [dest]. *)
Definition route_default (dest : Z) (ns : nstate) : option (option Z) :=
  match netif_default ns with
  | None => Some None
  | Some d =>
      v ← nget ns d;
      Some (if negb (netif_is_up v) || negb (netif_is_link_up v) || (nif_ip_addr v =? IPADDR_ANY) ||
               ip4_addr_isloopback dest
            then None else Some d)
  end.

Definition ip4_route (dest : Z) (s : istate) : option (option Z) :=
  match ip4_default_multicast_netif s, ip4_addr_ismulticast dest with
  | Some n, true => Some (Some n)
  | _, _ =>
      r ← find_loop (list_fuel (i_net s)) (netif_list (i_net s)) (route_match dest) (i_net s);
      match r with
      | Some n => Some (Some n)
      | None => route_default dest (i_net s)
      end
  end.

Definition ip4_set_default_multicast_netif (n : option Z) (s : istate) : istate := set_mcast_netif n s.

(** ** The header *)
Definition ip4_v_hl : Z := u8 ((4 .<< 4) .| (IP_HLEN / 4)).

(** The inline checksum, added up in the order of the source; [len] and [id] are
    the fields as stored. *)
Definition ip4_hdr_chksum (ttl tos proto len id src dest : Z) : Z :=
  let c := u32 (0 + PP_HTONS (proto .| (ttl .<< 8))) in
  let c := u32 (c + (dest .& 0xFFFF)) in
  let c := u32 (c + (dest .>> 16)) in
  let c := u32 (c + PP_HTONS (tos .| (ip4_v_hl .<< 8))) in
  let c := u32 (c + len) in
  let c := u32 (c + id) in
  let c := u32 (c + (src .& 0xFFFF)) in
  let c := u32 (c + (src .>> 16)) in
  let c := u32 ((c .>> 16) + (c .& 0xFFFF)) in
  let c := u32 ((c .>> 16) + c) in
  u16 (u32 (Z.lnot c)).

(** [struct ip_hdr] as the code fills it in. *)
Definition ip4_hdr_bytes (ttl tos proto len id chksum src dest : Z) : list Z :=
  [ip4_v_hl; tos] ++ bytes16 len ++ bytes16 id ++ bytes16 0 ++ [u8 ttl; u8 proto] ++ bytes16 chksum ++
  ip4_bytes src ++ ip4_bytes dest.

Section output.
  Context (custom_free : addr -> heap -> option heap) (buf : list Z).
  Context (ip4_frag : addr -> Z -> Z -> istate -> option (Z * istate)).

(** The call through [netif->output]. *)
Definition netif_output (nif : Z) (p : addr) (dest : Z) (s : istate) : option (Z * istate) :=
  v ← inif s nif;
  match nif_output v with
  | output_unset => None
  | netif_null_output_ip4 => Some (ERR_IF, s)
  | netif_loop_output_ipv4 => netif_loop_output custom_free nif p s
  | NetifRec.etharp_output => lift (etharp_output custom_free buf nif p dest) s
  end.

(** The header is put in front of the packet ([dest] given), or is there already
    ([dest] is [LWIP_IP_HDRINCL]); the destination, or an error code. *)
Definition ip4_header (p : addr) (src : option Z) (dest : option Z) (ttl tos proto : Z) (s : istate)
    : option ((Z + Z) * istate) :=
  match dest with
  | Some dest =>
      '(r, h) ← pbuf_add_header (Some p) IP_HLEN (i_heap s);
      if negb (r =? 0) then Some (inl ERR_BUF, iheap h s)
      else
        b ← get h p;
        let len := lwip_htons (pb_tot_len b) in
        let id := lwip_htons (ip_id s) in
        let srca := default IPADDR_ANY src in
        let chksum := ip4_hdr_chksum ttl tos proto len id srca dest in
        b ← payload_write b 0 (ip4_hdr_bytes ttl tos proto len id chksum srca dest);
        Some (inr dest, set_ip_id (u16 (ip_id s + 1)) (iheap (put h p b) s))
  | None =>
      b ← get (i_heap s) p;
      if pb_len b <? IP_HLEN then Some (inl ERR_BUF, s)
      else dest ← payload_read b 16 4 ≫= ip4_at; Some (inr dest, s)
  end.

(** The packet with its header, sent to ourselves, in fragments, or as it is. *)
Definition ip4_dispatch (p : addr) (dest nif : Z) (s : istate) : option (Z * istate) :=
  v ← inif s nif;
  if dest =? nif_ip_addr v then netif_loop_output custom_free nif p s
  else
    b ← get (i_heap s) p;
    s ← (if negb (pb_flags b .& PBUF_FLAG_MCASTLOOP =? 0)
         then '(_, s) ← netif_loop_output custom_free nif p s; Some s else Some s);
    v ← inif s nif;
    b ← get (i_heap s) p;
    if negb (nif_mtu v =? 0) && (nif_mtu v <? pb_tot_len b) then ip4_frag p nif dest s
    else netif_output nif p dest s.

Definition ip4_output_if_src (p : addr) (src dest : option Z) (ttl tos proto nif : Z) (s : istate)
    : option (Z * istate) :=
  '(r, s) ← ip4_header p src dest ttl tos proto s;
  match r with
  | inl e => Some (e, s)
  | inr dest => ip4_dispatch p dest nif s
  end.

Definition ip4_output_if (p : addr) (src dest : option Z) (ttl tos proto nif : Z) (s : istate)
    : option (Z * istate) :=
  v ← inif s nif;
  let src_used :=
    match dest with
    | Some _ => if (default IPADDR_ANY src =? IPADDR_ANY) then Some (nif_ip_addr v) else src
    | None => src
    end in
  ip4_output_if_src p src_used dest ttl tos proto nif s.

(** [ip4_route_src] is [ip4_route] without a routing hook. *)
Definition ip4_output (p : addr) (src : option Z) (dest ttl tos proto : Z) (s : istate) : option (Z * istate) :=
  r ← ip4_route dest s;
  match r with
  | None => Some (ERR_RTE, s)
  | Some nif => ip4_output_if p src (Some dest) ttl tos proto nif s
  end.

Definition ip4_output_hinted (p : addr) (src : option Z) (dest ttl tos proto : Z) (hint : option Z) (s : istate)
    : option (Z * istate) :=
  r ← ip4_route dest s;
  match r with
  | None => Some (ERR_RTE, s)
  | Some nif =>
      s ← inmod nif (nset_hints hint) s;
      '(err, s) ← ip4_output_if p src (Some dest) ttl tos proto nif s;
      s ← inmod nif (nset_hints None) s;
      Some (err, s)
  end.

End output.

End upper.
