(* ===== verification/Icmp.v ===== *)
(** ICMP: [core/ipv4/icmp.c]. *)
From S2P Require Import Prelude Bits Def IpAddr Pbuf PbufData Chksum NetifRec Netif XnetTap Ethernet Ip4Addr Etharp IpState NetifLoop Ip4Out.

Section upper.
  Context {U : Upper}.

Definition ICMP_ER : Z := 0.
Definition ICMP_DUR : Z := 3.
Definition ICMP_ECHO : Z := 8.
Definition ICMP_TE : Z := 11.
Definition ICMP_DUR_PROTO : Z := 2.
Definition ICMP_DUR_PORT : Z := 3.
Definition ICMP_TTL : Z := 255.
Definition ICMP_DEST_UNREACH_DATASIZE : Z := 8.
Definition SIZEOF_ICMP_ECHO_HDR : Z := 8.
Definition PBUF_LINK_HLEN : Z := 14.

(** Reading through a pointer into the memory of a pbuf. *)
Definition ptr_read (h : heap) (q : ptr) (o n : Z) : option (list Z) :=
  b ← get h q.1; mem_read (pb_mem b) (q.2 + o) n.

Definition byte_at (bs : list Z) : option Z := match bs with [b] => Some b | _ => None end.

(** [IPH_HL_BYTES]. *)
Definition iph_hl_bytes (h : heap) (q : ptr) : option Z :=
  v_hl ← ptr_read h q 0 1 ≫= byte_at; Some (u8 ((v_hl .& 0x0f) * 4)).

Section icmp.
  Context (custom_free : addr -> heap -> option heap) (buf : list Z) (odd_payload : addr -> pbuf -> bool).
  Context (ip4_frag : addr -> Z -> Z -> istate -> option (Z * istate)).

(** ** Error messages *)
Definition icmp_send_response (p : addr) (type code : Z) (s : istate) : option istate :=
  '(q, h) ← pbuf_alloc custom_free PBUF_IP (SIZEOF_ICMP_ECHO_HDR + IP_HLEN + ICMP_DEST_UNREACH_DATASIZE) PBUF_RAM (i_heap s);
  match q with
  | None => Some (iheap h s)
  | Some q =>
      pb ← get h p;
      qb ← get h q;
      qb ← payload_write qb 0 [type; code];
      qb ← payload_write qb 4 (bytes16 0 ++ bytes16 0);
      data ← payload_read pb 0 (IP_HLEN + ICMP_DEST_UNREACH_DATASIZE);
      qb ← payload_write qb SIZEOF_ICMP_ECHO_HDR data;
      iphdr_src ← payload_read pb 12 4 ≫= ip4_at;
      let s := iheap (put h q qb) s in
      r ← ip4_route iphdr_src s;
      s ← match r with
          | None => Some s
          | Some nif =>
              qb ← payload_write qb 2 (bytes16 0);
              bs ← payload_read qb 0 (pb_len qb);
              c ← inet_chksum (odd_payload q qb) bs (pb_len qb);
              qb ← payload_write qb 2 (bytes16 c);
              '(_, s) ← ip4_output_if custom_free buf ip4_frag q None (Some iphdr_src) ICMP_TTL 0 IP_PROTO_ICMP nif
                          (iheap (put (i_heap s) q qb) s);
              Some s
          end;
      pbuf_free_i custom_free q s
  end.

Definition icmp_dest_unreach (p : addr) (t : Z) (s : istate) : option istate := icmp_send_response p ICMP_DUR t s.

Definition icmp_time_exceeded (p : addr) (t : Z) (s : istate) : option istate := icmp_send_response p ICMP_TE t s.

(** ** Echo *)

(** The IP header and the request are copied into the new pbuf [r]; [None] for
    the label [icmperr]. *)
Definition icmp_echo_copy (p r : addr) (iphdr_in : ptr) (hlen : Z) (s : istate) : option (option addr * istate) :=
  let h := i_heap s in
  rb ← get h r;
  if pb_len rb <? hlen + SIZEOF_ICMP_ECHO_HDR then s ← pbuf_free_i custom_free r s; Some (None, s)
  else
    bs ← ptr_read h iphdr_in 0 hlen;
    rb ← payload_write rb 0 bs;
    '(rc, h) ← pbuf_remove_header (Some r) hlen (put h r rb);
    if negb (rc =? 0) then s ← pbuf_free_i custom_free r (iheap h s); Some (None, s)
    else
      '(err, h) ← pbuf_copy (Some r) (Some p) h;
      if negb (err =? ERR_OK) then s ← pbuf_free_i custom_free r (iheap h s); Some (None, s)
      else s ← pbuf_free_i custom_free p (iheap h s); Some (Some r, s).

(** The request is copied if there is no room for the headers in front of it:
    the pbuf to answer in. *)
Definition icmp_echo_pbuf (p : addr) (iphdr_in : ptr) (hlen : Z) (s : istate) : option (option addr * istate) :=
  '(rc, h) ← pbuf_add_header (Some p) (hlen + PBUF_LINK_HLEN) (i_heap s);
  if negb (rc =? 0) then
    b ← get h p;
    let alloc_len := u16 (pb_tot_len b + hlen) in
    if alloc_len <? pb_tot_len b then Some (None, iheap h s)
    else
      '(r, h) ← pbuf_alloc custom_free PBUF_LINK alloc_len PBUF_RAM h;
      match r with
      | None => Some (None, iheap h s)
      | Some r => icmp_echo_copy p r iphdr_in hlen (iheap h s)
      end
  else
    '(rc, h) ← pbuf_remove_header (Some p) (hlen + PBUF_LINK_HLEN) h;
    Some (if negb (rc =? 0) then None else Some p, iheap h s).

(** The checksum adjusted for the changed type. *)
Definition echo_chksum (chksum : Z) : Z :=
  if PP_HTONS (0xffff - (ICMP_ECHO .<< 8)) <? chksum
  then u16 (chksum + PP_HTONS (ICMP_ECHO .<< 8) + 1)
  else u16 (chksum + PP_HTONS (ICMP_ECHO .<< 8)).

(** The request rewritten into the reply, [b] with its payload at the IP header. *)
Definition icmp_echo_rewrite (p : addr) (hlen src dest : Z) (b : pbuf) : option pbuf :=
  b ← payload_write b 12 (ip4_bytes src);
  b ← payload_write b 16 (ip4_bytes dest);
  b ← payload_write b hlen [ICMP_ER];
  chksum ← payload_read b (hlen + 2) 2 ≫= u16_of;
  b ← payload_write b (hlen + 2) (bytes16 (echo_chksum chksum));
  b ← payload_write b 8 [ICMP_TTL];
  b ← payload_write b 10 (bytes16 0);
  bs ← payload_read b 0 hlen;
  c ← inet_chksum (odd_payload p b) bs hlen;
  payload_write b 10 (bytes16 c).

Definition icmp_echo_reply (p : addr) (hlen inp : Z) (s : istate) : option istate :=
  '(rc, h) ← pbuf_add_header (Some p) hlen (i_heap s);
  if negb (rc =? 0) then Some (iheap h s)
  else
    b ← get h p;
    let src := current_iphdr_dest (ip_data s) in
    b ← icmp_echo_rewrite p hlen src (current_iphdr_src (ip_data s)) b;
    '(_, s) ← ip4_output_if custom_free buf ip4_frag p (Some src) None ICMP_TTL 0 IP_PROTO_ICMP inp
                (iheap (put h p b) s);
    Some s.

Definition icmp_input (p : addr) (inp : Z) (s : istate) : option istate :=
  iphdr_in ← current_ip4_header (ip_data s);
  hlen ← iph_hl_bytes (i_heap s) iphdr_in;
  if hlen <? IP_HLEN then pbuf_free_i custom_free p s
  else
    b ← get (i_heap s) p;
    if pb_len b <? 4 then pbuf_free_i custom_free p s
    else
      type ← payload_read b 0 1 ≫= byte_at;
      if type =? ICMP_ECHO then
        let dest := current_iphdr_dest (ip_data s) in
        if ip4_addr_ismulticast dest then pbuf_free_i custom_free p s
        else
          cur ← current_netif (ip_data s);
          v ← inif s cur;
          if ip4_addr_isbroadcast_u32 dest v then pbuf_free_i custom_free p s
          else if pb_tot_len b <? SIZEOF_ICMP_ECHO_HDR then pbuf_free_i custom_free p s
          else
            '(r, s) ← icmp_echo_pbuf p iphdr_in hlen s;
            match r with
            | None => pbuf_free_i custom_free p s
            | Some p => s ← icmp_echo_reply p hlen inp s; pbuf_free_i custom_free p s
            end
      else pbuf_free_i custom_free p s.

End icmp.

End upper.
