(* ===== verification/Ip4In.v ===== *)
(** IPv4 input: [ip4_input] of [core/ipv4/ip4.c] and [ip_input] of [core/ip.c].
    The protocols above, reassembly ([ip4_frag.c]) and IPv6 are parameters. *)
From S2P Require Import Prelude Bits Def IpAddr Pbuf PbufData Chksum NetifRec Netif XnetTap Ethernet Ip4Addr Etharp IpState NetifLoop Ip4Out Icmp.

Section upper.
  Context {U : Upper}.

Definition set_cur_addrs (src dest : Z) (d : ip_globals) : ip_globals :=
  IpGlobals (current_netif d) (current_input_netif d) (current_ip4_header d) (current_ip_header_tot_len d) src dest.

Definition set_cur_packet (nif inp : option Z) (hdr : option ptr) (hlen : Z) (d : ip_globals) : ip_globals :=
  IpGlobals nif inp hdr hlen (current_iphdr_src d) (current_iphdr_dest d).

(** [dest] is [ip4_current_dest_addr()]. *)
Definition ip4_input_accept (dest : Z) (v : netif) : bool :=
  netif_is_up v && negb (nif_ip_addr v =? IPADDR_ANY) &&
  ((dest =? nif_ip_addr v) || ip4_addr_isbroadcast_u32 dest v).

(** The [NETIF_FOREACH] loop over the interfaces other than [inp]. *)
Fixpoint accept_loop (fuel : nat) (p : option Z) (inp dest : Z) (ns : nstate) : option (option Z) :=
  match p, fuel with
  | None, _ => Some None
  | Some _, O => None
  | Some n, S fuel =>
      v ← nget ns n;
      if n =? inp then accept_loop fuel (nif_next v) inp dest ns
      else if ip4_input_accept dest v then Some (Some n)
      else accept_loop fuel (nif_next v) inp dest ns
  end.

(** The interface the packet is for, if there is one. *)
Definition ip4_input_netif (inp dest : Z) (s : istate) : option (option Z) :=
  v ← inif s inp;
  if ip4_addr_ismulticast dest then
    Some (if netif_is_up v && negb (nif_ip_addr v =? IPADDR_ANY) then Some inp else None)
  else if ip4_input_accept dest v then Some (Some inp)
  else if ip4_addr_isloopback dest then Some None
  else accept_loop (list_fuel (i_net s)) (netif_list (i_net s)) inp dest (i_net s).

Section input.
  Context (custom_free : addr -> heap -> option heap) (buf : list Z) (odd_payload : addr -> pbuf -> bool).
  Context (ip4_frag : addr -> Z -> Z -> istate -> option (Z * istate)).
  (** The complete datagram when the fragment was the last one missing. *)
  Context (ip4_reass : addr -> istate -> option (option addr * istate)).
  Context (udp_input tcp_input : addr -> Z -> istate -> option istate).
  Context (ip6_input : addr -> Z -> istate -> option (Z * istate)).

Definition drop_packet (p : addr) (s : istate) : option (Z * istate) :=
  s ← pbuf_free_i custom_free p s; Some (ERR_OK, s).

(** The [switch] on the protocol. *)
Definition ip4_demux (proto : Z) (p : addr) (hlen nif inp : Z) (s : istate) : option istate :=
  if proto =? IP_PROTO_UDP then udp_input p inp s
  else if proto =? IP_PROTO_TCP then tcp_input p inp s
  else if proto =? IP_PROTO_ICMP then icmp_input custom_free buf odd_payload ip4_frag p inp s
  else
    v ← inif s nif;
    let dest := current_iphdr_dest (ip_data s) in
    s ← (if negb (ip4_addr_isbroadcast_u32 dest v) && negb (ip4_addr_ismulticast dest) then
           '(_, h) ← pbuf_header_force (Some p) hlen (i_heap s);
           icmp_dest_unreach custom_free buf odd_payload ip4_frag p ICMP_DUR_PROTO (iheap h s)
         else Some s);
    pbuf_free_i custom_free p s.

(** The packet is whole and for interface [nif]: the globals are set, the IP
    header removed, the packet handed up, the globals reset. *)
Definition ip4_deliver (p : addr) (hlen nif inp : Z) (s : istate) : option (Z * istate) :=
  b ← get (i_heap s) p;
  let iphdr := (p, pb_payload b) in
  hl ← iph_hl_bytes (i_heap s) iphdr;
  proto ← ptr_read (i_heap s) iphdr 9 1 ≫= byte_at;
  let s := set_ip_data (set_cur_packet (Some nif) (Some inp) (Some iphdr) hl (ip_data s)) s in
  '(_, h) ← pbuf_remove_header (Some p) hlen (i_heap s);
  s ← ip4_demux proto p hlen nif inp (iheap h s);
  Some (ERR_OK, set_ip_data (IpGlobals None None None 0 IPADDR_ANY IPADDR_ANY) s).

(** The length checks passed; [hdr] still points at the header. *)
Definition ip4_input_checked (p : addr) (hdr : ptr) (hlen inp : Z) (s : istate) : option (Z * istate) :=
  dest ← ptr_read (i_heap s) hdr 16 4 ≫= ip4_at;
  src ← ptr_read (i_heap s) hdr 12 4 ≫= ip4_at;
  let s := set_ip_data (set_cur_addrs src dest (ip_data s)) s in
  nif ← ip4_input_netif inp dest s;
  v ← inif s inp;
  if ip4_addr_isbroadcast_u32 src v || ip4_addr_ismulticast src then drop_packet p s
  else match nif with
  | None => drop_packet p s
  | Some nif =>
      off ← ptr_read (i_heap s) hdr 6 2 ≫= u16_of;
      if negb (off .& PP_HTONS (IP_OFFMASK .| IP_MF) =? 0) then
        '(q, s) ← ip4_reass p s;
        match q with
        | None => Some (ERR_OK, s)
        | Some q => ip4_deliver q hlen nif inp s
        end
      else ip4_deliver p hlen nif inp s
  end.

Definition ip4_input (p : addr) (inp : Z) (s : istate) : option (Z * istate) :=
  b ← get (i_heap s) p;
  let iphdr := (p, pb_payload b) in
  v_hl ← ptr_read (i_heap s) iphdr 0 1 ≫= byte_at;
  if negb (v_hl .>> 4 =? 4) then drop_packet p s
  else
    hlen ← iph_hl_bytes (i_heap s) iphdr;
    iphdr_len ← lwip_htons <$> (ptr_read (i_heap s) iphdr 2 2 ≫= u16_of);
    h ← (if iphdr_len <? pb_tot_len b then pbuf_realloc custom_free p iphdr_len (i_heap s) else Some (i_heap s));
    let s := iheap h s in
    b ← get h p;
    if (pb_len b <? hlen) || (pb_tot_len b <? iphdr_len) || (hlen <? IP_HLEN) then drop_packet p s
    else ip4_input_checked p iphdr hlen inp s.

Definition ip_input (p : addr) (inp : Z) (s : istate) : option (Z * istate) :=
  b ← get (i_heap s) p;
  v ← payload_read b 0 1 ≫= byte_at;
  if v .>> 4 =? 6 then ip6_input p inp s else ip4_input p inp s.

End input.

End upper.
