(* ===== verification/Ip4Hdr.v ===== *)
(** The IPv4 header the code builds, and the checksum of an echo reply. *)
From S2P Require Import Prelude Bits Def IpAddr Pbuf PbufData PbufChain Chksum NetifRec Netif XnetTap Ethernet EthernetThm Ip4Addr Etharp EtharpIn.
From S2P Require Import IpState NetifLoop Ip4Out Icmp.

(** The range of the header's fields, as stored. *)
Record hdr_fields (ttl tos proto len id src dest : Z) : Prop := HdrFields {
  hf_ttl : 0 <= ttl < 256; hf_tos : 0 <= tos < 256; hf_proto : 0 <= proto < 256;
  hf_len : 0 <= len < 65536; hf_id : 0 <= id < 65536;
  hf_src : 0 <= src < 2 ^ 32; hf_dest : 0 <= dest < 2 ^ 32;
}.

Lemma htons_range x : 0 <= lwip_htons x < 65536.
Proof. unfold lwip_htons, PP_HTONS. apply Z.mod_pos_bound. lia. Qed.

#[export] Hint Resolve htons_range : cint.

Lemma bytes16_ok v : bytes_ok (bytes16 v).
Proof. apply bytes_ok2; auto with cint. Qed.

Lemma ip4_bytes_ok a : bytes_ok (ip4_bytes a).
Proof. unfold ip4_bytes, bytes_ok. rewrite !Forall_cons. split_and!; auto with cint. Qed.

#[export] Hint Resolve bytes16_ok ip4_bytes_ok : cint.

(** Two bytes as a word. *)
Lemma htons_pair hi lo : byte_ok hi -> byte_ok lo -> PP_HTONS (lo .| (hi .<< 8)) = hi + 256 * lo.
Proof.
  unfold byte_ok. intros Hh Hl. rewrite lor_add_shl by lia. change (2 ^ 8) with 256.
  change PP_HTONS with lwip_htons. rewrite htons_bytes by lia. unfold byte_of. change (8 * 0) with 0; change (8 * 1) with 8.
  change (2 ^ 0) with 1; change (2 ^ 8) with 256. zdm; lia.
Qed.

Lemma u16_word x : 0 <= x < 65536 -> byte_of x 0 + 256 * byte_of x 1 = x.
Proof. intros; symmetry; by apply bytes_of_u16. Qed.

Lemma u32_words x : 0 <= x < 2 ^ 32 ->
  (x .& 0xFFFF) = byte_of x 0 + 256 * byte_of x 1 /\ (x .>> 16) = byte_of x 2 + 256 * byte_of x 3.
Proof.
  intros Hx. rewrite land_65535, shr_div by lia. pose proof (bytes_of_u32 x ltac:(lia)) as E.
  pose proof (byte_of_range x 0). pose proof (byte_of_range x 1). pose proof (byte_of_range x 2). pose proof (byte_of_range x 3).
  change (2 ^ 16) with 65536. split; zdm; lia.
Qed.

Lemma hdr_bytes_len ttl tos proto len id c src dest : zlen (ip4_hdr_bytes ttl tos proto len id c src dest) = IP_HLEN.
Proof. done. Qed.

Lemma hdr_bytes_ok ttl tos proto len id c src dest :
  0 <= tos < 256 -> bytes_ok (ip4_hdr_bytes ttl tos proto len id c src dest).
Proof.
  intros. unfold ip4_hdr_bytes, bytes16, ip4_bytes, bytes_ok. cbn [app]. rewrite !Forall_cons.
  split_and!; auto with cint; try done; unfold byte_ok; try lia; apply Z.mod_pos_bound; lia.
Qed.

(** The sum of the header's words with a zero checksum, in the order of the code. *)
Lemma hdr_wsum ttl tos proto len id src dest :
  hdr_fields ttl tos proto len id src dest ->
  wsum (ip4_hdr_bytes ttl tos proto len id 0 src dest) =
    PP_HTONS (proto .| (ttl .<< 8)) + (dest .& 0xFFFF) + (dest .>> 16) + PP_HTONS (tos .| (ip4_v_hl .<< 8)) + len + id +
    (src .& 0xFFFF) + (src .>> 16).
Proof.
  intros []. destruct (u32_words src) as [-> ->]; [done|]. destruct (u32_words dest) as [-> ->]; [done|].
  rewrite !htons_pair by (done || unfold byte_ok; lia). unfold ip4_hdr_bytes, bytes16, ip4_bytes. cbn [app wsum].
  rewrite !u8_small by lia. rewrite !u16_word by lia. change (byte_of 0 0) with 0. change (byte_of 0 1) with 0. lia.
Qed.

(** The two folds and the complement. *)
Lemma lnot_u16 x : 0 <= x < 65536 -> u16 (Z.lnot x) = 65535 - x.
Proof. intros. rewrite <- complement16 by lia. by rewrite land_65535, Z.mod_small by lia. Qed.

Lemma lnot_u32 x : 0 <= x < 2 ^ 32 -> u16 (u32 (Z.lnot x)) = 65535 - x mod 65536.
Proof.
  intros. unfold u32, Z.lnot. rewrite <- (Z.mod_unique (Z.pred (- x)) (2 ^ 32) (-1) (2 ^ 32 - 1 - x)) by lia.
  unfold u16. change (2 ^ 16) with 65536. change (2 ^ 32) with (65536 * 65536) in *. zdm; lia.
Qed.

Lemma fold_inline s :
  0 <= s < 10 * 65536 ->
  let c := u32 ((s .>> 16) + (s .& 0xFFFF)) in u16 (u32 (Z.lnot (u32 ((c .>> 16) + c)))) = u16 (Z.lnot (ones s)).
Proof.
  intros Hs. cbn zeta. rewrite !shr_div, land_65535 by lia. change (2 ^ 16) with 65536.
  rewrite (u32_small (s / 65536 + _)) by (zdm; lia). set (c := s / 65536 + s mod 65536).
  assert (Hc : 0 <= c <= 65535 + 9) by (unfold c; zdm; lia). rewrite (u32_small (c / 65536 + c)) by (zdm; lia).
  assert (Eo : oc c s).
  { unfold c. rewrite <- fold_val by lia. apply fold_oc; [lia|]. apply oc_refl; lia. }
  assert (E : (c / 65536 + c) mod 65536 = ones s).
  { apply oc_ones; [|pose proof (Z.mod_pos_bound (c / 65536 + c) 65536); lia]. destruct Eo as [O1 O2 O3 O4].
    destruct (Z.ltb_spec c 65536).
    - rewrite (Z.div_small c), (Z.mod_small (0 + c)) by lia. rewrite Z.add_0_l. by constructor.
    - assert (c / 65536 = 1) as -> by (symmetry; apply (Z.div_unique _ _ _ (c - 65536)); lia).
      assert ((1 + c) mod 65536 = c - 65535) as -> by (symmetry; apply (Z.mod_unique _ _ 1); lia).
      constructor; [lia|lia| |lia]. rewrite <- O3. symmetry. rewrite <- (Z.mod_add (c - 65535) 1) by lia. f_equal; lia. }
  rewrite lnot_u32, lnot_u16 by (pose proof (ones_range s); zdm; lia). by rewrite E.
Qed.

(** The inline checksum is the checksum of the header with a zero checksum
    field. *)
Lemma hdr_chksum_inline odd ttl tos proto len id src dest :
  hdr_fields ttl tos proto len id src dest ->
  inet_chksum odd (ip4_hdr_bytes ttl tos proto len id 0 src dest) IP_HLEN = Some (ip4_hdr_chksum ttl tos proto len id src dest).
Proof.
  intros Hf. pose proof (hdr_wsum _ _ _ _ _ _ _ Hf) as Hw. pose proof Hf as [].
  unfold inet_chksum. rewrite <- (hdr_bytes_len ttl tos proto len id 0 src dest).
  rewrite lwip_standard_chksum_ok by (done || by apply hdr_bytes_ok). cbn [mbind option_bind]. f_equal.
  unfold ip4_hdr_chksum. rewrite Hw.
  pose proof (htons_range (proto .| (ttl .<< 8))) as R1. pose proof (htons_range (tos .| (ip4_v_hl .<< 8))) as R2. unfold lwip_htons in R1, R2.
  assert (0 <= dest .& 0xFFFF < 65536 /\ 0 <= src .& 0xFFFF < 65536) as [] by (rewrite !land_65535; split; apply Z.mod_pos_bound; lia).
  assert (0 <= dest .>> 16 < 65536 /\ 0 <= src .>> 16 < 65536) as [] by (rewrite !shr_div by lia; change (2 ^ 16) with 65536; split; zdm; lia).
  rewrite <- fold_inline by lia. cbn zeta.
  set (w := _ + (src .>> 16)). match goal with |- context [u32 (?x + (src .>> 16))] => assert (u32 (x + (src .>> 16)) = w) as -> end; [|done].
  clear Hw. unfold u32. repeat match goal with |- context [?x mod 2 ^ 32] => rewrite (Z.mod_small x) by lia end. subst w. lia.
Qed.

(** A receiver's check of the header succeeds. *)
Lemma hdr_verifies odd ttl tos proto len id src dest :
  hdr_fields ttl tos proto len id src dest ->
  inet_chksum odd (ip4_hdr_bytes ttl tos proto len id (ip4_hdr_chksum ttl tos proto len id src dest) src dest) IP_HLEN = Some 0.
Proof.
  intros Hf. pose proof (hdr_chksum_inline odd _ _ _ _ _ _ _ Hf) as Hc. pose proof Hf as [].
  set (c := ip4_hdr_chksum _ _ _ _ _ _ _) in *.
  set (pre := [ip4_v_hl; tos] ++ bytes16 len ++ bytes16 id ++ bytes16 0 ++ [u8 ttl; u8 proto]). set (post := ip4_bytes src ++ ip4_bytes dest).
  pose proof (hdr_bytes_ok ttl tos proto len id 0 src dest hf_tos0) as Hb.
  change (ip4_hdr_bytes ttl tos proto len id 0 src dest) with (pre ++ [0; 0] ++ post) in Hb, Hc.
  change (ip4_hdr_bytes ttl tos proto len id c src dest) with (pre ++ [byte_of c 0; byte_of c 1] ++ post).
  apply bytes_ok_app in Hb as [Hb1 Hb2]. apply bytes_ok_app in Hb2 as [_ Hb2].
  exact (inet_chksum_verifies odd pre post c Hb1 Hb2 eq_refl ltac:(done) Hc).
Qed.

(** ** Echo replies *)
Lemma chksum_zero odd data :
  bytes_ok data -> zlen data <= 131072 ->
  (inet_chksum odd data (zlen data) = Some 0 <-> 0 < wsum data /\ wsum data mod 65535 = 0).
Proof.
  intros Hb Hl. unfold inet_chksum. rewrite lwip_standard_chksum_ok by done. cbn [mbind option_bind].
  pose proof (ones_range (wsum data)) as Ho. pose proof (wsum_bound data Hb) as [Hw _]. rewrite lnot_u16 by lia.
  unfold ones in *. destruct (Z.eqb_spec (wsum data) 0) as [E|E].
  - split; [intros [= ?]; lia|lia].
  - assert (Hm : (wsum data - 1) mod 65535 = 65534 <-> wsum data mod 65535 = 0) by (zdm; lia).
    split; [intros [= ?]; split; [lia|apply Hm; lia]|]. intros [_ H]. apply Hm in H. f_equal. lia.
Qed.

Lemma echo_chksum_val c :
  0 <= c < 65536 -> 0 <= echo_chksum c < 65536 /\ echo_chksum c = c + 8 - (if 0xfff7 <? c then 65535 else 0).
Proof.
  intros Hc. unfold echo_chksum. change (PP_HTONS (0xffff - (ICMP_ECHO .<< 8))) with 0xfff7. change (PP_HTONS (ICMP_ECHO .<< 8)) with 8.
  unfold u16. change (2 ^ 16) with 65536. destruct (Z.ltb_spec 0xfff7 c); zdm; lia.
Qed.

(** The adjusted checksum of the reply is right exactly when the request's was. *)
Lemma echo_verifies odd odd' code c rest :
  bytes_ok (code :: rest) -> 0 <= c < 65536 -> zlen rest <= 65535 ->
  let request := ICMP_ECHO :: code :: bytes16 c ++ rest in
  let reply := ICMP_ER :: code :: bytes16 (echo_chksum c) ++ rest in
  inet_chksum odd' reply (zlen reply) = Some 0 <-> inet_chksum odd request (zlen request) = Some 0.
Proof.
  intros Hb Hc Hl request reply. destruct (echo_chksum_val c Hc) as [Hr Ev].
  apply Forall_cons in Hb as [Hcode Hrest]. pose proof (wsum_bound rest Hrest) as [Hw _].
  assert (Hlen : zlen request = 4 + zlen rest /\ zlen reply = 4 + zlen rest) by (split; unfold request, reply, zlen; cbn; lia).
  rewrite !chksum_zero by (try lia; unfold request, reply; repeat apply Forall_cons_2; auto with cint; unfold byte_ok, ICMP_ECHO, ICMP_ER; lia).
  unfold request, reply, bytes16. cbn [app wsum]. rewrite !u16_word, Ev by lia. unfold byte_ok, ICMP_ECHO, ICMP_ER in *.
  destruct (Z.ltb_spec 0xfff7 c).
  - replace (0 + 256 * code + (c + 8 - 65535 + wsum rest)) with (8 + 256 * code + (c + wsum rest) + -1 * 65535) by lia.
    rewrite Z.mod_add by lia. split; intros [? ?]; (split; [lia|done]).
  - replace (0 + 256 * code + (c + 8 - 0 + wsum rest)) with (8 + 256 * code + (c + wsum rest)) by lia. done.
Qed.
