(* ===== verification/IpEnv.v ===== *)
(** What the IP layer works with: the stack's invariant for the packets its
    callers hold, the interfaces it can send through, and what an operation of
    the IP layer leaves alone. *)
From S2P Require Import Prelude Bits Def IpAddr Pbuf PbufData PbufChain PbufIO PbufLife PbufCopy PbufOwn PbufHdr NetifRec Netif NetifThm.
From S2P Require Import XnetTap XnetTapThm Ethernet EthernetThm Ip4Addr Etharp EtharpTable EtharpOps EtharpOut EtharpSend EtharpIn EtharpNet.
From S2P Require Import IpState NetifLoop NetifLoopThm Ip4Out.

Section env.
  Context {U : Upper}.

(** [H] are the references the callers hold, next to those of the layers above. *)
Definition istk (H : list addr) (cs : addr -> list (addr * pbuf)) (s : istate) : Prop :=
  exists F lo, stack F lo (H ++ held (i_up s)) cs s /\ up_ok (i_up s).

Definition istack (H : list addr) (s : istate) : Prop := exists cs, istk H cs s.

(** An interface that packets can be sent through. *)
Definition out_ok (x : xstate) (n : Z) (v : netif) : Prop :=
  nif_output v <> output_unset /\ (nif_output v = NetifRec.etharp_output -> exists tap, tap_nif x n v tap).

(** The interfaces [l] are the registered ones. *)
Record ip_env (l : list Z) (s : istate) : Prop := IpEnv {
  env_list : nlist (i_net s) (netif_list (i_net s)) l;
  env_nodup : NoDup l;
  env_default : match netif_default (i_net s) with Some d => d ∈ l | None => True end;
  env_mcast : match ip4_default_multicast_netif s with Some d => d ∈ l | None => True end;
  env_nif : forall n v, n ∈ l -> inif s n = Some v -> out_ok (l_x (i_l s)) n v;
  env_hint : forall n v, n ∈ l -> inif s n = Some v -> hint_ok (i_l s) v;
}.

(** ** What stays *)
Record isame (s s' : istate) : Prop := ISame {
  is_x : exists h evs ns, l_x (i_l s') = out evs (set_heap h (set_net ns (l_x (i_l s))));
  is_hints : hints_le (l_hints (i_l s)) (l_hints (i_l s'));
  is_nif : forall n, unloop <$> inif s' n = unloop <$> inif s n;
  is_list : netif_list (i_net s') = netif_list (i_net s);
  is_default : netif_default (i_net s') = netif_default (i_net s);
  is_mcast : ip4_default_multicast_netif s' = ip4_default_multicast_netif s;
}.

#[export] Instance isame_refl : Reflexive isame.
Proof.
  intros s. split; try done; try reflexivity. exists (i_heap s), [], (i_net s). destruct s as [[[] ? ?] ? ? ? ? ? ?]; cbn. unfold out; cbn. by rewrite app_nil_r.
Qed.

Lemma out_out x e h ns e' h' ns' :
  out e' (set_heap h' (set_net ns' (out e (set_heap h (set_net ns x))))) = out (e ++ e') (set_heap h' (set_net ns' x)).
Proof. destruct x. cbv -[app]. by rewrite app_assoc. Qed.

#[export] Instance isame_trans : Transitive isame.
Proof.
  intros s1 s2 s3 [(h & e & ns & E1) ? ? ? ? ?] [(h' & e' & ns' & E2) ? ? ? ? ?]. split; try congruence; [|by etransitivity].
  exists h', (e ++ e'), ns'. rewrite E2, E1. apply out_out.
Qed.

Lemma ikeeps_same s s' : ikeeps s s' -> isame s s'.
Proof.
  intros HK. pose proof (ik_x _ _ HK) as Ex. destruct HK as [? Eh]. split; try done; [|by rewrite Eh].
  exists (i_heap s'), [], (i_net s'). rewrite <- Ex. unfold out, set_heap, set_net, i_net; cbn.
  rewrite app_nil_r. by destruct s' as [[[] ? ?] ? ? ? ? ? ?].
Qed.

Lemma lsame_same s l' : lsame (i_l s) l' -> isame s (ilink l' s).
Proof.
  intros HL. pose proof (lsame_net _ _ HL) as Hn. destruct HL as [(h & e & E) Hh].
  assert (Hi : i_net (ilink l' s) = i_net s) by exact Hn.
  split; try done; [|intros n; unfold inif|..]; rewrite ?Hi; try done.
  exists h, e, (i_net s). cbn. rewrite E. by destruct s as [[[] ? ?] ? ? ? ? ? ?].
Qed.

Lemma heap_same h s : isame s (iheap h s).
Proof. apply ikeeps_same, ikeeps_heap. Qed.

Lemma data_same d s : isame s (set_ip_data d s).
Proof. split; try done. apply (is_x s s). reflexivity. Qed.

Lemma id_same d s : isame s (set_ip_id d s).
Proof. split; try done. apply (is_x s s). reflexivity. Qed.

Lemma unloop_eq v v' : unloop v = unloop v' ->
  link_same v v' /\ nif_output v = nif_output v' /\ nif_next v = nif_next v' /\ nif_hints v = nif_hints v' /\
  nif_ip_addr v = nif_ip_addr v' /\ nif_mtu v = nif_mtu v' /\ nif_flags v = nif_flags v' /\ nif_netmask v = nif_netmask v' /\ nif_gw v = nif_gw v'.
Proof.
  intros E. pose proof (fun A (f : netif -> A) => f_equal f E) as Hf. unfold link_same.
  split_and!; [exact (eq_sym (Hf _ nif_linkoutput))|exact (eq_sym (Hf _ nif_hwaddr))|exact (eq_sym (Hf _ nif_state))|exact (Hf _ nif_output)|exact (Hf _ nif_next)|
    exact (Hf _ nif_hints)|exact (Hf _ nif_ip_addr)|exact (Hf _ nif_mtu)|exact (Hf _ nif_flags)|exact (Hf _ nif_netmask)|exact (Hf _ nif_gw)].
Qed.

Lemma same_nif s s' n v : isame s s' -> inif s n = Some v -> exists v', inif s' n = Some v' /\ unloop v' = unloop v.
Proof.
  intros HS Hv. pose proof (is_nif _ _ HS n) as E. rewrite Hv in E.
  destruct (inif s' n) as [v'|]; [|done]. exists v'. split; [done|]. exact (inj Some _ _ E).
Qed.

Lemma same_nif_inv s s' n v' : isame s s' -> inif s' n = Some v' -> exists v, inif s n = Some v /\ unloop v' = unloop v.
Proof.
  intros HS Hv. pose proof (is_nif _ _ HS n) as E. rewrite Hv in E.
  destruct (inif s n) as [v|]; [|done]. exists v. split; [done|]. exact (inj Some _ _ E).
Qed.

Lemma same_tap s s' n v v' tap :
  isame s s' -> inif s' n = Some v' -> unloop v' = unloop v -> tap_nif (l_x (i_l s)) n v tap -> tap_nif (l_x (i_l s')) n v' tap.
Proof.
  intros HS Hv' Hu (_ & Hl & Hh & slot & Hsl & Ht). destruct (unloop_eq _ _ Hu) as ((E1 & E2 & E3) & _).
  split; [exact Hv'|]. rewrite <- E1, <- E2, <- E3. split; [done|]. split; [done|]. exists slot. split; [done|].
  destruct HS as [(h & e & ns & ->) _ _ _ _ _]. exact Ht.
Qed.

Lemma same_env l s s' : isame s s' -> ip_env l s -> ip_env l s'.
Proof.
  intros HS [E1 E2 E3 E4 E5 E6]. pose proof HS as [_ Hh _ Hl Hd Hm]. split; rewrite ?Hl, ?Hd, ?Hm; try done.
  - eapply nlist_frame; [|exact E1]. intros n Hn. pose proof (is_nif _ _ HS n) as E. unfold inif in E.
    destruct (nget (i_net s') n) as [v'|], (nget (i_net s) n) as [v|]; try done. apply (inj Some) in E.
    destruct (unloop_eq v' v) as (_ & _ & En & _); [exact E|]. cbn. by rewrite En.
  - intros n v' Hn Hv'. destruct (same_nif_inv _ _ _ _ HS Hv') as (v & Hv & Hu). destruct (E5 n v Hn Hv) as [Ho Ht].
    destruct (unloop_eq _ _ Hu) as (_ & Eo & _). unfold out_ok. rewrite Eo. split; [done|]. intros He. destruct (Ht He) as [tap Htap].
    exists tap. by eapply same_tap.
  - intros n v' Hn Hv'. destruct (same_nif_inv _ _ _ _ HS Hv') as (v & Hv & Hu). pose proof (E6 n v Hn Hv) as Hok.
    destruct (unloop_eq _ _ Hu) as (_ & _ & _ & Eh & _). unfold hint_ok in *. rewrite Eh. intros p Hp.
    destruct (Hok p Hp) as (c & Hc & ?). eauto.
Qed.

Lemma env_get l s n : ip_env l s -> n ∈ l -> exists v, inif s n = Some v.
Proof. intros [E _ _ _ _ _] Hn. by eapply nlist_get. Qed.

End env.

#[export] Hint Resolve heap_same data_same id_same : arp.
