(* ===== verification/IpRes.v ===== *)
(** The operations on pbufs and the interfaces' output functions, as the IP
    layer uses them: what they do to the packets in use. *)
From S2P Require Import Prelude Bits Def IpAddr Pbuf PbufData PbufChain PbufIO PbufLife PbufCopy PbufOwn PbufHdr NetifRec Netif NetifThm.
From S2P Require Import XnetTap XnetTapThm Ethernet EthernetThm Ip4Addr Etharp EtharpTable EtharpOps EtharpOut EtharpSend EtharpIn EtharpNet.
From S2P Require Import IpState NetifLoop NetifLoopThm Ip4Out IpEnv.

Section res.
  Context {U : Upper}.

Lemma istk_ext H cs s s' : i_l s' = i_l s -> i_up s' = i_up s -> istk H cs s -> istk H cs s'.
Proof. intros El Eu (F & lo & HS & HU). exists F, lo. rewrite Eu. split; [by eapply stack_ext|done]. Qed.

Lemma istk_data H cs d s : istk H cs s -> istk H cs (set_ip_data d s).
Proof. by apply istk_ext. Qed.

Lemma istk_id H cs d s : istk H cs s -> istk H cs (set_ip_id d s).
Proof. by apply istk_ext. Qed.

(** A change of the store. *)
Lemma istk_heap H H' cs cs' s h' :
  istk H cs s ->
  (forall (F : Frame), owned (F := F) (i_heap s) cs ((H ++ held (i_up s)) ++ queued (l_arp (i_l s))) -> heap_wf (i_heap s) ->
    owned (F := F) h' cs' ((H' ++ held (i_up s)) ++ queued (l_arp (i_l s))) /\ heap_wf h') ->
  istk H' cs' (iheap h' s).
Proof.
  intros (F & lo & HS & HU) Hh. pose proof HS as [[Ht HO Hwf Hn] _]. destruct (Hh F HO Hwf) as [HO' Hwf'].
  exists F, lo. split; [|done]. apply (stack_link F lo _ _ cs cs' s (lheap h' (i_l s)) HS); [|done]. by split.
Qed.

Lemma istk_wf H cs s : istk H cs s -> heap_wf (i_heap s).
Proof. by intros (F & lo & [[_ _ ? _] _] & _). Qed.

Lemma istk_owned H cs s : istk H cs s -> exists F : Frame, owned (i_heap s) cs ((H ++ held (i_up s)) ++ queued (l_arp (i_l s))).
Proof. intros (F & lo & [[_ ? _ _] _] & _). by exists F. Qed.

(** A packet somebody holds. *)
Lemma istk_packet H cs s p :
  istk H cs s -> p ∈ H ->
  exists b t, cs p = (p, b) :: t /\ get (i_heap s) p = Some b /\ packet (i_heap s) (Some p) ((p, b) :: t) /\ pb_std b /\ pb_ok b /\
    pb_tot_len b = pb_len b + sum_len t /\ 0 <= sum_len t.
Proof.
  intros (F & HO)%istk_owned Hp. assert (Hp' : p ∈ (H ++ held (i_up s)) ++ queued (l_arp (i_l s))) by set_solver.
  pose proof (owned_packet _ _ _ HO p Hp') as Hk. destruct (std_packet_head _ _ _ Hk) as (b & t & Ec & Hg). destruct Hk as (Hk & Hs & _).
  rewrite Ec in Hk, Hs. pose proof (packet_cons _ _ _ _ Hk) as (_ & Hb & _ & Ht & [_ _ Ho _ _]).
  apply Forall_cons in Hs as [Hs _]. exists b, t. split_and!; try done. by apply sum_len_nonneg.
Qed.

Lemma packet_tot_bound h p b t : packet h (Some p) ((p, b) :: t) -> pb_tot_len b < 65536.
Proof. intros Hk. pose proof (packet_cons _ _ _ _ Hk) as (_ & _ & _ & Ht & _). destruct Hk as [_ _ _ _ Hl]. cbn [sum_len] in Hl. lia. Qed.

Lemma istk_put H cs s p b t b' :
  istk H cs s -> p ∈ H -> cs p = (p, b) :: t -> pb_ok b' -> pb_std b' -> pb_next b' = pb_next b -> pb_ref b' = pb_ref b ->
  pb_tot_len b' = pb_len b' + sum_len t -> pb_tot_len b' < 65536 ->
  istk H (cs_set p ((p, b') :: t) cs) (iheap (put (i_heap s) p b') s).
Proof.
  intros HS Hp Ec Hok Hstd Hnx Hr Ht Hl. destruct (istk_packet _ _ _ _ HS Hp) as (b0 & t0 & _ & Hg & _).
  eapply istk_heap; [exact HS|]. intros F HO Hwf. split; [|by eapply heap_wf_put].
  eapply owned_head; try done. set_solver.
Qed.

(** Only the packets in use matter. *)
Lemma istk_cs H cs cs' s : (forall x, cs' x = cs x) -> istk H cs s -> istk H cs' s.
Proof.
  intros Hx (F & lo & [[Ht [O1 O2 O3 O4 O5] Hwf Hn] HL] & HU). exists F, lo. split; [|done]. split; [|done]. split; try done. split.
  - intros p Hp. rewrite Hx. auto.
  - done.
  - intros p p' Hp Hp' Hne. rewrite !Hx. auto.
  - intros a b Ha. destruct (O4 a b Ha) as [? Hout]. split; [done|]. intros p Hp. rewrite Hx. auto.
  - intros a Ha. destruct (O5 a Ha) as [?|(p & Hp & ?)]; [by left|]. right. exists p. by rewrite Hx.
Qed.

Lemma cs_set_set p k k' cs x : cs_set p k (cs_set p k' cs) x = cs_set p k cs x.
Proof. unfold cs_set. by case_decide. Qed.

Lemma put_put h a b b' : put (put h a b) a b' = put h a b'.
Proof. unfold put; cbn. by rewrite insert_insert_eq. Qed.

(** Overwriting the first pbuf's payload. *)
Lemma istk_patch H cs s p b t b' :
  istk H cs s -> p ∈ H -> cs p = (p, b) :: t -> patched b b' -> pb_ok b' ->
  istk H (cs_set p ((p, b') :: t) cs) (iheap (put (i_heap s) p b') s).
Proof.
  intros HS Hp Ec (m & -> & Hm) Hok. destruct (istk_packet _ _ _ _ HS Hp) as (b0 & t0 & E0 & Hg & Hk & Hstd & Hb & Ht & _).
  rewrite Ec in E0. injection E0 as <- <-. eapply istk_put; try done; cbn.
  destruct Hk as [_ _ _ _ Hl]. cbn [sum_len] in Hl. lia.
Qed.

Lemma istk_perm H H' cs s : Permutation H H' -> istk H cs s -> istk H' cs s.
Proof.
  intros HP (F & lo & [HI HL] & HU). exists F, lo. split; [|done]. split; [|done]. eapply arp_inv_perm; [|exact HI]. by rewrite HP.
Qed.

(** Copying a held packet into a held pbuf. *)
Lemma istk_copy H cs s r rb p :
  istk H cs s -> r ∈ H -> p ∈ H -> r <> p -> cs r = [(r, rb)] -> no_empty (cs p) -> sum_len (cs p) <= pb_len rb ->
  exists h' rb', pbuf_copy (Some r) (Some p) (i_heap s) = Some (ERR_OK, h') /\ patched rb rb' /\ pb_ok rb' /\
    pb_bytes rb' = content (cs p) ++ zdrop (sum_len (cs p)) (pb_bytes rb) /\
    istk H (cs_set r [(r, rb')] cs) (iheap h' s) /\ get h' r = Some rb'.
Proof.
  intros HS Hr Hp Hne Ec Hem Hsum. destruct (istk_packet _ _ _ _ HS Hr) as (b0 & t0 & E0 & Hg & Hk & Hstd & Hb & Ht & _).
  rewrite Ec in E0. injection E0 as <- <-. cbn in Ht. destruct (istk_packet _ _ _ _ HS Hp) as (pb & t & Ecp & Hgp & Hkp & _).
  destruct (istk_owned _ _ _ HS) as (F & HO).
  assert (Hnx : pb_next rb = None) by (destruct Hk as [(_ & _ & Hn) _ _ _ _]; exact Hn).
  assert (Hrp : r ∉ fst <$> cs p).
  { intros Hin. apply (owned_sep _ _ _ HO r p ltac:(set_solver) ltac:(set_solver) Hne r); [rewrite Ec; set_solver|done]. }
  rewrite <- Ecp in Hkp. destruct (pbuf_copy_single (i_heap s) r rb p (cs p) Hg Hb Hnx ltac:(lia) Hkp Hem Hrp Hsum)
    as (h' & rb' & E & Hg' & (_ & m & Em & Hm) & Hby & Hnext & Hfr). cbn in Em, Hm.
  assert (HP : patched rb rb') by by exists m.
  assert (Hok' : pb_ok rb') by (subst rb'; unfold pb_ok in *; cbn; by rewrite Hm).
  exists h', rb'. split_and!; try done. eapply istk_heap; [exact HS|]. intros F' HO' Hwf. split.
  - apply (owned_same (put (i_heap s) r rb')).
    + intros a. destruct (decide (a = r)) as [->|]; [by rewrite get_put_eq|by rewrite get_put_ne, Hfr].
    + eapply owned_head; try done; [set_solver|..]; subst rb'; try done; cbn; try lia. destruct Hb; lia.
  - intros x c Hx. rewrite Hnext. destruct (decide (x = r)) as [->|]; [by eapply Hwf|]. rewrite Hfr in Hx by done. by eapply Hwf.
Qed.

Lemma istk_free cf p H cs s :
  istk (p :: H) cs s ->
  exists h' cs', pbuf_free_i cf p s = Some (iheap h' s) /\ istk H cs' (iheap h' s) /\ (forall q, q <> p -> cs' q = cs q) /\
    h_orc h' = h_orc (i_heap s).
Proof.
  intros (F & lo & HS & HU). pose proof HS as [[Ht HO Hwf Hn] _].
  destruct (pbuf_free_owned cf _ cs p _ HO Hwf) as (n & h' & cs' & E & HO' & Hwf' & _ & _ & Hcs & Ho). exists h', cs'.
  split; [unfold pbuf_free_i; change (i_heap s) with (l_heap (i_l s)); by rewrite E|]. split; [|done].
  exists F, lo. split; [|done]. apply (stack_link F lo _ _ cs cs' s (lheap h' (i_l s)) HS); [|done]. by split.
Qed.

(** A new pbuf from the C heap, of which we hold the only reference. *)
Definition fresh_pbuf (layer len : Z) (b : pbuf) : Prop :=
  pb_ok b /\ pb_std b /\ pb_ref b = 1 /\ pb_len b = len /\ pb_tot_len b = len /\ pb_payload b = align4 layer /\ pb_next b = None /\
  pb_type b = u8 PBUF_RAM.

Lemma istk_alloc cf layer len H cs s :
  istk H cs s -> 0 <= layer <= 74 -> 0 <= len < 65536 ->
  exists r h', pbuf_alloc cf layer len PBUF_RAM (i_heap s) = Some (r, h') /\
    match r with
    | None => istk H cs (iheap h' s)
    | Some q => exists b, istk (q :: H) (cs_set q [(q, b)] cs) (iheap h' s) /\ (q ∉ H ++ held (i_up s)) /\ fresh_pbuf layer len b /\
        get h' q = Some b /\ get (i_heap s) q = None /\ (forall a, a <> q -> get h' a = get (i_heap s) a)
    end.
Proof.
  intros HS Hl Hn. destruct (pbuf_alloc_ram_single cf layer len (i_heap s) (istk_wf _ _ _ HS)) as (r & h' & E & Hwf' & Hr); [lia..|].
  exists r, h'. split; [done|]. destruct r as [q|]; last first.
  { eapply istk_heap; [exact HS|]. intros F HO _. split; [|done]. eapply owned_same; [|exact HO]. intros a. unfold get. by rewrite Hr. }
  destruct Hr as (b & Hfree & Hg & (Hbok & Hbstd & Hbref) & Hlen & Htl & Hnx & Hpay & Hty & Hfr). exists b.
  pose proof (packet_single h' q b Hg Hbok Hnx ltac:(lia)) as Hpq.
  split; [|split; [|split; [by split_and!|done]]].
  - eapply istk_heap; [exact HS|]. intros F HO _. split; [|done]. by eapply owned_fresh.
  - destruct (istk_owned _ _ _ HS) as (F & HO). destruct (owned_fresh _ h' _ _ q b HO Hfree Hfr Hpq Hbstd Hbref) as [_ Hq]. set_solver.
Qed.

(** Shrinking a held packet. *)
Lemma istk_realloc cf H cs s p b t n :
  istk H cs s -> p ∈ H -> cs p = (p, b) :: t -> 0 <= n < pb_tot_len b ->
  exists h' b' t', pbuf_realloc cf p n (i_heap s) = Some h' /\ istk H (cs_set p ((p, b') :: t') cs) (iheap h' s) /\ get h' p = Some b' /\
    content ((p, b') :: t') = ztake n (content (cs p)) /\ trimmed (p, b) (p, b') /\ (no_empty t -> no_empty t') /\ pb_len b' = Z.min (pb_len b) n.
Proof.
  intros HS Hp Ec Hn. destruct (istk_packet _ _ _ _ HS Hp) as (b0 & t0 & E0 & _ & _ & _ & _ & Ht & _). rewrite Ec in E0. injection E0 as <- <-.
  destruct HS as (F & lo & HS & HU). pose proof HS as [[Htb HO Hwf Hnf] _].
  destruct (pbuf_realloc_owned cf _ cs _ p b t n HO Hwf ltac:(set_solver) Ec) as (h' & b' & t' & E & HO' & Hwf' & Hg' & Hrest);
    [rewrite Ec; cbn [sum_len]; lia|].
  exists h', b', t'. split; [done|]. split; [|done].
  exists F, lo. split; [|done]. apply (stack_link F lo _ _ cs _ s (lheap h' (i_l s)) HS); [|done]. by split.
Qed.

(** ** Sending *)
Lemma istk_loop_output cf H cs s nif p v :
  istk (p :: H) cs s -> inif s nif = Some v -> no_empty (cs p) ->
  exists r s' cs', netif_loop_output cf nif p s = Some (r, s') /\ istk (p :: H) cs' s' /\
    (forall q, q ∈ p :: H -> cs' q = cs q) /\ ikeeps s s' /\ (r = ERR_OK \/ r = ERR_MEM).
Proof.
  intros (F & lo & HS & HU) Hv Hne.
  destruct (netif_loop_output_spec cf F lo (H ++ held (i_up s)) cs s nif p v HS Hv Hne)
    as (r & s' & F' & lo' & E & (cs' & HS' & Hcs) & HK & Hr).
  exists r, s', cs'. split; [done|]. split; [|split; [|split; [done|destruct Hr as [[? _]|[? _]]; auto]]].
  - exists F', lo'. by rewrite (ik_up _ _ HK).
  - intros q Hq. apply Hcs. set_solver.
Qed.

Context (custom_free : addr -> heap -> option heap) (buf : list Z) (Hbuf : zlen buf = 2048).

Lemma istk_etharp_output H cs s nif p dest v tap :
  istk (p :: H) cs s -> tap_nif (l_x (i_l s)) nif v tap -> sendable_ref (i_heap s) cs p -> hint_ok (i_l s) v ->
  exists r s' cs', lift (etharp_output custom_free buf nif p dest) s = Some (r, s') /\ istk (p :: H) cs' s' /\ isame s s'.
Proof using Hbuf.
  intros (F & lo & HS & HU) Hnif Hsr Hh. pose proof HS as [HI _].
  destruct (etharp_output_ok custom_free buf Hbuf (H ++ held (i_up s)) cs (i_l s) nif p dest v tap HI Hnif Hsr Hh)
    as (r & l' & cs' & E & HI' & _). pose proof (etharp_output_same _ _ _ _ _ _ _ _ E) as Hl.
  exists r, (ilink l' s), cs'. split; [unfold lift; by rewrite E|]. split; [|by apply lsame_same].
  exists F, lo. split; [|done]. eapply stack_link; [exact HS|done|by apply lsame_net].
Qed.

(** Whatever the interface's output function is. *)
Lemma netif_output_ok l H cs s nif p dest :
  istk (p :: H) cs s -> ip_env l s -> nif ∈ l -> sendable_ref (i_heap s) cs p ->
  exists r s' cs', netif_output custom_free buf nif p dest s = Some (r, s') /\ istk (p :: H) cs' s' /\ isame s s'.
Proof using Hbuf.
  intros HS HE Hin Hsr. destruct (env_get _ _ _ HE Hin) as [v Hv]. destruct (env_nif _ _ HE _ _ Hin Hv) as [Ho Ht].
  unfold netif_output. rewrite Hv; cbn [mbind option_bind]. destruct (nif_output v) eqn:Eo; [done|..].
  - exists ERR_IF, s, cs. split; [done|]. split; [done|]. reflexivity.
  - destruct (istk_loop_output custom_free H cs s nif p v HS Hv (proj1 Hsr)) as (r & s' & cs' & E & HS' & _ & HK & _).
    exists r, s', cs'. auto using ikeeps_same.
  - destruct (Ht eq_refl) as [tap Htap]. eapply istk_etharp_output; eauto. by eapply env_hint.
Qed.

End res.
