(* ===== verification/Ip4OutThm.v ===== *)
(** Routing and sending: what [ip4_route] chooses, the packet [ip4_output_if]
    hands to the interface, and that sending is safe. *)
From S2P Require Import Prelude Bits Def IpAddr Pbuf PbufData PbufChain PbufIO PbufLife PbufCopy PbufOwn PbufHdr Chksum NetifRec Netif NetifThm.
From S2P Require Import XnetTap XnetTapThm Ethernet EthernetThm Ip4Addr Etharp EtharpTable EtharpOps EtharpOut EtharpSend EtharpIn EtharpNet.
From S2P Require Import IpState NetifLoop NetifLoopThm Ip4Out Ip4Hdr IpEnv IpRes.

Section route.
  Context {U : Upper}.

(** Whether the interface at [n] passes a test. *)
Definition nif_test (test : netif -> bool) (ns : nstate) (n : Z) : bool :=
  match nget ns n with Some v => test v | None => false end.

Lemma find_loop_spec test s l : forall p fuel,
  nlist s p l -> (length l < fuel)%nat -> find_loop fuel p test s = Some (List.find (nif_test test s) l).
Proof.
  induction l as [|n l IH]; intros p fuel Hl Hf; cbn in Hl.
  - subst p. by destruct fuel.
  - destruct Hl as (-> & v & Hv & Hl). destruct fuel as [|fuel]; [cbn in Hf; lia|]. cbn.
    unfold nif_test at 1. rewrite Hv. cbn. destruct (test v); [done|]. apply IH; [done|cbn in Hf; lia].
Qed.

(** An interface that can be used at all. *)
Definition usable (v : netif) : bool := netif_is_up v && netif_is_link_up v && negb (nif_ip_addr v =? IPADDR_ANY).

(** The choice of an interface for [dest] among the registered ones [l]. *)
Definition route_spec (l : list Z) (dest : Z) (s : istate) : option Z :=
  match (if ip4_addr_ismulticast dest then ip4_default_multicast_netif s else None) with
  | Some n => Some n
  | None =>
      match List.find (nif_test (route_match dest) (i_net s)) l with
      | Some n => Some n
      | None => d ← netif_default (i_net s);
                if nif_test usable (i_net s) d && negb (ip4_addr_isloopback dest) then Some d else None
      end
  end.

Lemma ip4_route_ok l s dest : ip_env l s -> ip4_route dest s = Some (route_spec l dest s).
Proof.
  intros HE. pose proof HE as [E1 E2 E3 E4 _ _]. unfold ip4_route, route_spec.
  rewrite (find_loop_spec _ _ l) by (done || by eapply nlist_length). cbn [mbind option_bind].
  assert (Hd : route_default dest (i_net s) =
    Some (d ← netif_default (i_net s); if nif_test usable (i_net s) d && negb (ip4_addr_isloopback dest) then Some d else None)).
  { unfold route_default. destruct (netif_default (i_net s)) as [d|]; [|done]. cbn [mbind option_bind].
    destruct (nlist_get _ _ _ _ E1 E3) as [v Hv]. unfold nif_test. rewrite Hv. cbn [mbind option_bind]. f_equal. unfold usable.
    by destruct (netif_is_up v), (netif_is_link_up v), (_ =? _), (ip4_addr_isloopback dest). }
  rewrite Hd. destruct (ip4_default_multicast_netif s), (ip4_addr_ismulticast dest); try done; destruct (List.find _ l); done.
Qed.

Lemma route_in l s dest n : ip_env l s -> route_spec l dest s = Some n -> n ∈ l.
Proof.
  intros [_ _ E3 E4 _ _]. unfold route_spec.
  destruct (if ip4_addr_ismulticast dest then ip4_default_multicast_netif s else None) as [m|] eqn:Em.
  - intros [= <-]. destruct (ip4_addr_ismulticast dest); [|done]. by rewrite Em in E4.
  - destruct (List.find _ l) as [m|] eqn:Ef.
    + intros [= <-]. apply find_some in Ef as [Hin _]. by apply list_elem_of_In.
    + destruct (netif_default (i_net s)) as [d|]; [|done]. cbn [mbind option_bind]. destruct (_ && _); [|done]. by intros [= <-].
Qed.

(** A search that finds something splits the list there. *)
Lemma find_split (f : Z -> bool) (l : list Z) n :
  List.find f l = Some n -> exists pre post, l = pre ++ n :: post /\ f n = true /\ forall m, m ∈ pre -> f m = false.
Proof.
  induction l as [|x l IH]; [done|]. cbn. destruct (f x) eqn:E.
  - intros [= ->]. exists [], l. split; [done|]. split; [done|]. intros m Hm. by apply elem_of_nil in Hm.
  - intros Hf. destruct (IH Hf) as (pre & post & -> & Hn & Hp). exists (x :: pre), post. split; [done|]. split; [done|].
    intros m [->|Hm]%elem_of_cons; auto.
Qed.

Lemma nif_test_get test s n v : inif s n = Some v -> nif_test test (i_net s) n = test v.
Proof. unfold nif_test, inif. by intros ->. Qed.

Lemma no_match l s dest :
  List.find (nif_test (route_match dest) (i_net s)) l = None -> forall m w, m ∈ l -> inif s m = Some w -> route_match dest w = false.
Proof. intros Hf m w Hm Hw. rewrite <- (nif_test_get _ _ _ _ Hw). eapply find_none; [done|]. by apply list_elem_of_In. Qed.

Lemma nif_test_true test s n : nif_test test (i_net s) n = true -> exists v, inif s n = Some v /\ test v = true.
Proof. unfold nif_test, inif. destruct (nget _ n) as [v|]; [|done]. eauto. Qed.

Lemma route_spec_some l s dest n :
  route_spec l dest s = Some n ->
  (ip4_addr_ismulticast dest = true /\ ip4_default_multicast_netif s = Some n) \/
  (exists v pre post, l = pre ++ n :: post /\ inif s n = Some v /\ route_match dest v = true /\
     forall m w, m ∈ pre -> inif s m = Some w -> route_match dest w = false) \/
  (exists v, netif_default (i_net s) = Some n /\ inif s n = Some v /\ usable v = true /\ ip4_addr_isloopback dest = false /\
     forall m w, m ∈ l -> inif s m = Some w -> route_match dest w = false).
Proof.
  unfold route_spec. destruct (if ip4_addr_ismulticast dest then ip4_default_multicast_netif s else None) as [m|] eqn:Em.
  - intros [= <-]. destruct (ip4_addr_ismulticast dest); [|done]. auto.
  - destruct (List.find _ l) as [m|] eqn:Ef.
    + intros [= <-]. right; left. apply find_split in Ef as (pre & post & -> & Hm & Hpre).
      apply nif_test_true in Hm as (v & Hv & Hmv). exists v, pre, post. split_and!; try done.
      intros m' w Hm' Hw. rewrite <- (nif_test_get _ _ _ _ Hw). by apply Hpre.
    + destruct (netif_default (i_net s)) as [d|] eqn:Ed; [|done]. cbn [mbind option_bind].
      destruct (nif_test usable (i_net s) d) eqn:Et; [|done]. destruct (ip4_addr_isloopback dest) eqn:El; [done|]. intros [= <-].
      right; right. apply nif_test_true in Et as (v & Hv & Hu). exists v. split_and!; try done. by apply no_match.
Qed.

Lemma route_spec_none l s dest :
  route_spec l dest s = None -> forall m w, m ∈ l -> inif s m = Some w ->
  route_match dest w = false /\ (netif_default (i_net s) = Some m -> usable w = false \/ ip4_addr_isloopback dest = true).
Proof.
  unfold route_spec. destruct (if ip4_addr_ismulticast dest then ip4_default_multicast_netif s else None); [done|].
  destruct (List.find _ l) as [n|] eqn:Ef; [done|]. intros Hd m w Hm Hw. split; [by eapply no_match|]. intros Ed.
  rewrite Ed in Hd. cbn [mbind option_bind] in Hd. rewrite (nif_test_get _ _ _ _ Hw) in Hd.
  destruct (usable w); [|auto]. destruct (ip4_addr_isloopback dest); [auto|done].
Qed.

End route.

(** ** The header in front of the packet *)

(** What [ip4_output_if_src] writes for a packet of [tot] bytes. *)
Definition ip4_hdr (ttl tos proto tot id src dest : Z) : list Z :=
  let len := lwip_htons (IP_HLEN + tot) in
  let id := lwip_htons id in
  ip4_hdr_bytes ttl tos proto len id (ip4_hdr_chksum ttl tos proto len id src dest) src dest.

Section header.
  Context {U : Upper}.

Lemma iheap_self s : iheap (i_heap s) s = s.
Proof. by destruct s as [[[] ? ?] ? ? ? ? ? ?]. Qed.

(** The state with the header in front of [p], whose first pbuf is now [b']. *)
Definition headed (p : addr) (b' : pbuf) (s : istate) : istate :=
  set_ip_id (u16 (ip_id s + 1)) (iheap (put (i_heap s) p b') s).

Lemma headed_same p b' s : isame s (headed p b' s).
Proof. etransitivity; [apply heap_same|apply id_same]. Qed.

(** A first pbuf with [hdr] written in front of it. *)
Definition with_header (hdr : list Z) (b b' : pbuf) : Prop :=
  pb_ok b' /\ pb_std b' /\ pb_bytes b' = hdr ++ pb_bytes b /\
  exists m, b' = set_mem m (grown (zlen hdr) b) /\ zlen m = zlen (pb_mem b).

Lemma istk_header H cs s p b t b' hdr :
  istk H cs s -> p ∈ H -> cs p = (p, b) :: t -> with_header hdr b b' -> zlen hdr + pb_tot_len b < 65536 ->
  istk H (cs_set p ((p, b') :: t) cs) (iheap (put (i_heap s) p b') s).
Proof.
  intros HS Hp Ec (Hok & Hstd & _ & m & -> & _) Hl. destruct (istk_packet _ _ _ _ HS Hp) as (b0 & t0 & E0 & Hg & Hk & _ & _ & Ht & _).
  rewrite Ec in E0. injection E0 as <- <-. eapply istk_put; try done; cbn; lia.
Qed.

Lemma with_header_intro h p b t hdr :
  packet h (Some p) ((p, b) :: t) -> pb_std b -> room (zlen hdr) b = true ->
  exists b', payload_write (grown (zlen hdr) b) 0 hdr = Some b' /\ with_header hdr b b'.
Proof.
  intros Hk Hstd Hr. pose proof (packet_cons _ _ _ _ Hk) as (_ & Hb & _ & Htot & [_ _ Ho _ _]). pose proof (sum_len_nonneg _ Ho).
  unfold room in Hr. rewrite !andb_true_iff, Z.leb_le, Z.ltb_lt in Hr. destruct Hr as [[_ Hr] Hl].
  destruct (header_written (zlen hdr) b hdr Hb eq_refl Hr ltac:(lia)) as (b' & E & Hok & Hby & m & Em & Hm).
  exists b'. split; [done|]. split; [done|]. split; [by subst b'|]. eauto.
Qed.

Lemma ip4_header_eq H cs s p b t src dest ttl tos proto :
  istk H cs s -> p ∈ H -> cs p = (p, b) :: t ->
  if room IP_HLEN b then
    exists b', with_header (ip4_hdr ttl tos proto (pb_tot_len b) (ip_id s) (default IPADDR_ANY src) dest) b b' /\
      istk H (cs_set p ((p, b') :: t) cs) (headed p b' s) /\
      ip4_header p src (Some dest) ttl tos proto s = Some (inr dest, headed p b' s)
  else ip4_header p src (Some dest) ttl tos proto s = Some (inl ERR_BUF, s).
Proof.
  intros HS Hp Ec. destruct (istk_packet _ _ _ _ HS Hp) as (b0 & t0 & E0 & Hg & Hk & Hstd & Hb & Ht & Hs).
  rewrite Ec in E0. injection E0 as <- <-.
  unfold ip4_header. rewrite (add_header_eq _ _ _ _ _ Hk) by done. destruct (room IP_HLEN b) eqn:Er; cbn [mbind option_bind Z.eqb negb].
  - set (hdr := ip4_hdr _ _ _ _ _ _ _). destruct (with_header_intro _ _ _ _ hdr Hk Hstd Er) as (b' & Ew & Hw). exists b'. split; [done|].
    unfold room in Er. rewrite !andb_true_iff, Z.leb_le, Z.ltb_lt in Er.
    split; [apply istk_id; eapply istk_header; try done; change (zlen hdr) with IP_HLEN; lia|].
    rewrite get_put_eq; cbn [mbind option_bind]. change (pb_tot_len (grown IP_HLEN b)) with (pb_tot_len b + IP_HLEN).
    rewrite (Z.add_comm (pb_tot_len b)).
    change (payload_write (grown IP_HLEN b) 0 _) with (payload_write (grown (zlen hdr) b) 0 hdr). rewrite Ew; cbn [mbind option_bind].
    unfold headed, put. cbn [h_pbufs h_next h_orc]. by rewrite insert_insert_eq.
  - by rewrite iheap_self.
Qed.

(** The header that is there already. *)
Lemma ip4_header_incl H cs s p b t src ttl tos proto :
  istk H cs s -> p ∈ H -> cs p = (p, b) :: t ->
  ip4_header p src None ttl tos proto s =
    if pb_len b <? IP_HLEN then Some (inl ERR_BUF, s)
    else (fun d => (inr d, s)) <$> ip4_at (ztake 4 (zdrop 16 (pb_bytes b))).
Proof.
  intros HS Hp Ec. destruct (istk_packet _ _ _ _ HS Hp) as (b0 & t0 & E0 & Hg & _ & _ & Hb & _).
  rewrite Ec in E0. injection E0 as <- <-. unfold ip4_header. rewrite Hg; cbn [mbind option_bind].
  destruct (Z.ltb_spec (pb_len b) IP_HLEN) as [|Hl]; [done|]. unfold IP_HLEN in Hl.
  rewrite payload_read_spec by (done || lia). cbn [mbind option_bind]. by destruct (ip4_at _).
Qed.

End header.

(** ** Sending *)

(** What a function that sends a packet through an interface promises: the
    caller keeps its reference, the stack stays consistent. *)
Class Sender {U : Upper} (send : addr -> Z -> Z -> istate -> option (Z * istate)) : Prop :=
  sender_ok : forall l H cs s p nif dest,
    istk (p :: H) cs s -> ip_env l s -> nif ∈ l -> sendable_ref (i_heap s) cs p ->
    exists r s', send p nif dest s = Some (r, s') /\ istack (p :: H) s' /\ isame s s'.

(** A packet that can be sent once it has a header. *)
Definition queueable (cs : addr -> list (addr * pbuf)) (p : addr) : Prop :=
  exists b t, cs p = (p, b) :: t /\ no_empty t /\ pb_ref b < 255.

Section send.
  Context {U : Upper} (custom_free : addr -> heap -> option heap) (buf : list Z) (Hbuf : zlen buf = 2048).
  Context (ip4_frag : addr -> Z -> Z -> istate -> option (Z * istate)).

#[export] Instance netif_output_sender : Sender (fun p nif dest s => netif_output custom_free buf nif p dest s).
Proof using Hbuf.
  intros l H cs s p nif dest HS HE Hn Hsr.
  destruct (netif_output_ok custom_free buf Hbuf l H cs s nif p dest HS HE Hn Hsr) as (r & s' & cs' & E & HS' & Hsm).
  exists r, s'. split; [done|]. split; [by exists cs'|done].
Qed.

(** Where a packet with its header goes; [s2] is the state after the loopback copy
    it may want. *)
Lemma dispatch_eq H cs s p dest nif v :
  istk (p :: H) cs s -> inif s nif = Some v -> no_empty (cs p) ->
  exists b s2, get (i_heap s) p = Some b /\
    (if pb_flags b .& PBUF_FLAG_MCASTLOOP =? 0 then s2 = s else exists e, netif_loop_output custom_free nif p s = Some (e, s2)) /\
    ip4_dispatch custom_free buf ip4_frag p dest nif s =
      (if dest =? nif_ip_addr v then netif_loop_output custom_free nif p s
       else if negb (nif_mtu v =? 0) && (nif_mtu v <? pb_tot_len b) then ip4_frag p nif dest s2
       else netif_output custom_free buf nif p dest s2).
Proof using Type.
  intros HS Hv Hne. unfold ip4_dispatch. rewrite Hv; cbn [mbind option_bind].
  destruct (istk_packet _ _ _ p HS ltac:(by left)) as (b & t & Ec & Hg & _). rewrite Hg; cbn [mbind option_bind]. exists b.
  destruct (pb_flags b .& PBUF_FLAG_MCASTLOOP =? 0); cbn [negb].
  { exists s. split; [done|]. split; [done|]. cbn [mbind option_bind]. rewrite Hv; cbn [mbind option_bind]. by rewrite Hg; cbn [mbind option_bind]. }
  destruct (istk_loop_output custom_free H cs s nif p v HS Hv Hne) as (r & s1 & cs1 & E1 & HS1 & Hcs1 & HK & _). exists s1.
  split; [done|]. split; [by exists r|]. rewrite E1; cbn [mbind option_bind].
  destruct (same_nif _ _ _ _ (ikeeps_same _ _ HK) Hv) as (v2 & Hv2 & Hu). rewrite Hv2; cbn [mbind option_bind].
  destruct (unloop_eq _ _ Hu) as (_ & _ & _ & _ & _ & -> & _).
  destruct (istk_packet _ _ _ p HS1 ltac:(by left)) as (b2 & t2 & Ec2 & Hg2 & _). rewrite Hcs1, Ec in Ec2 by by left. injection Ec2 as <- <-.
  by rewrite Hg2; cbn [mbind option_bind].
Qed.

Context `{!Sender ip4_frag}.

Lemma dispatch_ok l H cs s p dest nif :
  istk (p :: H) cs s -> ip_env l s -> nif ∈ l -> sendable_ref (i_heap s) cs p ->
  exists r s', ip4_dispatch custom_free buf ip4_frag p dest nif s = Some (r, s') /\ istack (p :: H) s' /\ isame s s'.
Proof using All.
  intros HS HE Hn Hsr. destruct (env_get _ _ _ HE Hn) as [v Hv]. unfold ip4_dispatch. rewrite Hv; cbn [mbind option_bind].
  destruct (istk_packet _ _ _ p HS ltac:(by left)) as (b & t & Ec & Hg & _).
  destruct (istk_loop_output custom_free H cs s nif p v HS Hv (proj1 Hsr)) as (r & s1 & cs1 & E1 & HS1 & Hcs1 & HK & _).
  destruct (dest =? nif_ip_addr v).
  { exists r, s1. split; [done|]. split; [by exists cs1|by apply ikeeps_same]. }
  rewrite Hg; cbn [mbind option_bind].
  assert (Hloop : exists s2 cs2, (if negb (pb_flags b .& PBUF_FLAG_MCASTLOOP =? 0)
      then '(_, s) ← netif_loop_output custom_free nif p s; Some s else Some s) = Some s2 /\
    istk (p :: H) cs2 s2 /\ cs2 p = cs p /\ isame s s2).
  { destruct (negb _).
    - rewrite E1; cbn [mbind option_bind]. exists s1, cs1. split; [done|]. split; [done|]. split; [apply Hcs1; by left|by apply ikeeps_same].
    - exists s, cs. split; [done|]. split; [done|]. split; [done|]. reflexivity. }
  destruct Hloop as (s2 & cs2 & -> & HS2 & Hcs2 & Hsm). cbn [mbind option_bind].
  destruct (same_nif _ _ _ _ Hsm Hv) as (v2 & Hv2 & _). rewrite Hv2; cbn [mbind option_bind].
  destruct (istk_packet _ _ _ p HS2 ltac:(by left)) as (b2 & t2 & Ec2 & Hg2 & _). rewrite Hg2; cbn [mbind option_bind].
  assert (Hsr2 : sendable_ref (i_heap s2) cs2 p).
  { destruct Hsr as [Hne Hrf]. split; [by rewrite Hcs2|]. intros c Hc. assert (c = b) as -> by congruence. by apply Hrf. }
  assert (HE2 : ip_env l s2) by by eapply same_env.
  destruct (_ && _).
  - destruct (sender_ok l H cs2 s2 p nif dest HS2 HE2 Hn Hsr2) as (r' & s3 & E & HS3 & Hsm3).
    exists r', s3. split; [done|]. split; [done|]. by etransitivity.
  - destruct (netif_output_sender l H cs2 s2 p nif dest HS2 HE2 Hn Hsr2) as (r' & s3 & E & HS3 & Hsm3).
    exists r', s3. split; [done|]. split; [done|]. by etransitivity.
Qed.

(** A packet with a header can be sent. *)
Lemma headed_sendable H cs s p b t b' hdr :
  istk H (cs_set p ((p, b') :: t) cs) s -> p ∈ H -> with_header hdr b b' -> pb_ok b -> 0 < zlen hdr -> no_empty t -> pb_ref b < 255 ->
  sendable_ref (i_heap s) (cs_set p ((p, b') :: t) cs) p.
Proof using Type.
  intros HS Hp (_ & _ & _ & m & E & _) (? & _) Hz Hne Hr. split.
  - rewrite cs_set_eq. apply Forall_cons. split; [rewrite E; cbn; lia|done].
  - intros c Hc. destruct (istk_packet _ _ _ _ HS Hp) as (b0 & t0 & E0 & Hg & _). rewrite cs_set_eq in E0. injection E0 as <- <-.
    assert (c = b') as -> by congruence. by rewrite E.
Qed.

(** The header is added and the packet passed on, or there is no room. *)
Lemma output_if_src_eq H cs s p b t src dest ttl tos proto nif :
  istk H cs s -> p ∈ H -> cs p = (p, b) :: t ->
  if room IP_HLEN b then
    exists b', with_header (ip4_hdr ttl tos proto (pb_tot_len b) (ip_id s) (default IPADDR_ANY src) dest) b b' /\
      istk H (cs_set p ((p, b') :: t) cs) (headed p b' s) /\
      ip4_output_if_src custom_free buf ip4_frag p src (Some dest) ttl tos proto nif s =
        ip4_dispatch custom_free buf ip4_frag p dest nif (headed p b' s)
  else ip4_output_if_src custom_free buf ip4_frag p src (Some dest) ttl tos proto nif s = Some (ERR_BUF, s).
Proof using Type.
  intros HS Hp Ec. pose proof (ip4_header_eq H cs s p b t src dest ttl tos proto HS Hp Ec) as Hh. unfold ip4_output_if_src.
  destruct (room IP_HLEN b).
  - destruct Hh as (b' & Hw & HS' & ->). exists b'. done.
  - by rewrite Hh.
Qed.

(** A packet that was sent fits with its header. *)
Lemma output_fits H cs s p b t src dest ttl tos proto nif s' :
  istk (p :: H) cs s -> cs p = (p, b) :: t ->
  ip4_output_if custom_free buf ip4_frag p src (Some dest) ttl tos proto nif s = Some (ERR_OK, s') ->
  pb_tot_len b = zlen (content (cs p)) /\ IP_HLEN + zlen (content (cs p)) < 65536.
Proof using Type.
  intros HS Ec E. destruct (istk_packet _ _ _ p HS ltac:(by left)) as (b0 & t0 & E0 & _ & Hk & _ & _ & Ht & _). rewrite Ec in E0. injection E0 as <- <-.
  assert (Ez : zlen (content (cs p)) = pb_tot_len b) by (rewrite Ec, content_len by apply Hk; cbn; lia). split; [done|]. rewrite Ez.
  unfold ip4_output_if in E. destruct (inif s nif) as [v|]; [|done]. cbn [mbind option_bind] in E.
  match type of E with ip4_output_if_src _ _ _ _ ?x _ _ _ _ _ _ = _ =>
    pose proof (output_if_src_eq (p :: H) cs s p b t x dest ttl tos proto nif HS ltac:(by left) Ec) as Ho end.
  destruct (room IP_HLEN b) eqn:Er; [|rewrite Ho in E; discriminate]. unfold room in Er. rewrite !andb_true_iff, Z.ltb_lt in Er. lia.
Qed.

Lemma output_if_src_ok l H cs s p src dest ttl tos proto nif :
  istk (p :: H) cs s -> ip_env l s -> nif ∈ l -> queueable cs p ->
  exists r s', ip4_output_if_src custom_free buf ip4_frag p src dest ttl tos proto nif s = Some (r, s') /\
    istack (p :: H) s' /\ isame s s'.
Proof using All.
  intros HS HE Hn (b & t & Ec & Hne & Hrf).
  destruct (istk_packet _ _ _ p HS ltac:(by left)) as (b0 & t0 & E0 & Hg & _ & _ & Hb & _). rewrite Ec in E0. injection E0 as <- <-.
  assert (Hself : exists r s', Some (ERR_BUF, s) = Some (r, s') /\ istack (p :: H) s' /\ isame s s').
  { exists ERR_BUF, s. split; [done|]. split; [by exists cs|]. reflexivity. }
  destruct dest as [dest|].
  - pose proof (output_if_src_eq (p :: H) cs s p b t src dest ttl tos proto nif HS ltac:(by left) Ec) as Ho.
    destruct (room IP_HLEN b); [|by rewrite Ho]. destruct Ho as (b' & Hw & HS' & ->).
    destruct (dispatch_ok l H _ _ p dest nif HS') as (r & s' & E & HS'' & Hsm); [by eapply same_env, HE; apply headed_same|done| |].
    + eapply headed_sendable; try done. by left.
    + exists r, s'. split; [done|]. split; [done|]. etransitivity; [apply headed_same|done].
  - unfold ip4_output_if_src. rewrite (ip4_header_incl (p :: H) cs s p b t) by (done || by left).
    destruct (Z.ltb_spec (pb_len b) IP_HLEN) as [|Hl]; [done|]. unfold IP_HLEN in Hl.
    destruct (four_bytes (ztake 4 (zdrop 16 (pb_bytes b)))) as (d & ->).
    { rewrite zlen_ztake; [done|]. rewrite zlen_zdrop, pb_bytes_len by done. lia. }
    cbn [fmap option_fmap option_map mbind option_bind]. apply (dispatch_ok l H cs); try done. split.
    + rewrite Ec. apply Forall_cons. split; [cbn; lia|done].
    + intros c Hc. by assert (c = b) as -> by congruence.
Qed.

Lemma output_if_ok l H cs s p src dest ttl tos proto nif :
  istk (p :: H) cs s -> ip_env l s -> nif ∈ l -> queueable cs p ->
  exists r s', ip4_output_if custom_free buf ip4_frag p src dest ttl tos proto nif s = Some (r, s') /\ istack (p :: H) s' /\ isame s s'.
Proof using All.
  intros HS HE Hn Hq. destruct (env_get _ _ _ HE Hn) as [v Hv]. unfold ip4_output_if. rewrite Hv; cbn [mbind option_bind].
  by eapply output_if_src_ok.
Qed.

(** [ip4_output] of [ip4.c], whatever the destination. *)
Lemma ip4_output_ok l H cs s p src dest ttl tos proto :
  istk (p :: H) cs s -> ip_env l s -> queueable cs p ->
  exists r s', ip4_output custom_free buf ip4_frag p src dest ttl tos proto s = Some (r, s') /\ istack (p :: H) s' /\ isame s s'.
Proof using All.
  intros HS HE Hq. unfold ip4_output. rewrite (ip4_route_ok l) by done. cbn [mbind option_bind].
  destruct (route_spec l dest s) as [n|] eqn:Er; [by eapply output_if_ok; eauto using route_in|].
  exists ERR_RTE, s. split; [done|]. split; [by exists cs|]. reflexivity.
Qed.

End send.
