(* ===== verification/IcmpThm.v ===== *)
(** ICMP: the messages it sends, and that it is safe. *)
From S2P Require Import Prelude Bits Def IpAddr Pbuf PbufData PbufChain PbufIO PbufLife PbufCopy PbufOwn PbufHdr Chksum NetifRec Netif NetifThm.
From S2P Require Import XnetTap XnetTapThm Ethernet EthernetThm Ip4Addr Etharp EtharpTable EtharpOps EtharpOut EtharpSend EtharpIn EtharpNet.
From S2P Require Import IpState NetifLoop NetifLoopThm Ip4Out Icmp Ip4Hdr IpEnv IpRes Ip4OutThm.

(** ** Error messages *)

(** The message with checksum [c]: eight bytes of header and the start of the
    packet it is about. *)
Definition icmp_error_msg (type code c : Z) (data : list Z) : list Z :=
  [type; code] ++ bytes16 c ++ [0; 0; 0; 0] ++ data.

(** The first 28 bytes at a pbuf's payload pointer, whether the packet has that
    many or not. *)
Definition quoted (b : pbuf) : list Z := ztake 28 (zdrop (pb_payload b) (pb_mem b)).

Lemma quoted_read b : 0 <= pb_payload b -> pb_payload b + 28 <= zlen (pb_mem b) -> payload_read b 0 (IP_HLEN + ICMP_DEST_UNREACH_DATASIZE) = Some (quoted b).
Proof.
  intros Hp Hm. unfold payload_read, quoted. rewrite Z.add_0_r. change (IP_HLEN + ICMP_DEST_UNREACH_DATASIZE) with 28. by apply mem_read_spec.
Qed.

Lemma quoted_len b : 0 <= pb_payload b -> pb_payload b + 28 <= zlen (pb_mem b) -> zlen (quoted b) = 28.
Proof. intros Hp Hm. unfold quoted. rewrite zlen_ztake; [done|]. rewrite zlen_zdrop. lia. Qed.

(** The source address of the quoted header. *)
Lemma quoted_src b :
  0 <= pb_payload b -> pb_payload b + 28 <= zlen (pb_mem b) ->
  exists a, payload_read b 12 4 ≫= ip4_at = Some a /\ ip4_at (ztake 4 (zdrop 12 (quoted b))) = Some a.
Proof.
  intros Hp Hm. unfold payload_read, quoted. rewrite mem_read_spec by lia. cbn [mbind option_bind].
  rewrite zdrop_ztake, zdrop_zdrop, ztake_ztake by lia. change (Z.min 4 (28 - 12)) with 4. rewrite (Z.add_comm 12).
  destruct (four_bytes (ztake 4 (zdrop (pb_payload b + 12) (pb_mem b)))) as (a & E); [|by exists a].
  rewrite zlen_ztake; [done|]. rewrite zlen_zdrop. lia.
Qed.

Lemma response_written b type code data :
  pb_ok b -> pb_len b = 36 -> zlen data = 28 ->
  exists b1 b2 b3 x, payload_write b 0 [type; code] = Some b1 /\ payload_write b1 4 (bytes16 0 ++ bytes16 0) = Some b2 /\
    payload_write b2 SIZEOF_ICMP_ECHO_HDR data = Some b3 /\ patched b b3 /\ pb_ok b3 /\ zlen x = 2 /\
    pb_bytes b3 = [type; code] ++ x ++ [0; 0; 0; 0] ++ data.
Proof.
  intros Hb Hl Hd. pose proof (pb_bytes_len b Hb) as Hlen.
  destruct (zsplit 2 (pb_bytes b)) as (w & r & E & Hw & Hr); [lia|]. destruct (zsplit 2 r) as (x & r1 & -> & Hx & Hr1); [lia|].
  destruct (zsplit 4 r1) as (y & z & -> & Hy & Hz); [lia|].
  destruct (payload_patch b [] w (x ++ y ++ z) 0 [type; code]) as (b1 & E1 & P1 & O1 & B1); [done..|]. 
  destruct (payload_patch b1 ([type; code] ++ x) y z 4 (bytes16 0 ++ bytes16 0)) as (b2 & E2 & P2 & O2 & B2);
    [done|by rewrite B1, <- app_assoc|by rewrite zlen_app, Hx|by rewrite Hy|].
  destruct (payload_patch b2 (([type; code] ++ x) ++ [0; 0; 0; 0]) z [] SIZEOF_ICMP_ECHO_HDR data) as (b3 & E3 & P3 & O3 & B3);
    [done|rewrite B2, app_nil_r, app_assoc; done|by rewrite !zlen_app, Hx|lia|].
  exists b1, b2, b3, x. split_and!; try done; [by etransitivity; [|etransitivity]|].
  rewrite B3, app_nil_r, <- !app_assoc. done.
Qed.

Lemma response_chksum odd b type code data x :
  pb_ok b -> pb_len b = 36 -> zlen x = 2 -> zlen data = 28 -> bytes_ok ([type; code] ++ data) ->
  pb_bytes b = [type; code] ++ x ++ [0; 0; 0; 0] ++ data ->
  exists c b1 b2 bs, payload_write b 2 (bytes16 0) = Some b1 /\ payload_read b1 0 (pb_len b1) = Some bs /\
    inet_chksum odd bs (pb_len b1) = Some c /\ payload_write b1 2 (bytes16 c) = Some b2 /\
    patched b b2 /\ pb_ok b2 /\ pb_bytes b2 = icmp_error_msg type code c data /\
    forall odd', inet_chksum odd' (icmp_error_msg type code c data) 36 = Some 0.
Proof.
  intros Hb Hl Hx Hd Hbo E.
  destruct (payload_patch b [type; code] x ([0; 0; 0; 0] ++ data) 2 (bytes16 0)) as (b1 & E1 & P1 & O1 & B1); [done..|].
  assert (Hl1 : pb_len b1 = 36) by (destruct P1 as (m & -> & _); done).
  set (bs := [type; code] ++ [0; 0] ++ [0; 0; 0; 0] ++ data) in *. change (bytes16 0) with [0; 0] in B1.
  assert (Hbs : bytes_ok bs).
  { apply bytes_ok_app in Hbo as [? ?]. unfold bs. rewrite !bytes_ok_app. split_and!; try done; repeat constructor; unfold byte_ok; lia. }
  assert (Hz : zlen bs = 36) by (unfold bs; rewrite !zlen_app, Hd; done).
  assert (Hc : exists c, forall o, inet_chksum o bs 36 = Some c).
  { eexists. intros o. unfold inet_chksum. rewrite <- Hz, lwip_standard_chksum_ok by (done || lia). reflexivity. }
  destruct Hc as (c & Hc).
  destruct (payload_patch b1 [type; code] [0; 0] ([0; 0; 0; 0] ++ data) 2 (bytes16 c)) as (b2 & E2 & P2 & O2 & B2); [done..|].
  exists c, b1, b2, bs. split; [done|]. split; [rewrite payload_read_spec by (done || lia); f_equal; rewrite B1; fold bs; rewrite zdrop_0, ztake_ge; [done|lia]|].
  rewrite Hl1. split; [done|]. split; [done|]. split; [by etransitivity|]. split; [done|]. split; [done|].
  intros o. assert (Hm : zlen (icmp_error_msg type code c data) = 36) by (unfold icmp_error_msg; rewrite !zlen_app, Hd; done).
  rewrite <- Hm. apply bytes_ok_app in Hbo as [? ?].
  apply (inet_chksum_verifies o [type; code] ([0; 0; 0; 0] ++ data) c); try done.
  - apply bytes_ok_app. split; [repeat constructor; unfold byte_ok; lia|done].
  - rewrite zlen_app, Hd. done.
  - change ([type; code] ++ [0; 0] ++ [0; 0; 0; 0] ++ data) with bs. by rewrite Hz.
Qed.

Section out.
  Context {U : Upper} (custom_free : addr -> heap -> option heap) (buf : list Z) (odd_payload : addr -> pbuf -> bool).
  Context (ip4_frag : addr -> Z -> Z -> istate -> option (Z * istate)).

(** The message is handed to [ip4_output_if] on the interface that routes back
    to the sender of the packet, and freed. *)
Lemma send_response_eq l H cs s p pb type code :
  istk H cs s -> ip_env l s -> get (i_heap s) p = Some pb -> 0 <= pb_payload pb -> pb_payload pb + 28 <= zlen (pb_mem pb) ->
  bytes_ok ([type; code] ++ quoted pb) ->
  (exists h, icmp_send_response custom_free buf odd_payload ip4_frag p type code s = Some (iheap h s) /\ istk H cs (iheap h s)) \/
  exists q qb h src, (q ∉ H) /\ istk (q :: H) (cs_set q [(q, qb)] cs) (iheap h s) /\ pb_ref qb = 1 /\
    ip4_at (ztake 4 (zdrop 12 (quoted pb))) = Some src /\
    match route_spec l src s with
    | None => icmp_send_response custom_free buf odd_payload ip4_frag p type code s = pbuf_free_i custom_free q (iheap h s)
    | Some nif =>
        icmp_send_response custom_free buf odd_payload ip4_frag p type code s =
          ('(_, s') ← ip4_output_if custom_free buf ip4_frag q None (Some src) ICMP_TTL 0 IP_PROTO_ICMP nif (iheap h s);
           pbuf_free_i custom_free q s') /\
        exists c, pb_bytes qb = icmp_error_msg type code c (quoted pb) /\
          forall odd, inet_chksum odd (icmp_error_msg type code c (quoted pb)) 36 = Some 0
    end.
Proof.
  intros HS HE Hg Hp Hm Hby. unfold icmp_send_response.
  change (SIZEOF_ICMP_ECHO_HDR + IP_HLEN + ICMP_DEST_UNREACH_DATASIZE) with 36.
  destruct (istk_alloc custom_free PBUF_IP 36 H cs s HS) as (r & h1 & -> & Hr); [unfold PBUF_IP; lia..|]. cbn [mbind option_bind].
  destruct r as [q|]; [|left; by exists h1]. right. destruct Hr as (b & HS1 & Hq & Hfr & Hgq & Hfree & Hoth).
  destruct Hfr as (Hok & Hstd & Hrf & Hlen & Htl & Hpay & Hnx & Hty).
  assert (Hpq : p <> q) by (intros ->; congruence).
  rewrite (Hoth p Hpq), Hg; cbn [mbind option_bind]. rewrite Hgq; cbn [mbind option_bind].
  destruct (response_written b type code (quoted pb) Hok Hlen (quoted_len _ Hp Hm)) as (b1 & b2 & b3 & x & E1 & E2 & Ew & P3 & O3 & Hx & B3).
  rewrite E1; cbn [mbind option_bind]. rewrite E2; cbn [mbind option_bind]. rewrite (quoted_read _ Hp Hm); cbn [mbind option_bind]. rewrite Ew; cbn [mbind option_bind].
  destruct (quoted_src _ Hp Hm) as (src & -> & Hsrc). cbn [mbind option_bind].
  assert (Hin : q ∈ q :: H) by by left.
  assert (HS3 : istk (q :: H) (cs_set q [(q, b3)] cs) (iheap (put h1 q b3) s)).
  { pose proof (istk_patch _ _ _ q b [] b3 HS1 Hin (cs_set_eq _ _ _) P3 O3) as HS3.
    eapply istk_cs; [|exact HS3]. intros y. by rewrite cs_set_set. }
  assert (HE3 : ip_env l (iheap (put h1 q b3) s)) by by eapply same_env, HE; apply heap_same.
  rewrite (ip4_route_ok l) by done. change (route_spec l src (iheap (put h1 q b3) s)) with (route_spec l src s). cbn [mbind option_bind].
  destruct (route_spec l src s) as [nif|] eqn:Er.
  - destruct (response_chksum (odd_payload q (default b3 (payload_write b3 2 (bytes16 0)))) b3 type code (quoted pb) x O3)
      as (c & b4 & b5 & bs & E4 & Ers & Ec & E5 & P5 & O5 & B5 & Hv); try done; [by destruct P3 as (m & -> & _)|by apply quoted_len|].
    rewrite E4 in *. change (default b3 (Some b4)) with b4 in Ec. cbn [mbind option_bind]. rewrite Ers; cbn [mbind option_bind]. rewrite Ec; cbn [mbind option_bind].
    rewrite E5; cbn [mbind option_bind]. change (i_heap (iheap (put h1 q b3) s)) with (put h1 q b3). rewrite put_put.
    exists q, b5, (put h1 q b5), src. rewrite Er. split; [set_solver|]. split; [|split; [|split; [done|split; [|by exists c]]]].
    + pose proof (istk_patch _ _ _ q b3 [] b5 HS3 Hin (cs_set_eq _ _ _) P5 O5) as HS5.
      change (i_heap (iheap (put h1 q b3) s)) with (put h1 q b3) in HS5. rewrite put_put in HS5.
      eapply istk_cs; [|exact HS5]. intros y. by rewrite cs_set_set.
    + destruct P5 as (m & -> & _), P3 as (m' & -> & _). done.
    + change (iheap (put h1 q b5) (iheap (put h1 q b3) s)) with (iheap (put h1 q b5) s).
      by destruct (ip4_output_if _ _ _ _ _ _ _ _ _ _ _) as [[? ?]|].
  - exists q, b3, (put h1 q b3), src. rewrite Er. split; [set_solver|]. split; [done|]. split; [by destruct P3 as (m' & -> & _)|]. done.
Qed.

Context (Hbuf : zlen buf = 2048) `{!Sender ip4_frag}.

Lemma send_response_ok l H cs s p pb type code :
  istk H cs s -> ip_env l s -> get (i_heap s) p = Some pb -> 0 <= pb_payload pb -> pb_payload pb + 28 <= zlen (pb_mem pb) ->
  bytes_ok ([type; code] ++ quoted pb) ->
  exists s', icmp_send_response custom_free buf odd_payload ip4_frag p type code s = Some s' /\ istack H s' /\ isame s s'.
Proof using All.
  intros HS HE Hg Hp Hm Hby.
  destruct (send_response_eq l H cs s p pb type code HS HE Hg Hp Hm Hby) as [(h & E & HS')|(q & qb & h & src & _ & HS1 & Hrf & _ & Hr)].
  - exists (iheap h s). split; [done|]. split; [by exists cs|apply heap_same].
  - assert (Hfree : forall s', istack (q :: H) s' -> isame s s' -> exists s'', pbuf_free_i custom_free q s' = Some s'' /\ istack H s'' /\ isame s s'').
    { intros s' (cs' & HS') Hsm. destruct (istk_free custom_free q H cs' s' HS') as (h' & cs2 & E & HS2 & _).
      exists (iheap h' s'). split; [done|]. split; [by exists cs2|]. etransitivity; [done|apply heap_same]. }
    destruct (route_spec l src s) as [nif|] eqn:Er.
    + destruct Hr as [-> _]. assert (HE1 : ip_env l (iheap h s)) by by eapply same_env, HE; apply heap_same.
      destruct (output_if_ok custom_free buf Hbuf ip4_frag l H _ (iheap h s) q None (Some src) ICMP_TTL 0 IP_PROTO_ICMP nif HS1 HE1)
        as (r & s' & -> & HS' & Hsm); [by eapply route_in| |].
      { exists qb, []. rewrite cs_set_eq. split; [done|]. split; [by constructor|lia]. }
      cbn [mbind option_bind]. apply Hfree; [done|]. etransitivity; [apply heap_same|done].
    + rewrite Hr. apply Hfree; [by eexists|apply heap_same].
Qed.

End out.

(** ** Echo *)
Lemma chksum_words_total n : forall ps sum, (length ps = n)%nat -> exists ps' len' sum', chksum_words ps (zlen ps) sum = Some (ps', len', sum') /\ zlen ps' = len' /\ 0 <= len' <= 1.
Proof.
  induction (lt_wf n) as [n _ IH]. intros ps sum Hn. destruct ps as [|x [|y ps]].
  - by exists [], 0, sum.
  - by exists [x], 1, sum.
  - cbn [chksum_words]. rewrite !zlen_cons. pose proof (zlen_nonneg ps). destruct (Z.ltb_spec 1 (1 + (1 + zlen ps))); [|lia].
    replace (1 + (1 + zlen ps) - 2) with (zlen ps) by lia. apply (IH (length ps)); [cbn in Hn; lia|done].
Qed.

Lemma chksum_total odd ps : exists c, inet_chksum odd ps (zlen ps) = Some c.
Proof.
  unfold inet_chksum, lwip_standard_chksum. pose proof (zlen_nonneg ps).
  assert (Hp : exists t1 pb, (if odd && (0 <? zlen ps) then match ps with b :: pb => Some (b, pb, zlen ps - 1) | [] => None end
                              else Some (0, ps, zlen ps)) = Some (t1, pb, zlen pb)).
  { destruct odd, ps as [|b ps]; cbn [andb]; eauto. destruct (Z.ltb_spec 0 (zlen (b :: ps))); [|eauto]. rewrite zlen_cons. exists b, ps. do 2 f_equal. lia. }
  destruct Hp as (t1 & pb & ->). cbn [mbind option_bind].
  destruct (chksum_words_total _ pb 0 eq_refl) as (ps' & len' & sum' & -> & Hl & Hr). cbn [mbind option_bind].
  destruct (Z.ltb_spec 0 len'); [|cbn [mbind option_bind]; eauto]. destruct ps' as [|x ?]; [rewrite zlen_nil in Hl; lia|]. cbn [head mbind option_bind]. eauto.
Qed.

(** An echo request behind its IP header, cut at the fields the code rewrites. *)
Record echo_parts := EchoParts {
  ep_front : list Z; ep_ttl : Z; ep_proto : Z; ep_chk : list Z; ep_src : list Z; ep_dst : list Z; ep_opts : list Z;
  ep_type : Z; ep_code : Z; ep_c : Z; ep_rest : list Z;
}.

Definition echo_hdr (e : echo_parts) : list Z :=
  ep_front e ++ [ep_ttl e] ++ [ep_proto e] ++ ep_chk e ++ ep_src e ++ ep_dst e ++ ep_opts e.

Definition echo_msg (e : echo_parts) : list Z := [ep_type e] ++ [ep_code e] ++ bytes16 (ep_c e) ++ ep_rest e.

Record echo_wf (hlen : Z) (e : echo_parts) : Prop := EchoWf {
  ew_front : zlen (ep_front e) = 8; ew_chk : zlen (ep_chk e) = 2; ew_src : zlen (ep_src e) = 4; ew_dst : zlen (ep_dst e) = 4;
  ew_opts : zlen (ep_opts e) = hlen - 20; ew_c : 0 <= ep_c e < 65536;
}.

(** The reply: addresses given, TTL and type set, checksums updated. *)
Definition echo_answer (src dest k : Z) (e : echo_parts) : echo_parts :=
  EchoParts (ep_front e) ICMP_TTL (ep_proto e) (bytes16 k) (ip4_bytes src) (ip4_bytes dest) (ep_opts e)
    ICMP_ER (ep_code e) (echo_chksum (ep_c e)) (ep_rest e).

Ltac cut := rewrite ?app_nil_r, <- ?app_assoc; reflexivity.

Lemma echo_hdr_verifies odd hlen src dest k e :
  echo_wf hlen e -> bytes_ok (ep_front e ++ [ep_proto e] ++ ep_opts e) -> hlen <= 60 ->
  inet_chksum odd (echo_hdr (echo_answer src dest 0 e)) hlen = Some k ->
  forall odd', inet_chksum odd' (echo_hdr (echo_answer src dest k e)) hlen = Some 0.
Proof.
  intros [] Hb Hl Hk odd'. rewrite !bytes_ok_app in Hb. destruct Hb as (Hf & Hp & Ho).
  set (pre := ep_front e ++ [ICMP_TTL] ++ [ep_proto e]). set (post := ip4_bytes src ++ ip4_bytes dest ++ ep_opts e).
  assert (E : forall k, echo_hdr (echo_answer src dest k e) = pre ++ [byte_of k 0; byte_of k 1] ++ post) by (intros; unfold pre, post, echo_hdr; cbn; cut).
  assert (Hpre : bytes_ok pre).
  { unfold pre. rewrite !bytes_ok_app. split_and!; try done. repeat constructor; done. }
  assert (Hpost : bytes_ok post).
  { unfold post. rewrite !bytes_ok_app. split_and!; auto with cint. }
  assert (Hz1 : zlen pre = 10) by (unfold pre; rewrite !zlen_app, ew_front0; done).
  assert (Hz2 : zlen post = hlen - 12) by (unfold post; rewrite !zlen_app, ew_opts0; change (zlen (ip4_bytes src)) with 4; change (zlen (ip4_bytes dest)) with 4; lia).
  assert (Hz : forall a b, zlen (pre ++ [a; b] ++ post) = hlen) by (intros; rewrite !zlen_app, Hz1, Hz2; change (zlen [a; b]) with 2; lia).
  rewrite E in *. rewrite <- (Hz (byte_of k 0) (byte_of k 1)). change (byte_of 0 0) with 0 in Hk. change (byte_of 0 1) with 0 in Hk.
  assert (Hk' : inet_chksum odd' (pre ++ [0; 0] ++ post) (zlen (pre ++ [0; 0] ++ post)) = Some k).
  { rewrite <- Hk, <- (Hz 0 0). unfold inet_chksum. rewrite !lwip_standard_chksum_ok; [done|..];
      rewrite ?Hz, ?bytes_ok_app; try lia; split_and!; try done; repeat constructor; unfold byte_ok; lia. }
  apply inet_chksum_verifies; try done; [by rewrite Hz1|]. lia.
Qed.

Definition echo_fields (e : echo_parts) : list (list Z) :=
  [ep_front e; [ep_ttl e]; [ep_proto e]; ep_chk e; ep_src e; ep_dst e; ep_opts e; [ep_type e]; [ep_code e]; bytes16 (ep_c e); ep_rest e].

Lemma echo_concat e : concat (echo_fields e) = echo_hdr e ++ echo_msg e.
Proof. unfold echo_fields, echo_hdr, echo_msg. cbn [concat]. cut. Qed.

Lemma echo_hdr_len hlen e : echo_wf hlen e -> zlen (echo_hdr e) = hlen.
Proof.
  intros []. unfold echo_hdr. rewrite !zlen_app, ew_front0, ew_chk0, ew_src0, ew_dst0, ew_opts0.
  change (zlen [ep_ttl e]) with 1. change (zlen [ep_proto e]) with 1. lia.
Qed.

Lemma answer_wf hlen src dest k e : echo_wf hlen e -> echo_wf hlen (echo_answer src dest k e).
Proof. intros []. split; try done. apply echo_chksum_val. done. Qed.

Lemma echo_rewrite_spec odd_payload p hlen src dest b e :
  pb_ok b -> pb_bytes b = echo_hdr e ++ echo_msg e -> echo_wf hlen e ->
  exists b' k odd, icmp_echo_rewrite odd_payload p hlen src dest b = Some b' /\ patched b b' /\ pb_ok b' /\
    pb_bytes b' = echo_hdr (echo_answer src dest k e) ++ echo_msg (echo_answer src dest k e) /\
    inet_chksum odd (echo_hdr (echo_answer src dest 0 e)) hlen = Some k.
Proof.
  intros Hb B Hwf. pose proof Hwf as [Lf Lc Ls Ld Lo Hc]. set (lens := [8; 1; 1; 2; 4; 4; hlen - 20; 1; 1; 2; zlen (ep_rest e)]).
  assert (F0 : fields (echo_fields e) lens b).
  { split; [done|by rewrite echo_concat|]. unfold echo_fields, lens. cbn [fmap list_fmap]. by rewrite Lf, Lc, Ls, Ld, Lo. }
  assert (Hz : zsum (take 7 lens) = hlen /\ zsum (take 9 lens) = hlen + 2) by (cbn; lia). destruct Hz as [Hz7 Hz9].
  destruct (field_write _ _ _ 4 (ip4_bytes src) F0 eq_refl) as (b1 & E1 & P1 & F1).
  destruct (field_write _ _ _ 5 (ip4_bytes dest) F1 eq_refl) as (b2 & E2 & P2 & F2).
  destruct (field_write _ _ _ 7 [ICMP_ER] F2 eq_refl) as (b3 & E3 & P3 & F3).
  pose proof (field_read _ _ _ 9 (bytes16 (ep_c e)) F3 eq_refl) as ER.
  destruct (field_write _ _ _ 9 (bytes16 (echo_chksum (ep_c e))) F3 eq_refl) as (b4 & E4 & P4 & F4).
  destruct (field_write _ _ _ 1 [ICMP_TTL] F4 eq_refl) as (b5 & E5 & P5 & F5).
  destruct (field_write _ _ _ 3 (bytes16 0) F5 eq_refl) as (b6 & E6 & P6 & F6).
  pose proof (answer_wf hlen src dest 0 e Hwf) as Hwf0.
  destruct (chksum_total (odd_payload p b6) (echo_hdr (echo_answer src dest 0 e))) as (k & Ek). rewrite (echo_hdr_len hlen) in Ek by done.
  destruct (field_write _ _ _ 3 (bytes16 k) F6 eq_refl) as (b7 & E7 & P7 & F7).
  assert (EH : payload_read b6 0 hlen = Some (echo_hdr (echo_answer src dest 0 e))).
  { apply (payload_field b6 [] _ (echo_msg (echo_answer src dest 0 e))); [apply F6| |done|by apply echo_hdr_len].
    rewrite (fl_bytes _ _ _ F6). exact (echo_concat (echo_answer src dest 0 e)). }
  rewrite Hz7 in E3. rewrite Hz9 in E4, ER. change (zsum (take 4 lens)) with 12 in E1. change (zsum (take 5 lens)) with 16 in E2.
  change (zsum (take 1 lens)) with 8 in E5. change (zsum (take 3 lens)) with 10 in E6, E7. change (zlen (bytes16 (ep_c e))) with 2 in ER.
  exists b7, k, (odd_payload p b6). split; [|split; [|split; [apply F7|split; [|exact Ek]]]].
  - unfold icmp_echo_rewrite. rewrite E1; cbn [mbind option_bind]. rewrite E2; cbn [mbind option_bind]. rewrite E3; cbn [mbind option_bind].
    rewrite ER; cbn [mbind option_bind]. rewrite bytes16_read by done. cbn [mbind option_bind]. rewrite E4; cbn [mbind option_bind].
    rewrite E5; cbn [mbind option_bind]. rewrite E6; cbn [mbind option_bind]. rewrite EH; cbn [mbind option_bind]. by rewrite Ek; cbn [mbind option_bind].
  - do 6 (etransitivity; [eassumption|]). done.
  - rewrite (fl_bytes _ _ _ F7). exact (echo_concat (echo_answer src dest k e)).
Qed.

Section echo.
  Context {U : Upper} (custom_free : addr -> heap -> option heap).

(** The pbuf to answer in: [p] itself when there is room in front of it for the
    IP and link headers, else a copy. *)
Definition answer_pbuf (hlen : Z) (k : list (addr * pbuf)) (p' : addr) (cs' : addr -> list (addr * pbuf)) : Prop :=
  exists b' t', cs' p' = (p', b') :: t' /\ content (cs' p') = content k /\ 4 <= pb_len b' /\ room hlen b' = true /\ no_empty t' /\ pb_ref b' < 255.

Lemma room_less n m b : 0 <= n <= m -> room m b = true -> room n b = true.
Proof. unfold room. rewrite !andb_true_iff, !Z.leb_le, !Z.ltb_lt. intros ? [[? ?] ?]. split_and!; done || lia. Qed.

Lemma put_same h a b : get h a = Some b -> put h a b = h.
Proof. intros Hg. destruct h. unfold put, get in *; cbn in *. by rewrite insert_id. Qed.

(** With room in front, nothing changes. *)
Lemma echo_pbuf_room H cs s p b t hdr hlen :
  istk H cs s -> p ∈ H -> cs p = (p, b) :: t -> 20 <= hlen <= 60 -> room (hlen + PBUF_LINK_HLEN) b = true ->
  icmp_echo_pbuf custom_free p hdr hlen s = Some (Some p, s).
Proof.
  intros HS Hp Ec Hh Hr. unfold PBUF_LINK_HLEN in *. destruct (istk_packet _ _ _ _ HS Hp) as (b0 & t0 & E0 & Hg & Hk & Hstd & Hb & Ht & Hs).
  rewrite Ec in E0. injection E0 as <- <-. pose proof Hb as (? & ? & ? & ?).
  unfold icmp_echo_pbuf, PBUF_LINK_HLEN. rewrite (add_header_eq _ _ _ _ _ Hk), Hr by lia. cbn [mbind option_bind Z.eqb negb].
  unfold room in Hr. rewrite !andb_true_iff, Z.leb_le, Z.ltb_lt in Hr. destruct Hr as [[_ Hr] Hl].
  assert (HS1 : istk H (cs_set p ((p, grown (hlen + 14) b) :: t) cs) (iheap (put (i_heap s) p (grown (hlen + 14) b)) s)).
  { eapply istk_put; try done; [unfold pb_ok|..]; cbn; lia. }
  destruct (istk_packet _ _ _ _ HS1 Hp) as (b1 & t1 & E1 & _ & Hk1 & _). rewrite cs_set_eq in E1. injection E1 as <- <-.
  change (i_heap (iheap ?x s)) with x in Hk1. rewrite (remove_header_eq _ _ _ _ _ Hk1) by lia.
  destruct (Z.leb_spec (hlen + 14) (pb_len (grown (hlen + 14) b))); [|cbn in *; lia]. cbn [mbind option_bind Z.eqb negb].
  by rewrite shrunk_grown, put_put, put_same, iheap_self.
Qed.

Lemma echo_copy_ok H cs s h1 p b t r rb hlen :
  istk (r :: p :: H) (cs_set r [(r, rb)] cs) (iheap h1 s) -> p <> r -> cs p = (p, b) :: t -> no_empty t -> get h1 p = Some b ->
  20 <= hlen <= 60 -> hlen <= pb_payload b -> 4 <= pb_len b -> 8 <= pb_tot_len b -> hlen + pb_tot_len b < 65536 ->
  get h1 r = Some rb -> fresh_pbuf PBUF_LINK (pb_tot_len b + hlen) rb ->
  exists s' cs', icmp_echo_copy custom_free p r (p, pb_payload b - hlen) hlen (iheap h1 s) = Some (Some r, s') /\ ikeeps s s' /\
    istk (r :: H) cs' s' /\ answer_pbuf hlen (cs p) r cs'.
Proof.
  intros HS1 Hpr Ec Hne Hg Hh Hpl Hl4 Ht8 Hal2 Hgr (Hrok & Hrstd & Hrrf & Hrlen & Hrtl & Hrpay & Hrnx & Hrty). unfold icmp_echo_copy.
  destruct (istk_packet _ _ _ p HS1 ltac:(set_solver)) as (b0 & t0 & E0 & _ & Hk & Hstd & Hb & Ht & Hs).
  rewrite cs_set_ne, Ec in E0 by done. injection E0 as <- <-. pose proof Hb as (? & ? & ? & ?).
  change (i_heap (iheap h1 s)) with h1. rewrite Hgr; cbn [mbind option_bind]. destruct (Z.ltb_spec (pb_len rb) (hlen + SIZEOF_ICMP_ECHO_HDR)); [unfold SIZEOF_ICMP_ECHO_HDR in *; lia|].
  unfold ptr_read; cbn [fst snd]. rewrite Hg; cbn [mbind option_bind].
  rewrite mem_read_spec by lia. cbn [mbind option_bind]. set (bs := ztake hlen _).
  assert (Hbs : zlen bs = hlen) by (unfold bs; rewrite zlen_ztake; [done|]; rewrite zlen_zdrop; lia).
  destruct (zsplit hlen (pb_bytes rb)) as (x & y & Ex & Hx & _); [rewrite pb_bytes_len by done; lia|].
  destruct (payload_patch rb [] x y 0 bs Hrok Ex ltac:(done) ltac:(lia)) as (rb1 & -> & P1 & O1 & _). cbn [mbind option_bind].
  assert (Hin : r ∈ r :: p :: H) by by left.
  pose proof (istk_patch _ _ _ r rb [] rb1 HS1 Hin (cs_set_eq _ _ _) P1 O1) as HS2. change (i_heap (iheap h1 s)) with h1 in HS2.
  destruct (istk_packet _ _ _ r HS2 Hin) as (b2 & t2 & E2 & _ & Hk2 & Hst2 & _). rewrite cs_set_eq in E2. injection E2 as <- <-.
  rewrite (remove_header_eq _ _ _ _ _ Hk2) by lia. destruct P1 as (m & Em & Hm).
  destruct (Z.leb_spec hlen (pb_len rb1)); [|subst rb1; cbn in *; lia]. cbn [mbind option_bind Z.eqb negb].
  assert (HS3 : istk (r :: p :: H) (cs_set r [(r, shrunk hlen rb1)] cs) (iheap (put h1 r (shrunk hlen rb1)) s)).
  { assert (HS3 := istk_put _ _ _ r rb1 [] (shrunk hlen rb1) HS2 Hin (cs_set_eq _ _ _)). cbn in HS3. rewrite put_put in HS3.
    eapply istk_cs; [|apply HS3]; [intros z; by rewrite !cs_set_set| |done|done|done|..].
    - destruct O1 as (? & ? & ? & ?). unfold pb_ok; cbn. lia.
    - subst rb1; cbn; lia.
    - subst rb1; cbn; lia. }
  change (i_heap (iheap (put h1 r rb1) (iheap h1 s))) with (put h1 r rb1). rewrite put_put.
  assert (Hsum : sum_len (cs p) = pb_tot_len b) by (rewrite Ec; cbn; lia).
  destruct (istk_copy _ _ _ r (shrunk hlen rb1) p HS3) as (h4 & rb4 & E4 & P4 & O4 & B4 & HS4 & Hg4); try done; [set_solver|by apply cs_set_eq|..].
  { rewrite cs_set_ne, Ec by done. apply Forall_cons. split; [cbn; lia|done]. }
  { rewrite cs_set_ne, Hsum by done. subst rb1; cbn; lia. }
  change (i_heap (iheap ?x s)) with x in E4. rewrite cs_set_ne in B4 by done. rewrite E4. cbn [mbind option_bind Z.eqb negb ERR_OK].
  assert (HS5 : istk (p :: r :: H) (cs_set r [(r, rb4)] cs) (iheap h4 s)).
  { eapply istk_perm; [apply perm_swap|]. eapply istk_cs; [|exact HS4]. intros z; by rewrite cs_set_set. }
  destruct (istk_free custom_free p _ _ _ HS5) as (h6 & cs6 & E6 & HS6 & Hcs6 & _).
  change (iheap h4 ?x) with (iheap h4 s). rewrite E6. cbn [mbind option_bind].
  exists (iheap h6 s), cs6. split; [done|]. split; [apply ikeeps_heap|]. split; [done|].
  exists rb4, []. assert (Er6 : cs6 r = [(r, rb4)]) by (rewrite Hcs6 by done; by apply cs_set_eq). destruct P4 as (m4 & Em4 & Hm4).
  split; [done|]. split; [|split; [|split; [|split; [by constructor|]]]].
  - rewrite Er6. unfold content; cbn. rewrite app_nil_r, B4, zdrop_ge, app_nil_r; [done|].
    rewrite pb_bytes_len; [subst rb1; cbn; lia|]. destruct O1 as (? & ? & ? & ?). unfold pb_ok; cbn. lia.
  - subst rb4 rb1; cbn; lia.
  - unfold room. subst rb4 rb1. cbn. rewrite Hrty, Hrpay, Hrtl. change (align4 PBUF_LINK) with 16.
    rewrite !andb_true_iff, Z.leb_le, Z.ltb_lt. split_and!; [done|lia|lia].
  - subst rb4 rb1; cbn; lia.
Qed.

Lemma echo_pbuf_ok H cs s p b t hlen :
  istk (p :: H) cs s -> cs p = (p, b) :: t -> no_empty t -> pb_ref b < 255 -> 20 <= hlen <= 60 -> hlen <= pb_payload b -> 4 <= pb_len b -> 8 <= pb_tot_len b ->
  exists r s', icmp_echo_pbuf custom_free p (p, pb_payload b - hlen) hlen s = Some (r, s') /\ ikeeps s s' /\
    match r with
    | None => istack (p :: H) s'
    | Some p' => exists cs', istk (p' :: H) cs' s' /\ answer_pbuf hlen (cs p) p' cs'
    end.
Proof.
  intros HS Ec Hne Hrf Hh Hpl Hl4 Ht8. destruct (room (hlen + PBUF_LINK_HLEN) b) eqn:Er.
  { rewrite (echo_pbuf_room (p :: H) cs s p b t) by (done || by left). exists (Some p), s. split; [done|]. split; [apply ikeeps_refl|].
    exists cs. split; [done|]. exists b, t. split_and!; try done. by eapply room_less; [|exact Er]; unfold PBUF_LINK_HLEN; lia. }
  destruct (istk_packet _ _ _ p HS ltac:(by left)) as (b0 & t0 & E0 & Hg & Hk & Hstd & Hb & Ht & Hs).
  rewrite Ec in E0. injection E0 as <- <-. pose proof Hb as (? & ? & ? & ?). unfold icmp_echo_pbuf, PBUF_LINK_HLEN in *.
  rewrite (add_header_eq _ _ _ _ _ Hk), Er by lia. cbn [mbind option_bind Z.eqb negb]. rewrite Hg; cbn [mbind option_bind].
  assert (Htl : pb_tot_len b < 65536) by (destruct Hk as [_ _ _ _ Hk]; cbn in Hk; lia).
  set (al := u16 (pb_tot_len b + hlen)).
  destruct (Z.ltb_spec al (pb_tot_len b)) as [|Hal].
  { eexists None, _. split; [reflexivity|]. split; [apply ikeeps_heap|]. rewrite iheap_self. by exists cs. }
  assert (Hal2 : al < 65536) by (unfold al, u16; apply Z.mod_pos_bound; lia).
  assert (Eal : al = pb_tot_len b + hlen).
  { unfold al, u16 in *. change (2 ^ 16) with 65536 in *. revert Hal. zdm; lia. }
  destruct (istk_alloc custom_free PBUF_LINK al (p :: H) cs s HS) as (r & h1 & -> & Hr); [unfold PBUF_LINK; lia|unfold al, u16; apply Z.mod_pos_bound; lia|].
  cbn [mbind option_bind]. destruct r as [r|]; last first.
  { eexists None, _. split; [reflexivity|]. split; [apply ikeeps_heap|]. by exists cs. }
  destruct Hr as (rb & HS1 & Hrn & Hnew & Hgr & Hfree & Hoth).
  assert (Hpr : p <> r) by (intros ->; congruence).
  destruct (echo_copy_ok H cs s h1 p b t r rb hlen HS1 Hpr Ec Hne) as (s' & cs' & E & HK & HS' & Ha); try done; try lia; [by rewrite Hoth|by rewrite <- Eal|].
  rewrite E. exists (Some r), s'. split; [done|]. split; [done|]. by exists cs'.
Qed.

End echo.

(** Any header and message can be cut into fields. *)
Lemma echo_cut hlen fr m :
  20 <= hlen -> zlen fr = hlen -> 4 <= zlen m -> bytes_ok (ztake 4 m) -> exists e, fr = echo_hdr e /\ m = echo_msg e /\ echo_wf hlen e.
Proof.
  intros Hh Hf Hm Hb.
  destruct (zsplit 8 fr) as (f & r1 & -> & Lf & L1); [lia|]. destruct (zsplit 1 r1) as (ttl & r2 & -> & Lt & L2); [lia|].
  destruct (zsplit 1 r2) as (pr & r3 & -> & Lp & L3); [lia|]. destruct (zsplit 2 r3) as (chk & r4 & -> & Lc & L4); [lia|].
  destruct (zsplit 4 r4) as (sa & r5 & -> & Ls & L5); [lia|]. destruct (zsplit 4 r5) as (da & op & -> & Ld & L6); [lia|].
  destruct ttl as [|ttl [|? ?]]; [done| |rewrite !zlen_cons in Lt; pose proof (zlen_nonneg l); lia].
  destruct pr as [|pr [|? ?]]; [done| |rewrite !zlen_cons in Lp; pose proof (zlen_nonneg l); lia].
  destruct m as [|ty [|co [|c0 [|c1 rest]]]]; try (unfold zlen in Hm; cbn in Hm; lia).
  change (ztake 4 (ty :: co :: c0 :: c1 :: rest)) with [ty; co; c0; c1] in Hb. unfold bytes_ok, byte_ok in Hb. rewrite !Forall_cons in Hb.
  destruct Hb as (_ & _ & H0 & H1 & _).
  exists (EchoParts f ttl pr chk sa da op ty co (c0 + 256 * c1) rest). split; [done|]. split.
  - unfold echo_msg; cbn. unfold byte_of. change (8 * 0) with 0. change (8 * 1) with 8. change (2 ^ 0) with 1. change (2 ^ 8) with 256.
    do 2 f_equal. f_equal; [|f_equal]; zdm; lia.
  - split; cbn; try done; try lia.
Qed.

Section reply.
  Context {U : Upper} (custom_free : addr -> heap -> option heap) (buf : list Z) (odd_payload : addr -> pbuf -> bool).
  Context (ip4_frag : addr -> Z -> Z -> istate -> option (Z * istate)).

(** The reply [e'] is handed to [ip4_output_if] with its header in place. *)
Lemma echo_reply_eq H cs s p b t hlen inp e :
  istk H cs s -> p ∈ H -> cs p = (p, b) :: t -> 20 <= hlen <= 60 -> room hlen b = true ->
  front hlen b = echo_hdr e -> pb_bytes b = echo_msg e -> echo_wf hlen e ->
  let src := current_iphdr_dest (ip_data s) in
  exists b' k odd, let e' := echo_answer src (current_iphdr_src (ip_data s)) k e in
    let s1 := iheap (put (i_heap s) p b') s in
    icmp_echo_reply custom_free buf odd_payload ip4_frag p hlen inp s =
      ('(_, s') ← ip4_output_if custom_free buf ip4_frag p (Some src) None ICMP_TTL 0 IP_PROTO_ICMP inp s1; Some s') /\
    istk H (cs_set p ((p, b') :: t) cs) s1 /\ pb_bytes b' = echo_hdr e' ++ echo_msg e' /\ patched (grown hlen b) b' /\
    inet_chksum odd (echo_hdr (echo_answer src (current_iphdr_src (ip_data s)) 0 e)) hlen = Some k.
Proof.
  intros HS Hp Ec Hh Hr Ef Em Hwf src. destruct (istk_packet _ _ _ _ HS Hp) as (b0 & t0 & E0 & Hg & Hk & Hstd & Hb & Ht & Hs).
  rewrite Ec in E0. injection E0 as <- <-. unfold icmp_echo_reply. rewrite (add_header_eq _ _ _ _ _ Hk), Hr by lia.
  cbn [mbind option_bind Z.eqb negb]. rewrite get_put_eq; cbn [mbind option_bind].
  unfold room in Hr. rewrite !andb_true_iff, Z.leb_le, Z.ltb_lt in Hr. destruct Hr as [[_ Hr] Hl].
  assert (Hgok : pb_ok (grown hlen b)) by (apply grown_ok; try done; lia).
  destruct (echo_rewrite_spec odd_payload p hlen src (current_iphdr_src (ip_data s)) (grown hlen b) e Hgok) as (b' & k & odd & Erw & P & O & B & Hk');
    [rewrite grown_bytes by (done || lia); by rewrite Ef, Em|done|].
  exists b', k, odd. cbn zeta. subst src. rewrite Erw. cbn [mbind option_bind]. rewrite put_put. split; [done|]. split; [|done].
  destruct P as (m & E & Hm). eapply istk_put; try done; subst b'; cbn; try done; lia.
Qed.

Context (Hbuf : zlen buf = 2048) `{!Sender ip4_frag}.

Lemma echo_reply_ok l H cs s p b t hlen inp :
  istk (p :: H) cs s -> ip_env l s -> inp ∈ l -> cs p = (p, b) :: t -> 20 <= hlen <= 60 -> room hlen b = true ->
  4 <= pb_len b -> bytes_ok (ztake 4 (pb_bytes b)) -> no_empty t -> pb_ref b < 255 ->
  exists s', icmp_echo_reply custom_free buf odd_payload ip4_frag p hlen inp s = Some s' /\ istack (p :: H) s' /\ isame s s'.
Proof using All.
  intros HS HE Hin Ec Hh Hr Hl4 Hb4 Hne Hrf. destruct (istk_packet _ _ _ p HS ltac:(by left)) as (b0 & t0 & E0 & Hg & Hk & Hstd & Hb & Ht & Hs).
  rewrite Ec in E0. injection E0 as <- <-.
  assert (Hr' := Hr). unfold room in Hr'. rewrite !andb_true_iff, Z.leb_le, Z.ltb_lt in Hr'. destruct Hr' as [[_ Hpl] _].
  destruct (echo_cut hlen (front hlen b) (pb_bytes b)) as (e & Ef & Em & Hwf); [lia|apply front_len; done || lia|by rewrite pb_bytes_len|done|].
  destruct (echo_reply_eq (p :: H) cs s p b t hlen inp e HS ltac:(by left) Ec Hh Hr Ef Em Hwf) as (b' & k & odd & -> & HS1 & _ & (m & Eb & _) & _).
  set (s1 := iheap _ s) in *. assert (HE1 : ip_env l s1) by by eapply same_env, HE; apply heap_same.
  destruct (output_if_ok custom_free buf Hbuf ip4_frag l H _ s1 p (Some (current_iphdr_dest (ip_data s))) None ICMP_TTL 0 IP_PROTO_ICMP inp HS1 HE1 Hin)
    as (r & s' & -> & HS' & Hsm).
  { exists b', t. rewrite cs_set_eq. split; [done|]. split; [done|]. by subst b'. }
  cbn [mbind option_bind]. exists s'. split; [done|]. split; [done|]. etransitivity; [apply heap_same|done].
Qed.

End reply.

(** ** Protocols above IP *)

(** A packet as [ip4_input] hands it up: past its IP header, which
    [current_ip4_header] points at. *)
Record delivered {U : Upper} (l : list Z) (p : addr) (b : pbuf) (t : list (addr * pbuf)) (hlen : Z) (s : istate) : Prop := Delivered {
  dl_hlen : 20 <= hlen <= 60;
  dl_front : hlen <= pb_payload b;
  dl_mem : pb_payload b - hlen + 28 <= zlen (pb_mem b);
  dl_bytes : bytes_ok (pb_bytes b);
  dl_quoted : bytes_ok (quoted (grown hlen b));
  dl_tail : no_empty t;
  dl_ref : pb_ref b < 255;
  dl_hdr : current_ip4_header (ip_data s) = Some (p, pb_payload b - hlen);
  dl_hl : iph_hl_bytes (i_heap s) (p, pb_payload b - hlen) = Some hlen;
  dl_netif : exists n, current_netif (ip_data s) = Some n /\ n ∈ l;
  dl_input : exists n, current_input_netif (ip_data s) = Some n /\ n ∈ l;
  dl_cur : current_ip_header_tot_len (ip_data s) = hlen;
  dl_tot : hlen + pb_tot_len b < 65536;
}.

(** What IP relies on from a protocol: it takes the packet over. *)
Class Protocol {U : Upper} (input : addr -> Z -> istate -> option istate) : Prop :=
  protocol_ok : forall l H cs s p b t hlen inp,
    istk (p :: H) cs s -> ip_env l s -> inp ∈ l -> cs p = (p, b) :: t -> delivered l p b t hlen s ->
    exists s', input p inp s = Some s' /\ istack H s' /\ isame s s'.

Lemma bytes_ok_sub n m l : bytes_ok l -> bytes_ok (ztake n (zdrop m l)).
Proof. intros Hl. unfold bytes_ok, ztake, zdrop. by apply Forall_take, Forall_drop. Qed.

(** Freeing the packet is the least a protocol does. *)
Lemma free_ok {U : Upper} cf H s0 s p : istack (p :: H) s -> isame s0 s -> exists s', pbuf_free_i cf p s = Some s' /\ istack H s' /\ isame s0 s'.
Proof.
  intros (cs & HS) Hsm. destruct (istk_free cf p H cs s HS) as (h' & cs' & E & HS' & _). exists (iheap h' s).
  split; [done|]. split; [by exists cs'|]. etransitivity; [done|apply heap_same].
Qed.

#[export] Instance free_protocol {U : Upper} cf : Protocol (fun p _ s => pbuf_free_i cf p s).
Proof. intros l H cs s p b t hlen inp HS _ _ _ _. apply free_ok; [by exists cs|reflexivity]. Qed.

Section input.
  Context {U : Upper} (custom_free : addr -> heap -> option heap) (buf : list Z) (odd_payload : addr -> pbuf -> bool).
  Context (ip4_frag : addr -> Z -> Z -> istate -> option (Z * istate)).
  Context (Hbuf : zlen buf = 2048) `{!Sender ip4_frag}.

#[export] Instance icmp_protocol : Protocol (icmp_input custom_free buf odd_payload ip4_frag).
Proof using All.
  intros l H cs s p b t hlen inp HS HE Hin Ec HD. pose proof HD as [Hh Hf Hm Hby _ Hne Hrf Hhdr Hhl (n & Hcn & Hnl) _ _ _].
  destruct (istk_packet _ _ _ p HS ltac:(by left)) as (b0 & t0 & E0 & Hg & Hk & Hstd & Hb & Ht & Hs).
  rewrite Ec in E0. injection E0 as <- <-.
  assert (Hfree : exists s', pbuf_free_i custom_free p s = Some s' /\ istack H s' /\ isame s s') by (apply free_ok; [by exists cs|reflexivity]).
  unfold icmp_input. rewrite Hhdr; cbn [mbind option_bind]. rewrite Hhl; cbn [mbind option_bind].
  destruct (Z.ltb_spec hlen IP_HLEN); [done|]. rewrite Hg; cbn [mbind option_bind].
  destruct (Z.ltb_spec (pb_len b) 4) as [|Hl4]; [done|].
  assert (Hty : exists ty, payload_read b 0 1 ≫= byte_at = Some ty).
  { rewrite payload_read_spec by (done || lia). cbn [mbind option_bind]. rewrite zdrop_0. pose proof (pb_bytes_len b Hb).
    destruct (pb_bytes b); [unfold zlen in *; cbn in *; lia|]. by eexists. }
  destruct Hty as (ty & ->). cbn [mbind option_bind]. destruct (ty =? ICMP_ECHO); [|done].
  destruct (ip4_addr_ismulticast _); [done|]. rewrite Hcn; cbn [mbind option_bind].
  destruct (env_get _ _ _ HE Hnl) as [v ->]. cbn [mbind option_bind]. destruct (ip4_addr_isbroadcast_u32 _ v); [done|].
  destruct (Z.ltb_spec (pb_tot_len b) SIZEOF_ICMP_ECHO_HDR) as [|Ht8]; [done|]. unfold SIZEOF_ICMP_ECHO_HDR in Ht8.
  destruct (echo_pbuf_ok custom_free H cs s p b t hlen HS Ec Hne Hrf Hh Hf Hl4 Ht8) as (r & s1 & -> & HK & Hr). cbn [mbind option_bind].
  destruct r as [p'|]; [|apply free_ok; [done|by apply ikeeps_same]].
  destruct Hr as (cs' & HS1 & b' & t' & Ec' & Hcont & Hl' & Hroom & Hne' & Hrf').
  assert (HE1 : ip_env l s1) by by eapply same_env, HE; apply ikeeps_same.
  destruct (echo_reply_ok custom_free buf odd_payload ip4_frag Hbuf l H cs' s1 p' b' t' hlen inp HS1 HE1 Hin Ec' Hh Hroom Hl') as (s2 & -> & HS2 & Hsm2); try done.
  { destruct (istk_packet _ _ _ p' HS1 ltac:(by left)) as (b1 & t1 & E1 & _ & _ & _ & Hb' & _). rewrite Ec' in E1. injection E1 as <- <-.
    rewrite Ec', Ec in Hcont. unfold content in Hcont; cbn in Hcont. apply (f_equal (ztake 4)) in Hcont.
    rewrite !ztake_app_le in Hcont by (rewrite pb_bytes_len by done; lia). rewrite Hcont. by apply (bytes_ok_sub 4 0). }
  cbn [mbind option_bind]. apply free_ok; [done|]. etransitivity; [by apply ikeeps_same|done].
Qed.

End input.
