(* ===== verification/Ip4InThm.v ===== *)
(** IPv4 input: which packets are delivered, and that input is safe. *)
From S2P Require Import Prelude Bits Def IpAddr Pbuf PbufData PbufChain PbufIO PbufLife PbufCopy PbufOwn PbufHdr Chksum NetifRec Netif NetifThm.
From S2P Require Import XnetTap XnetTapThm Ethernet EthernetThm Ip4Addr Etharp EtharpTable EtharpOps EtharpOut EtharpSend EtharpIn EtharpNet.
From S2P Require Import IpState NetifLoop NetifLoopThm Ip4Out Icmp Ip4In Ip4Hdr IpEnv IpRes Ip4OutThm IcmpThm.

Section accept.
  Context {U : Upper}.

(** The interface that accepts a packet for [dest] that came in on [inp]. *)
Definition accept_spec (l : list Z) (inp dest : Z) (s : istate) : option Z :=
  if ip4_addr_ismulticast dest then
    if nif_test (fun v => netif_is_up v && negb (nif_ip_addr v =? IPADDR_ANY)) (i_net s) inp then Some inp else None
  else if nif_test (ip4_input_accept dest) (i_net s) inp then Some inp
  else if ip4_addr_isloopback dest then None
  else List.find (fun n => negb (n =? inp) && nif_test (ip4_input_accept dest) (i_net s) n) l.

Lemma accept_loop_spec ns inp dest l : forall p fuel,
  nlist ns p l -> (length l < fuel)%nat ->
  accept_loop fuel p inp dest ns = Some (List.find (fun n => negb (n =? inp) && nif_test (ip4_input_accept dest) ns n) l).
Proof.
  induction l as [|n l IH]; intros p fuel Hl Hf; cbn in Hl.
  - subst p. by destruct fuel.
  - destruct Hl as (-> & v & Hv & Hl). destruct fuel as [|fuel]; [cbn in Hf; lia|]. cbn.
    unfold nif_test at 1. rewrite Hv. cbn. specialize (IH (nif_next v) fuel Hl ltac:(cbn in Hf; lia)).
    destruct (n =? inp); cbn; [done|]. by destruct (ip4_input_accept dest v).
Qed.

Lemma input_netif_ok l s inp dest : ip_env l s -> inp ∈ l -> ip4_input_netif inp dest s = Some (accept_spec l inp dest s).
Proof.
  intros HE Hin. destruct (env_get _ _ _ HE Hin) as [v Hv]. pose proof HE as [E1 E2 _ _ _ _].
  unfold ip4_input_netif, accept_spec, nif_test at 1 2. rewrite Hv; cbn [mbind option_bind]. unfold inif in Hv. rewrite Hv.
  rewrite (accept_loop_spec _ _ _ l) by (done || by eapply nlist_length).
  destruct (ip4_addr_ismulticast dest); [done|]. destruct (ip4_input_accept dest v); [done|]. by destruct (ip4_addr_isloopback dest).
Qed.

Lemma accept_in l s inp dest n : inp ∈ l -> accept_spec l inp dest s = Some n -> n ∈ l.
Proof.
  intros Hin. unfold accept_spec. destruct (ip4_addr_ismulticast dest).
  - destruct (nif_test _ _ _); [|done]. by intros [= <-].
  - destruct (nif_test _ _ _); [by intros [= <-]|]. destruct (ip4_addr_isloopback dest); [done|].
    intros [Hn _]%find_some. by apply list_elem_of_In.
Qed.

End accept.

(** ** Reading the header *)
Section read.
  Context {U : Upper}.

Lemma ptr_read_spec h p b o n :
  get h p = Some b -> 0 <= pb_payload b -> 0 <= o -> 0 <= n -> o + n <= 28 -> pb_payload b + 28 <= zlen (pb_mem b) ->
  ptr_read h (p, pb_payload b) o n = Some (ztake n (zdrop o (quoted b))).
Proof.
  intros Hg Hp Ho Hn Hon Hm. unfold ptr_read; cbn [fst snd]. rewrite Hg; cbn [mbind option_bind]. rewrite mem_read_spec by lia.
  f_equal. unfold quoted. rewrite zdrop_ztake, zdrop_zdrop, ztake_ztake by lia. f_equal; [lia|]. f_equal; lia.
Qed.

Lemma one_byte n (l : list Z) : 0 <= n < zlen l -> bytes_ok l -> exists x, byte_at (ztake 1 (zdrop n l)) = Some x /\ byte_ok x.
Proof.
  intros Hn Hb. assert (Hl : zlen (ztake 1 (zdrop n l)) = 1) by (rewrite zlen_ztake; [done|]; rewrite zlen_zdrop; lia).
  pose proof (bytes_ok_sub 1 n l Hb) as Hs. destruct (ztake 1 (zdrop n l)) as [|x [|? ?]]; [done| |rewrite !zlen_cons in Hl; pose proof (zlen_nonneg l0); lia].
  exists x. split; [done|]. by apply Forall_cons in Hs as [? _].
Qed.

Lemma hl_bytes_spec h p b :
  get h p = Some b -> 0 <= pb_payload b -> pb_payload b + 28 <= zlen (pb_mem b) -> bytes_ok (quoted b) ->
  exists v, ptr_read h (p, pb_payload b) 0 1 ≫= byte_at = Some v /\ byte_ok v /\
    iph_hl_bytes h (p, pb_payload b) = Some ((v .& 0x0f) * 4) /\ 0 <= (v .& 0x0f) * 4 <= 60.
Proof.
  intros Hg Hp Hm Hb. rewrite (ptr_read_spec h p b) by (done || lia). cbn [mbind option_bind].
  destruct (one_byte 0 (quoted b)) as (v & Ev & Hv); [rewrite quoted_len; lia|done|]. exists v. split; [done|]. split; [done|].
  assert (Hr : 0 <= v .& 0x0f <= 15).
  { rewrite (land_mask 4 v 15) by done. change (2 ^ 4) with 16. pose proof (Z.mod_pos_bound v 16). lia. }
  split; [|lia]. unfold iph_hl_bytes. rewrite (ptr_read_spec h p b) by (done || lia). cbn [mbind option_bind]. rewrite Ev; cbn [mbind option_bind].
  f_equal. apply u8_small. lia.
Qed.

End read.

(** ** Delivery *)

(** A packet with its IP header at the payload pointer, as the link layer hands
    it over: memory for the header and eight bytes behind it, no empty pbuf
    behind the first, room for one more reference. *)
Record ip_packet (b : pbuf) (t : list (addr * pbuf)) : Prop := IpPacket {
  ipk_mem : pb_payload b + 28 <= zlen (pb_mem b);
  ipk_bytes : bytes_ok (pb_bytes b);
  ipk_quoted : bytes_ok (quoted b);
  ipk_tail : no_empty t;
  ipk_ref : pb_ref b < 255;
}.

(** What IP relies on from reassembly: a complete datagram has a header of the
    length of the fragments'. *)
Class Reassembler {U : Upper} (reass : addr -> istate -> option (option addr * istate)) : Prop :=
  reass_ok : forall l H cs s p b t hlen,
    istk (p :: H) cs s -> ip_env l s -> cs p = (p, b) :: t -> ip_packet b t -> 20 <= hlen <= pb_len b ->
    iph_hl_bytes (i_heap s) (p, pb_payload b) = Some hlen ->
    exists r s', reass p s = Some (r, s') /\ isame s s' /\
      match r with
      | None => istack H s'
      | Some q => exists cs' b' t', istk (q :: H) cs' s' /\ cs' q = (q, b') :: t' /\ ip_packet b' t' /\ hlen <= pb_len b' /\
                    iph_hl_bytes (i_heap s') (q, pb_payload b') = Some hlen
      end.

(** Dropping every fragment is the least reassembly does. *)
#[export] Instance drop_reassembler {U : Upper} cf : Reassembler (fun p s => s ← pbuf_free_i cf p s; Some (None, s)).
Proof.
  intros l H cs s p b t hlen HS _ _ _ _ _. destruct (free_ok cf H s s p) as (s' & E & HS' & Hsm); [by exists cs|reflexivity|].
  exists None, s'. rewrite E. done.
Qed.

Section deliver.
  Context {U : Upper} (custom_free : addr -> heap -> option heap) (buf : list Z) (odd_payload : addr -> pbuf -> bool).
  Context (ip4_frag : addr -> Z -> Z -> istate -> option (Z * istate)).
  Context (ip4_reass : addr -> istate -> option (option addr * istate)).
  Context (udp_input tcp_input : addr -> Z -> istate -> option istate).

(** The state in which the packet is handed up. *)
Definition handed (p : addr) (b : pbuf) (hlen nif inp : Z) (s : istate) : istate :=
  iheap (put (i_heap s) p (shrunk hlen b))
    (set_ip_data (set_cur_packet (Some nif) (Some inp) (Some (p, pb_payload b)) hlen (ip_data s)) s).

Lemma handed_same p b hlen nif inp s : isame s (handed p b hlen nif inp s).
Proof using Type. etransitivity; [apply data_same|apply heap_same]. Qed.

Lemma handed_delivered l H cs s p b t hlen nif inp :
  istk H cs s -> p ∈ H -> cs p = (p, b) :: t -> ip_packet b t -> 20 <= hlen <= pb_len b -> nif ∈ l -> inp ∈ l ->
  iph_hl_bytes (i_heap s) (p, pb_payload b) = Some hlen ->
  istk H (cs_set p ((p, shrunk hlen b) :: t) cs) (handed p b hlen nif inp s) /\
  delivered l p (shrunk hlen b) t hlen (handed p b hlen nif inp s).
Proof using Type.
  intros HS Hp Ec [Hm Hby Hqu Hne Hrf] Hh Hn Hi Hhl. destruct (istk_packet _ _ _ _ HS Hp) as (b0 & t0 & E0 & Hg & Hk & Hstd & Hb & Ht & Hs).
  rewrite Ec in E0. injection E0 as <- <-. pose proof Hb as (? & ? & ? & ?).
  destruct (hl_bytes_spec _ _ _ Hg ltac:(lia) ltac:(lia) Hqu) as (v & _ & _ & Hhl' & Hmax).
  pose proof (packet_tot_bound _ _ _ _ Hk). assert (hlen <= 60) by (rewrite Hhl in Hhl'; injection Hhl' as ->; lia). split.
  - eapply (istk_put H cs (set_ip_data _ s) p b t); try done; [by apply istk_data|unfold pb_ok|..]; cbn; lia.
  - assert (Epl : pb_payload (shrunk hlen b) - hlen = pb_payload b) by (cbn; lia).
    split; rewrite ?Epl, ?grown_shrunk; try done; try (cbn; lia); [rewrite shrunk_bytes by (done || lia); by apply bytes_ok_zdrop| |by exists nif|by exists inp].
    unfold iph_hl_bytes, ptr_read in *; cbn [fst snd] in *. change (i_heap (handed p b hlen nif inp s)) with (put (i_heap s) p (shrunk hlen b)).
    rewrite get_put_eq. rewrite Hg in Hhl. exact Hhl.
Qed.

(** The packet is handed to the protocol its header names. *)
Lemma deliver_eq H cs s p b t hlen nif inp :
  istk H cs s -> p ∈ H -> cs p = (p, b) :: t -> ip_packet b t -> 20 <= hlen <= pb_len b ->
  iph_hl_bytes (i_heap s) (p, pb_payload b) = Some hlen ->
  exists proto, byte_at (ztake 1 (zdrop 9 (pb_bytes b))) = Some proto /\
    ip4_deliver custom_free buf odd_payload ip4_frag udp_input tcp_input p hlen nif inp s =
      (s' ← ip4_demux custom_free buf odd_payload ip4_frag udp_input tcp_input proto p hlen nif inp (handed p b hlen nif inp s);
       Some (ERR_OK, set_ip_data (IpGlobals None None None 0 IPADDR_ANY IPADDR_ANY) s')).
Proof using Type.
  intros HS Hp Ec [Hm Hby Hqu Hne Hrf] Hh Hhl. destruct (istk_packet _ _ _ _ HS Hp) as (b0 & t0 & E0 & Hg & Hk & Hstd & Hb & Ht & Hs).
  rewrite Ec in E0. injection E0 as <- <-. pose proof Hb as (? & ? & ? & ?).
  destruct (one_byte 9 (quoted b)) as (proto & Ep & _); [rewrite quoted_len; lia|done|]. exists proto. split.
  - rewrite <- Ep. f_equal. unfold pb_bytes, quoted. rewrite !zdrop_ztake, !zdrop_zdrop, !ztake_ztake by lia. f_equal; lia.
  - unfold ip4_deliver. rewrite Hg; cbn [mbind option_bind]. rewrite Hhl; cbn [mbind option_bind].
    rewrite (ptr_read_spec _ _ _ _ _ Hg) by lia. cbn [mbind option_bind]. rewrite Ep; cbn [mbind option_bind].
    change (i_heap (set_ip_data ?d s)) with (i_heap s). rewrite (remove_header_eq _ _ _ _ _ Hk) by lia.
    destruct (Z.leb_spec hlen (pb_len b)); [|lia]. reflexivity.
Qed.

Context (Hbuf : zlen buf = 2048) `{!Sender ip4_frag, !Reassembler ip4_reass, !Protocol udp_input, !Protocol tcp_input}.

Lemma demux_ok l H cs s p b t hlen proto nif inp :
  istk (p :: H) cs s -> ip_env l s -> inp ∈ l -> nif ∈ l -> cs p = (p, b) :: t -> delivered l p b t hlen s ->
  exists s', ip4_demux custom_free buf odd_payload ip4_frag udp_input tcp_input proto p hlen nif inp s = Some s' /\ istack H s' /\ isame s s'.
Proof using All.
  intros HS HE Hin Hnf Ec HD. unfold ip4_demux. destruct (proto =? IP_PROTO_UDP); [by eapply protocol_ok|].
  destruct (proto =? IP_PROTO_TCP); [by eapply protocol_ok|].
  destruct (proto =? IP_PROTO_ICMP); [by eapply (icmp_protocol custom_free buf odd_payload ip4_frag Hbuf)|].
  destruct (env_get _ _ _ HE Hnf) as [v ->]. cbn [mbind option_bind].
  destruct (_ && _); cbn [mbind option_bind]; [|apply free_ok; [by exists cs|reflexivity]].
  destruct HD as [Hh Hf Hm _ Hqu Hne Hrf _ _ _ _ _ Htl].
  destruct (istk_packet _ _ _ p HS ltac:(by left)) as (b0 & t0 & E0 & Hg & Hk & Hstd & Hb & Ht & Hs).
  rewrite Ec in E0. injection E0 as <- <-. pose proof Hb as (? & ? & ? & ?).
  rewrite (header_force_eq _ _ _ _ _ Hk) by lia. cbn [mbind option_bind].
  assert (HS1 : istk (p :: H) (cs_set p ((p, grown hlen b) :: t) cs) (iheap (put (i_heap s) p (grown hlen b)) s)).
  { eapply istk_put; try done; [by left|apply grown_ok; done || lia|..]; cbn; lia. }
  set (s1 := iheap _ s) in *. assert (HE1 : ip_env l s1) by by eapply same_env, HE; apply heap_same.
  destruct (send_response_ok custom_free buf odd_payload ip4_frag Hbuf l (p :: H) _ s1 p (grown hlen b) ICMP_DUR ICMP_DUR_PROTO HS1 HE1)
    as (s2 & E2 & HS2 & Hsm2); [apply get_put_eq|cbn; lia|cbn; lia|apply bytes_ok_app; split; [by repeat constructor|done]|].
  unfold icmp_dest_unreach. rewrite E2. cbn [mbind option_bind]. apply free_ok; [done|]. etransitivity; [apply heap_same|done].
Qed.

Lemma deliver_ok l H cs s p b t hlen nif inp :
  istk (p :: H) cs s -> ip_env l s -> inp ∈ l -> nif ∈ l -> cs p = (p, b) :: t -> ip_packet b t -> 20 <= hlen <= pb_len b ->
  iph_hl_bytes (i_heap s) (p, pb_payload b) = Some hlen ->
  exists s', ip4_deliver custom_free buf odd_payload ip4_frag udp_input tcp_input p hlen nif inp s = Some (ERR_OK, s') /\ istack H s' /\ isame s s'.
Proof using All.
  intros HS HE Hin Hnf Ec Hpk Hh Hhl.
  destruct (deliver_eq (p :: H) cs s p b t hlen nif inp HS ltac:(by left) Ec Hpk Hh Hhl) as (proto & _ & ->).
  destruct (handed_delivered l (p :: H) cs s p b t hlen nif inp HS ltac:(by left) Ec Hpk Hh Hnf Hin Hhl) as [HS1 HD].
  set (s1 := handed p b hlen nif inp s) in *. assert (HE1 : ip_env l s1) by by eapply same_env, HE; apply handed_same.
  destruct (demux_ok l H _ s1 p (shrunk hlen b) t hlen proto nif inp HS1 HE1 Hin Hnf (cs_set_eq _ _ _) HD) as (s2 & -> & (cs2 & HS2) & Hsm2).
  cbn [mbind option_bind]. eexists. split; [reflexivity|]. split; [exists cs2; by apply istk_data|].
  etransitivity; [apply handed_same|]. etransitivity; [exact Hsm2|apply data_same].
Qed.

Lemma drop_ok H s0 s p : istack (p :: H) s -> isame s0 s -> exists s', drop_packet custom_free p s = Some (ERR_OK, s') /\ istack H s' /\ isame s0 s'.
Proof using Type.
  intros HS Hsm. destruct (free_ok custom_free H s0 s p HS Hsm) as (s' & E & HS' & Hsm'). exists s'. unfold drop_packet. by rewrite E.
Qed.

Lemma input_checked_ok l H cs s p b t hlen inp :
  istk (p :: H) cs s -> ip_env l s -> inp ∈ l -> cs p = (p, b) :: t -> ip_packet b t -> 20 <= hlen <= pb_len b ->
  iph_hl_bytes (i_heap s) (p, pb_payload b) = Some hlen ->
  exists s', ip4_input_checked custom_free buf odd_payload ip4_frag ip4_reass udp_input tcp_input p (p, pb_payload b) hlen inp s = Some (ERR_OK, s') /\
    istack H s' /\ isame s s'.
Proof using All.
  intros HS HE Hin Ec Hpk Hh Hhl. pose proof Hpk as [Hm Hby Hqu Hne Hrf].
  destruct (istk_packet _ _ _ p HS ltac:(by left)) as (b0 & t0 & E0 & Hg & Hk & Hstd & Hb & Ht & Hs).
  rewrite Ec in E0. injection E0 as <- <-. pose proof Hb as (? & ? & ? & ?).
  assert (Hrd : forall o n, 0 <= o -> 0 <= n -> o + n <= 28 ->
    exists bs, ptr_read (i_heap s) (p, pb_payload b) o n = Some bs /\ zlen bs = n).
  { intros o n Ho Hn Hon. rewrite (ptr_read_spec _ _ _ _ _ Hg) by lia. eexists. split; [done|]. rewrite zlen_ztake; [done|].
    rewrite zlen_zdrop, quoted_len; lia. }
  unfold ip4_input_checked. destruct (Hrd 16 4) as (da & -> & Hda); [lia..|]. cbn [mbind option_bind].
  destruct (four_bytes da Hda) as (dest & ->). cbn [mbind option_bind]. destruct (Hrd 12 4) as (sa & -> & Hsa); [lia..|]. cbn [mbind option_bind].
  destruct (four_bytes sa Hsa) as (src & ->). cbn [mbind option_bind].
  set (s1 := set_ip_data _ s). assert (Hsm1 : isame s s1) by apply data_same. assert (HE1 : ip_env l s1) by by eapply same_env.
  assert (HS1 : istk (p :: H) cs s1) by by apply istk_data.
  rewrite (input_netif_ok l) by done. cbn [mbind option_bind]. destruct (env_get _ _ _ HE1 Hin) as [v ->]. cbn [mbind option_bind].
  destruct (_ || _); [apply drop_ok; [by exists cs|done]|].
  destruct (accept_spec l inp dest s1) as [nif|] eqn:Ea; [|apply drop_ok; [by exists cs|done]].
  apply accept_in in Ea; [|done]. change (i_heap s1) with (i_heap s). destruct (Hrd 6 2) as (ob & -> & Hob); [lia..|]. cbn [mbind option_bind].
  destruct (two_bytes ob Hob) as (off & ->). cbn [mbind option_bind]. destruct (negb _).
  - destruct (reass_ok l H cs s1 p b t hlen HS1 HE1 Ec Hpk Hh Hhl) as (r & s2 & -> & Hsm2 & Hr). cbn [mbind option_bind].
    destruct r as [q|]; [|exists s2; split; [done|]; split; [done|]; by etransitivity].
    destruct Hr as (cs' & b' & t' & HS2 & Ec' & Hpk' & Hh' & Hhl').
    destruct (deliver_ok l H cs' s2 q b' t' hlen nif inp HS2) as (s3 & E & HS3 & Hsm3); try done; [by eapply same_env|lia|].
    exists s3. split; [done|]. split; [done|]. etransitivity; [exact Hsm1|]. by etransitivity.
  - destruct (deliver_ok l H cs s1 p b t hlen nif inp HS1) as (s3 & E & HS3 & Hsm3); try done.
    exists s3. split; [done|]. split; [done|]. by etransitivity.
Qed.

(** What is left of the packet after its padding is cut off. *)
Lemma trimmed_packet b t b' t' p : trimmed (p, b) (p, b') -> (no_empty t -> no_empty t') -> ip_packet b t -> ip_packet b' t' /\ pb_payload b' = pb_payload b.
Proof using Type.
  intros (_ & n & tl & ln & Hl & E) Ht [Hm Hb Hq Hn Hr]. cbn in E, Hl. subst b'. split; [|done]. split; auto.
  unfold pb_bytes in *; cbn in *. rewrite <- (Z.min_l ln (pb_len b)), <- ztake_ztake by lia. by apply (bytes_ok_sub _ 0).
Qed.

(** Cutting the padding off. *)
Lemma input_cut H cs s p b t n :
  istk (p :: H) cs s -> cs p = (p, b) :: t -> ip_packet b t -> 0 <= n ->
  exists h' b' t', (if n <? pb_tot_len b then pbuf_realloc custom_free p n (i_heap s) else Some (i_heap s)) = Some h' /\
    istk (p :: H) (cs_set p ((p, b') :: t') cs) (iheap h' s) /\ get h' p = Some b' /\ ip_packet b' t' /\
    pb_payload b' = pb_payload b /\ quoted b' = quoted b /\ pb_mem b' = pb_mem b /\
    content ((p, b') :: t') = ztake n (content (cs p)) /\ pb_len b' = Z.min (pb_len b) n /\ pb_tot_len b' = Z.min (pb_tot_len b) n.
Proof using Type.
  intros HS Ec Hpk Hn. destruct (istk_packet _ _ _ p HS ltac:(by left)) as (b0 & t0 & E0 & Hg & Hk & _ & Hb & Ht & Hs).
  rewrite Ec in E0. injection E0 as <- <-. assert (Hc : zlen (content (cs p)) = pb_tot_len b) by (rewrite Ec, content_len by apply Hk; cbn [sum_len]; lia).
  destruct (Z.ltb_spec n (pb_tot_len b)).
  - destruct (istk_realloc custom_free (p :: H) cs s p b t n HS ltac:(by left) Ec) as (h' & b' & t' & E & HS' & Hg' & Hcn & Htr & Hn' & Hl'); [lia|].
    exists h', b', t'. destruct (trimmed_packet b t b' t' p Htr Hn' Hpk) as [Hpk' Epl].
    destruct (istk_packet _ _ _ p HS' ltac:(by left)) as (b1 & t1 & E1 & _ & Hk1 & _ & _ & Ht1 & _). rewrite cs_set_eq in E1. injection E1 as <- <-.
    assert (Hc1 : zlen (content ((p, b') :: t')) = pb_tot_len b') by (rewrite content_len by apply Hk1; cbn [sum_len]; lia).
    rewrite Hcn, zlen_ztake_gen, Hc in Hc1.
    assert (Emm : pb_mem b' = pb_mem b) by (destruct Htr as (_ & ? & ? & ? & _ & Eb'); cbn in Eb'; by rewrite Eb').
    split_and!; try done; [unfold quoted; by rewrite Epl, Emm|lia].
  - destruct Hb as (? & _). exists (i_heap s), b, t. rewrite iheap_self. split_and!; try done; try lia.
    + eapply istk_cs; [|exact HS]. intros x. unfold cs_set. by case_decide; subst.
    + rewrite ztake_ge by lia. by rewrite Ec.
Qed.

Lemma ip4_input_ok l H cs s p b t inp :
  istk (p :: H) cs s -> ip_env l s -> inp ∈ l -> cs p = (p, b) :: t -> ip_packet b t ->
  exists s', ip4_input custom_free buf odd_payload ip4_frag ip4_reass udp_input tcp_input p inp s = Some (ERR_OK, s') /\ istack H s' /\ isame s s'.
Proof using All.
  intros HS HE Hin Ec Hpk. pose proof Hpk as [Hm Hby Hqu Hne Hrf].
  destruct (istk_packet _ _ _ p HS ltac:(by left)) as (b0 & t0 & E0 & Hg & Hk & Hstd & Hb & Ht & Hs).
  rewrite Ec in E0. injection E0 as <- <-. pose proof Hb as (? & ? & ? & ?).
  unfold ip4_input. rewrite Hg; cbn [mbind option_bind].
  destruct (hl_bytes_spec _ _ _ Hg ltac:(lia) ltac:(lia) Hqu) as (v & Ev & _ & Ehl & Hhl). rewrite Ev; cbn [mbind option_bind].
  destruct (negb _); [apply drop_ok; [by exists cs|reflexivity]|]. rewrite Ehl; cbn [mbind option_bind]. set (hlen := (v .& 0x0f) * 4) in *.
  rewrite (ptr_read_spec _ _ _ _ _ Hg) by lia. cbn [mbind option_bind].
  destruct (two_bytes (ztake 2 (zdrop 2 (quoted b)))) as (len & ->).
  { rewrite zlen_ztake; [done|]. rewrite zlen_zdrop, quoted_len; lia. }
  cbn [fmap option_fmap option_map mbind option_bind]. pose proof (htons_range len) as Hlen.
  destruct (input_cut H cs s p b t (lwip_htons len) HS Ec Hpk ltac:(lia)) as (h' & b' & t' & -> & HS' & Hg' & Hpk' & Epl & _ & Emm & _). cbn [mbind option_bind]. rewrite Hg'; cbn [mbind option_bind].
  destruct (_ || _ || _) eqn:Echk; [apply drop_ok; [by eexists|apply heap_same]|].
  rewrite !orb_false_iff, !Z.ltb_ge in Echk. destruct Echk as [[Hc1 _] Hc2]. unfold IP_HLEN in Hc2. rewrite <- Epl.
  assert (HE' : ip_env l (iheap h' s)) by by eapply same_env, HE; apply heap_same.
  destruct (input_checked_ok l H _ (iheap h' s) p b' t' hlen inp HS' HE' Hin (cs_set_eq _ _ _) Hpk') as (s' & E & HS2 & Hsm); [lia| |].
  - change (i_heap (iheap h' s)) with h'. unfold iph_hl_bytes, ptr_read in *; cbn [fst snd] in *. rewrite Hg', Epl; cbn [mbind option_bind]. rewrite Emm.
    rewrite Hg in Ehl. exact Ehl.
  - exists s'. split; [done|]. split; [done|]. etransitivity; [apply heap_same|done].
Qed.

(** The dispatch on the version. *)
Lemma ip_input_ok l H cs s p b t inp (ip6_input : addr -> Z -> istate -> option (Z * istate)) :
  (exists s', ip6_input p inp s = Some (ERR_OK, s') /\ istack H s' /\ isame s s') ->
  istk (p :: H) cs s -> ip_env l s -> inp ∈ l -> cs p = (p, b) :: t -> ip_packet b t ->
  exists s', ip_input custom_free buf odd_payload ip4_frag ip4_reass udp_input tcp_input ip6_input p inp s = Some (ERR_OK, s') /\
    istack H s' /\ isame s s'.
Proof using All.
  intros H6 HS HE Hin Ec Hpk. pose proof Hpk as [Hm Hby Hqu Hne Hrf].
  destruct (istk_packet _ _ _ p HS ltac:(by left)) as (b0 & t0 & E0 & Hg & _ & _ & (? & ? & ? & ?) & _). rewrite Ec in E0. injection E0 as <- <-.
  unfold ip_input. rewrite Hg; cbn [mbind option_bind].
  pose proof (ptr_read_spec _ _ _ 0 1 Hg ltac:(lia) ltac:(lia) ltac:(lia) ltac:(lia) Hm) as Er. unfold ptr_read in Er; cbn [fst snd] in Er.
  rewrite Hg in Er; cbn [mbind option_bind] in Er. unfold payload_read. rewrite Er; cbn [mbind option_bind].
  destruct (one_byte 0 (quoted b)) as (v & -> & _); [rewrite quoted_len; lia|done|]. cbn [mbind option_bind].
  destruct (_ =? 6); [done|]. by eapply ip4_input_ok.
Qed.

End deliver.
