(* ===== verification/Ip4Round.v ===== *)
(** What [ip4_input] delivers, and that it delivers what [ip4_output] sends. *)
From S2P Require Import Prelude Bits Def IpAddr Pbuf PbufData PbufChain PbufIO PbufLife PbufCopy PbufOwn PbufHdr Chksum NetifRec Netif NetifThm.
From S2P Require Import XnetTap XnetTapThm Ethernet EthernetThm Ip4Addr Etharp EtharpTable EtharpOps EtharpOut EtharpSend EtharpIn EtharpNet.
From S2P Require Import IpState NetifLoop NetifLoopThm Ip4Out Icmp Ip4In Ip4Hdr IpEnv IpRes Ip4OutThm IcmpThm Ip4InThm.

(** The fields of an IP header [q], as [ip4_input] reads them. *)
Record ip_fields (q : list Z) (v len off src dest : Z) : Prop := IpFields {
  if_v : byte_at (ztake 1 (zdrop 0 q)) = Some v;
  if_len : u16_of (ztake 2 (zdrop 2 q)) = Some len;
  if_off : u16_of (ztake 2 (zdrop 6 q)) = Some off;
  if_src : ip4_at (ztake 4 (zdrop 12 q)) = Some src;
  if_dest : ip4_at (ztake 4 (zdrop 16 q)) = Some dest;
}.

Section round.
  Context {U : Upper} (custom_free : addr -> heap -> option heap) (buf : list Z) (odd_payload : addr -> pbuf -> bool).
  Context (ip4_frag : addr -> Z -> Z -> istate -> option (Z * istate)).
  Context (ip4_reass : addr -> istate -> option (option addr * istate)).
  Context (udp_input tcp_input : addr -> Z -> istate -> option istate).

(** An unfragmented datagram of [len] bytes with a valid header, for one of our
    interfaces. *)
Record acceptable (l : list Z) (inp nif v len off src dest tot plen : Z) (s : istate) : Prop := Acceptable {
  ac_version : v .>> 4 = 4;
  ac_hlen : 20 <= (v .& 0x0f) * 4 <= plen;
  ac_len : (v .& 0x0f) * 4 <= lwip_htons len <= tot;
  ac_whole : off .& PP_HTONS (IP_OFFMASK .| IP_MF) = 0;
  ac_src : forall w, inif s inp = Some w -> ip4_addr_isbroadcast_u32 src w || ip4_addr_ismulticast src = false;
  ac_accept : accept_spec l inp dest s = Some nif;
}.

(** The state once the addresses are known. *)
Definition addressed (src dest : Z) (s : istate) : istate := set_ip_data (set_cur_addrs src dest (ip_data s)) s.

Lemma checked_eq l s p b inp nif v len off src dest tot plen hlen :
  ip_env l s -> inp ∈ l -> get (i_heap s) p = Some b -> 0 <= pb_payload b -> pb_payload b + 28 <= zlen (pb_mem b) ->
  ip_fields (quoted b) v len off src dest -> acceptable l inp nif v len off src dest tot plen s ->
  ip4_input_checked custom_free buf odd_payload ip4_frag ip4_reass udp_input tcp_input p (p, pb_payload b) hlen inp s =
    ip4_deliver custom_free buf odd_payload ip4_frag udp_input tcp_input p hlen nif inp (addressed src dest s).
Proof.
  intros HE Hin Hg Hp Hm [Ev El Eo Es Ed] [Hv Hh Hl Ho Hsrc Hacc]. unfold ip4_input_checked.
  rewrite (ptr_read_spec _ _ _ 16 4 Hg), (ptr_read_spec _ _ _ 12 4 Hg) by lia. cbn [mbind option_bind]. rewrite Ed; cbn [mbind option_bind].
  rewrite Es; cbn [mbind option_bind]. fold (addressed src dest s).
  assert (HE1 : ip_env l (addressed src dest s)) by by eapply same_env, HE; apply data_same.
  rewrite (input_netif_ok l) by done. cbn [mbind option_bind]. change (accept_spec l inp dest (addressed src dest s)) with (accept_spec l inp dest s).
  destruct (env_get _ _ _ HE Hin) as [w Hw]. change (inif (addressed src dest s) inp) with (inif s inp). rewrite Hw; cbn [mbind option_bind].
  rewrite (Hsrc w Hw), Hacc. change (i_heap (addressed src dest s)) with (i_heap s). rewrite (ptr_read_spec _ _ _ 6 2 Hg) by lia.
  cbn [mbind option_bind]. rewrite Eo; cbn [mbind option_bind]. by rewrite Ho.
Qed.

(** The length checks of [ip4_input]. *)
Lemma input_eq l H cs s p b t inp nif v len off src dest :
  istk (p :: H) cs s -> ip_env l s -> inp ∈ l -> cs p = (p, b) :: t -> ip_packet b t -> ip_fields (quoted b) v len off src dest ->
  acceptable l inp nif v len off src dest (pb_tot_len b) (pb_len b) s ->
  let hlen := (v .& 0x0f) * 4 in
  exists h' b' t', istk (p :: H) (cs_set p ((p, b') :: t') cs) (iheap h' s) /\ ip_packet b' t' /\ pb_payload b' = pb_payload b /\
    content ((p, b') :: t') = ztake (lwip_htons len) (content (cs p)) /\ hlen <= pb_len b' /\ pb_len b' = Z.min (pb_len b) (lwip_htons len) /\
    ztake hlen (pb_bytes b') = ztake hlen (pb_bytes b) /\
    iph_hl_bytes h' (p, pb_payload b') = Some hlen /\
    ip4_input custom_free buf odd_payload ip4_frag ip4_reass udp_input tcp_input p inp s =
      ip4_deliver custom_free buf odd_payload ip4_frag udp_input tcp_input p hlen nif inp (addressed src dest (iheap h' s)).
Proof.
  intros HS HE Hin Ec Hpk Hif Hac hlen. pose proof Hpk as [Hm _ Hqu _ _]. pose proof Hif as [Ev El _ _ _]. pose proof Hac as [Hv Hh Hl _ _ _].
  destruct (istk_packet _ _ _ p HS ltac:(by left)) as (b0 & t0 & E0 & Hg & Hk & _ & Hb & Ht & Hs).
  rewrite Ec in E0. injection E0 as <- <-. pose proof Hb as (? & ? & ? & ?). pose proof (htons_range len) as Hlr.
  assert (Hhlb : forall h c, get h p = Some c -> pb_payload c = pb_payload b -> quoted c = quoted b -> pb_mem c = pb_mem b ->
    iph_hl_bytes h (p, pb_payload c) = Some hlen).
  { intros h c Hgc Ep Eq Em. destruct (hl_bytes_spec h p c Hgc) as (v2 & E2 & _ & Eh2 & _); [lia|rewrite Ep, Em; lia|by rewrite Eq|].
    rewrite (ptr_read_spec _ _ _ _ _ Hgc) in E2 by (rewrite ?Ep, ?Em; lia). cbn [mbind option_bind] in E2. rewrite Eq, Ev in E2. by injection E2 as <-. }
  destruct (input_cut custom_free H cs s p b t (lwip_htons len) HS Ec Hpk ltac:(lia)) as (h' & b' & t' & Eh & HS' & Hg' & Hpk' & Epl & Eq & Emm & Hc & Hl' & Ht').
  exists h', b', t'. pose proof (Hhlb h' b' Hg' Epl Eq Emm) as Ehl'. split_and!; try done; [unfold hlen; lia|..].
  - unfold pb_bytes. rewrite Epl, Emm, !ztake_ztake. f_equal. unfold hlen. lia.
  - unfold ip4_input. rewrite Hg; cbn [mbind option_bind]. rewrite !(ptr_read_spec _ _ _ _ _ Hg) by lia. cbn [mbind option_bind].
    rewrite Ev; cbn [mbind option_bind]. rewrite Hv, Z.eqb_refl. cbn [negb]. rewrite (Hhlb _ _ Hg eq_refl eq_refl eq_refl); cbn [mbind option_bind]. rewrite El.
    cbn [fmap option_fmap option_map mbind option_bind]. rewrite Eh; cbn [mbind option_bind]. rewrite Hg'; cbn [mbind option_bind].
    destruct (Z.ltb_spec (pb_len b') hlen); [unfold hlen in *; lia|]. destruct (Z.ltb_spec (pb_tot_len b') (lwip_htons len)); [lia|].
    destruct (Z.ltb_spec hlen IP_HLEN); [unfold hlen, IP_HLEN in *; lia|]. cbn [orb]. rewrite <- Epl.
    apply (checked_eq l (iheap h' s) p b' inp nif v len off src dest (pb_tot_len b) (pb_len b)); try done.
    + by eapply same_env, HE; apply heap_same.
    + lia.
    + rewrite Epl, Emm. lia.
    + by rewrite Eq.
    + destruct Hac; by split.
Qed.

(** The padding is cut off, the header removed, and the data handed to the
    protocol together with the addresses. *)
Lemma input_delivers l H cs s p b t inp nif v len off src dest :
  istk (p :: H) cs s -> ip_env l s -> inp ∈ l -> cs p = (p, b) :: t -> ip_packet b t -> ip_fields (quoted b) v len off src dest ->
  acceptable l inp nif v len off src dest (pb_tot_len b) (pb_len b) s ->
  let hlen := (v .& 0x0f) * 4 in
  exists s1 cs1 b1 t1 proto, istk (p :: H) cs1 s1 /\ cs1 p = (p, b1) :: t1 /\ delivered l p b1 t1 hlen s1 /\ isame s s1 /\ i_up s1 = i_up s /\
    pb_len b1 = Z.min (pb_len b) (lwip_htons len) - hlen /\
    byte_at (ztake 1 (zdrop 9 (pb_bytes b))) = Some proto /\ content (cs1 p) = zdrop hlen (ztake (lwip_htons len) (content (cs p))) /\
    ip_data s1 = IpGlobals (Some nif) (Some inp) (Some (p, pb_payload b)) hlen src dest /\
    ip4_input custom_free buf odd_payload ip4_frag ip4_reass udp_input tcp_input p inp s =
      (s' ← ip4_demux custom_free buf odd_payload ip4_frag udp_input tcp_input proto p hlen nif inp s1;
       Some (ERR_OK, set_ip_data (IpGlobals None None None 0 IPADDR_ANY IPADDR_ANY) s')).
Proof.
  intros HS HE Hin Ec Hpk Hif Hac hlen. pose proof Hac as [_ Hh _ _ _ Hacc].
  destruct (input_eq l H cs s p b t inp nif v len off src dest HS HE Hin Ec Hpk Hif Hac) as (h' & b' & t' & HS' & Hpk' & Epl & Hc & Hl' & Hlm & Hpre & Ehl' & ->).
  fold hlen in Hl', Hpre, Ehl' |- *. set (s0 := addressed src dest (iheap h' s)).
  assert (HS0 : istk (p :: H) (cs_set p ((p, b') :: t') cs) s0) by by apply istk_data.
  assert (Hin' : p ∈ p :: H) by by left. assert (Hsm0 : isame s s0) by (etransitivity; [apply heap_same|apply data_same]).
  assert (Hnl : nif ∈ l) by by eapply accept_in.
  destruct (deliver_eq custom_free buf odd_payload ip4_frag udp_input tcp_input (p :: H) _ s0 p b' t' hlen nif inp HS0 Hin' (cs_set_eq _ _ _) Hpk' ltac:(lia) Ehl')
    as (proto & Ep & ->).
  destruct (handed_delivered l (p :: H) _ s0 p b' t' hlen nif inp HS0 Hin' (cs_set_eq _ _ _) Hpk' ltac:(lia) Hnl Hin Ehl') as [HS1 HD].
  exists (handed p b' hlen nif inp s0). do 4 eexists. split; [exact HS1|]. split; [apply cs_set_eq|]. split; [exact HD|].
  destruct (istk_packet _ _ _ p HS0 Hin') as (b2 & t2 & E2 & _ & Hk2 & _ & Hb2 & _). rewrite cs_set_eq in E2. injection E2 as <- <-.
  split; [etransitivity; [exact Hsm0|apply handed_same]|]. split; [done|]. split; [cbn; by rewrite Hlm|]. split; [|split; [|split; [|reflexivity]]].
  - rewrite <- Ep. f_equal. apply (f_equal (fun x => ztake 1 (zdrop 9 x))) in Hpre. rewrite !zdrop_ztake, !ztake_ztake in Hpre by lia.
    rewrite !(Z.min_l 1) in Hpre by lia. done.
  - rewrite cs_set_eq, <- Hc, !content_cons, shrunk_bytes by (done || lia). rewrite zdrop_app_le; [done|]. rewrite pb_bytes_len by done. lia.
  - unfold handed, s0; cbn. by rewrite Epl.
Qed.

End round.

(** ** Our own headers *)
Lemma quoted_prefix b x y : pb_ok b -> pb_bytes b = x ++ y -> zlen x <= 28 -> exists z, quoted b = x ++ z.
Proof.
  intros Hb E Hx. pose proof (pb_bytes_len b Hb) as Hl. rewrite E, zlen_app in Hl. pose proof (zlen_nonneg y).
  exists (zdrop (zlen x) (quoted b)). rewrite <- (ztake_zdrop (zlen x) (quoted b)) at 1. f_equal.
  transitivity (ztake (zlen x) (pb_bytes b)); [|rewrite E, ztake_app_le, ztake_ge by lia; done].
  unfold quoted, pb_bytes. rewrite !ztake_ztake. f_equal. lia.
Qed.

Lemma own_header ttl tos proto n id src dest z :
  0 <= ttl < 256 -> 0 <= tos < 256 -> 0 <= proto < 256 -> 0 <= n -> IP_HLEN + n < 65536 -> 0 <= src < 2 ^ 32 -> 0 <= dest < 2 ^ 32 ->
  let q := ip4_hdr ttl tos proto n id src dest ++ z in
  ip_fields q 0x45 (lwip_htons (IP_HLEN + n)) 0 src dest /\ byte_at (ztake 1 (zdrop 9 q)) = Some proto.
Proof.
  intros Ht Hs Hp Hn Hl Hsrc Hdst q. subst q. unfold ip4_hdr. cbn zeta. unfold IP_HLEN in *.
  split; [split|].
  - done.
  - change (u16_of (bytes16 (lwip_htons (20 + n))) = Some (lwip_htons (20 + n))). apply bytes16_read. apply htons_range.
  - done.
  - change (ip4_at (ip4_bytes src) = Some src). by apply ip4_bytes_read.
  - change (ip4_at (ip4_bytes dest) = Some dest). by apply ip4_bytes_read.
  - change (Some (u8 proto) = Some proto). by rewrite u8_small.
Qed.

(** A checksummed header, every field of which is as it was asked for. *)
Lemma ip4_hdr_good ttl tos proto n id src dest :
  0 <= ttl < 256 -> 0 <= tos < 256 -> 0 <= proto < 256 -> 0 <= n -> IP_HLEN + n < 65536 -> 0 <= id < 65536 ->
  0 <= src < 2 ^ 32 -> 0 <= dest < 2 ^ 32 ->
  zlen (ip4_hdr ttl tos proto n id src dest) = IP_HLEN /\ bytes_ok (ip4_hdr ttl tos proto n id src dest) /\
  forall odd, inet_chksum odd (ip4_hdr ttl tos proto n id src dest) IP_HLEN = Some 0.
Proof.
  intros. split; [done|]. split; [by apply hdr_bytes_ok|]. intros odd. apply hdr_verifies. split; try done; apply htons_range.
Qed.
