(* ===== verification/IpLoop.v ===== *)
(** A datagram sent to our own address comes back through the loopback queue
    and the IPv4 input. *)
From S2P Require Import Prelude Bits Def IpAddr Pbuf PbufData PbufChain PbufIO PbufLife PbufCopy PbufOwn PbufHdr Chksum NetifRec Netif NetifThm.
From S2P Require Import XnetTap XnetTapThm Ethernet EthernetThm Ip4Addr Etharp EtharpTable EtharpOps EtharpOut EtharpSend EtharpIn EtharpNet.
From S2P Require Import IpState NetifLoop NetifLoopThm Ip4Out Icmp Ip4In Ip4Hdr IpEnv IpRes Ip4OutThm IcmpThm Ip4InThm Ip4Round.

(** An address a host can have. *)
Definition host_addr (a : Z) : Prop :=
  0 <= a < 2 ^ 32 /\ a <> IPADDR_ANY /\ not32 a <> IPADDR_ANY /\ ip4_addr_ismulticast a = false.

Lemma host_not_broadcast v a : host_addr a -> nif_ip_addr v = a -> ip4_addr_isbroadcast_u32 a v = false.
Proof.
  intros (_ & H1 & H2 & _) Ea. unfold ip4_addr_isbroadcast_u32. apply Z.eqb_neq in H1, H2. rewrite H1, H2. cbn [orb].
  destruct (negb _); [done|]. by rewrite Ea, Z.eqb_refl.
Qed.

Section loop.
  Context {U : Upper} (custom_free : addr -> heap -> option heap) (buf : list Z) (odd_payload : addr -> pbuf -> bool).
  Context (ip4_frag : addr -> Z -> Z -> istate -> option (Z * istate)).
  Context (ip4_reass : addr -> istate -> option (option addr * istate)).
  Context (udp_input tcp_input : addr -> Z -> istate -> option istate) (ip6_input : addr -> Z -> istate -> option (Z * istate)).

(** Sending to ourselves with an empty queue: the packet with its header is the
    only one in the queue. *)
Lemma output_src_to_self l F lo H cs s p b t v own ttl tos proto nif s' :
  stack F lo (p :: H ++ held (i_up s)) cs s -> up_ok (i_up s) -> ip_env l s -> nif ∈ l -> inif s nif = Some v -> nif_ip_addr v = own ->
  cs p = (p, b) :: t -> no_empty t -> lo nif = [] ->
  ip4_output_if_src custom_free buf ip4_frag p (Some own) (Some own) ttl tos proto nif s = Some (ERR_OK, s') ->
  exists F' lo' cs', stack F' lo' (p :: H ++ held (i_up s')) cs' s' /\ isame s s' /\ i_up s' = i_up s /\
    queue_data (lo' nif) = [ip4_hdr ttl tos proto (pb_tot_len b) (ip_id s) own own ++ content (cs p)].
Proof.
  intros HS HU HE Hn Hv Ha Ec Hne Hq E.
  assert (HS0 : istk (p :: H) cs s) by (exists F, lo; by split).
  pose proof (output_if_src_eq custom_free buf ip4_frag (p :: H) cs s p b t (Some own) own ttl tos proto nif HS0 ltac:(by left) Ec) as Ho.
  destruct (room IP_HLEN b) eqn:Er; [|rewrite Ho in E; discriminate]. destruct Ho as (b' & Hw & _ & Ho). rewrite Ho in E. clear Ho.
  destruct (istk_packet _ _ _ p HS0 ltac:(by left)) as (b0 & t0 & E0 & Hg & Hk & Hstd & Hb & Ht & Hs). rewrite Ec in E0. injection E0 as <- <-.
  assert (Hr := Er). unfold room in Hr. rewrite !andb_true_iff, Z.leb_le, Z.ltb_lt in Hr.
  destruct Hw as (Hok' & Hstd' & Hby' & m & Eb' & Hm'). set (hdr := ip4_hdr _ _ _ _ _ _ _) in *. change (zlen hdr) with IP_HLEN in *.
  set (s1 := headed p b' s) in *. set (cs1 := cs_set p ((p, b') :: t) cs).
  assert (HS1 : stack F lo (p :: H ++ held (i_up s1)) cs1 s1).
  { pose proof HS as [[Htb HO Hwf Hnf] _]. apply (stack_ext _ _ _ _ (iheap (put (i_heap s) p b') s)); [done|].
    apply (stack_link F lo (p :: H ++ held (i_up s)) _ cs cs1 s (lheap (put (i_heap s) p b') (i_l s)) HS); [|done]. split; try done.
    - apply (owned_head (F := F) _ _ _ p b); subst b'; try done; [by left|..]; cbn; lia.
    - by eapply heap_wf_put. }
  unfold ip4_dispatch in E. change (inif s1 nif) with (inif s nif) in E. rewrite Hv in E; cbn [mbind option_bind] in E.
  rewrite Ha, Z.eqb_refl in E.
  destruct (netif_loop_output_spec custom_free F lo (H ++ held (i_up s1)) cs1 s1 nif p v HS1 Hv) as (r & s2 & F' & lo' & E2 & (cs2 & HS2 & _) & HK & Hcase).
  { unfold cs1. rewrite cs_set_eq. apply Forall_cons. split; [|done]. destruct Hb as (? & _). subst b'; cbn. unfold IP_HLEN. lia. }
  rewrite E2 in E. injection E as -> <-. destruct Hcase as [[? _]|(_ & _ & _ & Hd & _)]; [done|].
  exists F', lo', cs2. split; [by rewrite (ik_up _ _ HK)|]. split; [etransitivity; [apply headed_same|by apply ikeeps_same]|]. split; [exact (ik_up _ _ HK)|].
  rewrite Hd, Hq. cbn. unfold cs1. rewrite cs_set_eq, content_cons, Hby', Ec, content_cons. by rewrite <- app_assoc.
Qed.

Lemma output_to_self l F lo H cs s p b t v own ttl tos proto nif s' :
  stack F lo (p :: H ++ held (i_up s)) cs s -> up_ok (i_up s) -> ip_env l s -> nif ∈ l -> inif s nif = Some v -> nif_ip_addr v = own ->
  cs p = (p, b) :: t -> no_empty t -> lo nif = [] ->
  ip4_output_if custom_free buf ip4_frag p None (Some own) ttl tos proto nif s = Some (ERR_OK, s') ->
  exists F' lo' cs', stack F' lo' (p :: H ++ held (i_up s')) cs' s' /\ isame s s' /\ i_up s' = i_up s /\
    queue_data (lo' nif) = [ip4_hdr ttl tos proto (pb_tot_len b) (ip_id s) own own ++ content (cs p)].
Proof.
  intros HS HU HE Hn Hv Ha Ec Hne Hq E. eapply output_src_to_self; try done.
  unfold ip4_output_if in E. rewrite Hv in E. cbn [mbind option_bind] in E. by rewrite Ha in E.
Qed.

(** A queued packet of ours that is taken off the queue. *)
Lemma own_packet_taken l F lo H cs s v nif a b d q own ttl tos proto id :
  stack F lo (H ++ held (i_up s)) cs s -> up_ok (i_up s) -> ip_env l s -> nif ∈ l -> inif s nif = Some v -> nif_ip_addr v = own -> host_addr own -> netif_is_up v = true ->
  lo nif = (a, b) :: q -> pb_bytes b = ip4_hdr ttl tos proto (zlen d) id own own ++ d -> bytes_ok d -> 8 <= zlen d ->
  0 <= ttl < 256 -> 0 <= tos < 256 -> 0 <= proto < 256 -> 0 <= id < 65536 -> IP_HLEN + zlen d < 65536 ->
  exists s1 s2 cs2 b2 t2, poll_take nif a s = Some s1 /\ istk (a :: H) cs2 s2 /\ isame s s2 /\ i_up s2 = i_up s /\ content (cs2 a) = d /\
    cs2 a = (a, b2) :: t2 /\ pb_len b2 = zlen d /\ delivered l a b2 t2 IP_HLEN s2 /\
    ip_data s2 = IpGlobals (Some nif) (Some nif) (Some (a, pb_payload b)) IP_HLEN own own /\
    ip_input custom_free buf odd_payload ip4_frag ip4_reass udp_input tcp_input ip6_input a nif s1 =
      (s' ← ip4_demux custom_free buf odd_payload ip4_frag udp_input tcp_input proto a IP_HLEN nif nif s2;
       Some (ERR_OK, set_ip_data (IpGlobals None None None 0 IPADDR_ANY IPADDR_ANY) s')).
Proof.
  intros HS HU HE Hn Hv Ha Hown Hup Hq Hby Hbd Hd8 Httl Htos Hproto Hid Hlen. pose proof Hown as (Hr & Hany & _ & Hmc).
  destruct (poll_take_spec F lo _ cs s nif v a b q HS Hv Hq) as (s1 & E1 & HS1 & HK & _ & _ & Hv1 & Hg1). exists s1.
  assert (Hsm : isame s s1) by by apply ikeeps_same. assert (HE1 : ip_env l s1) by by eapply same_env.
  set (c := taken v b) in *. set (cs1 := cs_set a [(a, c)] cs) in *.
  assert (HI1 : istk (a :: H) cs1 s1) by (exists (delete a (@frame F)), (lo_set nif q lo); rewrite (ik_up _ _ HK); by split).
  destruct (istk_packet _ _ _ a HI1 ltac:(by left)) as (b1 & t1 & Ec1 & _ & Hk1 & _ & Hok & Ht1 & _).
  unfold cs1 in Ec1. rewrite cs_set_eq in Ec1. injection Ec1 as <- <-. pose proof Hok as (? & ? & ? & ?).
  assert (Hbc : pb_bytes c = ip4_hdr ttl tos proto (zlen d) id own own ++ d) by exact Hby.
  assert (Hlc : pb_len c = IP_HLEN + zlen d) by (rewrite <- (pb_bytes_len c Hok), Hbc, zlen_app; done).
  destruct (ip4_hdr_good ttl tos proto (zlen d) id own own) as (Hz & Hhb & _); try done; [lia|].
  assert (Hbok : bytes_ok (pb_bytes c)) by (rewrite Hbc; by apply bytes_ok_app). unfold IP_HLEN in *.
  assert (Hpk : ip_packet c []).
  { split; try done; [lia| |by constructor|].
    - replace (quoted c) with (ztake 28 (pb_bytes c)); [by apply bytes_ok_ztake|]. unfold quoted, pb_bytes. rewrite ztake_ztake. f_equal. lia.
    - pose proof (lo_queue _ _ _ _ (stk_loops _ _ _ _ _ HS) nif v Hv) as HQ. rewrite Hq in HQ. pose proof (lq_nodes _ _ _ HQ) as Hns.
      apply Forall_cons in Hns as [(_ & _ & Href & _) _]. cbn in *. lia. }
  destruct (quoted_prefix c _ _ Hok Hbc ltac:(rewrite Hz; lia)) as (z & Ez).
  destruct (own_header ttl tos proto (zlen d) id own own z) as [Hif _]; try done; try (unfold IP_HLEN; lia). rewrite <- Ez in Hif.
  destruct (own_header ttl tos proto (zlen d) id own own d) as [_ Hpr]; try done; try (unfold IP_HLEN; lia).
  destruct (unloop_eq (popped v b q) v) as (_ & _ & _ & _ & Eip & _ & Efl & _); [by destruct q|].
  assert (Hac : acceptable l nif nif 0x45 (lwip_htons (IP_HLEN + zlen d)) 0 own own (pb_tot_len c) (pb_len c) s1).
  { split; try done; [change ((0x45 .& 0x0f) * 4) with 20; lia| | |].
    - rewrite htons_invol by (unfold IP_HLEN; lia). change ((0x45 .& 0x0f) * 4) with 20. unfold IP_HLEN. cbn [sum_len] in Ht1. lia.
    - intros w Hw. rewrite Hv1 in Hw. injection Hw as <-. rewrite host_not_broadcast by (done || by rewrite Eip). by rewrite Hmc.
    - unfold accept_spec. rewrite Hmc. unfold inif in Hv1. unfold nif_test. rewrite Hv1. unfold ip4_input_accept, netif_is_up, flag_set in *.
      rewrite Eip, Efl, Hup, Ha, Z.eqb_refl. apply Z.eqb_neq in Hany. by rewrite Hany. }
  destruct (input_delivers custom_free buf odd_payload ip4_frag ip4_reass udp_input tcp_input l H cs1 s1 a c [] nif nif 0x45
    (lwip_htons (IP_HLEN + zlen d)) 0 own own HI1 HE1 Hn (cs_set_eq _ _ _) Hpk Hif Hac) as (s2 & cs2 & b2 & t2 & pr & HS2 & Ec2 & HD2 & Hsm2 & Eu2 & El2 & Epr & Hcont & Hdata & Ein).
  rewrite Hbc, Hpr in Epr. injection Epr as <-. change ((0x45 .& 0x0f) * 4) with 20 in *.
  exists s2, cs2, b2, t2. split; [done|]. split; [done|]. split; [by etransitivity|]. split; [by rewrite Eu2, (ik_up _ _ HK)|].
  split; [|split; [done|]; split; [rewrite El2, htons_invol by (unfold IP_HLEN; lia); unfold IP_HLEN; lia|]; split; [done|]; split; [exact Hdata|]].
  - rewrite Hcont. unfold cs1. rewrite cs_set_eq, content_cons. change (content []) with (@nil Z). rewrite app_nil_r, Hbc, htons_invol by (unfold IP_HLEN; lia).
    rewrite ztake_ge by (rewrite zlen_app, Hz; unfold IP_HLEN; lia). rewrite zdrop_app_ge by (rewrite Hz; lia). rewrite Hz. apply zdrop_0.
  - rewrite <- Ein. unfold ip_input. rewrite Hg1; cbn [mbind option_bind].
    rewrite payload_read_spec by (done || lia). rewrite Hbc. reflexivity.
Qed.

End loop.
