(* ===== verification/EthInputThm.v ===== *)
(** The input path from the tap upwards: every frame is consumed. *)
From S2P Require Import Prelude Bits Def IpAddr Pbuf PbufData PbufChain PbufIO PbufLife PbufCopy PbufOwn PbufHdr Chksum NetifRec Netif NetifThm.
From S2P Require Import XnetTap XnetTapThm Ethernet EthernetThm Ip4Addr Etharp EtharpTable EtharpOps EtharpOut EtharpSend EtharpIn EtharpNet.
From S2P Require Import IpState EthInput NetifLoop NetifLoopThm Ip4Out Icmp Ip4In Ip4Hdr IpEnv IpRes Ip4OutThm IcmpThm Ip4InThm.

(** A network protocol: it takes over the packet it is given. *)
Class Consumer {U : Upper} (input : addr -> Z -> istate -> option (Z * istate)) : Prop :=
  consumes : forall l H cs s p b t nif,
    istk (p :: H) cs s -> ip_env l s -> nif ∈ l -> cs p = (p, b) :: t -> ip_packet b t ->
    exists s', input p nif s = Some (ERR_OK, s') /\ istack H s' /\ isame s s'.

(** Dropping the packet is the least it does. *)
#[export] Instance free_consumer {U : Upper} cf : Consumer (fun p _ s => drop_packet cf p s).
Proof. intros l H cs s p b t nif HS _ _ _ _. apply drop_ok; [by exists cs|reflexivity]. Qed.

(** A frame: memory for the Ethernet header and what the protocols read behind
    it, as every pbuf of the pool has. *)
Record frame_packet (b : pbuf) (t : list (addr * pbuf)) : Prop := FramePacket {
  fp_mem : pb_payload b + SIZEOF_ETH_HDR + 28 <= zlen (pb_mem b);
  fp_bytes : bytes_ok (pb_mem b);
  fp_tail : no_empty t;
  fp_ref : pb_ref b < 255;
}.

(** The flags an incoming frame gets keep the pbuf a standard one. *)
Lemma ll_flags_std b dest : pb_std b -> pb_std (set_flags (u8 (pb_flags b .| ll_flags dest)) b).
Proof.
  intros [Hf Hs]. split; [|done]. cbn. unfold PBUF_FLAG_IS_CUSTOM in *.
  assert (E : ll_flags dest .& 2 = 0).
  { unfold ll_flags. destruct dest as [|d0 [|d1 [|d2 ?]]]; try done.
    repeat (match goal with |- context [if ?c then _ else _] => destruct c end; try done). }
  unfold u8. change (2 ^ 8) with 256. rewrite <- land_255, <- Z.land_assoc. change (0xff .& 2) with 2.
  by rewrite Z.land_lor_distr_l, Hf, E.
Qed.

Section safe.
  Context {U : Upper} (custom_free : addr -> heap -> option heap) (buf : list Z).
  Context (ip4_input ip6_input : addr -> Z -> istate -> option (Z * istate)).

Lemma pass_on_ok (input : addr -> Z -> istate -> option istate) l H cs s p b t nif :
  istk (p :: H) cs s -> ip_env l s -> nif ∈ l -> cs p = (p, b) :: t -> frame_packet b t -> SIZEOF_ETH_HDR < pb_len b ->
  (forall cs' s', istk (p :: H) cs' s' -> ip_env l s' -> isame s s' -> cs' p = (p, shrunk SIZEOF_ETH_HDR b) :: t -> ip_packet (shrunk SIZEOF_ETH_HDR b) t ->
    exists s'', input p nif s' = Some s'' /\ istack H s'' /\ isame s' s'') ->
  exists s', pass_on custom_free input p nif s = Some (ERR_OK, s') /\ istack H s' /\ isame s s'.
Proof using Type.
  intros HS HE Hn Ec [Hm Hby Hne Hrf] Hl Hinput. unfold SIZEOF_ETH_HDR in *.
  destruct (istk_packet _ _ _ p HS ltac:(by left)) as (b0 & t0 & E0 & Hg & Hk & Hstd & Hb & Ht & Hs).
  rewrite Ec in E0. injection E0 as <- <-. pose proof Hb as (? & ? & ? & ?). pose proof (packet_tot_bound _ _ _ _ Hk).
  unfold pass_on, SIZEOF_ETH_HDR. rewrite (remove_header_eq _ _ _ _ _ Hk) by lia.
  destruct (Z.leb_spec 14 (pb_len b)); [|lia]. cbn [mbind option_bind Z.eqb negb].
  assert (HS1 : istk (p :: H) (cs_set p ((p, shrunk 14 b) :: t) cs) (iheap (put (i_heap s) p (shrunk 14 b)) s)).
  { eapply istk_put; try done; [by left|unfold pb_ok|..]; cbn; lia. }
  set (s1 := iheap _ s) in *. assert (Hsm1 : isame s s1) by apply heap_same.
  destruct (Hinput _ s1 HS1) as (s2 & -> & HS2 & Hsm2); [by eapply same_env|done|by apply cs_set_eq| |].
  { split; [cbn; lia|rewrite shrunk_bytes by (done || lia); by apply bytes_ok_zdrop, bytes_ok_sub|by apply bytes_ok_sub|done|done]. }
  cbn [mbind option_bind]. exists s2. split; [done|]. split; [done|]. by etransitivity.
Qed.

Lemma free_and_return_ok H s0 s p : istack (p :: H) s -> isame s0 s -> exists s', free_and_return custom_free p s = Some (ERR_OK, s') /\ istack H s' /\ isame s0 s'.
Proof using Type. apply drop_ok. Qed.

Context (Hbuf : zlen buf = 2048) `{!Consumer ip4_input, !Consumer ip6_input}.

Lemma to_ip_ok (input : addr -> Z -> istate -> option (Z * istate)) `{!Consumer input} l H cs s p b t nif :
  istk (p :: H) cs s -> ip_env l s -> nif ∈ l -> cs p = (p, b) :: t -> ip_packet b t ->
  exists s', to_ip input p nif s = Some s' /\ istack H s' /\ isame s s'.
Proof using Type.
  intros HS HE Hn Ec Hpk. destruct (consumes l H cs s p b t nif HS HE Hn Ec Hpk) as (s' & E & ?). exists s'. unfold to_ip. by rewrite E.
Qed.

Lemma to_arp_ok H cs s p b t nif v tap :
  istk (p :: H) cs s -> tap_nif (l_x (i_l s)) nif v tap -> cs p = (p, b) :: t -> ip_packet b t -> bytes_ok (pb_mem b) ->
  exists s', to_arp custom_free buf p nif s = Some s' /\ istack H s' /\ isame s s'.
Proof using Hbuf.
  intros HS Hnif Ec [Hm _ _ _ _] Hby. destruct (istk_packet _ _ _ p HS ltac:(by left)) as (b0 & t0 & E0 & Hg & _ & _ & (? & ? & ? & ?) & _).
  rewrite Ec in E0. injection E0 as <- <-. destruct HS as (F & lo & HS & HU). pose proof HS as [HI _].
  destruct (etharp_input_ok custom_free buf Hbuf (H ++ held (i_up s)) cs (i_l s) p nif v tap b HI Hnif Hg) as (l' & cs' & E & HI' & _); [by split_and!|].
  pose proof (etharp_input_same _ _ _ _ _ _ E) as Hsm. exists (ilink l' s). unfold to_arp. rewrite E. split; [done|].
  split; [|by apply lsame_same]. exists cs', F, lo. split; [|done]. eapply stack_link; [exact HS|done|by apply lsame_net].
Qed.

(** The frame's first pbuf once it is marked. *)
Lemma marked l H cs s p b t v dest :
  istk (p :: H) cs s -> ip_env l s -> cs p = (p, b) :: t -> frame_packet b t ->
  let b1 := if pb_if_idx b =? NETIF_NO_INDEX then set_if_idx (netif_get_index v) b else b in
  let b2 := set_flags (u8 (pb_flags b1 .| ll_flags dest)) b1 in
  let s' := iheap (put (i_heap s) p b2) s in
  istk (p :: H) (cs_set p ((p, b2) :: t) cs) s' /\ ip_env l s' /\ isame s s' /\ frame_packet b2 t /\ pb_len b2 = pb_len b /\
  pb_mem b1 = pb_mem b /\ pb_payload b1 = pb_payload b.
Proof using Type.
  intros HS HE Ec [Hm Hby Hne Hrf] b1 b2 s'. assert (Hsm : isame s s') by apply heap_same.
  destruct (istk_packet _ _ _ p HS ltac:(by left)) as (b0 & t0 & E0 & Hg & Hk & Hstd & Hb & Ht & Hs).
  rewrite Ec in E0. injection E0 as <- <-. pose proof (packet_tot_bound _ _ _ _ Hk).
  assert (Eb : pb_payload b2 = pb_payload b /\ pb_mem b2 = pb_mem b /\ pb_len b2 = pb_len b /\ pb_tot_len b2 = pb_tot_len b /\
    pb_ref b2 = pb_ref b /\ pb_next b2 = pb_next b /\ pb_mem b1 = pb_mem b /\ pb_payload b1 = pb_payload b) by (unfold b2, b1; by destruct (_ =? _)).
  assert (Hstd2 : pb_std b2) by (apply ll_flags_std; unfold b1; by destruct (_ =? _)).
  destruct Eb as (Ep & Em & El & Etl & Erf & Enx & ? & ?). clearbody b2 b1.
  split_and!; try done; [|by eapply same_env|by split; rewrite ?Ep, ?Em, ?Erf].
  eapply istk_put; try done; [by left| |by rewrite Etl, El|by rewrite Etl]. unfold pb_ok in *. by rewrite Ep, Em, El, Erf.
Qed.

Lemma demux_frame_ok l H cs s p b t nif v tap type :
  istk (p :: H) cs s -> ip_env l s -> nif ∈ l -> tap_nif (l_x (i_l s)) nif v tap -> cs p = (p, b) :: t -> frame_packet b t -> SIZEOF_ETH_HDR < pb_len b ->
  exists s', ethernet_demux custom_free buf ip4_input ip6_input type p nif s = Some (ERR_OK, s') /\ istack H s' /\ isame s s'.
Proof using All.
  intros HS HE Hn Hnif Ec Hfp Hl. unfold ethernet_demux. destruct (env_get _ _ _ HE Hn) as [w Hw]. rewrite Hw; cbn [mbind option_bind].
  assert (Hfree : exists s', free_and_return custom_free p s = Some (ERR_OK, s') /\ istack H s' /\ isame s s')
    by (apply free_and_return_ok; [by exists cs|reflexivity]).
  assert (w = v) as -> by (destruct Hnif as [Hv _]; unfold inif, i_net in Hw; congruence).
  destruct (type =? _); [destruct (negb _); [done|]|destruct (type =? _); [destruct (negb _); [done|]|destruct (type =? _); [|done]]].
  - eapply pass_on_ok; eauto. intros cs' s' HS' HE' _ Ec' Hpk. by eapply (to_ip_ok ip4_input).
  - eapply pass_on_ok; eauto. intros cs' s' HS' HE' Hsm Ec' Hpk. destruct (same_nif _ _ _ _ Hsm Hw) as (v' & Hv' & Hu).
    eapply to_arp_ok; eauto; [by eapply same_tap|apply Hfp].
  - destruct (istk_packet _ _ _ p HS ltac:(by left)) as (b0 & t0 & E0 & Hg & _). rewrite Ec in E0. injection E0 as <- <-.
    rewrite Hg; cbn [mbind option_bind]. destruct (_ <? _); [done|].
    eapply pass_on_ok; eauto. intros cs' s' HS' HE' _ Ec' Hpk. by eapply (to_ip_ok ip6_input).
Qed.

Lemma ethernet_input_ok l H cs s p b t nif v tap :
  istk (p :: H) cs s -> ip_env l s -> nif ∈ l -> tap_nif (l_x (i_l s)) nif v tap -> cs p = (p, b) :: t -> frame_packet b t ->
  exists s', ethernet_input custom_free buf ip4_input ip6_input p nif s = Some (ERR_OK, s') /\ istack H s' /\ isame s s'.
Proof using All.
  intros HS HE Hn Hnif Ec Hfp. pose proof Hfp as [Hm Hby Hne Hrf]. pose proof Hnif as (Hv & _).
  destruct (istk_packet _ _ _ p HS ltac:(by left)) as (b0 & t0 & E0 & Hg & _ & _ & (? & ? & ? & ?) & _). rewrite Ec in E0. injection E0 as <- <-.
  unfold ethernet_input. rewrite Hg; cbn [mbind option_bind].
  destruct (Z.leb_spec (pb_len b) SIZEOF_ETH_HDR) as [|Hlen]; [apply free_and_return_ok; [by exists cs|reflexivity]|].
  change (inif s nif) with (nget (x_net (l_x (i_l s))) nif). rewrite Hv; cbn [mbind option_bind].
  set (b1 := if pb_if_idx b =? NETIF_NO_INDEX then set_if_idx (netif_get_index v) b else b).
  assert ((if pb_if_idx b =? NETIF_NO_INDEX then Some (set_if_idx (netif_get_index v) b) else Some b) = Some b1) as ->
    by (unfold b1; by destruct (_ =? _)).
  cbn [mbind option_bind]. pose proof (fun dest => marked l H cs s p b t v dest HS HE Ec Hfp) as Hmark. cbn zeta in Hmark. fold b1 in Hmark.
  destruct (Hmark []) as (_ & _ & _ & _ & _ & Em & Ep). unfold payload_read, SIZEOF_ETH_HDR in *. rewrite Em, Ep.
  rewrite (mem_read_spec _ _ 6), (mem_read_spec _ _ 2) by lia. cbn [mbind option_bind]. set (dest := ztake 6 _).
  destruct (two_bytes (ztake 2 (zdrop (pb_payload b + 12) (pb_mem b)))) as (type & ->).
  { rewrite zlen_ztake; [done|]. rewrite zlen_zdrop. lia. }
  cbn [mbind option_bind]. destruct (Hmark dest) as (HS1 & HE1 & Hsm & Hfp1 & El & _).
  set (b2 := set_flags (u8 (pb_flags b1 .| ll_flags dest)) b1) in *. set (s1 := iheap (put (i_heap s) p b2) s) in *.
  assert (Hw : inif s1 nif = Some v) by exact Hv.
  destruct (demux_frame_ok l H _ s1 p b2 t nif v tap type HS1 HE1 Hn) as (s2 & E2 & HS2 & Hsm2);
    [by eapply same_tap|by apply cs_set_eq|exact Hfp1|by rewrite El|].
  exists s2. split; [exact E2|]. split; [done|]. by etransitivity.
Qed.

End safe.

(** The IPv4 module of [ip4.c] with its protocols is such a consumer. *)
#[export] Instance ip4_consumer {U : Upper} custom_free buf odd_payload ip4_frag ip4_reass udp_input tcp_input :
  zlen buf = 2048 -> Sender ip4_frag -> Reassembler ip4_reass -> Protocol udp_input -> Protocol tcp_input ->
  Consumer (ip4_input custom_free buf odd_payload ip4_frag ip4_reass udp_input tcp_input).
Proof. intros Hbuf ? ? ? ? l H cs s p b t nif HS HE Hn Ec Hpk. by eapply ip4_input_ok. Qed.
