(* ===== verification/IpClaims.v ===== *)
(** What the IPv4 layer promises: [ip4.c], [icmp.c], [ip.c] and the loopback
    queue of [netif.c], on top of the link layer.  First a concrete state of the IP layer for the
    witnesses: interface 1 of [EtharpClaims], registered and the default, at 10.0.0.1/24; one
    packet at address 1; nothing above IP keeps packets. *)
From S2P Require Import Prelude Bits Def IpAddr Pbuf PbufData PbufChain PbufIO PbufLife PbufCopy PbufOwn PbufHdr Chksum NetifRec Netif NetifThm.
From S2P Require Import XnetTap XnetTapThm Ethernet EthernetThm Ip4Addr Etharp EtharpTable EtharpOps EtharpOut EtharpSend EtharpIn EtharpNet EtharpClaims.
From S2P Require Import IpState EthInput NetifLoop NetifLoopThm Ip4Out Icmp Ip4In Ip4Hdr IpEnv IpRes Ip4OutThm IcmpThm Ip4InThm Ip4Round IpLoop EthInputThm.

#[export] Instance exi_upper : Upper := {| upper := unit; held := fun _ => []; up_ok := fun _ => True |}.

Definition exi_nif : netif := nset_output NetifRec.etharp_output (nset_mtu 1400 exa_nif).

Definition exi_x (b : pbuf) : xstate :=
  XState true true true true true true [] 9994 3 4 [exa_tap; zero_tap; zero_tap; zero_tap] 1
    (NState {[1 := exi_nif]} (Some 1) (Some 1) 1 []) (exa_heap_of b) [].

(** The link layer, with the address hints [hints]. *)
Definition exi_l (b : pbuf) (hints : gmap Z Z) : lstate := LState (exi_x b) arp_init hints.

Definition exi_s (b : pbuf) (posts : list bool) : istate :=
  IState (exi_l b ∅) posts [] 7 None (IpGlobals None None None 0 0 0) tt.

Definition exi_lo : Z -> list (addr * pbuf) := fun _ => [].

Lemma exi_nif_ok b : tap_nif (exi_x b) 1 exi_nif exa_tap.
Proof.
  split; [reflexivity|]. split; [reflexivity|]. split; [split; [reflexivity|repeat constructor; done]|].
  exists 0. split; reflexivity.
Qed.

Lemma exi_arp_inv b hints : exa_good b -> arp_inv [1%positive] (exa_cs_of b) (exi_l b hints).
Proof.
  intros Hb. split; [exact arp_init_ok| |exact (exa_wf b)|].
  - change (queued (l_arp (exi_l b hints))) with (@nil addr). rewrite app_nil_r. by apply exa_owned.
  - apply Forall_replicate. by intros [].
Qed.

Lemma exi_nget b n v : nget (x_net (exi_x b)) n = Some v -> n = 1 /\ v = exi_nif.
Proof. unfold nget; cbn. intros Hv%lookup_singleton_Some. by destruct Hv. Qed.

Lemma exi_loops b : loops_ok no_frame exi_lo (x_net (exi_x b)) (exa_heap_of b).
Proof.
  split.
  - intros n v [-> ->]%(exi_nget b). split; try done; by constructor.
  - done.
  - intros n m _ a Ha. by apply elem_of_nil in Ha.
  - intros a c. split; [done|]. intros (n & Hn). by apply elem_of_nil in Hn.
Qed.

Lemma exi_stack b posts : exa_good b -> stack no_frame exi_lo [1%positive] (exa_cs_of b) (exi_s b posts).
Proof. intros Hb. split; [by apply exi_arp_inv|exact (exi_loops b)]. Qed.

Lemma exi_istk b posts : exa_good b -> istk [1%positive] (exa_cs_of b) (exi_s b posts).
Proof. intros Hb. exists no_frame, exi_lo. split; [by apply exi_stack|exact I]. Qed.

Lemma exi_env b posts : ip_env [1] (exi_s b posts).
Proof.
  split.
  - split; [reflexivity|]. by exists exi_nif.
  - by apply NoDup_singleton.
  - by left.
  - done.
  - intros n v _ [-> ->]%(exi_nget b). split; [done|]. intros _. exists exa_tap. exact (exi_nif_ok b).
  - intros n v _ [-> ->]%(exi_nget b). by intros p Hp.
Qed.

(** A pbuf with [d] behind 64 bytes of room. *)
Definition exi_pbuf (d : list Z) : pbuf := Pbuf None (replicate 64 0 ++ d ++ replicate 32 0) 64 (zlen d) (zlen d) 0x80 0 1 0.

Lemma exi_good d : zlen d < 65536 -> exa_good (exi_pbuf d).
Proof.
  intros Hd. pose proof (zlen_nonneg d). repeat split; cbn [exi_pbuf pb_payload pb_len pb_mem pb_tot_len pb_ref]; try lia; [|by left].
  rewrite !zlen_app. change (zlen (replicate 64 0)) with 64. change (zlen (replicate 32 0)) with 32. lia.
Qed.

Lemma exi_frag_ok : Sender (fun p nif dest s => netif_output exa_free exa_buf nif p dest s).
Proof. by apply netif_output_sender. Qed.

(** ** Packets *)

(** A datagram with data [d] of protocol 17 from the peer to us. *)
Definition exi_datagram (d : list Z) : list Z := ip4_hdr 64 0 17 (zlen d) 9 exa_peer 0x0100000a ++ d.

(** An echo request from the peer, behind its IP header, as ICMP gets it. *)
Definition exi_echo : echo_parts :=
  EchoParts [0x45; 0; 0; 32; 0; 9; 0; 0] 64 1 [0; 0] [10; 0; 0; 2] [10; 0; 0; 1] [] 8 0 0 [0; 7; 0; 1; 97; 98; 99; 100].

Definition exi_ping : pbuf := Pbuf None (replicate 44 0 ++ echo_hdr exi_echo ++ echo_msg exi_echo ++ replicate 32 0) 64 12 12 0x80 0 1 0.

Definition exi_ping_s : istate :=
  set_ip_data (IpGlobals (Some 1) (Some 1) (Some (1%positive, 44)) 20 exa_peer 0x0100000a) (exi_s exi_ping []).

Lemma exi_ping_good : exa_good exi_ping.
Proof. repeat split; cbn; try lia; [unfold zlen; cbn; lia|by left]. Qed.

Lemma exi_ping_istk : istk [1%positive] (exa_cs_of exi_ping) exi_ping_s.
Proof. apply istk_data, exi_istk, exi_ping_good. Qed.

Lemma exi_ping_env : ip_env [1] exi_ping_s.
Proof. eapply same_env; [apply data_same|apply exi_env]. Qed.

Lemma exi_ping_delivered : delivered [1] 1%positive exi_ping [] 20 exi_ping_s.
Proof.
  split; try reflexivity; try (by cbn); try lia.
  - apply (bool_decide_unpack _). vm_compute. exact I.
  - apply (bool_decide_unpack _). vm_compute. exact I.
  - by constructor.
  - exists 1. split; [done|by left].
  - exists 1. split; [done|by left].
Qed.

(** A consumer of loopback packets that drops them. *)
Lemma exi_loop_consumer nif : LoopConsumer (fun p _ s => drop_packet exa_free p s) nif (fun _ => 1%nat).
Proof.
  intros F lo H cs s p b [HI HL] Ec Hn. pose proof HI as [Ht HO Hwf Hnf].
  destruct (pbuf_free_owned exa_free _ _ p _ HO Hwf) as (n & h' & cs' & E & HO' & Hwf' & _).
  exists (iheap h' s), F, lo, cs', []. unfold drop_packet, pbuf_free_i, i_heap. change (l_heap (i_l s)) with (x_heap (l_x (i_l s))) in E |- *.
  rewrite E. split; [done|]. split; [|split; [done|split; [by rewrite app_nil_r|cbn; lia]]].
  apply (stack_link F lo (p :: H) _ cs _ s (lheap h' (i_l s)) (Stack _ _ _ _ _ HI HL)); [|done]. by split.
Qed.

Section claims.
  Context {U : Upper} (custom_free : addr -> heap -> option heap) (buf : list Z) (odd_payload : addr -> pbuf -> bool).
  Context (ip4_frag : addr -> Z -> Z -> istate -> option (Z * istate)).

(** Routing: for a group the interface set for groups; else the first registered
    interface that is up, has a link and an address, and whose network holds the
    destination (or whose gateway it is on a link without broadcast); else the
    default interface, if it is usable and the destination no loopback address;
    else none. *)
Theorem ip4_route_spec l dest s :
  ip_env l s ->
  exists r, ip4_route dest s = Some r /\
    match r with
    | Some n => n ∈ l /\
        ((ip4_addr_ismulticast dest = true /\ ip4_default_multicast_netif s = Some n) \/
         (exists v pre post, l = pre ++ n :: post /\ inif s n = Some v /\ route_match dest v = true /\
            forall m w, m ∈ pre -> inif s m = Some w -> route_match dest w = false) \/
         (exists v, netif_default (i_net s) = Some n /\ inif s n = Some v /\ usable v = true /\ ip4_addr_isloopback dest = false /\
            forall m w, m ∈ l -> inif s m = Some w -> route_match dest w = false))
    | None => forall m w, m ∈ l -> inif s m = Some w ->
        route_match dest w = false /\
        (netif_default (i_net s) = Some m -> usable w = false \/ ip4_addr_isloopback dest = true)
    end.
Proof.
  intros HE. exists (route_spec l dest s). split; [by apply ip4_route_ok|]. destruct (route_spec l dest s) as [n|] eqn:Er.
  - split; [by eapply route_in|]. by apply route_spec_some.
  - by apply route_spec_none.
Qed.

(** Sending: with room in front of the packet a 20-byte header goes there, every
    field of which is as asked for and whose checksum verifies; the identification
    counts up; and the packet goes to the loopback queue when the destination is
    the interface's own address, else (after a loopback copy, if the packet wants
    one) to fragmentation when it exceeds the MTU, else to the interface.  Without
    room the result is ERR_BUF and nothing changes. *)
Theorem ip4_output_if_spec H cs s p b t src dest ttl tos proto nif v :
  istk (p :: H) cs s -> cs p = (p, b) :: t -> no_empty t -> inif s nif = Some v ->
  0 <= ttl < 256 -> 0 <= tos < 256 -> 0 <= proto < 256 -> 0 <= ip_id s < 65536 -> 0 <= dest < 2 ^ 32 ->
  let from := if default IPADDR_ANY src =? IPADDR_ANY then nif_ip_addr v else default IPADDR_ANY src in
  0 <= from < 2 ^ 32 ->
  let r := ip4_output_if custom_free buf ip4_frag p src (Some dest) ttl tos proto nif s in
  if room IP_HLEN b then
    exists hdr b' s2, let s1 := headed p b' s in
      istk (p :: H) (cs_set p ((p, b') :: t) cs) s1 /\ pb_bytes b' = hdr ++ pb_bytes b /\ ip_id s1 = (ip_id s + 1) mod 65536 /\
      zlen hdr = 20 /\ ip_fields hdr 0x45 (lwip_htons (20 + pb_tot_len b)) 0 from dest /\
      byte_at (ztake 1 (zdrop 9 hdr)) = Some proto /\ (forall odd, inet_chksum odd hdr 20 = Some 0) /\
      (if pb_flags b .& PBUF_FLAG_MCASTLOOP =? 0 then s2 = s1 else exists e, netif_loop_output custom_free nif p s1 = Some (e, s2)) /\
      r = (if dest =? nif_ip_addr v then netif_loop_output custom_free nif p s1
           else if negb (nif_mtu v =? 0) && (nif_mtu v <? 20 + pb_tot_len b) then ip4_frag p nif dest s2
           else netif_output custom_free buf nif p dest s2)
  else r = Some (ERR_BUF, s).
Proof using Type.
  intros HS Ec Hne Hv Httl Htos Hpr Hid Hd from Hfrom r.
  assert (Er : exists src', r = ip4_output_if_src custom_free buf ip4_frag p src' (Some dest) ttl tos proto nif s /\ default IPADDR_ANY src' = from).
  { subst r from. unfold ip4_output_if. rewrite Hv; cbn [mbind option_bind]. destruct (_ =? _) eqn:Ea; [by eexists (Some _)|by exists src]. }
  destruct Er as (src' & -> & Efrom).
  pose proof (output_if_src_eq custom_free buf ip4_frag (p :: H) cs s p b t src' dest ttl tos proto nif HS ltac:(by left) Ec) as Ho.
  destruct (room IP_HLEN b) eqn:Erm; [|done]. destruct Ho as (b' & Hw & HS1 & ->). rewrite Efrom in Hw.
  destruct (istk_packet _ _ _ p HS ltac:(by left)) as (b0 & t0 & E0 & _ & Hk & _ & (? & ? & ? & ?) & Ht & _). rewrite Ec in E0. injection E0 as <- <-.
  pose proof Hk as [_ _ Hoks _ _]. apply Forall_cons in Hoks as [_ Hoks]. pose proof (sum_len_nonneg _ Hoks).
  unfold room in Erm. rewrite !andb_true_iff, Z.leb_le, Z.ltb_lt in Erm. unfold IP_HLEN in Erm.
  assert (Hsend : no_empty (cs_set p ((p, b') :: t) cs p)).
  { rewrite cs_set_eq. apply Forall_cons. split; [|done]. destruct Hw as (_ & _ & _ & m & -> & _). cbn. unfold zlen; cbn. lia. }
  destruct (dispatch_eq custom_free buf ip4_frag H _ _ p dest nif v HS1 Hv Hsend) as (c & s2 & Hg & Hs2 & Hdisp).
  destruct (istk_packet _ _ _ p HS1 ltac:(by left)) as (c0 & t0 & E0 & Hg0 & _). rewrite cs_set_eq in E0. injection E0 as <- <-.
  assert (c = b') as -> by congruence.
  destruct Hw as (_ & _ & Hby & m & Eb & _). set (hdr := ip4_hdr _ _ _ _ _ _ _) in *. change (zlen hdr) with 20 in Eb.
  destruct (ip4_hdr_good ttl tos proto (pb_tot_len b) (ip_id s) from dest) as (Hz & _ & Hck); try done; [lia|unfold IP_HLEN; lia|].
  destruct (own_header ttl tos proto (pb_tot_len b) (ip_id s) from dest []) as [Hif Hpb]; try done; [lia|unfold IP_HLEN; lia|]. rewrite app_nil_r in Hif, Hpb.
  exists hdr, b', s2. split_and!; try done.
  - by replace (pb_flags b) with (pb_flags b') by by rewrite Eb.
  - rewrite Hdisp. by replace (20 + pb_tot_len b) with (pb_tot_len b') by (rewrite Eb; cbn; lia).
Qed.

(** C31. Ping: an echo request with room for the headers in front of it is turned
    into the reply in place (our address as the source, the sender's as the
    destination, TTL 255, type 0, everything else as it was), its IP header's
    checksum verifies, and its ICMP checksum verifies exactly when the request's
    did; the reply goes out and the packet is freed. *)
Theorem icmp_echo_answered l H cs s p b t hlen inp n v e :
  istk (p :: H) cs s -> ip_env l s -> cs p = (p, b) :: t -> delivered l p b t hlen s -> current_netif (ip_data s) = Some n -> inif s n = Some v ->
  let own := current_iphdr_dest (ip_data s) in
  let peer := current_iphdr_src (ip_data s) in
  ip4_addr_ismulticast own = false -> ip4_addr_isbroadcast_u32 own v = false -> 4 <= pb_len b -> 8 <= pb_tot_len b ->
  room (hlen + 14) b = true -> front hlen b = echo_hdr e -> pb_bytes b = echo_msg e -> echo_wf hlen e -> ep_type e = ICMP_ECHO ->
  bytes_ok (echo_hdr e ++ echo_msg e ++ content t) ->
  exists b' k, let e' := echo_answer own peer k e in
    pb_bytes b' = echo_hdr e' ++ echo_msg e' /\
    istk (p :: H) (cs_set p ((p, b') :: t) cs) (iheap (put (i_heap s) p b') s) /\
    (forall odd, inet_chksum odd (echo_hdr e') hlen = Some 0) /\
    (forall odd odd', let request := echo_msg e ++ content t in let reply := echo_msg e' ++ content t in
       inet_chksum odd' reply (zlen reply) = Some 0 <-> inet_chksum odd request (zlen request) = Some 0) /\
    icmp_input custom_free buf odd_payload ip4_frag p inp s =
      ('(_, s') ← ip4_output_if custom_free buf ip4_frag p (Some own) None ICMP_TTL 0 IP_PROTO_ICMP inp (iheap (put (i_heap s) p b') s);
       pbuf_free_i custom_free p s').
Proof using Type.
  intros HS HE Ec [Hh Hf Hm Hby _ Hne Hrf Hhdr Hhl _] Hcn Hv own peer Hmc Hbc Hl4 Ht8 Hr Efr Em Hwf Hty Hbs.
  assert (Hin : p ∈ p :: H) by by left.
  destruct (istk_packet _ _ _ p HS Hin) as (b0 & t0 & E0 & Hg & Hk & Hstd & Hb & Ht & Hs). rewrite Ec in E0. injection E0 as <- <-.
  destruct (echo_reply_eq custom_free buf odd_payload ip4_frag (p :: H) cs s p b t hlen inp e HS Hin Ec Hh) as (b' & k & odd & Erep & HS' & Hby' & _ & Hk'); try done.
  { eapply room_less; [|exact Hr]. lia. }
  exists b', k. cbn zeta. split; [done|]. split; [done|]. split; [|split].
  - eapply echo_hdr_verifies; try done; [|lia]. apply bytes_ok_app in Hbs as [Hbs _]. unfold echo_hdr in Hbs. rewrite !bytes_ok_app in Hbs.
    rewrite !bytes_ok_app. destruct Hbs as (? & _ & ? & _ & _ & _ & ?). done.
  - intros odd1 odd2. rewrite !bytes_ok_app in Hbs. destruct Hbs as (_ & Hbm & Hbt). unfold echo_msg in Hbm. rewrite !bytes_ok_app in Hbm.
    pose proof Hk as [_ _ Hoks _ Hsum]. rewrite <- content_len, content_cons, Em, zlen_app in Hsum by done.
    assert (Hcat : forall e0, echo_msg e0 ++ content t = ep_type e0 :: ep_code e0 :: bytes16 (ep_c e0) ++ (ep_rest e0 ++ content t)) by (intros; unfold echo_msg; cut).
    assert (Hz : zlen (echo_msg e) = 4 + zlen (ep_rest e)) by (unfold echo_msg, zlen; cbn; lia).
    rewrite !Hcat, Hty. apply (echo_verifies odd1 odd2 (ep_code e) (ep_c e) (ep_rest e ++ content t)); [|apply Hwf|rewrite zlen_app; lia].
    apply (bytes_ok_app [ep_code e]). rewrite bytes_ok_app. tauto.
  - unfold icmp_input. rewrite Hhdr; cbn [mbind option_bind]. rewrite Hhl; cbn [mbind option_bind].
    destruct (Z.ltb_spec hlen IP_HLEN); [unfold IP_HLEN in *; lia|]. rewrite Hg; cbn [mbind option_bind].
    destruct (Z.ltb_spec (pb_len b) 4); [lia|]. rewrite payload_read_spec by (done || lia). rewrite Em. cbn [mbind option_bind].
    change (byte_at (ztake 1 (zdrop 0 (echo_msg e)))) with (Some (ep_type e)). cbn [mbind option_bind]. rewrite Hty, Z.eqb_refl.
    subst own peer. rewrite Hmc, Hcn; cbn [mbind option_bind]. rewrite Hv; cbn [mbind option_bind]. rewrite Hbc.
    destruct (Z.ltb_spec (pb_tot_len b) SIZEOF_ICMP_ECHO_HDR); [unfold SIZEOF_ICMP_ECHO_HDR in *; lia|].
    rewrite (echo_pbuf_room custom_free (p :: H) cs s p b t) by done. cbn [mbind option_bind]. rewrite Erep.
    destruct (ip4_output_if _ _ _ _ _ _ _ _ _ _ _) as [[]|]; done.
Qed.

(** ICMP errors: when memory allows, a destination-unreachable or time-exceeded
    message about packet [p] goes back to the sender: eight bytes of header whose
    checksum verifies, and then the 28 bytes at [p]'s payload pointer, whatever
    the length of [p] is: for a first pbuf shorter than that, the bytes that
    happen to lie behind it in memory are sent along. *)
Theorem icmp_error_quotes l H cs s p pb type code :
  istk H cs s -> ip_env l s -> get (i_heap s) p = Some pb -> pb_ok pb -> pb_payload pb + 28 <= zlen (pb_mem pb) -> bytes_ok ([type; code] ++ quoted pb) ->
  let r := icmp_send_response custom_free buf odd_payload ip4_frag p type code s in
  (pb_len pb < 28 -> exists stale, zlen stale = 28 - pb_len pb /\ quoted pb = pb_bytes pb ++ stale /\
     stale = ztake (28 - pb_len pb) (zdrop (pb_payload pb + pb_len pb) (pb_mem pb))) /\
  (28 <= pb_len pb -> quoted pb = ztake 28 (pb_bytes pb)) /\
  ((exists h, r = Some (iheap h s) /\ istk H cs (iheap h s)) \/
   exists q qb h src, (q ∉ H) /\ istk (q :: H) (cs_set q [(q, qb)] cs) (iheap h s) /\ ip4_at (ztake 4 (zdrop 12 (quoted pb))) = Some src /\
     match route_spec l src s with
     | None => r = pbuf_free_i custom_free q (iheap h s)
     | Some nif =>
         (exists c, pb_bytes qb = [type; code] ++ bytes16 c ++ [0; 0; 0; 0] ++ quoted pb) /\
         (forall odd, inet_chksum odd (pb_bytes qb) 36 = Some 0) /\
         r = ('(_, s') ← ip4_output_if custom_free buf ip4_frag q None (Some src) ICMP_TTL 0 IP_PROTO_ICMP nif (iheap h s);
              pbuf_free_i custom_free q s')
     end).
Proof using Type.
  intros HS HE Hg Hok Hm Hb r. pose proof Hok as (? & ? & ? & ?). split; [|split].
  - intros Hl. eexists. split; [|split; [|reflexivity]]; [rewrite zlen_ztake; [done|]; rewrite zlen_zdrop; lia|].
    unfold quoted, pb_bytes. rewrite Z.add_comm, <- zdrop_zdrop by lia. replace 28 with (pb_len pb + (28 - pb_len pb)) at 1 by lia.
    by rewrite ztake_zdrop_split by lia.
  - intros Hl. unfold quoted, pb_bytes. rewrite ztake_ztake. f_equal. lia.
  - destruct (send_response_eq custom_free buf odd_payload ip4_frag l H cs s p pb type code HS HE Hg) as [?|(q & qb & h & src & Hq & HS' & _ & Hsrc & Hr)];
      try done; [by left|]. right. exists q, qb, h, src. split_and!; try done. destruct (route_spec l src s); [|done].
    destruct Hr as (Er & c & Ec & Hc). rewrite Ec. split; [by exists c|]. split; [exact Hc|exact Er].
Qed.

End claims.

Section input.
  Context {U : Upper} (custom_free : addr -> heap -> option heap) (buf : list Z) (odd_payload : addr -> pbuf -> bool).
  Context (ip4_frag : addr -> Z -> Z -> istate -> option (Z * istate)).
  Context (ip4_reass : addr -> istate -> option (option addr * istate)).
  Context (udp_input tcp_input : addr -> Z -> istate -> option istate) (ip6_input : addr -> Z -> istate -> option (Z * istate)).


(** C30. Input: a whole datagram with a valid header for one of our interfaces (its checksum is
    not looked at) is cut to the length its header gives (dropping the padding of the
    frame), its header and options are taken off, and the rest goes to the protocol the
    header names, with the addresses, the interfaces and the header in the globals, which
    are reset afterwards: protocol 17 to [udp_input], 6 to [tcp_input] and 1 to
    [icmp_input]; a packet of another protocol is freed, after an ICMP "protocol
    unreachable" with its header restored, unless it was broadcast or multicast. *)
Theorem ip4_input_delivers l H cs s p b t inp nif v len off src dest :
  istk (p :: H) cs s -> ip_env l s -> inp ∈ l -> cs p = (p, b) :: t -> ip_packet b t -> ip_fields (quoted b) v len off src dest ->
  acceptable l inp nif v len off src dest (pb_tot_len b) (pb_len b) s ->
  let hlen := (v .& 0x0f) * 4 in
  exists s1 cs1 proto, istk (p :: H) cs1 s1 /\ isame s s1 /\ byte_at (ztake 1 (zdrop 9 (pb_bytes b))) = Some proto /\
    content (cs1 p) = zdrop hlen (ztake (lwip_htons len) (content (cs p))) /\
    ip_data s1 = IpGlobals (Some nif) (Some inp) (Some (p, pb_payload b)) hlen src dest /\
    let finish s' := Some (ERR_OK, set_ip_data (IpGlobals None None None 0 IPADDR_ANY IPADDR_ANY) s') in
    let input := ip4_input custom_free buf odd_payload ip4_frag ip4_reass udp_input tcp_input p inp s in
    (proto = 17 -> input = (s' ← udp_input p inp s1; finish s')) /\
    (proto = 6 -> input = (s' ← tcp_input p inp s1; finish s')) /\
    (proto = 1 -> input = (s' ← icmp_input custom_free buf odd_payload ip4_frag p inp s1; finish s')) /\
    (proto <> 17 -> proto <> 6 -> proto <> 1 -> forall w, inif s1 nif = Some w ->
     input = if ip4_addr_isbroadcast_u32 dest w || ip4_addr_ismulticast dest then s' ← pbuf_free_i custom_free p s1; finish s'
             else '(_, h) ← pbuf_header_force (Some p) hlen (i_heap s1);
                  s2 ← icmp_dest_unreach custom_free buf odd_payload ip4_frag p ICMP_DUR_PROTO (iheap h s1);
                  s' ← pbuf_free_i custom_free p s2; finish s').
Proof using Type.
  intros HS HE Hin Ec Hpk Hif Hac hlen.
  destruct (input_delivers custom_free buf odd_payload ip4_frag ip4_reass udp_input tcp_input l H cs s p b t inp nif v len off src dest HS HE Hin Ec Hpk Hif Hac)
    as (s1 & cs1 & b1 & t1 & proto & HS1 & Ec1 & _ & Hsm & _ & _ & Hp & Hc & Hd & E). exists s1, cs1, proto.
  split; [done|]. split; [done|]. split; [done|]. split; [done|]. split; [done|]. cbv zeta. unfold ip4_demux in E.
  split; [by intros ->|]. split; [by intros ->|]. split; [by intros ->|]. intros N1%Z.eqb_neq N2%Z.eqb_neq N3%Z.eqb_neq w Hw. rewrite E.
  change IP_PROTO_UDP with 17. change IP_PROTO_TCP with 6. change IP_PROTO_ICMP with 1. rewrite N1, N2, N3, Hw. cbn [mbind option_bind]. rewrite Hd. cbn [current_iphdr_dest].
  rewrite <- negb_orb. destruct (_ || _); cbn [negb mbind option_bind]; [done|].
  destruct (pbuf_header_force _ _ _) as [[? h]|]; [|done]. cbn [mbind option_bind]. by destruct (icmp_dest_unreach _ _ _ _ _ _ _).
Qed.

(** Loopback round trip: a datagram sent to our own address, on an interface
    whose loopback queue is empty, is what the next poll of that interface hands
    to the protocol it was sent for: the same data, from us to us. *)
Theorem loopback_roundtrip l F lo H cs s p b t v own ttl tos proto nif s1 fuel :
  stack F lo (p :: H ++ held (i_up s)) cs s -> up_ok (i_up s) -> ip_env l s -> nif ∈ l -> inif s nif = Some v -> nif_ip_addr v = own -> host_addr own ->
  netif_is_up v = true -> cs p = (p, b) :: t -> no_empty t -> lo nif = [] -> bytes_ok (content (cs p)) -> 8 <= zlen (content (cs p)) ->
  0 <= ttl < 256 -> 0 <= tos < 256 -> 0 <= proto < 256 -> 0 <= ip_id s < 65536 ->
  ip4_output_if custom_free buf ip4_frag p None (Some own) ttl tos proto nif s = Some (ERR_OK, s1) ->
  exists a hdr s2 cs2, istk (a :: p :: H) cs2 s2 /\ isame s1 s2 /\ content (cs2 a) = content (cs p) /\
    ip_data s2 = IpGlobals (Some nif) (Some nif) (Some (a, hdr)) 20 own own /\
    netif_poll custom_free (ip_input custom_free buf odd_payload ip4_frag ip4_reass udp_input tcp_input ip6_input) (S fuel) nif s1 =
      (s' ← ip4_demux custom_free buf odd_payload ip4_frag udp_input tcp_input proto a 20 nif nif s2;
       netif_poll custom_free (ip_input custom_free buf odd_payload ip4_frag ip4_reass udp_input tcp_input ip6_input) fuel nif
         (set_ip_data (IpGlobals None None None 0 IPADDR_ANY IPADDR_ANY) s')).
Proof using Type.
  intros HS HU HE Hn Hv Ha Hown Hup Ec Hne Hq Hby H8 Httl Htos Hpr Hid E.
  destruct (output_to_self custom_free buf ip4_frag l F lo H cs s p b t v own ttl tos proto nif s1) as (F1 & lo1 & cs1 & HS1 & Hsm & Eu1 & Hd); try done.
  assert (Hlen : pb_tot_len b = zlen (content (cs p)) /\ IP_HLEN + zlen (content (cs p)) < 65536).
  { eapply output_fits; try done. exists F, lo. by split. }
  destruct Hlen as [Hl1 Hl2]. rewrite Hl1 in Hd.
  destruct (same_nif _ _ _ _ Hsm Hv) as (v1 & Hv1 & Hu). destruct (unloop_eq _ _ Hu) as (_ & _ & _ & _ & Eip & _ & Efl & _).
  destruct (lo1 nif) as [|[a c] q] eqn:Eq; [done|]. destruct q; [|done]. injection Hd as Hc.
  destruct (own_packet_taken custom_free buf odd_payload ip4_frag ip4_reass udp_input tcp_input ip6_input l F1 lo1 (p :: H) cs1 s1 v1 nif a c
    (content (cs p)) [] own ttl tos proto (ip_id s)) as (s2 & s3 & cs3 & b3 & t3 & Et & HS3 & Hsm3 & _ & Hcont & _ & _ & _ & Hdat & Ein); try done.
  { by rewrite Eu1. }
  { by eapply same_env. } { by rewrite Eip. } { unfold netif_is_up, flag_set in *. by rewrite Efl. }
  exists a, (pb_payload c), s3, cs3. split_and!; try done. cbn [netif_poll]. rewrite Hv1; cbn [mbind option_bind].
  pose proof (lo_queue _ _ _ _ (stk_loops _ _ _ _ _ HS1) nif v1 Hv1) as [Hseg _ _ _ _ _]. rewrite Eq in Hseg. destruct Hseg as (-> & _).
  rewrite Et; cbn [mbind option_bind]. rewrite Ein. change IP_HLEN with 20. by destruct (ip4_demux _ _ _ _ _ _ _ _ _ _ _ _).
Qed.

End input.

Section loopback.
  Context {U : Upper} (custom_free : addr -> heap -> option heap) (nif : Z).

(** [netif_poll] refines a first-in, first-out queue: when [ip_input] consumes
    the packets it is given and queues less work than it takes off, the loop ends
    within as many turns as the work that waits, has handed the packets up in the
    order they were sent, those queued meanwhile behind them, and leaves the queue
    empty. *)
Theorem netif_poll_fifo ip_input work fuel F lo H cs s :
  LoopConsumer ip_input nif work -> stack F lo H cs s -> is_Some (inif s nif) -> (load work (queue_data (lo nif)) <= fuel)%nat ->
  exists s' F' lo' cs', netif_poll custom_free ip_input fuel nif s = Some s' /\ serves ip_input nif (queue_data (lo nif)) s s' /\
    stack F' lo' H cs' s' /\ lo' nif = [].
Proof. intros HC. by apply netif_poll_serves. Qed.

(** A loopback queue can get stuck: when the tcpip thread's mailbox refuses the
    poll for the first packet of an empty queue, the packet stays queued (its
    sender was told ERR_OK), and nothing that is sent to the interface afterwards
    posts a poll: after at most fifteen more packets every send fails. *)
Theorem loopback_stuck F lo H cs s p v posts s1 ps :
  stack F lo (p :: H) cs s -> inif s nif = Some v -> no_empty (cs p) -> lo nif = [] -> i_posts s = false :: posts ->
  netif_loop_output custom_free nif p s = Some (ERR_OK, s1) -> (forall q, q ∈ ps -> q ∈ p :: H /\ no_empty (cs q)) ->
  exists rs s2 F2 lo2 cs2, loop_outputs custom_free nif ps s1 = Some (rs, s2) /\ stack F2 lo2 (p :: H) cs2 s2 /\
    i_polls s2 = i_polls s /\ [content (cs p)] `prefix_of` queue_data (lo2 nif) /\
    Z.of_nat (length (filter (fun r => r = ERR_OK) rs)) <= 15.
Proof.
  intros HS Hv Hne Hq Hpo E Hps.
  destruct (netif_loop_output_spec custom_free F lo H cs s nif p v HS Hv Hne) as (r & s' & F1 & lo1 & E' & (cs1 & HS1 & Hcs) & HK & Hr).
  rewrite E in E'. injection E' as <- <-. destruct Hr as [[? _]|(_ & _ & _ & Hd & Hpp)]; [done|].
  rewrite Hq in Hd, Hpp. cbn [queue_data fmap list_fmap app] in Hd. unfold tcpip_try_callback in Hpp. rewrite Hpo in Hpp. injection Hpp as Hp1 Hp2.
  pose proof (ik_nif _ _ HK nif) as En. rewrite Hv in En.
  destruct (loop_outputs_wait custom_free nif ps F1 lo1 (p :: H) cs1 s1 HS1) as (rs & s2 & F2 & lo2 & cs2 & E2 & HS2 & _ & Hp3 & Hpre & Hcnt).
  - destruct (inif s1 nif); [by eexists|done].
  - intros E0. by rewrite E0 in Hd.
  - intros q Hq'. destruct (Hps q Hq') as [Hq1 Hq2]. split; [done|]. rewrite Hcs; [done|]. apply elem_of_app. by left.
  - exists rs, s2, F2, lo2, cs2. split_and!; try done; [congruence|by rewrite Hd in Hpre|].
    apply (f_equal length) in Hd. unfold queue_data in Hd. rewrite length_fmap in Hd. unfold zlen in Hcnt. rewrite Hd in Hcnt.
    unfold LWIP_LOOPBACK_MAX_PBUFS in Hcnt. cbn in Hcnt. lia.
Qed.

End loopback.

(** ** Witnesses *)
Lemma ip4_route_spec_witness : exists r, ip4_route exa_peer (exi_s exa_pbuf []) = Some (Some r).
Proof.
  destruct (ip4_route_spec [1] exa_peer (exi_s exa_pbuf []) (exi_env _ _)) as (r & E & _). exists 1. by vm_compute.
Defined.

Lemma ip4_output_if_spec_witness :
  exists hdr, zlen hdr = 20 /\ byte_at (ztake 1 (zdrop 9 hdr)) = Some 17 /\ forall odd, inet_chksum odd hdr 20 = Some 0.
Proof.
  destruct (ip4_output_if_spec exa_free exa_buf (fun _ _ _ _ => None) [] (exa_cs_of (exi_pbuf (replicate 12 5))) (exi_s (exi_pbuf (replicate 12 5)) [])
    1%positive (exi_pbuf (replicate 12 5)) [] None exa_peer 64 0 17 1 exi_nif) as (hdr & b' & s2 & _ & _ & _ & Hz & _ & Hp & Hc & _);
    try done; try (cbn; lia); [by apply exi_istk, exi_good|by constructor|]. eauto.
Defined.

Lemma icmp_echo_answered_witness :
  exists b' k, pb_bytes b' = echo_hdr (echo_answer 0x0100000a exa_peer k exi_echo) ++ echo_msg (echo_answer 0x0100000a exa_peer k exi_echo) /\
    forall odd, inet_chksum odd (echo_hdr (echo_answer 0x0100000a exa_peer k exi_echo)) 20 = Some 0.
Proof.
  destruct (icmp_echo_answered exa_free exa_buf (fun _ _ => false) (fun _ _ _ _ => None) [1] [] (exa_cs_of exi_ping) exi_ping_s 1%positive exi_ping []
    20 1 1 exi_nif exi_echo exi_ping_istk exi_ping_env eq_refl exi_ping_delivered) as (b' & k & Hb & _ & Hk & _); try done.
  - apply (bool_decide_unpack _). vm_compute. exact I.
  - exists b', k. done.
Defined.

(** The message about a packet of 20 bytes carries eight bytes from behind it. *)
Lemma icmp_error_quotes_witness :
  exists stale, zlen stale = 8 /\ quoted (exi_pbuf (replicate 20 5)) = pb_bytes (exi_pbuf (replicate 20 5)) ++ stale.
Proof.
  destruct (icmp_error_quotes exa_free exa_buf (fun _ _ => false) (fun _ _ _ _ => None) [1] [1%positive] (exa_cs_of (exi_pbuf (replicate 20 5)))
    (exi_s (exi_pbuf (replicate 20 5)) []) 1%positive (exi_pbuf (replicate 20 5)) ICMP_DUR ICMP_DUR_PROTO) as (Hs & _); try done.
  - by apply exi_istk, exi_good.
  - apply exi_env.
  - apply (bool_decide_unpack _). vm_compute. exact I.
  - destruct (Hs ltac:(done)) as (stale & Hz & Hq & _). exists stale. done.
Defined.


Lemma ip4_input_delivers_witness :
  exists s1 cs1, istk [1%positive] cs1 s1 /\ content (cs1 1%positive) = [1; 2; 3; 4; 5; 6; 7; 8] /\
    ip_data s1 = IpGlobals (Some 1) (Some 1) (Some (1%positive, 64)) 20 exa_peer 0x0100000a /\
    ip4_input exa_free exa_buf (fun _ _ => false) (fun _ _ _ _ => None) (fun _ _ => None) (fun p _ s => pbuf_free_i exa_free p s) (fun _ _ _ => None) 1%positive 1
      (exi_s (exi_pbuf (exi_datagram [1; 2; 3; 4; 5; 6; 7; 8] ++ [9; 9])) []) =
    (s' ← pbuf_free_i exa_free 1%positive s1; Some (ERR_OK, set_ip_data (IpGlobals None None None 0 IPADDR_ANY IPADDR_ANY) s')).
Proof.
  destruct (ip4_input_delivers exa_free exa_buf (fun _ _ => false) (fun _ _ _ _ => None) (fun _ _ => None) (fun p _ s => pbuf_free_i exa_free p s) (fun _ _ _ => None)
    [1] [] (exa_cs_of (exi_pbuf (exi_datagram [1; 2; 3; 4; 5; 6; 7; 8] ++ [9; 9])))
    (exi_s (exi_pbuf (exi_datagram [1; 2; 3; 4; 5; 6; 7; 8] ++ [9; 9])) []) 1%positive (exi_pbuf (exi_datagram [1; 2; 3; 4; 5; 6; 7; 8] ++ [9; 9])) []
    1 1 0x45 (lwip_htons 28) 0 exa_peer 0x0100000a) as (s1 & cs1 & pr & HS1 & _ & Hpr & Hc & Hd & Hudp & _).
  - by apply exi_istk, exi_good.
  - apply exi_env.
  - by left.
  - reflexivity.
  - split; [by vm_compute|apply (bool_decide_unpack _); vm_compute; exact I|apply (bool_decide_unpack _); vm_compute; exact I|by constructor|by vm_compute].
  - split; by vm_compute.
  - split; [reflexivity|by vm_compute|by vm_compute|reflexivity| |by vm_compute]. intros w [_ ->]%(exi_nget (exi_pbuf (exi_datagram [1; 2; 3; 4; 5; 6; 7; 8] ++ [9; 9]))).
    by vm_compute.
  - exists s1, cs1. split; [done|]. split; [rewrite Hc; by vm_compute|]. split; [exact Hd|]. apply Hudp. vm_compute in Hpr. by injection Hpr as <-.
Defined.

(** Twelve bytes for protocol 17, sent to ourselves. *)
Definition exi_twelve : pbuf := exi_pbuf (replicate 12 5).

Definition exi_to_self : option (Z * istate) :=
  ip4_output_if exa_free exa_buf (fun _ _ _ _ => None) 1%positive None (Some 0x0100000a) 64 0 17 1 (exi_s exi_twelve [true]).

Definition exi_sent : istate := default (exi_s exa_pbuf []) (snd <$> exi_to_self).

Lemma exi_sent_eq : exi_to_self = Some (ERR_OK, exi_sent).
Proof. by vm_compute. Qed.

Lemma loopback_roundtrip_witness :
  exists a s2 cs2, istk [a; 1%positive] cs2 s2 /\ isame exi_sent s2 /\ content (cs2 a) = replicate 12 5.
Proof.
  destruct (loopback_roundtrip exa_free exa_buf (fun _ _ => false) (fun _ _ _ _ => None) (fun _ _ => None) (fun _ _ _ => None) (fun _ _ _ => None) (fun _ _ _ => None)
    [1] no_frame exi_lo [] (exa_cs_of exi_twelve) (exi_s exi_twelve [true]) 1%positive exi_twelve [] exi_nif 0x0100000a 64 0 17 1 exi_sent 0)
    as (a & hdr & s2 & cs2 & HS2 & Hsm & Hc & _).
  - by apply exi_stack, exi_good.
  - exact I.
  - apply exi_env.
  - by left.
  - reflexivity.
  - reflexivity.
  - by vm_compute.
  - reflexivity.
  - reflexivity.
  - by constructor.
  - reflexivity.
  - apply (bool_decide_unpack _). vm_compute. exact I.
  - by vm_compute.
  - lia.
  - lia.
  - lia.
  - cbn [exi_s ip_id]. lia.
  - exact exi_sent_eq.
  - exists a, s2, cs2. split; [exact HS2|]. split; [exact Hsm|]. rewrite Hc. reflexivity.
Defined.

(** The queue of interface 1 with the packet at address 1 in it. *)
Definition exi_looped (posts : list bool) : istate :=
  default (exi_s exa_pbuf []) (snd <$> netif_loop_output exa_free 1 1%positive (exi_s exa_pbuf posts)).

Lemma exi_looped_eq posts : netif_loop_output exa_free 1 1%positive (exi_s exa_pbuf posts) = Some (ERR_OK, exi_looped posts).
Proof. unfold exi_looped. destruct posts as [|[] ?]; by vm_compute. Qed.

Lemma exa_pbuf_sent : no_empty (exa_cs 1%positive).
Proof. by apply Forall_singleton. Qed.

Lemma netif_poll_fifo_witness :
  exists s', netif_poll exa_free (fun p _ s => drop_packet exa_free p s) 1 1 (exi_looped [true]) = Some s' /\
    serves (fun p _ s => drop_packet exa_free p s) 1 [pb_bytes exa_pbuf] (exi_looped [true]) s'.
Proof.
  destruct (netif_loop_output_spec exa_free no_frame exi_lo [] (exa_cs_of exa_pbuf) (exi_s exa_pbuf [true]) 1 1%positive exi_nif)
    as (r & s1 & F1 & lo1 & E & (cs1 & HS1 & _) & HK & Hr); [apply exi_stack, exa_pbuf_good|done|exact exa_pbuf_sent|].
  rewrite exi_looped_eq in E. injection E as <- <-. destruct Hr as [[? _]|(_ & _ & _ & Hd & _)]; [done|]. change (queue_data (exi_lo 1)) with (@nil (list Z)) in Hd.
  destruct (netif_poll_fifo exa_free 1 (fun p _ s => drop_packet exa_free p s) (fun _ => 1%nat) 1 F1 lo1 [1%positive] cs1 (exi_looped [true]))
    as (s' & F' & lo' & cs' & E & Hs & _); [apply exi_loop_consumer|done|apply (bool_decide_unpack _); vm_compute; exact I|by rewrite Hd|].
  exists s'. split; [done|]. rewrite Hd in Hs. exact Hs.
Defined.

Lemma loopback_stuck_witness :
  exists rs s2, loop_outputs exa_free 1 [1%positive; 1%positive] (exi_looped [false; true; true]) = Some (rs, s2) /\ i_polls s2 = [].
Proof.
  destruct (loopback_stuck exa_free 1 no_frame exi_lo [] (exa_cs_of exa_pbuf) (exi_s exa_pbuf [false; true; true]) 1%positive exi_nif [true; true]
    (exi_looped [false; true; true]) [1%positive; 1%positive]) as (rs & s2 & F2 & lo2 & cs2 & E & _ & Hp & _).
  - apply exi_stack, exa_pbuf_good.
  - reflexivity.
  - exact exa_pbuf_sent.
  - reflexivity.
  - reflexivity.
  - apply exi_looped_eq.
  - intros q Hq. split; [set_solver|]. rewrite !elem_of_cons in Hq. destruct Hq as [->|[->|Hq]]; [exact exa_pbuf_sent..|]. by apply elem_of_nil in Hq.
  - exists rs, s2. exact (conj E Hp).
Defined.
