(* ===== verification/XnetService.v ===== *)
(** [xnet_service.c]: the life of the ZeroTier node, the tap registry, state
    files and the public service API.

    The ZeroTier core (a submodule) is the environment: it calls the callbacks
    below.  Its results, the clock, the file system and the sockets are
    arguments. *)
From S2P Require Import Prelude Bits Def IpAddr Pbuf PbufData NetifRec Netif XnetTap.

Definition XNET_OK : Z := 0.
Definition XNET_ERR_ARG : Z := -1.
Definition XNET_ERR_SERVICE : Z := -2.
Definition XNET_ERR_OP : Z := -3.
Definition XNET_ERR_GENERAL : Z := -5.
Definition XNET_EV_NODE_ONLINE : Z := 200.
Definition XNET_EV_NODE_OFFLINE : Z := 201.
Definition XNET_EV_NETWORK_OK : Z := 210.
Definition XNET_EV_NETWORK_DENIED : Z := 211.
Definition XNET_EV_NETWORK_NOT_FOUND : Z := 212.
Definition XNET_EV_NETWORK_READY_IP4 : Z := 213.
Definition XNET_EV_NETWORK_DOWN : Z := 215.
Definition XNET_EV_ADDR_ADDED_IP4 : Z := 220.
Definition XNET_EV_ADDR_ADDED_IP6 : Z := 221.

(** ** The tap registry *)
Fixpoint tap_find_loop (taps : list xnet_tap) (i count id : Z) : option Z :=
  match taps with
  | t :: taps =>
      if i <? count
      then if nwid t =? id then Some i else tap_find_loop taps (i + 1) count id
      else None
  | [] => None
  end.

(** The slot of a network, if it is registered. *)
Definition tap_find (id : Z) (x : xstate) : option Z := tap_find_loop (g_taps x) 0 (g_tap_count x) id.

Definition xnet_tap_find (id : Z) (x : xstate) : option Z := tap_find id x.

(** ** Time *)
Definition now_ms (tv_sec tv_usec : Z) : Z := tv_sec * 1000 + Z.quot tv_usec 1000.

(** ** State files *)
Inductive ZT_StateObjectType :=
| ZT_STATE_OBJECT_IDENTITY_PUBLIC
| ZT_STATE_OBJECT_IDENTITY_SECRET
| ZT_STATE_OBJECT_PLANET
| ZT_STATE_OBJECT_NETWORK_CONFIG
| ZT_STATE_OBJECT_PEER
| ZT_STATE_OBJECT_other.

#[export] Instance ZT_StateObjectType_eq_dec : EqDecision ZT_StateObjectType.
Proof. solve_decision. Defined.

(** Text constants, as bytes. *)
Definition S_identity_public : list Z := [47;105;100;101;110;116;105;116;121;46;112;117;98;108;105;99].
Definition S_identity_secret : list Z := [47;105;100;101;110;116;105;116;121;46;115;101;99;114;101;116].
Definition S_planet : list Z := [47;112;108;97;110;101;116].
Definition S_mars : list Z := [47;109;97;114;115].
Definition S_networks_d : list Z := [47;110;101;116;119;111;114;107;115;46;100].
Definition S_peers_d : list Z := [47;112;101;101;114;115;46;100].
Definition S_conf : list Z := [46;99;111;110;102].
Definition S_peer : list Z := [46;112;101;101;114].

Definition hex_digit (d : Z) : Z := if d <? 10 then 48 + d else 87 + d.

(** The [k] low hexadecimal digits, most significant first. *)
Fixpoint hex_fixed (k : nat) (n : Z) : list Z :=
  match k with
  | O => []
  | S k => hex_fixed k (n / 16) ++ [hex_digit (n mod 16)]
  end.

(** How many hexadecimal digits [n < 2^64] needs. *)
Fixpoint hex_len (k : nat) (n : Z) : nat :=
  match k with
  | O => 1
  | S k => if n <? 16 then 1 else S (hex_len k (n / 16))
  end.

(** ["%0<w>llx"]. *)
Definition fmt_llx (w : nat) (n : Z) : list Z := hex_fixed (w `max` hex_len 16 n) n.

(** [snprintf] into a buffer of [sz] bytes keeps [sz - 1] characters. *)
Definition snprintf (sz : Z) (text : list Z) : list Z := ztake (sz - 1) text.

(** The path as a C string; [id0] is [id[0]]. *)
Definition make_state_path (home : list Z) (sz : Z) (type : ZT_StateObjectType) (id0 : Z) : list Z :=
  match type with
  | ZT_STATE_OBJECT_IDENTITY_PUBLIC => snprintf sz (home ++ S_identity_public)
  | ZT_STATE_OBJECT_IDENTITY_SECRET => snprintf sz (home ++ S_identity_secret)
  | ZT_STATE_OBJECT_PLANET => snprintf sz (home ++ S_planet)
  | ZT_STATE_OBJECT_NETWORK_CONFIG => snprintf sz (home ++ S_networks_d ++ [47] ++ fmt_llx 16 id0 ++ S_conf)
  | ZT_STATE_OBJECT_PEER => snprintf sz (home ++ S_peers_d ++ [47] ++ fmt_llx 10 id0 ++ S_peer)
  | ZT_STATE_OBJECT_other => []
  end.

(** The part of a path before its last '/', if it has one. *)
Fixpoint dirname (path : list Z) : option (list Z) :=
  match path with
  | [] => None
  | c :: r =>
      match dirname r with
      | Some d => Some (c :: d)
      | None => if c =? 47 then Some [] else None
      end
  end.

Section files.
  (** Files by path; [can_write] tells whether [fopen(path, "wb")] succeeds. *)
  Context (can_write : list Z -> bool).

(** Also returns the directory [mkdir] is called for. *)
Definition cb_state_put (home : list Z) (type : ZT_StateObjectType) (id0 : Z) (data : list Z)
    (fs : gmap (list Z) (list Z)) : option (list Z) * gmap (list Z) (list Z) :=
  let path := make_state_path home 512 type id0 in
  match path with
  | [] => (None, fs)
  | _ :: _ => (dirname path, if can_write path then <[path := data]> fs else fs)
  end.

End files.

(** [fopen(path, "rb")], [fread] of at most [maxlen] bytes. *)
Definition read_file (path : list Z) (maxlen : Z) (fs : gmap (list Z) (list Z)) : option (list Z) :=
  ztake maxlen <$> fs !! path.

(** The return value and the bytes stored in [data]. *)
Definition cb_state_get (home : list Z) (type : ZT_StateObjectType) (id0 maxlen : Z)
    (fs : gmap (list Z) (list Z)) : Z * list Z :=
  let path := make_state_path home 512 type id0 in
  match path with
  | [] => (-1, [])
  | _ :: _ =>
      let mars := if decide (type = ZT_STATE_OBJECT_PLANET)
                  then read_file (snprintf 512 (home ++ S_mars)) maxlen fs else None in
      match mars with
      | Some ((_ :: _) as bytes) => (zlen bytes, bytes)
      | _ =>
          match read_file path maxlen fs with
          | None => (-1, [])
          | Some bytes => (if 0 <? zlen bytes then zlen bytes else -1, bytes)
          end
      end
  end.

(** ** Wire I/O *)
Definition cb_wire_send (sa_family : Z) (data : list Z) (x : xstate) : Z * xstate :=
  let fd := if sa_family =? AF_INET6 then g_udp6 x else g_udp4 x in
  if fd <? 0 then (-1, x)
  else
    let alen := if sa_family =? AF_INET6 then 28 else 16 in
    (0, out [Sendto fd sa_family alen data] x).

Definition cb_path_check : Z := 1.

Definition cb_path_lookup : Z := 0.

(** ** Network configuration *)
Inductive sockaddr :=
| sockaddr_in (s_addr : Z)
| sockaddr_in6 (sin6_addr : list Z)
| sockaddr_other.

Inductive ZT_VirtualNetworkStatus :=
| ZT_NETWORK_STATUS_OK
| ZT_NETWORK_STATUS_ACCESS_DENIED
| ZT_NETWORK_STATUS_NOT_FOUND
| ZT_NETWORK_STATUS_other.

Record ZT_VirtualNetworkConfig := VNetConfig {
  cfg_mac : Z;
  cfg_mtu : Z;
  cfg_assignedAddresses : list sockaddr;
  cfg_status : ZT_VirtualNetworkStatus;
}.

Inductive ZT_VirtualNetworkConfigOperation :=
| OPERATION_UP | OPERATION_CONFIG_UPDATE | OPERATION_DOWN | OPERATION_DESTROY | OPERATION_other.

(** One turn of the loop over the assigned addresses. *)
Definition assign_addr (ip6_zone : Z) (i : Z) (sa : sockaddr) (x : xstate) : option xstate :=
  tap ← tap_at x i;
  match sa with
  | sockaddr_in a =>
      if negb (has_ip4 tap) then
        x ← xnet_tap_setup_netif ip6_zone i AF_INET (tap_set i (set_ip4 a tap) x);
        Some (callback XNET_EV_NETWORK_READY_IP4 (callback XNET_EV_ADDR_ADDED_IP4 x))
      else Some x
  | sockaddr_in6 a =>
      if negb (has_ip6 tap) then
        x ← xnet_tap_setup_netif ip6_zone i AF_INET6 (tap_set i (set_ip6 a tap) x);
        Some (callback XNET_EV_ADDR_ADDED_IP6 x)
      else Some x
  | sockaddr_other => Some x
  end.

Fixpoint assign_addrs (ip6_zone : Z) (i : Z) (sas : list sockaddr) (x : xstate) : option xstate :=
  match sas with
  | [] => Some x
  | sa :: sas => x ← assign_addr ip6_zone i sa x; assign_addrs ip6_zone i sas x
  end.

Definition status_callback (st : ZT_VirtualNetworkStatus) (x : xstate) : xstate :=
  match st with
  | ZT_NETWORK_STATUS_OK => callback XNET_EV_NETWORK_OK x
  | ZT_NETWORK_STATUS_ACCESS_DENIED => callback XNET_EV_NETWORK_DENIED x
  | ZT_NETWORK_STATUS_NOT_FOUND => callback XNET_EV_NETWORK_NOT_FOUND x
  | ZT_NETWORK_STATUS_other => x
  end.

(** [tap = &g_taps[g_tap_count++]; memset(tap, 0, sizeof( *tap )); tap->nwid = nwid]. *)
Definition tap_new (id : Z) (x : xstate) : Z * xstate :=
  let i := g_tap_count x in
  let x := set_net (nput (x_net x) (tap_netif i) zero_netif) x in
  (i, set_taps (<[Z.to_nat i := set_nwid id zero_tap]> (g_taps x)) (i + 1) x).

(** [g_taps[idx] = g_taps[last]]: the whole struct, embedded netif included. *)
Definition tap_copy (last idx : Z) (x : xstate) : option xstate :=
  t ← tap_at x last;
  v ← nget (x_net x) (tap_netif last);
  Some (tap_set idx t (set_net (nput (x_net x) (tap_netif idx) v) x)).

Definition cb_vnet_config (ip6_zone : Z) (id : Z) (op : ZT_VirtualNetworkConfigOperation)
    (cfg : option ZT_VirtualNetworkConfig) (x : xstate) : option (Z * xstate) :=
  match op with
  | OPERATION_UP | OPERATION_CONFIG_UPDATE =>
      let '(tap, x) :=
        match tap_find id x with
        | Some i => (Some i, x)
        | None => if g_tap_count x <? MAX_TAPS
                  then let '(i, x) := tap_new id x in (Some i, x) else (None, x)
        end in
      match tap, cfg with
      | Some i, Some cfg =>
          t ← tap_at x i;
          let x := tap_set i (set_mac_mtu (cfg_mac cfg) (cfg_mtu cfg) t) x in
          x ← assign_addrs ip6_zone i (ztake MAX_TAP_ADDRS (cfg_assignedAddresses cfg)) x;
          Some (0, status_callback (cfg_status cfg) x)
      | _, _ => Some (0, x)
      end
  | OPERATION_DOWN | OPERATION_DESTROY =>
      match tap_find id x with
      | Some idx =>
          x ← xnet_tap_teardown idx x;
          x ← (if idx <? g_tap_count x - 1 then tap_copy (g_tap_count x - 1) idx x else Some x);
          let x := set_taps (g_taps x) (g_tap_count x - 1) x in
          Some (0, callback XNET_EV_NETWORK_DOWN x)
      | None => Some (0, x)
      end
  | OPERATION_other => Some (0, x)
  end.

(** ** Node events *)
Inductive ZT_Event := ZT_EVENT_ONLINE | ZT_EVENT_OFFLINE | ZT_EVENT_other.

Definition cb_event (event : ZT_Event) (x : xstate) : xstate :=
  match event with
  | ZT_EVENT_ONLINE => callback XNET_EV_NODE_ONLINE (set_node_online true x)
  | ZT_EVENT_OFFLINE => callback XNET_EV_NODE_OFFLINE (set_node_online false x)
  | ZT_EVENT_other => x
  end.

Section rx.
  Context (custom_free : addr -> heap -> option heap).
  Context (netif_input : addr -> Z -> heap -> option (Z * heap)).

Definition cb_vframe (id srcMac dstMac etherType : Z) (data : list Z) (x : xstate) : option xstate :=
  match tap_find id x with
  | Some i => xnet_tap_rx custom_free netif_input i srcMac dstMac etherType data (zlen data) x
  | None => Some x
  end.

End rx.

(** ** The I/O thread *)

(** [bind_udp]: the results of [socket] and [bind] and the descriptors closed. *)
Definition bind_udp (socket_fd bind_result : Z) : Z * list xevent :=
  if socket_fd <? 0 then (-1, [])
  else if bind_result <? 0 then (-1, [CloseFd socket_fd])
  else (socket_fd, []).

(** Up to the loop: [node_ok] is [ZT_Node_new(...) == ZT_RESULT_OK]. *)
Definition svc_thread_start (node_ok : bool) (u4 u6 : Z * Z) (x : xstate) : xstate :=
  if negb node_ok then set_running false x
  else
    let x := set_node true x in
    let '(fd4, e4) := bind_udp u4.1 u4.2 in
    let '(fd6, e6) := bind_udp u6.1 u6.2 in
    out (e4 ++ e6) (set_udp fd4 fd6 x).

(** The descriptors the loop polls. *)
Definition poll_fds (x : xstate) : list Z :=
  (if 0 <=? g_udp4 x then [g_udp4 x] else []) ++ (if 0 <=? g_udp6 x then [g_udp6 x] else []).

(** The time [poll] waits. *)
Definition poll_wait (deadline now : Z) : Z :=
  let wait := deadline - now in
  let wait := if wait <? 1 then 1 else wait in
  if 1000 <? wait then 1000 else wait.

(** The loop over the polled descriptors: [env] gives, for each of them, whether
    [POLLIN] is set and the datagram [recvfrom] finds (nothing for an error),
    of which at most the 16384 bytes of [pkt] are taken. *)
Fixpoint recv_loop (fds : list Z) (env : list (bool * list Z)) (x : xstate) : xstate :=
  match fds, env with
  | _ :: fds, (pollin, dgram) :: env =>
      let pkt := ztake 16384 dgram in
      let x := if (pollin : bool) && (0 <? zlen pkt) then out [ProcessWirePacket pkt] x else x in
      recv_loop fds env x
  | _, _ => x
  end.

(** One turn of the [while (g_running)] loop. *)
Definition svc_thread_iter (env : list (bool * list Z)) (x : xstate) : xstate :=
  out [ProcessBackgroundTasks] (recv_loop (poll_fds x) env x).

(** After the loop. *)
Definition svc_thread_exit (x : xstate) : xstate :=
  let x := out [NodeDelete] x in
  let x := set_node_online false (set_node false x) in
  let x := if 0 <=? g_udp4 x then set_udp (-1) (g_udp6 x) (out [CloseFd (g_udp4 x)] x) else x in
  if 0 <=? g_udp6 x then set_udp (g_udp4 x) (-1) (out [CloseFd (g_udp6 x)] x) else x.

(** ** Public API *)

(** [thread_ok] is [pthread_create(...) == 0]. *)
Definition xnet_start (path : option (list Z)) (cb : bool) (port : Z) (thread_ok : bool) (x : xstate)
    : option (Z * xstate) :=
  match path with
  | Some path =>
      if negb cb then Some (XNET_ERR_ARG, x)
      else if g_running x then Some (XNET_ERR_OP, x)
      else
        let x := set_config (ztake 255 path) (if 0 <? port then port else 9994) x in
        let x := set_running true x in
        let x := out [Mkdir (g_home x); Mkdir (snprintf 512 (g_home x ++ S_networks_d));
                      Mkdir (snprintf 512 (g_home x ++ S_peers_d))] x in
        x ← xnet_lwip_init x;
        if negb thread_ok then Some (XNET_ERR_GENERAL, set_running false x)
        else Some (XNET_OK, x)
  | None => Some (XNET_ERR_ARG, x)
  end.

Fixpoint teardown_all (n : nat) (i : Z) (x : xstate) : option xstate :=
  match n with
  | O => Some x
  | S n => x ← xnet_tap_teardown i x; teardown_all n (i + 1) x
  end.

(** What the I/O thread still does while [pthread_join] waits for it, with
    [g_running] cleared: it leaves its loop; when it has not come to
    [ZT_Node_new] yet ([late] says how that turns out), it does so first. *)
Definition svc_thread_join (late : bool * (Z * Z) * (Z * Z)) (x : xstate) : xstate :=
  let x := if g_node x then x else svc_thread_start late.1.1 late.1.2 late.2 x in
  if g_node x then svc_thread_exit x else x.

Definition xnet_stop (late : bool * (Z * Z) * (Z * Z)) (x : xstate) : option (Z * xstate) :=
  if negb (g_running x) then Some (XNET_ERR_OP, x)
  else
    let x := set_running false x in
    let x := svc_thread_join late x in
    let x := xnet_lwip_shutdown x in
    x ← teardown_all (Z.to_nat (g_tap_count x)) 0 x;
    Some (XNET_OK, set_taps (g_taps x) 0 x).

(** [zt_ok] is the result of [ZT_Node_join] / [ZT_Node_leave]. *)
Definition xnet_join (zt_ok : bool) (x : xstate) : Z :=
  if negb (g_node x) then XNET_ERR_SERVICE else if zt_ok then XNET_OK else XNET_ERR_GENERAL.

Definition xnet_leave (zt_ok : bool) (x : xstate) : Z :=
  if negb (g_node x) then XNET_ERR_SERVICE else if zt_ok then XNET_OK else XNET_ERR_GENERAL.

Definition xnet_node_id (zt_address : Z) (x : xstate) : Z := if g_node x then zt_address else 0.

Definition xnet_running (x : xstate) : bool := g_running x && g_node_online x && g_lwip_up x.

Definition xnet_has_addr (id family : Z) (x : xstate) : option bool :=
  match tap_find id x with
  | None => Some false
  | Some i => t ← tap_at x i; Some (if family =? AF_INET then has_ip4 t else has_ip6 t)
  end.

(** [addr] tells whether the caller's pointer is not NULL. *)
Definition xnet_get_addr (id family : Z) (addr : bool) (x : xstate) : option (Z * option sockaddr) :=
  if negb addr then Some (XNET_ERR_ARG, None)
  else
    match tap_find id x with
    | None => Some (XNET_ERR_GENERAL, None)
    | Some i =>
        t ← tap_at x i;
        if (family =? AF_INET) && has_ip4 t then Some (XNET_OK, Some (sockaddr_in (tap_ip4_addr t)))
        else if (family =? AF_INET6) && has_ip6 t then Some (XNET_OK, Some (sockaddr_in6 (tap_ip6_addr t)))
        else Some (XNET_ERR_GENERAL, None)
    end.
