(* ===== verification/XnetServiceThm.v ===== *)
(** The tap registry of [xnet_service.c]: the invariant that ties it to lwIP's
    interface list, and the steps of [cb_vnet_config] under it. *)
From S2P Require Import Prelude Bits Def IpAddr Pbuf PbufData NetifRec Netif NetifThm XnetTap XnetTapThm XnetService.

(** ** The registry as a map *)

(** The slots in use. *)
Definition live (x : xstate) : list xnet_tap := take (Z.to_nat (g_tap_count x)) (g_taps x).

(** The abstract registry: networks and their taps. *)
Definition registry (x : xstate) : gmap Z xnet_tap := list_to_map ((fun t => (nwid t, t)) <$> live x).

(** The invariant: at most four taps with distinct networks; lwIP's list holds
    exactly the interfaces of the taps in use that are up (and the loopback
    interface); a tap is up only if it has an IPv4 address. *)
Record consistent (x : xstate) (l : list Z) : Prop := Consistent {
  tc_len : length (g_taps x) = 4%nat;
  tc_count : 0 <= g_tap_count x <= 4;
  tc_nodup : NoDup (nwid <$> live x);
  tc_net : netifs_ok (x_net x) l;
  tc_mem : forall i, 0 <= i < 4 -> exists v, nget (x_net x) (tap_netif i) = Some v;
  tc_listed : forall i, 0 <= i < 4 ->
    tap_netif i ∈ l <-> i < g_tap_count x /\ exists t, tap_at x i = Some t /\ netif_up t = true;
  tc_sub : forall n, n ∈ l -> 0 <= n <= 4;
  tc_up : forall i t, tap_at x i = Some t -> netif_up t = true -> has_ip4 t = true;
}.

(** The invariant speaks of three globals only. *)
Definition same_taps (x x' : xstate) : Prop :=
  g_taps x' = g_taps x /\ g_tap_count x' = g_tap_count x /\ x_net x' = x_net x.

Lemma consistent_same x x' l : same_taps x x' -> consistent x l -> consistent x' l.
Proof.
  intros (E1 & E2 & E3) []. constructor; unfold live, tap_at in *; rewrite ?E1, ?E2, ?E3; auto.
Qed.

Lemma same_refl x : same_taps x x.
Proof. done. Qed.

Lemma same_callback c x : same_taps x (callback c x).
Proof. unfold callback. by destruct (g_callback x). Qed.

Lemma same_trans x y z : same_taps x y -> same_taps y z -> same_taps x z.
Proof. intros (? & ? & ?) (? & ? & ?); split_and!; congruence. Qed.

Lemma same_status st x : same_taps x (status_callback st x).
Proof. destruct st; cbn; try apply same_callback. apply same_refl. Qed.

Lemma tap_at_same x x' i : same_taps x x' -> tap_at x' i = tap_at x i.
Proof. intros (E & _). unfold tap_at. by rewrite E. Qed.

Lemma live_same x x' : same_taps x x' -> live x' = live x.
Proof. intros (E1 & E2 & _). unfold live. by rewrite E1, E2. Qed.

Lemma tap_at_range x i t : tap_at x i = Some t -> 0 <= i < 4 /\ g_taps x !! Z.to_nat i = Some t.
Proof.
  unfold tap_at, MAX_TAPS. destruct (Z.leb_spec 0 i), (Z.ltb_spec i 4); cbn; done.
Qed.

Lemma tap_at_lookup x i : 0 <= i < 4 -> tap_at x i = g_taps x !! Z.to_nat i.
Proof. intros. unfold tap_at, MAX_TAPS. destruct (Z.leb_spec 0 i), (Z.ltb_spec i 4); cbn; try lia. done. Qed.

Lemma live_lookup x i t :
  0 <= i < g_tap_count x -> g_tap_count x <= 4 -> tap_at x i = Some t <-> live x !! Z.to_nat i = Some t.
Proof.
  intros. rewrite tap_at_lookup by lia. unfold live. by rewrite lookup_take_lt by lia.
Qed.

(** ** Finding *)
Lemma tap_find_loop_spec taps i count id :
  match tap_find_loop taps i count id with
  | Some r => exists k t, r = i + Z.of_nat k /\ r < count /\ taps !! k = Some t /\ nwid t = id
  | None => forall k t, taps !! k = Some t -> i + Z.of_nat k < count -> nwid t <> id
  end.
Proof.
  revert i; induction taps as [|t taps IH]; intros i; cbn [tap_find_loop].
  { intros k t; by rewrite lookup_nil. }
  destruct (Z.ltb_spec i count); cycle 1.
  { intros k u _ ?; lia. }
  destruct (Z.eqb_spec (nwid t) id).
  { exists 0%nat, t. split_and!; try done; lia. }
  specialize (IH (i + 1)). destruct (tap_find_loop taps (i + 1) count id).
  - destruct IH as (k & u & -> & ? & ? & ?). exists (S k), u. split_and!; try done; lia.
  - intros [|k] u; cbn; [by intros [= <-]|]. intros Hk ?. apply (IH k); [done|lia].
Qed.

Lemma tap_find_Some x id i :
  tap_find id x = Some i -> g_tap_count x <= 4 ->
  0 <= i < g_tap_count x /\ exists t, tap_at x i = Some t /\ nwid t = id.
Proof.
  intros H Hc. pose proof (tap_find_loop_spec (g_taps x) 0 (g_tap_count x) id) as S.
  unfold tap_find in H. rewrite H in S. destruct S as (k & t & -> & ? & Hk & ?).
  split; [lia|]. exists t. split; [|done]. rewrite tap_at_lookup by lia. by replace (Z.to_nat (0 + Z.of_nat k)) with k by lia.
Qed.

Lemma tap_find_None x id t : tap_find id x = None -> t ∈ live x -> nwid t <> id.
Proof.
  intros H Ht. pose proof (tap_find_loop_spec (g_taps x) 0 (g_tap_count x) id) as S.
  unfold tap_find in H. rewrite H in S. apply list_elem_of_lookup_1 in Ht as [k Hk]. unfold live in Hk.
  apply lookup_take_Some in Hk as [Hk ?]. apply (S k); [done|lia].
Qed.

Lemma registry_lookup x id t :
  NoDup (nwid <$> live x) -> registry x !! id = Some t <-> t ∈ live x /\ nwid t = id.
Proof.
  intros Hn. unfold registry. rewrite <- elem_of_list_to_map.
  - rewrite list_elem_of_fmap. split.
    + intros (u & [= -> ->] & ?). done.
    + intros [? <-]. by exists t.
  - rewrite <- list_fmap_compose. exact Hn.
Qed.

Lemma registry_find x id i t :
  NoDup (nwid <$> live x) -> g_tap_count x <= 4 -> tap_find id x = Some i -> tap_at x i = Some t ->
  registry x !! id = Some t.
Proof.
  intros Hn Hc Hf Ht. destruct (tap_find_Some x id i Hf Hc) as (Hi & t' & Ht' & Hid).
  assert (t' = t) as -> by congruence. apply registry_lookup; [done|]. split; [|done].
  apply live_lookup in Ht; [|lia|done]. by eapply list_elem_of_lookup_2.
Qed.

Lemma registry_find_None x id : NoDup (nwid <$> live x) -> tap_find id x = None -> registry x !! id = None.
Proof.
  intros Hn Hf. destruct (registry x !! id) as [t|] eqn:E; [|done].
  apply registry_lookup in E as [Ht Hid]; [|done]. by apply (tap_find_None x id t) in Hf.
Qed.

(** ** Assigning addresses *)

(** What one assigned address makes of a tap: the first IPv4 address brings the
    interface up. *)
Definition assigned (t : xnet_tap) (sa : sockaddr) : xnet_tap :=
  match sa with
  | sockaddr_in a => if has_ip4 t then t else set_netif_up true (set_ip4 a t)
  | sockaddr_in6 a => if has_ip6 t then t else set_ip6 a t
  | sockaddr_other => t
  end.

Lemma assigned_nwid t sa : nwid (assigned t sa) = nwid t.
Proof. destruct sa; cbn; [by destruct (has_ip4 t)|by destruct (has_ip6 t)|done]. Qed.

Lemma foldl_assigned_nwid sas t : nwid (foldl assigned t sas) = nwid t.
Proof. revert t; induction sas as [|sa sas IH]; intros t; cbn; [done|]. by rewrite IH, assigned_nwid. Qed.

Lemma list_short x l : consistent x l -> (length l < 255)%nat.
Proof.
  intros []. assert (l ⊆+ seqZ 0 5).
  { apply NoDup_submseteq; [apply tc_net0|]. intros n Hn. apply elem_of_seqZ. specialize (tc_sub0 n Hn). lia. }
  apply submseteq_length in H. rewrite length_seqZ in H. lia.
Qed.

Lemma live_insert x i t :
  0 <= i < g_tap_count x -> live (tap_set i t x) = <[Z.to_nat i := t]> (live x).
Proof. intros. unfold live, tap_set; cbn. by rewrite take_insert_lt by lia. Qed.

Lemma nwids_insert x i t t' :
  0 <= i < g_tap_count x -> g_tap_count x <= 4 -> tap_at x i = Some t -> nwid t' = nwid t ->
  nwid <$> live (tap_set i t' x) = nwid <$> live x.
Proof.
  intros Hi Hc Ht E. rewrite live_insert by done. rewrite list_fmap_insert, E.
  apply list_insert_id. rewrite list_lookup_fmap. apply live_lookup in Ht; [|done..]. by rewrite Ht.
Qed.

(** A slot rewritten with the same network, interface state and IPv4 flag. *)
Lemma consistent_tap_set x l i t t' :
  consistent x l -> tap_at x i = Some t -> i < g_tap_count x ->
  nwid t' = nwid t -> netif_up t' = netif_up t -> (netif_up t' = true -> has_ip4 t' = true) ->
  consistent (tap_set i t' x) l.
Proof.
  intros Hc Ht Hi En Eu Eh. pose proof (tap_at_range _ _ _ Ht) as [Hr _]. destruct Hc.
  assert (Hlook : forall j, 0 <= j < 4 -> tap_at (tap_set i t' x) j = if decide (j = i) then Some t' else tap_at x j).
  { intros j Hj. case_decide as E; [subst; by apply (tap_at_set x i t)|]. apply tap_at_set_ne; lia. }
  constructor; auto.
  - cbn. by rewrite length_insert.
  - by rewrite (nwids_insert x i t) by (auto; lia).
  - intros j Hj. rewrite tc_listed0 by done. rewrite Hlook by done. case_decide as E; [subst j|done].
    split; intros [? (u & Hu & Hup)]; (split; [done|]).
    + exists t'. split; [done|]. congruence.
    + exists t. split; [done|]. congruence.
  - intros j u Hu Hup. pose proof (tap_at_range _ _ _ Hu) as [Hj _]. rewrite Hlook in Hu by done.
    case_decide; [|by eapply tc_up0]. injection Hu as <-. auto.
Qed.

(** The IPv4 interface of slot [i] added. *)
Lemma consistent_up x l i t ns :
  consistent x l -> tap_at x i = Some t -> i < g_tap_count x -> netif_up t = false -> has_ip4 t = true ->
  netifs_ok ns (tap_netif i :: l) -> (exists v, nget ns (tap_netif i) = Some v) ->
  (forall k, k <> tap_netif i -> nget ns k = nget (x_net x) k) ->
  consistent (tap_set i (set_netif_up true t) (set_net ns x)) (tap_netif i :: l).
Proof.
  intros Hc Ht Hi Hup H4 Hok Hv Hoff. pose proof (tap_at_range _ _ _ Ht) as [Hr _]. destruct Hc.
  set (x' := tap_set i (set_netif_up true t) (set_net ns x)).
  assert (Hlook : forall j, 0 <= j < 4 -> tap_at x' j = if decide (j = i) then Some (set_netif_up true t) else tap_at x j).
  { intros j Hj. case_decide as E; [subst; by apply (tap_at_set (set_net ns x) i t)|]. etrans; [apply tap_at_set_ne; lia|done]. }
  constructor; auto.
  - cbn. by rewrite length_insert.
  - assert (E : nwid <$> live x' = nwid <$> live x) by (apply (nwids_insert x i t); auto; lia). by rewrite E.
  - intros j Hj. destruct (decide (j = i)) as [->|]; [done|]. cbn. rewrite Hoff by (unfold tap_netif; lia). auto.
  - intros j Hj. change (g_tap_count x') with (g_tap_count x). rewrite elem_of_cons, Hlook by done.
    case_decide as E; [subst j|].
    + split; [|by left]. intros _. split; [done|]. eexists; split; [done|]. done.
    + rewrite tc_listed0 by done. split; [|by right]. intros [E'|?]; [unfold tap_netif in E'; lia|done].
  - intros n [->|Hn]%elem_of_cons; [unfold tap_netif; lia|auto].
  - intros j u Hu Hu'. pose proof (tap_at_range _ _ _ Hu) as [Hj _]. rewrite Hlook in Hu by done.
    case_decide; [|by eapply tc_up0]. by injection Hu as <-.
Qed.

(** Everything the registry keeps outside of slot [i], the interface list and
    the event trace. *)
Record kept (i : Z) (t' : xnet_tap) (x x' : xstate) : Prop := Kept {
  kp_taps : g_taps x' = <[Z.to_nat i := t']> (g_taps x);
  kp_count : g_tap_count x' = g_tap_count x;
  kp_node : g_node x' = g_node x;
  kp_run : g_running x' = g_running x;
  kp_lwip : g_lwip_up x' = g_lwip_up x;
  kp_inited : lwip_inited x' = lwip_inited x;
  kp_heap : x_heap x' = x_heap x;
}.

Lemma kept_callback i t c x x' : kept i t x x' -> kept i t x (callback c x').
Proof. intros []. unfold callback. by destruct (g_callback x'). Qed.

Lemma kept_tap_at i t t' x x' : tap_at x i = Some t -> kept i t' x x' -> tap_at x' i = Some t'.
Proof.
  intros Ht []. apply tap_at_range in Ht as [Hr Hl]. rewrite tap_at_lookup, kp_taps0 by done.
  apply list_lookup_insert_eq. by eapply lookup_lt_Some.
Qed.

Lemma kept_trans i t t' x y z : kept i t x y -> kept i t' y z -> kept i t' x z.
Proof. intros [] []; constructor; try congruence. rewrite kp_taps1, kp_taps0. apply list_insert_insert_eq. Qed.

Lemma assign_addr_ok z x l i t sa :
  consistent x l -> tap_at x i = Some t -> i < g_tap_count x ->
  exists x' l', assign_addr z i sa x = Some x' /\ consistent x' l' /\ kept i (assigned t sa) x x'.
Proof.
  intros Hc Ht Hi. pose proof (tap_at_range _ _ _ Ht) as [Hr Hl]. unfold assign_addr. rewrite Ht; cbn [mbind option_bind].
  assert (Hid : kept i t x x) by (constructor; try done; by rewrite list_insert_id).
  destruct sa as [a|a|]; cbn [assigned].
  - destruct (has_ip4 t) eqn:H4; cbn [negb]; [by exists x, l|].
    assert (Hup : netif_up t = false).
    { destruct (netif_up t) eqn:E; [|done]. pose proof (tc_up _ _ Hc i t Ht E). congruence. }
    set (x1 := tap_set i (set_ip4 a t) x).
    assert (Ht1 : tap_at x1 i = Some (set_ip4 a t)) by by apply (tap_at_set x i t).
    assert (Hc1 : consistent x1 l) by (by eapply consistent_tap_set).
    destruct (tc_mem _ _ Hc i Hr) as [v0 Hv0].
    assert (Hn : tap_netif i ∉ l).
    { rewrite (tc_listed _ _ Hc i Hr). intros [_ (u & Hu & Hup')]. congruence. }
    destruct (setup_ip4_ok z x1 i (set_ip4 a t) l v0 Ht1 Hup eq_refl (tc_net _ _ Hc) Hv0 Hn (list_short _ _ Hc))
      as (ns & v & E & Hok & _ & Hv & _ & _ & _ & _ & _ & Hoff).
    rewrite E; cbn [mbind option_bind].
    eexists _, (tap_netif i :: l). split; [done|]. split.
    + eapply consistent_same; [eapply same_trans; apply same_callback|].
      apply (consistent_up x1 l i (set_ip4 a t) ns); auto. by exists v.
    + apply kept_callback, kept_callback. constructor; try done. cbn. by rewrite list_insert_insert_eq.
  - destruct (has_ip6 t) eqn:H6; cbn [negb]; [by exists x, l|].
    set (x1 := tap_set i (set_ip6 a t) x).
    assert (Ht1 : tap_at x1 i = Some (set_ip6 a t)) by by apply (tap_at_set x i t).
    rewrite (setup_ip6_dead z x1 i _ Ht1). cbn [mbind option_bind].
    eexists _, l. split; [done|]. split; [|by apply kept_callback].
    eapply consistent_same; [apply same_callback|]. eapply consistent_tap_set; try done. apply (tc_up _ _ Hc i t Ht).
  - by exists x, l.
Qed.

Lemma assign_addrs_ok z sas : forall x l i t,
  consistent x l -> tap_at x i = Some t -> i < g_tap_count x ->
  exists x' l', assign_addrs z i sas x = Some x' /\ consistent x' l' /\ kept i (foldl assigned t sas) x x'.
Proof.
  induction sas as [|sa sas IH]; intros x l i t Hc Ht Hi.
  - exists x, l. split; [done|]. split; [done|]. constructor; try done.
    apply tap_at_range in Ht as [_ Ht]. by rewrite list_insert_id.
  - cbn [assign_addrs foldl]. destruct (assign_addr_ok z x l i t sa Hc Ht Hi) as (x1 & l1 & -> & Hc1 & Hk1).
    cbn [mbind option_bind]. destruct (IH x1 l1 i (assigned t sa) Hc1) as (x2 & l2 & -> & Hc2 & Hk2).
    + by eapply kept_tap_at.
    + rewrite (kp_count _ _ _ _ Hk1). done.
    + exists x2, l2. split; [done|]. split; [done|]. by eapply kept_trans.
Qed.

(** ** Bringing a network up *)
Lemma live_kept i t' x x' : 0 <= i < g_tap_count x -> kept i t' x x' -> live x' = <[Z.to_nat i := t']> (live x).
Proof. intros Hi []. unfold live. by rewrite kp_taps0, kp_count0, take_insert_lt by lia. Qed.

Lemma registry_live x x' : live x' = live x -> registry x' = registry x.
Proof. unfold registry. by intros ->. Qed.

Lemma registry_insert x x' i t t' :
  NoDup (nwid <$> live x) -> NoDup (nwid <$> live x') -> live x !! i = Some t -> nwid t' = nwid t ->
  live x' = <[i := t']> (live x) -> registry x' = <[nwid t := t']> (registry x).
Proof.
  intros Hn Hn' Hi En Hl. apply map_eq. intros k. apply option_eq. intros u.
  rewrite registry_lookup by done. rewrite lookup_insert_Some, registry_lookup by done. rewrite Hl.
  assert (Hlen : (i < length (live x))%nat) by by eapply lookup_lt_Some.
  split.
  - intros [Hu <-]. apply list_elem_of_lookup_1 in Hu as [j Hj]. apply list_lookup_insert_Some in Hj as [(-> & -> & _)|[Hne Hj]].
    + left. done.
    + right. split; [|split; [by eapply list_elem_of_lookup_2|done]].
      intros E. apply Hne. eapply (NoDup_lookup _ i j (nwid t) Hn).
      * by rewrite list_lookup_fmap, Hi.
      * rewrite list_lookup_fmap, Hj; cbn. by rewrite E.
  - intros [[<- <-]|(Hne & Hu & <-)].
    + split; [|done]. apply (list_elem_of_lookup_2 _ i). by apply list_lookup_insert_eq.
    + split; [|done]. apply list_elem_of_lookup_1 in Hu as [j Hj]. apply (list_elem_of_lookup_2 _ j).
      rewrite list_lookup_insert_ne; [done|]. intros ->. congruence.
Qed.

Lemma netifs_ok_nput_off s l n v : netifs_ok s l -> n ∉ l -> netifs_ok (nput s n v) l.
Proof.
  intros [HL HD HN HR Hdef Hnn] Hn. constructor; auto.
  - by apply nlist_nput_off.
  - by rewrite nums_nput_off.
  - apply Forall_forall. intros m Hm. rewrite num_at_nput_ne by set_solver. by eapply (proj1 (Forall_forall _ _) HR).
Qed.

(** A fresh slot. *)
Lemma tap_new_ok x l id :
  consistent x l -> g_tap_count x < 4 -> tap_find id x = None ->
  let x' := (tap_new id x).2 in
  consistent x' l /\ g_tap_count x' = g_tap_count x + 1 /\
  tap_at x' (g_tap_count x) = Some (set_nwid id zero_tap) /\ live x' = live x ++ [set_nwid id zero_tap].
Proof.
  intros Hc Hlt Hf x'. pose proof (tap_find_None x id) as Hno. destruct Hc.
  set (c := g_tap_count x) in *. set (t := set_nwid id zero_tap).
  assert (Hlook : forall j, 0 <= j < 4 -> tap_at x' j = if decide (j = c) then Some t else tap_at x j).
  { intros j Hj. rewrite !tap_at_lookup by done. cbn. case_decide as E; [subst j|].
    - apply list_lookup_insert_eq. lia.
    - rewrite list_lookup_insert_ne; [done|]. unfold c in E; lia. }
  assert (Hlive : live x' = live x ++ [t]).
  { unfold live; cbn. fold c. replace (Z.to_nat (c + 1)) with (S (Z.to_nat c)) by lia.
    rewrite (take_S_r _ _ t) by (apply list_lookup_insert_eq; lia). by rewrite take_insert_ge by lia. }
  assert (Hn : tap_netif c ∉ l). { rewrite tc_listed0 by lia. fold c. lia. }
  split_and!; [|done|by rewrite Hlook by lia; rewrite decide_True|done].
  constructor.
  - cbn. by rewrite length_insert.
  - cbn. fold c. lia.
  - rewrite Hlive, fmap_app. apply NoDup_app. split_and!; [done| |apply NoDup_singleton].
    intros k (u & -> & Hu)%list_elem_of_fmap. cbn. rewrite list_elem_of_singleton. by apply Hno.
  - cbn. by apply netifs_ok_nput_off.
  - intros j Hj. cbn. fold c. destruct (decide (j = c)) as [->|]; [rewrite nget_put_eq; eauto|].
    rewrite nget_put_ne by (unfold tap_netif; lia). auto.
  - intros j Hj. rewrite tc_listed0 by done. change (g_tap_count x') with (c + 1). fold c. rewrite Hlook by done.
    case_decide as E; [subst j|].
    + split; [lia|]. intros (_ & u & [= <-] & ?). done.
    + split; intros [? H]; (split; [lia|exact H]).
  - done.
  - intros j u Hu Hup. pose proof (tap_at_range _ _ _ Hu) as [Hj _]. rewrite Hlook in Hu by done.
    case_decide; [by injection Hu as <-|by eapply tc_up0].
Qed.

(** The part of the [UP] case after the slot is known. *)
Lemma configure_ok z x l i t c :
  consistent x l -> tap_at x i = Some t -> i < g_tap_count x ->
  exists x' l', (t ← tap_at x i;
     x ← assign_addrs z i (ztake MAX_TAP_ADDRS (cfg_assignedAddresses c))
           (tap_set i (set_mac_mtu (cfg_mac c) (cfg_mtu c) t) x);
     Some (0, status_callback (cfg_status c) x)) = Some (0, x') /\ consistent x' l' /\
    registry x' = <[nwid t := foldl assigned (set_mac_mtu (cfg_mac c) (cfg_mtu c) t)
                                (ztake MAX_TAP_ADDRS (cfg_assignedAddresses c))]> (registry x).
Proof.
  intros Hc Ht Hi. pose proof (tap_at_range _ _ _ Ht) as [Hr _]. rewrite Ht; cbn [mbind option_bind].
  set (t1 := set_mac_mtu _ _ t). set (x1 := tap_set i t1 x). set (sas := ztake _ _).
  assert (Ht1 : tap_at x1 i = Some t1) by by apply (tap_at_set x i t).
  assert (Hc1 : consistent x1 l) by (eapply consistent_tap_set; try done; apply (tc_up _ _ Hc i t Ht)).
  destruct (assign_addrs_ok z sas x1 l i t1 Hc1 Ht1 Hi) as (x2 & l2 & -> & Hc2 & Hk2). cbn [mbind option_bind].
  pose proof (same_status (cfg_status c) x2) as Hs.
  exists (status_callback (cfg_status c) x2), l2. split; [done|]. split; [by eapply consistent_same|].
  rewrite (registry_live _ _ (live_same _ _ Hs)).
  assert (Hl : live x2 = <[Z.to_nat i := foldl assigned t1 sas]> (live x)).
  { assert (Hi1 : 0 <= i < g_tap_count x1) by (cbn; lia).
    rewrite (live_kept i _ x1 x2 Hi1 Hk2). unfold x1. rewrite live_insert by lia.
    by rewrite list_insert_insert_eq. }
  pose proof (tc_count _ _ Hc). apply (registry_insert x x2 (Z.to_nat i) t); auto.
  - apply (tc_nodup _ _ Hc).
  - apply (tc_nodup _ _ Hc2).
  - apply live_lookup; [lia..|done].
  - by rewrite foldl_assigned_nwid.
Qed.

Definition is_up (op : ZT_VirtualNetworkConfigOperation) : bool :=
  match op with OPERATION_UP | OPERATION_CONFIG_UPDATE => true | _ => false end.

Definition is_down (op : ZT_VirtualNetworkConfigOperation) : bool :=
  match op with OPERATION_DOWN | OPERATION_DESTROY => true | _ => false end.

(** Whether network [id] has or can get a slot. *)
Definition has_room (id : Z) (x : xstate) : bool :=
  bool_decide (is_Some (registry x !! id)) || (g_tap_count x <? MAX_TAPS).

Lemma vnet_up_ok z x l id op c :
  consistent x l -> is_up op = true ->
  exists x' l', cb_vnet_config z id op (Some c) x = Some (0, x') /\ consistent x' l' /\
    registry x' =
      if has_room id x
      then <[id := foldl assigned (set_mac_mtu (cfg_mac c) (cfg_mtu c) (default (set_nwid id zero_tap) (registry x !! id)))
                     (ztake MAX_TAP_ADDRS (cfg_assignedAddresses c))]> (registry x)
      else registry x.
Proof.
  intros Hc Hop. pose proof (tc_count _ _ Hc) as Hcnt. pose proof (tc_nodup _ _ Hc) as Hnd.
  assert (E : cb_vnet_config z id op (Some c) x = cb_vnet_config z id OPERATION_UP (Some c) x) by by destruct op.
  rewrite E. unfold cb_vnet_config, has_room, MAX_TAPS. destruct (tap_find id x) as [i|] eqn:Hf.
  - destruct (tap_find_Some x id i Hf) as (Hi & t & Ht & Hid); [lia|].
    rewrite (registry_find x id i t Hnd (proj2 Hcnt) Hf Ht). rewrite bool_decide_eq_true_2 by eauto. cbn [orb default from_option]; unfold Datatypes.id.
    destruct (configure_ok z x l i t c Hc Ht (proj2 Hi)) as (x' & l' & Ex & Hc' & Hr). exists x', l'.
    split; [exact Ex|]. split; [done|]. rewrite <- Hid. exact Hr.
  - rewrite (registry_find_None x id Hnd Hf). rewrite bool_decide_eq_false_2 by (by intros [? ?]). cbn [orb].
    destruct (Z.ltb_spec (g_tap_count x) 4) as [Hlt|]; [|exists x, l; done].
    destruct (tap_new_ok x l id Hc Hlt Hf) as (Hc1 & Hcnt1 & Ht1 & Hl1).
    destruct (tap_new id x) as [i x1] eqn:Etn. assert (i = g_tap_count x) as -> by (unfold tap_new in Etn; congruence).
    cbn [snd] in *. destruct (configure_ok z x1 l _ _ c Hc1 Ht1) as (x' & l' & Ex & Hc' & Hr); [lia|].
    exists x', l'. split; [exact Ex|]. split; [done|]. rewrite Hr. cbn [nwid set_nwid default from_option].
    assert (Er : registry x1 = <[id := set_nwid id zero_tap]> (registry x)).
    { apply map_eq; intros k. apply option_eq; intros u. rewrite registry_lookup by apply (tc_nodup _ _ Hc1).
      rewrite lookup_insert_Some, registry_lookup, Hl1, elem_of_app, list_elem_of_singleton by done. split.
      - intros [[Hu| ->] <-]; [right|left; done]. split_and!; try done. symmetry. by apply (tap_find_None x id u).
      - intros [[<- <-]|(? & ? & <-)]; [split; [by right|done]|split; [by left|done]]. }
    rewrite Er, insert_insert_eq. done.
Qed.

(** ** Taking a network down *)

(** Moving the last element into the hole. *)
Lemma swap_remove {A} (L : list A) i n (d t : A) :
  length L = S n -> L !! i = Some d -> L !! n = Some t ->
  (if decide (i = n) then take n L else <[i := t]> (take n L)) ++ [d] ≡ₚ L.
Proof.
  intros Hlen Hd Ht. assert (EL : L = take n L ++ [t]).
  { rewrite <- (firstn_all L) at 1. rewrite Hlen. by apply take_S_r. }
  case_decide as E; [subst i; replace d with t by congruence; by rewrite <- EL|].
  assert (Hi : (i < n)%nat) by (apply lookup_lt_Some in Hd; lia).
  assert (HM : take n L !! i = Some d) by (by rewrite lookup_take_lt).
  assert (Hl : (i < length (take n L))%nat) by (rewrite length_take; lia).
  transitivity (take n L ++ [t]); [|by rewrite <- EL].
  rewrite (insert_take_drop _ _ _ Hl). rewrite <- (take_drop_middle _ _ _ HM) at 3.
  rewrite <- !app_assoc. apply Permutation_app_head. rewrite <- !app_comm_cons.
  rewrite <- !Permutation_cons_append. apply Permutation_swap.
Qed.

Lemma registry_delete x x' d :
  NoDup (nwid <$> live x) -> live x' ++ [d] ≡ₚ live x ->
  NoDup (nwid <$> live x') /\ registry x' = delete (nwid d) (registry x).
Proof.
  intros Hn HP. assert (Hn' : NoDup (nwid <$> (live x' ++ [d]))) by by rewrite HP.
  rewrite fmap_app in Hn'. apply NoDup_app in Hn' as (Hnx & Hdis & _). split; [done|].
  apply map_eq; intros k. apply option_eq; intros u.
  rewrite lookup_delete_Some, !registry_lookup by done. rewrite <- HP, elem_of_app, list_elem_of_singleton.
  split.
  - intros [Hu <-]. split_and!; auto. intros E. apply (Hdis (nwid u)); [by apply list_elem_of_fmap_2|].
    apply list_elem_of_singleton. done.
  - intros (Hne & [Hu| ->] & <-); done.
Qed.

(** The slot after [xnet_tap_teardown]. *)
Definition torn (t : xnet_tap) : xnet_tap := if netif_up t then clear_addrs (set_netif_up false t) else t.

Lemma torn_nwid t : nwid (torn t) = nwid t.
Proof. unfold torn. by destruct (netif_up t). Qed.

Lemma torn_down t : netif_up (torn t) = false.
Proof. unfold torn. by destruct (netif_up t) eqn:E. Qed.

Lemma teardown_consistent x l i t :
  consistent x l -> tap_at x i = Some t -> i < g_tap_count x ->
  exists x', xnet_tap_teardown i x = Some x' /\ consistent x' (filter (fun m => m <> tap_netif i) l) /\
    kept i (torn t) x x'.
Proof.
  intros Hc Ht Hi. pose proof (tap_at_range _ _ _ Ht) as [Hr Hl]. unfold torn. destruct (netif_up t) eqn:Hup.
  - assert (Hin : tap_netif i ∈ l) by (apply (tc_listed _ _ Hc i Hr); eauto).
    destruct (teardown_ok x i t l Ht Hup (tc_net _ _ Hc) Hin) as (ns & -> & Hok & _ & [v [Hv _]] & Hoth).
    eexists. split; [done|]. split; [|by constructor]. destruct Hc.
    set (t' := clear_addrs _). set (x' := tap_set _ _ _).
    assert (Hlook : forall j, 0 <= j < 4 -> tap_at x' j = if decide (j = i) then Some t' else tap_at x j).
    { intros j Hj. case_decide as E; [subst; by apply (tap_at_set (set_net ns x) i t)|]. etrans; [apply tap_at_set_ne; lia|done]. }
    constructor; auto.
    + cbn. by rewrite length_insert.
    + assert (E : nwid <$> live x' = nwid <$> live x) by (apply (nwids_insert x i t); auto; lia). by rewrite E.
    + intros j Hj. cbn. destruct (decide (j = i)) as [->|]; [by exists v|].
      destruct (tc_mem0 j Hj) as [w Hw]. destruct (Hoth (tap_netif j) w) as (w' & ? & _); [unfold tap_netif; lia|done|by exists w'].
    + intros j Hj. rewrite list_elem_of_filter, tc_listed0, Hlook by done. change (g_tap_count x') with (g_tap_count x).
      case_decide as E; [subst j|].
      * split; [naive_solver|]. intros (_ & u & [= <-] & ?). done.
      * split; [naive_solver|]. split; [unfold tap_netif; lia|done].
    + intros n Hn. apply list_elem_of_filter in Hn as [_ Hn]. auto.
    + intros j u Hu Hu'. pose proof (tap_at_range _ _ _ Hu) as [Hj _]. rewrite Hlook in Hu by done.
      case_decide; [|by eapply tc_up0]. by injection Hu as <-.
  - exists x. assert (Hnin : tap_netif i ∉ l). { rewrite (tc_listed _ _ Hc i Hr). intros [_ (u & ? & ?)]. congruence. }
    rewrite filter_not_in by done. unfold xnet_tap_teardown. rewrite Ht; cbn. rewrite Hup; cbn.
    split; [done|]. split; [done|]. constructor; try done. by rewrite list_insert_id.
Qed.

Lemma live_length x l : consistent x l -> length (live x) = Z.to_nat (g_tap_count x).
Proof. intros []. unfold live. rewrite length_take. lia. Qed.

(** The slot array after [g_taps[idx] = g_taps[g_tap_count - 1]]. *)
Definition moved (idx : Z) (tl : xnet_tap) (x : xstate) : list xnet_tap :=
  if decide (idx = g_tap_count x - 1) then g_taps x else <[Z.to_nat idx := tl]> (g_taps x).

Lemma moved_live x l idx d tl :
  consistent x l -> tap_at x idx = Some d -> idx < g_tap_count x -> tap_at x (g_tap_count x - 1) = Some tl ->
  take (Z.to_nat (g_tap_count x - 1)) (moved idx tl x) ++ [d] ≡ₚ live x.
Proof.
  intros Hc Hd Hi Ht. pose proof (tap_at_range _ _ _ Hd) as [Hr Hdl]. pose proof (tap_at_range _ _ _ Ht) as [Hr' Htl].
  pose proof (tc_count _ _ Hc). set (n := Z.to_nat (g_tap_count x - 1)).
  assert (HL : length (live x) = S n) by (rewrite (live_length _ _ Hc); lia).
  assert (Hd' : live x !! Z.to_nat idx = Some d) by (apply live_lookup; auto; lia).
  assert (Ht' : live x !! n = Some tl) by (apply live_lookup; auto; lia).
  etrans; [|apply (swap_remove (live x) (Z.to_nat idx) n d tl HL Hd' Ht')].
  assert (Etk : take n (live x) = take n (g_taps x)) by (unfold live; rewrite take_take; f_equal; lia).
  unfold moved. rewrite Etk. case_decide; case_decide; try lia; [done|]. by rewrite take_insert_lt by lia.
Qed.

Lemma moved_lookup x idx tl j :
  length (g_taps x) = 4%nat -> 0 <= idx < 4 -> 0 <= j < g_tap_count x - 1 ->
  moved idx tl x !! Z.to_nat j = if decide (j = idx) then Some tl else g_taps x !! Z.to_nat j.
Proof.
  intros. unfold moved. case_decide; case_decide; try lia; subst; try done.
  - apply list_lookup_insert_eq. lia.
  - apply list_lookup_insert_ne. lia.
Qed.

(** Forgetting the last slot when it is not up. *)
Lemma consistent_drop x l ns idx tl :
  consistent x l -> 0 <= idx < g_tap_count x -> tap_at x (g_tap_count x - 1) = Some tl -> netif_up tl = false ->
  (exists d, tap_at x idx = Some d /\ netif_up d = false) ->
  netifs_ok ns l -> (forall i, 0 <= i < 4 -> exists v, nget ns (tap_netif i) = Some v) ->
  consistent (set_taps (moved idx tl x) (g_tap_count x - 1) (set_net ns x)) l.
Proof.
  intros Hc Hi Ht Hup (d & Hd & Hdup) Hok Hmem. pose proof (tap_at_range _ _ _ Ht) as [Hr Htl].
  pose proof (moved_live x l idx d tl Hc Hd (proj2 Hi) Ht) as HP.
  set (x' := set_taps _ _ _). destruct (registry_delete x x' d (tc_nodup _ _ Hc) HP) as [Hnd _]. destruct Hc.
  assert (Hlen : length (moved idx tl x) = 4%nat) by (unfold moved; case_decide; rewrite ?length_insert; done).
  constructor; auto.
  - cbn. lia.
  - intros j Hj. rewrite tc_listed0 by done. change (g_tap_count x') with (g_tap_count x - 1).
    split.
    + intros (Hj1 & u & Hu & Hup1). assert (j <> g_tap_count x - 1) by congruence. split; [lia|].
      exists u. split; [|done]. rewrite tap_at_lookup in Hu |- * by lia. cbn. rewrite moved_lookup by (auto; lia).
      case_decide; [|done]. subst j. rewrite tap_at_lookup in Hd by lia. congruence.
    + intros (Hj1 & u & Hu & Hup1). split; [lia|]. exists u. split; [|done].
      rewrite tap_at_lookup in Hu |- * by lia. cbn in Hu. rewrite moved_lookup in Hu by (auto; lia).
      case_decide; [congruence|done].
  - intros j u Hu Hup1. pose proof (tap_at_range _ _ _ Hu) as [Hj Hu2]. cbn in Hu2. unfold moved in Hu2.
    case_decide; [apply (tc_up0 j); [by rewrite tap_at_lookup|done]|].
    apply list_lookup_insert_Some in Hu2 as [(_ & <- & _)|[_ Hu2]]; [congruence|].
    apply (tc_up0 j); [by rewrite tap_at_lookup|done].
Qed.

(** The struct copy and the decrement. *)
Lemma drop_slot_eq x l idx tl :
  consistent x l -> 0 <= idx < g_tap_count x -> tap_at x (g_tap_count x - 1) = Some tl ->
  exists v, nget (x_net x) (tap_netif (g_tap_count x - 1)) = Some v /\
    let ns := if decide (idx = g_tap_count x - 1) then x_net x else nput (x_net x) (tap_netif idx) v in
    (x ← (if idx <? g_tap_count x - 1 then tap_copy (g_tap_count x - 1) idx x else Some x);
     Some (set_taps (g_taps x) (g_tap_count x - 1) x)) =
    Some (set_taps (moved idx tl x) (g_tap_count x - 1) (set_net ns x)).
Proof.
  intros Hc Hi Ht. pose proof (tap_at_range _ _ _ Ht) as [Hr _].
  destruct (tc_mem _ _ Hc (g_tap_count x - 1) Hr) as [v Hv]. exists v. split; [done|]. cbv zeta. unfold moved.
  destruct (Z.ltb_spec idx (g_tap_count x - 1)); case_decide; try lia.
  - unfold tap_copy. rewrite Ht; cbn [mbind option_bind]. rewrite Hv; cbn [mbind option_bind]. done.
  - cbn. by destruct x.
Qed.

(** Whether taking [id] down leaves lwIP's pointers valid: the slot is the last
    one, or the last one's interface is not up. *)
Definition safe_down (id : Z) (x : xstate) : Prop :=
  match tap_find id x with
  | Some idx => idx = g_tap_count x - 1 \/ exists t, tap_at x (g_tap_count x - 1) = Some t /\ netif_up t = false
  | None => True
  end.

(** What the [DOWN] case does to a registered network. *)
Lemma vnet_down_eq z x l id op c idx t :
  consistent x l -> is_down op = true -> tap_find id x = Some idx -> tap_at x idx = Some t ->
  exists x1 tl v,
    let l1 := filter (fun m => m <> tap_netif idx) l in
    let c' := g_tap_count x - 1 in
    let ns := if decide (idx = c') then x_net x1 else nput (x_net x1) (tap_netif idx) v in
    let x' := set_taps (moved idx tl x1) c' (set_net ns x1) in
    consistent x1 l1 /\ kept idx (torn t) x x1 /\ tap_at x1 c' = Some tl /\
    nget (x_net x1) (tap_netif c') = Some v /\
    cb_vnet_config z id op c x = Some (0, callback XNET_EV_NETWORK_DOWN x').
Proof.
  intros Hc Hop Hf Ht. pose proof (tc_count _ _ Hc) as Hcnt.
  destruct (tap_find_Some x id idx Hf) as (Hi & _); [lia|].
  destruct (teardown_consistent x l idx t Hc Ht (proj2 Hi)) as (x1 & E1 & Hc1 & Hk1).
  pose proof (kp_count _ _ _ _ Hk1) as Ecnt.
  assert (exists tl, tap_at x1 (g_tap_count x1 - 1) = Some tl) as [tl Htl].
  { rewrite tap_at_lookup by lia. apply lookup_lt_is_Some. rewrite (tc_len _ _ Hc1). lia. }
  destruct (drop_slot_eq x1 _ idx tl Hc1 ltac:(lia) Htl) as (v & Hv & E2). cbv zeta in E2.
  exists x1, tl, v. cbv zeta. rewrite <- Ecnt. split_and!; try done.
  assert (E : cb_vnet_config z id op c x = cb_vnet_config z id OPERATION_DOWN c x) by by destruct op.
  rewrite E. unfold cb_vnet_config. rewrite Hf, E1; cbn [mbind option_bind].
  destruct (if idx <? g_tap_count x1 - 1 then _ else _) as [x2|]; [|done].
  cbn [mbind option_bind] in *. apply (inj Some) in E2. by rewrite E2.
Qed.

Lemma vnet_down_ok z x l id op c :
  consistent x l -> is_down op = true ->
  exists x', cb_vnet_config z id op c x = Some (0, x') /\ registry x' = delete id (registry x) /\
    (safe_down id x -> exists l', consistent x' l').
Proof.
  intros Hc Hop. pose proof (tc_count _ _ Hc) as Hcnt. destruct (tap_find id x) as [idx|] eqn:Hf; cycle 1.
  { exists x. split; [|split; [|by exists l]].
    - destruct op; try done; cbn; by rewrite Hf.
    - rewrite delete_id; [done|]. apply registry_find_None; [apply (tc_nodup _ _ Hc)|done]. }
  destruct (tap_find_Some x id idx Hf) as (Hi & t & Ht & Hid); [lia|].
  destruct (vnet_down_eq z x l id op c idx t Hc Hop Hf Ht) as (x1 & tl & v & H). cbv zeta in H.
  destruct H as (Hc1 & Hk1 & Htl & Hv & E). set (x' := set_taps _ _ _) in E.
  pose proof (kp_count _ _ _ _ Hk1) as Ecnt. pose proof (kept_tap_at _ _ _ _ _ Ht Hk1) as Ht1.
  exists (callback XNET_EV_NETWORK_DOWN x'). split; [exact E|]. pose proof (same_callback XNET_EV_NETWORK_DOWN x') as Hs.
  rewrite <- Ecnt in Htl, Hv. assert (Hlive : live x' ++ [torn t] ≡ₚ live x1).
  { unfold live at 1, x'; cbn. rewrite <- Ecnt. eapply moved_live; try done. lia. }
  split.
  - rewrite (registry_live _ _ (live_same _ _ Hs)).
    destruct (registry_delete x1 x' (torn t) (tc_nodup _ _ Hc1) Hlive) as [_ ->]. rewrite torn_nwid, Hid.
    assert (E1 : registry x1 = <[nwid t := torn t]> (registry x)).
    { apply (registry_insert x x1 (Z.to_nat idx) t).
      - apply (tc_nodup _ _ Hc).
      - apply (tc_nodup _ _ Hc1).
      - apply live_lookup; [lia..|done].
      - apply torn_nwid.
      - by apply live_kept. }
    by rewrite E1, Hid, delete_insert_eq.
  - unfold safe_down. rewrite Hf. intros Hsafe. exists (filter (fun m => m <> tap_netif idx) l).
    eapply consistent_same; [exact Hs|]. unfold x'. rewrite <- Ecnt. apply consistent_drop; auto; try lia.
    + destruct (decide (idx = g_tap_count x - 1)) as [->|Hne].
      * rewrite Ecnt in Htl. assert (tl = torn t) as -> by congruence. apply torn_down.
      * destruct Hsafe as [|(u & Hu & Huup)]; [done|].
        rewrite Ecnt, tap_at_lookup in Htl by lia. rewrite tap_at_lookup in Hu by lia.
        rewrite (kp_taps _ _ _ _ Hk1), list_lookup_insert_ne in Htl by lia. congruence.
    + exists (torn t). split; [done|apply torn_down].
    + case_decide; [apply (tc_net _ _ Hc1)|]. apply netifs_ok_nput_off; [apply (tc_net _ _ Hc1)|].
      rewrite list_elem_of_filter. naive_solver.
    + intros i Hi'. case_decide; [by apply (tc_mem _ _ Hc1)|].
      destruct (decide (i = idx)) as [->|]; [rewrite nget_put_eq; eauto|].
      rewrite nget_put_ne by (unfold tap_netif; lia). by apply (tc_mem _ _ Hc1).
Qed.

(** The other case: the last interface is up and its slot is copied away. *)
Lemma vnet_down_dangles z x l id op c idx tl :
  consistent x l -> is_down op = true -> tap_find id x = Some idx -> idx < g_tap_count x - 1 ->
  tap_at x (g_tap_count x - 1) = Some tl -> netif_up tl = true ->
  exists x' l', cb_vnet_config z id op c x = Some (0, x') /\
    nlist (x_net x') (netif_list (x_net x')) l' /\ NoDup l' /\
    g_tap_count x' = g_tap_count x - 1 /\ tap_netif (g_tap_count x') ∈ l' /\
    tap_find (nwid tl) x' = Some idx /\ tap_at x' idx = Some tl /\ (tap_netif idx ∉ l') /\ length (g_taps x') = 4%nat.
Proof.
  intros Hc Hop Hf Hlt Htl Hup. pose proof (tc_count _ _ Hc) as Hcnt.
  destruct (tap_find_Some x id idx Hf) as (Hi & t & Ht & Hid); [lia|].
  destruct (vnet_down_eq z x l id op c idx t Hc Hop Hf Ht) as (x1 & tl' & v & H). cbv zeta in H.
  destruct H as (Hc1 & Hk1 & Htl' & Hv & E). rewrite decide_False in E by lia. set (x' := set_taps _ _ _) in E.
  pose proof (kp_count _ _ _ _ Hk1) as Ecnt. pose proof (kept_tap_at _ _ _ _ _ Ht Hk1) as Ht1.
  assert (tl' = tl) as ->.
  { rewrite tap_at_lookup in Htl, Htl' by lia. rewrite (kp_taps _ _ _ _ Hk1), list_lookup_insert_ne in Htl' by lia. congruence. }
  set (l' := filter (fun m => m <> tap_netif idx) l) in *. exists (callback XNET_EV_NETWORK_DOWN x'), l'.
  pose proof (same_callback XNET_EV_NETWORK_DOWN x') as Hs.
  assert (Hnin : tap_netif idx ∉ l') by (unfold l'; rewrite list_elem_of_filter; naive_solver).
  assert (Hat : tap_at x' idx = Some tl).
  { rewrite tap_at_lookup by lia. unfold x'; cbn. rewrite moved_lookup; [by rewrite decide_True|apply (tc_len _ _ Hc1)|lia|lia]. }
  assert (Hok : netifs_ok (x_net x') l') by (unfold x'; cbn; apply netifs_ok_nput_off; [apply (tc_net _ _ Hc1)|done]).
  rewrite (tap_at_same _ _ idx Hs). destruct Hs as (Hs1 & Hs2 & Hs3). unfold tap_find. rewrite Hs1, Hs2, Hs3.
  split_and!; try done.
  - apply (nok_list _ _ Hok).
  - apply (nok_nodup _ _ Hok).
  - apply (tc_listed _ _ Hc1); cbn; [lia|]. split; [lia|]. by exists tl.
  - pose proof (registry_delete x1 x' (torn t) (tc_nodup _ _ Hc1)) as Hrd.
    destruct Hrd as [Hnd _]. { unfold live at 1, x'; cbn. rewrite <- Ecnt. eapply moved_live; try done; [lia|by rewrite Ecnt]. }
    pose proof (tap_find_loop_spec (g_taps x') 0 (g_tap_count x') (nwid tl)) as S.
    destruct (tap_find_loop _ _ _ _) as [r|] eqn:Er.
    + destruct S as (k & u & -> & Hk & Hku & Hn). f_equal.
      assert (Z.to_nat idx = k); [|lia].
      eapply (NoDup_lookup _ (Z.to_nat idx) k (nwid tl) Hnd); rewrite list_lookup_fmap; unfold live.
      * rewrite lookup_take_lt by (cbn; lia). rewrite tap_at_lookup in Hat by lia. by rewrite Hat.
      * rewrite lookup_take_lt by lia. rewrite Hku. cbn. by rewrite Hn.
    + exfalso. rewrite tap_at_lookup in Hat by lia. eapply S; [exact Hat| |done]. unfold x'; cbn; lia.
  - unfold x'; cbn. unfold moved. case_decide; rewrite ?length_insert; apply (tc_len _ _ Hc1).
Qed.

(** A new network takes a slot whose interface lwIP still lists. *)
Lemma vnet_up_dangling z x l id op c a sas :
  length (g_taps x) = 4%nat -> 0 <= g_tap_count x < 4 -> nlist (x_net x) (netif_list (x_net x)) l -> NoDup l ->
  tap_netif (g_tap_count x) ∈ l -> tap_find id x = None -> is_up op = true ->
  cfg_assignedAddresses c = sockaddr_in a :: sas ->
  cb_vnet_config z id op (Some c) x = None.
Proof.
  intros Hlen Hcnt HL HD Hin Hf Hop Ha.
  assert (E : cb_vnet_config z id op (Some c) x = cb_vnet_config z id OPERATION_UP (Some c) x) by by destruct op.
  rewrite E. unfold cb_vnet_config, MAX_TAPS. rewrite Hf. destruct (Z.ltb_spec (g_tap_count x) 4); [|lia].
  set (i := g_tap_count x) in *. unfold tap_new. fold i. set (x1 := set_taps _ _ _).
  assert (Ht1 : tap_at x1 i = Some (set_nwid id zero_tap)).
  { rewrite tap_at_lookup by lia. apply list_lookup_insert_eq. cbn; lia. }
  rewrite Ht1, Ha; cbn [mbind option_bind]. set (t2 := set_mac_mtu _ _ _). set (x2 := tap_set i t2 x1).
  assert (Ht2 : tap_at x2 i = Some t2) by by apply (tap_at_set x1 i (set_nwid id zero_tap)).
  change (ztake MAX_TAP_ADDRS (sockaddr_in a :: sas)) with (sockaddr_in a :: ztake 3 sas).
  cbn [assign_addrs]. unfold assign_addr. rewrite Ht2; cbn [mbind option_bind]. change (has_ip4 t2) with false. cbn [negb].
  set (t3 := set_ip4 a t2). set (x3 := tap_set i t3 x2).
  assert (Ht3 : tap_at x3 i = Some t3) by by apply (tap_at_set x2 i t2).
  unfold xnet_tap_setup_netif. rewrite Ht3; cbn [mbind option_bind]. change (netif_up t3) with false.
  change (has_ip4 t3) with true. change (AF_INET =? AF_INET) with true. cbn [andb].
  destruct (nlist_cut (x_net x) (tap_netif i) zero_netif l (netif_list (x_net x)) eq_refl HL HD Hin) as (l' & HL' & HD' & Hin' & _).
  assert (Hdrv : NetifDriver (Some i) (netif_init_cb (tap_at x3)) (tap_netif_ok t3)) by by apply init_cb_driver.
  rewrite (netif_add_listed (Some i) (netif_init_cb (tap_at x3)) (tap_netif_ok t3) _ l' _ zero_netif); try done.
  apply nget_put_eq.
Qed.
