(* ===== verification/XnetLife.v ===== *)
(** The life of the service as a state machine: the API calls, the I/O thread
    and the callbacks of the ZeroTier node as steps, and the invariants of the
    reachable states. *)
From S2P Require Import Prelude Bits Def IpAddr Pbuf PbufData NetifRec Netif NetifThm XnetTap XnetTapThm XnetService XnetServiceThm.

Section life.
  (** lwIP's input function and the free functions of custom pbufs. *)
  Context (custom_free : addr -> heap -> option heap).
  Context (netif_input : addr -> Z -> heap -> option (Z * heap)).

(** One step of the service.  The thread runs between [xnet_start] and
    [xnet_stop]; the node calls back while it exists.  The [strict] machine
    takes a network down only when no interface in use has to move for it. *)
Inductive xstep (strict : bool) : xstate -> xstate -> Prop :=
| step_start path cb port thread_ok r x x' :
    xnet_start path cb port thread_ok x = Some (r, x') -> xstep strict x x'
| step_thread node_ok u4 u6 x :
    g_running x = true -> g_node x = false -> xstep strict x (svc_thread_start node_ok u4 u6 x)
| step_loop env x : g_running x = true -> g_node x = true -> xstep strict x (svc_thread_iter env x)
| step_event e x : g_node x = true -> xstep strict x (cb_event e x)
| step_config z id op c r x x' :
    g_node x = true -> (strict = true -> is_down op = true -> safe_down id x) ->
    cb_vnet_config z id op c x = Some (r, x') -> xstep strict x x'
| step_frame id src dst et data x x' :
    g_node x = true -> cb_vframe custom_free netif_input id src dst et data x = Some x' -> xstep strict x x'
| step_output buf nif p r x x' : tap_linkoutput buf nif p x = Some (r, x') -> xstep strict x x'
| step_send fam data r x x' : g_node x = true -> cb_wire_send fam data x = (r, x') -> xstep strict x x'
| step_stop late r x x' : xnet_stop late x = Some (r, x') -> xstep strict x x'.

(** ** What the callbacks leave alone *)

(** Walks along the successful path of an [option] computation, without
    evaluating the calls. *)
Ltac peel H :=
  repeat (cbn [mbind option_bind] in H;
    match type of H with
    | None = Some _ => discriminate H
    | Some _ = Some _ => injection H as H; subst
    | mbind _ ?m = Some _ => let E := fresh "E" in destruct m eqn:E; [|discriminate H]
    | option_bind _ _ _ ?m = Some _ => let E := fresh "E" in destruct m eqn:E; [|discriminate H]
    | (match ?m with _ => _ end) = Some _ => destruct m
    end).

Definition same_flags (x x' : xstate) : Prop :=
  g_lwip_up x' = g_lwip_up x /\ lwip_inited x' = lwip_inited x /\ g_running x' = g_running x /\ g_node x' = g_node x.

#[local] Instance same_flags_preorder : PreOrder same_flags.
Proof. split; [done|]. intros x y z (? & ? & ? & ?) (? & ? & ? & ?). split_and!; congruence. Qed.

Lemma flags_callback c x : same_flags x (callback c x).
Proof. unfold callback. by destruct (g_callback x). Qed.

Lemma flags_setup z i fam x x' : xnet_tap_setup_netif z i fam x = Some x' -> same_flags x x'.
Proof. 
  unfold xnet_tap_setup_netif. intros H. destruct (tap_at x i) as [t|]; [|done]. cbn [mbind option_bind] in H.
  destruct (netif_up t); [by injection H as <-|].
  assert (Hadd : forall y, (if (fam =? AF_INET) && has_ip4 t then
      '(_, ns) ← netif_add (Some (tap_netif i)) (Some (tap_ip4_addr t)) (Some (IP4_ADDR 255 255 255 0))
                   (Some (IP4_ADDR 0 0 0 0)) (Some i) (Some (netif_init_cb (tap_at x))) (Some tcpip_input) (x_net x);
      Some (tap_set i (set_netif_up true t) (set_net (netif_set_default (Some (tap_netif i)) ns) x))
    else Some x) = Some y -> same_flags x y).
  { intros y Hy. destruct (_ && _); [|by injection Hy as <-].
    destruct (netif_add _ _ _ _ _ _ _ _) as [[? ns]|]; [|done]. by injection Hy as <-. }
  destruct (if (fam =? AF_INET) && has_ip4 t then _ else _) as [y|]; [|done]. etrans; [by apply Hadd|].
  cbn [mbind option_bind] in H. peel H; done.
 Qed.

Lemma flags_teardown i x x' : xnet_tap_teardown i x = Some x' -> same_flags x x'.
Proof. unfold xnet_tap_teardown. intros H. by peel H. Qed.

Lemma flags_assign_addr z i sa x x' : assign_addr z i sa x = Some x' -> same_flags x x'.
Proof.
  unfold assign_addr. intros H. destruct (tap_at x i) as [t|]; [|done]. cbn [mbind option_bind] in H.
  destruct sa; [destruct (negb (has_ip4 t))|destruct (negb (has_ip6 t))|]; try by injection H as <-.
  - destruct (xnet_tap_setup_netif _ _ _ _) as [y|] eqn:E; [|done]. injection H as <-.
    apply flags_setup in E. etrans; [exact E|]. etrans; apply flags_callback.
  - destruct (xnet_tap_setup_netif _ _ _ _) as [y|] eqn:E; [|done]. injection H as <-.
    apply flags_setup in E. etrans; [exact E|]. apply flags_callback.
Qed.

Lemma flags_assign_addrs z i sas : forall x x', assign_addrs z i sas x = Some x' -> same_flags x x'.
Proof.
  induction sas as [|sa sas IH]; intros x x' H; cbn in H; [by injection H as <-|].
  destruct (assign_addr z i sa x) as [y|] eqn:E; [|done]. etrans; [by eapply flags_assign_addr|by apply IH].
Qed.

Lemma flags_config z id op c r x x' : cb_vnet_config z id op c x = Some (r, x') -> same_flags x x'.
Proof.
  assert (Hup : forall y i t (cfg : ZT_VirtualNetworkConfig), same_flags x y ->
    (x0 ← assign_addrs z i (ztake MAX_TAP_ADDRS (cfg_assignedAddresses cfg)) (tap_set i t y);
     Some (0, status_callback (cfg_status cfg) x0)) = Some (r, x') -> same_flags x x').
  { intros y i t cfg Hy H. destruct (assign_addrs _ _ _ _) as [w|] eqn:E; [|done]. injection H as <- <-.
    apply flags_assign_addrs in E. etrans; [exact Hy|]. etrans; [exact E|].
    destruct (cfg_status cfg); cbn; try apply flags_callback. done. }
  assert (Hdn : forall idx, (x ← xnet_tap_teardown idx x;
      x ← (if idx <? g_tap_count x - 1 then tap_copy (g_tap_count x - 1) idx x else Some x);
      Some (0, callback XNET_EV_NETWORK_DOWN (set_taps (g_taps x) (g_tap_count x - 1) x))) = Some (r, x') -> same_flags x x').
  { intros idx H. destruct (xnet_tap_teardown idx x) as [y|] eqn:E; [|done]. apply flags_teardown in E. cbn [mbind option_bind] in H.
    assert (Hc : forall w, (if idx <? g_tap_count y - 1 then tap_copy (g_tap_count y - 1) idx y else Some y) = Some w -> same_flags y w).
    { intros w Hw. unfold tap_copy in Hw. by peel Hw. }
    destruct (if _ <? _ then _ else _) as [w|] eqn:E2; [|done]. injection H as <- <-. specialize (Hc _ eq_refl).
    etrans; [exact E|]. etrans; [exact Hc|]. etrans; [|apply flags_callback]. done. }
  intros H. destruct op; unfold cb_vnet_config in H; try by injection H as <- <-.
  all: destruct (tap_find id x) as [i|]; [|try by injection H as <- <-].
  all: try by eapply Hdn.
  all: try (destruct (g_tap_count x <? MAX_TAPS); [|by injection H as <- <-]; cbn [tap_new] in H).
  all: destruct c as [cfg|]; [|by injection H as <- <-].
  all: match type of H with context [tap_at ?y ?i] => destruct (tap_at y i) as [t|] eqn:Et; [|done] end;
    cbn [mbind option_bind] in H; eapply Hup; [|exact H]; done.
Qed.

Lemma flags_rx i src dst et data len x x' :
  xnet_tap_rx custom_free netif_input i src dst et data len x = Some x' -> same_flags x x'.
Proof. unfold xnet_tap_rx. intros H. by peel H. Qed.

Lemma flags_teardown_all n : forall i x x', teardown_all n i x = Some x' -> same_flags x x'.
Proof.
  induction n as [|n IH]; intros i x x' H; cbn in H; [by injection H as <-|].
  destruct (xnet_tap_teardown i x) as [y|] eqn:E; [|done]. etrans; [by eapply flags_teardown|by eapply IH].
Qed.

Lemma flags_thread_start ok u4 u6 x :
  g_lwip_up (svc_thread_start ok u4 u6 x) = g_lwip_up x /\ lwip_inited (svc_thread_start ok u4 u6 x) = lwip_inited x /\
  (g_running (svc_thread_start ok u4 u6 x) = true -> g_running x = true).
Proof.
  unfold svc_thread_start. destruct ok; cbn [negb]; [|done]. destruct (bind_udp u4.1 u4.2), (bind_udp u6.1 u6.2). done.
Qed.

Lemma flags_recv fds : forall env x, same_flags x (recv_loop fds env x).
Proof.
  induction fds as [|fd fds IH]; intros [|[b d] env] x; cbn [recv_loop]; try done.
  etrans; [|apply IH]. by destruct (b && _).
Qed.

Lemma flags_exit x : same_flags (set_node false x) (svc_thread_exit x).
Proof. unfold svc_thread_exit. set (y := set_node_online false _). by destruct (0 <=? g_udp4 y), (0 <=? g_udp6 _). Qed.

Lemma flags_join late x :
  g_lwip_up (svc_thread_join late x) = g_lwip_up x /\ lwip_inited (svc_thread_join late x) = lwip_inited x /\
  g_node (svc_thread_join late x) = false.
Proof.
  unfold svc_thread_join. destruct (g_node x) eqn:E; [rewrite E|].
  - destruct (flags_exit x) as (? & ? & _ & ?). destruct (g_node x); done.
  - pose proof (flags_thread_start late.1.1 late.1.2 late.2 x) as (E1 & E2 & _).
    set (y := svc_thread_start _ _ _ _) in *. destruct (g_node y) eqn:Ey; [|done].
    destruct (flags_exit y) as (-> & -> & _ & ->). done.
Qed.

Lemma flags_stop late r x x' :
  xnet_stop late x = Some (r, x') ->
  lwip_inited x' = lwip_inited x /\ (g_lwip_up x = false -> g_lwip_up x' = false) /\
  (r = XNET_OK -> g_running x = true /\ g_lwip_up x' = false) /\ (g_running x' = true -> g_running x = true) /\
  (g_node x' = true -> g_node x = true).
Proof.
  unfold xnet_stop. intros H. destruct (g_running x) eqn:Hr; cbn [negb] in H; cycle 1.
  { injection H as <- <-. split_and!; try done; congruence. }
  destruct (teardown_all _ _ _) as [y|] eqn:E; [|done]. injection H as <- <-.
  apply flags_teardown_all in E as (E1 & E2 & E3 & E4). destruct (flags_callback XNET_EV_STACK_DOWN (set_lwip_up false (svc_thread_join late (set_running false x)))) as (F1 & F2 & F3 & F4).
  pose proof (flags_join late (set_running false x)) as (G1 & G2 & G3).
  unfold xnet_lwip_shutdown in *. cbn [g_lwip_up lwip_inited g_running g_node set_taps set_lwip_up] in *.
  rewrite E1, E2, E4, F1, F2, F4. split_and!; try done. congruence.
Qed.

Lemma flags_start path cb port ok r x x' :
  xnet_start path cb port ok x = Some (r, x') ->
  (g_running x' = true -> lwip_inited x' = true \/ g_running x = true) /\
  (lwip_inited x = true -> lwip_inited x' = true /\ g_lwip_up x' = g_lwip_up x) /\ g_node x' = g_node x.
Proof.
  unfold xnet_start, xnet_lwip_init. intros H. destruct path as [p|]; [|by injection H as <- <-; auto].
  destruct cb; cbn [negb] in H; [|by injection H as <- <-; auto].
  destruct (g_running x) eqn:Hr; [by injection H as <- <-; auto|].
  set (y := out _ _) in H. change (lwip_inited y) with (lwip_inited x) in H.
  destruct (lwip_inited x) eqn:Hi; cbn [negb] in H; cbn [mbind option_bind] in H.
  - destruct ok; injection H as <- <-; cbn; auto.
  - destruct (netif_init (x_net y)) as [ns|]; [|done]. cbn [mbind option_bind] in H.
    destruct (flags_callback XNET_EV_STACK_UP (set_lwip_up true (set_lwip_inited true (set_net ns y)))) as (_ & F & _ & F').
    destruct ok; cbn [negb] in H; injection H as <- <-; (split; [left; exact F|split; [done|exact F']]).
Qed.

(** ** A stack that was stopped stays down *)

(** lwIP was initialised once and is marked down. *)
Definition stack_dead (x : xstate) : Prop := lwip_inited x = true /\ g_lwip_up x = false.

Lemma stack_dead_same x x' : same_flags x x' -> stack_dead x -> stack_dead x'.
Proof. intros (E1 & E2 & _) []. split; congruence. Qed.

Lemma step_same_flags strict x x' : xstep strict x x' ->
  same_flags x x' \/ (exists path cb port ok r, xnet_start path cb port ok x = Some (r, x')) \/
  (exists late r, xnet_stop late x = Some (r, x')) \/
  (exists ok u4 u6, g_running x = true /\ x' = svc_thread_start ok u4 u6 x).
Proof.
  intros H. destruct H.
  - right; left; eauto 10.
  - do 3 right; eauto 10.
  - left. unfold svc_thread_iter. etrans; [apply flags_recv|]. done.
  - left. destruct e; cbn [cb_event]; [|  |done]; (etrans; [|apply flags_callback]; done).
  - left. by eapply flags_config.
  - left. unfold cb_vframe in *. destruct (tap_find id x); [by eapply flags_rx|]. by simplify_eq.
  - left. unfold tap_linkoutput in H. by peel H.
  - left. unfold cb_wire_send in *. repeat case_match; simplify_eq; done.
  - right; right; left; eauto.
Qed.

Lemma step_stack_dead strict x x' : xstep strict x x' -> stack_dead x -> stack_dead x'.
Proof.
  intros [H|[(? & ? & ? & ? & ? & H)|[(? & ? & H)|(ok & u4 & u6 & _ & ->)]]]%step_same_flags [Hi Hl].
  - by eapply stack_dead_same.
  - apply flags_start in H as (_ & H & _). destruct (H Hi) as [? E]. split; congruence.
  - apply flags_stop in H as (E & H & _). split; [congruence|auto].
  - pose proof (flags_thread_start ok u4 u6 x) as (E1 & E2 & _). split; congruence.
Qed.

Lemma steps_stack_dead strict x x' : rtc (xstep strict) x x' -> stack_dead x -> stack_dead x'.
Proof. induction 1; [done|]. eauto using step_stack_dead. Qed.

(** A running service, or one with a node, has an initialised stack. *)
Definition life_ok (x : xstate) : Prop := g_running x = true \/ g_node x = true -> lwip_inited x = true.

Lemma step_life_ok strict x x' : xstep strict x x' -> life_ok x -> life_ok x'.
Proof.
  intros [(E1 & E2 & E3 & E4)|[(? & ? & ? & ? & ? & H)|[(? & ? & H)|(ok & u4 & u6 & Hr & ->)]]]%step_same_flags Hx Hr'.
  - rewrite E2. apply Hx. by rewrite <- E3, <- E4.
  - apply flags_start in H as (H1 & H2 & H3). destruct Hr' as [Hr'|Hr'].
    + destruct (H1 Hr'); [done|]. apply H2, Hx. by left.
    + apply H2, Hx. right. congruence.
  - apply flags_stop in H as (E & _ & _ & H & H'). rewrite E. apply Hx. destruct Hr'; [left|right]; auto.
  - pose proof (flags_thread_start ok u4 u6 x) as (E1 & E2 & _). rewrite E2. apply Hx. by left.
Qed.

Lemma reach_life_ok strict x x' : rtc (xstep strict) x x' -> life_ok x -> life_ok x'.
Proof. induction 1; eauto using step_life_ok. Qed.

(** ** The registry and lwIP's list stay consistent *)
Lemma same_thread_start ok u4 u6 x : same_taps x (svc_thread_start ok u4 u6 x).
Proof.
  unfold svc_thread_start. destruct ok; cbn [negb]; [|done]. destruct (bind_udp u4.1 u4.2), (bind_udp u6.1 u6.2). done.
Qed.

Lemma same_recv fds : forall env x, same_taps x (recv_loop fds env x).
Proof.
  induction fds as [|fd fds IH]; intros [|[b d] env] x; cbn [recv_loop]; try done.
  eapply same_trans; [|apply IH]. by destruct (b && _).
Qed.

Lemma same_exit x : same_taps x (svc_thread_exit x).
Proof. unfold svc_thread_exit. set (y := set_node_online false _). by destruct (0 <=? g_udp4 y), (0 <=? g_udp6 _). Qed.

Lemma same_join late x : same_taps x (svc_thread_join late x).
Proof.
  unfold svc_thread_join. destruct (g_node x) eqn:E; [rewrite E; apply same_exit|].
  pose proof (same_thread_start late.1.1 late.1.2 late.2 x) as H. set (y := svc_thread_start _ _ _ _) in *.
  destruct (g_node y); [|done]. eapply same_trans; [exact H|apply same_exit].
Qed.

Lemma same_rx i src dst et data len x x' :
  xnet_tap_rx custom_free netif_input i src dst et data len x = Some x' -> same_taps x x'.
Proof. unfold xnet_tap_rx. intros H. by peel H. Qed.

(** The slots from [i] on torn down, one after the other. *)
Lemma teardown_all_ok n : forall i x l, consistent x l -> 0 <= i -> i + Z.of_nat n = g_tap_count x ->
  (forall j t, 0 <= j < i -> tap_at x j = Some t -> netif_up t = false) ->
  exists x' l', teardown_all n i x = Some x' /\ consistent x' l' /\ g_tap_count x' = g_tap_count x /\
    same_flags x x' /\ l' ⊆ l /\
    (forall j t, 0 <= j < g_tap_count x -> tap_at x' j = Some t -> netif_up t = false).
Proof.
  induction n as [|n IH]; intros i x l Hc Hi Hn Hdown.
  { exists x, l. split_and!; try done. intros j t Hj. apply Hdown. lia. }
  pose proof (tc_count _ _ Hc). assert (exists t, tap_at x i = Some t) as [t Ht].
  { rewrite tap_at_lookup by lia. apply lookup_lt_is_Some. rewrite (tc_len _ _ Hc). lia. }
  destruct (teardown_consistent x l i t Hc Ht) as (x1 & E1 & Hc1 & Hk1); [lia|].
  cbn [teardown_all]. rewrite E1; cbn [mbind option_bind]. pose proof (kp_count _ _ _ _ Hk1) as Ecnt.
  destruct (IH (i + 1) x1 _ Hc1) as (x2 & l2 & E2 & Hc2 & Hn2 & Hf2 & Hsub & Hd2); [lia|lia| |].
  { intros j u Hj Hu. destruct (decide (j = i)) as [->|].
    - rewrite (kept_tap_at _ _ _ _ _ Ht Hk1) in Hu. injection Hu as <-. apply torn_down.
    - apply (Hdown j); [lia|]. rewrite tap_at_lookup in Hu |- * by lia.
      by rewrite (kp_taps _ _ _ _ Hk1), list_lookup_insert_ne in Hu by lia. }
  exists x2, l2. rewrite Ecnt in *. split_and!; try done.
  - etrans; [by eapply flags_teardown|done].
  - intros m Hm. apply Hsub, list_elem_of_filter in Hm. naive_solver.
Qed.

(** A consistent registry without interfaces in use may be emptied. *)
Lemma consistent_empty x l :
  consistent x l -> (forall j t, 0 <= j < g_tap_count x -> tap_at x j = Some t -> netif_up t = false) ->
  consistent (set_taps (g_taps x) 0 x) l /\ Forall (fun m => m = loop_netif) l.
Proof.
  intros Hc Hd. pose proof (tc_listed _ _ Hc) as Hls. pose proof (tc_sub _ _ Hc) as Hsub. assert (Hno : forall i, 0 <= i < 4 -> tap_netif i ∉ l).
  { intros i Hi. rewrite Hls by done. intros (? & t & Ht & Hup). rewrite (Hd i t) in Hup by (auto; lia). done. }
  split.
  - destruct Hc. constructor; auto; cbn; try lia; [constructor|]. intros i Hi. split; [by intros ?%Hno|]. intros [? _]. lia.
  - apply Forall_forall. intros m Hm. specialize (Hsub m Hm). destruct (decide (m = 0)) as [->|]; [done|].
    exfalso. apply (Hno (m - 1)); [lia|]. unfold tap_netif. by replace (m - 1 + 1) with m by lia.
Qed.

Lemma stop_ok late x l :
  consistent x l -> g_running x = true ->
  exists x' l', xnet_stop late x = Some (XNET_OK, x') /\ consistent x' l' /\
    registry x' = ∅ /\ Forall (fun m => m = loop_netif) l' /\ l' ⊆ l.
Proof.
  intros Hc Hr. unfold xnet_stop. rewrite Hr; cbn [negb].
  set (y := xnet_lwip_shutdown (svc_thread_join late (set_running false x))).
  assert (Hy : same_taps x y).
  { eapply same_trans; [|apply same_callback]. apply (same_join late (set_running false x)). }
  pose proof (consistent_same _ _ _ Hy Hc) as Hcy. pose proof (tc_count _ _ Hcy).
  destruct (teardown_all_ok (Z.to_nat (g_tap_count y)) 0 y l Hcy) as (x1 & l1 & -> & Hc1 & Hn1 & _ & Hsub & Hd1); [lia|lia|intros; lia|].
  rewrite <- Hn1 in Hd1. destruct (consistent_empty x1 l1 Hc1 Hd1) as [Hc2 Hl].
  exists (set_taps (g_taps x1) 0 x1), l1. done.
Qed.

(** The invariant of the service: before lwIP is initialised its list is empty. *)
Definition service_ok (x : xstate) : Prop :=
  exists l, consistent x l /\ (lwip_inited x = false -> l = [] /\ exists v, nget (x_net x) loop_netif = Some v).

Lemma lwip_init_ok x l :
  consistent x l -> (lwip_inited x = false -> l = [] /\ exists v, nget (x_net x) loop_netif = Some v) ->
  exists x' l', xnet_lwip_init x = Some x' /\ consistent x' l' /\ lwip_inited x' = true /\ live x' = live x.
Proof.
  intros Hc Hl. unfold xnet_lwip_init. destruct (lwip_inited x) eqn:Hi; cbn [negb]; [by exists x, l|].
  destruct (Hl eq_refl) as [-> [v Hv]].
  destruct (netif_init_ok (x_net x) [] v (tc_net _ _ Hc) Hv) as (ns & v' & -> & Hok & Hv' & _ & Hoff);
    [apply not_elem_of_nil|cbn; lia|]. cbn [mbind option_bind].
  set (y := set_lwip_up true (set_lwip_inited true (set_net ns x))).
  exists (callback XNET_EV_STACK_UP y), [loop_netif]. split; [done|].
  pose proof (same_callback XNET_EV_STACK_UP y) as Hs. split_and!.
  - apply (consistent_same y); [done|]. destruct Hc. constructor; auto.
    + intros i Hi'. cbn. rewrite Hoff by (unfold tap_netif, loop_netif; lia). auto.
    + intros i Hi'. etrans; [|apply tc_listed; done]. rewrite list_elem_of_singleton.
      split; [intros E; unfold tap_netif, loop_netif in E; lia|]. intros E; by apply elem_of_nil in E.
    + intros n ->%list_elem_of_singleton. unfold loop_netif; lia.
  - destruct (flags_callback XNET_EV_STACK_UP y) as (_ & -> & _). done.
  - by rewrite (live_same _ _ Hs).
Qed.

Lemma vnet_new_ok z x l id op :
  consistent x l -> is_up op = true ->
  exists x', cb_vnet_config z id op None x = Some (0, x') /\ consistent x' l.
Proof.
  intros Hc Hop. assert (E : cb_vnet_config z id op None x = cb_vnet_config z id OPERATION_UP None x) by by destruct op.
  rewrite E. unfold cb_vnet_config, MAX_TAPS. destruct (tap_find id x) as [i|] eqn:Hf; [by exists x|].
  destruct (Z.ltb_spec (g_tap_count x) 4) as [Hlt|]; [|by exists x].
  destruct (tap_new_ok x l id Hc Hlt Hf) as (Hc1 & _). destruct (tap_new id x) as [i x1]. by exists x1.
Qed.

Lemma service_ok_same x x' : same_taps x x' -> lwip_inited x' = lwip_inited x -> service_ok x -> service_ok x'.
Proof.
  intros Hs Hi (l & Hc & Hl). exists l. split; [by eapply consistent_same|]. rewrite Hi. destruct Hs as (_ & _ & ->). done.
Qed.

(** Every step of the strict machine keeps the invariant. *)
Lemma config_service_ok z id op c r x x' :
  (is_down op = true -> safe_down id x) -> lwip_inited x = true ->
  cb_vnet_config z id op c x = Some (r, x') -> service_ok x -> service_ok x'.
Proof.
  intros Hsafe Hin H (l & Hc & _). assert (Hin' : lwip_inited x' = true).
  { apply flags_config in H as (_ & E & _). congruence. }
  assert (exists l', consistent x' l') as [l' Hc']; [|exists l'; split; [done|congruence]].
  destruct (is_up op) eqn:Hup; [destruct c as [c|]|destruct (is_down op) eqn:Hdn].
  - destruct (vnet_up_ok z x l id op c Hc Hup) as (y & l' & E & Hc' & _). exists l'. congruence.
  - destruct (vnet_new_ok z x l id op Hc Hup) as (y & E & Hc'). exists l. congruence.
  - destruct (vnet_down_ok z x l id op c Hc Hdn) as (y & E & _ & Hs). destruct (Hs (Hsafe eq_refl)) as [l' ?].
    exists l'. congruence.
  - exists l. destruct op; try done. cbn in H. congruence.
Qed.

Lemma step_service_ok x x' :
  xstep true x x' -> life_ok x -> service_ok x -> service_ok x'.
Proof.
  intros H Hn Hx. pose proof H as Hstep. destruct H.
  - unfold xnet_start in H. destruct path as [p|]; [|by simplify_eq]. destruct cb; cbn [negb] in H; [|by simplify_eq].
    destruct (g_running x); [by simplify_eq|]. set (y := out _ _) in H.
    destruct Hx as (l & Hc & Hl).
    destruct (lwip_init_ok y l) as (w & l' & E & Hc' & Hi' & _); [by apply (consistent_same x)|done|].
    rewrite E in H; cbn [mbind option_bind] in H. destruct thread_ok; cbn [negb] in H; injection H as <- <-.
    + exists l'. split; [done|congruence].
    + exists l'. split; [by apply (consistent_same w)|cbn; congruence].
  - apply (service_ok_same x); [apply same_thread_start|apply flags_thread_start|done].
  - apply (service_ok_same x); [apply same_recv|apply flags_recv|done].
  - apply (service_ok_same x); [| |done].
    + destruct e; cbn [cb_event]; [| |done]; (eapply same_trans; [|apply same_callback]; done).
    + destruct e; cbn [cb_event]; [| |done]; unfold callback; by destruct (g_callback _).
  - eapply config_service_ok; [| |done|done]; [auto|]. apply Hn. by right.
  - unfold cb_vframe in *. destruct (tap_find id x); [|by simplify_eq].
    apply (service_ok_same x); [by eapply same_rx| |done]. match goal with E : _ = Some x' |- _ => by apply flags_rx in E as (_ & ? & _) end.
  - apply (service_ok_same x); [| |done]; unfold tap_linkoutput in H; by peel H.
  - unfold cb_wire_send in *. repeat case_match; simplify_eq; try done.
    all: by apply (service_ok_same x).
  - destruct (g_running x) eqn:Hr; [|unfold xnet_stop in H; rewrite Hr in H; by simplify_eq/=].
    destruct Hx as (l & Hc & Hl). destruct (stop_ok late x l Hc Hr) as (y & l' & E & Hc' & _ & _ & Hsub).
    pose proof (flags_stop _ _ _ _ H) as (Hi & _). assert (y = x') as -> by congruence.
    exists l'. split; [done|]. rewrite Hi, Hn by (by left). done.
Qed.

Lemma reach_service_ok x x' : rtc (xstep true) x x' -> life_ok x -> service_ok x -> service_ok x'.
Proof. induction 1; eauto using step_life_ok, step_service_ok. Qed.

Lemma init_ok h : life_ok (x_init h) /\ service_ok (x_init h).
Proof.
  split; [by intros [?|?]|]. exists []. split; [|intros _; split; [done|by exists zero_netif]]. constructor.
  - done.
  - cbn; lia.
  - constructor.
  - constructor; cbn; try done; try constructor; lia.
  - intros i Hi. exists zero_netif. unfold tap_netif. assert (i = 0 \/ i = 1 \/ i = 2 \/ i = 3) as [-> | [-> | [-> | ->]]] by lia; done.
  - intros i Hi. cbn. split; [intros H; by apply elem_of_nil in H|lia].
  - intros n H; by apply elem_of_nil in H.
  - intros i t Ht. apply tap_at_range in Ht as [Hi Ht]. cbn in Ht.
    assert (i = 0 \/ i = 1 \/ i = 2 \/ i = 3) as [-> | [-> | [-> | ->]]] by lia; cbn in Ht; by injection Ht as <-.
Qed.

End life.
