(* ===== verification/XnetServiceClaims.v ===== *)
(** What [xnet_service.c] promises: the tap registry, its lifecycle and the
    state files.  First, the files: distinct objects have distinct paths, and what
    [cb_state_put] stores [cb_state_get] finds. *)
From S2P Require Import Prelude Bits Def IpAddr Pbuf PbufData NetifRec Netif NetifThm XnetTap XnetTapThm XnetService XnetServiceThm XnetLife.

(** ** Hexadecimal names *)
Lemma hex_fixed_length k n : length (hex_fixed k n) = k.
Proof. revert n; induction k as [|k IH]; intros n; cbn; [done|]. rewrite length_app, IH. cbn. lia. Qed.

Lemma hex_digit_inj a b : 0 <= a < 16 -> 0 <= b < 16 -> hex_digit a = hex_digit b -> a = b.
Proof. unfold hex_digit. intros. destruct (Z.ltb_spec a 10), (Z.ltb_spec b 10); lia. Qed.

Lemma hex_fixed_inj k : forall n m, 0 <= n < 16 ^ Z.of_nat k -> 0 <= m < 16 ^ Z.of_nat k ->
  hex_fixed k n = hex_fixed k m -> n = m.
Proof.
  induction k as [|k IH]; intros n m Hn Hm E; [cbn in *; lia|]. cbn [hex_fixed] in E.
  apply app_inj_tail in E as [E1 E2]. rewrite Nat2Z.inj_succ, Z.pow_succ_r in * by lia.
  apply hex_digit_inj in E2; [|apply Z.mod_pos_bound; lia..].
  apply IH in E1; [|split; [apply Z.div_pos; lia|apply Z.div_lt_upper_bound; lia]..].
  rewrite (Z.div_mod n 16), (Z.div_mod m 16) by lia. by rewrite E1, E2.
Qed.

Lemma hex_len_bound k : forall n, 0 <= n < 16 ^ (Z.of_nat k + 1) -> n < 16 ^ Z.of_nat (hex_len k n).
Proof.
  induction k as [|k IH]; intros n Hn; cbn [hex_len]; [cbn in *; lia|].
  destruct (Z.ltb_spec n 16); [cbn; lia|]. rewrite Nat2Z.inj_succ, Z.pow_succ_r by lia.
  assert (n / 16 < 16 ^ Z.of_nat (hex_len k (n / 16))).
  { apply IH. split; [apply Z.div_pos; lia|]. apply Z.div_lt_upper_bound; [lia|].
    replace (Z.of_nat (S k) + 1) with (Z.succ (Z.of_nat k + 1)) in Hn by lia. rewrite Z.pow_succ_r in Hn by lia. lia. }
  pose proof (Z.div_mod n 16 ltac:(lia)). pose proof (Z.mod_pos_bound n 16 ltac:(lia)). lia.
Qed.

Lemma hex_len_max k : forall n, (hex_len k n <= S k)%nat.
Proof. induction k as [|k IH]; intros n; cbn; [lia|]. case_match; [lia|]. specialize (IH (n / 16)). lia. Qed.

Lemma fmt_llx_inj w n m : 0 <= n < 2 ^ 64 -> 0 <= m < 2 ^ 64 -> fmt_llx w n = fmt_llx w m -> n = m.
Proof.
  intros Hn Hm E. unfold fmt_llx in E. set (k := (w `max` hex_len 16 n)%nat) in E. set (j := (w `max` hex_len 16 m)%nat) in E.
  assert (k = j) as Ek by (apply (f_equal length) in E; by rewrite !hex_fixed_length in E). rewrite <- Ek in E.
  assert (H : forall a, 0 <= a < 2 ^ 64 -> (hex_len 16 a <= k)%nat -> 0 <= a < 16 ^ Z.of_nat k).
  { intros a Ha Hk. split; [lia|]. eapply Z.lt_le_trans; [apply (hex_len_bound 16)|apply Z.pow_le_mono_r; lia].
    split; [lia|]. eapply Z.lt_le_trans; [apply Ha|]. by vm_compute. }
  apply (hex_fixed_inj k); [apply H; [done|lia]..|done].
Qed.

Lemma fmt_llx_length w n : (length (fmt_llx w n) <= w `max` 17)%nat.
Proof. unfold fmt_llx. rewrite hex_fixed_length. pose proof (hex_len_max 16 n). lia. Qed.

(** ** Paths *)

(** Whether two descriptions name the same object: the id counts only for
    networks and peers. *)
Definition same_object (ty ty' : ZT_StateObjectType) (id id' : Z) : Prop :=
  ty = ty' /\ (ty = ZT_STATE_OBJECT_NETWORK_CONFIG \/ ty = ZT_STATE_OBJECT_PEER -> id = id').

(** The part of a path below the home directory. *)
Definition tail_of (type : ZT_StateObjectType) (id0 : Z) : list Z :=
  match type with
  | ZT_STATE_OBJECT_IDENTITY_PUBLIC => S_identity_public
  | ZT_STATE_OBJECT_IDENTITY_SECRET => S_identity_secret
  | ZT_STATE_OBJECT_PLANET => S_planet
  | ZT_STATE_OBJECT_NETWORK_CONFIG => S_networks_d ++ [47] ++ fmt_llx 16 id0 ++ S_conf
  | ZT_STATE_OBJECT_PEER => S_peers_d ++ [47] ++ fmt_llx 10 id0 ++ S_peer
  | ZT_STATE_OBJECT_other => []
  end.

Lemma tail_of_length type id0 : (length (tail_of type id0) <= 40)%nat.
Proof.
  destruct type; cbn [tail_of]; rewrite ?length_app; cbn; try lia.
  - pose proof (fmt_llx_length 16 id0). lia.
  - pose proof (fmt_llx_length 10 id0). lia.
Qed.

(** No path of a home directory that [xnet_start] can set is truncated. *)
Lemma state_path_eq home type id0 :
  zlen home <= 255 -> type <> ZT_STATE_OBJECT_other -> make_state_path home 512 type id0 = home ++ tail_of type id0.
Proof.
  intros Hh Ho. assert (H : snprintf 512 (home ++ tail_of type id0) = home ++ tail_of type id0).
  { apply ztake_ge. pose proof (tail_of_length type id0). unfold zlen in *. rewrite length_app. lia. }
  destruct type; try done; exact H.
Qed.

Lemma tail_of_inj ty ty' id id' :
  0 <= id < 2 ^ 64 -> 0 <= id' < 2 ^ 64 -> tail_of ty id = tail_of ty' id' -> same_object ty ty' id id'.
Proof.
  intros Hi Hi' E. destruct ty, ty'; cbn in E; try discriminate E; (split; [done|]); try (intros [?|?]; discriminate); intros _.
  - injection E as E. apply app_inv_tail in E. by eapply fmt_llx_inj.
  - injection E as E. apply app_inv_tail in E. by eapply fmt_llx_inj.
Qed.

Lemma tail_of_mars ty id : tail_of ty id <> S_mars.
Proof. by destruct ty. Qed.

Lemma mars_path_eq home : zlen home <= 255 -> snprintf 512 (home ++ S_mars) = home ++ S_mars.
Proof. intros. apply ztake_ge. unfold zlen in *. rewrite length_app. cbn. lia. Qed.

Lemma app_not_nil (home : list Z) ty id : ty <> ZT_STATE_OBJECT_other -> home ++ tail_of ty id <> [].
Proof. intros Hty E. apply app_eq_nil in E as [_ E]. by destruct ty. Qed.

(** ** Reading back *)
Section files.
  Context (can_write : list Z -> bool).

Lemma state_put_eq home ty id data fs :
  zlen home <= 255 -> ty <> ZT_STATE_OBJECT_other -> can_write (home ++ tail_of ty id) = true ->
  (cb_state_put can_write home ty id data fs).2 = <[home ++ tail_of ty id := data]> fs.
Proof.
  intros Hh Ho Hw. unfold cb_state_put. rewrite state_path_eq by done.
  destruct (home ++ tail_of ty id) as [|c r] eqn:E; [by apply app_not_nil in E|]. cbn. by rewrite Hw.
Qed.

(** A read sees only the path of its object and, for the planet, the override. *)
Lemma state_get_frame home ty id maxlen fs fs' :
  zlen home <= 255 -> (ty <> ZT_STATE_OBJECT_other -> fs' !! (home ++ tail_of ty id) = fs !! (home ++ tail_of ty id)) ->
  (ty = ZT_STATE_OBJECT_PLANET -> fs' !! (home ++ S_mars) = fs !! (home ++ S_mars)) ->
  cb_state_get home ty id maxlen fs' = cb_state_get home ty id maxlen fs.
Proof.
  intros Hh E1 E2. destruct (decide (ty = ZT_STATE_OBJECT_other)) as [->|Ho]; [done|].
  unfold cb_state_get, read_file. rewrite state_path_eq, mars_path_eq by done. rewrite E1 by done.
  case_decide; [by rewrite E2|done].
Qed.

End files.

(** ** Examples *)
Definition ex_heap0 : heap := Heap ∅ 1%positive [] false [].
Definition ex_nofree (_ : addr) (_ : heap) : option heap := None.
Definition ex_noinput (_ : addr) (_ : Z) (h : heap) : option (Z * heap) := Some (ERR_OK, h).

(** A configuration with one IPv4 address, 10.0.0.[n]. *)
Definition ex_cfg (n : Z) : ZT_VirtualNetworkConfig :=
  VNetConfig 0x020000000001 1400 [sockaddr_in (IP4_ADDR 10 0 0 n)] ZT_NETWORK_STATUS_OK.

(** The service just started, its node created. *)
Definition ex_started : option xstate :=
  '(_, x) ← xnet_start (Some [47; 115]) true 0 true (x_init ex_heap0);
  Some (svc_thread_start true (3, 0) (4, 0) x).

(** Then the networks [ids] are brought up. *)
Fixpoint ex_ups (ids : list Z) (x : xstate) : option xstate :=
  match ids with
  | [] => Some x
  | n :: ids => '(_, x) ← cb_vnet_config 0 n OPERATION_UP (Some (ex_cfg n)) x; ex_ups ids x
  end.

Lemma ex_ups_reach ids : forall x y, ex_ups ids x = Some y -> g_node x = true ->
  rtc (xstep ex_nofree ex_noinput true) x y.
Proof.
  induction ids as [|n ids IH]; intros x y H Hn; cbn [ex_ups] in H; [by injection H as <-|].
  destruct (cb_vnet_config _ _ _ _ x) as [[r w]|] eqn:E; [|done]. cbn [mbind option_bind] in H.
  eapply rtc_l; [eapply step_config; [| |exact E]; done|]. apply IH; [done|].
  apply flags_config in E as (_ & _ & _ & ->). done.
Qed.

Lemma ex_up_ok ids x y : ex_started = Some x -> ex_ups ids x = Some y ->
  rtc (xstep ex_nofree ex_noinput true) (x_init ex_heap0) y.
Proof.
  intros Hs Hu. unfold ex_started in Hs. destruct (xnet_start _ _ _ _ _) as [[r w]|] eqn:E; [|done].
  cbn [mbind option_bind] in Hs. injection Hs as <-.
  assert (Hw : g_node w = false /\ g_running w = true) by (by vm_compute in E; injection E as <- <-).
  eapply rtc_l; [by eapply step_start|]. eapply rtc_l; [apply step_thread; apply Hw|]. by eapply ex_ups_reach.
Qed.

(** Two networks up, 5 and 6, in slots 0 and 1. *)
Definition ex_two : option xstate := x ← ex_started; ex_ups [5; 6] x.

Lemma ex_two_consistent : exists x l, ex_two = Some x /\ consistent x l.
Proof.
  destruct ex_two as [x|] eqn:E; [|by vm_compute in E]. exists x.
  unfold ex_two in E. destruct ex_started as [w|] eqn:Ew; [|done]. cbn [mbind option_bind] in E.
  destruct (init_ok ex_heap0) as [H1 H2].
  destruct (reach_service_ok _ _ _ _ (ex_up_ok _ _ _ Ew E) H1 H2) as (l & Hc & _). by exists l.
Qed.

(** ** The registry *)

(** C1. Bringing a network up (or updating it) is an insertion into the map
    from networks to taps: the network gets a slot if it has none and one of
    the four is free, its MAC and MTU are set, and of the first four assigned
    addresses the first IPv4 one (which brings the interface up) and the first
    IPv6 one are kept; with all slots taken nothing changes.  The registry and
    lwIP's interface list stay consistent. *)
Theorem vnet_up_refines z x l id op c :
  consistent x l -> is_up op = true ->
  exists x' l', cb_vnet_config z id op (Some c) x = Some (0, x') /\ consistent x' l' /\
    registry x' =
      if has_room id x
      then <[id := foldl assigned (set_mac_mtu (cfg_mac c) (cfg_mtu c) (default (set_nwid id zero_tap) (registry x !! id)))
                     (ztake MAX_TAP_ADDRS (cfg_assignedAddresses c))]> (registry x)
      else registry x.
Proof. apply vnet_up_ok. Qed.

Lemma vnet_up_refines_witness :
  exists x x' l', ex_two = Some x /\ cb_vnet_config 0 7 OPERATION_UP (Some (ex_cfg 7)) x = Some (0, x') /\
    consistent x' l' /\ (has_ip4 <$> registry x' !! 7) = Some true.
Proof.
  destruct ex_two_consistent as (x & l & E & Hc).
  destruct (vnet_up_refines 0 x l 7 OPERATION_UP (ex_cfg 7) Hc eq_refl) as (x' & l' & Eu & Hc' & Hr).
  exists x, x', l'. split; [exact E|]. split; [exact Eu|]. split; [exact Hc'|]. rewrite Hr.
  assert (Hroom : has_room 7 x = true /\ registry x !! 7 = None) by (vm_compute in E; injection E as <-; split; reflexivity).
  destruct Hroom as [-> ->]. rewrite lookup_insert_eq. reflexivity.
Defined.

(** C2. Taking a network down (or destroying it) deletes it from the map, and
    leaves the other networks' taps as they were; lwIP's list stays consistent
    with the registry when the network has the last slot or the last slot's
    interface is not up. *)
Theorem vnet_down_refines z x l id op c :
  consistent x l -> is_down op = true ->
  exists x', cb_vnet_config z id op c x = Some (0, x') /\ registry x' = delete id (registry x) /\
    (safe_down id x -> exists l', consistent x' l').
Proof. apply vnet_down_ok. Qed.

Lemma vnet_down_refines_witness :
  exists x x' l', ex_two = Some x /\ cb_vnet_config 0 6 OPERATION_DOWN None x = Some (0, x') /\
    registry x' !! 6 = None /\ consistent x' l'.
Proof.
  destruct ex_two_consistent as (x & l & E & Hc).
  destruct (vnet_down_refines 0 x l 6 OPERATION_DOWN None Hc eq_refl) as (x' & Eu & Hr & Hs).
  destruct Hs as [l' Hc']; [vm_compute in E; injection E as <-; left; reflexivity|].
  exists x, x', l'. split; [exact E|]. split; [exact Eu|]. rewrite Hr. split; [apply lookup_delete_eq|exact Hc'].
Defined.

(** C4. In the remaining case, a slot before that of a network that is up, the
    struct copy leaves lwIP with a pointer into a slot that is no longer in
    use: the moved network's tap is found in a slot whose interface lwIP does
    not list, and the next new network with an IPv4 address is given the slot
    lwIP still lists, so that [netif_add] never returns. *)
Theorem vnet_down_dangling z x l id op c idx tl :
  consistent x l -> is_down op = true -> tap_find id x = Some idx -> idx < g_tap_count x - 1 ->
  tap_at x (g_tap_count x - 1) = Some tl -> netif_up tl = true ->
  exists x' l', cb_vnet_config z id op c x = Some (0, x') /\
    nlist (x_net x') (netif_list (x_net x')) l' /\ tap_netif (g_tap_count x') ∈ l' /\
    tap_find (nwid tl) x' = Some idx /\ (tap_netif idx ∉ l') /\
    (forall id' op' c' a sas, tap_find id' x' = None -> is_up op' = true ->
       cfg_assignedAddresses c' = sockaddr_in a :: sas -> cb_vnet_config z id' op' (Some c') x' = None).
Proof.
  intros Hc Hop Hf Hlt Ht Hup. pose proof (tc_count _ _ Hc).
  destruct (tap_find_Some x id idx Hf) as [Hi _]; [lia|].
  destruct (vnet_down_dangles z x l id op c idx tl Hc Hop Hf Hlt Ht Hup)
    as (x' & l' & E & HL & HD & Ecnt & Hin & Hft & _ & Hnin & Hlen).
  exists x', l'. split_and!; try done. intros id' op' c' a sas Hf' Hop' Ha.
  eapply vnet_up_dangling; try done. lia.
Qed.

Lemma vnet_down_dangling_witness :
  exists x x', ex_two = Some x /\ cb_vnet_config 0 5 OPERATION_DOWN None x = Some (0, x') /\
    tap_find 6 x' = Some 0 /\ cb_vnet_config 0 7 OPERATION_UP (Some (ex_cfg 7)) x' = None.
Proof.
  destruct ex_two_consistent as (x & l & E & Hc).
  destruct (tap_at x (g_tap_count x - 1)) as [tl|] eqn:Ht; [|vm_compute in E; injection E as <-; discriminate Ht].
  assert (H : tap_find 5 x = Some 0 /\ 0 < g_tap_count x - 1 /\ netif_up tl = true /\ nwid tl = 6).
  { vm_compute in E; injection E as <-. vm_compute in Ht; injection Ht as <-. split_and!; reflexivity. }
  destruct H as (Hf & Hlt & Hup & Hnw).
  destruct (vnet_down_dangling 0 x l 5 OPERATION_DOWN None 0 tl Hc eq_refl Hf Hlt Ht Hup)
    as (x' & l' & Eu & _ & _ & Hft & _ & Hbad).
  exists x, x'. split; [exact E|]. split; [exact Eu|]. split; [rewrite <- Hnw; exact Hft|].
  apply (Hbad 7 OPERATION_UP (ex_cfg 7) (IP4_ADDR 10 0 0 7) []); [|reflexivity|reflexivity].
  vm_compute in E; injection E as <-. vm_compute in Eu; injection Eu as <-. reflexivity.
Defined.

(** The address queries read the map: [xnet_has_addr] answers whether the
    network is registered and has an address of the family (any family but
    AF_INET counting as IPv6), [xnet_get_addr] the address, with
    [XNET_ERR_GENERAL] for a network or address there is not and
    [XNET_ERR_ARG] for a NULL result pointer. *)
Theorem xnet_addr_queries x l id family addr :
  consistent x l ->
  xnet_has_addr id family x =
    Some (match registry x !! id with
          | Some t => if family =? AF_INET then has_ip4 t else has_ip6 t
          | None => false
          end) /\
  xnet_get_addr id family addr x =
    Some (if negb addr then (XNET_ERR_ARG, None)
          else match registry x !! id with
               | Some t =>
                   if (family =? AF_INET) && has_ip4 t then (XNET_OK, Some (sockaddr_in (tap_ip4_addr t)))
                   else if (family =? AF_INET6) && has_ip6 t then (XNET_OK, Some (sockaddr_in6 (tap_ip6_addr t)))
                   else (XNET_ERR_GENERAL, None)
               | None => (XNET_ERR_GENERAL, None)
               end).
Proof.
  intros Hc. pose proof (tc_nodup _ _ Hc) as Hn. pose proof (tc_count _ _ Hc) as Hcnt.
  unfold xnet_has_addr, xnet_get_addr. destruct (tap_find id x) as [i|] eqn:Hf.
  - destruct (tap_find_Some x id i Hf) as (_ & t & Ht & _); [lia|].
    rewrite Ht, (registry_find x id i t Hn (proj2 Hcnt) Hf Ht). cbn [mbind option_bind].
    split; [done|]. by repeat case_match.
  - rewrite (registry_find_None x id Hn Hf). split; [done|]. by destruct addr.
Qed.

Lemma xnet_addr_queries_witness :
  exists x, ex_two = Some x /\ xnet_has_addr 6 AF_INET x = Some true /\
    xnet_get_addr 6 AF_INET true x = Some (XNET_OK, Some (sockaddr_in (IP4_ADDR 10 0 0 6))) /\
    xnet_get_addr 9 AF_INET true x = Some (XNET_ERR_GENERAL, None).
Proof.
  destruct ex_two_consistent as (x & l & E & Hc). exists x. split; [exact E|].
  destruct (xnet_addr_queries x l 6 AF_INET true Hc) as [-> ->].
  destruct (xnet_addr_queries x l 9 AF_INET true Hc) as [_ ->].
  vm_compute in E; injection E as <-. split; [|split]; reflexivity.
Defined.

(** ** The lifecycle *)

(** C3. Whatever the environment does after the library is loaded, as long as
    networks are taken down only from the last slot or while the last slot's
    interface is not up, the registry has at most four networks, all different,
    and lwIP lists exactly the interfaces of those that are up (and its
    loopback interface). *)
Theorem service_consistent custom_free netif_input h x :
  rtc (xstep custom_free netif_input true) (x_init h) x ->
  exists l, consistent x l /\ (lwip_inited x = false -> l = []).
Proof.
  intros H. destruct (init_ok h) as [H1 H2].
  destruct (reach_service_ok custom_free netif_input _ _ H H1 H2) as (l & Hc & Hl). exists l. split; [done|].
  intros Hi. by destruct (Hl Hi).
Qed.

Lemma service_consistent_witness : exists x l, ex_two = Some x /\ consistent x l.
Proof.
  destruct ex_started as [w|] eqn:Ew; [|vm_compute in Ew; discriminate Ew].
  destruct (ex_ups [5; 6] w) as [x|] eqn:Ex; [|vm_compute in Ew; injection Ew as <-; vm_compute in Ex; discriminate Ex].
  destruct (service_consistent ex_nofree ex_noinput ex_heap0 x (ex_up_ok _ _ _ Ew Ex)) as (l & Hc & _).
  exists x, l. split; [|exact Hc]. unfold ex_two. rewrite Ew. exact Ex.
Defined.

(** [xnet_stop] of a running service always completes: it empties the
    registry, leaves only the loopback interface on lwIP's list, deletes the
    node and marks the stack down. *)
Theorem xnet_stop_spec late x l :
  consistent x l -> g_running x = true ->
  exists x' l', xnet_stop late x = Some (XNET_OK, x') /\ consistent x' l' /\
    registry x' = ∅ /\ Forall (fun m => m = loop_netif) l' /\ xnet_running x' = false /\ g_lwip_up x' = false.
Proof.
  intros Hc Hr. destruct (stop_ok late x l Hc Hr) as (x' & l' & E & Hc' & Hreg & Hl & _).
  pose proof (flags_stop late XNET_OK x x' E) as (_ & _ & H & _). destruct (H eq_refl) as [_ Hd].
  exists x', l'. split_and!; try done. unfold xnet_running. by rewrite Hd, andb_false_r.
Qed.

Lemma xnet_stop_spec_witness :
  exists x x' l', ex_two = Some x /\ xnet_stop (true, (0, 0), (0, 0)) x = Some (XNET_OK, x') /\ consistent x' l' /\ registry x' = ∅.
Proof.
  destruct ex_two_consistent as (x & l & E & Hc).
  destruct (xnet_stop_spec (true, (0, 0), (0, 0)) x l Hc) as (x' & l' & Es & Hc' & Hr & _).
  { vm_compute in E; injection E as <-; reflexivity. }
  exists x, x', l'. split; [exact E|]. split; [exact Es|]. split; [exact Hc'|exact Hr].
Defined.

(** The first start works: from the initial state a start with a path and a
    callback succeeds when the thread can be created, and once the node exists
    and is online the service reports that it is running. *)
Theorem first_start_ready h path port u4 u6 :
  exists x, xnet_start (Some path) true port true (x_init h) = Some (XNET_OK, x) /\
    xnet_running (cb_event ZT_EVENT_ONLINE (svc_thread_start true u4 u6 x)) = true.
Proof.
  unfold xnet_start. change (g_running (x_init h)) with false. cbn [negb]. set (y := out _ _).
  destruct (init_ok h) as [_ (l & Hc & Hl)].
  destruct (lwip_init_ok y l) as (x & l' & E & _ & _ & _); [by apply (consistent_same (x_init h))|done|].
  rewrite E; cbn [mbind option_bind]. exists x. split; [done|].
  assert (H : g_running x = true /\ g_lwip_up x = true).
  { unfold xnet_lwip_init in E. change (lwip_inited y) with false in E. cbn [negb] in E.
    destruct (netif_init (x_net y)) as [ns|]; [|done]. by injection E as <-. }
  destruct H as [H1 H2]. unfold svc_thread_start; cbn [negb]. destruct (bind_udp u4.1 u4.2) as [f4 e4], (bind_udp u6.1 u6.2) as [f6 e6].
  cbn [cb_event]. unfold xnet_running, callback. destruct (g_callback _); cbn; by rewrite H1, H2.
Qed.

(** A service that was stopped never becomes ready again, however it is
    restarted: [lwip_inited] is not reset, so the second [xnet_lwip_init] does
    nothing and [g_lwip_up] stays clear. *)
Theorem restart_never_ready custom_free netif_input strict h late x x1 x2 :
  rtc (xstep custom_free netif_input strict) (x_init h) x ->
  xnet_stop late x = Some (XNET_OK, x1) ->
  rtc (xstep custom_free netif_input strict) x1 x2 ->
  xnet_running x2 = false /\ g_lwip_up x2 = false.
Proof.
  intros H1 Hs H2. pose proof (flags_stop late XNET_OK x x1 Hs) as (Ei & _ & H & _). destruct (H eq_refl) as [Hr Hd].
  assert (Hi : lwip_inited x = true).
  { apply (reach_life_ok custom_free netif_input strict _ _ H1); [apply init_ok|by left]. }
  destruct (steps_stack_dead custom_free netif_input strict x1 x2 H2) as [_ Hd2]; [split; congruence|].
  split; [|done]. unfold xnet_running. by rewrite Hd2, andb_false_r.
Qed.

(** Started, stopped, started again, online. *)
Definition ex_restarted : option (xstate * xstate) :=
  x ← ex_started;
  '(_, x1) ← xnet_stop (true, (0, 0), (0, 0)) x;
  '(_, x2) ← xnet_start (Some [47; 115]) true 0 true x1;
  Some (x1, cb_event ZT_EVENT_ONLINE (svc_thread_start true (3, 0) (4, 0) x2)).

Lemma restart_never_ready_witness :
  exists x1 x2, ex_restarted = Some (x1, x2) /\ g_running x2 = true /\ g_node_online x2 = true /\ xnet_running x2 = false.
Proof.
  destruct ex_started as [x|] eqn:Ex; [|vm_compute in Ex; discriminate Ex].
  destruct (xnet_stop (true, (0, 0), (0, 0)) x) as [[r x1]|] eqn:E1; [|vm_compute in Ex; injection Ex as <-; vm_compute in E1; discriminate E1].
  destruct (xnet_start (Some [47; 115]) true 0 true x1) as [[r2 x2]|] eqn:E2;
    [|vm_compute in Ex; injection Ex as <-; vm_compute in E1; injection E1 as <- <-; vm_compute in E2; discriminate E2].
  set (y := cb_event ZT_EVENT_ONLINE (svc_thread_start true (3, 0) (4, 0) x2)).
  exists x1, y. split; [unfold ex_restarted; rewrite Ex; cbn [mbind option_bind]; rewrite E1; cbn [mbind option_bind]; rewrite E2; reflexivity|].
  pose proof (ex_up_ok [] x x Ex eq_refl) as Hreach.
  assert (r = XNET_OK) as -> by (vm_compute in Ex; injection Ex as <-; vm_compute in E1; injection E1 as <- _; reflexivity).
  assert (Hx2 : g_running x2 = true /\ g_node x2 = false).
  { vm_compute in Ex; injection Ex as <-; vm_compute in E1; injection E1 as <-; vm_compute in E2; injection E2 as _ <-. split; reflexivity. }
  assert (Hy : g_running y = true /\ g_node_online y = true).
  { vm_compute in Ex; injection Ex as <-; vm_compute in E1; injection E1 as <-; vm_compute in E2; injection E2 as _ <-. split; reflexivity. }
  destruct Hy as [Hy1 Hy2]. split; [exact Hy1|]. split; [exact Hy2|].
  apply (restart_never_ready ex_nofree ex_noinput true ex_heap0 _ x x1 y Hreach E1).
  eapply rtc_l; [eapply step_start; exact E2|]. eapply rtc_l; [apply (step_thread _ _ _ true (3, 0) (4, 0)); apply Hx2|].
  eapply rtc_l; [apply (step_event _ _ _ ZT_EVENT_ONLINE)|apply rtc_refl].
  destruct Hx2 as [Hr2 Hn2]. reflexivity.
Defined.

(** ** State files *)

(** C36. What [cb_state_put] stores, [cb_state_get] finds: after a put that can
    open its file, a get of the same object returns the stored bytes (as long
    as they are some, fit the caller's buffer, and no [mars] file overrides the
    planet), and a get of any other object returns what it returned before. *)
Theorem state_put_get can_write home ty id data fs maxlen ty' id' :
  zlen home <= 255 -> 0 <= id < 2 ^ 64 -> 0 <= id' < 2 ^ 64 -> ty <> ZT_STATE_OBJECT_other ->
  can_write (make_state_path home 512 ty id) = true -> 0 < zlen data <= maxlen ->
  (ty = ZT_STATE_OBJECT_PLANET -> fs !! (home ++ S_mars) = None) ->
  let fs' := (cb_state_put can_write home ty id data fs).2 in
  cb_state_get home ty id maxlen fs' = (zlen data, data) /\
  (~ same_object ty ty' id id' -> cb_state_get home ty' id' maxlen fs' = cb_state_get home ty' id' maxlen fs).
Proof.
  intros Hh Hi Hi' Ho Hw Hd Hm. cbv zeta. rewrite state_path_eq in Hw by done.
  rewrite (state_put_eq can_write home ty id data fs Hh Ho Hw).
  assert (Hmars : forall v, <[home ++ tail_of ty id := v]> fs !! (home ++ S_mars) = fs !! (home ++ S_mars)).
  { intros v. apply lookup_insert_ne. intros E%app_inv_head. by apply (tail_of_mars ty id). }
  split.
  - unfold cb_state_get, read_file. rewrite state_path_eq, mars_path_eq by done.
    destruct (home ++ tail_of ty id) as [|c r] eqn:E; [by apply app_not_nil in E|]. rewrite <- E in *.
    rewrite lookup_insert_eq; cbn [fmap option_fmap option_map]. rewrite ztake_ge by lia.
    destruct (Z.ltb_spec 0 (zlen data)); [|lia]. case_decide as Ep; [|done]. rewrite Hmars, Hm by done. done.
  - intros Hno. apply state_get_frame; [done| |intros _; apply Hmars].
    intros _. apply lookup_insert_ne. intros E%app_inv_head. by apply Hno, tail_of_inj.
Qed.

Lemma state_put_get_witness :
  cb_state_get [47; 115] ZT_STATE_OBJECT_PEER 7 100
    (cb_state_put (fun _ => true) [47; 115] ZT_STATE_OBJECT_PEER 7 [1; 2; 3] ∅).2 = (3, [1; 2; 3]).
Proof.
  apply (state_put_get (fun _ => true) [47; 115] ZT_STATE_OBJECT_PEER 7 [1; 2; 3] ∅ 100 ZT_STATE_OBJECT_PEER 8);
    try (vm_compute; intuition congruence); discriminate.
Defined.
