(* ===== verification/XnetSocket.v ===== *)
(** [xnet_socket.c]: the BSD socket calls of the library, which gate and
    translate lwIP's, and [lwip_fcntl] of [sockets.c] behind [xnet_fcntl].
    At the end, what the wrappers promise. *)
From S2P Require Import Prelude Bits XnetTap XnetService XnetLife.
From S2P Require Import Prelude Bits Pbuf XnetTap XnetService XnetServiceThm XnetLife XnetServiceClaims.

(** ** lwIP's socket layer

    The calls as the wrappers see them, over the state [S] of the socket layer.
    A pointer argument is [None] when it is NULL (for a pair of an output buffer
    and its length, what is there is the length); results are the return value,
    what is stored through the pointers, and the state. *)
Record lwip_sockets (S : Type) := LwipSockets {
  lwip_socket : Z -> Z -> Z -> S -> Z * S;
  lwip_connect : Z -> list Z -> Z -> S -> Z * S;
  lwip_bind : Z -> list Z -> Z -> S -> Z * S;
  lwip_listen : Z -> Z -> S -> Z * S;
  lwip_accept : Z -> option Z -> S -> Z * list Z * S;
  lwip_send : Z -> list Z -> Z -> Z -> S -> Z * S;
  lwip_sendto : Z -> list Z -> Z -> Z -> option (list Z) -> Z -> S -> Z * S;
  lwip_recv : Z -> Z -> Z -> S -> Z * list Z * S;
  lwip_recvfrom : Z -> Z -> Z -> option Z -> S -> Z * (list Z * list Z) * S;
  lwip_close : Z -> S -> Z * S;
  lwip_setsockopt : Z -> Z -> Z -> option (list Z) -> Z -> S -> Z * S;
  lwip_getsockopt : Z -> Z -> Z -> option Z -> S -> Z * list Z * S;
  lwip_shutdown : Z -> Z -> S -> Z * S;
  lwip_fcntl_op : Z -> Z -> Z -> S -> Z * S;
}.

Arguments lwip_socket {S}.
Arguments lwip_connect {S}.
Arguments lwip_bind {S}.
Arguments lwip_listen {S}.
Arguments lwip_accept {S}.
Arguments lwip_send {S}.
Arguments lwip_sendto {S}.
Arguments lwip_recv {S}.
Arguments lwip_recvfrom {S}.
Arguments lwip_close {S}.
Arguments lwip_setsockopt {S}.
Arguments lwip_getsockopt {S}.
Arguments lwip_shutdown {S}.
Arguments lwip_fcntl_op {S}.

Definition F_GETFL : Z := 3.
Definition F_SETFL : Z := 4.

(** The condition of [READY_CHECK()]. *)
Definition READY_CHECK (x : xstate) : bool := g_running x && g_lwip_up x.

Section wrappers.
  Context {S : Type} (lw : lwip_sockets S) (x : xstate).

(** The early return of [READY_CHECK()] in front of a call. *)
Definition gate (call : S -> Z * S) (s : S) : Z * S :=
  if negb (READY_CHECK x) then (XNET_ERR_SERVICE, s) else call s.

(** The same for a call with outputs. *)
Definition gate_out {O} `{!Inhabited O} (call : S -> Z * O * S) (s : S) : Z * O * S :=
  if negb (READY_CHECK x) then (XNET_ERR_SERVICE, inhabitant, s) else call s.

Definition xnet_socket (domain type protocol : Z) : S -> Z * S := gate (lwip_socket lw domain type protocol).

Definition xnet_connect (fd : Z) (addr : option (list Z)) (len : Z) : S -> Z * S :=
  gate (fun s => match addr with None => (XNET_ERR_ARG, s) | Some a => lwip_connect lw fd a len s end).

Definition xnet_bind (fd : Z) (addr : option (list Z)) (len : Z) : S -> Z * S :=
  gate (fun s => match addr with None => (XNET_ERR_ARG, s) | Some a => lwip_bind lw fd a len s end).

Definition xnet_listen (fd backlog : Z) : S -> Z * S := gate (lwip_listen lw fd backlog).

Definition xnet_accept (fd : Z) (len : option Z) : S -> Z * list Z * S := gate_out (lwip_accept lw fd len).

Definition xnet_send (fd : Z) (buf : option (list Z)) (len flags : Z) : S -> Z * S :=
  gate (fun s => match buf with
                 | None => (XNET_ERR_ARG, s)
                 | Some b => if len =? 0 then (XNET_ERR_ARG, s) else lwip_send lw fd b len flags s
                 end).

Definition xnet_sendto (fd : Z) (buf : option (list Z)) (len flags : Z) (addr : option (list Z)) (addrlen : Z)
    : S -> Z * S :=
  gate (fun s => match buf with
                 | None => (XNET_ERR_ARG, s)
                 | Some b => if len =? 0 then (XNET_ERR_ARG, s) else lwip_sendto lw fd b len flags addr addrlen s
                 end).

(** [buf] tells whether the buffer pointer is not NULL. *)
Definition xnet_recv (fd : Z) (buf : bool) (len flags : Z) : S -> Z * list Z * S :=
  gate_out (fun s => if negb buf then (XNET_ERR_ARG, [], s) else lwip_recv lw fd len flags s).

Definition xnet_recvfrom (fd : Z) (buf : bool) (len flags : Z) (addrlen : option Z) : S -> Z * (list Z * list Z) * S :=
  gate_out (fun s => if negb buf then (XNET_ERR_ARG, ([], []), s) else lwip_recvfrom lw fd len flags addrlen s).

Definition xnet_close (fd : Z) : S -> Z * S := lwip_close lw fd.

Definition xnet_setsockopt (fd level optname : Z) (optval : option (list Z)) (optlen : Z) : S -> Z * S :=
  gate (lwip_setsockopt lw fd level optname optval optlen).

Definition xnet_getsockopt (fd level optname : Z) (optlen : option Z) : S -> Z * list Z * S :=
  gate_out (lwip_getsockopt lw fd level optname optlen).

Definition xnet_shutdown (fd how : Z) : S -> Z * S := lwip_shutdown lw fd how.

Definition xnet_fcntl (fd cmd flags : Z) : S -> Z * S :=
  gate (fun s =>
    let flags := if (cmd =? F_SETFL) && negb (flags .& 2048 =? 0) then Z.land flags (Z.lnot 2048) .| 1 else flags in
    lwip_fcntl_op lw fd cmd flags s).

End wrappers.

(** ** [lwip_fcntl]

    The part of [struct netconn] it uses: the flags, the type and the flags of
    the TCP control block, if there is one. *)
Record netconn := Netconn {
  nc_flags : Z;
  nc_type : Z;
  nc_tcp : option Z;
}.

Definition O_NONBLOCK : Z := 1.
Definition O_RDONLY : Z := 2.
Definition O_WRONLY : Z := 4.
Definition O_RDWR : Z := O_RDONLY .| O_WRONLY.
Definition NETCONN_FLAG_NON_BLOCKING : Z := 0x02.
Definition NETCONN_TCP : Z := 0x10.
Definition NETCONNTYPE_GROUP (t : Z) : Z := t .& 0xF0.
Definition TF_RXCLOSED : Z := 0x10.
Definition TF_FIN : Z := 0x20.

Definition netconn_is_nonblocking (c : netconn) : bool := negb (nc_flags c .& NETCONN_FLAG_NON_BLOCKING =? 0).

Definition netconn_set_nonblocking (val : Z) (c : netconn) : netconn :=
  let flags := if negb (val =? 0) then u8 (nc_flags c .| NETCONN_FLAG_NON_BLOCKING)
               else u8 (nc_flags c .& u8 (Z.land (Z.lnot NETCONN_FLAG_NON_BLOCKING) 0xff)) in
  Netconn flags (nc_type c) (nc_tcp c).

(** The socket table by descriptor; [get_socket] fails for one that is not open. *)
Definition lwip_fcntl (s cmd val : Z) (socks : gmap Z netconn) : Z * gmap Z netconn :=
  match socks !! s with
  | None => (-1, socks)
  | Some conn =>
      if cmd =? F_GETFL then
        let ret := if netconn_is_nonblocking conn then O_NONBLOCK else 0 in
        let op_mode :=
          if NETCONNTYPE_GROUP (nc_type conn) =? NETCONN_TCP then
            match nc_tcp conn with
            | Some f => (if f .& TF_RXCLOSED =? 0 then O_RDONLY else 0) .| (if f .& TF_FIN =? 0 then O_WRONLY else 0)
            | None => 0
            end
          else O_RDWR in
        (ret .| (if op_mode =? (O_RDONLY .| O_WRONLY) then O_RDWR else op_mode), socks)
      else if cmd =? F_SETFL then
        let val := Z.land val (Z.lnot (O_RDONLY .| O_WRONLY .| O_RDWR)) in
        if Z.land val (Z.lnot O_NONBLOCK) =? 0
        then (0, <[s := netconn_set_nonblocking (val .& O_NONBLOCK) conn]> socks)
        else (-1, socks)
      else (-1, socks)
  end.

(** A socket layer without sockets but for [fcntl]. *)
Definition ex_lw : lwip_sockets (gmap Z netconn) :=
  LwipSockets _ (fun _ _ _ s => (-1, s)) (fun _ _ _ s => (-1, s)) (fun _ _ _ s => (-1, s)) (fun _ _ s => (-1, s))
    (fun _ _ s => (-1, [], s)) (fun _ _ _ _ s => (-1, s)) (fun _ _ _ _ _ _ s => (-1, s)) (fun _ _ _ s => (-1, [], s))
    (fun _ _ _ _ s => (-1, ([], []), s)) (fun _ s => (-1, s)) (fun _ _ _ _ _ s => (-1, s))
    (fun _ _ _ _ s => (-1, [], s)) (fun _ _ s => (-1, s)) lwip_fcntl.

Definition ex_ready : xstate := set_lwip_up true (set_running true (x_init ex_heap0)).

(** C37. After the service was stopped, whatever happens next (a restart included), every
    socket call that checks whether the service is ready is refused: it answers
    [XNET_ERR_SERVICE] and leaves the socket layer as it is.  [xnet_close] and
    [xnet_shutdown] have no such check: they still reach lwIP, so that sockets
    that are open can be closed. *)
Theorem sockets_dead_after_stop {S} (lw : lwip_sockets S) custom_free netif_input strict h late x x1 x2 s :
  rtc (xstep custom_free netif_input strict) (x_init h) x ->
  xnet_stop late x = Some (XNET_OK, x1) ->
  rtc (xstep custom_free netif_input strict) x1 x2 ->
  (forall d t p, xnet_socket lw x2 d t p s = (XNET_ERR_SERVICE, s)) /\
  (forall fd a n, xnet_connect lw x2 fd a n s = (XNET_ERR_SERVICE, s) /\ xnet_bind lw x2 fd a n s = (XNET_ERR_SERVICE, s)) /\
  (forall fd b, xnet_listen lw x2 fd b s = (XNET_ERR_SERVICE, s)) /\
  (forall fd a, xnet_accept lw x2 fd a s = (XNET_ERR_SERVICE, [], s)) /\
  (forall fd b n f, xnet_send lw x2 fd b n f s = (XNET_ERR_SERVICE, s)) /\
  (forall fd b n f a al, xnet_sendto lw x2 fd b n f a al s = (XNET_ERR_SERVICE, s)) /\
  (forall fd b n f, xnet_recv lw x2 fd b n f s = (XNET_ERR_SERVICE, [], s)) /\
  (forall fd b n f al, xnet_recvfrom lw x2 fd b n f al s = (XNET_ERR_SERVICE, ([], []), s)) /\
  (forall fd l o v n, xnet_setsockopt lw x2 fd l o v n s = (XNET_ERR_SERVICE, s)) /\
  (forall fd l o n, xnet_getsockopt lw x2 fd l o n s = (XNET_ERR_SERVICE, [], s)) /\
  (forall fd c f, xnet_fcntl lw x2 fd c f s = (XNET_ERR_SERVICE, s)) /\
  (forall fd how, xnet_close lw fd s = lwip_close lw fd s /\ xnet_shutdown lw fd how s = lwip_shutdown lw fd how s).
Proof.
  intros H1 Hs H2. pose proof (flags_stop late XNET_OK x x1 Hs) as (Ei & _ & H & _). destruct (H eq_refl) as [Hr Hd].
  assert (Hi : lwip_inited x = true).
  { apply (reach_life_ok custom_free netif_input strict _ _ H1); [apply init_ok|by left]. }
  destruct (steps_stack_dead custom_free netif_input strict x1 x2 H2) as [_ Hd2]; [split; congruence|].
  assert (Hg : READY_CHECK x2 = false) by (unfold READY_CHECK; by rewrite Hd2, andb_false_r).
  split_and!; intros; try split; unfold xnet_socket, xnet_connect, xnet_bind, xnet_listen, xnet_accept, xnet_send, xnet_sendto,
    xnet_recv, xnet_recvfrom, xnet_setsockopt, xnet_getsockopt, xnet_fcntl, gate, gate_out; by rewrite ?Hg.
Qed.

Lemma sockets_dead_after_stop_witness :
  exists x x1, ex_started = Some x /\ xnet_stop (true, (0, 0), (0, 0)) x = Some (XNET_OK, x1) /\
    xnet_socket ex_lw x1 2 1 0 ∅ = (XNET_ERR_SERVICE, ∅).
Proof.
  destruct ex_started as [x|] eqn:Ex; [|vm_compute in Ex; discriminate Ex].
  destruct (xnet_stop (true, (0, 0), (0, 0)) x) as [[r x1]|] eqn:E1; [|vm_compute in Ex; injection Ex as <-; vm_compute in E1; discriminate E1].
  assert (r = XNET_OK) as -> by (vm_compute in Ex; injection Ex as <-; vm_compute in E1; injection E1 as <- _; reflexivity).
  exists x, x1. split; [reflexivity|]. split; [exact E1|].
  apply (sockets_dead_after_stop ex_lw ex_nofree ex_noinput true ex_heap0 _ x x1 x1 ∅ (ex_up_ok [] x x Ex eq_refl) E1).
  apply rtc_refl.
Defined.

Lemma nonblocking_set c v : 0 <= nc_flags c < 256 -> v <> 0 -> netconn_is_nonblocking (netconn_set_nonblocking v c) = true.
Proof.
  intros Hf Hv. unfold netconn_is_nonblocking, netconn_set_nonblocking; cbn [nc_flags].
  destruct (Z.eqb_spec v 0); [done|]; cbn [negb]. apply negb_true_iff, Z.eqb_neq. intros E.
  apply (f_equal (fun z => Z.testbit z 1)) in E. rewrite Z.land_spec, Z.bits_0 in E.
  unfold u8 in E. change 256 with (2 ^ 8) in E. rewrite Z.mod_pow2_bits_low, Z.lor_spec in E by lia.
  change (Z.testbit NETCONN_FLAG_NON_BLOCKING 1) with true in E. by rewrite orb_true_r in E.
Qed.

(** Setting the platform's [O_NONBLOCK] through [xnet_fcntl] makes the lwIP
    socket non-blocking, whatever access mode bits of lwIP come with it. *)
Theorem fcntl_sets_nonblock (lw : lwip_sockets (gmap Z netconn)) x fd c mode socks :
  lwip_fcntl_op lw = lwip_fcntl -> READY_CHECK x = true ->
  socks !! fd = Some c -> 0 <= nc_flags c < 256 -> mode ∈ [0; O_RDONLY; O_WRONLY; O_RDWR] ->
  exists c', xnet_fcntl lw x fd F_SETFL (mode .| 2048) socks = (0, <[fd := c']> socks) /\
    netconn_is_nonblocking c' = true /\ nc_type c' = nc_type c /\ nc_tcp c' = nc_tcp c.
Proof.
  intros Hlw Hr Hc Hf Hm. exists (netconn_set_nonblocking 1 c). split; [|split; [by apply nonblocking_set|done]].
  unfold xnet_fcntl, gate. rewrite Hr, Hlw; cbn [negb]. unfold lwip_fcntl. rewrite Hc.
  rewrite !elem_of_cons, elem_of_nil in Hm. destruct Hm as [-> | [-> | [-> | [-> | []]]]]; reflexivity.
Qed.

Lemma fcntl_sets_nonblock_witness :
  exists c', xnet_fcntl ex_lw ex_ready 3 F_SETFL (O_RDWR .| 2048) {[3 := Netconn 0 0x10 (Some 0)]} =
    (0, <[3 := c']> {[3 := Netconn 0 0x10 (Some 0)]}) /\ netconn_is_nonblocking c' = true.
Proof.
  destruct (fcntl_sets_nonblock ex_lw ex_ready 3 (Netconn 0 0x10 (Some 0)) O_RDWR {[3 := Netconn 0 0x10 (Some 0)]})
    as (c' & E & Hn & _); [reflexivity|reflexivity|reflexivity|cbn; lia|set_solver|].
  exists c'. split; [exact E|exact Hn].
Defined.

(** The translation is one way: [F_GETFL] answers lwIP's bits, so the flag
    the platform tests is never set, and the usual sequence to make a
    non-blocking socket blocking again (read the flags, clear the platform's
    [O_NONBLOCK], write them back) leaves it non-blocking. *)
Theorem fcntl_cannot_clear_nonblock (lw : lwip_sockets (gmap Z netconn)) x fd c socks :
  lwip_fcntl_op lw = lwip_fcntl -> READY_CHECK x = true ->
  socks !! fd = Some c -> 0 <= nc_flags c < 256 -> netconn_is_nonblocking c = true ->
  exists r c', xnet_fcntl lw x fd F_GETFL 0 socks = (r, socks) /\ r .& 2048 = 0 /\
    xnet_fcntl lw x fd F_SETFL (Z.land r (Z.lnot 2048)) socks = (0, <[fd := c']> socks) /\
    netconn_is_nonblocking c' = true.
Proof.
  intros Hlw Hr Hc Hf Hn.
  unfold xnet_fcntl, gate. rewrite Hr, Hlw; cbn [negb]. change (F_GETFL =? F_SETFL) with false. cbn [andb].
  unfold lwip_fcntl at 1. rewrite Hc, Hn. change (F_GETFL =? F_GETFL) with true. cbv iota zeta.
  set (om := if NETCONNTYPE_GROUP _ =? _ then _ else _).
  assert (Hom : om ∈ [0; 2; 4; 6]).
  { unfold om. repeat case_match; vm_compute; set_solver. }
  set (r := O_NONBLOCK .| _). exists r, (netconn_set_nonblocking 1 c). split; [done|].
  assert (Hr' : r ∈ [1; 3; 5; 7]).
  { unfold r. clearbody om. rewrite !elem_of_cons, elem_of_nil in Hom.
    destruct Hom as [-> | [-> | [-> | [-> | []]]]]; vm_compute; set_solver. }
  clearbody r. unfold lwip_fcntl. rewrite Hc. rewrite !elem_of_cons, elem_of_nil in Hr'.
  destruct Hr' as [-> | [-> | [-> | [-> | []]]]]; (split; [done|]; split; [done|by apply nonblocking_set]).
Qed.

Lemma fcntl_cannot_clear_nonblock_witness :
  exists r c', xnet_fcntl ex_lw ex_ready 3 F_GETFL 0 {[3 := Netconn 2 0x10 (Some 0)]} = (r, {[3 := Netconn 2 0x10 (Some 0)]}) /\
    xnet_fcntl ex_lw ex_ready 3 F_SETFL (Z.land r (Z.lnot 2048)) {[3 := Netconn 2 0x10 (Some 0)]} =
      (0, <[3 := c']> {[3 := Netconn 2 0x10 (Some 0)]}) /\ netconn_is_nonblocking c' = true.
Proof.
  destruct (fcntl_cannot_clear_nonblock ex_lw ex_ready 3 (Netconn 2 0x10 (Some 0)) {[3 := Netconn 2 0x10 (Some 0)]})
    as (r & c' & E1 & _ & E2 & Hn); [reflexivity|reflexivity|reflexivity|cbn; lia|reflexivity|].
  exists r, c'. split; [exact E1|]. split; [exact E2|exact Hn].
Defined.
