(* ===== verification/JniBridge.v ===== *)
(** [jni_bridge.c]: the native methods of [ZtSocket], and the event callback
    they hand to the service.

    The Java side is the trace of the calls made to it.  A [jlong] network id
    is cast to 64 bits unsigned.  At the end, what the bridge promises. *)
From S2P Require Import Prelude Bits Def IpAddr Ip4AddrThm XnetTap XnetService XnetSocket.
From S2P Require Import Prelude Bits Def IpAddr Pbuf Ip4Addr Ip4AddrThm NetifRec Netif XnetTap XnetTapThm XnetService XnetServiceThm XnetLife XnetSocket XnetServiceClaims.

(** Calls of the Java callback object. *)
Inductive jevent := OnEvent (event : Z) | OnAddress (addr : list Z).

(** The globals: whether each pointer is not NULL, the text in [g_addr] (without
    its NUL) and [g_nwid]. *)
Record jni := Jni {
  j_vm : bool;
  j_callback : bool;
  j_onEvent : bool;
  j_onAddress : bool;
  j_addr : list Z;
  j_nwid : Z;
  j_out : list jevent;
}.

Definition jni_init : jni := Jni false false false false [] 0 [].

Definition set_addr (a : list Z) (j : jni) : jni :=
  Jni (j_vm j) (j_callback j) (j_onEvent j) (j_onAddress j) a (j_nwid j) (j_out j).

Definition jcall (e : list jevent) (j : jni) : jni :=
  Jni (j_vm j) (j_callback j) (j_onEvent j) (j_onAddress j) (j_addr j) (j_nwid j) (j_out j ++ e).

(** [inet_ntop(AF_INET, ...)] of the C library: dotted decimal. *)
Definition inet_ntop4 (a : Z) : list Z := ip4_text a.

(** The calls into Java. *)
Definition jni_notify (event : Z) (j : jni) : jni :=
  if negb (j_vm j) || negb (j_callback j) then j
  else
    let j := if j_onEvent j then jcall [OnEvent event] j else j in
    if (event =? XNET_EV_ADDR_ADDED_IP4) && negb (bool_decide (j_addr j = [])) && j_onAddress j
    then jcall [OnAddress (j_addr j)] j else j.

(** The callback the service calls; [x] is the service's state at the call. *)
Definition xnet_cb (event : Z) (x : xstate) (j : jni) : option jni :=
  j ← (if (event =? XNET_EV_ADDR_ADDED_IP4) && negb (j_nwid j =? 0) then
         '(rc, ss) ← xnet_get_addr (j_nwid j) AF_INET true x;
         if rc =? XNET_OK
         then match ss with Some (sockaddr_in a) => Some (set_addr (inet_ntop4 a) j) | _ => None end
         else Some j
       else Some j);
  Some (jni_notify event j).

Definition JNI_OnLoad (j : jni) : jni :=
  Jni true (j_callback j) (j_onEvent j) (j_onAddress j) (j_addr j) (j_nwid j) (j_out j).

(** What [start] keeps of the callback object: whether its class has the two
    methods. *)
Definition jni_set_callback (onEvent onAddress : bool) (j : jni) : jni :=
  Jni (j_vm j) true onEvent onAddress (j_addr j) (j_nwid j) (j_out j).

Definition ZtSocket_start (path : list Z) (onEvent onAddress : bool) (port : Z) (thread_ok : bool)
    (x : xstate) (j : jni) : option (Z * xstate * jni) :=
  '(rc, x) ← xnet_start (Some path) true port thread_ok x;
  Some (rc, x, jni_set_callback onEvent onAddress j).

Definition ZtSocket_stop (late : bool * (Z * Z) * (Z * Z)) (x : xstate) : option (Z * xstate) := xnet_stop late x.

Definition ZtSocket_coreRunning (x : xstate) : Z := if xnet_running x then 1 else 0.

Definition u64 (z : Z) : Z := z mod 2 ^ 64.

Definition set_nwid_j (n : Z) (j : jni) : jni :=
  Jni (j_vm j) (j_callback j) (j_onEvent j) (j_onAddress j) (j_addr j) n (j_out j).

Definition ZtSocket_join (nwid : Z) (zt_ok : bool) (x : xstate) (j : jni) : Z * jni :=
  (xnet_join zt_ok x, set_nwid_j (u64 nwid) j).

Definition ZtSocket_leave (nwid : Z) (zt_ok : bool) (x : xstate) : Z := xnet_leave zt_ok x.

(** [(jlong)xnet_node_id()]. *)
Definition ZtSocket_getNodeId (zt_address : Z) (x : xstate) : Z :=
  let n := xnet_node_id zt_address x in if n <? 2 ^ 63 then n else n - 2 ^ 64.

Definition ZtSocket_hasAddress (nwid : Z) (j : jni) : Z := if bool_decide (j_addr j = []) then 0 else 1.

Definition ZtSocket_getAddress (nwid : Z) (j : jni) : list Z := j_addr j.

Section sockets.
  Context {S : Type} (lw : lwip_sockets S) (x : xstate).
  (** [inet_aton] of the C library; on failure it leaves [struct in_addr ia] as
      it is, here with the bytes [ia0]. *)
  Context (inet_aton : list Z -> option Z) (ia0 : list Z).

Definition ZtSocket_socket (family type proto : Z) : S -> Z * S := xnet_socket lw x family type proto.

(** The 16 bytes of lwIP's [struct sockaddr_in]: length, family, port, address. *)
Definition jni_sockaddr (caddr : list Z) (port : Z) : list Z :=
  let ia := match inet_aton caddr with
            | Some a => [byte_of a 0; byte_of a 1; byte_of a 2; byte_of a 3]
            | None => ia0
            end in
  [16; AF_INET; port .>> 8 .& 0xff; port .& 0xff] ++ ia ++ replicate 8 0.

Definition ZtSocket_connect (fd : Z) (addr : list Z) (port : Z) : S -> Z * S :=
  xnet_connect lw x fd (Some (jni_sockaddr addr port)) 16.

Definition ZtSocket_bind (fd : Z) (addr : list Z) (port : Z) : S -> Z * S :=
  xnet_bind lw x fd (Some (jni_sockaddr addr port)) 16.

Definition ZtSocket_listen (fd backlog : Z) : S -> Z * S := xnet_listen lw x fd backlog.

Definition ZtSocket_accept (fd : Z) (s : S) : Z * S := let '(rc, _, s) := xnet_accept lw x fd (Some 16) s in (rc, s).

Definition ZtSocket_send (fd : Z) (data : list Z) : S -> Z * S := xnet_send lw x fd (Some data) (zlen data) 0.

(** [malloc_ok] is the result of [malloc]; NULL goes to Java for an error or the
    end of the stream. *)
Definition ZtSocket_recv (malloc_ok : bool) (fd maxLen : Z) (s : S) : option (list Z) * S :=
  let '(n, buf, s) := xnet_recv lw x fd malloc_ok maxLen 0 s in
  if n <=? 0 then (None, s) else (Some (ztake n buf), s).

Definition ZtSocket_closeSocket (fd : Z) : S -> Z * S := xnet_close lw fd.

End sockets.

(** ** Addresses *)

(** When the service reports a new IPv4 address and the joined network has
    one, the callback keeps its dotted decimal text (which parses back to the
    address) and passes the event and the text on to Java, in this order. *)
Theorem xnet_cb_reports_address x l j t :
  consistent x l -> j_nwid j <> 0 -> registry x !! j_nwid j = Some t -> has_ip4 t = true -> 0 <= tap_ip4_addr t < 2 ^ 32 ->
  j_vm j = true -> j_callback j = true -> j_onEvent j = true -> j_onAddress j = true ->
  exists j', xnet_cb XNET_EV_ADDR_ADDED_IP4 x j = Some j' /\
    j_addr j' = ip4_text (tap_ip4_addr t) /\ ip4addr_aton (j_addr j' ++ [0]) = Some (Some (tap_ip4_addr t)) /\
    j_out j' = j_out j ++ [OnEvent XNET_EV_ADDR_ADDED_IP4; OnAddress (ip4_text (tap_ip4_addr t))].
Proof.
  intros Hc Hn Hr H4 Ha Hvm Hcb He Hoa. unfold xnet_cb. change (XNET_EV_ADDR_ADDED_IP4 =? XNET_EV_ADDR_ADDED_IP4) with true.
  destruct (Z.eqb_spec (j_nwid j) 0); [done|]. cbn [negb andb].
  assert (E : xnet_get_addr (j_nwid j) AF_INET true x = Some (XNET_OK, Some (sockaddr_in (tap_ip4_addr t)))).
  { unfold xnet_get_addr. cbn [negb]. pose proof (tc_nodup _ _ Hc) as Hnd. pose proof (tc_count _ _ Hc).
    destruct (tap_find (j_nwid j) x) as [i|] eqn:Hf; [|by rewrite (registry_find_None x _ Hnd Hf) in Hr].
    destruct (tap_find_Some x _ i Hf) as (_ & u & Hu & _); [lia|].
    rewrite (registry_find x _ i u Hnd (proj2 H) Hf Hu) in Hr. injection Hr as ->. rewrite Hu. cbn. by rewrite H4. }
  rewrite E; cbn [mbind option_bind]. change (XNET_OK =? XNET_OK) with true. cbv iota. cbn [mbind option_bind].
  unfold jni_notify. cbn [j_vm j_callback j_onEvent j_onAddress set_addr]. rewrite Hvm, Hcb, He; cbn [negb orb].
  assert (Hne : ip4_text (tap_ip4_addr t) <> []).
  { intros E0. pose proof (ip4_text_len (tap_ip4_addr t)) as Hlen. rewrite E0 in Hlen. change (zlen (@nil Z)) with 0 in Hlen. lia. }
  cbn [jcall j_addr j_onAddress set_addr]. unfold inet_ntop4. rewrite bool_decide_eq_false_2 by done. rewrite Hoa. cbn [negb andb].
  eexists. split; [done|]. cbn [j_addr jcall set_addr]. split; [done|]. split.
  - apply aton_text; [done|by vm_compute|lia|by left].
  - cbn. by rewrite <- app_assoc.
Qed.

Definition ex_jni : jni := Jni true true true true [] 6 [].

Lemma xnet_cb_reports_address_witness :
  exists x j', ex_two = Some x /\ xnet_cb XNET_EV_ADDR_ADDED_IP4 x ex_jni = Some j' /\
    j_addr j' = ip4_text (IP4_ADDR 10 0 0 6).
Proof.
  destruct ex_two_consistent as (x & l & E & Hc). exists x.
  destruct (registry x !! 6) as [t|] eqn:Et; [|vm_compute in E; injection E as <-; vm_compute in Et; discriminate Et].
  assert (H : has_ip4 t = true /\ tap_ip4_addr t = IP4_ADDR 10 0 0 6).
  { vm_compute in E; injection E as <-; vm_compute in Et; injection Et as <-. split; reflexivity. }
  destruct H as [H4 Ha].
  destruct (xnet_cb_reports_address x l ex_jni t Hc) as (j' & Ej & Hj & _); [discriminate|exact Et|exact H4| |reflexivity..|].
  { rewrite Ha. vm_compute. split; congruence. }
  exists j'. split; [exact E|]. split; [exact Ej|]. rewrite Hj, Ha. reflexivity.
Defined.

(** What changes the bridge's globals. *)
Inductive jstep : jni -> jni -> Prop :=
| jstep_load j : jstep j (JNI_OnLoad j)
| jstep_start path oe oa port ok x x' rc j j' :
    ZtSocket_start path oe oa port ok x j = Some (rc, x', j') -> jstep j j'
| jstep_join nwid ok x j : jstep j (ZtSocket_join nwid ok x j).2
| jstep_event event x j j' : xnet_cb event x j = Some j' -> jstep j j'.

Lemma notify_addr event j : j_addr (jni_notify event j) = j_addr j.
Proof.
  unfold jni_notify. destruct (negb (j_vm j) || negb (j_callback j)); [done|].
  destruct (j_onEvent j); cbv zeta; (match goal with |- context [if ?b then _ else _] => destruct b end; done).
Qed.

Lemma jstep_addr j j' : jstep j j' -> j_addr j <> [] -> j_addr j' <> [].
Proof.
  intros H Ha. destruct H as [j|path oe oa port ok x x' rc j j' H|nwid ok x j|event x j j' H]; try done.
  - unfold ZtSocket_start in H. destruct (xnet_start _ _ _ _ _) as [[r y]|]; [|done]. by injection H as _ _ <-.
  - unfold xnet_cb in H.
    destruct ((event =? XNET_EV_ADDR_ADDED_IP4) && negb (j_nwid j =? 0)).
    + destruct (xnet_get_addr _ _ _ x) as [[rc ss]|]; [|done]. cbn [mbind option_bind] in H.
      destruct (rc =? XNET_OK); cycle 1.
      { injection H as <-. by rewrite notify_addr. }
      destruct ss as [[a| |]|]; try done. injection H as <-. rewrite notify_addr. cbn. intros E0.
      pose proof (ip4_text_len a) as Hlen. unfold inet_ntop4 in E0. rewrite E0 in Hlen. change (zlen (@nil Z)) with 0 in Hlen. lia.
    + injection H as <-. by rewrite notify_addr.
Qed.

(** Once an address was reported, [hasAddress] answers 1 for every network,
    for ever: the text is never cleared (leaving or stopping does not touch it)
    and the network id is ignored. *)
Theorem hasAddress_sticky j j' nwid : rtc jstep j j' -> ZtSocket_hasAddress nwid j = 1 -> forall other, ZtSocket_hasAddress other j' = 1.
Proof.
  unfold ZtSocket_hasAddress. intros Hs H other. case_bool_decide as E; [done|]. clear H.
  assert (Ha : j_addr j' <> []) by (clear other; induction Hs; eauto using jstep_addr). by rewrite bool_decide_eq_false_2.
Qed.

Lemma hasAddress_sticky_witness : ZtSocket_hasAddress 77 (ZtSocket_join 9 true (x_init ex_heap0) (set_addr [49] ex_jni)).2 = 1.
Proof.
  apply (hasAddress_sticky (set_addr [49] ex_jni) _ 6); [|reflexivity]. eapply rtc_l; [apply jstep_join|apply rtc_refl].
Defined.

(** ** Socket addresses *)

(** The sixteen bytes the bridge builds are lwIP's [sockaddr_in] of the
    port and the address: the family is AF_INET, the port field in network
    order reads as the port, and the address word is [inet_aton]'s. *)
Theorem jni_sockaddr_layout inet_aton ia0 caddr port a :
  inet_aton caddr = Some a -> 0 <= a < 2 ^ 32 -> 0 <= port < 65536 ->
  let sa := jni_sockaddr inet_aton ia0 caddr port in
  zlen sa = 16 /\ sa !! 1%nat = Some AF_INET /\ word_at sa 4 = Some a /\
  (exists hi lo, sa !! 2%nat = Some hi /\ sa !! 3%nat = Some lo /\ lwip_htons (hi + 256 * lo) = port).
Proof.
  intros Ha Hr Hp. cbv zeta. unfold jni_sockaddr. rewrite Ha. split; [done|]. split; [done|]. split.
  - cbn. f_equal. symmetry. by apply u32_as_bytes.
  - eexists _, _. split; [done|]. split; [done|]. rewrite shr_div by lia. rewrite !land_255. change (2 ^ 8) with 256.
    pose proof (Z.div_mod port 256 ltac:(lia)). pose proof (Z.mod_pos_bound port 256 ltac:(lia)).
    rewrite (Z.mod_small (port / 256)) by lia.
    rewrite htons_bytes by lia. unfold byte_of. change (8 * 0) with 0. change (8 * 1) with 8. change (2 ^ 0) with 1. change (2 ^ 8) with 256.
    rewrite Z.div_1_r. set (q := port / 256) in *. set (r := port mod 256) in *.
    assert (E1 : (q + 256 * r) mod 256 = q) by (symmetry; apply (Z.mod_unique_pos _ _ r); lia).
    assert (E2 : (q + 256 * r) / 256 = r) by (symmetry; apply (Z.div_unique_pos _ _ _ q); lia).
    rewrite E1, E2. rewrite Z.mod_small by lia. lia.
Qed.

Lemma jni_sockaddr_layout_witness :
  word_at (jni_sockaddr (fun _ => Some (IP4_ADDR 10 0 0 7)) [] [] 8080) 4 = Some (IP4_ADDR 10 0 0 7).
Proof.
  apply (jni_sockaddr_layout (fun _ => Some (IP4_ADDR 10 0 0 7)) [] [] 8080 (IP4_ADDR 10 0 0 7));
    [reflexivity|vm_compute; split; congruence|lia].
Defined.
