(* ===== verification/IpUpper.v ===== *)
(** Modules above IP: each keeps its own part of the upper state, with its own
    invariant and the packets that part refers to. *)
From S2P Require Import Prelude Bits Def IpAddr Pbuf PbufData PbufChain PbufOwn NetifRec Netif XnetTap Ethernet Etharp EtharpTable EtharpOps EtharpOut EtharpSend EtharpIn EtharpNet.
From S2P Require Import IpState NetifLoop NetifLoopThm IpEnv IpRes.

Class Component {U : Upper} (A : Type) := {
  comp_get : upper -> A;
  comp_set : A -> upper -> upper;
  comp_get_set : forall a u, comp_get (comp_set a u) = a;
  comp_set_get : forall u, comp_set (comp_get u) u = u;
  comp_set_set : forall a b u, comp_set a (comp_set b u) = comp_set a u;
}.

(** The part is sound when [ok] holds of it; it refers to the packets [refs]. *)
Class Sound {U : Upper} (A : Type) `{!Component A} (ok : A -> Prop) (refs : A -> list addr) : Prop := {
  sound_get : forall u, up_ok u -> ok (comp_get u);
  sound_set : forall a u, up_ok u -> ok a -> up_ok (comp_set a u);
  sound_refs : forall u, exists rest, Permutation (held u) (refs (comp_get u) ++ rest) /\
    forall a, Permutation (held (comp_set a u)) (refs a ++ rest);
}.

Section component.
  Context {U : Upper} {A : Type} `{!Component A}.

Definition set_up (u : upper) (s : istate) : istate :=
  IState (i_l s) (i_posts s) (i_polls s) (ip_id s) (ip4_default_multicast_netif s) (ip_data s) u.

Definition cget (s : istate) : A := comp_get (i_up s).

Definition cset (a : A) (s : istate) : istate := set_up (comp_set a (i_up s)) s.

Lemma cget_cset a s : cget (cset a s) = a.
Proof. apply comp_get_set. Qed.

Lemma cset_cget s : cset (cget s) s = s.
Proof. unfold cset, cget. rewrite comp_set_get. by destruct s. Qed.

Lemma cset_cset a b s : cset a (cset b s) = cset a s.
Proof. unfold cset; cbn. by rewrite comp_set_set. Qed.

Lemma cset_same a s : isame s (cset a s).
Proof. split; try done. apply (is_x s s). reflexivity. Qed.

Context {ok : A -> Prop} {refs : A -> list addr} `{!Sound A ok refs}.

Lemma istk_get H cs s : istk H cs s -> ok (cget s).
Proof using Type*. intros (F & lo & _ & HU). by apply sound_get. Qed.

(** A new value for the part, that refers to the packets the caller gives up. *)
Lemma istk_cset H H' cs s a :
  istk H cs s -> ok a -> Permutation (H ++ refs (cget s)) (H' ++ refs a) -> istk H' cs (cset a s).
Proof using Type*.
  intros (F & lo & [HI HL] & HU) Ha HP. exists F, lo. split; [|by apply sound_set]. split; [|done].
  destruct (sound_refs (i_up s)) as (rest & H1 & H2). eapply arp_inv_perm; [|exact HI]. cbn. rewrite H1, (H2 a).
  by rewrite !app_assoc, HP.
Qed.

End component.
