(* ===== verification/Udp.v ===== *)
(** UDP: [core/udp.c].  PCBs live in a memory of their own; the list [udp_pcbs],
    chained by [next] in the source, is a list of their addresses.  The IPv6
    functions of [ip6.c] and the receive callbacks are parameters; [udp_input] is
    the one [ip4_input] calls. *)
From S2P Require Import Prelude Bits Def IpAddr Pbuf PbufData Chksum NetifRec Netif XnetTap Ethernet Ip4Addr Etharp.
From S2P Require Import IpState IpUpper NetifLoop Ip4Out Icmp Ip4In.

Definition UDP_HLEN : Z := 8.
Definition UDP_TTL : Z := 255.
Definition ERR_USE : Z := -8.
Definition UDP_FLAGS_NOCHKSUM : Z := 0x01.
Definition UDP_FLAGS_CONNECTED : Z := 0x04.
Definition UDP_FLAGS_MULTICAST_LOOP : Z := 0x08.
Definition SOF_REUSEADDR : Z := 0x04.
Definition UDP_LOCAL_PORT_RANGE_START : Z := 0xc000.
Definition UDP_LOCAL_PORT_RANGE_END : Z := 0xffff.

(** [struct udp_pcb]; [recv] is the callback by number. *)
Record udp_pcb := UdpPcb {
  local_ip : ip_addr;
  remote_ip : ip_addr;
  netif_idx : Z;
  so_options : Z;
  tos : Z;
  ttl : Z;
  flags : Z;
  local_port : Z;
  remote_port : Z;
  mcast_ip4 : Z;
  mcast_ifindex : Z;
  mcast_ttl : Z;
  recv : option Z;
  recv_arg : Z;
}.

Definition set_local (ip : ip_addr) (port : Z) (p : udp_pcb) : udp_pcb :=
  UdpPcb ip (remote_ip p) (netif_idx p) (so_options p) (tos p) (ttl p) (flags p) port (remote_port p)
    (mcast_ip4 p) (mcast_ifindex p) (mcast_ttl p) (recv p) (recv_arg p).

Definition set_remote (ip : ip_addr) (port : Z) (fl : Z) (p : udp_pcb) : udp_pcb :=
  UdpPcb (local_ip p) ip (netif_idx p) (so_options p) (tos p) (ttl p) fl (local_port p) port
    (mcast_ip4 p) (mcast_ifindex p) (mcast_ttl p) (recv p) (recv_arg p).

Definition set_netif_idx (i : Z) (p : udp_pcb) : udp_pcb :=
  UdpPcb (local_ip p) (remote_ip p) i (so_options p) (tos p) (ttl p) (flags p) (local_port p) (remote_port p)
    (mcast_ip4 p) (mcast_ifindex p) (mcast_ttl p) (recv p) (recv_arg p).

Definition set_recv (f : option Z) (arg : Z) (p : udp_pcb) : udp_pcb :=
  UdpPcb (local_ip p) (remote_ip p) (netif_idx p) (so_options p) (tos p) (ttl p) (flags p) (local_port p) (remote_port p)
    (mcast_ip4 p) (mcast_ifindex p) (mcast_ttl p) f arg.

Definition set_so_options (o : Z) (p : udp_pcb) : udp_pcb :=
  UdpPcb (local_ip p) (remote_ip p) (netif_idx p) o (tos p) (ttl p) (flags p) (local_port p) (remote_port p)
    (mcast_ip4 p) (mcast_ifindex p) (mcast_ttl p) (recv p) (recv_arg p).

(** The macros that change the options of a PCB (SO_REUSEADDR and SO_BROADCAST of a socket). *)
Definition ip_set_option (opt : Z) (p : udp_pcb) : udp_pcb := set_so_options (u8 (so_options p .| opt)) p.

Definition ip_reset_option (opt : Z) (p : udp_pcb) : udp_pcb := set_so_options (u8 (so_options p .& Z.lnot opt)) p.

(** [enum lwip_ip_addr_type], and the zero address of a type. *)
Inductive ip_type := IPADDR_TYPE_V4 | IPADDR_TYPE_V6 | IPADDR_TYPE_ANY.

Definition zero_addr (type : ip_type) : ip_addr :=
  match type with
  | IPADDR_TYPE_V4 => IPADDR_V4 0
  | IPADDR_TYPE_V6 => IPADDR_V6 ip6_addr_any
  | IPADDR_TYPE_ANY => IPADDR_ANY_TYPE
  end.

(** A PCB after [memset], with the TTLs [udp_new] sets, and its types. *)
Definition new_pcb (type : ip_type) : udp_pcb :=
  UdpPcb (zero_addr type) (zero_addr type) 0 0 0 UDP_TTL 0 0 0 0 0 UDP_TTL None 0.

Record udp_state := UdpState { udp_mem : gmap Z udp_pcb; udp_pcbs : list Z; udp_port : Z }.

Definition udp_put (n : Z) (p : udp_pcb) (u : udp_state) : udp_state := UdpState (<[n := p]> (udp_mem u)) (udp_pcbs u) (udp_port u).

Definition set_pcbs (l : list Z) (u : udp_state) : udp_state := UdpState (udp_mem u) l (udp_port u).

Definition set_udp_port (port : Z) (u : udp_state) : udp_state := UdpState (udp_mem u) (udp_pcbs u) port.

(** A loop over the list that stops at the first PCB that passes the test. *)
Fixpoint any_pcb (u : udp_state) (test : Z -> udp_pcb -> bool) (l : list Z) : option bool :=
  match l with
  | [] => Some false
  | n :: l => p ← udp_mem u !! n; if test n p then Some true else any_pcb u test l
  end.

(** ** Ports *)
Definition udp_init (rand : Z) (u : udp_state) : udp_state :=
  set_udp_port (u16 ((u32 rand .& u16 (Z.lnot UDP_LOCAL_PORT_RANGE_START)) + UDP_LOCAL_PORT_RANGE_START)) u.

(** The label [again]; [n] counts the ports that were taken. *)
Fixpoint udp_new_port_loop (fuel : nat) (n : Z) (u : udp_state) : option (Z * udp_state) :=
  match fuel with
  | O => None
  | S fuel =>
      let u := set_udp_port (if udp_port u =? UDP_LOCAL_PORT_RANGE_END then UDP_LOCAL_PORT_RANGE_START else u16 (udp_port u + 1)) u in
      taken ← any_pcb u (fun _ p => local_port p =? udp_port u) (udp_pcbs u);
      if taken : bool then
        let n := u16 (n + 1) in
        if UDP_LOCAL_PORT_RANGE_END - UDP_LOCAL_PORT_RANGE_START <? n then Some (0, u) else udp_new_port_loop fuel n u
      else Some (udp_port u, u)
  end.

(** More turns than the range has ports are never made. *)
Definition port_fuel : nat := Z.to_nat 0x4001.

Definition udp_new_port (u : udp_state) : option (Z * udp_state) := udp_new_port_loop port_fuel 0 u.

Section udp.
  Context {U : Upper} `{!Component udp_state}.
  Context (custom_free : addr -> heap -> option heap) (buf : list Z) (odd_payload : addr -> pbuf -> bool).
  Context (ip4_frag : addr -> Z -> Z -> istate -> option (Z * istate)).
  (** [core/ipv6/ip6.c]. *)
  Context (ip6_route : ip6_addr -> ip6_addr -> istate -> option (option Z)).
  Context (ip6_select_source_address : Z -> ip6_addr -> istate -> option (option ip6_addr)).
  Context (ip6_output_if_src : addr -> ip6_addr -> ip6_addr -> Z -> Z -> Z -> Z -> istate -> option (Z * istate)).
  (** The call [recv(recv_arg, pcb, p, addr, port)]. *)
  Context (recv_fn : Z -> Z -> Z -> addr -> ip_addr -> Z -> istate -> option istate).

Definition pcb_get (n : Z) (s : istate) : option udp_pcb := udp_mem (cget s) !! n.

Definition pcb_put (n : Z) (p : udp_pcb) (s : istate) : istate := cset (udp_put n p (cget s)) s.

(** [ip6_addr_select_zone(dest, src)]. *)
Definition ip6_addr_select_zone (dest src : ip6_addr) (s : istate) : option ip6_addr :=
  r ← ip6_route src dest s;
  match r with
  | None => Some dest
  | Some n => v ← inif s n; Some (ip6_set_zone (if ip6_addr_has_scope_unknown dest then netif_get_index v else 0) dest)
  end.

(** ** Life of a PCB *)
Definition udp_new_ip_type (type : ip_type) (s : istate) : option Z * istate :=
  let '(r, h) := mem_malloc 0 (i_heap s) in
  match r with
  | None => (None, iheap h s)
  | Some (a, _) =>
      let l := lheap h (i_l s) in
      let s := ilink (LState (l_x l) (l_arp l) (<[Zpos a := 0]> (l_hints l))) s in
      (Some (Zpos a), pcb_put (Zpos a) (new_pcb type) s)
  end.

Definition udp_new (s : istate) : option Z * istate := udp_new_ip_type IPADDR_TYPE_V4 s.

(** The PCB leaves the list and its memory, the hints in it included. *)
Definition udp_remove (pcb : Z) (s : istate) : option istate :=
  _ ← pcb_get pcb s;
  let u := cget s in
  let l := i_l s in
  Some (cset (UdpState (delete pcb (udp_mem u)) (filter (fun n => n <> pcb) (udp_pcbs u)) (udp_port u))
    (ilink (LState (l_x l) (l_arp l) (delete pcb (l_hints l))) s)).

Definition udp_recv (pcb : Z) (f : option Z) (arg : Z) (s : istate) : option istate :=
  p ← pcb_get pcb s; Some (pcb_put pcb (set_recv f arg p) s).

Definition udp_bind_netif (pcb : Z) (nif : option Z) (s : istate) : option istate :=
  p ← pcb_get pcb s;
  idx ← match nif with Some n => v ← inif s n; Some (netif_get_index v) | None => Some NETIF_NO_INDEX end;
  Some (pcb_put pcb (set_netif_idx idx p) s).

(** ** Binding *)

(** The address in use: the test of [udp_bind] on another PCB. *)
Definition bind_conflict (pcb : Z) (p : udp_pcb) (ipaddr : ip_addr) (port : Z) (n : Z) (q : udp_pcb) : bool :=
  negb (pcb =? n) &&
  ((so_options p .& SOF_REUSEADDR =? 0) || (so_options q .& SOF_REUSEADDR =? 0)) &&
  (local_port q =? port) &&
  ((same_type (local_ip q) ipaddr && (ip_addr_cmp (local_ip q) ipaddr || ip_addr_isany ipaddr || ip_addr_isany (local_ip q))) ||
   IP_IS_ANY_TYPE (local_ip q) || IP_IS_ANY_TYPE ipaddr).

Definition udp_bind (pcb : Z) (ipaddr : option ip_addr) (port : Z) (s : istate) : option (Z * istate) :=
  let ipaddr := default (IPADDR_V4 IPADDR_ANY) ipaddr in
  p ← pcb_get pcb s;
  let rebind := bool_decide (pcb ∈ udp_pcbs (cget s)) in
  ipaddr ← (match ipaddr with
            | IPADDR_V6 a => if ip6_addr_lacks_zone a then IPADDR_V6 <$> ip6_addr_select_zone a a s else Some ipaddr
            | _ => Some ipaddr
            end);
  '(port, s) ← (if port =? 0 then '(port, u) ← udp_new_port (cget s); Some (port, cset u s)
                else used ← any_pcb (cget s) (bind_conflict pcb p ipaddr port) (udp_pcbs (cget s));
                     Some (if used : bool then 0 else port, s));
  if port =? 0 then Some (ERR_USE, s)
  else
    let u := udp_put pcb (set_local ipaddr port p) (cget s) in
    Some (ERR_OK, cset (if rebind then u else set_pcbs (pcb :: udp_pcbs u) u) s).

Definition udp_connect (pcb : Z) (ipaddr : ip_addr) (port : Z) (s : istate) : option (Z * istate) :=
  p ← pcb_get pcb s;
  '(err, s) ← (if local_port p =? 0 then udp_bind pcb (Some (local_ip p)) (local_port p) s else Some (ERR_OK, s));
  if negb (err =? ERR_OK) then Some (err, s)
  else
    p ← pcb_get pcb s;
    ipaddr ← (match ipaddr with
              | IPADDR_V6 a => if ip6_addr_lacks_zone a then IPADDR_V6 <$> ip6_addr_select_zone a (ip_2_ip6 (local_ip p)) s else Some ipaddr
              | _ => Some ipaddr
              end);
    let s := pcb_put pcb (set_remote ipaddr port (u8 (flags p .| UDP_FLAGS_CONNECTED)) p) s in
    let u := cget s in
    Some (ERR_OK, if bool_decide (pcb ∈ udp_pcbs u) then s else cset (set_pcbs (pcb :: udp_pcbs u) u) s).

Definition udp_disconnect (pcb : Z) (s : istate) : option istate :=
  p ← pcb_get pcb s;
  let rip := if IP_IS_ANY_TYPE (local_ip p) then IPADDR_ANY_TYPE
             else if IP_IS_V6 (remote_ip p) then IPADDR_V6 ip6_addr_any else IPADDR_V4 IPADDR_ANY in
  Some (pcb_put pcb (set_netif_idx NETIF_NO_INDEX (set_remote rip 0 (u8 (flags p .& u8 (Z.lnot UDP_FLAGS_CONNECTED .& 0xff))) p)) s).

(** The loop of [udp_netif_ip_addr_changed]. *)
Fixpoint readdress (old new : ip_addr) (l : list Z) (u : udp_state) : option udp_state :=
  match l with
  | [] => Some u
  | n :: l =>
      p ← udp_mem u !! n;
      readdress old new l (if ip_addr_cmp (local_ip p) old then udp_put n (set_local new (local_port p) p) u else u)
  end.

(** [None] for a NULL pointer. *)
Definition udp_netif_ip_addr_changed (old new : option ip_addr) (s : istate) : option istate :=
  match old, new with
  | Some old, Some new =>
      if negb (ip_addr_isany old) && negb (ip_addr_isany new)
      then u ← readdress old new (udp_pcbs (cget s)) (cget s); Some (cset u s) else Some s
  | _, _ => Some s
  end.

(** ** Input *)
Definition udp_input_local_match (p : udp_pcb) (input_idx netmask dest : Z) (broadcast : bool) : bool :=
  if negb (netif_idx p =? NETIF_NO_INDEX) && negb (netif_idx p =? input_idx) then false
  else if IP_IS_ANY_TYPE (local_ip p) then true
  else if same_type (local_ip p) (IPADDR_V4 dest) then
    if broadcast then
      (ip_2_ip4 (local_ip p) =? IPADDR_ANY) || (dest =? IPADDR_BROADCAST) || ip4_addr_netcmp (ip_2_ip4 (local_ip p)) dest netmask
    else ip_addr_isany (local_ip p) || ip_addr_cmp (local_ip p) (IPADDR_V4 dest)
  else false.

(** The unconnected PCB to fall back on, after [n] was seen. *)
Definition udp_uncon (u : udp_state) (inp_addr dest : Z) (broadcast : bool) (n : Z) (p : udp_pcb) (uncon : option Z) : option (option Z) :=
  if negb (flags p .& UDP_FLAGS_CONNECTED =? 0) then Some uncon
  else match uncon with
  | None => Some (Some n)
  | Some c =>
      q ← udp_mem u !! c;
      Some (Some (if broadcast && (dest =? IPADDR_BROADCAST) then
                    if negb (IP_IS_V4 (local_ip q)) || negb (ip_2_ip4 (local_ip q) =? inp_addr) then
                      if IP_IS_V4 (local_ip p) && (ip_2_ip4 (local_ip p) =? inp_addr) then n else c
                    else c
                  else if negb (ip_addr_isany (local_ip p)) then n else c))
  end.

(** The loop over the PCBs: the first fully matching one, and the fallback. *)
Fixpoint udp_demux (u : udp_state) (input_idx netmask inp_addr src dest sport dport : Z) (broadcast : bool) (l : list Z) (uncon : option Z)
    : option (option Z * option Z) :=
  match l with
  | [] => Some (None, uncon)
  | n :: l =>
      p ← udp_mem u !! n;
      if (local_port p =? dport) && udp_input_local_match p input_idx netmask dest broadcast then
        uncon ← udp_uncon u inp_addr dest broadcast n p uncon;
        if (remote_port p =? sport) && (ip_addr_isany (remote_ip p) || ip_addr_cmp (remote_ip p) (IPADDR_V4 src))
        then Some (Some n, uncon)
        else udp_demux u input_idx netmask inp_addr src dest sport dport broadcast l uncon
      else udp_demux u input_idx netmask inp_addr src dest sport dport broadcast l uncon
  end.

(** The PCB [n] moved to the front of the list. *)
Definition to_front (n : Z) (l : list Z) : list Z := n :: filter (fun m => m <> n) l.

(** The datagram without its header goes to the PCB, or an ICMP error goes back. *)
Definition udp_deliver (p : addr) (pcb : option Z) (sport : Z) (broadcast : bool) (s : istate) : option istate :=
  match pcb with
  | Some n =>
      q ← pcb_get n s;
      match recv q with
      | Some f => recv_fn f (recv_arg q) n p (IPADDR_V4 (current_iphdr_src (ip_data s))) sport s
      | None => pbuf_free_i custom_free p s
      end
  | None =>
      s ← (if negb broadcast && negb (ip4_addr_ismulticast (current_iphdr_dest (ip_data s))) then
             '(_, h) ← pbuf_header_force (Some p) (current_ip_header_tot_len (ip_data s) + UDP_HLEN) (i_heap s);
             icmp_dest_unreach custom_free buf odd_payload ip4_frag p ICMP_DUR_PORT (iheap h s)
           else Some s);
      pbuf_free_i custom_free p s
  end.

Definition udp_input (p : addr) (inp : Z) (s : istate) : option istate :=
  b ← get (i_heap s) p;
  if pb_len b <? UDP_HLEN then pbuf_free_i custom_free p s
  else
    let src := current_iphdr_src (ip_data s) in
    let dest := current_iphdr_dest (ip_data s) in
    cur ← current_netif (ip_data s);
    cv ← inif s cur;
    inn ← current_input_netif (ip_data s);
    iv ← inif s inn;
    v ← inif s inp;
    let broadcast := ip4_addr_isbroadcast_u32 dest cv in
    sport ← lwip_htons <$> (payload_read b 0 2 ≫= u16_of);
    dport ← lwip_htons <$> (payload_read b 2 2 ≫= u16_of);
    let u := cget s in
    '(full, uncon) ← udp_demux u (netif_get_index iv) (nif_netmask v) (nif_ip_addr v) src dest sport dport broadcast (udp_pcbs u) None;
    let s := match full with Some n => cset (set_pcbs (to_front n (udp_pcbs u)) u) s | None => s end in
    let pcb := match full with Some n => Some n | None => uncon end in
    if bool_decide (is_Some pcb) || (nif_ip_addr v =? dest) then
      '(r, h) ← pbuf_remove_header (Some p) UDP_HLEN (i_heap s);
      if negb (r =? 0) then pbuf_free_i custom_free p (iheap h s)
      else udp_deliver p pcb sport broadcast (iheap h s)
    else pbuf_free_i custom_free p s.

(** ** Output *)
Definition IP_ADDR_PCB_VERSION_MATCH (p : udp_pcb) (a : ip_addr) : bool := IP_IS_ANY_TYPE (local_ip p) || same_type (local_ip p) a.

Definition ip_addr_ismulticast (a : ip_addr) : bool :=
  if IP_IS_V6 a then ip6_addr_ismulticast (ip_2_ip6 a) else ip4_addr_ismulticast (ip_2_ip4 a).

(** The header goes into [p], or into a pbuf of its own chained in front of it. *)
Definition udp_header_pbuf (p : addr) (s : istate) : option (option addr * istate) :=
  '(r, h) ← pbuf_add_header (Some p) UDP_HLEN (i_heap s);
  if negb (r =? 0) then
    '(q, h) ← pbuf_alloc custom_free PBUF_IP UDP_HLEN PBUF_RAM h;
    match q with
    | None => Some (None, iheap h s)
    | Some q =>
        b ← get h p;
        h ← (if negb (pb_tot_len b =? 0) then pbuf_chain (Some q) (Some p) h else Some h);
        Some (Some q, iheap h s)
    end
  else Some (Some p, iheap h s).

(** The fields of [struct udp_hdr] written in the order of the source, the
    checksum last; [nochk] when the PCB asks for none. *)
Definition udp_fill (q : addr) (sport dport : Z) (mloop nochk : bool) (src dest : ip_addr) (s : istate) : option istate :=
  b ← get (i_heap s) q;
  b ← payload_write b 0 (bytes16 (lwip_htons sport));
  b ← payload_write b 2 (bytes16 (lwip_htons dport));
  b ← payload_write b 6 (bytes16 0);
  let b := if mloop then set_flags (u8 (pb_flags b .| PBUF_FLAG_MCASTLOOP)) b else b in
  b ← payload_write b 4 (bytes16 (lwip_htons (pb_tot_len b)));
  let h := put (i_heap s) q b in
  if nochk then Some (iheap h s)
  else
    c ← ip_chksum_pseudo odd_payload (Some q) IP_PROTO_UDP (pb_tot_len b) src dest h;
    b ← payload_write b 6 (bytes16 (if c =? 0 then 0xffff else c));
    Some (iheap (put h q b) s).

Definition ip_output_if_src (q : addr) (src dest : ip_addr) (ttl tos proto nif : Z) (s : istate) : option (Z * istate) :=
  if IP_IS_V6 dest then ip6_output_if_src q (ip_2_ip6 src) (ip_2_ip6 dest) ttl tos proto nif s
  else ip4_output_if_src custom_free buf ip4_frag q (Some (ip_2_ip4 src)) (Some (ip_2_ip4 dest)) ttl tos proto nif s.

Definition udp_sendto_if_src (pcb : Z) (p : addr) (dst : ip_addr) (dst_port nif : Z) (src : ip_addr) (s : istate) : option (Z * istate) :=
  u ← pcb_get pcb s;
  if negb (IP_ADDR_PCB_VERSION_MATCH u src) || negb (IP_ADDR_PCB_VERSION_MATCH u dst) then Some (ERR_VAL, s)
  else
    '(err, s) ← (if local_port u =? 0 then udp_bind pcb (Some (local_ip u)) (local_port u) s else Some (ERR_OK, s));
    if negb (err =? ERR_OK) then Some (err, s)
    else
      u ← pcb_get pcb s;
      b ← get (i_heap s) p;
      if u16 (pb_tot_len b + UDP_HLEN) <? pb_tot_len b then Some (ERR_MEM, s)
      else
        '(q, s) ← udp_header_pbuf p s;
        match q with
        | None => Some (ERR_MEM, s)
        | Some q =>
            let mcast := ip_addr_ismulticast dst in
            let mloop := negb (flags u .& UDP_FLAGS_MULTICAST_LOOP =? 0) && mcast in
            s ← udp_fill q (local_port u) dst_port mloop (negb (IP_IS_V6 dst) && negb (flags u .& UDP_FLAGS_NOCHKSUM =? 0)) src dst s;
            s ← inmod nif (nset_hints (Some pcb)) s;
            '(err, s) ← ip_output_if_src q src dst (if mcast then mcast_ttl u else ttl u) (tos u) IP_PROTO_UDP nif s;
            s ← inmod nif (nset_hints None) s;
            s ← (if bool_decide (q = p) then Some s else pbuf_free_i custom_free q s);
            Some (err, s)
        end.

(** The source address, or [ERR_RTE]. *)
Definition udp_source (p : udp_pcb) (dst : ip_addr) (nif : Z) (s : istate) : option (option ip_addr) :=
  v ← inif s nif;
  if IP_IS_V6 dst then
    let lip := ip_2_ip6 (local_ip p) in
    if ip6_addr_isany lip || ip6_addr_ismulticast lip
    then r ← ip6_select_source_address nif (ip_2_ip6 dst) s; Some (option_map IPADDR_V6 r)
    else Some (if netif_get_ip6_addr_match v lip <? 0 then None else Some (local_ip p))
  else
    let lip := ip_2_ip4 (local_ip p) in
    Some (if (lip =? IPADDR_ANY) || ip4_addr_ismulticast lip then Some (IPADDR_V4 (nif_ip_addr v))
          else if negb (lip =? nif_ip_addr v) then None else Some (local_ip p)).

Definition udp_sendto_if (pcb : Z) (p : addr) (dst : ip_addr) (dst_port nif : Z) (s : istate) : option (Z * istate) :=
  u ← pcb_get pcb s;
  if negb (IP_ADDR_PCB_VERSION_MATCH u dst) then Some (ERR_VAL, s)
  else
    src ← udp_source u dst nif s;
    match src with
    | None => Some (ERR_RTE, s)
    | Some src => udp_sendto_if_src pcb p dst dst_port nif src s
    end.

(** The interface to send through. *)
Definition udp_route (p : udp_pcb) (dst : ip_addr) (s : istate) : option (option Z) :=
  if negb (netif_idx p =? NETIF_NO_INDEX) then netif_get_by_index (netif_idx p) (i_net s)
  else
    m ← (if ip_addr_ismulticast dst then
           if negb (mcast_ifindex p =? NETIF_NO_INDEX) then netif_get_by_index (mcast_ifindex p) (i_net s)
           else if IP_IS_V4 dst && negb (mcast_ip4 p =? IPADDR_ANY) && negb (mcast_ip4 p =? IPADDR_BROADCAST)
           then ip4_route (mcast_ip4 p) s else Some None
         else Some None);
    match m with
    | Some n => Some (Some n)
    | None => if IP_IS_V6 dst then ip6_route (ip_2_ip6 (local_ip p)) (ip_2_ip6 dst) s else ip4_route (ip_2_ip4 dst) s
    end.

Definition udp_sendto (pcb : Z) (p : addr) (dst : ip_addr) (dst_port : Z) (s : istate) : option (Z * istate) :=
  u ← pcb_get pcb s;
  if negb (IP_ADDR_PCB_VERSION_MATCH u dst) then Some (ERR_VAL, s)
  else
    nif ← udp_route u dst s;
    match nif with
    | None => Some (ERR_RTE, s)
    | Some nif => udp_sendto_if pcb p dst dst_port nif s
    end.

Definition udp_send (pcb : Z) (p : addr) (s : istate) : option (Z * istate) :=
  u ← pcb_get pcb s;
  if IP_IS_ANY_TYPE (remote_ip u) then Some (ERR_VAL, s) else udp_sendto pcb p (remote_ip u) (remote_port u) s.

End udp.
