(* ===== verification/UdpPcb.v ===== *)
(** The list of UDP PCBs: ports, bindings, and which PCB a datagram is for. *)
From S2P Require Import Prelude Bits Def IpAddr Pbuf PbufData Chksum NetifRec Netif XnetTap Ethernet Ip4Addr Etharp.
From S2P Require Import IpState IpUpper NetifLoop Ip4Out Icmp Ip4In Udp.

(** The listed PCBs with their contents. *)
Definition listed (u : udp_state) (n : Z) (p : udp_pcb) : Prop := n ∈ udp_pcbs u /\ udp_mem u !! n = Some p.

Definition port_taken (u : udp_state) (port : Z) : Prop := exists n p, listed u n p /\ local_port p = port.

Definition pcbs_live (u : udp_state) : Prop := forall n, n ∈ udp_pcbs u -> is_Some (udp_mem u !! n).

Lemma any_pcb_spec u test l :
  (forall n, n ∈ l -> is_Some (udp_mem u !! n)) ->
  exists b : bool, any_pcb u test l = Some b /\
    if b then exists n p, n ∈ l /\ udp_mem u !! n = Some p /\ test n p = true
    else forall n p, n ∈ l -> udp_mem u !! n = Some p -> test n p = false.
Proof.
  induction l as [|n l IH]; intros Hl; cbn [any_pcb].
  - exists false. split; [done|]. intros n p Hn. by apply elem_of_nil in Hn.
  - destruct (Hl n ltac:(by left)) as [p Hp]. rewrite Hp; cbn [mbind option_bind]. destruct (test n p) eqn:Et.
    + exists true. split; [done|]. exists n, p. split; [by left|done].
    + destruct IH as (b & E & Hb); [intros m Hm; apply Hl; by right|]. exists b. split; [done|]. destruct b.
      * destruct Hb as (m & q & Hm & Hq). exists m, q. split; [by right|done].
      * intros m q [->|Hm]%elem_of_cons Hq; [congruence|eauto].
Qed.

(** ** Ephemeral ports *)
Definition in_range (port : Z) : Prop := UDP_LOCAL_PORT_RANGE_START <= port <= UDP_LOCAL_PORT_RANGE_END.

(** The [k]-th port after [x]. *)
Definition port_after (x k : Z) : Z := UDP_LOCAL_PORT_RANGE_START + (x - UDP_LOCAL_PORT_RANGE_START + k) mod 0x4000.

Lemma port_after_range x k : in_range (port_after x k).
Proof. unfold in_range, port_after, UDP_LOCAL_PORT_RANGE_START, UDP_LOCAL_PORT_RANGE_END. pose proof (Z.mod_pos_bound (x - 0xc000 + k) 0x4000). lia. Qed.

Lemma port_after_next x :
  in_range x -> (if x =? UDP_LOCAL_PORT_RANGE_END then UDP_LOCAL_PORT_RANGE_START else u16 (x + 1)) = port_after x 1.
Proof.
  unfold in_range, port_after, UDP_LOCAL_PORT_RANGE_START, UDP_LOCAL_PORT_RANGE_END, u16. change (2 ^ 16) with 65536. intros Hx.
  destruct (Z.eqb_spec x 0xffff); zdm; lia.
Qed.

Lemma port_after_add x k : port_after (port_after x 1) k = port_after x (k + 1).
Proof.
  unfold port_after. f_equal. rewrite (Z.add_comm UDP_LOCAL_PORT_RANGE_START), Z.add_simpl_r, Z.add_mod_idemp_l by lia. f_equal. lia.
Qed.

(** Every port of the range is among the next [0x4000]. *)
Lemma port_after_all x y : in_range y -> exists k, 1 <= k <= 0x4000 /\ port_after x k = y.
Proof.
  unfold in_range, port_after, UDP_LOCAL_PORT_RANGE_START, UDP_LOCAL_PORT_RANGE_END. intros Hy.
  exists (1 + (y - 0xc000 - (x - 0xc000) - 1) mod 0x4000). pose proof (Z.mod_pos_bound (y - 0xc000 - (x - 0xc000) - 1) 0x4000).
  split; [lia|]. rewrite Z.add_assoc, Z.add_mod_idemp_r by lia. rewrite Z.mod_small; lia.
Qed.

Lemma new_port_loop fuel : forall n u,
  pcbs_live u -> in_range (udp_port u) -> 0 <= n < 0x4000 -> 0x4000 - n <= Z.of_nat fuel ->
  exists port u', udp_new_port_loop fuel n u = Some (port, u') /\ udp_mem u' = udp_mem u /\ udp_pcbs u' = udp_pcbs u /\ in_range (udp_port u') /\
    ((port = 0 /\ forall k, 1 <= k <= 0x4000 - n -> port_taken u (port_after (udp_port u) k)) \/
     (in_range port /\ ~ port_taken u port)).
Proof.
  induction fuel as [|fuel IH]; intros n u Hl Hr Hn Hf; [lia|]. cbn [udp_new_port_loop].
  rewrite port_after_next by done. set (x1 := port_after (udp_port u) 1).
  pose proof (port_after_range (udp_port u) 1) as Hr1. fold x1 in Hr1. set (u1 := set_udp_port x1 u).
  destruct (any_pcb_spec u1 (fun _ p => local_port p =? x1) (udp_pcbs u) Hl) as (b & Eb & Hb).
  change (udp_port u1) with x1. change (udp_pcbs u1) with (udp_pcbs u). rewrite Eb; cbn [mbind option_bind].
  destruct b.
  - assert (Ht : port_taken u x1).
    { destruct Hb as (m & q & Hm & Hq & Ht%Z.eqb_eq). by exists m, q. }
    unfold UDP_LOCAL_PORT_RANGE_START, UDP_LOCAL_PORT_RANGE_END. rewrite u16_small by lia.
    destruct (Z.ltb_spec (0xffff - 0xc000) (n + 1)).
    + exists 0, u1. split_and!; try done. left. split; [done|]. intros k Hk. by replace k with 1 by lia.
    + destruct (IH (n + 1) u1) as (port & u' & -> & Em & El & Hr' & Hc); [done|done|lia|lia|]. exists port, u'. split_and!; try done.
      destruct Hc as [[-> Hk]|[? ?]]; [left|by right]. split; [done|]. intros k Hk'. destruct (decide (k = 1)) as [->|Hk1]; [done|].
      replace k with ((k - 1) + 1) by lia. rewrite <- port_after_add. apply (Hk (k - 1)). lia.
  - exists x1, u1. split_and!; try done. right. split; [done|]. intros (m & q & [Hm Hq] & Hp). pose proof (Hb m q Hm Hq) as E.
    rewrite Hp, Z.eqb_refl in E. done.
Qed.

(** A free port, or zero when the whole range is taken. *)
Lemma udp_new_port_ok u :
  pcbs_live u -> in_range (udp_port u) ->
  exists port u', udp_new_port u = Some (port, u') /\ udp_mem u' = udp_mem u /\ udp_pcbs u' = udp_pcbs u /\ in_range (udp_port u') /\
    ((port = 0 /\ forall x, in_range x -> port_taken u x) \/ (in_range port /\ ~ port_taken u port)).
Proof.
  intros Hl Hr. destruct (new_port_loop port_fuel 0 u Hl Hr) as (port & u' & E & Em & El & Hr' & Hc); [lia|unfold port_fuel; lia|].
  exists port, u'. split_and!; try done. destruct Hc as [[-> Hk]|?]; [left|by right]. split; [done|]. intros x Hx.
  destruct (port_after_all (udp_port u) x Hx) as (k & Hk' & <-). apply Hk. lia.
Qed.

Lemma udp_init_range rand u : in_range (udp_port (udp_init rand u)).
Proof.
  cbn. unfold in_range, UDP_LOCAL_PORT_RANGE_START, UDP_LOCAL_PORT_RANGE_END. change (u16 (Z.lnot 0xc000)) with 0x3fff.
  rewrite (land_mask 14 _ 0x3fff) by done. pose proof (Z.mod_pos_bound (u32 rand) (2 ^ 14)). change (2 ^ 14) with 0x4000 in *. rewrite u16_small; lia.
Qed.

(** ** Which PCB a datagram is for *)
Section demux.
  Context (u : udp_state) (idx mask own src dest sport dport : Z) (bcast : bool).

(** The PCB is bound to the datagram's destination. *)
Definition lmatch (p : udp_pcb) : bool := (local_port p =? dport) && udp_input_local_match p idx mask dest bcast.

(** The PCB's remote end is the datagram's source. *)
Definition rmatch (p : udp_pcb) : bool :=
  (remote_port p =? sport) && (ip_addr_isany (remote_ip p) || ip_addr_cmp (remote_ip p) (IPADDR_V4 src)).

Definition connected (p : udp_pcb) : bool := negb (flags p .& UDP_FLAGS_CONNECTED =? 0).

Lemma uncon_spec n p uncon :
  udp_mem u !! n = Some p -> (forall c, uncon = Some c -> is_Some (udp_mem u !! c)) ->
  exists r, udp_uncon u own dest bcast n p uncon = Some r /\
    if connected p then r = uncon else exists c, r = Some c /\ (c = n \/ uncon = Some c).
Proof.
  intros Hp Hc. unfold udp_uncon, connected. destruct (negb _); [by eexists|]. destruct uncon as [c|]; [|exists (Some n); split; [done|]; exists n; auto].
  destruct (Hc c eq_refl) as [q Hq]. rewrite Hq; cbn [mbind option_bind]. eexists. split; [reflexivity|]. eexists. split; [reflexivity|].
  repeat match goal with |- context [if ?x then _ else _] => destruct x end; auto.
Qed.

(** A fully matching PCB if there is one, else an unconnected one if there is one. *)
Lemma udp_demux_spec l : forall uncon,
  (forall n, n ∈ l -> is_Some (udp_mem u !! n)) ->
  (forall c, uncon = Some c -> exists p, udp_mem u !! c = Some p /\ lmatch p = true /\ connected p = false) ->
  exists full uncon', udp_demux u idx mask own src dest sport dport bcast l uncon = Some (full, uncon') /\
    match full with
    | Some n => exists p, n ∈ l /\ udp_mem u !! n = Some p /\ lmatch p = true /\ rmatch p = true
    | None =>
        (forall n p, n ∈ l -> udp_mem u !! n = Some p -> lmatch p = true -> rmatch p = false) /\
        match uncon' with
        | Some c => (exists p, udp_mem u !! c = Some p /\ lmatch p = true /\ connected p = false) /\ (c ∈ l \/ uncon = Some c)
        | None => uncon = None /\ forall n p, n ∈ l -> udp_mem u !! n = Some p -> lmatch p = true -> connected p = true
        end
    end.
Proof.
  induction l as [|n l IH]; intros uncon Hl Hu; cbn [udp_demux].
  - exists None, uncon. split; [done|]. split; [intros n p Hn; by apply elem_of_nil in Hn|]. destruct uncon as [c|]; [auto|].
    split; [done|]. intros n p Hn. by apply elem_of_nil in Hn.
  - destruct (Hl n ltac:(by left)) as [p Hp]. rewrite Hp; cbn [mbind option_bind]. fold (lmatch p).
    assert (Hl' : forall m, m ∈ l -> is_Some (udp_mem u !! m)) by (intros m Hm; apply Hl; by right).
    destruct (lmatch p) eqn:Elm.
    + destruct (uncon_spec n p uncon Hp) as (r & -> & Hr); [intros c Hc; destruct (Hu c Hc) as (q & ? & _); eauto|]. cbn [mbind option_bind].
      fold (rmatch p). destruct (rmatch p) eqn:Erm.
      { exists (Some n), r. split; [done|]. exists p. split; [by left|done]. }
      destruct (IH r Hl') as (full & uncon' & -> & Hc).
      { intros c Hc. destruct (connected p) eqn:Econ; [apply Hu; congruence|]. destruct Hr as (c' & Ec & [->|Hc']); [exists p; split_and!; congruence|].
        apply Hu. congruence. }
      exists full, uncon'. split; [done|]. destruct full as [m|].
      { destruct Hc as (q & Hm & ?). exists q. split; [by right|done]. }
      destruct Hc as [Hn Hc]. split.
      { intros m q [->|Hm]%elem_of_cons Hq Hlm; [congruence|eauto]. }
      destruct uncon' as [c|].
      * destruct Hc as [Hx Hin]. split; [done|]. destruct Hin as [Hin|Hin]; [left; by right|].
        destruct (connected p); [right; congruence|]. destruct Hr as (c' & Ec & [->|Hc']); [left; apply elem_of_cons; left; congruence|right; congruence].
      * destruct Hc as [Er Hall]. destruct (connected p) eqn:Econ; [|destruct Hr as (? & ? & _); congruence]. split; [congruence|].
        intros m q [->|Hm]%elem_of_cons Hq Hlm; [congruence|eauto].
    + destruct (IH uncon Hl' Hu) as (full & uncon' & -> & Hc). exists full, uncon'. split; [done|]. destruct full as [m|].
      { destruct Hc as (q & Hm & ?). exists q. split; [by right|done]. }
      destruct Hc as [Hn Hc]. split; [intros m q [->|Hm]%elem_of_cons Hq Hlm; [congruence|eauto]|]. destruct uncon' as [c|].
      * destruct Hc as [Hx [Hin|Hin]]; (split; [done|]); [left; by right|by right].
      * destruct Hc as [Er Hall]. split; [done|]. intros m q [->|Hm]%elem_of_cons Hq Hlm; [congruence|eauto].
Qed.

End demux.

(** ** Bindings that exclude each other *)

(** Two addresses a datagram could both be for. *)
Definition overlap (a b : ip_addr) : bool :=
  (same_type a b && (ip_addr_cmp a b || ip_addr_isany b || ip_addr_isany a)) || IP_IS_ANY_TYPE a || IP_IS_ANY_TYPE b.

(** Two PCBs that must not be bound at the same time. *)
Definition clash (p q : udp_pcb) : bool :=
  ((so_options p .& SOF_REUSEADDR =? 0) || (so_options q .& SOF_REUSEADDR =? 0)) && (local_port q =? local_port p) && overlap (local_ip q) (local_ip p).

Lemma ip_addr_cmp_sym a b : ip_addr_cmp a b = ip_addr_cmp b a.
Proof.
  destruct a as [a|a|], b as [b|b|]; try done; unfold ip_addr_cmp; cbn; [apply Z.eqb_sym|].
  unfold ip6_addr_cmp, ip6_addr_cmp_zoneless. f_equal; [|apply Z.eqb_sym]. by rewrite (Z.eqb_sym (addr0 a)), (Z.eqb_sym (addr1 a)), (Z.eqb_sym (addr2 a)), (Z.eqb_sym (addr3 a)).
Qed.

Lemma overlap_sym a b : overlap a b = overlap b a.
Proof.
  unfold overlap. rewrite (ip_addr_cmp_sym a b). destruct a, b; try done; cbn [same_type IP_IS_ANY_TYPE]; rewrite !orb_false_r, !andb_true_l, <- !orb_assoc;
    f_equal; apply orb_comm.
Qed.

Lemma clash_sym p q : clash p q = clash q p.
Proof. unfold clash. rewrite (overlap_sym (local_ip q)), (Z.eqb_sym (local_port q)). f_equal. f_equal. apply orb_comm. Qed.

Lemma bind_conflict_clash pcb p ip port n q : bind_conflict pcb p ip port n q = negb (pcb =? n) && clash (set_local ip port p) q.
Proof. unfold bind_conflict, clash, overlap. cbn. by rewrite <- !andb_assoc. Qed.

(** The list of PCBs is sound: no clash, and the bound PCBs are the listed ones. *)
Record udp_ok (u : udp_state) : Prop := UdpOk {
  uo_live : pcbs_live u;
  uo_nodup : NoDup (udp_pcbs u);
  uo_port : in_range (udp_port u);
  uo_bound : forall n p, udp_mem u !! n = Some p -> local_port p <> 0 -> n ∈ udp_pcbs u;
  uo_excl : forall n p m q, listed u n p -> listed u m q -> n <> m -> clash p q = false;
}.

Lemma udp_init_ok rand port0 : udp_ok (udp_init rand (UdpState ∅ [] port0)).
Proof.
  split; [..|apply udp_init_range| |].
  - intros n Hn. by apply elem_of_nil in Hn.
  - by constructor.
  - intros n p Hp. cbn in Hp. by rewrite lookup_empty in Hp.
  - intros n p m q [Hn _]. by apply elem_of_nil in Hn.
Qed.

(** With sound bindings a datagram to one of our addresses can match one PCB only,
    but for PCBs that all allow to share. *)
Lemma unicast_unique u idx mask dest dport n p m q :
  udp_ok u -> listed u n p -> listed u m q -> lmatch idx mask dest dport false p = true -> lmatch idx mask dest dport false q = true ->
  so_options p .& SOF_REUSEADDR = 0 -> n = m.
Proof.
  intros HU Hp Hq Mp Mq Hr. destruct (decide (n = m)) as [|Hne]; [done|]. exfalso. pose proof (uo_excl _ HU _ _ _ _ Hp Hq Hne) as Hc.
  unfold clash in Hc. rewrite Hr, Z.eqb_refl in Hc. cbn [orb andb] in Hc. unfold lmatch in Mp, Mq. rewrite !andb_true_iff, !Z.eqb_eq in Mp, Mq.
  destruct Mp as [Ep Mp], Mq as [Eq Mq]. rewrite Ep, Eq, Z.eqb_refl in Hc. cbn [andb] in Hc. unfold udp_input_local_match in Mp, Mq.
  destruct (negb (netif_idx p =? _) && _); [done|]. destruct (negb (netif_idx q =? _) && _); [done|].
  unfold overlap in Hc. destruct (local_ip p) as [a|a|], (local_ip q) as [b|b|]; cbn in Mp, Mq, Hc; rewrite ?orb_true_r in *; try done.
  unfold ip_addr_isany, ip_addr_cmp in Mp, Mq, Hc. cbn in Mp, Mq, Hc. rewrite !orb_true_iff, !Z.eqb_eq in Mp, Mq.
  rewrite !orb_false_r, !orb_false_iff, !Z.eqb_neq in Hc. destruct Hc as [[? ?] ?]. destruct Mp, Mq; congruence.
Qed.
