(* ===== verification/UdpOps.v ===== *)
(** Binding, connecting and removing UDP PCBs keeps the list of PCBs sound. *)
From S2P Require Import Prelude Bits Def IpAddr Pbuf PbufData Chksum NetifRec Netif XnetTap Ethernet Ip4Addr Etharp.
From S2P Require Import IpState IpUpper NetifLoop Ip4Out Icmp Ip4In Udp UdpPcb.

(** ** Changes of the memory *)
Lemma udp_put_eq n p u : udp_mem (udp_put n p u) !! n = Some p.
Proof. apply lookup_insert_eq. Qed.

Lemma udp_put_ne n m p u : n <> m -> udp_mem (udp_put n p u) !! m = udp_mem u !! m.
Proof. intros; by apply lookup_insert_ne. Qed.

Lemma put_live n p u : pcbs_live u -> pcbs_live (udp_put n p u).
Proof.
  intros Hl m Hm. destruct (decide (n = m)) as [->|Hne]; [rewrite udp_put_eq; by eexists|]. rewrite udp_put_ne by done. by apply Hl.
Qed.

(** A PCB with the same binding that shares at least as much. *)
Definition shares_too (p p' : udp_pcb) : Prop :=
  local_ip p' = local_ip p /\ local_port p' = local_port p /\ (so_options p .& SOF_REUSEADDR <> 0 -> so_options p' .& SOF_REUSEADDR <> 0).

Lemma clash_shares p p' q q' : shares_too p p' -> shares_too q q' -> clash p q = false -> clash p' q' = false.
Proof.
  intros (E1 & E2 & E3) (E4 & E5 & E6). unfold clash. rewrite E1, E2, E4, E5. destruct (overlap _ _); [|by rewrite !andb_false_r].
  destruct (local_port q =? _); [|by rewrite !andb_false_r]. rewrite !andb_true_r, !orb_false_iff, !Z.eqb_neq. tauto.
Qed.

Lemma put_shares_ok n p p' u :
  udp_ok u -> udp_mem u !! n = Some p -> local_port p' = local_port p -> (n ∈ udp_pcbs u -> shares_too p p') -> udp_ok (udp_put n p' u).
Proof.
  intros [H1 H2 H3 H4 H5] Hp Ep Hsh.
  assert (Hlist : forall m q, listed (udp_put n p' u) m q -> exists q0, listed u m q0 /\ shares_too q0 q).
  { intros m q [Hm Hq]. destruct (decide (n = m)) as [<-|Hne].
    - rewrite udp_put_eq in Hq. injection Hq as <-. exists p. split; [done|auto].
    - rewrite udp_put_ne in Hq by done. by exists q. }
  split; try done; [by apply put_live|..].
  - intros m q Hq Hport. destruct (decide (n = m)) as [<-|Hne].
    + rewrite udp_put_eq in Hq. injection Hq as <-. apply (H4 n p); [done|]. by rewrite <- Ep.
    + rewrite udp_put_ne in Hq by done. by eapply H4.
  - intros a q b r (q0 & Hq & Hsq)%Hlist (r0 & Hr & Hsr)%Hlist Hne. eapply clash_shares; [exact Hsq|exact Hsr|]. by eapply H5.
Qed.

(** A change of what the bindings do not depend on. *)
Lemma put_ok n p p' u :
  udp_ok u -> udp_mem u !! n = Some p -> local_ip p' = local_ip p -> local_port p' = local_port p -> so_options p' = so_options p ->
  udp_ok (udp_put n p' u).
Proof. intros HU Hp Ei Ep Eo. eapply put_shares_ok; try done. intros _. split_and!; [done|done|by rewrite Eo]. Qed.

(** The bindings depend on which PCBs are listed, not on their order. *)
Lemma reorder_ok u l : udp_ok u -> Permutation l (udp_pcbs u) -> udp_ok (set_pcbs l u).
Proof.
  intros [H1 H2 H3 H4 H5] HP. split; try done; cbn.
  - intros n Hn. apply H1. cbn in Hn. by rewrite <- HP.
  - by rewrite HP.
  - intros n p Hp Hport. cbn. rewrite HP. by eapply H4.
  - intros n p m q [Hn Hp] [Hm Hq]. cbn in *. apply H5; (split; [by rewrite <- HP|done]).
Qed.

Lemma to_front_perm n l : NoDup l -> n ∈ l -> Permutation (to_front n l) l.
Proof.
  intros Hnd Hn. unfold to_front. apply NoDup_Permutation; [|done|].
  - apply NoDup_cons. split; [|by apply NoDup_filter]. rewrite list_elem_of_filter. tauto.
  - intros m. rewrite elem_of_cons, list_elem_of_filter. split; [intros [->|[_ ?]]; done|]. intros Hm. destruct (decide (m = n)); auto.
Qed.

Section ops.
  Context {U : Upper} `{!Component udp_state}.
  Context (ip6_route : ip6_addr -> ip6_addr -> istate -> option (option Z)).

(** [ip6_route] returns an interface or none. *)
Definition routes6 : Prop :=
  forall src dst s, exists r, ip6_route src dst s = Some r /\ match r with Some n => is_Some (inif s n) | None => True end.

Context (Hroute : routes6).

(** The address with the zone it gets when it lacks one. *)
Definition zoned (ip : ip_addr) (src : ip6_addr -> ip6_addr) (s : istate) : option ip_addr :=
  match ip with
  | IPADDR_V6 a => if ip6_addr_lacks_zone a then IPADDR_V6 <$> ip6_addr_select_zone ip6_route a (src a) s else Some ip
  | _ => Some ip
  end.

Lemma zoned_total ip src s : exists ip', zoned ip src s = Some ip' /\ same_type ip ip' = true /\ (IP_IS_V6 ip = false -> ip' = ip).
Proof using Hroute.
  destruct ip as [a|a|]; cbn; [by eexists| |by eexists]. destruct (ip6_addr_lacks_zone a); [|by eexists].
  unfold ip6_addr_select_zone. destruct (Hroute (src a) a s) as (r & -> & Hr). cbn [mbind option_bind].
  destruct r as [n|]; [|by eexists]. destruct Hr as [v ->]. cbn. by eexists.
Qed.

(** The port a PCB gets: the one asked for when no other PCB excludes it, or a
    free one of the ephemeral range. *)
Lemma bind_port pcb p ip port s :
  udp_ok (cget s) ->
  exists port' s', (if port =? 0 then '(port, u) ← udp_new_port (cget s); Some (port, cset u s)
                    else used ← any_pcb (cget s) (bind_conflict pcb p ip port) (udp_pcbs (cget s));
                         Some (if used : bool then 0 else port, s)) = Some (port', s') /\
    udp_ok (cget s') /\ udp_mem (cget s') = udp_mem (cget s) /\ udp_pcbs (cget s') = udp_pcbs (cget s) /\ i_l s' = i_l s /\
    (port' <> 0 -> (forall m q, listed (cget s) m q -> pcb <> m -> clash (set_local ip port' p) q = false) /\
       if port =? 0 then in_range port' /\ ~ port_taken (cget s) port' else port' = port) /\
    (port' = 0 -> if port =? 0 then forall x, in_range x -> port_taken (cget s) x
                  else exists m q, listed (cget s) m q /\ pcb <> m /\ clash (set_local ip port p) q = true).
Proof using Type.
  intros HU. pose proof HU as [H1 H2 H3 H4 H5]. destruct (Z.eqb_spec port 0) as [->|Hport].
  - destruct (udp_new_port_ok (cget s) H1 H3) as (port' & u' & -> & Em & El & Hr & Hc). cbn [mbind option_bind].
    exists port', (cset u' s). rewrite cget_cset. split; [done|].
    assert (HU' : udp_ok u').
    { destruct u'; cbn in *; subst. split; try done. }
    split_and!; try done.
    + intros Hne. destruct Hc as [[? _]|[Hin Hnt]]; [done|]. split; [|done]. intros m q Hm Hne'. unfold clash. cbn.
      destruct (Z.eqb_spec (local_port q) port') as [E|]; [|by rewrite andb_false_r]. exfalso. apply Hnt. by exists m, q.
    + intros ->. destruct Hc as [[_ ?]|[Hin _]]; [done|]. unfold in_range, UDP_LOCAL_PORT_RANGE_START in Hin. lia.
  - destruct (any_pcb_spec (cget s) (bind_conflict pcb p ip port) (udp_pcbs (cget s)) H1) as (b & -> & Hb). cbn [mbind option_bind].
    exists (if b then 0 else port), s. split_and!; try done; destruct b; try done.
    + intros _. split; [|done]. intros m q [Hm Hq] Hne. pose proof (Hb m q Hm Hq) as E. rewrite bind_conflict_clash in E.
      apply Z.eqb_neq in Hne. by rewrite Hne in E.
    + intros _. destruct Hb as (m & q & Hm & Hq & E). rewrite bind_conflict_clash, andb_true_iff, negb_true_iff, Z.eqb_neq in E. by exists m, q.
Qed.

Lemma bound_ok pcb p ip port u :
  udp_ok u -> udp_mem u !! pcb = Some p -> (forall m q, listed u m q -> pcb <> m -> clash (set_local ip port p) q = false) ->
  let u' := udp_put pcb (set_local ip port p) u in
  udp_ok (if bool_decide (pcb ∈ udp_pcbs u) then u' else set_pcbs (pcb :: udp_pcbs u') u').
Proof using Type.
  intros [H1 H2 H3 H4 H5] Hp Hex u'. match goal with |- udp_ok ?x => set (u2 := x) end.
  assert (Hl : forall m, m ∈ udp_pcbs u2 <-> m = pcb \/ m ∈ udp_pcbs u).
  { intros m. subst u2. case_bool_decide; cbn; [|by rewrite elem_of_cons]. split; [auto|]. by intros [->|?]. }
  assert (Em : udp_mem u2 = udp_mem u') by (subst u2; by case_bool_decide).
  assert (Hlist : forall m q, listed u2 m q -> (m = pcb /\ q = set_local ip port p) \/ (m <> pcb /\ listed u m q)).
  { intros m q [Hm Hq]. rewrite Em in Hq. destruct (decide (m = pcb)) as [->|Hne]; [left; unfold u' in Hq; rewrite udp_put_eq in Hq; by injection Hq as <-|right].
    split; [done|]. unfold u' in Hq. rewrite udp_put_ne in Hq by done. split; [|done]. apply Hl in Hm as [?|?]; done. }
  split.
  - intros m Hm. rewrite Em. apply Hl in Hm as [->|Hm]; [unfold u'; rewrite udp_put_eq; by eexists|]. by apply put_live.
  - subst u2. case_bool_decide; cbn; [done|]. by apply NoDup_cons.
  - subst u2. by case_bool_decide.
  - intros m q Hq Hport. apply Hl. destruct (decide (m = pcb)) as [->|Hne]; [by left|right]. rewrite Em in Hq. unfold u' in Hq.
    rewrite udp_put_ne in Hq by done. by eapply H4.
  - intros a q b r [[-> ->]|[Ha Hq]]%Hlist [[-> ->]|[Hb Hr]]%Hlist Hne; [done|..|by eapply H5].
    + by eapply Hex.
    + rewrite clash_sym. by eapply Hex.
Qed.

(** [udp_bind] gives the PCB an address and port no other one excludes, or
    reports that they are in use. *)
Lemma udp_bind_ok pcb ip port s p :
  udp_ok (cget s) -> pcb_get pcb s = Some p ->
  exists r s' ip', udp_bind ip6_route pcb ip port s = Some (r, s') /\ udp_ok (cget s') /\ i_l s' = i_l s /\
    zoned (default (IPADDR_V4 IPADDR_ANY) ip) id s = Some ip' /\
    ((r = ERR_USE /\ udp_mem (cget s') = udp_mem (cget s) /\ udp_pcbs (cget s') = udp_pcbs (cget s) /\
      if port =? 0 then forall x, in_range x -> port_taken (cget s) x
      else exists m q, listed (cget s) m q /\ pcb <> m /\ clash (set_local ip' port p) q = true) \/
     (r = ERR_OK /\ exists port', listed (cget s') pcb (set_local ip' port' p) /\
        (forall m, m <> pcb -> udp_mem (cget s') !! m = udp_mem (cget s) !! m) /\
        if port =? 0 then in_range port' /\ ~ port_taken (cget s) port' else port' = port)).
Proof using Hroute.
  intros HU Hp. unfold udp_bind. rewrite Hp; cbn [mbind option_bind].
  destruct (zoned_total (default (IPADDR_V4 IPADDR_ANY) ip) id s) as (ip' & Ez & _).
  change (match default (IPADDR_V4 IPADDR_ANY) ip with
          | IPADDR_V6 a => if ip6_addr_lacks_zone a then IPADDR_V6 <$> ip6_addr_select_zone ip6_route a a s else Some (default (IPADDR_V4 IPADDR_ANY) ip)
          | _ => Some (default (IPADDR_V4 IPADDR_ANY) ip) end) with (zoned (default (IPADDR_V4 IPADDR_ANY) ip) id s).
  rewrite Ez; cbn [mbind option_bind].
  destruct (bind_port pcb p ip' port s HU) as (port' & s1 & -> & HU1 & Em & El & Ei & Hok & Hno). cbn [mbind option_bind].
  destruct (Z.eqb_spec port' 0) as [->|Hne].
  - exists ERR_USE, s1, ip'. split; [done|]. split; [done|]. split; [done|]. split; [done|]. left. split_and!; try done. by apply Hno.
  - destruct (Hok Hne) as [Hex Hport].
    assert (Hex1 : forall m q, listed (cget s1) m q -> pcb <> m -> clash (set_local ip' port' p) q = false).
    { intros m q [Hm Hq]. rewrite El in Hm. rewrite Em in Hq. by apply Hex. }
    assert (Hp1 : udp_mem (cget s1) !! pcb = Some p) by by rewrite Em.
    pose proof (bound_ok pcb p ip' port' (cget s1) HU1 Hp1 Hex1) as HU2. cbn zeta in HU2. rewrite El in HU2.
    eexists ERR_OK, _, ip'. split; [reflexivity|]. rewrite !cget_cset. cbn [udp_pcbs udp_put] in *. rewrite El in *. split; [done|]. split; [done|]. split; [done|].
    right. split; [done|]. exists port'. split_and!; try done.
    + unfold listed. case_bool_decide; cbn; rewrite lookup_insert_eq; rewrite ?El; split; try done. by left.
    + intros m Hm. case_bool_decide; cbn; rewrite lookup_insert_ne by done; by rewrite Em.
Qed.

(** ** The other operations *)
Lemma pcb_put_ok n p p' s :
  udp_ok (cget s) -> pcb_get n s = Some p -> local_ip p' = local_ip p -> local_port p' = local_port p -> so_options p' = so_options p ->
  udp_ok (cget (pcb_put n p' s)).
Proof using Type. intros. unfold pcb_put. rewrite cget_cset. by eapply put_ok. Qed.

(** Only the PCBs change. *)
Lemma udp_bind_cset pcb ip port s r s' : udp_bind ip6_route pcb ip port s = Some (r, s') -> exists u, s' = cset u s.
Proof using Type.
  unfold udp_bind. destruct (pcb_get pcb s) as [p|]; [|done]. cbn [mbind option_bind].
  match goal with |- context [match default ?d ip with _ => _ end] => destruct (match default d ip with IPADDR_V6 a => _ | _ => _ end) as [ip'|]; [|done] end.
  cbn [mbind option_bind].
  assert (Hc : forall port' s1, (if port =? 0 then '(port, u) ← udp_new_port (cget s); Some (port, cset u s)
      else used ← any_pcb (cget s) (bind_conflict pcb p ip' port) (udp_pcbs (cget s)); Some (if used : bool then 0 else port, s)) = Some (port', s1) ->
    exists u, s1 = cset u s).
  { intros port' s1. destruct (port =? 0).
    - destruct (udp_new_port (cget s)) as [[? u]|]; [|done]. intros [= _ <-]. by exists u.
    - destruct (any_pcb _ _ _); [|done]. intros [= _ <-]. exists (cget s). by rewrite cset_cget. }
  match goal with |- context [mbind _ ?x] => destruct x as [[port' s1]|]; [|done] end. destruct (Hc _ _ eq_refl) as [u ->]. cbn [mbind option_bind].
  destruct (port' =? 0); intros [= _ <-]; [by exists u|]. eexists. apply cset_cset.
Qed.

(** Before it sends or connects, a PCB without a port gets one. *)
Lemma bound_first pcb p s :
  udp_ok (cget s) -> pcb_get pcb s = Some p ->
  exists r u q, (if local_port p =? 0 then udp_bind ip6_route pcb (Some (local_ip p)) (local_port p) s else Some (ERR_OK, s)) = Some (r, cset u s) /\
    udp_ok u /\ udp_mem u !! pcb = Some q /\ (local_port p <> 0 -> u = cget s) /\
    ((r = ERR_USE /\ (forall x, in_range x -> port_taken (cget s) x)) \/
     (r = ERR_OK /\ pcb ∈ udp_pcbs u /\ local_port q <> 0 /\ exists ip port, q = set_local ip port p /\ (IP_IS_V6 (local_ip p) = false -> ip = local_ip p))).
Proof using Hroute.
  intros HU Hp. destruct (Z.eqb_spec (local_port p) 0) as [E0|E0].
  - rewrite E0. destruct (udp_bind_ok pcb (Some (local_ip p)) 0 s p HU Hp) as (r & s1 & ip' & E & HU1 & Ei & Ez & Hc).
    destruct (udp_bind_cset _ _ _ _ _ _ E) as [u ->]. rewrite cget_cset in *. rewrite E. exists r, u.
    destruct Hc as [(-> & Em & _ & Hfull)|(-> & port' & [Hl Hm] & _ & Hport & _)].
    + exists p. split_and!; try done; [by rewrite Em|by left].
    + eexists. split; [done|]. split; [done|]. split; [exact Hm|]. split; [by intros ?|]. right. split; [done|]. split; [done|].
      split; [cbn; unfold in_range, UDP_LOCAL_PORT_RANGE_START in Hport; lia|]. exists ip', port'. split; [done|]. intros Hv.
      destruct (zoned_total (default (IPADDR_V4 IPADDR_ANY) (Some (local_ip p))) id s) as (ip2 & Ez2 & _ & Hv4). cbn in *. rewrite Ez in Ez2. injection Ez2 as <-. auto.
  - exists ERR_OK, (cget s), p. rewrite cset_cget. split_and!; try done. right. split; [done|]. split; [by eapply uo_bound|]. split; [done|].
    exists (local_ip p), (local_port p). split; [by destruct p|done].
Qed.

Lemma udp_connect_ok pcb ip port s p :
  udp_ok (cget s) -> pcb_get pcb s = Some p ->
  exists r s', udp_connect ip6_route pcb ip port s = Some (r, s') /\ udp_ok (cget s') /\ i_l s' = i_l s /\
    (r = ERR_USE \/
     (r = ERR_OK /\ exists q, listed (cget s') pcb q /\ connected q = true /\ remote_port q = port /\ (IP_IS_V6 ip = false -> remote_ip q = ip))).
Proof using Hroute.
  intros HU Hp. unfold udp_connect. rewrite Hp; cbn [mbind option_bind].
  destruct (bound_first pcb p s HU Hp) as (r & u & q & -> & HU1 & Hq & _ & Hr). cbn [mbind option_bind]. set (s1 := cset u s).
  assert (Ec : cget s1 = u) by apply cget_cset. rewrite <- Ec in HU1, Hq, Hr. destruct Hr as [[-> _]|(-> & Hin & _)].
  { exists ERR_USE, s1. split_and!; try done. by left. }
  fold (pcb_get pcb s1) in Hq.
  cbn [Z.eqb negb ERR_OK]. rewrite Hq; cbn [mbind option_bind].
  destruct (zoned_total ip (fun _ => ip_2_ip6 (local_ip q)) s1) as (ip' & Ez & _ & Hv4). unfold zoned in Ez. rewrite Ez; cbn [mbind option_bind].
  set (q' := set_remote ip' port _ q). set (s2 := pcb_put pcb q' s1).
  assert (E2 : cget s2 = udp_put pcb q' (cget s1)) by apply cget_cset. rewrite E2. cbn [udp_pcbs udp_put].
  rewrite bool_decide_true by done. exists ERR_OK, s2. split; [done|]. split; [by eapply pcb_put_ok|]. split; [done|]. right. split; [done|].
  exists q'. rewrite E2. split; [split; [done|apply udp_put_eq]|]. split; [|split; [done|exact Hv4]].
  unfold connected, q'; cbn. unfold UDP_FLAGS_CONNECTED, u8.
  apply negb_true_iff, Z.eqb_neq. intros E. apply (f_equal (fun z => Z.testbit z 2)) in E. rewrite Z.land_spec, Z.bits_0 in E.
  rewrite Z.mod_pow2_bits_low, Z.lor_spec in E by lia. by rewrite orb_true_r in E.
Qed.

Lemma udp_disconnect_ok pcb s p :
  udp_ok (cget s) -> pcb_get pcb s = Some p ->
  exists s' q, udp_disconnect pcb s = Some s' /\ udp_ok (cget s') /\ i_l s' = i_l s /\ pcb_get pcb s' = Some q /\ connected q = false /\ remote_port q = 0.
Proof using Type.
  intros HU Hp. unfold udp_disconnect. rewrite Hp; cbn [mbind option_bind]. eexists _, _. split; [reflexivity|].
  split; [by eapply pcb_put_ok|]. split; [done|]. split; [unfold pcb_get, pcb_put; rewrite cget_cset; apply udp_put_eq|]. split; [|done].
  unfold connected; cbn. change (u8 (Z.lnot UDP_FLAGS_CONNECTED .& 255)) with 0xfb. apply negb_false_iff, Z.eqb_eq. apply Z.bits_inj'. intros n Hn.
  rewrite Z.bits_0, Z.land_spec. unfold UDP_FLAGS_CONNECTED. destruct (decide (n = 2)) as [->|Hne].
  - unfold u8. rewrite Z.mod_pow2_bits_low, Z.land_spec by lia. change (Z.testbit 0xfb 2) with false. by rewrite andb_false_r.
  - replace (Z.testbit 4 n) with false; [by rewrite andb_false_r|]. symmetry. change 4 with (2 ^ 2). by apply Z.pow2_bits_false.
Qed.

Lemma udp_remove_ok pcb s p :
  udp_ok (cget s) -> pcb_get pcb s = Some p ->
  exists s', udp_remove pcb s = Some s' /\ udp_ok (cget s') /\ pcb_get pcb s' = None /\ (pcb ∉ udp_pcbs (cget s')) /\
    forall n q, n <> pcb -> listed (cget s) n q -> listed (cget s') n q.
Proof using Type.
  intros HU Hp. pose proof HU as [H1 H2 H3 H4 H5]. unfold udp_remove. rewrite Hp; cbn [mbind option_bind]. eexists. split; [reflexivity|].
  unfold pcb_get, listed, cget. cbn. rewrite !comp_get_set. cbn. fold (cget s).
  assert (Hm : forall n q, n ∈ filter (fun m => m <> pcb) (udp_pcbs (cget s)) /\ (delete pcb (udp_mem (cget s))) !! n = Some q -> listed (cget s) n q).
  { intros n q [[Hne Hn]%list_elem_of_filter Hq]. rewrite lookup_delete_ne in Hq by done. done. }
  split_and!.
  - split; cbn; try done.
    + intros n [Hne Hn]%list_elem_of_filter. cbn. rewrite lookup_delete_ne by done. by apply H1.
    + by apply NoDup_filter.
    + intros n q Hq Hport. cbn in *. apply lookup_delete_Some in Hq as [Hne Hq]. apply list_elem_of_filter. split; [done|]. by eapply H4.
    + intros n q m r Hq Hr. apply H5; by apply Hm.
  - apply lookup_delete_eq.
  - rewrite list_elem_of_filter. tauto.
  - intros n q Hne [Hn Hq]. split; [by apply list_elem_of_filter|]. by rewrite lookup_delete_ne.
Qed.

Lemma udp_new_ok type s r s' :
  udp_ok (cget s) -> udp_new_ip_type type s = (r, s') -> (forall a, r = Some (Zpos a) -> udp_mem (cget s) !! Zpos a = None) ->
  udp_ok (cget s') /\ match r with
                      | None => cget s' = cget s
                      | Some n => pcb_get n s' = Some (new_pcb type) /\ n ∉ udp_pcbs (cget s')
                      end.
Proof using Type.
  intros HU E Hf. pose proof HU as [H1 H2 H3 H4 H5]. unfold udp_new_ip_type in E. destruct (mem_malloc 0 (i_heap s)) as [[[a c]|] h]; injection E as <- <-; [|done].
  pose proof (Hf a eq_refl) as Hfree. unfold pcb_get, pcb_put. rewrite cget_cset. cbn. fold (cget s).
  change (cget (ilink _ s)) with (cget s). set (u := udp_put _ _ _).
  assert (Hn : Zpos a ∉ udp_pcbs (cget s)) by (intros Hn; destruct (H1 _ Hn) as [? ?]; congruence).
  assert (Hm : forall n q, listed u n q -> listed (cget s) n q).
  { intros n q [Hin Hq]. split; [done|]. unfold u in Hq. rewrite udp_put_ne in Hq; [done|]. intros E. by rewrite <- E in Hin. }
  split; [|split; [apply udp_put_eq|done]]. split; try done; [by apply put_live|..].
  - intros n q Hq Hport. unfold u in Hq. destruct (decide (Zpos a = n)) as [<-|Hne].
    + rewrite udp_put_eq in Hq. injection Hq as <-. done.
    + rewrite udp_put_ne in Hq by done. by eapply H4.
  - intros n q m r Hq Hr. by apply H5; apply Hm.
Qed.

End ops.

(** ** Options and addresses that change *)
Lemma set_option_shares opt p : shares_too p (ip_set_option opt p).
Proof.
  split_and!; [done|done|]. cbn. intros Hp E. apply Hp. apply Z.bits_inj'. intros i Hi. apply (f_equal (fun z => Z.testbit z i)) in E.
  rewrite Z.bits_0 in *. rewrite !Z.land_spec in *. unfold SOF_REUSEADDR in *. destruct (decide (i = 2)) as [->|Hne].
  - unfold u8 in E. rewrite Z.mod_pow2_bits_low, Z.lor_spec in E by lia. by destruct (Z.testbit (so_options p) 2).
  - replace (Z.testbit 4 i) with false; [by rewrite andb_false_r|]. symmetry. change 4 with (2 ^ 2). by apply Z.pow2_bits_false.
Qed.

Lemma reset_option_shares opt p : opt .& SOF_REUSEADDR = 0 -> shares_too p (ip_reset_option opt p).
Proof.
  intros Ho. split_and!; [done|done|]. cbn. intros Hp E. apply Hp. apply Z.bits_inj'. intros i Hi. apply (f_equal (fun z => Z.testbit z i)) in E, Ho.
  rewrite Z.bits_0 in *. rewrite !Z.land_spec in *. unfold SOF_REUSEADDR in *. destruct (decide (i = 2)) as [->|Hne].
  - unfold u8 in E. rewrite Z.mod_pow2_bits_low, Z.land_spec, Z.lnot_spec in E by lia. change (Z.testbit 4 2) with true in *.
    rewrite andb_true_r in *. rewrite Ho in E. by rewrite andb_true_r in E.
  - replace (Z.testbit 4 i) with false; [by rewrite andb_false_r|]. symmetry. change 4 with (2 ^ 2). by apply Z.pow2_bits_false.
Qed.

(** The PCBs that were bound to the old address are bound to the new one. *)
Lemma readdress_spec old new l : forall u,
  (forall n, n ∈ l -> is_Some (udp_mem u !! n)) -> NoDup l ->
  exists u', readdress old new l u = Some u' /\ udp_pcbs u' = udp_pcbs u /\ udp_port u' = udp_port u /\
    (forall n, udp_mem u !! n = None -> udp_mem u' !! n = None) /\
    forall n p, udp_mem u !! n = Some p ->
      udp_mem u' !! n = Some (if bool_decide (n ∈ l) && ip_addr_cmp (local_ip p) old then set_local new (local_port p) p else p).
Proof.
  induction l as [|m l IH]; intros u Hl Hnd; cbn [readdress].
  - exists u. split_and!; [done..|]. intros n p Hp. rewrite bool_decide_false by apply not_elem_of_nil. done.
  - apply NoDup_cons in Hnd as [Hm Hnd]. destruct (Hl m ltac:(by left)) as [q Hq]. rewrite Hq; cbn [mbind option_bind].
    set (u1 := if ip_addr_cmp (local_ip q) old then _ else u).
    assert (H1 : forall n, n <> m -> udp_mem u1 !! n = udp_mem u !! n) by (intros n Hn; subst u1; destruct (ip_addr_cmp _ _); [by apply udp_put_ne|done]).
    assert (H2 : udp_mem u1 !! m = Some (if ip_addr_cmp (local_ip q) old then set_local new (local_port q) q else q)).
    { subst u1. destruct (ip_addr_cmp _ _); [apply udp_put_eq|done]. }
    destruct (IH u1) as (u' & E & El & Ep & Hno & Hu').
    { intros n Hn. destruct (decide (n = m)) as [->|Hne]; [done|]. rewrite H1 by done. apply Hl. by right. }
    { done. }
    exists u'. split; [done|]. split; [rewrite El; subst u1; by destruct (ip_addr_cmp _ _)|]. split; [rewrite Ep; subst u1; by destruct (ip_addr_cmp _ _)|].
    split; [intros n Hn; apply Hno; rewrite H1; [done|intros ->; congruence]|]. intros n p Hp.
    destruct (decide (n = m)) as [->|Hne].
    + rewrite Hp in Hq. injection Hq as <-. rewrite (Hu' m _ H2). rewrite (bool_decide_false (m ∈ l)) by done.
      rewrite (bool_decide_true (m ∈ m :: l)) by by left. cbn [andb]. done.
    + rewrite (Hu' n p) by by rewrite H1. rewrite (bool_decide_ext (n ∈ m :: l) (n ∈ l)); [done|]. rewrite elem_of_cons. tauto.
Qed.

(** Nobody is bound where the PCBs at [old] move to. *)
Definition address_free (old new : ip_addr) (u : udp_state) : Prop :=
  forall n p m q, listed u n p -> listed u m q -> ip_addr_cmp (local_ip p) old = true -> ip_addr_cmp (local_ip q) old = false ->
    clash (set_local new (local_port p) p) q = false.

Lemma same_address_overlap a b c : ip_addr_cmp a c = true -> ip_addr_cmp b c = true -> overlap a b = true.
Proof.
  unfold overlap, ip_addr_cmp. destruct a as [a|a|], b as [b|b|], c as [c|c|]; cbn; try done.
  - intros ->%Z.eqb_eq ->%Z.eqb_eq. by rewrite Z.eqb_refl.
  - unfold ip6_addr_cmp, ip6_addr_cmp_zoneless. rewrite !andb_true_iff, !Z.eqb_eq. intros [[[[-> ->] ->] ->] ->] [[[[-> ->] ->] ->] ->].
    by rewrite !Z.eqb_refl.
Qed.

Lemma readdress_ok old new u u' : udp_ok u -> address_free old new u -> readdress old new (udp_pcbs u) u = Some u' -> udp_ok u'.
Proof.
  intros HU Hfree E. pose proof HU as [H1 H2 H3 H4 H5].
  destruct (readdress_spec old new (udp_pcbs u) u H1 H2) as (u1 & E1 & El & Ep & Hno & Hmem). rewrite E in E1. injection E1 as <-.
  assert (Hinv : forall n p', udp_mem u' !! n = Some p' -> exists p, udp_mem u !! n = Some p /\
    p' = if bool_decide (n ∈ udp_pcbs u) && ip_addr_cmp (local_ip p) old then set_local new (local_port p) p else p).
  { intros n p' Hp'. destruct (udp_mem u !! n) as [p|] eqn:Hp; [|by rewrite Hno in Hp']. exists p. split; [done|].
    rewrite (Hmem n p Hp) in Hp'. by injection Hp'. }
  split; rewrite ?El, ?Ep; try done.
  - intros n Hn. rewrite El in Hn. destruct (H1 n Hn) as [p Hp]. rewrite (Hmem n p Hp). by eexists.
  - intros n p' (p & Hp & ->)%Hinv Hport. apply (H4 n p Hp). intros E0. apply Hport. by destruct (_ && _).
  - intros n p' m q' [Hn (p & Hp & ->)%Hinv] [Hm (q & Hq & ->)%Hinv] Hne. rewrite El in Hn, Hm.
    rewrite !bool_decide_true by done. cbn [andb]. assert (Lp : listed u n p) by done. assert (Lq : listed u m q) by done.
    pose proof (H5 n p m q Lp Lq Hne) as Hc. destruct (ip_addr_cmp (local_ip p) old) eqn:Ecp, (ip_addr_cmp (local_ip q) old) eqn:Ecq.
    + unfold clash in *. cbn. rewrite (same_address_overlap _ _ _ Ecq Ecp), andb_true_r in Hc. by rewrite Hc.
    + by eapply Hfree.
    + rewrite clash_sym. by eapply Hfree.
    + done.
Qed.

(** ** The PCBs over time *)
Section life.
  Context {U : Upper} `{!Component udp_state}.
  Context (ip6_route : ip6_addr -> ip6_addr -> istate -> option (option Z)).

(** What can happen to the PCBs; other modules leave them alone. *)
Inductive udp_step : istate -> istate -> Prop :=
  | step_new type s r s' :
      udp_new_ip_type type s = (r, s') -> (forall a, r = Some (Zpos a) -> udp_mem (cget s) !! Zpos a = None) -> udp_step s s'
  | step_bind pcb ip port r s s' : udp_bind ip6_route pcb ip port s = Some (r, s') -> udp_step s s'
  | step_connect pcb ip port r s s' : udp_connect ip6_route pcb ip port s = Some (r, s') -> udp_step s s'
  | step_disconnect pcb s s' : udp_disconnect pcb s = Some s' -> udp_step s s'
  | step_recv pcb f arg s s' : udp_recv pcb f arg s = Some s' -> udp_step s s'
  | step_bind_netif pcb nif s s' : udp_bind_netif pcb nif s = Some s' -> udp_step s s'
  | step_remove pcb s s' : udp_remove pcb s = Some s' -> udp_step s s'
  | step_front n s : n ∈ udp_pcbs (cget s) -> udp_step s (cset (set_pcbs (to_front n (udp_pcbs (cget s))) (cget s)) s)
  | step_set_option pcb opt p s : pcb_get pcb s = Some p -> udp_step s (pcb_put pcb (ip_set_option opt p) s)
  | step_reset_option pcb opt p s :
      pcb_get pcb s = Some p -> opt .& SOF_REUSEADDR = 0 \/ pcb ∉ udp_pcbs (cget s) -> udp_step s (pcb_put pcb (ip_reset_option opt p) s)
  | step_addr_changed old new s s' :
      udp_netif_ip_addr_changed (Some old) (Some new) s = Some s' -> address_free old new (cget s) -> udp_step s s'
  | step_other s s' : cget s' = cget s -> udp_step s s'.

Lemma udp_step_ok s s' : routes6 ip6_route -> udp_step s s' -> udp_ok (cget s) -> udp_ok (cget s').
Proof.
  intros HR Hs HU. pose proof HU as [H1 H2 _ _ _].
  assert (Hget : forall {A} pcb (f : udp_pcb -> option A) r, (p ← pcb_get pcb s; f p) = Some r -> exists p, pcb_get pcb s = Some p).
  { intros A pcb f r. destruct (pcb_get pcb s); [eauto|done]. }
  destruct Hs as [type s r s' E Hf|pcb ip port r s s' E|pcb ip port r s s' E|pcb s s' E|pcb f arg s s' E|pcb nif s s' E|pcb s s' E|n s Hn|pcb opt p s Hp|pcb opt p s Hp Ho|old new s s' E Hf|s s' E].
  - by eapply udp_new_ok.
  - destruct (Hget _ _ _ _ E) as [p Hp]. destruct (udp_bind_ok ip6_route HR pcb ip port s p HU Hp) as (? & ? & ? & E' & ? & _). congruence.
  - destruct (Hget _ _ _ _ E) as [p Hp]. destruct (udp_connect_ok ip6_route HR pcb ip port s p HU Hp) as (? & ? & E' & ? & _). congruence.
  - destruct (Hget _ _ _ _ E) as [p Hp]. destruct (udp_disconnect_ok pcb s p HU Hp) as (? & ? & E' & ? & _). congruence.
  - destruct (Hget _ _ _ _ E) as [p Hp]. unfold udp_recv in E. rewrite Hp in E. injection E as <-. by eapply pcb_put_ok.
  - destruct (Hget _ _ _ _ E) as [p Hp]. unfold udp_bind_netif in E. rewrite Hp in E. cbn [mbind option_bind] in E.
    destruct (match nif with Some _ => _ | None => _ end); [|done]. injection E as <-. by eapply pcb_put_ok.
  - destruct (Hget _ _ _ _ E) as [p Hp]. destruct (udp_remove_ok pcb s p HU Hp) as (? & E' & ? & _). congruence.
  - rewrite cget_cset. apply reorder_ok; [done|]. by apply to_front_perm.
  - unfold pcb_put. rewrite cget_cset. eapply put_shares_ok; [done|exact Hp|done|]. intros _. apply set_option_shares.
  - unfold pcb_put. rewrite cget_cset. eapply put_shares_ok; [done|exact Hp|done|]. intros Hin. destruct Ho as [Ho|Ho]; [by apply reset_option_shares|done].
  - unfold udp_netif_ip_addr_changed in E. destruct (_ && _); [|by injection E as <-].
    destruct (readdress old new _ _) as [u'|] eqn:Er; [|done]. injection E as <-. rewrite cget_cset. by eapply readdress_ok.
  - by rewrite E.
Qed.

End life.
