(* ===== verification/UdpIn.v ===== *)
(** UDP input: which PCB gets a datagram, with which data, and that input is safe. *)
From S2P Require Import Prelude Bits Def IpAddr Pbuf PbufData PbufChain PbufIO PbufLife PbufCopy PbufOwn PbufHdr Chksum NetifRec Netif NetifThm.
From S2P Require Import XnetTap XnetTapThm Ethernet EthernetThm Ip4Addr Etharp EtharpTable EtharpOps EtharpOut EtharpSend EtharpIn EtharpNet.
From S2P Require Import IpState IpUpper NetifLoop NetifLoopThm Ip4Out Icmp Ip4In Ip4Hdr IpEnv IpRes Ip4OutThm IcmpThm Ip4InThm Udp UdpPcb UdpOps.

(** What UDP relies on from a receive callback: it takes the packet over. *)
Class Receiver {U : Upper} (recv_fn : Z -> Z -> Z -> addr -> ip_addr -> Z -> istate -> option istate) : Prop :=
  receiver_ok : forall l H cs s f arg n p a port,
    istk (p :: H) cs s -> ip_env l s -> exists s', recv_fn f arg n p a port s = Some s' /\ istack H s' /\ isame s s'.

#[export] Instance free_receiver {U : Upper} cf : Receiver (fun _ _ _ p _ _ s => pbuf_free_i cf p s).
Proof. intros l H cs s f arg n p a port HS _. apply free_ok; [by exists cs|reflexivity]. Qed.

Section input.
  Context {U : Upper} `{!Component udp_state, !Sound udp_state udp_ok (fun _ => [])}.
  Context (custom_free : addr -> heap -> option heap) (buf : list Z) (odd_payload : addr -> pbuf -> bool).
  Context (ip4_frag : addr -> Z -> Z -> istate -> option (Z * istate)).
  Context (recv_fn : Z -> Z -> Z -> addr -> ip_addr -> Z -> istate -> option istate).

(** The datagram's addresses and ports. *)
Record datagram (b : pbuf) (s : istate) (src dest sport dport : Z) : Prop := Datagram {
  dg_src : current_iphdr_src (ip_data s) = src;
  dg_dest : current_iphdr_dest (ip_data s) = dest;
  dg_sport : lwip_htons <$> u16_of (ztake 2 (pb_bytes b)) = Some sport;
  dg_dport : lwip_htons <$> u16_of (ztake 2 (zdrop 2 (pb_bytes b))) = Some dport;
}.

(** The PCB for it: one connected to its source before an unconnected one; none
    when there is none of either kind. *)
Definition target (u : udp_state) (idx mask src dest sport dport : Z) (bcast : bool) (r : option Z) : Prop :=
  let local p := lmatch idx mask dest dport bcast p = true in
  match r with
  | Some n => exists p, listed u n p /\ local p /\
      (rmatch src sport p = true \/ (connected p = false /\ forall m q, listed u m q -> local q -> rmatch src sport q = false))
  | None => forall m q, listed u m q -> local q -> rmatch src sport q = false /\ connected q = true
  end.

Lemma demux_target u idx mask own src dest sport dport bcast :
  pcbs_live u -> exists full uncon, udp_demux u idx mask own src dest sport dport bcast (udp_pcbs u) None = Some (full, uncon) /\
    target u idx mask src dest sport dport bcast (match full with Some n => Some n | None => uncon end) /\
    (forall n, full = Some n -> n ∈ udp_pcbs u).
Proof using Type.
  intros HL. destruct (udp_demux_spec u idx mask own src dest sport dport bcast (udp_pcbs u) None HL) as (full & uncon & E & Hc); [done|].
  exists full, uncon. split; [done|]. unfold target. destruct full as [n|].
  - destruct Hc as (p & Hn & Hp & Hl & Hr). split; [|by intros ? [= <-]]. exists p. split; [by split|auto].
  - split; [|done]. destruct Hc as [Hno Hc]. destruct uncon as [c|].
    + destruct Hc as [(p & Hp & Hl & Hu) [Hin|?]]; [|done]. exists p. split; [by split|]. split; [done|]. right. split; [done|].
      intros m q [Hm Hq]. eauto.
    + destruct Hc as [_ Hall]. intros m q [Hm Hq] Hl. split; eauto.
Qed.

(** The state with the UDP header removed from the packet and the list reordered. *)
Definition received (p : addr) (b : pbuf) (u : udp_state) (s : istate) : istate := iheap (put (i_heap s) p (shrunk UDP_HLEN b)) (cset u s).

Lemma received_same p b u s : isame s (received p b u s).
Proof using Type. etransitivity; [apply cset_same|apply heap_same]. Qed.

Lemma iheap_cset h (u : udp_state) s : iheap h (cset u s) = cset u (iheap h s).
Proof using Type. done. Qed.

Lemma istk_received H cs s p b t u :
  istk H cs s -> p ∈ H -> cs p = (p, b) :: t -> 8 <= pb_len b -> udp_ok u ->
  istk H (cs_set p ((p, shrunk UDP_HLEN b) :: t) cs) (received p b u s) /\
  content ((p, shrunk UDP_HLEN b) :: t) = zdrop 8 (content (cs p)).
Proof using Sound0.
  intros HS Hp Ec Hl HU. destruct (istk_packet _ _ _ _ HS Hp) as (b0 & t0 & E0 & Hg & Hk & Hstd & Hb & Ht & Hs).
  rewrite Ec in E0. injection E0 as <- <-. pose proof Hb as (? & ? & ? & ?). pose proof (packet_tot_bound _ _ _ _ Hk). unfold UDP_HLEN. split.
  - unfold received, UDP_HLEN. rewrite iheap_cset. eapply (istk_cset H); [|done|done].
    eapply istk_put; try done; [unfold pb_ok|..]; cbn; lia.
  - rewrite Ec, !content_cons, shrunk_bytes by (done || lia). rewrite zdrop_app_le; [done|]. rewrite pb_bytes_len by done. lia.
Qed.

(** The interface data the choice depends on. *)
Record scene (s : istate) (inp idx mask own : Z) (bcast : bool) : Prop := Scene {
  sc_nif : exists v, inif s inp = Some v /\ nif_netmask v = mask /\ nif_ip_addr v = own;
  sc_idx : exists n v, current_input_netif (ip_data s) = Some n /\ inif s n = Some v /\ netif_get_index v = idx;
  sc_bcast : exists n v, current_netif (ip_data s) = Some n /\ inif s n = Some v /\ ip4_addr_isbroadcast_u32 (current_iphdr_dest (ip_data s)) v = bcast;
}.

Lemma scene_of l s p b t hlen inp : ip_env l s -> inp ∈ l -> delivered l p b t hlen s -> exists idx mask own bcast, scene s inp idx mask own bcast.
Proof using Type.
  intros HE Hin HD. destruct (env_get _ _ _ HE Hin) as [v Hv]. destruct (dl_netif _ _ _ _ _ _ HD) as (n & En & Hn). destruct (dl_input _ _ _ _ _ _ HD) as (m & Em & Hm).
  destruct (env_get _ _ _ HE Hn) as [w Hw]. destruct (env_get _ _ _ HE Hm) as [x Hx]. do 4 eexists. split; eauto 10.
Qed.

Lemma datagram_of s b : pb_ok b -> 8 <= pb_len b -> exists src dest sport dport, datagram b s src dest sport dport.
Proof using Type.
  intros Hb Hl. pose proof (pb_bytes_len b Hb) as Hz.
  destruct (two_bytes (ztake 2 (pb_bytes b))) as (x & Ex); [rewrite zlen_ztake; lia|].
  destruct (two_bytes (ztake 2 (zdrop 2 (pb_bytes b)))) as (y & Ey); [rewrite zlen_ztake; [done|]; rewrite zlen_zdrop; lia|].
  do 4 eexists. split; [done|done|by rewrite Ex|by rewrite Ey].
Qed.

Lemma udp_input_eq H cs s p b t inp idx mask own bcast src dest sport dport :
  istk (p :: H) cs s -> cs p = (p, b) :: t -> 8 <= pb_len b -> scene s inp idx mask own bcast -> datagram b s src dest sport dport ->
  exists r u', target (cget s) idx mask src dest sport dport bcast r /\ udp_ok u' /\ udp_mem u' = udp_mem (cget s) /\
    Permutation (udp_pcbs u') (udp_pcbs (cget s)) /\
    udp_input custom_free buf odd_payload ip4_frag recv_fn p inp s =
      (if bool_decide (is_Some r) || (own =? dest) then udp_deliver custom_free buf odd_payload ip4_frag recv_fn p r sport bcast (received p b u' s)
       else pbuf_free_i custom_free p s).
Proof using All.
  intros HS Ec Hl [(v & Hv & Em & Eo) (n & w & En & Hw & Ei) (m & x & Emn & Hx & Eb)] [Es Ed Esp Edp].
  destruct (istk_packet _ _ _ p HS ltac:(by left)) as (b0 & t0 & E0 & Hg & Hk & Hstd & Hb & Ht & Hs). rewrite Ec in E0. injection E0 as <- <-.
  pose proof (istk_get _ _ _ HS) as HU. destruct (demux_target (cget s) idx mask own src dest sport dport bcast (uo_live _ HU)) as (full & uncon & E & Htg & Hfull).
  exists (match full with Some n => Some n | None => uncon end), (match full with Some n => set_pcbs (to_front n (udp_pcbs (cget s))) (cget s) | None => cget s end).
  split; [done|]. split; [destruct full; [apply reorder_ok; [done|apply to_front_perm; [apply HU|auto]]|done]|]. split; [by destruct full|].
  split; [destruct full; [apply to_front_perm; [apply HU|auto]|done]|].
  unfold udp_input. rewrite Hg; cbn [mbind option_bind]. destruct (Z.ltb_spec (pb_len b) UDP_HLEN) as [|_]; [unfold UDP_HLEN in *; lia|].
  rewrite Emn; cbn [mbind option_bind]. rewrite Hx; cbn [mbind option_bind]. rewrite En; cbn [mbind option_bind]. rewrite Hw; cbn [mbind option_bind].
  rewrite Hv; cbn [mbind option_bind]. rewrite !payload_read_spec by (done || lia). cbn [mbind option_bind]. rewrite zdrop_0, Esp; cbn [mbind option_bind].
  rewrite Edp; cbn [mbind option_bind]. rewrite Em, Eo, Ei, Es, Ed, <- Ed, Eb, Ed, E; cbn [mbind option_bind].
  destruct (bool_decide _ || _) eqn:Ef; cbn [orb].
  - replace (i_heap (match full with Some _ => _ | None => _ end)) with (i_heap s) by by destruct full.
    rewrite (remove_header_eq _ _ _ _ _ Hk) by done. destruct (Z.leb_spec UDP_HLEN (pb_len b)); [|unfold UDP_HLEN in *; lia].
    cbn [mbind option_bind Z.eqb negb]. unfold received. destruct full; [done|]. by rewrite cset_cget.
  - destruct full; [done|]. done.
Qed.

(** Moving the payload back to the IP header undoes the removal of both headers. *)
Lemma grown_add n m b : grown n (grown m b) = grown (n + m) b.
Proof using Type. destruct b; unfold grown, set_payload; cbn. f_equal; lia. Qed.

Context (Hbuf : zlen buf = 2048) `{!Sender ip4_frag, !Receiver recv_fn}.

Lemma port_unreach_ok l H cs s0 s p b t hlen :
  istk H cs s -> ip_env l s -> p ∈ H -> cs p = (p, shrunk UDP_HLEN b) :: t -> 8 <= pb_len b -> delivered l p b t hlen s0 ->
  exists h s', pbuf_header_force (Some p) (hlen + UDP_HLEN) (i_heap s) = Some (0, h) /\ get h p = Some (grown hlen b) /\
    icmp_dest_unreach custom_free buf odd_payload ip4_frag p ICMP_DUR_PORT (iheap h s) = Some s' /\ istack H s' /\ isame s s'.
Proof using Hbuf Sender0.
  intros HS HE Hp Ec Hl [Hh Hf Hm Hby Hqu Hne Hrf _ _ _ _ _ Htl].
  destruct (istk_packet _ _ _ p HS Hp) as (b0 & t0 & E0 & Hg & Hk & Hstd & Hb & Ht & Hs). rewrite Ec in E0. injection E0 as <- <-.
  pose proof Hb as (? & ? & ? & ?). cbn in *. unfold UDP_HLEN in *. rewrite (header_force_eq _ _ _ _ _ Hk) by (cbn; lia).
  replace (grown (hlen + 8) (shrunk 8 b)) with (grown hlen b) by by rewrite <- grown_add, grown_shrunk.
  exists (put (i_heap s) p (grown hlen b)).
  assert (HS1 : istk H (cs_set p ((p, grown hlen b) :: t) cs) (iheap (put (i_heap s) p (grown hlen b)) s)).
  { eapply istk_put; try done; [unfold pb_ok|..]; cbn; lia. }
  set (s1 := iheap _ s) in *. assert (HE1 : ip_env l s1) by by eapply same_env, HE; apply heap_same.
  destruct (send_response_ok custom_free buf odd_payload ip4_frag Hbuf l H _ s1 p (grown hlen b) ICMP_DUR ICMP_DUR_PORT HS1 HE1)
    as (s2 & E2 & HS2 & Hsm2); [apply get_put_eq|cbn; lia|cbn; lia|apply bytes_ok_app; split; [by repeat constructor|done]|].
  exists s2. split; [done|]. split; [apply get_put_eq|]. split; [done|]. split; [done|]. etransitivity; [apply heap_same|done].
Qed.

#[export] Instance udp_protocol : Protocol (udp_input custom_free buf odd_payload ip4_frag recv_fn).
Proof using All.
  intros l H cs s p b t hlen inp HS HE Hin Ec HD.
  assert (Hfree : exists s', pbuf_free_i custom_free p s = Some s' /\ istack H s' /\ isame s s') by (apply free_ok; [by exists cs|reflexivity]).
  destruct (istk_packet _ _ _ p HS ltac:(by left)) as (b0 & t0 & E0 & Hg & Hk & Hstd & Hb & Ht & Hs). rewrite Ec in E0. injection E0 as <- <-.
  destruct (Z.ltb_spec (pb_len b) UDP_HLEN) as [Hl|Hl]; [unfold udp_input; rewrite Hg; cbn [mbind option_bind]; by rewrite (proj2 (Z.ltb_lt _ _) Hl)|].
  unfold UDP_HLEN in Hl. destruct (scene_of l s p b t hlen inp HE Hin HD) as (idx & mask & own & bcast & HC).
  destruct (datagram_of s b Hb Hl) as (src & dest & sport & dport & HG).
  destruct (udp_input_eq H cs s p b t inp idx mask own bcast src dest sport dport HS Ec Hl HC HG) as (r & u' & Htg & HU & Em & HP & ->).
  destruct (_ || _); [|done]. destruct (istk_received (p :: H) cs s p b t u' HS ltac:(by left) Ec Hl HU) as [HS1 _].
  set (s1 := received p b u' s) in *. assert (Hsm1 : isame s s1) by apply received_same. assert (HE1 : ip_env l s1) by by eapply same_env.
  assert (Hgo : forall s2, istack (p :: H) s2 -> isame s1 s2 -> exists s', pbuf_free_i custom_free p s2 = Some s' /\ istack H s' /\ isame s s').
  { intros s2 HS2 Hsm2. apply free_ok; [done|]. by etransitivity. }
  unfold udp_deliver. destruct r as [n|].
  - destruct Htg as (q & [_ Hq] & _). assert (Hq1 : pcb_get n s1 = Some q) by (unfold pcb_get, s1, received; rewrite iheap_cset, cget_cset; by rewrite Em).
    rewrite Hq1; cbn [mbind option_bind]. destruct (recv q) as [f|]; [|apply Hgo; [by eexists|reflexivity]].
    destruct (receiver_ok l H _ s1 f (recv_arg q) n p (IPADDR_V4 (current_iphdr_src (ip_data s1))) sport HS1 HE1) as (s' & E & HS' & Hsm').
    exists s'. split; [done|]. split; [done|]. by etransitivity.
  - destruct (_ && _); cbn [mbind option_bind]; [|apply Hgo; [by eexists|reflexivity]].
    change (current_ip_header_tot_len (ip_data s1)) with (current_ip_header_tot_len (ip_data s)). rewrite (dl_cur _ _ _ _ _ _ HD).
    destruct (port_unreach_ok l (p :: H) _ s s1 p b t hlen HS1 HE1 ltac:(by left) (cs_set_eq _ _ _) Hl HD) as (h & s2 & -> & _ & E2 & HS2 & Hsm2).
    cbn [mbind option_bind]. rewrite E2. cbn [mbind option_bind]. by apply Hgo.
Qed.

End input.
