(* ===== verification/UdpOut.v ===== *)
(** UDP output: the header in front of the data, its checksum, and sending.  First,
    sending with an address hint: [NETIF_SET_HINTS] before and [NETIF_RESET_HINTS]
    after the call keep what the IP layer works with. *)
From S2P Require Import Prelude Bits Def IpAddr Pbuf PbufData PbufChain PbufIO PbufLife PbufCopy PbufOwn PbufHdr NetifRec Netif NetifThm.
From S2P Require Import XnetTap XnetTapThm Ethernet EthernetThm Ip4Addr Etharp EtharpTable EtharpOps EtharpOut EtharpSend EtharpIn EtharpNet.
From S2P Require Import IpState NetifLoop NetifLoopThm Ip4Out IpEnv IpRes.
From S2P Require Import Prelude Bits Def IpAddr Pbuf PbufData PbufChain PbufIO PbufLife PbufCopy PbufOwn PbufHdr Chksum NetifRec Netif NetifThm.
From S2P Require Import IpState IpUpper NetifLoop NetifLoopThm Ip4Out Icmp Ip4In Ip4Hdr IpEnv IpRes Ip4OutThm IcmpThm Ip4InThm Udp UdpPcb UdpOps.

Section hint.
  Context {U : Upper}.

Definition hinted (n : Z) (hint : option Z) (v : netif) (s : istate) : istate := inet (nput (i_net s) n (nset_hints hint v)) s.

Lemma hinted_eq n hint v s : inif s n = Some v -> inmod n (nset_hints hint) s = Some (hinted n hint v s).
Proof. apply inmod_eq. Qed.

Lemma hinted_nif n hint v s : inif (hinted n hint v s) n = Some (nset_hints hint v).
Proof. apply nget_put_eq. Qed.

Lemma hinted_other n hint v s m : m <> n -> inif (hinted n hint v s) m = inif s m.
Proof. intros Hne. by apply nget_put_ne. Qed.

Lemma loops_hinted F lo ns h n v hint : nget ns n = Some v -> loops_ok F lo ns h -> loops_ok F lo (nput ns n (nset_hints hint v)) h.
Proof.
  intros Hv [L1 L2 L3 L4]. split; try done.
  - intros m w Hw. destruct (decide (m = n)) as [->|Hne]; [|rewrite nget_put_ne in Hw by done; auto].
    rewrite nget_put_eq in Hw. injection Hw as <-. destruct (L1 n v Hv). by split.
  - intros m Hm. destruct (decide (m = n)) as [->|Hne]; [by rewrite nget_put_eq in Hm|rewrite nget_put_ne in Hm by done; auto].
Qed.

Lemma istk_hinted H cs s n v hint : istk H cs s -> inif s n = Some v -> istk H cs (hinted n hint v s).
Proof.
  intros (F & lo & [HI HL] & HU) Hv. exists F, lo. split; [|done]. split.
  - by apply (arp_inv_nput _ cs (i_l s) n v).
  - exact (loops_hinted F lo _ _ n v hint Hv HL).
Qed.

Lemma hint_env l s n v hint c :
  ip_env l s -> inif s n = Some v -> l_hints (i_l s) !! hint = Some c -> 0 <= c -> ip_env l (hinted n (Some hint) v s).
Proof.
  intros [E1 E2 E3 E4 E5 E6] Hv Hc Hc0. split; try done.
  - eapply nlist_frame; [|exact E1]. intros m Hm. cbn. destruct (decide (m = n)) as [->|Hne].
    + unfold inif in Hv. rewrite Hv. unfold i_net, hinted; cbn. by rewrite nget_put_eq.
    + unfold i_net, hinted; cbn. by rewrite nget_put_ne.
  - intros m w Hm Hw. destruct (decide (m = n)) as [->|Hne].
    + rewrite hinted_nif in Hw. injection Hw as <-. destruct (E5 n v Hm Hv) as [Ho Ht]. split; [done|]. intros He.
      destruct (Ht He) as [tap Htap]. exists tap. destruct (tap_nif_nput (l_x (i_l s)) n n v (nset_hints (Some hint) v) v tap Hv) as (w' & Hw' & _); [done|done|].
      pose proof Hw' as (Hg & _). cbn in Hg. rewrite nget_put_eq in Hg. by injection Hg as ->.
    + rewrite hinted_other in Hw by done. destruct (E5 m w Hm Hw) as [Ho Ht]. split; [done|]. intros He. destruct (Ht He) as [tap Htap]. exists tap.
      destruct (tap_nif_nput (l_x (i_l s)) n m v (nset_hints (Some hint) v) w tap Hv) as (w' & Hw' & _); [done|done|].
      pose proof Hw' as (Hg & _). cbn in Hg. rewrite nget_put_ne in Hg by done. unfold inif in Hw. change (x_net (l_x (i_l s))) with (i_net s) in Hg.
      assert (w' = w) as -> by congruence. exact Hw'.
  - intros m w Hm Hw p Hp. destruct (decide (m = n)) as [->|Hne].
    + rewrite hinted_nif in Hw. injection Hw as <-. injection Hp as <-. by exists c.
    + rewrite hinted_other in Hw by done. by eapply E6.
Qed.

Lemma unloop_hints hint v : unloop (nset_hints hint v) = nset_hints hint (unloop v).
Proof. done. Qed.

Lemma hints_none v : nif_hints v = None -> nset_hints None v = v.
Proof. intros E. destruct v; cbn in *. unfold nset_hints; cbn. by rewrite E. Qed.

(** After the reset everything is as after the call alone. *)
Lemma hint_same n v hint s s2 v2 :
  inif s n = Some v -> nif_hints v = None -> isame (hinted n hint v s) s2 -> inif s2 n = Some v2 -> isame s (hinted n None v2 s2).
Proof.
  intros Hv Hn HS Hv2. pose proof HS as [(h & e & ns & Ex) Hh Hi Hl Hd Hm]. split; try done.
  - exists h, e, (nput (i_net s2) n (nset_hints None v2)). cbn. rewrite Ex. cbn. destruct (l_x (i_l s)). reflexivity.
  - intros m. destruct (decide (m = n)) as [->|Hne].
    + rewrite hinted_nif, Hv. cbn [fmap option_fmap option_map]. f_equal. specialize (Hi n). rewrite hinted_nif, Hv2 in Hi. apply (inj Some) in Hi.
      rewrite unloop_hints, Hi, unloop_hints. change (nset_hints None (nset_hints hint (unloop v))) with (nset_hints None (unloop v)).
      by apply hints_none.
    + rewrite hinted_other by done. rewrite (Hi m), hinted_other by done. done.
Qed.

End hint.

(** ** The header *)

(** The header as it lies in memory; [c] is the checksum field. *)
Definition udp_hdr (sport dport len c : Z) : list Z :=
  bytes16 (lwip_htons sport) ++ bytes16 (lwip_htons dport) ++ bytes16 (lwip_htons len) ++ bytes16 c.

(** The checksum over the pseudo header, the header and the data [d]; zero would
    mean that there is none. *)
Definition udp_chksum (src dest sport dport len : Z) (d : list Z) : Z :=
  let c := 65535 - ones (wsum (pseudo4 src dest IP_PROTO_UDP len ++ udp_hdr sport dport len 0 ++ d)) in
  if c =? 0 then 0xffff else c.

Lemma udp_hdr_len sport dport len c : zlen (udp_hdr sport dport len c) = 8.
Proof. done. Qed.

Lemma udp_hdr_ok sport dport len c : bytes_ok (udp_hdr sport dport len c).
Proof. repeat (apply Forall_cons; split; [auto with cint|]). by constructor. Qed.

Lemma wsum_udp_hdr sport dport len c d : 0 <= c < 65536 -> wsum (udp_hdr sport dport len c ++ d) = wsum (udp_hdr sport dport len 0 ++ d) + c.
Proof. intros Hc. unfold udp_hdr, bytes16. cbn [app wsum]. rewrite !u16_word by (lia || apply htons_range). lia. Qed.

Lemma udp_chksum_range src dest sport dport len d : 0 < udp_chksum src dest sport dport len d < 65536.
Proof.
  unfold udp_chksum. set (w := wsum _). pose proof (ones_range w). destruct (Z.eqb_spec (65535 - ones w) 0); lia.
Qed.

(** A sum completed by its complement. *)
Lemma ones_complete w : 0 < w -> ones (w + (if 65535 - ones w =? 0 then 0xffff else 65535 - ones w)) = 65535.
Proof.
  intros Hw. unfold ones. destruct (Z.eqb_spec w 0); [lia|].
  pose proof (Z.mod_pos_bound (w - 1) 65535 ltac:(lia)) as Hb. set (r := (w - 1) mod 65535) in *.
  assert (Hwr : w = r + 1 + 65535 * ((w - 1) / 65535)) by (unfold r; pose proof (Z.div_mod (w - 1) 65535); lia).
  destruct (Z.eqb_spec (65535 - (r + 1)) 0).
  - destruct (Z.eqb_spec (w + 65535) 0); [lia|]. rewrite <- (Z.mod_unique (w + 65535 - 1) 65535 ((w - 1) / 65535 + 1) 65534); lia.
  - destruct (Z.eqb_spec (w + (65535 - (r + 1))) 0); [lia|]. rewrite <- (Z.mod_unique (w + (65535 - (r + 1)) - 1) 65535 ((w - 1) / 65535) 65534); lia.
Qed.

(** The receiver's check over the pseudo header succeeds. *)
Lemma udp_chksum_verifies odd h p l src dest sport dport len d :
  packet h p l -> content l = udp_hdr sport dport len (udp_chksum src dest sport dport len d) ++ d -> bytes_ok d ->
  0 <= len < 65536 -> 0 <= src < 2 ^ 32 -> 0 <= dest < 2 ^ 32 ->
  inet_chksum_pseudo odd p IP_PROTO_UDP len src dest h = Some 0.
Proof.
  intros Hk Hc Hd Hlen Hs Hdst. pose proof (udp_chksum_range src dest sport dport len d) as Hr.
  assert (Hcb : bytes_ok (content l)) by (rewrite Hc; apply bytes_ok_app; split; [apply udp_hdr_ok|done]).
  rewrite (chksum_pseudo4 odd h p l) by done. f_equal.
  rewrite Hc, wsum_pseudo4, wsum_udp_hdr by (done || lia). unfold udp_chksum in *. rewrite wsum_pseudo4 in * by done.
  set (w := wsum (le32 src) + _ + _) in *. rewrite Z.add_assoc. rewrite ones_complete; [done|].
  assert (forall x, 0 <= wsum (le32 x)) by (intros x; apply wsum_bound; unfold le32; repeat (apply Forall_cons; split; [auto with cint|]); by constructor).
  assert (0 <= wsum (udp_hdr sport dport len 0 ++ d)) by (apply wsum_bound, bytes_ok_app; split; [apply udp_hdr_ok|done]).
  pose proof (htons_range len). unfold w, IP_PROTO_UDP. pose proof (H src). pose proof (H dest). lia.
Qed.

(** ** Filling it in *)

(** The first pbuf with other contents and flags. *)
Definition refilled (b b' : pbuf) : Prop := exists m fl, b' = set_mem m (set_flags fl b) /\ zlen m = zlen (pb_mem b) /\
  fl .& PBUF_FLAG_IS_CUSTOM = pb_flags b .& PBUF_FLAG_IS_CUSTOM.

Lemma patched_refilled b b' : patched b b' -> refilled b b'.
Proof. intros (m & -> & Hm). exists m, (pb_flags b). by destruct b. Qed.

Lemma mcast_flag fl : u8 (fl .| PBUF_FLAG_MCASTLOOP) .& PBUF_FLAG_IS_CUSTOM = fl .& PBUF_FLAG_IS_CUSTOM.
Proof.
  unfold PBUF_FLAG_MCASTLOOP, PBUF_FLAG_IS_CUSTOM, u8. apply Z.bits_inj'. intros n Hn. rewrite !Z.land_spec. destruct (decide (n = 1)) as [->|Hne].
  - rewrite Z.mod_pow2_bits_low, Z.lor_spec by lia. by rewrite orb_false_r.
  - replace (Z.testbit 2 n) with false; [by rewrite !andb_false_r|]. symmetry. change 2 with (2 ^ 1). by apply Z.pow2_bits_false.
Qed.

Lemma refilled_patched b b1 b2 : refilled b b1 -> patched b1 b2 -> refilled b b2.
Proof. intros (m & fl & -> & Hm & Hf) (m' & -> & Hm'). exists m', fl. split; [done|]. split; [cbn in Hm'; congruence|done]. Qed.

Lemma fields_flags segs lens fl b : fields segs lens b -> fields segs lens (set_flags fl b).
Proof. by intros [? ? ?]. Qed.

Lemma header_fields b : pb_ok b -> 8 <= pb_len b ->
  exists x0 x1 x2 x3, fields [x0; x1; x2; x3; zdrop 8 (pb_bytes b)] [2; 2; 2; 2; pb_len b - 8] b.
Proof.
  intros Hb Hl. pose proof (pb_bytes_len b Hb) as Hz.
  exists (ztake 2 (pb_bytes b)), (ztake 2 (zdrop 2 (pb_bytes b))), (ztake 2 (zdrop 4 (pb_bytes b))), (ztake 2 (zdrop 6 (pb_bytes b))).
  split; [done|..].
  - cbn [concat app]. rewrite app_nil_r.
    assert (Hstep : forall n, 0 <= n -> zdrop n (pb_bytes b) = ztake 2 (zdrop n (pb_bytes b)) ++ zdrop (n + 2) (pb_bytes b)).
    { intros n Hn. rewrite <- (ztake_zdrop 2 (zdrop n (pb_bytes b))) at 1. rewrite zdrop_zdrop by lia. do 2 f_equal. lia. }
    rewrite <- (zdrop_0 (pb_bytes b)) at 1. rewrite (Hstep 0), (Hstep (0 + 2)), (Hstep (0 + 2 + 2)), (Hstep (0 + 2 + 2 + 2)) by lia. by rewrite zdrop_0.
  - cbn [fmap list_fmap]. rewrite !zlen_ztake_gen, !zlen_zdrop, Hz. repeat f_equal; lia.
Qed.

Section out.
  Context {U : Upper} (odd_payload : addr -> pbuf -> bool).

Lemma istk_refill H cs s p b t b' :
  istk H cs s -> p ∈ H -> cs p = (p, b) :: t -> refilled b b' -> istk H (cs_set p ((p, b') :: t) cs) (iheap (put (i_heap s) p b') s).
Proof using Type.
  intros HS Hp Ec (m & fl & -> & Hm & Hf). destruct (istk_packet _ _ _ _ HS Hp) as (b0 & t0 & E0 & Hg & Hk & Hstd & Hb & Ht & _).
  rewrite Ec in E0. injection E0 as <- <-. pose proof (packet_tot_bound _ _ _ _ Hk). destruct Hb as (? & ? & ? & ?).
  eapply istk_put; try done; [unfold pb_ok; cbn; lia|]. unfold pb_std in *; cbn. by rewrite Hf.
Qed.

(** The header [udp_sendto_if_src] writes over the first eight bytes. *)
Lemma udp_fill_eq H cs s q b t sport dport (mloop nochk : bool) src dest :
  istk H cs s -> q ∈ H -> cs q = (q, b) :: t -> 8 <= pb_len b -> bytes_ok (zdrop 8 (content (cs q))) ->
  0 <= src < 2 ^ 32 -> 0 <= dest < 2 ^ 32 ->
  let c := if nochk then 0 else udp_chksum src dest sport dport (pb_tot_len b) (zdrop 8 (content (cs q))) in
  exists b', udp_fill odd_payload q sport dport mloop nochk (IPADDR_V4 src) (IPADDR_V4 dest) s = Some (iheap (put (i_heap s) q b') s) /\
    refilled b b' /\ istk H (cs_set q ((q, b') :: t) cs) (iheap (put (i_heap s) q b') s) /\
    content ((q, b') :: t) = udp_hdr sport dport (pb_tot_len b) c ++ zdrop 8 (content (cs q)).
Proof using Type.
  intros HS Hp Ec Hl Hby Hsrc Hdst. destruct (istk_packet _ _ _ _ HS Hp) as (b0 & t0 & E0 & Hg & Hk & Hstd & Hb & Ht & Hs).
  rewrite Ec in E0. injection E0 as <- <-. pose proof (packet_tot_bound _ _ _ _ Hk) as Htl.
  assert (Hdrop : zdrop 8 (content (cs q)) = zdrop 8 (pb_bytes b) ++ content t).
  { rewrite Ec, content_cons. apply zdrop_app_le. rewrite pb_bytes_len by done. lia. }
  rewrite Hdrop in *. set (d := zdrop 8 (pb_bytes b)) in *.
  destruct (header_fields b Hb Hl) as (x0 & x1 & x2 & x3 & F0). fold d in F0. cbn zeta. unfold udp_fill. rewrite Hg; cbn [mbind option_bind].
  destruct (field_write _ _ b 0 (bytes16 (lwip_htons sport)) F0 eq_refl) as (b1 & E1 & P1 & F1). change (zsum _) with 0 in E1. rewrite E1; cbn [mbind option_bind].
  destruct (field_write _ _ b1 1 (bytes16 (lwip_htons dport)) F1 eq_refl) as (b2 & E2 & P2 & F2). change (zsum _) with 2 in E2. rewrite E2; cbn [mbind option_bind].
  destruct (field_write _ _ b2 3 (bytes16 0) F2 eq_refl) as (b3 & E3 & P3 & F3). change (zsum _) with 6 in E3. rewrite E3; cbn [mbind option_bind].
  set (b4 := if mloop then _ else b3).
  assert (R4 : refilled b b4 /\ fields (<[3%nat:=bytes16 0]> (<[1%nat:=bytes16 (lwip_htons dport)]> (<[0%nat:=bytes16 (lwip_htons sport)]> [x0; x1; x2; x3; d]))) [2; 2; 2; 2; pb_len b - 8] b4).
  { assert (R3 : refilled b b3) by (apply patched_refilled; etransitivity; [exact P1|]; by etransitivity).
    subst b4. destruct mloop; [|done]. split; [|by apply fields_flags]. destruct R3 as (m & fl & -> & Hm & Hf). exists m, (u8 (fl .| PBUF_FLAG_MCASTLOOP)). split; [done|]. split; [done|]. by rewrite mcast_flag. }
  destruct R4 as [R4 F4]. destruct (field_write _ _ b4 2 (bytes16 (lwip_htons (pb_tot_len b4))) F4 eq_refl) as (b5 & E5 & P5 & F5). change (zsum _) with 4 in E5. rewrite E5; cbn [mbind option_bind].
  assert (Etl : pb_tot_len b4 = pb_tot_len b) by (destruct R4 as (? & ? & -> & _); done). rewrite Etl in *.
  assert (R5 : refilled b b5) by by eapply refilled_patched. assert (Etl5 : pb_tot_len b5 = pb_tot_len b) by (destruct R5 as (? & ? & -> & _); done).
  pose proof (istk_refill H cs s q b t b5 HS Hp Ec R5) as HS5.
  assert (Hc5 : content ((q, b5) :: t) = udp_hdr sport dport (pb_tot_len b) 0 ++ d ++ content t).
  { rewrite content_cons, (fl_bytes _ _ _ F5). cbn [concat app list_insert insert]. unfold udp_hdr. cbn. rewrite app_nil_r. done. }
  destruct nochk; [by exists b5|].
  destruct (istk_packet _ _ _ q HS5 Hp) as (b6 & t6 & E6 & Hg6 & Hk6 & _). rewrite cs_set_eq in E6. injection E6 as <- <-.
  unfold ip_chksum_pseudo. rewrite Etl5, (chksum_pseudo4 odd_payload _ _ _ _ _ _ _ Hk6);
    [|rewrite Hc5; apply bytes_ok_app; split; [apply udp_hdr_ok|done]|done|lia|done|done]. cbn [mbind option_bind]. rewrite Hc5.
  destruct (field_write _ _ b5 3 (bytes16 (udp_chksum src dest sport dport (pb_tot_len b) (d ++ content t))) F5 eq_refl) as (b7 & E7 & P7 & F7). change (zsum _) with 6 in E7.
  unfold udp_chksum in E7. rewrite E7; cbn [mbind option_bind]. change (i_heap ?x) with (i_heap x). rewrite put_put. exists b7.
  assert (R7 : refilled b b7) by by eapply refilled_patched. split; [done|]. split; [done|]. split; [by apply (istk_refill H cs s q b t b7)|].
  rewrite content_cons, (fl_bytes _ _ _ F7). cbn [concat app list_insert insert]. unfold udp_hdr. cbn. rewrite app_nil_r. done.
Qed.

End out.

(** ** Sending *)
Section send.
  Context {U : Upper} `{!Component udp_state, !Sound udp_state udp_ok (fun _ => [])}.
  Context (custom_free : addr -> heap -> option heap) (buf : list Z) (odd_payload : addr -> pbuf -> bool).
  Context (ip4_frag : addr -> Z -> Z -> istate -> option (Z * istate)).
  Context (ip6_route : ip6_addr -> ip6_addr -> istate -> option (option Z)).
  Context (ip6_select_source_address : Z -> ip6_addr -> istate -> option (option ip6_addr)).
  Context (ip6_output_if_src : addr -> ip6_addr -> ip6_addr -> Z -> Z -> Z -> Z -> istate -> option (Z * istate)).

(** A PCB that may send over IPv4. *)
Definition speaks4 (u : udp_pcb) : bool := negb (IP_IS_V6 (local_ip u)).

Lemma version4 u a : IP_ADDR_PCB_VERSION_MATCH u (IPADDR_V4 a) = speaks4 u.
Proof using Type. unfold IP_ADDR_PCB_VERSION_MATCH, speaks4. by destruct (local_ip u). Qed.

(** The checksum field, the TTL and the type of service a PCB asks for. *)
Definition sent_chksum (u : udp_pcb) (src dest dport len : Z) (d : list Z) : Z :=
  if negb (flags u .& UDP_FLAGS_NOCHKSUM =? 0) then 0 else udp_chksum src dest (local_port u) dport len d.

Definition sent_ttl (u : udp_pcb) (dest : Z) : Z := if ip4_addr_ismulticast dest then mcast_ttl u else ttl u.

(** The state in which the datagram goes to IP. *)
Definition filled (nif pcb : Z) (v : netif) (p : addr) (b' : pbuf) (u : udp_state) (s : istate) : istate :=
  hinted nif (Some pcb) v (iheap (put (i_heap s) p b') (cset u s)).

Lemma sendto_src_eq H cs s p b t pcb u nif v src dest dport :
  routes6 ip6_route -> istk (p :: H) cs s -> cs p = (p, b) :: t -> room UDP_HLEN b = true -> bytes_ok (content (cs p)) ->
  pcb_get pcb s = Some u -> speaks4 u = true -> inif s nif = Some v -> 0 <= src < 2 ^ 32 -> 0 <= dest < 2 ^ 32 ->
  exists us u0, udp_ok us /\ udp_mem us !! pcb = Some u0 /\ (local_port u <> 0 -> us = cget s) /\
    ((udp_sendto_if_src custom_free buf odd_payload ip4_frag ip6_route ip6_output_if_src pcb p (IPADDR_V4 dest) dport nif (IPADDR_V4 src) s =
        Some (ERR_USE, cset us s) /\ local_port u = 0 /\ forall x, in_range x -> port_taken (cget s) x) \/
     (local_port u0 <> 0 /\ (exists port, u0 = set_local (local_ip u) port u) /\
      let d := content (cs p) in
      let len := zlen d + 8 in
      exists b', refilled (grown UDP_HLEN b) b' /\ len < 65536 /\
        content ((p, b') :: t) = udp_hdr (local_port u0) dport len (sent_chksum u0 src dest dport len d) ++ d /\
        istk (p :: H) (cs_set p ((p, b') :: t) cs) (filled nif pcb v p b' us s) /\
        udp_sendto_if_src custom_free buf odd_payload ip4_frag ip6_route ip6_output_if_src pcb p (IPADDR_V4 dest) dport nif (IPADDR_V4 src) s =
          ('(err, s2) ← ip4_output_if_src custom_free buf ip4_frag p (Some src) (Some dest) (sent_ttl u0 dest) (tos u0) IP_PROTO_UDP nif
                          (filled nif pcb v p b' us s);
           s3 ← inmod nif (nset_hints None) s2;
           Some (err, s3)))).
Proof using Sound0.
  intros HR HS Ec Hroom Hby Hu H4 Hv Hsrc Hdst. pose proof (istk_get _ _ _ HS) as HU.
  destruct (bound_first ip6_route HR pcb u s HU Hu) as (r & us & u0 & Eb & HUs & Hu0 & Hsame & Hc). exists us, u0. split; [done|]. split; [done|]. split; [done|].
  unfold udp_sendto_if_src. rewrite Hu; cbn [mbind option_bind]. rewrite !version4, H4; cbn [negb orb]. rewrite Eb; cbn [mbind option_bind].
  destruct Hc as [[-> Hfull]|(-> & Hin & Hport & ip & port & Eu0 & Hip)].
  { left. split; [done|]. destruct (Z.eqb_spec (local_port u) 0); [done|]. by injection Eb. }
  right. split; [done|]. split; [exists port; rewrite Eu0, Hip; [done|]; unfold speaks4 in H4; by destruct (IP_IS_V6 (local_ip u))|]. cbn zeta.
  assert (HS0 : istk (p :: H) cs (cset us s)) by (eapply istk_cset; [exact HS|done|done]).
  set (s0 := cset us s) in *. assert (Hg0 : pcb_get pcb s0 = Some u0) by (unfold pcb_get, s0; by rewrite cget_cset).
  destruct (istk_packet _ _ _ p HS0 ltac:(by left)) as (b0 & t0 & E0 & Hg & Hk & Hstd & Hb & Ht & Hs). rewrite Ec in E0. injection E0 as <- <-.
  assert (Ez : zlen (content (cs p)) = pb_tot_len b) by (rewrite Ec, content_len by apply Hk; cbn [sum_len]; lia).
  assert (Hr := Hroom). unfold room, UDP_HLEN in Hr. rewrite !andb_true_iff, Z.leb_le, Z.ltb_lt in Hr. destruct Hr as [[_ Hpay] Hlen]. pose proof Hb as (? & ? & ? & ?).
  set (g := grown UDP_HLEN b). set (cg := cs_set p ((p, g) :: t) cs). set (sg := iheap (put (i_heap s0) p g) s0).
  assert (HSg : istk (p :: H) cg sg).
  { eapply istk_put; try done; [by left|apply grown_ok; [done|unfold UDP_HLEN; lia|unfold UDP_HLEN; lia]|..]; unfold g, UDP_HLEN; cbn; lia. }
  assert (Hdrop : zdrop 8 (content (cg p)) = content (cs p)).
  { unfold cg. rewrite cs_set_eq, Ec, !content_cons. unfold g. rewrite grown_bytes by (done || unfold UDP_HLEN; lia). rewrite <- app_assoc.
    pose proof (front_len 8 b Hb ltac:(lia)) as Hf. unfold UDP_HLEN. rewrite zdrop_app_ge by lia. by rewrite Hf, zdrop_0. }
  destruct (udp_fill_eq odd_payload (p :: H) cg sg p g t (local_port u0) dport
    (negb (flags u0 .& UDP_FLAGS_MULTICAST_LOOP =? 0) && ip_addr_ismulticast (IPADDR_V4 dest)) (negb (flags u0 .& UDP_FLAGS_NOCHKSUM =? 0)) src dest HSg)
    as (b' & Ef & Hrf & HS' & Hcont); [by left|apply cs_set_eq|unfold g, UDP_HLEN; cbn; lia|by rewrite Hdrop|done|done|].
  exists b'. rewrite Hdrop in Hcont. change (pb_tot_len g) with (pb_tot_len b + 8) in Hcont. rewrite Ez. split; [done|]. split; [lia|]. split; [exact Hcont|].
  assert (Hput : forall x, put (i_heap sg) p x = put (i_heap s0) p x) by (intros x; apply put_put).
  assert (HS'' : istk (p :: H) (cs_set p ((p, b') :: t) cs) (iheap (put (i_heap s0) p b') s0)).
  { rewrite <- Hput. eapply istk_cs; [|exact HS']. intros x. symmetry. apply cs_set_set. }
  split; [by apply istk_hinted|].
  cbn [Z.eqb negb ERR_OK]. rewrite Hg0; cbn [mbind option_bind]. rewrite Hg; cbn [mbind option_bind].
  unfold UDP_HLEN at 1. rewrite u16_small by lia. destruct (Z.ltb_spec (pb_tot_len b + 8) (pb_tot_len b)); [lia|].
  unfold udp_header_pbuf. rewrite (add_header_eq _ _ _ _ _ Hk), Hroom by done. cbn [mbind option_bind Z.eqb negb]. fold g. fold sg.
  cbn [IP_IS_V6 negb andb]. rewrite Ef; cbn [mbind option_bind]. rewrite Hput.
  change (iheap (put (i_heap s0) p b') sg) with (iheap (put (i_heap s0) p b') s0).
  rewrite (hinted_eq nif (Some pcb) v) by exact Hv. cbn [mbind option_bind]. unfold ip_output_if_src. cbn [IP_IS_V6 ip_2_ip4].
  rewrite bool_decide_true by done. fold (filled nif pcb v p b' us s). unfold sent_ttl. change (ip_addr_ismulticast (IPADDR_V4 dest)) with (ip4_addr_ismulticast dest).
  destruct (ip4_output_if_src _ _ _ _ _ _ _ _ _ _ _) as [[e s2]|]; [|done]. cbn [mbind option_bind]. by destruct (inmod nif (nset_hints None) s2).
Qed.

(** Where the datagram goes: the interface the PCB is bound to, or the one its
    multicast options name, or the one [ip4_route] chooses. *)
Definition by_index (l : list Z) (idx : Z) (s : istate) : option Z := List.find (nif_test (fun v => idx =? netif_get_index v) (i_net s)) l.

Definition route4 (l : list Z) (u : udp_pcb) (dest : Z) (s : istate) : option Z :=
  if negb (netif_idx u =? NETIF_NO_INDEX) then by_index l (netif_idx u) s
  else
    match (if ip4_addr_ismulticast dest then
             if negb (mcast_ifindex u =? NETIF_NO_INDEX) then by_index l (mcast_ifindex u) s
             else if negb (mcast_ip4 u =? IPADDR_ANY) && negb (mcast_ip4 u =? IPADDR_BROADCAST) then route_spec l (mcast_ip4 u) s else None
           else None) with
    | Some n => Some n
    | None => route_spec l dest s
    end.

Lemma by_index_eq l s idx : ip_env l s -> netif_get_by_index idx (i_net s) = Some (if negb (idx =? NETIF_NO_INDEX) then by_index l idx s else None).
Proof using Type.
  intros HE. pose proof HE as [E1 E2 _ _ _ _]. unfold netif_get_by_index. destruct (negb _); [|done]. apply find_loop_spec; [done|]. by eapply nlist_length.
Qed.

Lemma udp_route_eq l s u dest : ip_env l s -> udp_route ip6_route u (IPADDR_V4 dest) s = Some (route4 l u dest s).
Proof using Type.
  intros HE. unfold udp_route, route4. rewrite !(by_index_eq l) by done. cbn [IP_IS_V4 IP_IS_V6 ip_2_ip4 andb].
  change (ip_addr_ismulticast (IPADDR_V4 dest)) with (ip4_addr_ismulticast dest).
  destruct (netif_idx u =? NETIF_NO_INDEX); [|done]. cbn [negb]. rewrite !(ip4_route_ok l) by done.
  destruct (ip4_addr_ismulticast dest); [|done]. destruct (mcast_ifindex u =? NETIF_NO_INDEX); cbn [negb mbind option_bind].
  - destruct (_ && _); cbn [mbind option_bind]; [by destruct (route_spec l (mcast_ip4 u) s)|done].
  - by destruct (by_index l (mcast_ifindex u) s).
Qed.

Lemma route4_in l s u dest n : ip_env l s -> route4 l u dest s = Some n -> n ∈ l.
Proof using Type.
  intros HE. assert (Hi : forall idx m, by_index l idx s = Some m -> m ∈ l) by (intros idx m [Hm _]%find_some; by apply list_elem_of_In).
  unfold route4. destruct (negb _); [apply Hi|]. destruct (if ip4_addr_ismulticast dest then _ else None) as [m|] eqn:E; [|by apply route_in].
  intros [= <-]. destruct (ip4_addr_ismulticast dest); [|done]. destruct (negb _); [by eapply Hi|]. destruct (_ && _); [|done]. by eapply route_in.
Qed.

(** The source address: the interface's, unless the PCB is bound to one, which
    must still be the interface's. *)
Definition source4 (u : udp_pcb) (v : netif) : option Z :=
  let lip := ip_2_ip4 (local_ip u) in
  if (lip =? IPADDR_ANY) || ip4_addr_ismulticast lip || (lip =? nif_ip_addr v) then Some (nif_ip_addr v) else None.

Lemma udp_source_eq s u dest nif v :
  inif s nif = Some v -> speaks4 u = true -> udp_source ip6_select_source_address u (IPADDR_V4 dest) nif s = Some (IPADDR_V4 <$> source4 u v).
Proof using Type.
  intros Hv H4. unfold udp_source, source4. rewrite Hv; cbn [mbind option_bind IP_IS_V6]. f_equal. unfold speaks4 in H4.
  destruct (local_ip u) as [a|a|]; try done; cbn [ip_2_ip4]. destruct (_ || _); [done|]. cbn [orb]. destruct (Z.eqb_spec a (nif_ip_addr v)) as [->|]; done.
Qed.

Abbreviation udp_sendto' := (udp_sendto custom_free buf odd_payload ip4_frag ip6_route ip6_select_source_address ip6_output_if_src).
Abbreviation udp_sendto_if_src' := (udp_sendto_if_src custom_free buf odd_payload ip4_frag ip6_route ip6_output_if_src).

(** [udp_sendto] to an IPv4 address. *)
Lemma udp_sendto_eq l s pcb p u dest dport :
  ip_env l s -> pcb_get pcb s = Some u ->
  udp_sendto' pcb p (IPADDR_V4 dest) dport s =
    if negb (speaks4 u) then Some (ERR_VAL, s)
    else match route4 l u dest s with
    | None => Some (ERR_RTE, s)
    | Some nif =>
        v ← inif s nif;
        match source4 u v with
        | None => Some (ERR_RTE, s)
        | Some src => udp_sendto_if_src' pcb p (IPADDR_V4 dest) dport nif (IPADDR_V4 src) s
        end
    end.
Proof using Type.
  intros HE Hu. unfold udp_sendto. rewrite Hu; cbn [mbind option_bind]. rewrite version4. destruct (speaks4 u) eqn:H4; [|done]. cbn [negb].
  rewrite (udp_route_eq l) by done. cbn [mbind option_bind]. destruct (route4 l u dest s) as [n|] eqn:Er; [|done].
  destruct (env_get _ _ _ HE (route4_in _ _ _ _ _ HE Er)) as [v Hv]. rewrite Hv; cbn [mbind option_bind].
  unfold udp_sendto_if. rewrite Hu; cbn [mbind option_bind]. rewrite version4, H4. cbn [negb]. rewrite (udp_source_eq s u dest n v) by done. cbn [mbind option_bind].
  by destruct (source4 u v).
Qed.

Context (Hbuf : zlen buf = 2048) `{!Sender ip4_frag}.

(** What sending needs of the stack: hints that are not in use, addresses. *)
Record can_send (l : list Z) (pcb : Z) (s : istate) : Prop := CanSend {
  cs_hint : exists c, l_hints (i_l s) !! pcb = Some c /\ 0 <= c;
  cs_nifs : forall n v, n ∈ l -> inif s n = Some v -> nif_hints v = None /\ 0 <= nif_ip_addr v < 2 ^ 32;
}.

Lemma refilled_ref b b' : refilled b b' -> pb_ref b' = pb_ref b.
Proof using Type. by intros (? & ? & -> & _). Qed.

Lemma sendto_src_ok l H cs s p b t pcb u nif v src dest dport :
  routes6 ip6_route -> istk (p :: H) cs s -> ip_env l s -> can_send l pcb s -> cs p = (p, b) :: t -> no_empty t -> pb_ref b < 255 ->
  room UDP_HLEN b = true -> bytes_ok (content (cs p)) ->
  pcb_get pcb s = Some u -> speaks4 u = true -> nif ∈ l -> inif s nif = Some v -> 0 <= src < 2 ^ 32 -> 0 <= dest < 2 ^ 32 ->
  exists r s', udp_sendto_if_src' pcb p (IPADDR_V4 dest) dport nif (IPADDR_V4 src) s = Some (r, s') /\ istack (p :: H) s' /\ isame s s'.
Proof using All.
  intros HR HS HE [(c & Hc & Hc0) Hns] Ec Hne Hrf Hroom Hby Hu H4 Hn Hv Hsrc Hdst. destruct (Hns nif v Hn Hv) as [Hh _].
  destruct (sendto_src_eq H cs s p b t pcb u nif v src dest dport HR HS Ec Hroom Hby Hu H4 Hv Hsrc Hdst) as (us & u0 & HUs & _ & _ & [(-> & _)|(_ & _ & b' & Hrl & _ & _ & HS1 & ->)]).
  - exists ERR_USE, (cset us s). split; [done|]. split; [|apply cset_same]. exists cs. eapply istk_cset; [exact HS|done|done].
  - set (s0 := iheap (put (i_heap s) p b') (cset us s)). assert (Hsm0 : isame s s0) by (etransitivity; [apply cset_same|apply heap_same]).
    assert (HE1 : ip_env l (filled nif pcb v p b' us s)) by (apply (hint_env l s0 nif v pcb c); try done; by eapply same_env).
    destruct (output_if_src_ok custom_free buf Hbuf ip4_frag l H _ _ p (Some src) (Some dest) (sent_ttl u0 dest) (tos u0) IP_PROTO_UDP nif HS1 HE1 Hn) as (r & s2 & -> & (cs2 & HS2) & Hsm2).
    { exists b', t. split; [apply cs_set_eq|]. split; [done|]. rewrite (refilled_ref _ _ Hrl). exact Hrf. }
    destruct (same_nif _ _ nif (nset_hints (Some pcb) v) Hsm2) as (v2 & Hv2 & _); [apply hinted_nif|].
    cbn [mbind option_bind]. rewrite (hinted_eq nif None v2) by done. cbn [mbind option_bind]. exists r, (hinted nif None v2 s2).
    split; [done|]. split; [exists cs2; by apply istk_hinted|]. etransitivity; [exact Hsm0|]. by eapply (hint_same nif v (Some pcb)).
Qed.

Lemma udp_sendto_ok l H cs s p b t pcb u dest dport :
  routes6 ip6_route -> istk (p :: H) cs s -> ip_env l s -> can_send l pcb s -> cs p = (p, b) :: t -> no_empty t -> pb_ref b < 255 ->
  room UDP_HLEN b = true -> bytes_ok (content (cs p)) -> pcb_get pcb s = Some u -> 0 <= dest < 2 ^ 32 ->
  exists r s', udp_sendto' pcb p (IPADDR_V4 dest) dport s = Some (r, s') /\ istack (p :: H) s' /\ isame s s'.
Proof using All.
  intros HR HS HE HC Ec Hne Hrf Hroom Hby Hu Hdst. rewrite (udp_sendto_eq l s pcb p u) by done.
  assert (Hself : forall e : Z, exists r s', Some (e, s) = Some (r, s') /\ istack (p :: H) s' /\ isame s s').
  { intros e. exists e, s. split; [done|]. split; [by exists cs|]. reflexivity. }
  destruct (speaks4 u) eqn:H4; [|apply Hself]. cbn [negb]. destruct (route4 l u dest s) as [n|] eqn:Er; [|apply Hself].
  pose proof (route4_in _ _ _ _ _ HE Er) as Hn. destruct (env_get _ _ _ HE Hn) as [v Hv]. rewrite Hv; cbn [mbind option_bind].
  destruct (source4 u v) as [src|] eqn:Es; [|apply Hself]. eapply (sendto_src_ok l H cs s p b t pcb u n v); try done.
  unfold source4 in Es. destruct (_ || _ || _); [|done]. injection Es as <-. by eapply cs_nifs.
Qed.

End send.
