(* ===== verification/UdpClaims.v ===== *)
(** What UDP promises: ports and bindings, delivery, sending, and the round trip of
    a datagram sent to ourselves.  Before them a concrete state for the witnesses:
    the interface of [IpClaims], a PCB 100 bound to port 5000 of any address and a PCB
    200 bound to 10.0.0.1:7 with callback 1. *)
From S2P Require Import Prelude Bits Def IpAddr Pbuf PbufData PbufChain PbufIO PbufLife PbufCopy PbufOwn PbufHdr Chksum NetifRec Netif NetifThm.
From S2P Require Import XnetTap XnetTapThm Ethernet EthernetThm Ip4Addr Etharp EtharpTable EtharpOps EtharpOut EtharpSend EtharpIn EtharpNet.
From S2P Require Import IpState IpUpper NetifLoop NetifLoopThm Ip4Out Icmp Ip4In Ip4Hdr IpEnv IpRes UdpOut Ip4OutThm IcmpThm Ip4InThm Ip4Round IpLoop.
From S2P Require Import Udp UdpPcb UdpOps UdpIn UdpOut.
From S2P Require Import XnetTap XnetTapThm Ethernet EthernetThm Ip4Addr Etharp EtharpTable EtharpOps EtharpOut EtharpSend EtharpIn EtharpNet EtharpClaims.
From S2P Require Import IpState IpUpper NetifLoop NetifLoopThm Ip4Out Icmp Ip4In Ip4Hdr IpEnv IpRes UdpOut Ip4OutThm IcmpThm Ip4InThm Ip4Round IpLoop IpClaims.

Section self.
  Context {U : Upper} `{!Component udp_state, !Sound udp_state udp_ok (fun _ => [])}.
  Context (custom_free : addr -> heap -> option heap) (buf : list Z) (odd_payload : addr -> pbuf -> bool).
  Context (ip4_frag : addr -> Z -> Z -> istate -> option (Z * istate)).
  Context (ip6_route : ip6_addr -> ip6_addr -> istate -> option (option Z)).
  Context (ip6_output_if_src : addr -> ip6_addr -> ip6_addr -> Z -> Z -> Z -> Z -> istate -> option (Z * istate)).
  Context (recv_fn : Z -> Z -> Z -> addr -> ip_addr -> Z -> istate -> option istate).

(** A queue is empty when the interface has no first packet. *)
Lemma loop_empty F lo H cs s n v : stack F lo H cs s -> inif s n = Some v -> nif_loop_first v = None -> lo n = [].
Proof using Type.
  intros [_ HL] Hv Hf. pose proof (lo_queue _ _ _ _ HL n v Hv) as [Hseg _ _ _ _ _]. rewrite Hf in Hseg.
  destruct (lo n) as [|[a c] q]; [done|]. by destruct Hseg.
Qed.

(** The datagram in the loopback queue, after [udp_sendto_if_src]. *)
Lemma udp_to_self l H cs s p b t pcb u nif v own dport s1 :
  routes6 ip6_route -> istk (p :: H) cs s -> ip_env l s -> can_send l pcb s -> cs p = (p, b) :: t -> no_empty t ->
  room UDP_HLEN b = true -> bytes_ok (content (cs p)) -> pcb_get pcb s = Some u -> speaks4 u = true -> local_port u <> 0 ->
  nif ∈ l -> inif s nif = Some v -> nif_ip_addr v = own -> nif_loop_first v = None -> ip4_addr_ismulticast own = false ->
  udp_sendto_if_src custom_free buf odd_payload ip4_frag ip6_route ip6_output_if_src pcb p (IPADDR_V4 own) dport nif (IPADDR_V4 own) s = Some (ERR_OK, s1) ->
  let d := content (cs p) in
  let len := zlen d + 8 in
  let m := udp_hdr (local_port u) dport len (sent_chksum u own own dport len d) ++ d in
  exists F' lo' cs', stack F' lo' (p :: H ++ held (i_up s1)) cs' s1 /\ up_ok (i_up s1) /\ isame s s1 /\ i_up s1 = i_up s /\
    IP_HLEN + zlen m < 65536 /\ queue_data (lo' nif) = [ip4_hdr (ttl u) (tos u) IP_PROTO_UDP (zlen m) (ip_id s) own own ++ m].
Proof using Sound0.
  intros HR HS HE HC Ec Hne Hroom Hby Hu H4 Hport Hn Hv Ha Hlf Hmc E d len m. destruct (cs_nifs _ _ _ HC nif v Hn Hv) as [Hh Hown]. rewrite Ha in Hown.
  destruct (cs_hint _ _ _ HC) as (c & Hc & Hc0).
  destruct (sendto_src_eq custom_free buf odd_payload ip4_frag ip6_route ip6_output_if_src H cs s p b t pcb u nif v own own dport HR HS Ec Hroom Hby Hu H4 Hv Hown Hown)
    as (us & u0 & HUs & Hu0 & Hus & [(_ & ? & _)|(_ & _ & b' & Hrl & Hlen & Hcont & HS1 & E1)]); [done|].
  rewrite (Hus Hport) in *. assert (u0 = u) as -> by (unfold pcb_get in Hu; congruence). rewrite E1 in E. clear E1 Hus. cbn zeta in Hcont. fold d in Hcont, Hlen. fold len in Hcont, Hlen. fold m in Hcont.
  unfold sent_ttl in E. rewrite Hmc in E. set (sf := filled nif pcb v p b' (cget s) s) in *.
  destruct (ip4_output_if_src _ _ _ _ _ _ _ _ _ _ _) as [[e s2]|] eqn:Eo; [|done]. cbn [mbind option_bind] in E.
  set (s0 := iheap (put (i_heap s) p b') (cset (cget s) s)) in *. assert (Hsm0 : isame s s0) by (etransitivity; [apply cset_same|apply heap_same]).
  assert (HE1 : ip_env l sf) by (apply (hint_env l s0 nif v pcb c); try done; by eapply same_env).
  destruct HS1 as (F & lo & HS1 & HU1). pose proof (hinted_nif nif (Some pcb) v s0) as Hvf.
  assert (Hlo : lo nif = []) by (by eapply (loop_empty F lo _ _ sf nif (nset_hints (Some pcb) v))).
  destruct (inmod nif (nset_hints None) s2) as [s3|] eqn:Ei; [|done]. injection E as -> <-.
  assert (Etot : pb_tot_len b' = zlen m /\ IP_HLEN + zlen m < 65536).
  { assert (HSf : istk (p :: H) (cs_set p ((p, b') :: t) cs) sf) by by exists F, lo.
    destruct (istk_packet _ _ _ p HSf ltac:(by left)) as (b2 & t2 & E2 & _ & Hk & _ & _ & Ht & _). rewrite cs_set_eq in E2. injection E2 as <- <-.
    assert (Etl : pb_tot_len b' = zlen m) by (rewrite <- Hcont, content_len by apply Hk; cbn [sum_len]; lia). split; [done|].
    pose proof (output_if_src_eq custom_free buf ip4_frag (p :: H) _ sf p b' t (Some own) own (ttl u) (tos u) IP_PROTO_UDP nif HSf ltac:(by left) (cs_set_eq _ _ _)) as Ho.
    destruct (room IP_HLEN b') eqn:Er; [|rewrite Ho in Eo; discriminate]. unfold room in Er. rewrite !andb_true_iff, Z.ltb_lt in Er. lia. }
  destruct Etot as [Etot Hfit].
  destruct (output_src_to_self custom_free buf ip4_frag l F lo H _ sf p b' t (nset_hints (Some pcb) v) own (ttl u) (tos u) IP_PROTO_UDP nif s2 HS1 HU1 HE1 Hn Hvf Ha (cs_set_eq _ _ _) Hne Hlo Eo)
    as (F' & lo' & cs' & HS2 & Hsm2 & Eu2 & Hq). rewrite cs_set_eq, Hcont, Etot in Hq.
  destruct (same_nif _ _ nif _ Hsm2 Hvf) as (v2 & Hv2 & _). rewrite (hinted_eq nif None v2) in Ei by done. injection Ei as <-.
  assert (Eup : i_up (hinted nif None v2 s2) = i_up s) by (change (i_up (hinted nif None v2 s2)) with (i_up s2); rewrite Eu2; cbn; apply comp_set_get).
  exists F', lo', cs'. rewrite Eup. split_and!; try done.
  - change (i_up sf) with (comp_set (cget s) (i_up s)) in Eu2. rewrite Eu2 in HS2. unfold cget in HS2. rewrite comp_set_get in HS2. destruct HS2 as [HI HL].
    split; [by apply (arp_inv_nput _ cs' (i_l s2) nif v2)|]. exact (loops_hinted F' lo' _ _ nif v2 None Hv2 HL).
  - destruct HS as (? & ? & _ & HU). done.
  - etransitivity; [exact Hsm0|]. by eapply (hint_same nif v (Some pcb)).
Qed.

Context (ip4_reass : addr -> istate -> option (option addr * istate)) (tcp_input : addr -> Z -> istate -> option istate).
Context (ip6_input : addr -> Z -> istate -> option (Z * istate)).

(** The PCB bound to the port gets the datagrams for it. *)
Definition receives (s : istate) (v : netif) (own src sport dport n : Z) (q : udp_pcb) (f : Z) : Prop :=
  listed (cget s) n q /\ lmatch (netif_get_index v) (nif_netmask v) own dport false q = true /\
  (rmatch src sport q = true \/ connected q = false) /\ so_options q .& SOF_REUSEADDR = 0 /\ recv q = Some f.

Lemma target_unique s v own src sport dport n q f r :
  udp_ok (cget s) -> receives s v own src sport dport n q f ->
  target (cget s) (netif_get_index v) (nif_netmask v) src own sport dport false r -> r = Some n.
Proof using Type.
  intros HU (Hq & Hl & Hc & Hr & _) Ht. destruct r as [m|].
  - destruct Ht as (p & Hp & Hlp & _). f_equal. symmetry. exact (unicast_unique _ _ _ _ _ _ _ _ _ HU Hq Hp Hl Hlp Hr).
  - destruct (Ht n q Hq Hl) as [E1 E2]. destruct Hc; congruence.
Qed.

Lemma hdr_ports b t sport dport len c d :
  pb_ok b -> 8 <= pb_len b -> content ((xH, b) :: t) = udp_hdr sport dport len c ++ d -> 0 <= sport < 65536 -> 0 <= dport < 65536 ->
  lwip_htons <$> u16_of (ztake 2 (pb_bytes b)) = Some sport /\ lwip_htons <$> u16_of (ztake 2 (zdrop 2 (pb_bytes b))) = Some dport.
Proof using Type.
  intros Hb Hl Hc Hs Hd. pose proof (pb_bytes_len b Hb) as Hz. rewrite content_cons in Hc.
  assert (H1 : ztake 2 (pb_bytes b) = ztake 2 (udp_hdr sport dport len c ++ d)) by (rewrite <- Hc, ztake_app_le by lia; done).
  assert (H2 : ztake 2 (zdrop 2 (pb_bytes b)) = ztake 2 (zdrop 2 (udp_hdr sport dport len c ++ d))).
  { rewrite <- Hc, zdrop_app_le by lia. rewrite ztake_app_le by (rewrite zlen_zdrop; lia). done. }
  rewrite H1, H2. change (ztake 2 (udp_hdr sport dport len c ++ d)) with (bytes16 (lwip_htons sport)).
  change (ztake 2 (zdrop 2 (udp_hdr sport dport len c ++ d))) with (bytes16 (lwip_htons dport)).
  rewrite !bytes16_read by apply htons_range. cbn. by rewrite !htons_invol.
Qed.

(** A datagram of ours in the loopback queue, taken off it. *)
Lemma udp_from_self l F lo H cs s v nif a c q0 own ttl tos id sport dport len ck d n q f :
  stack F lo (H ++ held (i_up s)) cs s -> up_ok (i_up s) -> ip_env l s -> nif ∈ l -> inif s nif = Some v -> nif_ip_addr v = own ->
  host_addr own -> netif_is_up v = true -> lo nif = (a, c) :: q0 ->
  pb_bytes c = ip4_hdr ttl tos IP_PROTO_UDP (8 + zlen d) id own own ++ udp_hdr sport dport len ck ++ d -> bytes_ok d ->
  0 <= ttl < 256 -> 0 <= tos < 256 -> 0 <= id < 65536 -> IP_HLEN + (8 + zlen d) < 65536 -> 0 <= sport < 65536 -> 0 <= dport < 65536 ->
  receives s v own own sport dport n q f ->
  exists s1 s2 cs2, poll_take nif a s = Some s1 /\ istk (a :: H) cs2 s2 /\ isame s s2 /\ content (cs2 a) = d /\
    ip_input custom_free buf odd_payload ip4_frag ip4_reass (udp_input custom_free buf odd_payload ip4_frag recv_fn) tcp_input ip6_input a nif s1 =
      (s' ← recv_fn f (recv_arg q) n a (IPADDR_V4 own) sport s2; Some (ERR_OK, set_ip_data (IpGlobals None None None 0 IPADDR_ANY IPADDR_ANY) s')).
Proof using Sound0.
  intros HS HU HE Hn Hv Ha Hown Hup Hlo Hby Hbd Httl Htos Hid Hfit Hsp Hdp Hrcv. set (m := udp_hdr sport dport len ck ++ d) in *.
  assert (Hm : zlen m = 8 + zlen d) by (unfold m; by rewrite zlen_app, udp_hdr_len). pose proof (zlen_nonneg d) as Hd0. rewrite <- Hm in Hby, Hfit.
  destruct (own_packet_taken custom_free buf odd_payload ip4_frag ip4_reass (udp_input custom_free buf odd_payload ip4_frag recv_fn) tcp_input ip6_input
    l F lo H cs s v nif a c m q0 own ttl tos IP_PROTO_UDP id HS HU HE Hn Hv Ha Hown Hup Hlo Hby)
    as (s1 & s2 & cs2 & b2 & t2 & Et & HS2 & Hsm & Eup & Hcont & Ec2 & El & HD & Hdat & Ein); try done.
  { apply bytes_ok_app. split; [apply udp_hdr_ok|done]. } { lia. }
  exists s1. assert (Hl8 : 8 <= pb_len b2) by lia.
  destruct (same_nif _ _ _ _ Hsm Hv) as (v2 & Hv2 & Hu). destruct (unloop_eq _ _ Hu) as (_ & _ & _ & _ & Eip & _ & _ & Emk & _).
  assert (Eidx : netif_get_index v2 = netif_get_index v) by (unfold netif_get_index; by rewrite (f_equal nif_num Hu : nif_num v2 = nif_num v)).
  assert (Hcg : cget s2 = cget s :> udp_state) by (unfold cget; by rewrite Eup).
  destruct (istk_packet _ _ _ a HS2 ltac:(by left)) as (b3 & t3 & E3 & _ & _ & _ & Hb2 & _). rewrite Ec2 in E3. injection E3 as <- <-.
  destruct (hdr_ports b2 t2 sport dport len ck d Hb2 Hl8) as [Hps Hpd]; [assert (Hx := Hcont); rewrite Ec2 in Hx; exact Hx|done|done|].
  assert (HC : scene s2 nif (netif_get_index v) (nif_netmask v) own false).
  { split; [exists v2; by rewrite Emk, Eip|exists nif, v2; by rewrite Hdat|]. exists nif, v2. rewrite Hdat. split; [done|]. split; [done|].
    apply host_not_broadcast; [done|]. by rewrite Eip. }
  assert (HG : datagram b2 s2 own own sport dport) by (split; try done; by rewrite Hdat).
  destruct (udp_input_eq custom_free buf odd_payload ip4_frag recv_fn H cs2 s2 a b2 t2 nif _ _ own false own own sport dport HS2 Ec2 Hl8 HC HG)
    as (r & u' & Htg & HU' & Em' & _ & Eui).
  assert (Hok2 : udp_ok (cget s2)) by exact (istk_get _ _ _ HS2). rewrite Hcg in Htg, Hok2.
  pose proof (target_unique s v own own sport dport n q f r Hok2 Hrcv Htg) as ->. destruct Hrcv as ([_ Hq] & _ & _ & _ & Hrf).
  destruct (istk_received (a :: H) cs2 s2 a b2 t2 u' HS2 ltac:(by left) Ec2 Hl8 HU') as [HS3 Hc3].
  exists (received a b2 u' s2). eexists. split; [exact Et|]. split; [exact HS3|]. split; [etransitivity; [exact Hsm|apply received_same]|].
  split; [rewrite cs_set_eq, Hc3, Hcont; done|]. rewrite Ein. unfold ip4_demux. cbn [Z.eqb]. change (IP_PROTO_UDP =? IP_PROTO_UDP) with true. cbv iota.
  rewrite Eui. rewrite bool_decide_true by by eexists. cbn [orb]. unfold udp_deliver.
  assert (Hpg : pcb_get n (received a b2 u' s2) = Some q) by (unfold pcb_get, received; rewrite iheap_cset, cget_cset, Em', Hcg; exact Hq).
  rewrite Hpg; cbn [mbind option_bind]. rewrite Hrf. change (ip_data (received a b2 u' s2)) with (ip_data s2). by rewrite Hdat.
Qed.

End self.

(** UDP is all there is above IP. *)
#[export] Instance exu_upper : Upper := {| upper := udp_state; held := fun _ => []; up_ok := udp_ok |}.

#[export] Instance exu_component : Component (U := exu_upper) udp_state.
Proof.
  refine {| comp_get := (fun u => u : udp_state) : @upper exu_upper -> udp_state; comp_set := fun (a : udp_state) (_ : @upper exu_upper) => a : @upper exu_upper |}; done.
Defined.

#[export] Instance exu_sound : Sound (U := exu_upper) udp_state udp_ok (fun _ => []).
Proof. split; try done. intros u. exists []. by split. Qed.

Definition exu_sender : udp_pcb := set_local (IPADDR_V4 IPADDR_ANY) 5000 (new_pcb IPADDR_TYPE_V4).

Definition exu_receiver : udp_pcb := set_recv (Some 1) 77 (set_local (IPADDR_V4 0x0100000a) 7 (new_pcb IPADDR_TYPE_V4)).

Definition exu_udp : udp_state := UdpState (<[100 := exu_sender]> {[200 := exu_receiver]}) [100; 200] 0xc123.

Lemma exu_pcbs n p : listed exu_udp n p -> (n = 100 /\ p = exu_sender) \/ (n = 200 /\ p = exu_receiver).
Proof.
  intros [Hn Hp]. apply elem_of_cons in Hn as [->|Hn]; [left; by injection Hp as <-|]. apply list_elem_of_singleton in Hn as ->. right. by injection Hp as <-.
Qed.

Lemma exu_udp_ok : udp_ok exu_udp.
Proof.
  split.
  - intros n [->|[->|Hn]%elem_of_cons]%elem_of_cons; [by eexists|by eexists|by apply elem_of_nil in Hn].
  - apply (bool_decide_unpack _). by vm_compute.
  - unfold in_range. vm_compute. done.
  - intros n p Hp _. cbn in Hp. apply lookup_insert_Some in Hp as [[<- _]|[_ [<- _]%lookup_singleton_Some]]; [by left|right; by left].
  - intros n p m q [[-> ->]|[-> ->]]%exu_pcbs [[-> ->]|[-> ->]]%exu_pcbs Hne; try done; by vm_compute.
Qed.

Definition exu_s (b : pbuf) (posts : list bool) (u : udp_state) : @istate exu_upper :=
  IState (U := exu_upper) (exi_l b (<[100 := 0]> {[200 := 0]})) posts [] 7 None (IpGlobals None None None 0 0 0) u.

Lemma exu_istk b posts u : exa_good b -> udp_ok u -> istk [1%positive] (exa_cs_of b) (exu_s b posts u).
Proof. intros Hb Hu. exists no_frame, exi_lo. split; [|done]. split; [by apply exi_arp_inv|exact (exi_loops b)]. Qed.

Lemma exu_env b posts u : ip_env [1] (exu_s b posts u).
Proof.
  split.
  - split; [reflexivity|]. by exists exi_nif.
  - by apply NoDup_singleton.
  - by left.
  - done.
  - intros n v _ [-> ->]%(exi_nget b). split; [done|]. intros _. exists exa_tap. exact (exi_nif_ok b).
  - intros n v _ [-> ->]%(exi_nget b). by intros p Hp.
Qed.

(** No IPv6 route. *)
Definition exu_route6 : ip6_addr -> ip6_addr -> @istate exu_upper -> option (option Z) := fun _ _ _ => Some None.

Lemma exu_routes : routes6 exu_route6.
Proof. intros src dst s. by exists None. Qed.

Lemma exu_can_send b posts u : can_send [1] 100 (exu_s b posts u).
Proof. split; [by exists 0|]. intros n v _ [-> ->]%(exi_nget b). split; [done|]. by vm_compute. Qed.

(** ** Addresses that change *)

Section pcbs.
  Context {U : Upper} `{!Component udp_state}.
  Context (ip6_route : ip6_addr -> ip6_addr -> istate -> option (option Z)).

(** C12. UDP bindings are exclusive: whatever sequence of PCB creations, bindings,
    connections, disconnections, deliveries, removals, options set or cleared and
    address changes of the interfaces follows [udp_init], no two PCBs are bound to
    a port with overlapping addresses unless both allow the sharing, the list
    holds every PCB at most once, and every PCB with a port is in it.  Two kinds
    of step are restricted: an address change must not move a PCB to an address
    where another one has its port ([address_free]; without that
    [udp_readdress_clash] applies), and SOF_REUSEADDR is only cleared on a PCB that is
    not in the list. *)
Theorem udp_bindings_exclusive rand port0 s0 s :
  routes6 ip6_route -> cget s0 = udp_init rand (UdpState ∅ [] port0) -> rtc (udp_step ip6_route) s0 s ->
  (forall n p m q, listed (cget s) n p -> listed (cget s) m q -> n <> m ->
     local_port p = local_port q -> overlap (local_ip p) (local_ip q) = true ->
     so_options p .& SOF_REUSEADDR <> 0 /\ so_options q .& SOF_REUSEADDR <> 0) /\
  NoDup (udp_pcbs (cget s)) /\
  (forall n p, pcb_get n s = Some p -> local_port p <> 0 -> n ∈ udp_pcbs (cget s)).
Proof.
  intros HR H0 Hs. assert (HU : udp_ok (cget s)).
  { assert (HU0 : udp_ok (cget s0)) by (rewrite H0; apply udp_init_ok). clear H0. induction Hs as [s|s1 s2 s3 H1 _ IH]; [done|]. apply IH. by eapply udp_step_ok. }
  destruct HU as [_ Hnd _ Hb He]. split; [|by split]. intros n p m q Hp Hq Hne Eport Hov. pose proof (He n p m q Hp Hq Hne) as Hc.
  unfold clash in Hc. rewrite Eport, Z.eqb_refl, overlap_sym, Hov, !andb_true_r in Hc. by rewrite orb_false_iff, !Z.eqb_neq in Hc.
Qed.

(** [udp_new_port] ends after at most 0x4000 turns with a port of the
    ephemeral range that no listed PCB has, or with zero when every port of the
    range is taken; nothing but [udp_port] changes. *)
Theorem udp_new_port_spec u :
  pcbs_live u -> in_range (udp_port u) ->
  exists port u', udp_new_port u = Some (port, u') /\ udp_mem u' = udp_mem u /\ udp_pcbs u' = udp_pcbs u /\ in_range (udp_port u') /\
    ((port = 0 /\ forall x, in_range x -> port_taken u x) \/ (in_range port /\ ~ port_taken u port)).
Proof. apply udp_new_port_ok. Qed.

(** [udp_bind] to an IPv4 or any-type address: ERR_USE, with every PCB as it
    was, exactly when another PCB excludes the address and port (or, with port
    zero, when no port is left); else the PCB is on the list with that address
    and port (or a port nobody had), and no other PCB changed. *)
Theorem udp_bind_spec pcb ip port s p :
  routes6 ip6_route -> udp_ok (cget s) -> pcb_get pcb s = Some p -> IP_IS_V6 ip = false ->
  exists r s', udp_bind ip6_route pcb (Some ip) port s = Some (r, s') /\ i_l s' = i_l s /\
    ((r = ERR_USE /\ udp_mem (cget s') = udp_mem (cget s) /\ udp_pcbs (cget s') = udp_pcbs (cget s) /\
      if port =? 0 then forall x, in_range x -> port_taken (cget s) x
      else exists m q, listed (cget s) m q /\ pcb <> m /\ clash (set_local ip port p) q = true) \/
     (r = ERR_OK /\ exists port', listed (cget s') pcb (set_local ip port' p) /\
        (forall m, m <> pcb -> udp_mem (cget s') !! m = udp_mem (cget s) !! m) /\
        if port =? 0 then in_range port' /\ ~ port_taken (cget s) port' else port' = port)).
Proof.
  intros HR HU Hp Hv. destruct (udp_bind_ok ip6_route HR pcb (Some ip) port s p HU Hp) as (r & s' & ip' & E & _ & Ei & Ez & Hc).
  destruct (zoned_total ip6_route HR (default (IPADDR_V4 IPADDR_ANY) (Some ip)) id s) as (ip2 & Ez2 & _ & H4). rewrite Ez in Ez2. injection Ez2 as <-.
  rewrite (H4 Hv) in Hc. by exists r, s'.
Qed.

(** When an interface's address changes to one that another PCB is bound to on
    the same port, both PCBs are bound to it afterwards, although neither allows
    the sharing and [udp_bind] would have refused it. *)
Theorem udp_readdress_clash s n p m q old new :
  udp_ok (cget s) -> listed (cget s) n p -> listed (cget s) m q -> local_ip p = IPADDR_V4 old -> local_ip q = IPADDR_V4 new ->
  old <> new -> old <> IPADDR_ANY -> new <> IPADDR_ANY -> local_port p = local_port q -> so_options p .& SOF_REUSEADDR = 0 ->
  exists s' p', udp_netif_ip_addr_changed (Some (IPADDR_V4 old)) (Some (IPADDR_V4 new)) s = Some s' /\
    listed (cget s') n p' /\ listed (cget s') m q /\ n <> m /\ clash p' q = true /\
    bind_conflict n p' (local_ip p') (local_port p') m q = true.
Proof.
  intros HU [Hn Hp] [Hm Hq] Ep Eq Hon Ho Hnew Eport Hre. destruct HU as [HL Hnd _ _ _].
  destruct (readdress_spec (IPADDR_V4 old) (IPADDR_V4 new) (udp_pcbs (cget s)) (cget s) HL Hnd) as (u' & E & El & _ & _ & Hu).
  unfold udp_netif_ip_addr_changed, ip_addr_isany. cbn [IP_IS_V6 ip_2_ip4]. apply Z.eqb_neq in Ho, Hnew. rewrite Ho, Hnew. cbn [negb andb]. rewrite E. cbn [mbind option_bind].
  assert (Hnm : n <> m) by (intros <-; rewrite Hp in Hq; injection Hq as <-; congruence).
  assert (Hcl : clash (set_local (IPADDR_V4 new) (local_port p) p) q = true).
  { unfold clash, overlap; cbn. rewrite Hre, Eport, Eq, !Z.eqb_refl. cbn. unfold ip_addr_cmp; cbn. by rewrite !Z.eqb_refl. }
  exists (cset u' s), (set_local (IPADDR_V4 new) (local_port p) p). split; [done|]. rewrite cget_cset. unfold listed. rewrite El, (Hu n p Hp), (Hu m q Hq), !bool_decide_true by done.
  rewrite Ep, Eq. unfold ip_addr_cmp; cbn [same_type IP_IS_V6 ip_2_ip4 andb]. rewrite Z.eqb_refl. destruct (Z.eqb_spec new old); [congruence|].
  split; [done|]. split; [done|]. split; [done|]. split; [done|]. rewrite bind_conflict_clash.
  replace (set_local _ _ _) with (set_local (IPADDR_V4 new) (local_port p) p) by by destruct p. rewrite Hcl. apply Z.eqb_neq in Hnm. by rewrite Hnm.
Qed.

End pcbs.

Section paths.
  Context {U : Upper} `{!Component udp_state, !Sound udp_state udp_ok (fun _ => [])}.
  Context (custom_free : addr -> heap -> option heap) (buf : list Z) (odd_payload : addr -> pbuf -> bool).
  Context (ip4_frag : addr -> Z -> Z -> istate -> option (Z * istate)).
  Context (ip6_route : ip6_addr -> ip6_addr -> istate -> option (option Z)).
  Context (ip6_select_source_address : Z -> ip6_addr -> istate -> option (option ip6_addr)).
  Context (ip6_output_if_src : addr -> ip6_addr -> ip6_addr -> Z -> Z -> Z -> Z -> istate -> option (Z * istate)).
  Context (recv_fn : Z -> Z -> Z -> addr -> ip_addr -> Z -> istate -> option istate).
  Context (ip4_reass : addr -> istate -> option (option addr * istate)) (tcp_input : addr -> Z -> istate -> option istate).
  Context (ip6_input : addr -> Z -> istate -> option (Z * istate)).

(** C13. Which PCB gets a datagram: the one connected to its source if there is
    one, else an unconnected one bound to its destination; its callback is called
    once, with the data behind the UDP header (whatever that header's length field
    says) and the source address and port, or the data is dropped if it has none.
    A datagram to no PCB that is not for our own address is dropped.  A PCB bound
    to the destination of a datagram for this host gets it for sure, when it does
    not share its port. *)
Theorem udp_input_delivers H cs s p b t inp idx mask own bcast src dest sport dport :
  istk (p :: H) cs s -> cs p = (p, b) :: t -> 8 <= pb_len b -> scene s inp idx mask own bcast -> datagram b s src dest sport dport ->
  exists r s1 cs1, target (cget s) idx mask src dest sport dport bcast r /\
    istk (p :: H) cs1 s1 /\ isame s s1 /\ content (cs1 p) = zdrop 8 (content (cs p)) /\
    (forall n q, listed (cget s) n q -> lmatch idx mask dest dport false q = true -> bcast = false -> so_options q .& SOF_REUSEADDR = 0 ->
       rmatch src sport q = true \/ connected q = false -> r = Some n) /\
    match r with
    | Some n => exists q, listed (cget s) n q /\
        udp_input custom_free buf odd_payload ip4_frag recv_fn p inp s =
          match recv q with Some f => recv_fn f (recv_arg q) n p (IPADDR_V4 src) sport s1 | None => pbuf_free_i custom_free p s1 end
    | None => own <> dest -> udp_input custom_free buf odd_payload ip4_frag recv_fn p inp s = pbuf_free_i custom_free p s
    end.
Proof using Sound0.
  intros HS Ec Hl HC HG. pose proof (istk_get _ _ _ HS) as HU.
  destruct (udp_input_eq custom_free buf odd_payload ip4_frag recv_fn H cs s p b t inp idx mask own bcast src dest sport dport HS Ec Hl HC HG) as (r & u' & Ht & HU' & Em & HP & E).
  destruct (istk_received (p :: H) cs s p b t u' HS ltac:(by left) Ec Hl HU') as [HS1 Hc1].
  exists r, (received p b u' s). eexists. split; [done|]. split; [exact HS1|]. split; [apply received_same|]. split; [by rewrite cs_set_eq|]. split.
  - intros n q Hq Hlm -> Hre Hc. destruct r as [m|].
    + destruct Ht as (q' & Hq' & Hlm' & _). f_equal. symmetry. exact (unicast_unique _ _ _ _ _ _ _ _ _ HU Hq Hq' Hlm Hlm' Hre).
    + destruct (Ht n q Hq Hlm) as [E1 E2]. destruct Hc; congruence.
  - rewrite E. destruct r as [n|].
    + destruct Ht as (q & Hq & _). exists q. split; [done|]. rewrite bool_decide_true by by eexists. cbn [orb]. unfold udp_deliver, pcb_get, received.
      rewrite iheap_cset, cget_cset, Em. destruct Hq as [_ ->]. cbn [mbind option_bind]. rewrite <- (dg_src _ _ _ _ _ _ HG). done.
    + intros Hne%Z.eqb_neq. rewrite bool_decide_false by by intros [? ?]. by rewrite Hne.
Qed.


(** C15. UDP is safe.  For every datagram as [ip4_input] delivers it, whatever it
    holds, [udp_input] completes and gives the packet's reference away exactly
    once: what it delivers goes to the callback, which must account for it, what
    it drops or answers is freed, and the account of the references ([owned]:
    every count exact, no pbuf without an owner) holds afterwards without the
    packet.  For every packet with room for the UDP header in its first pbuf and
    fewer than 255 references, and every IPv4 destination, [udp_sendto]
    completes, the caller still owns the packet, and nothing else that it
    allocated is left. *)
Theorem udp_paths_safe l H cs s p b t :
  zlen buf = 2048 -> Sender ip4_frag -> Receiver recv_fn -> routes6 ip6_route -> istk (p :: H) cs s -> ip_env l s -> cs p = (p, b) :: t ->
  (forall hlen inp, inp ∈ l -> delivered l p b t hlen s ->
     exists s', udp_input custom_free buf odd_payload ip4_frag recv_fn p inp s = Some s' /\ istack H s' /\ isame s s') /\
  (forall pcb u dest dport, can_send l pcb s -> no_empty t -> pb_ref b < 255 -> room UDP_HLEN b = true -> bytes_ok (content (cs p)) ->
     pcb_get pcb s = Some u -> 0 <= dest < 2 ^ 32 ->
     exists r s', udp_sendto custom_free buf odd_payload ip4_frag ip6_route ip6_select_source_address ip6_output_if_src pcb p (IPADDR_V4 dest) dport s =
         Some (r, s') /\ istack (p :: H) s' /\ isame s s').
Proof using Sound0.
  intros Hbuf HSd HRv HR HS HE Ec. split.
  - intros hlen inp Hin HD. by eapply (udp_protocol custom_free buf odd_payload ip4_frag recv_fn Hbuf).
  - intros. by eapply (udp_sendto_ok custom_free buf odd_payload ip4_frag ip6_route ip6_select_source_address ip6_output_if_src Hbuf l H cs s p b t).
Qed.

(** C11. UDP loopback round trip: a datagram that a bound PCB sends to the address
    of the interface it is routed to, whose loopback queue is empty, is handed by
    the next poll of that interface to the callback of the PCB bound to its port:
    the same data, with our address and the sender's port as its source. *)
Theorem udp_loopback_roundtrip l H cs s p b t pcb u nif v own dport s1 n q f fuel :
  routes6 ip6_route -> istk (p :: H) cs s -> ip_env l s -> can_send l pcb s -> cs p = (p, b) :: t -> no_empty t -> room UDP_HLEN b = true ->
  bytes_ok (content (cs p)) -> pcb_get pcb s = Some u -> speaks4 u = true -> 0 < local_port u < 65536 -> 0 <= dport < 65536 ->
  0 <= ttl u < 256 -> 0 <= tos u < 256 -> 0 <= ip_id s < 65536 ->
  route4 l u own s = Some nif -> inif s nif = Some v -> nif_ip_addr v = own -> host_addr own -> netif_is_up v = true -> nif_loop_first v = None ->
  source4 u v = Some own -> receives s v own own (local_port u) dport n q f ->
  udp_sendto custom_free buf odd_payload ip4_frag ip6_route ip6_select_source_address ip6_output_if_src pcb p (IPADDR_V4 own) dport s = Some (ERR_OK, s1) ->
  exists a s2 cs2, istk (a :: p :: H) cs2 s2 /\ isame s1 s2 /\ content (cs2 a) = content (cs p) /\
    let input := ip_input custom_free buf odd_payload ip4_frag ip4_reass (udp_input custom_free buf odd_payload ip4_frag recv_fn) tcp_input ip6_input in
    netif_poll custom_free input (S fuel) nif s1 =
      (s' ← recv_fn f (recv_arg q) n a (IPADDR_V4 own) (local_port u) s2;
       netif_poll custom_free input fuel nif (set_ip_data (IpGlobals None None None 0 IPADDR_ANY IPADDR_ANY) s')).
Proof using Sound0.
  intros HR HS HE HC Ec Hne Hroom Hby Hu H4 Hlp Hdp Httl Htos Hid Hrt Hv Ha Hown Hup Hlf Hsrc Hrcv E. pose proof (route4_in _ _ _ _ _ HE Hrt) as Hn.
  rewrite (udp_sendto_eq custom_free buf odd_payload ip4_frag ip6_route ip6_select_source_address ip6_output_if_src l s pcb p u) in E by done.
  rewrite H4, Hrt, Hv in E. cbn [negb mbind option_bind] in E. rewrite Hsrc in E.
  destruct (udp_to_self custom_free buf odd_payload ip4_frag ip6_route ip6_output_if_src l H cs s p b t pcb u nif v own dport s1) as (F & lo & cs1 & HS1 & HU1 & Hsm & Eu & Hfit & Hq); try done; [lia|apply Hown|].
  cbn zeta in Hq, Hfit. rewrite zlen_app, udp_hdr_len in Hq, Hfit.
  destruct (lo nif) as [|[a c] q0] eqn:Eq; [done|]. destruct q0; [|done]. apply (f_equal (hd [])) in Hq. cbn [queue_data fmap list_fmap hd snd] in Hq.
  destruct (same_nif _ _ _ _ Hsm Hv) as (v1 & Hv1 & Hul). destruct (unloop_eq _ _ Hul) as (_ & _ & _ & _ & Eip & _ & Efl & Emk & _).
  assert (Eidx : netif_get_index v1 = netif_get_index v) by (unfold netif_get_index; by rewrite (f_equal nif_num Hul : nif_num v1 = nif_num v)).
  destruct (udp_from_self custom_free buf odd_payload ip4_frag recv_fn ip4_reass tcp_input ip6_input l F lo (p :: H) cs1 s1 v1 nif a c [] own (ttl u) (tos u) (ip_id s)
    (local_port u) dport (zlen (content (cs p)) + 8) (sent_chksum u own own dport (zlen (content (cs p)) + 8) (content (cs p))) (content (cs p)) n q f HS1 HU1) as (s2 & s3 & cs3 & Et & HS3 & Hsm3 & Hcont & Ein); try done.
  { by eapply same_env. } { by rewrite Eip. } { unfold netif_is_up, flag_set in *. by rewrite Efl. } { lia. }
  { unfold receives, cget in *. by rewrite Eu, Eidx, Emk. }
  exists a, s3, cs3. split; [done|]. split; [done|]. split; [done|]. cbn zeta. cbn [netif_poll]. rewrite Hv1; cbn [mbind option_bind].
  pose proof (lo_queue _ _ _ _ (stk_loops _ _ _ _ _ HS1) nif v1 Hv1) as [Hseg _ _ _ _ _]. rewrite Eq in Hseg. destruct Hseg as (-> & _).
  rewrite Et; cbn [mbind option_bind]. rewrite Ein. by destruct (recv_fn _ _ _ _ _ _ _).
Qed.

End paths.

(** ** Witnesses *)
Definition exu_s0 : istate := exu_s (exi_pbuf []) [] (udp_init 5 (UdpState ∅ [] 0)).

(** Two PCBs are made, both allow the sharing and are bound to port 7 of the
    interface's address; then that address changes. *)
Definition exu_share (n : Z) (s : istate) : istate :=
  match pcb_get n s with Some p => pcb_put n (ip_set_option SOF_REUSEADDR p) s | None => s end.

Definition exu_bind7 (n : Z) (s : istate) : istate := default s (snd <$> udp_bind exu_route6 n (Some (IPADDR_V4 0x0100000a)) 7 s).

Definition exu_s1 : istate := exu_bind7 2 (exu_share 2 (snd (udp_new exu_s0))).

Definition exu_s2 : istate := exu_bind7 3 (exu_share 3 (snd (udp_new exu_s1))).

Definition exu_s3 : istate := default exu_s2 (udp_netif_ip_addr_changed (Some (IPADDR_V4 0x0100000a)) (Some (IPADDR_V4 0x0900000a)) exu_s2).

Lemma exu_step_share n s : is_Some (pcb_get n s) -> udp_step exu_route6 s (exu_share n s).
Proof. intros [p Hp]. unfold exu_share. rewrite Hp. by apply step_set_option. Qed.

Lemma exu_step_bind n s : is_Some (udp_bind exu_route6 n (Some (IPADDR_V4 0x0100000a)) 7 s) -> udp_step exu_route6 s (exu_bind7 n s).
Proof. intros [[r s'] E]. unfold exu_bind7. rewrite E. by apply (step_bind exu_route6 n (Some (IPADDR_V4 0x0100000a)) 7 r). Qed.

Lemma udp_bindings_exclusive_witness :
  exists s p q, rtc (udp_step exu_route6) exu_s0 s /\ listed (cget s) 2 p /\ listed (cget s) 3 q /\ local_port p = 7 /\ local_port q = 7 /\
    so_options p .& SOF_REUSEADDR <> 0 /\ so_options q .& SOF_REUSEADDR <> 0 /\ NoDup (udp_pcbs (cget s)).
Proof.
  assert (Hs : rtc (udp_step exu_route6) exu_s0 exu_s2).
  { eapply rtc_l; [apply (step_new exu_route6 IPADDR_TYPE_V4 exu_s0 (Some 2) (snd (udp_new exu_s0))); [reflexivity|by intros a [= <-]]|].
    eapply rtc_l; [apply (exu_step_share 2); by eexists|]. eapply rtc_l; [apply (exu_step_bind 2); vm_compute; by eexists|]. fold exu_s1.
    eapply rtc_l; [apply (step_new exu_route6 IPADDR_TYPE_V4 exu_s1 (Some 3) (snd (udp_new exu_s1))); [vm_compute; reflexivity|by intros a [= <-]]|].
    eapply rtc_l; [apply (exu_step_share 3); vm_compute; by eexists|]. eapply rtc_l; [apply (exu_step_bind 3); vm_compute; by eexists|]. apply rtc_refl. }
  assert (Hm : rtc (udp_step exu_route6) exu_s0 exu_s3).
  { eapply rtc_r; [exact Hs|]. apply (step_addr_changed exu_route6 (IPADDR_V4 0x0100000a) (IPADDR_V4 0x0900000a)); [vm_compute; reflexivity|].
    intros n p m q _ [Hm Hq] _ Hc. exfalso. change (m ∈ [3; 2]) in Hm. rewrite !elem_of_cons, elem_of_nil in Hm.
    destruct Hm as [->|[->|[]]]; vm_compute in Hq; injection Hq as <-; discriminate Hc. }
  assert (H0 : cget exu_s0 = udp_init 5 (UdpState ∅ [] 0)) by reflexivity.
  destruct (udp_bindings_exclusive exu_route6 5 0 exu_s0 exu_s3 exu_routes H0 Hm) as (Hex & Hnd & _).
  assert (H2 : exists p, listed (cget exu_s3) 2 p /\ local_port p = 7 /\ local_ip p = IPADDR_V4 0x0900000a).
  { eexists. split; [split; [vm_compute; right; by left|vm_compute; reflexivity]|]. split; reflexivity. }
  assert (H3 : exists q, listed (cget exu_s3) 3 q /\ local_port q = 7 /\ local_ip q = IPADDR_V4 0x0900000a).
  { eexists. split; [split; [vm_compute; by left|vm_compute; reflexivity]|]. split; reflexivity. }
  destruct H2 as (p & Lp & Pp & Ap), H3 as (q & Lq & Pq & Aq). exists exu_s3, p, q.
  destruct (Hex 2 p 3 q Lp Lq ltac:(done) ltac:(congruence) ltac:(by rewrite Ap, Aq)) as [Rp Rq]. by split_and!.
Defined.

Lemma udp_new_port_spec_witness :
  exists port u', udp_new_port exu_udp = Some (port, u') /\ ((port = 0 /\ forall x, in_range x -> port_taken exu_udp x) \/ (in_range port /\ ~ port_taken exu_udp port)).
Proof.
  destruct (udp_new_port_spec exu_udp (uo_live _ exu_udp_ok) (uo_port _ exu_udp_ok)) as (port & u' & E & _ & _ & _ & Hc). exists port, u'. by split.
Defined.

Definition exu_hello : pbuf := exi_pbuf [104; 101; 108; 108; 111].

Definition exu_st : istate := exu_s exu_hello [true] exu_udp.

Lemma exu_st_ok : udp_ok (cget exu_st).
Proof. exact exu_udp_ok. Qed.

Lemma udp_bind_spec_witness :
  exists s', udp_bind exu_route6 100 (Some (IPADDR_V4 IPADDR_ANY)) 7 exu_st = Some (ERR_USE, s') /\ udp_mem (cget s') = udp_mem (cget exu_st).
Proof.
  destruct (udp_bind_spec exu_route6 100 (IPADDR_V4 IPADDR_ANY) 7 exu_st exu_sender exu_routes exu_st_ok eq_refl eq_refl)
    as (r & s' & E & _ & [(-> & Em & _)|(-> & _)]).
  - by exists s'.
  - exfalso. assert (Hc : fst <$> udp_bind exu_route6 100 (Some (IPADDR_V4 IPADDR_ANY)) 7 exu_st = Some ERR_USE) by (vm_compute; reflexivity).
    rewrite E in Hc. discriminate Hc.
Defined.

(** Two PCBs at 10.0.0.1:9 and 10.0.0.9:9, neither of which shares its port. *)
Definition exu_two : udp_state :=
  UdpState (<[100 := set_local (IPADDR_V4 0x0100000a) 9 (new_pcb IPADDR_TYPE_V4)]> {[200 := set_local (IPADDR_V4 0x0900000a) 9 (new_pcb IPADDR_TYPE_V4)]}) [100; 200] 0xc000.

Lemma exu_two_ok : udp_ok (cget (exu_s exu_hello [] exu_two)).
Proof.
  change (udp_ok exu_two). assert (Hp : forall n p, listed exu_two n p -> (n = 100 /\ p = set_local (IPADDR_V4 0x0100000a) 9 (new_pcb IPADDR_TYPE_V4)) \/
    (n = 200 /\ p = set_local (IPADDR_V4 0x0900000a) 9 (new_pcb IPADDR_TYPE_V4))).
  { intros n p [Hn Hp]. apply elem_of_cons in Hn as [->|Hn]; [left; by injection Hp as <-|]. apply list_elem_of_singleton in Hn as ->. right. by injection Hp as <-. }
  split.
  - intros n [->|[->|Hn]%elem_of_cons]%elem_of_cons; [by eexists|by eexists|by apply elem_of_nil in Hn].
  - apply (bool_decide_unpack _). by vm_compute.
  - unfold in_range. vm_compute. done.
  - intros n p Hq _. cbn in Hq. apply lookup_insert_Some in Hq as [[<- _]|[_ [<- _]%lookup_singleton_Some]]; [by left|right; by left].
  - intros n p m q [[-> ->]|[-> ->]]%Hp [[-> ->]|[-> ->]]%Hp Hne; try done; by vm_compute.
Qed.

Lemma udp_readdress_clash_witness :
  exists s' p' q, udp_netif_ip_addr_changed (Some (IPADDR_V4 0x0100000a)) (Some (IPADDR_V4 0x0900000a)) (exu_s exu_hello [] exu_two) = Some s' /\
    listed (cget s') 100 p' /\ listed (cget s') 200 q /\ clash p' q = true.
Proof.
  destruct (udp_readdress_clash (exu_s exu_hello [] exu_two) 100 (set_local (IPADDR_V4 0x0100000a) 9 (new_pcb IPADDR_TYPE_V4))
    200 (set_local (IPADDR_V4 0x0900000a) 9 (new_pcb IPADDR_TYPE_V4)) 0x0100000a 0x0900000a exu_two_ok) as (s' & p' & E & H1 & H2 & _ & H3 & _).
  - split; [by left|reflexivity].
  - split; [right; by left|reflexivity].
  - reflexivity.
  - reflexivity.
  - done.
  - done.
  - done.
  - reflexivity.
  - reflexivity.
  - exists s', p'. eexists. split; [exact E|]. split; [exact H1|]. split; [exact H2|exact H3].
Defined.

Lemma exu_st_istk : istk [1%positive] (exa_cs_of exu_hello) exu_st.
Proof. apply exu_istk; [by apply exi_good|exact exu_udp_ok]. Qed.

Lemma exu_hello_bytes : bytes_ok (content (exa_cs_of exu_hello 1%positive)).
Proof. apply (bool_decide_unpack _). vm_compute. exact I. Qed.


Lemma exu_frag_ok : Sender (U := exu_upper) (fun p nif dest s => netif_output exa_free exa_buf nif p dest s).
Proof. by apply netif_output_sender. Qed.


(** A datagram "hi" from port 9000 of the peer to 10.0.0.1:7, behind its IP header,
    as UDP gets it. *)
Definition exu_dgram : pbuf :=
  Pbuf None (replicate 44 0 ++ ip4_hdr 64 0 17 10 9 exa_peer 0x0100000a ++ udp_hdr 9000 7 10 0 ++ [104; 105] ++ replicate 32 0) 64 10 10 0x80 0 1 0.

Definition exu_in : istate :=
  set_ip_data (IpGlobals (Some 1) (Some 1) (Some (1%positive, 44)) 20 exa_peer 0x0100000a) (exu_s exu_dgram [] exu_udp).

Lemma exu_dgram_good : exa_good exu_dgram.
Proof. repeat split; cbn; try lia; [unfold zlen; cbn; lia|by left]. Qed.

Lemma exu_in_istk : istk [1%positive] (exa_cs_of exu_dgram) exu_in.
Proof. apply istk_data, exu_istk; [exact exu_dgram_good|exact exu_udp_ok]. Qed.

Lemma exu_in_delivered : delivered [1] 1%positive exu_dgram [] 20 exu_in.
Proof.
  split; try (by vm_compute); try (apply (bool_decide_unpack _); vm_compute; exact I); try (by exists 1; split; [|left]).
Qed.

Lemma udp_paths_safe_witness :
  (exists s', udp_input exa_free exa_buf (fun _ _ => false) (fun p nif dest s => netif_output exa_free exa_buf nif p dest s)
     (fun _ _ _ p _ _ s => pbuf_free_i exa_free p s) 1%positive 1 exu_in = Some s' /\ istack [] s') /\
  exists r s', udp_sendto exa_free exa_buf (fun _ _ => false) (fun p nif dest s => netif_output exa_free exa_buf nif p dest s) exu_route6 (fun _ _ _ => None)
    (fun _ _ _ _ _ _ _ _ => None) 100 1%positive (IPADDR_V4 exa_peer) 7 exu_st = Some (r, s') /\ istack [1%positive] s'.
Proof.
  split.
  - destruct (udp_paths_safe exa_free exa_buf (fun _ _ => false) (fun p nif dest s => netif_output exa_free exa_buf nif p dest s) exu_route6 (fun _ _ _ => None)
      (fun _ _ _ _ _ _ _ _ => None) (fun _ _ _ p _ _ s => pbuf_free_i exa_free p s) [1] [] (exa_cs_of exu_dgram) exu_in 1%positive exu_dgram []
      eq_refl exu_frag_ok (free_receiver exa_free) exu_routes exu_in_istk (same_env _ _ _ (data_same _ _) (exu_env _ _ _)) eq_refl) as [Hin _].
    destruct (Hin 20 1 ltac:(by left) exu_in_delivered) as (s' & E & HS & _). exists s'. split; [exact E|exact HS].
  - destruct (udp_paths_safe exa_free exa_buf (fun _ _ => false) (fun p nif dest s => netif_output exa_free exa_buf nif p dest s) exu_route6 (fun _ _ _ => None)
      (fun _ _ _ _ _ _ _ _ => None) (fun _ _ _ p _ _ s => pbuf_free_i exa_free p s) [1] [] (exa_cs_of exu_hello) exu_st 1%positive exu_hello []
      eq_refl exu_frag_ok (free_receiver exa_free) exu_routes exu_st_istk (exu_env _ _ _) eq_refl) as [_ Hs].
    destruct (Hs 100 exu_sender exa_peer 7 (exu_can_send _ _ _) ltac:(by constructor) ltac:(by vm_compute) eq_refl exu_hello_bytes eq_refl ltac:(by vm_compute))
      as (r & s' & E & HS & _). exists r, s'. split; [exact E|exact HS].
Defined.

Lemma udp_input_delivers_witness :
  exists s1 cs1, istk [1%positive] cs1 s1 /\ content (cs1 1%positive) = [104; 105] /\
    udp_input exa_free exa_buf (fun _ _ => false) (fun _ _ _ _ => None) (fun f arg n p a port s => if f =? 1 then Some s else None) 1%positive 1 exu_in = Some s1.
Proof.
  destruct (udp_input_delivers exa_free exa_buf (fun _ _ => false) (fun _ _ _ _ => None) (fun f arg n p a port s => if f =? 1 then Some s else None)
    [] (exa_cs_of exu_dgram) exu_in 1%positive exu_dgram [] 1 1 (nif_netmask exi_nif) 0x0100000a false exa_peer 0x0100000a 9000 7)
    as (r & s1 & cs1 & _ & HS1 & _ & Hc & Hr & Hm).
  - exact exu_in_istk.
  - reflexivity.
  - by vm_compute.
  - split; [exists exi_nif; by vm_compute|exists 1, exi_nif; by vm_compute|exists 1, exi_nif; by vm_compute].
  - split; reflexivity.
  - assert (Er : r = Some 200).
    { apply (Hr 200 exu_receiver); [split; [right; by left|reflexivity]|by vm_compute|done|reflexivity|by right]. }
    rewrite Er in Hm. destruct Hm as (q & [_ Hq] & E). assert (q = exu_receiver) as -> by (apply (inj Some); rewrite <- Hq; reflexivity).
    exists s1, cs1. split; [exact HS1|]. split; [rewrite Hc; reflexivity|]. exact E.
Defined.

Definition exu_to_self : option (Z * istate) :=
  udp_sendto exa_free exa_buf (fun _ _ => false) (fun _ _ _ _ => None) exu_route6 (fun _ _ _ => None) (fun _ _ _ _ _ _ _ _ => None) 100 1%positive (IPADDR_V4 0x0100000a) 7 exu_st.

Definition exu_sent : istate := default exu_st (snd <$> exu_to_self).

Lemma exu_sent_eq : exu_to_self = Some (ERR_OK, exu_sent).
Proof. vm_compute. reflexivity. Qed.

Lemma udp_loopback_roundtrip_witness :
  exists a s2 cs2, istk [a; 1%positive] cs2 s2 /\ isame exu_sent s2 /\ content (cs2 a) = [104; 101; 108; 108; 111].
Proof.
  destruct (udp_loopback_roundtrip exa_free exa_buf (fun _ _ => false) (fun _ _ _ _ => None) exu_route6 (fun _ _ _ => None) (fun _ _ _ _ _ _ _ _ => None)
    (fun _ _ _ _ _ _ _ => None) (fun _ _ => None) (fun _ _ _ => None) (fun _ _ _ => None)
    [1] [] (exa_cs_of exu_hello) exu_st 1%positive exu_hello [] 100 exu_sender 1 exi_nif 0x0100000a 7 exu_sent 200 exu_receiver 1 0%nat exu_routes exu_st_istk
    (exu_env _ _ _) (exu_can_send _ _ _)) as (a & s2 & cs2 & HS2 & Hsm & Hc & _).
  - reflexivity.
  - by constructor.
  - reflexivity.
  - exact exu_hello_bytes.
  - reflexivity.
  - reflexivity.
  - by vm_compute.
  - lia.
  - by vm_compute.
  - by vm_compute.
  - cbn [exu_st exu_s ip_id]. lia.
  - vm_compute. reflexivity.
  - reflexivity.
  - reflexivity.
  - by vm_compute.
  - reflexivity.
  - reflexivity.
  - reflexivity.
  - split; [split; [right; by left|reflexivity]|]. split; [by vm_compute|]. split; [by right|]. split; reflexivity.
  - exact exu_sent_eq.
  - exists a, s2, cs2. split; [exact HS2|]. split; [exact Hsm|]. rewrite Hc. reflexivity.
Defined.
