(* ===== verification/SysArch.v ===== *)
(** Semaphores and mailboxes of the POSIX port
    ([lwip-contrib/ports/unix/port/sys_arch.c]): the mailbox is what connects the
    threads of the program with the tcpip thread.

    Threads interleave at the calls of semaphore operations, each of which is atomic
    (it holds the semaphore's own pthread mutex), and between them: the code between
    two such calls is one more step.  An [int] that leaves its range is undefined
    behaviour.  Time is not kept: a timed wait may end by its timeout at any moment,
    also when the semaphore has just been raised, since [sys_arch_sem_wait] does not
    look at the count again after a timeout. *)
From S2P Require Import Prelude Pbuf.

(** ** Semaphores *)

(** [sys_arch_sem_wait]: blocks while the count is zero. *)
Definition sys_arch_sem_wait (c : Z) : option Z := if c <=? 0 then None else Some (c - 1).

Definition sys_sem_signal (c : Z) : Z := let c := u32 (c + 1) in if 1 <? c then 1 else c.

(** ** The deadline and the time waited of [cond_wait], in [struct timespec]s *)
Definition cond_deadline (sec nsec timeout : Z) : Z * Z :=
  let sec' := sec + timeout / 1000 in
  let nsec' := nsec + (timeout mod 1000) * 1000000 in
  if 1000000000 <=? nsec' then (sec' + 1, nsec' - 1000000000) else (sec', nsec').

Definition cond_waited (sec1 nsec1 sec2 nsec2 : Z) : Z :=
  let sec := sec2 - sec1 in
  let nsec := nsec2 - nsec1 in
  let '(sec, nsec) := if nsec <? 0 then (sec - 1, nsec + 1000000000) else (sec, nsec) in
  u32 (sec * 1000 + Z.quot nsec 1000000).

(** ** Mailboxes *)
Definition SYS_MBOX_SIZE : Z := 128.
Definition SYS_MBOX_EMPTY : Z := 0xffffffff.
Definition SYS_ARCH_TIMEOUT : Z := 0xffffffff.

(** [struct sys_mbox]; the semaphores are their counts. *)
Record sys_mbox := SysMbox {
  first : Z;
  last : Z;
  msgs : list Z;
  not_empty : Z;
  not_full : Z;
  mutex : Z;
  wait_send : Z;
}.

(** [sys_mbox_new]; [mem] is the memory for the messages, if there is some.  There
    has to be memory for the three semaphores: the code does not check it. *)
Definition sys_mbox_new (mem : option (list Z)) : Z * option sys_mbox :=
  match mem with
  | None => (ERR_MEM, None)
  | Some junk => (ERR_OK, Some (SysMbox 0 0 junk 0 0 1 0))
  end.

Definition set_sems (ne nf mu : Z) (m : sys_mbox) : sys_mbox := SysMbox (first m) (last m) (msgs m) ne nf mu (wait_send m).

Definition set_wait_send (w : Z) (m : sys_mbox) : sys_mbox := SysMbox (first m) (last m) (msgs m) (not_empty m) (not_full m) (mutex m) w.

Definition set_last (l : Z) (k : list Z) (m : sys_mbox) : sys_mbox := SysMbox (first m) l k (not_empty m) (not_full m) (mutex m) (wait_send m).

Definition set_first (f : Z) (m : sys_mbox) : sys_mbox := SysMbox f (last m) (msgs m) (not_empty m) (not_full m) (mutex m) (wait_send m).

(** A sum of [int]s. *)
Definition int_add (a b : Z) : option Z := let c := a + b in if (-2147483648 <=? c) && (c <=? 2147483647) then Some c else None.

(** [(mbox->last + 1) >= (mbox->first + SYS_MBOX_SIZE)]. *)
Definition mbox_full (m : sys_mbox) : option bool :=
  l ← int_add (last m) 1; f ← int_add (first m) SYS_MBOX_SIZE; Some (f <=? l).

(** [mbox->msgs[i % SYS_MBOX_SIZE]]. *)
Definition slot (i : Z) (m : sys_mbox) : option nat :=
  let k := Z.rem i SYS_MBOX_SIZE in if (0 <=? k) && (k <? zlen (msgs m)) then Some (Z.to_nat k) else None.

(** Where a thread is: about to make the step that is named. *)
Inductive pc :=
  | Idle
  | TrypostLock (msg : Z)
  | TrypostTest (msg : Z)
  | PostLock (msg : Z)
  | PostTest (msg : Z)
  | PostRelease (msg : Z)
  | PostWait (msg : Z)
  | PostRelock (msg : Z)
  | PostWoken (msg : Z)
  | Store (msg : Z)
  | SignalNotEmpty (fst : bool)
  | TryfetchLock
  | TryfetchTest
  | FetchLock (timeout : Z)
  | FetchTest (timeout : Z)
  | FetchRelease (timeout : Z)
  | FetchWait (timeout : Z)
  | Take
  | SignalNotFull
  | Unlock (r : Z).

#[export] Instance pc_eq_dec : EqDecision pc.
Proof. solve_decision. Defined.

(** What the callers see. *)
Inductive event := Posted (msg : Z) | Fetched (msg : Z) | Refused | Empty.

Inductive result := Block | Undefined | Go (m : sys_mbox) (k : pc) (e : option event).

Definition of_opt {A} (x : option A) (k : A -> result) : result := match x with Some a => k a | None => Undefined end.

Definition lock (m : sys_mbox) (k : pc) : result :=
  match sys_arch_sem_wait (mutex m) with Some c => Go (set_sems (not_empty m) (not_full m) c m) k None | None => Block end.

Definition unlock (m : sys_mbox) (k : pc) (e : option event) : result :=
  Go (set_sems (not_empty m) (not_full m) (sys_sem_signal (mutex m)) m) k e.

(** [sys_mbox_trypost] up to the common part of posting. *)
Definition trypost_step (m : sys_mbox) (k : pc) : result :=
  match k with
  | TrypostLock msg => lock m (TrypostTest msg)
  | TrypostTest msg => of_opt (mbox_full m) (fun full : bool => if full then Go m (Unlock ERR_MEM) (Some Refused) else Go m (Store msg) None)
  | _ => Block
  end.

(** [sys_mbox_post]: the loop that waits for room. *)
Definition post_step (m : sys_mbox) (k : pc) : result :=
  match k with
  | PostLock msg => lock m (PostTest msg)
  | PostTest msg =>
      of_opt (mbox_full m) (fun full : bool =>
        if full then of_opt (int_add (wait_send m) 1) (fun w => Go (set_wait_send w m) (PostRelease msg) None) else Go m (Store msg) None)
  | PostRelease msg => unlock m (PostWait msg) None
  | PostWait msg =>
      match sys_arch_sem_wait (not_full m) with Some c => Go (set_sems (not_empty m) c (mutex m) m) (PostRelock msg) None | None => Block end
  | PostRelock msg => lock m (PostWoken msg)
  | PostWoken msg => of_opt (int_add (wait_send m) (-1)) (fun w => Go (set_wait_send w m) (PostTest msg) None)
  | _ => Block
  end.

(** The end of both: the message goes in, a fetcher is woken if it is the first. *)
Definition store_step (m : sys_mbox) (k : pc) : result :=
  match k with
  | Store msg =>
      of_opt (slot (last m) m) (fun i =>
      of_opt (int_add (last m) 1) (fun l => Go (set_last l (<[i := msg]> (msgs m)) m) (SignalNotEmpty (last m =? first m)) (Some (Posted msg))))
  | SignalNotEmpty fst => Go (if fst then set_sems (sys_sem_signal (not_empty m)) (not_full m) (mutex m) m else m) (Unlock 0) None
  | _ => Block
  end.

(** [sys_arch_mbox_tryfetch] and [sys_arch_mbox_fetch]; [late]: the timeout passed. *)
Definition fetch_step (late : bool) (m : sys_mbox) (k : pc) : result :=
  match k with
  | TryfetchLock => lock m TryfetchTest
  | TryfetchTest => if first m =? last m then Go m (Unlock SYS_MBOX_EMPTY) (Some Empty) else Go m Take None
  | FetchLock timeout => lock m (FetchTest timeout)
  | FetchTest timeout => if first m =? last m then Go m (FetchRelease timeout) None else Go m Take None
  | FetchRelease timeout => unlock m (FetchWait timeout) None
  | FetchWait timeout =>
      if negb (timeout =? 0) && late then Go m Idle None
      else match sys_arch_sem_wait (not_empty m) with Some c => Go (set_sems c (not_full m) (mutex m) m) (FetchLock timeout) None | None => Block end
  | Take =>
      of_opt (slot (first m) m) (fun i =>
      of_opt (msgs m !! i) (fun msg =>
      of_opt (int_add (first m) 1) (fun f => Go (set_first f m) SignalNotFull (Some (Fetched msg)))))
  | SignalNotFull => Go (if wait_send m =? 0 then m else set_sems (not_empty m) (sys_sem_signal (not_full m)) (mutex m) m) (Unlock 0) None
  | _ => Block
  end.

(** One step of a thread. *)
Definition thread_step (late : bool) (m : sys_mbox) (k : pc) : result :=
  match k with
  | Idle => Block
  | TrypostLock _ | TrypostTest _ => trypost_step m k
  | PostLock _ | PostTest _ | PostRelease _ | PostWait _ | PostRelock _ | PostWoken _ => post_step m k
  | Store _ | SignalNotEmpty _ => store_step m k
  | TryfetchLock | TryfetchTest | FetchLock _ | FetchTest _ | FetchRelease _ | FetchWait _ | Take | SignalNotFull => fetch_step late m k
  | Unlock r => unlock m Idle None
  end.

(** ** The system: a mailbox and the threads that use it *)
Record sys := Sys { s_mbox : sys_mbox; s_threads : gmap Z pc }.

Definition after (t : Z) (m : sys_mbox) (k : pc) (s : sys) : sys := Sys m (<[t := k]> (s_threads s)).

(** Calls of the interface: where they start. *)
Definition posts_call (k : pc) : bool := match k with TrypostLock _ | PostLock _ => true | _ => false end.

Definition fetches_call (k : pc) : bool := match k with TryfetchLock | FetchLock _ => true | _ => false end.

(** Every thread may post; [fetcher] says which may fetch. *)
Inductive mbox_step (fetcher : Z -> Prop) : sys -> option event -> sys -> Prop :=
  | step_call t k s :
      s_threads s !! t = Some Idle -> posts_call k = true \/ (fetches_call k = true /\ fetcher t) ->
      mbox_step fetcher s None (after t (s_mbox s) k s)
  | step_run t late k m' k' e s :
      s_threads s !! t = Some k -> thread_step late (s_mbox s) k = Go m' k' e -> mbox_step fetcher s e (after t m' k' s).

(** A new mailbox and idle threads. *)
Definition mbox_init (s : sys) : Prop :=
  (exists mem, zlen mem = SYS_MBOX_SIZE /\ snd (sys_mbox_new (Some mem)) = Some (s_mbox s)) /\ (forall t k, s_threads s !! t = Some k -> k = Idle).

(** What can be observed of a run. *)
Inductive mbox_run (fetcher : Z -> Prop) : sys -> list event -> sys -> Prop :=
  | run_nil s : mbox_run fetcher s [] s
  | run_step s s1 s2 es e : mbox_run fetcher s es s1 -> mbox_step fetcher s1 e s2 -> mbox_run fetcher s (es ++ option_list e) s2.

(** Running a schedule: the threads to step, in order; a thread with a call starts
    it.  The result is what was observed and the state at the end. *)
Fixpoint run (sched : list (Z * option pc)) (s : sys) : option (list event * sys) :=
  match sched with
  | [] => Some ([], s)
  | (t, Some k) :: sched =>
      k0 ← s_threads s !! t;
      match k0 with Idle => run sched (after t (s_mbox s) k s) | _ => None end
  | (t, None) :: sched =>
      k ← s_threads s !! t;
      match thread_step false (s_mbox s) k with
      | Go m' k' e => '(es, s') ← run sched (after t m' k' s); Some (option_list e ++ es, s')
      | _ => None
      end
  end.
