(* ===== verification/SysMbox.v ===== *)
(** The mailbox as a machine of interleaved threads: mutual exclusion, the queue it
    implements, and that nobody is forgotten. *)
From S2P Require Import Prelude Bits Pbuf SysArch.

(** ** Counting threads *)
Definition b2z (b : bool) : Z := if b then 1 else 0.

Definition count (P : pc -> bool) (thr : gmap Z pc) : Z := map_fold (fun _ k acc => b2z (P k) + acc) 0 thr.

Lemma count_insert_new P thr t k : thr !! t = None -> count P (<[t := k]> thr) = b2z (P k) + count P thr.
Proof. intros Ht. unfold count. rewrite map_fold_insert_L; [done| |done]. intros. lia. Qed.

Lemma count_split P thr t k : thr !! t = Some k -> count P thr = b2z (P k) + count P (delete t thr).
Proof. intros Ht. rewrite <- (insert_delete_id thr t k Ht) at 1. apply count_insert_new, lookup_delete_eq. Qed.

Lemma count_nonneg P thr : 0 <= count P thr.
Proof.
  induction thr as [|t k thr Ht IH] using map_ind; [done|]. rewrite count_insert_new by done. unfold b2z. destruct (P k); lia.
Qed.

Lemma count_upd P thr t k k' : thr !! t = Some k -> count P (<[t := k']> thr) = count P thr - b2z (P k) + b2z (P k').
Proof.
  intros Ht. rewrite (count_split P thr t k Ht), <- insert_delete_eq, count_insert_new by apply lookup_delete_eq. lia.
Qed.

Lemma count_one P thr t k : thr !! t = Some k -> P k = true -> 1 <= count P thr.
Proof. intros Ht Hk. rewrite (count_split P thr t k Ht), Hk. pose proof (count_nonneg P (delete t thr)). cbn. lia. Qed.

Lemma count_two P thr t k u k' : thr !! t = Some k -> thr !! u = Some k' -> t <> u -> P k = true -> P k' = true -> 2 <= count P thr.
Proof.
  intros Ht Hu Hne Hk Hk'. rewrite (count_split P thr t k Ht), Hk.
  pose proof (count_one P (delete t thr) u k' ltac:(by rewrite lookup_delete_ne) Hk'). cbn. lia.
Qed.

Lemma count_zero P thr : (forall t k, thr !! t = Some k -> P k = false) -> count P thr = 0.
Proof.
  induction thr as [|t k thr Ht IH] using map_ind; intros H; [done|]. rewrite count_insert_new by done.
  rewrite (H t k) by apply lookup_insert_eq. rewrite IH; [done|]. intros u k' Hu. apply (H u). rewrite lookup_insert_ne; [done|]. congruence.
Qed.

Lemma count_le P thr : count P thr <= Z.of_nat (size thr).
Proof.
  induction thr as [|t k thr Ht IH] using map_ind; [done|]. rewrite count_insert_new, map_size_insert_None by done. unfold b2z. destruct (P k); lia.
Qed.

(** ** The invariant *)

(** The threads between lock and unlock. *)
Definition holds (k : pc) : bool :=
  match k with
  | TrypostTest _ | PostTest _ | PostRelease _ | PostWoken _ | Store _ | SignalNotEmpty _ | TryfetchTest | FetchTest _ | FetchRelease _ | Take
  | SignalNotFull | Unlock _ => true
  | _ => false
  end.

(** The threads that [wait_send] counts. *)
Definition waits (k : pc) : bool := match k with PostRelease _ | PostWait _ | PostRelock _ | PostWoken _ => true | _ => false end.

(** What a thread between lock and unlock knows. *)
Definition knows (m : sys_mbox) (k : pc) : Prop :=
  match k with
  | Store _ => last m < first m + 127
  | PostRelease _ => last m = first m + 127
  | FetchRelease _ => first m = last m
  | Take => first m < last m
  | SignalNotEmpty _ => first m < last m
  | _ => True
  end.

Record mbox_ok (s : sys) : Prop := MboxOk {
  mo_len : zlen (msgs (s_mbox s)) = SYS_MBOX_SIZE;
  mo_window : 0 <= first (s_mbox s) <= last (s_mbox s);
  mo_cap : last (s_mbox s) <= first (s_mbox s) + 127;
  mo_mutex : count holds (s_threads s) = 1 - mutex (s_mbox s);
  mo_mutex_bin : 0 <= mutex (s_mbox s) <= 1;
  mo_empty_bin : 0 <= not_empty (s_mbox s) <= 1;
  mo_full_bin : 0 <= not_full (s_mbox s) <= 1;
  mo_senders : wait_send (s_mbox s) = count waits (s_threads s);
  mo_knows : forall t k, s_threads s !! t = Some k -> knows (s_mbox s) k;
}.

(** Mutual exclusion. *)
Lemma holds_unique s t k u k' :
  mbox_ok s -> s_threads s !! t = Some k -> s_threads s !! u = Some k' -> holds k = true -> holds k' = true -> t = u.
Proof.
  intros HO Ht Hu Hk Hk'. destruct (decide (t = u)) as [|Hne]; [done|]. pose proof (count_two holds _ _ _ _ _ Ht Hu Hne Hk Hk').
  rewrite (mo_mutex _ HO) in *. pose proof (mo_mutex_bin _ HO). lia.
Qed.

(** Without a holder the fields the holders know of do not matter. *)
Lemma knows_other s t k u k' m' :
  mbox_ok s -> s_threads s !! t = Some k -> s_threads s !! u = Some k' -> t <> u ->
  holds k = true \/ (first m' = first (s_mbox s) /\ last m' = last (s_mbox s)) -> knows m' k'.
Proof.
  intros HO Ht Hu Hne [Hk|[E1 E2]].
  - destruct (holds k') eqn:Hk'; [by pose proof (holds_unique _ _ _ _ _ HO Ht Hu Hk Hk')|]. by destruct k'.
  - pose proof (mo_knows _ HO u k' Hu) as H. unfold knows in *. destruct k'; try done; by rewrite ?E1, ?E2.
Qed.

Lemma sem_signal_val c : 0 <= c <= 1 -> sys_sem_signal c = 1.
Proof. intros Hc. unfold sys_sem_signal. rewrite u32_small by lia. destruct (Z.ltb_spec 1 (c + 1)); lia. Qed.

Lemma sem_wait_some c c' : sys_arch_sem_wait c = Some c' -> 0 <= c <= 1 -> c = 1 /\ c' = 0.
Proof. unfold sys_arch_sem_wait. destruct (Z.leb_spec c 0); [done|]. intros [= <-]. lia. Qed.

Lemma int_add_some a b c : int_add a b = Some c -> c = a + b.
Proof. unfold int_add. destruct (_ && _); [|done]. by intros [= <-]. Qed.

Lemma mbox_full_val m b : mbox_full m = Some b -> b = (first m + 128 <=? last m + 1).
Proof.
  unfold mbox_full. destruct (int_add (last m) 1) as [l|] eqn:El; [|done]. destruct (int_add (first m) _) as [f|] eqn:Ef; [|done].
  apply int_add_some in El, Ef. subst. by intros [= <-].
Qed.

(** A step of one thread: what has to be checked. *)
Lemma ok_upd s t k m' k' :
  mbox_ok s -> s_threads s !! t = Some k ->
  zlen (msgs m') = SYS_MBOX_SIZE -> 0 <= first m' <= last m' -> last m' <= first m' + 127 ->
  mutex m' = mutex (s_mbox s) + b2z (holds k) - b2z (holds k') -> 0 <= mutex m' <= 1 -> 0 <= not_empty m' <= 1 -> 0 <= not_full m' <= 1 ->
  wait_send m' = wait_send (s_mbox s) + b2z (waits k') - b2z (waits k) -> knows m' k' ->
  holds k = true \/ (first m' = first (s_mbox s) /\ last m' = last (s_mbox s)) -> mbox_ok (after t m' k' s).
Proof.
  intros HO Ht Hlen Hwin Hcap Hmu Hmb Hne Hnf Hws Hkn Hf. pose proof HO as [_ _ _ Hm _ _ _ Hw _]. split; cbn; try done.
  - rewrite (count_upd _ _ _ k) by done. lia.
  - rewrite (count_upd _ _ _ k) by done. lia.
  - intros u k2 Hu. destruct (decide (u = t)) as [->|Hneq]; [rewrite lookup_insert_eq in Hu; by injection Hu as <-|].
    rewrite lookup_insert_ne in Hu by done. by eapply (knows_other s t k u).
Qed.

Lemma holder_mutex s t k : mbox_ok s -> s_threads s !! t = Some k -> holds k = true -> mutex (s_mbox s) = 0.
Proof.
  intros HO Ht Hk. pose proof (count_one _ _ _ _ Ht Hk). pose proof (mo_mutex _ HO). pose proof (mo_mutex_bin _ HO). lia.
Qed.

Lemma lock_ok s t k k' m2 k2 e :
  mbox_ok s -> s_threads s !! t = Some k -> lock (s_mbox s) k' = Go m2 k2 e -> holds k = false -> holds k' = true -> waits k' = waits k -> knows (s_mbox s) k' ->
  mbox_ok (after t m2 k2 s) /\ e = None /\ first m2 = first (s_mbox s) /\ last m2 = last (s_mbox s) /\ msgs m2 = msgs (s_mbox s).
Proof.
  intros HO Ht E Hk Hk' Hw Hkn. unfold lock in E. destruct (sys_arch_sem_wait _) as [c|] eqn:Ec; [|done]. injection E as <- <- <-.
  pose proof HO as []. destruct (sem_wait_some _ _ Ec) as [E1 ->]; [done|]. split; [|done].
  eapply ok_upd; try done; cbn; rewrite ?Hk, ?Hk', ?Hw; cbn; first [lia|by right|by destruct k'].
Qed.

Lemma unlock_ok s t k k' m2 k2 e e' :
  mbox_ok s -> s_threads s !! t = Some k -> unlock (s_mbox s) k' e' = Go m2 k2 e -> holds k = true -> holds k' = false -> waits k' = waits k ->
  mbox_ok (after t m2 k2 s) /\ e = e' /\ first m2 = first (s_mbox s) /\ last m2 = last (s_mbox s) /\ msgs m2 = msgs (s_mbox s).
Proof.
  intros HO Ht E Hk Hk' Hw. unfold unlock in E. injection E as <- <- <-. pose proof HO as []. pose proof (holder_mutex _ _ _ HO Ht Hk) as Hm0. split; [|done].
  eapply ok_upd; try done; cbn; rewrite ?sem_signal_val, ?Hk, ?Hk', ?Hw by done; cbn; first [lia|by left|by destruct k'].
Qed.

(** ** The queue it implements *)

(** The messages from [first] up to [last]. *)
Definition contents (m : sys_mbox) : list Z := (fun k => default 0 (msgs m !! Z.to_nat (k mod 128))) <$> seqZ (first m) (last m - first m).

(** A queue for at most 127 messages. *)
Inductive queue_step : list Z -> option event -> list Z -> Prop :=
  | q_post q msg : zlen q < 127 -> queue_step q (Some (Posted msg)) (q ++ [msg])
  | q_fetch q msg : queue_step (msg :: q) (Some (Fetched msg)) q
  | q_refuse q : zlen q = 127 -> queue_step q (Some Refused) q
  | q_empty : queue_step [] (Some Empty) []
  | q_silent q : queue_step q None q.

Lemma contents_len m : first m <= last m -> zlen (contents m) = last m - first m.
Proof. intros H. unfold contents, zlen. rewrite length_fmap, length_seqZ. lia. Qed.

Lemma contents_same m m' : first m' = first m -> last m' = last m -> msgs m' = msgs m -> contents m' = contents m.
Proof. unfold contents. by intros -> -> ->. Qed.

Lemma slot_val i m : 0 <= i -> zlen (msgs m) = 128 -> slot i m = Some (Z.to_nat (i mod 128)).
Proof.
  intros Hi Hl. unfold slot. rewrite Hl, Z.rem_mod_nonneg by done. unfold SYS_MBOX_SIZE. pose proof (Z.mod_pos_bound i 128).
  destruct (Z.leb_spec 0 (i mod 128)), (Z.ltb_spec (i mod 128) 128); try lia. done.
Qed.

(** A message stored behind the others. *)
Lemma contents_store m msg :
  0 <= first m <= last m -> last m < first m + 128 -> zlen (msgs m) = 128 ->
  contents (set_last (last m + 1) (<[Z.to_nat (last m mod 128) := msg]> (msgs m)) m) = contents m ++ [msg].
Proof.
  intros Hw Hc Hl. unfold contents; cbn. replace (last m + 1 - first m) with ((last m - first m) + 1) by lia. rewrite seqZ_app, fmap_app by lia.
  assert (Hlen : (Z.to_nat (last m mod 128) < length (msgs m))%nat) by (unfold zlen in Hl; pose proof (Z.mod_pos_bound (last m) 128); lia).
  f_equal.
  - apply list_fmap_ext. intros i k Hk. apply lookup_seqZ in Hk as [-> Hi]. rewrite list_lookup_insert_ne; [done|].
    intros E. apply Z2Nat.inj in E; [|apply Z.mod_pos_bound; lia|apply Z.mod_pos_bound; lia]. zdm. lia.
  - replace (first m + (last m - first m)) with (last m) by lia. rewrite seqZ_cons by lia. cbn. by rewrite list_lookup_insert_eq by done.
Qed.

(** The first message taken out. *)
Lemma contents_take m :
  0 <= first m < last m -> zlen (msgs m) = 128 ->
  exists msg, msgs m !! Z.to_nat (first m mod 128) = Some msg /\ contents m = msg :: contents (set_first (first m + 1) m).
Proof.
  intros Hw Hl. assert (Hlen : (Z.to_nat (first m mod 128) < length (msgs m))%nat) by (unfold zlen in Hl; pose proof (Z.mod_pos_bound (first m) 128); lia).
  apply lookup_lt_is_Some in Hlen as [msg Hm]. exists msg. split; [done|]. unfold contents; cbn.
  rewrite seqZ_cons by lia. cbn. rewrite Hm. cbn. f_equal. f_equal. f_equal; lia.
Qed.

Lemma trypost_sim s t k m' k' e :
  mbox_ok s -> s_threads s !! t = Some k -> trypost_step (s_mbox s) k = Go m' k' e ->
  mbox_ok (after t m' k' s) /\ queue_step (contents (s_mbox s)) e (contents m').
Proof.
  intros HO Ht E. pose proof HO as [Hlen Hwin Hcap _ Hmb Hne Hnf _ _]. destruct k; try discriminate E; cbn in E.
  - destruct (lock_ok _ _ _ _ _ _ _ HO Ht E) as (HO' & -> & E1 & E2 & E3); try done. split; [done|]. rewrite (contents_same _ _ E1 E2 E3). constructor.
  - destruct (mbox_full (s_mbox s)) as [b|] eqn:Eb; [|done]. apply mbox_full_val in Eb. cbn in E. destruct b.
    + injection E as <- <- <-. split; [eapply ok_upd; try done; cbn; first [lia|by left]|]. constructor. rewrite contents_len by lia. symmetry in Eb. apply Z.leb_le in Eb. lia.
    + injection E as <- <- <-. symmetry in Eb. apply Z.leb_gt in Eb. split; [eapply ok_upd; try done; cbn; first [lia|by left]|]. constructor.
Qed.

Lemma post_sim s t k m' k' e :
  mbox_ok s -> s_threads s !! t = Some k -> post_step (s_mbox s) k = Go m' k' e ->
  mbox_ok (after t m' k' s) /\ queue_step (contents (s_mbox s)) e (contents m').
Proof.
  intros HO Ht E. pose proof HO as [Hlen Hwin Hcap _ Hmb Hne Hnf Hws _]. destruct k; try discriminate E; cbn in E.
  - destruct (lock_ok _ _ _ _ _ _ _ HO Ht E) as (HO' & -> & E1 & E2 & E3); try done. split; [done|]. rewrite (contents_same _ _ E1 E2 E3). constructor.
  - destruct (mbox_full (s_mbox s)) as [b|] eqn:Eb; [|done]. apply mbox_full_val in Eb. symmetry in Eb. cbn in E. destruct b.
    + destruct (int_add _ _) as [w|] eqn:Ew; [|done]. apply int_add_some in Ew. injection E as <- <- <-. apply Z.leb_le in Eb.
      split; [eapply ok_upd; try done; cbn; first [lia|by left]|]. constructor.
    + injection E as <- <- <-. apply Z.leb_gt in Eb. split; [eapply ok_upd; try done; cbn; first [lia|by left]|]. constructor.
  - destruct (unlock_ok _ _ _ _ _ _ _ _ HO Ht E) as (HO' & -> & E1 & E2 & E3); try done. split; [done|]. rewrite (contents_same _ _ E1 E2 E3). constructor.
  - destruct (sys_arch_sem_wait _) as [c|] eqn:Ec; [|done]. destruct (sem_wait_some _ _ Ec) as [Enf ->]; [done|]. injection E as <- <- <-.
    split; [eapply ok_upd; try done; cbn; first [lia|by right]|]. constructor.
  - destruct (lock_ok _ _ _ _ _ _ _ HO Ht E) as (HO' & -> & E1 & E2 & E3); try done. split; [done|]. rewrite (contents_same _ _ E1 E2 E3). constructor.
  - destruct (int_add _ _) as [w|] eqn:Ew; [|done]. apply int_add_some in Ew. injection E as <- <- <-.
    split; [eapply ok_upd; try done; cbn; first [lia|by left]|]. constructor.
Qed.

Lemma store_sim s t k m' k' e :
  mbox_ok s -> s_threads s !! t = Some k -> store_step (s_mbox s) k = Go m' k' e ->
  mbox_ok (after t m' k' s) /\ queue_step (contents (s_mbox s)) e (contents m').
Proof.
  intros HO Ht E. pose proof HO as [Hlen Hwin Hcap _ Hmb Hne Hnf Hws Hkn]. pose proof (Hkn _ _ Ht) as Hk. destruct k; try discriminate E; cbn in E, Hk.
  - rewrite slot_val in E by (done || lia). cbn in E. destruct (int_add _ _) as [l|] eqn:El; [|done]. apply int_add_some in El as ->. injection E as <- <- <-. split.
    + eapply ok_upd; try done; cbn; first [lia|by left|unfold zlen in *; by rewrite length_insert].
    + rewrite contents_store by (done || lia). constructor. rewrite contents_len by lia. lia.
  - injection E as <- <- <-. destruct fst.
    + split; [eapply ok_upd; try done; cbn; rewrite ?sem_signal_val by done; first [lia|by left]|]. constructor.
    + split; [eapply ok_upd; try done; cbn; first [lia|by left]|]. constructor.
Qed.

Lemma fetch_sim s t late k m' k' e :
  mbox_ok s -> s_threads s !! t = Some k -> fetch_step late (s_mbox s) k = Go m' k' e ->
  mbox_ok (after t m' k' s) /\ queue_step (contents (s_mbox s)) e (contents m').
Proof.
  intros HO Ht E. pose proof HO as [Hlen Hwin Hcap _ Hmb Hne Hnf Hws Hkn]. pose proof (Hkn _ _ Ht) as Hk. destruct k; try discriminate E; cbn in E, Hk.
  - destruct (lock_ok _ _ _ _ _ _ _ HO Ht E) as (HO' & -> & E1 & E2 & E3); try done. split; [done|]. rewrite (contents_same _ _ E1 E2 E3). constructor.
  - destruct (Z.eqb_spec (first (s_mbox s)) (last (s_mbox s))) as [Ee|Ee]; injection E as <- <- <-.
    + split; [eapply ok_upd; try done; cbn; first [lia|by left]|]. replace (contents (s_mbox s)) with (@nil Z); [constructor|].
      unfold contents. rewrite Ee, Z.sub_diag. done.
    + split; [eapply ok_upd; try done; cbn; first [lia|by left]|]. constructor.
  - destruct (lock_ok _ _ _ _ _ _ _ HO Ht E) as (HO' & -> & E1 & E2 & E3); try done. split; [done|]. rewrite (contents_same _ _ E1 E2 E3). constructor.
  - destruct (Z.eqb_spec (first (s_mbox s)) (last (s_mbox s))) as [Ee|Ee]; injection E as <- <- <-;
      (split; [eapply ok_upd; try done; cbn; first [lia|by left]|constructor]).
  - destruct (unlock_ok _ _ _ _ _ _ _ _ HO Ht E) as (HO' & -> & E1 & E2 & E3); try done. split; [done|]. rewrite (contents_same _ _ E1 E2 E3). constructor.
  - destruct (negb _ && _); [injection E as <- <- <-; split; [eapply ok_upd; try done; cbn; first [lia|by right]|constructor]|].
    destruct (sys_arch_sem_wait _) as [c|] eqn:Ec; [|done]. destruct (sem_wait_some _ _ Ec) as [Enf ->]; [done|]. injection E as <- <- <-.
    split; [eapply ok_upd; try done; cbn; first [lia|by right]|constructor].
  - rewrite slot_val in E by (done || lia). cbn in E. destruct (contents_take (s_mbox s)) as (msg & Hm & Hc); [lia|done|]. rewrite Hm in E. cbn in E.
    destruct (int_add _ _) as [f|] eqn:Ef; [|done]. apply int_add_some in Ef as ->. injection E as <- <- <-. split.
    + eapply ok_upd; try done; cbn; first [lia|by left].
    + rewrite Hc. constructor.
  - injection E as <- <- <-. destruct (wait_send (s_mbox s) =? 0).
    + split; [eapply ok_upd; try done; cbn; first [lia|by left]|constructor].
    + split; [eapply ok_upd; try done; cbn; rewrite ?sem_signal_val by done; first [lia|by left]|constructor].
Qed.

Lemma thread_sim s t late k m' k' e :
  mbox_ok s -> s_threads s !! t = Some k -> thread_step late (s_mbox s) k = Go m' k' e ->
  mbox_ok (after t m' k' s) /\ queue_step (contents (s_mbox s)) e (contents m').
Proof.
  intros HO Ht E. destruct k; cbn [thread_step] in E; try done;
    eauto using trypost_sim, post_sim, store_sim, fetch_sim.
  destruct (unlock_ok _ _ _ _ _ _ _ _ HO Ht E) as (HO' & -> & E1 & E2 & E3); try done. split; [done|]. rewrite (contents_same _ _ E1 E2 E3). constructor.
Qed.

Lemma call_ok s t k : mbox_ok s -> s_threads s !! t = Some Idle -> posts_call k = true \/ fetches_call k = true -> mbox_ok (after t (s_mbox s) k s).
Proof.
  intros HO Ht Hk. pose proof HO as [Hlen Hwin Hcap _ Hmb Hne Hnf Hws _]. eapply ok_upd; try done; [..|by right]; destruct k; cbn in *; try lia; done || by destruct Hk.
Qed.

Lemma mbox_sim fetcher s e s' : mbox_ok s -> mbox_step fetcher s e s' -> mbox_ok s' /\ queue_step (contents (s_mbox s)) e (contents (s_mbox s')).
Proof.
  intros HO Hs. destruct Hs as [t k s Ht Hk|t late k m' k' e s Ht E].
  - split; [apply call_ok; [done|done|tauto]|constructor].
  - exact (thread_sim s t late k m' k' e HO Ht E).
Qed.

Lemma mbox_init_ok s : mbox_init s -> mbox_ok s.
Proof.
  intros [(mem & Hl & E) Hi]. cbn in E. injection E as E. split; rewrite <- E; cbn; try done; try lia.
  - rewrite count_zero; [done|]. intros t k Ht. by rewrite (Hi t k Ht).
  - rewrite count_zero; [done|]. intros t k Ht. by rewrite (Hi t k Ht).
  - intros t k Ht. by rewrite (Hi t k Ht).
Qed.

Lemma mbox_run_ok fetcher s0 es s : mbox_init s0 -> mbox_run fetcher s0 es s -> mbox_ok s.
Proof. intros H0 Hr. induction Hr as [s|s s1 s2 es e _ IH Hs]; [by apply mbox_init_ok|]. by eapply mbox_sim; [apply IH|]. Qed.

(** ** Nobody is forgotten *)

(** Steps of fetching. *)
Definition fetching (k : pc) : bool :=
  match k with TryfetchLock | TryfetchTest | FetchLock _ | FetchTest _ | FetchRelease _ | FetchWait _ | Take | SignalNotFull => true | _ => false end.

(** Threads that will post, or tell the senders. *)
Definition coming (k : pc) : bool := match k with PostRelock _ | PostWoken _ | PostTest _ | Store _ | SignalNotFull => true | _ => false end.

Record wake_ok (f : Z) (s : sys) : Prop := WakeOk {
  wk_role : forall t k, s_threads s !! t = Some k -> fetching k = true -> t = f;
  wk_fetch : forall tm, s_threads s !! f = Some (FetchWait tm) -> first (s_mbox s) <> last (s_mbox s) ->
    not_empty (s_mbox s) = 1 \/ exists t, s_threads s !! t = Some (SignalNotEmpty true);
  wk_send : forall t msg, s_threads s !! t = Some (PostWait msg) ->
    first (s_mbox s) <> last (s_mbox s) \/ not_full (s_mbox s) = 1 \/ exists u k, s_threads s !! u = Some k /\ coming k = true;
}.

(** The cases of a step. *)
Ltac step_cases E :=
  repeat (match type of E with
    | context [sys_arch_sem_wait ?x] => destruct (sys_arch_sem_wait x) as [?|] eqn:?; cbn in E; try discriminate E
    | context [mbox_full ?x] =>
        let b := fresh "b" in let Hf := fresh "Hfull" in
        destruct (mbox_full x) as [b|] eqn:Hf; cbn in E; try discriminate E; apply mbox_full_val in Hf; symmetry in Hf;
        destruct b; [apply Z.leb_le in Hf|apply Z.leb_gt in Hf]
    | context [int_add ?x ?y] =>
        let Ha := fresh "Hadd" in destruct (int_add x y) as [?|] eqn:Ha; cbn in E; try discriminate E; apply int_add_some in Ha
    | context [slot ?x ?y] => destruct (slot x y) as [?|] eqn:?; cbn in E; try discriminate E
    | context [msgs ?x !! ?y] => destruct (msgs x !! y) as [?|] eqn:?; cbn in E; try discriminate E
    | context [if Z.eqb ?x ?y then _ else _] => destruct (Z.eqb_spec x y); cbn in E; try discriminate E
    | context [if ?x then _ else _] => destruct x eqn:?; cbn in E; try discriminate E
    end); injection E as <- <- <-.

Ltac step_start k E := destruct k; cbn in E; unfold lock, unlock in E; try discriminate E; step_cases E; cbn.

(** What a step changes of what the waiting threads look at. *)
Section delta.
  Context (s : sys) (t : Z) (late : bool) (k : pc) (m' : sys_mbox) (k' : pc) (e : option event).
  Context (HO : mbox_ok s) (Ht : s_threads s !! t = Some k) (E : thread_step late (s_mbox s) k = Go m' k' e).

Lemma delta_role : fetching k' = true -> fetching k = true.
Proof using E. clear HO Ht. step_start k E; done. Qed.

Lemma delta_last :
    last m' = last (s_mbox s) \/
    exists msg, k = Store msg /\ k' = SignalNotEmpty (last (s_mbox s) =? first (s_mbox s)) /\ last m' = last (s_mbox s) + 1 /\ first m' = first (s_mbox s).
Proof using E. clear HO Ht. step_start k E; eauto 10. Qed.

Lemma delta_first : first m' = first (s_mbox s) \/ k' = SignalNotFull.
Proof using E. clear HO Ht. step_start k E; eauto. Qed.

Lemma delta_empty : not_empty m' = not_empty (s_mbox s) \/ not_empty m' = 1 \/ fetching k = true.
Proof using E HO. pose proof (mo_empty_bin _ HO). clear HO Ht. step_start k E; rewrite ?sem_signal_val by done; eauto. Qed.

Lemma delta_signal : k = SignalNotEmpty true -> not_empty m' = 1.
Proof using E HO. clear Ht. intros ->. pose proof (mo_empty_bin _ HO). injection E as <- <- <-. by apply sem_signal_val. Qed.

Lemma delta_full : not_full m' = not_full (s_mbox s) \/ not_full m' = 1 \/ coming k' = true.
Proof using E HO. pose proof (mo_full_bin _ HO). clear HO Ht. step_start k E; rewrite ?sem_signal_val by done; eauto. Qed.

Lemma delta_coming : coming k = true -> coming k' = true \/ first m' <> last m' \/ wait_send (s_mbox s) = 0 \/ not_full m' = 1.
Proof using E HO.
    intros Hc. pose proof (mo_full_bin _ HO). pose proof (mo_window _ HO). clear HO Ht.
    destruct k; try discriminate Hc; cbn in E; unfold lock in E; step_cases E; cbn; rewrite ?sem_signal_val by done; eauto; right; left; lia.
Qed.

Lemma delta_waits :
    (forall tm, k' = FetchWait tm -> first m' = last m') /\ (forall msg, k' = PostWait msg -> first m' <> last m').
Proof using E HO Ht.
    pose proof (mo_knows _ HO _ _ Ht) as Hk. clear HO Ht. destruct k; cbn in E, Hk; unfold lock, unlock in E; try discriminate E; step_cases E; cbn;
      (split; [intros ? [=]|intros ? [=]]); lia.
Qed.
End delta.

Lemma after_lookup t m' k' s u k2 : s_threads (after t m' k' s) !! u = Some k2 -> (u = t /\ k2 = k') \/ (u <> t /\ s_threads s !! u = Some k2).
Proof.
  cbn. destruct (decide (u = t)) as [->|Hne]; [rewrite lookup_insert_eq; intros [= <-]; by left|]. rewrite lookup_insert_ne by done. by right.
Qed.

Lemma after_same t (k' : pc) s : <[t := k']> (s_threads s) !! t = Some k'.
Proof. apply lookup_insert_eq. Qed.

Lemma after_other t (k' : pc) s u k2 : s_threads s !! u = Some k2 -> u <> t -> <[t := k']> (s_threads s) !! u = Some k2.
Proof. intros Hu Hne. by rewrite lookup_insert_ne. Qed.

Lemma wake_run f s t late k m' k' e :
  mbox_ok s -> wake_ok f s -> s_threads s !! t = Some k -> thread_step late (s_mbox s) k = Go m' k' e -> wake_ok f (after t m' k' s).
Proof.
  intros HO [Hr Hf Hs] Ht E. split.
  - intros u k2 Hu Hk2. apply after_lookup in Hu as [[-> ->]|[Hne Hu]]; [|by eapply Hr]. eapply Hr; [done|]. by eapply delta_role.
  - intros tm Hw Hne. cbn in Hne |- *. destruct (delta_waits _ _ _ _ _ _ _ HO Ht E) as [Hfw _].
    apply after_lookup in Hw as [[-> <-]|[Hneq Hw]]; [by rewrite (Hfw tm) in Hne|].
    assert (Hnf : fetching k = false) by (destruct (fetching k) eqn:?; [|done]; by rewrite (Hr t k Ht) in Hneq).
    destruct (delta_empty s late k m' k' e HO E) as [Ee|[Ee|Ee]]; [|by left|congruence].
    destruct (delta_first _ _ _ _ _ _ E) as [E1|Es]; [|by rewrite (delta_role _ _ _ _ _ _ E) in Hnf; rewrite Es].
    destruct (delta_last _ _ _ _ _ _ E) as [E2|(msg & -> & -> & E2 & _)].
    + rewrite E1, E2 in Hne. destruct (Hf tm Hw Hne) as [Hn|[u Hu]]; [left; congruence|].
      destruct (decide (u = t)) as [->|Hut]; [|right; exists u; by apply after_other].
      left. apply (delta_signal s late k m' k' e HO E). congruence.
    + destruct (Z.eqb_spec (last (s_mbox s)) (first (s_mbox s))) as [|Hle]; [right; exists t; apply after_same|].
      destruct (Hf tm Hw) as [Hn|[u Hu]]; [done|left; congruence|]. exfalso.
      pose proof (holds_unique _ _ _ _ _ HO Ht Hu eq_refl eq_refl) as ->. congruence.
  - intros u msg Hu. cbn. destruct (delta_waits _ _ _ _ _ _ _ HO Ht E) as [_ Hpw].
    destruct (coming k') eqn:Hc; [right; right; exists t, k'; split; [apply after_same|done]|].
    apply after_lookup in Hu as [[-> <-]|[Hneq Hu]]; [left; by eapply Hpw|].
    destruct (delta_full s late k m' k' e HO E) as [Ef|[Ef|Ef]]; [|by eauto|congruence].
    destruct (delta_first _ _ _ _ _ _ E) as [E1|Es]; [|by rewrite Es in Hc].
    destruct (Hs u msg Hu) as [Hn|[Hn|(v & k2 & Hv & Hc2)]].
    + left. pose proof (mo_window _ HO). destruct (delta_last _ _ _ _ _ _ E) as [E2|(msg' & -> & -> & E2 & _)]; [congruence|]. lia.
    + right; left. congruence.
    + destruct (decide (v = t)) as [->|Hvt]; [|right; right; exists v, k2; split; [by apply after_other|done]].
      assert (k2 = k) as -> by congruence. destruct (delta_coming _ _ _ _ _ _ HO E Hc2) as [Hx|[Hx|[Hx|Hx]]]; [congruence|by left| |by eauto].
      pose proof (count_one waits _ _ _ Hu eq_refl). rewrite <- (mo_senders _ HO) in *. lia.
Qed.

Lemma wake_step f s e s' : mbox_ok s -> wake_ok f s -> mbox_step (eq f) s e s' -> wake_ok f s'.
Proof.
  intros HO HW Hs. destruct Hs as [t k s Ht Hk|t late k m' k' e s Ht E]; [|by eapply wake_run].
  destruct HW as [Hr Hf Hs]. split.
  - intros u k2 Hu Hk2. apply after_lookup in Hu as [[-> ->]|[_ Hu]]; [|by eapply Hr]. destruct Hk as [Hk|[_ <-]]; [|done]. by destruct k.
  - intros tm Hw Hne. apply after_lookup in Hw as [[-> <-]|[Hneq Hw]]; [destruct Hk as [Hk|[Hk _]]; done|].
    destruct (Hf tm Hw Hne) as [|[u Hu]]; [by left|]. right. exists u. apply after_other; [done|]. intros ->. congruence.
  - intros u msg Hu. apply after_lookup in Hu as [[-> <-]|[Hneq Hu]]; [destruct Hk as [Hk|[Hk _]]; done|].
    destruct (Hs u msg Hu) as [|[|(v & k2 & Hv & Hc)]]; [by left|by right; left|]. right; right. exists v, k2. split; [|done].
    apply after_other; [done|]. intros ->. assert (k2 = Idle) as -> by congruence. done.
Qed.

Lemma mbox_init_wake f s : mbox_init s -> wake_ok f s.
Proof. intros [_ Hi]. split; [intros t k Ht Hk|intros tm Ht|intros t msg Ht]; [|apply Hi in Ht; done..]. by rewrite (Hi t k Ht) in Hk. Qed.

Lemma mbox_run_wake f s0 es s : mbox_init s0 -> mbox_run (eq f) s0 es s -> mbox_ok s /\ wake_ok f s.
Proof.
  intros H0 Hr. split; [by eapply mbox_run_ok|]. induction Hr as [s|s s1 s2 es e Hr IH Hs]; [by apply mbox_init_wake|].
  eapply wake_step; [|by apply IH|done]. by eapply mbox_run_ok.
Qed.

(** ** Progress *)

(** Some thread inside a call can go on. *)
Definition can_step (s : sys) : Prop := exists t k m' k' e, s_threads s !! t = Some k /\ thread_step false (s_mbox s) k = Go m' k' e.

(** The [int]s of the mailbox are far from their end. *)
Definition mbox_small (s : sys) : Prop := last (s_mbox s) < 2 ^ 31 - 129 /\ Z.of_nat (size (s_threads s)) < 2 ^ 31 - 1.

Lemma int_add_ok a b : -2147483648 <= a + b <= 2147483647 -> int_add a b = Some (a + b).
Proof. intros H. unfold int_add. destruct (Z.leb_spec (-2147483648) (a + b)), (Z.leb_spec (a + b) 2147483647); try lia. done. Qed.

Lemma mbox_full_ok m : 0 <= first m <= last m -> last m < 2 ^ 31 - 129 -> mbox_full m = Some (first m + 128 <=? last m + 1).
Proof. intros Hw Hl. unfold mbox_full, SYS_MBOX_SIZE. rewrite (int_add_ok (last m)), (int_add_ok (first m)) by lia. done. Qed.

(** Whoever has the lock can go on. *)
Lemma holder_steps s t k :
  mbox_ok s -> mbox_small s -> s_threads s !! t = Some k -> holds k = true -> exists m' k' e, thread_step false (s_mbox s) k = Go m' k' e.
Proof.
  intros HO [Hs1 Hs2] Ht Hk. pose proof HO as [Hlen Hwin Hcap _ _ _ _ Hws Hkn]. pose proof (count_le waits (s_threads s)). pose proof (count_nonneg waits (s_threads s)).
  pose proof (Hkn _ _ Ht) as Hk0.
  destruct k; try discriminate Hk; cbn in Hk0 |- *; unfold unlock; rewrite ?mbox_full_ok, ?(slot_val _ (s_mbox s)) by (done || lia); cbn; try by eauto.
  - destruct (_ <=? _); eauto.
  - destruct (_ <=? _); [|by eauto]. rewrite int_add_ok by lia. cbn. eauto.
  - rewrite int_add_ok by (pose proof (count_one waits _ _ _ Ht eq_refl); lia). cbn. eauto.
  - rewrite int_add_ok by lia. cbn. eauto.
  - destruct (_ =? _); eauto.
  - destruct (_ =? _); eauto.
  - destruct (contents_take (s_mbox s)) as (msg & -> & _); [lia|done|]. cbn. rewrite int_add_ok by lia. cbn. eauto.
Qed.

Lemma count_pos P thr : 0 < count P thr -> exists t k, thr !! t = Some k /\ P k = true.
Proof.
  intros Hc. destruct (decide (map_Exists (fun _ k => P k = true) thr)) as [(t & k & Ht & Hk)|Hn]; [eauto|].
  rewrite count_zero in Hc; [lia|]. intros t k Ht. destruct (P k) eqn:Hk; [|done]. destruct Hn. by exists t, k.
Qed.

Lemma held_steps s : mbox_ok s -> mbox_small s -> mutex (s_mbox s) = 0 -> can_step s.
Proof.
  intros HO Hs Hm. destruct (count_pos holds (s_threads s)) as (t & k & Ht & Hk); [rewrite (mo_mutex _ HO); lia|].
  destruct (holder_steps s t k) as (m' & k' & e & E); try done. by exists t, k, m', k', e.
Qed.

(** Whoever wants the lock can have it, or its holder can go on. *)
Lemma lock_steps s t k k' :
  mbox_ok s -> mbox_small s -> s_threads s !! t = Some k -> thread_step false (s_mbox s) k = lock (s_mbox s) k' -> can_step s.
Proof.
  intros HO Hs Ht E. destruct (decide (mutex (s_mbox s) = 0)) as [|Hn]; [by apply held_steps|].
  assert (mutex (s_mbox s) = 1) as Hm by (pose proof (mo_mutex_bin _ HO); lia). unfold lock in E. rewrite Hm in E. cbn in E. by repeat eexists.
Qed.

(** Otherwise it waits for a message or for room. *)
Lemma stuck s t k :
  mbox_ok s -> mbox_small s -> s_threads s !! t = Some k -> k <> Idle ->
  can_step s \/ ((exists tm, k = FetchWait tm) /\ not_empty (s_mbox s) = 0) \/ ((exists msg, k = PostWait msg) /\ not_full (s_mbox s) = 0).
Proof.
  intros HO Hs Ht Hk. pose proof (mo_empty_bin _ HO). pose proof (mo_full_bin _ HO). destruct (holds k) eqn:Hh.
  - left. destruct (holder_steps s t k) as (m' & k' & e & E); try done. by exists t, k, m', k', e.
  - destruct k; try done; try (left; eapply (lock_steps s t _ _ HO Hs Ht); reflexivity).
    + destruct (decide (not_full (s_mbox s) = 0)) as [|Hn]; [right; right; eauto|]. left. assert (E : not_full (s_mbox s) = 1) by lia.
      repeat eexists; [done|]. cbn. by rewrite E.
    + destruct (decide (not_empty (s_mbox s) = 0)) as [|Hn]; [right; left; eauto|]. left. assert (E : not_empty (s_mbox s) = 1) by lia.
      repeat eexists; [done|]. cbn. by rewrite E, andb_false_r.
Qed.

(** A thread that waits for room has someone to wait for. *)
Lemma sender_wakes f s t msg :
  mbox_ok s -> wake_ok f s -> mbox_small s -> s_threads s !! t = Some (PostWait msg) -> can_step s \/ first (s_mbox s) <> last (s_mbox s).
Proof.
  intros HO HW Hs Ht. destruct (wk_send _ _ HW t msg Ht) as [|[E|(u & k & Hu & Hc)]]; [by right|left..].
  - repeat eexists; [exact Ht|]. cbn. by rewrite E.
  - destruct (stuck s u k HO Hs Hu) as [|[[[tm ->] _]|[[m ->] _]]]; try done. by intros ->.
Qed.

(** The one fetcher waits only for a message that nobody is about to post. *)
Lemma progress f s k :
  mbox_ok s -> wake_ok f s -> mbox_small s -> s_threads s !! f = Some k -> fetching k = true ->
  can_step s \/ ((exists tm, k = FetchWait tm) /\ contents (s_mbox s) = [] /\ forall t k', s_threads s !! t = Some k' -> t = f \/ k' = Idle).
Proof.
  intros HO HW Hs Hf Hk.
  assert (Hi : k <> Idle) by (by intros ->). destruct (stuck s f k HO Hs Hf Hi) as [|[[[tm ->] Hne]|[[m ->] _]]]; [by left| |done].
  destruct (decide (first (s_mbox s) = last (s_mbox s))) as [Ee|Hn].
  - destruct (decide (map_Exists (fun t k' => t <> f /\ k' <> Idle) (s_threads s))) as [(t & k' & Ht & Htf & Hk')|Hno].
    + left. destruct (stuck s t k' HO Hs Ht Hk') as [|[[[tm' ->] _]|[[m ->] _]]]; [done| |].
      * by pose proof (wk_role _ _ HW t _ Ht eq_refl).
      * by destruct (sender_wakes f s t m HO HW Hs Ht).
    + right. split_and!; [by eauto|unfold contents; by rewrite Ee, Z.sub_diag|]. intros t k' Ht.
      destruct (decide (t = f)) as [|Htf]; [by left|]. right. destruct (decide (k' = Idle)) as [|Hk']; [done|]. destruct Hno. by exists t, k'.
  - left. destruct (wk_fetch _ _ HW tm Hf Hn) as [E|[t Ht]]; [lia|].
    destruct (holder_steps s t _ HO Hs Ht eq_refl) as (m' & k' & e & E). by exists t, (SignalNotEmpty true), m', k', e.
Qed.
