(* ===== verification/SysClaims.v ===== *)
(** The properties of the system port: mailboxes, their waiting threads, their
    counters, and the critical sections.  First, the critical sections of the port:
    [sys_arch_protect] and [sys_arch_unprotect]. *)
From S2P Require Import Prelude.
From S2P Require Import Prelude Bits Pbuf SysArch SysMbox.

(** The globals; [lw_mutex] says who has locked the mutex. *)
Record lwprot := Lwprot { lw_mutex : option Z; lwprot_thread : Z; lwprot_count : Z }.

Definition nobody : Z := 0xDEAD.

Definition lwprot0 : lwprot := Lwprot None nobody 0.

(** Where a thread is: in its own code after [depth] calls of [sys_arch_protect] that
    are not undone, or about to make the step that is named. *)
Inductive prot_pc := Depth (depth : Z) | ProtLock | ProtSetThread | ProtSetCount | UnprotClear | UnprotUnlock.

(** [sys_arch_protect]: the test and the branch for a thread that is inside. *)
Definition protect_call (self : Z) (g : lwprot) (depth : Z) : lwprot * prot_pc :=
  if negb (lwprot_thread g =? self) then (g, ProtLock) else (Lwprot (lw_mutex g) (lwprot_thread g) (lwprot_count g + 1), Depth (depth + 1)).

(** [sys_arch_unprotect]: the test and the counting. *)
Definition unprotect_call (self : Z) (g : lwprot) (depth : Z) : lwprot * prot_pc :=
  if lwprot_thread g =? self then
    let c := lwprot_count g - 1 in
    (Lwprot (lw_mutex g) (lwprot_thread g) c, if c =? 0 then UnprotClear else Depth (depth - 1))
  else (g, Depth depth).

(** The rest of both. *)
Definition prot_step (self : Z) (g : lwprot) (k : prot_pc) : option (lwprot * prot_pc) :=
  match k with
  | Depth _ => None
  | ProtLock => match lw_mutex g with None => Some (Lwprot (Some self) (lwprot_thread g) (lwprot_count g), ProtSetThread) | Some _ => None end
  | ProtSetThread => Some (Lwprot (lw_mutex g) self (lwprot_count g), ProtSetCount)
  | ProtSetCount => Some (Lwprot (lw_mutex g) (lwprot_thread g) 1, Depth 1)
  | UnprotClear => Some (Lwprot (lw_mutex g) nobody (lwprot_count g), UnprotUnlock)
  | UnprotUnlock => Some (Lwprot None (lwprot_thread g) (lwprot_count g), Depth 0)
  end.

Record prot := Prot { pr_g : lwprot; pr_threads : gmap Z prot_pc }.

(** The threads interleave; one that is not inside does not leave. *)
Inductive prot_run : prot -> prot -> Prop :=
  | prot_nil s : prot_run s s
  | prot_protect s g thr t d :
      prot_run s (Prot g thr) -> thr !! t = Some (Depth d) ->
      prot_run s (Prot (fst (protect_call t g d)) (<[t := snd (protect_call t g d)]> thr))
  | prot_unprotect s g thr t d :
      prot_run s (Prot g thr) -> thr !! t = Some (Depth d) ->
      prot_run s (Prot (fst (unprotect_call t g d)) (<[t := snd (unprotect_call t g d)]> thr))
  | prot_go s g thr t k g' k' :
      prot_run s (Prot g thr) -> thr !! t = Some k -> prot_step t g k = Some (g', k') -> prot_run s (Prot g' (<[t := k']> thr)).

(** ** The invariant *)

(** What the globals say of the thread [t], which is at [k]. *)
Definition prot_at (g : lwprot) (t : Z) (k : prot_pc) : Prop :=
  match k with
  | Depth d => 0 <= d /\ (lw_mutex g = Some t <-> 0 < d) /\ (lwprot_thread g = t <-> 0 < d) /\ (0 < d -> lwprot_count g = d)
  | ProtLock => lw_mutex g <> Some t /\ lwprot_thread g <> t
  | ProtSetThread | UnprotUnlock => lw_mutex g = Some t /\ lwprot_thread g <> t
  | ProtSetCount => lw_mutex g = Some t /\ lwprot_thread g = t
  | UnprotClear => lw_mutex g = Some t /\ lwprot_thread g = t
  end.

Definition prot_ok (s : prot) : Prop := forall t k, pr_threads s !! t = Some k -> t <> nobody /\ prot_at (pr_g s) t k.

(** Who has the mutex is one thread, and a step of the others leaves it alone. *)
Lemma prot_frame g g' t u k :
  prot_at g u k -> u <> t -> lw_mutex g' = lw_mutex g \/ (lw_mutex g <> Some u /\ lw_mutex g' <> Some u) ->
  lwprot_thread g' = lwprot_thread g \/ (lwprot_thread g <> u /\ lwprot_thread g' <> u) ->
  lwprot_count g' = lwprot_count g \/ lw_mutex g <> Some u -> prot_at g' u k.
Proof.
  intros Hk Hne Hm Ht Hc. unfold prot_at in *. destruct Hm as [Hm|[Hm Hm']], Ht as [Ht|[Ht Ht']], Hc as [Hc|Hc], k; rewrite ?Hm, ?Ht, ?Hc; tauto.
Qed.

(** The thread that is named has the mutex. *)
Lemma prot_named g t k : prot_at g t k -> lw_mutex g <> Some t -> lwprot_thread g <> t.
Proof. destruct k; cbn; tauto. Qed.

Lemma prot_upd g g' thr t k k' :
  prot_ok (Prot g thr) -> thr !! t = Some k -> prot_at g' t k' ->
  (forall u, u <> t -> u <> nobody -> (lw_mutex g <> Some u -> lwprot_thread g <> u) -> (lw_mutex g' = lw_mutex g \/ (lw_mutex g <> Some u /\ lw_mutex g' <> Some u)) /\
    (lwprot_thread g' = lwprot_thread g \/ (lwprot_thread g <> u /\ lwprot_thread g' <> u)) /\ (lwprot_count g' = lwprot_count g \/ lw_mutex g <> Some u)) ->
  prot_ok (Prot g' (<[t := k']> thr)).
Proof.
  intros HO Ht Hk Hfr u k2 Hu. cbn in Hu. destruct (decide (u = t)) as [->|Hne].
  - rewrite lookup_insert_eq in Hu. injection Hu as <-. split; [|done]. by apply (HO t k).
  - rewrite lookup_insert_ne in Hu by done. destruct (HO u k2 Hu) as [Hn Hat]. split; [done|]. cbn in *.
    destruct (Hfr u Hne Hn (prot_named _ _ _ Hat)) as (H1 & H2 & H3). by eapply prot_frame.
Qed.

Lemma prot_run_ok s s' : prot_ok s -> prot_run s s' -> prot_ok s'.
Proof.
  intros H0 Hr. induction Hr as [s|s g thr t d _ IH Ht|s g thr t d _ IH Ht|s g thr t k g' k' _ IH Ht E]; [done|..]; specialize (IH H0);
    destruct (IH t _ Ht) as [Hn Hat]; cbn in Hat.
  - unfold protect_call. destruct (Z.eqb_spec (lwprot_thread g) t) as [Et|Et]; cbn; (eapply prot_upd; [done|done| |]).
    + cbn. destruct Hat as (Hd & Hm & Hth & Hc). rewrite Hm, Hth, Hc by tauto. rewrite Hth in Et. lia.
    + intros u Hu Hnb Hnm. cbn. split_and!; [by left..|]. right. destruct Hat as (_ & Hm & Hth & _). rewrite (proj2 Hm) by tauto. congruence.
    + cbn. destruct Hat as (Hd & Hm & Hth & Hc). rewrite Hm, Hth. rewrite Hth in Et. lia.
    + intros u Hu Hnb Hnm. split_and!; by left.
  - unfold unprotect_call. destruct (Z.eqb_spec (lwprot_thread g) t) as [Et|Et]; cbn; (eapply prot_upd; [done|done| |]).
    + destruct Hat as (Hd & Hm & Hth & Hc). pose proof (proj1 Hth Et) as Hpos. rewrite (Hc Hpos). destruct (Z.eqb_spec (d - 1) 0); cbn; rewrite ?Hm, ?Hth; lia.
    + intros u Hu Hnb Hnm. cbn. split_and!; [by left..|]. right. destruct Hat as (_ & Hm & Hth & _). rewrite (proj2 Hm) by tauto. congruence.
    + done.
    + intros u Hu Hnb Hnm. split_and!; by left.
  - destruct k; cbn in E, Hat; try done.
    + destruct (lw_mutex g) eqn:Em; [done|]. injection E as <- <-. eapply prot_upd; [done|done|by cbn; split; [|apply Hat]|].
      intros u Hu Hnb Hnm. cbn. rewrite Em. split_and!; [right; split; congruence|by left..].
    + injection E as <- <-. destruct Hat as [Em Et]. eapply prot_upd; [done|done|done|]. intros u Hu Hnb Hnm. cbn. split_and!; [by left| |by left].
      right. split; [apply Hnm; congruence|congruence].
    + injection E as <- <-. destruct Hat as [Em Et]. eapply prot_upd; [done|done|cbn; rewrite Em, Et; split_and!; lia || done|].
      intros u Hu Hnb Hnm. cbn. split_and!; [by left..|]. right. congruence.
    + injection E as <- <-. destruct Hat as [Em Et]. eapply prot_upd; [done|done|cbn; split; [done|congruence]|].
      intros u Hu Hnb Hnm. cbn. split_and!; [by left| |by left]. right. split; [apply Hnm; congruence|congruence].
    + injection E as <- <-. destruct Hat as [Em Et]. eapply prot_upd; [done|done|cbn; split_and!; try lia; split; (done || lia)|].
      intros u Hu Hnb Hnm. cbn. split_and!; [|by left..]. right. split; congruence.
Qed.

(** Nobody inside yet. *)
Lemma prot0_ok thr : (forall t k, thr !! t = Some k -> t <> nobody /\ k = Depth 0) -> prot_ok (Prot lwprot0 thr).
Proof. intros H t k Ht. destruct (H t k Ht) as [Hn ->]. split; [done|]. cbn. split_and!; try lia; split; intros; (done || lia). Qed.

(** ** Runs of the queue *)
Definition posted (es : list event) : list Z := omap (fun e => match e with Posted m => Some m | _ => None end) es.

Definition fetched (es : list event) : list Z := omap (fun e => match e with Fetched m => Some m | _ => None end) es.

(** The abstract queue accepts what was observed. *)
Inductive queue_run : list Z -> list event -> list Z -> Prop :=
  | queue_nil q : queue_run q [] q
  | queue_more q q1 q2 es e : queue_run q es q1 -> queue_step q1 e q2 -> queue_run q (es ++ option_list e) q2.

Lemma queue_fifo q es q' : queue_run q es q' -> q ++ posted es = fetched es ++ q'.
Proof.
  unfold posted, fetched. induction 1 as [q|q q1 q2 es e _ IH Hs]; [by rewrite app_nil_r|]. rewrite !omap_app, app_assoc, IH.
  destruct Hs; cbn; rewrite ?app_nil_r, <- ?app_assoc; done.
Qed.

Lemma queue_bound q es q' : queue_run q es q' -> zlen q <= 127 -> zlen q' <= 127.
Proof. induction 1 as [q|q q1 q2 es e _ IH Hs]; [done|]. intros Hq. specialize (IH Hq). destruct Hs; rewrite ?zlen_app, ?zlen_cons in *; unfold zlen in *; cbn in *; lia. Qed.

Lemma mbox_queue fetcher s0 es s : mbox_init s0 -> mbox_run fetcher s0 es s -> queue_run (contents (s_mbox s0)) es (contents (s_mbox s)).
Proof.
  intros H0 Hr. induction Hr as [s|s s1 s2 es e Hr IH Hs]; [constructor|]. econstructor; [by apply IH|].
  eapply mbox_sim; [by eapply mbox_run_ok|done].
Qed.

Lemma mbox_init_empty s : mbox_init s -> contents (s_mbox s) = [].
Proof. intros [(mem & _ & E) _]. cbn in E. injection E as <-. done. Qed.

(** ** Concrete runs *)
Definition empty_mbox : sys_mbox := SysMbox 0 0 (replicate 128 0) 0 0 1 0.

Definition three_threads : sys := Sys empty_mbox (list_to_map [(1, Idle); (2, Idle); (3, Idle)]).

Lemma three_threads_init : mbox_init three_threads.
Proof.
  split; [by exists (replicate 128 0)|]. intros t k Ht. apply elem_of_list_to_map_2 in Ht. rewrite !elem_of_cons, elem_of_nil in Ht.
  destruct Ht as [[= -> ->]|[[= -> ->]|[[= -> ->]|[]]]]; done.
Qed.

Definition go (t : Z) (n : nat) : list (Z * option pc) := replicate n (t, None).

(** Every call of a schedule is one of the interface, and one of [f] if it fetches. *)
Definition calls_ok (f : Z -> bool) (sched : list (Z * option pc)) : bool :=
  forallb (fun '(t, k) => match k with Some k => posts_call k || fetches_call k && f t | None => true end) sched.

Lemma run_sound (fetcher : Z -> Prop) f s0 sched es s es' s' :
  (forall t, f t = true -> fetcher t) -> mbox_run fetcher s0 es s -> calls_ok f sched = true -> run sched s = Some (es', s') ->
  mbox_run fetcher s0 (es ++ es') s'.
Proof.
  intros Hall. revert es s es'. induction sched as [|[t [k|]] sched IH]; intros es s es' Hr Hc E.
  - injection E as <- <-. by rewrite app_nil_r.
  - cbn in E, Hc. apply andb_true_iff in Hc as [Hk Hc]. destruct (s_threads s !! t) as [[]|] eqn:Ht; try done. cbn in E. refine (IH _ _ _ _ Hc E).
    rewrite <- (app_nil_r es). eapply (run_step _ _ _ _ _ None); [exact Hr|]. apply (step_call fetcher t k); [done|].
    apply orb_true_iff in Hk as [Hk|Hk]; [by left|]. apply andb_true_iff in Hk as [Hk Hf]. right. auto.
  - cbn in E, Hc. destruct (s_threads s !! t) as [k|] eqn:Ht; [|done]. cbn in E. destruct (thread_step _ _ _) as [| |m' k' e] eqn:Es; try done.
    destruct (run sched _) as [[es1 s1]|] eqn:E1; [|done]. cbn in E. injection E as <- <-. rewrite app_assoc. refine (IH _ _ _ _ Hc E1).
    eapply run_step; [exact Hr|]. by eapply (step_run fetcher t).
Qed.

(** One thread starts to fetch and waits, another posts twice, the first goes on. *)
Definition fetch_schedule : list (Z * option pc) :=
  (1, Some (FetchLock 0)) :: go 1 3 ++ (3, Some (TrypostLock 10)) :: go 3 5 ++ (3, Some (PostLock 11)) :: go 3 5 ++ go 1 6.

(** Two threads start to wait, a third posts twice, one of the two fetches. *)
Definition lost_schedule : list (Z * option pc) :=
  (1, Some (FetchLock 0)) :: go 1 3 ++ (2, Some (FetchLock 0)) :: go 2 3 ++
  (3, Some (TrypostLock 10)) :: go 3 5 ++ (3, Some (TrypostLock 11)) :: go 3 5 ++ go 1 6.

Definition final (sched : list (Z * option pc)) : sys := match run sched three_threads with Some (_, s) => s | None => three_threads end.

Lemma fetch_run : mbox_run (eq 1) three_threads [Posted 10; Posted 11; Fetched 10] (final fetch_schedule).
Proof.
  apply (run_sound (eq 1) (Z.eqb 1) three_threads fetch_schedule [] three_threads); [intros t; apply Z.eqb_eq|constructor|done|].
  vm_compute. reflexivity.
Qed.

Lemma waiting_run : mbox_run (eq 1) three_threads [] (final ((1, Some (FetchLock 0)) :: go 1 3)).
Proof.
  apply (run_sound (eq 1) (Z.eqb 1) three_threads ((1, Some (FetchLock 0)) :: go 1 3) [] three_threads); [intros t; apply Z.eqb_eq|constructor|done|].
  vm_compute. reflexivity.
Qed.

(** C27. Whatever the interleaving of any number of threads that post and fetch, with
    or without waiting and timeouts, a mailbox behaves as a queue for at most 127
    messages: the events of a run are those of the queue that starts empty and ends
    with the messages between [first] and [last], posts are refused only when 127
    messages wait and fetches only when none does, and what was posted is what was
    fetched followed by what waits, each message once and in order. *)
Theorem mbox_refines_queue fetcher s0 es s :
  mbox_init s0 -> mbox_run fetcher s0 es s ->
  queue_run [] es (contents (s_mbox s)) /\ posted es = fetched es ++ contents (s_mbox s) /\ zlen (contents (s_mbox s)) <= 127.
Proof.
  intros H0 Hr. pose proof (mbox_queue _ _ _ _ H0 Hr) as Hq. rewrite mbox_init_empty in Hq by done.
  split_and!; [done|by apply (queue_fifo [])|by eapply queue_bound].
Qed.

Lemma mbox_refines_queue_witness :
  queue_run [] [Posted 10; Posted 11; Fetched 10] (contents (s_mbox (final fetch_schedule))) /\
  posted [Posted 10; Posted 11; Fetched 10] = fetched [Posted 10; Posted 11; Fetched 10] ++ contents (s_mbox (final fetch_schedule)) /\
  zlen (contents (s_mbox (final fetch_schedule))) <= 127.
Proof. exact (mbox_refines_queue (eq 1) three_threads _ _ three_threads_init fetch_run). Defined.

(** C29. In every state that threads can bring a mailbox to, at most one thread is
    between locking its mutex and unlocking it, the semaphores hold 0 or 1, [first]
    and [last] are at most 127 apart, and [wait_send] is the number of threads inside
    the waiting loop of [sys_mbox_post]. *)
Theorem mbox_exclusive fetcher s0 es s :
  mbox_init s0 -> mbox_run fetcher s0 es s ->
  (forall t u k k', s_threads s !! t = Some k -> s_threads s !! u = Some k' -> holds k = true -> holds k' = true -> t = u) /\
  0 <= not_empty (s_mbox s) <= 1 /\ 0 <= not_full (s_mbox s) <= 1 /\ 0 <= mutex (s_mbox s) <= 1 /\
  0 <= first (s_mbox s) <= last (s_mbox s) /\ last (s_mbox s) <= first (s_mbox s) + 127 /\
  wait_send (s_mbox s) = count waits (s_threads s).
Proof.
  intros H0 Hr. pose proof (mbox_run_ok _ _ _ _ H0 Hr) as HO. split; [intros t u k k' Ht Hu; by eapply holds_unique|]. destruct HO. split_and!; tauto.
Qed.

Lemma mbox_exclusive_witness : wait_send (s_mbox (final fetch_schedule)) = count waits (s_threads (final fetch_schedule)).
Proof. destruct (mbox_exclusive (eq 1) three_threads _ _ three_threads_init fetch_run) as (_ & _ & _ & _ & _ & _ & E). exact E. Defined.

(** C28. With one thread that fetches, as the tcpip thread does, no wake-up is lost:
    while that thread is inside a fetch, either some thread inside a call can go on,
    or the fetcher waits, the mailbox is empty and every other thread is outside:
    nobody who posts waits for it.  The counters must not be at their end. *)
Theorem mbox_progress f s0 es s k :
  mbox_init s0 -> mbox_run (eq f) s0 es s -> mbox_small s -> s_threads s !! f = Some k -> fetching k = true ->
  can_step s \/
  ((exists timeout, k = FetchWait timeout) /\ contents (s_mbox s) = [] /\ forall t k', s_threads s !! t = Some k' -> t = f \/ k' = Idle).
Proof. intros H0 Hr Hs Hf Hk. destruct (mbox_run_wake f s0 es s H0 Hr) as [HO HW]. by apply (progress f). Qed.

Lemma mbox_progress_witness :
  let s := final ((1, Some (FetchLock 0)) :: go 1 3) in
  can_step s \/
  ((exists timeout, FetchWait 0 = FetchWait timeout) /\ contents (s_mbox s) = [] /\ forall t k', s_threads s !! t = Some k' -> t = 1 \/ k' = Idle).
Proof.
  apply (mbox_progress 1 three_threads _ _ (FetchWait 0) three_threads_init waiting_run); [split; vm_compute; reflexivity|vm_compute; reflexivity|reflexivity].
Defined.

(** ** Two fetchers *)

(** No thread inside a call can go on. *)
Definition blocked (s : sys) : bool :=
  forallb (fun '(_, k) => match thread_step false (s_mbox s) k with Go _ _ _ => false | _ => true end) (map_to_list (s_threads s)).

Lemma blocked_stuck s : blocked s = true -> ~ can_step s.
Proof.
  intros Hb (t & k & m' & k' & e & Ht & E). unfold blocked in Hb. rewrite forallb_forall in Hb.
  specialize (Hb (t, k)). cbn in Hb. rewrite E in Hb. apply elem_of_map_to_list, list_elem_of_In in Ht. by specialize (Hb Ht).
Qed.

(** The mailbox does not serve two threads that fetch at once, as two threads that
    receive from one socket do: there is a run that ends with every thread blocked or
    outside, one thread waiting in [sys_arch_mbox_fetch], and a message in the mailbox.
    Only a post to an empty mailbox signals [not_empty]. *)
Theorem mbox_two_fetchers_stuck :
  exists es s, mbox_run (fun _ => True) three_threads es s /\ s_threads s !! 2 = Some (FetchWait 0) /\ contents (s_mbox s) = [11] /\ ~ can_step s.
Proof.
  assert (Hc : match run lost_schedule three_threads with
    | Some (_, s) => bool_decide (s_threads s !! 2 = Some (FetchWait 0) /\ contents (s_mbox s) = [11]) && blocked s
    | None => false
    end = true) by (vm_compute; reflexivity).
  destruct (run lost_schedule three_threads) as [[es s]|] eqn:E; [|done]. apply andb_true_iff in Hc as [Hc Hb]. apply bool_decide_eq_true in Hc as [H1 H2].
  exists es, s. split_and!; [|done|done|by apply blocked_stuck].
  apply (run_sound (fun _ => True) (fun _ => true) three_threads lost_schedule [] three_threads); [done|constructor|done|done].
Qed.

(** ** The counters *)

(** One thread alone, from a call to its end. *)
Fixpoint solo (n : nat) (m : sys_mbox) (k : pc) : result :=
  match n with
  | O => Go m k None
  | S n => match thread_step false m k with Go m k _ => solo n m k | r => r end
  end.

Lemma solo_run fetcher s0 t n m k m' k' e thr es :
  solo n m k = Go m' k' e -> thr !! t = Some k -> mbox_run fetcher s0 es (Sys m thr) ->
  exists es' thr', mbox_run fetcher s0 es' (Sys m' thr') /\ thr' !! t = Some k'.
Proof.
  revert m k thr es. induction n as [|n IH]; intros m k thr es E Ht Hr; cbn in E; [injection E as <- <- <-; eauto|].
  destruct (thread_step false m k) as [| |m1 k1 e1] eqn:Es; try done.
  eapply (IH m1 k1 (<[t := k1]> thr)); [done|apply lookup_insert_eq|]. eapply run_step; [exact Hr|]. by eapply (step_run fetcher t false k m1 k1 _ (Sys m thr)).
Qed.

Lemma solo_call fetcher s0 t n m k m' k' e thr es :
  solo n m k = Go m' k' e -> thr !! t = Some Idle -> posts_call k = true \/ (fetches_call k = true /\ fetcher t) -> mbox_run fetcher s0 es (Sys m thr) ->
  exists es' thr', mbox_run fetcher s0 es' (Sys m' thr') /\ thr' !! t = Some k'.
Proof.
  intros E Ht Hk Hr. eapply (solo_run fetcher s0 t n m k m' k' e (<[t := k]> thr)); [done|apply lookup_insert_eq|].
  eapply run_step; [exact Hr|]. exact (step_call fetcher t k (Sys m thr) Ht Hk).
Qed.

(** The mailbox after [n] messages, all of them fetched. *)
Definition drained (n : Z) (m : sys_mbox) : Prop :=
  first m = n /\ last m = n /\ mutex m = 1 /\ wait_send m = 0 /\ zlen (msgs m) = 128.

Lemma drained_post n m : 0 <= n < 2 ^ 31 - 128 -> drained n m -> exists m', solo 5 m (TrypostLock 7) = Go m' Idle None /\
  first m' = n /\ last m' = n + 1 /\ mutex m' = 1 /\ wait_send m' = 0 /\ zlen (msgs m') = 128.
Proof.
  intros Hn (E1 & E2 & E3 & E4 & E5). destruct m as [f l k ne nf mu w]; cbn in *; subst. cbn. unfold mbox_full; cbn.
  rewrite !int_add_ok by (unfold SYS_MBOX_SIZE; lia). cbn. destruct (Z.leb_spec (n + SYS_MBOX_SIZE) (n + 1)); [unfold SYS_MBOX_SIZE in *; lia|]. cbn.
  rewrite slot_val by (cbn; lia || done). cbn. rewrite int_add_ok by lia. cbn. rewrite Z.eqb_refl. cbn. eexists. split; [done|]. cbn.
  split_and!; try done. unfold zlen in *. by rewrite length_insert.
Qed.

Lemma drained_fetch n m : 0 <= n < 2 ^ 31 - 128 -> first m = n /\ last m = n + 1 /\ mutex m = 1 /\ wait_send m = 0 /\ zlen (msgs m) = 128 ->
  exists m', solo 5 m TryfetchLock = Go m' Idle None /\ drained (n + 1) m'.
Proof.
  intros Hn (E1 & E2 & E3 & E4 & E5). destruct m as [f l k ne nf mu w]; cbn in *; subst. cbn.
  destruct (Z.eqb_spec n (n + 1)); [lia|]. cbn. rewrite slot_val by (cbn; lia || done). cbn.
  destruct (lookup_lt_is_Some_2 k (Z.to_nat (n mod 128))) as [x Hx]; [unfold zlen in *; pose proof (Z.mod_pos_bound n 128); lia|].
  rewrite Hx. cbn. rewrite int_add_ok by lia. cbn. eexists. split; [done|]. done.
Qed.

Lemma drained_reach fetcher s0 t n :
  fetcher t -> mbox_init s0 -> s_threads s0 !! t = Some Idle -> 0 <= n -> n <= 2 ^ 31 - 128 ->
  exists es m thr, mbox_run fetcher s0 es (Sys m thr) /\ thr !! t = Some Idle /\ drained n m.
Proof.
  intros Hf H0 Ht Hn. revert n Hn. refine (natlike_ind _ _ _).
  - intros _. destruct s0 as [m thr]. exists [], m, thr. split; [constructor|]. split; [done|]. destruct H0 as [(mem & Hl & E) _]. cbn in E. by injection E as <-.
  - intros n Hn IH Hle. destruct IH as (es & m & thr & Hr & Hi & Hd); [lia|].
    destruct (drained_post n m) as (m1 & E1 & H1); [lia|done|]. destruct (solo_call fetcher s0 t _ _ _ _ _ _ _ _ E1 Hi (or_introl eq_refl) Hr) as (es1 & thr1 & Hr1 & Hi1).
    destruct (drained_fetch n m1) as (m2 & E2 & H2); [lia|done|]. destruct (solo_call fetcher s0 t _ _ _ _ _ _ _ _ E2 Hi1 (or_intror (conj eq_refl Hf)) Hr1) as (es2 & thr2 & Hr2 & Hi2).
    by exists es2, m2, thr2.
Qed.

(** [first] and [last] are never set back, so a mailbox wears out: the run in which
    one thread posts and fetches a message [2^31 - 128] times brings the next call of
    [sys_mbox_trypost] to the sum [first + SYS_MBOX_SIZE], which no [int] holds:
    undefined behaviour. *)
Theorem mbox_wears_out fetcher s0 t :
  fetcher t -> mbox_init s0 -> s_threads s0 !! t = Some Idle ->
  exists es m thr msg, mbox_run fetcher s0 es (Sys m thr) /\ thr !! t = Some (TrypostTest msg) /\
    thread_step false m (TrypostTest msg) = Undefined /\ contents m = [] /\ last m = 2 ^ 31 - 128.
Proof.
  intros Hf H0 Ht. destruct (drained_reach fetcher s0 t (2 ^ 31 - 128) Hf H0 Ht) as (es & m & thr & Hr & Hi & Hd); [lia..|].
  destruct Hd as (E1 & E2 & E3 & E4 & E5). destruct m as [f l k ne nf mu w]; cbn in *; subst.
  destruct (solo_call fetcher s0 t 1 (SysMbox (2 ^ 31 - 128) (2 ^ 31 - 128) k ne nf 1 0) (TrypostLock 7) _ _ _ _ _ eq_refl Hi (or_introl eq_refl) Hr) as (es1 & thr1 & Hr1 & Hi1).
  eexists es1, _, thr1, 7. split_and!; [exact Hr1|exact Hi1|done..].
Qed.

Lemma mbox_wears_out_witness :
  exists es m thr msg, mbox_run (eq 1) three_threads es (Sys m thr) /\ thr !! 1 = Some (TrypostTest msg) /\
    thread_step false m (TrypostTest msg) = Undefined /\ contents m = [] /\ last m = 2 ^ 31 - 128.
Proof. apply (mbox_wears_out (eq 1) three_threads 1); [reflexivity|exact three_threads_init|vm_compute; reflexivity]. Defined.

(** ** Critical sections *)

(** [sys_arch_protect] and [sys_arch_unprotect] make a recursive lock although the
    owner is tested without the mutex: however threads interleave, two threads are
    never inside at once, and the thread inside is the one the mutex and
    [lwprot_thread] name, with [lwprot_count] the depth of its calls. *)
Theorem protect_exclusive thr s t d :
  (forall u k, thr !! u = Some k -> u <> nobody /\ k = Depth 0) -> prot_run (Prot lwprot0 thr) s ->
  pr_threads s !! t = Some (Depth d) -> 0 < d ->
  lw_mutex (pr_g s) = Some t /\ lwprot_thread (pr_g s) = t /\ lwprot_count (pr_g s) = d /\
  forall u d', pr_threads s !! u = Some (Depth d') -> 0 < d' -> u = t.
Proof.
  intros Hthr Hr Ht Hd. pose proof (prot_run_ok _ _ (prot0_ok _ Hthr) Hr) as HO. destruct (HO _ _ Ht) as [_ (_ & Hm & Hth & Hc)].
  split_and!; [by apply Hm|by apply Hth|by apply Hc|]. intros u d' Hu Hd'. destruct (HO _ _ Hu) as [_ (_ & _ & Hth' & _)].
  rewrite <- (proj2 Hth' Hd'). by apply Hth.
Qed.

Lemma protect_exclusive_witness :
  exists g, prot_run (Prot lwprot0 {[1 := Depth 0]}) (Prot g {[1 := Depth 1]}) /\ lw_mutex g = Some 1 /\ lwprot_count g = 1.
Proof.
  assert (Hr : prot_run (Prot lwprot0 {[1 := Depth 0]}) (Prot (Lwprot (Some 1) 1 1) {[1 := Depth 1]})).
  { rewrite <- (insert_singleton_eq (M := gmap Z) 1 (Depth 1) ProtSetCount). refine (prot_go _ (Lwprot (Some 1) 1 0) _ 1 ProtSetCount _ _ _ _ _); [|done|done].
    rewrite <- (insert_singleton_eq (M := gmap Z) 1 ProtSetCount ProtSetThread). refine (prot_go _ (Lwprot (Some 1) nobody 0) _ 1 ProtSetThread _ _ _ _ _); [|done|done].
    rewrite <- (insert_singleton_eq (M := gmap Z) 1 ProtSetThread ProtLock). refine (prot_go _ lwprot0 _ 1 ProtLock _ _ _ _ _); [|done|done].
    rewrite <- (insert_singleton_eq (M := gmap Z) 1 ProtLock (Depth 0)). exact (prot_protect (Prot lwprot0 {[1 := Depth 0]}) lwprot0 {[1 := Depth 0]} 1 0 (prot_nil _) eq_refl). }
  exists (Lwprot (Some 1) 1 1). split; [exact Hr|].
  destruct (protect_exclusive {[1 := Depth 0]} (Prot (Lwprot (Some 1) 1 1) {[1 := Depth 1]}) 1 1) as (Hm & _ & Hc & _); [|exact Hr|reflexivity|lia|by split].
  intros u k Hu. apply lookup_singleton_Some in Hu as [<- <-]. split; [discriminate|reflexivity].
Defined.

(** ** Times *)

(** The deadline of a timed wait is the given time later, to the nanosecond and with
    the nanoseconds in their range, and the time reported after it is the number of
    whole milliseconds between the two readings of the clock. *)
Theorem cond_wait_times sec nsec timeout sec2 nsec2 :
  0 <= nsec < 10 ^ 9 -> 0 <= timeout < 2 ^ 32 -> 0 <= nsec2 < 10 ^ 9 -> 0 <= (sec2 - sec) * 10 ^ 9 + (nsec2 - nsec) < 2 ^ 32 * 10 ^ 6 ->
  (let '(dsec, dnsec) := cond_deadline sec nsec timeout in dsec * 10 ^ 9 + dnsec = sec * 10 ^ 9 + nsec + timeout * 10 ^ 6 /\ 0 <= dnsec < 10 ^ 9) /\
  cond_waited sec nsec sec2 nsec2 = ((sec2 - sec) * 10 ^ 9 + (nsec2 - nsec)) / 10 ^ 6.
Proof.
  intros H1 H2 H3 H4. split.
  - unfold cond_deadline. cbn zeta. destruct (Z.leb_spec 1000000000 (nsec + timeout mod 1000 * 1000000)); split; zdm; lia.
  - unfold cond_waited. destruct (Z.ltb_spec (nsec2 - nsec) 0).
    + rewrite Z.quot_div_nonneg, u32_small by (zdm; lia). zdm. lia.
    + rewrite Z.quot_div_nonneg, u32_small by (zdm; lia). zdm. lia.
Qed.

Lemma cond_wait_times_witness :
  cond_deadline 5 (10 ^ 9 - 1) 2500 = (8, 499999999) /\ cond_waited 5 (10 ^ 9 - 1) 7 1 = ((7 - 5) * 10 ^ 9 + (1 - (10 ^ 9 - 1))) / 10 ^ 6.
Proof. split; [reflexivity|]. apply (cond_wait_times 5 (10 ^ 9 - 1) 2500 7 1); lia. Defined.
