(* ===== verification/Ip4Frag.v ===== *)
(** Reassembly of IP fragments: [core/ipv4/ip4_frag.c].

    The fragments of a datagram are queued by their offset, linked through a [struct
    ip_reass_helper] that lies over the IP header of each.  Nobody reads the header
    bytes under it until the header of the datagram is copied back, so the helpers are
    kept in a list, beside their pbufs, and the bytes are left as they are.  The list
    of datagrams is a list, its entries named by their position.

    Then fragmentation, [ip4_frag].  A fragment is a pbuf for the headers followed by custom
    pbufs that refer to parts of the datagram and hold a reference to its pbufs.  Their memory
    is that of the datagram; nothing writes to it while a fragment lives (ARP copies the
    packets it keeps), so a custom pbuf has a copy of the bytes it refers to. *)
From S2P Require Import Prelude Bits Def IpAddr Pbuf PbufData Chksum NetifRec Netif XnetTap Ethernet Ip4Addr Etharp IpState NetifLoop Ip4Out Icmp.
From S2P Require Import IpUpper.

Definition IP_REASS_MAXAGE : Z := 15.
Definition IP_REASS_MAX_PBUFS : Z := 32.
Definition IP_REASS_FLAG_LASTFRAG : Z := 0x01.
Definition IP_REASS_VALIDATE_TELEGRAM_FINISHED : Z := 1.
Definition IP_REASS_VALIDATE_PBUF_QUEUED : Z := 0.
Definition IP_REASS_VALIDATE_PBUF_DROPPED : Z := -1.
Definition ICMP_TE_FRAG : Z := 1.
Definition SIZEOF_IP_REASSDATA : Z := 40.

(** [struct ip_reass_helper], with the pbuf it lies in; [next_pbuf] is the next of the
    list. *)
Record helper := Helper { h_p : addr; h_start : Z; h_end : Z }.

Record ip_reassdata := IpReassdata {
  r_p : list helper;
  r_iphdr : list Z;
  r_datagram_len : Z;
  r_flags : Z;
  r_timer : Z;
}.

(** The globals of the module. *)
Record reass := Reass { reassdatagrams : list ip_reassdata; ip_reass_pbufcount : Z }.

Definition set_r_p (l : list helper) (r : ip_reassdata) : ip_reassdata := IpReassdata l (r_iphdr r) (r_datagram_len r) (r_flags r) (r_timer r).

Definition set_r_iphdr (h : list Z) (r : ip_reassdata) : ip_reassdata := IpReassdata (r_p r) h (r_datagram_len r) (r_flags r) (r_timer r).

Definition set_r_last (len : Z) (r : ip_reassdata) : ip_reassdata := IpReassdata (r_p r) (r_iphdr r) len (r_flags r .| IP_REASS_FLAG_LASTFRAG) (r_timer r).

Definition set_r_timer (t : Z) (r : ip_reassdata) : ip_reassdata := IpReassdata (r_p r) (r_iphdr r) (r_datagram_len r) (r_flags r) t.

Definition set_datagrams (l : list ip_reassdata) (st : reass) : reass := Reass l (ip_reass_pbufcount st).

Definition set_pbufcount (n : Z) (st : reass) : reass := Reass (reassdatagrams st) n.

(** ** Placing a fragment *)

(** The [for] loop: what is before and after the new fragment, and whether there was
    no hole up to it; [None] when it overlaps. *)
Fixpoint frag_place (new : helper) (prev : option helper) (valid : bool) (q : list helper) : option (list helper * list helper * bool) :=
  match q with
  | [] => Some ([], [], match prev with Some pr => valid && (h_end pr =? h_start new) | None => valid end)
  | tmp :: q' =>
      if h_start new <? h_start tmp then
        match prev with
        | Some pr =>
            if (h_start new <? h_end pr) || (h_start tmp <? h_end new) then None
            else Some ([], q, valid && (h_end pr =? h_start new))
        | None => if h_start tmp <? h_end new then None else Some ([], q, valid)
        end
      else if h_start new =? h_start tmp then None
      else if h_start new <? h_end tmp then None
      else
        let valid := match prev with Some pr => valid && (h_end pr =? h_start tmp) | None => valid end in
        '(before, after, valid) ← frag_place new (Some tmp) valid q';
        Some (tmp :: before, after, valid)
  end.

(** The [while] loop over the fragments behind the new one. *)
Fixpoint no_holes (prev : helper) (q : list helper) : bool :=
  match q with [] => true | h :: q => (h_end prev =? h_start h) && no_holes h q end.

(** The length and the offset of a fragment, from its header. *)
Definition frag_len (hdr : list Z) : option Z := lwip_htons <$> (mem_read hdr 2 2 ≫= u16_of).

Definition frag_field (hdr : list Z) : option Z := mem_read hdr 6 2 ≫= u16_of.

Definition frag_offset (hdr : list Z) : option Z := f ← frag_field hdr; Some ((lwip_htons f .& IP_OFFMASK) * 8).

Definition frag_hlen (hdr : list Z) : option Z := v ← mem_read hdr 0 1 ≫= byte_at; Some (u8 ((v .& 0x0f) * 4)).

(** [hdr] is the header of [new_p]. *)
Definition ip_reass_chain_frag_into_datagram_and_validate (ipr : ip_reassdata) (new_p : addr) (hdr : list Z) (is_last : bool)
    : option (Z * ip_reassdata) :=
  len ← frag_len hdr;
  hlen ← frag_hlen hdr;
  if len <? hlen then Some (IP_REASS_VALIDATE_PBUF_DROPPED, ipr)
  else
    let len := u16 (len - hlen) in
    offset ← frag_offset hdr;
    let iprh := Helper new_p offset (u16 (offset + len)) in
    if h_end iprh <? offset then Some (IP_REASS_VALIDATE_PBUF_DROPPED, ipr)
    else
      match frag_place iprh None true (r_p ipr) with
      | None => Some (IP_REASS_VALIDATE_PBUF_DROPPED, ipr)
      | Some (before, after, valid) =>
          let ipr := set_r_p (before ++ iprh :: after) ipr in
          if is_last || negb (r_flags ipr .& IP_REASS_FLAG_LASTFRAG =? 0) then
            let valid :=
              valid && match r_p ipr with [] => false | h :: _ => (h_start h =? 0) && no_holes iprh after end in
            Some (if valid then IP_REASS_VALIDATE_TELEGRAM_FINISHED else IP_REASS_VALIDATE_PBUF_QUEUED, ipr)
          else Some (IP_REASS_VALIDATE_PBUF_QUEUED, ipr)
      end.

(** [IP_ADDRESSES_AND_ID_MATCH]. *)
Definition hdr_match (a b : list Z) : bool :=
  bool_decide (mem_read a 12 4 = mem_read b 12 4) && bool_decide (mem_read a 16 4 = mem_read b 16 4) && bool_decide (mem_read a 4 2 = mem_read b 4 2).

Section reass.
  Context {U : Upper} `{!Component reass}.
  Context (custom_free : addr -> heap -> option heap) (buf : list Z) (odd_payload : addr -> pbuf -> bool).
  Context (ip4_frag : addr -> Z -> Z -> istate -> option (Z * istate)).

Definition rget (s : istate) : reass := cget s.

Definition rset (st : reass) (s : istate) : istate := cset st s.

(** [ip_reass_dequeue_datagram]. *)
Definition ip_reass_dequeue_datagram (i : nat) (s : istate) : istate :=
  rset (set_datagrams (delete i (reassdatagrams (rget s))) (rget s)) s.

(** The [while] loop that frees fragments, counting their pbufs. *)
Fixpoint free_frags (q : list helper) (freed : Z) (s : istate) : option (Z * istate) :=
  match q with
  | [] => Some (freed, s)
  | h :: q =>
      clen ← pbuf_clen (Some (h_p h)) (i_heap s);
      s ← pbuf_free_i custom_free (h_p h) s;
      free_frags q (u16 (freed + clen)) s
  end.

Definition ip_reass_free_complete_datagram (i : nat) (s : istate) : option (Z * istate) :=
  ipr ← reassdatagrams (rget s) !! i;
  match r_p ipr with
  | [] => None
  | iprh :: rest =>
      '(q, freed, s) ←
        (if h_start iprh =? 0 then
           let p := h_p iprh in
           b ← get (i_heap s) p;
           b ← payload_write b 0 (r_iphdr ipr);
           let s := iheap (put (i_heap s) p b) (rset (set_datagrams (<[i := set_r_p rest ipr]> (reassdatagrams (rget s))) (rget s)) s) in
           s ← icmp_time_exceeded custom_free buf odd_payload ip4_frag p ICMP_TE_FRAG s;
           clen ← pbuf_clen (Some p) (i_heap s);
           s ← pbuf_free_i custom_free p s;
           Some (rest, u16 clen, s)
         else Some (r_p ipr, 0, s));
      '(freed, s) ← free_frags q freed s;
      let s := ip_reass_dequeue_datagram i s in
      Some (freed, rset (set_pbufcount (u16 (ip_reass_pbufcount (rget s) - freed)) (rget s)) s)
  end.

(** One pass over the datagrams: the oldest one that does not match [fraghdr], and how
    many do not. *)
Fixpoint oldest_datagram (fraghdr : list Z) (i : nat) (l : list ip_reassdata) (oldest : option (nat * Z)) (others : Z) : option (nat * Z) * Z :=
  match l with
  | [] => (oldest, others)
  | r :: l =>
      if negb (hdr_match (r_iphdr r) fraghdr) then
        let older := match oldest with None => true | Some (_, timer) => r_timer r <=? timer end in
        oldest_datagram fraghdr (S i) l (if older then Some (i, r_timer r) else oldest) (others + 1)
      else oldest_datagram fraghdr (S i) l oldest others
  end.

(** The [do] loop; every turn that goes on removes a datagram. *)
Fixpoint remove_oldest_loop (fuel : nat) (fraghdr : list Z) (pbufs_needed freed : Z) (s : istate) : option (Z * istate) :=
  match fuel with
  | O => None
  | S fuel =>
      let '(oldest, others) := oldest_datagram fraghdr 0 (reassdatagrams (rget s)) None 0 in
      '(freed, s) ← match oldest with
                    | Some (i, _) => '(n, s) ← ip_reass_free_complete_datagram i s; Some (freed + n, s)
                    | None => Some (freed, s)
                    end;
      if (freed <? pbufs_needed) && (1 <? others) then remove_oldest_loop fuel fraghdr pbufs_needed freed s else Some (freed, s)
  end.

Definition ip_reass_remove_oldest_datagram (fraghdr : list Z) (pbufs_needed : Z) (s : istate) : option (Z * istate) :=
  remove_oldest_loop (S (length (reassdatagrams (rget s)))) fraghdr pbufs_needed 0 s.

(** [memp_malloc(MEMP_REASSDATA)], which is [malloc]. *)
Definition reass_malloc (s : istate) : bool * istate :=
  let '(r, h) := mem_malloc SIZEOF_IP_REASSDATA (i_heap s) in (match r with Some _ => true | None => false end, iheap h s).

(** Whether there is a new entry, at the front of the list. *)
Definition ip_reass_enqueue_new_datagram (fraghdr : list Z) (clen : Z) (s : istate) : option (bool * istate) :=
  let '(got, s) := reass_malloc s in
  '(got, s) ←
    (if got then Some (true, s)
     else
       '(n, s) ← ip_reass_remove_oldest_datagram fraghdr clen s;
       Some (if clen <=? n then reass_malloc s else (false, s)));
  Some (got, if got : bool then rset (set_datagrams (IpReassdata [] fraghdr 0 0 IP_REASS_MAXAGE :: reassdatagrams (rget s)) (rget s)) s else s).

Fixpoint find_datagram (fraghdr : list Z) (i : nat) (l : list ip_reassdata) : option nat :=
  match l with
  | [] => None
  | r :: l => if hdr_match (r_iphdr r) fraghdr then Some i else find_datagram fraghdr (S i) l
  end.

(** The [while] loop that joins the fragments behind the first one. *)
Fixpoint join_frags (p : addr) (q : list helper) (h : heap) : option heap :=
  match q with
  | [] => Some h
  | r :: q =>
      '(_, h) ← pbuf_remove_header (Some (h_p r)) IP_HLEN h;
      h ← pbuf_cat (Some p) (Some (h_p r)) h;
      join_frags p q h
  end.

(** The header of the datagram, copied back over the helper of the first fragment. *)
Definition restore_header (p : addr) (iphdr : list Z) (datagram_len : Z) (b : pbuf) : option pbuf :=
  b ← payload_write b 0 iphdr;
  b ← payload_write b 2 (bytes16 (lwip_htons datagram_len));
  b ← payload_write b 6 (bytes16 0);
  b ← payload_write b 10 (bytes16 0);
  bs ← payload_read b 0 IP_HLEN;
  c ← inet_chksum (odd_payload p b) bs IP_HLEN;
  payload_write b 10 (bytes16 c).

(** All fragments are here: the header goes back in front of the first one, the others
    are appended and the entry is removed. *)
Definition reass_finish (i : nat) (ipr : ip_reassdata) (s : istate) : option (addr * istate) :=
  match r_p ipr with
  | [] => None
  | iprh :: r =>
      let p := h_p iprh in
      let datagram_len := u16 (r_datagram_len ipr + IP_HLEN) in
      b ← get (i_heap s) p;
      b ← restore_header p (r_iphdr ipr) datagram_len b;
      h ← join_frags p r (put (i_heap s) p b);
      let s := ip_reass_dequeue_datagram i (iheap h s) in
      clen ← pbuf_clen (Some p) (i_heap s);
      Some (p, rset (set_pbufcount (u16 (ip_reass_pbufcount (rget s) - clen)) (rget s)) s)
  end.

(** The labels [nullreturn] and [nullreturn_ipr]. *)
Definition reass_null (p : addr) (s : istate) : option (option addr * istate) := s ← pbuf_free_i custom_free p s; Some (None, s).

Definition reass_null_ipr (i : nat) (p : addr) (s : istate) : option (option addr * istate) :=
  ipr ← reassdatagrams (rget s) !! i;
  reass_null p (match r_p ipr with [] => ip_reass_dequeue_datagram i s | _ => s end).

(** From the queue entry at position [i] on. *)
Definition reass_add (i : nat) (p : addr) (hdr : list Z) (offset len clen : Z) (s : istate) : option (option addr * istate) :=
  field ← frag_field hdr;
  let is_last := field .& PP_HTONS IP_MF =? 0 in
  let datagram_len := u16 (offset + len) in
  if is_last && ((datagram_len <? offset) || (0xFFFF - IP_HLEN <? datagram_len)) then reass_null_ipr i p s
  else
    ipr ← reassdatagrams (rget s) !! i;
    '(valid, ipr) ← ip_reass_chain_frag_into_datagram_and_validate ipr p hdr is_last;
    if valid =? IP_REASS_VALIDATE_PBUF_DROPPED then reass_null_ipr i p s
    else
      let ipr := if is_last then set_r_last datagram_len ipr else ipr in
      let s := rset (Reass (<[i := ipr]> (reassdatagrams (rget s))) (u16 (ip_reass_pbufcount (rget s) + clen))) s in
      if valid =? IP_REASS_VALIDATE_TELEGRAM_FINISHED then '(q, s) ← reass_finish i ipr s; Some (Some q, s)
      else Some (None, s).

(** The search for the datagram, or a new one. *)
Definition reass_entry (hdr : list Z) (clen : Z) (s : istate) : option (option nat * istate) :=
  match find_datagram hdr 0 (reassdatagrams (rget s)) with
  | None => '(got, s) ← ip_reass_enqueue_new_datagram hdr clen s; Some (if got : bool then Some 0%nat else None, s)
  | Some i =>
      ipr ← reassdatagrams (rget s) !! i;
      f ← frag_field hdr;
      g ← frag_field (r_iphdr ipr);
      Some (Some i,
        if (lwip_htons f .& IP_OFFMASK =? 0) && negb (lwip_htons g .& IP_OFFMASK =? 0)
        then rset (set_datagrams (<[i := set_r_iphdr hdr ipr]> (reassdatagrams (rget s))) (rget s)) s else s)
  end.

Definition ip4_reass (p : addr) (s : istate) : option (option addr * istate) :=
  b ← get (i_heap s) p;
  hdr ← payload_read b 0 IP_HLEN;
  hlen ← frag_hlen hdr;
  if negb (hlen =? IP_HLEN) then reass_null p s
  else
    offset ← frag_offset hdr;
    len ← frag_len hdr;
    if len <? hlen then reass_null p s
    else
      let len := u16 (len - hlen) in
      clen ← pbuf_clen (Some p) (i_heap s);
      '(room, s) ←
        (if IP_REASS_MAX_PBUFS <? ip_reass_pbufcount (rget s) + clen then
           '(n, s) ← ip_reass_remove_oldest_datagram hdr clen s;
           Some (negb ((n =? 0) || (IP_REASS_MAX_PBUFS <? ip_reass_pbufcount (rget s) + clen)), s)
         else Some (true, s));
      if negb room then reass_null p s
      else
        '(i, s) ← reass_entry hdr clen s;
        match i with
        | None => reass_null p s
        | Some i => reass_add i p hdr offset len clen s
        end.

(** [ip_reass_tmr]: the loop, at position [i]; the fuel counts the datagrams. *)
Fixpoint tmr_loop (fuel : nat) (i : nat) (s : istate) : option istate :=
  match reassdatagrams (rget s) !! i with
  | None => Some s
  | Some r =>
      match fuel with
      | O => None
      | S fuel =>
          if 0 <? r_timer r
          then tmr_loop fuel (S i) (rset (set_datagrams (<[i := set_r_timer (r_timer r - 1) r]> (reassdatagrams (rget s))) (rget s)) s)
          else '(_, s) ← ip_reass_free_complete_datagram i s; tmr_loop fuel i s
      end
  end.

Definition ip_reass_tmr (s : istate) : option istate := tmr_loop (length (reassdatagrams (rget s))) 0 s.

End reass.

Definition SIZEOF_PBUF_CUSTOM_REF : Z := 40.

(** [pcr->original] of the [struct pbuf_custom_ref]s. *)
Definition originals := gmap addr addr.

Definition ipfrag_free_pbuf_custom (orig : originals) (p : addr) (h : heap) : option heap :=
  o ← orig !! p;
  '(_, h) ← pbuf_free (fun _ _ => None) (Some o) h;
  Some (del h p).

(** The inner [while] loop: [left_to_copy] bytes of the datagram, from offset [poff] of
    its pbuf [p] on, are appended to [rambuf].  [inl] is the label [memerr]; otherwise
    where it ended, and the last [newpbuflen]. *)
Fixpoint frag_copy (fuel : nat) (rambuf p : addr) (poff left_to_copy newpbuflen : Z) (orig : originals) (h : heap)
    : option (option (addr * Z * Z) * originals * heap) :=
  if left_to_copy =? 0 then Some (Some (p, poff, newpbuflen), orig, h)
  else
    match fuel with
    | O => None
    | S fuel =>
        b ← get h p;
        let plen := u16 (pb_len b - poff) in
        let newpbuflen := Z.min left_to_copy plen in
        if newpbuflen =? 0 then p ← pb_next b; frag_copy fuel rambuf p 0 left_to_copy newpbuflen orig h
        else
          let '(m, h) := mem_malloc SIZEOF_PBUF_CUSTOM_REF h in
          match m with
          | None => '(_, h) ← pbuf_free (ipfrag_free_pbuf_custom orig) (Some rambuf) h; Some (None, orig, h)
          | Some (pcr, _) =>
              bs ← payload_read b poff newpbuflen;
              let '(q, h) := pbuf_alloced_custom PBUF_RAW newpbuflen PBUF_REF pcr (Some bs) newpbuflen h in
              match q with
              | None => '(_, h) ← pbuf_free (ipfrag_free_pbuf_custom orig) (Some rambuf) h; Some (None, orig, h)
              | Some newpbuf =>
                  h ← pbuf_ref (Some p) h;
                  let orig := <[pcr := p]> orig in
                  h ← pbuf_cat (Some rambuf) (Some newpbuf) h;
                  let left_to_copy := u16 (left_to_copy - newpbuflen) in
                  if left_to_copy =? 0 then Some (Some (p, poff, newpbuflen), orig, h)
                  else p ← pb_next b; frag_copy fuel rambuf p 0 left_to_copy newpbuflen orig h
              end
          end
    end.

Section frag.
  Context {U : Upper} (odd_payload : addr -> pbuf -> bool).
  (** The call through [netif->output]. *)
  Context (output : originals -> addr -> istate -> option (Z * istate)).

(** The header of a fragment: the offset in units of eight bytes, whether more follow,
    the length of the data. *)
Definition frag_header (r : addr) (ofo : Z) (more : bool) (fragsize : Z) (b : pbuf) : option pbuf :=
  let tmp := IP_OFFMASK .& ofo in
  let tmp := if more then tmp .| IP_MF else tmp in
  b ← payload_write b 6 (bytes16 (lwip_htons tmp));
  b ← payload_write b 2 (bytes16 (lwip_htons (u16 (fragsize + IP_HLEN))));
  b ← payload_write b 10 (bytes16 0);
  bs ← payload_read b 0 IP_HLEN;
  c ← inet_chksum (odd_payload r b) bs IP_HLEN;
  payload_write b 10 (bytes16 c).

(** The outer [while] loop. *)
Fixpoint frag_loop (fuel : nat) (iphdr : ptr) (nif nfb : Z) (mf_set : bool) (p : addr) (poff left ofo : Z) (orig : originals) (s : istate)
    : option (Z * istate) :=
  if left =? 0 then Some (ERR_OK, s)
  else
    match fuel with
    | O => None
    | S fuel =>
        let fragsize := Z.min left (u16 (nfb * 8)) in
        '(r, h) ← pbuf_alloc (ipfrag_free_pbuf_custom orig) PBUF_LINK IP_HLEN PBUF_RAM (i_heap s);
        match r with
        | None => Some (ERR_MEM, iheap h s)
        | Some r =>
            rb ← get h r;
            bs ← ptr_read h iphdr 0 IP_HLEN;
            rb ← payload_write rb 0 bs;
            '(c, orig, h) ← frag_copy (chain_fuel h) r p poff fragsize 0 orig (put h r rb);
            match c with
            | None => Some (ERR_MEM, iheap h s)
            | Some (p, poff, newpbuflen) =>
                let poff := u16 (poff + newpbuflen) in
                v ← inif s nif;
                let last := left <=? nif_mtu v - IP_HLEN in
                rb ← get h r;
                rb ← frag_header r ofo (negb last || mf_set) fragsize rb;
                '(_, s) ← output orig r (iheap (put h r rb) s);
                s ← pbuf_free_i (ipfrag_free_pbuf_custom orig) r s;
                frag_loop fuel iphdr nif nfb mf_set p poff (u16 (left - fragsize)) (u16 (ofo + nfb)) orig s
            end
        end
    end.

(** Up to the loop; every turn sends at least eight bytes. *)
Definition ip4_frag_out (p : addr) (nif : Z) (s : istate) : option (Z * istate) :=
  v ← inif s nif;
  let nfb := u16 (Z.quot (nif_mtu v - IP_HLEN) 8) in
  b ← get (i_heap s) p;
  hdr ← payload_read b 0 IP_HLEN;
  hlen ← frag_hlen hdr;
  if negb (hlen =? IP_HLEN) then Some (ERR_VAL, s)
  else if pb_len b <? IP_HLEN then Some (ERR_VAL, s)
  else
    tmp ← lwip_htons <$> frag_field hdr;
    frag_loop (Z.to_nat 8192) (p, pb_payload b) nif nfb (negb (tmp .& IP_MF =? 0)) p IP_HLEN (u16 (pb_tot_len b - IP_HLEN)) (tmp .& IP_OFFMASK) ∅ s.

End frag.

(** With the output function of the interface. *)
Definition ip4_frag {U : Upper} (odd_payload : addr -> pbuf -> bool) (buf : list Z) (p : addr) (nif dest : Z) (s : istate) : option (Z * istate) :=
  ip4_frag_out odd_payload (fun orig r s => netif_output (ipfrag_free_pbuf_custom orig) buf nif r dest s) p nif s.
