(* ===== verification/Ip4ReassThm.v ===== *)
(** Reassembly: where a fragment goes, when a datagram is complete, and how its
    fragments are joined. *)
From stdpp Require Import sorting.
From Stdlib Require Import Sorting.Sorted.
From S2P Require Import Prelude Bits Def IpAddr Pbuf PbufData PbufChain PbufIO PbufLife PbufCopy PbufOwn PbufHdr Chksum NetifRec Netif.
From S2P Require Import XnetTap Ethernet Ip4Addr Etharp IpState NetifLoop Ip4Out Icmp Ip4Hdr IpUpper Ip4Frag.

(** ** Fragments as ranges of bytes *)

(** One before the other. *)
Definition before (a b : helper) : Prop := h_start a < h_start b /\ h_end a <= h_start b.

Definition range_ok (a : helper) : Prop := 0 <= h_start a <= h_end a /\ h_end a < 65536.

(** Not both can be queued. *)
Definition conflict (a b : helper) : Prop := h_start a = h_start b \/ (h_start a < h_end b /\ h_start b < h_end a).

(** No byte is missing between the first and the last fragment. *)
Definition contiguous (l : list helper) : bool := match l with [] => true | h :: l => no_holes h l end.

Lemma no_holes_app a l b k : no_holes a (l ++ b :: k) = no_holes a (l ++ [b]) && no_holes b k.
Proof. revert a. induction l as [|c l IH]; intros a; cbn; [by rewrite andb_true_r|]. by rewrite IH, andb_assoc. Qed.

Lemma contiguous_app l b k : contiguous (l ++ b :: k) = contiguous (l ++ [b]) && no_holes b k.
Proof. destruct l as [|a l]; [done|]. apply no_holes_app. Qed.

Lemma before_trans a b c : range_ok b -> before a b -> before b c -> before a c.
Proof. unfold before, range_ok. lia. Qed.

Lemma before_conflict a b : range_ok a -> range_ok b -> before a b -> ~ conflict a b.
Proof. unfold before, conflict, range_ok. lia. Qed.

(** Not in conflict: one is before the other. *)
Lemma conflict_order a b : range_ok a -> range_ok b -> ~ conflict a b -> before a b \/ before b a.
Proof. unfold before, conflict, range_ok. lia. Qed.

(** The place of a fragment among those that are behind [prev]. *)
Lemma frag_place_spec new : range_ok new -> forall q prev valid,
  Forall range_ok q -> StronglySorted before q -> match prev with Some pr => before pr new | None => True end ->
  match frag_place new prev valid q with
  | None => Exists (conflict new) q
  | Some (bef, aft, v) =>
      q = bef ++ aft /\ Forall (fun t => before t new) bef /\ Forall (before new) aft /\
      v = valid && match prev with Some pr => no_holes pr (bef ++ [new]) | None => contiguous (bef ++ [new]) end
  end.
Proof.
  intros Hnew q. induction q as [|t q IH]; intros prev valid Hr Hs Hp; cbn [frag_place].
  - split_and!; try done. destruct prev; cbn; by rewrite ?andb_true_r.
  - apply Forall_cons in Hr as [Ht Hr]. apply StronglySorted_inv in Hs as [Hs Htq].
    assert (Haft : before new t -> Forall (before new) (t :: q)).
    { intros Hb. constructor; [done|]. eapply Forall_impl; [exact Htq|]. intros x. by apply before_trans. }
    assert (Hfst : h_start new < h_start t -> (h_start t <? h_end new) = false -> before new t) by (unfold before; intros ? ?%Z.ltb_ge; lia).
    destruct (Z.ltb_spec (h_start new) (h_start t)) as [Hlt|Hge].
    + destruct prev as [pr|].
      * destruct (Z.ltb_spec (h_start new) (h_end pr)) as [Hx|_]; [unfold before in Hp; lia|]. cbn [orb].
        destruct (h_start t <? h_end new) eqn:Eo; [left; apply Z.ltb_lt in Eo; right; unfold range_ok in *; lia|].
        split_and!; [done|done|by apply Haft, Hfst|]. cbn. by rewrite andb_true_r.
      * destruct (h_start t <? h_end new) eqn:Eo; [left; apply Z.ltb_lt in Eo; right; unfold range_ok in *; lia|].
        split_and!; [done|done|by apply Haft, Hfst|]. cbn. by rewrite andb_true_r.
    + destruct (Z.eqb_spec (h_start new) (h_start t)) as [He|Hn]; [left; by left|].
      destruct (Z.ltb_spec (h_start new) (h_end t)) as [Hi|Ho]; [left; right; unfold range_ok in *; lia|].
      assert (Hb : before t new) by (unfold before; lia).
      specialize (IH (Some t) (match prev with Some pr => valid && (h_end pr =? h_start t) | None => valid end) Hr Hs Hb).
      destruct (frag_place new (Some t) _ q) as [[[bef aft] v]|]; cbn; [|by right].
      destruct IH as (-> & H1 & H2 & ->). split_and!; [done|by constructor|done|].
      destruct prev; cbn; by rewrite ?andb_assoc.
Qed.

Lemma sorted_insert (bef aft : list helper) new :
  StronglySorted before (bef ++ aft) -> Forall (fun t => before t new) bef -> Forall (before new) aft -> StronglySorted before (bef ++ new :: aft).
Proof.
  induction bef as [|t bef IH]; cbn; intros Hs Hb Ha; [by constructor|].
  apply StronglySorted_inv in Hs as [Hs Ht]. apply Forall_cons in Hb as [Hbt Hb]. constructor; [by apply IH|].
  apply Forall_app in Ht as [? ?]. apply Forall_app. split; [done|by constructor].
Qed.

(** The whole queue, when the new fragment conflicts with none. *)
Lemma frag_place_queued new q :
  range_ok new -> Forall range_ok q -> StronglySorted before q -> Forall (fun t => ~ conflict new t) q ->
  exists bef aft v, frag_place new None true q = Some (bef, aft, v) /\ q = bef ++ aft /\
    StronglySorted before (bef ++ new :: aft) /\ v && no_holes new aft = contiguous (bef ++ new :: aft).
Proof.
  intros Hn Hr Hs Hc. pose proof (frag_place_spec new Hn q None true Hr Hs I) as HP.
  destruct (frag_place new None true q) as [[[bef aft] v]|].
  - destruct HP as (-> & H1 & H2 & ->). exists bef, aft, (contiguous (bef ++ [new])). split_and!; [done|done|by apply sorted_insert|].
    by rewrite <- contiguous_app.
  - apply Exists_exists in HP as (t & Ht & Hx). rewrite Forall_forall in Hc. by destruct (Hc t Ht).
Qed.

(** A queue without holes covers every byte from the start of its first to the end of
    its last fragment. *)
Lemma contiguous_covers a l x :
  no_holes a l = true -> Forall range_ok (a :: l) -> h_start a <= x -> (exists b, b ∈ a :: l /\ x < h_end b) ->
  exists b, b ∈ a :: l /\ h_start b <= x < h_end b.
Proof.
  revert a. induction l as [|c l IH]; intros a Hn Hr Hx (b & Hb & Hxb).
  - apply list_elem_of_singleton in Hb as ->. exists a. split; [by left|lia].
  - cbn in Hn. apply andb_true_iff in Hn as [He Hn]. apply Z.eqb_eq in He. apply Forall_cons in Hr as [Ha Hr].
    destruct (decide (x < h_end a)) as [Hlt|Hge]; [exists a; split; [by left|lia]|].
    destruct (IH c Hn Hr) as (d & Hd & Hxd); [lia| |exists d; split; [by right|done]].
    apply elem_of_cons in Hb as [->|Hb]; [lia|]. by exists b.
Qed.

(** ** The whole datagram *)

(** The bytes of a fragment, of the data [D]. *)
Definition piece (D : list Z) (h : helper) : list Z := ztake (h_end h - h_start h) (zdrop (h_start h) D).

Fixpoint last_end (a : helper) (l : list helper) : Z := match l with [] => h_end a | b :: l => last_end b l end.

Lemma last_end_le a l n : Forall (fun h => h_end h <= n) (a :: l) -> last_end a l <= n.
Proof. revert a. induction l as [|b l IH]; intros a [Ha H]%Forall_cons; cbn; [done|by apply IH]. Qed.

Lemma last_end_ge a l : no_holes a l = true -> Forall range_ok l -> h_end a <= last_end a l.
Proof.
  revert a. induction l as [|b l IH]; intros a; cbn; [lia|]. intros [He Hn]%andb_true_iff [Hb Hl]%Forall_cons. apply Z.eqb_eq in He.
  specialize (IH b Hn Hl). unfold range_ok in Hb. lia.
Qed.

(** Without holes the fragments are the data from the first to the last one. *)
Lemma pieces_join D a l :
  no_holes a l = true -> Forall range_ok (a :: l) -> last_end a l <= zlen D ->
  concat (map (piece D) (a :: l)) = ztake (last_end a l - h_start a) (zdrop (h_start a) D).
Proof.
  revert a. induction l as [|b l IH]; intros a Hn Hr Hl; [cbn; by rewrite app_nil_r|].
  cbn in Hn. apply andb_true_iff in Hn as [He Hn]. apply Z.eqb_eq in He. apply Forall_cons in Hr as [Ha Hr].
  change (concat (map (piece D) (a :: b :: l))) with (piece D a ++ concat (map (piece D) (b :: l))). cbn [last_end] in *. rewrite IH by done.
  pose proof (last_end_ge b l Hn ltac:(by apply Forall_cons in Hr as [_ Hr])). apply Forall_cons in Hr as [Hb _]. unfold piece, range_ok in *.
  rewrite <- He. replace (zdrop (h_end a) D) with (zdrop (h_end a - h_start a) (zdrop (h_start a) D)) by (rewrite zdrop_zdrop by lia; f_equal; lia).
  rewrite <- (ztake_zdrop (h_end a - h_start a) (ztake (last_end b l - h_start a) (zdrop (h_start a) D))), ztake_ztake, zdrop_ztake by lia.
  f_equal; f_equal; lia.
Qed.

(** The fragments [l] make up [D]. *)
Record partition (D : list Z) (l : list helper) : Prop := Partition {
  pt_sorted : StronglySorted before l;
  pt_ranges : Forall (fun h => 0 <= h_start h < h_end h /\ h_end h <= zlen D) l;
  pt_holes : contiguous l = true;
  pt_first : match l with [] => False | h :: _ => h_start h = 0 end;
  pt_last : exists h, h ∈ l /\ h_end h = zlen D;
}.

Lemma partition_range D l : zlen D <= 65515 -> partition D l -> Forall range_ok l.
Proof. intros HD [_ Hr _ _ _]. eapply Forall_impl; [exact Hr|]. cbn. unfold range_ok. lia. Qed.

Lemma partition_end D a l : partition D (a :: l) -> last_end a l = zlen D.
Proof.
  intros [Hs Hr _ _ (h & Hh & He)]. clear -Hs Hr Hh He. revert a Hs Hr Hh. induction l as [|b l IH]; intros a Hs Hr Hh.
  - apply list_elem_of_singleton in Hh as ->. done.
  - apply StronglySorted_inv in Hs as [Hs Ha]. apply Forall_cons in Hr as [Hra Hr]. apply elem_of_cons in Hh as [->|Hh]; [|by apply (IH b)].
    apply Forall_cons in Ha as [Hab _], Hr as [Hb _]. unfold before in Hab. lia.
Qed.

Lemma partition_data D a l : zlen D <= 65515 -> partition D (a :: l) -> concat (map (piece D) (a :: l)) = D.
Proof.
  intros HD HP. pose proof (partition_end _ _ _ HP) as He. pose proof (partition_range _ _ HD HP) as Hr. destruct HP as [_ _ Hn Hf _]. cbn in Hn, Hf.
  rewrite pieces_join by (done || lia). rewrite Hf, He, zdrop_0, ztake_ge by lia. done.
Qed.

(** No two of them conflict. *)
Lemma partition_apart D l q new rest :
  zlen D <= 65515 -> partition D l -> Permutation (q ++ new :: rest) l -> forall t, t ∈ q ++ rest -> ~ conflict new t /\ ~ conflict t new.
Proof.
  intros HD HP Hpm t Ht. pose proof (partition_range _ _ HD HP) as Hr. destruct HP as [Hs _ _ _ _].
  assert (Hin : new ∈ l) by (rewrite <- Hpm; set_solver). apply list_elem_of_split in Hin as (a & b & ->).
  apply Permutation_app_inv in Hpm. rewrite Hpm in Ht. apply elem_of_app in Ht.
  rewrite Forall_app, Forall_cons in Hr. destruct Hr as (Ha & Hn & Hb). rewrite Forall_forall in Ha, Hb.
  assert (Hx : before t new \/ before new t).
  { destruct Ht as [Ht|Ht].
    - left. clear -Hs Ht. induction a as [|c a IH]; [set_solver|]. cbn in Hs. apply StronglySorted_inv in Hs as [Hs Hc].
      apply elem_of_cons in Ht as [->|Ht]; [|by apply IH]. rewrite Forall_app, Forall_cons in Hc. tauto.
    - right. clear -Hs Ht. induction a as [|c a IH]; cbn in Hs; apply StronglySorted_inv in Hs as [Hs Hc]; [|by apply IH].
      rewrite Forall_forall in Hc. by apply Hc. }
  assert (Ht' : range_ok t) by (destruct Ht; auto).
  destruct Hx as [Hx|Hx]; [pose proof (before_conflict t new Ht' Hn Hx)|pose proof (before_conflict new t Hn Ht' Hx)]; unfold conflict in *; lia.
Qed.

(** ** Joining packets *)
Lemma cat_cells_std l t n : Forall (fun c => pb_std c.2) l -> Forall (fun c => pb_std c.2) (cat_cells l t n).
Proof.
  induction l as [|[a b] [|c l] IH]; [done|..]; intros [Hb Ho]%Forall_cons; constructor; solve [exact Hb | constructor | exact (IH Ho)].
Qed.

Lemma cat_cells_length l t n : length (cat_cells l t n) = length l.
Proof. induction l as [|[a b] [|c l] IH]; [done|done|]. cbn in *. by f_equal. Qed.

Lemma cat_cells_once l t n : once l -> once (cat_cells l t n).
Proof.
  unfold once. destruct l as [|[a b] l]; [done|]. intros Hl. assert (HA : forall k, Forall (fun c : addr * pbuf => pb_ref c.2 = 1) k -> Forall (fun c => pb_ref c.2 = 1) (cat_cells k t n)).
  { clear. induction k as [|[a b] [|c k] IH]; [done|..]; intros [Hb Ho]%Forall_cons; constructor; solve [exact Hb | constructor | exact (IH Ho)]. }
  destruct l; [by apply Forall_nil|]. exact (HA _ Hl).
Qed.

(** A packet appended to another takes its references along. *)
Lemma owned_cat {F : Frame} h cs p r Q :
  owned h cs (p :: r :: Q) -> p <> r -> p ∉ Q -> r ∉ Q -> sum_len (cs p) + sum_len (cs r) < 65536 ->
  exists h', pbuf_cat (Some p) (Some r) h = Some h' /\
    owned h' (cs_set p (cat_cells (cs p) r (sum_len (cs r)) ++ cs r) cs) (p :: Q).
Proof.
  intros HO Hne Hp Hr Hsum. destruct (owned_packet _ _ _ HO p ltac:(by left)) as (Hkp & Hsp & Hop).
  pose proof (owned_packet _ _ _ HO r ltac:(set_solver)) as Hpr. pose proof Hpr as (Hkr & Hsr & Hor).
  pose proof (owned_packet _ _ _ HO p ltac:(by left)) as Hpp.
  pose proof (owned_sep _ _ _ HO p r ltac:(by left) ltac:(set_solver) Hne) as Hd.
  destruct (pbuf_cat_ok h p r (cs p) (cs r) Hkp Hkr ltac:(set_solver) Hsum) as (h' & E & Hk' & Hfr). exists h'. split; [done|].
  destruct (owned_without _ _ _ _ HO ltac:(set_solver)) as (h1 & HO1 & Hn1 & Hf1).
  destruct (owned_without _ _ _ _ HO1 Hr) as (h2 & HO2 & Hn2 & Hf2).
  assert (Hone : forall x b, x = p \/ x = r -> get h x = Some b -> pb_ref b = 1).
  { intros x b Hx Hg. rewrite <- (owned_ref _ _ _ HO x b ltac:(set_solver) Hg). rewrite occ_pos in Hp, Hr.
    pose proof (occ_nonneg p Q). pose proof (occ_nonneg r Q). cbn. destruct Hx as [->| ->]; repeat case_decide; try congruence; lia. }
  assert (Hk2 : std_packet h' p (cat_cells (cs p) r (sum_len (cs r)) ++ cs r)).
  { split; [done|]. split; [apply Forall_app; split; [by apply cat_cells_std|done]|].
    destruct (std_packet_head _ _ _ Hpr) as (br & tr & Er & Hgr). destruct (std_packet_head _ _ _ Hpp) as (bp & tp & Ep & _).
    pose proof (cat_cells_once (cs p) r (sum_len (cs r)) Hop) as Hcc. pose proof (cat_cells_length (cs p) r (sum_len (cs r))) as Hlen.
    destruct (cat_cells (cs p) r _) as [|c l]; [by rewrite Ep in Hlen|]. rewrite Er in Hor |- *.
    unfold once in *. cbn [tail app] in *. apply Forall_app. split; [done|]. constructor; [|done]. cbn. exact (Hone r br (or_intror eq_refl) Hgr). }
  destruct (std_packet_head _ _ _ Hk2) as (b & t & Eb & Hg). eapply (owned_add h2); [exact HO2|exact Hk2|exact Hg|..].
  - destruct (std_packet_head _ _ _ Hpp) as (bp & tp & Ep & Hgp). specialize (Hone p bp ltac:(by left) Hgp).
    rewrite Ep in Eb. destruct tp as [|c tp]; cbn in Eb; injection Eb as <- _; done.
  - intros a. rewrite fmap_app, cat_cells_fst, elem_of_app. intros [Ha|Ha]; [|by apply Hn2].
    rewrite Hf2 by set_solver. by apply Hn1.
  - intros a. rewrite fmap_app, cat_cells_fst, elem_of_app. intros Ha. rewrite Hf2, Hf1, Hfr; [done|tauto..].
Qed.

(** A fragment that has at least its header in its first pbuf. *)
Definition has_header (k : list (addr * pbuf)) : Prop := match k with (_, b) :: _ => 20 <= pb_len b | [] => False end.

(** The data of a fragment. *)
Definition frag_data (k : list (addr * pbuf)) : list Z := zdrop 20 (content k).

Lemma header_hidden {F : Frame} h cs r Q :
  owned h cs Q -> r ∈ Q -> has_header (cs r) ->
  exists h' k, pbuf_remove_header (Some r) IP_HLEN h = Some (0, h') /\ owned h' (cs_set r k cs) Q /\
    content k = frag_data (cs r) /\ sum_len k = sum_len (cs r) - 20 /\ length k = length (cs r).
Proof.
  intros HO Hr Hh. pose proof (owned_packet _ _ _ HO r Hr) as Hk. destruct (std_packet_head _ _ _ Hk) as (b & t & Ec & Hg).
  destruct Hk as (Hk & Hs & _). rewrite Ec in Hk, Hs, Hh. cbn in Hh. pose proof (packet_cons _ _ _ _ Hk) as (_ & Hb & _ & Htot & [_ _ Hot _ _]).
  pose proof (sum_len_nonneg _ Hot). pose proof Hk as [_ _ _ _ Hsum]. cbn [sum_len] in Hsum. apply Forall_cons in Hs as [Hs _].
  rewrite (remove_header_eq h r b t) by (done || unfold IP_HLEN; lia). unfold IP_HLEN. destruct (Z.leb_spec 20 (pb_len b)); [|lia].
  eexists _, ((r, shrunk 20 b) :: t). split; [done|]. split.
  - pose proof Hb as (? & ? & ? & ?). eapply owned_head; try done; unfold pb_ok; cbn; lia.
  - rewrite Ec. unfold frag_data. rewrite !content_cons, shrunk_bytes by (done || lia). split_and!; [|cbn; lia|done].
    rewrite zdrop_app_le; [done|]. rewrite pb_bytes_len by done. lia.
Qed.

Lemma header_sum {F : Frame} h cs r Q : owned h cs Q -> r ∈ Q -> has_header (cs r) -> 20 <= sum_len (cs r).
Proof.
  intros HO Hr Hh. destruct (owned_packet _ _ _ HO r Hr) as [[_ _ Hok _ _] _]. destruct (cs r) as [|[a b] t]; [done|]. cbn in Hh |- *.
  apply Forall_cons in Hok as [_ Hok]. pose proof (sum_len_nonneg _ Hok). lia.
Qed.

Lemma owned_ext {F : Frame} h cs cs' Q : (forall x, x ∈ Q -> cs' x = cs x) -> owned h cs Q -> owned h cs' Q.
Proof.
  intros Hx [O1 O2 O3 O4 O5]. split; [..|].
  - intros p Hp. rewrite Hx by done. auto.
  - done.
  - intros p q Hp Hq. rewrite !Hx by done. auto.
  - intros a b Ha. destruct (O4 a b Ha) as [? Hout]. split; [done|]. intros p Hp. rewrite Hx by done. auto.
  - intros a Ha. destruct (O5 a Ha) as [?|(p & Hp & ?)]; [by left|]. right. exists p. by rewrite Hx.
Qed.

Lemma zsum_nonneg {A} (f : A -> Z) l : (forall x, x ∈ l -> 0 <= f x) -> 0 <= zsum (map f l).
Proof. induction l as [|a l IH]; cbn; intros H; [done|]. pose proof (H a ltac:(by left)). pose proof (IH ltac:(intros; apply H; by right)). unfold zsum in *. lia. Qed.

Lemma map_same {A B} (f g : A -> B) l : (forall x, x ∈ l -> f x = g x) -> map f l = map g l.
Proof. induction l as [|a l IH]; cbn; intros H; [done|]. f_equal; [apply H; by left|]. apply IH. intros; apply H; by right. Qed.

(** The loop that joins the fragments [q] behind [p]. *)
Lemma join_ok {F : Frame} p q O : forall h cs,
  owned h cs (p :: map h_p q ++ O) -> NoDup (p :: map h_p q ++ O) -> Forall (fun r => has_header (cs (h_p r))) q ->
  sum_len (cs p) + zsum (map (fun r => sum_len (cs (h_p r)) - 20) q) < 65536 ->
  exists h' k, join_frags p q h = Some h' /\ owned h' (cs_set p k cs) (p :: O) /\
    content k = content (cs p) ++ concat (map (fun r => frag_data (cs (h_p r))) q) /\
    Z.of_nat (length k) = Z.of_nat (length (cs p)) + zsum (map (fun r => Z.of_nat (length (cs (h_p r)))) q).
Proof.
  induction q as [|r q IH]; intros h cs HO Hnd Hh Hsum; cbn [map app join_frags zsum foldr] in *.
  - exists h, (cs p). split_and!; [done| |cbn; by rewrite app_nil_r|lia]. eapply owned_ext; [|exact HO]. intros x _. unfold cs_set. case_decide; by subst.
  - apply Forall_cons in Hh as [Hr Hh]. apply NoDup_cons in Hnd as [Hp Hnd]. apply NoDup_cons in Hnd as [Hrn Hnd]. assert (Hpr : p <> h_p r) by set_solver.
    destruct (header_hidden h cs (h_p r) _ HO ltac:(set_solver) Hr) as (h1 & k1 & E1 & HO1 & C1 & S1 & L1). rewrite E1. cbn [mbind option_bind].
    assert (Hin : forall x, x ∈ q -> h_p x ∈ map h_p q) by (intros x Hx; by apply (list_elem_of_fmap_2 h_p)).
    assert (Hpos : 0 <= zsum (map (fun r => sum_len (cs (h_p r)) - 20) q)).
    { apply zsum_nonneg. intros x Hx. rewrite Forall_forall in Hh. pose proof (header_sum _ _ (h_p x) _ HO ltac:(specialize (Hin x Hx); set_solver) (Hh x Hx)). lia. }
    pose proof (header_sum _ _ (h_p r) _ HO ltac:(set_solver) Hr) as Hr20.
    destruct (owned_cat h1 (cs_set (h_p r) k1 cs) p (h_p r) (map h_p q ++ O)) as (h2 & E2 & HO2); try done; [set_solver| |].
    { rewrite cs_set_ne, cs_set_eq by done. unfold zsum in *. lia. }
    rewrite cs_set_ne, cs_set_eq in HO2 by done. rewrite E2. cbn [mbind option_bind]. set (k2 := cat_cells (cs p) (h_p r) (sum_len k1) ++ k1) in *.
    assert (Hq : forall x, x ∈ q -> cs_set p k2 (cs_set (h_p r) k1 cs) (h_p x) = cs (h_p x)).
    { intros x Hx. specialize (Hin x Hx). rewrite !cs_set_ne; [done|..]; intros E; rewrite E in Hin; set_solver. }
    destruct (IH h2 (cs_set p k2 (cs_set (h_p r) k1 cs))) as (h3 & k3 & E3 & HO3 & C3 & L3); try done.
    { apply NoDup_cons. split; [set_solver|done]. }
    { apply Forall_forall. intros x Hx. rewrite Hq by done. rewrite Forall_forall in Hh. by apply Hh. }
    { rewrite cs_set_eq. unfold k2 at 1. rewrite sum_len_app, cat_cells_sum.
      rewrite (map_same _ (fun r => sum_len (cs (h_p r)) - 20)) by (intros x Hx; by rewrite Hq). unfold zsum in *. lia. }
    exists h3, k3. split_and!; [done| | |].
    + eapply owned_ext; [|exact HO3]. intros x Hx. unfold cs_set. repeat case_decide; subst; try done. set_solver.
    + rewrite C3, cs_set_eq. unfold k2 at 1. rewrite content_app, cat_cells_content, C1, <- app_assoc. do 2 f_equal.
      rewrite (map_same _ (fun r => frag_data (cs (h_p r)))) by (intros x Hx; by rewrite Hq). done.
    + rewrite L3, cs_set_eq. unfold k2 at 1. rewrite length_app, cat_cells_length, L1.
      rewrite (map_same _ (fun r => Z.of_nat (length (cs (h_p r))))) by (intros x Hx; by rewrite Hq). unfold zsum in *. lia.
Qed.

(** ** The header of the datagram *)

(** The header [hdr] with the length [len], the offset field [fo] and the checksum [c]. *)
Definition header20 (hdr : list Z) (len : Z) (fo : list Z) (c : Z) : list Z :=
  ztake 2 hdr ++ bytes16 (lwip_htons len) ++ ztake 2 (zdrop 4 hdr) ++ fo ++ ztake 2 (zdrop 8 hdr) ++ bytes16 c ++ zdrop 12 hdr.

(** The same, with a checksum that verifies. *)
Definition reheaded (hdr : list Z) (len : Z) (fo hdr' : list Z) : Prop :=
  (exists c, hdr' = header20 hdr len fo c) /\ forall odd, inet_chksum odd hdr' 20 = Some 0.

(** The first fragment's header with the new length, without offset and flags, and with
    a checksum that verifies. *)
Definition rebuilt (hdr : list Z) (len : Z) (hdr' : list Z) : Prop := reheaded hdr len [0; 0] hdr'.

Lemma header20_len hdr len fo c : zlen hdr = 20 -> zlen fo = 2 -> zlen (header20 hdr len fo c) = 20.
Proof. intros Hl Hf. unfold header20. rewrite !zlen_app, !zlen_ztake by (rewrite ?zlen_zdrop; lia). rewrite zlen_zdrop, Hf. change (zlen (bytes16 (lwip_htons len))) with 2. change (zlen (bytes16 c)) with 2. lia. Qed.

Lemma header20_ok hdr len fo c : bytes_ok hdr -> bytes_ok fo -> bytes_ok (header20 hdr len fo c).
Proof. intros. unfold header20. rewrite !bytes_ok_app. split_and!; auto using bytes_ok_ztake, bytes_ok_zdrop, bytes16_ok. Qed.

Lemma header20_chksum odd hdr len fo c :
  zlen hdr = 20 -> bytes_ok hdr -> zlen fo = 2 -> bytes_ok fo -> inet_chksum odd (header20 hdr len fo 0) 20 = Some c ->
  reheaded hdr len fo (header20 hdr len fo c).
Proof.
  intros Hl Hb Hfl Hfb Hz. split; [by exists c|]. intros odd'.
  set (pre := ztake 2 hdr ++ bytes16 (lwip_htons len) ++ ztake 2 (zdrop 4 hdr) ++ fo ++ ztake 2 (zdrop 8 hdr)).
  assert (Hpre : bytes_ok pre).
  { unfold pre. rewrite !bytes_ok_app. split_and!; auto using bytes_ok_ztake, bytes_ok_zdrop, bytes16_ok. }
  assert (Hlp : zlen pre = 10) by (unfold pre; rewrite !zlen_app, !zlen_ztake by (rewrite ?zlen_zdrop; lia); rewrite Hfl; done).
  assert (Hlq : zlen (zdrop 12 hdr) = 8) by (rewrite zlen_zdrop; lia).
  assert (Ec : forall v, header20 hdr len fo v = pre ++ [byte_of v 0; byte_of v 1] ++ zdrop 12 hdr).
  { intros v. unfold header20, pre, bytes16. by rewrite <- !app_assoc. }
  assert (Hz' : inet_chksum odd' (pre ++ [0; 0] ++ zdrop 12 hdr) 20 = Some c).
  { rewrite <- Hz. unfold inet_chksum. rewrite (Ec 0). change [byte_of 0 0; byte_of 0 1] with [0; 0].
    set (z := pre ++ [0; 0] ++ zdrop 12 hdr). assert (Hlz : zlen z = 20) by (unfold z; rewrite !zlen_app, Hlp, Hlq; done). rewrite <- Hlz.
    assert (Hbz : bytes_ok z) by (unfold z; rewrite !bytes_ok_app; split_and!; auto using bytes_ok_zdrop; exact (bytes16_ok 0)).
    by rewrite !lwip_standard_chksum_ok by (done || lia). }
  replace 20 with (zlen (pre ++ [0; 0] ++ zdrop 12 hdr)) in Hz' by (rewrite !zlen_app, Hlp, Hlq; done).
  pose proof (inet_chksum_verifies odd' pre (zdrop 12 hdr) c Hpre ltac:(by apply bytes_ok_zdrop) ltac:(by rewrite Hlp) ltac:(lia) Hz') as HV.
  replace (zlen (pre ++ [byte_of c 0; byte_of c 1] ++ zdrop 12 hdr)) with 20 in HV by (rewrite !zlen_app, Hlp, Hlq; done).
  by rewrite Ec.
Qed.

(** The fields of a header in front of other data. *)
Definition header_lens (rest : list Z) : list Z := [2; 2; 2; 2; 2; 2; 8; zlen rest].

Lemma header_split b hdr rest :
  pb_ok b -> pb_bytes b = hdr ++ rest -> zlen hdr = 20 ->
  fields [ztake 2 hdr; ztake 2 (zdrop 2 hdr); ztake 2 (zdrop 4 hdr); ztake 2 (zdrop 6 hdr); ztake 2 (zdrop 8 hdr); ztake 2 (zdrop 10 hdr); zdrop 12 hdr; rest] (header_lens rest) b.
Proof.
  intros Hb Eb Hl. split; [done| |].
  - rewrite Eb. cbn [concat]. rewrite app_nil_r.
    assert (Hcat : hdr = ztake 2 hdr ++ ztake 2 (zdrop 2 hdr) ++ ztake 2 (zdrop 4 hdr) ++ ztake 2 (zdrop 6 hdr) ++ ztake 2 (zdrop 8 hdr) ++ ztake 2 (zdrop 10 hdr) ++ zdrop 12 hdr).
    { do 20 (destruct hdr as [|? hdr]; [done|]). destruct hdr; [done|]. unfold zlen in Hl. cbn in Hl. lia. }
    rewrite Hcat at 1. by rewrite <- !app_assoc.
  - unfold header_lens. cbn [fmap list_fmap]. rewrite !zlen_ztake by (rewrite ?zlen_zdrop; lia). rewrite zlen_zdrop. do 6 f_equal. f_equal. lia.
Qed.

(** Filling in the checksum, when all else is there. *)
Lemma header_seal odd b hdr len fo rest :
  fields [ztake 2 hdr; bytes16 (lwip_htons len); ztake 2 (zdrop 4 hdr); fo; ztake 2 (zdrop 8 hdr); bytes16 0; zdrop 12 hdr; rest] (header_lens rest) b ->
  zlen hdr = 20 -> bytes_ok hdr -> bytes_ok fo ->
  exists b' hdr', (bs ← payload_read b 0 IP_HLEN; c ← inet_chksum odd bs IP_HLEN; payload_write b 10 (bytes16 c)) = Some b' /\
    patched b b' /\ pb_ok b' /\ pb_bytes b' = hdr' ++ rest /\ reheaded hdr len fo hdr'.
Proof.
  intros HF4 Hl Hby Hfb. pose proof HF4 as [O4 B4 L4]. assert (Hfl : zlen fo = 2) by (unfold header_lens in L4; by injection L4).
  set (z := header20 hdr len fo 0). assert (Bz : pb_bytes b = z ++ rest).
  { rewrite B4. unfold z, header20. cbn [concat]. by rewrite app_nil_r, <- !app_assoc. }
  assert (Hlz : zlen z = 20) by by apply header20_len. assert (Hbz : bytes_ok z) by by apply header20_ok.
  pose proof (pb_bytes_len b O4) as Hl4. rewrite Bz, zlen_app in Hl4. pose proof (zlen_nonneg rest).
  rewrite payload_read_spec by (done || unfold IP_HLEN; lia). cbn [mbind option_bind]. rewrite zdrop_0, Bz. unfold IP_HLEN.
  rewrite ztake_app_le, ztake_ge by lia. destruct (inet_chksum odd z 20) as [c|] eqn:Ec; cbn [mbind option_bind].
  2: { unfold inet_chksum in Ec. rewrite <- Hlz, lwip_standard_chksum_ok in Ec by (done || lia). done. }
  destruct (field_write _ (header_lens rest) b 5 (bytes16 c) HF4 eq_refl) as (b5 & E5 & P5 & HF5). change (zsum (take 5 (header_lens rest))) with 10 in E5. rewrite E5.
  pose proof HF5 as [O5 B5 _]. exists b5, (header20 hdr len fo c). split_and!; [done|done|done| |by eapply header20_chksum].
  rewrite B5. unfold header20. cbn [insert list_insert concat]. by rewrite app_nil_r, <- !app_assoc.
Qed.

Lemma restore_ok odd_payload p b hdr len old rest :
  pb_ok b -> pb_bytes b = old ++ rest -> zlen old = 20 -> zlen hdr = 20 -> bytes_ok hdr ->
  exists b' hdr', restore_header odd_payload p hdr len b = Some b' /\ patched b b' /\ pb_ok b' /\ pb_bytes b' = hdr' ++ rest /\ rebuilt hdr len hdr'.
Proof.
  intros Hb Eb Ho Hl Hby. unfold restore_header.
  destruct (payload_patch b [] old rest 0 hdr Hb Eb eq_refl ltac:(lia)) as (b1 & E1 & P1 & O1 & B1). rewrite E1. cbn [mbind option_bind]. cbn [app] in B1.
  pose proof (header_split b1 hdr rest O1 B1 Hl) as HF1. set (lens := header_lens rest) in *.
  destruct (field_write _ lens b1 1 (bytes16 (lwip_htons len)) HF1 eq_refl) as (b2 & E2 & P2 & HF2). change (zsum (take 1 lens)) with 2 in E2. rewrite E2. cbn [mbind option_bind].
  destruct (field_write _ lens b2 3 (bytes16 0) HF2 eq_refl) as (b3 & E3 & P3 & HF3). change (zsum (take 3 lens)) with 6 in E3. rewrite E3. cbn [mbind option_bind].
  destruct (field_write _ lens b3 5 (bytes16 0) HF3 eq_refl) as (b4 & E4 & P4 & HF4). change (zsum (take 5 lens)) with 10 in E4. rewrite E4. cbn [mbind option_bind].
  destruct (header_seal (odd_payload p b4) b4 hdr len [0; 0] rest HF4 Hl Hby (bytes16_ok 0)) as (b5 & hdr' & E5 & P5 & O5 & B5 & HR).
  exists b5, hdr'. split_and!; [exact E5| |done..]. by etrans; [|etrans; [|etrans; [|etrans]]].
Qed.

(** ** The datagram is complete *)
Lemma clen_loop h : forall l p fuel n, lseg h p l None -> (length l < fuel)%nat -> 0 <= n -> n + Z.of_nat (length l) < 65536 ->
  pbuf_clen_loop fuel p n h = Some (n + Z.of_nat (length l)).
Proof.
  induction l as [|[a b] l IH]; intros p fuel n Hl Hf Hn Hb; (destruct fuel as [|fuel]; [cbn in Hf; lia|]).
  - cbn in Hl. subst p. cbn. f_equal. lia.
  - destruct Hl as (-> & Hg & Hl). cbn [pbuf_clen_loop]. rewrite Hg. cbn [mbind option_bind length] in *. rewrite u16_small by lia.
    rewrite (IH (pb_next b)) by (done || lia). f_equal. lia.
Qed.

Lemma clen_ok h p l : packet h (Some p) l -> Z.of_nat (length l) < 65536 -> pbuf_clen (Some p) h = Some (Z.of_nat (length l)).
Proof. intros [Hl Hnd _ _ _] Hb. unfold pbuf_clen. rewrite (clen_loop h l) by (done || lia || by eapply lseg_length). done. Qed.

Section finish.
  Context {U : Upper} `{!Component reass}.
  Context (custom_free : addr -> heap -> option heap) (buf : list Z) (odd_payload : addr -> pbuf -> bool).

Lemma rget_rset st s : rget (rset st s) = st.
Proof. apply cget_cset. Qed.

Lemma rset_rset a b s : rset a (rset b s) = rset a s.
Proof. apply cset_cset. Qed.

(** The pbufs of a list of fragments. *)
Definition pbufs_of (cs : addr -> list (addr * pbuf)) (q : list helper) : Z := zsum (map (fun r => Z.of_nat (length (cs (h_p r)))) q).

Lemma reass_finish_ok {F : Frame} s i ipr f q O cs :
  r_p ipr = f :: q -> owned (i_heap s) cs (map h_p (f :: q) ++ O) -> NoDup (map h_p (f :: q) ++ O) ->
  Forall (fun r => has_header (cs (h_p r))) (f :: q) -> zlen (r_iphdr ipr) = 20 -> bytes_ok (r_iphdr ipr) ->
  sum_len (cs (h_p f)) + zsum (map (fun r => sum_len (cs (h_p r)) - 20) q) < 65536 -> 0 <= r_datagram_len ipr <= 65515 ->
  pbufs_of cs (f :: q) < 65536 ->
  exists h' k hdr',
    reass_finish odd_payload i ipr s =
      Some (h_p f, rset (Reass (delete i (reassdatagrams (rget s))) (u16 (ip_reass_pbufcount (rget s) - pbufs_of cs (f :: q)))) (iheap h' s)) /\
    owned h' (cs_set (h_p f) k cs) (h_p f :: O) /\ content k = hdr' ++ concat (map (fun r => frag_data (cs (h_p r))) (f :: q)) /\
    rebuilt (r_iphdr ipr) (r_datagram_len ipr + 20) hdr'.
Proof.
  intros Erp HO Hnd Hh Hl Hby Hsum Hdl Hcl. unfold reass_finish. rewrite Erp. cbn [map app] in *. apply Forall_cons in Hh as [Hf Hh].
  pose proof (owned_packet _ _ _ HO (h_p f) ltac:(by left)) as Hk. destruct (std_packet_head _ _ _ Hk) as (b & t & Ec & Hg). destruct Hk as (Hk & Hs & _).
  rewrite Ec in Hk, Hs, Hf. cbn in Hf. apply Forall_cons in Hs as [Hs _]. pose proof (packet_cons _ _ _ _ Hk) as (_ & Hb & _ & Htot & _).
  rewrite Hg. cbn [mbind option_bind]. rewrite u16_small by (unfold IP_HLEN; lia).
  destruct (restore_ok odd_payload (h_p f) b (r_iphdr ipr) (r_datagram_len ipr + IP_HLEN) (ztake 20 (pb_bytes b)) (zdrop 20 (pb_bytes b)) Hb) as (b' & hdr' & E & HP & Ok & Bb & HR).
  { by rewrite ztake_zdrop. } { rewrite zlen_ztake; [done|]. rewrite pb_bytes_len by done. lia. } { done. } { done. }
  rewrite E. cbn [mbind option_bind]. destruct HP as (m & Eb & Hm).
  assert (HO1 : owned (put (i_heap s) (h_p f) b') (cs_set (h_p f) ((h_p f, b') :: t) cs) (h_p f :: map h_p q ++ O)).
  { pose proof Hk as [_ _ _ _ Hs']. cbn [sum_len] in Hs'. eapply owned_head; try done; [by left|..]; subst b'; cbn; (done || lia). }
  assert (Hq : forall r, r ∈ q -> cs_set (h_p f) ((h_p f, b') :: t) cs (h_p r) = cs (h_p r)).
  { intros r Hr. apply cs_set_ne. intros E'. apply NoDup_cons in Hnd as [Hn _]. apply Hn. rewrite <- E'. apply elem_of_app. left. by apply (list_elem_of_fmap_2 h_p). }
  assert (Hsl : sum_len ((h_p f, b') :: t) = sum_len (cs (h_p f))) by (rewrite Ec; subst b'; done).
  destruct (join_ok (h_p f) q O _ _ HO1 Hnd) as (h2 & k & E2 & HO2 & C2 & L2).
  { apply Forall_forall. intros r Hr. rewrite Hq by done. rewrite Forall_forall in Hh. by apply Hh. }
  { rewrite cs_set_eq, Hsl, (map_same _ (fun r => sum_len (cs (h_p r)) - 20)) by (intros r Hr; by rewrite Hq). done. }
  rewrite cs_set_eq in L2, C2. rewrite (map_same _ (fun r => Z.of_nat (length (cs (h_p r))))) in L2 by (intros r Hr; by rewrite Hq).
  assert (Elen : Z.of_nat (length k) = pbufs_of cs (f :: q)) by (rewrite L2; unfold pbufs_of; cbn; by rewrite Ec).
  rewrite E2. cbn [mbind option_bind]. unfold ip_reass_dequeue_datagram. change (i_heap (rset _ _)) with h2.
  destruct (owned_packet _ _ _ HO2 (h_p f) ltac:(by left)) as [Hk2 _]. rewrite cs_set_eq in Hk2. rewrite (clen_ok h2 (h_p f) k Hk2) by lia.
  cbn [mbind option_bind]. rewrite rget_rset, rset_rset. change (rget (iheap h2 s)) with (rget s).
  exists h2, k, hdr'. split_and!; [by rewrite Elen| | |done].
  - eapply owned_ext; [|exact HO2]. intros x _. unfold cs_set. case_decide; done.
  - rewrite C2, content_cons, Bb. cbn [map concat]. rewrite (map_same _ (fun r => frag_data (cs (h_p r)))) by (intros r Hr; by rewrite Hq).
    rewrite <- !app_assoc. f_equal. rewrite app_assoc. f_equal. unfold frag_data. rewrite Ec, content_cons, zdrop_app_le; [done|]. rewrite pb_bytes_len by done. lia.
Qed.

(** ** Collecting the fragments of a datagram *)
Context (ip4_frag : addr -> Z -> Z -> istate -> option (Z * istate)).

Definition hdr_of (k : list (addr * pbuf)) : list Z := ztake 20 (content k).

(** The packet [k] is the part [h] of the data [D], of the datagram that [K] is a
    header of. *)
Record frag_of (D K : list Z) (k : list (addr * pbuf)) (h : helper) : Prop := FragOf {
  fg_range : 0 <= h_start h < h_end h /\ h_end h <= zlen D;
  fg_first : has_header k;
  fg_bytes : bytes_ok (hdr_of k);
  fg_hlen : frag_hlen (hdr_of k) = Some 20;
  fg_len : frag_len (hdr_of k) = Some (20 + (h_end h - h_start h));
  fg_off : frag_offset (hdr_of k) = Some (h_start h);
  fg_more : exists f, frag_field (hdr_of k) = Some f /\ (f .& PP_HTONS IP_MF =? 0) = (h_end h =? zlen D);
  fg_match : hdr_match (hdr_of k) K = true;
  fg_data : frag_data k = ztake (h_end h - h_start h) (zdrop (h_start h) D);
}.

Definition has_last (D : list Z) (q : list helper) : bool := existsb (fun h => h_end h =? zlen D) q.

(** All fragments are there. *)
Definition complete (D : list Z) (q : list helper) : bool :=
  has_last D q && (contiguous q && match q with [] => false | h :: _ => h_start h =? 0 end).

(** The entry of a datagram of which the fragments [q] are here. *)
Record datagram_ok (cs : addr -> list (addr * pbuf)) (D K : list Z) (q : list helper) (ipr : ip_reassdata) : Prop := DatagramOk {
  en_p : r_p ipr = q;
  en_hdr : exists g, frag_of D K (cs (h_p g)) g /\ r_iphdr ipr = hdr_of (cs (h_p g));
  en_first : forall g, g ∈ q -> h_start g = 0 -> r_iphdr ipr = hdr_of (cs (h_p g));
  en_offset : exists o, frag_offset (r_iphdr ipr) = Some o /\ (o = 0 -> exists g, g ∈ q /\ h_start g = 0);
  en_flags : r_flags ipr = if has_last D q then 1 else 0;
  en_len : has_last D q = true -> r_datagram_len ipr = zlen D;
}.

(** Between two fragments; [R0] are the other datagrams and [c0] their pbufs. *)
Record collecting (cs : addr -> list (addr * pbuf)) (D K : list Z) (R0 : list ip_reassdata) (c0 : Z) (q : list helper) (s : istate) : Prop := Collecting {
  cl_sorted : StronglySorted before q;
  cl_frags : Forall (fun h => frag_of D K (cs (h_p h)) h) q;
  cl_count : ip_reass_pbufcount (rget s) = c0 + pbufs_of cs q;
  cl_list : match q with [] => reassdatagrams (rget s) = R0 | _ => exists ipr, reassdatagrams (rget s) = ipr :: R0 /\ datagram_ok cs D K q ipr end;
}.

Lemma match_same a b K : hdr_match a K = true -> hdr_match b K = true -> hdr_match a b = true.
Proof.
  unfold hdr_match. rewrite !andb_true_iff, !bool_decide_eq_true. intros [[-> ->] ->] [[-> ->] ->]. done.
Qed.

Lemma match_other a b K : hdr_match a K = false -> hdr_match b K = true -> hdr_match a b = false.
Proof.
  intros Ha Hb. apply not_true_is_false. intros Hab. rewrite <- not_true_iff_false in Ha. apply Ha. revert Hb Hab.
  unfold hdr_match. rewrite !andb_true_iff, !bool_decide_eq_true. intros [[<- <-] <-] [[-> ->] ->]. done.
Qed.

Lemma find_none hdr i l : Forall (fun r => hdr_match (r_iphdr r) hdr = false) l -> find_datagram hdr i l = None.
Proof. revert i. induction l as [|r l IH]; intros i H; cbn; [done|]. apply Forall_cons in H as [-> H]. by apply IH. Qed.

Lemma frag_range D K k h : zlen D <= 65515 -> frag_of D K k h -> range_ok h.
Proof. intros HD [[Hr He] _ _ _ _ _ _ _ _]. unfold range_ok. lia. Qed.

Lemma hdr_of_len h p k : packet h (Some p) k -> has_header k -> zlen (hdr_of k) = 20.
Proof.
  intros [_ _ Hok _ _] Hh. unfold hdr_of. destruct k as [|[a b] t]; [done|]. cbn in Hh. apply Forall_cons in Hok as [Hb _].
  rewrite content_cons, zlen_ztake; [done|]. rewrite zlen_app, pb_bytes_len by done. pose proof (zlen_nonneg (content t)). lia.
Qed.

(** The first 20 bytes of a packet are read in its first pbuf. *)
Lemma read_header {F : Frame} h cs p Q :
  owned h cs Q -> p ∈ Q -> has_header (cs p) -> exists b, get h p = Some b /\ payload_read b 0 IP_HLEN = Some (hdr_of (cs p)).
Proof.
  intros HO Hp Hh. pose proof (owned_packet _ _ _ HO p Hp) as Hk. destruct (std_packet_head _ _ _ Hk) as (b & t & Ec & Hg). destruct Hk as [Hk _].
  rewrite Ec in Hk, Hh |- *. cbn in Hh. pose proof (packet_cons _ _ _ _ Hk) as (_ & Hb & _). exists b. split; [done|].
  unfold IP_HLEN. rewrite payload_read_spec by (done || lia). rewrite zdrop_0. unfold hdr_of. rewrite content_cons, ztake_app_le; [done|].
  rewrite pb_bytes_len by done. lia.
Qed.

Lemma has_last_place D bef new aft : has_last D (bef ++ new :: aft) = (h_end new =? zlen D) || has_last D (bef ++ aft).
Proof. unfold has_last. rewrite !existsb_app. cbn. by rewrite orb_assoc, (orb_comm _ (_ =? _)), <- orb_assoc. Qed.

Lemma chain_frag D K k new ipr :
  zlen D <= 65515 -> frag_of D K k new -> Forall range_ok (r_p ipr) -> StronglySorted before (r_p ipr) ->
  Forall (fun t => ~ conflict new t) (r_p ipr) -> r_flags ipr = (if has_last D (r_p ipr) then 1 else 0) ->
  exists bef aft, r_p ipr = bef ++ aft /\ StronglySorted before (bef ++ new :: aft) /\
    ip_reass_chain_frag_into_datagram_and_validate ipr (h_p new) (hdr_of k) (h_end new =? zlen D) =
      Some (if complete D (bef ++ new :: aft) then IP_REASS_VALIDATE_TELEGRAM_FINISHED else IP_REASS_VALIDATE_PBUF_QUEUED, set_r_p (bef ++ new :: aft) ipr).
Proof.
  intros HD Hfg Hr Hs Hc Hfl. pose proof (frag_range _ _ _ _ HD Hfg) as Hrn. pose proof Hfg as [[Hn He] _ _ Hhl Hln Hof _ _ _].
  destruct (frag_place_queued new (r_p ipr) Hrn Hr Hs Hc) as (bef & aft & v & Ep & Eq & Hs' & Hv).
  exists bef, aft. split; [done|]. split; [done|]. unfold ip_reass_chain_frag_into_datagram_and_validate. rewrite Hln, Hhl. cbn [mbind option_bind].
  destruct (Z.ltb_spec (20 + (h_end new - h_start new)) 20); [lia|]. rewrite Hof. cbn [mbind option_bind]. rewrite (u16_small (20 + _ - 20)), u16_small by lia.
  replace (Helper (h_p new) (h_start new) (h_start new + (20 + (h_end new - h_start new) - 20))) with new by (destruct new; cbn; f_equal; lia).
  destruct (Z.ltb_spec (h_end new) (h_start new)); [lia|]. rewrite Ep. cbn [set_r_p r_flags r_p]. rewrite Hfl, Eq.
  assert (El : (h_end new =? zlen D) || negb ((if has_last D (bef ++ aft) then 1 else 0) .& IP_REASS_FLAG_LASTFRAG =? 0) = has_last D (bef ++ new :: aft)).
  { rewrite has_last_place. f_equal. by destruct (has_last D (bef ++ aft)). }
  rewrite El. unfold complete. destruct (has_last D (bef ++ new :: aft)); [|done]. cbn [andb]. rewrite <- Hv.
  destruct bef as [|b0 bef]; cbn [app]; f_equal; f_equal.
  - destruct v, (h_start new =? 0), (no_holes new aft); done.
  - destruct v, (h_start b0 =? 0), (no_holes new aft); done.
Qed.

Lemma offset_zero hdr o : frag_offset hdr = Some o -> exists f, frag_field hdr = Some f /\ (lwip_htons f .& IP_OFFMASK =? 0) = (o =? 0).
Proof.
  unfold frag_offset. destruct (frag_field hdr) as [f|]; [|done]. cbn. intros [= <-]. exists f. split; [done|].
  destruct (Z.eqb_spec (lwip_htons f .& IP_OFFMASK) 0), (Z.eqb_spec ((lwip_htons f .& IP_OFFMASK) * 8) 0); lia || done.
Qed.

Lemma heap_self (s : istate) : iheap (i_heap s) s = s.
Proof. by destruct s as [[[] ? ?] ? ? ? ? ? ?]. Qed.

Lemma rset_self s st : rget s = st -> rset st (iheap (i_heap s) s) = s.
Proof. intros <-. rewrite heap_self. apply cset_cget. Qed.

(** The search for the entry. *)
Lemma entry_found cs D K R0 c0 q new s :
  zlen D <= 65515 -> collecting cs D K R0 c0 q s -> frag_of D K (cs (h_p new)) new -> Forall (fun t => ~ conflict new t) q ->
  Forall (fun r => hdr_match (r_iphdr r) K = false) R0 -> (q = [] -> exists c o, h_orc (i_heap s) = Some c :: o) ->
  exists ipr h1, reass_entry custom_free buf odd_payload ip4_frag (hdr_of (cs (h_p new))) (Z.of_nat (length (cs (h_p new)))) s =
      Some (Some 0%nat, rset (Reass (ipr :: R0) (c0 + pbufs_of cs q)) (iheap h1 s)) /\
    (forall a, get h1 a = get (i_heap s) a) /\ r_p ipr = q /\ r_flags ipr = (if has_last D q then 1 else 0) /\
    (has_last D q = true -> r_datagram_len ipr = zlen D) /\
    (exists g, frag_of D K (cs (h_p g)) g /\ r_iphdr ipr = hdr_of (cs (h_p g))) /\
    (forall g, g ∈ new :: q -> h_start g = 0 -> r_iphdr ipr = hdr_of (cs (h_p g))) /\
    (exists o, frag_offset (r_iphdr ipr) = Some o /\ (o = 0 -> exists g, g ∈ new :: q /\ h_start g = 0)).
Proof.
  intros HD [Hs Hfr Hct Hls] Hnew Hc HR Hm. unfold reass_entry. destruct q as [|g0 q].
  - rewrite find_none by (rewrite Hls; eapply Forall_impl; [exact HR|]; cbn; intros r Hr; eapply match_other; [exact Hr|apply Hnew]).
    destruct (Hm eq_refl) as (c & o & Ho). unfold ip_reass_enqueue_new_datagram, reass_malloc, mem_malloc. rewrite Ho. cbn [mbind option_bind].
    eexists (IpReassdata [] _ 0 0 IP_REASS_MAXAGE), _. split; [do 3 f_equal|].
    { unfold set_datagrams. change (rget (iheap ?h s)) with (rget s). rewrite Hls, Hct. done. }
    split_and!; try done; cbn; [by exists new|intros g ->%list_elem_of_singleton _; done|]. destruct (fg_off _ _ _ _ Hnew) as [].
    exists (h_start new). split; [apply Hnew|]. intros Hz. exists new. split; [by left|done].
  - destruct Hls as (ipr & El & [E1 (g1 & Hg1 & Eg1) E3 (o & Eo & Ho) E5 E6]). rewrite El. cbn [find_datagram].
    rewrite Eg1, (match_same _ _ K) by (apply Hg1 || apply Hnew). change ((ipr :: R0) !! 0%nat) with (Some ipr). cbn [mbind option_bind].
    destruct (offset_zero _ _ (fg_off _ _ _ _ Hnew)) as (f & Ef & Hf). rewrite Ef. cbn [mbind option_bind].
    destruct (offset_zero _ _ Eo) as (f2 & Ef2 & Hf2). rewrite Ef2. cbn [mbind option_bind]. rewrite Hf, Hf2.
    assert (Hst : rget s = Reass (ipr :: R0) (c0 + pbufs_of cs (g0 :: q))) by (destruct (rget s); cbn in *; by subst).
    destruct (Z.eqb_spec (h_start new) 0) as [Hz|Hz]; cbn [andb].
    + assert (Ho0 : o <> 0).
      { intros ->. destruct (Ho eq_refl) as (g & Hg & Hg0). rewrite Forall_forall in Hc. apply (Hc g Hg). left. congruence. }
      destruct (Z.eqb_spec o 0); [done|]. cbn [negb]. exists (set_r_iphdr (hdr_of (cs (h_p new))) ipr), (i_heap s).
      split; [rewrite heap_self, Hst; reflexivity|].
      split_and!; try done; cbn; [by exists new| |].
      * intros g [->|Hg]%elem_of_cons Hg0; [done|]. rewrite Forall_forall in Hc. destruct (Hc g Hg). left. congruence.
      * exists (h_start new). split; [apply Hnew|]. intros _. exists new. split; [by left|done].
    + exists ipr, (i_heap s). split; [by rewrite rset_self|]. split_and!; try done; [by exists g1| |].
      * intros g [->|Hg]%elem_of_cons Hg0; [done|by apply E3].
      * exists o. split; [done|]. intros E. destruct (Ho E) as (g & Hg & ?). exists g. split; [by right|done].
Qed.

Lemma pbufs_perm cs q q' : Permutation q q' -> pbufs_of cs q = pbufs_of cs q'.
Proof. unfold pbufs_of, zsum. induction 1; cbn; lia. Qed.

Lemma pbufs_nonneg cs q : 0 <= pbufs_of cs q.
Proof. unfold pbufs_of. apply zsum_nonneg. intros; lia. Qed.

(** One more fragment. *)
Lemma reass_step {F : Frame} cs D K R0 c0 q new s Q :
  zlen D <= 65515 -> collecting cs D K R0 c0 q s -> frag_of D K (cs (h_p new)) new -> Forall (fun t => ~ conflict new t) q ->
  Forall (fun r => hdr_match (r_iphdr r) K = false) R0 -> (q = [] -> exists c o, h_orc (i_heap s) = Some c :: o) ->
  owned (i_heap s) cs Q -> h_p new ∈ Q -> 0 <= c0 -> c0 + pbufs_of cs (new :: q) <= 32 ->
  exists q' ipr h1, Permutation q' (new :: q) /\ StronglySorted before q' /\ datagram_ok cs D K q' ipr /\ (forall a, get h1 a = get (i_heap s) a) /\
    let s1 := rset (Reass (ipr :: R0) (c0 + pbufs_of cs q')) (iheap h1 s) in
    ip4_reass custom_free buf odd_payload ip4_frag (h_p new) s =
      if complete D q' then '(x, s2) ← reass_finish odd_payload 0 ipr s1; Some (Some x, s2) else Some (None, s1).
Proof.
  intros HD HC Hnew Hc HR Hm HO Hin Hc0 Hroom.
  destruct (entry_found cs D K R0 c0 q new s HD HC Hnew Hc HR Hm) as (ipr & h1 & Een & Hh1 & Erp & Efl & Edl & Ehd & Efi & Eof).
  pose proof Hnew as [[Hn He] Hh Hby Hhl Hln Hof (f & Hfd & Hmf) Hmt _]. pose proof HC as [Hs Hfr Hct _].
  destruct (read_header _ _ _ _ HO Hin Hh) as (b & Hg & Hrd). unfold ip4_reass. rewrite Hg. cbn [mbind option_bind]. rewrite Hrd. cbn [mbind option_bind].
  rewrite Hhl. cbn [mbind option_bind]. rewrite Z.eqb_refl. cbn [negb]. rewrite Hof, Hln. cbn [mbind option_bind].
  destruct (Z.ltb_spec (20 + (h_end new - h_start new)) 20); [lia|]. rewrite (u16_small (20 + _ - 20)) by lia.
  assert (Hcl : Z.of_nat (length (cs (h_p new))) + pbufs_of cs q = pbufs_of cs (new :: q)) by done. pose proof (pbufs_nonneg cs q).
  destruct (owned_packet _ _ _ HO _ Hin) as [Hk _]. rewrite (clen_ok _ _ _ Hk) by lia. cbn [mbind option_bind]. rewrite Hct.
  destruct (Z.ltb_spec IP_REASS_MAX_PBUFS (c0 + pbufs_of cs q + Z.of_nat (length (cs (h_p new))))); [unfold IP_REASS_MAX_PBUFS in *; lia|]. cbn [mbind option_bind negb].
  rewrite Een. cbn [mbind option_bind]. unfold reass_add. rewrite Hfd. cbn [mbind option_bind]. rewrite Hmf, u16_small by lia.
  destruct (Z.ltb_spec (h_start new + (20 + (h_end new - h_start new) - 20)) (h_start new)); [lia|]. unfold IP_HLEN.
  destruct (Z.ltb_spec (0xFFFF - 20) (h_start new + (20 + (h_end new - h_start new) - 20))); [lia|]. cbn [orb]. rewrite andb_false_r.
  rewrite rget_rset. cbn [reassdatagrams]. change ((ipr :: R0) !! 0%nat) with (Some ipr). cbn [mbind option_bind].
  assert (Hrq : Forall range_ok q) by (eapply Forall_impl; [exact Hfr|]; cbn; intros x Hx; by eapply frag_range).
  destruct (chain_frag D K (cs (h_p new)) new ipr HD Hnew) as (bef & aft & Eq & Hs' & Ech); [by rewrite Erp..|by rewrite Erp|]. rewrite Ech. cbn [mbind option_bind].
  assert (HP : Permutation (bef ++ new :: aft) (new :: q)) by (rewrite <- Erp, Eq; symmetry; apply Permutation_middle).
  replace ((if complete D (bef ++ new :: aft) then IP_REASS_VALIDATE_TELEGRAM_FINISHED else IP_REASS_VALIDATE_PBUF_QUEUED) =? IP_REASS_VALIDATE_PBUF_DROPPED)
    with false by by destruct (complete _ _).
  cbn [ip_reass_pbufcount reassdatagrams]. rewrite (u16_small (c0 + _ + _)) by lia.
  set (ipr2 := if h_end new =? zlen D then set_r_last (h_start new + (20 + (h_end new - h_start new) - 20)) (set_r_p (bef ++ new :: aft) ipr) else set_r_p (bef ++ new :: aft) ipr).
  exists (bef ++ new :: aft), ipr2, h1. split; [done|]. split; [done|]. split.
  - assert (Hhl' : has_last D (bef ++ new :: aft) = (h_end new =? zlen D) || has_last D q) by by rewrite has_last_place, <- Eq, Erp.
    destruct Eof as (o & Eo & Ho). unfold ipr2. split; try rewrite Hhl'.
    + by destruct (h_end new =? zlen D).
    + destruct (h_end new =? zlen D); exact Ehd.
    + intros g Hg'. rewrite HP in Hg'. destruct (h_end new =? zlen D); cbn; auto.
    + exists o. split; [by destruct (h_end new =? zlen D)|]. intros E. destruct (Ho E) as (g & Hg' & ?). exists g. split; [|done]. by rewrite HP.
    + destruct (h_end new =? zlen D); cbn; rewrite Efl; [|done]. by destruct (has_last D q).
    + destruct (Z.eqb_spec (h_end new) (zlen D)); cbn; [lia|]. done.
  - split; [done|]. cbn zeta. rewrite rset_rset. cbn [ip_reass_pbufcount]. change (<[0%nat := ipr2]> (ipr :: R0)) with (ipr2 :: R0).
    replace (c0 + pbufs_of cs q + Z.of_nat (length (cs (h_p new)))) with (c0 + pbufs_of cs (bef ++ new :: aft)) by (rewrite (pbufs_perm _ _ _ HP); lia).
    by destruct (complete D (bef ++ new :: aft)).
Qed.

(** ** The fragments in any order *)

(** [ip4_reass] for one packet after the other. *)
Fixpoint feed (ps : list addr) (s : istate) : option (list (option addr) * istate) :=
  match ps with
  | [] => Some ([], s)
  | p :: ps => '(r, s) ← ip4_reass custom_free buf odd_payload ip4_frag p s; '(rs, s) ← feed ps s; Some (r :: rs, s)
  end.

(** Fragments that are missing are noticed. *)
Lemma incomplete D l q q' new r rest :
  zlen D <= 65515 -> partition D l -> Permutation (q ++ new :: r :: rest) l -> Permutation q' (new :: q) -> complete D q' = false.
Proof.
  intros HD HP Hpm Hq'. apply not_true_is_false. unfold complete. rewrite !andb_true_iff. intros (Hl & Hn & Hf).
  pose proof (partition_range _ _ HD HP) as Hr. pose proof HP as [_ Hrg _ _ _].
  assert (Hsub : forall x, x ∈ q' -> x ∈ l) by (intros x Hx; rewrite <- Hpm; rewrite Hq' in Hx; set_solver).
  assert (Hrl : r ∈ l) by (rewrite <- Hpm; set_solver). rewrite Forall_forall in Hrg. destruct (Hrg r Hrl) as [Hr1 Hr2].
  destruct q' as [|a q']; [done|]. apply Z.eqb_eq in Hf. unfold has_last in Hl. apply existsb_exists in Hl as (z & Hz & Ez). apply Z.eqb_eq in Ez. apply list_elem_of_In in Hz.
  destruct (contiguous_covers a q' (h_start r) Hn) as (b & Hb & Hbr).
  { apply Forall_forall. intros x Hx. rewrite Forall_forall in Hr. auto. } { lia. } { exists z. split; [done|lia]. }
  assert (Hpm2 : Permutation ((new :: q) ++ r :: rest) l) by (rewrite <- Hpm; cbn; by rewrite Permutation_middle).
  rewrite Hq' in Hb. destruct (partition_apart D l (new :: q) r rest HD HP Hpm2 b ltac:(set_solver)) as [_ Hx]. apply Hx. right. destruct (Hrg b) as [? ?]; [rewrite <- Hpm; set_solver|]. lia.
Qed.

Lemma all_complete D l q' : zlen D <= 65515 -> partition D l -> StronglySorted before q' -> Permutation q' l -> q' = l /\ complete D l = true.
Proof.
  intros HD HP Hs Hpm. assert (q' = l) as ->.
  { apply (StronglySorted_unique_strong before); [|done|apply HP|done]. intros x y _ _ [? ?] [? ?]. lia. }
  split; [done|]. destruct HP as [_ _ Hn Hf (h & Hh & He)]. unfold complete. rewrite !andb_true_iff. split_and!; [|done|].
  - apply existsb_exists. exists h. split; [by apply list_elem_of_In|by apply Z.eqb_eq].
  - destruct l; [done|by apply Z.eqb_eq].
Qed.

Lemma frag_sum h p D K k f : packet h (Some p) k -> frag_of D K k f -> sum_len k - 20 = zlen (piece D f).
Proof.
  intros Hk [[Hr1 Hr2] Hh _ _ _ _ _ _ Hd]. unfold piece. rewrite <- Hd. unfold frag_data. pose proof (hdr_of_len _ _ _ Hk Hh) as Hl. unfold hdr_of in Hl.
  destruct Hk as [_ _ Hok _ _]. rewrite <- (content_len k Hok). rewrite zlen_zdrop. rewrite zlen_ztake_gen in Hl. lia.
Qed.

Lemma zsum_concat D l : zsum (map (fun f => zlen (piece D f)) l) = zlen (concat (map (piece D) l)).
Proof. induction l as [|a l IH]; cbn; [done|]. rewrite zlen_app, <- IH. done. Qed.

Lemma zsum_app a b : zsum (a ++ b) = zsum a + zsum b.
Proof. unfold zsum. induction a as [|x a IH]; cbn; [done|]. rewrite IH. lia. Qed.

(** What the last fragment brings: the datagram, in the pbuf of the first one. *)
Definition delivers (F : Frame) (cs : addr -> list (addr * pbuf)) (D : list Z) (R0 : list ip_reassdata) (c0 : Z) (O : list addr) (l : list helper) (p : addr) (s s' : istate) : Prop :=
  exists f h' k hdr', f ∈ l /\ h_start f = 0 /\ p = h_p f /\ s' = rset (Reass R0 c0) (iheap h' s) /\
    owned (F := F) h' (cs_set p k cs) (p :: O) /\ content k = hdr' ++ D /\ rebuilt (hdr_of (cs p)) (zlen D + 20) hdr'.

Lemma feed_from {F : Frame} cs D K R0 c0 O l : zlen D <= 65515 -> partition D l -> Forall (fun h => frag_of D K (cs (h_p h)) h) l ->
  Forall (fun r => hdr_match (r_iphdr r) K = false) R0 -> 0 <= c0 -> c0 + pbufs_of cs l <= 32 -> NoDup (map h_p l ++ O) ->
  forall fs new q s, Permutation (q ++ new :: fs) l -> collecting cs D K R0 c0 q s -> (q = [] -> exists c o, h_orc (i_heap s) = Some c :: o) ->
  owned (i_heap s) cs (map h_p l ++ O) ->
  exists p s', feed (map h_p (new :: fs)) s = Some (replicate (length fs) None ++ [Some p], s') /\ delivers F cs D R0 c0 O l p s s'.
Proof.
  intros HD HP Hfr HR Hc0 Hcl Hnd fs. induction fs as [|r fs IH]; intros new q s Hpm HC Hm HO.
  - assert (Hpm' : Permutation (new :: q) l) by (rewrite <- Hpm; symmetry; apply Permutation_app_comm).
    assert (Hnew : new ∈ l) by (rewrite <- Hpm'; by left). rewrite Forall_forall in Hfr.
    destruct (reass_step cs D K R0 c0 q new s (map h_p l ++ O)) as (q' & ipr & h1 & Hq' & Hs' & Hen & Hh1 & E); try done; [by apply Hfr| | | |].
    { apply Forall_forall. intros t Ht. apply (partition_apart D l q new [] HD HP Hpm). by rewrite app_nil_r. }
    { apply elem_of_app. left. by apply (list_elem_of_fmap_2 h_p). } { by rewrite (pbufs_perm _ _ _ Hpm'). }
    destruct (all_complete D l q' HD HP Hs' ltac:(by rewrite Hq')) as [-> Hcp]. rewrite Hcp in E. cbn zeta in E. cbn [map feed]. rewrite E.
    destruct l as [|f l]; [by destruct HP as [_ _ _ [] _]|].
    assert (HO1 : owned h1 cs (map h_p (f :: l) ++ O)) by by eapply owned_same.
    pose proof (partition_data D f l HD HP) as HData. destruct Hen as [E1 (g & Hg & Eg) E3 _ _ E6].
    pose proof HP as [_ _ _ Hf0 (hl & Hhl & Ehl)]. cbn in Hf0. pose proof (E3 f ltac:(by left) Hf0) as Ehd.
    assert (Hlast : has_last D (f :: l) = true) by (apply existsb_exists; exists hl; split; [by apply list_elem_of_In|by apply Z.eqb_eq]).
    assert (Hpk : forall x, x ∈ f :: l -> packet h1 (Some (h_p x)) (cs (h_p x))).
    { intros x Hx. apply (owned_packet _ _ _ HO1 (h_p x)). apply elem_of_app. left. by apply (list_elem_of_fmap_2 h_p). }
    assert (Hmap : forall x, x ∈ f :: l -> sum_len (cs (h_p x)) - 20 = zlen (piece D x)) by (intros x Hx; eapply frag_sum; [by apply Hpk|by apply Hfr]).
    destruct (reass_finish_ok (rset (Reass (ipr :: R0) (c0 + pbufs_of cs (f :: l))) (iheap h1 s)) 0 ipr f l O cs E1 HO1 Hnd)
      as (h2 & k & hdr' & Efin & HO2 & Hc & HRb).
    { apply Forall_forall. intros x Hx. by apply (fg_first _ _ _ _ (Hfr x Hx)). }
    { rewrite Ehd. eapply hdr_of_len; [by apply Hpk, list_elem_of_here|apply (fg_first _ _ _ _ (Hfr f ltac:(by left)))]. }
    { rewrite Ehd. apply (fg_bytes _ _ _ _ (Hfr f ltac:(by left))). }
    { rewrite (map_same _ (fun x => zlen (piece D x))) by (intros x Hx; apply Hmap; by right). pose proof (Hmap f ltac:(by left)) as Hfs.
      assert (zlen (piece D f) + zsum (map (fun x => zlen (piece D x)) l) = zlen D) by (pose proof (zsum_concat D (f :: l)) as Hz; rewrite HData in Hz; exact Hz). lia. }
    { rewrite E6 by done. pose proof (zlen_nonneg D). lia. } { lia. }
    rewrite Efin, rget_rset. cbn [mbind option_bind reassdatagrams ip_reass_pbufcount]. exists (h_p f). eexists. split; [reflexivity|].
    exists f, h2, k, hdr'. split_and!; [by left|done|done| |done| |].
    + change (delete 0%nat (ipr :: R0)) with R0. replace (c0 + pbufs_of cs (f :: l) - pbufs_of cs (f :: l)) with c0 by lia. rewrite u16_small by (pose proof (pbufs_nonneg cs (f :: l)); lia).
      unfold rset, cset. cbn. by rewrite comp_set_set.
    + rewrite Hc. f_equal. rewrite (map_same _ (piece D)); [done|]. intros x Hx. apply (fg_data _ _ _ _ (Hfr x Hx)).
    + rewrite <- Ehd. by rewrite E6 in HRb.
  - assert (Hnew : new ∈ l) by (rewrite <- Hpm; set_solver). rewrite Forall_forall in Hfr.
    assert (Hpb : pbufs_of cs (new :: q) + pbufs_of cs (r :: fs) = pbufs_of cs l).
    { rewrite <- (pbufs_perm cs _ _ Hpm). unfold pbufs_of. rewrite !map_app, zsum_app. unfold zsum. cbn. lia. }
    destruct (reass_step cs D K R0 c0 q new s (map h_p l ++ O)) as (q' & ipr & h1 & Hq' & Hs' & Hen & Hh1 & E); try done; [by apply Hfr| | | |].
    { apply Forall_forall. intros t Ht. apply (partition_apart D l q new (r :: fs) HD HP Hpm). set_solver. }
    { apply elem_of_app. left. by apply (list_elem_of_fmap_2 h_p). } { pose proof (pbufs_nonneg cs (r :: fs)). lia. }
    rewrite (incomplete D l q q' new r fs HD HP Hpm Hq') in E. cbn zeta in E.
    assert (Hpm' : Permutation (q' ++ r :: fs) l) by (rewrite Hq', <- Hpm; cbn; by rewrite Permutation_middle).
    assert (Hne : q' <> []) by (intros ->; by apply Permutation_nil_cons in Hq').
    destruct (IH r q' (rset (Reass (ipr :: R0) (c0 + pbufs_of cs q')) (iheap h1 s)) Hpm') as (p & s' & Ef & Hd).
    { split; [done| |by rewrite rget_rset|].
      - apply Forall_forall. intros x Hx. apply Hfr. rewrite <- Hpm'. set_solver.
      - destruct q' as [|x q']; [done|]. exists ipr. by rewrite rget_rset. }
    { done. } { by eapply (owned_same (i_heap s)). }
    exists p, s'. split.
    + change (map h_p (new :: r :: fs)) with (h_p new :: map h_p (r :: fs)). cbn [feed]. rewrite E. cbn [mbind option_bind].
      rewrite Ef. done.
    + destruct Hd as (f & h' & k & hdr' & H1 & H2 & H3 & -> & H5). exists f, h', k, hdr'. split_and!; try done; try apply H5.
      unfold rset, cset. cbn. by rewrite comp_set_set.
Qed.


(** All fragments, in any order. *)
Lemma feed_any_order {F : Frame} cs D K O l fs s c o :
  zlen D <= 65515 -> partition D l -> Permutation fs l -> Forall (fun h => frag_of D K (cs (h_p h)) h) l ->
  Forall (fun r => hdr_match (r_iphdr r) K = false) (reassdatagrams (rget s)) ->
  0 <= ip_reass_pbufcount (rget s) -> ip_reass_pbufcount (rget s) + pbufs_of cs l <= IP_REASS_MAX_PBUFS ->
  NoDup (map h_p l ++ O) -> owned (i_heap s) cs (map h_p l ++ O) -> h_orc (i_heap s) = Some c :: o ->
  exists p s', feed (map h_p fs) s = Some (replicate (length fs - 1) None ++ [Some p], s') /\
    delivers F cs D (reassdatagrams (rget s)) (ip_reass_pbufcount (rget s)) O l p s s'.
Proof.
  intros HD HP Hpm Hfr HR Hc0 Hcl Hnd HO Hm. destruct fs as [|new fs].
  { apply Permutation_nil in Hpm. destruct HP as [_ _ _ Hf _]. by rewrite Hpm in Hf. }
  cbn [length]. rewrite Nat.sub_succ, Nat.sub_0_r. apply (feed_from cs D K _ _ O l HD HP Hfr HR Hc0 Hcl Hnd fs new []); [done| |by eauto|done].
  split; [constructor|constructor|unfold pbufs_of; cbn; lia|done].
Qed.

(** ** Datagrams that stay incomplete *)
Definition frags_in (R : list ip_reassdata) : list addr := map h_p (concat (map r_p R)).

Lemma free_frags_ok {F : Frame} q O : forall freed cs s,
  owned (i_heap s) cs (map h_p q ++ O) -> heap_wf (i_heap s) -> NoDup (map h_p q ++ O) -> 0 <= freed -> freed + pbufs_of cs q < 65536 ->
  exists h' cs', free_frags custom_free q freed s = Some (freed + pbufs_of cs q, iheap h' s) /\ owned h' cs' O /\ heap_wf h' /\ (forall x, x ∈ O -> cs' x = cs x).
Proof.
  induction q as [|r q IH]; intros freed cs s HO Hwf Hnd Hf Hb; cbn [map app free_frags] in *.
  - exists (i_heap s), cs. split_and!; [|done..]. unfold pbufs_of; cbn. by rewrite Z.add_0_r, heap_self.
  - apply NoDup_cons in Hnd as [Hr Hnd]. destruct (owned_packet _ _ _ HO (h_p r) ltac:(by left)) as [Hk _]. pose proof (pbufs_nonneg cs q).
    assert (Hs : pbufs_of cs (r :: q) = Z.of_nat (length (cs (h_p r))) + pbufs_of cs q) by done. rewrite (clen_ok _ _ _ Hk) by lia. cbn [mbind option_bind].
    destruct (pbuf_free_owned custom_free (i_heap s) cs (h_p r) _ HO Hwf) as (n & h1 & cs1 & E1 & HO1 & Hwf1 & _ & _ & Hcs & _).
    unfold pbuf_free_i. rewrite E1. cbn [mbind option_bind]. rewrite u16_small by lia.
    assert (Hq : pbufs_of cs1 q = pbufs_of cs q).
    { unfold pbufs_of. f_equal. apply map_same. intros x Hx. rewrite Hcs; [done|]. intros E. apply Hr. rewrite <- E. apply elem_of_app. left. by apply (list_elem_of_fmap_2 h_p). }
    destruct (IH (freed + Z.of_nat (length (cs (h_p r)))) cs1 (iheap h1 s)) as (h2 & cs2 & E2 & HO2 & Hwf2 & Hcs2); [done|done|done|lia|rewrite Hq; lia|].
    exists h2, cs2. rewrite E2, Hq, Hs. split_and!; [f_equal; f_equal; lia|done|done|]. intros x Hx. rewrite Hcs2 by done. apply Hcs. intros ->. apply Hr, elem_of_app. by right.
Qed.

(** The first fragment is missing. *)
Definition headless (r : ip_reassdata) : Prop := match r_p r with [] => False | h :: _ => h_start h <> 0 end.

Definition aged (r : ip_reassdata) : ip_reassdata := set_r_timer (r_timer r - 1) r.

Definition alive (R : list ip_reassdata) : list ip_reassdata := filter (fun r => 0 < r_timer r) R.

Definition dead (R : list ip_reassdata) : list ip_reassdata := filter (fun r => ~ 0 < r_timer r) R.

Lemma iheap_rset h st s : iheap h (rset st s) = rset st (iheap h s).
Proof. done. Qed.

Lemma drop_middle {A} (pre todo : list A) (r : A) : delete (length pre) (pre ++ r :: todo) = pre ++ todo.
Proof. induction pre as [|x pre IH]; [done|]. cbn. by f_equal. Qed.

Lemma set_middle {A} (pre todo : list A) (r r' : A) : <[length pre := r']> (pre ++ r :: todo) = pre ++ r' :: todo.
Proof. induction pre as [|x pre IH]; [done|]. cbn. by f_equal. Qed.

Lemma at_middle {A} (pre todo : list A) (r : A) : (pre ++ r :: todo) !! length pre = Some r.
Proof. induction pre as [|x pre IH]; [done|]. cbn. done. Qed.

Lemma frags_cons r R : frags_in (r :: R) = map h_p (r_p r) ++ frags_in R.
Proof. unfold frags_in. cbn. apply map_app. Qed.

Lemma pbufs_app cs a b : pbufs_of cs (a ++ b) = pbufs_of cs a + pbufs_of cs b.
Proof. unfold pbufs_of. by rewrite map_app, zsum_app. Qed.

Lemma frags_filter (P : ip_reassdata -> Prop) `{!forall r, Decision (P r)} R x : x ∈ concat (map r_p (filter P R)) -> x ∈ concat (map r_p R).
Proof.
  rewrite !list_elem_of_In, !in_concat. intros (k & Hk & Hx). exists k. split; [|done]. apply in_map_iff in Hk as (z & <- & Hz). apply in_map.
  apply list_elem_of_In in Hz. apply list_elem_of_In. by apply list_elem_of_filter in Hz as [_ Hz].
Qed.

Lemma tmr_loop_ok {F : Frame} todo : forall O fuel pre cs n s,
  (length todo <= fuel)%nat -> rget s = Reass (pre ++ todo) n -> Forall headless todo ->
  owned (i_heap s) cs (frags_in todo ++ O) -> heap_wf (i_heap s) -> NoDup (frags_in todo ++ O) ->
  pbufs_of cs (concat (map r_p (dead todo))) <= n < 65536 ->
  exists h' cs', tmr_loop custom_free buf odd_payload ip4_frag fuel (length pre) s =
      Some (rset (Reass (pre ++ map aged (alive todo)) (n - pbufs_of cs (concat (map r_p (dead todo))))) (iheap h' s)) /\
    owned h' cs' (frags_in (alive todo) ++ O) /\ heap_wf h' /\ (forall x, x ∈ frags_in (alive todo) ++ O -> cs' x = cs x).
Proof.
  induction todo as [|r todo IH]; intros O fuel pre cs n s Hfu Hst Hh HO Hwf Hnd Hn.
  - exists (i_heap s), cs. split_and!; try done. assert (Hl : reassdatagrams (rget s) !! length pre = None) by (rewrite Hst; cbn; rewrite app_nil_r; by apply lookup_ge_None).
    destruct fuel; cbn [tmr_loop]; rewrite Hl; unfold pbufs_of; cbn; rewrite Z.sub_0_r; f_equal; symmetry; by apply rset_self.
  - destruct fuel as [|fuel]; [cbn in Hfu; lia|]. cbn [tmr_loop]. rewrite Hst. cbn [reassdatagrams]. rewrite at_middle. apply Forall_cons in Hh as [Hr Hh]. rewrite frags_cons, <- app_assoc in HO, Hnd.
    unfold alive, dead in *. rewrite !filter_cons in *. destruct (Z.ltb_spec 0 (r_timer r)) as [Ht|Ht].
    + rewrite decide_True, decide_False in * by (tauto || lia). unfold set_datagrams; cbn [ip_reass_pbufcount]. rewrite set_middle.
      set (s1 := rset (Reass (pre ++ set_r_timer (r_timer r - 1) r :: todo) n) s).
      destruct (IH (map h_p (r_p r) ++ O) fuel (pre ++ [aged r]) cs n s1) as (h' & cs' & E & HO' & Hwf' & Hcs); try done.
      { cbn in Hfu. lia. } { unfold s1. rewrite rget_rset, <- app_assoc. done. }
      { by rewrite app_assoc, (Permutation_app_comm (frags_in todo)), <- app_assoc. }
      { by rewrite app_assoc, (Permutation_app_comm (frags_in todo)), <- app_assoc. }
      rewrite length_app, Nat.add_1_r in E. exists h', cs'. rewrite E. cbn [map]. rewrite frags_cons.
      assert (Hpm : Permutation ((map h_p (r_p r) ++ frags_in (filter (fun r => 0 < r_timer r) todo)) ++ O) (frags_in (filter (fun r => 0 < r_timer r) todo) ++ map h_p (r_p r) ++ O)).
      { rewrite !app_assoc. by rewrite (Permutation_app_comm (map h_p (r_p r))). }
      split_and!; [|by rewrite Hpm|done|].
      * unfold s1. rewrite iheap_rset, rset_rset, <- app_assoc. done.
      * intros x. rewrite Hpm. apply Hcs.
    + rewrite decide_False, decide_True in * by (tauto || lia). cbn [map concat] in Hn. rewrite pbufs_app in Hn.
      unfold ip_reass_free_complete_datagram. rewrite Hst. cbn [reassdatagrams]. rewrite at_middle. cbn [mbind option_bind]. unfold headless in Hr.
      destruct (r_p r) as [|h0 q0] eqn:Erp; [done|]. destruct (Z.eqb_spec (h_start h0) 0); [done|]. cbn [mbind option_bind].
      pose proof (pbufs_nonneg cs (concat (map r_p (filter (fun r => ~ 0 < r_timer r) todo)))). pose proof (pbufs_nonneg cs (h0 :: q0)).
      destruct (free_frags_ok (h0 :: q0) (frags_in todo ++ O) 0 cs s HO Hwf Hnd) as (h1 & cs1 & E1 & HO1 & Hwf1 & Hcs1); [done|lia|].
      rewrite E1. cbn [mbind option_bind]. unfold ip_reass_dequeue_datagram, set_datagrams, set_pbufcount. rewrite !rget_rset. change (rget (iheap h1 s)) with (rget s). rewrite Hst.
      cbn [reassdatagrams ip_reass_pbufcount]. rewrite drop_middle, rset_rset, Z.add_0_l, u16_small by lia.
      assert (Heq : pbufs_of cs1 (concat (map r_p (filter (fun r => ~ 0 < r_timer r) todo))) = pbufs_of cs (concat (map r_p (filter (fun r => ~ 0 < r_timer r) todo)))).
      { unfold pbufs_of. f_equal. apply map_same. intros x Hx. rewrite Hcs1; [done|]. apply elem_of_app. left. apply (list_elem_of_fmap_2 h_p). by eapply frags_filter. }
      destruct (IH O fuel pre cs1 (n - pbufs_of cs (h0 :: q0)) (rset (Reass (pre ++ todo) (n - pbufs_of cs (h0 :: q0))) (iheap h1 s))) as (h2 & cs2 & E2 & HO2 & Hwf2 & Hcs2).
      { cbn in Hfu. lia. } { apply rget_rset. } { done. } { done. } { done. } { by apply NoDup_app in Hnd as (_ & _ & Hnd). } { rewrite Heq. lia. }
      exists h2, cs2. split_and!; [|done|done|].
      * rewrite E2, Heq, iheap_rset, rset_rset. cbn [map concat]. rewrite Erp, pbufs_app. do 3 f_equal. lia.
      * intros x Hx. rewrite Hcs2 by done. apply Hcs1. apply elem_of_app in Hx as [Hx|Hx]; apply elem_of_app; [left|by right].
        apply (list_elem_of_fmap h_p) in Hx as (y & -> & Hy). apply (list_elem_of_fmap_2 h_p). by eapply frags_filter.
Qed.

End finish.
