(* ===== verification/Ip4ReassClaims.v ===== *)
(** What reassembly promises, and where it fails. *)
From Stdlib Require Import Sorting.Sorted.
From S2P Require Import Prelude Bits Def IpAddr Pbuf PbufData PbufChain PbufIO PbufLife PbufCopy PbufOwn PbufHdr Chksum NetifRec Netif.
From S2P Require Import XnetTap Ethernet Ip4Addr Etharp IpState NetifLoop Ip4Out Icmp EtharpClaims IpClaims IpUpper Ip4Frag Ip4ReassThm.

(** ** Fragments among others *)

(** Every byte up to [n] is in one of the fragments. *)
Definition covers (n : Z) (l : list helper) : Prop := forall x, 0 <= x < n -> exists h, h ∈ l /\ h_start h <= x < h_end h.

Lemma sorted_after a l x : Forall (before a) l -> Forall range_ok l -> x < h_start a -> forall h, h ∈ a :: l -> ~ h_start h <= x < h_end h.
Proof.
  intros Hb Hr Hx h [->|Hh]%elem_of_cons; [lia|]. rewrite Forall_forall in Hb. destruct (Hb h Hh). lia.
Qed.

Lemma last_end_max a l : StronglySorted before (a :: l) -> Forall range_ok (a :: l) -> forall h, h ∈ a :: l -> h_end h <= last_end a l.
Proof.
  revert a. induction l as [|b l IH]; intros a Hs Hr h Hh; [apply list_elem_of_singleton in Hh as ->; done|].
  apply StronglySorted_inv in Hs as [Hs Ha]. apply Forall_cons in Hr as [Hra Hr]. cbn [last_end].
  apply elem_of_cons in Hh as [->|Hh]; [|by apply IH]. pose proof (IH b Hs Hr b ltac:(by left)). apply Forall_cons in Ha as [[_ Ha] _], Hr as [Hb _]. unfold range_ok in Hb. lia.
Qed.

(** No holes: all bytes are there. *)
Lemma holes_covers a l :
  StronglySorted before (a :: l) -> Forall range_ok (a :: l) ->
  (no_holes a l = true /\ h_start a = 0 <-> covers (last_end a l) (a :: l)).
Proof.
  intros Hs Hr. split.
  - intros [Hn Ha] x Hx. apply contiguous_covers; [done|done|lia|].
    clear Hs Hn Ha. revert a Hr Hx. induction l as [|b l IH]; intros a Hr Hx; [exists a; split; [by left|cbn in Hx; lia]|].
    apply Forall_cons in Hr as [_ Hr]. destruct (IH b Hr Hx) as (h & Hh & ?). exists h. split; [by right|done].
  - intros Hc. assert (Ha : h_start a = 0).
    { apply Forall_cons in Hr as [Ha Hr]. apply StronglySorted_inv in Hs as [Hs Hb]. destruct (decide (h_start a = 0)) as [|Hn]; [done|]. exfalso.
      pose proof (last_end_max a l ltac:(by constructor) ltac:(by constructor) a ltac:(by left)). unfold range_ok in Ha.
      destruct (Hc 0) as (h & Hh & Hx); [lia|]. by apply (sorted_after a l 0 Hb Hr ltac:(lia) h Hh). }
    split; [|done]. clear Ha. assert (Hc' : forall x, h_start a <= x < last_end a l -> exists h, h ∈ a :: l /\ h_start h <= x < h_end h).
    { intros x Hx. apply Hc. apply Forall_cons in Hr as [Ha _]. unfold range_ok in Ha. lia. }
    clear Hc. revert a Hs Hr Hc'. induction l as [|b l IH]; intros a Hs Hr Hc; [done|]. cbn [no_holes last_end] in *.
    apply StronglySorted_inv in Hs as [Hs Ha]. apply Forall_cons in Hr as [Hra Hr]. pose proof (last_end_max b l Hs Hr b ltac:(by left)).
    apply Forall_cons in Ha as [[Hab1 Hab2] Ha]. pose proof Hr as [Hrb _]%Forall_cons. unfold range_ok in Hra, Hrb.
    assert (Heq : h_end a = h_start b).
    { destruct (decide (h_end a = h_start b)) as [|Hn]; [done|]. exfalso. destruct (Hc (h_end a)) as (h & Hh & Hx); [lia|].
      apply elem_of_cons in Hh as [->|Hh]; [lia|]. apply StronglySorted_inv in Hs as [_ Hb].
      apply (sorted_after b l (h_end a) Hb ltac:(by apply Forall_cons in Hr as [_ Hr]) ltac:(lia) h Hh Hx). }
    apply andb_true_iff. split; [by apply Z.eqb_eq|]. apply IH; [done|done|]. intros x Hx.
    destruct (Hc x) as (h & Hh & Hx'); [lia|]. apply elem_of_cons in Hh as [->|Hh]; [lia|]. by exists h.
Qed.

(** A fragment is refused exactly when its length is less than its header, when it
    ends behind byte 65535, or when it conflicts with a queued one: the same start, or
    common bytes.  Otherwise it is queued at the place of its offset, and the datagram
    is complete exactly when a last fragment has come and no byte is missing. *)
Theorem reass_place_spec ipr p hdr is_last len hlen off :
  frag_len hdr = Some len -> frag_hlen hdr = Some hlen -> frag_offset hdr = Some off -> 0 <= off < 65536 -> 0 <= hlen -> len < 65536 ->
  Forall range_ok (r_p ipr) -> StronglySorted before (r_p ipr) ->
  let new := Helper p off (off + (len - hlen)) in
  exists code ipr', ip_reass_chain_frag_into_datagram_and_validate ipr p hdr is_last = Some (code, ipr') /\
    (code = IP_REASS_VALIDATE_PBUF_DROPPED <-> len < hlen \/ 65536 <= h_end new \/ Exists (conflict new) (r_p ipr)) /\
    (code = IP_REASS_VALIDATE_PBUF_DROPPED -> ipr' = ipr) /\
    (code <> IP_REASS_VALIDATE_PBUF_DROPPED ->
       Permutation (r_p ipr') (new :: r_p ipr) /\ StronglySorted before (r_p ipr') /\ Forall range_ok (r_p ipr')) /\
    (code = IP_REASS_VALIDATE_TELEGRAM_FINISHED <->
       code <> IP_REASS_VALIDATE_PBUF_DROPPED /\ (is_last = true \/ r_flags ipr .& IP_REASS_FLAG_LASTFRAG <> 0) /\
       match r_p ipr' with [] => False | a :: l => covers (last_end a l) (a :: l) end).
Proof.
  intros El Eh Eo Hoff Hhl Hlen Hr Hs new. unfold ip_reass_chain_frag_into_datagram_and_validate. rewrite El, Eh. cbn [mbind option_bind].
  destruct (Z.ltb_spec len hlen) as [Hlt|Hge].
  { eexists _, ipr. split; [done|]. split_and!; [split; [by left|done]|done|done|]. split; [done|]. by intros [? _]. }
  rewrite Eo. cbn [mbind option_bind]. rewrite (u16_small (len - hlen)) by lia. cbn [h_end].
  destruct (decide (off + (len - hlen) < 65536)) as [Hfit|Hno].
  2: { assert (Hw : u16 (off + (len - hlen)) < off) by (unfold u16; change (2 ^ 16) with 65536; zdm; lia).
       destruct (Z.ltb_spec (u16 (off + (len - hlen))) off); [|lia]. eexists _, ipr. split; [done|].
       split_and!; [split; [by right; left; cbn; lia|done]|done|done|]. split; [done|]. by intros [? _]. }
  rewrite u16_small by lia. fold new. destruct (Z.ltb_spec (off + (len - hlen)) off); [lia|].
  assert (Hn : range_ok new) by (unfold range_ok, new; cbn; lia). pose proof (frag_place_spec new Hn (r_p ipr) None true Hr Hs I) as HP.
  destruct (frag_place new None true (r_p ipr)) as [[[bef aft] v]|].
  2: { eexists _, ipr. split; [done|]. split_and!; [split; [by right; right|done]|done|done|]. split; [done|]. by intros [? _]. }
  destruct HP as (Eq & H1 & H2 & Ev). cbn [set_r_p r_flags r_p]. set (l := bef ++ new :: aft).
  assert (Hs' : StronglySorted before l) by (apply sorted_insert; [by rewrite <- Eq|done|done]).
  assert (Hpm : Permutation l (new :: r_p ipr)) by (unfold l; rewrite Eq; symmetry; apply Permutation_middle).
  assert (Hr' : Forall range_ok l) by (rewrite Hpm; by constructor).
  assert (Hnc : ~ Exists (conflict new) (r_p ipr)).
  { rewrite Exists_exists. intros (t & Ht & Hx). rewrite Eq in Ht. rewrite Forall_forall in H1, H2, Hr. assert (Hrt : range_ok t) by (apply Hr; by rewrite Eq).
    apply elem_of_app in Ht as [Ht|Ht]; [pose proof (before_conflict t new Hrt Hn (H1 t Ht))|pose proof (before_conflict new t Hn Hrt (H2 t Ht))]; unfold conflict in *; lia. }
  assert (Hcov : v && match l with [] => false | h :: _ => (h_start h =? 0) && no_holes new aft end = true <-> match l with [] => False | a :: k => covers (last_end a k) (a :: k) end).
  { assert (Hv : v && no_holes new aft = contiguous l) by (rewrite Ev; cbn; by rewrite <- contiguous_app).
    destruct l as [|a k] eqn:Ea; [by destruct bef|]. rewrite <- holes_covers by done. cbn in Hv. rewrite <- Hv, !andb_true_iff, Z.eqb_eq. tauto. }
  destruct (is_last || negb (r_flags ipr .& IP_REASS_FLAG_LASTFRAG =? 0)) eqn:Elast.
  - assert (Hlast : is_last = true \/ r_flags ipr .& IP_REASS_FLAG_LASTFRAG <> 0).
    { apply orb_true_iff in Elast as [|Hx]; [by left|]. right. apply negb_true_iff, Z.eqb_neq in Hx. done. }
    destruct (v && _) eqn:Ed; (eexists _, (set_r_p l ipr); split; [done|]; cbn [set_r_p r_p]).
    + split_and!; [split; [done|]; intros [?|[?|?]]; [lia|cbn in *; lia|done]|done|done|]. split; [|done]. intros _. split_and!; [done|done|by apply Hcov].
    + split_and!; [split; [done|]; intros [?|[?|?]]; [lia|cbn in *; lia|done]|done|done|]. split; [done|]. intros (_ & _ & Hx%Hcov). done.
  - eexists _, (set_r_p l ipr). split; [done|]. cbn [set_r_p r_p]. split_and!; [split; [done|]; intros [?|[?|?]]; [lia|cbn in *; lia|done]|done|done|].
    split; [done|]. intros (_ & Hx & _). apply orb_false_iff in Elast as [-> Hf]. apply negb_false_iff, Z.eqb_eq in Hf. by destruct Hx.
Qed.

Lemma reass_place_spec_witness :
  let ipr := IpReassdata [Helper 1%positive 8 16] (replicate 20 0) 16 1 15 in
  let hdr := [0x45; 0; 0; 28; 0; 9; 0x20; 0; 64; 17; 0; 0; 10; 0; 0; 2; 10; 0; 0; 1] in
  exists code ipr', ip_reass_chain_frag_into_datagram_and_validate ipr 2%positive hdr false = Some (code, ipr') /\ code = IP_REASS_VALIDATE_TELEGRAM_FINISHED.
Proof.
  cbv zeta. set (ipr := IpReassdata [Helper 1%positive 8 16] (replicate 20 0) 16 1 15).
  set (hdr := [0x45; 0; 0; 28; 0; 9; 0x20; 0; 64; 17; 0; 0; 10; 0; 0; 2; 10; 0; 0; 1]).
  assert (Hr : Forall range_ok (r_p ipr)) by (constructor; [unfold range_ok; cbn; lia|constructor]).
  assert (Hs : StronglySorted before (r_p ipr)) by (repeat constructor).
  destruct (reass_place_spec ipr 2%positive hdr false 28 20 0 eq_refl eq_refl eq_refl ltac:(lia) ltac:(lia) ltac:(lia) Hr Hs) as (code & ipr' & E & _ & _ & _ & Hf).
  exists code, ipr'. split; [exact E|]. injection E as <- <-. reflexivity.
Defined.

(** ** Any order *)

(** C25. Reassembly does not depend on the order of arrival: when the fragments that
    make up the data [D] arrive in any order, none of them overlapping and with room
    for their pbufs, every call but the last keeps its fragment, and the last one
    returns one packet in the pbuf of the first fragment: the data, complete and in
    order, behind the first fragment's header with the new length, no offset, no flags
    and a checksum that verifies.  The queue and the pbuf count are as before, the
    other datagrams untouched. *)
Theorem ip4_reass_any_order {U : Upper} `{!Component reass} {F : Frame} custom_free buf odd_payload ip4_frag cs D K O l fs s c o :
  zlen D <= 65515 -> partition D l -> Permutation fs l -> Forall (fun h => frag_of D K (cs (h_p h)) h) l ->
  Forall (fun r => hdr_match (r_iphdr r) K = false) (reassdatagrams (rget s)) ->
  0 <= ip_reass_pbufcount (rget s) -> ip_reass_pbufcount (rget s) + pbufs_of cs l <= IP_REASS_MAX_PBUFS ->
  NoDup (map h_p l ++ O) -> owned (i_heap s) cs (map h_p l ++ O) -> h_orc (i_heap s) = Some c :: o ->
  exists p s', feed custom_free buf odd_payload ip4_frag (map h_p fs) s = Some (replicate (length fs - 1) None ++ [Some p], s') /\
    delivers F cs D (reassdatagrams (rget s)) (ip_reass_pbufcount (rget s)) O l p s s'.
Proof. apply feed_any_order. Qed.

(** ** Time *)
Section time.
  Context {U : Upper} `{!Component reass}.
  Context (custom_free : addr -> heap -> option heap) (buf : list Z) (odd_payload : addr -> pbuf -> bool).
  Context (ip4_frag : addr -> Z -> Z -> istate -> option (Z * istate)).

(** The timer, called [n] times. *)
Fixpoint ticks (n : nat) (s : istate) : option istate :=
  match n with O => Some s | S n => s ← ip_reass_tmr custom_free buf odd_payload ip4_frag s; ticks n s end.

Lemma aged_frags R : frags_in (map aged R) = frags_in R.
Proof. unfold frags_in. by rewrite map_map. Qed.

Lemma alive_dead cs R : pbufs_of cs (concat (map r_p (alive R))) + pbufs_of cs (concat (map r_p (dead R))) = pbufs_of cs (concat (map r_p R)).
Proof.
  unfold alive, dead. induction R as [|r R IH]; [done|]. rewrite !filter_cons. destruct (decide (0 < r_timer r)) as [H|H].
  - rewrite decide_False by tauto. cbn [map concat]. rewrite !pbufs_app. lia.
  - rewrite decide_True by tauto. cbn [map concat]. rewrite !pbufs_app. lia.
Qed.

Lemma alive_frags R : sublist (frags_in (alive R)) (frags_in R).
Proof.
  unfold alive. induction R as [|r R IH]; [done|]. rewrite filter_cons. destruct (decide (0 < r_timer r)); rewrite !frags_cons.
  - by apply sublist_app.
  - by apply sublist_inserts_l.
Qed.

Lemma ticks_ok {F : Frame} O k : forall R cs n s,
  rget s = Reass R n -> Forall headless R -> Forall (fun r => 0 <= r_timer r < Z.of_nat k) R ->
  owned (i_heap s) cs (frags_in R ++ O) -> heap_wf (i_heap s) -> NoDup (frags_in R ++ O) -> pbufs_of cs (concat (map r_p R)) <= n < 65536 ->
  exists h', ticks k s = Some (rset (Reass [] (n - pbufs_of cs (concat (map r_p R)))) (iheap h' s)) /\ owned h' cs O /\ heap_wf h'.
Proof.
  induction k as [|k IH]; intros R cs n s Hst Hh Ht HO Hwf Hnd Hn.
  - destruct R as [|r R]; [|apply Forall_cons in Ht as [? _]; lia]. exists (i_heap s). split_and!; [|done..]. cbn. unfold pbufs_of. cbn.
    rewrite Z.sub_0_r. f_equal. symmetry. by apply rset_self.
  - pose proof (alive_dead cs R) as Had. pose proof (pbufs_nonneg cs (concat (map r_p (alive R)))). pose proof (pbufs_nonneg cs (concat (map r_p (dead R)))).
    destruct (tmr_loop_ok custom_free buf odd_payload ip4_frag R O (length R) [] cs n s) as (h1 & cs1 & E1 & HO1 & Hwf1 & Hcs1); try done; [lia|].
    cbn [ticks]. unfold ip_reass_tmr. rewrite Hst. cbn [reassdatagrams length app] in *. rewrite E1. cbn [mbind option_bind].
    assert (Eq : pbufs_of cs1 (concat (map r_p (map aged (alive R)))) = pbufs_of cs (concat (map r_p (alive R)))).
    { rewrite map_map. unfold pbufs_of. f_equal. apply map_same. intros x Hx. rewrite Hcs1; [done|]. apply elem_of_app. left. by apply (list_elem_of_fmap_2 h_p). }
    destruct (IH (map aged (alive R)) cs1 (n - pbufs_of cs (concat (map r_p (dead R)))) (rset (Reass (map aged (alive R)) (n - pbufs_of cs (concat (map r_p (dead R))))) (iheap h1 s)))
      as (h2 & E2 & HO2 & Hwf2).
    { apply rget_rset. }
    { apply Forall_map. unfold alive. apply Forall_forall. intros r [_ Hr]%list_elem_of_filter. rewrite Forall_forall in Hh. exact (Hh r Hr). }
    { apply Forall_map. unfold alive. apply Forall_forall. intros r Hr. apply list_elem_of_filter in Hr as [Hr0 Hr]. rewrite Forall_forall in Ht. specialize (Ht r Hr). cbn. lia. }
    { by rewrite aged_frags. } { done. }
    { rewrite aged_frags. eapply sublist_NoDup; [exact Hnd|]. apply sublist_app; [apply alive_frags|done]. }
    { rewrite Eq. lia. }
    exists h2. split_and!; [| |done].
    + rewrite E2, Eq, iheap_rset, rset_rset. do 3 f_equal. lia.
    + eapply owned_ext; [|exact HO2]. intros x Hx. symmetry. apply Hcs1, elem_of_app. by right.
Qed.


End time.

(** ** A concrete datagram *)
#[local] Instance exr_upper : Upper := {| upper := reass; held := fun _ => []; up_ok := fun _ => True |}.

#[local] Instance exr_component : Component reass.
Proof. refine {| comp_get := fun u => u; comp_set := fun a _ => a |}; done. Defined.

(** The header of a fragment: its total length and its offset field. *)
Definition exr_hdr (len field : Z) : list Z :=
  [0x45; 0] ++ bytes16 (lwip_htons len) ++ [0; 9] ++ bytes16 (lwip_htons field) ++ [64; 17; 0; 0; 10; 0; 0; 2; 10; 0; 0; 1].

Definition exr_pbuf (field : Z) (d : list Z) : pbuf := exi_pbuf (exr_hdr (20 + zlen d) field ++ d).

Definition exr_s (pbufs : gmap addr pbuf) : istate :=
  IState (lheap (Heap pbufs 9%positive [Some []] false []) (exi_l (exi_pbuf []) ∅)) [] [] 7 None (IpGlobals None None None 0 0 0) (Reass [] 0).

Definition exr_nofree : addr -> heap -> option heap := fun _ _ => None.
Definition exr_nofrag : addr -> Z -> Z -> istate -> option (Z * istate) := fun _ _ _ _ => None.
Definition exr_even : addr -> pbuf -> bool := fun _ _ => false.

Definition exr_data : list Z := [1; 2; 3; 4; 5; 6; 7; 8; 9; 10; 11; 12].

(** The first eight bytes are in pbuf 2, the others in pbuf 1. *)
Definition exr_second : pbuf := exr_pbuf 1 (zdrop 8 exr_data).
Definition exr_first : pbuf := exr_pbuf 0x2000 (ztake 8 exr_data).

Definition exr_cs (p : addr) : list (addr * pbuf) := if decide (p = 1%positive) then [(1%positive, exr_second)] else [(2%positive, exr_first)].

Definition exr_pbufs : gmap addr pbuf := {[1%positive := exr_second; 2%positive := exr_first]}.

Lemma exr_owned : owned (F := no_frame) (i_heap (exr_s exr_pbufs)) exr_cs [2; 1]%positive.
Proof.
  apply owned_singles.
  - apply (bool_decide_unpack _); vm_compute; exact I.
  - intros p Hp. rewrite !elem_of_cons, elem_of_nil in Hp. destruct Hp as [->|[->|[]]]; eexists; (split; [reflexivity|]; split; [reflexivity|]).
    + exact (exi_good (exr_hdr 28 0x2000 ++ ztake 8 exr_data) eq_refl).
    + exact (exi_good (exr_hdr 24 1 ++ zdrop 8 exr_data) eq_refl).
  - intros a [b Hg]. unfold get, exr_pbufs in Hg. cbn in Hg. apply lookup_insert_Some in Hg as [[<- _]|[_ Hg]]; [set_solver|].
    apply lookup_singleton_Some in Hg as [<- _]. set_solver.
Qed.

Lemma exr_wf : heap_wf (i_heap (exr_s exr_pbufs)).
Proof.
  intros a b Hg. unfold get, exr_pbufs in Hg. cbn in Hg. apply lookup_insert_Some in Hg as [[<- _]|[_ Hg]]; [done|]. by apply lookup_singleton_Some in Hg as [<- _].
Qed.

Definition exr_parts : list helper := [Helper 2%positive 0 8; Helper 1%positive 8 12].

Lemma exr_partition : partition exr_data exr_parts.
Proof.
  split.
  - apply SSorted_cons; [apply SSorted_cons; [apply SSorted_nil|constructor]|]. constructor; [unfold before; cbn; lia|constructor].
  - constructor; [|constructor; [|constructor]]; (split; [split|]; vm_compute; (reflexivity || discriminate)).
  - reflexivity.
  - reflexivity.
  - exists (Helper 1%positive 8 12). split; [by right; left|reflexivity].
Qed.

Lemma exr_frags : Forall (fun h => frag_of exr_data (exr_hdr 0 0) (exr_cs (h_p h)) h) exr_parts.
Proof.
  constructor; [|constructor; [|constructor]].
  all: split; try reflexivity; [split; [split|]; vm_compute; (reflexivity || discriminate)|vm_compute; discriminate|apply (bool_decide_unpack _); vm_compute; exact I|].
  all: eexists; split; reflexivity.
Qed.

Lemma ip4_reass_any_order_witness :
  exists p s', feed exr_nofree [] exr_even exr_nofrag [1; 2]%positive (exr_s exr_pbufs) = Some ([None; Some p], s') /\
    delivers no_frame exr_cs exr_data [] 0 [] exr_parts p (exr_s exr_pbufs) s'.
Proof.
  exact (ip4_reass_any_order (F := no_frame) exr_nofree [] exr_even exr_nofrag exr_cs exr_data (exr_hdr 0 0) [] exr_parts
    [Helper 1%positive 8 12; Helper 2%positive 0 8] (exr_s exr_pbufs) [] []
    ltac:(vm_compute; discriminate) exr_partition ltac:(apply perm_swap) exr_frags ltac:(constructor) ltac:(vm_compute; discriminate)
    ltac:(vm_compute; discriminate) ltac:(apply (bool_decide_unpack _); vm_compute; exact I) exr_owned eq_refl).
Defined.

(** The second fragment alone, kept for some time. *)
Definition exr_waiting : istate :=
  rset (Reass [IpReassdata [Helper 1%positive 8 12] (exr_hdr 24 1) 12 1 5] 1) (exr_s exr_pbufs).


(** ** Too much data *)

(** A last fragment of eight bytes at the start, and two that are not the last ones,
    from byte 8 to byte 65535. *)
Definition exr_huge : gmap addr pbuf :=
  {[1%positive := exr_pbuf 0x2001 (replicate (Z.to_nat 40000) 7); 2%positive := exr_pbuf (0x2000 + 5001) (replicate (Z.to_nat 25527) 7); 3%positive := exr_pbuf 0 (replicate 8 7)]}.

(** Three pbufs in a row, and their lengths. *)
Definition chain3 (h : heap) (a b c : addr) : option (Z * Z * Z * Z) :=
  x ← get h a; y ← get h b; z ← get h c;
  if bool_decide (pb_next x = Some b /\ pb_next y = Some c /\ pb_next z = None) then Some (pb_tot_len x, pb_len x, pb_len y, pb_len z) else None.

(** Fragments behind the last one are not refused, and their data counts: three
    well-formed fragments, the last one of which ends at byte 8 and the others at byte
    65535, are joined to a packet of 65555 bytes whose total length, a 16-bit number,
    is 19, less than the length of its first pbuf. *)
Theorem reass_len_wraps :
  Forall (fun p => exists b, exr_huge !! p = Some b /\ exa_good b) [1; 2; 3]%positive /\
  exists s', feed exr_nofree [] exr_even exr_nofrag [1; 2; 3]%positive (exr_s exr_huge) = Some ([None; None; Some 3%positive], s') /\
    chain3 (i_heap s') 3%positive 1%positive 2%positive = Some (19, 28, 40000, 25527).
Proof.
  split.
  - repeat constructor; (eexists; split; [reflexivity|]; apply exi_good; vm_compute; reflexivity).
  - assert (Hc : match feed exr_nofree [] exr_even exr_nofrag [1; 2; 3]%positive (exr_s exr_huge) with
      | Some (rs, s') => bool_decide (rs = [None; None; Some 3%positive] /\ chain3 (i_heap s') 3%positive 1%positive 2%positive = Some (19, 28, 40000, 25527))
      | None => false
      end = true) by (vm_compute; reflexivity).
    destruct (feed _ _ _ _ _ _) as [[rs s']|]; [|done]. apply bool_decide_eq_true in Hc as [-> Hc]. by exists s'.
Qed.
