(* ===== verification/Ip4FragThm.v ===== *)
(** Fragmentation: a fragment under construction beside the datagram it refers to, and
    what the loop of [ip4_frag] hands to the interface. *)
From S2P Require Import Prelude Bits Def IpAddr Pbuf PbufData PbufChain PbufIO PbufLife PbufCopy PbufOwn PbufHdr Chksum NetifRec Netif.
From S2P Require Import XnetTap Ethernet Ip4Addr Etharp IpState NetifLoop Ip4Out Icmp Ip4Hdr IpUpper Ip4Frag Ip4ReassThm.

(** ** A fragment under construction *)

(** A pbuf of the datagram, while the custom pbufs of the originals [os] live. *)
Definition bump (os : list addr) (a : addr) (b : pbuf) : pbuf := set_ref (pb_ref b + occ a os) b.

Definition custom_for (orig : originals) (c : addr * pbuf) (o : addr) : Prop :=
  pb_flags c.2 .& PBUF_FLAG_IS_CUSTOM <> 0 /\ orig !! c.1 = Some o.

(** The pbufs [k] of a fragment, beside the store [h0]: each custom pbuf has a reference
    to its original, and nothing else of the store has changed. *)
Record beside (h0 : heap) (os : list addr) (k : list (addr * pbuf)) (h : heap) : Prop := Beside {
  bs_new : forall a, a ∈ fst <$> k -> get h0 a = None;
  bs_old : forall a, a ∉ fst <$> k -> get h a = bump os a <$> get h0 a;
  bs_once : Forall (fun c => pb_ref c.2 = 1) k;
  bs_live : Forall (fun o => exists b, get h0 o = Some b /\ 0 < pb_ref b < 255) os;
  bs_nodup : NoDup os;
}.

(** The two stores have the same pbufs. *)
Definition same_store (h h' : heap) : Prop := forall a, get h' a = get h a.

Lemma occ_fresh a os : a ∉ os -> occ a os = 0.
Proof. intros H. pose proof (occ_nonneg a os). pose proof (occ_pos a os) as Hp. destruct (decide (1 <= occ a os)) as [Hx|]; [|lia]. by apply Hp in Hx. Qed.

Lemma bump_fresh os a b : a ∉ os -> bump os a b = b.
Proof. intros H. unfold bump. rewrite occ_fresh by done. rewrite Z.add_0_r. by destruct b. Qed.

Lemma bump_cons_ne o os a b : a <> o -> bump (o :: os) a b = bump os a b.
Proof. intros H. unfold bump. cbn. by rewrite decide_False. Qed.

Lemma free_original o b (h : heap) r :
  get h o = Some b -> pb_ref b = r + 1 -> 0 < r < 255 ->
  pbuf_free (fun _ _ => None) (Some o) h = Some (0, put h o (set_ref r b)).
Proof.
  intros Hg Hb Hr. unfold pbuf_free, chain_fuel. cbn [pbuf_free_loop]. rewrite Hg. cbn [mbind option_bind]. rewrite Hb, Z.add_simpl_r, u8_small by lia.
  destruct (Z.eqb_spec r 0); [lia|done].
Qed.

Lemma custom_free_ok orig a o b (h : heap) r :
  orig !! a = Some o -> get h o = Some b -> pb_ref b = r + 1 -> 0 < r < 255 ->
  ipfrag_free_pbuf_custom orig a h = Some (del (put h o (set_ref r b)) a).
Proof. intros Ho Hg Hb Hr. unfold ipfrag_free_pbuf_custom. rewrite Ho. cbn [mbind option_bind]. by rewrite (free_original o b h r). Qed.

Lemma beside_drop h0 o os c k h b :
  beside h0 (o :: os) (c :: k) h -> c.1 ∉ fst <$> k -> get h0 o = Some b ->
  beside h0 os k (del (put (put h c.1 (set_ref 0 c.2)) o (set_ref (pb_ref b) b)) c.1).
Proof.
  intros [Hn Ho H1 Hl Hnd] Hc Hb. apply NoDup_cons in Hnd as [Hno Hnd]. apply Forall_cons in H1 as [_ H1]. apply Forall_cons in Hl as [_ Hl].
  split; [|..|done|done|done].
  - intros a Ha. apply Hn. by right.
  - intros a Ha. destruct (decide (a = c.1)) as [->|Hac].
    + rewrite get_del_eq, Hn by (by left). done.
    + rewrite get_del_ne by done. destruct (decide (a = o)) as [->|Hao].
      * rewrite get_put_eq, Hb. cbn. rewrite bump_fresh by done. by destruct b.
      * rewrite !get_put_ne by done. rewrite Ho by (rewrite fmap_cons, elem_of_cons; tauto). destruct (get h0 a); [|done]. cbn. by rewrite bump_cons_ne.
Qed.

Lemma beside_orig h0 o os k h : beside h0 (o :: os) k h -> exists b, get h0 o = Some b /\ 0 < pb_ref b < 255 /\ get h o = Some (bump (o :: os) o b) /\ pb_ref (bump (o :: os) o b) = pb_ref b + 1 /\ (o ∉ fst <$> k).
Proof.
  intros [Hn Ho _ Hl Hnd]. apply Forall_cons in Hl as [(b & Hb & Hr) _]. apply NoDup_cons in Hnd as [Hno _]. exists b.
  assert (Hok : o ∉ fst <$> k) by (intros Hx; apply Hn in Hx; congruence).
  split_and!; [done|lia|lia|by rewrite Ho, Hb| |done]. unfold bump. cbn. rewrite decide_True, occ_fresh by done. lia.
Qed.

(** Freeing the custom pbufs gives the originals their references back. *)
Lemma free_customs orig h0 : forall k os h p count fuel,
  lseg h p k None -> NoDup (fst <$> k) -> Forall2 (custom_for orig) k os -> beside h0 os k h -> (length k < fuel)%nat ->
  exists n h', pbuf_free_loop (ipfrag_free_pbuf_custom orig) fuel p count h = Some (n, h') /\ same_store h0 h' /\ h_orc h' = h_orc h /\ h_next h' = h_next h.
Proof.
  induction k as [|[a b] k IH]; intros os h p count fuel Hs Hnd HF HB Hf; (destruct fuel as [|fuel]; [cbn in Hf; lia|]).
  - cbn in Hs. subst p. apply Forall2_nil_inv_l in HF as ->. exists count, h. split_and!; [done| |done|done]. intros x. destruct HB as [_ Ho _ _ _].
    rewrite Ho by by intros ?%elem_of_nil. destruct (get h0 x); [|done]. cbn. by rewrite bump_fresh by by intros ?%elem_of_nil.
  - apply Forall2_cons_inv_l in HF as (o & os' & [Hcu Hor] & HF & ->). destruct Hs as (-> & Hg & Hs). rewrite fmap_cons in Hnd. apply NoDup_cons in Hnd as [Ha Hnd].
    cbn [fst snd] in *. pose proof HB as [Hnew _ [H1 _]%Forall_cons _ _]. cbn [snd] in H1.
    destruct (beside_orig _ _ _ _ _ HB) as (b0 & Hb0 & Hr0 & Hgo & Hro & Hok). cbn [pbuf_free_loop]. rewrite Hg. cbn [mbind option_bind]. rewrite H1. change (u8 (1 - 1)) with 0. cbn [Z.eqb].
    assert (Hoa : o <> a) by (rewrite fmap_cons, elem_of_cons in Hok; tauto).
    unfold pbuf_dealloc. destruct (Z.eqb_spec (pb_flags b .& PBUF_FLAG_IS_CUSTOM) 0) as [|_]; [done|]. cbn [negb]. 
    erewrite custom_free_ok; [|exact Hor|by rewrite get_put_ne|exact Hro|done]. cbn [mbind option_bind].
    pose proof (beside_drop h0 o os' (a, b) k h b0 HB Ha Hb0) as HB'. cbn [fst snd] in HB'.
    replace (set_ref (pb_ref b0) (bump (o :: os') o b0)) with (set_ref (pb_ref b0) b0) by by destruct b0.
    assert (Hs' : lseg (del (put (put h a (set_ref 0 b)) o (set_ref (pb_ref b0) b0)) a) (pb_next b) k None).
    { eapply lseg_frame; [|exact Hs]. intros x Hx. assert (x <> a) by (intros ->; done). rewrite get_del_ne by done.
      rewrite fmap_cons, elem_of_cons in Hok. rewrite !get_put_ne; [done|done|]. intros ->. tauto. }
    destruct (IH os' _ (pb_next b) (u8 (count + 1)) fuel Hs' Hnd HF HB' ltac:(cbn in Hf; lia)) as (n & h' & E & HS & Eo & En).
    exists n, h'. split_and!; [exact E|done|exact Eo|exact En].
Qed.

(** The fragment: a pbuf of its own with the header [hdr], then custom pbufs. *)
Record building (h0 : heap) (orig : originals) (os : list addr) (r : addr) (hdr : list Z) (k : list (addr * pbuf)) (h : heap) : Prop := Building {
  bd_packet : packet h (Some r) k;
  bd_beside : beside h0 os k h;
  bd_head : exists rb t, k = (r, rb) :: t /\ pb_std rb /\ pb_bytes rb = hdr /\ Forall2 (custom_for orig) t os;
  bd_wf : heap_wf h;
}.

Lemma free_fragment orig h0 os r rb t h :
  lseg h (Some r) ((r, rb) :: t) None -> NoDup (fst <$> (r, rb) :: t) -> beside h0 os ((r, rb) :: t) h -> pb_std rb -> Forall2 (custom_for orig) t os ->
  exists n h', pbuf_free (ipfrag_free_pbuf_custom orig) (Some r) h = Some (n, h') /\ same_store h0 h' /\ h_orc h' = h_orc h /\ h_next h' = h_next h.
Proof.
  intros Hl Hnd [Hn Ho H1 Hlv Hns] Hstd HF. pose proof (lseg_length _ _ _ Hl Hnd) as Hlen. rewrite fmap_cons in Hnd. apply NoDup_cons in Hnd as [Hr Hnd].
  destruct Hl as (_ & Hg & Hl). cbn [fst] in *. apply Forall_cons in H1 as [H1 H1t]. cbn [snd] in H1.
  unfold pbuf_free. destruct (chain_fuel h) as [|fuel] eqn:Ef; [cbn in Hlen; lia|]. cbn [pbuf_free_loop]. rewrite Hg. cbn [mbind option_bind]. rewrite H1. change (u8 (1 - 1)) with 0. cbn [Z.eqb].
  rewrite pbuf_dealloc_std, del_put by done. cbn [mbind option_bind].
  apply (free_customs orig h0 t os (del h r) (pb_next rb) _ fuel); [by apply lseg_del|done|done| |cbn in Hlen; lia].
  split; [|..|done|done|done].
  - intros a Ha. apply Hn. by right.
  - intros a Ha. destruct (decide (a = r)) as [->|Har]; [rewrite get_del_eq, Hn by (by left); done|].
    rewrite get_del_ne by done. apply Ho. by rewrite fmap_cons, not_elem_of_cons.
Qed.

Lemma building_free h0 orig os r hdr k h :
  building h0 orig os r hdr k h ->
  exists n h', pbuf_free (ipfrag_free_pbuf_custom orig) (Some r) h = Some (n, h') /\ same_store h0 h' /\ h_orc h' = h_orc h /\ h_next h' = h_next h.
Proof. intros [[Hl Hnd _ _ _] HB (rb & t & -> & Hs & _ & HF) _]. by eapply free_fragment. Qed.

Lemma cat_cells_kept l t n : Forall2 (fun c c' => c'.1 = c.1 /\ pb_ref c'.2 = pb_ref c.2 /\ pb_flags c'.2 = pb_flags c.2 /\ pb_type c'.2 = pb_type c.2 /\ pb_bytes c'.2 = pb_bytes c.2) l (cat_cells l t n).
Proof. induction l as [|[a b] [|c l] IH]; [constructor|by repeat constructor|]. constructor; [done|exact IH]. Qed.

Lemma cat_loop_alloc t fuel : forall p h r, pbuf_cat_loop fuel p t h = Some r -> h_orc r.2 = h_orc h /\ h_next r.2 = h_next h.
Proof.
  induction fuel as [|fuel IH]; intros p h r; [done|]. cbn [pbuf_cat_loop]. destruct (get h p) as [b|]; [|done]. cbn [mbind option_bind].
  destruct (pb_next b) as [n|]; [|by intros [= <-]]. destruct (get h t) as [tb|]; [|done]. cbn [mbind option_bind]. by intros H%IH.
Qed.

Lemma cat_alloc p t h h' : pbuf_cat (Some p) (Some t) h = Some h' -> h_orc h' = h_orc h /\ h_next h' = h_next h.
Proof.
  unfold pbuf_cat. destruct (pbuf_cat_loop _ p t h) as [[a h1]|] eqn:E; [|done]. cbn [mbind option_bind]. apply cat_loop_alloc in E as [E1 E2]. cbn in E1, E2.
  destruct (get h1 t); [|done]. destruct (get h1 a); [|done]. by intros [= <-].
Qed.

(** The custom pbuf for the bytes [bs]. *)
Definition custom_pbuf (bs : list Z) : pbuf := pbuf_init_alloced_pbuf bs 0 (zlen bs) (zlen bs) PBUF_REF PBUF_FLAG_IS_CUSTOM.

Lemma get_beside h0 os k h p b : beside h0 os k h -> get h0 p = Some b -> p ∉ os -> get h p = Some b /\ (p ∉ fst <$> k).
Proof.
  intros HB Hp Hno. assert (Hk : p ∉ fst <$> k) by (intros Hx%(bs_new _ _ _ _ HB); congruence). split; [|done].
  rewrite (bs_old _ _ _ _ HB) by done. rewrite Hp. cbn. by rewrite bump_fresh.
Qed.

Lemma Forall2_snoc {A B} (P : A -> B -> Prop) l k x y : Forall2 P l k -> P x y -> Forall2 P (l ++ [x]) (k ++ [y]).
Proof. intros H Hx. apply Forall2_app; [done|]. by constructor. Qed.

Lemma occ_snoc a os p : occ a (os ++ [p]) = occ a os + (if decide (a = p) then 1 else 0).
Proof. rewrite occ_app. cbn. lia. Qed.

Lemma custom_packet h q bs : get h q = Some (custom_pbuf bs) -> zlen bs < 65536 -> packet h (Some q) [(q, custom_pbuf bs)].
Proof.
  intros Hg Hb. apply packet_single; [done| |done|done]. pose proof (zlen_nonneg bs). unfold pb_ok. cbn. lia.
Qed.

(** One more custom pbuf. *)
Lemma building_append h0 orig os r hdr k h q h1 p b bs :
  building h0 orig os r hdr k h -> same_store h h1 -> q = h_next h -> h_next h1 = Pos.succ (h_next h) ->
  get h0 p = Some b -> 0 < pb_ref b < 255 -> p ∉ os -> sum_len k + zlen bs < 65536 ->
  exists h2 h3 k', pbuf_ref (Some p) (put h1 q (custom_pbuf bs)) = Some h2 /\ pbuf_cat (Some r) (Some q) h2 = Some h3 /\
    building h0 (<[q := p]> orig) (os ++ [p]) r hdr k' h3 /\ content k' = content k ++ bs /\ sum_len k' = sum_len k + zlen bs /\ h_orc h3 = h_orc h1.
Proof.
  intros [Hk HB (rb & t & Ek & Hstd & Hhd & HF) Hwf] Hsame Hq Hn1 Hp Hr Hno Hsum. destruct (get_beside _ _ _ _ _ _ HB Hp Hno) as [Hgp Hpk].
  assert (Hfree : get h q = None).
  { destruct (get h q) as [x|] eqn:E; [|done]. apply Hwf in E. subst q. lia. }
  assert (Hqk : q ∉ fst <$> k).
  { intros Hx. apply list_elem_of_fmap in Hx as ([x y] & E & Hx). cbn in E. subst x. destruct Hk as [Hl _ _ _ _]. pose proof (lseg_get _ _ _ _ _ _ Hl Hx). congruence. }
  assert (Hq0 : get h0 q = None).
  { pose proof (bs_old _ _ _ _ HB q Hqk) as E. rewrite Hfree in E. by destruct (get h0 q). }
  assert (Hpq : p <> q) by congruence.
  set (h2 := put (put h1 q (custom_pbuf bs)) p (set_ref (pb_ref b + 1) b)).
  assert (E2 : pbuf_ref (Some p) (put h1 q (custom_pbuf bs)) = Some h2).
  { cbn. rewrite get_put_ne, Hsame, Hgp by done. cbn. rewrite u8_small by lia. done. }
  assert (Hg2 : forall a, get h2 a = if decide (a = p) then Some (set_ref (pb_ref b + 1) b) else if decide (a = q) then Some (custom_pbuf bs) else get h a).
  { intros a. unfold h2. destruct (decide (a = p)) as [->|]; [apply get_put_eq|]. rewrite get_put_ne by done. destruct (decide (a = q)) as [->|]; [apply get_put_eq|]. by rewrite get_put_ne, Hsame. }
  assert (Hk2 : packet h2 (Some r) k).
  { eapply packet_frame; [|exact Hk]. intros a Ha. rewrite Hg2, !decide_False; [done|by intros ->..]. }
  assert (Hc2 : packet h2 (Some q) [(q, custom_pbuf bs)]).
  { pose proof Hk as [_ _ Ho _ _]. pose proof (sum_len_nonneg _ Ho). apply custom_packet; [|lia]. by rewrite Hg2, decide_False, decide_True. }
  assert (Es : sum_len [(q, custom_pbuf bs)] = zlen bs) by (cbn; lia).
  destruct (pbuf_cat_ok h2 r q k [(q, custom_pbuf bs)] Hk2 Hc2 ltac:(set_solver) ltac:(lia)) as (h3 & E3 & Hk3 & Hfr).
  pose proof (cat_alloc _ _ _ _ E3) as [Eo En]. set (k' := cat_cells k q (sum_len [(q, custom_pbuf bs)]) ++ [(q, custom_pbuf bs)]) in *.
  assert (Hfst : fst <$> k' = (fst <$> k) ++ [q]) by (unfold k'; by rewrite fmap_app, cat_cells_fst).
  pose proof (cat_cells_kept k q (sum_len [(q, custom_pbuf bs)])) as Hkept.
  exists h2, h3, k'. split_and!; [done|done| | | |by rewrite Eo].
  2: { unfold k'. rewrite content_app, cat_cells_content. f_equal. cbn. rewrite app_nil_r. unfold pb_bytes. cbn. rewrite zdrop_0, ztake_ge by lia. done. }
  2: { unfold k'. rewrite sum_len_app, cat_cells_sum, Es. done. }
  split; [done|..].
  - destruct HB as [Hn Ho H1 Hlv Hns]. split.
    + intros a. rewrite Hfst, elem_of_app, list_elem_of_singleton. intros [Ha| ->]; [by apply Hn|done].
    + intros a. rewrite Hfst, not_elem_of_app, not_elem_of_cons. intros (Ha & Haq & _). rewrite Hfr, Hg2 by done. destruct (decide (a = p)) as [->|Hap].
      * rewrite Hp. cbn. unfold bump. rewrite occ_snoc, occ_fresh, decide_True by done. f_equal.
      * rewrite decide_False, Ho by done. unfold bump. rewrite occ_snoc, decide_False, Z.add_0_r by done. done.
    + unfold k'. apply Forall_app. split; [|by constructor]. clear -Hkept H1. induction Hkept as [|c c' l l' (_ & Hc & _) _ IH]; [constructor|].
      apply Forall_cons in H1 as [H1 H1']. constructor; [by rewrite Hc|by apply IH].
    + apply Forall_app. split; [done|]. constructor; [eauto|constructor].
    + apply NoDup_app. split_and!; [done| |apply NoDup_singleton]. intros x Hx ->%list_elem_of_singleton. done.
  - unfold k'. rewrite Ek in Hkept |- *. apply Forall2_cons_inv_l in Hkept as ([r' rb'] & t' & (E1 & E4 & E5 & E6 & E7) & Ht & Ec). cbn in E1, E4, E5, E6, E7. subst r'.
    rewrite Ec. exists rb', (t' ++ [(q, custom_pbuf bs)]). split_and!; [done| |by rewrite E7|].
    + unfold pb_std, pbuf_get_allocsrc in *. by rewrite E5, E6.
    + apply Forall2_snoc; [|split; [done|apply lookup_insert_eq]].
      assert (Hqt : q ∉ fst <$> t) by (rewrite Ek, fmap_cons, not_elem_of_cons in Hqk; tauto).
      clear -HF Ht Hqt. revert os HF. induction Ht as [|c c' l l' (H1 & _ & H2 & _) _ IH]; intros os HF; [by apply Forall2_nil_inv_l in HF as ->; constructor|].
      apply Forall2_cons_inv_l in HF as (o & os' & [Hc1 Hc2] & HF & ->). rewrite fmap_cons, not_elem_of_cons in Hqt. destruct Hqt as [Hq1 Hq2].
      constructor; [|by apply IH]. split; [by rewrite H2|]. rewrite H1. etrans; [by apply lookup_insert_ne|done].
  - intros a x Hx. rewrite En. change (h_next h2) with (h_next h1). rewrite Hn1. destruct (decide (a ∈ fst <$> k)) as [Ha|Ha].
    + apply list_elem_of_fmap in Ha as ([y z] & -> & Ha). destruct Hk as [Hl _ _ _ _]. pose proof (lseg_get _ _ _ _ _ _ Hl Ha) as Hg. apply Hwf in Hg. cbn. lia.
    + rewrite Hfr, Hg2 in Hx by done. destruct (decide (a = p)) as [->|]; [apply Hwf in Hgp; lia|]. destruct (decide (a = q)) as [->|]; [lia|]. apply Hwf in Hx. lia.
Qed.

(** ** Copying *)

(** The pbufs of the datagram from [p] on, which no custom pbuf refers to yet. *)
Record source (h0 : heap) (os : list addr) (p : addr) (lo : list (addr * pbuf)) : Prop := Source {
  so_lseg : lseg h0 (Some p) lo None;
  so_ok : Forall (fun c => pb_ok c.2 /\ pb_ref c.2 < 255) lo;
  so_fresh : NoDup (os ++ (fst <$> lo));
  so_sum : sum_len lo < 65536;
}.

Lemma source_cons h0 os p lo : source h0 os p lo -> exists b t, lo = (p, b) :: t /\ get h0 p = Some b /\ pb_ok b /\ pb_ref b < 255 /\ (p ∉ os) /\ 0 <= sum_len t /\
  lseg h0 (pb_next b) t None.
Proof.
  intros [Hl Ho Hf Hs]. destruct lo as [|[a b] t]; [done|]. destruct Hl as ([= ->] & Hg & Hl). apply Forall_cons in Ho as [[Hb Hr] Ho]. exists b, t.
  split_and!; try done. { apply NoDup_app in Hf as (_ & Hd & _). intros Hx. apply (Hd a Hx). by left. }
  apply sum_len_nonneg. eapply Forall_impl; [exact Ho|]. by intros ? [? _].
Qed.

Lemma source_next h0 os os' p b t n : source h0 os p ((p, b) :: t) -> pb_next b = Some n -> (os' = os \/ os' = os ++ [p]) -> source h0 os' n t.
Proof.
  intros [Hl Ho Hf Hs] Hn Hos. apply Forall_cons in Ho as [[(Hb & _) _] Ho]. destruct Hl as (_ & _ & Hl). cbn [sum_len snd] in *. split; [by rewrite <- Hn|done| |lia].
  rewrite fmap_cons in Hf. destruct Hos as [->| ->].
  - apply NoDup_app in Hf as (H1 & H2 & [_ H3]%NoDup_cons). apply NoDup_app. split_and!; [done| |done]. intros x Hx Hx'. apply (H2 x Hx). by right.
  - by rewrite <- app_assoc.
Qed.

Lemma source_more h0 os p b t : source h0 os p ((p, b) :: t) -> 0 < sum_len t -> exists n, pb_next b = Some n.
Proof. intros [(_ & _ & Hl) _ _ _] Ht. destruct t as [|[n c] t]; [cbn in Ht; lia|]. destruct Hl as (-> & _). by exists n. Qed.

(** Where the copying ended: at offset [poff] of a pbuf of the datagram. *)
Definition position (lo : list (addr * pbuf)) (n : Z) (p : addr) (poff : Z) : Prop :=
  exists lo1 b lo2, lo = lo1 ++ (p, b) :: lo2 /\ 0 <= poff <= pb_len b /\ sum_len lo1 + poff = n.

Lemma position_next a b t n p poff : position t (n - pb_len b) p poff -> position ((a, b) :: t) n p poff.
Proof. intros (lo1 & b' & lo2 & -> & Hp & Hs). exists ((a, b) :: lo1), b', lo2. cbn [sum_len]. split_and!; [done|lia|lia|lia]. Qed.

(** Memory has run out. *)
Definition out_of_memory (h h' : heap) : Prop := None ∈ h_orc h \/ h_orc h' = [].

Lemma oom_mono (h1 h2 h' : heap) : h_orc h2 `suffix_of` h_orc h1 -> out_of_memory h2 h' -> out_of_memory h1 h'.
Proof. intros [k E] [H|H]; [left|by right]. rewrite E. apply elem_of_app. by right. Qed.

Lemma malloc_orc n h r h' : mem_malloc n h = (r, h') -> h_orc h' `suffix_of` h_orc h /\ (r = None -> out_of_memory h h').
Proof.
  unfold mem_malloc, out_of_memory. destruct (h_orc h) as [|[c|] o] eqn:E; intros [= <- <-]; cbn.
  - rewrite E. split; [done|by right].
  - split; [by exists [Some c]|done].
  - split; [by exists [None]|]. intros _. left. by left.
Qed.

Lemma same_store_wf h0 h h' : heap_wf h -> same_store h0 h' -> (forall a b, get h0 a = Some b -> exists b', get h a = Some b') -> h_next h' = h_next h -> heap_wf h'.
Proof. intros Hwf HS Hl En a b Hg. rewrite HS in Hg. apply Hl in Hg as [b' Hg]. rewrite En. by eapply Hwf. Qed.

Lemma beside_live h0 os k h a b : beside h0 os k h -> get h0 a = Some b -> exists b', get h a = Some b'.
Proof.
  intros HB Hg. assert (Ha : a ∉ fst <$> k) by (intros Hx%(bs_new _ _ _ _ HB); congruence). rewrite (bs_old _ _ _ _ HB) by done. rewrite Hg. by eexists.
Qed.

Lemma building_fail h0 orig os r hdr k h (R : Type) (f : heap -> R) :
  building h0 orig os r hdr k h ->
  exists h', ('(_, h) ← pbuf_free (ipfrag_free_pbuf_custom orig) (Some r) h; Some (f h)) = Some (f h') /\ same_store h0 h' /\ heap_wf h' /\ h_orc h' = h_orc h.
Proof.
  intros HB. destruct (building_free _ _ _ _ _ _ _ HB) as (n & h' & E & HS & Eo & En). exists h'. rewrite E. split_and!; [done|done| |done].
  eapply same_store_wf; [by apply bd_wf in HB|done| |done]. intros a b. by eapply beside_live, bd_beside.
Qed.

Lemma building_same h0 orig os r hdr k h h' :
  building h0 orig os r hdr k h -> same_store h h' -> (h_next h <= h_next h')%positive -> building h0 orig os r hdr k h'.
Proof.
  intros [Hk [H1 H2 H3 H4 H5] Hh Hwf] HS Hn. split; [|split; try done|done|].
  - eapply packet_frame; [|exact Hk]. intros a _. apply HS.
  - intros a Ha. by rewrite HS, H2.
  - intros a b Hg. rewrite HS in Hg. apply Hwf in Hg. lia.
Qed.

(** The bytes from [poff] on are appended to the fragment, or memory runs out and the
    store is as it was. *)
Lemma frag_copy_ok h0 r hdr fuel : forall lo p poff left nl orig os k h,
  source h0 os p lo -> building h0 orig os r hdr k h -> 0 <= poff <= match lo with (_, b) :: _ => pb_len b | [] => 0 end ->
  0 < left -> poff + left <= sum_len lo -> sum_len k + left < 65536 -> (length lo < fuel)%nat ->
  exists c orig' h', frag_copy fuel r p poff left nl orig h = Some (c, orig', h') /\ h_orc h' `suffix_of` h_orc h /\
    match c with
    | None => same_store h0 h' /\ heap_wf h' /\ out_of_memory h h'
    | Some (p', poff', nl') => exists os' k', building h0 orig' os' r hdr k' h' /\ content k' = content k ++ ztake left (zdrop poff (content lo)) /\
        sum_len k' = sum_len k + left /\ position lo (poff + left) p' (u16 (poff' + nl'))
    end.
Proof.
  induction fuel as [|fuel IH]; intros lo p poff left nl orig os k h HS HB Hpo Hleft Hle Hsum Hf; [lia|].
  destruct (source_cons _ _ _ _ HS) as (b & t & -> & Hg0 & Hb & Hrb & Hno & Ht & Hlt). pose proof (so_sum _ _ _ _ HS) as Hss. cbn [sum_len] in *.
  destruct (get_beside _ _ _ _ _ _ (bd_beside _ _ _ _ _ _ _ HB) Hg0 Hno) as [Hg _]. pose proof Hb as (Hl & _ & _ & Hr).
  cbn [frag_copy]. destruct (Z.eqb_spec left 0) as [|_]; [lia|]. rewrite Hg. cbn [mbind option_bind]. rewrite (u16_small (pb_len b - poff)) by lia.
  destruct (Z.eqb_spec (Z.min left (pb_len b - poff)) 0) as [Hz|Hz].
  { (* the pbuf is used up *)
    destruct (source_more _ _ _ _ _ HS ltac:(lia)) as (n & En). rewrite En. cbn [mbind option_bind].
    destruct (IH t n 0 left (Z.min left (pb_len b - poff)) orig os k h) as (c & orig' & h' & E & Ho & Hc); [by eapply source_next; eauto|done| |lia|lia|lia|cbn in Hf; lia|].
    { destruct t as [|[a b'] t]; [lia|]. pose proof (source_next _ _ os _ _ _ _ HS En (or_introl eq_refl)) as HS'. apply so_ok in HS'. apply Forall_cons in HS' as [[(Hb' & _) _] _]. cbn in Hb'. lia. }
    exists c, orig', h'. split_and!; [done|done|]. destruct c as [[[p' poff'] nl']|]; [|done]. destruct Hc as (os' & k' & HB' & Ec & Es & Hp). exists os', k'. split_and!; [done| |done|].
    - rewrite Ec, zdrop_0, content_cons, zdrop_app_ge by (rewrite pb_bytes_len by done; lia). rewrite pb_bytes_len by done. replace (poff - pb_len b) with 0 by lia. by rewrite zdrop_0.
    - apply position_next. replace (poff + left - pb_len b) with (0 + left) by lia. done. }
  destruct (mem_malloc SIZEOF_PBUF_CUSTOM_REF h) as [m h1] eqn:Em. pose proof (mem_malloc_spec SIZEOF_PBUF_CUSTOM_REF h m h1 ltac:(done) Em) as [Hsame Hm].
  destruct (malloc_orc _ _ _ _ Em) as [Hsuf Hoom]. destruct m as [[q mem]|].
  2: { destruct (building_fail h0 orig os r hdr k h1 _ (fun h => (None : option (addr * Z * Z), orig, h)) ltac:(eapply building_same; [done|done|lia])) as (h' & E & HS' & Hwf & Eo).
       exists None, orig, h'. split_and!; [exact E|by rewrite Eo| | |]; [done|done|]. destruct (Hoom eq_refl) as [|H]; [by left|right; congruence]. }
  destruct Hm as (Hq & Hn1 & _). set (n := Z.min left (pb_len b - poff)) in *. rewrite payload_read_spec by (done || lia). cbn [mbind option_bind].
  set (bs := ztake n (zdrop poff (pb_bytes b))). assert (Hbs : zlen bs = n) by (unfold bs; rewrite zlen_ztake; [done|rewrite zlen_zdrop, pb_bytes_len by done; lia]).
  unfold pbuf_alloced_custom. change (align4 (u16 PBUF_RAW)) with 0. destruct (Z.ltb_spec n (0 + n)); [lia|].
  replace (put h1 q (pbuf_init_alloced_pbuf bs 0 n n PBUF_REF PBUF_FLAG_IS_CUSTOM)) with (put h1 q (custom_pbuf bs)) by (unfold custom_pbuf; by rewrite Hbs).
  destruct (building_append h0 orig os r hdr k h q h1 p b bs HB Hsame Hq Hn1 Hg0 ltac:(lia) Hno ltac:(lia)) as (h2 & h3 & k' & E2 & E3 & HB' & Ec & Es & Eo).
  rewrite E2. cbn [mbind option_bind]. rewrite E3. cbn [mbind option_bind]. rewrite (u16_small (left - n)) by lia.
  destruct (Z.eqb_spec (left - n) 0) as [Hz'|Hz'].
  - eexists (Some (p, poff, n)), _, h3. split_and!; [done|by rewrite Eo|]. exists (os ++ [p]), k'. split_and!; [done| |lia|].
    + rewrite Ec. f_equal. unfold bs. rewrite content_cons, zdrop_app_le by (rewrite pb_bytes_len by done; lia).
      rewrite ztake_app_le by (rewrite zlen_zdrop, pb_bytes_len by done; lia). by replace n with left by lia.
    + exists [], b, t. cbn [sum_len app]. rewrite u16_small by lia. split_and!; [done|lia|lia|lia].
  - destruct (source_more _ _ _ _ _ HS ltac:(lia)) as (nx & En). rewrite En. cbn [mbind option_bind].
    destruct (IH t nx 0 (left - n) n (<[q := p]> orig) (os ++ [p]) k' h3) as (c & orig' & h' & E & Ho & Hc); [by eapply source_next; eauto|done| |lia|lia|lia|cbn in Hf; lia|].
    { destruct t as [|[a b'] t]; [cbn in Hle; lia|]. pose proof (source_next _ _ os _ _ _ _ HS En (or_introl eq_refl)) as HS'. apply so_ok in HS'. apply Forall_cons in HS' as [[(Hb' & _) _] _]. cbn in Hb'. lia. }
    exists c, orig', h'. split_and!; [done|by etrans; [exact Ho|]; rewrite Eo|]. destruct c as [[[p' poff'] nl']|].
    2: { destruct Hc as (H1 & H2 & H3). split_and!; [done|done|]. eapply oom_mono; [|exact H3]. by rewrite Eo. }
    destruct Hc as (os' & k'' & HB'' & Ec' & Es' & Hp). exists os', k''. split_and!; [done| |lia|].
    + rewrite Ec', Ec, <- app_assoc. f_equal. unfold bs. rewrite content_cons, zdrop_app_le by (rewrite pb_bytes_len by done; lia). rewrite zdrop_0.
      rewrite (ztake_app_ge left) by (rewrite zlen_zdrop, pb_bytes_len by done; lia). rewrite zlen_zdrop, pb_bytes_len by done.
      rewrite ztake_ge by (rewrite zlen_zdrop, pb_bytes_len by done; lia). f_equal. f_equal. lia.
    + apply position_next. replace (poff + left - pb_len b) with (0 + (left - n)) by lia. done.
Qed.

(** ** The header of a fragment *)
Definition offset_field (o : Z) (more : bool) : Z := if more then o .| IP_MF else o.

Lemma frag_header_ok odd_payload r o more n b hdr :
  pb_ok b -> pb_bytes b = hdr -> zlen hdr = 20 -> bytes_ok hdr -> 0 <= o < 8192 -> 0 <= n <= 65515 ->
  exists b' hdr', frag_header odd_payload r o more n b = Some b' /\ patched b b' /\ pb_ok b' /\ pb_bytes b' = hdr' /\
    reheaded hdr (20 + n) (bytes16 (lwip_htons (offset_field o more))) hdr'.
Proof.
  intros Hb Eb Hl Hby Ho Hn. unfold frag_header. replace (IP_OFFMASK .& o) with o.
  2: { change IP_OFFMASK with (Z.ones 13). rewrite Z.land_comm, Z.land_ones by lia. rewrite Z.mod_small; [done|]. change (2 ^ 13) with 8192. lia. }
  fold (offset_field o more). unfold IP_HLEN. rewrite (Z.add_comm n 20), u16_small by lia.
  pose proof (header_split b hdr [] Hb ltac:(by rewrite app_nil_r) Hl) as HF1. set (lens := header_lens []) in *.
  destruct (field_write _ lens b 3 (bytes16 (lwip_htons (offset_field o more))) HF1 eq_refl) as (b2 & E2 & P2 & HF2). change (zsum (take 3 lens)) with 6 in E2. rewrite E2. cbn [mbind option_bind].
  destruct (field_write _ lens b2 1 (bytes16 (lwip_htons (20 + n))) HF2 eq_refl) as (b3 & E3 & P3 & HF3). change (zsum (take 1 lens)) with 2 in E3. rewrite E3. cbn [mbind option_bind].
  destruct (field_write _ lens b3 5 (bytes16 0) HF3 eq_refl) as (b4 & E4 & P4 & HF4). change (zsum (take 5 lens)) with 10 in E4. rewrite E4. cbn [mbind option_bind].
  destruct (header_seal (odd_payload r b4) b4 hdr (20 + n) _ [] HF4 Hl Hby (bytes16_ok _)) as (b5 & hdr' & E5 & P5 & O5 & B5 & HR).
  exists b5, hdr'. split_and!; [exact E5| |done|by rewrite B5, app_nil_r|done]. by etrans; [|etrans; [|etrans]].
Qed.

(** ** The cuts *)

(** [n] bytes in pieces of [size], the last one with what is left. *)
Definition cuts_from (i size n : Z) : list (Z * Z) :=
  map (fun j => (j * size, Z.min n ((j + 1) * size))) (seqZ i ((n + size - 1) / size - i)).

Definition cuts (size n : Z) : list (Z * Z) := cuts_from 0 size n.

Lemma cuts_count i size n : 0 < size -> 0 <= n -> (i < (n + size - 1) / size <-> i * size < n).
Proof. intros Hs Hn. pose proof (Z.div_mod (n + size - 1) size ltac:(lia)). pose proof (Z.mod_pos_bound (n + size - 1) size Hs). split; intros; nia. Qed.

Lemma cuts_cons i size n : 0 < size -> 0 <= n -> i * size < n -> cuts_from i size n = (i * size, Z.min n ((i + 1) * size)) :: cuts_from (i + 1) size n.
Proof.
  intros Hs Hn Hi. unfold cuts_from. pose proof (cuts_count i size n Hs Hn). rewrite seqZ_cons by lia. cbn [map]. rewrite <- Z.add_1_r. do 3 f_equal. lia.
Qed.

Lemma cuts_nil i size n : 0 < size -> 0 <= n -> n <= i * size -> cuts_from i size n = [].
Proof. intros Hs Hn Hi. unfold cuts_from. pose proof (cuts_count i size n Hs Hn). rewrite seqZ_nil by lia. done. Qed.

(** A packet with the part [r] of the data [D] of the datagram with header [hdr]. *)
Definition fragment (hdr D : list Z) (o0 : Z) (mf : bool) (pkt : list Z) (r : Z * Z) : Prop :=
  exists hdr', pkt = hdr' ++ ztake (r.2 - r.1) (zdrop r.1 D) /\
    reheaded hdr (20 + (r.2 - r.1)) (bytes16 (lwip_htons (offset_field (o0 + r.1 / 8) (negb (r.2 =? zlen D) || mf)))) hdr'.

(** ** The loop *)

(** A device that takes each packet at once: it may change the head of the packet (to
    put its header in front) but leaves all other pbufs alone.  [seen] are the packets
    it got. *)
Class Device {U : Upper} (output : originals -> addr -> istate -> option (Z * istate)) := {
  seen : istate -> list (list Z);
  seen_heap : forall h s, seen (iheap h s) = seen s;
  takes : forall orig r k s, packet (i_heap s) (Some r) k -> heap_wf (i_heap s) ->
    exists e s' b b', output orig r s = Some (e, s') /\ seen s' = seen s ++ [content k] /\ (forall n, inif s' n = inif s n) /\
      heap_wf (i_heap s') /\ h_orc (i_heap s') `suffix_of` h_orc (i_heap s) /\
      get (i_heap s) r = Some b /\ get (i_heap s') r = Some b' /\ pb_next b' = pb_next b /\ pb_ref b' = pb_ref b /\ pb_flags b' = pb_flags b /\ pb_type b' = pb_type b /\
      forall a, a <> r -> get (i_heap s') a = get (i_heap s) a;
}.

Lemma position_app lo1 lo2 n p poff : position lo2 n p poff -> position (lo1 ++ lo2) (sum_len lo1 + n) p poff.
Proof. intros (k1 & b & k2 & -> & Hp & Hs). exists (lo1 ++ k1), b, k2. rewrite app_assoc, sum_len_app. split_and!; [done|lia|lia|lia]. Qed.

(** A datagram that can be referred to. *)
Record datagram (h : heap) (p : addr) (l : list (addr * pbuf)) : Prop := Datagram {
  dg_packet : packet h (Some p) l;
  dg_refs : Forall (fun c => pb_ref c.2 < 255) l;
}.

Lemma datagram_same h h' p l : datagram h p l -> same_store h h' -> datagram h' p l.
Proof. intros [Hp Hr] HS. split; [|done]. eapply packet_frame; [|exact Hp]. intros a _. apply HS. Qed.

(** What is left of it from a position on. *)
Lemma position_source h p0 l n p poff :
  datagram h p0 l -> position l n p poff ->
  exists lo1 b t, l = lo1 ++ (p, b) :: t /\ source h [] p ((p, b) :: t) /\ 0 <= poff <= pb_len b /\ sum_len lo1 + poff = n /\
    zdrop poff (content ((p, b) :: t)) = zdrop n (content l) /\ (length ((p, b) :: t) < chain_fuel h)%nat.
Proof.
  intros [[Hl Hnd Ho _ Hs] Hr] (lo1 & b & t & -> & Hp & Hn). exists lo1, b, t. pose proof (lseg_length _ _ _ Hl Hnd) as Hlen. apply lseg_app in Hl as (m & _ & Hl).
  rewrite fmap_app in Hnd. apply NoDup_app in Hnd as (_ & _ & Hnd). apply Forall_app in Ho as [Ho1 Ho]. apply Forall_app in Hr as [_ Hr]. rewrite sum_len_app in Hs.
  pose proof (sum_len_nonneg _ Ho1). split_and!; [done| |lia|lia|lia| |rewrite length_app in Hlen; lia].
  - split; [by destruct Hl as (-> & Hl)| |done|lia]. apply Forall_and. done.
  - rewrite content_app, zdrop_app_ge; rewrite content_len by done; [|lia]. f_equal. lia.
Qed.

Section loop.
  Context {U : Upper} (odd_payload : addr -> pbuf -> bool).
  Context (output : originals -> addr -> istate -> option (Z * istate)) `{!Device output}.

Lemma i_heap_iheap h (s : istate) : i_heap (iheap h s) = h.
Proof. done. Qed.

(** Handing over a finished fragment, and freeing it. *)
Lemma hand_over h0 orig os r hdr k rb h (s : istate) hdr' :
  building h0 orig os r hdr k h -> get h r = Some rb -> forall rb', patched rb rb' -> pb_ok rb' -> pb_bytes rb' = hdr' ->
  exists e s1 s', output orig r (iheap (put h r rb') s) = Some (e, s1) /\ pbuf_free_i (ipfrag_free_pbuf_custom orig) r s1 = Some s' /\
    seen s' = seen s ++ [hdr' ++ zdrop (zlen hdr) (content k)] /\ same_store h0 (i_heap s') /\ heap_wf (i_heap s') /\ (forall n, inif s' n = inif s n) /\
    h_orc (i_heap s') `suffix_of` h_orc h.
Proof.
  intros [Hk HB (b & t & -> & Hstd & Hhd & HF) Hwf] Hg rb' (m & -> & Hm) Hok Hby.
  destruct (packet_cons _ _ _ _ Hk) as (Hg' & Hb & Hrt & Htot & Ht). assert (b = rb) as -> by congruence. set (rb' := set_mem m rb) in *.
  assert (Hk' : packet (put h r rb') (Some r) ((r, rb') :: t)).
  { destruct Hk as [Hl Hnd Ho Hts Hs]. split; [|done| |done|done].
    - cbn. split_and!; [done|apply get_put_eq|]. apply lseg_put; [done|]. by destruct Hl as (_ & _ & Hl).
    - apply Forall_cons in Ho as [_ Ho]. by constructor. }
  assert (Hwf' : heap_wf (put h r rb')) by by eapply heap_wf_put.
  destruct (takes orig r _ (iheap (put h r rb') s) Hk' Hwf') as (e & s1 & b1 & b2 & E1 & Hseen & Hnif & Hwf1 & Hsuf & Hg1 & Hg2 & N1 & N2 & N3 & N4 & Hfr).
  rewrite i_heap_iheap, get_put_eq in Hg1. injection Hg1 as <-. cbn in N1, N2, N3, N4.
  assert (Hl1 : lseg (i_heap s1) (Some r) ((r, b2) :: t) None).
  { cbn. split_and!; [done|done|]. rewrite N1. apply (lseg_frame h); [|by destruct Ht]. intros a Ha. assert (a <> r) by by intros ->. rewrite Hfr by done. by rewrite i_heap_iheap, get_put_ne. }
  destruct HB as [H1 H2 H3 H4 H5]. apply Forall_cons in H3 as [H3 H3']. cbn in H3.
  assert (HB1 : beside h0 os ((r, b2) :: t) (i_heap s1)).
  { split; [done| |by constructor; [cbn; congruence|]|done|done]. intros a Ha. rewrite fmap_cons, not_elem_of_cons in Ha. destruct Ha as [Har Ha].
    rewrite Hfr, i_heap_iheap, get_put_ne by done. apply H2. by rewrite fmap_cons, not_elem_of_cons. }
  destruct (free_fragment orig h0 os r b2 t (i_heap s1) Hl1) as (n & h' & E2 & HS & Eo & En).
  { by destruct Hk as [_ Hnd _ _ _]. } { done. } { unfold pb_std, pbuf_get_allocsrc in *. by rewrite N3, N4. } { done. }
  exists e, s1, (iheap h' s1). unfold pbuf_free_i. rewrite E1, E2. split_and!; [done|done| |done| |done|].
  - rewrite seen_heap, Hseen, seen_heap. do 2 f_equal. rewrite !content_cons, Hby, Hhd. rewrite zdrop_app_ge, Z.sub_diag, zdrop_0 by lia. done.
  - eapply same_store_wf; [exact Hwf1|done| |done]. intros a x. by eapply beside_live.
  - cbn. rewrite Eo. done.
Qed.

Lemma building_fuel h0 orig r hdr k h p lo : building h0 orig [] r hdr k h -> source h0 [] p lo -> (length lo < chain_fuel h)%nat.
Proof.
  intros HB [Hl _ Hnd _]. apply (lseg_length h (Some p)); [|done]. eapply lseg_frame; [|exact Hl]. intros a Ha. apply list_elem_of_fmap in Ha as ([x y] & -> & Ha).
  pose proof (lseg_get _ _ _ _ _ _ Hl Ha) as Hg. cbn [fst]. rewrite Hg. apply (get_beside h0 [] k h); [by eapply bd_beside|done|by intros ?%elem_of_nil].
Qed.

(** The pbuf for the header. *)
Lemma frag_start cf h (iphdr : ptr) b0 hdr :
  heap_wf h -> get h iphdr.1 = Some b0 -> mem_read (pb_mem b0) iphdr.2 20 = Some hdr -> zlen hdr = 20 ->
  exists m h1, pbuf_alloc cf PBUF_LINK IP_HLEN PBUF_RAM h = Some (m, h1) /\ h_orc h1 `suffix_of` h_orc h /\
    match m with
    | None => same_store h h1 /\ heap_wf h1 /\ out_of_memory h h1
    | Some r => exists rb rb', get h1 r = Some rb /\ ptr_read h1 iphdr 0 IP_HLEN = Some hdr /\ payload_write rb 0 hdr = Some rb' /\
        forall orig, building h orig [] r hdr [(r, rb')] (put h1 r rb')
    end.
Proof.
  intros Hwf Hg Hm Hl. unfold pbuf_alloc. change (PBUF_RAM =? PBUF_REF) with false. change (PBUF_RAM =? PBUF_ROM) with false. change (PBUF_RAM =? PBUF_POOL) with false.
  change (PBUF_RAM =? PBUF_RAM) with true. change (align4 (u16 PBUF_LINK)) with 16. change (align4 IP_HLEN) with 20. change (u16 (16 + 20)) with 36.
  change (u64 (align4 SIZEOF_STRUCT_PBUF + 36)) with 60. cbn [orb Z.ltb Z.compare Pos.compare Pos.compare_cont].
  destruct (mem_malloc 36 h) as [m h1] eqn:Em. destruct (mem_malloc_spec 36 h m h1 ltac:(done) Em) as [HS Hm1]. destruct (malloc_orc _ _ _ _ Em) as [Hsuf Hoom].
  destruct m as [[r mem]|].
  2: { exists None, h1. split_and!; [done|done|done| |by apply Hoom]. intros a x Hx. rewrite HS in Hx. rewrite Hm1. by eapply Hwf. }
  destruct Hm1 as (Hr & Hn & Hlm). set (rb := pbuf_init_alloced_pbuf mem 16 IP_HLEN IP_HLEN PBUF_RAM 0). exists (Some r), (put h1 r rb). split_and!; [done|done|].
  assert (Hrb : pb_ok rb) by (unfold pb_ok, rb; cbn; unfold IP_HLEN; lia).
  assert (Hfree : get h r = None). { destruct (get h r) as [x|] eqn:E; [|done]. apply Hwf in E. subst r. lia. }
  destruct (payload_patch rb [] (pb_bytes rb) [] 0 hdr Hrb ltac:(by rewrite app_nil_r) eq_refl ltac:(rewrite pb_bytes_len by done; done)) as (rb' & E1 & (m & Em' & Hm') & Hok & Hby).
  cbn [app] in Hby. rewrite app_nil_r in Hby. exists rb, rb'. split_and!; [apply get_put_eq| |done|].
  - unfold ptr_read. rewrite get_put_ne, HS, Hg by congruence. cbn [mbind option_bind]. by rewrite Z.add_0_r.
  - intros orig. assert (Hgr : get (put (put h1 r rb) r rb') r = Some rb') by apply get_put_eq. subst rb'. split.
    + by apply packet_single.
    + split; [| |by constructor|constructor|constructor].
      * intros a. cbn. by intros ->%list_elem_of_singleton.
      * intros a. cbn. rewrite not_elem_of_cons. intros [Ha _]. rewrite !get_put_ne, HS by done. destruct (get h a) as [x|]; [|done]. cbn. by rewrite bump_fresh by by intros ?%elem_of_nil.
    + eexists _, []. split_and!; [done| |done|constructor]. split; [done|]. by left.
    + intros a x. change (h_next (put (put h1 r rb) r (set_mem m rb))) with (h_next h1). destruct (decide (a = r)) as [->|Ha]; [intros _; lia|].
      rewrite !get_put_ne, HS by done. intros Hx%Hwf. lia.
Qed.

Lemma ztake_len_data (D : list Z) a n : 0 <= a -> 0 <= n -> a + n <= zlen D -> zlen (ztake n (zdrop a D)) = n.
Proof. intros. rewrite zlen_ztake; [done|]. rewrite zlen_zdrop; lia. Qed.

(** What has been sent when the loop has ended. *)
Definition sent (hdr D : list Z) (o0 : Z) (mf : bool) (rs : list (Z * Z)) (h h' : heap) (e : Z) (pkts : list (list Z)) : Prop :=
  (e = ERR_OK /\ Forall2 (fragment hdr D o0 mf) pkts rs) \/
  (e = ERR_MEM /\ out_of_memory h h' /\ exists rs', rs' `prefix_of` rs /\ Forall2 (fragment hdr D o0 mf) pkts rs').

Lemma frag_loop_ok p0 b0 t0 hdr D nif v nfb mf o0 :
  zlen hdr = 20 -> bytes_ok hdr -> content ((p0, b0) :: t0) = hdr ++ D -> mem_read (pb_mem b0) (pb_payload b0) 20 = Some hdr ->
  nif_mtu v = 20 + 8 * nfb -> 1 <= nfb -> nif_mtu v < 65536 -> zlen D <= 65515 -> 0 <= o0 -> 8 * o0 + zlen D <= 65536 ->
  let size := 8 * nfb in
  forall fuel i p poff orig s,
    datagram (i_heap s) p0 ((p0, b0) :: t0) -> heap_wf (i_heap s) -> inif s nif = Some v -> 0 <= i ->
    (i * size < zlen D -> position ((p0, b0) :: t0) (20 + i * size) p poff) -> (zlen D + size - 1) / size - i <= Z.of_nat fuel ->
    exists e s' pkts, frag_loop odd_payload output fuel (p0, pb_payload b0) nif nfb mf p poff (Z.max 0 (zlen D - i * size)) (u16 (o0 + i * nfb)) orig s = Some (e, s') /\
      seen s' = seen s ++ pkts /\ same_store (i_heap s) (i_heap s') /\ heap_wf (i_heap s') /\ (forall n, inif s' n = inif s n) /\
      sent hdr D o0 mf (cuts_from i size (zlen D)) (i_heap s) (i_heap s') e pkts.
Proof.
  intros Hl Hby Ec Hm Hmtu Hnfb Hmtu16 HD Ho0 Ho size. pose proof (zlen_nonneg D) as HD0.
  induction fuel as [|fuel IH]; intros i p poff orig s Hdg Hwf Hv Hi Hpos Hfu.
  all: pose proof (cuts_count i size (zlen D) ltac:(lia) HD0) as Hcount.
  all: destruct (Z.ltb_spec (i * size) (zlen D)) as [Hlt|Hge].
  1: lia.
  1, 3: cbn [frag_loop]; destruct (Z.eqb_spec (Z.max 0 (zlen D - i * size)) 0) as [_|]; [|lia]; exists ERR_OK, s, []; rewrite app_nil_r;
    split_and!; [done|done|done|done|done|left; split; [done|]; rewrite cuts_nil by lia; constructor].
  specialize (Hpos Hlt). destruct (position_source _ _ _ _ _ _ Hdg Hpos) as (lo1 & b & t & El & HS & Hpo & Hn & Edata & Hlen).
  rewrite Z.max_r by lia. cbn [frag_loop]. destruct (Z.eqb_spec (zlen D - i * size) 0) as [|_]; [lia|].
  replace (u16 (nfb * 8)) with size by (rewrite u16_small by lia; lia). set (fs := Z.min (zlen D - i * size) size).
  destruct (dg_packet _ _ _ Hdg) as [[_ [Hg0 _]] _ Hok _ _].
  destruct (frag_start (ipfrag_free_pbuf_custom orig) (i_heap s) (p0, pb_payload b0) b0 hdr Hwf Hg0 Hm Hl) as (m & h1 & E1 & Hs1 & H1). rewrite E1. cbn [mbind option_bind].
  destruct m as [r|].
  2: { destruct H1 as (H1 & H2 & H3). exists ERR_MEM, (iheap h1 s), []. rewrite app_nil_r, seen_heap. split_and!; [done|done|done|done|done|].
       right. split_and!; [done|done|]. exists []. split; [by eexists|constructor]. }
  destruct H1 as (rb & rb1 & Hgr & Hrd & Hw & HB). rewrite Hgr. cbn [mbind option_bind]. rewrite Hrd. cbn [mbind option_bind]. rewrite Hw. cbn [mbind option_bind].
  specialize (HB orig). assert (Hk1 : pb_len rb1 = 20).
  { destruct (bd_packet _ _ _ _ _ _ _ HB) as [_ _ [Hb1 _]%Forall_cons _ _]. cbn in Hb1. pose proof (pb_bytes_len _ Hb1) as E. destruct (bd_head _ _ _ _ _ _ _ HB) as (x & y & [= <- <-] & _ & Eb & _). rewrite Eb in E. lia. }
  assert (Esum : poff + (zlen D - i * size) = sum_len ((p, b) :: t)).
  { pose proof Hok as Hok'. rewrite El in Hok'. pose proof (content_len _ Hok) as EL. rewrite Ec, zlen_app, Hl, El, sum_len_app in EL. lia. }
  destruct (frag_copy_ok (i_heap s) r hdr (chain_fuel (put h1 r rb1)) ((p, b) :: t) p poff fs 0 orig [] [(r, rb1)] (put h1 r rb1)) as (c & orig' & h2 & E2 & Hs2 & Hc); try done; try lia.
  { cbn [sum_len]. lia. }
  { by eapply building_fuel. }
  rewrite (chain_fuel_put _ _ rb) in E2 by done. rewrite E2. cbn [mbind option_bind]. change (h_orc (put h1 r rb1)) with (h_orc h1) in Hs2. destruct c as [[[p' poff'] nl]|].
  2: { destruct Hc as (H1 & H2 & H3). exists ERR_MEM, (iheap h2 s), []. rewrite app_nil_r, seen_heap. split_and!; [done|done|done|done|done|].
       right. split_and!; [done| |exists []; split; [by eexists|constructor]]. eapply oom_mono; [exact Hs1|exact H3]. }
  destruct Hc as (os' & k' & HB' & Ek & Esk & Hpos'). rewrite Hv. cbn [mbind option_bind].
  destruct (bd_head _ _ _ _ _ _ _ HB') as (rb2 & t' & Ek' & _ & Hb2 & _). pose proof (bd_packet _ _ _ _ _ _ _ HB') as Hk'. rewrite Ek' in Hk'.
  pose proof (packet_cons _ _ _ _ Hk') as (Hg2 & Hok2 & _). rewrite Hg2. cbn [mbind option_bind].
  assert (Hofo : 0 <= o0 + i * nfb < 8192) by lia. rewrite (u16_small (o0 + i * nfb)) by lia.
  destruct (frag_header_ok odd_payload r (o0 + i * nfb) (negb (zlen D - i * size <=? nif_mtu v - IP_HLEN) || mf) fs rb2 hdr Hok2 Hb2 Hl Hby Hofo ltac:(lia)) as (rb3 & hdr' & E3 & P3 & O3 & B3 & HR).
  rewrite E3. cbn [mbind option_bind].
  destruct (hand_over (i_heap s) orig' os' r hdr k' rb2 h2 s hdr' HB' Hg2 rb3 P3 O3 B3) as (e1 & s1 & s2 & E4 & E5 & Hsn & Hst & Hwf2 & Hnif & Hs4).
  rewrite E4. cbn [mbind option_bind]. rewrite E5. cbn [mbind option_bind].
  replace (u16 (zlen D - i * size - fs)) with (Z.max 0 (zlen D - (i + 1) * size)) by (rewrite u16_small by lia; lia).
  replace (u16 (o0 + i * nfb + nfb)) with (u16 (o0 + (i + 1) * nfb)) by (f_equal; lia).
  destruct (IH (i + 1) p' (u16 (poff' + nl)) orig' s2) as (e & s' & pkts & E6 & Hsn' & Hst' & Hwf' & Hnif' & Hsent); [by eapply datagram_same|done|by rewrite Hnif|lia| |lia|].
  { intros Hlt'. rewrite El. replace (20 + (i + 1) * size) with (sum_len lo1 + (poff + fs)) by lia. by apply position_app. }
  exists e, s', ((hdr' ++ ztake fs (zdrop (i * size) D)) :: pkts). split_and!; [exact E6| |by intros a; rewrite Hst', Hst|done|by intros n; rewrite Hnif', Hnif|].
  { rewrite Hsn', Hsn, <- app_assoc. do 3 f_equal. rewrite Ek, content_cons. f_equal. destruct (bd_head _ _ _ _ _ _ _ HB) as (x & y & [= <- <-] & _ & Eb & _). rewrite Eb, Edata, Ec.
    change (content []) with (@nil Z). rewrite app_nil_r, zdrop_app_ge, Z.sub_diag, zdrop_0 by lia. rewrite zdrop_app_ge by lia. replace (20 + i * size - zlen hdr) with (i * size) by lia. done. }
  rewrite cuts_cons by lia.
  assert (Hfr : fragment hdr D o0 mf (hdr' ++ ztake fs (zdrop (i * size) D)) (i * size, Z.min (zlen D) ((i + 1) * size))).
  { exists hdr'. cbn [fst snd]. replace (Z.min (zlen D) ((i + 1) * size) - i * size) with fs by lia. split; [done|].
    replace (o0 + i * size / 8) with (o0 + i * nfb) by (replace (i * size) with (i * nfb * 8) by lia; rewrite Z.div_mul by lia; done).
    replace (Z.min (zlen D) ((i + 1) * size) =? zlen D) with (zlen D - i * size <=? nif_mtu v - IP_HLEN); [done|]. unfold IP_HLEN.
    destruct (Z.leb_spec (zlen D - i * size) (nif_mtu v - 20)), (Z.eqb_spec (Z.min (zlen D) ((i + 1) * size)) (zlen D)); lia. }
  destruct Hsent as [[-> HF]|(-> & Hoom & rs' & [y ->] & HF)].
  - left. split; [done|]. by constructor.
  - right. split_and!; [done| |eexists (_ :: rs'); split; [by exists y|by constructor]]. eapply oom_mono; [|exact Hoom]. by etrans; [exact Hs4|etrans; [exact Hs2|exact Hs1]].
Qed.

End loop.
