(* ===== verification/Ip4FragClaims.v ===== *)
(** What fragmentation promises: the packets on the wire, the store afterwards, and that
    reassembly undoes it; and an MTU with which it does not. *)
From Stdlib Require Import Sorting.Sorted.
From S2P Require Import Prelude Bits Def IpAddr Pbuf PbufData PbufChain PbufIO PbufLife PbufCopy PbufOwn PbufHdr Chksum NetifRec Netif.
From S2P Require Import XnetTap Ethernet Ip4Addr Etharp EtharpIn IpState NetifLoop Ip4Out Icmp Ip4Hdr EtharpClaims IpClaims IpUpper Ip4Frag Ip4ReassThm Ip4FragThm.

(** ** Sending *)

(** A datagram of the header [hdr] and the data [D], in a packet that can be cut. *)
Record to_cut {U : Upper} (p : addr) (nif : Z) (v : netif) (hdr D : list Z) (f : Z) (s : istate) : Prop := ToCut {
  tc_packet : exists b t, datagram (i_heap s) p ((p, b) :: t) /\ content ((p, b) :: t) = hdr ++ D /\ 20 <= pb_len b;
  tc_wf : heap_wf (i_heap s);
  tc_nif : inif s nif = Some v;
  tc_hdr : zlen hdr = 20 /\ bytes_ok hdr /\ frag_hlen hdr = Some 20 /\ frag_field hdr = Some f;
  tc_len : 0 < zlen D <= 65515 /\ 8 * (lwip_htons f .& IP_OFFMASK) + zlen D <= 65536;
  tc_mtu : 28 <= nif_mtu v < 65536;
}.

Lemma frag_out_loop {U : Upper} odd_payload output `{!Device output} p nif v hdr D f (s : istate) :
  to_cut p nif v hdr D f s -> (nif_mtu v - 20) mod 8 = 0 ->
  exists e s' pkts, ip4_frag_out odd_payload output p nif s = Some (e, s') /\ seen s' = seen s ++ pkts /\
    same_store (i_heap s) (i_heap s') /\ heap_wf (i_heap s') /\ (forall n, inif s' n = inif s n) /\
    sent hdr D (lwip_htons f .& IP_OFFMASK) (negb (lwip_htons f .& IP_MF =? 0)) (cuts (nif_mtu v - 20) (zlen D)) (i_heap s) (i_heap s') e pkts.
Proof.
  intros [(b & t & Hd & Ec & Hb20) Hwf Hv (Hl & Hby & Hhl & Hf) [HD Ho] Hmtu] Hmod. pose proof (dg_packet _ _ _ Hd) as Hp.
  pose proof (packet_cons _ _ _ _ Hp) as (Hg & Hb & _ & Htot & [_ _ Hot _ _]). pose proof Hp as [_ _ Hok _ _]. pose proof (content_len _ Hok) as EL. rewrite Ec, zlen_app, Hl in EL. cbn [sum_len] in EL.
  assert (Ehdr : payload_read b 0 20 = Some hdr).
  { rewrite payload_read_spec by (done || lia). rewrite zdrop_0. f_equal. assert (Hz : ztake 20 (content ((p, b) :: t)) = hdr) by (rewrite Ec, ztake_app_le, ztake_ge by lia; done).
    rewrite content_cons, ztake_app_le in Hz by (rewrite pb_bytes_len by done; lia). done. }
  assert (Hm : mem_read (pb_mem b) (pb_payload b) 20 = Some hdr) by (unfold payload_read in Ehdr; by rewrite Z.add_0_r in Ehdr).
  pose proof (Z.div_mod (nif_mtu v - 20) 8 ltac:(lia)) as Hdiv. rewrite Hmod in Hdiv. set (nfb := (nif_mtu v - 20) / 8) in *.
  assert (Hoff : 0 <= lwip_htons f .& IP_OFFMASK) by (rewrite Z.land_comm; change IP_OFFMASK with (Z.ones 13); rewrite Z.land_comm, Z.land_ones by lia; by apply Z.mod_pos_bound).
  unfold ip4_frag_out. rewrite Hv. cbn [mbind option_bind]. rewrite Z.quot_div_nonneg by (unfold IP_HLEN; lia). unfold IP_HLEN. fold nfb. rewrite (u16_small nfb) by lia.
  rewrite Hg. cbn [mbind option_bind]. rewrite Ehdr. cbn [mbind option_bind]. rewrite Hhl. cbn [mbind option_bind negb Z.eqb Pos.eqb]. destruct (Z.ltb_spec (pb_len b) 20); [lia|].
  rewrite Hf. cbn [fmap option_fmap option_map mbind option_bind]. rewrite Htot. rewrite (u16_small (pb_len b + sum_len t - 20)) by lia.
  assert (Ho16 : lwip_htons f .& IP_OFFMASK < 8192) by lia.
  assert (Hmax : (zlen D + 8 * nfb - 1) / (8 * nfb) <= Z.of_nat (Z.to_nat 8192)).
  { rewrite Z2Nat.id by lia. apply Z.lt_succ_r. apply Z.div_lt_upper_bound; lia. }
  destruct (frag_loop_ok odd_payload output p b t hdr D nif v nfb (negb (lwip_htons f .& IP_MF =? 0)) (lwip_htons f .& IP_OFFMASK) Hl Hby Ec Hm ltac:(lia) ltac:(lia) ltac:(lia) ltac:(lia) Hoff Ho
    (Z.to_nat 8192) 0 p 20 ∅ s Hd Hwf Hv ltac:(lia)) as (e & s' & pkts & E & Hr); [|lia|].
  { intros _. exists [], b, t. cbn [app sum_len]. split_and!; [done|lia|lia|lia]. }
  exists e, s', pkts. replace (nif_mtu v - 20) with (8 * nfb) by lia. split; [|exact Hr].
  rewrite <- E. f_equal; [lia|]. rewrite Z.mul_0_l, Z.add_0_r, u16_small by lia. done.
Qed.

(** C24. Fragmentation is exact when the MTU allows it: on an interface whose MTU leaves a
    multiple of eight bytes for the data, [ip4_frag] hands over packets that carry the
    data in order, in pieces of the full size and a last one with the rest, each behind
    the datagram's header with the piece's length and offset, "more fragments" on all
    but the last (and on the last when the datagram is a fragment itself) and a checksum
    that verifies.  It ends with success, or, when memory runs out, after the first
    pieces; in both cases the store is exactly as before: the fragments' pbufs are freed
    and the datagram's reference counts restored. *)
Theorem ip4_frag_cuts {U : Upper} odd_payload output `{!Device output} p nif v hdr D f (s : istate) :
  to_cut p nif v hdr D f s -> (nif_mtu v - 20) mod 8 = 0 ->
  exists e s' pkts, ip4_frag_out odd_payload output p nif s = Some (e, s') /\ seen s' = seen s ++ pkts /\
    same_store (i_heap s) (i_heap s') /\ heap_wf (i_heap s') /\
    sent hdr D (lwip_htons f .& IP_OFFMASK) (negb (lwip_htons f .& IP_MF =? 0)) (cuts (nif_mtu v - 20) (zlen D)) (i_heap s) (i_heap s') e pkts.
Proof.
  intros Hc Hm. destruct (frag_out_loop odd_payload output p nif v hdr D f s Hc Hm) as (e & s' & pkts & H1 & H2 & H3 & H4 & _ & H5). by exists e, s', pkts.
Qed.

(** ** Fragments on the other side *)

(** The parts, with the pbufs that they arrive in. *)
Definition parts (ps : list addr) (rs : list (Z * Z)) : list helper := zip_with (fun q r => Helper q r.1 r.2) ps rs.

Lemma parts_cuts size n : 0 < size -> 0 <= n -> forall ps i, 0 <= i -> length ps = length (cuts_from i size n) ->
  let l := parts ps (cuts_from i size n) in
  Forall (fun h => i * size <= h_start h < h_end h /\ h_end h <= n /\ exists j, h_start h = j * size) l /\ StronglySorted before l /\ contiguous l = true /\
  match l with [] => n <= i * size | h :: _ => h_start h = i * size end /\ (i * size < n -> exists h, h ∈ l /\ h_end h = n) /\ map h_p l = ps.
Proof.
  intros Hs Hn. induction ps as [|q ps IH]; intros i Hi Hlen l; unfold l; clear l; destruct (Z.ltb_spec (i * size) n) as [Hlt|Hge].
  - by rewrite cuts_cons in Hlen.
  - rewrite cuts_nil by done. cbn. split_and!; [constructor|constructor|done|lia|lia|done].
  - rewrite cuts_cons in Hlen |- * by done. injection Hlen as Hlen. destruct (IH (i + 1) ltac:(lia) Hlen) as (H1 & H2 & H3 & H4 & H5 & H6). unfold parts in *. cbn [zip_with fst snd]. fold (parts ps) in *.
    set (l := zip_with _ ps _) in *. set (a := Helper q (i * size) (Z.min n ((i + 1) * size))).
    assert (Hend : l <> [] -> h_end a = (i + 1) * size).
    { intros Hne. cbn. destruct l as [|x l]; [done|]. apply Forall_cons in H1 as [H1 _]. lia. }
    split_and!; [| | |done| |cbn; by rewrite H6].
    + constructor; [cbn; split_and!; [lia|lia|lia|by exists i]|]. eapply Forall_impl; [exact H1|]. cbn. intros x (? & ? & j & ?). split_and!; [lia|lia|lia|by exists j].
    + constructor; [done|]. apply Forall_forall. intros x Hx. rewrite Forall_forall in H1. destruct (H1 x Hx) as (? & ? & _). unfold before. rewrite Hend by (by intros ->; apply elem_of_nil in Hx). cbn. lia.
    + destruct l as [|x l]; [done|]. cbn [contiguous no_holes] in *. rewrite Hend by done. rewrite H4, Z.eqb_refl. exact H3.
    + intros _. destruct (Z.ltb_spec ((i + 1) * size) n) as [Hlt'|Hge']; [destruct (H5 Hlt') as (x & Hx & Ex); exists x; split; [by right|done]|]. exists a. split; [by left|]. cbn. lia.
  - rewrite cuts_nil in Hlen by done. done.
Qed.

Lemma parts_partition (D : list Z) size ps : 0 < size -> 0 < zlen D -> length ps = length (cuts size (zlen D)) -> partition D (parts ps (cuts size (zlen D))).
Proof.
  intros Hs HD Hlen. destruct (parts_cuts size (zlen D) Hs ltac:(lia) ps 0 ltac:(lia) Hlen) as (H1 & H2 & H3 & H4 & H5 & _). fold (cuts size (zlen D)) in *.
  split; [done| |done| |apply H5; lia].
  - eapply Forall_impl; [exact H1|]. cbn. lia.
  - destruct (parts _ _); lia.
Qed.

(** The bits of the offset field. *)
Definition field_ok (o : Z) : bool :=
  forallb (fun more => (lwip_htons (lwip_htons (offset_field o more)) .& IP_OFFMASK =? o) &&
     Bool.eqb (lwip_htons (offset_field o more) .& PP_HTONS IP_MF =? 0) (negb more) && (0 <=? offset_field o more) && (offset_field o more <? 65536)) [true; false].

Lemma field_all : forallb field_ok (seqZ 0 8192) = true.
Proof. vm_compute. reflexivity. Qed.

Lemma field_spec o more : 0 <= o < 8192 ->
  lwip_htons (lwip_htons (offset_field o more)) .& IP_OFFMASK = o /\ (lwip_htons (offset_field o more) .& PP_HTONS IP_MF =? 0) = negb more /\ 0 <= offset_field o more < 65536.
Proof.
  intros Ho. pose proof field_all as HA. rewrite forallb_forall in HA. specialize (HA o ltac:(apply list_elem_of_In, elem_of_seqZ; lia)). unfold field_ok in HA. rewrite forallb_forall in HA.
  specialize (HA more ltac:(destruct more; cbn; tauto)). rewrite !andb_true_iff, Z.eqb_eq, Bool.eqb_true_iff, Z.leb_le, Z.ltb_lt in HA. tauto.
Qed.

(** The fields of a header that was filled in. *)
Lemma header20_fields hdr len fo c : zlen hdr = 20 -> zlen fo = 2 -> 0 <= len < 65536 ->
  let h := header20 hdr len fo c in
  frag_hlen h = frag_hlen hdr /\ frag_len h = Some len /\ frag_field h = u16_of fo /\ hdr_match h hdr = true.
Proof.
  intros Hl Hf Hlen h. destruct fo as [|f0 [|f1 [|]]]; try (unfold zlen in Hf; cbn in Hf; lia).
  unfold h, header20. do 20 (destruct hdr as [|? hdr]; [done|]). destruct hdr; [|unfold zlen in Hl; cbn in Hl; lia]. split_and!; [reflexivity| |reflexivity|].
  - unfold frag_len. change (mem_read _ 2 2) with (Some (bytes16 (lwip_htons len))). cbn [mbind option_bind]. rewrite bytes16_read by apply htons_range. cbn. by rewrite htons_invol.
  - unfold hdr_match. rewrite !bool_decide_eq_true_2 by reflexivity. done.
Qed.

(** A packet of the sender is a fragment for the receiver. *)
Lemma fragment_frag_of hdr D pkt k q a b :
  zlen hdr = 20 -> bytes_ok hdr -> frag_hlen hdr = Some 20 -> zlen D <= 65515 -> 0 <= a < b -> b <= zlen D -> a mod 8 = 0 ->
  fragment hdr D 0 false pkt (a, b) -> content k = pkt -> has_header k ->
  frag_of D hdr k (Helper q a b) /\ reheaded hdr (20 + (b - a)) (bytes16 (lwip_htons (offset_field (a / 8) (negb (b =? zlen D))))) (hdr_of k).
Proof.
  intros Hl Hby Hhl HD Ha Hb Hm (hdr' & Ep & HR) Ek Hk. cbn [fst snd] in *. rewrite Z.add_0_l, orb_false_r in HR. pose proof HR as [(c & Ec) _].
  pose proof (Z.div_mod a 8 ltac:(lia)) as Hd. rewrite Hm in Hd. destruct (field_spec (a / 8) (negb (b =? zlen D)) ltac:(lia)) as (F1 & F2 & F3).
  set (fo := bytes16 (lwip_htons (offset_field (a / 8) (negb (b =? zlen D))))) in *.
  destruct (header20_fields hdr (20 + (b - a)) fo c Hl eq_refl ltac:(lia)) as (H1 & H2 & H3 & H4). rewrite <- Ec in H1, H2, H3, H4.
  assert (Hl' : zlen hdr' = 20) by (rewrite Ec; by apply header20_len).
  assert (Eh : hdr_of k = hdr') by (unfold hdr_of; rewrite Ek, Ep, ztake_app_le, ztake_ge by lia; done).
  assert (Hfo : u16_of fo = Some (lwip_htons (offset_field (a / 8) (negb (b =? zlen D))))) by (apply bytes16_read, htons_range). rewrite Hfo in H3.
  split; [|by rewrite Eh]. split; rewrite ?Eh; cbn [h_start h_end]; try done.
  - rewrite Ec. apply header20_ok; [done|apply bytes16_ok].
  - by rewrite H1.
  - unfold frag_offset. rewrite H3. cbn [mbind option_bind]. f_equal. rewrite F1. lia.
  - eexists. split; [exact H3|]. rewrite F2. by destruct (b =? zlen D).
  - unfold frag_data. rewrite Ek, Ep, zdrop_app_ge, Hl', Z.sub_diag, zdrop_0 by lia. done.
Qed.

Lemma parts_frags hdr D cs : zlen hdr = 20 -> bytes_ok hdr -> frag_hlen hdr = Some 20 -> zlen D <= 65515 ->
  forall pkts rs ps, Forall2 (fragment hdr D 0 false) pkts rs -> Forall2 (fun q pkt => content (cs q) = pkt /\ has_header (cs q)) ps pkts ->
  Forall (fun r => 0 <= r.1 < r.2 /\ r.2 <= zlen D /\ r.1 mod 8 = 0) rs ->
  Forall (fun h => frag_of D hdr (cs (h_p h)) h) (parts ps rs) /\
  Forall (fun h => h_start h = 0 -> exists len f, reheaded hdr len (bytes16 f) (hdr_of (cs (h_p h)))) (parts ps rs).
Proof.
  intros Hl Hby Hhl HD. induction pkts as [|pkt pkts IH]; intros rs ps HF Hps Hrs; [apply Forall2_nil_inv_l in HF as ->; apply Forall2_nil_inv_r in Hps as ->; by split|].
  apply Forall2_cons_inv_l in HF as ([a b] & rs' & Hf & HF & ->). apply Forall2_cons_inv_r in Hps as (q & ps' & [Hq1 Hq2] & Hps & ->). apply Forall_cons in Hrs as [(H1 & H2 & H3) Hrs].
  destruct (IH rs' ps' HF Hps Hrs) as [I1 I2]. cbn [fst snd] in *. destruct (fragment_frag_of hdr D pkt (cs q) q a b Hl Hby Hhl HD H1 H2 H3 Hf Hq1 Hq2) as [G1 G2].
  split; (constructor; [|done]); [done|]. intros _. cbn [h_p]. by eexists _, _.
Qed.

(** The length, the offset and the checksum are overwritten, the rest of the header is
    as it was. *)
Lemma reheaded_twice hdr len fo hdr1 len' fo' hdr2 :
  zlen hdr = 20 -> zlen fo = 2 -> reheaded hdr len fo hdr1 -> reheaded hdr1 len' fo' hdr2 -> reheaded hdr len' fo' hdr2.
Proof.
  intros Hl Hf [(c & ->) _] [(c' & ->) Hc]. split; [|done]. exists c'.
  destruct fo as [|f0 [|f1 [|]]]; try (unfold zlen in Hf; cbn in Hf; lia).
  do 20 (destruct hdr as [|? hdr]; [done|]). destruct hdr; [|unfold zlen in Hl; cbn in Hl; lia]. reflexivity.
Qed.

Lemma cuts_ranges nfb n : 0 < nfb -> 0 <= n -> Forall (fun r => 0 <= r.1 < r.2 /\ r.2 <= n /\ r.1 mod 8 = 0) (cuts (8 * nfb) n).
Proof.
  intros Hn Hn0. unfold cuts, cuts_from. apply Forall_map, Forall_forall. intros j [Hj1 Hj2]%elem_of_seqZ. cbn [fst snd].
  pose proof (cuts_count j (8 * nfb) n ltac:(lia) Hn0). split_and!; try nia. replace (j * (8 * nfb)) with (j * nfb * 8) by lia. apply Z.mod_mul. lia.
Qed.

(** ** There and back *)
Section round.
  Context {U1 U2 : Upper} `{!Component (U := U2) reass}.
  Context (odd_payload odd_payload' : addr -> pbuf -> bool) (output : originals -> addr -> istate (U := U1) -> option (Z * istate (U := U1))) `{!Device output}.
  Context (custom_free : addr -> heap -> option heap) (buf : list Z) (ip4_frag' : addr -> Z -> Z -> istate (U := U2) -> option (Z * istate (U := U2))).

(** The packets [pkts] have arrived in the pbufs [ps]. *)
Definition arrived (cs : addr -> list (addr * pbuf)) (ps : list addr) (pkts : list (list Z)) : Prop :=
  Forall2 (fun q pkt => content (cs q) = pkt /\ has_header (cs q)) ps pkts.

Lemma no_field f : lwip_htons f .& (IP_OFFMASK .| IP_MF) = 0 -> lwip_htons f .& IP_OFFMASK = 0 /\ lwip_htons f .& IP_MF = 0.
Proof.
  intros H. assert (E : forall n, Z.testbit (lwip_htons f) n && (Z.testbit IP_OFFMASK n || Z.testbit IP_MF n) = false).
  { intros n. by rewrite <- Z.lor_spec, <- Z.land_spec, H, Z.bits_0. }
  split; apply Z.bits_inj'; intros n _; rewrite Z.land_spec, Z.bits_0; specialize (E n);
    destruct (Z.testbit (lwip_htons f) n), (Z.testbit IP_OFFMASK n), (Z.testbit IP_MF n); done.
Qed.

(** C23. What one side cuts, the other side joins: when [ip4_frag] has sent a datagram, on
    an interface whose MTU leaves a multiple of eight bytes, and the packets arrive in
    the stack of the receiver in any order, all calls of [ip4_reass] but the last keep
    their fragment and the last returns the datagram: its data, complete and in order,
    behind its header with the length of the whole, no offset and no flags, and a
    checksum that verifies. *)
Theorem frag_reass_roundtrip p nif v hdr D f (s s1 : istate (U := U1)) :
  to_cut p nif v hdr D f s -> (nif_mtu v - 20) mod 8 = 0 -> lwip_htons f .& (IP_OFFMASK .| IP_MF) = 0 ->
  ip4_frag_out odd_payload output p nif s = Some (ERR_OK, s1) ->
  exists pkts, seen s1 = seen s ++ pkts /\
    forall (F : Frame) cs ps fs O (s2 : istate (U := U2)) c o,
      arrived cs ps pkts -> Permutation fs ps -> Forall (fun r => hdr_match (r_iphdr r) hdr = false) (reassdatagrams (rget s2)) ->
      0 <= ip_reass_pbufcount (rget s2) -> ip_reass_pbufcount (rget s2) + zsum (map (fun q => Z.of_nat (length (cs q))) ps) <= IP_REASS_MAX_PBUFS ->
      NoDup (ps ++ O) -> owned (i_heap s2) cs (ps ++ O) -> h_orc (i_heap s2) = Some c :: o ->
      exists q h' k hdr', feed custom_free buf odd_payload' ip4_frag' fs s2 =
          Some (replicate (length fs - 1) None ++ [Some q], rset (Reass (reassdatagrams (rget s2)) (ip_reass_pbufcount (rget s2))) (iheap h' s2)) /\
        owned h' (cs_set q k cs) (q :: O) /\ content k = hdr' ++ D /\ reheaded hdr (20 + zlen D) [0; 0] hdr'.
Proof.
  intros Hc Hmod Hf0 E. destruct (frag_out_loop odd_payload output p nif v hdr D f s Hc Hmod) as (e & s' & pkts & E' & Hsn & _ & _ & _ & Hsent).
  rewrite E in E'. injection E' as <- <-. destruct Hsent as [[_ HF]|[? _]]; [|done]. destruct (no_field f Hf0) as [Ho Hmf]. rewrite Ho, Hmf in HF. cbn [Z.eqb negb] in HF.
  exists pkts. split; [done|]. intros F cs ps fs O s2 c o Harr Hpm HR Hc0 Hroom Hnd HO Horc.
  destruct Hc as [_ _ _ (Hl & Hby & Hhl & _) [HD _] Hmtu]. pose proof (Z.div_mod (nif_mtu v - 20) 8 ltac:(lia)) as Hdiv. rewrite Hmod, Z.add_0_r in Hdiv.
  set (nfb := (nif_mtu v - 20) / 8) in *. rewrite Hdiv in HF. set (rs := cuts (8 * nfb) (zlen D)) in *. assert (Hlen : length ps = length rs) by (rewrite (Forall2_length _ _ _ Harr); by apply (Forall2_length _ _ _ HF)).
  destruct (parts_frags hdr D cs Hl Hby Hhl ltac:(lia) pkts rs ps HF Harr (cuts_ranges nfb (zlen D) ltac:(lia) ltac:(lia))) as [Hfr Hhd].
  pose proof (parts_partition D (8 * nfb) ps ltac:(lia) ltac:(lia) Hlen) as HP. fold rs in HP. set (l := parts ps rs) in *.
  assert (Eps : map h_p l = ps) by (by destruct (parts_cuts (8 * nfb) (zlen D) ltac:(lia) ltac:(lia) ps 0 ltac:(lia) Hlen) as (_ & _ & _ & _ & _ & Ep)).
  rewrite <- Eps in Hpm, Hnd, HO. apply Permutation_map_inv in Hpm as (fl & -> & Hpm).
  assert (Hcount : pbufs_of cs l = zsum (map (fun q => Z.of_nat (length (cs q))) ps)) by (unfold pbufs_of; rewrite <- Eps, map_map; done).
  destruct (feed_any_order custom_free buf odd_payload' ip4_frag' cs D hdr O l fl s2 c o ltac:(lia) HP ltac:(by symmetry) Hfr HR Hc0 ltac:(lia) Hnd HO Horc)
    as (q & s2' & E1 & f0 & h' & k & hdr' & Hin & Hst & -> & -> & HO' & Hk & Hreb).
  exists (h_p f0), h', k, hdr'. rewrite length_map. split_and!; [exact E1|done|done|]. rewrite Forall_forall in Hhd. destruct (Hhd f0 Hin Hst) as (len & fo & Hre).
  rewrite Z.add_comm. eapply reheaded_twice; [done| |exact Hre|exact Hreb]. done.
Qed.

End round.

(** ** A recording device *)

(** The bytes of a chain. *)
Fixpoint chain_bytes (fuel : nat) (p : option addr) (h : heap) : option (list Z) :=
  match p, fuel with
  | None, _ => Some []
  | Some _, O => None
  | Some a, S fuel => b ← get h a; bs ← payload_read b 0 (pb_len b); rest ← chain_bytes fuel (pb_next b) h; Some (bs ++ rest)
  end.

Lemma chain_bytes_ok h : forall k p fuel, lseg h p k None -> Forall (fun c => pb_ok c.2) k -> (length k < fuel)%nat -> chain_bytes fuel p h = Some (content k).
Proof.
  induction k as [|[a b] k IH]; intros p fuel Hl Ho Hf; (destruct fuel as [|fuel]; [cbn in Hf; lia|]).
  - cbn in Hl. by subst p.
  - destruct Hl as (-> & Hg & Hl). apply Forall_cons in Ho as [Hb Ho]. cbn [snd] in Hb. cbn [chain_bytes]. rewrite Hg. cbn [mbind option_bind]. pose proof Hb as (Hlen & _).
    rewrite payload_read_spec by (done || lia). cbn [mbind option_bind]. rewrite (IH _ fuel Hl Ho) by (cbn in Hf; lia). cbn [mbind option_bind].
    rewrite zdrop_0, ztake_ge by (rewrite pb_bytes_len by done; lia). by rewrite content_cons.
Qed.

#[local] Instance exf_upper : Upper := {| upper := list (list Z); held := fun _ => []; up_ok := fun _ => True |}.

Definition exf_output (orig : originals) (r : addr) (s : istate) : option (Z * istate) :=
  bs ← chain_bytes (chain_fuel (i_heap s)) (Some r) (i_heap s);
  Some (ERR_OK, IState (i_l s) (i_posts s) (i_polls s) (ip_id s) (ip4_default_multicast_netif s) (ip_data s) (i_up s ++ [bs])).

#[local] Instance exf_device : Device exf_output.
Proof.
  refine {| seen := fun s => i_up s |}; [done|]. intros orig r k s Hk Hwf. pose proof Hk as [Hl Hnd Ho _ _]. destruct (packet_tot _ _ _ Hk) as (b & Hg & _).
  eexists _, _, b, b. unfold exf_output. rewrite (chain_bytes_ok _ k) by (done || by eapply lseg_length). cbn [mbind option_bind]. split_and!; done.
Defined.

(** ** A concrete datagram *)
Definition exf_hdr (len : Z) : list Z := [0x45; 0] ++ bytes16 (lwip_htons len) ++ [0; 9; 0; 0; 64; 17; 0; 0; 10; 0; 0; 1; 10; 0; 0; 2].

(** The interface 1 with the given MTU, a datagram with data [D] at address 1, and
    memory for [n] allocations. *)
Definition exf_s (mtu : Z) (D : list Z) (n : nat) : istate :=
  let b := exi_pbuf (exf_hdr (20 + zlen D) ++ D) in
  let h := Heap {[1%positive := b]} 9%positive (replicate n (Some [])) false [] in
  let x := exi_x b in
  let l := exi_l b ∅ in
  IState (lheap h (lx (set_net (NState {[1 := nset_mtu mtu exi_nif]} (Some 1) (Some 1) 1 []) x) l)) [] [] 7 None (IpGlobals None None None 0 0 0) [].

Definition exf_even : addr -> pbuf -> bool := fun _ _ => false.

Lemma exf_to_cut mtu D n : 28 <= mtu < 65536 -> 0 < zlen D <= 65515 -> to_cut 1%positive 1 (nset_mtu mtu exi_nif) (exf_hdr (20 + zlen D)) D 0 (exf_s mtu D n).
Proof.
  intros Hm HD. set (b := exi_pbuf (exf_hdr (20 + zlen D) ++ D)). assert (Hl : zlen (exf_hdr (20 + zlen D) ++ D) = 20 + zlen D) by (rewrite zlen_app; done).
  destruct (exi_good (exf_hdr (20 + zlen D) ++ D) ltac:(lia)) as (H1 & H2 & H3 & H4 & H5). fold b in H1, H2, H3, H4, H5. split.
  - exists b, []. split_and!; [split; [by apply packet_single|apply Forall_singleton; cbn [snd]; lia]| |].
    + cbn [content map concat snd]. rewrite app_nil_r. unfold pb_bytes, b, exi_pbuf. cbn [pb_len pb_payload pb_mem]. rewrite zdrop_app_ge by done. change (64 - zlen (replicate 64 0)) with 0.
      rewrite zdrop_0, ztake_app_le, ztake_ge by lia. done.
    + change (pb_len b) with (zlen (exf_hdr (20 + zlen D) ++ D)). lia.
  - intros a x Hg. change (({[1%positive := b]} : gmap addr pbuf) !! a = Some x) in Hg. apply lookup_singleton_Some in Hg as [<- _]. done.
  - reflexivity.
  - split_and!; [done| |done|done]. unfold exf_hdr. rewrite !bytes_ok_app. split_and!; [|apply bytes16_ok|]; apply (bool_decide_unpack _); vm_compute; exact I.
  - split; [done|]. change (lwip_htons 0 .& IP_OFFMASK) with 0. lia.
  - exact Hm.
Qed.

(** 44 bytes leave 24 for the data: 60 bytes are sent in three packets. *)
Definition exf_data : list Z := map Z.of_nat (seq 0 60).

Lemma ip4_frag_cuts_witness :
  exists e s' pkts, ip4_frag_out exf_even exf_output 1%positive 1 (exf_s 44 exf_data 9) = Some (e, s') /\ seen s' = [] ++ pkts /\
    same_store (i_heap (exf_s 44 exf_data 9)) (i_heap s') /\ heap_wf (i_heap s') /\
    sent (exf_hdr 80) exf_data 0 false [(0, 24); (24, 48); (48, 60)] (i_heap (exf_s 44 exf_data 9)) (i_heap s') e pkts.
Proof.
  exact (ip4_frag_cuts exf_even exf_output 1%positive 1 (nset_mtu 44 exi_nif) (exf_hdr 80) exf_data 0 (exf_s 44 exf_data 9)
    (exf_to_cut 44 exf_data 9 ltac:(lia) ltac:(vm_compute; split; [reflexivity|discriminate])) eq_refl).
Defined.

Definition exf_sent : istate := match ip4_frag_out exf_even exf_output 1%positive 1 (exf_s 44 exf_data 9) with Some (_, s) => s | None => exf_s 44 exf_data 9 end.

(** The receiver: the packets in the pbufs 1, 2 and 3. *)
Definition exf_reass : Upper := {| upper := reass; held := fun _ => []; up_ok := fun _ => True |}.

Definition exf_component : Component (U := exf_reass) reass.
Proof. refine {| comp_get := (fun u => u) : @upper exf_reass -> reass; comp_set := (fun a _ => a) : reass -> @upper exf_reass -> @upper exf_reass |}; done. Defined.

Definition exf_pb (q : addr) : pbuf := exi_pbuf (default [] (i_up exf_sent !! (Pos.to_nat q - 1)%nat)).

Definition exf_cs (q : addr) : list (addr * pbuf) := [(q, exf_pb q)].

Definition exf_got : istate (U := exf_reass) :=
  IState (U := exf_reass) (lheap (Heap {[1%positive := exf_pb 1%positive; 2%positive := exf_pb 2%positive; 3%positive := exf_pb 3%positive]} 9%positive [Some []] false []) (exi_l (exi_pbuf []) ∅)) [] [] 7 None (IpGlobals None None None 0 0 0) (Reass [] 0).

Lemma exf_run : ip4_frag_out exf_even exf_output 1%positive 1 (exf_s 44 exf_data 9) = Some (ERR_OK, exf_sent).
Proof. vm_compute. reflexivity. Qed.

Lemma arrived_by cs : forall ps pkts, length ps = length pkts ->
  forallb (fun x => bool_decide (content (cs x.1) = x.2) && match cs x.1 with (_, b) :: _ => 20 <=? pb_len b | [] => false end) (zip ps pkts) = true -> arrived cs ps pkts.
Proof.
  induction ps as [|q ps IH]; intros [|pkt pkts] Hl; try done; [constructor|]. injection Hl as Hl. cbn [zip_with forallb fst snd]. rewrite !andb_true_iff. intros [[H1 H2] H3].
  constructor; [|by apply IH]. split; [by apply bool_decide_eq_true in H1|]. unfold has_header. destruct (cs q) as [|[a b] k]; [done|]. by apply Z.leb_le.
Qed.

Lemma exf_arrived : arrived exf_cs [1; 2; 3]%positive (i_up exf_sent).
Proof. apply arrived_by; vm_compute; reflexivity. Qed.

Lemma exf_owned : owned (F := no_frame) (i_heap exf_got) exf_cs [1; 2; 3]%positive.
Proof.
  apply owned_singles.
  - apply (bool_decide_unpack _); vm_compute; exact I.
  - intros p Hp. exists (exf_pb p). split; [reflexivity|]. rewrite !elem_of_cons, elem_of_nil in Hp.
    destruct Hp as [->|[->|[->|[]]]]; (split; [reflexivity|]; apply exi_good; vm_compute; reflexivity).
  - intros a [b Hg]. unfold get, exf_got in Hg.
    change (({[1%positive := exf_pb 1%positive; 2%positive := exf_pb 2%positive; 3%positive := exf_pb 3%positive]} : gmap addr pbuf) !! a = Some b) in Hg.
    apply lookup_insert_Some in Hg as [[<- _]|[_ Hg]]; [set_solver|].
    apply lookup_insert_Some in Hg as [[<- _]|[_ Hg]]; [set_solver|].
    apply lookup_singleton_Some in Hg as [<- _]. set_solver.
Qed.

Lemma frag_reass_roundtrip_witness :
  exists q h' k hdr', feed (U := exf_reass) (Component0 := exf_component) (fun _ _ => None) [] exf_even (fun _ _ _ _ => None) [3; 1; 2]%positive exf_got = Some ([None; None; Some q], rset (Component0 := exf_component) (Reass [] 0) (iheap h' exf_got)) /\
    owned (F := no_frame) h' (cs_set q k exf_cs) [q] /\ content k = hdr' ++ exf_data /\ reheaded (exf_hdr 80) (20 + zlen exf_data) [0; 0] hdr'.
Proof.
  destruct (frag_reass_roundtrip (U2 := exf_reass) (Component0 := exf_component) exf_even exf_even exf_output (fun _ _ => None) [] (fun _ _ _ _ => None) 1%positive 1 (nset_mtu 44 exi_nif) (exf_hdr 80) exf_data 0
    (exf_s 44 exf_data 9) exf_sent (exf_to_cut 44 exf_data 9 ltac:(lia) ltac:(vm_compute; split; [reflexivity|discriminate])) eq_refl eq_refl exf_run) as (pkts & Hp & Hrt).
  change (i_up exf_sent = pkts) in Hp. pose proof exf_arrived as Harr. rewrite Hp in Harr.
  exact (Hrt no_frame exf_cs [1; 2; 3]%positive [3; 1; 2]%positive [] exf_got [] [] Harr ltac:(apply (bool_decide_unpack _); vm_compute; exact I) ltac:(constructor)
    ltac:(vm_compute; discriminate) ltac:(vm_compute; discriminate) ltac:(apply (bool_decide_unpack _); vm_compute; exact I) exf_owned eq_refl).
Defined.

(** ** An MTU that is not eight times something *)

(** The length, the offset and the flag of a packet. *)
Definition frag_summary (pkt : list Z) : option (Z * Z * bool) :=
  len ← frag_len pkt; off ← frag_offset pkt; f ← frag_field pkt; Some (len, off, negb (f .& PP_HTONS IP_MF =? 0)).

Definition exf_long : list Z := replicate (Z.to_nat 5556) 7.

Definition exf_got2 (pkts : list (list Z)) : istate (U := exf_reass) :=
  let pb i := exi_pbuf (default [] (pkts !! i)) in
  IState (U := exf_reass) (lheap (Heap {[1%positive := pb 0%nat; 2%positive := pb 1%nat]} 9%positive [Some []] false []) (exi_l (exi_pbuf []) ∅)) [] [] 7 None (IpGlobals None None None 0 0 0) (Reass [] 0).

(** The last fragment is looked for by its size before rounding: with the MTU of a
    ZeroTier network, 2800, which leaves 2780 bytes and so 2776 in a fragment, a datagram
    with 5556 bytes of data goes out in three packets, the second of which says that no
    more follow.  The receiver's [ip4_reass] takes the first two for the datagram: four
    bytes are lost and nobody is told. *)
Theorem frag_mf_early :
  exists s1 s2 k, ip4_frag_out exf_even exf_output 1%positive 1 (exf_s 2800 exf_long 20) = Some (ERR_OK, s1) /\
    map frag_summary (seen s1) = [Some (2796, 0, true); Some (2796, 2776, false); Some (24, 5552, false)] /\
    feed (U := exf_reass) (Component0 := exf_component) (fun _ _ => None) [] exf_even (fun _ _ _ _ => None) [1; 2]%positive (exf_got2 (seen s1)) = Some ([None; Some 1%positive], s2) /\
    chain_bytes 5 (Some 1%positive) (i_heap s2) = Some k /\ zlen k = 20 + 5552.
Proof.
  assert (Hc : match ip4_frag_out exf_even exf_output 1%positive 1 (exf_s 2800 exf_long 20) with
    | Some (e, s1) =>
        (e =? ERR_OK) && bool_decide (map frag_summary (i_up s1) = [Some (2796, 0, true); Some (2796, 2776, false); Some (24, 5552, false)]) &&
        match feed (U := exf_reass) (Component0 := exf_component) (fun _ _ => None) [] exf_even (fun _ _ _ _ => None) [1; 2]%positive (exf_got2 (i_up s1)) with
        | Some (rs, s2) => bool_decide (rs = [None; Some 1%positive]) && match chain_bytes 5 (Some 1%positive) (i_heap s2) with Some k => zlen k =? 20 + 5552 | None => false end
        | None => false
        end
    | None => false
    end = true) by (vm_compute; reflexivity).
  destruct (ip4_frag_out _ _ _ _ _) as [[e s1]|]; [|done]. apply andb_true_iff in Hc as [[He Hs]%andb_true_iff Hc].
  destruct (feed _ _ _ _ _ _) as [[rs s2]|] eqn:Ef; [|done]. apply andb_true_iff in Hc as [Hrs Hc]. destruct (chain_bytes _ _ _) as [k|] eqn:Ek; [|done].
  apply Z.eqb_eq in He, Hc. apply bool_decide_eq_true in Hs, Hrs. subst e rs. by exists s1, s2, k.
Qed.
