(* ===== verification/TcpIn.v ===== *)
(** TCP input: [tcp_receive], the options, the SACK ranges and the receive window, from
    [core/tcp_in.c], [core/tcp.c] and [core/tcp_out.c].

    A segment on a queue is its header's numbers and flags and the bytes that its pbufs
    carry; [pbuf_realloc], the loop around [pbuf_remove_header] and [pbuf_cat] do to these
    bytes what [PbufClaims] shows them to do.  [TCP_QUEUE_OOSEQ], window scaling and
    SACKs are on, timestamps and the limits of the out-of-sequence queue off; the hints that
    [tcp_receive] gives to neighbour discovery for IPv6 are left out. *)
From S2P Require Import Prelude Bits Def Pbuf.

(** ** Constants *)
Definition TCP_FIN : Z := 0x01.
Definition TCP_SYN : Z := 0x02.
Definition TCP_RST : Z := 0x04.
Definition TCP_PSH : Z := 0x08.
Definition TCP_ACK : Z := 0x10.
Definition TF_ACK_DELAY : Z := 0x01.
Definition TF_ACK_NOW : Z := 0x02.
Definition TF_INFR : Z := 0x04.
Definition TF_CLOSEPEND : Z := 0x08.
Definition TF_RXCLOSED : Z := 0x10.
Definition TF_FIN : Z := 0x20.
Definition TF_NODELAY : Z := 0x40.
Definition TF_NAGLEMEMERR : Z := 0x80.
Definition TF_WND_SCALE : Z := 0x0100.
Definition TF_BACKLOGPEND : Z := 0x0200.
Definition TF_RTO : Z := 0x0800.
Definition TF_SACK : Z := 0x1000.
Definition TF_RESET : Z := 0x08.
Definition TF_CLOSED : Z := 0x10.
Definition TF_GOT_FIN : Z := 0x20.
Definition CLOSED : Z := 0.
Definition LISTEN : Z := 1.
Definition SYN_SENT : Z := 2.
Definition SYN_RCVD : Z := 3.
Definition ESTABLISHED : Z := 4.
Definition FIN_WAIT_1 : Z := 5.
Definition FIN_WAIT_2 : Z := 6.
Definition CLOSE_WAIT : Z := 7.
Definition CLOSING : Z := 8.
Definition LAST_ACK : Z := 9.
Definition TIME_WAIT : Z := 10.
Definition TCP_WND : Z := 0xffff0.
Definition TCP_MSS : Z := 1460.
Definition TCP_RCV_SCALE : Z := 4.
Definition LWIP_TCP_MAX_SACK_NUM : nat := 4.
Definition TCP_MAX_OPTION_BYTES : Z := 40.
Definition TCP_WND_UPDATE_THRESHOLD : Z := Z.min (TCP_WND / 4) (TCP_MSS * 4).

(** ** Sequence numbers *)
Definition TCP_SEQ_LT (a b : Z) : bool := s32 (u32 a - u32 b) <? 0.
Definition TCP_SEQ_LEQ (a b : Z) : bool := s32 (u32 a - u32 b) <=? 0.
Definition TCP_SEQ_GT (a b : Z) : bool := 0 <? s32 (u32 a - u32 b).
Definition TCP_SEQ_GEQ (a b : Z) : bool := 0 <=? s32 (u32 a - u32 b).
Definition TCP_SEQ_BETWEEN (a b c : Z) : bool := TCP_SEQ_GEQ a b && TCP_SEQ_LEQ a c.

(** ** Segments and PCBs *)

(** [struct tcp_seg]; [sg_flags] are the flags of its header and [sg_opts] its own,
    [sg_clen] is the number of its pbufs, [sg_busy] whether somebody else holds a reference
    to the first one (the last three matter for segments to be sent only). *)
Record tcp_seg := TcpSeg { sg_seqno : Z; sg_len : Z; sg_flags : Z; sg_data : list Z; sg_opts : Z; sg_clen : Z; sg_busy : bool }.

Definition TCP_TCPLEN (g : tcp_seg) : Z := sg_len g + (if sg_flags g .& (TCP_FIN .| TCP_SYN) =? 0 then 0 else 1).

Definition has_fin (g : tcp_seg) : bool := negb (sg_flags g .& TCP_FIN =? 0).

Definition has_syn (g : tcp_seg) : bool := negb (sg_flags g .& TCP_SYN =? 0).

Definition set_fin (g : tcp_seg) : tcp_seg := TcpSeg (sg_seqno g) (sg_len g) (sg_flags g .| TCP_FIN) (sg_data g) (sg_opts g) (sg_clen g) (sg_busy g).

Definition clear_fin (g : tcp_seg) : tcp_seg := TcpSeg (sg_seqno g) (sg_len g) (sg_flags g .& Z.lnot TCP_FIN) (sg_data g) (sg_opts g) (sg_clen g) (sg_busy g).

(** [g->len = len; pbuf_realloc(g->p, g->len)]. *)
Definition seg_realloc (len : Z) (g : tcp_seg) : tcp_seg := TcpSeg (sg_seqno g) len (sg_flags g) (ztake len (sg_data g)) (sg_opts g) (sg_clen g) (sg_busy g).

(** The sender's part of the PCB. *)
Record tcp_snd := TcpSnd {
  snd_nxt : Z;
  snd_lbb : Z;
  lastack : Z;
  snd_wnd : Z;
  snd_wnd_max : Z;
  snd_wl1 : Z;
  snd_wl2 : Z;
  snd_buf : Z;
  snd_queuelen : Z;
  unsent_oversize : Z;
  unsent : list tcp_seg;
  unacked : list tcp_seg;
  cwnd : Z;
  ssthresh : Z;
  bytes_acked : Z;
  dupacks : Z;
  nrtx : Z;
  rtime : Z;
  rttest : Z;
  rtseq : Z;
  sa : Z;
  sv : Z;
  rto : Z;
  rto_end : Z;
  polltmr : Z;
  persist_cnt : Z;
  persist_backoff : Z;
  persist_probe : Z;
}.

Definition set_snd_nxt (v : Z) (s : tcp_snd) : tcp_snd :=
  TcpSnd v (snd_lbb s) (lastack s) (snd_wnd s) (snd_wnd_max s) (snd_wl1 s) (snd_wl2 s) (snd_buf s) (snd_queuelen s) (unsent_oversize s) (unsent s) (unacked s) (cwnd s) (ssthresh s) (bytes_acked s) (dupacks s) (nrtx s) (rtime s) (rttest s) (rtseq s) (sa s) (sv s) (rto s) (rto_end s) (polltmr s) (persist_cnt s) (persist_backoff s) (persist_probe s).

Definition set_snd_lbb (v : Z) (s : tcp_snd) : tcp_snd :=
  TcpSnd (snd_nxt s) v (lastack s) (snd_wnd s) (snd_wnd_max s) (snd_wl1 s) (snd_wl2 s) (snd_buf s) (snd_queuelen s) (unsent_oversize s) (unsent s) (unacked s) (cwnd s) (ssthresh s) (bytes_acked s) (dupacks s) (nrtx s) (rtime s) (rttest s) (rtseq s) (sa s) (sv s) (rto s) (rto_end s) (polltmr s) (persist_cnt s) (persist_backoff s) (persist_probe s).

Definition set_lastack (v : Z) (s : tcp_snd) : tcp_snd :=
  TcpSnd (snd_nxt s) (snd_lbb s) v (snd_wnd s) (snd_wnd_max s) (snd_wl1 s) (snd_wl2 s) (snd_buf s) (snd_queuelen s) (unsent_oversize s) (unsent s) (unacked s) (cwnd s) (ssthresh s) (bytes_acked s) (dupacks s) (nrtx s) (rtime s) (rttest s) (rtseq s) (sa s) (sv s) (rto s) (rto_end s) (polltmr s) (persist_cnt s) (persist_backoff s) (persist_probe s).

Definition set_snd_wnd (v : Z) (s : tcp_snd) : tcp_snd :=
  TcpSnd (snd_nxt s) (snd_lbb s) (lastack s) v (snd_wnd_max s) (snd_wl1 s) (snd_wl2 s) (snd_buf s) (snd_queuelen s) (unsent_oversize s) (unsent s) (unacked s) (cwnd s) (ssthresh s) (bytes_acked s) (dupacks s) (nrtx s) (rtime s) (rttest s) (rtseq s) (sa s) (sv s) (rto s) (rto_end s) (polltmr s) (persist_cnt s) (persist_backoff s) (persist_probe s).

Definition set_snd_wnd_max (v : Z) (s : tcp_snd) : tcp_snd :=
  TcpSnd (snd_nxt s) (snd_lbb s) (lastack s) (snd_wnd s) v (snd_wl1 s) (snd_wl2 s) (snd_buf s) (snd_queuelen s) (unsent_oversize s) (unsent s) (unacked s) (cwnd s) (ssthresh s) (bytes_acked s) (dupacks s) (nrtx s) (rtime s) (rttest s) (rtseq s) (sa s) (sv s) (rto s) (rto_end s) (polltmr s) (persist_cnt s) (persist_backoff s) (persist_probe s).

Definition set_snd_wl1 (v : Z) (s : tcp_snd) : tcp_snd :=
  TcpSnd (snd_nxt s) (snd_lbb s) (lastack s) (snd_wnd s) (snd_wnd_max s) v (snd_wl2 s) (snd_buf s) (snd_queuelen s) (unsent_oversize s) (unsent s) (unacked s) (cwnd s) (ssthresh s) (bytes_acked s) (dupacks s) (nrtx s) (rtime s) (rttest s) (rtseq s) (sa s) (sv s) (rto s) (rto_end s) (polltmr s) (persist_cnt s) (persist_backoff s) (persist_probe s).

Definition set_snd_wl2 (v : Z) (s : tcp_snd) : tcp_snd :=
  TcpSnd (snd_nxt s) (snd_lbb s) (lastack s) (snd_wnd s) (snd_wnd_max s) (snd_wl1 s) v (snd_buf s) (snd_queuelen s) (unsent_oversize s) (unsent s) (unacked s) (cwnd s) (ssthresh s) (bytes_acked s) (dupacks s) (nrtx s) (rtime s) (rttest s) (rtseq s) (sa s) (sv s) (rto s) (rto_end s) (polltmr s) (persist_cnt s) (persist_backoff s) (persist_probe s).

Definition set_snd_buf (v : Z) (s : tcp_snd) : tcp_snd :=
  TcpSnd (snd_nxt s) (snd_lbb s) (lastack s) (snd_wnd s) (snd_wnd_max s) (snd_wl1 s) (snd_wl2 s) v (snd_queuelen s) (unsent_oversize s) (unsent s) (unacked s) (cwnd s) (ssthresh s) (bytes_acked s) (dupacks s) (nrtx s) (rtime s) (rttest s) (rtseq s) (sa s) (sv s) (rto s) (rto_end s) (polltmr s) (persist_cnt s) (persist_backoff s) (persist_probe s).

Definition set_snd_queuelen (v : Z) (s : tcp_snd) : tcp_snd :=
  TcpSnd (snd_nxt s) (snd_lbb s) (lastack s) (snd_wnd s) (snd_wnd_max s) (snd_wl1 s) (snd_wl2 s) (snd_buf s) v (unsent_oversize s) (unsent s) (unacked s) (cwnd s) (ssthresh s) (bytes_acked s) (dupacks s) (nrtx s) (rtime s) (rttest s) (rtseq s) (sa s) (sv s) (rto s) (rto_end s) (polltmr s) (persist_cnt s) (persist_backoff s) (persist_probe s).

Definition set_unsent_oversize (v : Z) (s : tcp_snd) : tcp_snd :=
  TcpSnd (snd_nxt s) (snd_lbb s) (lastack s) (snd_wnd s) (snd_wnd_max s) (snd_wl1 s) (snd_wl2 s) (snd_buf s) (snd_queuelen s) v (unsent s) (unacked s) (cwnd s) (ssthresh s) (bytes_acked s) (dupacks s) (nrtx s) (rtime s) (rttest s) (rtseq s) (sa s) (sv s) (rto s) (rto_end s) (polltmr s) (persist_cnt s) (persist_backoff s) (persist_probe s).

Definition set_unsent (v : list tcp_seg) (s : tcp_snd) : tcp_snd :=
  TcpSnd (snd_nxt s) (snd_lbb s) (lastack s) (snd_wnd s) (snd_wnd_max s) (snd_wl1 s) (snd_wl2 s) (snd_buf s) (snd_queuelen s) (unsent_oversize s) v (unacked s) (cwnd s) (ssthresh s) (bytes_acked s) (dupacks s) (nrtx s) (rtime s) (rttest s) (rtseq s) (sa s) (sv s) (rto s) (rto_end s) (polltmr s) (persist_cnt s) (persist_backoff s) (persist_probe s).

Definition set_unacked (v : list tcp_seg) (s : tcp_snd) : tcp_snd :=
  TcpSnd (snd_nxt s) (snd_lbb s) (lastack s) (snd_wnd s) (snd_wnd_max s) (snd_wl1 s) (snd_wl2 s) (snd_buf s) (snd_queuelen s) (unsent_oversize s) (unsent s) v (cwnd s) (ssthresh s) (bytes_acked s) (dupacks s) (nrtx s) (rtime s) (rttest s) (rtseq s) (sa s) (sv s) (rto s) (rto_end s) (polltmr s) (persist_cnt s) (persist_backoff s) (persist_probe s).

Definition set_cwnd (v : Z) (s : tcp_snd) : tcp_snd :=
  TcpSnd (snd_nxt s) (snd_lbb s) (lastack s) (snd_wnd s) (snd_wnd_max s) (snd_wl1 s) (snd_wl2 s) (snd_buf s) (snd_queuelen s) (unsent_oversize s) (unsent s) (unacked s) v (ssthresh s) (bytes_acked s) (dupacks s) (nrtx s) (rtime s) (rttest s) (rtseq s) (sa s) (sv s) (rto s) (rto_end s) (polltmr s) (persist_cnt s) (persist_backoff s) (persist_probe s).

Definition set_ssthresh (v : Z) (s : tcp_snd) : tcp_snd :=
  TcpSnd (snd_nxt s) (snd_lbb s) (lastack s) (snd_wnd s) (snd_wnd_max s) (snd_wl1 s) (snd_wl2 s) (snd_buf s) (snd_queuelen s) (unsent_oversize s) (unsent s) (unacked s) (cwnd s) v (bytes_acked s) (dupacks s) (nrtx s) (rtime s) (rttest s) (rtseq s) (sa s) (sv s) (rto s) (rto_end s) (polltmr s) (persist_cnt s) (persist_backoff s) (persist_probe s).

Definition set_bytes_acked (v : Z) (s : tcp_snd) : tcp_snd :=
  TcpSnd (snd_nxt s) (snd_lbb s) (lastack s) (snd_wnd s) (snd_wnd_max s) (snd_wl1 s) (snd_wl2 s) (snd_buf s) (snd_queuelen s) (unsent_oversize s) (unsent s) (unacked s) (cwnd s) (ssthresh s) v (dupacks s) (nrtx s) (rtime s) (rttest s) (rtseq s) (sa s) (sv s) (rto s) (rto_end s) (polltmr s) (persist_cnt s) (persist_backoff s) (persist_probe s).

Definition set_dupacks (v : Z) (s : tcp_snd) : tcp_snd :=
  TcpSnd (snd_nxt s) (snd_lbb s) (lastack s) (snd_wnd s) (snd_wnd_max s) (snd_wl1 s) (snd_wl2 s) (snd_buf s) (snd_queuelen s) (unsent_oversize s) (unsent s) (unacked s) (cwnd s) (ssthresh s) (bytes_acked s) v (nrtx s) (rtime s) (rttest s) (rtseq s) (sa s) (sv s) (rto s) (rto_end s) (polltmr s) (persist_cnt s) (persist_backoff s) (persist_probe s).

Definition set_nrtx (v : Z) (s : tcp_snd) : tcp_snd :=
  TcpSnd (snd_nxt s) (snd_lbb s) (lastack s) (snd_wnd s) (snd_wnd_max s) (snd_wl1 s) (snd_wl2 s) (snd_buf s) (snd_queuelen s) (unsent_oversize s) (unsent s) (unacked s) (cwnd s) (ssthresh s) (bytes_acked s) (dupacks s) v (rtime s) (rttest s) (rtseq s) (sa s) (sv s) (rto s) (rto_end s) (polltmr s) (persist_cnt s) (persist_backoff s) (persist_probe s).

Definition set_rtime (v : Z) (s : tcp_snd) : tcp_snd :=
  TcpSnd (snd_nxt s) (snd_lbb s) (lastack s) (snd_wnd s) (snd_wnd_max s) (snd_wl1 s) (snd_wl2 s) (snd_buf s) (snd_queuelen s) (unsent_oversize s) (unsent s) (unacked s) (cwnd s) (ssthresh s) (bytes_acked s) (dupacks s) (nrtx s) v (rttest s) (rtseq s) (sa s) (sv s) (rto s) (rto_end s) (polltmr s) (persist_cnt s) (persist_backoff s) (persist_probe s).

Definition set_rttest (v : Z) (s : tcp_snd) : tcp_snd :=
  TcpSnd (snd_nxt s) (snd_lbb s) (lastack s) (snd_wnd s) (snd_wnd_max s) (snd_wl1 s) (snd_wl2 s) (snd_buf s) (snd_queuelen s) (unsent_oversize s) (unsent s) (unacked s) (cwnd s) (ssthresh s) (bytes_acked s) (dupacks s) (nrtx s) (rtime s) v (rtseq s) (sa s) (sv s) (rto s) (rto_end s) (polltmr s) (persist_cnt s) (persist_backoff s) (persist_probe s).

Definition set_rtseq (v : Z) (s : tcp_snd) : tcp_snd :=
  TcpSnd (snd_nxt s) (snd_lbb s) (lastack s) (snd_wnd s) (snd_wnd_max s) (snd_wl1 s) (snd_wl2 s) (snd_buf s) (snd_queuelen s) (unsent_oversize s) (unsent s) (unacked s) (cwnd s) (ssthresh s) (bytes_acked s) (dupacks s) (nrtx s) (rtime s) (rttest s) v (sa s) (sv s) (rto s) (rto_end s) (polltmr s) (persist_cnt s) (persist_backoff s) (persist_probe s).

Definition set_sa (v : Z) (s : tcp_snd) : tcp_snd :=
  TcpSnd (snd_nxt s) (snd_lbb s) (lastack s) (snd_wnd s) (snd_wnd_max s) (snd_wl1 s) (snd_wl2 s) (snd_buf s) (snd_queuelen s) (unsent_oversize s) (unsent s) (unacked s) (cwnd s) (ssthresh s) (bytes_acked s) (dupacks s) (nrtx s) (rtime s) (rttest s) (rtseq s) v (sv s) (rto s) (rto_end s) (polltmr s) (persist_cnt s) (persist_backoff s) (persist_probe s).

Definition set_sv (v : Z) (s : tcp_snd) : tcp_snd :=
  TcpSnd (snd_nxt s) (snd_lbb s) (lastack s) (snd_wnd s) (snd_wnd_max s) (snd_wl1 s) (snd_wl2 s) (snd_buf s) (snd_queuelen s) (unsent_oversize s) (unsent s) (unacked s) (cwnd s) (ssthresh s) (bytes_acked s) (dupacks s) (nrtx s) (rtime s) (rttest s) (rtseq s) (sa s) v (rto s) (rto_end s) (polltmr s) (persist_cnt s) (persist_backoff s) (persist_probe s).

Definition set_rto (v : Z) (s : tcp_snd) : tcp_snd :=
  TcpSnd (snd_nxt s) (snd_lbb s) (lastack s) (snd_wnd s) (snd_wnd_max s) (snd_wl1 s) (snd_wl2 s) (snd_buf s) (snd_queuelen s) (unsent_oversize s) (unsent s) (unacked s) (cwnd s) (ssthresh s) (bytes_acked s) (dupacks s) (nrtx s) (rtime s) (rttest s) (rtseq s) (sa s) (sv s) v (rto_end s) (polltmr s) (persist_cnt s) (persist_backoff s) (persist_probe s).

Definition set_rto_end (v : Z) (s : tcp_snd) : tcp_snd :=
  TcpSnd (snd_nxt s) (snd_lbb s) (lastack s) (snd_wnd s) (snd_wnd_max s) (snd_wl1 s) (snd_wl2 s) (snd_buf s) (snd_queuelen s) (unsent_oversize s) (unsent s) (unacked s) (cwnd s) (ssthresh s) (bytes_acked s) (dupacks s) (nrtx s) (rtime s) (rttest s) (rtseq s) (sa s) (sv s) (rto s) v (polltmr s) (persist_cnt s) (persist_backoff s) (persist_probe s).

Definition set_polltmr (v : Z) (s : tcp_snd) : tcp_snd :=
  TcpSnd (snd_nxt s) (snd_lbb s) (lastack s) (snd_wnd s) (snd_wnd_max s) (snd_wl1 s) (snd_wl2 s) (snd_buf s) (snd_queuelen s) (unsent_oversize s) (unsent s) (unacked s) (cwnd s) (ssthresh s) (bytes_acked s) (dupacks s) (nrtx s) (rtime s) (rttest s) (rtseq s) (sa s) (sv s) (rto s) (rto_end s) v (persist_cnt s) (persist_backoff s) (persist_probe s).

Definition set_persist_cnt (v : Z) (s : tcp_snd) : tcp_snd :=
  TcpSnd (snd_nxt s) (snd_lbb s) (lastack s) (snd_wnd s) (snd_wnd_max s) (snd_wl1 s) (snd_wl2 s) (snd_buf s) (snd_queuelen s) (unsent_oversize s) (unsent s) (unacked s) (cwnd s) (ssthresh s) (bytes_acked s) (dupacks s) (nrtx s) (rtime s) (rttest s) (rtseq s) (sa s) (sv s) (rto s) (rto_end s) (polltmr s) v (persist_backoff s) (persist_probe s).

Definition set_persist_backoff (v : Z) (s : tcp_snd) : tcp_snd :=
  TcpSnd (snd_nxt s) (snd_lbb s) (lastack s) (snd_wnd s) (snd_wnd_max s) (snd_wl1 s) (snd_wl2 s) (snd_buf s) (snd_queuelen s) (unsent_oversize s) (unsent s) (unacked s) (cwnd s) (ssthresh s) (bytes_acked s) (dupacks s) (nrtx s) (rtime s) (rttest s) (rtseq s) (sa s) (sv s) (rto s) (rto_end s) (polltmr s) (persist_cnt s) v (persist_probe s).

Definition set_persist_probe (v : Z) (s : tcp_snd) : tcp_snd :=
  TcpSnd (snd_nxt s) (snd_lbb s) (lastack s) (snd_wnd s) (snd_wnd_max s) (snd_wl1 s) (snd_wl2 s) (snd_buf s) (snd_queuelen s) (unsent_oversize s) (unsent s) (unacked s) (cwnd s) (ssthresh s) (bytes_acked s) (dupacks s) (nrtx s) (rtime s) (rttest s) (rtseq s) (sa s) (sv s) (rto s) (rto_end s) (polltmr s) (persist_cnt s) (persist_backoff s) v.

(** [struct tcp_pcb]: what the input and output functions use of it.  [refused_data] has
    the bytes and whether a FIN is behind them, [listener] the listener's [accepts_pending]. *)
Record tcp_pcb := TcpPcb {
  state : Z;
  pflags : Z;
  mss : Z;
  snd_scale : Z;
  rcv_scale : Z;
  rcv_nxt : Z;
  rcv_wnd : Z;
  rcv_ann_wnd : Z;
  rcv_ann_right_edge : Z;
  rcv_sacks : list (Z * Z);
  ooseq : list tcp_seg;
  refused_data : option (list Z * bool);
  tmr : Z;
  keep_cnt_sent : Z;
  keep_idle : Z;
  keep_intvl : Z;
  keep_cnt : Z;
  so_options : Z;
  pollinterval : Z;
  listener : option Z;
  p_snd : tcp_snd;
}.

Definition set_state (v : Z) (p : tcp_pcb) : tcp_pcb :=
  TcpPcb v (pflags p) (mss p) (snd_scale p) (rcv_scale p) (rcv_nxt p) (rcv_wnd p) (rcv_ann_wnd p) (rcv_ann_right_edge p) (rcv_sacks p) (ooseq p) (refused_data p) (tmr p) (keep_cnt_sent p) (keep_idle p) (keep_intvl p) (keep_cnt p) (so_options p) (pollinterval p) (listener p) (p_snd p).

Definition set_pflags (v : Z) (p : tcp_pcb) : tcp_pcb :=
  TcpPcb (state p) v (mss p) (snd_scale p) (rcv_scale p) (rcv_nxt p) (rcv_wnd p) (rcv_ann_wnd p) (rcv_ann_right_edge p) (rcv_sacks p) (ooseq p) (refused_data p) (tmr p) (keep_cnt_sent p) (keep_idle p) (keep_intvl p) (keep_cnt p) (so_options p) (pollinterval p) (listener p) (p_snd p).

Definition set_mss (v : Z) (p : tcp_pcb) : tcp_pcb :=
  TcpPcb (state p) (pflags p) v (snd_scale p) (rcv_scale p) (rcv_nxt p) (rcv_wnd p) (rcv_ann_wnd p) (rcv_ann_right_edge p) (rcv_sacks p) (ooseq p) (refused_data p) (tmr p) (keep_cnt_sent p) (keep_idle p) (keep_intvl p) (keep_cnt p) (so_options p) (pollinterval p) (listener p) (p_snd p).

Definition set_snd_scale (v : Z) (p : tcp_pcb) : tcp_pcb :=
  TcpPcb (state p) (pflags p) (mss p) v (rcv_scale p) (rcv_nxt p) (rcv_wnd p) (rcv_ann_wnd p) (rcv_ann_right_edge p) (rcv_sacks p) (ooseq p) (refused_data p) (tmr p) (keep_cnt_sent p) (keep_idle p) (keep_intvl p) (keep_cnt p) (so_options p) (pollinterval p) (listener p) (p_snd p).

Definition set_rcv_scale (v : Z) (p : tcp_pcb) : tcp_pcb :=
  TcpPcb (state p) (pflags p) (mss p) (snd_scale p) v (rcv_nxt p) (rcv_wnd p) (rcv_ann_wnd p) (rcv_ann_right_edge p) (rcv_sacks p) (ooseq p) (refused_data p) (tmr p) (keep_cnt_sent p) (keep_idle p) (keep_intvl p) (keep_cnt p) (so_options p) (pollinterval p) (listener p) (p_snd p).

Definition set_rcv_nxt (v : Z) (p : tcp_pcb) : tcp_pcb :=
  TcpPcb (state p) (pflags p) (mss p) (snd_scale p) (rcv_scale p) v (rcv_wnd p) (rcv_ann_wnd p) (rcv_ann_right_edge p) (rcv_sacks p) (ooseq p) (refused_data p) (tmr p) (keep_cnt_sent p) (keep_idle p) (keep_intvl p) (keep_cnt p) (so_options p) (pollinterval p) (listener p) (p_snd p).

Definition set_rcv_wnd (v : Z) (p : tcp_pcb) : tcp_pcb :=
  TcpPcb (state p) (pflags p) (mss p) (snd_scale p) (rcv_scale p) (rcv_nxt p) v (rcv_ann_wnd p) (rcv_ann_right_edge p) (rcv_sacks p) (ooseq p) (refused_data p) (tmr p) (keep_cnt_sent p) (keep_idle p) (keep_intvl p) (keep_cnt p) (so_options p) (pollinterval p) (listener p) (p_snd p).

Definition set_rcv_ann_wnd (v : Z) (p : tcp_pcb) : tcp_pcb :=
  TcpPcb (state p) (pflags p) (mss p) (snd_scale p) (rcv_scale p) (rcv_nxt p) (rcv_wnd p) v (rcv_ann_right_edge p) (rcv_sacks p) (ooseq p) (refused_data p) (tmr p) (keep_cnt_sent p) (keep_idle p) (keep_intvl p) (keep_cnt p) (so_options p) (pollinterval p) (listener p) (p_snd p).

Definition set_rcv_ann_right_edge (v : Z) (p : tcp_pcb) : tcp_pcb :=
  TcpPcb (state p) (pflags p) (mss p) (snd_scale p) (rcv_scale p) (rcv_nxt p) (rcv_wnd p) (rcv_ann_wnd p) v (rcv_sacks p) (ooseq p) (refused_data p) (tmr p) (keep_cnt_sent p) (keep_idle p) (keep_intvl p) (keep_cnt p) (so_options p) (pollinterval p) (listener p) (p_snd p).

Definition set_rcv_sacks (v : list (Z * Z)) (p : tcp_pcb) : tcp_pcb :=
  TcpPcb (state p) (pflags p) (mss p) (snd_scale p) (rcv_scale p) (rcv_nxt p) (rcv_wnd p) (rcv_ann_wnd p) (rcv_ann_right_edge p) v (ooseq p) (refused_data p) (tmr p) (keep_cnt_sent p) (keep_idle p) (keep_intvl p) (keep_cnt p) (so_options p) (pollinterval p) (listener p) (p_snd p).

Definition set_ooseq (v : list tcp_seg) (p : tcp_pcb) : tcp_pcb :=
  TcpPcb (state p) (pflags p) (mss p) (snd_scale p) (rcv_scale p) (rcv_nxt p) (rcv_wnd p) (rcv_ann_wnd p) (rcv_ann_right_edge p) (rcv_sacks p) v (refused_data p) (tmr p) (keep_cnt_sent p) (keep_idle p) (keep_intvl p) (keep_cnt p) (so_options p) (pollinterval p) (listener p) (p_snd p).

Definition set_refused_data (v : option (list Z * bool)) (p : tcp_pcb) : tcp_pcb :=
  TcpPcb (state p) (pflags p) (mss p) (snd_scale p) (rcv_scale p) (rcv_nxt p) (rcv_wnd p) (rcv_ann_wnd p) (rcv_ann_right_edge p) (rcv_sacks p) (ooseq p) v (tmr p) (keep_cnt_sent p) (keep_idle p) (keep_intvl p) (keep_cnt p) (so_options p) (pollinterval p) (listener p) (p_snd p).

Definition set_tmr (v : Z) (p : tcp_pcb) : tcp_pcb :=
  TcpPcb (state p) (pflags p) (mss p) (snd_scale p) (rcv_scale p) (rcv_nxt p) (rcv_wnd p) (rcv_ann_wnd p) (rcv_ann_right_edge p) (rcv_sacks p) (ooseq p) (refused_data p) v (keep_cnt_sent p) (keep_idle p) (keep_intvl p) (keep_cnt p) (so_options p) (pollinterval p) (listener p) (p_snd p).

Definition set_keep_cnt_sent (v : Z) (p : tcp_pcb) : tcp_pcb :=
  TcpPcb (state p) (pflags p) (mss p) (snd_scale p) (rcv_scale p) (rcv_nxt p) (rcv_wnd p) (rcv_ann_wnd p) (rcv_ann_right_edge p) (rcv_sacks p) (ooseq p) (refused_data p) (tmr p) v (keep_idle p) (keep_intvl p) (keep_cnt p) (so_options p) (pollinterval p) (listener p) (p_snd p).

Definition set_keep_idle (v : Z) (p : tcp_pcb) : tcp_pcb :=
  TcpPcb (state p) (pflags p) (mss p) (snd_scale p) (rcv_scale p) (rcv_nxt p) (rcv_wnd p) (rcv_ann_wnd p) (rcv_ann_right_edge p) (rcv_sacks p) (ooseq p) (refused_data p) (tmr p) (keep_cnt_sent p) v (keep_intvl p) (keep_cnt p) (so_options p) (pollinterval p) (listener p) (p_snd p).

Definition set_keep_intvl (v : Z) (p : tcp_pcb) : tcp_pcb :=
  TcpPcb (state p) (pflags p) (mss p) (snd_scale p) (rcv_scale p) (rcv_nxt p) (rcv_wnd p) (rcv_ann_wnd p) (rcv_ann_right_edge p) (rcv_sacks p) (ooseq p) (refused_data p) (tmr p) (keep_cnt_sent p) (keep_idle p) v (keep_cnt p) (so_options p) (pollinterval p) (listener p) (p_snd p).

Definition set_keep_cnt (v : Z) (p : tcp_pcb) : tcp_pcb :=
  TcpPcb (state p) (pflags p) (mss p) (snd_scale p) (rcv_scale p) (rcv_nxt p) (rcv_wnd p) (rcv_ann_wnd p) (rcv_ann_right_edge p) (rcv_sacks p) (ooseq p) (refused_data p) (tmr p) (keep_cnt_sent p) (keep_idle p) (keep_intvl p) v (so_options p) (pollinterval p) (listener p) (p_snd p).

Definition set_so_options (v : Z) (p : tcp_pcb) : tcp_pcb :=
  TcpPcb (state p) (pflags p) (mss p) (snd_scale p) (rcv_scale p) (rcv_nxt p) (rcv_wnd p) (rcv_ann_wnd p) (rcv_ann_right_edge p) (rcv_sacks p) (ooseq p) (refused_data p) (tmr p) (keep_cnt_sent p) (keep_idle p) (keep_intvl p) (keep_cnt p) v (pollinterval p) (listener p) (p_snd p).

Definition set_pollinterval (v : Z) (p : tcp_pcb) : tcp_pcb :=
  TcpPcb (state p) (pflags p) (mss p) (snd_scale p) (rcv_scale p) (rcv_nxt p) (rcv_wnd p) (rcv_ann_wnd p) (rcv_ann_right_edge p) (rcv_sacks p) (ooseq p) (refused_data p) (tmr p) (keep_cnt_sent p) (keep_idle p) (keep_intvl p) (keep_cnt p) (so_options p) v (listener p) (p_snd p).

Definition set_listener (v : option Z) (p : tcp_pcb) : tcp_pcb :=
  TcpPcb (state p) (pflags p) (mss p) (snd_scale p) (rcv_scale p) (rcv_nxt p) (rcv_wnd p) (rcv_ann_wnd p) (rcv_ann_right_edge p) (rcv_sacks p) (ooseq p) (refused_data p) (tmr p) (keep_cnt_sent p) (keep_idle p) (keep_intvl p) (keep_cnt p) (so_options p) (pollinterval p) v (p_snd p).

Definition set_p_snd (v : tcp_snd) (p : tcp_pcb) : tcp_pcb :=
  TcpPcb (state p) (pflags p) (mss p) (snd_scale p) (rcv_scale p) (rcv_nxt p) (rcv_wnd p) (rcv_ann_wnd p) (rcv_ann_right_edge p) (rcv_sacks p) (ooseq p) (refused_data p) (tmr p) (keep_cnt_sent p) (keep_idle p) (keep_intvl p) (keep_cnt p) (so_options p) (pollinterval p) (listener p) v.

(** What goes to IP: an ACK without data (numbers, window field, SACK ranges), a reset, or
    a segment with the acknowledgement, the window and the options that its header gets. *)
Inductive tcp_packet :=
  | PAck (seqno ackno wnd : Z) (sacks : list (Z * Z))
  | PRst (seqno ackno : Z)
  | PSeg (g : tcp_seg) (ackno wnd : Z) (opts : list Z).

(** What the application's callbacks do: the value they return, the lengths they call
    [tcp_recved] with, and what they do to the queues of the sender. *)
Record app_call := AppCall { ac_err : Z; ac_recved : list Z; ac_snd : tcp_snd -> tcp_snd }.

(** The callbacks that have been called, data with what the callback returned. *)
Inductive app_event :=
  | EvConnected
  | EvAccept
  | EvSent (len : Z)
  | EvRecv (data : list Z) (err : Z)
  | EvClosed
  | EvPoll
  | EvErr (err : Z).

(** A PCB during input, with the globals of [tcp_in.c].  [ti_sends] decides what happens
    to the next packets: [None] when there is no pbuf for an ACK or a reset, otherwise
    what [tcp_route] and IP make of it; [ti_out] are those that got that far.  [ti_cuts] are
    the places where [pbuf_split_64k] finds the ends of pbufs, [ti_app] is what the callbacks
    will do, [ti_events] what they have been told. *)
Record tcp_in := TcpInput {
  ti_pcb : tcp_pcb;
  recv_data : option (list Z);
  recv_flags : Z;
  recv_acked : Z;
  ti_sends : list (option Z);
  ti_out : list tcp_packet;
  ti_cuts : list Z;
  ti_app : list app_call;
  ti_events : list app_event;
}.

Definition set_ti_pcb (v : tcp_pcb) (t : tcp_in) : tcp_in :=
  TcpInput v (recv_data t) (recv_flags t) (recv_acked t) (ti_sends t) (ti_out t) (ti_cuts t) (ti_app t) (ti_events t).

Definition set_recv_data (v : option (list Z)) (t : tcp_in) : tcp_in :=
  TcpInput (ti_pcb t) v (recv_flags t) (recv_acked t) (ti_sends t) (ti_out t) (ti_cuts t) (ti_app t) (ti_events t).

Definition set_recv_flags (v : Z) (t : tcp_in) : tcp_in :=
  TcpInput (ti_pcb t) (recv_data t) v (recv_acked t) (ti_sends t) (ti_out t) (ti_cuts t) (ti_app t) (ti_events t).

Definition set_recv_acked (v : Z) (t : tcp_in) : tcp_in :=
  TcpInput (ti_pcb t) (recv_data t) (recv_flags t) v (ti_sends t) (ti_out t) (ti_cuts t) (ti_app t) (ti_events t).

Definition set_ti_sends (v : list (option Z)) (t : tcp_in) : tcp_in :=
  TcpInput (ti_pcb t) (recv_data t) (recv_flags t) (recv_acked t) v (ti_out t) (ti_cuts t) (ti_app t) (ti_events t).

Definition set_ti_out (v : list tcp_packet) (t : tcp_in) : tcp_in :=
  TcpInput (ti_pcb t) (recv_data t) (recv_flags t) (recv_acked t) (ti_sends t) v (ti_cuts t) (ti_app t) (ti_events t).

Definition set_ti_cuts (v : list Z) (t : tcp_in) : tcp_in :=
  TcpInput (ti_pcb t) (recv_data t) (recv_flags t) (recv_acked t) (ti_sends t) (ti_out t) v (ti_app t) (ti_events t).

Definition set_ti_app (v : list app_call) (t : tcp_in) : tcp_in :=
  TcpInput (ti_pcb t) (recv_data t) (recv_flags t) (recv_acked t) (ti_sends t) (ti_out t) (ti_cuts t) v (ti_events t).

Definition set_ti_events (v : list app_event) (t : tcp_in) : tcp_in :=
  TcpInput (ti_pcb t) (recv_data t) (recv_flags t) (recv_acked t) (ti_sends t) (ti_out t) (ti_cuts t) (ti_app t) v.

Definition tcp_set_flags (f : Z) (p : tcp_pcb) : tcp_pcb := set_pflags (pflags p .| f) p.

Definition tcp_clear_flags (f : Z) (p : tcp_pcb) : tcp_pcb := set_pflags (u16 (pflags p .& Z.lnot f)) p.

Definition tcp_ack_now (p : tcp_pcb) : tcp_pcb := tcp_set_flags TF_ACK_NOW p.

Definition tcp_ack (p : tcp_pcb) : tcp_pcb :=
  if negb (pflags p .& TF_ACK_DELAY =? 0) then tcp_ack_now (tcp_clear_flags TF_ACK_DELAY p) else tcp_set_flags TF_ACK_DELAY p.

Definition on_pcb (f : tcp_pcb -> tcp_pcb) (t : tcp_in) : tcp_in := set_ti_pcb (f (ti_pcb t)) t.

(** ** SACK ranges *)
Definition sack_valid (r : Z * Z) : bool := negb (r.1 =? r.2).

Definition LWIP_TCP_SACK_VALID (p : tcp_pcb) (i : nat) : bool := match rcv_sacks p !! i with Some r => sack_valid r | None => false end.

(** The loops over the entries up to the first invalid one: an entry that [keep]
    changes goes to the next unused place. *)
Fixpoint sack_sweep (keep : Z * Z -> option (Z * Z)) (i unused : nat) (fuel : nat) (sacks : list (Z * Z)) : list (Z * Z) * nat :=
  match fuel with
  | O => (sacks, unused)
  | S fuel =>
      match sacks !! i with
      | Some r =>
          if sack_valid r then
            match keep r with
            | Some r' => sack_sweep keep (S i) (S unused) fuel (<[unused := r']> sacks)
            | None => sack_sweep keep (S i) unused fuel sacks
            end
          else (sacks, unused)
      | None => (sacks, unused)
      end
  end.

(** [for (i = LWIP_TCP_MAX_SACK_NUM - 1; i > 0; --i)]. *)
Fixpoint sack_shift (i unused : nat) (sacks : list (Z * Z)) : list (Z * Z) :=
  match i with
  | O => sacks
  | S j => sack_shift j unused (<[i := if (unused <=? j)%nat then (0, 0) else nth j sacks (0, 0)]> sacks)
  end.

Definition tcp_add_sack (left right : Z) (p : tcp_pcb) : tcp_pcb :=
  if (pflags p .& TF_SACK =? 0) || negb (TCP_SEQ_LT left right) then p
  else
    let '(sacks, unused) := sack_sweep (fun r => if TCP_SEQ_LEQ r.2 left || TCP_SEQ_LEQ right r.1 then Some r else None) 0 0 LWIP_TCP_MAX_SACK_NUM (rcv_sacks p) in
    set_rcv_sacks (<[0%nat := (left, right)]> (sack_shift (LWIP_TCP_MAX_SACK_NUM - 1) unused sacks)) p.

(** [for (i = unused_idx; i < LWIP_TCP_MAX_SACK_NUM; ++i)]. *)
Definition sack_clear (unused : nat) (sacks : list (Z * Z)) : list (Z * Z) := take unused sacks ++ replicate (LWIP_TCP_MAX_SACK_NUM - unused) (0, 0).

Definition tcp_remove_sacks_lt (seq : Z) (p : tcp_pcb) : tcp_pcb :=
  let '(sacks, unused) :=
    sack_sweep (fun r => if TCP_SEQ_GT r.2 seq then Some (if TCP_SEQ_LT r.1 seq then (seq, r.2) else r) else None) 0 0 LWIP_TCP_MAX_SACK_NUM (rcv_sacks p) in
  set_rcv_sacks (sack_clear unused sacks) p.

(** [tcp_get_num_sacks]: the loop. *)
Fixpoint num_sacks (optlen : Z) (l : list (Z * Z)) : nat :=
  match l with
  | [] => O
  | r :: l => if (optlen <=? TCP_MAX_OPTION_BYTES) && sack_valid r then S (num_sacks (u8 (optlen + 8)) l) else O
  end.

Definition tcp_get_num_sacks (p : tcp_pcb) (optlen : Z) : nat :=
  if pflags p .& TF_SACK =? 0 then O else num_sacks (u8 (optlen + 12)) (take LWIP_TCP_MAX_SACK_NUM (rcv_sacks p)).

(** ** The receive window *)
Definition TCPWND_MIN16 (x : Z) : Z := u16 (Z.min x 0xFFFF).

Definition RCV_WND_SCALE (p : tcp_pcb) (wnd : Z) : Z := wnd .>> rcv_scale p.

Definition TCP_WND_MAX (p : tcp_pcb) : Z := if negb (pflags p .& TF_WND_SCALE =? 0) then TCP_WND else TCPWND_MIN16 TCP_WND.

(** How much the right edge can move, and the new announcement. *)
Definition tcp_update_rcv_ann_wnd (p : tcp_pcb) : Z * tcp_pcb :=
  let new_right_edge := u32 (rcv_nxt p + rcv_wnd p) in
  if TCP_SEQ_GEQ new_right_edge (u32 (rcv_ann_right_edge p + Z.min (TCP_WND / 2) (mss p)))
  then (u32 (new_right_edge - rcv_ann_right_edge p), set_rcv_ann_wnd (rcv_wnd p) p)
  else if TCP_SEQ_GT (rcv_nxt p) (rcv_ann_right_edge p) then (0, set_rcv_ann_wnd 0 p)
  else (0, set_rcv_ann_wnd (u32 (rcv_ann_right_edge p - rcv_nxt p)) p).

(** The next answer of [ti_sends]. *)
Definition next_send (t : tcp_in) : option Z * tcp_in :=
  match ti_sends t with
  | [] => (None, t)
  | r :: rest => (r, set_ti_sends rest t)
  end.

Definition emit (k : tcp_packet) (t : tcp_in) : tcp_in := set_ti_out (ti_out t ++ [k]) t.

(** With [tcp_output_alloc_header], [tcp_output_fill_options] and
    [tcp_output_control_segment]. *)
Definition tcp_send_empty_ack (t : tcp_in) : Z * tcp_in :=
  let p := ti_pcb t in
  let n := tcp_get_num_sacks p 0 in
  let '(r, t) := next_send t in
  match r with
  | None => (ERR_BUF, on_pcb (tcp_set_flags (TF_ACK_DELAY .| TF_ACK_NOW)) t)
  | Some err =>
      let t := emit (PAck (snd_nxt (p_snd p)) (rcv_nxt p) (TCPWND_MIN16 (RCV_WND_SCALE p (rcv_ann_wnd p))) (take n (rcv_sacks p))) t in
      let t := on_pcb (set_rcv_ann_right_edge (u32 (rcv_nxt p + rcv_ann_wnd p))) t in
      (err, on_pcb (if err =? ERR_OK then tcp_clear_flags (TF_ACK_DELAY .| TF_ACK_NOW) else tcp_set_flags (TF_ACK_DELAY .| TF_ACK_NOW)) t)
  end.

(** The new window, and whether [tcp_output] is called. *)
Definition tcp_recved (len : Z) (p : tcp_pcb) : bool * tcp_pcb :=
  let w := u32 (rcv_wnd p + len) in
  let p := set_rcv_wnd (if (TCP_WND_MAX p <? w) || (w <? rcv_wnd p) then TCP_WND_MAX p else w) p in
  let '(wnd_inflation, p) := tcp_update_rcv_ann_wnd p in
  if TCP_WND_UPDATE_THRESHOLD <=? wnd_inflation then (true, tcp_ack_now p) else (false, p).

(** ** Data *)

(** The front edge: what of the segment has been received before is cut off. *)
Definition trim_front (inseg : tcp_seg) (tcplen : Z) (p : tcp_pcb) : tcp_seg * tcp_pcb :=
  let seqno := sg_seqno inseg in
  if TCP_SEQ_BETWEEN (rcv_nxt p) (u32 (seqno + 1)) (u32 (seqno + tcplen - 1)) then
    let off := u16 (u32 (rcv_nxt p - seqno)) in
    (TcpSeg (rcv_nxt p) (u16 (sg_len inseg - off)) (sg_flags inseg) (zdrop off (sg_data inseg)) (sg_opts inseg) (sg_clen inseg) (sg_busy inseg), p)
  else (inseg, if TCP_SEQ_LT seqno (rcv_nxt p) then tcp_ack_now p else p).

(** Cutting a segment to [len] sequence numbers, SYN included. *)
Definition cut_to (len : Z) (g : tcp_seg) : tcp_seg := seg_realloc (if has_syn g then u16 (u16 len - 1) else u16 len) g.

(** The back edge, against the window. *)
Definition trim_window (inseg : tcp_seg) (p : tcp_pcb) : tcp_seg :=
  if rcv_wnd p <? u16 (TCP_TCPLEN inseg) then cut_to (rcv_wnd p) (if has_fin inseg then clear_fin inseg else inseg) else inseg.

(** The segments of the queue that the new one covers; it takes over their FIN. *)
Fixpoint drop_covered (inseg : tcp_seg) (l : list tcp_seg) : tcp_seg * list tcp_seg :=
  match l with
  | [] => (inseg, [])
  | next :: l' =>
      if TCP_SEQ_GEQ (u32 (sg_seqno inseg + u16 (TCP_TCPLEN inseg))) (u32 (sg_seqno next + sg_len next))
      then drop_covered (if has_fin next && negb (has_syn inseg) then set_fin inseg else inseg) l'
      else (inseg, l)
  end.

(** The back edge, against the queue. *)
Definition trim_ooseq (inseg : tcp_seg) (l : list tcp_seg) : tcp_seg * list tcp_seg :=
  if has_fin inseg then (inseg, [])
  else
    let '(inseg, l) := drop_covered inseg l in
    match l with
    | next :: _ =>
        (if TCP_SEQ_GT (u32 (sg_seqno inseg + u16 (TCP_TCPLEN inseg))) (sg_seqno next) then cut_to (sg_seqno next - sg_seqno inseg) inseg else inseg, l)
    | [] => (inseg, l)
    end.

(** [rcv_nxt] and the window move on by [n]. *)
Definition advance (seqno n : Z) (p : tcp_pcb) : tcp_pcb :=
  (tcp_update_rcv_ann_wnd (set_rcv_wnd (u32 (rcv_wnd p - n)) (set_rcv_nxt (u32 (seqno + n)) p))).2.

(** Data for the application, behind what it gets already. *)
Definition pass_data (before : list Z) (g : tcp_seg) (t : tcp_in) : tcp_in :=
  let t := if 0 <? zlen (sg_data g) then set_recv_data (Some (before ++ sg_data g)) t else t in
  if has_fin g then set_recv_flags (recv_flags t .| TF_GOT_FIN) t else t.

(** The segments of the queue that are now in sequence. *)
Fixpoint drain (l : list tcp_seg) (t : tcp_in) : tcp_in :=
  match l with
  | [] => on_pcb (set_ooseq []) t
  | cseg :: l' =>
      if sg_seqno cseg =? rcv_nxt (ti_pcb t) then
        let t := on_pcb (advance (rcv_nxt (ti_pcb t)) (TCP_TCPLEN cseg)) t in
        let t := pass_data (default [] (recv_data t)) cseg t in
        let t := if has_fin cseg && (state (ti_pcb t) =? ESTABLISHED) then on_pcb (set_state CLOSE_WAIT) t else t in
        drain l' t
      else on_pcb (set_ooseq l) t
  end.

(** The SACK ranges after data in sequence. *)
Definition sacks_inseq (p : tcp_pcb) : tcp_pcb :=
  if negb (pflags p .& TF_SACK =? 0) then
    match ooseq p with
    | next :: _ => tcp_remove_sacks_lt (sg_seqno next) p
    | [] => if LWIP_TCP_SACK_VALID p 0 then set_rcv_sacks (replicate LWIP_TCP_MAX_SACK_NUM (0, 0)) p else p
    end
  else p.

(** The segment is the next in sequence. *)
Definition receive_inseq (inseg : tcp_seg) (t : tcp_in) : tcp_in :=
  let inseg := trim_window inseg (ti_pcb t) in
  let '(inseg, l) := match ooseq (ti_pcb t) with [] => (inseg, []) | l => trim_ooseq inseg l end in
  let t := on_pcb (advance (sg_seqno inseg) (u16 (TCP_TCPLEN inseg))) t in
  let t := pass_data [] inseg t in
  let t := drain l t in
  let t := on_pcb tcp_ack (on_pcb sacks_inseq t) in
  if LWIP_TCP_SACK_VALID (ti_pcb t) 0 then (tcp_send_empty_ack t).2 else t.

(** ** Data out of sequence *)

(** The segments behind [cseg] that it covers are removed, and it is cut where the next
    one begins. *)
Fixpoint oos_covered (cseg : tcp_seg) (l : list tcp_seg) : tcp_seg * list tcp_seg :=
  match l with
  | [] => (cseg, [])
  | next :: l' =>
      if TCP_SEQ_GEQ (u32 (sg_seqno cseg + sg_len cseg)) (u32 (sg_seqno next + sg_len next))
      then oos_covered (if has_fin next then set_fin cseg else cseg) l'
      else (cseg, l)
  end.

Definition tcp_oos_insert_segment (cseg : tcp_seg) (next : list tcp_seg) : list tcp_seg :=
  if has_fin cseg then [cseg]
  else
    let '(cseg, l) := oos_covered cseg next in
    match l with
    | n :: _ => (if TCP_SEQ_GT (u32 (sg_seqno cseg + sg_len cseg)) (sg_seqno n) then seg_realloc (u16 (sg_seqno n - sg_seqno cseg)) cseg else cseg) :: l
    | [] => [cseg]
    end.

(** A segment is cut where the next one begins. *)
Definition trim_before (seqno : Z) (g : tcp_seg) : tcp_seg :=
  if TCP_SEQ_GT (u32 (sg_seqno g + sg_len g)) seqno then seg_realloc (u16 (seqno - sg_seqno g)) g else g.

(** A segment at the end of the queue is cut to the window. *)
Definition trim_right (g : tcp_seg) (tcplen : Z) (p : tcp_pcb) : tcp_seg :=
  if TCP_SEQ_GT (u32 (tcplen + sg_seqno g)) (u32 (rcv_nxt p + rcv_wnd p))
  then seg_realloc (u16 (u32 (rcv_nxt p + rcv_wnd p - sg_seqno g))) (if has_fin g then clear_fin g else g)
  else g.

(** The [for] loop over the queue, with the segments from [prev] on: the new queue, how many
    of its segments are up to [prev] when the loop ends, and [sackbeg].  [copied] says
    whether [tcp_seg_copy] has memory. *)
Fixpoint oos_loop (copied : bool) (inseg : tcp_seg) (tcplen : Z) (p : tcp_pcb) (prev : option tcp_seg) (l : list tcp_seg) (sackbeg : Z)
    : list tcp_seg * nat * Z :=
  let seqno := sg_seqno inseg in
  let before := match prev with Some pv => [pv] | None => [] end in
  match l with
  | [] => (before, length before, sackbeg)
  | next :: l' =>
      let stay := (before ++ l, length before, sackbeg) in
      if seqno =? sg_seqno next then
        if (sg_len next <? sg_len inseg) && copied then (before ++ tcp_oos_insert_segment inseg l, length before, sackbeg) else stay
      else
        let here := match prev with
                    | None => TCP_SEQ_LT seqno (sg_seqno next)
                    | Some pv => TCP_SEQ_BETWEEN seqno (u32 (sg_seqno pv + 1)) (u32 (sg_seqno next - 1))
                    end in
        if here then
          if copied then (map (trim_before seqno) before ++ tcp_oos_insert_segment inseg l, length before, sackbeg) else stay
        else
          let sackbeg := match prev with
                         | Some pv => if u32 (sg_seqno pv + sg_len pv) =? sg_seqno next then sackbeg else sg_seqno next
                         | None => sackbeg
                         end in
          if match l' with [] => TCP_SEQ_GT seqno (sg_seqno next) | _ => false end then
            if has_fin next || negb copied then (before ++ l, S (length before), sackbeg)
            else (before ++ [trim_before seqno next; trim_right inseg tcplen p], S (length before), sackbeg)
          else
            let '(q, n, sackbeg) := oos_loop copied inseg tcplen p (Some next) l' sackbeg in
            (before ++ q, (length before + n)%nat, sackbeg)
  end.

(** The end of the range without holes that starts at [sackend]. *)
Fixpoint sack_end (sackend : Z) (l : list tcp_seg) : Z :=
  match l with
  | [] => sackend
  | next :: l => if sackend =? sg_seqno next then sack_end (u32 (sackend + sg_len next)) l else sackend
  end.

(** The SACK range around the new segment, which lies behind [n] segments of the queue. *)
Definition sacks_oos (n : nat) (sackbeg : Z) (p : tcp_pcb) : tcp_pcb :=
  if negb (pflags p .& TF_SACK =? 0) then
    match drop n (ooseq p) with
    | next :: l =>
        let sackbeg := match n with
                       | O => sackbeg
                       | S m => match ooseq p !! m with
                                | Some pv => if u32 (sg_seqno pv + sg_len pv) =? sg_seqno next then sackbeg else sg_seqno next
                                | None => sackbeg
                                end
                       end in
        tcp_add_sack sackbeg (sack_end (sg_seqno next) (next :: l)) p
    | [] => p
    end
  else p.

(** The segment is behind a hole. *)
Definition receive_oos (copied : bool) (inseg : tcp_seg) (tcplen : Z) (t : tcp_in) : tcp_in :=
  let p := ti_pcb t in
  let seqno := sg_seqno inseg in
  let p :=
    match ooseq p with
    | [] =>
        let p := set_ooseq (if copied then [inseg] else []) p in
        if negb (pflags p .& TF_SACK =? 0) then set_rcv_sacks (<[0%nat := (seqno, u32 (seqno + sg_len inseg))]> (rcv_sacks p)) p else p
    | first :: _ =>
        let sackbeg := if TCP_SEQ_LT seqno (sg_seqno first) then seqno else sg_seqno first in
        let '(q, n, sackbeg) := oos_loop copied inseg tcplen p None (ooseq p) sackbeg in
        sacks_oos n sackbeg (set_ooseq q p)
    end in
  (tcp_send_empty_ack (set_ti_pcb p t)).2.

(** From "if ((tcplen > 0) && (pcb->state < CLOSE_WAIT))" on. *)
Definition tcp_receive_data (copied : bool) (inseg : tcp_seg) (t : tcp_in) : tcp_in :=
  let tcplen := u16 (TCP_TCPLEN inseg) in
  if (0 <? tcplen) && (state (ti_pcb t) <? CLOSE_WAIT) then
    let '(inseg, p) := trim_front inseg tcplen (ti_pcb t) in
    let t := set_ti_pcb p t in
    if TCP_SEQ_BETWEEN (sg_seqno inseg) (rcv_nxt p) (u32 (rcv_nxt p + rcv_wnd p - 1)) then
      if rcv_nxt p =? sg_seqno inseg then receive_inseq inseg t else receive_oos copied inseg tcplen t
    else (tcp_send_empty_ack t).2
  else if negb (TCP_SEQ_BETWEEN (sg_seqno inseg) (rcv_nxt (ti_pcb t)) (u32 (rcv_nxt (ti_pcb t) + rcv_wnd (ti_pcb t) - 1)))
  then on_pcb tcp_ack_now t else t.
