(* ===== verification/TcpOut.v ===== *)
(** TCP output: [tcp_output] and the retransmissions, from [core/tcp_out.c].

    A connection over IPv4; the checksum is that of [Chksum], the packet goes to
    [ti_out], and [ti_sends] says what IP answers. *)
From S2P Require Import Prelude Bits Def Pbuf TcpIn.

(** ** Constants *)
Definition TF_SEG_OPTS_MSS : Z := 0x01.
Definition TF_SEG_OPTS_WND_SCALE : Z := 0x08.
Definition TF_SEG_OPTS_SACK_PERM : Z := 0x10.
Definition TCP_SND_BUF : Z := 64 * TCP_MSS.
Definition TCP_SND_QUEUELEN : Z := 64 * (2 * (TCP_SND_BUF / TCP_MSS)).

(** What the surroundings answer: the MTU of the interface that [tcp_route] finds, whether
    there is a local address, the ticks, and whether [tcp_input_pcb] is this PCB. *)
Record tcp_env := TcpEnv { te_route : option Z; te_local : bool; te_ticks : Z; te_input : bool }.

Definition on_snd (f : tcp_snd -> tcp_snd) (p : tcp_pcb) : tcp_pcb := set_p_snd (f (p_snd p)) p.

(** ** One segment *)
Definition tcp_eff_send_mss_netif (sendmss : Z) (outif : option Z) : Z :=
  match outif with
  | None => sendmss
  | Some mtu => if negb (mtu =? 0) then Z.min sendmss (if 40 <? mtu then u16 (mtu - 40) else 0) else sendmss
  end.

(** The bytes of a word as [lwip_htonl] puts them into memory. *)
Definition be32 (x : Z) : list Z := [u8 (x .>> 24); u8 (x .>> 16); u8 (x .>> 8); u8 x].

Definition TCP_BUILD_MSS_OPTION (m : Z) : list Z := be32 (0x02040000 .| (m .& 0xFFFF)).

Definition tcp_build_wnd_scale_option : list Z := be32 (0x01030300 .| TCP_RCV_SCALE).

(** The options of [tcp_output_segment]. *)
Definition seg_options (e : tcp_env) (g : tcp_seg) : list Z :=
  (if negb (sg_opts g .& TF_SEG_OPTS_MSS =? 0) then TCP_BUILD_MSS_OPTION (tcp_eff_send_mss_netif TCP_MSS (te_route e)) else []) ++
  (if negb (sg_opts g .& TF_SEG_OPTS_WND_SCALE =? 0) then tcp_build_wnd_scale_option else []) ++
  (if negb (sg_opts g .& TF_SEG_OPTS_SACK_PERM =? 0) then be32 0x01010402 else []).

Definition tcp_output_segment (e : tcp_env) (g : tcp_seg) (t : tcp_in) : Z * tcp_in :=
  if sg_busy g then (ERR_OK, t)
  else
    let p := ti_pcb t in
    let wnd := if negb (sg_opts g .& TF_SEG_OPTS_WND_SCALE =? 0) then TCPWND_MIN16 (rcv_ann_wnd p) else TCPWND_MIN16 (RCV_WND_SCALE p (rcv_ann_wnd p)) in
    let k := PSeg g (rcv_nxt p) wnd (seg_options e g) in
    let p := set_rcv_ann_right_edge (u32 (rcv_nxt p + rcv_ann_wnd p)) p in
    let p := if rtime (p_snd p) <? 0 then on_snd (set_rtime 0) p else p in
    let p := if rttest (p_snd p) =? 0 then on_snd (fun s => set_rtseq (sg_seqno g) (set_rttest (te_ticks e) s)) p else p in
    let '(r, t) := next_send (set_ti_pcb p t) in
    (default ERR_BUF r, emit k t).

(** ** Queues *)

(** Both walks that keep a queue sorted. *)
Fixpoint seg_insert (g : tcp_seg) (l : list tcp_seg) : list tcp_seg :=
  match l with
  | [] => [g]
  | c :: l' => if TCP_SEQ_LT (sg_seqno c) (sg_seqno g) then c :: seg_insert g l' else g :: l
  end.

(** A segment that has been sent goes to the end of [unacked], or to its place. *)
Definition put_unacked (g : tcp_seg) (l : list tcp_seg) : list tcp_seg :=
  match last l with
  | None => [g]
  | Some useg => if TCP_SEQ_LT (sg_seqno g) (sg_seqno useg) then seg_insert g l else l ++ [g]
  end.

Definition tcp_do_output_nagle (p : tcp_pcb) : bool :=
  let s := p_snd p in
  match unacked s with [] => true | _ => false end ||
  negb (pflags p .& (TF_NODELAY .| TF_INFR) =? 0) ||
  match unsent s with [] => false | [g] => mss p <=? sg_len g | _ => true end ||
  (TCPWND_MIN16 (snd_buf s) =? 0) || (TCP_SND_QUEUELEN <=? snd_queuelen s).

(** The label [output_done] after the loop. *)
Definition output_done (t : tcp_in) : Z * tcp_in := (ERR_OK, on_pcb (tcp_clear_flags TF_NAGLEMEMERR) t).

Definition output_end (t : tcp_in) : Z * tcp_in :=
  output_done (on_pcb (fun p => match unsent (p_snd p) with [] => on_snd (set_unsent_oversize 0) p | _ => p end) t).

(** [lwip_ntohl(seg->tcphdr->seqno) - pcb->lastack + seg->len <= wnd]. *)
Definition fits (wnd lack : Z) (g : tcp_seg) : bool := u32 (sg_seqno g - lack + sg_len g) <=? wnd.

Definition set_ack (g : tcp_seg) : tcp_seg := TcpSeg (sg_seqno g) (sg_len g) (sg_flags g .| TCP_ACK) (sg_data g) (sg_opts g) (sg_clen g) (sg_busy g).

(** What is done with a segment after it has been sent, [l] being the rest of [unsent]. *)
Definition segment_sent (g : tcp_seg) (l : list tcp_seg) (p : tcp_pcb) : tcp_pcb :=
  let p := on_snd (set_unsent l) p in
  let p := if negb (state p =? SYN_SENT) then tcp_clear_flags (TF_ACK_DELAY .| TF_ACK_NOW) p else p in
  let nxt := u32 (sg_seqno g + TCP_TCPLEN g) in
  let p := if TCP_SEQ_LT (snd_nxt (p_snd p)) nxt then on_snd (set_snd_nxt nxt) p else p in
  if 0 <? TCP_TCPLEN g then on_snd (fun s => set_unacked (put_unacked g (unacked s)) s) p else p.

(** The loop; [l] is [pcb->unsent]. *)
Fixpoint output_loop (e : tcp_env) (wnd : Z) (l : list tcp_seg) (t : tcp_in) : Z * tcp_in :=
  match l with
  | [] => output_end t
  | g :: l' =>
      if fits wnd (lastack (p_snd (ti_pcb t))) g then
        if negb (tcp_do_output_nagle (ti_pcb t)) && (pflags (ti_pcb t) .& (TF_NAGLEMEMERR .| TF_FIN) =? 0) then output_end t
        else
          let g := if negb (state (ti_pcb t) =? SYN_SENT) then set_ack g else g in
          let '(err, t) := tcp_output_segment e g (on_pcb (on_snd (set_unsent (g :: l'))) t) in
          if negb (err =? ERR_OK) then (err, on_pcb (tcp_set_flags TF_NAGLEMEMERR) t)
          else output_loop e wnd l' (on_pcb (segment_sent g l') t)
      else output_end t
  end.

Definition tcp_output (e : tcp_env) (t : tcp_in) : Z * tcp_in :=
  if te_input e then (ERR_OK, t)
  else
    let s := p_snd (ti_pcb t) in
    let wnd := Z.min (snd_wnd s) (cwnd s) in
    let ack_or_done t := if negb (pflags (ti_pcb t) .& TF_ACK_NOW =? 0) then tcp_send_empty_ack t else output_done t in
    match unsent s with
    | [] => ack_or_done t
    | g :: _ =>
        match te_route e with
        | None => (ERR_RTE, t)
        | Some _ =>
            if negb (te_local e) then (ERR_RTE, t)
            else if negb (fits wnd (lastack s) g) then
              ack_or_done
                (if (wnd =? snd_wnd s) && match unacked s with [] => true | _ => false end && (persist_backoff s =? 0)
                 then on_pcb (on_snd (fun s => set_persist_probe 0 (set_persist_backoff 1 (set_persist_cnt 0 s)))) t else t)
            else output_loop e wnd (unsent s) (on_pcb (on_snd (set_persist_backoff 0)) t)
        end
    end.

(** ** Retransmission *)
Definition tcp_rexmit_rto_prepare (p : tcp_pcb) : Z * tcp_pcb :=
  let s := p_snd p in
  match last (unacked s) with
  | None => (ERR_VAL, p)
  | Some seg =>
      if existsb sg_busy (unacked s) then (ERR_VAL, p)
      else
        let s := set_rttest 0 (set_rto_end (u32 (sg_seqno seg + TCP_TCPLEN seg)) (set_unacked [] (set_unsent (unacked s ++ unsent s) s))) in
        (ERR_OK, tcp_set_flags TF_RTO (set_p_snd s p))
  end.

Definition inc_nrtx (s : tcp_snd) : tcp_snd := if nrtx s <? 0xFF then set_nrtx (nrtx s + 1) s else s.

Definition tcp_rexmit_rto_commit (e : tcp_env) (t : tcp_in) : tcp_in := (tcp_output e (on_pcb (on_snd inc_nrtx) t)).2.

Definition tcp_rexmit_rto (e : tcp_env) (t : tcp_in) : tcp_in :=
  let '(err, p) := tcp_rexmit_rto_prepare (ti_pcb t) in
  if err =? ERR_OK then tcp_rexmit_rto_commit e (set_ti_pcb p t) else t.

Definition tcp_rexmit (p : tcp_pcb) : Z * tcp_pcb :=
  let s := p_snd p in
  match unacked s with
  | [] => (ERR_VAL, p)
  | seg :: rest =>
      if sg_busy seg then (ERR_VAL, p)
      else
        let q := seg_insert seg (unsent s) in
        let s := set_unsent q (set_unacked rest s) in
        let s := if forallb (fun c => TCP_SEQ_LT (sg_seqno c) (sg_seqno seg)) (unsent (p_snd p)) then set_unsent_oversize 0 s else s in
        (ERR_OK, set_p_snd (set_rttest 0 (inc_nrtx s)) p)
  end.

Definition tcp_rexmit_fast (p : tcp_pcb) : tcp_pcb :=
  if match unacked (p_snd p) with [] => false | _ => true end && (pflags p .& TF_INFR =? 0) then
    let '(err, p) := tcp_rexmit p in
    if err =? ERR_OK then
      let ss := Z.min (cwnd (p_snd p)) (snd_wnd (p_snd p)) / 2 in
      let ss := if ss <? 2 * mss p then 2 * mss p else ss in
      tcp_set_flags TF_INFR (on_snd (fun s => set_rtime 0 (set_cwnd (u32 (ss + 3 * mss p)) (set_ssthresh ss s))) p)
    else p
  else p.
