(* ===== verification/TcpProcess.v ===== *)
(** A segment for a connection: the acknowledgement half of [tcp_receive],
    [tcp_parseopt], the state machine [tcp_process] and the part of [tcp_input] that deals
    with the application, from [core/tcp_in.c] and [core/tcp.c]. *)
From S2P Require Import Prelude Bits Def Pbuf TcpIn TcpOut.

Definition ERR_INPROGRESS : Z := -5.
Definition ERR_ABRT : Z := -13.
Definition ERR_RST : Z := -14.

(** The segment in the globals of [tcp_in.c]: its [tcp_seg], the rest of its header and the
    bytes of its options; [ih_past] is what the memory behind the options holds. *)
Record in_hdr := InHdr { ih_seg : tcp_seg; ih_ackno : Z; ih_wnd : Z; ih_opts : list Z; ih_past : Z -> Z }.

Definition ih_flag (h : in_hdr) (f : Z) : bool := negb (sg_flags (ih_seg h) .& f =? 0).

Definition tcplen (h : in_hdr) : Z := u16 (TCP_TCPLEN (ih_seg h)).

(** ** Acknowledgements *)
Definition s16 (z : Z) : Z := (z + 2 ^ 15) mod 2 ^ 16 - 2 ^ 15.

Definition TCP_WND_INC (wnd inc : Z) : Z := if wnd <=? u32 (wnd + inc) then u32 (wnd + inc) else 0xFFFFFFFF.

Definition SND_WND_SCALE (p : tcp_pcb) (wnd : Z) : Z := wnd .<< snd_scale p.

Definition update_snd_wnd (h : in_hdr) (p : tcp_pcb) : tcp_pcb :=
  let s := p_snd p in
  let seqno := sg_seqno (ih_seg h) in
  let wnd := u32 (SND_WND_SCALE p (ih_wnd h)) in
  if TCP_SEQ_LT (snd_wl1 s) seqno || ((snd_wl1 s =? seqno) && TCP_SEQ_LT (snd_wl2 s) (ih_ackno h)) || ((snd_wl2 s =? ih_ackno h) && (snd_wnd s <? wnd)) then
    let s := set_snd_wnd_max (if snd_wnd_max s <? wnd then wnd else snd_wnd_max s) (set_snd_wnd wnd s) in
    set_p_snd (set_snd_wl2 (ih_ackno h) (set_snd_wl1 seqno s)) p
  else p.

(** Clauses 1 to 5; [right_wnd_edge] is from before the window update. *)
Definition receive_dupack (h : in_hdr) (right_wnd_edge : Z) (p : tcp_pcb) : tcp_pcb :=
  let s := p_snd p in
  if (tcplen h =? 0) && (u32 (snd_wl2 s + snd_wnd s) =? right_wnd_edge) && (0 <=? rtime s) && (lastack s =? ih_ackno h) then
    let p := if dupacks s <? u8 (dupacks s + 1) then on_snd (set_dupacks (dupacks s + 1)) p else p in
    let p := if 3 <? dupacks (p_snd p) then on_snd (fun s => set_cwnd (TCP_WND_INC (cwnd s) (mss p)) s) p else p in
    if 3 <=? dupacks (p_snd p) then tcp_rexmit_fast p else p
  else p.

(** The segments that are left, the pbufs and the bytes of the others. *)
Fixpoint tcp_free_acked_segments (ackno : Z) (l : list tcp_seg) (queuelen acked : Z) : list tcp_seg * Z * Z :=
  match l with
  | [] => ([], queuelen, acked)
  | next :: l' =>
      if TCP_SEQ_LEQ (u32 (sg_seqno next + TCP_TCPLEN next)) ackno
      then tcp_free_acked_segments ackno l' (u16 (queuelen - sg_clen next)) (u32 (acked + sg_len next))
      else (l, queuelen, acked)
  end.

(** The congestion window after [acked] new bytes. *)
Definition update_cwnd (acked : Z) (p : tcp_pcb) : tcp_pcb :=
  let s := p_snd p in
  if cwnd s <? ssthresh s then
    let num_seg := if negb (pflags p .& TF_RTO =? 0) then 1 else 2 in
    on_snd (set_cwnd (TCP_WND_INC (cwnd s) (Z.min acked (num_seg * mss p)))) p
  else
    let ba := TCP_WND_INC (bytes_acked s) acked in
    if cwnd s <=? ba then on_snd (fun s => set_cwnd (TCP_WND_INC (cwnd s) (mss p)) (set_bytes_acked (u32 (ba - cwnd s)) s)) p
    else on_snd (set_bytes_acked ba) p.

(** Whether the acknowledgement ends the retransmission. *)
Definition end_rto (p : tcp_pcb) : tcp_pcb :=
  let s := p_snd p in
  let done := match unacked s, unsent s with
              | [], [] => true
              | [], g :: _ => TCP_SEQ_LEQ (rto_end s) (sg_seqno g)
              | g :: _, _ => TCP_SEQ_LEQ (rto_end s) (sg_seqno g)
              end in
  if negb (pflags p .& TF_RTO =? 0) && done then tcp_clear_flags TF_RTO p else p.

(** The acknowledgement is for new data. *)
Definition receive_newack (h : in_hdr) (t : tcp_in) : tcp_in :=
  let p := ti_pcb t in
  let p := if negb (pflags p .& TF_INFR =? 0) then on_snd (fun s => set_bytes_acked 0 (set_cwnd (ssthresh s) s)) (tcp_clear_flags TF_INFR p) else p in
  let s := p_snd p in
  let acked := u32 (ih_ackno h - lastack s) in
  let p := on_snd (fun s => set_lastack (ih_ackno h) (set_dupacks 0 (set_rto (s16 ((sa s .>> 3) + sv s)) (set_nrtx 0 s)))) p in
  let p := if ESTABLISHED <=? state p then update_cwnd acked p else p in
  let s := p_snd p in
  let '(ua, ql, ra) := tcp_free_acked_segments (ih_ackno h) (unacked s) (snd_queuelen s) (recv_acked t) in
  let '(us, ql, ra) := tcp_free_acked_segments (ih_ackno h) (unsent s) ql ra in
  let s := set_snd_queuelen ql (set_unsent us (set_unacked ua s)) in
  let s := set_polltmr 0 (set_rtime (match ua with [] => -1 | _ => 0 end) s) in
  let s := match us with [] => set_unsent_oversize 0 s | _ => s end in
  let s := set_snd_buf (u32 (snd_buf s + ra)) s in
  set_recv_acked ra (set_ti_pcb (end_rto (set_p_snd s p)) t).

(** Round-trip times. *)
Definition update_rtt (e : tcp_env) (h : in_hdr) (s : tcp_snd) : tcp_snd :=
  if negb (rttest s =? 0) && TCP_SEQ_LT (rtseq s) (ih_ackno h) then
    let m := s16 (te_ticks e - rttest s) in
    let m := s16 (m - (sa s .>> 3)) in
    let sa' := s16 (sa s + m) in
    let m := if m <? 0 then s16 (- m) else m in
    let m := s16 (m - (sv s .>> 2)) in
    let sv' := s16 (sv s + m) in
    set_rttest 0 (set_rto (s16 ((sa' .>> 3) + sv')) (set_sv sv' (set_sa sa' s)))
  else s.

(** [if (flags & TCP_ACK)]. *)
Definition receive_ack (e : tcp_env) (h : in_hdr) (t : tcp_in) : tcp_in :=
  if ih_flag h TCP_ACK then
    let right_wnd_edge := u32 (snd_wnd (p_snd (ti_pcb t)) + snd_wl2 (p_snd (ti_pcb t))) in
    let t := on_pcb (update_snd_wnd h) t in
    let s := p_snd (ti_pcb t) in
    let t :=
      if TCP_SEQ_LEQ (ih_ackno h) (lastack s) then on_pcb (receive_dupack h right_wnd_edge) t
      else if TCP_SEQ_BETWEEN (ih_ackno h) (u32 (lastack s + 1)) (snd_nxt s) then receive_newack h t
      else (tcp_send_empty_ack t).2 in
    on_pcb (on_snd (update_rtt e h)) t
  else t.

Definition tcp_receive (e : tcp_env) (copied : bool) (h : in_hdr) (t : tcp_in) : tcp_in := tcp_receive_data copied (ih_seg h) (receive_ack e h t).

(** ** Options *)
Definition LWIP_TCP_OPT_EOL : Z := 0.
Definition LWIP_TCP_OPT_NOP : Z := 1.
Definition LWIP_TCP_OPT_MSS : Z := 2.
Definition LWIP_TCP_OPT_WS : Z := 3.
Definition LWIP_TCP_OPT_SACK_PERM : Z := 4.

(** The byte at index [i], behind the options whatever is there. *)
Definition tcp_get_next_optbyte (h : in_hdr) (i : Z) : Z := if i <? zlen (ih_opts h) then nth (Z.to_nat i) (ih_opts h) 0 else ih_past h i.

Definition opt_mss (m : Z) (p : tcp_pcb) : tcp_pcb := set_mss (if (TCP_MSS <? m) || (m =? 0) then TCP_MSS else m) p.

Definition opt_ws (h : in_hdr) (data : Z) (p : tcp_pcb) : tcp_pcb :=
  if ih_flag h TCP_SYN && (pflags p .& TF_WND_SCALE =? 0) then
    let p := tcp_set_flags TF_WND_SCALE (set_rcv_scale TCP_RCV_SCALE (set_snd_scale (if 14 <? data then 14 else data) p)) in
    set_rcv_wnd TCP_WND (set_rcv_ann_wnd TCP_WND p)
  else p.

(** The loop from index [i]; every option has at least one byte. *)
Fixpoint parseopt_loop (fuel : nat) (h : in_hdr) (i : Z) (p : tcp_pcb) : tcp_pcb :=
  match fuel with
  | O => p
  | S fuel =>
      let byte := tcp_get_next_optbyte h in
      let optlen := zlen (ih_opts h) in
      let bad len := negb (byte (i + 1) =? len) || (optlen <? i + len) in
      if negb (i <? optlen) then p
      else
        let opt := byte i in
        if opt =? LWIP_TCP_OPT_EOL then p
        else if opt =? LWIP_TCP_OPT_NOP then parseopt_loop fuel h (i + 1) p
        else if opt =? LWIP_TCP_OPT_MSS then
          if bad 4 then p else parseopt_loop fuel h (i + 4) (opt_mss (u16 (byte (i + 2) .<< 8) .| byte (i + 3)) p)
        else if opt =? LWIP_TCP_OPT_WS then
          if bad 3 then p else parseopt_loop fuel h (i + 3) (opt_ws h (byte (i + 2)) p)
        else if opt =? LWIP_TCP_OPT_SACK_PERM then
          if bad 2 then p else parseopt_loop fuel h (i + 2) (if ih_flag h TCP_SYN then tcp_set_flags TF_SACK p else p)
        else if byte (i + 1) <? 2 then p
        else parseopt_loop fuel h (i + byte (i + 1)) p
  end.

Definition tcp_parseopt (h : in_hdr) (p : tcp_pcb) : tcp_pcb := parseopt_loop (length (ih_opts h)) h 0 p.

(** ** Callbacks *)

(** The calls of [tcp_recved]; its [tcp_output] does nothing while [tcp_input_pcb] is set. *)
Definition app_recved (e : tcp_env) (len : Z) (t : tcp_in) : tcp_in :=
  let '(out, p) := tcp_recved len (ti_pcb t) in
  let t := set_ti_pcb p t in
  if out then (tcp_output e t).2 else t.

(** A callback: what it returns, and the state after it. *)
Definition callback (e : tcp_env) (ev : Z -> app_event) (t : tcp_in) : Z * tcp_in :=
  match ti_app t with
  | [] => (ERR_OK, set_ti_events (ti_events t ++ [ev ERR_OK]) t)
  | a :: rest =>
      let t := set_ti_events (ti_events t ++ [ev (ac_err a)]) (set_ti_app rest t) in
      let t := foldl (fun t len => app_recved e len t) t (ac_recved a) in
      (ac_err a, on_pcb (on_snd (ac_snd a)) t)
  end.

Definition tell (ev : app_event) (t : tcp_in) : tcp_in := set_ti_events (ti_events t ++ [ev]) t.

Definition tcp_rst (seqno ackno : Z) (t : tcp_in) : tcp_in :=
  let '(r, t) := next_send t in
  match r with None => t | Some _ => emit (PRst seqno ackno) t end.

Definition tcp_backlog_accepted (p : tcp_pcb) : tcp_pcb :=
  match listener p with
  | Some n => if negb (pflags p .& TF_BACKLOGPEND =? 0) then tcp_clear_flags TF_BACKLOGPEND (set_listener (Some (u8 (n - 1))) p) else p
  | None => p
  end.

(** [tcp_abort] for a connection that is not in TIME_WAIT: the PCB is gone afterwards. *)
Definition tcp_abort (t : tcp_in) : tcp_in :=
  if state (ti_pcb t) =? TIME_WAIT then t
  else
    let seqno := snd_nxt (p_snd (ti_pcb t)) in
    let ackno := rcv_nxt (ti_pcb t) in
    tell (EvErr ERR_ABRT) (tcp_rst seqno ackno (on_pcb tcp_backlog_accepted t)).

(** ** The state machine *)
Definition TCP_SYNMAXRTX : Z := 12.

Definition LWIP_TCP_CALC_INITIAL_CWND (m : Z) : Z := Z.min (4 * m) (Z.max (2 * m) 4380).

Definition tcp_pcb_purge (p : tcp_pcb) : tcp_pcb :=
  if negb (state p =? CLOSED) && negb (state p =? TIME_WAIT) && negb (state p =? LISTEN) then
    let p := tcp_backlog_accepted p in
    let p := set_refused_data None p in
    let p := match ooseq p with [] => p | _ => set_rcv_sacks (replicate LWIP_TCP_MAX_SACK_NUM (0, 0)) (set_ooseq [] p) end in
    on_snd (fun s => set_unsent_oversize 0 (set_unsent [] (set_unacked [] (set_rtime (-1) s)))) p
  else p.

Definition to_time_wait (p : tcp_pcb) : tcp_pcb := set_state TIME_WAIT (tcp_pcb_purge p).

(** RST: whether it is acceptable, and the challenge ACK. *)
Definition process_rst (h : in_hdr) (t : tcp_in) : Z * tcp_in :=
  let p := ti_pcb t in
  let seqno := sg_seqno (ih_seg h) in
  let acceptable := if state p =? SYN_SENT then ih_ackno h =? snd_nxt (p_snd p) else seqno =? rcv_nxt p in
  let challenge := negb (state p =? SYN_SENT) && negb acceptable && TCP_SEQ_BETWEEN seqno (rcv_nxt p) (u32 (rcv_nxt p + rcv_wnd p)) in
  let t := if challenge then on_pcb tcp_ack_now t else t in
  if acceptable then (ERR_RST, on_pcb (tcp_clear_flags TF_ACK_DELAY) (set_recv_flags (recv_flags t .| TF_RESET) t)) else (ERR_OK, t).

(** The segment that carried the SYN is removed from its queue. *)
Definition drop_syn (s : tcp_snd) : tcp_snd :=
  match unacked s with
  | [] => set_unsent (tl (unsent s)) s
  | _ :: rest => set_unacked rest s
  end.

(** [case SYN_SENT]. *)
Definition process_syn_sent (e : tcp_env) (h : in_hdr) (t : tcp_in) : Z * tcp_in :=
  let p := ti_pcb t in
  let seqno := sg_seqno (ih_seg h) in
  if ih_flag h TCP_ACK && ih_flag h TCP_SYN && (ih_ackno h =? u32 (lastack (p_snd p) + 1)) then
    let p := set_rcv_nxt (u32 (seqno + 1)) p in
    let p := set_rcv_ann_right_edge (rcv_nxt p) p in
    let p := on_snd (fun s => set_snd_wl1 (u32 (seqno - 1)) (set_snd_wnd_max (ih_wnd h) (set_snd_wnd (ih_wnd h) (set_lastack (ih_ackno h) s)))) p in
    let p := set_state ESTABLISHED p in
    let p := set_mss (tcp_eff_send_mss_netif (mss p) (te_route e)) p in
    let p := on_snd (fun s => drop_syn (set_snd_queuelen (u16 (snd_queuelen s - 1)) (set_cwnd (LWIP_TCP_CALC_INITIAL_CWND (mss p)) s))) p in
    let p := on_snd (fun s => match unacked s with [] => set_rtime (-1) s | _ => set_nrtx 0 (set_rtime 0 s) end) p in
    let '(err, t) := callback e (fun _ => EvConnected) (set_ti_pcb p t) in
    if err =? ERR_ABRT then (ERR_ABRT, t) else (ERR_OK, on_pcb tcp_ack_now t)
  else if ih_flag h TCP_ACK then
    let t := tcp_rst (ih_ackno h) (u32 (seqno + tcplen h)) t in
    (ERR_OK, if nrtx (p_snd p) <? TCP_SYNMAXRTX then tcp_rexmit_rto e (on_pcb (on_snd (set_rtime 0)) t) else t)
  else (ERR_OK, t).

(** [case SYN_RCVD]. *)
Definition process_syn_rcvd (e : tcp_env) (copied : bool) (h : in_hdr) (t : tcp_in) : Z * tcp_in :=
  let p := ti_pcb t in
  let seqno := sg_seqno (ih_seg h) in
  if ih_flag h TCP_ACK then
    if TCP_SEQ_BETWEEN (ih_ackno h) (u32 (lastack (p_snd p) + 1)) (snd_nxt (p_snd p)) then
      let t := on_pcb (set_state ESTABLISHED) t in
      let '(err, t) := match listener p with None => (ERR_VAL, t) | Some _ => callback e (fun _ => EvAccept) (on_pcb tcp_backlog_accepted t) end in
      if negb (err =? ERR_OK) then (ERR_ABRT, if negb (err =? ERR_ABRT) then tcp_abort t else t)
      else
        let t := tcp_receive e copied h t in
        let t := if negb (recv_acked t =? 0) then set_recv_acked (recv_acked t - 1) t else t in
        let t := on_pcb (fun p => on_snd (set_cwnd (LWIP_TCP_CALC_INITIAL_CWND (mss p))) p) t in
        (ERR_OK, if negb (recv_flags t .& TF_GOT_FIN =? 0) then on_pcb (fun p => set_state CLOSE_WAIT (tcp_ack_now p)) t else t)
    else (ERR_OK, tcp_rst (ih_ackno h) (u32 (seqno + tcplen h)) t)
  else if ih_flag h TCP_SYN && (seqno =? u32 (rcv_nxt p - 1)) then (ERR_OK, on_pcb (fun p => (tcp_rexmit p).2) t)
  else (ERR_OK, t).

(** The other states, after [tcp_receive]. *)
Definition process_synced (h : in_hdr) (st : Z) (t : tcp_in) : tcp_in :=
  let got_fin := negb (recv_flags t .& TF_GOT_FIN =? 0) in
  let s := p_snd (ti_pcb t) in
  let all_acked := ih_flag h TCP_ACK && (ih_ackno h =? snd_nxt s) && match unsent s with [] => true | _ => false end in
  if (st =? ESTABLISHED) || (st =? CLOSE_WAIT) then if got_fin then on_pcb (fun p => set_state CLOSE_WAIT (tcp_ack_now p)) t else t
  else if st =? FIN_WAIT_1 then
    if got_fin then
      if all_acked then on_pcb (fun p => to_time_wait (tcp_ack_now p)) t else on_pcb (fun p => set_state CLOSING (tcp_ack_now p)) t
    else if all_acked then on_pcb (set_state FIN_WAIT_2) t else t
  else if st =? FIN_WAIT_2 then if got_fin then on_pcb (fun p => to_time_wait (tcp_ack_now p)) t else t
  else if st =? CLOSING then if all_acked then on_pcb to_time_wait t else t
  else if st =? LAST_ACK then if all_acked then set_recv_flags (recv_flags t .| TF_CLOSED) t else t
  else t.

Definition tcp_process (e : tcp_env) (copied : bool) (h : in_hdr) (t : tcp_in) : Z * tcp_in :=
  let p := ti_pcb t in
  if ih_flag h TCP_RST then process_rst h t
  else if ih_flag h TCP_SYN && negb (state p =? SYN_SENT) && negb (state p =? SYN_RCVD) then (ERR_OK, on_pcb tcp_ack_now t)
  else
    let p := if pflags p .& TF_RXCLOSED =? 0 then set_tmr (te_ticks e) p else p in
    let p := on_snd (set_persist_probe 0) (set_keep_cnt_sent 0 p) in
    let t := set_ti_pcb (tcp_parseopt h p) t in
    if state p =? SYN_SENT then process_syn_sent e h t
    else if state p =? SYN_RCVD then process_syn_rcvd e copied h t
    else if (ESTABLISHED <=? state p) && (state p <=? LAST_ACK) then (ERR_OK, process_synced h (state p) (tcp_receive e copied h t))
    else (ERR_OK, t).

(** ** Data for the application *)

(** [pbuf_split_64k]: data that does not fit into 16 bits is cut at the end of a pbuf. *)
Definition split_64k (d : list Z) (t : tcp_in) : list Z * option (list Z) * tcp_in :=
  if zlen d <=? 0xFFFF then (d, None, t)
  else
    let '(n, t) := match ti_cuts t with [] => (0xFFFF, t) | n :: rest => (Z.max 1 (Z.min n 0xFFFF), set_ti_cuts rest t) end in
    (ztake n d, Some (zdrop n d), t).

(** The FIN for the application, for which it will not call [tcp_recved]. *)
Definition tell_closed (e : tcp_env) (t : tcp_in) : Z * tcp_in :=
  callback e (fun _ => EvClosed) (on_pcb (fun p => if rcv_wnd p =? TCP_WND_MAX p then p else set_rcv_wnd (u32 (rcv_wnd p + 1)) p) t).

(** The loop; every round takes at least one byte, see [refused_fuel]. *)
Fixpoint refused_loop (fuel : nat) (e : tcp_env) (t : tcp_in) : Z * tcp_in :=
  match fuel, refused_data (ti_pcb t) with
  | _, None => (ERR_OK, t)
  | O, Some _ => (ERR_OK, t)
  | S fuel, Some (d, fin) =>
      let '(front, rest, t) := split_64k d t in
      let t := on_pcb (set_refused_data (match rest with Some r => Some (r, fin) | None => None end)) t in
      let '(err, t) := callback e (EvRecv front) t in
      if err =? ERR_OK then
        match rest with
        | None =>
            if fin : bool then
              let '(err, t) := tell_closed e t in
              if err =? ERR_ABRT then (ERR_ABRT, t) else refused_loop fuel e t
            else refused_loop fuel e t
        | Some _ => refused_loop fuel e t
        end
      else if err =? ERR_ABRT then (ERR_ABRT, t)
      else (ERR_INPROGRESS, on_pcb (set_refused_data (Some (front ++ default [] rest, fin))) t)
  end.

Definition tcp_process_refused_data (e : tcp_env) (t : tcp_in) : Z * tcp_in :=
  refused_loop (S (length (default [] (fst <$> refused_data (ti_pcb t))))) e t.

(** The sent callbacks, with 16 bits each; the result says whether the PCB is gone. *)
Fixpoint sent_loop (fuel : nat) (e : tcp_env) (acked : Z) (t : tcp_in) : bool * tcp_in :=
  match fuel with
  | O => (false, t)
  | S fuel =>
      if 0 <? acked then
        let acked16 := Z.min acked 0xFFFF in
        let '(err, t) := callback e (fun _ => EvSent acked16) t in
        if err =? ERR_ABRT then (true, t) else sent_loop fuel e (acked - acked16) t
      else (false, t)
  end.

Definition tcp_input_delayed_close (t : tcp_in) : bool * tcp_in :=
  if negb (recv_flags t .& TF_CLOSED =? 0) then (true, if pflags (ti_pcb t) .& TF_RXCLOSED =? 0 then tell (EvErr (-15)) t else t) else (false, t).

(** [while (recv_data != NULL)]. *)
Fixpoint deliver_loop (fuel : nat) (e : tcp_env) (t : tcp_in) : bool * tcp_in :=
  match fuel, recv_data t with
  | _, None => (false, t)
  | O, Some _ => (false, t)
  | S fuel, Some d =>
      let '(front, rest, t) := split_64k d t in
      if negb (pflags (ti_pcb t) .& TF_RXCLOSED =? 0) then (true, tcp_abort t)
      else
        let '(err, t) := callback e (EvRecv front) t in
        if err =? ERR_ABRT then (true, t)
        else if negb (err =? ERR_OK) then (false, on_pcb (set_refused_data (Some (front ++ default [] rest, false))) t)
        else deliver_loop fuel e (set_recv_data rest t)
  end.

Definition deliver (e : tcp_env) (t : tcp_in) : bool * tcp_in := deliver_loop (S (length (default [] (recv_data t)))) e t.

(** [if (recv_flags & TF_GOT_FIN)]. *)
Definition deliver_fin (e : tcp_env) (t : tcp_in) : bool * tcp_in :=
  if negb (recv_flags t .& TF_GOT_FIN =? 0) then
    match refused_data (ti_pcb t) with
    | Some (d, _) => (false, on_pcb (set_refused_data (Some (d, true))) t)
    | None => let '(err, t) := tell_closed e t in (err =? ERR_ABRT, t)
    end
  else (false, t).

(** What is done after [tcp_process], while the PCB is there. *)
Definition input_events (e : tcp_env) (t : tcp_in) : bool * tcp_in :=
  let '(gone, t) := if 0 <? recv_acked t then let '(gone, t) := sent_loop (Z.to_nat (recv_acked t / 0xFFFF + 1)) e (recv_acked t) t in (gone, if gone : bool then t else set_recv_acked 0 t) else (false, t) in
  if gone then (true, t)
  else
    let '(gone, t) := tcp_input_delayed_close t in
    if gone then (true, t)
    else
      let '(gone, t) := deliver e t in
      if gone then (true, t) else deliver_fin e t.

(** A segment for the connection [ti_pcb]: the part of [tcp_input] from "Set up a tcp_seg
    structure" on.  The result says whether the PCB is gone. *)
Definition tcp_input_pcb (e : tcp_env) (copied : bool) (h : in_hdr) (t : tcp_in) : bool * tcp_in :=
  let outside := TcpEnv (te_route e) (te_local e) (te_ticks e) false in
  let inside := TcpEnv (te_route e) (te_local e) (te_ticks e) true in
  let t := set_recv_acked 0 (set_recv_flags 0 (set_recv_data None t)) in
  let '(err, t) := match refused_data (ti_pcb t) with None => (ERR_OK, t) | Some _ => tcp_process_refused_data outside t end in
  let still := match refused_data (ti_pcb t) with None => false | Some _ => true end in
  if (err =? ERR_ABRT) || (still && (0 <? tcplen h)) then
    (err =? ERR_ABRT, if rcv_ann_wnd (ti_pcb t) =? 0 then (tcp_send_empty_ack t).2 else t)
  else
    let '(err, t) := tcp_process inside copied h t in
    if err =? ERR_ABRT then (true, t)
    else if negb (recv_flags t .& TF_RESET =? 0) then (true, tell (EvErr ERR_RST) t)
    else
      let '(gone, t) := input_events inside t in
      if gone then (true, t)
      else
        let '(gone, t) := tcp_input_delayed_close t in
        if gone then (true, t) else (false, (tcp_output outside t).2).

(** A segment for a connection in TIME_WAIT. *)
Definition tcp_timewait_input (e : tcp_env) (h : in_hdr) (t : tcp_in) : tcp_in :=
  let p := ti_pcb t in
  let seqno := sg_seqno (ih_seg h) in
  if ih_flag h TCP_RST then t
  else if ih_flag h TCP_SYN && TCP_SEQ_BETWEEN seqno (rcv_nxt p) (u32 (rcv_nxt p + rcv_wnd p)) then tcp_rst (ih_ackno h) (u32 (seqno + tcplen h)) t
  else
    let t := if negb (ih_flag h TCP_SYN) && ih_flag h TCP_FIN then on_pcb (set_tmr (te_ticks e)) t else t in
    if 0 <? tcplen h then (tcp_output e (on_pcb tcp_ack_now t)).2 else t.
