(* ===== verification/TcpTmr.v ===== *)
(** Closing a TCP connection and its timers, from [core/tcp.c] and [core/tcp_out.c]. *)
From S2P Require Import Prelude Bits Def Pbuf TcpIn TcpOut TcpProcess.

(** ** FIN *)

(** [mem] says whether there is a pbuf and a segment. *)
Definition tcp_enqueue_flags (mem : bool) (flags : Z) (p : tcp_pcb) : Z * tcp_pcb :=
  let syn := negb (flags .& TCP_SYN =? 0) in
  let fin := negb (flags .& TCP_FIN =? 0) in
  let ws := syn && (negb (state p =? SYN_RCVD) || negb (pflags p .& TF_WND_SCALE =? 0)) in
  let sack := syn && (negb (state p =? SYN_RCVD) || negb (pflags p .& TF_SACK =? 0)) in
  let optflags := (if syn then TF_SEG_OPTS_MSS else 0) .| (if ws then TF_SEG_OPTS_WND_SCALE else 0) .| (if sack then TF_SEG_OPTS_SACK_PERM else 0) in
  if negb mem then (ERR_MEM, tcp_set_flags TF_NAGLEMEMERR p)
  else
    let seg := TcpSeg (snd_lbb (p_snd p)) 0 flags [] optflags 1 false in
    let p := on_snd (fun s => set_unsent_oversize 0 (set_unsent (unsent s ++ [seg]) s)) p in
    let p := if syn || fin then on_snd (fun s => set_snd_lbb (u32 (snd_lbb s + 1)) s) p else p in
    let p := if fin then tcp_set_flags TF_FIN p else p in
    (ERR_OK, on_snd (fun s => set_snd_queuelen (u16 (snd_queuelen s + 1)) s) p).

(** All but the last element, and a new last one. *)
Fixpoint alter_last {A} (f : A -> A) (l : list A) : list A :=
  match l with
  | [] => []
  | [x] => [f x]
  | x :: l => x :: alter_last f l
  end.

Definition tcp_send_fin (mem : bool) (p : tcp_pcb) : Z * tcp_pcb :=
  match last (unsent (p_snd p)) with
  | Some g =>
      if sg_flags g .& (TCP_SYN .| TCP_FIN .| TCP_RST) =? 0
      then (ERR_OK, tcp_set_flags TF_FIN (on_snd (fun s => set_unsent (alter_last set_fin (unsent s)) s) p))
      else tcp_enqueue_flags mem TCP_FIN p
  | None => tcp_enqueue_flags mem TCP_FIN p
  end.

Definition tcp_close_shutdown_fin (e : tcp_env) (mem : bool) (t : tcp_in) : Z * tcp_in :=
  let st := state (ti_pcb t) in
  if (st =? SYN_RCVD) || (st =? ESTABLISHED) || (st =? CLOSE_WAIT) then
    let '(err, p) := tcp_send_fin mem (ti_pcb t) in
    if err =? ERR_OK then
      let p := if st =? SYN_RCVD then tcp_backlog_accepted p else p in
      (ERR_OK, (tcp_output e (set_ti_pcb (set_state (if st =? CLOSE_WAIT then LAST_ACK else FIN_WAIT_1) p) t)).2)
    else if err =? ERR_MEM then (ERR_OK, set_ti_pcb (tcp_set_flags TF_CLOSEPEND p) t)
    else (err, set_ti_pcb p t)
  else (ERR_OK, t).

(** [tcp_close_shutdown] for the PCB of a connection: whether the PCB is gone (with
    [tcp_input_pcb] set it goes with [TF_CLOSED]). *)
Definition tcp_close_shutdown (e : tcp_env) (mem rst_on_unacked_data : bool) (t : tcp_in) : Z * bool * tcp_in :=
  let p := ti_pcb t in
  let unread := match refused_data p with None => false | Some _ => true end || negb (rcv_wnd p =? TCP_WND_MAX p) in
  if rst_on_unacked_data && ((state p =? ESTABLISHED) || (state p =? CLOSE_WAIT)) && unread then
    let t := on_pcb tcp_pcb_purge (tcp_rst (snd_nxt (p_snd p)) (rcv_nxt p) t) in
    if te_input e then (ERR_OK, false, set_recv_flags (recv_flags t .| TF_CLOSED) t) else (ERR_OK, true, t)
  else if (state p =? CLOSED) || (state p =? SYN_SENT) then (ERR_OK, true, t)
  else let '(err, t) := tcp_close_shutdown_fin e mem t in (err, false, t).

Definition tcp_close (e : tcp_env) (mem : bool) (t : tcp_in) : Z * bool * tcp_in := tcp_close_shutdown e mem true (on_pcb (tcp_set_flags TF_RXCLOSED) t).

Definition ERR_CONN : Z := -11.

Definition tcp_shutdown (e : tcp_env) (mem shut_rx shut_tx : bool) (t : tcp_in) : Z * bool * tcp_in :=
  let t := if shut_rx then on_pcb (tcp_set_flags TF_RXCLOSED) t else t in
  if shut_rx && shut_tx then tcp_close_shutdown e mem true t
  else
    let t := if shut_rx then on_pcb (set_refused_data None) t else t in
    if shut_tx then
      if (state (ti_pcb t) =? SYN_RCVD) || (state (ti_pcb t) =? ESTABLISHED) || (state (ti_pcb t) =? CLOSE_WAIT)
      then tcp_close_shutdown e mem shut_rx t else (ERR_CONN, false, t)
    else (ERR_OK, false, t).

(** ** The fast timer *)

(** The body of the loop of [tcp_fasttmr]; the result says whether the PCB is gone. *)
Definition fasttmr_pcb (e : tcp_env) (mem : bool) (t : tcp_in) : bool * tcp_in :=
  let t :=
    if negb (pflags (ti_pcb t) .& TF_ACK_DELAY =? 0)
    then on_pcb (tcp_clear_flags (TF_ACK_DELAY .| TF_ACK_NOW)) (tcp_output e (on_pcb tcp_ack_now t)).2 else t in
  let t :=
    if negb (pflags (ti_pcb t) .& TF_CLOSEPEND =? 0)
    then (tcp_close_shutdown_fin e mem (on_pcb (tcp_clear_flags TF_CLOSEPEND) t)).2 else t in
  match refused_data (ti_pcb t) with
  | Some _ => let '(err, t) := tcp_process_refused_data e t in (err =? ERR_ABRT, t)
  | None => (false, t)
  end.

(** ** The slow timer *)
Definition tcp_backoff : list Z := [1; 2; 3; 4; 5; 6; 7; 7; 7; 7; 7; 7; 7].
Definition tcp_persist_backoff : list Z := [3; 6; 12; 24; 48; 96; 120].
Definition TCP_MAXRTX : Z := 12.
Definition TCP_SLOW_INTERVAL : Z := 500.
Definition TCP_FIN_WAIT_TIMEOUT : Z := 20000.
Definition TCP_SYN_RCVD_TIMEOUT : Z := 20000.
Definition TCP_OOSEQ_TIMEOUT : Z := 6.
Definition TCP_MSL : Z := 60000.
Definition SOF_KEEPALIVE : Z := 0x08.

(** The first unsent segment is cut after [split] bytes; its first part keeps [clen] pbufs.
    [TCPH_SET_FLAG] adds flags and removes none. *)
Definition tcp_split_unsent_seg (mem : bool) (clen split : Z) (p : tcp_pcb) : Z * tcp_pcb :=
  let s := p_snd p in
  match unsent s with
  | [] => (ERR_MEM, p)
  | useg :: rest =>
      if split =? 0 then (ERR_VAL, p)
      else if sg_len useg <=? split then (ERR_OK, p)
      else if negb mem then (ERR_MEM, p)
      else
        let remainder := sg_len useg - split in
        let split_flags := sg_flags useg .& Z.lnot (TCP_PSH .| TCP_FIN) in
        let remainder_flags := sg_flags useg .& (TCP_PSH .| TCP_FIN) in
        let seg := TcpSeg (u32 (sg_seqno useg + split)) remainder remainder_flags (zdrop split (sg_data useg)) (sg_opts useg) 1 false in
        let head := TcpSeg (sg_seqno useg) split (sg_flags useg .| split_flags) (ztake split (sg_data useg)) (sg_opts useg) clen (sg_busy useg) in
        let s := set_snd_queuelen (u16 (snd_queuelen s - sg_clen useg + clen + 1)) (set_unsent (head :: seg :: rest) s) in
        (ERR_OK, set_p_snd (match rest with [] => set_unsent_oversize 0 s | _ => s end) p)
  end.

(** A control segment that has been allocated with [tcp_output_alloc_header]. *)
Definition send_control (none : Z) (k : tcp_in -> tcp_packet) (t : tcp_in) : Z * tcp_in :=
  let '(r, t) := next_send t in
  match r with
  | None => (none, t)
  | Some err => (err, on_pcb (fun p => set_rcv_ann_right_edge (u32 (rcv_nxt p + rcv_ann_wnd p)) p) (emit (k t) t))
  end.

Definition tcp_keepalive (t : tcp_in) : Z * tcp_in :=
  send_control ERR_MEM (fun t => let p := ti_pcb t in PAck (u32 (snd_nxt (p_snd p) - 1)) (rcv_nxt p) (TCPWND_MIN16 (RCV_WND_SCALE p (rcv_ann_wnd p))) []) t.

(** One sequence number of the first unsent segment: FIN, or a byte. *)
Definition probe (g : tcp_seg) : tcp_seg :=
  let is_fin := has_fin g && (sg_len g =? 0) in
  if is_fin then TcpSeg (sg_seqno g) 0 (TCP_ACK .| TCP_FIN) [] 0 1 false else TcpSeg (sg_seqno g) 1 TCP_ACK (ztake 1 (sg_data g)) 0 1 false.

Definition tcp_zero_window_probe (t : tcp_in) : Z * tcp_in :=
  match unsent (p_snd (ti_pcb t)) with
  | [] => (ERR_OK, t)
  | g :: _ =>
      let t := on_pcb (on_snd (fun s => if persist_probe s <? 0xFF then set_persist_probe (persist_probe s + 1) s else s)) t in
      let bump s := if TCP_SEQ_LT (snd_nxt s) (u32 (sg_seqno g + 1)) then set_snd_nxt (u32 (sg_seqno g + 1)) s else s in
      let '(r, _) := next_send t in
      let '(err, t) := send_control ERR_MEM (fun t => let p := ti_pcb t in PSeg (probe g) (rcv_nxt p) (TCPWND_MIN16 (RCV_WND_SCALE p (rcv_ann_wnd p))) []) t in
      (err, match r with None => t | Some _ => on_pcb (on_snd bump) t end)
  end.

(** The persist timer: whether the PCB is to be removed. *)
Definition slow_persist (e : tcp_env) (mem : bool) (clen : Z) (t : tcp_in) : bool * tcp_in :=
  let s := p_snd (ti_pcb t) in
  if TCP_MAXRTX <=? persist_probe s then (true, t)
  else
    let cnt := nth (Z.to_nat (persist_backoff s - 1)) tcp_persist_backoff 0 in
    let t := if persist_cnt s <? cnt then on_pcb (on_snd (set_persist_cnt (persist_cnt s + 1))) t else t in
    if cnt <=? persist_cnt (p_snd (ti_pcb t)) then
      let '(next_slot, t) :=
        if snd_wnd s =? 0 then let '(err, t) := tcp_zero_window_probe t in (err =? ERR_OK, t)
        else
          let '(err, p) := tcp_split_unsent_seg mem clen (u16 (snd_wnd s)) (ti_pcb t) in
          let t := set_ti_pcb p t in
          if err =? ERR_OK then let '(err, t) := tcp_output e t in (negb (err =? ERR_OK), t) else (true, t) in
      (false, if next_slot : bool then on_pcb (on_snd (fun s => let s := set_persist_cnt 0 s in if persist_backoff s <? 7 then set_persist_backoff (persist_backoff s + 1) s else s)) t else t)
    else (false, t).

(** The numbers after a retransmission time-out. *)
Definition back_off (m : Z) (syn_sent : bool) (s : tcp_snd) : tcp_snd :=
  let s := if syn_sent then s else set_rto (s16 (Z.min (((sa s .>> 3) + sv s) .<< nth (Z.to_nat (Z.min (nrtx s) 12)) tcp_backoff 0) 0x7FFF)) s in
  let eff_wnd := Z.min (cwnd s) (snd_wnd s) in
  let ss := eff_wnd .>> 1 in
  set_bytes_acked 0 (set_cwnd m (set_ssthresh (if ss <? m .<< 1 then m .<< 1 else ss) (set_rtime 0 s))).

(** The retransmission timer. *)
Definition slow_rexmit (e : tcp_env) (t : tcp_in) : tcp_in :=
  let t := on_pcb (on_snd (fun s => if (0 <=? rtime s) && (rtime s <? 0x7FFF) then set_rtime (rtime s + 1) s else s)) t in
  if rto (p_snd (ti_pcb t)) <=? rtime (p_snd (ti_pcb t)) then
    let '(err, p) := tcp_rexmit_rto_prepare (ti_pcb t) in
    let stuck := match unacked (p_snd p), unsent (p_snd p) with [], _ :: _ => true | _, _ => false end in
    if (err =? ERR_OK) || stuck then tcp_rexmit_rto_commit e (set_ti_pcb (on_snd (back_off (mss p) (state p =? SYN_SENT)) p) t) else set_ti_pcb p t
  else t.

Definition tcp_free_ooseq (p : tcp_pcb) : tcp_pcb := match ooseq p with [] => p | _ => set_rcv_sacks (replicate LWIP_TCP_MAX_SACK_NUM (0, 0)) (set_ooseq [] p) end.

(** How long a PCB has been inactive. *)
Definition idle (e : tcp_env) (p : tcp_pcb) : Z := u32 (te_ticks e - tmr p).

(** Keepalive: whether the PCB is to be removed with a reset. *)
Definition slow_keepalive (e : tcp_env) (t : tcp_in) : bool * tcp_in :=
  let p := ti_pcb t in
  if negb (so_options p .& SOF_KEEPALIVE =? 0) && ((state p =? ESTABLISHED) || (state p =? CLOSE_WAIT)) then
    if u32 (keep_idle p + u32 (keep_cnt p * keep_intvl p)) / TCP_SLOW_INTERVAL <? idle e p then (true, t)
    else if u32 (keep_idle p + u32 (keep_cnt_sent p * keep_intvl p)) / TCP_SLOW_INTERVAL <? idle e p then
      let '(err, t) := tcp_keepalive t in
      (false, if err =? ERR_OK then on_pcb (fun p => set_keep_cnt_sent (u8 (keep_cnt_sent p + 1)) p) t else t)
    else (false, t)
  else (false, t).

(** The body of the loop of [tcp_slowtmr] over the active PCBs; the result says whether the
    PCB is gone. *)
Definition slowtmr_pcb (e : tcp_env) (mem : bool) (clen : Z) (t : tcp_in) : bool * tcp_in :=
  let s := p_snd (ti_pcb t) in
  let '(rm1, t) :=
    if (state (ti_pcb t) =? SYN_SENT) && (TCP_SYNMAXRTX <=? nrtx s) then (true, t)
    else if TCP_MAXRTX <=? nrtx s then (true, t)
    else if 0 <? persist_backoff s then slow_persist e mem clen t
    else (false, slow_rexmit e t) in
  let p := ti_pcb t in
  let rm2 := (state p =? FIN_WAIT_2) && negb (pflags p .& TF_RXCLOSED =? 0) && (TCP_FIN_WAIT_TIMEOUT / TCP_SLOW_INTERVAL <? idle e p) in
  let '(reset, t) := slow_keepalive e t in
  let t := on_pcb (fun p => if u32 (rto (p_snd p) * TCP_OOSEQ_TIMEOUT) <=? idle e p then tcp_free_ooseq p else p) t in
  let p := ti_pcb t in
  let rm3 := (state p =? SYN_RCVD) && (TCP_SYN_RCVD_TIMEOUT / TCP_SLOW_INTERVAL <? idle e p) in
  let rm4 := (state p =? LAST_ACK) && (2 * TCP_MSL / TCP_SLOW_INTERVAL <? idle e p) in
  if rm1 || rm2 || reset || rm3 || rm4 then
    let t := on_pcb tcp_pcb_purge t in
    let t := if reset then tcp_rst (snd_nxt (p_snd (ti_pcb t))) (rcv_nxt (ti_pcb t)) t else t in
    (true, tell (EvErr ERR_ABRT) t)
  else
    let t := on_pcb (on_snd (fun s => set_polltmr (u8 (polltmr s + 1)) s)) t in
    if pollinterval (ti_pcb t) <=? polltmr (p_snd (ti_pcb t)) then
      let '(err, t) := callback e (fun _ => EvPoll) (on_pcb (on_snd (set_polltmr 0)) t) in
      if err =? ERR_ABRT then (true, t) else (false, if err =? ERR_OK then (tcp_output e t).2 else t)
    else (false, t).

(** The loop over the PCBs in TIME_WAIT: whether the PCB is removed. *)
Definition timewait_expired (e : tcp_env) (p : tcp_pcb) : bool := 2 * TCP_MSL / TCP_SLOW_INTERVAL <? idle e p.
