(* ===== verification/TcpStream.v ===== *)
(** TCP data: whatever segments of a byte stream arrive, and in whatever order, the
    application gets the stream. *)
From S2P Require Import Prelude Bits Def Pbuf TcpIn.

(** ** Sequence numbers near each other *)
Lemma u32_add x y : u32 (u32 x + y) = u32 (x + y).
Proof. unfold u32. by rewrite Zplus_mod_idemp_l. Qed.

Lemma u32_add_r x y : u32 (x + u32 y) = u32 (x + y).
Proof. unfold u32. by rewrite Zplus_mod_idemp_r. Qed.

Lemma u32_sub x y : u32 (u32 x - y) = u32 (x - y).
Proof. unfold u32. by rewrite Zminus_mod_idemp_l. Qed.

Lemma u32_u32 x : u32 (u32 x) = u32 x.
Proof. unfold u32. by rewrite Z.mod_mod. Qed.

Lemma s32_diff x y : - 2 ^ 31 <= x - y < 2 ^ 31 -> s32 (u32 x - u32 y) = x - y.
Proof.
  intros H. unfold s32, u32. replace (x mod 2 ^ 32 - y mod 2 ^ 32 + 2 ^ 31) with (x mod 2 ^ 32 - (y mod 2 ^ 32 - 2 ^ 31)) by lia.
  rewrite Zminus_mod_idemp_l. replace (x - (y mod 2 ^ 32 - 2 ^ 31)) with (x + 2 ^ 31 - y mod 2 ^ 32) by lia. rewrite Zminus_mod_idemp_r.
  rewrite Z.mod_small by lia. lia.
Qed.

(** Two numbers at most [2 ^ 30] apart. *)
Definition near (x y : Z) : Prop := - 2 ^ 30 <= x - y <= 2 ^ 30.

Section seq.
  Context (b x y : Z) (Hn : near x y).

Lemma seq_diff : s32 (u32 (u32 (b + x)) - u32 (u32 (b + y))) = x - y.
Proof using Hn. unfold near in Hn. rewrite !u32_u32, s32_diff by lia. lia. Qed.

Lemma seq_lt : TCP_SEQ_LT (u32 (b + x)) (u32 (b + y)) = (x <? y).
Proof using Hn. unfold TCP_SEQ_LT. rewrite seq_diff. destruct (Z.ltb_spec (x - y) 0), (Z.ltb_spec x y); lia. Qed.

Lemma seq_leq : TCP_SEQ_LEQ (u32 (b + x)) (u32 (b + y)) = (x <=? y).
Proof using Hn. unfold TCP_SEQ_LEQ. rewrite seq_diff. destruct (Z.leb_spec (x - y) 0), (Z.leb_spec x y); lia. Qed.

Lemma seq_gt : TCP_SEQ_GT (u32 (b + x)) (u32 (b + y)) = (y <? x).
Proof using Hn. unfold TCP_SEQ_GT. rewrite seq_diff. destruct (Z.ltb_spec 0 (x - y)), (Z.ltb_spec y x); lia. Qed.

Lemma seq_geq : TCP_SEQ_GEQ (u32 (b + x)) (u32 (b + y)) = (y <=? x).
Proof using Hn. unfold TCP_SEQ_GEQ. rewrite seq_diff. destruct (Z.leb_spec 0 (x - y)), (Z.leb_spec y x); lia. Qed.

Lemma seq_eqb : (u32 (b + x) =? u32 (b + y)) = (x =? y).
Proof using Hn.
  unfold near in Hn. destruct (Z.eqb_spec x y) as [->|Hne]; [apply Z.eqb_refl|]. apply Z.eqb_neq. intros E. pose proof seq_diff as Hd. rewrite E, Z.sub_diag in Hd. change (s32 0) with 0 in Hd. lia.
Qed.

End seq.

(** ** Segments of a stream *)
Section stream.
  Context (S : list Z) (b : Z).

(** The bytes from [x] up to [y]. *)
Definition bytes_of (x y : Z) : list Z := ztake (y - x) (zdrop x S).

Definition fin_len (g : tcp_seg) : Z := if has_fin g then 1 else 0.

(** The segment [g] carries the bytes of the stream from [o] on; FIN is at its end. *)
Record piece_at (g : tcp_seg) (o : Z) : Prop := PieceAt {
  pc_seqno : sg_seqno g = u32 (b + o);
  pc_len : 0 <= sg_len g < 65535;
  pc_range : 0 <= o /\ o + sg_len g <= zlen S;
  pc_data : sg_data g = bytes_of o (o + sg_len g);
  pc_syn : has_syn g = false;
  pc_fin : has_fin g = true -> o + sg_len g = zlen S;
}.

(** The out-of-sequence queue: segments in order that begin from [m] to [hi]; nothing is
    behind a FIN. *)
Fixpoint queue_in (hi m : Z) (l : list tcp_seg) : Prop :=
  match l with
  | [] => True
  | g :: l => exists o, m <= o <= hi /\ piece_at g o /\ (has_fin g = true -> l = []) /\ queue_in hi (o + Z.max 1 (sg_len g)) l
  end.

Lemma fin_syn_flags f : (f .& TCP_SYN =? 0) = true -> (f .& (TCP_FIN .| TCP_SYN) =? 0) = (f .& TCP_FIN =? 0).
Proof.
  intros Hs. apply Z.eqb_eq in Hs. rewrite Z.land_lor_distr_r, Hs, Z.lor_0_r. done.
Qed.

Lemma tcplen_piece g o : piece_at g o -> TCP_TCPLEN g = sg_len g + fin_len g.
Proof.
  intros H. pose proof (pc_syn _ _ H) as Hs. unfold has_syn in Hs. apply negb_false_iff in Hs. unfold TCP_TCPLEN, fin_len, has_fin. rewrite fin_syn_flags by done.
  by destruct (sg_flags g .& TCP_FIN =? 0).
Qed.

Lemma bytes_len x y : 0 <= x <= y -> y <= zlen S -> zlen (bytes_of x y) = y - x.
Proof. intros. unfold bytes_of. rewrite zlen_ztake; [lia|]. rewrite zlen_zdrop; lia. Qed.

Lemma bytes_take x y k : 0 <= k <= y - x -> ztake k (bytes_of x y) = bytes_of x (x + k).
Proof. intros. unfold bytes_of. rewrite ztake_ztake by lia. f_equal. lia. Qed.

Lemma bytes_drop x y k : 0 <= x -> 0 <= k <= y - x -> zdrop k (bytes_of x y) = bytes_of (x + k) y.
Proof. intros. unfold bytes_of. rewrite zdrop_ztake by lia. rewrite zdrop_zdrop by lia. f_equal; [lia|f_equal; lia]. Qed.

Lemma bytes_app x y z : 0 <= x <= y -> y <= z -> z <= zlen S -> bytes_of x y ++ bytes_of y z = bytes_of x z.
Proof.
  intros. unfold bytes_of. rewrite <- (ztake_zdrop (y - x) (ztake (z - x) (zdrop x S))). f_equal.
  - rewrite ztake_ztake by lia. f_equal. lia.
  - rewrite zdrop_ztake by lia. rewrite zdrop_zdrop by lia. f_equal; [lia|f_equal; lia].
Qed.

(** Cutting a segment short. *)
Lemma piece_cut g o k : piece_at g o -> has_fin g = false -> 0 <= k <= sg_len g -> piece_at (seg_realloc k g) o.
Proof.
  intros [H1 H2 H3 H4 H5 H6] Hf Hk. split; cbn [seg_realloc sg_seqno sg_len sg_data]; [done|lia|lia| |done|].
  - rewrite H4, bytes_take by lia. done.
  - unfold has_fin in *. cbn. congruence.
Qed.

Lemma clear_fin_off g : has_fin (clear_fin g) = false.
Proof.
  unfold has_fin, clear_fin. cbn. apply negb_false_iff, Z.eqb_eq. rewrite <- Z.land_assoc. change (Z.land (Z.lnot TCP_FIN) TCP_FIN) with 0. apply Z.land_0_r.
Qed.

Lemma clear_fin_syn g : has_syn (clear_fin g) = has_syn g.
Proof. unfold has_syn, clear_fin. cbn. rewrite <- Z.land_assoc. change (Z.land (Z.lnot TCP_FIN) TCP_SYN) with TCP_SYN. done. Qed.

Lemma piece_clear_fin g o : piece_at g o -> piece_at (clear_fin g) o.
Proof. intros [H1 H2 H3 H4 H5 H6]. split; try done; [by rewrite clear_fin_syn|by rewrite clear_fin_off]. Qed.

Lemma set_fin_on g : has_fin (set_fin g) = true.
Proof. unfold has_fin, set_fin. cbn. apply negb_true_iff, Z.eqb_neq. rewrite Z.land_lor_distr_l. change (Z.land TCP_FIN TCP_FIN) with 1. intros H%Z.lor_eq_0_iff. lia. Qed.

Lemma set_fin_syn g : has_syn (set_fin g) = has_syn g.
Proof. unfold has_syn, set_fin. cbn. rewrite Z.land_lor_distr_l. change (Z.land TCP_FIN TCP_SYN) with 0. by rewrite Z.lor_0_r. Qed.

Lemma piece_set_fin g o : piece_at g o -> o + sg_len g = zlen S -> piece_at (set_fin g) o.
Proof. intros [H1 H2 H3 H4 H5 H6] He. split; try done. by rewrite set_fin_syn. Qed.

Lemma queue_weaken hi hi' m m' l : hi <= hi' -> m' <= m -> queue_in hi m l -> queue_in hi' m' l.
Proof.
  intros Hh. revert m m'. induction l as [|g l IH]; intros m m' Hm; [done|]. intros (o & Ho & Hp & Hf & Hq). exists o. split_and!; [lia|lia|done|done|]. by eapply IH.
Qed.

Lemma u16_diff x y : 0 <= x - y < 65536 -> u16 (u32 x - u32 y) = x - y.
Proof.
  intros H. unfold u16, u32. rewrite Zminus_mod. rewrite !Z.mod_mod_divide by (exists (2 ^ 16); done). rewrite <- Zminus_mod. by apply Z.mod_small.
Qed.

(** The end of a segment as a sequence number. *)
Lemma piece_end g o : piece_at g o -> u32 (sg_seqno g + sg_len g) = u32 (b + (o + sg_len g)).
Proof. intros H. rewrite (pc_seqno _ _ H), u32_add. f_equal. lia. Qed.

(** ** Inserting *)
Definition cut_at_next (c : tcp_seg) (l : list tcp_seg) : list tcp_seg :=
  match l with
  | n :: _ => (if TCP_SEQ_GT (u32 (sg_seqno c + sg_len c)) (sg_seqno n) then seg_realloc (u16 (sg_seqno n - sg_seqno c)) c else c) :: l
  | [] => [c]
  end.

Lemma insert_unfold c l : has_fin c = false -> tcp_oos_insert_segment c l = cut_at_next (oos_covered c l).1 (oos_covered c l).2.
Proof. intros Hf. unfold tcp_oos_insert_segment. rewrite Hf. by destruct (oos_covered c l) as [c' [|n l']]. Qed.

(** All segments of the queue begin behind [c]. *)
Lemma covered_ok hi off : forall l c m,
  piece_at c off -> off <= hi <= off + 2 ^ 29 -> off < m -> queue_in hi m l -> (has_fin c = true -> l = []) ->
  queue_in hi off (cut_at_next (oos_covered c l).1 (oos_covered c l).2).
Proof.
  induction l as [|g l IH]; intros c m Hc Hhi Hm Hq Hf; cbn [oos_covered].
  { exists off. split_and!; [lia|lia|done|done|done]. }
  destruct Hq as (o & Ho & Hg & Hgf & Hq). destruct (pc_len _ _ Hc). destruct (pc_len _ _ Hg). rewrite (piece_end c off), (piece_end g o) by done. rewrite seq_geq by (unfold near; lia).
  destruct (Z.leb_spec (o + sg_len g) (off + sg_len c)) as [Hcov|Hnc].
  - apply (IH _ (o + Z.max 1 (sg_len g))); [|done|lia|done|].
    + destruct (has_fin g) eqn:Efg; [|done]. apply piece_set_fin; [done|]. pose proof (pc_fin _ _ Hg Efg). destruct (pc_range _ _ Hc). lia.
    + destruct (has_fin g) eqn:Efg; [by intros _; apply Hgf|]. intros Hx. by specialize (Hf Hx).
  - assert (Hcf : has_fin c = false) by (destruct (has_fin c); [by specialize (Hf eq_refl)|done]). cbn [fst snd cut_at_next].
    rewrite (piece_end c off) by done. rewrite (pc_seqno _ _ Hg), (pc_seqno _ _ Hc), seq_gt by (unfold near; lia).
    destruct (Z.ltb_spec o (off + sg_len c)) as [Hlap|Hno].
    + rewrite u16_diff by lia. replace (b + o - (b + off)) with (o - off) by lia. exists off. split_and!; [lia|lia|by apply piece_cut; [|done|lia]| |].
      * unfold has_fin, seg_realloc. cbn. unfold has_fin in Hcf. congruence.
      * cbn [seg_realloc sg_len]. exists o. split_and!; [lia|lia|done|done|done].
    + exists off. split_and!; [lia|lia|done|congruence|]. exists o. split_and!; [lia|lia|done|done|done].
Qed.

(** The same when the first one begins with [c] and is shorter. *)
Lemma insert_ok hi off c l :
  piece_at c off -> off <= hi <= off + 2 ^ 29 -> queue_in hi off l ->
  (forall g o l', l = g :: l' -> piece_at g o -> o = off -> sg_len g <= sg_len c) -> queue_in hi off (tcp_oos_insert_segment c l).
Proof.
  intros Hc Hhi Hq Hfirst. destruct (has_fin c) eqn:Hf.
  { unfold tcp_oos_insert_segment. rewrite Hf. exists off. split_and!; [lia|lia|done|done|done]. }
  rewrite insert_unfold by done. destruct l as [|g l]; [by apply (covered_ok hi off [] c (off + 1)); [|lia|lia| |]|].
  destruct Hq as (o & Ho & Hg & Hgf & Hq). destruct (decide (o = off)) as [->|Hne].
  2: { apply (covered_ok hi off (g :: l) c (off + 1)); [done|lia|lia| |congruence]. exists o. split_and!; [lia|lia|done|done|done]. }
  specialize (Hfirst g off l eq_refl Hg eq_refl). destruct (pc_len _ _ Hc). destruct (pc_len _ _ Hg). cbn [oos_covered]. rewrite (piece_end c off), (piece_end g off) by done.
  rewrite seq_geq by (unfold near; lia). destruct (Z.leb_spec (off + sg_len g) (off + sg_len c)); [|lia].
  apply (covered_ok hi off l _ (off + Z.max 1 (sg_len g))); [|lia|lia|done|].
  - destruct (has_fin g) eqn:Efg; [|done]. apply piece_set_fin; [done|]. pose proof (pc_fin _ _ Hg Efg). destruct (pc_range _ _ Hc). lia.
  - destruct (has_fin g) eqn:Efg; [by intros _; apply Hgf|congruence].
Qed.

Lemma realloc_fin k g : has_fin (seg_realloc k g) = has_fin g.
Proof. done. Qed.

(** The segment in front of the new one. *)
Lemma trim_before_ok g o off :
  piece_at g o -> has_fin g = false -> o < off <= o + 2 ^ 29 ->
  piece_at (trim_before (u32 (b + off)) g) o /\ o + Z.max 1 (sg_len (trim_before (u32 (b + off)) g)) <= Z.max off (o + 1) /\
  has_fin (trim_before (u32 (b + off)) g) = false.
Proof.
  intros Hg Hf Ho. destruct (pc_len _ _ Hg). unfold trim_before. rewrite (piece_end g o) by done. rewrite seq_gt by (unfold near; lia).
  destruct (Z.ltb_spec off (o + sg_len g)); [|split_and!; [done|lia|done]].
  rewrite (pc_seqno _ _ Hg), u16_diff by lia. replace (b + off - (b + o)) with (off - o) by lia.
  split_and!; [by apply piece_cut; [|done|lia]|cbn [seg_realloc sg_len]; lia|by rewrite realloc_fin].
Qed.

(** What is left in the window of a segment that begins in it and ends behind it. *)
Lemma window_part seqno tcplen edge :
  0 < tcplen < 65536 -> TCP_SEQ_LEQ seqno (u32 (edge - 1)) = true -> TCP_SEQ_GT (u32 (tcplen + seqno)) (u32 edge) = true ->
  1 <= u32 (edge - seqno) < tcplen.
Proof.
  unfold TCP_SEQ_LEQ, TCP_SEQ_GT. rewrite Z.leb_le, Z.ltb_lt, !u32_u32. intros Ht H1 H2.
  assert (E1 : s32 (u32 seqno - u32 (edge - 1)) = s32 (1 - u32 (edge - seqno))).
  { unfold s32, u32. f_equal. replace (seqno mod 2 ^ 32 - (edge - 1) mod 2 ^ 32 + 2 ^ 31) with (seqno mod 2 ^ 32 + (2 ^ 31 - (edge - 1) mod 2 ^ 32)) by lia.
    rewrite Zplus_mod_idemp_l. replace (seqno + (2 ^ 31 - (edge - 1) mod 2 ^ 32)) with (seqno + 2 ^ 31 - (edge - 1) mod 2 ^ 32) by lia. rewrite Zminus_mod_idemp_r.
    replace (1 - (edge - seqno) mod 2 ^ 32 + 2 ^ 31) with (1 + 2 ^ 31 - (edge - seqno) mod 2 ^ 32) by lia. rewrite Zminus_mod_idemp_r. f_equal. lia. }
  assert (E2 : s32 (u32 (tcplen + seqno) - u32 edge) = s32 (tcplen - u32 (edge - seqno))).
  { unfold s32, u32. f_equal. replace ((tcplen + seqno) mod 2 ^ 32 - edge mod 2 ^ 32 + 2 ^ 31) with ((tcplen + seqno) mod 2 ^ 32 + (2 ^ 31 - edge mod 2 ^ 32)) by lia.
    rewrite Zplus_mod_idemp_l. replace (tcplen + seqno + (2 ^ 31 - edge mod 2 ^ 32)) with (tcplen + seqno + 2 ^ 31 - edge mod 2 ^ 32) by lia. rewrite Zminus_mod_idemp_r.
    replace (tcplen - (edge - seqno) mod 2 ^ 32 + 2 ^ 31) with (tcplen + 2 ^ 31 - (edge - seqno) mod 2 ^ 32) by lia. rewrite Zminus_mod_idemp_r. f_equal. lia. }
  rewrite E1 in H1. rewrite E2 in H2. pose proof (u32_range (edge - seqno)) as Hd. set (d := u32 (edge - seqno)) in *. clearbody d. clear E1 E2.
  unfold s32 in H1, H2. change (2 ^ 32) with 4294967296 in *. change (2 ^ 31) with 2147483648 in *.
  pose proof (Z.div_mod (1 - d + 2147483648) 4294967296 ltac:(lia)). pose proof (Z.mod_pos_bound (1 - d + 2147483648) 4294967296 ltac:(lia)).
  pose proof (Z.div_mod (tcplen - d + 2147483648) 4294967296 ltac:(lia)). pose proof (Z.mod_pos_bound (tcplen - d + 2147483648) 4294967296 ltac:(lia)). lia.
Qed.

Lemma trim_right_ok g o tcplen p :
  piece_at g o -> tcplen = TCP_TCPLEN g -> 0 < tcplen -> TCP_SEQ_LEQ (sg_seqno g) (u32 (rcv_nxt p + rcv_wnd p - 1)) = true -> piece_at (trim_right g tcplen p) o.
Proof.
  intros Hg Ht H0 Hw. unfold trim_right. destruct (TCP_SEQ_GT (u32 (tcplen + sg_seqno g)) (u32 (rcv_nxt p + rcv_wnd p))) eqn:E; [|done].
  rewrite (tcplen_piece g o) in Ht by done. destruct (pc_len _ _ Hg). assert (fin_len g = 0 \/ fin_len g = 1) by (unfold fin_len; destruct (has_fin g); lia).
  pose proof (window_part (sg_seqno g) tcplen (rcv_nxt p + rcv_wnd p) ltac:(lia) Hw E). rewrite u16_small by lia.
  apply piece_cut; [destruct (has_fin g); [by apply piece_clear_fin|done]|destruct (has_fin g) eqn:Ef; [apply clear_fin_off|done]|].
  assert (sg_len (if has_fin g then clear_fin g else g) = sg_len g) as -> by (by destruct (has_fin g)). lia.
Qed.

(** The segments from [prev] on, when all up to [prev] begin before [off]. *)
Definition walk_ok (hi m off : Z) (prev : option tcp_seg) (l : list tcp_seg) : Prop :=
  match prev with
  | None => queue_in hi m l
  | Some pv => exists o, m <= o < off /\ piece_at pv o /\ (has_fin pv = true -> l = []) /\ queue_in hi (o + Z.max 1 (sg_len pv)) l
  end.

Definition before (prev : option tcp_seg) : list tcp_seg := match prev with Some pv => [pv] | None => [] end.

Lemma walk_stay hi m off prev l : off <= hi -> walk_ok hi m off prev l -> queue_in hi m (before prev ++ l).
Proof. intros Hhi. destruct prev as [pv|]; [|done]. intros (o & Ho & Hp & Hf & Hq). exists o. split_and!; [lia|lia|done|done|done]. Qed.

Section walk.
  Context (copied : bool) (inseg : tcp_seg) (off tcplen : Z) (p : tcp_pcb) (hi : Z).
  Context (Hin : piece_at inseg off) (Hlen : tcplen = TCP_TCPLEN inseg) (Hpos : 0 < tcplen) (Hhi : off <= hi).
  Context (Hwnd : TCP_SEQ_LEQ (sg_seqno inseg) (u32 (rcv_nxt p + rcv_wnd p - 1)) = true).

(** What is behind [prev] can be replaced, also when [prev] is cut. *)
Lemma walk_frame m prev g l :
  walk_ok hi m off prev (g :: l) -> m <= off -> hi <= m + 2 ^ 29 ->
  exists k, m <= k /\ queue_in hi k (g :: l) /\ (forall q, queue_in hi k q -> queue_in hi m (before prev ++ q)) /\
    (forall q, queue_in hi off q -> queue_in hi m (map (trim_before (sg_seqno inseg)) (before prev) ++ q)).
Proof using Hhi Hin.
  intros Hw Hm Hlo. destruct prev as [pv|]; cbn [before map app].
  - destruct Hw as (o & Ho & Hp & Hf & Hq). assert (Hpf : has_fin pv = false) by (destruct (has_fin pv); [by specialize (Hf eq_refl)|done]).
    rewrite (pc_seqno _ _ Hin). destruct (trim_before_ok pv o off Hp Hpf ltac:(lia)) as (H1 & H2 & H3).
    exists (o + Z.max 1 (sg_len pv)). split_and!; [lia|done|..].
    + intros q Hq'. exists o. split_and!; [lia|lia|done|congruence|done].
    + intros q Hq'. exists o. split_and!; [lia|lia|done|congruence|]. eapply (queue_weaken hi hi); [done| |exact Hq']. lia.
  - exists m. split_and!; [done|done|done|]. intros q Hq. by eapply (queue_weaken hi hi).
Qed.

(** The queue stays one, and the segment is in its place. *)
Lemma oos_loop_ok : forall l prev m sackbeg, walk_ok hi m off prev l -> m <= off -> hi <= m + 2 ^ 29 ->
  queue_in hi m (oos_loop copied inseg tcplen p prev l sackbeg).1.1.
Proof using Hhi Hin Hlen Hpos Hwnd.
  induction l as [|g l IH]; intros prev m sackbeg Hw Hm Hlo; [pose proof (walk_stay hi m off prev [] Hhi Hw) as Hst; rewrite app_nil_r in Hst; exact Hst|].
  destruct (walk_frame m prev g l Hw Hm Hlo) as (k & Hk & Hq & Hput & Hcut). pose proof (walk_stay hi m off prev (g :: l) Hhi Hw) as Hstay.
  pose proof Hq as (o & Ho & Hg & Hgf & Hql). destruct (pc_len _ _ Hg). destruct (pc_len _ _ Hin).
  cbn [oos_loop]. fold (before prev). rewrite (pc_seqno _ _ Hin), (pc_seqno _ _ Hg) in *. rewrite seq_eqb by (unfold near; lia).
  destruct (Z.eqb_spec off o) as [<-|Hne].
  { destruct (Z.ltb_spec (sg_len g) (sg_len inseg)), copied; cbn [andb fst]; try done. apply Hput. eapply (queue_weaken hi hi); [done| |apply (insert_ok hi off); [done|lia| |]]; [lia| |].
    - exists off. split_and!; [lia|lia|done|done|done].
    - intros g' o' l' [= <- <-] _ _. lia. }
  set (here := match prev with Some pv => _ | None => _ end).
  assert (Ehere : here = (off <? o)).
  { unfold here. destruct prev as [pv|]; [|by rewrite seq_lt by (unfold near; lia)]. destruct Hw as (op & Hop & Hpv & _ & (o' & Ho' & Hg' & _)).
    unfold TCP_SEQ_BETWEEN. rewrite (pc_seqno _ _ Hpv), u32_add. replace (b + op + 1) with (b + (op + 1)) by lia. rewrite u32_sub. replace (b + o - 1) with (b + (o - 1)) by lia.
    rewrite seq_geq, seq_leq by (unfold near; lia). destruct (Z.leb_spec (op + 1) off), (Z.leb_spec off (o - 1)), (Z.ltb_spec off o); cbn; lia. }
  rewrite Ehere. destruct (Z.ltb_spec off o) as [Hlt|Hge].
  { destruct copied; cbn [fst]; [|done]. apply Hcut. apply insert_ok; [done|lia| |].
    - exists o. split_and!; [lia|lia|done|done|done].
    - intros g' o' l' [= <- <-] Hg' ->. pose proof (seq_eqb b o off ltac:(unfold near; lia)) as E. rewrite <- (pc_seqno _ _ Hg), <- (pc_seqno _ _ Hg'), Z.eqb_refl in E. symmetry in E. apply Z.eqb_eq in E. lia. }
  set (sackbeg' := match prev with Some pv => _ | None => _ end). clearbody sackbeg'.
  assert (Hw' : walk_ok hi k off (Some g) l). { exists o. split_and!; [lia|lia|done|done|done]. }
  destruct l as [|g' l'].
  - rewrite seq_gt by (unfold near; lia). destruct (Z.ltb_spec o off); [|lia]. destruct (has_fin g) eqn:Ef, copied; cbn [orb negb fst]; try done.
    apply Hput. destruct (trim_before_ok g o off Hg Ef ltac:(lia)) as (H1' & H2' & H3'). exists o. split_and!; [lia|lia|done|congruence|].
    exists off. split_and!; [lia|lia|by apply trim_right_ok; rewrite ?(pc_seqno _ _ Hin)|done|done].
  - specialize (IH (Some g) k sackbeg' Hw' ltac:(lia) ltac:(lia)). destruct (oos_loop copied inseg tcplen p (Some g) (g' :: l') sackbeg') as [[q n] sb]. cbn [fst] in IH |- *. by apply Hput.
Qed.

End walk.

(** ** Data in sequence *)
Lemma trim_window_ok g n p : piece_at g n -> 0 <= rcv_wnd p -> piece_at (trim_window g p) n.
Proof.
  intros Hg Hw. unfold trim_window. rewrite (tcplen_piece g n) by done. destruct (pc_len _ _ Hg). assert (fin_len g = 0 \/ fin_len g = 1) by (unfold fin_len; destruct (has_fin g); lia).
  rewrite (u16_small (sg_len g + fin_len g)) by lia. destruct (Z.ltb_spec (rcv_wnd p) (sg_len g + fin_len g)); [|done].
  set (g' := if has_fin g then clear_fin g else g). assert (Hg' : piece_at g' n) by (unfold g'; destruct (has_fin g); [by apply piece_clear_fin|done]).
  assert (Hf' : has_fin g' = false) by (unfold g'; destruct (has_fin g) eqn:E; [apply clear_fin_off|done]). unfold cut_to. rewrite (pc_syn _ _ Hg'), u16_small by lia.
  apply piece_cut; [done|done|]. assert (sg_len g' = sg_len g) as -> by (unfold g'; by destruct (has_fin g)). lia.
Qed.

Lemma tcplen_u16 g o : piece_at g o -> u16 (TCP_TCPLEN g) = sg_len g + fin_len g /\ (fin_len g = 0 \/ fin_len g = 1).
Proof.
  intros Hg. rewrite (tcplen_piece g o) by done. destruct (pc_len _ _ Hg). assert (fin_len g = 0 \/ fin_len g = 1) by (unfold fin_len; destruct (has_fin g); lia).
  rewrite u16_small by lia. done.
Qed.

Definition cut_inseq (c : tcp_seg) (l : list tcp_seg) : tcp_seg :=
  match l with
  | next :: _ => if TCP_SEQ_GT (u32 (sg_seqno c + u16 (TCP_TCPLEN c))) (sg_seqno next) then cut_to (sg_seqno next - sg_seqno c) c else c
  | [] => c
  end.

Lemma drop_covered_ok hi n : forall l c m,
  piece_at c n -> n <= hi <= n + 2 ^ 29 -> n < m -> queue_in hi m l -> (has_fin c = true -> l = []) ->
  let '(c', l') := drop_covered c l in
  piece_at (cut_inseq c' l') n /\ (has_fin (cut_inseq c' l') = true -> l' = []) /\ queue_in hi (n + sg_len (cut_inseq c' l')) l'.
Proof.
  induction l as [|g l IH]; intros c m Hc Hhi Hm Hq Hf; cbn [drop_covered].
  { done. }
  destruct Hq as (o & Ho & Hg & Hgf & Hq). destruct (pc_len _ _ Hc). destruct (pc_len _ _ Hg).
  assert (Hcf : has_fin c = false) by (destruct (has_fin c); [by specialize (Hf eq_refl)|done]). destruct (tcplen_u16 c n Hc) as [Et _]. unfold fin_len in Et. rewrite Hcf, Z.add_0_r in Et.
  rewrite Et, (piece_end c n), (piece_end g o) by done. rewrite seq_geq by (unfold near; lia). rewrite (pc_syn _ _ Hc), andb_true_r.
  destruct (Z.leb_spec (o + sg_len g) (n + sg_len c)) as [Hcov|Hnc].
  - apply (IH _ (o + Z.max 1 (sg_len g))); [|done|lia|done|].
    + destruct (has_fin g) eqn:Efg; [|done]. apply piece_set_fin; [done|]. pose proof (pc_fin _ _ Hg Efg). destruct (pc_range _ _ Hc). lia.
    + destruct (has_fin g) eqn:Efg; [by intros _; apply Hgf|]. intros Hx. by specialize (Hf Hx).
  - cbn [cut_inseq]. rewrite Et, (piece_end c n) by done. rewrite (pc_seqno _ _ Hg), seq_gt by (unfold near; lia).
    destruct (Z.ltb_spec o (n + sg_len c)) as [Hlap|Hno].
    + unfold cut_to. rewrite (pc_syn _ _ Hc), (pc_seqno _ _ Hc), u16_diff by lia. replace (b + o - (b + n)) with (o - n) by lia.
      split_and!; [by apply piece_cut; [|done|lia]|rewrite realloc_fin; congruence|]. cbn [seg_realloc sg_len]. exists o. split_and!; [lia|lia|done|done|done].
    + split_and!; [done|congruence|]. exists o. split_and!; [lia|lia|done|done|done].
Qed.

(** What of the segment is new, and what the queue has behind it. *)
Lemma trim_ooseq_ok hi n g l :
  piece_at g n -> n <= hi <= n + 2 ^ 29 -> queue_in hi (n + 1) l ->
  let '(g', l') := trim_ooseq g l in
  piece_at g' n /\ (has_fin g' = true -> l' = []) /\ queue_in hi (n + sg_len g') l'.
Proof.
  intros Hg Hhi Hq. unfold trim_ooseq. destruct (has_fin g) eqn:Ef; [done|].
  pose proof (drop_covered_ok hi n l g (n + 1) Hg Hhi ltac:(lia) Hq ltac:(congruence)) as H. destruct (drop_covered g l) as [c' l']. by destruct l'.
Qed.

(** ** What has been received *)

(** The state after the first [n] sequence numbers of the stream, FIN included. *)
Record in_stream (n : Z) (t : tcp_in) : Prop := InStream {
  is_n : 0 <= n <= zlen S + 1;
  is_nxt : rcv_nxt (ti_pcb t) = u32 (b + n);
  is_wnd : 0 <= rcv_wnd (ti_pcb t);
}.

(** What the application gets between two states. *)
Definition got (n n' : Z) : list Z := bytes_of (Z.min n (zlen S)) (Z.min n' (zlen S)).

Definition got_fin (t : tcp_in) : bool := negb (recv_flags t .& TF_GOT_FIN =? 0).

Lemma got_app n n' n'' : 0 <= n -> n <= n' <= n'' -> got n n' ++ got n' n'' = got n n''.
Proof. intros. unfold got. pose proof (zlen_nonneg S). apply bytes_app; lia. Qed.

Lemma ann_wnd_keeps p : rcv_nxt (tcp_update_rcv_ann_wnd p).2 = rcv_nxt p /\ rcv_wnd (tcp_update_rcv_ann_wnd p).2 = rcv_wnd p /\
  ooseq (tcp_update_rcv_ann_wnd p).2 = ooseq p /\ state (tcp_update_rcv_ann_wnd p).2 = state p.
Proof. unfold tcp_update_rcv_ann_wnd. destruct (TCP_SEQ_GEQ _ _); [done|]. by destruct (TCP_SEQ_GT _ _). Qed.

Lemma advance_nxt seqno k p : rcv_nxt (advance seqno k p) = u32 (seqno + k) /\ 0 <= rcv_wnd (advance seqno k p).
Proof. unfold advance. destruct (ann_wnd_keeps (set_rcv_wnd (u32 (rcv_wnd p - k)) (set_rcv_nxt (u32 (seqno + k)) p))) as (-> & -> & _). cbn. split; [done|]. apply u32_range. Qed.

Lemma gf_set t f : got_fin (set_recv_flags (f .| TF_GOT_FIN) t) = true.
Proof. unfold got_fin. cbn. apply negb_true_iff, Z.eqb_neq. rewrite Z.land_lor_distr_l. change (Z.land TF_GOT_FIN TF_GOT_FIN) with 32. intros H%Z.lor_eq_0_iff. lia. Qed.

(** One segment that is next: its data goes up, and the state moves on. *)
Lemma take_piece g n t d before' :
  in_stream n t -> piece_at g n -> default [] (recv_data t) = before' -> before' = d ->
  let t' := pass_data before' g (on_pcb (advance (rcv_nxt (ti_pcb t)) (sg_len g + fin_len g)) t) in
  in_stream (n + sg_len g + fin_len g) t' /\ default [] (recv_data t') = d ++ got n (n + sg_len g + fin_len g) /\
  (n <= zlen S) /\ got_fin t' = got_fin t || has_fin g.
Proof.
  intros [Hn Hnx Hw] Hg Hd <- t'. destruct (pc_len _ _ Hg). destruct (pc_range _ _ Hg). destruct (advance_nxt (rcv_nxt (ti_pcb t)) (sg_len g + fin_len g) (ti_pcb t)) as [E1 E2].
  assert (Efin : fin_len g = 0 \/ fin_len g = 1 /\ n + sg_len g = zlen S) by (unfold fin_len; destruct (has_fin g) eqn:Ef; [right; split; [done|by apply (pc_fin _ _ Hg)]|by left]).
  assert (Epcb : ti_pcb t' = advance (rcv_nxt (ti_pcb t)) (sg_len g + fin_len g) (ti_pcb t)) by (unfold t', pass_data; destruct (0 <? _), (has_fin g); done).
  assert (Ed : default [] (recv_data t') = before' ++ sg_data g).
  { unfold t', pass_data. rewrite (pc_data _ _ Hg), bytes_len by lia. destruct (Z.ltb_spec 0 (n + sg_len g - n)) as [|Hz]; [by destruct (has_fin g)|].
    assert (bytes_of n (n + sg_len g) = []) as ->.
    { unfold bytes_of. replace (n + sg_len g - n) with 0 by lia. done. }
    rewrite app_nil_r. by destruct (has_fin g). }
  split_and!.
  - split; [lia| |by rewrite Epcb]. rewrite Epcb, E1, Hnx, u32_add. f_equal. lia.
  - rewrite Ed, (pc_data _ _ Hg). f_equal. unfold got. f_equal; lia.
  - lia.
  - unfold t', pass_data. destruct (0 <? _), (has_fin g); rewrite ?gf_set, ?orb_true_r, ?orb_false_r; done.
Qed.

Lemma got_self n : got n n = [].
Proof. unfold got, bytes_of. by rewrite Z.sub_diag. Qed.

(** FIN is reported when its sequence number is passed. *)
Definition fin_between (n n' : Z) : bool := (n <=? zlen S) && (n' =? zlen S + 1).

Lemma fin_between_self n : fin_between n n = false.
Proof. unfold fin_between. destruct (Z.leb_spec n (zlen S)), (Z.eqb_spec n (zlen S + 1)); cbn; lia. Qed.

Lemma fin_step g n n' : piece_at g n -> n + sg_len g + fin_len g <= n' <= zlen S + 1 -> has_fin g || fin_between (n + sg_len g + fin_len g) n' = fin_between n n'.
Proof.
  intros Hg Hn. destruct (pc_range _ _ Hg). destruct (pc_len _ _ Hg). unfold fin_between, fin_len in *. destruct (has_fin g) eqn:Ef; cbn [orb].
  - pose proof (pc_fin _ _ Hg Ef). destruct (Z.leb_spec n (zlen S)), (Z.eqb_spec n' (zlen S + 1)); cbn; lia.
  - destruct (Z.leb_spec n (zlen S)), (Z.leb_spec (n + sg_len g + 0) (zlen S)), (Z.eqb_spec n' (zlen S + 1)); cbn; lia.
Qed.

Lemma drain_ok hi : forall l t n, in_stream n t -> queue_in hi n l -> n <= hi <= n + 2 ^ 29 ->
  exists n', n <= n' /\ in_stream n' (drain l t) /\ queue_in (Z.max hi n') (n' + 1) (ooseq (ti_pcb (drain l t))) /\
    default [] (recv_data (drain l t)) = default [] (recv_data t) ++ got n n' /\ got_fin (drain l t) = got_fin t || fin_between n n'.
Proof.
  induction l as [|g l IH]; intros t n Ht Hq Hhi; cbn [drain].
  { exists n. rewrite got_self, app_nil_r, fin_between_self, orb_false_r. destruct Ht. split_and!; [lia|done|done|done|done]. }
  destruct Hq as (o & Ho & Hg & Hgf & Hq). rewrite (pc_seqno _ _ Hg), (is_nxt _ _ Ht), seq_eqb by (unfold near; lia). destruct (Z.eqb_spec o n) as [->|Hne].
  - destruct (take_piece g n t _ _ Ht Hg eq_refl eq_refl) as (H1 & H2 & HnS & H4). rewrite (tcplen_piece g n) by done. destruct (pc_len _ _ Hg). destruct (pc_range _ _ Hg).
    rewrite (is_nxt _ _ Ht) in H1, H2, H4. set (t1 := pass_data _ g _) in *.
    set (t2 := if has_fin g && _ then on_pcb (set_state CLOSE_WAIT) t1 else t1).
    assert (Hk2 : in_stream (n + sg_len g + fin_len g) t2 /\ recv_data t2 = recv_data t1 /\ got_fin t2 = got_fin t1).
    { unfold t2. destruct (has_fin g && _); [|done]. destruct H1. split_and!; [done|done|done]. }
    destruct Hk2 as (K1 & K2 & K3). assert (Hfl : fin_len g = 0 \/ fin_len g = 1 /\ l = [] /\ n + sg_len g = zlen S).
    { unfold fin_len. destruct (has_fin g) eqn:Ef; [right|by left]. split_and!; [done|by apply Hgf|by apply (pc_fin _ _ Hg)]. }
    destruct (decide (n + sg_len g + fin_len g <= hi)) as [Hle|Hgt].
    + destruct (IH t2 (n + sg_len g + fin_len g) K1) as (n' & Hn' & I1 & I2 & I3 & I4); [|lia|].
      { destruct Hfl as [->|(_ & -> & _)]; [|done]. eapply (queue_weaken hi hi); [lia| |exact Hq]. lia. }
      exists n'. split_and!; [lia|exact I1|exact I2| |].
      * rewrite I3, K2, H2, <- app_assoc. f_equal. apply got_app; lia.
      * rewrite I4, K3, H4, <- orb_assoc. f_equal. apply fin_step; [done|destruct I1; lia].
    + assert (l = []) as ->.
      { destruct l as [|g' l']; [done|]. destruct Hfl as [E0|(_ & ? & _)]; [|done]. destruct Hq as (o' & Ho' & _). lia. }
      cbn [drain]. exists (n + sg_len g + fin_len g). split_and!; [unfold fin_len; destruct (has_fin g); lia|by destruct K1|done| |].
      * change (default [] (recv_data t2) = default [] (recv_data t) ++ got n (n + sg_len g + fin_len g)). by rewrite K2, H2.
      * change (got_fin t2 = got_fin t || fin_between n (n + sg_len g + fin_len g)). rewrite K3, H4. f_equal. rewrite <- (fin_step g n) by (done || (destruct K1; lia)). by rewrite fin_between_self, orb_false_r.
  - exists n. rewrite got_self, app_nil_r, fin_between_self, orb_false_r. destruct Ht. split_and!; [lia|done| |done|done].
    cbn. rewrite Z.max_l by lia. exists o. split_and!; [lia|lia|done|done|done].
Qed.

(** ** One segment *)

(** How far segments may be from what is expected. *)
Definition reach : Z := 2 ^ 28.

Record stream_ok (n : Z) (t : tcp_in) : Prop := StreamOk {
  so_in : in_stream n t;
  so_queue : queue_in (n + reach) (n + 1) (ooseq (ti_pcb t));
}.

(** What the ACKs and SACKs leave alone. *)
Definition same_data (t t' : tcp_in) : Prop :=
  rcv_nxt (ti_pcb t') = rcv_nxt (ti_pcb t) /\ rcv_wnd (ti_pcb t') = rcv_wnd (ti_pcb t) /\ ooseq (ti_pcb t') = ooseq (ti_pcb t) /\
  recv_data t' = recv_data t /\ recv_flags t' = recv_flags t.

#[local] Instance same_data_refl : Reflexive same_data.
Proof. done. Qed.

#[local] Instance same_data_trans : Transitive same_data.
Proof. intros t1 t2 t3 (? & ? & ? & ? & ?) (? & ? & ? & ? & ?). unfold same_data. split_and!; congruence. Qed.

Lemma same_data_in n t t' : same_data t t' -> in_stream n t -> in_stream n t'.
Proof. intros (H1 & H2 & _) []. split; congruence. Qed.

Lemma same_data_ok n t t' : same_data t t' -> stream_ok n t -> stream_ok n t'.
Proof. intros Hs [H1 H2]. split; [by eapply same_data_in|]. destruct Hs as (_ & _ & -> & _). done. Qed.

Lemma empty_ack_same t : same_data t (tcp_send_empty_ack t).2.
Proof. unfold tcp_send_empty_ack, next_send. destruct (ti_sends t) as [|[e|] r]; try done. by destruct (e =? ERR_OK). Qed.

Lemma ack_same t : same_data t (on_pcb tcp_ack t).
Proof. unfold tcp_ack, on_pcb. by destruct (negb _). Qed.

Lemma ack_now_same t : same_data t (on_pcb tcp_ack_now t).
Proof. done. Qed.

Lemma add_sack_keeps l r p : rcv_nxt (tcp_add_sack l r p) = rcv_nxt p /\ rcv_wnd (tcp_add_sack l r p) = rcv_wnd p /\ ooseq (tcp_add_sack l r p) = ooseq p.
Proof. unfold tcp_add_sack. destruct (_ || _); [done|]. by destruct (sack_sweep _ _ _ _ _). Qed.

Lemma remove_sacks_keeps q p : rcv_nxt (tcp_remove_sacks_lt q p) = rcv_nxt p /\ rcv_wnd (tcp_remove_sacks_lt q p) = rcv_wnd p /\ ooseq (tcp_remove_sacks_lt q p) = ooseq p.
Proof. unfold tcp_remove_sacks_lt. by destruct (sack_sweep _ _ _ _ _). Qed.

Lemma sacks_inseq_same t : same_data t (on_pcb sacks_inseq t).
Proof.
  unfold sacks_inseq, on_pcb. destruct (negb _); [|done]. destruct (ooseq (ti_pcb t)) as [|g l] eqn:E; [by destruct (LWIP_TCP_SACK_VALID _ _)|].
  destruct (remove_sacks_keeps (sg_seqno g) (ti_pcb t)) as (H1 & H2 & H3). unfold same_data. cbn. by rewrite H1, H2, H3.
Qed.

Lemma sacks_oos_keeps k sb p : rcv_nxt (sacks_oos k sb p) = rcv_nxt p /\ rcv_wnd (sacks_oos k sb p) = rcv_wnd p /\ ooseq (sacks_oos k sb p) = ooseq p.
Proof. unfold sacks_oos. destruct (negb _); [|done]. destruct (drop k (ooseq p)); [done|]. apply add_sack_keeps. Qed.

Lemma receive_inseq_ok g n t :
  stream_ok n t -> recv_data t = None -> piece_at g n ->
  exists n', n <= n' /\ stream_ok n' (receive_inseq g t) /\ default [] (recv_data (receive_inseq g t)) = got n n' /\
    got_fin (receive_inseq g t) = got_fin t || fin_between n n'.
Proof.
  intros [Ht Hq] Hd Hg. unfold receive_inseq. pose proof (trim_window_ok g n (ti_pcb t) Hg (is_wnd _ _ Ht)) as Hg1. set (g1 := trim_window g (ti_pcb t)) in *. unfold reach in *.
  assert (Hcut : let '(g2, l) := match ooseq (ti_pcb t) with [] => (g1, []) | _ => trim_ooseq g1 (ooseq (ti_pcb t)) end in
    piece_at g2 n /\ (has_fin g2 = true -> l = []) /\ queue_in (n + 2 ^ 28) (n + sg_len g2) l).
  { pose proof (trim_ooseq_ok (n + 2 ^ 28) n g1 (ooseq (ti_pcb t)) Hg1 ltac:(lia) Hq) as H. by destruct (ooseq (ti_pcb t)). }
  assert (Em : match ooseq (ti_pcb t) with [] => (g1, []) | (_ :: _) as l => trim_ooseq g1 l end = match ooseq (ti_pcb t) with [] => (g1, []) | _ => trim_ooseq g1 (ooseq (ti_pcb t)) end)
    by (by destruct (ooseq (ti_pcb t))).
  rewrite Em. destruct (match ooseq (ti_pcb t) with [] => _ | _ => _ end) as [g2 l]. destruct Hcut as (Hg2 & Hf2 & Hl).
  destruct (tcplen_u16 g2 n Hg2) as [-> Hfl]. rewrite (pc_seqno _ _ Hg2), <- (is_nxt _ _ Ht).
  destruct (take_piece g2 n t [] [] Ht Hg2 ltac:(by rewrite Hd) eq_refl) as (H1 & H2 & _ & H4). set (t1 := pass_data [] g2 _) in *. cbn [app] in H2.
  destruct (pc_len _ _ Hg2). set (n1 := n + sg_len g2 + fin_len g2) in *.
  assert (Hl1 : queue_in (n + 2 ^ 28) n1 l).
  { destruct (has_fin g2) eqn:Ef; [by rewrite Hf2|]. unfold n1, fin_len. rewrite Ef, Z.add_0_r. done. }
  destruct (drain_ok (n + 2 ^ 28) l t1 n1 H1 Hl1 ltac:(lia)) as (n' & Hn' & I1 & I2 & I3 & I4). set (t2 := drain l t1) in *.
  assert (Hs : same_data t2 (let t := on_pcb tcp_ack (on_pcb sacks_inseq t2) in if LWIP_TCP_SACK_VALID (ti_pcb t) 0 then (tcp_send_empty_ack t).2 else t)).
  { cbv zeta. etrans; [apply sacks_inseq_same|]. etrans; [apply ack_same|]. destruct (LWIP_TCP_SACK_VALID _ _); [apply empty_ack_same|done]. }
  cbv zeta in Hs. set (t3 := if LWIP_TCP_SACK_VALID _ _ then _ else _) in *. exists n'. split_and!; [lia| | |].
  - apply (same_data_ok n' t2 t3 Hs). split; [done|]. apply (queue_weaken (Z.max (n + 2 ^ 28) n') (n' + reach) (n' + 1) (n' + 1)); [unfold reach; lia|lia|done].
  - destruct Hs as (_ & _ & _ & -> & _). rewrite I3, H2. destruct Ht. apply got_app; lia.
  - unfold got_fin in *. destruct Hs as (_ & _ & _ & _ & ->). rewrite I4, H4, <- orb_assoc. f_equal. apply fin_step; [done|destruct I1; lia].
Qed.

Lemma receive_oos_ok copied g off tcplen n t :
  stream_ok n t -> piece_at g off -> tcplen = TCP_TCPLEN g -> 0 < tcplen -> n < off <= n + reach ->
  TCP_SEQ_LEQ (sg_seqno g) (u32 (rcv_nxt (ti_pcb t) + rcv_wnd (ti_pcb t) - 1)) = true ->
  stream_ok n (receive_oos copied g tcplen t) /\ recv_data (receive_oos copied g tcplen t) = recv_data t /\ recv_flags (receive_oos copied g tcplen t) = recv_flags t.
Proof.
  intros [Ht Hq] Hg Hlen Hpos Hoff Hw. unfold receive_oos, reach in *.
  set (p := match ooseq (ti_pcb t) with [] => _ | _ => _ end).
  assert (Hp : rcv_nxt p = rcv_nxt (ti_pcb t) /\ rcv_wnd p = rcv_wnd (ti_pcb t) /\ queue_in (n + 2 ^ 28) (n + 1) (ooseq p)).
  { unfold p. destruct (ooseq (ti_pcb t)) as [|g0 l] eqn:Eq.
    - destruct copied, (negb _); split_and!; try done; exists off; split_and!; try done; lia.
    - set (sb := if TCP_SEQ_LT _ _ then _ else _).
      pose proof (oos_loop_ok copied g off tcplen (ti_pcb t) (n + 2 ^ 28) Hg Hlen Hpos ltac:(lia) Hw (g0 :: l) None (n + 1) sb Hq ltac:(lia) ltac:(lia)) as HL.
      destruct (oos_loop copied g tcplen (ti_pcb t) None (g0 :: l) sb) as [[q k] sb']. destruct (sacks_oos_keeps k sb' (set_ooseq q (ti_pcb t))) as (-> & -> & ->). done. }
  destruct Hp as (P1 & P2 & P3). pose proof (empty_ack_same (set_ti_pcb p t)) as Hs. assert (Hok : stream_ok n (set_ti_pcb p t)).
  { clearbody p. split; [|done]. destruct Ht. split; cbn [ti_pcb set_ti_pcb]; [done|by rewrite P1|by rewrite P2]. }
  split; [by eapply same_data_ok|]. destruct Hs as (_ & _ & _ & -> & ->). done.
Qed.

Lemma trim_front_ok g off n t :
  in_stream n t -> piece_at g off -> n - reach <= off <= n + reach -> 0 < u16 (TCP_TCPLEN g) ->
  let '(g', p) := trim_front g (u16 (TCP_TCPLEN g)) (ti_pcb t) in
  rcv_nxt p = rcv_nxt (ti_pcb t) /\ rcv_wnd p = rcv_wnd (ti_pcb t) /\ ooseq p = ooseq (ti_pcb t) /\
  ((g' = g) \/ piece_at g' n).
Proof.
  intros Ht Hg Hoff Hpos. destruct (tcplen_u16 g off Hg) as [Et Hfl]. rewrite Et in *. destruct (pc_len _ _ Hg). destruct (pc_range _ _ Hg). unfold trim_front, TCP_SEQ_BETWEEN, reach in *. rewrite (is_nxt _ _ Ht), (pc_seqno _ _ Hg).
  rewrite u32_add. replace (b + off + 1) with (b + (off + 1)) by lia. replace (u32 (b + off) + (sg_len g + fin_len g) - 1) with (u32 (b + off) + (sg_len g + fin_len g - 1)) by lia. rewrite u32_add.
  replace (b + off + (sg_len g + fin_len g - 1)) with (b + (off + (sg_len g + fin_len g - 1))) by lia. rewrite seq_geq, seq_leq by (unfold near; lia).
  destruct (Z.leb_spec (off + 1) n), (Z.leb_spec n (off + (sg_len g + fin_len g - 1))); cbn [andb].
  all: try (destruct (TCP_SEQ_LT (u32 (b + off)) (u32 (b + n))); split_and!; try done; try (by apply (is_nxt _ _ Ht)); by left).
  split_and!; [by apply (is_nxt _ _ Ht)|done|done|]. right. set (k := u16 (u32 (u32 (b + n) - u32 (b + off)))).
  assert (Ek : k = n - off).
  { unfold k. rewrite u32_sub. replace (b + n - u32 (b + off)) with (- u32 (b + off) + (b + n)) by lia. unfold u32 at 1. rewrite <- Zplus_mod_idemp_r. fold (u32 (b + n)).
    replace (- u32 (b + off) + u32 (b + n)) with (u32 (b + n) - u32 (b + off)) by lia. unfold u16. rewrite Z.mod_mod_divide by (exists (2 ^ 16); done). change (u16 (u32 (b + n) - u32 (b + off)) = n - off).
    rewrite u16_diff by lia. lia. }
  rewrite Ek. rewrite (u16_small (sg_len g - (n - off))) by lia. destruct Hg as [G1 G2 G3 G4 G5 G6]. split; cbn [sg_seqno sg_len sg_data]; [done|lia|lia| |done|].
  - rewrite G4, bytes_drop by lia. f_equal; lia.
  - intros Hx. specialize (G6 Hx). lia.
Qed.

(** Any segment of the stream that is not too far away. *)
Lemma receive_data_ok copied g off n t :
  stream_ok n t -> recv_data t = None -> piece_at g off -> n - reach <= off <= n + reach ->
  exists n', n <= n' /\ stream_ok n' (tcp_receive_data copied g t) /\ default [] (recv_data (tcp_receive_data copied g t)) = got n n' /\
    got_fin (tcp_receive_data copied g t) = got_fin t || fin_between n n'.
Proof.
  intros Hok Hd Hg Hoff. unfold tcp_receive_data.
  assert (Hstay : forall t', same_data t t' -> exists n', n <= n' /\ stream_ok n' t' /\ default [] (recv_data t') = got n n' /\ got_fin t' = got_fin t || fin_between n n').
  { intros t' Hs. exists n. rewrite got_self, fin_between_self, orb_false_r. split_and!; [lia|by eapply same_data_ok|..]; destruct Hs as (_ & _ & _ & Hs1 & Hs2); [by rewrite Hs1, Hd|unfold got_fin; by rewrite Hs2]. }
  destruct ((0 <? u16 (TCP_TCPLEN g)) && (state (ti_pcb t) <? CLOSE_WAIT)) eqn:Ec; [|destruct (negb _); apply Hstay; [apply ack_now_same|done]].
  apply andb_true_iff in Ec as [Hpos%Z.ltb_lt _]. pose proof (trim_front_ok g off n t (so_in _ _ Hok) Hg Hoff Hpos) as HT.
  destruct (trim_front g (u16 (TCP_TCPLEN g)) (ti_pcb t)) as [g' p]. destruct HT as (T1 & T2 & T3 & T4).
  assert (Hok' : stream_ok n (set_ti_pcb p t)).
  { destruct Hok as [[I1 I2 I3] I4]. split; [split|]; cbn; [done|congruence|congruence|by rewrite T3]. }
  assert (Hoff' : exists off', piece_at g' off' /\ n - reach <= off' <= n + reach /\ (off' = n \/ g' = g)).
  { destruct T4 as [->|Hg']; [exists off; auto|exists n; split_and!; [done|unfold reach; lia|unfold reach; lia|by left]]. }
  destruct Hoff' as (off' & Hg' & Ho' & Hcase). pose proof (is_nxt _ _ (so_in _ _ Hok')) as Hnx. cbn in Hnx.
  destruct (TCP_SEQ_BETWEEN (sg_seqno g') (rcv_nxt p) (u32 (rcv_nxt p + rcv_wnd p - 1))) eqn:Eb.
  2: { apply Hstay. etrans; [|apply empty_ack_same]. unfold same_data. cbn. by rewrite T1, T2, T3. }
  unfold TCP_SEQ_BETWEEN in Eb. apply andb_true_iff in Eb as [Eg El]. rewrite Hnx, (pc_seqno _ _ Hg'), seq_geq in Eg by (unfold near, reach in *; lia). apply Z.leb_le in Eg.
  rewrite (pc_seqno _ _ Hg'), Hnx, seq_eqb by (unfold near, reach in *; lia). destruct (Z.eqb_spec n off') as [<-|Hne].
  - apply (receive_inseq_ok g' n (set_ti_pcb p t)); done.
  - destruct Hcase as [->| ->]; [done|]. destruct (tcplen_u16 g off' Hg') as [Et _]. rewrite <- (tcplen_piece g off') in Et by done. rewrite Et in *.
    destruct (receive_oos_ok copied g off' (TCP_TCPLEN g) n (set_ti_pcb p t) Hok' Hg' eq_refl Hpos ltac:(lia) El) as (R1 & R2 & R3).
    exists n. rewrite got_self, fin_between_self, orb_false_r. split_and!; [lia|done|by rewrite R2; cbn; rewrite Hd|unfold got_fin; by rewrite R3].
Qed.
End stream.
