(* ===== verification/TcpConn.v ===== *)
(** A TCP connection and its application: the data that the callbacks accept is the
    stream of the peer, whatever happens on the way. *)
From S2P Require Import Prelude Bits Def Pbuf TcpIn TcpOut TcpProcess TcpTmr TcpStream.

(** ** What output and acknowledgements leave alone *)
Record same_rcv (t t' : tcp_in) : Prop := SameRcv {
  sr_nxt : rcv_nxt (ti_pcb t') = rcv_nxt (ti_pcb t);
  sr_wnd : 0 <= rcv_wnd (ti_pcb t) -> 0 <= rcv_wnd (ti_pcb t');
  sr_ooseq : ooseq (ti_pcb t') = ooseq (ti_pcb t);
  sr_refused : refused_data (ti_pcb t') = refused_data (ti_pcb t);
  sr_state : state (ti_pcb t') = state (ti_pcb t);
  sr_data : recv_data t' = recv_data t;
  sr_flags : recv_flags t' = recv_flags t;
  sr_events : ti_events t' = ti_events t;
}.

#[export] Instance same_rcv_refl : Reflexive same_rcv.
Proof. done. Qed.

#[export] Instance same_rcv_trans : Transitive same_rcv.
Proof. intros t1 t2 t3 [] []. split; try congruence; auto. Qed.

(** A change to the PCB that leaves the receiver's fields alone. *)
Definition snd_only (f : tcp_pcb -> tcp_pcb) : Prop := forall p,
  rcv_nxt (f p) = rcv_nxt p /\ rcv_wnd (f p) = rcv_wnd p /\ ooseq (f p) = ooseq p /\ refused_data (f p) = refused_data p /\ state (f p) = state p.

Lemma snd_only_same f t : snd_only f -> same_rcv t (on_pcb f t).
Proof. intros Hf. destruct (Hf (ti_pcb t)) as (H1 & H2 & H3 & H4 & H5). split; cbn; try done. by rewrite H2. Qed.

Lemma snd_only_comp f g : snd_only f -> snd_only g -> snd_only (fun p => f (g p)).
Proof. intros Hf Hg p. destruct (Hf (g p)) as (-> & -> & -> & -> & ->). apply Hg. Qed.

Lemma snd_only_set s : snd_only (set_p_snd s).
Proof. done. Qed.

Lemma snd_only_snd f : snd_only (on_snd f).
Proof. done. Qed.

Lemma snd_only_flags f : snd_only (tcp_set_flags f) /\ snd_only (tcp_clear_flags f).
Proof. done. Qed.

Lemma next_send_same t : same_rcv t (next_send t).2.
Proof. unfold next_send. by destruct (ti_sends t). Qed.

Lemma empty_ack_rcv t : same_rcv t (tcp_send_empty_ack t).2.
Proof. unfold tcp_send_empty_ack, next_send. destruct (ti_sends t) as [|[e|] r]; try done. by destruct (e =? ERR_OK). Qed.

Lemma rst_rcv x y t : same_rcv t (tcp_rst x y t).
Proof. unfold tcp_rst, next_send. by destruct (ti_sends t) as [|[e|] r]. Qed.

Lemma output_segment_rcv e g t : same_rcv t (tcp_output_segment e g t).2.
Proof.
  unfold tcp_output_segment. destruct (sg_busy g); [done|]. cbv zeta. set (p := if rttest _ =? 0 then _ else _).
  assert (H : same_rcv t (set_ti_pcb p t)). { unfold p. by destruct (rtime _ <? 0), (rttest _ =? 0). }
  clearbody p. etrans; [exact H|]. pose proof (next_send_same (set_ti_pcb p t)) as H'. destruct (next_send (set_ti_pcb p t)) as [r t']. etrans; [exact H'|]. done.
Qed.

Lemma segment_sent_snd g l : snd_only (segment_sent g l).
Proof. intros p. unfold segment_sent. cbv zeta. destruct (0 <? _), (negb _); cbn [p_snd on_snd set_p_snd]; destruct (TCP_SEQ_LT _ _); done. Qed.

Lemma output_done_rcv t : same_rcv t (output_done t).2.
Proof. done. Qed.

Lemma output_end_rcv t : same_rcv t (output_end t).2.
Proof. unfold output_end. etrans; [|apply output_done_rcv]. apply snd_only_same. intros p. by destruct (unsent _). Qed.

Lemma output_loop_rcv e wnd : forall l t, same_rcv t (output_loop e wnd l t).2.
Proof.
  induction l as [|g l IH]; intros t; cbn [output_loop]; [apply output_end_rcv|]. destruct (fits _ _ _); [|apply output_end_rcv]. destruct (_ && _); [apply output_end_rcv|].
  set (g' := if negb _ then set_ack g else g). pose proof (output_segment_rcv e g' (on_pcb (on_snd (set_unsent (g' :: l))) t)) as H.
  destruct (tcp_output_segment e g' _) as [err t1]. cbn [snd] in H. assert (H1 : same_rcv t t1) by (etrans; [|exact H]; apply snd_only_same, snd_only_snd).
  etrans; [exact H1|]. destruct (negb (err =? ERR_OK)); [done|]. etrans; [|apply IH]. apply snd_only_same, segment_sent_snd.
Qed.

Lemma output_rcv e t : same_rcv t (tcp_output e t).2.
Proof.
  unfold tcp_output. destruct (te_input e); [done|]. cbv zeta. destruct (unsent _) as [|g l] eqn:Eu; [destruct (negb _); [apply empty_ack_rcv|apply output_done_rcv]|].
  destruct (te_route e); [|done]. destruct (negb (te_local e)); [done|]. destruct (negb (fits _ _ _)).
  - set (t1 := if _ && _ then _ else _). assert (H : same_rcv t t1) by (unfold t1; by destruct (_ && _)). clearbody t1. etrans; [exact H|]. destruct (negb _); [apply empty_ack_rcv|apply output_done_rcv].
  - etrans; [|apply output_loop_rcv]. apply snd_only_same, snd_only_snd.
Qed.

(** ** Acknowledgements *)
Lemma rexmit_snd : snd_only (fun p => (tcp_rexmit p).2).
Proof. intros p. unfold tcp_rexmit. destruct (unacked _); [done|]. by destruct (sg_busy _). Qed.

Lemma rexmit_fast_snd : snd_only tcp_rexmit_fast.
Proof.
  intros p. unfold tcp_rexmit_fast. destruct (_ && _); [|done]. pose proof (rexmit_snd p) as H. cbn beta in H. destruct (tcp_rexmit p) as [err p']. cbn [snd] in H.
  destruct (err =? ERR_OK); exact H.
Qed.

Lemma update_snd_wnd_snd h : snd_only (update_snd_wnd h).
Proof. intros p. unfold update_snd_wnd. by destruct (_ || _). Qed.

Lemma dupack_snd h w : snd_only (receive_dupack h w).
Proof.
  intros p. unfold receive_dupack. destruct (_ && _); [|done]. cbv zeta. set (p1 := if dupacks _ <? _ then _ else p).
  set (p2 := if 3 <? _ then _ else p1). destruct (3 <=? _); [destruct (rexmit_fast_snd p2) as (-> & -> & -> & -> & ->)|]; unfold p2, p1; by destruct (3 <? _), (dupacks _ <? _).
Qed.

Lemma update_cwnd_snd a : snd_only (update_cwnd a).
Proof. intros p. unfold update_cwnd. destruct (_ <? _); [done|]. cbv zeta. by destruct (_ <=? _). Qed.

Lemma end_rto_snd : snd_only end_rto.
Proof. intros p. unfold end_rto. by destruct (_ && _). Qed.

Lemma newack_rcv h t : same_rcv t (receive_newack h t).
Proof.
  unfold receive_newack. cbv zeta. set (p1 := if negb _ then _ else ti_pcb t). assert (H1 : same_rcv t (set_ti_pcb p1 t)) by (unfold p1; by destruct (negb _)). clearbody p1.
  set (p2 := on_snd _ p1). assert (H2 : same_rcv t (set_ti_pcb p2 t)) by (etrans; [exact H1|]; done). clearbody p2.
  set (p3 := if _ <=? _ then _ else p2). assert (H3 : same_rcv t (set_ti_pcb p3 t)).
  { etrans; [exact H2|]. unfold p3. destruct (_ <=? _); [|done]. apply (snd_only_same (update_cwnd _) (set_ti_pcb p2 t)), update_cwnd_snd. }
  clearbody p3. destruct (tcp_free_acked_segments _ _ _ _) as [[ua ql] ra]. destruct (tcp_free_acked_segments _ _ _ _) as [[us ql'] ra']. set (s := set_snd_buf _ _). clearbody s.
  etrans; [exact H3|]. etrans; [apply (snd_only_same (fun p => end_rto (set_p_snd s p)) (set_ti_pcb p3 t)), snd_only_comp; [apply end_rto_snd|apply snd_only_set]|]. done.
Qed.

Lemma receive_ack_rcv e h t : same_rcv t (receive_ack e h t).
Proof.
  unfold receive_ack. destruct (ih_flag h TCP_ACK); [|done]. cbv zeta. etrans; [apply (snd_only_same (update_snd_wnd h)), update_snd_wnd_snd|]. set (t1 := on_pcb (update_snd_wnd h) t).
  etrans; [|apply snd_only_same, snd_only_snd]. destruct (TCP_SEQ_LEQ _ _); [apply snd_only_same, dupack_snd|]. destruct (TCP_SEQ_BETWEEN _ _ _); [apply newack_rcv|apply empty_ack_rcv].
Qed.

Lemma rexmit_rto_rcv e t : same_rcv t (tcp_rexmit_rto e t).
Proof.
  unfold tcp_rexmit_rto, tcp_rexmit_rto_prepare. destruct (last _); [|done]. destruct (existsb _ _); [done|]. cbn [Z.eqb ERR_OK]. unfold tcp_rexmit_rto_commit. etrans; [|apply output_rcv]. done.
Qed.

(** ** Callbacks *)
Lemma ann_wnd_more p : refused_data (tcp_update_rcv_ann_wnd p).2 = refused_data p.
Proof. unfold tcp_update_rcv_ann_wnd. destruct (TCP_SEQ_GEQ _ _); [done|]. by destruct (TCP_SEQ_GT _ _). Qed.

Lemma recved_rcv e len t : same_rcv t (app_recved e len t).
Proof.
  unfold app_recved, tcp_recved. cbv zeta. set (w := if _ || _ then _ else _). assert (Hw : 0 <= w).
  { unfold w. destruct (_ || _); [|apply u32_range]. unfold TCP_WND_MAX. destruct (negb _); [unfold TCP_WND; lia|]. apply u16_range. }
  pose proof (ann_wnd_keeps (set_rcv_wnd w (ti_pcb t))) as (K1 & K2 & K3 & K4). pose proof (ann_wnd_more (set_rcv_wnd w (ti_pcb t))) as K5.
  destruct (tcp_update_rcv_ann_wnd _) as [infl p]. cbn [snd] in *.
  assert (H : same_rcv t (set_ti_pcb p t)) by (split; cbn; try done; by rewrite K2). destruct (_ <=? _); [|done]. etrans; [exact H|]. etrans; [|apply output_rcv]. done.
Qed.

Lemma foldl_recved e : forall l t, same_rcv t (foldl (fun t len => app_recved e len t) t l).
Proof. induction l as [|x l IH]; intros t; [done|]. cbn [foldl]. etrans; [apply recved_rcv|apply IH]. Qed.

(** A callback only adds its event. *)
Lemma callback_rcv e ev t :
  exists err, (callback e ev t).1 = err /\ same_rcv (set_ti_events (ti_events t ++ [ev err]) t) (callback e ev t).2.
Proof.
  unfold callback. destruct (ti_app t) as [|a rest]; [by exists ERR_OK|]. exists (ac_err a). split; [done|]. cbn [snd].
  etrans; [|apply snd_only_same, snd_only_snd]. etrans; [|apply foldl_recved]. done.
Qed.

(** ** What receiving data leaves alone *)
Record kept (t t' : tcp_in) : Prop := Kept {
  kp_refused : refused_data (ti_pcb t') = refused_data (ti_pcb t);
  kp_events : ti_events t' = ti_events t;
  kp_state : state (ti_pcb t') = state (ti_pcb t) \/ state (ti_pcb t) = ESTABLISHED /\ state (ti_pcb t') = CLOSE_WAIT;
}.

#[local] Instance kept_refl : Reflexive kept.
Proof. intros t. split; [done|done|by left]. Qed.

#[local] Instance kept_trans : Transitive kept.
Proof. intros t1 t2 t3 [? ? [E1|[E1 E1']]] [? ? [E2|[E2 E2']]]; split; try congruence; try (left; congruence); right; split; congruence. Qed.

Ltac keeps := split; [done|done|by left].

Lemma same_rcv_kept t t' : same_rcv t t' -> kept t t'.
Proof. intros []. split; [done|done|by left]. Qed.

(** A change to the PCB that keeps what [kept] asks for. *)
Lemma kept_pcb f t : (forall p, refused_data (f p) = refused_data p /\ state (f p) = state p) -> kept t (on_pcb f t).
Proof. intros Hf. destruct (Hf (ti_pcb t)) as [H1 H2]. split; [done|done|by left]. Qed.

Lemma advance_kept seqno k t : kept t (on_pcb (advance seqno k) t).
Proof.
  apply kept_pcb. intros p. unfold advance. destruct (ann_wnd_keeps (set_rcv_wnd (u32 (rcv_wnd p - k)) (set_rcv_nxt (u32 (seqno + k)) p))) as (_ & _ & _ & ->).
  by rewrite ann_wnd_more.
Qed.

Lemma pass_data_kept d g t : kept t (pass_data d g t).
Proof. unfold pass_data. destruct (0 <? _), (has_fin g); keeps. Qed.

Lemma drain_kept : forall l t, kept t (drain l t).
Proof.
  induction l as [|g l IH]; intros t; cbn [drain]; [keeps|]. destruct (_ =? _); [|keeps]. etrans; [|apply IH].
  etrans; [apply (advance_kept (rcv_nxt (ti_pcb t)) (TCP_TCPLEN g))|]. set (t1 := on_pcb (advance _ _) t). etrans; [apply (pass_data_kept (default [] (recv_data t1)) g)|].
  set (t2 := pass_data _ g t1). destruct (has_fin g); [|done]. cbn [andb]. destruct (Z.eqb_spec (state (ti_pcb t2)) ESTABLISHED) as [E|]; [|done]. split; [done|done|right]. done.
Qed.

Lemma add_sack_more l r p : refused_data (tcp_add_sack l r p) = refused_data p /\ state (tcp_add_sack l r p) = state p.
Proof. unfold tcp_add_sack. destruct (_ || _); [done|]. by destruct (sack_sweep _ _ _ _ _). Qed.

Lemma sacks_inseq_kept t : kept t (on_pcb sacks_inseq t).
Proof.
  apply kept_pcb. intros p. unfold sacks_inseq. destruct (negb _); [|done]. destruct (ooseq p); [by destruct (LWIP_TCP_SACK_VALID _ _)|]. unfold tcp_remove_sacks_lt. by destruct (sack_sweep _ _ _ _ _).
Qed.

Lemma receive_inseq_kept g t : kept t (receive_inseq g t).
Proof.
  unfold receive_inseq. cbv zeta. destruct (match ooseq (ti_pcb t) with [] => _ | _ => _ end) as [g' l].
  etrans; [apply (advance_kept (sg_seqno g') (u16 (TCP_TCPLEN g')))|]. etrans; [apply (pass_data_kept [] g')|]. etrans; [apply (drain_kept l)|]. etrans; [apply sacks_inseq_kept|].
  set (t1 := on_pcb sacks_inseq _). etrans; [apply (kept_pcb tcp_ack); intros p; unfold tcp_ack; by destruct (negb _)|]. destruct (LWIP_TCP_SACK_VALID _ _); [|done]. apply same_rcv_kept, empty_ack_rcv.
Qed.

Lemma receive_oos_same copied g len t :
  refused_data (ti_pcb (receive_oos copied g len t)) = refused_data (ti_pcb t) /\ state (ti_pcb (receive_oos copied g len t)) = state (ti_pcb t) /\
  ti_events (receive_oos copied g len t) = ti_events t.
Proof.
  unfold receive_oos. cbv zeta. set (p := match ooseq (ti_pcb t) with [] => _ | _ => _ end).
  assert (Hp : refused_data p = refused_data (ti_pcb t) /\ state p = state (ti_pcb t)).
  { unfold p. destruct (ooseq (ti_pcb t)); [by destruct (negb _)|]. destruct (oos_loop _ _ _ _ _ _ _) as [[q k] sb]. unfold sacks_oos. destruct (negb _); [|done]. destruct (drop _ _); [done|]. apply (add_sack_more _ _ (set_ooseq q (ti_pcb t))). }
  clearbody p. destruct (empty_ack_rcv (set_ti_pcb p t)) as [_ _ _ -> -> _ _ ->]. cbn. tauto.
Qed.

Lemma receive_oos_kept copied g len t : kept t (receive_oos copied g len t).
Proof. destruct (receive_oos_same copied g len t) as (H1 & H2 & H3). split; [done|done|by left]. Qed.

Lemma receive_data_kept copied g t : kept t (tcp_receive_data copied g t).
Proof.
  unfold tcp_receive_data. destruct (_ && _); [|destruct (negb _); keeps]. destruct (trim_front g _ (ti_pcb t)) as [g' p] eqn:E.
  assert (H : kept t (set_ti_pcb p t)).
  { unfold trim_front in E. destruct (TCP_SEQ_BETWEEN _ _ _); simplify_eq; [keeps|]. destruct (TCP_SEQ_LT _ _); keeps. }
  etrans; [exact H|]. cbv zeta. destruct (TCP_SEQ_BETWEEN _ _ _); [|apply same_rcv_kept, empty_ack_rcv]. destruct (_ =? _); [apply receive_inseq_kept|apply receive_oos_kept].
Qed.

(** Without sequence numbers nothing is received. *)
Lemma receive_nothing copied g t : u16 (TCP_TCPLEN g) = 0 -> same_rcv t (tcp_receive_data copied g t).
Proof. intros E. unfold tcp_receive_data. rewrite E. cbn [Z.ltb andb Z.compare]. by destruct (negb _). Qed.

(** Data that is handed up is not empty. *)
Lemma pass_data_some d g t : recv_data t <> Some [] -> recv_data (pass_data d g t) <> Some [].
Proof.
  intros H. unfold pass_data. destruct (Z.ltb_spec 0 (zlen (sg_data g))) as [Hz|]; [|by destruct (has_fin g)]. assert (Hne : d ++ sg_data g <> []).
  { intros [_ E]%app_eq_nil. by rewrite E in Hz. }
  destruct (has_fin g); cbn; congruence.
Qed.

Lemma drain_some : forall l t, recv_data t <> Some [] -> recv_data (drain l t) <> Some [].
Proof.
  induction l as [|g l IH]; intros t H; cbn [drain]; [done|]. destruct (_ =? _); [|done]. apply IH. set (t1 := pass_data _ g _). assert (H1 : recv_data t1 <> Some []) by (by apply pass_data_some).
  by destruct (_ && _).
Qed.

Lemma receive_data_some copied g t : recv_data t = None -> recv_data (tcp_receive_data copied g t) <> Some [].
Proof.
  intros H. unfold tcp_receive_data. destruct (_ && _); [|destruct (negb _); cbn; congruence]. destruct (trim_front g _ (ti_pcb t)) as [g' p]. cbv zeta.
  assert (Hack : forall t', recv_data t' = None -> recv_data (tcp_send_empty_ack t').2 <> Some []) by (intros t' E; destruct (empty_ack_rcv t') as [_ _ _ _ _ -> _ _]; congruence).
  destruct (TCP_SEQ_BETWEEN _ _ _); [|by apply Hack]. destruct (_ =? _); [|unfold receive_oos; by apply Hack]. unfold receive_inseq. cbv zeta. destruct (match ooseq _ with [] => _ | _ => _ end) as [g2 l].
  set (t1 := on_pcb tcp_ack _). assert (H1 : recv_data t1 <> Some []) by (apply (drain_some l); apply pass_data_some; cbn; congruence). clearbody t1.
  destruct (LWIP_TCP_SACK_VALID _ _); [|done]. destruct (empty_ack_rcv t1) as [_ _ _ _ _ -> _ _]. done.
Qed.

(** ** The application's view *)

(** The bytes that the application has taken. *)
Fixpoint accepted (l : list app_event) : list Z :=
  match l with
  | [] => []
  | EvRecv d err :: l => (if err =? ERR_OK then d else []) ++ accepted l
  | _ :: l => accepted l
  end.

(** How often it has been told of the end. *)
Fixpoint told_closed (l : list app_event) : nat :=
  match l with
  | [] => 0
  | EvClosed :: l => 1 + told_closed l
  | _ :: l => told_closed l
  end.

Lemma accepted_app l l' : accepted (l ++ l') = accepted l ++ accepted l'.
Proof. induction l as [|[] l IH]; cbn; rewrite ?IH, ?app_assoc; done. Qed.

Lemma told_closed_app l l' : told_closed (l ++ l') = (told_closed l + told_closed l')%nat.
Proof. induction l as [|[] l IH]; cbn; rewrite ?IH; done. Qed.

Definition held (t : tcp_in) : list Z := default [] (fst <$> refused_data (ti_pcb t)).

Lemma split_ok d t :
  let '(front, rest, t') := split_64k d t in
  ti_pcb t' = ti_pcb t /\ same_rcv t t' /\ front ++ default [] rest = d /\ (forall r, rest = Some r -> (length r < length d)%nat).
Proof.
  unfold split_64k. destruct (Z.leb_spec (zlen d) 0xFFFF) as [Hs|Hl]; [by rewrite app_nil_r|].
  assert (Hcut : forall n, 1 <= n -> ztake n d ++ zdrop n d = d /\ (length (zdrop n d) < length d)%nat).
  { intros n Hn. split; [apply take_drop|]. unfold zdrop, zlen in *. rewrite length_drop. lia. }
  destruct (ti_cuts t) as [|n rest].
  - destruct (Hcut 0xFFFF ltac:(lia)) as [H1 H2]. split_and!; [done|done|done|]. by intros r [= <-].
  - destruct (Hcut (Z.max 1 (Z.min n 0xFFFF)) ltac:(lia)) as [H1 H2]. split_and!; [done|done|done|]. by intros r [= <-].
Qed.

Section conn.
  Context (St : list Z) (b : Z).

(** A connection that has received the first [n] sequence numbers of the stream: what the
    application has not taken is kept for it, and it hears of the end after the data. *)
Record conn_ok (n : Z) (t : tcp_in) : Prop := ConnOk {
  co_stream : stream_ok St b n t;
  co_data : accepted (ti_events t) ++ held t = got St 0 n;
  co_fin : match refused_data (ti_pcb t) with
           | Some (_, f) => f = (n =? zlen St + 1) /\ told_closed (ti_events t) = 0%nat
           | None => told_closed (ti_events t) = if n =? zlen St + 1 then 1%nat else 0%nat
           end;
  co_state : ESTABLISHED <= state (ti_pcb t) <= LAST_ACK;
}.

(** What is left of it when the PCB is gone or in TIME_WAIT. *)
Definition told_prefix (t : tcp_in) : Prop := accepted (ti_events t) `prefix_of` St.

Definition outcome (gone : bool) (t : tcp_in) : Prop :=
  told_prefix t /\ (gone = false -> state (ti_pcb t) <> TIME_WAIT -> exists n, conn_ok n t).

Lemma got_prefix n : 0 <= n -> got St 0 n `prefix_of` St.
Proof.
  intros Hn. unfold got, bytes_of. pose proof (zlen_nonneg St). replace (Z.min 0 (zlen St)) with 0 by lia. change (zdrop 0 St) with St. rewrite Z.sub_0_r. unfold ztake. apply prefix_take.
Qed.

Lemma conn_prefix n t : conn_ok n t -> told_prefix t.
Proof.
  intros [[[Hn _ _] _] Hd _ _]. unfold told_prefix. transitivity (got St 0 n); [rewrite <- Hd; by eexists|]. apply got_prefix. lia.
Qed.

Lemma same_rcv_stream n t t' : same_rcv t t' -> stream_ok St b n t -> stream_ok St b n t'.
Proof. intros [] [[I1 I2 I3] I4]. split; [split; [done|congruence|auto]|congruence]. Qed.

Lemma stream_events n l t : stream_ok St b n t -> stream_ok St b n (set_ti_events l t).
Proof. intros [[I1 I2 I3] I4]. done. Qed.

Lemma same_rcv_conn n t t' : same_rcv t t' -> conn_ok n t -> conn_ok n t'.
Proof.
  intros H [C1 C2 C3 C4]. split; [by eapply same_rcv_stream|..]; destruct H as [_ _ _ Hr Hs _ _ He]; unfold held in *; by rewrite ?Hr, ?He, ?Hs.
Qed.

(** The events of a callback with data. *)
Lemma recv_callback e front t :
  exists err, (callback e (EvRecv front) t).1 = err /\ let t' := (callback e (EvRecv front) t).2 in
  (forall n, stream_ok St b n t -> stream_ok St b n t') /\ refused_data (ti_pcb t') = refused_data (ti_pcb t) /\ state (ti_pcb t') = state (ti_pcb t) /\
  recv_data t' = recv_data t /\ recv_flags t' = recv_flags t /\
  accepted (ti_events t') = accepted (ti_events t) ++ (if err =? ERR_OK then front else []) /\ told_closed (ti_events t') = told_closed (ti_events t).
Proof.
  destruct (callback_rcv e (EvRecv front) t) as (err & E & H). exists err. split; [done|]. cbv zeta. pose proof (fun n => same_rcv_stream n _ _ H) as Hs. destruct H as [_ _ _ Hr Hst Hd Hf He].
  rewrite He, Hr, Hst, Hd, Hf. cbn [ti_events set_ti_events]. rewrite accepted_app, told_closed_app. cbn [accepted told_closed]. rewrite app_nil_r, Nat.add_0_r. split_and!; try done.
  intros n Hn. by apply Hs, stream_events.
Qed.

(** The end, when there is nothing left to take. *)
Lemma closed_ok e n t :
  stream_ok St b n t -> refused_data (ti_pcb t) = None -> accepted (ti_events t) = got St 0 n -> told_closed (ti_events t) = 0%nat ->
  n = zlen St + 1 -> ESTABLISHED <= state (ti_pcb t) <= TIME_WAIT ->
  let t' := (tell_closed e t).2 in
  told_prefix t' /\ (state (ti_pcb t') <> TIME_WAIT -> conn_ok n t') /\ state (ti_pcb t') = state (ti_pcb t) /\ recv_flags t' = recv_flags t /\
  recv_data t' = recv_data t /\ refused_data (ti_pcb t') = None.
Proof.
  intros Hs Hr Ha Ht Hn Hst. unfold tell_closed. set (t1 := on_pcb _ t).
  assert (H1 : same_rcv t t1).
  { unfold t1. split; cbn; try (by destruct (rcv_wnd (ti_pcb t) =? _)); try done. intros Hw. destruct (rcv_wnd (ti_pcb t) =? _); [done|]. apply u32_range. }
  destruct (callback_rcv e (fun _ => EvClosed) t1) as (err & E & H). cbv zeta. set (t2 := (callback _ _ _).2) in *.
  assert (Hs2 : stream_ok St b n t2) by (eapply same_rcv_stream; [exact H|]; apply stream_events; by apply (same_rcv_stream n t)).
  destruct H as [_ _ _ Hr' Hst' Hd' Hf' He']. destruct H1 as [_ _ _ Hr1 Hst1 Hd1 Hf1 He1]. cbn [ti_events set_ti_events ti_pcb recv_flags] in *.
  rewrite He1 in He'. rewrite Hr1, Hr in Hr'. rewrite Hst1 in Hst'. rewrite Hf1 in Hf'.
  assert (Ha' : accepted (ti_events t2) = got St 0 n) by (rewrite He', accepted_app; cbn; by rewrite app_nil_r).
  split_and!; [unfold told_prefix; rewrite Ha'; apply got_prefix; destruct Hs as [[]]; lia| |done|done|by rewrite Hd', <- Hd1|done].
  intros Hnt. split; [done| | |].
  - unfold held. rewrite Hr', Ha'. cbn. by rewrite app_nil_r.
  - rewrite Hr', He', told_closed_app, Ht, Hn, Z.eqb_refl. done.
  - rewrite Hst' in *. unfold ESTABLISHED, LAST_ACK, TIME_WAIT in *. lia.
Qed.

Lemma told_of_app t x : accepted (ti_events t) ++ x `prefix_of` St -> told_prefix t.
Proof. intros H. unfold told_prefix. etrans; [|exact H]. by eexists. Qed.

Lemma stream_refused n x t : stream_ok St b n t -> stream_ok St b n (on_pcb (set_refused_data x) t).
Proof. intros [[I1 I2 I3] I4]. done. Qed.

Lemma refused_ok e : forall fuel t n, conn_ok n t -> refused_data (ti_pcb t) = None \/ (length (held t) < fuel)%nat ->
  let t' := (refused_loop fuel e t).2 in
  told_prefix t' /\ ((refused_loop fuel e t).1 <> ERR_ABRT -> conn_ok n t') /\ recv_data t' = recv_data t /\ recv_flags t' = recv_flags t.
Proof.
  induction fuel as [|fuel IH]; intros t n Hc Hf; cbv zeta; cbn [refused_loop]; pose proof (conn_prefix n t Hc) as Hp; destruct (refused_data (ti_pcb t)) as [[d fin]|] eqn:Er; try done; (destruct Hf as [|Hf]; [done|]).
  destruct Hc as [Cs Cd Cf Cst]. rewrite Er in Cf. destruct Cf as [-> Ct]. unfold held in Cd, Hf. rewrite Er in Cd, Hf. cbn in Cd, Hf.
  pose proof (split_ok d t) as Hsp. destruct (split_64k d t) as [[front rest] t0]. destruct Hsp as (Ep & Hs0 & Edata & Hless).
  set (t1 := on_pcb (set_refused_data _) t0). assert (Hst1 : stream_ok St b n t1) by (apply stream_refused; by apply (same_rcv_stream n t)).
  assert (Ek : ti_events t1 = ti_events t /\ recv_data t1 = recv_data t /\ recv_flags t1 = recv_flags t /\ state (ti_pcb t1) = state (ti_pcb t)) by (destruct Hs0; cbn; by rewrite Ep).
  destruct Ek as (Ee & Erd & Erf & Est). assert (Err1 : refused_data (ti_pcb t1) = match rest with Some r => Some (r, n =? zlen St + 1) | None => None end) by done.
  clearbody t1. destruct (recv_callback e front t1) as (err & E & Q). cbv zeta in Q. destruct (callback e (EvRecv front) t1) as [err' t2]. cbn [fst snd] in *. subst err'.
  destruct Q as (Q1 & Q2 & Q3 & Q4 & Q5 & Q6 & Q7). specialize (Q1 n Hst1). rewrite Ee in Q6, Q7. rewrite Err1 in Q2.
  assert (Hn : 0 <= n) by (destruct Cs as [[]]; lia).
  destruct (Z.eqb_spec err ERR_OK) as [->|Hne]; cbn [fst snd].
  - assert (Hacc : accepted (ti_events t2) ++ default [] rest = got St 0 n) by (rewrite Q6, <- app_assoc, Edata; done).
    destruct rest as [r|]; [|cbn [default] in Hacc; rewrite app_nil_r in Hacc, Edata; destruct (n =? zlen St + 1) eqn:En].
    + destruct (IH t2 n) as (H1 & H2 & H3 & H4); [|right; unfold held; rewrite Q2; cbn; specialize (Hless r eq_refl); lia|split_and!; [done|done|congruence|congruence]].
      split; [done|unfold held; by rewrite Q2|rewrite Q2; split; [done|congruence]|congruence].
    + apply Z.eqb_eq in En. destruct (closed_ok e n t2 Q1 Q2 Hacc ltac:(congruence) En ltac:(rewrite Q3, Est; unfold ESTABLISHED, LAST_ACK, TIME_WAIT in *; lia)) as (K1 & K2 & K3 & K4 & Hd3 & K6).
      destruct (tell_closed e t2) as [err3 t3]. cbn [fst snd] in *. specialize (K2 ltac:(rewrite K3, Q3, Est; unfold ESTABLISHED, LAST_ACK, TIME_WAIT in *; lia)).
      destruct (err3 =? ERR_ABRT) eqn:Eab; cbn [fst snd]; [apply Z.eqb_eq in Eab; split_and!; [done|done|congruence|congruence]|].
      destruct (IH t3 n K2 (or_introl K6)) as (H1 & H2 & H3 & H4). split_and!; [done|done|congruence|congruence].
    + destruct (IH t2 n) as (H1 & H2 & H3 & H4); [|by left|split_and!; [done|done|congruence|congruence]].
      split; [done|unfold held; rewrite Q2; cbn; by rewrite app_nil_r|rewrite Q2, En; congruence|congruence].
  - rewrite app_nil_r in Q6. assert (Hp2 : told_prefix t2) by (unfold told_prefix; by rewrite Q6).
    destruct (Z.eqb_spec err ERR_ABRT) as [->|Hna]; cbn [fst snd]; [split_and!; [done|done|congruence|congruence]|].
    split_and!; [done| |cbn; congruence|cbn; congruence]. intros _. split; [by apply stream_refused| | |cbn; congruence].
    + unfold held. cbn. by rewrite Q6, Edata.
    + cbn. split; [done|congruence].
Qed.

(** The data that a segment has brought, with nothing kept from before. *)
Lemma deliver_loop_ok e : forall fuel t n, stream_ok St b n t -> refused_data (ti_pcb t) = None ->
  accepted (ti_events t) ++ default [] (recv_data t) = got St 0 n -> recv_data t = None \/ (length (default [] (recv_data t)) < fuel)%nat ->
  let t' := (deliver_loop fuel e t).2 in
  told_prefix t' /\ state (ti_pcb t') = state (ti_pcb t) /\
  ((deliver_loop fuel e t).1 = false ->
   stream_ok St b n t' /\ accepted (ti_events t') ++ held t' = got St 0 n /\ recv_flags t' = recv_flags t /\ told_closed (ti_events t') = told_closed (ti_events t) /\
   (refused_data (ti_pcb t') = None \/ exists d, refused_data (ti_pcb t') = Some (d, false))).
Proof.
  induction fuel as [|fuel IH]; intros t n Hs Hr Hd Hf; cbv zeta; cbn [deliver_loop];
    (assert (Hp : told_prefix t) by (apply (told_of_app t (default [] (recv_data t))); rewrite Hd; apply got_prefix; destruct Hs as [[]]; lia));
    destruct (recv_data t) as [d|] eqn:Ed.
  - exfalso. destruct Hf as [?|?]; [done|lia].
  - cbn [fst snd]. split_and!; try done. intros _. unfold held. rewrite Hr. split_and!; try done. by left.
  - destruct Hf as [|Hf]; [done|]. cbn in Hd, Hf. pose proof (split_ok d t) as Hsp. destruct (split_64k d t) as [[front rest] t0]. destruct Hsp as (Ep & Hs0 & Edata & Hless).
    assert (Hs1 : stream_ok St b n t0) by (by apply (same_rcv_stream n t)). assert (Ee : ti_events t0 = ti_events t) by (by destruct Hs0). assert (Ef : recv_flags t0 = recv_flags t) by (by destruct Hs0).
    destruct (negb (pflags (ti_pcb t0) .& TF_RXCLOSED =? 0)); cbn [fst snd].
    { split_and!; [| |done]; unfold tcp_abort, told_prefix; (destruct (Z.eqb_spec (state (ti_pcb t0)) TIME_WAIT); [by rewrite ?Ee, ?Ep|]); unfold tell; cbn [ti_events set_ti_events ti_pcb];
        set (tb := on_pcb tcp_backlog_accepted t0); (destruct (rst_rcv (snd_nxt (p_snd (ti_pcb t0))) (rcv_nxt (ti_pcb t0)) tb) as [_ _ _ _ R5 _ _ R8]).
      - rewrite R8, accepted_app. cbn. rewrite app_nil_r, Ee. done.
      - rewrite R5. unfold tb. cbn. unfold tcp_backlog_accepted. destruct (listener _); [|by rewrite Ep]. destruct (negb _); cbn; by rewrite Ep. }
    destruct (recv_callback e front t0) as (err & E & Q). cbv zeta in Q. destruct (callback e (EvRecv front) t0) as [err' t2]. cbn [fst snd] in *. subst err'.
    destruct Q as (Q1 & Q2 & Q3 & Q4 & Q5 & Q6 & Q7). specialize (Q1 n Hs1). rewrite Ee in Q6, Q7. rewrite Ep in Q2, Q3. rewrite Ef in Q5. rewrite Hr in Q2.
    destruct (Z.eqb_spec err ERR_ABRT) as [->|Hna]; cbn [fst snd].
    { cbn in Q6. rewrite app_nil_r in Q6. split_and!; [unfold told_prefix; by rewrite Q6|done|done]. }
    destruct (Z.eqb_spec err ERR_OK) as [->|Hno]; cbn [negb fst snd].
    + assert (Hacc : accepted (ti_events t2) ++ default [] rest = got St 0 n) by (rewrite Q6, <- app_assoc, Edata; done).
      destruct (IH (set_recv_data rest t2) n) as (H1 & H2 & H3); [by destruct Q1 as [[] ]|done|done| |split_and!; [done|cbn in H2; congruence|]].
      { cbn. destruct rest as [r|]; [right; specialize (Hless r eq_refl); cbn; lia|by left]. }
      intros Hg. destruct (H3 Hg) as (A1 & A2 & A3 & A4 & A5). cbn in A3, A4. split_and!; [done|done|congruence|congruence|done].
    + rewrite app_nil_r in Q6. split_and!; [change (told_prefix t2); unfold told_prefix; by rewrite Q6|done|]. intros _. split_and!; [by apply stream_refused| |done|done|right; by eexists].
      change (accepted (ti_events t2) ++ (front ++ default [] rest) = got St 0 n). by rewrite Q6, Edata.
  - cbn [fst snd]. split_and!; try done. intros _. unfold held. rewrite Hr. split_and!; try done. by left.
Qed.

(** ** The state machine *)
Lemma parseopt_snd h : ih_flag h TCP_SYN = false -> forall fuel i, snd_only (parseopt_loop fuel h i).
Proof.
  intros Hs. induction fuel as [|fuel IH]; intros i p; cbn [parseopt_loop]; cbv zeta; [done|]. destruct (negb _); [done|]. destruct (_ =? LWIP_TCP_OPT_EOL); [done|].
  destruct (_ =? LWIP_TCP_OPT_NOP); [apply IH|]. destruct (_ =? LWIP_TCP_OPT_MSS).
  { destruct (_ || _); [done|]. destruct (IH (i + 4) (opt_mss (u16 (tcp_get_next_optbyte h (i + 2) .<< 8) .| tcp_get_next_optbyte h (i + 3)) p)) as (-> & -> & -> & -> & ->). done. }
  destruct (_ =? LWIP_TCP_OPT_WS).
  { destruct (_ || _); [done|]. unfold opt_ws. rewrite Hs. apply IH. }
  destruct (_ =? LWIP_TCP_OPT_SACK_PERM).
  { destruct (_ || _); [done|]. rewrite Hs. apply IH. }
  destruct (_ <? 2); [done|]. apply IH.
Qed.

(** A segment of the stream, a reset, or a SYN, whatever it carries. *)
Definition seg_ok (h : in_hdr) : Prop := ih_flag h TCP_RST = true \/ ih_flag h TCP_SYN = true \/ exists off, piece_at St b (ih_seg h) off.

(** What a segment does to a connection: the stream moves on from [n] to [n']. *)
Record moved (h : in_hdr) (n : Z) (t : tcp_in) (n' : Z) (t' : tcp_in) : Prop := Moved {
  mv_le : n <= n';
  mv_stream : stream_ok St b n' t';
  mv_data : default [] (recv_data t') = got St n n';
  mv_fin : got_fin t' = fin_between St n n';
  mv_events : ti_events t' = ti_events t;
  mv_state : ESTABLISHED <= state (ti_pcb t') <= TIME_WAIT;
  mv_refused : refused_data (ti_pcb t') = refused_data (ti_pcb t) \/ state (ti_pcb t') = TIME_WAIT /\ refused_data (ti_pcb t') = None;
  mv_none : tcplen h = 0 -> n' = n /\ recv_data t' = None;
  mv_some : recv_data t' <> Some [];
}.

Lemma moved_none h n t t' :
  stream_ok St b n t -> recv_data t = None -> recv_flags t = 0 -> ESTABLISHED <= state (ti_pcb t) <= LAST_ACK -> same_rcv t t' -> moved h n t n t'.
Proof.
  intros Hs Hd Hf Hst H. pose proof (same_rcv_stream n _ _ H Hs). destruct H as [_ _ _ Hr Hst' Hd' Hf' He].
  split; [lia|done|by rewrite Hd', Hd, got_self|unfold got_fin; rewrite Hf', Hf, fin_between_self; done|done|rewrite Hst'; unfold ESTABLISHED, LAST_ACK, TIME_WAIT in *; lia|by left|intros _; by rewrite Hd'|by rewrite Hd', Hd].
Qed.

Lemma moved_flag h n t n' t' f : f .& TF_GOT_FIN = 0 -> moved h n t n' t' -> moved h n t n' (set_recv_flags (recv_flags t' .| f) t').
Proof.
  intros Hf [M1 [[I1 I2 I3] I4] M3 M4 M5 M6 M7 M8 M9]. split; try done. rewrite <- M4. unfold got_fin. cbn. by rewrite Z.land_lor_distr_l, Hf, Z.lor_0_r.
Qed.

(** A change of the PCB behind it. *)
Lemma moved_pcb h n t n' t' f :
  (forall p, rcv_nxt (f p) = rcv_nxt p /\ rcv_wnd (f p) = rcv_wnd p /\ (ooseq (f p) = ooseq p \/ ooseq (f p) = [])) ->
  ESTABLISHED <= state (f (ti_pcb t')) <= TIME_WAIT ->
  (refused_data (f (ti_pcb t')) = refused_data (ti_pcb t') /\ state (ti_pcb t') <> TIME_WAIT \/ state (f (ti_pcb t')) = TIME_WAIT /\ refused_data (f (ti_pcb t')) = None) ->
  moved h n t n' t' -> moved h n t n' (on_pcb f t').
Proof.
  intros Hf Hst Hr [M1 [[I1 I2 I3] I4] M3 M4 M5 M6 M7 M8 M9]. destruct (Hf (ti_pcb t')) as (F1 & F2 & F3).
  split; try done; cbn; [|destruct Hr as [[Hr Hn]|Hr]; [rewrite Hr; destruct M7 as [M7|[? _]]; [by left|done]|by right]].
  split; [split; cbn; [done|congruence|congruence]|]. cbn. destruct F3 as [->| ->]; done.
Qed.

Lemma purge_keeps p :
  rcv_nxt (tcp_pcb_purge p) = rcv_nxt p /\ rcv_wnd (tcp_pcb_purge p) = rcv_wnd p /\ (ooseq (tcp_pcb_purge p) = ooseq p \/ ooseq (tcp_pcb_purge p) = []) /\
  (ESTABLISHED <= state p <= LAST_ACK -> refused_data (tcp_pcb_purge p) = None).
Proof.
  unfold tcp_pcb_purge. destruct (negb _ && negb _ && negb _) eqn:E.
  - set (p1 := set_refused_data None (tcp_backlog_accepted p)). assert (H : rcv_nxt p1 = rcv_nxt p /\ rcv_wnd p1 = rcv_wnd p /\ refused_data p1 = None).
    { unfold p1, tcp_backlog_accepted. destruct (listener p); [|done]. by destruct (negb (pflags p .& TF_BACKLOGPEND =? 0)). }
    clearbody p1. destruct H as (H1 & H2 & H3). destruct (ooseq p1) eqn:Eo; cbn; split_and!; try done; by right.
  - split_and!; try done; [by left|]. intros Hst. unfold CLOSED, TIME_WAIT, LISTEN, ESTABLISHED, LAST_ACK in *. destruct (Z.eqb_spec (state p) 0), (Z.eqb_spec (state p) 10), (Z.eqb_spec (state p) 1); cbn in E; try done; lia.
Qed.

Lemma time_wait_ok h n t n' t' f :
  snd_only f -> ESTABLISHED <= state (ti_pcb t') <= LAST_ACK -> moved h n t n' t' -> moved h n t n' (on_pcb (fun p => to_time_wait (f p)) t').
Proof.
  intros Hf Hst. assert (Hp : forall p, state p = state (ti_pcb t') -> refused_data (tcp_pcb_purge (f p)) = None).
  { intros p Ep. destruct (purge_keeps (f p)) as (_ & _ & _ & H). apply H. destruct (Hf p) as (_ & _ & _ & _ & ->). by rewrite Ep. }
  apply moved_pcb; [|cbn; unfold ESTABLISHED, TIME_WAIT; lia|right; split; [done|by apply Hp]].
  intros p. destruct (Hf p) as (F1 & F2 & F3 & _). destruct (purge_keeps (f p)) as (P1 & P2 & P3 & _). unfold to_time_wait. cbn. rewrite P1, P2, F1, F2, <- F3. done.
Qed.

Lemma set_state_ok h n t n' t' st :
  ESTABLISHED <= st <= LAST_ACK -> state (ti_pcb t') <> TIME_WAIT -> moved h n t n' t' -> moved h n t n' (on_pcb (fun p => set_state st (tcp_ack_now p)) t') /\ moved h n t n' (on_pcb (set_state st) t').
Proof.
  intros Hst Hn H. split; apply moved_pcb; try done; try (intros p; cbn; split_and!; [done|done|by left]); try (by left); cbn; unfold ESTABLISHED, LAST_ACK, TIME_WAIT in *; lia.
Qed.

Lemma synced_ok h n t n' t' st :
  ESTABLISHED <= state (ti_pcb t') <= LAST_ACK -> moved h n t n' t' -> moved h n t n' (process_synced h st t').
Proof.
  intros Hst H. assert (Hn : state (ti_pcb t') <> TIME_WAIT) by (unfold ESTABLISHED, LAST_ACK, TIME_WAIT in *; lia).
  assert (Hack : snd_only tcp_ack_now) by done. unfold process_synced. cbv zeta. set (aa := _ && match _ with [] => true | _ => false end). clearbody aa.
  set (gf := negb _). clearbody gf. destruct (_ || _).
  { destruct gf; [|done]. apply set_state_ok; [unfold ESTABLISHED, CLOSE_WAIT, LAST_ACK; lia|done|done]. }
  destruct (st =? FIN_WAIT_1).
  { destruct gf, aa; [by apply time_wait_ok| | |done]; apply set_state_ok; try done; unfold ESTABLISHED, CLOSING, FIN_WAIT_2, LAST_ACK; lia. }
  destruct (st =? FIN_WAIT_2); [destruct gf; [by apply time_wait_ok|done]|].
  destruct (st =? CLOSING); [destruct aa; [by apply (time_wait_ok h n t n' t' (fun p => p))|done]|].
  destruct (st =? LAST_ACK); [|done]. destruct aa; [by apply moved_flag|done].
Qed.

Lemma process_ok e copied h t n :
  zlen St < 2 ^ 28 -> stream_ok St b n t -> recv_data t = None -> recv_flags t = 0 -> ESTABLISHED <= state (ti_pcb t) <= LAST_ACK -> seg_ok h ->
  exists n', moved h n t n' (tcp_process e copied h t).2.
Proof.
  intros Hlen Hs Hd Hf Hst Hseg. pose proof (moved_none h n t t Hs Hd Hf Hst ltac:(done)) as Hm0. unfold tcp_process. destruct (ih_flag h TCP_RST) eqn:Er.
  { exists n. unfold process_rst. cbv zeta. assert (Ens : (state (ti_pcb t) =? SYN_SENT) = false) by (apply Z.eqb_neq; unfold SYN_SENT, ESTABLISHED in *; lia). rewrite Ens.
    set (t1 := if _ && _ then on_pcb tcp_ack_now t else t). assert (H1 : moved h n t n t1) by (apply moved_none; try done; unfold t1; by destruct (_ && _)).
    assert (Est1 : state (ti_pcb t1) = state (ti_pcb t)) by (unfold t1; by destruct (_ && _)). clearbody t1.
    destruct (_ =? rcv_nxt _); [|done]. cbn [snd]. apply moved_pcb; [intros p; split_and!; try done; by left| | |by apply moved_flag].
    - cbn. apply H1.
    - destruct (mv_refused _ _ _ _ _ H1) as [E|E]; [|by right]. left. split; [done|]. cbn. rewrite Est1. unfold ESTABLISHED, LAST_ACK, TIME_WAIT in *. lia. }
  assert (Ens : (state (ti_pcb t) =? SYN_SENT) = false /\ (state (ti_pcb t) =? SYN_RCVD) = false) by (split; apply Z.eqb_neq; unfold SYN_SENT, SYN_RCVD, ESTABLISHED in *; lia). destruct Ens as [E1 E2].
  rewrite E1, E2. destruct (ih_flag h TCP_SYN) eqn:Esyn; cbn [negb andb].
  { exists n. by apply moved_none. }
  destruct Hseg as [|[|[off Hp]]]; [congruence|congruence|].
  set (p1 := if pflags (ti_pcb t) .& TF_RXCLOSED =? 0 then _ else _). cbv zeta. set (p2 := on_snd _ (set_keep_cnt_sent 0 p1)).
  assert (Hp2 : same_rcv t (set_ti_pcb p2 t)) by (unfold p2, p1; by destruct (_ =? 0)). assert (Est2 : state p2 = state (ti_pcb t)) by (by destruct Hp2). clearbody p2. clear p1. rewrite Est2, E1, E2.
  set (t1 := set_ti_pcb (tcp_parseopt h p2) t). assert (H1 : same_rcv t t1).
  { etrans; [exact Hp2|]. apply (snd_only_same (tcp_parseopt h) (set_ti_pcb p2 t)). apply parseopt_snd, Esyn. }
  clearbody t1. destruct (Z.leb_spec ESTABLISHED (state (ti_pcb t))); [|lia]. destruct (Z.leb_spec (state (ti_pcb t)) LAST_ACK); [|lia]. cbn [andb snd].
  unfold tcp_receive. pose proof (receive_ack_rcv e h t1) as H2. set (t2 := receive_ack e h t1) in *. clearbody t2. assert (H02 : same_rcv t t2) by (by etrans). clear H1 H2 t1.
  pose proof (same_rcv_stream n _ _ H02 Hs) as Hs2. pose proof (receive_data_kept copied (ih_seg h) t2) as [K1 K2 K3].
  destruct H02 as [_ _ _ Hr2 Hst2 Hd2 Hf2 He2].
  destruct (receive_data_ok St b copied (ih_seg h) off n t2 Hs2 ltac:(congruence) Hp) as (n' & Hn' & R1 & R2 & R3).
  { pose proof (is_n _ _ _ _ (so_in _ _ _ _ Hs2)). destruct (pc_range _ _ _ _ Hp). destruct (pc_len _ _ _ _ Hp). unfold reach. lia. }
  exists n'. pose proof (receive_nothing copied (ih_seg h) t2) as Hno. pose proof (receive_data_some copied (ih_seg h) t2) as Hsome. set (t3 := tcp_receive_data copied (ih_seg h) t2) in *. clearbody t3.
  assert (Hst3 : ESTABLISHED <= state (ti_pcb t3) <= LAST_ACK) by (unfold ESTABLISHED, LAST_ACK, CLOSE_WAIT in *; lia).
  apply synced_ok; [done|]. split; try done; [rewrite R3; unfold got_fin; by rewrite Hf2, Hf|congruence|unfold ESTABLISHED, LAST_ACK, TIME_WAIT in *; lia|left; congruence| |apply Hsome; congruence].
  intros E0. destruct (Hno E0) as [N1 _ _ _ _ N6 _ _]. split; [|congruence].
  destruct Hs2 as [[I1 I2 _] _]. destruct R1 as [[J1 J2 _] _]. pose proof (seq_eqb b n' n ltac:(unfold near; lia)) as E. rewrite <- I2, <- J2, N1, Z.eqb_refl in E. symmetry in E. by apply Z.eqb_eq in E.
Qed.

(** ** The whole of input *)

(** What callbacks without data leave alone. *)
Record same_view (t t' : tcp_in) : Prop := SameView {
  sv_stream : forall n, stream_ok St b n t -> stream_ok St b n t';
  sv_refused : refused_data (ti_pcb t') = refused_data (ti_pcb t);
  sv_state : state (ti_pcb t') = state (ti_pcb t);
  sv_data : recv_data t' = recv_data t;
  sv_flags : recv_flags t' = recv_flags t;
  sv_accepted : accepted (ti_events t') = accepted (ti_events t);
  sv_told : told_closed (ti_events t') = told_closed (ti_events t);
}.

#[local] Instance same_view_refl : Reflexive same_view.
Proof. done. Qed.

#[local] Instance same_view_trans : Transitive same_view.
Proof. intros t1 t2 t3 [] []. split; try congruence; auto. Qed.

Lemma same_rcv_view t t' : same_rcv t t' -> same_view t t'.
Proof. intros H. pose proof (fun n => same_rcv_stream n _ _ H). destruct H as [_ _ _ ? ? ? ? He]. split; try done; by rewrite He. Qed.

Lemma tell_view ev t : (forall d err, ev <> EvRecv d err) -> ev <> EvClosed -> same_view t (tell ev t).
Proof.
  intros H1 H2. split; try done; [intros n; apply stream_events|..]; cbn; rewrite ?accepted_app, ?told_closed_app; destruct ev; try done; cbn; rewrite ?app_nil_r, ?Nat.add_0_r; try done; by edestruct H1.
Qed.

Lemma sent_view e : forall fuel acked t, same_view t (sent_loop fuel e acked t).2.
Proof.
  induction fuel as [|fuel IH]; intros acked t; cbn [sent_loop]; [done|]. destruct (0 <? acked); [|done]. cbv zeta. set (a16 := Z.min acked 0xFFFF). destruct (callback_rcv e (fun _ => EvSent a16) t) as (err & _ & H).
  destruct (callback e _ t) as [err' t1]. cbn [snd] in H. assert (H1 : same_view t t1) by (etrans; [by apply (tell_view (EvSent a16))|by apply same_rcv_view]).
  destruct (err' =? ERR_ABRT); [done|]. etrans; [exact H1|apply IH].
Qed.

Lemma delayed_close_view t : same_view t (tcp_input_delayed_close t).2.
Proof. unfold tcp_input_delayed_close. destruct (negb _); [|done]. destruct (_ =? 0); [|done]. by apply tell_view. Qed.

Lemma view_prefix t t' : same_view t t' -> told_prefix t -> told_prefix t'.
Proof. intros [] H. unfold told_prefix in *. congruence. Qed.

Lemma view_conn n t t' : same_view t t' -> conn_ok n t -> conn_ok n t'.
Proof. intros [V1 V2 V3 V4 V5 V6 V7] [C1 C2 C3 C4]. unfold held in *. split; [auto|unfold held; congruence|by rewrite V2, V7|by rewrite V3]. Qed.

Lemma view_outcome gone t t' : same_view t t' -> outcome gone t -> outcome gone t'.
Proof.
  intros H [H1 H2]. split; [by eapply view_prefix|]. intros Hg Hst. destruct (H2 Hg) as [n Hn]; [by rewrite <- (sv_state _ _ H)|]. exists n. by eapply view_conn.
Qed.

Lemma moved_view h n t n' t1 t2 : same_view t1 t2 -> moved h n t n' t1 -> stream_ok St b n' t2 /\ default [] (recv_data t2) = got St n n' /\ got_fin t2 = fin_between St n n'.
Proof. intros [V1 V2 V3 V4 V5 V6 V7] []. split_and!; [auto|congruence|]. unfold got_fin in *. congruence. Qed.

(** The end of the data that a segment has brought. *)
Lemma deliver_fin_ok e n n' t :
  n <= n' <= zlen St + 1 -> stream_ok St b n' t -> accepted (ti_events t) ++ held t = got St 0 n' -> got_fin t = fin_between St n n' ->
  told_closed (ti_events t) = (if n =? zlen St + 1 then 1%nat else 0%nat) -> ESTABLISHED <= state (ti_pcb t) <= TIME_WAIT ->
  (refused_data (ti_pcb t) = None \/ n <> zlen St + 1 /\ exists d, refused_data (ti_pcb t) = Some (d, false)) ->
  outcome (deliver_fin e t).1 (deliver_fin e t).2.
Proof.
  intros Hn Hs Ha Hf Ht Hst Hr. assert (Hp : told_prefix t) by (apply (told_of_app t (held t)); rewrite Ha; apply got_prefix; destruct Hs as [[]]; lia).
  assert (Hrange : state (ti_pcb t) <> TIME_WAIT -> ESTABLISHED <= state (ti_pcb t) <= LAST_ACK) by (unfold ESTABLISHED, LAST_ACK, TIME_WAIT in *; lia).
  unfold deliver_fin. change (negb (recv_flags t .& TF_GOT_FIN =? 0)) with (got_fin t). rewrite Hf. unfold fin_between in *. destruct ((n <=? zlen St) && (n' =? zlen St + 1)) eqn:Ef.
  - apply andb_true_iff in Ef as [E1%Z.leb_le E2%Z.eqb_eq]. rewrite (proj2 (Z.eqb_neq n (zlen St + 1))) in Ht by lia. destruct Hr as [Hr|[_ [d Hr]]]; rewrite Hr.
    + unfold held in Ha. rewrite Hr in Ha. cbn in Ha. rewrite app_nil_r in Ha. destruct (closed_ok e n' t Hs Hr Ha Ht E2 Hst) as (K1 & K2 & _).
      destruct (tell_closed e t) as [err t1]. cbn [fst snd] in *. split; [done|]. intros _ Hnt. exists n'. by apply K2.
    + cbn [fst snd]. split; [done|]. intros _ Hnt. exists n'. split; [by apply stream_refused| |cbn; split; [by rewrite E2, Z.eqb_refl|done]|by apply Hrange]. unfold held in *. rewrite Hr in Ha. done.
  - cbn [fst snd]. split; [done|]. intros _ Hnt. exists n'. split; [done|done| |by apply Hrange].
    assert (En : (n' =? zlen St + 1) = (n =? zlen St + 1)).
    { destruct (Z.leb_spec n (zlen St)), (Z.eqb_spec n' (zlen St + 1)), (Z.eqb_spec n (zlen St + 1)); cbn in Ef; lia || done. }
    destruct Hr as [Hr|[Hne [d Hr]]]; rewrite Hr, En; [done|]. rewrite (proj2 (Z.eqb_neq _ _) Hne) in *. done.
Qed.

(** What is delivered, when nothing was kept from before. *)
Lemma deliver_all e n n' t :
  n <= n' <= zlen St + 1 -> stream_ok St b n' t -> refused_data (ti_pcb t) = None -> accepted (ti_events t) = got St 0 n -> 0 <= n ->
  default [] (recv_data t) = got St n n' -> recv_data t <> Some [] -> got_fin t = fin_between St n n' ->
  told_closed (ti_events t) = (if n =? zlen St + 1 then 1%nat else 0%nat) -> ESTABLISHED <= state (ti_pcb t) <= TIME_WAIT ->
  outcome (let '(gone, t) := deliver e t in if gone then (true, t) else deliver_fin e t).1 (let '(gone, t) := deliver e t in if gone then (true, t) else deliver_fin e t).2.
Proof.
  intros Hn Hs Hr Ha H0 Hd Hsome Hf Ht Hst. unfold deliver.
  assert (Hacc : accepted (ti_events t) ++ default [] (recv_data t) = got St 0 n') by (rewrite Ha, Hd; apply got_app; lia).
  destruct (deliver_loop_ok e (S (length (default [] (recv_data t)))) t n' Hs Hr Hacc ltac:(right; lia)) as (D1 & D2 & D3).
  assert (Hkeep : n = zlen St + 1 -> recv_data t = None).
  { intros ->. assert (n' = zlen St + 1) as -> by lia. rewrite got_self in Hd. destruct (recv_data t) as [d|]; [|done]. cbn in Hd. by subst d. }
  assert (Hnone : recv_data t = None -> deliver_loop (S (length (default [] (recv_data t)))) e t = (false, t)) by (intros E; cbn [deliver_loop]; by rewrite E).
  destruct (deliver_loop _ e t) as [gone t1]. cbn [fst snd] in *. destruct gone; [by split|].
  destruct (D3 eq_refl) as (A1 & A2 & A3 & A4 & A5). apply (deliver_fin_ok e n n'); try done; [unfold got_fin in *; by rewrite A3|congruence|by rewrite D2|].
  destruct A5 as [A5|A5]; [by left|]. right. split; [|done]. intros E. specialize (Hnone (Hkeep E)). injection Hnone as ->. destruct A5 as [d A5]. congruence.
Qed.

Lemma input_events_ok e h n t n' t' :
  conn_ok n t -> moved h n t n' t' -> (refused_data (ti_pcb t) = None \/ tcplen h = 0) -> outcome (input_events e t').1 (input_events e t').2.
Proof.
  intros Hc Hm Hr. pose proof (conn_prefix n t Hc) as Hp0. assert (Hp' : told_prefix t') by (unfold told_prefix; by rewrite (mv_events _ _ _ _ _ Hm)). unfold input_events.
  set (r := if 0 <? recv_acked t' then _ else (false, t')). assert (Hv : same_view t' r.2).
  { unfold r. destruct (0 <? recv_acked t'); [|done]. pose proof (sent_view e (Z.to_nat (recv_acked t' / 0xFFFF + 1)) (recv_acked t') t') as H. destruct (sent_loop _ e _ t') as [g t1]. cbn [snd] in *. destruct g; [done|]. etrans; [exact H|]. split; try done. by intros k [[] ]. }
  clearbody r. destruct r as [gone t1]. cbn [snd] in Hv. pose proof (view_prefix _ _ Hv Hp') as Hp1. destruct gone; [by split|].
  pose proof (delayed_close_view t1) as Hv2. destruct (tcp_input_delayed_close t1) as [gone t2]. cbn [snd] in Hv2. pose proof (view_prefix _ _ Hv2 Hp1) as Hp2. destruct gone; [by split|].
  assert (Hv' : same_view t' t2) by (by etrans). clear Hv Hv2 Hp1 t1. destruct (moved_view h n t n' t' t2 Hv' Hm) as (M1 & M2 & M3). destruct Hv' as [_ V2 V3 V4 V5 V6 V7]. rewrite (mv_events _ _ _ _ _ Hm) in V6, V7.
  pose proof Hc as [Cs Cd Cf Cst]. pose proof (mv_state _ _ _ _ _ Hm) as Hst. rewrite <- V3 in Hst. pose proof (is_n _ _ _ _ (so_in _ _ _ _ M1)) as Hn'. pose proof (is_n _ _ _ _ (so_in _ _ _ _ Cs)) as Hn. pose proof (mv_le _ _ _ _ _ Hm) as Hle.
  destruct (refused_data (ti_pcb t)) as [[d f]|] eqn:Er.
  - destruct Hr as [|E0]; [done|]. destruct (mv_none _ _ _ _ _ Hm E0) as [-> Ed]. rewrite Ed in V4. unfold deliver. rewrite V4. cbn [deliver_loop default length]. rewrite V4.
    rewrite fin_between_self in M3. unfold deliver_fin. change (negb (recv_flags t2 .& TF_GOT_FIN =? 0)) with (got_fin t2). rewrite M3. cbn [fst snd]. split; [done|]. intros _ Hnt. exists n.
    destruct (mv_refused _ _ _ _ _ Hm) as [Mr|[Mt _]]; [|congruence]. rewrite Mr, Er in V2. split; [done|unfold held in *; rewrite V2, V6; by rewrite Er in Cd|rewrite V2, V7; done|].
    unfold ESTABLISHED, LAST_ACK, TIME_WAIT in *. lia.
  - unfold held in Cd. rewrite Er in Cd. cbn in Cd. rewrite app_nil_r in Cd. assert (Hr2 : refused_data (ti_pcb t2) = None) by (destruct (mv_refused _ _ _ _ _ Hm) as [Mr|[_ Mr]]; congruence).
    apply (deliver_all e n n'); try done; [lia|congruence|lia|rewrite V4; apply (mv_some _ _ _ _ _ Hm)|congruence].
Qed.

Lemma input_ok e copied h t n : zlen St < 2 ^ 28 -> conn_ok n t -> seg_ok h -> outcome (tcp_input_pcb e copied h t).1 (tcp_input_pcb e copied h t).2.
Proof.
  intros Hlen Hc Hseg. unfold tcp_input_pcb. cbv zeta. set (t0 := set_recv_acked 0 _). assert (Hc0 : conn_ok n t0) by (by destruct Hc as [[[] ]]).
  set (r := match refused_data (ti_pcb t0) with None => _ | Some _ => _ end).
  assert (Hr : told_prefix r.2 /\ (r.1 <> ERR_ABRT -> conn_ok n r.2) /\ recv_data r.2 = None /\ recv_flags r.2 = 0).
  { unfold r. destruct (refused_data (ti_pcb t0)) eqn:E; [|split_and!; [by eapply conn_prefix|done|done|done]]. unfold tcp_process_refused_data. apply refused_ok; [done|right; unfold held; lia]. }
  clearbody r. destruct r as [err t1]. cbn [fst snd] in Hr. destruct Hr as (R1 & R2 & R3 & R4). destruct (Z.eqb_spec err ERR_ABRT) as [->|Hna]; cbn [orb].
  { cbn [fst snd]. split; [|done]. destruct (_ =? 0); [|done]. eapply view_prefix; [apply same_rcv_view, empty_ack_rcv|done]. }
  specialize (R2 Hna). set (still := match refused_data (ti_pcb t1) with None => false | Some _ => true end). destruct (still && (0 <? tcplen h)) eqn:Es.
  { cbn [fst snd]. assert (H1 : same_rcv t1 (if rcv_ann_wnd (ti_pcb t1) =? 0 then (tcp_send_empty_ack t1).2 else t1)) by (destruct (_ =? 0); [apply empty_ack_rcv|done]).
    pose proof (same_rcv_conn n _ _ H1 R2) as Hc1. split; [by eapply conn_prefix|]. intros _ _. by exists n. }
  destruct (process_ok (TcpEnv (te_route e) (te_local e) (te_ticks e) true) copied h t1 n Hlen (co_stream _ _ R2) R3 R4 (co_state _ _ R2) Hseg) as [n' Hm].
  assert (Hcase : refused_data (ti_pcb t1) = None \/ tcplen h = 0).
  { unfold still in Es. destruct (refused_data (ti_pcb t1)); [right|by left]. cbn in Es. apply Z.ltb_ge in Es. unfold tcplen in *. pose proof (u16_range (TCP_TCPLEN (ih_seg h))). lia. }
  destruct (tcp_process _ copied h t1) as [err2 t2]. cbn [snd] in Hm. assert (Hp2 : told_prefix t2) by (unfold told_prefix; rewrite (mv_events _ _ _ _ _ Hm); exact R1).
  destruct (err2 =? ERR_ABRT); [by split|]. destruct (negb _). { cbn [fst snd]. split; [|done]. eapply view_prefix; [by apply tell_view|done]. }
  pose proof (input_events_ok (TcpEnv (te_route e) (te_local e) (te_ticks e) true) h n t1 n' t2 R2 Hm Hcase) as Ho. destruct (input_events _ t2) as [gone t3]. cbn [fst snd] in Ho.
  destruct gone; [by destruct Ho; split|]. pose proof (delayed_close_view t3) as Hv. destruct (tcp_input_delayed_close t3) as [gone t4]. cbn [snd] in Hv. destruct gone; cbn [fst snd].
  - split; [|done]. eapply view_prefix; [exact Hv|]. by destruct Ho.
  - eapply view_outcome; [|exact Ho]. etrans; [exact Hv|]. apply same_rcv_view, output_rcv.
Qed.
End conn.

(** ** Closing and the timers *)
Lemma enqueue_snd mem f : snd_only (fun p => (tcp_enqueue_flags mem f p).2).
Proof. intros p. unfold tcp_enqueue_flags. destruct (negb mem); [done|]. cbv zeta. cbn [snd]. set (fin := negb (f .& TCP_FIN =? 0)). set (syn := negb (f .& TCP_SYN =? 0)). by destruct syn, fin. Qed.

Lemma send_fin_snd mem : snd_only (fun p => (tcp_send_fin mem p).2).
Proof. intros p. unfold tcp_send_fin. destruct (last _) as [g|]; [|apply (enqueue_snd mem TCP_FIN)]. destruct (_ =? 0); [done|apply (enqueue_snd mem TCP_FIN)]. Qed.

Lemma split_snd mem c k : snd_only (fun p => (tcp_split_unsent_seg mem c k p).2).
Proof. intros p. unfold tcp_split_unsent_seg. destruct (unsent _) as [|g l]; [done|]. destruct (k =? 0); [done|]. destruct (_ <=? k); [done|]. by destruct (negb mem), l. Qed.

Lemma send_control_rcv x k t : same_rcv t (send_control x k t).2.
Proof. unfold send_control. pose proof (next_send_same t) as H. destruct (next_send t) as [[err|] t1]; cbn [snd] in *; [|done]. etrans; [exact H|]. done. Qed.

Lemma probe_rcv t : same_rcv t (tcp_zero_window_probe t).2.
Proof.
  unfold tcp_zero_window_probe. destruct (unsent _) as [|g l]; [done|]. cbv zeta. set (t1 := on_pcb _ t). assert (H1 : same_rcv t t1) by (apply snd_only_same, snd_only_snd). clearbody t1.
  destruct (next_send t1) as [r t0]. pose proof (send_control_rcv ERR_MEM (fun t => let p := ti_pcb t in PSeg (probe g) (rcv_nxt p) (TCPWND_MIN16 (RCV_WND_SCALE p (rcv_ann_wnd p))) []) t1) as H2.
  destruct (send_control _ _ t1) as [err t2]. cbn [snd] in *. etrans; [exact H1|]. etrans; [exact H2|]. destruct r; [|done]. apply snd_only_same, snd_only_snd.
Qed.

Lemma persist_rcv e mem c t : same_rcv t (slow_persist e mem c t).2.
Proof.
  unfold slow_persist. cbv zeta. destruct (_ <=? persist_probe _); [done|]. set (t1 := if persist_cnt _ <? _ then _ else t). assert (H1 : same_rcv t t1) by (unfold t1; by destruct (_ <? _)). clearbody t1.
  destruct (_ <=? persist_cnt _); [|done]. set (r := if snd_wnd _ =? 0 then _ else _). assert (H2 : same_rcv t r.2).
  { etrans; [exact H1|]. unfold r. destruct (snd_wnd _ =? 0).
    - pose proof (probe_rcv t1) as H. by destruct (tcp_zero_window_probe t1).
    - pose proof (snd_only_same _ t1 (split_snd mem c (u16 (snd_wnd (p_snd (ti_pcb t)))))) as H. unfold on_pcb in H. cbn beta in H. destruct (tcp_split_unsent_seg _ _ _ (ti_pcb t1)) as [err p]. cbn [snd] in H.
      destruct (err =? ERR_OK); [|done]. pose proof (output_rcv e (set_ti_pcb p t1)) as H'. destruct (tcp_output e _) as [err' t2]. cbn [snd] in *. by etrans. }
  clearbody r. destruct r as [b t2]. cbn [snd] in *. destruct b; [|done]. etrans; [exact H2|]. apply snd_only_same, snd_only_snd.
Qed.

Lemma slow_rexmit_rcv e t : same_rcv t (slow_rexmit e t).
Proof.
  unfold slow_rexmit. cbv zeta. set (t1 := on_pcb _ t). assert (H1 : same_rcv t t1) by (apply snd_only_same, snd_only_snd). clearbody t1. destruct (_ <=? _); [|done].
  assert (H2 : same_rcv t1 (set_ti_pcb (tcp_rexmit_rto_prepare (ti_pcb t1)).2 t1)). { unfold tcp_rexmit_rto_prepare. destruct (last _); [|done]. by destruct (existsb _ _). }
  destruct (tcp_rexmit_rto_prepare (ti_pcb t1)) as [err p]. cbn [snd] in H2. destruct (_ || _); [|by etrans]. unfold tcp_rexmit_rto_commit. etrans; [exact H1|]. etrans; [exact H2|]. etrans; [|apply output_rcv]. done.
Qed.

Lemma keepalive_rcv e t : same_rcv t (slow_keepalive e t).2.
Proof.
  unfold slow_keepalive. cbv zeta. destruct (_ && _); [|done]. destruct (_ <? _); [done|]. destruct (_ <? _); [|done]. unfold tcp_keepalive.
  match goal with |- context [send_control ?x ?k ?t] => pose proof (send_control_rcv x k t) as H; destruct (send_control x k t) as [err t1] end. cbn [snd] in *. destruct (err =? ERR_OK); [|done]. etrans; [exact H|]. done.
Qed.

Section timers.
  Context (St : list Z) (b : Z).

Lemma close_fin_ok e mem n t : conn_ok St b n t -> conn_ok St b n (tcp_close_shutdown_fin e mem t).2.
Proof.
  intros Hc. unfold tcp_close_shutdown_fin. cbv zeta. destruct (_ || _); [|done]. pose proof (snd_only_same _ t (send_fin_snd mem)) as H. unfold on_pcb in H. cbn beta in H.
  destruct (tcp_send_fin mem (ti_pcb t)) as [err p]. cbn [snd] in H. pose proof (same_rcv_conn St b n _ _ H Hc) as Hc1.
  destruct (err =? ERR_OK); [|destruct (err =? ERR_MEM); [|done]; by apply (same_rcv_conn St b n (set_ti_pcb p t))]. cbn [snd]. eapply same_rcv_conn; [apply output_rcv|].
  set (p1 := if state (ti_pcb t) =? SYN_RCVD then tcp_backlog_accepted p else p).
  assert (Hc2 : conn_ok St b n (set_ti_pcb p1 t)).
  { apply (same_rcv_conn St b n (set_ti_pcb p t)); [|done]. unfold p1. destruct (_ =? SYN_RCVD); [|done]. unfold tcp_backlog_accepted. destruct (listener p); [|done]. by destruct (negb _). }
  clearbody p1. destruct Hc2 as [[[I1 I2 I3] I4] C2 C3 C4]. split; [done|done|done|]. cbn. destruct (_ =? CLOSE_WAIT); unfold ESTABLISHED, LAST_ACK, FIN_WAIT_1; lia.
Qed.

Lemma refused_data_ok e n t : conn_ok St b n t -> outcome St b ((tcp_process_refused_data e t).1 =? ERR_ABRT) (tcp_process_refused_data e t).2.
Proof.
  intros Hc. unfold tcp_process_refused_data. fold (held t). destruct (refused_ok St b e (S (length (held t))) t n Hc ltac:(right; lia)) as (R1 & R2 & _).
  destruct (refused_loop _ e t) as [err t1]. cbn [fst snd] in *. split; [done|]. intros Hna%Z.eqb_neq _. exists n. auto.
Qed.

Lemma conn_outcome n t : conn_ok St b n t -> outcome St b false t.
Proof. intros Hc. split; [by eapply conn_prefix|]. intros _ _. by exists n. Qed.

Lemma fasttmr_ok e mem n t : conn_ok St b n t -> outcome St b (fasttmr_pcb e mem t).1 (fasttmr_pcb e mem t).2.
Proof.
  intros Hc. unfold fasttmr_pcb. cbv zeta. set (t1 := if negb (pflags (ti_pcb t) .& TF_ACK_DELAY =? 0) then _ else t).
  assert (Hc1 : conn_ok St b n t1).
  { unfold t1. destruct (negb _); [|done]. eapply same_rcv_conn; [apply snd_only_same, snd_only_flags|]. eapply same_rcv_conn; [apply output_rcv|]. by apply (same_rcv_conn St b n t). }
  clearbody t1. set (t2 := if negb (pflags (ti_pcb t1) .& TF_CLOSEPEND =? 0) then _ else t1).
  assert (Hc2 : conn_ok St b n t2) by (unfold t2; destruct (negb _); [|done]; apply close_fin_ok; by apply (same_rcv_conn St b n t1)). clearbody t2.
  destruct (refused_data (ti_pcb t2)); [|by eapply conn_outcome]. pose proof (refused_data_ok e n t2 Hc2) as H. by destruct (tcp_process_refused_data e t2).
Qed.

Lemma free_ooseq_ok n t (c : tcp_pcb -> bool) : conn_ok St b n t -> conn_ok St b n (on_pcb (fun p => if c p then tcp_free_ooseq p else p) t).
Proof.
  intros [[[I1 I2 I3] I4] C2 C3 C4]. unfold on_pcb. destruct (c (ti_pcb t)); [|done]. unfold tcp_free_ooseq. destruct (ooseq (ti_pcb t)) as [|g l] eqn:E; (split; [split; [done|]|done|done|done]); [cbn; by rewrite E|done].
Qed.

Lemma purge_prefix t : told_prefix St t -> told_prefix St (on_pcb tcp_pcb_purge t).
Proof. done. Qed.

Lemma slowtmr_ok e mem c n t : conn_ok St b n t -> outcome St b (slowtmr_pcb e mem c t).1 (slowtmr_pcb e mem c t).2.
Proof.
  intros Hc. unfold slowtmr_pcb. cbv zeta. set (r := if (state (ti_pcb t) =? SYN_SENT) && _ then _ else _). assert (H1 : same_rcv t r.2).
  { unfold r. destruct (_ && _); [done|]. destruct (_ <=? nrtx _); [done|]. destruct (0 <? _); [apply persist_rcv|apply slow_rexmit_rcv]. }
  clearbody r. destruct r as [rm1 t1]. cbn [snd] in H1. pose proof (same_rcv_conn St b n _ _ H1 Hc) as Hc1. clear H1. set (rm2 := _ && _ && _). clearbody rm2.
  pose proof (keepalive_rcv e t1) as H2. destruct (slow_keepalive e t1) as [reset t2]. cbn [snd] in H2. pose proof (same_rcv_conn St b n _ _ H2 Hc1) as Hc2.
  pose proof (free_ooseq_ok n t2 (fun p => u32 (rto (p_snd p) * TCP_OOSEQ_TIMEOUT) <=? idle e p) Hc2) as Hc3. set (t3 := on_pcb _ t2) in *. clearbody t3. clear H2 Hc2.
  pose proof (conn_prefix _ _ _ _ Hc3) as Hp. destruct (_ || _).
  { cbn [fst snd]. split; [|done]. apply purge_prefix in Hp. set (t4 := on_pcb tcp_pcb_purge t3) in *. clearbody t4. eapply view_prefix; [by apply (tell_view St b)|]. destruct reset; [|done].
    eapply view_prefix; [apply (same_rcv_view St b), rst_rcv|done]. }
  set (t4 := on_pcb _ t3). assert (Hc4 : conn_ok St b n t4) by (eapply same_rcv_conn; [apply snd_only_same, snd_only_snd|done]). clearbody t4. destruct (_ <=? _); [|by eapply conn_outcome].
  set (t5 := on_pcb (on_snd (set_polltmr 0)) t4). assert (Hc5 : conn_ok St b n t5) by (eapply same_rcv_conn; [apply snd_only_same, snd_only_snd|done]). clearbody t5.
  destruct (callback_rcv e (fun _ => EvPoll) t5) as (err & _ & H). destruct (callback e _ t5) as [err' t6]. cbn [snd] in H.
  assert (Hv : same_view St b t5 t6) by (eapply same_view_trans; [by apply (tell_view St b EvPoll)|by apply same_rcv_view]). pose proof (view_conn _ _ _ _ _ Hv Hc5) as Hc6.
  destruct (err' =? ERR_ABRT); [split; [by eapply conn_prefix|done]|]. cbn [fst snd]. eapply conn_outcome. destruct (err' =? ERR_OK); [eapply same_rcv_conn; [apply output_rcv|]|]; done.
Qed.

Lemma shut_tx_ok e mem n t : conn_ok St b n t -> outcome St b (tcp_shutdown e mem false true t).1.2 (tcp_shutdown e mem false true t).2.
Proof.
  intros Hc. unfold tcp_shutdown. cbv zeta. cbn [andb]. destruct (_ || _); [|by eapply conn_outcome]. unfold tcp_close_shutdown. cbv zeta. cbn [andb].
  destruct (_ || _) eqn:E; [exfalso; destruct Hc as [_ _ _ C4]; apply orb_true_iff in E as [E|E]; apply Z.eqb_eq in E; unfold CLOSED, SYN_SENT, ESTABLISHED in *; lia|].
  pose proof (close_fin_ok e mem n t Hc) as H. destruct (tcp_close_shutdown_fin e mem t) as [err t1]. cbn [fst snd] in *. by eapply conn_outcome.
Qed.
End timers.

(** ** The fuel of the loops *)

Lemma callback_keeps e ev t : refused_data (ti_pcb (callback e ev t).2) = refused_data (ti_pcb t) /\ recv_data (callback e ev t).2 = recv_data t.
Proof. destruct (callback_rcv e ev t) as (err & _ & []). done. Qed.

(** One turn more than there are bytes is enough: more fuel changes nothing. *)
Lemma refused_fuel e : forall f1 f2 t, refused_data (ti_pcb t) = None \/ (length (held t) < Nat.min f1 f2)%nat -> refused_loop f1 e t = refused_loop f2 e t.
Proof.
  induction f1 as [|f1 IH]; intros f2 t H.
  { destruct H as [H|]; [|lia]. destruct f2; cbn; by rewrite H. }
  destruct f2 as [|f2]; [destruct H as [H|]; [cbn; by rewrite H|lia]|]. unfold held in H. cbn [refused_loop]. destruct (refused_data (ti_pcb t)) as [[d fin]|] eqn:Er; [|done]. destruct H as [|H]; [done|]. cbn in H.
  pose proof (split_ok d t) as Hs. destruct (split_64k d t) as [[front rest] t1]. destruct Hs as (_ & _ & _ & Hs). set (t2 := on_pcb _ t1). destruct (callback_keeps e (EvRecv front) t2) as [E2 _]. destruct (callback e (EvRecv front) t2) as [err t3]. cbn [snd] in E2.
  destruct (err =? ERR_OK); [|done]. destruct rest as [r|].
  - apply IH. right. unfold held. rewrite E2. cbn. specialize (Hs r eq_refl). lia.
  - destruct fin; [|apply IH; left; by rewrite E2]. unfold tell_closed. set (t4 := on_pcb _ t3). destruct (callback_keeps e (fun _ => EvClosed) t4) as [E4 _]. destruct (callback e (fun _ => EvClosed) t4) as [err' t5]. cbn [snd] in E4.
    destruct (err' =? ERR_ABRT); [done|]. apply IH. left. rewrite E4. unfold t4. cbn. destruct (_ =? _); cbn; by rewrite E2.
Qed.

Lemma deliver_fuel e : forall f1 f2 t, recv_data t = None \/ (length (default [] (recv_data t)) < Nat.min f1 f2)%nat -> deliver_loop f1 e t = deliver_loop f2 e t.
Proof.
  induction f1 as [|f1 IH]; intros f2 t H.
  { destruct H as [H|]; [|lia]. destruct f2; cbn; by rewrite H. }
  destruct f2 as [|f2]; [destruct H as [H|]; [cbn; by rewrite H|lia]|]. cbn [deliver_loop]. destruct (recv_data t) as [d|] eqn:Er; [|done]. destruct H as [|H]; [done|]. cbn in H.
  pose proof (split_ok d t) as Hs. destruct (split_64k d t) as [[front rest] t1]. destruct Hs as (_ & _ & _ & Hs). destruct (negb _); [done|]. destruct (callback e (EvRecv front) t1) as [err t2].
  destruct (err =? ERR_ABRT); [done|]. destruct (negb _); [done|]. apply IH. destruct rest as [r|]; [right|by left]. cbn. specialize (Hs r eq_refl). lia.
Qed.

Lemma sent_fuel e : forall f1 f2 acked t, acked <= 0xFFFF * Z.of_nat f1 -> acked <= 0xFFFF * Z.of_nat f2 -> sent_loop f1 e acked t = sent_loop f2 e acked t.
Proof.
  induction f1 as [|f1 IH]; intros [|f2] acked t H1 H2; cbn [sent_loop]; [done| | |].
  1, 2: by destruct (Z.ltb_spec 0 acked); [lia|].
  destruct (Z.ltb_spec 0 acked); [|done]. cbv zeta. destruct (callback e _ t) as [err t1]. destruct (err =? ERR_ABRT); [done|]. apply IH; lia.
Qed.

Lemma parseopt_fuel h : forall f1 f2 i p, zlen (ih_opts h) - i <= Z.of_nat f1 -> zlen (ih_opts h) - i <= Z.of_nat f2 -> parseopt_loop f1 h i p = parseopt_loop f2 h i p.
Proof.
  induction f1 as [|f1 IH]; intros [|f2] i p H1 H2; cbn [parseopt_loop]; [done| | |].
  1, 2: by destruct (Z.ltb_spec i (zlen (ih_opts h))); [lia|].
  cbv zeta. destruct (negb (i <? _)); [done|]. destruct (_ =? LWIP_TCP_OPT_EOL); [done|]. destruct (_ =? LWIP_TCP_OPT_NOP); [apply IH; lia|].
  destruct (_ =? LWIP_TCP_OPT_MSS); [destruct (_ || _); [done|apply IH; lia]|]. destruct (_ =? LWIP_TCP_OPT_WS); [destruct (_ || _); [done|apply IH; lia]|].
  destruct (_ =? LWIP_TCP_OPT_SACK_PERM); [destruct (_ || _); [done|apply IH; lia]|]. destruct (Z.ltb_spec (tcp_get_next_optbyte h (i + 1)) 2); [done|]. apply IH; lia.
Qed.

(** ** Runs *)

(** What happens to a connection: a segment arrives, the application reads and calls
    [tcp_recved], the fast and the slow timer, the application shuts down its side, it
    changes the queues of the sender, or something calls [tcp_output]. *)
Inductive conn_event :=
  | InSegment (e : tcp_env) (copied : bool) (h : in_hdr)
  | InRead (e : tcp_env) (len : Z)
  | InFast (e : tcp_env) (mem : bool)
  | InSlow (e : tcp_env) (mem : bool) (clen : Z)
  | InShutTx (e : tcp_env) (mem : bool)
  | InSend (f : tcp_snd -> tcp_snd)
  | InOutput (e : tcp_env).

Definition conn_step (ev : conn_event) (t : tcp_in) : bool * tcp_in :=
  match ev with
  | InSegment e copied h => tcp_input_pcb e copied h t
  | InRead e len => (false, app_recved e len t)
  | InFast e mem => fasttmr_pcb e mem t
  | InSlow e mem clen => slowtmr_pcb e mem clen t
  | InShutTx e mem => let '(_, gone, t) := tcp_shutdown e mem false true t in (gone, t)
  | InSend f => (false, on_pcb (on_snd f) t)
  | InOutput e => (false, (tcp_output e t).2)
  end.

(** Until the PCB is gone or leaves the active ones. *)
Fixpoint conn_run (evs : list conn_event) (t : tcp_in) : bool * tcp_in :=
  match evs with
  | [] => (false, t)
  | ev :: evs =>
      let '(gone, t) := conn_step ev t in
      if gone || (state (ti_pcb t) =? TIME_WAIT) then (gone, t) else conn_run evs t
  end.

Definition event_ok (St : list Z) (b : Z) (ev : conn_event) : Prop := match ev with InSegment _ _ h => seg_ok St b h | _ => True end.

Lemma step_ok St b ev t n : zlen St < 2 ^ 28 -> conn_ok St b n t -> event_ok St b ev -> outcome St b (conn_step ev t).1 (conn_step ev t).2.
Proof.
  intros Hlen Hc Hev. assert (Hsame : forall t', same_rcv t t' -> outcome St b false t').
  { intros t' H. pose proof (same_rcv_conn St b n _ _ H Hc) as Hc'. split; [by eapply conn_prefix|]. intros _ _. by exists n. }
  destruct ev as [e copied h|e len|e mem|e mem c|e mem|f|e]; cbn [conn_step].
  - by apply (input_ok St b e copied h t n).
  - apply Hsame, recved_rcv.
  - by eapply fasttmr_ok.
  - by eapply slowtmr_ok.
  - pose proof (shut_tx_ok St b e mem n t Hc) as H. by destruct (tcp_shutdown e mem false true t) as [[err gone] t1].
  - apply Hsame, snd_only_same, snd_only_snd.
  - apply Hsame, output_rcv.
Qed.

Lemma run_ok St b : zlen St < 2 ^ 28 -> forall evs t n, conn_ok St b n t -> Forall (event_ok St b) evs -> outcome St b (conn_run evs t).1 (conn_run evs t).2.
Proof.
  intros Hlen. induction evs as [|ev evs IH]; intros t n Hc Hevs; cbn [conn_run].
  { cbn [fst snd]. split; [by eapply conn_prefix|]. intros _ _. by exists n. }
  apply Forall_cons in Hevs as [Hev Hevs]. pose proof (step_ok St b ev t n Hlen Hc Hev) as Ho. destruct (conn_step ev t) as [gone t1]. cbn [fst snd] in Ho.
  destruct gone; [done|]. cbn [orb]. destruct (Z.eqb_spec (state (ti_pcb t1)) TIME_WAIT) as [E|Hne]; [done|]. destruct (proj2 Ho eq_refl Hne) as [n1 Hn1]. by apply (IH t1 n1).
Qed.

Lemma got_take St n : 0 <= n -> got St 0 n = ztake n St.
Proof.
  intros Hn. unfold got, bytes_of. pose proof (zlen_nonneg St). replace (Z.min 0 (zlen St)) with 0 by lia. change (zdrop 0 St) with St. rewrite Z.sub_0_r. unfold ztake, zlen in *.
  destruct (decide (n <= Z.of_nat (length St))); [by rewrite Z.min_l by lia|]. rewrite Z.min_r by lia. rewrite !take_ge by lia. done.
Qed.

(** A connection whose handshake is done. *)
Record conn_new (b : Z) (t : tcp_in) : Prop := ConnNew {
  cn_nxt : rcv_nxt (ti_pcb t) = u32 b;
  cn_wnd : 0 <= rcv_wnd (ti_pcb t);
  cn_ooseq : ooseq (ti_pcb t) = [];
  cn_refused : refused_data (ti_pcb t) = None;
  cn_events : ti_events t = [];
  cn_state : ESTABLISHED <= state (ti_pcb t) <= LAST_ACK;
}.

Lemma new_ok St b t : conn_new b t -> conn_ok St b 0 t.
Proof.
  intros [N1 N2 N3 N4 N5 N6]. pose proof (zlen_nonneg St). split; [split; [split; [lia|by rewrite Z.add_0_r|done]|by rewrite N3]| | |done].
  - rewrite N5, got_self. unfold held. by rewrite N4.
  - rewrite N4, N5. rewrite (proj2 (Z.eqb_neq 0 (zlen St + 1))) by lia. done.
Qed.

(** C17. A TCP connection gives the application the stream of its peer.  [St] are the bytes
    that the peer sends from sequence number [b] on, then FIN (fewer than 2^28 bytes; [b] is
    any number, so that sequence numbers may wrap); the connection is new.  Whatever happens,
    in whatever order: segments with any part of the stream, again, overlapping, reordered,
    cut by the window or not stored for lack of memory, with any acknowledgements and options;
    resets and SYNs with any numbers; data that the application refuses and that is offered
    again; reads, sends, failing sends, the timers, and shutting down its own side.  Then what the application has accepted is a prefix of
    the stream.  As long as the connection is there and not in TIME_WAIT, what it has accepted
    and what is kept for it are exactly the bytes up to [rcv_nxt], nothing lost, repeated or
    out of place, and it is told of the end exactly once, after all data, when the FIN has
    been received. *)
Theorem tcp_stream_in_order (St : list Z) (b : Z) (t : tcp_in) (evs : list conn_event) :
  zlen St < 2 ^ 28 -> conn_new b t -> Forall (event_ok St b) evs ->
  let '(gone, t') := conn_run evs t in
  accepted (ti_events t') `prefix_of` St /\
  (gone = false -> state (ti_pcb t') <> TIME_WAIT ->
   exists n, 0 <= n <= zlen St + 1 /\ rcv_nxt (ti_pcb t') = u32 (b + n) /\ accepted (ti_events t') ++ held t' = ztake n St /\
     match refused_data (ti_pcb t') with
     | None => told_closed (ti_events t') = if n =? zlen St + 1 then 1%nat else 0%nat
     | Some (_, fin) => fin = (n =? zlen St + 1) /\ told_closed (ti_events t') = 0%nat
     end).
Proof.
  intros Hlen Hnew Hevs. pose proof (run_ok St b Hlen evs t 0 (new_ok St b t Hnew) Hevs) as [H1 H2]. destruct (conn_run evs t) as [gone t']. cbn [fst snd] in *.
  split; [done|]. intros Hg Hst. destruct (H2 Hg Hst) as [n [[[I1 I2 I3] I4] C2 C3 C4]]. exists n. rewrite <- got_take by lia. done.
Qed.
