(* ===== verification/TcpSend.v ===== *)
(** The sender of a TCP connection: the queues stay sorted, nothing is forgotten before it
    has been acknowledged, and nothing is sent outside of the windows. *)
From Stdlib Require Import Sorted.
From S2P Require Import Prelude Bits Def Pbuf TcpIn TcpOut TcpProcess TcpStream.

Lemma filter_all {A} (P : A -> Prop) `{!forall x, Decision (P x)} l : Forall P l -> filter P l = l.
Proof. induction 1 as [|x l Hx _ IH]; [done|]. rewrite filter_cons_True by done. by f_equal. Qed.

Lemma s32_u32_diff x y : s32 (u32 x - u32 y) = s32 (u32 (x - y)).
Proof.
  unfold s32, u32. f_equal. rewrite Zplus_mod_idemp_l. replace (x mod 2 ^ 32 - y mod 2 ^ 32 + 2 ^ 31) with (x mod 2 ^ 32 - (y mod 2 ^ 32 - 2 ^ 31)) by lia.
  rewrite Zminus_mod_idemp_l. replace (x - (y mod 2 ^ 32 - 2 ^ 31)) with (x + 2 ^ 31 - y mod 2 ^ 32) by lia. rewrite Zminus_mod_idemp_r. f_equal. lia.
Qed.

Lemma s32_pos d : 0 <= d < 2 ^ 32 -> 0 < s32 d -> 0 < d < 2 ^ 31.
Proof.
  intros Hd. unfold s32. pose proof (Z.div_mod (d + 2 ^ 31) (2 ^ 32) ltac:(lia)). pose proof (Z.mod_pos_bound (d + 2 ^ 31) (2 ^ 32) ltac:(lia)). lia.
Qed.

(** An acknowledgement that passes the tests of [tcp_receive] is for something that has been
    sent and not been acknowledged. *)
Lemma ack_between a L N ackno :
  0 <= L <= N -> N < 2 ^ 30 -> ackno = u32 ackno -> TCP_SEQ_LEQ ackno (u32 (a + L)) = false ->
  TCP_SEQ_BETWEEN ackno (u32 (u32 (a + L) + 1)) (u32 (a + N)) = true -> exists A, L < A <= N /\ ackno = u32 (a + A).
Proof.
  intros HL HN Hu H1 H2. set (d := u32 (ackno - (a + L))). assert (Hd : 0 <= d < 2 ^ 32) by apply u32_range.
  assert (Ea : ackno = u32 (a + (L + d))).
  { unfold d. replace (a + (L + u32 (ackno - (a + L)))) with (a + L + u32 (ackno - (a + L))) by lia. rewrite u32_add_r. rewrite Hu at 1. f_equal. lia. }
  unfold TCP_SEQ_LEQ in H1. apply Z.leb_gt in H1. rewrite u32_u32, s32_u32_diff in H1. fold d in H1. apply s32_pos in H1; [|done].
  unfold TCP_SEQ_BETWEEN in H2. apply andb_true_iff in H2 as [_ H2]. rewrite Ea in H2. unfold TCP_SEQ_LEQ in H2. rewrite !u32_u32, s32_diff in H2 by lia. apply Z.leb_le in H2.
  exists (L + d). split; [lia|done].
Qed.

Section send.
  Context (a : Z).

(** Where a segment begins and ends, from [a] on. *)
Definition off (g : tcp_seg) : Z := u32 (sg_seqno g - a).

Definition seg_end (g : tcp_seg) : Z := off g + TCP_TCPLEN g.

Record seg_wf (g : tcp_seg) : Prop := SegWf {
  sw_seqno : sg_seqno g = u32 (sg_seqno g);
  sw_len : 0 < TCP_TCPLEN g;
  sw_end : seg_end g < 2 ^ 30;
}.

Definition precedes (g g' : tcp_seg) : Prop := seg_end g <= off g'.

Definition apart (g g' : tcp_seg) : Prop := precedes g g' \/ precedes g' g.

(** A queue: "These are ordered by sequence number". *)
Definition q_ok (l : list tcp_seg) : Prop := Forall seg_wf l /\ StronglySorted precedes l.

Lemma seg_off_range g : 0 <= off g < 2 ^ 32.
Proof. apply u32_range. Qed.

Lemma seqno_off g : seg_wf g -> sg_seqno g = u32 (a + off g).
Proof. intros Hg. unfold off. rewrite u32_add_r. rewrite (sw_seqno _ Hg) at 1. f_equal. lia. Qed.

Lemma wf_off g : seg_wf g -> 0 <= off g < 2 ^ 30.
Proof. intros Hg. pose proof (seg_off_range g). pose proof (sw_end _ Hg). pose proof (sw_len _ Hg). unfold seg_end in *. lia. Qed.

Lemma seg_lt g g' : seg_wf g -> seg_wf g' -> TCP_SEQ_LT (sg_seqno g) (sg_seqno g') = (off g <? off g').
Proof. intros Hg Hg'. pose proof (wf_off g Hg). pose proof (wf_off g' Hg'). rewrite (seqno_off g), (seqno_off g'), seq_lt by (done || unfold near; lia). done. Qed.

Lemma q_cons g l : q_ok (g :: l) <-> seg_wf g /\ Forall (precedes g) l /\ q_ok l.
Proof. unfold q_ok. rewrite Forall_cons. split; [intros [[? ?] Hs]; apply StronglySorted_inv in Hs; naive_solver|intros (? & ? & ? & ?); split; [done|by constructor]]. Qed.

Lemma precedes_trans g g' g'' : seg_wf g' -> precedes g g' -> precedes g' g'' -> precedes g g''.
Proof. intros Hg. unfold precedes, seg_end in *. pose proof (sw_len _ Hg). lia. Qed.

(** Putting a segment into its place. *)
Lemma seg_insert_ok g : forall l, seg_wf g -> q_ok l -> Forall (apart g) l -> q_ok (seg_insert g l) /\ seg_insert g l ≡ₚ g :: l.
Proof.
  induction l as [|c l IH]; intros Hg Hq Ha; cbn [seg_insert]; [split; [by apply q_cons|done]|].
  apply Forall_cons in Ha as [Hac Ha]. pose proof Hq as (Hc & Hcl & Hl)%q_cons. rewrite seg_lt by done. destruct (Z.ltb_spec (off c) (off g)) as [Hlt|Hge].
  - destruct (IH Hg Hl Ha) as [H1 H2]. split; [|by rewrite H2, perm_swap]. apply q_cons. split_and!; [done| |done]. rewrite H2. apply Forall_cons. split; [|done].
    destruct Hac as [Hac|Hac]; [|done]. unfold precedes, seg_end in *. pose proof (sw_len _ Hg). lia.
  - split; [|done]. apply q_cons. assert (Hgc : precedes g c).
    { destruct Hac as [Hac|Hac]; [done|]. unfold precedes, seg_end in *. pose proof (sw_len _ Hc). lia. }
    split_and!; [done| |done]. apply Forall_cons. split; [done|]. eapply Forall_impl; [exact Hcl|]. intros x. by apply precedes_trans.
Qed.

Lemma snoc_ok g : forall l, seg_wf g -> q_ok l -> Forall (apart g) l -> (forall u, last l = Some u -> off u <= off g) -> q_ok (l ++ [g]).
Proof.
  induction l as [|c l IH]; intros Hg Hq Ha Hlast; [by apply q_cons|]. apply Forall_cons in Ha as [Hac Ha]. pose proof Hq as (Hc & Hcl & Hl)%q_cons. cbn [app].
  assert (Hcg : off c <= off g).
  { destruct (last l) as [u|] eqn:E; [|apply last_None in E as ->; by apply Hlast].
    assert (Hu : u ∈ l) by (by apply last_Some_elem_of). rewrite Forall_forall in Hcl. specialize (Hcl u Hu). specialize (Hlast u ltac:(by rewrite last_cons, E)). unfold precedes, seg_end in *. pose proof (sw_len _ Hc). lia. }
  apply q_cons. split_and!; [done| |].
  - apply Forall_app. split; [done|]. apply Forall_singleton. destruct Hac as [Hac|Hac]; [|done]. unfold precedes, seg_end in *. pose proof (sw_len _ Hg). lia.
  - apply IH; try done. intros u Hu. apply Hlast. by rewrite last_cons, Hu.
Qed.

Lemma put_unacked_ok g l : seg_wf g -> q_ok l -> Forall (apart g) l -> q_ok (put_unacked g l) /\ put_unacked g l ≡ₚ g :: l.
Proof.
  intros Hg Hq Ha. unfold put_unacked. destruct (last l) as [u|] eqn:E.
  - assert (Hu : seg_wf u) by (apply last_Some_elem_of in E; destruct Hq as [Hw _]; rewrite Forall_forall in Hw; by apply Hw). rewrite seg_lt by done.
    destruct (Z.ltb_spec (off g) (off u)); [by apply seg_insert_ok|]. split; [|by rewrite Permutation_app_comm]. apply snoc_ok; try done. intros u' [= <-]%(eq_trans (eq_sym E)). done.
  - apply last_None in E as ->. split; [by apply q_cons|done].
Qed.

(** Removing what is acknowledged. *)
Lemma free_acked_ok A : 0 <= A < 2 ^ 30 -> forall l ql ra, q_ok l ->
  (tcp_free_acked_segments (u32 (a + A)) l ql ra).1.1 = filter (fun g => A < seg_end g) l /\ q_ok (tcp_free_acked_segments (u32 (a + A)) l ql ra).1.1.
Proof.
  intros HA. induction l as [|g l IH]; intros ql ra Hq; cbn [tcp_free_acked_segments]; [done|]. pose proof Hq as (Hg & Hgl & Hl)%q_cons. pose proof (wf_off g Hg). pose proof (sw_len _ Hg). pose proof (sw_end _ Hg). unfold seg_end in *.
  rewrite (seqno_off g Hg), u32_add. replace (a + off g + TCP_TCPLEN g) with (a + (off g + TCP_TCPLEN g)) by lia. rewrite seq_leq by (unfold near; lia). rewrite filter_cons.
  destruct (Z.leb_spec (off g + TCP_TCPLEN g) A); [rewrite decide_False by (unfold seg_end; lia); by apply IH|]. rewrite decide_True by (unfold seg_end; lia). cbn [fst]. split; [|done]. f_equal. symmetry.
  apply filter_all. destruct Hl as [Hw _]. rewrite Forall_forall in Hgl, Hw |- *. intros x Hin. specialize (Hgl x Hin). specialize (Hw x Hin). rename Hgl into Hx, Hw into Hwx.
  unfold precedes, seg_end in *. pose proof (sw_len _ Hwx). lia.
Qed.

(** What has to be kept of a segment. *)
Definition payload (g : tcp_seg) : Z * Z * list Z := (sg_seqno g, TCP_TCPLEN g, sg_data g).

Definition pl_end (x : Z * Z * list Z) : Z := u32 (x.1.1 - a) + x.1.2.

Definition pending (s : tcp_snd) : list (Z * Z * list Z) := map payload (unacked s ++ unsent s).

(** Everything up to [L] has been acknowledged, and everything up to [N] has been sent. *)
Record send_ok (L N : Z) (s : tcp_snd) : Prop := SendOk {
  sd_last : lastack s = u32 (a + L);
  sd_nxt : snd_nxt s = u32 (a + N);
  sd_range : 0 <= L <= N /\ N < 2 ^ 30;
  sd_unacked : q_ok (unacked s);
  sd_unsent : q_ok (unsent s);
  sd_apart : forall g g', g ∈ unacked s -> g' ∈ unsent s -> apart g g';
  sd_left : Forall (fun g => L < seg_end g) (unacked s ++ unsent s);
}.

(** The fields that matter are the same. *)
Definition same_queues (s s' : tcp_snd) : Prop := lastack s' = lastack s /\ snd_nxt s' = snd_nxt s /\ unacked s' = unacked s /\ unsent s' = unsent s.

Lemma same_queues_ok L N s s' : same_queues s s' -> send_ok L N s -> send_ok L N s' /\ pending s' = pending s.
Proof. intros (E1 & E2 & E3 & E4) []. unfold pending. rewrite E3, E4. split; [|done]. split; rewrite ?E1, ?E2, ?E3, ?E4; done. Qed.

(** The first unacknowledged segment goes back to the unsent ones. *)
Lemma rexmit_ok L N p : send_ok L N (p_snd p) ->
  send_ok L N (p_snd (tcp_rexmit p).2) /\ pending (p_snd (tcp_rexmit p).2) ≡ₚ pending (p_snd p).
Proof.
  intros Hs. unfold tcp_rexmit. destruct (unacked (p_snd p)) as [|g l] eqn:Eu; [done|]. destruct (sg_busy g); [done|]. cbn [snd p_snd set_p_snd]. destruct Hs as [S1 S2 S3 S4 S5 S6 S7]. unfold pending. rewrite Eu in S4, S6, S7 |- *.
  apply q_cons in S4 as (Hg & Hgl & Hl). assert (Ha : Forall (apart g) (unsent (p_snd p))) by (rewrite Forall_forall; intros x Hx; apply S6; [by left|done]).
  destruct (seg_insert_ok g (unsent (p_snd p)) Hg S5 Ha) as [I1 I2]. set (q := seg_insert g (unsent (p_snd p))) in *.
  set (s1 := if forallb _ _ then _ else _). set (s2 := set_rttest 0 (inc_nrtx s1)).
  assert (E : lastack s2 = lastack (p_snd p) /\ snd_nxt s2 = snd_nxt (p_snd p) /\ unacked s2 = l /\ unsent s2 = q) by (unfold s2, inc_nrtx, s1; destruct (forallb _ _), (nrtx _ <? _); done).
  destruct E as (E1 & E2 & E3 & E4). rewrite E3, E4. assert (Hperm : l ++ q ≡ₚ (g :: l) ++ unsent (p_snd p)) by (rewrite I2; cbn; by rewrite Permutation_middle).
  split; [|by rewrite Hperm]. split; rewrite ?E1, ?E2, ?E3, ?E4; try done; [|by rewrite Hperm].
  intros x y Hx Hy. rewrite I2 in Hy. apply elem_of_cons in Hy as [->|Hy]; [|by apply S6; [right|]]. right. rewrite Forall_forall in Hgl. by apply Hgl.
Qed.

Lemma rexmit_fast_ok L N p : send_ok L N (p_snd p) ->
  send_ok L N (p_snd (tcp_rexmit_fast p)) /\ pending (p_snd (tcp_rexmit_fast p)) ≡ₚ pending (p_snd p).
Proof.
  intros Hs. unfold tcp_rexmit_fast. destruct (_ && _); [|done]. pose proof (rexmit_ok L N p Hs) as [H1 H2]. destruct (tcp_rexmit p) as [err p']. cbn [snd] in *. destruct (err =? ERR_OK); [|done].
  set (s' := p_snd (tcp_set_flags _ _)). destruct (same_queues_ok L N (p_snd p') s' ltac:(done) H1) as [H3 H4]. by rewrite H4.
Qed.

(** What is left of a list when everything up to [L] is acknowledged. *)
Definition left_of (L : Z) (l : list (Z * Z * list Z)) : list (Z * Z * list Z) := filter (fun x => L < pl_end x) l.

Lemma left_map L l : left_of L (map payload l) = map payload (filter (fun g => L < seg_end g) l).
Proof.
  unfold left_of. induction l as [|g l IH]; [done|]. cbn [map]. rewrite !filter_cons, IH. change (pl_end (payload g)) with (seg_end g). by destruct (decide (L < seg_end g)).
Qed.

Lemma left_self L N s : send_ok L N s -> left_of L (pending s) = pending s.
Proof. intros Hs. unfold pending. rewrite left_map, filter_all; [done|]. apply (sd_left _ _ _ Hs). Qed.

Lemma left_left L L' l : L <= L' -> left_of L' (left_of L l) = left_of L' l.
Proof.
  intros HL. unfold left_of. induction l as [|x l IH]; [done|]. rewrite !filter_cons. destruct (decide (L < pl_end x)); rewrite ?filter_cons; destruct (decide (L' < pl_end x)); try lia; by rewrite IH.
Qed.

Lemma left_perm L l l' : l ≡ₚ l' -> left_of L l ≡ₚ left_of L l'.
Proof. intros H. unfold left_of. by rewrite H. Qed.

Lemma newack_ok L N A h t : send_ok L N (p_snd (ti_pcb t)) -> L < A <= N -> ih_ackno h = u32 (a + A) ->
  send_ok A N (p_snd (ti_pcb (receive_newack h t))) /\ pending (p_snd (ti_pcb (receive_newack h t))) = left_of A (pending (p_snd (ti_pcb t))).
Proof.
  intros Hs HA Hack. unfold receive_newack. cbv zeta. set (p1 := if negb _ then _ else ti_pcb t).
  assert (H1 : same_queues (p_snd (ti_pcb t)) (p_snd p1)) by (unfold p1; by destruct (negb _)). clearbody p1.
  set (p2 := on_snd _ p1). assert (E2 : snd_nxt (p_snd p2) = snd_nxt (p_snd p1) /\ unacked (p_snd p2) = unacked (p_snd p1) /\ unsent (p_snd p2) = unsent (p_snd p1) /\ lastack (p_snd p2) = ih_ackno h) by done. clearbody p2.
  set (p3 := if _ <=? _ then _ else p2). assert (H3 : same_queues (p_snd p2) (p_snd p3)).
  { unfold p3. destruct (_ <=? _); [|done]. unfold update_cwnd. cbv zeta. destruct (_ <? _); [done|]. by destruct (_ <=? _). }
  clearbody p3. destruct H1 as (A1 & A2 & A3 & A4). destruct E2 as (B2 & B3 & B4 & B1). destruct H3 as (C1 & C2 & C3 & C4).
  assert (Eu : unacked (p_snd p3) = unacked (p_snd (ti_pcb t)) /\ unsent (p_snd p3) = unsent (p_snd (ti_pcb t))) by (split; congruence). destruct Eu as [Eu1 Eu2]. rewrite Eu1, Eu2, Hack.
  destruct Hs as [S1 S2 S3 S4 S5 S6 S7]. destruct (free_acked_ok A ltac:(lia) (unacked (p_snd (ti_pcb t))) (snd_queuelen (p_snd p3)) (recv_acked t) S4) as [F1 F2].
  destruct (tcp_free_acked_segments _ (unacked _) _ _) as [[ua ql] ra]. cbn [fst] in F1, F2. destruct (free_acked_ok A ltac:(lia) (unsent (p_snd (ti_pcb t))) ql ra S5) as [F3 F4].
  destruct (tcp_free_acked_segments _ (unsent _) _ _) as [[us ql'] ra']. cbn [fst] in F3, F4. set (s := set_snd_buf _ _).
  assert (Es : lastack s = u32 (a + A) /\ snd_nxt s = u32 (a + N) /\ unacked s = ua /\ unsent s = us) by (unfold s; destruct us; cbn; split_and!; congruence). clearbody s.
  assert (Er : p_snd (end_rto (set_p_snd s p3)) = s) by (unfold end_rto; by destruct (_ && _)). cbn [ti_pcb set_recv_acked set_ti_pcb]. rewrite Er. destruct Es as (X1 & X2 & X3 & X4).
  split; [|unfold pending; rewrite X3, X4, left_map, filter_app, F1, F3; done].
  split; rewrite ?X3, ?X4; try done; [lia| |].
  - intros g g' Hg Hg'. rewrite F1 in Hg. rewrite F3 in Hg'. apply list_elem_of_filter in Hg as [_ Hg]. apply list_elem_of_filter in Hg' as [_ Hg']. by apply S6.
  - rewrite F1, F3, <- filter_app. apply Forall_forall. intros x Hx. by apply list_elem_of_filter in Hx as [Hx _].
Qed.

(** What an operation does to the queues: [L] moves on, and what is not acknowledged stays. *)
Definition step_keeps (L N L' N' : Z) (s s' : tcp_snd) : Prop := L <= L' /\ N <= N' /\ send_ok L' N' s' /\ pending s' ≡ₚ left_of L' (pending s).

Lemma keeps_same L N s s' : send_ok L N s -> same_queues s s' -> step_keeps L N L N s s'.
Proof. intros Hs Hq. destruct (same_queues_ok L N s s' Hq Hs) as [H1 H2]. split_and!; [lia|lia|done|]. by rewrite H2, (left_self L N). Qed.

Lemma keeps_trans L N L' N' L'' N'' s s' s'' : step_keeps L N L' N' s s' -> step_keeps L' N' L'' N'' s' s'' -> step_keeps L N L'' N'' s s''.
Proof.
  intros (H1 & H2 & H3 & H4) (K1 & K2 & K3 & K4). split_and!; [lia|lia|done|]. rewrite K4, (left_perm L'' _ _ H4), left_left by lia. done.
Qed.

Lemma receive_ack_ok e h L N t : ih_ackno h = u32 (ih_ackno h) -> send_ok L N (p_snd (ti_pcb t)) ->
  exists L', step_keeps L N L' N (p_snd (ti_pcb t)) (p_snd (ti_pcb (receive_ack e h t))).
Proof.
  intros Hu Hs. unfold receive_ack. destruct (ih_flag h TCP_ACK); [|exists L; by apply keeps_same]. cbv zeta. set (t1 := on_pcb (update_snd_wnd h) t).
  assert (H1 : step_keeps L N L N (p_snd (ti_pcb t)) (p_snd (ti_pcb t1))) by (apply keeps_same; [done|]; unfold t1, update_snd_wnd; cbn; by destruct (_ || _)).
  assert (Hs1 : send_ok L N (p_snd (ti_pcb t1))) by apply H1. clearbody t1. set (t2 := if TCP_SEQ_LEQ _ _ then _ else _).
  assert (H2 : exists L', step_keeps L N L' N (p_snd (ti_pcb t1)) (p_snd (ti_pcb t2))).
  { unfold t2. clear t2. rewrite (sd_last _ _ _ Hs1), (sd_nxt _ _ _ Hs1). destruct (TCP_SEQ_LEQ _ _) eqn:E1; [exists L|destruct (TCP_SEQ_BETWEEN _ _ _) eqn:E2].
    - unfold on_pcb, receive_dupack. cbv zeta. cbn [ti_pcb set_ti_pcb]. destruct (_ && _); [|by apply keeps_same]. set (p1 := if dupacks _ <? _ then _ else _). set (p2 := if 3 <? _ then _ else p1).
      assert (Hq : same_queues (p_snd (ti_pcb t1)) (p_snd p2)) by (unfold p2, p1; by destruct (3 <? _), (dupacks _ <? _)). clearbody p2. clear p1. destruct (3 <=? _); [|by apply keeps_same].
      destruct (same_queues_ok L N _ _ Hq Hs1) as [Hs2 Hp2]. destruct (rexmit_fast_ok L N p2 Hs2) as [R1 R2]. split_and!; [lia|lia|done|]. by rewrite R2, Hp2, (left_self L N).
    - destruct (sd_range _ _ _ Hs1) as [HL HN]. destruct (ack_between a L N (ih_ackno h) HL HN Hu E1 E2) as (A & HA & EA). destruct (newack_ok L N A h t1 Hs1 HA EA) as [K1 K2].
      exists A. split_and!; [lia|lia|done|by rewrite K2].
    - exists L. apply keeps_same; [done|]. unfold tcp_send_empty_ack, next_send. destruct (ti_sends t1) as [|[x|] r]; try done. by destruct (x =? ERR_OK). }
  destruct H2 as [L' H2]. exists L'. eapply keeps_trans; [exact H1|]. eapply keeps_trans; [exact H2|]. apply keeps_same; [apply H2|]. cbn. unfold update_rtt. by destruct (_ && _).
Qed.

(** ** Output *)
Lemma tcplen_ack g : TCP_TCPLEN (set_ack g) = TCP_TCPLEN g.
Proof. unfold TCP_TCPLEN. cbn. rewrite Z.land_lor_distr_l. change (Z.land TCP_ACK (TCP_FIN .| TCP_SYN)) with 0. by rewrite Z.lor_0_r. Qed.

Lemma payload_ack g : payload (set_ack g) = payload g.
Proof. unfold payload. by rewrite tcplen_ack. Qed.

Lemma end_ack g : seg_end (set_ack g) = seg_end g.
Proof. unfold seg_end. by rewrite tcplen_ack. Qed.

Lemma wf_ack g : seg_wf g -> seg_wf (set_ack g).
Proof. intros [H1 H2 H3]. split; [done|by rewrite tcplen_ack|by rewrite end_ack]. Qed.

(** The ACK flag of the first unsent segment. *)
Lemma set_ack_ok L N s g l : unsent s = g :: l -> send_ok L N s -> step_keeps L N L N s (set_unsent (set_ack g :: l) s).
Proof.
  intros Eu Hs. pose proof (left_self L N s Hs) as Hl. destruct Hs as [S1 S2 S3 S4 S5 S6 S7]. rewrite Eu in S5, S6, S7. apply q_cons in S5 as (Hg & Hgl & Hq).
  split_and!; [lia|lia| |rewrite Hl; unfold pending; rewrite Eu; cbn; by rewrite !map_app; cbn; rewrite payload_ack].
  split; cbn; try done.
  - apply q_cons. split_and!; [by apply wf_ack| |done]. eapply Forall_impl; [exact Hgl|]. intros x. unfold precedes. by rewrite end_ack.
  - intros x y Hx Hy. apply elem_of_cons in Hy as [->|Hy]; [|apply S6; [done|by right]]. specialize (S6 x g Hx ltac:(by left)). unfold apart, precedes in *. by rewrite end_ack.
  - apply Forall_app in S7 as [S7 S8]. apply Forall_app. split; [done|]. apply Forall_cons in S8 as [S8 S9]. apply Forall_cons. split; [by rewrite end_ack|done].
Qed.

Lemma output_segment_queues e g t : same_queues (p_snd (ti_pcb t)) (p_snd (ti_pcb (tcp_output_segment e g t).2)).
Proof.
  unfold tcp_output_segment. destruct (sg_busy g); [done|]. cbv zeta. set (p := if rttest _ =? 0 then _ else _). assert (H : same_queues (p_snd (ti_pcb t)) (p_snd p)) by (unfold p; by destruct (rtime _ <? 0), (rttest _ =? 0)).
  clearbody p. unfold next_send. by destruct (ti_sends (set_ti_pcb p t)).
Qed.

Lemma segment_sent_unsent g l p : unsent (p_snd (segment_sent g l p)) = l.
Proof. unfold segment_sent. cbv zeta. repeat case_match; reflexivity. Qed.

(** A segment that has been sent waits for its acknowledgement. *)
Lemma segment_sent_ok L N p g l : unsent (p_snd p) = g :: l -> send_ok L N (p_snd p) -> exists N', step_keeps L N L N' (p_snd p) (p_snd (segment_sent g l p)).
Proof.
  intros Eu Hs. pose proof (left_self L N (p_snd p) Hs) as Hl. destruct Hs as [S1 S2 S3 S4 S5 S6 S7]. rewrite Eu in S5, S6, S7. apply q_cons in S5 as (Hg & Hgl & Hq).
  pose proof (wf_off g Hg). pose proof (sw_len _ Hg). pose proof (sw_end _ Hg) as Hend.
  assert (Ha : Forall (apart g) (unacked (p_snd p))) by (rewrite Forall_forall; intros x Hx; specialize (S6 x g Hx ltac:(by left)); unfold apart in *; tauto).
  destruct (put_unacked_ok g (unacked (p_snd p)) Hg S4 Ha) as [P1 P2]. unfold seg_end in Hend. exists (Z.max N (seg_end g)). unfold segment_sent. cbv zeta.
  set (p1 := if negb _ then _ else on_snd (set_unsent l) p). assert (E1 : lastack (p_snd p1) = lastack (p_snd p) /\ snd_nxt (p_snd p1) = snd_nxt (p_snd p) /\ unacked (p_snd p1) = unacked (p_snd p) /\ unsent (p_snd p1) = l) by (unfold p1; by destruct (negb _)).
  clearbody p1. destruct E1 as (A1 & A2 & A3 & A4). rewrite A2, S2, (seqno_off g Hg), u32_add. replace (a + off g + TCP_TCPLEN g) with (a + seg_end g) by (unfold seg_end; lia). unfold seg_end in *. rewrite seq_lt by (unfold near; lia).
  set (p2 := if N <? _ then _ else p1). assert (E2 : lastack (p_snd p2) = u32 (a + L) /\ snd_nxt (p_snd p2) = u32 (a + Z.max N (off g + TCP_TCPLEN g)) /\ unacked (p_snd p2) = unacked (p_snd p) /\ unsent (p_snd p2) = l).
  { unfold p2. destruct (Z.ltb_spec N (off g + TCP_TCPLEN g)); cbn; split_and!; try congruence; [by rewrite Z.max_r by lia|]. rewrite Z.max_l by lia. congruence. }
  clearbody p2. destruct E2 as (B1 & B2 & B3 & B4). destruct (Z.ltb_spec 0 (TCP_TCPLEN g)); [|lia]. cbn. rewrite B3.
  assert (Hperm : put_unacked g (unacked (p_snd p)) ++ l ≡ₚ unacked (p_snd p) ++ g :: l) by (rewrite P2; cbn; by rewrite Permutation_middle).
  split_and!; [lia|lia| |].
  - split; cbn; rewrite ?B4; try done; [lia| |by rewrite Hperm]. intros x y Hx Hy. rewrite P2 in Hx. apply elem_of_cons in Hx as [->|Hx]; [|apply S6; [done|by right]]. left. rewrite Forall_forall in Hgl. by apply Hgl.
  - rewrite Hl. unfold pending. cbn. rewrite B4, Eu, Hperm. done.
Qed.

Lemma output_end_ok L N t : send_ok L N (p_snd (ti_pcb t)) -> step_keeps L N L N (p_snd (ti_pcb t)) (p_snd (ti_pcb (output_end t).2)).
Proof. intros Hs. apply keeps_same; [done|]. unfold output_end, output_done, on_pcb. cbn. by destruct (unsent _). Qed.

Lemma output_loop_ok e wnd L : forall l t N, unsent (p_snd (ti_pcb t)) = l -> send_ok L N (p_snd (ti_pcb t)) ->
  exists N', step_keeps L N L N' (p_snd (ti_pcb t)) (p_snd (ti_pcb (output_loop e wnd l t).2)).
Proof.
  induction l as [|g l IH]; intros t N Eu Hs; cbn [output_loop]; [exists N; by apply output_end_ok|]. destruct (fits _ _ _); [|exists N; by apply output_end_ok]. destruct (_ && _); [exists N; by apply output_end_ok|].
  set (g' := if negb _ then set_ack g else g). set (t1 := on_pcb (on_snd (set_unsent (g' :: l))) t).
  assert (H1 : step_keeps L N L N (p_snd (ti_pcb t)) (p_snd (ti_pcb t1))).
  { unfold t1, g'. destruct (negb _); [by apply set_ack_ok|]. apply keeps_same; [done|]. unfold same_queues. cbn. by rewrite Eu. }
  assert (E1 : unsent (p_snd (ti_pcb t1)) = g' :: l) by done. clearbody t1. pose proof (output_segment_queues e g' t1) as H2. destruct (tcp_output_segment e g' t1) as [err t2]. cbn [snd] in H2.
  assert (H3 : step_keeps L N L N (p_snd (ti_pcb t)) (p_snd (ti_pcb t2))) by (eapply keeps_trans; [exact H1|]; apply keeps_same; [apply H1|done]). assert (E2 : unsent (p_snd (ti_pcb t2)) = g' :: l) by (destruct H2 as (_ & _ & _ & ->); done).
  destruct (negb (err =? ERR_OK)); [exists N; eapply keeps_trans; [exact H3|]; apply keeps_same; [apply H3|done]|].
  destruct (segment_sent_ok L N (ti_pcb t2) g' l E2 ltac:(apply H3)) as [N1 H4]. set (t3 := on_pcb (segment_sent g' l) t2). assert (E3 : unsent (p_snd (ti_pcb t3)) = l).
  { apply segment_sent_unsent. }
  destruct (IH t3 N1 E3 ltac:(apply H4)) as [N2 H5]. exists N2. eapply keeps_trans; [exact H3|]. eapply keeps_trans; [exact H4|exact H5].
Qed.

Lemma empty_ack_queues t : same_queues (p_snd (ti_pcb t)) (p_snd (ti_pcb (tcp_send_empty_ack t).2)).
Proof. unfold tcp_send_empty_ack, next_send. destruct (ti_sends t) as [|[x|] r]; try done. by destruct (x =? ERR_OK). Qed.

Lemma output_ok e L N t : send_ok L N (p_snd (ti_pcb t)) -> exists N', step_keeps L N L N' (p_snd (ti_pcb t)) (p_snd (ti_pcb (tcp_output e t).2)).
Proof.
  intros Hs. unfold tcp_output. destruct (te_input e); [exists N; by apply keeps_same|]. cbv zeta. assert (Hack : forall t', same_queues (p_snd (ti_pcb t)) (p_snd (ti_pcb t')) ->
    exists N', step_keeps L N L N' (p_snd (ti_pcb t)) (p_snd (ti_pcb (if negb (pflags (ti_pcb t') .& TF_ACK_NOW =? 0) then tcp_send_empty_ack t' else output_done t').2))).
  { intros t' Hq. exists N. apply keeps_same; [done|]. destruct (negb _); [|done]. unfold same_queues. destruct (empty_ack_queues t') as (-> & -> & -> & ->). done. }
  destruct (unsent (p_snd (ti_pcb t))) as [|g l] eqn:Eu; [by apply Hack|]. destruct (te_route e); [|exists N; by apply keeps_same]. destruct (negb (te_local e)); [exists N; by apply keeps_same|].
  destruct (negb (fits _ _ _)); [apply Hack; by destruct (_ && _)|]. rewrite <- Eu. set (t1 := on_pcb (on_snd (set_persist_backoff 0)) t).
  assert (H1 : step_keeps L N L N (p_snd (ti_pcb t)) (p_snd (ti_pcb t1))) by (by apply keeps_same). destruct (output_loop_ok e (Z.min (snd_wnd (p_snd (ti_pcb t))) (cwnd (p_snd (ti_pcb t)))) L (unsent (p_snd (ti_pcb t))) t1 N eq_refl ltac:(apply H1)) as [N' H2].
  exists N'. eapply keeps_trans; [exact H1|exact H2].
Qed.
End send.

(** ** What is sent *)

(** A segment lies in the window [wnd] that begins at [lack]. *)
Definition in_window (wnd lack : Z) (k : tcp_packet) : Prop := match k with PSeg g _ _ _ => u32 (sg_seqno g - lack + sg_len g) <= wnd | _ => True end.

Fixpoint sent_payloads (l : list tcp_packet) : list (Z * Z * list Z) :=
  match l with
  | [] => []
  | PSeg g _ _ _ :: l => payload g :: sent_payloads l
  | _ :: l => sent_payloads l
  end.

(** The packets that an operation adds. *)
Definition adds (wnd lack : Z) (q : list tcp_seg) (t t' : tcp_in) : Prop :=
  exists new, ti_out t' = ti_out t ++ new /\ Forall (in_window wnd lack) new /\ sent_payloads new `sublist_of` map payload q.

Lemma adds_nothing wnd lack q t t' : ti_out t' = ti_out t -> adds wnd lack q t t'.
Proof. intros E. exists []. rewrite E, app_nil_r. split_and!; [done|done|apply sublist_nil_l]. Qed.

Lemma adds_seg wnd lack e g q t : fits wnd lack g = true ->
  adds wnd lack (g :: q) t (tcp_output_segment e g t).2 /\ lastack (p_snd (ti_pcb (tcp_output_segment e g t).2)) = lastack (p_snd (ti_pcb t)).
Proof.
  intros Hf. split; [|by destruct (output_segment_queues e g t)]. unfold tcp_output_segment. destruct (sg_busy g); [by apply adds_nothing|]. cbv zeta. set (p := if rttest _ =? 0 then _ else _). clearbody p. unfold next_send.
  apply Z.leb_le in Hf. destruct (ti_sends (set_ti_pcb p t)) as [|r rest]; cbn; (eexists; split_and!; [done|by apply Forall_singleton|]; cbn; apply sublist_skip, sublist_nil_l).
Qed.

Lemma adds_trans wnd lack g q t t' t'' : adds wnd lack [g] t t' -> adds wnd lack q t' t'' -> adds wnd lack (g :: q) t t''.
Proof.
  intros (n1 & E1 & F1 & S1) (n2 & E2 & F2 & S2). exists (n1 ++ n2). rewrite E2, E1, app_assoc. split_and!; [done|by apply Forall_app|].
  assert (Ea : sent_payloads (n1 ++ n2) = sent_payloads n1 ++ sent_payloads n2) by (clear; induction n1 as [|[] n1 IH]; cbn; rewrite ?IH; done). rewrite Ea. change (map payload (g :: q)) with (map payload [g] ++ map payload q). by apply sublist_app.
Qed.

Lemma fits_ack wnd lack g : fits wnd lack (set_ack g) = fits wnd lack g.
Proof. done. Qed.

Lemma output_end_adds wnd lack q t : adds wnd lack q t (output_end t).2.
Proof. by apply adds_nothing. Qed.

Lemma output_loop_adds e wnd : forall l t, adds wnd (lastack (p_snd (ti_pcb t))) l t (output_loop e wnd l t).2.
Proof.
  induction l as [|g l IH]; intros t; cbn [output_loop]; [apply output_end_adds|]. destruct (fits _ _ _) eqn:Ef; [|apply output_end_adds]. destruct (_ && _); [apply output_end_adds|].
  set (g' := if negb _ then set_ack g else g). assert (Hf : fits wnd (lastack (p_snd (ti_pcb t))) g' = true) by (unfold g'; by destruct (negb _)). assert (Hp : payload g' = payload g) by (unfold g'; destruct (negb _); [apply payload_ack|done]).
  set (t1 := on_pcb (on_snd (set_unsent (g' :: l))) t). destruct (adds_seg wnd (lastack (p_snd (ti_pcb t))) e g' [] t1 Hf) as [A1 A2]. destruct (tcp_output_segment e g' t1) as [err t2]. cbn [snd] in *.
  assert (A3 : adds wnd (lastack (p_snd (ti_pcb t))) [g] t t2). { destruct A1 as (n & E & F & S). exists n. split_and!; [done|done|]. cbn in S |- *. by rewrite <- Hp. }
  destruct (negb (err =? ERR_OK)); [apply (adds_trans _ _ g l _ t2); [done|by apply adds_nothing]|]. set (t3 := on_pcb (segment_sent g' l) t2).
  assert (El : lastack (p_snd (ti_pcb t3)) = lastack (p_snd (ti_pcb t))).
  { transitivity (lastack (p_snd (ti_pcb t2))); [|done]. unfold t3, on_pcb, segment_sent. cbv zeta. cbn [ti_pcb set_ti_pcb]. repeat case_match; reflexivity. }
  specialize (IH t3). rewrite El in IH. by apply (adds_trans _ _ g l _ t2).
Qed.

(** ** Claims *)

(** C21. [tcp_output] sends inside the windows.  Every segment that it hands to IP ends at most
    the smaller of the peer's window and the congestion window behind the last
    acknowledgement, whatever the state of the connection, the Nagle algorithm, missing
    routes and failures of IP; and what it sends are segments of the unsent queue, in
    their order. *)
Theorem tcp_output_window (e : tcp_env) (t : tcp_in) :
  let s := p_snd (ti_pcb t) in
  exists new, ti_out (tcp_output e t).2 = ti_out t ++ new /\ Forall (in_window (Z.min (snd_wnd s) (cwnd s)) (lastack s)) new /\
    sent_payloads new `sublist_of` map payload (unsent s).
Proof.
  cbv zeta. change (adds (Z.min (snd_wnd (p_snd (ti_pcb t))) (cwnd (p_snd (ti_pcb t)))) (lastack (p_snd (ti_pcb t))) (unsent (p_snd (ti_pcb t))) t (tcp_output e t).2).
  assert (Hack : forall wnd lack q t', ti_out t' = ti_out t -> adds wnd lack q t (if negb (pflags (ti_pcb t') .& TF_ACK_NOW =? 0) then tcp_send_empty_ack t' else output_done t').2).
  { intros wnd lack q t' E. destruct (negb _); [|by apply adds_nothing]. unfold tcp_send_empty_ack, next_send. destruct (ti_sends t') as [|[x|] r]; [by apply adds_nothing| |by apply adds_nothing].
    eexists. cbn. split_and!; [by rewrite E|by apply Forall_singleton|apply sublist_nil_l]. }
  unfold tcp_output. destruct (te_input e); [by apply adds_nothing|]. cbv zeta. destruct (unsent (p_snd (ti_pcb t))) as [|g l] eqn:Eu; [by apply Hack|]. destruct (te_route e); [|by apply adds_nothing].
  destruct (negb (te_local e)); [by apply adds_nothing|]. destruct (negb (fits _ _ _)); [apply Hack; by destruct (_ && _)|].
  apply (output_loop_adds e (Z.min (snd_wnd (p_snd (ti_pcb t))) (cwnd (p_snd (ti_pcb t)))) (g :: l) (on_pcb (on_snd (set_persist_backoff 0)) t)).
Qed.

(** What happens to the sender: a segment with an acknowledgement arrives, or
    [tcp_output] is called. *)
Inductive snd_op := OpAck (e : tcp_env) (h : in_hdr) | OpOutput (e : tcp_env).

Definition snd_step (t : tcp_in) (op : snd_op) : tcp_in :=
  match op with OpAck e h => receive_ack e h t | OpOutput e => (tcp_output e t).2 end.

Definition op_ok (op : snd_op) : Prop := match op with OpAck _ h => ih_ackno h = u32 (ih_ackno h) | OpOutput _ => True end.

(** C18. The sender forgets nothing before it is acknowledged.  Sequence numbers are counted
    from [a]; up to [L] everything has been acknowledged.  Whatever acknowledgements arrive,
    duplicates that start a fast retransmission, old ones, ones for data that was never sent
    and ones inside a segment included, and whenever [tcp_output] is called, with failures of
    IP: the two queues stay in the order of their sequence numbers, and together they have
    exactly the segments that end behind what is acknowledged, with their data; what is
    acknowledged never moves back. *)
Theorem tcp_sender_keeps (a L N : Z) (t : tcp_in) (ops : list snd_op) :
  send_ok a L N (p_snd (ti_pcb t)) -> Forall op_ok ops ->
  let s := p_snd (ti_pcb t) in
  let s' := p_snd (ti_pcb (foldl snd_step t ops)) in
  exists L' N', L <= L' <= N' /\ lastack s' = u32 (a + L') /\ snd_nxt s' = u32 (a + N') /\
    StronglySorted (precedes a) (unacked s') /\ StronglySorted (precedes a) (unsent s') /\
    map payload (unacked s' ++ unsent s') ≡ₚ filter (fun x => L' < pl_end a x) (map payload (unacked s ++ unsent s)).
Proof.
  intros Hs Hops. cbv zeta. assert (H : exists L' N', step_keeps a L N L' N' (p_snd (ti_pcb t)) (p_snd (ti_pcb (foldl snd_step t ops)))).
  { revert t L N Hs. induction Hops as [|op ops Hop Hops IH]; intros t L N Hs; cbn [foldl]; [exists L, N; by apply keeps_same|].
    assert (H1 : exists L1 N1, step_keeps a L N L1 N1 (p_snd (ti_pcb t)) (p_snd (ti_pcb (snd_step t op)))).
    { destruct op as [e h|e]; cbn [snd_step]; [destruct (receive_ack_ok a e h L N t Hop Hs) as [L1 H1]; by exists L1, N|destruct (output_ok a e L N t Hs) as [N1 H1]; by exists L, N1]. }
    destruct H1 as (L1 & N1 & H1). destruct (IH (snd_step t op) L1 N1 ltac:(apply H1)) as (L2 & N2 & H2). exists L2, N2. eapply keeps_trans; [exact H1|exact H2]. }
  destruct H as (L' & N' & H1 & H2 & [S1 S2 [S3 S3'] [_ S4] [_ S5] S6 S7] & H4). exists L', N'. split_and!; try done; lia.
Qed.
