(* ===== verification/TcpWrite.v ===== *)
(** [tcp_write] from [core/tcp_out.c], and the stream from one application to the other.

    Memory is a list of answers to the allocations, in their order.  Timestamps, checksums
    on copying and [LWIP_NETIF_TX_SINGLE_PBUF] are off. *)
From S2P Require Import Prelude Bits Def Pbuf TcpIn TcpOut TcpProcess TcpTmr TcpStream TcpConn TcpSend.

(** ** Constants *)
Definition TCP_WRITE_FLAG_COPY : Z := 0x01.
Definition TCP_WRITE_FLAG_MORE : Z := 0x02.
Definition TCP_SNDQUEUELEN_OVERFLOW : Z := 0xffff - 3.
Definition TCP_OVERSIZE : Z := TCP_MSS.

Definition LWIP_TCP_OPT_LENGTH (f : Z) : Z :=
  (if f .& TF_SEG_OPTS_MSS =? 0 then 0 else 4) + (if f .& TF_SEG_OPTS_WND_SCALE =? 0 then 0 else 4) + (if f .& TF_SEG_OPTS_SACK_PERM =? 0 then 0 else 4).

(** ** Writing *)
Definition next_mem (mem : list bool) : bool * list bool := match mem with [] => (false, []) | b :: mem => (b, mem) end.

Definition tcp_write_checks (len : Z) (p : tcp_pcb) : Z * tcp_pcb :=
  if negb (state p =? ESTABLISHED) && negb (state p =? CLOSE_WAIT) && negb (state p =? SYN_SENT) && negb (state p =? SYN_RCVD) then (ERR_CONN, p)
  else if len =? 0 then (ERR_OK, p)
  else if snd_buf (p_snd p) <? len then (ERR_MEM, tcp_set_flags TF_NAGLEMEMERR p)
  else if Z.min TCP_SND_QUEUELEN (TCP_SNDQUEUELEN_OVERFLOW + 1) <=? snd_queuelen (p_snd p) then (ERR_MEM, tcp_set_flags TF_NAGLEMEMERR p)
  else (ERR_OK, p).

(** What [tcp_pbuf_prealloc] stores in [*oversize], when there is memory. *)
Definition tcp_pbuf_prealloc (len max_length apiflags : Z) (first_seg : bool) (p : tcp_pcb) : Z :=
  let queued := match unsent (p_snd p), unacked (p_snd p) with [], [] => false | _, _ => true end in
  let more := negb (apiflags .& TCP_WRITE_FLAG_MORE =? 0) || ((pflags p .& TF_NODELAY =? 0) && (negb first_seg || queued)) in
  let alloc := if (len <? max_length) && more then Z.min max_length (align4 (len + TCP_OVERSIZE)) else len in
  u16 (alloc - len).

(** "don't allocate segments bigger than half the maximum window we ever received" *)
Definition write_mss (p : tcp_pcb) : Z :=
  let m := Z.min (mss p) (TCPWND_MIN16 (snd_wnd_max (p_snd p) / 2)) in if m =? 0 then mss p else m.

(** [n] bytes more at the end of a segment, and [c] pbufs. *)
Definition grow (n : Z) (d : list Z) (c : Z) (g : tcp_seg) : tcp_seg :=
  TcpSeg (sg_seqno g) (u16 (sg_len g + n)) (sg_flags g) (sg_data g ++ d) (sg_opts g) (sg_clen g + c) (sg_busy g).

(** After phases 1 and 2: [pos], [oversize], [queuelen], the memory, the last unsent segment
    as it will be, and whether [seg] points to it. *)
Record write_tail := WriteTail { wt_pos : Z; wt_over : Z; wt_qlen : Z; wt_mem : list bool; wt_seg : tcp_seg; wt_seg_set : bool }.

(** Phases 1 and 2.  [follows]: the last pbuf of the segment only refers to memory, and
    [data] directly follows it there. *)
Definition write_into_tail (mem : list bool) (follows : bool) (data : list Z) (apiflags : Z) (p : tcp_pcb) (last_unsent : tcp_seg) : option write_tail :=
  let len := zlen data in
  let qlen := snd_queuelen (p_snd p) in
  let space := u16 (write_mss p - (sg_len last_unsent + LWIP_TCP_OPT_LENGTH (sg_opts last_unsent))) in
  let oversize := unsent_oversize (p_snd p) in
  let used := if 0 <? oversize then Z.min space (Z.min oversize len) else 0 in
  let seg := grow used (ztake used data) 0 last_unsent in
  if (used <? len) && (0 <? space - used) && (0 <? sg_len last_unsent) then
    let seglen := Z.min (space - used) (len - used) in
    let chain over :=
      let '(ok, mem) := next_mem mem in
      if ok : bool then Some (WriteTail (used + seglen) over (u16 (qlen + 1)) mem (grow seglen (ztake seglen (zdrop used data)) 1 seg) true) else None in
    if negb (apiflags .& TCP_WRITE_FLAG_COPY =? 0) then chain (tcp_pbuf_prealloc seglen (space - used) apiflags true p)
    else if follows then Some (WriteTail (used + seglen) (oversize - used) qlen mem (grow seglen (ztake seglen data) 0 seg) true)
    else chain (oversize - used)
  else Some (WriteTail used (oversize - used) qlen mem seg (0 <? oversize)).

(** The pbufs of a new segment: how many they are, and [oversize]. *)
Definition write_alloc (mem : list bool) (seglen apiflags : Z) (first_seg : bool) (oversize : Z) (p : tcp_pcb) : option (Z * Z * list bool) :=
  let '(ok, mem) := next_mem mem in
  if negb ok then None
  else if negb (apiflags .& TCP_WRITE_FLAG_COPY =? 0) then Some (1, tcp_pbuf_prealloc seglen (write_mss p) apiflags first_seg p, mem)
  else let '(ok, mem) := next_mem mem in if ok : bool then Some (2, oversize, mem) else None.

(** Phase 3, from [pos] on: [oversize], [queuelen] and the new segments.  The queue has at
    most [TCP_SND_QUEUELEN] pbufs, see [write_fuel]. *)
Fixpoint write_segs (fuel : nat) (mem : list bool) (data : list Z) (apiflags : Z) (p : tcp_pcb) (pos oversize qlen : Z) (queue : list tcp_seg) : option (Z * Z * list tcp_seg) :=
  if pos <? zlen data then
    match fuel with
    | O => None
    | S fuel =>
        let seglen := Z.min (zlen data - pos) (write_mss p) in
        match write_alloc mem seglen apiflags (match queue with [] => true | _ => false end) oversize p with
        | None => None
        | Some (clen, oversize, mem) =>
            let qlen := u16 (qlen + clen) in
            if Z.min TCP_SND_QUEUELEN TCP_SNDQUEUELEN_OVERFLOW <? qlen then None
            else
              let '(ok, mem) := next_mem mem in
              if ok : bool then
                write_segs fuel mem data apiflags p (pos + seglen) oversize qlen (queue ++ [TcpSeg (u32 (snd_lbb (p_snd p) + pos)) seglen 0 (ztake seglen (zdrop pos data)) 0 clen false])
              else None
        end
    end
  else Some (oversize, qlen, queue).

Definition write_turns : nat := Z.to_nat (TCP_SND_QUEUELEN + 1).

Definition set_psh (g : tcp_seg) : tcp_seg := TcpSeg (sg_seqno g) (sg_len g) (sg_flags g .| TCP_PSH) (sg_data g) (sg_opts g) (sg_clen g) (sg_busy g).

(** The transaction is committed: [tail] are the segments up to [last_unsent]. *)
Definition write_commit (len apiflags : Z) (tail : list tcp_seg) (seg_set : bool) (oversize qlen : Z) (queue : list tcp_seg) (s : tcp_snd) : tcp_snd :=
  let q := tail ++ queue in
  let seg_set := seg_set || match queue with [] => false | _ => true end in
  let q := if seg_set && (apiflags .& TCP_WRITE_FLAG_MORE =? 0) then alter_last set_psh q else q in
  set_snd_queuelen qlen (set_snd_buf (u32 (snd_buf s - len)) (set_snd_lbb (u32 (snd_lbb s + len)) (set_unsent q (set_unsent_oversize oversize s)))).

(** [arg] are the [len] bytes, or a null pointer. *)
Definition tcp_write (mem : list bool) (follows : bool) (arg : option (list Z)) (apiflags : Z) (p : tcp_pcb) : Z * tcp_pcb :=
  match arg with
  | None => (ERR_ARG, p)
  | Some data =>
      let len := zlen data in
      let '(err, p) := tcp_write_checks len p in
      if negb (err =? ERR_OK) then (err, p)
      else
        let s := p_snd p in
        let memerr := (ERR_MEM, tcp_set_flags TF_NAGLEMEMERR p) in
        let phase3 mem pos over qlen tail seg_set :=
          match write_segs write_turns mem data apiflags p pos over qlen [] with
          | None => memerr
          | Some (over, qlen, queue) => (ERR_OK, on_snd (write_commit len apiflags tail seg_set over qlen queue) p)
          end in
        match last (unsent s) with
        | None => phase3 mem 0 0 (snd_queuelen s) [] false
        | Some last_unsent =>
            match write_into_tail mem follows data apiflags p last_unsent with
            | None => memerr
            | Some w => phase3 (wt_mem w) (wt_pos w) (wt_over w) (wt_qlen w) (alter_last (fun _ => wt_seg w) (unsent s)) (wt_seg_set w)
            end
        end
  end.

(** ** What is written *)
Definition bare (g : tcp_seg) : Z * Z * list Z := (sg_seqno g, sg_len g, sg_data g).

Lemma alter_last_snoc {A} (f : A -> A) l x : alter_last f (l ++ [x]) = l ++ [f x].
Proof. induction l as [|y [|z l] IH]; [done|done|]. cbn [app alter_last] in *. by rewrite IH. Qed.

Lemma alter_last_forall {A} (P : A -> Prop) f l : (forall x, P x -> P (f x)) -> Forall P l -> Forall P (alter_last f l).
Proof.
  intros Hf Hl. destruct l as [|x l _] using rev_ind; [done|]. rewrite alter_last_snoc. apply Forall_app in Hl as [H1 H2]. apply Forall_app. split; [done|]. rewrite Forall_singleton in H2. rewrite Forall_singleton. by apply Hf.
Qed.

Lemma bare_psh l : map bare (alter_last set_psh l) = map bare l.
Proof. destruct l as [|x l _] using rev_ind; [done|]. rewrite alter_last_snoc, !map_app. done. Qed.

(** Segments with the bytes of [data] from [pos] on; the first byte of [data] has number [lbb]. *)
Fixpoint segs_of (m lbb : Z) (data : list Z) (pos : Z) (l : list tcp_seg) : Prop :=
  match l with
  | [] => pos = zlen data
  | g :: l => bare g = (u32 (lbb + pos), sg_len g, ztake (sg_len g) (zdrop pos data)) /\ 0 < sg_len g <= m /\ pos + sg_len g <= zlen data /\
              sg_flags g = 0 /\ sg_opts g = 0 /\ segs_of m lbb data (pos + sg_len g) l
  end.

(** More turns than pbufs fit into the queue change nothing. *)
Lemma write_fuel data fl p : forall f1 f2 mem pos over qlen q, 0 <= qlen <= TCP_SND_QUEUELEN -> TCP_SND_QUEUELEN < Z.of_nat f1 + qlen -> TCP_SND_QUEUELEN < Z.of_nat f2 + qlen ->
  write_segs f1 mem data fl p pos over qlen q = write_segs f2 mem data fl p pos over qlen q.
Proof.
  unfold TCP_SND_QUEUELEN. cbn [TCP_SND_BUF TCP_MSS]. change (64 * (2 * (TCP_SND_BUF / TCP_MSS))) with 8192.
  induction f1 as [|f1 IH]; intros [|f2] mem pos over qlen q Hq H1 H2; try lia. cbn [write_segs]. destruct (pos <? _); [|done]. destruct (write_alloc _ _ _ _ _ _) as [[[clen over'] mem']|] eqn:Ea; [|done].
  assert (Hc : 1 <= clen <= 2). { unfold write_alloc in Ea. destruct (next_mem mem) as [[] m1]; [|done]. cbn [negb] in Ea. destruct (negb _); [injection Ea as <- _ _; lia|]. destruct (next_mem m1) as [[] m2]; [|done]. injection Ea as <- _ _. lia. }
  cbv zeta. change (Z.min TCP_SND_QUEUELEN TCP_SNDQUEUELEN_OVERFLOW) with 8192. rewrite u16_small by lia. destruct (Z.ltb_spec 8192 (qlen + clen)); [done|]. destruct (next_mem mem') as [[] m3]; [|done]. apply IH; lia.
Qed.

(** Without room for a byte, nothing new can be written. *)
Lemma write_segs_zero data fl p : write_mss p <= 0 -> forall fuel mem pos over qlen q, pos < zlen data -> write_segs fuel mem data fl p pos over qlen q = None.
Proof.
  intros Hm. induction fuel as [|fuel IH]; intros mem pos over qlen q Hp; cbn [write_segs]; destruct (Z.ltb_spec pos (zlen data)); try lia; [done|].
  destruct (write_alloc _ _ _ _ _ _) as [[[clen over'] mem']|]; [|done]. cbv zeta. destruct (_ <? _); [done|]. destruct (next_mem mem') as [[] m3]; [|done]. apply IH. lia.
Qed.

Lemma write_segs_ok data fl p : forall fuel mem pos over qlen q over' qlen' q', 0 <= pos <= zlen data ->
  write_segs fuel mem data fl p pos over qlen q = Some (over', qlen', q') -> exists new, q' = q ++ new /\ segs_of (write_mss p) (snd_lbb (p_snd p)) data pos new.
Proof.
  induction fuel as [|fuel IH]; intros mem pos over qlen q over' qlen' q' Hp E.
  { cbn [write_segs] in E. destruct (Z.ltb_spec pos (zlen data)); [done|]. injection E as _ _ <-. exists []. rewrite app_nil_r. split; [done|]. cbn. lia. }
  destruct (decide (pos < zlen data)) as [Hlt|Hge]; [|cbn [write_segs] in E; destruct (Z.ltb_spec pos (zlen data)); [done|]; injection E as _ _ <-; exists []; rewrite app_nil_r; split; [done|]; cbn; lia].
  destruct (decide (0 < write_mss p)) as [Hm|Hm]; [|rewrite write_segs_zero in E by lia; done].
  cbn [write_segs] in E. rewrite (proj2 (Z.ltb_lt _ _) Hlt) in E. destruct (write_alloc _ _ _ _ _ _) as [[[clen over1] mem1]|]; [|done]. cbv zeta in E. destruct (_ <? _) in E; [done|]. destruct (next_mem mem1) as [[] m3]; [|done].
  apply IH in E as (new & -> & Hn); [|lia]. eexists (_ :: new). rewrite <- app_assoc. split; [done|]. cbn. split_and!; try done; lia.
Qed.

(** What [tcp_write] asks of the last unsent segment: it is the end of what has been written
    before, and not longer than a segment may be now. *)
Definition tail_ok (follows : bool) (p : tcp_pcb) : Prop :=
  write_mss p < 65535 /\
  match last (unsent (p_snd p)) with
  | None => snd_lbb (p_snd p) = u32 (snd_lbb (p_snd p))
  | Some g => snd_lbb (p_snd p) = u32 (sg_seqno g + TCP_TCPLEN g) /\ (TCP_TCPLEN g = sg_len g \/ sg_len g = 0 /\ unsent_oversize (p_snd p) = 0) /\
              0 <= sg_len g /\ sg_len g + LWIP_TCP_OPT_LENGTH (sg_opts g) <= write_mss p /\ (follows = true -> unsent_oversize (p_snd p) <= 0)
  end.

Lemma opt_length_pos f : 0 <= LWIP_TCP_OPT_LENGTH f.
Proof. unfold LWIP_TCP_OPT_LENGTH. repeat destruct (_ =? 0); lia. Qed.

Lemma grow_grow n d c n' d' c' g : 0 <= sg_len g -> 0 <= n -> 0 <= n' -> sg_len g + n + n' < 65536 -> grow n' d' c' (grow n d c g) = grow (n + n') (d ++ d') (c + c') g.
Proof. intros. unfold grow. cbn. rewrite <- app_assoc, (u16_small (sg_len g + n)) by lia. f_equal; [f_equal; lia|lia]. Qed.

Lemma into_tail_ok mem follows data fl p g w : last (unsent (p_snd p)) = Some g -> tail_ok follows p -> write_into_tail mem follows data fl p g = Some w ->
  0 <= wt_pos w <= zlen data /\ sg_len g + wt_pos w <= write_mss p < 65536 /\ (exists c, wt_seg w = grow (wt_pos w) (ztake (wt_pos w) data) c g) /\ (sg_len g = 0 -> unsent_oversize (p_snd p) = 0 -> wt_pos w = 0).
Proof.
  intros Eg Ht. unfold tail_ok in Ht. rewrite Eg in Ht. destruct Ht as (Hmax & _ & _ & H0 & Hm & Hf). pose proof (opt_length_pos (sg_opts g)). pose proof (zlen_nonneg data).
  unfold write_into_tail. cbv zeta. set (space := u16 _). assert (Es : 0 <= space /\ sg_len g + space <= write_mss p) by (unfold space; rewrite u16_small by lia; lia). clearbody space.
  set (over := unsent_oversize (p_snd p)) in *. set (used := if 0 <? over then _ else 0). assert (Hu : 0 <= used <= space /\ used <= zlen data /\ (over <= 0 -> used = 0)) by (unfold used; destruct (Z.ltb_spec 0 over); lia). clearbody used over.
  destruct ((used <? zlen data) && (0 <? space - used) && (0 <? sg_len g)) eqn:Ec.
  2:{ intros [= <-]. cbn. split_and!; try lia. by exists 0. }
  apply andb_true_iff in Ec as [[E1%Z.ltb_lt E2%Z.ltb_lt]%andb_true_iff E3%Z.ltb_lt]. set (seglen := Z.min _ _). assert (Hs : 0 <= seglen /\ used + seglen <= space /\ used + seglen <= zlen data) by (unfold seglen; lia). clearbody seglen.
  assert (Hchain : forall o, (let '(ok, mem) := next_mem mem in if ok : bool then Some (WriteTail (used + seglen) o (u16 (snd_queuelen (p_snd p) + 1)) mem (grow seglen (ztake seglen (zdrop used data)) 1 (grow used (ztake used data) 0 g)) true) else None) = Some w ->
    0 <= wt_pos w <= zlen data /\ sg_len g + wt_pos w <= write_mss p < 65536 /\ (exists c, wt_seg w = grow (wt_pos w) (ztake (wt_pos w) data) c g) /\ (sg_len g = 0 -> over = 0 -> wt_pos w = 0)).
  { intros o. destruct (next_mem mem) as [[] m1]; [|done]. intros [= <-]. cbn [wt_pos wt_seg]. split_and!; try lia. exists (0 + 1). rewrite grow_grow by lia. by rewrite <- ztake_zdrop_split by lia. }
  destruct (negb _); [apply Hchain|]. destruct follows; [|apply Hchain]. intros [= <-]. cbn [wt_pos wt_seg]. specialize (Hf eq_refl). assert (used = 0) as -> by lia. split_and!; try lia.
  exists (0 + 0). rewrite grow_grow by lia. by rewrite ztake_0.
Qed.

(** Either nothing is changed but a flag, or the bytes are at the end of the last segment,
    as far as they fit there, and in new segments. *)
Lemma tcp_write_cases mem follows data fl p : tail_ok follows p ->
  let '(err, p') := tcp_write mem follows (Some data) fl p in
  err <> ERR_OK /\ (p' = p \/ p' = tcp_set_flags TF_NAGLEMEMERR p) \/
  err = ERR_OK /\ exists k tail set over qlen new, p' = on_snd (write_commit (zlen data) fl tail set over qlen new) p /\ 0 <= k <= zlen data /\
    segs_of (write_mss p) (snd_lbb (p_snd p)) data k new /\
    match last (unsent (p_snd p)) with
    | None => tail = [] /\ k = 0
    | Some g => exists c, tail = alter_last (fun _ => grow k (ztake k data) c g) (unsent (p_snd p)) /\ sg_len g + k <= write_mss p < 65536 /\ (sg_len g = 0 -> unsent_oversize (p_snd p) = 0 -> k = 0)
    end.
Proof.
  intros Ht. pose proof (zlen_nonneg data) as Hd. unfold tcp_write. cbv zeta.
  assert (Hc : tcp_write_checks (zlen data) p = (ERR_OK, p) \/ (tcp_write_checks (zlen data) p).1 <> ERR_OK /\ ((tcp_write_checks (zlen data) p).2 = p \/ (tcp_write_checks (zlen data) p).2 = tcp_set_flags TF_NAGLEMEMERR p)).
  { unfold tcp_write_checks. repeat (match goal with |- context [if ?c then _ else _] => destruct c end); cbn; auto. }
  destruct Hc as [->|Hc]; [|destruct (tcp_write_checks (zlen data) p) as [err p']; cbn [fst snd] in Hc; rewrite (proj2 (Z.eqb_neq err ERR_OK)) by apply Hc; by left]. cbn [negb]. change (ERR_OK =? ERR_OK) with true. cbn [negb].
  assert (Hmem : ERR_MEM <> ERR_OK) by done. destruct (last (unsent (p_snd p))) as [g|] eqn:Eg.
  - destruct (write_into_tail mem follows data fl p g) as [w|] eqn:Ew; [|left; auto]. destruct (into_tail_ok mem follows data fl p g w Eg Ht Ew) as (H1 & H2 & [c H3] & H4).
    destruct (write_segs _ _ _ _ _ _ _ _ _) as [[[over qlen] new]|] eqn:Es; [|left; auto]. apply write_segs_ok in Es as (new' & E & Hn); [|done]. cbn in E. subst new'. right. split; [done|].
    exists (wt_pos w). do 5 eexists. split; [done|]. split_and!; [lia|lia|done|]. exists c. split_and!; try done; try lia. by rewrite H3.
  - destruct (write_segs _ _ _ _ _ _ _ _ _) as [[[over qlen] new]|] eqn:Es; [|left; auto]. apply write_segs_ok in Es as (new' & E & Hn); [|lia]. cbn in E. subst new'. right. split; [done|].
    exists 0. do 5 eexists. split; [done|]. split_and!; try done; lia.
Qed.

(** ** The end of the queue *)

(** The segments follow each other from sequence number [x] to [y]. *)
Fixpoint tiles (x y : Z) (l : list tcp_seg) : Prop :=
  match l with
  | [] => x = y
  | g :: l => sg_seqno g = x /\ zlen (sg_data g) = sg_len g /\ tiles (u32 (x + TCP_TCPLEN g)) y l
  end.

Lemma tiles_app l : forall x z k, tiles x z (l ++ k) <-> exists y, tiles x y l /\ tiles y z k.
Proof.
  induction l as [|g l IH]; intros x z k; cbn [app tiles]; [split; [intros H; by exists x|by intros (y & -> & H)]|]. rewrite IH. split; [intros (H1 & H2 & y & H3 & H4); by exists y|intros (y & (H1 & H2 & H3) & H4); eauto 10].
Qed.

Lemma tcplen_psh g : TCP_TCPLEN (set_psh g) = TCP_TCPLEN g.
Proof. unfold TCP_TCPLEN. cbn. rewrite Z.land_lor_distr_l. change (Z.land TCP_PSH (TCP_FIN .| TCP_SYN)) with 0. by rewrite Z.lor_0_r. Qed.

Lemma tiles_psh x y l : tiles x y (alter_last set_psh l) <-> tiles x y l.
Proof. destruct l as [|g l _] using rev_ind; [done|]. rewrite alter_last_snoc, !tiles_app. cbn [tiles]. by setoid_rewrite tcplen_psh. Qed.

Lemma data_psh l : concat (map sg_data (alter_last set_psh l)) = concat (map sg_data l).
Proof. destruct l as [|g l _] using rev_ind; [done|]. by rewrite alter_last_snoc, !map_app. Qed.

Lemma segs_tiles m lbb data : forall l pos, 0 <= pos -> segs_of m lbb data pos l -> tiles (u32 (lbb + pos)) (u32 (lbb + zlen data)) l /\ concat (map sg_data l) = zdrop pos data.
Proof.
  induction l as [|g l IH]; intros pos Hp; cbn [segs_of tiles map concat]; [intros ->; by rewrite zdrop_ge|]. intros ([= E1 E2] & H1 & H2 & H3 & _ & H4). destruct (IH (pos + sg_len g) ltac:(lia) H4) as [T1 T2]. rewrite E2. split_and!.
  - done.
  - rewrite zlen_ztake; [done|]. rewrite zlen_zdrop. lia.
  - unfold TCP_TCPLEN. by rewrite H3, Z.land_0_l, Z.eqb_refl, Z.add_0_r, u32_add, <- Z.add_assoc.
  - rewrite T2. rewrite <- (ztake_zdrop (sg_len g) (zdrop pos data)) at 2. f_equal. rewrite zdrop_zdrop by lia. f_equal. lia.
Qed.

Lemma last_snoc_inv {A} (l : list A) x : last l = Some x -> exists k, l = k ++ [x].
Proof. destruct l as [|y l _] using rev_ind; [done|]. rewrite last_snoc. intros [= ->]. by exists l. Qed.

(** ** Enough memory *)
Lemma next_mem_true k mem : Forall (eq true) mem -> (S k <= length mem)%nat -> exists m, next_mem mem = (true, m) /\ Forall (eq true) m /\ (k <= length m)%nat.
Proof. intros H Hl. destruct mem as [|b mem]; cbn in Hl; [lia|]. apply Forall_cons in H as [<- H]. exists mem. split_and!; [done|done|lia]. Qed.

Lemma write_alloc_some mem seglen fl first over p k : Forall (eq true) mem -> (2 + k <= length mem)%nat ->
  exists clen o m, write_alloc mem seglen fl first over p = Some (clen, o, m) /\ 1 <= clen <= 2 /\ Forall (eq true) m /\ (k <= length m)%nat.
Proof.
  intros H Hl. unfold write_alloc. destruct (next_mem_true (1 + k) mem H Hl) as (m & -> & Hm & Hk). cbn [negb]. destruct (negb _); [do 3 eexists; split; [done|]; split_and!; [lia|lia|done|lia]|].
  destruct (next_mem_true k m Hm Hk) as (m' & -> & Hm' & Hk'). do 3 eexists. split; [done|]. split_and!; [lia|lia|done|lia].
Qed.

Lemma write_segs_some data fl p : 0 < write_mss p -> forall n fuel mem pos over qlen q, (n <= fuel)%nat -> zlen data - pos <= Z.of_nat n * write_mss p ->
  0 <= qlen -> qlen + 2 * Z.of_nat n <= TCP_SND_QUEUELEN -> Forall (eq true) mem -> (3 * n <= length mem)%nat -> is_Some (write_segs fuel mem data fl p pos over qlen q).
Proof.
  unfold TCP_SND_QUEUELEN. change (64 * (2 * (TCP_SND_BUF / TCP_MSS))) with 8192. intros Hm. induction n as [|n IH]; intros fuel mem pos over qlen q Hf Hn H0 Hq Hmem Hl.
  { destruct fuel; cbn [write_segs]; destruct (Z.ltb_spec pos (zlen data)); try lia; done. }
  destruct fuel as [|fuel]; [lia|]. cbn [write_segs]. destruct (Z.ltb_spec pos (zlen data)); [|done]. destruct (write_alloc_some mem (Z.min (zlen data - pos) (write_mss p)) fl (match q with [] => true | _ => false end) over p (1 + 3 * n) Hmem ltac:(lia)) as (clen & o & m & -> & Hc & Hm1 & Hl1).
  cbv zeta. change (Z.min TCP_SND_QUEUELEN TCP_SNDQUEUELEN_OVERFLOW) with 8192. rewrite u16_small by lia. destruct (Z.ltb_spec 8192 (qlen + clen)); [lia|]. destruct (next_mem_true (3 * n) m Hm1 Hl1) as (m' & -> & Hm2 & Hl2).
  apply IH; try done; lia.
Qed.

Lemma into_tail_some mem follows data fl p g k : Forall (eq true) mem -> (1 + k <= length mem)%nat -> 0 <= snd_queuelen (p_snd p) < 65535 ->
  exists w, write_into_tail mem follows data fl p g = Some w /\ Forall (eq true) (wt_mem w) /\ (k <= length (wt_mem w))%nat /\ 0 <= wt_qlen w <= snd_queuelen (p_snd p) + 1.
Proof.
  intros H Hl Hq. destruct (next_mem_true k mem H Hl) as (m & Em & Hm & Hk). unfold write_into_tail. cbv zeta. rewrite Em. destruct (_ && _); [|eexists; split; [done|]; cbn; split_and!; [done|lia|lia|lia]].
  destruct (negb _); [|destruct follows]; eexists; (split; [done|]); cbn; rewrite ?u16_small by lia; split_and!; try done; lia.
Qed.

(** [n] new segments are enough for the data, and there is room and memory for them. *)
Record write_room (n : nat) (mem : list bool) (data : list Z) (p : tcp_pcb) : Prop := WriteRoom {
  wr_state : state p = ESTABLISHED \/ state p = CLOSE_WAIT \/ state p = SYN_SENT \/ state p = SYN_RCVD;
  wr_buf : zlen data <= snd_buf (p_snd p);
  wr_mss : 0 < write_mss p;
  wr_segs : zlen data <= Z.of_nat n * write_mss p;
  wr_qlen : 0 <= snd_queuelen (p_snd p) /\ snd_queuelen (p_snd p) + 2 * Z.of_nat n + 1 <= TCP_SND_QUEUELEN;
  wr_mem : Forall (eq true) mem /\ (1 + 3 * n <= length mem)%nat;
}.

Lemma write_succeeds n mem follows data fl p : tail_ok follows p -> write_room n mem data p -> (tcp_write mem follows (Some data) fl p).1 = ERR_OK.
Proof.
  intros Ht [Hst Hbuf Hm Hn [Hq0 Hq] [Hmem Hl]]. pose proof (zlen_nonneg data). assert (Hql : snd_queuelen (p_snd p) + 2 * Z.of_nat n + 1 <= 8192) by exact Hq.
  assert (Hc : tcp_write_checks (zlen data) p = (ERR_OK, p)).
  { unfold tcp_write_checks. rewrite (proj2 (Z.ltb_ge _ _) Hbuf). change (Z.min TCP_SND_QUEUELEN (TCP_SNDQUEUELEN_OVERFLOW + 1)) with 8192. rewrite (proj2 (Z.leb_gt 8192 _)) by lia.
    destruct Hst as [->|[->|[->| ->]]]; cbn; by destruct (_ =? 0). }
  unfold tcp_write. rewrite Hc. change (ERR_OK =? ERR_OK) with true. cbn [negb]. cbv zeta. assert (Ht' : (n <= write_turns)%nat) by (change write_turns with (Z.to_nat 8193); lia).
  destruct (last (unsent (p_snd p))) as [g|] eqn:Eg.
  - destruct (into_tail_some mem follows data fl p g (3 * n) Hmem Hl ltac:(lia)) as (w & Ew & W1 & W2 & W3). rewrite Ew. destruct (into_tail_ok mem follows data fl p g w Eg Ht Ew) as (K1 & _).
    destruct (write_segs_some data fl p Hm n write_turns (wt_mem w) (wt_pos w) (wt_over w) (wt_qlen w) [] Ht' ltac:(lia) ltac:(lia) ltac:(change TCP_SND_QUEUELEN with 8192; lia) W1 W2) as [[[o q] l] ->]. done.
  - destruct (write_segs_some data fl p Hm n write_turns mem 0 0 (snd_queuelen (p_snd p)) [] Ht' ltac:(lia) ltac:(lia) ltac:(change TCP_SND_QUEUELEN with 8192; lia) Hmem ltac:(lia)) as [[[o q] l] ->]. done.
Qed.

Lemma segs_bound m lbb data : forall l pos, segs_of m lbb data pos l -> Forall (fun g => 0 < sg_len g <= m) l.
Proof. induction l as [|g l IH]; intros pos H; [by apply Forall_nil|]. destruct H as (_ & H1 & _ & _ & _ & H2). apply Forall_cons. split; [done|]. by eapply IH. Qed.

(** C19. [tcp_write] appends to the stream, or does nothing.  The unsent segments follow each
    other up to [snd_lbb], and the last one is not longer than a segment may be.  When the
    call succeeds, they do so again, with the new bytes behind the old ones, whether they
    are copied into the room at the end of the last segment, chained to it, referred to or
    put into new segments, none of which is longer than half the largest window; the room in
    the send buffer shrinks by the length.  When it fails, nothing but a flag has changed.
    And it succeeds when the buffer, the queue and the memory have room. *)
Theorem tcp_write_appends (mem : list bool) (follows : bool) (data : list Z) (apiflags : Z) (p : tcp_pcb) (x : Z) :
  tail_ok follows p -> tiles x (snd_lbb (p_snd p)) (unsent (p_snd p)) ->
  let '(err, p') := tcp_write mem follows (Some data) apiflags p in
  (forall n, write_room n mem data p -> err = ERR_OK) /\
  if err =? ERR_OK then
    tiles x (snd_lbb (p_snd p')) (unsent (p_snd p')) /\ concat (map sg_data (unsent (p_snd p'))) = concat (map sg_data (unsent (p_snd p))) ++ data /\
    snd_lbb (p_snd p') = u32 (snd_lbb (p_snd p) + zlen data) /\ snd_buf (p_snd p') = u32 (snd_buf (p_snd p) - zlen data) /\ unacked (p_snd p') = unacked (p_snd p) /\
    Forall (fun g => sg_len g <= write_mss p) (drop (length (unsent (p_snd p)) - 1) (unsent (p_snd p')))
  else p' = p \/ p' = tcp_set_flags TF_NAGLEMEMERR p.
Proof.
  intros Ht Hti. pose proof (tcp_write_cases mem follows data apiflags p Ht) as Hc. pose proof (fun n => write_succeeds n mem follows data apiflags p Ht) as Hok. destruct (tcp_write mem follows (Some data) apiflags p) as [err p']. cbn [fst] in Hok.
  split; [exact Hok|]. clear Hok. destruct Hc as [[Hne Hp]|(-> & k & tail & set & over & qlen & new & -> & Hk & Hn & Hl)]; [by rewrite (proj2 (Z.eqb_neq err ERR_OK)) by done|]. change (ERR_OK =? ERR_OK) with true. cbv iota.
  destruct (segs_tiles _ _ _ _ _ (proj1 Hk) Hn) as [T1 T2]. cbn [p_snd on_snd set_p_snd]. set (s := p_snd p) in *. set (u' := unsent (write_commit _ _ _ _ _ _ _ s)).
  assert (Eu : u' = tail ++ new \/ u' = alter_last set_psh (tail ++ new)) by (unfold u'; cbn; destruct (_ && _); auto). change (snd_lbb (write_commit _ _ _ _ _ _ _ _)) with (u32 (snd_lbb s + zlen data)).
  assert (Ht1 : tiles x (u32 (snd_lbb s + zlen data)) (tail ++ new) /\ concat (map sg_data (tail ++ new)) = concat (map sg_data (unsent s)) ++ data /\ Forall (fun g => sg_len g <= write_mss p) (drop (length (unsent s) - 1) (tail ++ new))).
  { apply segs_bound in Hn as Hb. assert (Hb' : Forall (fun g => sg_len g <= write_mss p) new) by (eapply Forall_impl; [exact Hb|]; intros g ?; cbn in *; lia). destruct (last (unsent s)) as [g|] eqn:Eg.
    - destruct Hl as (c & -> & Hm & Hz). destruct (last_snoc_inv _ _ Eg) as [l El]. rewrite El in Hti |- *. rewrite alter_last_snoc, !map_app, !concat_app, T2. unfold tail_ok in Ht. fold s in Ht. rewrite Eg in Ht. destruct Ht as (_ & L1 & L2 & L3 & _).
      apply tiles_app in Hti as (y & Y1 & Y2 & Y3 & _). cbn [map concat grow sg_data]. split_and!.
      + apply tiles_app. exists (u32 (snd_lbb s + k)). split; [|done]. apply tiles_app. exists y. split; [done|]. cbn [tiles grow sg_seqno sg_data sg_len]. rewrite zlen_app, Y3, zlen_ztake, u16_small by lia. split_and!; [done|done|].
        unfold TCP_TCPLEN in *. cbn [sg_flags sg_len]. rewrite L1, u32_add, Y2. f_equal. cbn [grow sg_len sg_flags]. rewrite u16_small by lia. destruct L2 as [L2|[L2 L2']]; [|specialize (Hz L2 L2')]; lia.
      + rewrite <- !app_assoc. cbn [app]. do 2 f_equal. apply ztake_zdrop.
      + rewrite <- app_assoc, length_app. cbn [length]. rewrite drop_app_length' by lia. cbn [app]. apply Forall_cons. split; [|done]. cbn. rewrite u16_small by lia. lia.
    - destruct Hl as [-> ->]. destruct (unsent s) as [|g l _] eqn:E using rev_ind; [|by rewrite last_snoc in Eg]. cbn in Hti |- *. rewrite T2, zdrop_0. rewrite Z.add_0_r in T1. split_and!; try done.
      subst x. unfold tail_ok in Ht. fold s in Ht. rewrite E in Ht. cbn in Ht. destruct Ht as [_ Ht]. by rewrite <- Ht in T1. }
  destruct Ht1 as (H1 & H2 & H3). destruct Eu as [-> | ->]; [by split_and!|]. split_and!; try done; [by apply tiles_psh|by rewrite data_psh|].
  revert H3. generalize (length (unsent s) - 1)%nat. clear. intros n. destruct (tail ++ new) as [|g l _] using rev_ind; [done|]. rewrite alter_last_snoc. intros H. destruct (decide (n <= length l)%nat); [|rewrite drop_ge; [by apply Forall_nil|rewrite length_app; cbn; lia]].
  rewrite drop_app_le in H |- * by lia. apply Forall_app in H as [H1 H2]. apply Forall_app. split; [done|]. by rewrite Forall_singleton in H2 |- *.
Qed.

(** ** From one application to the other *)
Section sender.
  Context (a : Z).

(** The segment has bytes of the stream [W], whose first one has number [a]; no FIN. *)
Definition carries (W : list Z) (g : tcp_seg) : Prop := 0 < sg_len g /\ has_fin g = false /\ exists o, piece_at W a g o.

Definition packet_ok (W : list Z) (k : tcp_packet) : Prop :=
  match k with
  | PSeg g _ _ _ => carries W g
  | PAck seqno _ _ _ => exists o, 0 <= o <= zlen W /\ seqno = u32 (a + o)
  | PRst _ _ => True
  end.

(** The sender after [W] has been written. *)
Record sender_ok (W : list Z) (t : tcp_in) : Prop := SenderOk {
  so_lbb : snd_lbb (p_snd (ti_pcb t)) = u32 (a + zlen W);
  so_nxt : exists n, 0 <= n <= zlen W /\ snd_nxt (p_snd (ti_pcb t)) = u32 (a + n);
  so_segs : Forall (carries W) (unacked (p_snd (ti_pcb t)) ++ unsent (p_snd (ti_pcb t)));
  so_out : Forall (packet_ok W) (ti_out t);
}.

Lemma sub_piece W g o k n fl opts c busy : piece_at W a g o -> 0 <= k -> 0 <= n -> k + n <= sg_len g -> fl .& TCP_SYN = 0 -> fl .& TCP_FIN = 0 ->
  piece_at W a (TcpSeg (u32 (sg_seqno g + k)) n fl (ztake n (zdrop k (sg_data g))) opts c busy) (o + k).
Proof.
  intros [P1 P2 P3 P4 P5 P6] Hk Hn Hkn Hs Hf. split; cbn [sg_seqno sg_len sg_data].
  - rewrite P1, u32_add. f_equal. lia.
  - lia.
  - lia.
  - rewrite P4. unfold bytes_of. replace (o + sg_len g - o) with (sg_len g) by lia. replace (o + k + n - (o + k)) with n by lia. rewrite zdrop_ztake, ztake_ztake, Z.min_l, zdrop_zdrop by lia. do 2 f_equal. lia.
  - unfold has_syn. cbn [sg_flags]. by rewrite Hs.
  - unfold has_fin. cbn [sg_flags]. by rewrite Hf.
Qed.

Lemma carries_flags W g fl : carries W g -> fl .& TCP_SYN = 0 -> fl .& TCP_FIN = 0 -> carries W (TcpSeg (sg_seqno g) (sg_len g) fl (sg_data g) (sg_opts g) (sg_clen g) (sg_busy g)).
Proof.
  intros (H1 & H2 & o & [P1 P2 P3 P4 P5 P6]) Hs Hf. split_and!; [done|unfold has_fin; cbn [sg_flags]; by rewrite Hf|]. exists o. split; try done; [unfold has_syn; cbn [sg_flags]; by rewrite Hs|unfold has_fin; cbn [sg_flags]; by rewrite Hf].
Qed.

Lemma carries_noflags W g : carries W g -> sg_flags g .& TCP_SYN = 0 /\ sg_flags g .& TCP_FIN = 0.
Proof.
  intros (_ & H2 & o & P). pose proof (pc_syn _ _ _ _ P) as H3. unfold has_fin, has_syn in *. apply negb_false_iff, Z.eqb_eq in H2, H3. done.
Qed.

Lemma lor_clear x y z : x .& z = 0 -> y .& z = 0 -> (x .| y) .& z = 0.
Proof. intros H1 H2. by rewrite Z.land_lor_distr_l, H1, H2. Qed.

Lemma carries_ack W g : carries W g -> carries W (set_ack g).
Proof. intros H. destruct (carries_noflags W g H). apply carries_flags; [done|by apply lor_clear|by apply lor_clear]. Qed.

Lemma carries_psh W g : carries W g -> carries W (set_psh g).
Proof. intros H. destruct (carries_noflags W g H). apply carries_flags; [done|by apply lor_clear|by apply lor_clear]. Qed.

Lemma carries_tcplen W g : carries W g -> TCP_TCPLEN g = sg_len g.
Proof. intros H. destruct (carries_noflags W g H) as [H1 H2]. unfold TCP_TCPLEN. rewrite Z.land_lor_distr_r, H1, H2. apply Z.add_0_r. Qed.

Lemma carries_ext W d g : carries W g -> carries (W ++ d) g.
Proof.
  intros (H1 & H2 & o & [P1 P2 P3 P4 P5 P6]). pose proof (zlen_nonneg d). split_and!; [done|done|]. exists o. split; try done; [rewrite zlen_app; lia| |by rewrite H2]. rewrite P4. unfold bytes_of. rewrite zdrop_app_le by lia. rewrite ztake_app_le; [done|]. rewrite zlen_zdrop. lia.
Qed.

Lemma packet_ext W d k : packet_ok W k -> packet_ok (W ++ d) k.
Proof. pose proof (zlen_nonneg d). destruct k as [x ? ? ?| |g ? ? ?]; cbn; [intros (o & H1 & H2); exists o; split; [rewrite zlen_app; lia|done]|done|apply carries_ext]. Qed.

(** The fields that matter. *)
Definition same_sender (t t' : tcp_in) : Prop :=
  snd_lbb (p_snd (ti_pcb t')) = snd_lbb (p_snd (ti_pcb t)) /\ snd_nxt (p_snd (ti_pcb t')) = snd_nxt (p_snd (ti_pcb t)) /\
  unacked (p_snd (ti_pcb t')) = unacked (p_snd (ti_pcb t)) /\ unsent (p_snd (ti_pcb t')) = unsent (p_snd (ti_pcb t)) /\ ti_out t' = ti_out t.

Lemma same_sender_ok W t t' : same_sender t t' -> sender_ok W t -> sender_ok W t'.
Proof. intros (E1 & E2 & E3 & E4 & E5) []. split; rewrite ?E1, ?E2, ?E3, ?E4, ?E5; done. Qed.

(** The queues are replaced by other segments that have bytes of the stream. *)
Lemma queues_ok W t t' : snd_lbb (p_snd (ti_pcb t')) = snd_lbb (p_snd (ti_pcb t)) -> snd_nxt (p_snd (ti_pcb t')) = snd_nxt (p_snd (ti_pcb t)) -> ti_out t' = ti_out t ->
  (Forall (carries W) (unacked (p_snd (ti_pcb t)) ++ unsent (p_snd (ti_pcb t))) -> Forall (carries W) (unacked (p_snd (ti_pcb t')) ++ unsent (p_snd (ti_pcb t')))) -> sender_ok W t -> sender_ok W t'.
Proof. intros E1 E2 E3 H []. split; [congruence|by rewrite E2|auto|by rewrite E3]. Qed.

Lemma empty_ack_sender W t : sender_ok W t -> sender_ok W (tcp_send_empty_ack t).2.
Proof.
  intros Hs. unfold tcp_send_empty_ack, next_send. destruct (ti_sends t) as [|[x|] r]; [by apply (same_sender_ok W t)| |by apply (same_sender_ok W t)]. cbv zeta. cbn [snd].
  destruct Hs as [S1 S2 S3 S4]. assert (Hp : Forall (packet_ok W) (ti_out t ++ [PAck (snd_nxt (p_snd (ti_pcb t))) (rcv_nxt (ti_pcb t)) (TCPWND_MIN16 (RCV_WND_SCALE (ti_pcb t) (rcv_ann_wnd (ti_pcb t)))) (take (tcp_get_num_sacks (ti_pcb t) 0) (rcv_sacks (ti_pcb t)))])).
  { apply Forall_app. split; [done|]. rewrite Forall_singleton. exact S2. }
  destruct (x =? ERR_OK); split; done.
Qed.

(** ** Acknowledgements *)
Lemma seg_insert_perm g l : seg_insert g l ≡ₚ g :: l.
Proof. induction l as [|c l IH]; [done|]. cbn [seg_insert]. destruct (TCP_SEQ_LT _ _); [|done]. rewrite IH. apply perm_swap. Qed.

Lemma rexmit_sender W p t : sender_ok W (set_ti_pcb p t) -> sender_ok W (set_ti_pcb (tcp_rexmit p).2 t).
Proof.
  unfold tcp_rexmit. destruct (unacked (p_snd p)) as [|g l] eqn:Eu; [done|]. destruct (sg_busy g); [done|]. cbn [snd]. cbv zeta. set (s1 := if forallb _ _ then _ else _). set (s2 := set_rttest 0 (inc_nrtx s1)).
  assert (E : snd_lbb s2 = snd_lbb (p_snd p) /\ snd_nxt s2 = snd_nxt (p_snd p) /\ unacked s2 = l /\ unsent s2 = seg_insert g (unsent (p_snd p))) by (unfold s2, inc_nrtx, s1; destruct (forallb _ _), (nrtx _ <? _); done). clearbody s2. destruct E as (E1 & E2 & E3 & E4).
  apply queues_ok; try done. cbn. rewrite E3, E4, Eu, seg_insert_perm. cbn. by rewrite Permutation_middle.
Qed.

Lemma rexmit_fast_sender W p t : sender_ok W (set_ti_pcb p t) -> sender_ok W (set_ti_pcb (tcp_rexmit_fast p) t).
Proof.
  intros Hs. unfold tcp_rexmit_fast. destruct (_ && _); [|done]. pose proof (rexmit_sender W p t Hs) as H. destruct (tcp_rexmit p) as [err p']. cbn [snd] in H. destruct (err =? ERR_OK); [|done]. by apply (same_sender_ok W (set_ti_pcb p' t)).
Qed.

Lemma free_acked_sub (P : tcp_seg -> Prop) ackno : forall l q x, Forall P l -> Forall P (tcp_free_acked_segments ackno l q x).1.1.
Proof. induction l as [|g l IH]; intros q x H; cbn [tcp_free_acked_segments]; [done|]. destruct (TCP_SEQ_LEQ _ _); [|done]. apply IH. by apply Forall_cons in H as [_ H]. Qed.

Lemma newack_sender W h t : sender_ok W t -> sender_ok W (receive_newack h t).
Proof.
  unfold receive_newack. cbv zeta. set (p1 := if negb _ then _ else ti_pcb t). assert (H1 : same_sender t (set_ti_pcb p1 t)) by (unfold p1; by destruct (negb _)). clearbody p1. set (p2 := on_snd _ p1). assert (H2 : same_sender t (set_ti_pcb p2 t)) by exact H1. clearbody p2.
  set (p3 := if _ <=? _ then _ else p2). assert (H3 : same_sender t (set_ti_pcb p3 t)).
  { unfold p3. destruct (_ <=? _); [|done]. unfold update_cwnd. cbv zeta. destruct (_ <? _); [done|]. by destruct (_ <=? _). }
  clearbody p3. clear p1 H1 p2 H2. destruct H3 as (E1 & E2 & E3 & E4 & _). cbn [ti_pcb set_ti_pcb] in *. pose proof (fun P => free_acked_sub P (ih_ackno h) (unacked (p_snd p3)) (snd_queuelen (p_snd p3)) (recv_acked t)) as F1.
  destruct (tcp_free_acked_segments _ (unacked _) _ _) as [[ua ql] ra]. pose proof (fun P => free_acked_sub P (ih_ackno h) (unsent (p_snd p3)) ql ra) as F2. destruct (tcp_free_acked_segments _ (unsent _) _ _) as [[us ql'] ra']. cbn [fst] in F1, F2.
  set (s := set_snd_buf _ _). assert (Es : snd_lbb s = snd_lbb (p_snd p3) /\ snd_nxt s = snd_nxt (p_snd p3) /\ unacked s = ua /\ unsent s = us) by (unfold s; by destruct us). clearbody s. destruct Es as (X1 & X2 & X3 & X4).
  assert (Er : p_snd (end_rto (set_p_snd s p3)) = s) by (unfold end_rto; by destruct (_ && _)). apply queues_ok; cbn [ti_pcb set_recv_acked set_ti_pcb ti_out]; rewrite ?Er; [congruence|congruence|done|]. rewrite X3, X4, <- E3, <- E4. intros H. apply Forall_app in H as [A1 A2]. apply Forall_app. auto.
Qed.

Lemma receive_ack_sender W e h t : sender_ok W t -> sender_ok W (receive_ack e h t).
Proof.
  intros Hs. unfold receive_ack. destruct (ih_flag h TCP_ACK); [|done]. cbv zeta. set (t1 := on_pcb (update_snd_wnd h) t). assert (H1 : sender_ok W t1) by (apply (same_sender_ok W t); [|done]; unfold t1, same_sender, update_snd_wnd; cbn; by destruct (_ || _)). clearbody t1.
  set (t2 := if TCP_SEQ_LEQ _ _ then _ else _). assert (H2 : sender_ok W t2).
  { unfold t2. clear t2. destruct (TCP_SEQ_LEQ _ _); [|destruct (TCP_SEQ_BETWEEN _ _ _); [by apply newack_sender|by apply empty_ack_sender]].
    unfold on_pcb, receive_dupack. cbv zeta. destruct (_ && _); [|by apply (same_sender_ok W t1)]. set (p1 := if dupacks _ <? _ then _ else _). set (p2 := if 3 <? _ then _ else p1).
    assert (Hq : sender_ok W (set_ti_pcb p2 t1)) by (apply (same_sender_ok W t1); [|done]; unfold p2, p1; by destruct (3 <? _), (dupacks _ <? _)). clearbody p2. destruct (3 <=? _); [by apply rexmit_fast_sender|done]. }
  clearbody t2. apply (same_sender_ok W t2); [|done]. unfold same_sender, update_rtt. cbn. by destruct (_ && _).
Qed.

(** ** Output and timers *)
Lemma out_seg_sender W e g t : carries W g -> sender_ok W t -> sender_ok W (tcp_output_segment e g t).2 /\ unsent (p_snd (ti_pcb (tcp_output_segment e g t).2)) = unsent (p_snd (ti_pcb t)).
Proof.
  intros Hg Hs. split; [|by destruct (output_segment_queues e g t) as (_ & _ & _ & ->)]. unfold tcp_output_segment. destruct (sg_busy g); [done|]. cbv zeta. set (p := if rttest _ =? 0 then _ else _).
  assert (H : sender_ok W (set_ti_pcb p t)) by (apply (same_sender_ok W t); [|done]; unfold p; by destruct (rtime _ <? 0), (rttest _ =? 0)). clearbody p. set (k := PSeg g _ _ _). assert (Hk : packet_ok W k) by exact Hg. clearbody k.
  unfold next_send. destruct H as [S1 S2 S3 S4]. destruct (ti_sends (set_ti_pcb p t)); (split; [done|done|done|]); cbn; apply Forall_app; (split; [done|]); by rewrite Forall_singleton.
Qed.

Lemma put_unacked_forall (P : tcp_seg -> Prop) g l : P g -> Forall P l -> Forall P (put_unacked g l).
Proof.
  intros Hg Hl. unfold put_unacked. destruct (last l); [|by rewrite Forall_singleton]. destruct (TCP_SEQ_LT _ _); [rewrite seg_insert_perm; by apply Forall_cons|]. apply Forall_app. split; [done|]. by rewrite Forall_singleton.
Qed.

Lemma carries_end W g k : carries W g -> 0 <= k <= sg_len g -> exists n, 0 <= n <= zlen W /\ u32 (sg_seqno g + k) = u32 (a + n).
Proof. intros (_ & _ & o & [P1 P2 P3 _ _ _]) Hk. exists (o + k). split; [lia|]. rewrite P1, u32_add. f_equal. lia. Qed.

Lemma seg_sent_sender W g l t : unsent (p_snd (ti_pcb t)) = g :: l -> sender_ok W t -> sender_ok W (on_pcb (segment_sent g l) t).
Proof.
  intros Eu [S1 S2 S3 S4]. rewrite Eu in S3. apply Forall_app in S3 as [A1 A2]. apply Forall_cons in A2 as [Hg Hl]. pose proof Hg as [Hlen _]. unfold on_pcb, segment_sent. cbv zeta. rewrite (carries_tcplen W g Hg). set (p1 := if negb _ then _ else on_snd (set_unsent l) (ti_pcb t)).
  assert (E1 : snd_lbb (p_snd p1) = snd_lbb (p_snd (ti_pcb t)) /\ snd_nxt (p_snd p1) = snd_nxt (p_snd (ti_pcb t)) /\ unacked (p_snd p1) = unacked (p_snd (ti_pcb t)) /\ unsent (p_snd p1) = l) by (unfold p1; by destruct (negb _)). clearbody p1. destruct E1 as (B1 & B2 & B3 & B4).
  set (p2 := if TCP_SEQ_LT _ _ then _ else p1). assert (E2 : snd_lbb (p_snd p2) = snd_lbb (p_snd (ti_pcb t)) /\ (exists n, 0 <= n <= zlen W /\ snd_nxt (p_snd p2) = u32 (a + n)) /\ unacked (p_snd p2) = unacked (p_snd (ti_pcb t)) /\ unsent (p_snd p2) = l).
  { unfold p2. destruct (TCP_SEQ_LT _ _); cbn; (split_and!; [done| |done|done]); [by apply carries_end; [|lia]|by rewrite B2]. }
  clearbody p2. destruct E2 as (C1 & C2 & C3 & C4). rewrite (proj2 (Z.ltb_lt 0 (sg_len g))) by done. split; cbn; [by rewrite C1|done| |done]. rewrite C3, C4. apply Forall_app. split; [by apply put_unacked_forall|done].
Qed.

Lemma output_end_sender W t : sender_ok W t -> sender_ok W (output_end t).2.
Proof. apply same_sender_ok. unfold same_sender, output_end, output_done, on_pcb. cbn. by destruct (unsent _) eqn:E. Qed.

Lemma output_loop_sender W e wnd : forall l t, unsent (p_snd (ti_pcb t)) = l -> sender_ok W t -> sender_ok W (output_loop e wnd l t).2.
Proof.
  induction l as [|g l IH]; intros t Eu Hs; cbn [output_loop]; [by apply output_end_sender|]. destruct (fits _ _ _); [|by apply output_end_sender]. destruct (_ && _); [by apply output_end_sender|].
  assert (Hg : carries W g). { pose proof (so_segs _ _ Hs) as H. rewrite Eu in H. apply Forall_app in H as [_ H]. by apply Forall_cons in H as [H _]. }
  set (g' := if negb _ then set_ack g else g). assert (Hg' : carries W g') by (unfold g'; destruct (negb _); [by apply carries_ack|done]). clearbody g'. set (t1 := on_pcb (on_snd (set_unsent (g' :: l))) t). assert (H1 : sender_ok W t1).
  { apply (queues_ok W t); try done. unfold t1. cbn. rewrite Eu. intros H. apply Forall_app in H as [A1 A2]. apply Forall_cons in A2 as [_ A2]. apply Forall_app. split; [done|]. by apply Forall_cons. }
  destruct (out_seg_sender W e g' t1 Hg' H1) as [H2 E2]. destruct (tcp_output_segment e g' t1) as [err t2]. cbn [snd] in *. destruct (negb _); [by apply (same_sender_ok W t2)|]. apply IH; [apply segment_sent_unsent|]. by apply seg_sent_sender.
Qed.

Lemma output_sender W e t : sender_ok W t -> sender_ok W (tcp_output e t).2.
Proof.
  intros Hs. assert (Hack : forall t', sender_ok W t' -> sender_ok W (if negb (pflags (ti_pcb t') .& TF_ACK_NOW =? 0) then tcp_send_empty_ack t' else output_done t').2).
  { intros t' H. destruct (negb _); [by apply empty_ack_sender|by apply (same_sender_ok W t')]. }
  unfold tcp_output. destruct (te_input e); [done|]. cbv zeta. destruct (unsent (p_snd (ti_pcb t))) as [|g l] eqn:Eu; [by apply Hack|]. destruct (te_route e); [|done]. destruct (negb (te_local e)); [done|].
  destruct (negb (fits _ _ _)); [apply Hack; by destruct (_ && _); [apply (same_sender_ok W t)|]|]. apply output_loop_sender; [done|]. by apply (same_sender_ok W t).
Qed.

Lemma slow_rexmit_sender W e t : sender_ok W t -> sender_ok W (slow_rexmit e t).
Proof.
  intros Hs. unfold slow_rexmit. set (t1 := on_pcb _ t). assert (H1 : sender_ok W t1) by (apply (same_sender_ok W t); [|done]; unfold t1, same_sender; cbn; by destruct (_ && _)). clearbody t1. destruct (_ <=? _); [|done].
  assert (H2 : sender_ok W (set_ti_pcb (tcp_rexmit_rto_prepare (ti_pcb t1)).2 t1)).
  { unfold tcp_rexmit_rto_prepare. destruct (last (unacked _)); [|by apply (same_sender_ok W t1)]. destruct (existsb _ _); [by apply (same_sender_ok W t1)|]. apply (queues_ok W t1); done. }
  destruct (tcp_rexmit_rto_prepare (ti_pcb t1)) as [err p]. cbn [snd] in H2. cbv zeta. destruct (_ || _); [|done]. unfold tcp_rexmit_rto_commit. apply output_sender. eapply same_sender_ok; [|exact H2].
  unfold same_sender, inc_nrtx, back_off. cbn. destruct (state p =? SYN_SENT); cbn; by destruct (nrtx _ <? _).
Qed.

Lemma split_sender W mem clen split t : 0 <= split -> sender_ok W t -> sender_ok W (set_ti_pcb (tcp_split_unsent_seg mem clen split (ti_pcb t)).2 t).
Proof.
  intros Hsp Hs. assert (H0 : sender_ok W (set_ti_pcb (ti_pcb t) t)) by (by apply (same_sender_ok W t)). unfold tcp_split_unsent_seg. destruct (unsent (p_snd (ti_pcb t))) as [|g l] eqn:Eu; [done|]. destruct (Z.eqb_spec split 0); [done|]. destruct (Z.leb_spec (sg_len g) split); [done|]. destruct (negb mem); [done|].
  cbn [snd]. cbv zeta. set (s := match l with [] => _ | _ => _ end). set (u := TcpSeg _ split _ _ _ _ _ :: TcpSeg _ _ _ _ _ _ _ :: l) in s.
  assert (Es : snd_lbb s = snd_lbb (p_snd (ti_pcb t)) /\ snd_nxt s = snd_nxt (p_snd (ti_pcb t)) /\ unacked s = unacked (p_snd (ti_pcb t)) /\ unsent s = u) by (unfold s; by destruct l). clearbody s. destruct Es as (E1 & E2 & E3 & E4). apply (queues_ok W t); try done. cbn. rewrite E3, E4, Eu. intros Hq.
  apply Forall_app in Hq as [A1 A2]. apply Forall_cons in A2 as [Hg A2]. destruct (carries_noflags W g Hg) as [F1 F2]. pose proof Hg as (Hlen & _ & o & P). apply Forall_app. split; [done|]. unfold u. apply Forall_cons. split; [|apply Forall_cons; split; [|done]].
  - assert (Fs : (sg_flags g .| (sg_flags g .& Z.lnot (TCP_PSH .| TCP_FIN))) .& TCP_SYN = 0 /\ (sg_flags g .| (sg_flags g .& Z.lnot (TCP_PSH .| TCP_FIN))) .& TCP_FIN = 0).
    { split; apply lor_clear; try done; rewrite <- Z.land_assoc, (Z.land_comm (Z.lnot _)), Z.land_assoc; [rewrite F1|rewrite F2]; apply Z.land_0_l. }
    destruct Fs as [Fs Ff]. split_and!; [cbn; lia|unfold has_fin; cbn [sg_flags]; by rewrite Ff|]. exists (o + 0). pose proof (sub_piece W g o 0 split _ (sg_opts g) clen (sg_busy g) P ltac:(lia) Hsp ltac:(lia) Fs Ff) as Hp. rewrite zdrop_0, Z.add_0_r in Hp.
    pose proof (pc_seqno _ _ _ _ P) as Eq. rewrite Eq in Hp at 1. rewrite u32_u32, <- Eq, Z.add_0_r in *. done.
  - assert (Fs : (sg_flags g .& (TCP_PSH .| TCP_FIN)) .& TCP_SYN = 0 /\ (sg_flags g .& (TCP_PSH .| TCP_FIN)) .& TCP_FIN = 0).
    { split; rewrite <- Z.land_assoc, (Z.land_comm (TCP_PSH .| TCP_FIN)), Z.land_assoc; [rewrite F1|rewrite F2]; apply Z.land_0_l. }
    destruct Fs as [Fs Ff]. split_and!; [cbn; lia|unfold has_fin; cbn [sg_flags]; by rewrite Ff|]. exists (o + split). pose proof (sub_piece W g o split (sg_len g - split) _ (sg_opts g) 1 false P ltac:(lia) ltac:(lia) ltac:(lia) Fs Ff) as Hp.
    rewrite ztake_ge in Hp; [done|]. rewrite (pc_data _ _ _ _ P). unfold bytes_of. pose proof (pc_range _ _ _ _ P). rewrite zlen_zdrop, zlen_ztake_gen, zlen_zdrop. lia.
Qed.

Lemma probe_sender W t : sender_ok W t -> sender_ok W (tcp_zero_window_probe t).2.
Proof.
  intros Hs. unfold tcp_zero_window_probe. destruct (unsent (p_snd (ti_pcb t))) as [|g l] eqn:Eu; [done|]. assert (Hg : carries W g). { pose proof (so_segs _ _ Hs) as H. rewrite Eu in H. apply Forall_app in H as [_ H]. by apply Forall_cons in H as [H _]. }
  set (t1 := on_pcb _ t). assert (H1 : sender_ok W t1) by (apply (same_sender_ok W t); [|done]; unfold t1, same_sender; cbn; by destruct (_ <? _)). clearbody t1. cbv zeta.
  assert (Hp : carries W (probe g)).
  { pose proof Hg as (Hlen & Hf & o & P). unfold probe. rewrite Hf. cbn [andb]. cbv zeta. split_and!; [done|done|]. exists (o + 0). pose proof (sub_piece W g o 0 1 TCP_ACK 0 1 false P ltac:(lia) ltac:(lia) ltac:(lia) eq_refl eq_refl) as H. rewrite zdrop_0, Z.add_0_r in H.
    rewrite (pc_seqno _ _ _ _ P), u32_u32 in H. by rewrite (pc_seqno _ _ _ _ P). }
  unfold send_control, next_send. assert (Hbump : forall t', sender_ok W t' -> sender_ok W (on_pcb (on_snd (fun s => if TCP_SEQ_LT (snd_nxt s) (u32 (sg_seqno g + 1)) then set_snd_nxt (u32 (sg_seqno g + 1)) s else s)) t')).
  { intros t' [S1 S2 S3 S4]. unfold on_pcb, on_snd. destruct (TCP_SEQ_LT _ _); [|split; done]. split; cbn; try done. apply (carries_end W g 1 Hg). destruct Hg; lia. }
  destruct (ti_sends t1) as [|[x|] r]; cbn [snd fst]; [done| |by apply (same_sender_ok W t1)]. apply Hbump. destruct H1 as [S1 S2 S3 S4]. split; try done. cbn. apply Forall_app. split; [done|]. by rewrite Forall_singleton.
Qed.

Lemma slow_persist_sender W e mem clen t : sender_ok W t -> sender_ok W (slow_persist e mem clen t).2.
Proof.
  intros Hs. unfold slow_persist. cbv zeta. destruct (_ <=? _); [done|]. set (t1 := if persist_cnt _ <? _ then _ else t). assert (H1 : sender_ok W t1) by (unfold t1; destruct (_ <? _); [by apply (same_sender_ok W t)|done]). clearbody t1. destruct (_ <=? _); [|done].
  set (r := if snd_wnd _ =? 0 then _ else _). assert (H2 : sender_ok W r.2).
  { unfold r. clear r. destruct (_ =? 0); [pose proof (probe_sender W t1 H1) as H; by destruct (tcp_zero_window_probe t1)|].
    pose proof (split_sender W mem clen (u16 (snd_wnd (p_snd (ti_pcb t)))) t1 (proj1 (u16_range _)) H1) as H. destruct (tcp_split_unsent_seg _ _ _ _) as [err p]. cbn [snd] in H. destruct (_ =? _); [|done]. pose proof (output_sender W e _ H) as H'. by destruct (tcp_output e _). }
  destruct r as [next t2]. cbn [snd] in *. destruct next; [|done]. apply (same_sender_ok W t2); [|done]. unfold same_sender. cbn. by destruct (_ <? _).
Qed.

(** ** Writing *)
Lemma grow_piece W data g o k c : piece_at W a g o -> o + sg_len g = zlen W -> has_fin g = false -> 0 <= k <= zlen data -> sg_len g + k < 65535 -> piece_at (W ++ data) a (grow k (ztake k data) c g) o.
Proof.
  intros [P1 P2 P3 P4 P5 P6] He Hf Hk Hl. assert (E16 : u16 (sg_len g + k) = sg_len g + k) by (apply u16_small; lia). split; cbn [grow sg_seqno sg_len sg_data]; rewrite ?E16; try done; [lia|rewrite zlen_app; lia| |].
  - rewrite P4. unfold bytes_of. replace (o + sg_len g - o) with (sg_len g) by lia. replace (o + (sg_len g + k) - o) with (sg_len g + k) by lia. assert (Hz : zlen (zdrop o W) = sg_len g) by (rewrite zlen_zdrop; lia).
    rewrite zdrop_app_le, ztake_app_ge by lia. rewrite (ztake_ge (sg_len g)) by lia. do 2 f_equal. lia.
  - change (has_fin (grow k (ztake k data) c g)) with (has_fin g). by rewrite Hf.
Qed.

Lemma segs_carry W m data : m < 65535 -> forall l pos, 0 <= pos -> segs_of m (u32 (a + zlen W)) data pos l -> Forall (carries (W ++ data)) l.
Proof.
  intros Hm. pose proof (zlen_nonneg W). induction l as [|g l IH]; intros pos Hp H0; [by apply Forall_nil|]. destruct H0 as ([= E1 E2] & H1 & H2 & H3 & _ & H4). apply Forall_cons. split; [|apply (IH (pos + sg_len g)); [lia|done]].
  assert (Hf : has_fin g = false /\ has_syn g = false) by (unfold has_fin, has_syn; by rewrite H3). destruct Hf as [Hf Hs]. split_and!; [lia|done|]. exists (zlen W + pos). split; try done; [|lia|rewrite zlen_app; lia| |by rewrite Hf].
  - rewrite E1, u32_add. f_equal. lia.
  - rewrite E2 at 1. unfold bytes_of. rewrite zdrop_app_ge by lia. f_equal; [lia|]. f_equal. lia.
Qed.

(** The last unsent segment ends where the stream does. *)
Lemma tail_end W follows t g : zlen W < 2 ^ 28 -> sender_ok W t -> tail_ok follows (ti_pcb t) -> last (unsent (p_snd (ti_pcb t))) = Some g ->
  carries W g /\ forall o, piece_at W a g o -> o + sg_len g = zlen W.
Proof.
  intros HW Hs Ht Eg. destruct (last_snoc_inv _ _ Eg) as [l El]. assert (Hg : carries W g). { pose proof (so_segs _ _ Hs) as H. rewrite El in H. apply Forall_app in H as [_ H]. apply Forall_app in H as [_ H]. by rewrite Forall_singleton in H. }
  split; [done|]. intros o [P1 P2 P3 _ _ _]. unfold tail_ok in Ht. rewrite Eg in Ht. destruct Ht as (_ & Ht & _). rewrite (carries_tcplen W g Hg), (so_lbb _ _ Hs), P1, u32_add in Ht.
  destruct (Z.eq_dec (o + sg_len g) (zlen W)) as [|Hne]; [done|exfalso]. unfold u32 in Ht. pose proof (Z.div_mod (a + zlen W) (2 ^ 32) ltac:(lia)). pose proof (Z.div_mod (a + o + sg_len g) (2 ^ 32) ltac:(lia)). rewrite Ht in *. nia.
Qed.

Lemma write_sender W mem follows data fl t : zlen W < 2 ^ 28 -> sender_ok W t -> tail_ok follows (ti_pcb t) ->
  let '(err, p') := tcp_write mem follows (Some data) fl (ti_pcb t) in sender_ok (if err =? ERR_OK then W ++ data else W) (set_ti_pcb p' t).
Proof.
  intros HW Hs Ht. pose proof (tcp_write_cases mem follows data fl (ti_pcb t) Ht) as Hc. destruct (tcp_write mem follows (Some data) fl (ti_pcb t)) as [err p']. destruct Hc as [[Hne Hp]|(-> & k & tail & set & over & qlen & new & -> & Hk & Hn & Hl)].
  { rewrite (proj2 (Z.eqb_neq err ERR_OK)) by done. apply (same_sender_ok W t); [|done]. by destruct Hp as [-> | ->]. }
  change (ERR_OK =? ERR_OK) with true. cbv iota. pose proof Hs as [S1 S2 S3 S4]. rewrite S1 in Hn. pose proof (zlen_nonneg data). apply Forall_app in S3 as [A1 A2].
  assert (Hall : Forall (carries (W ++ data)) (tail ++ new)).
  { apply Forall_app. split; [|apply (segs_carry W (write_mss (ti_pcb t)) data (proj1 Ht) new k); [lia|done]]. destruct (last (unsent (p_snd (ti_pcb t)))) as [g|] eqn:Eg; [|destruct Hl as [-> _]; by apply Forall_nil]. destruct Hl as (c & -> & Hm & _).
    destruct (tail_end W follows t g HW Hs Ht Eg) as [Hg He]. destruct (last_snoc_inv _ _ Eg) as [l El]. rewrite El in A2 |- *. rewrite alter_last_snoc. apply Forall_app in A2 as [A2 _]. apply Forall_app. split; [eapply Forall_impl; [exact A2|]; apply carries_ext|].
    rewrite Forall_singleton. pose proof (proj1 Ht) as Hmax. destruct Hg as (G1 & G2 & o & P). split_and!; [cbn; rewrite u16_small by lia; lia|done|]. exists o. apply grow_piece; try done; [by apply He|lia]. }
  split; cbn [ti_pcb set_ti_pcb on_snd p_snd set_p_snd ti_out].
  - cbn. rewrite S1, u32_add, zlen_app. f_equal. lia.
  - destruct S2 as (n & N1 & N2). exists n. rewrite zlen_app. split; [lia|done].
  - apply Forall_app. split; [eapply Forall_impl; [exact A1|]; apply carries_ext|]. cbn. destruct (_ && _); [|done]. apply alter_last_forall; [|done]. apply carries_psh.
  - eapply Forall_impl; [exact S4|]. apply packet_ext.
Qed.

(** ** The sender over time *)

(** [W] has been written, and the sending side of the connection is that of [t].  Between the
    calls of [tcp_write], acknowledgements arrive, [tcp_output] is called, the
    retransmission and the persist timer run, ACKs are sent, and other things happen that
    leave the queues alone. *)
Inductive sender : list Z -> tcp_in -> Prop :=
  | SndNew t : snd_lbb (p_snd (ti_pcb t)) = u32 a -> snd_nxt (p_snd (ti_pcb t)) = u32 a -> unacked (p_snd (ti_pcb t)) = [] -> unsent (p_snd (ti_pcb t)) = [] -> ti_out t = [] -> sender [] t
  | SndWrite W t mem follows data fl : sender W t -> tail_ok follows (ti_pcb t) -> (tcp_write mem follows (Some data) fl (ti_pcb t)).1 = ERR_OK ->
      sender (W ++ data) (set_ti_pcb (tcp_write mem follows (Some data) fl (ti_pcb t)).2 t)
  | SndFail W t mem follows data fl : sender W t -> tail_ok follows (ti_pcb t) -> (tcp_write mem follows (Some data) fl (ti_pcb t)).1 <> ERR_OK ->
      sender W (set_ti_pcb (tcp_write mem follows (Some data) fl (ti_pcb t)).2 t)
  | SndAck W t e h : sender W t -> sender W (receive_ack e h t)
  | SndOutput W t e : sender W t -> sender W (tcp_output e t).2
  | SndRexmit W t e : sender W t -> sender W (slow_rexmit e t)
  | SndPersist W t e mem clen : sender W t -> sender W (slow_persist e mem clen t).2
  | SndEmptyAck W t : sender W t -> sender W (tcp_send_empty_ack t).2
  | SndOther W t t' : sender W t -> same_sender t t' -> sender W t'.

Lemma sender_inv W t : sender W t -> zlen W < 2 ^ 28 -> sender_ok W t.
Proof.
  induction 1 as [t H1 H2 H3 H4 H5|W t mem follows data fl H IH Ht Hw|W t mem follows data fl H IH Ht Hw|W t e h H IH|W t e H IH|W t e H IH|W t e mem clen H IH|W t H IH|W t t' H IH Hs]; intros HW.
  - split; [by rewrite H1, Z.add_0_r|exists 0; split; [done|]; by rewrite H2, Z.add_0_r|by rewrite H3, H4|by rewrite H5].
  - rewrite zlen_app in HW. pose proof (zlen_nonneg data). specialize (IH ltac:(lia)). pose proof (write_sender W mem follows data fl t ltac:(lia) IH Ht) as H'. destruct (tcp_write _ _ _ _ _) as [err p']. cbn [fst snd] in *. by rewrite Hw in H'.
  - specialize (IH HW). pose proof (write_sender W mem follows data fl t HW IH Ht) as H'. destruct (tcp_write _ _ _ _ _) as [err p']. cbn [fst snd] in *. by rewrite (proj2 (Z.eqb_neq err ERR_OK)) in H' by done.
  - by apply receive_ack_sender, IH.
  - by apply output_sender, IH.
  - by apply slow_rexmit_sender, IH.
  - by apply slow_persist_sender, IH.
  - by apply empty_ack_sender, IH.
  - eapply same_sender_ok; [exact Hs|]. by apply IH.
Qed.
End sender.

(** What the peer gets from a packet: any acknowledgement, window and options. *)
Definition arrives (k : tcp_packet) (h : in_hdr) : Prop :=
  let g := ih_seg h in
  match k with
  | PSeg g' _ _ _ => bare g = bare g' /\ sg_flags g = sg_flags g'
  | PAck seqno _ _ _ => bare g = (seqno, 0, []) /\ sg_flags g = TCP_ACK
  | PRst _ _ => ih_flag h TCP_RST = true
  end.

Definition from_wire (out : list tcp_packet) (ev : conn_event) : Prop := match ev with InSegment _ _ h => exists k, k ∈ out /\ arrives k h | _ => True end.

Lemma arrives_ok a W k h : packet_ok a W k -> arrives k h -> seg_ok W a h.
Proof.
  destruct k as [x ? ? ?| |g ? ? ?]; cbn [packet_ok arrives]; cbv zeta.
  - intros (o & Ho & ->) [[= E1 E2 E3] Ef]. right. right. exists o. split; rewrite ?E1, ?E2, ?E3; try done; [lia| |unfold has_syn; by rewrite Ef|unfold has_fin; by rewrite Ef]. unfold bytes_of. by replace (o + 0 - o) with 0 by lia.
  - intros _ H. by left.
  - intros (G1 & G2 & o & [P1 P2 P3 P4 P5 P6]) [[= E1 E2 E3] Ef]. right. right. exists o. split; rewrite ?E1, ?E2, ?E3; try done; [unfold has_syn in *; by rewrite Ef|]. unfold has_fin in *. by rewrite Ef.
Qed.

(** C16. TCP carries the stream from one application to the other.  One side writes [W], with
    any calls of [tcp_write], while acknowledgements of any kind arrive, [tcp_output] runs,
    the retransmission and the persist timer expire and packets fail to be sent; a call of
    [tcp_write] finds the end of the stream at the end of the unsent queue.  The other side,
    a new connection that expects [a], gets packets of those that were sent: any of them, in
    any order, again or not at all, and everything else that can happen to a connection.
    Then its application has accepted a prefix of [W]; and what it has accepted and what is
    kept for it are exactly the bytes of [W] up to [rcv_nxt]. *)
Theorem tcp_end_to_end (a : Z) (W : list Z) (t r : tcp_in) (evs : list conn_event) :
  sender a W t -> zlen W < 2 ^ 28 -> conn_new a r -> Forall (from_wire (ti_out t)) evs ->
  let '(gone, r') := conn_run evs r in
  accepted (ti_events r') `prefix_of` W /\
  (gone = false -> state (ti_pcb r') <> TIME_WAIT ->
   exists n, 0 <= n /\ rcv_nxt (ti_pcb r') = u32 (a + n) /\ accepted (ti_events r') ++ held r' = ztake n W).
Proof.
  intros Hs HW Hnew Hevs. pose proof (sender_inv a W t Hs HW) as [_ _ _ Hout]. assert (Hok : Forall (event_ok W a) evs).
  { eapply Forall_impl; [exact Hevs|]. intros [e c h|e n|e m|e m c|e m|f|e]; cbn; try done. intros (k & Hk & Ha). rewrite Forall_forall in Hout. eapply arrives_ok; [by apply Hout|done]. }
  pose proof (run_ok W a HW evs r 0 (new_ok W a r Hnew) Hok) as [H1 H2]. destruct (conn_run evs r) as [gone r']. cbn [fst snd] in *.
  split; [done|]. intros Hg Hst. destruct (H2 Hg Hst) as [n [[[I1 I2 I3] I4] C2 C3 C4]]. exists n. rewrite <- got_take by lia. split_and!; [lia|done|done].
Qed.
