(* ===== verification/TcpClaims.v ===== *)
(** TCP: what the theorems of [TcpConn] say about concrete connections, and where the code
    does not do what it means to. *)
From Stdlib Require Import Sorted.
From S2P Require Import Prelude Bits Def Pbuf TcpIn TcpOut TcpProcess TcpTmr TcpStream TcpConn TcpSend TcpWrite.

(** A connection with nothing to send. *)
Definition ex_snd : tcp_snd :=
  TcpSnd 1000 1000 1000 65535 65535 0 1000 TCP_SND_BUF 0 0 [] [] 4380 65535 0 0 0 (-1) 0 0 0 3 3 0 0 0 0 0.

Definition ex_pcb (st nxt wnd : Z) (s : tcp_snd) : tcp_pcb :=
  TcpPcb st TF_WND_SCALE 1460 4 4 nxt wnd wnd (u32 (nxt + wnd)) (replicate LWIP_TCP_MAX_SACK_NUM (0, 0)) [] None 0 0 7200000 75000 9 0 4 None s.

Definition ex_tcp (p : tcp_pcb) (app : list app_call) : tcp_in := TcpInput p None 0 0 [] [] [] app [].

Definition ex_env : tcp_env := TcpEnv (Some 1500) true 1 false.

(** A segment with data, without options. *)
Definition ex_hdr (seqno flags : Z) (data : list Z) (ackno : Z) : in_hdr :=
  InHdr (TcpSeg seqno (zlen data) flags data 0 1 false) ackno 0x1000 [] (fun _ => 0).

Definition ex_refuse : app_call := AppCall ERR_MEM [] id.

Definition zeros (n : Z) : list Z := replicate (Z.to_nat n) 0.

(** Every allocation succeeds. *)
Definition ex_mem : list bool := replicate 10 true.

(** The application writes; the packets that follow are sent. *)
Definition ex_write (d : list Z) (t : tcp_in) : tcp_in := set_ti_pcb (tcp_write ex_mem false (Some d) TCP_WRITE_FLAG_COPY (ti_pcb t)).2 t.

Definition ex_send (d : list Z) (t : tcp_in) : tcp_in := (tcp_output ex_env (set_ti_sends [Some ERR_OK] (ex_write d t))).2.

(** Six bytes whose sequence numbers wrap. *)
Definition ex_stream : list Z := [11; 12; 13; 14; 15; 16].

Definition ex_base : Z := 2 ^ 32 - 3.

(** Out of order, overlapping and repeated, with FIN first; the application refuses once. *)
Definition ex_evs : list conn_event :=
  [InSegment ex_env true (ex_hdr (u32 (ex_base + 3)) (TCP_ACK .| TCP_FIN) [14; 15; 16] 1000);
   InSegment ex_env true (ex_hdr (u32 (ex_base + 1)) TCP_ACK [12; 13; 14; 15] 1000);
   InSegment ex_env true (ex_hdr (u32 ex_base) TCP_ACK [11; 12] 1000);
   InFast ex_env true;
   InSegment ex_env true (ex_hdr (u32 (ex_base + 2)) (TCP_ACK .| TCP_FIN) [13; 14; 15; 16] 1000);
   InRead ex_env 6].

Definition ex_new : tcp_in := ex_tcp (ex_pcb ESTABLISHED (u32 ex_base) TCP_WND ex_snd) [ex_refuse].
Lemma hdr_piece St b off len flags ackno :
  0 <= off -> 0 <= len < 65535 -> off + len <= zlen St -> flags .& TCP_SYN = 0 -> (flags .& TCP_FIN = 0 \/ off + len = zlen St) ->
  seg_ok St b (ex_hdr (u32 (b + off)) flags (bytes_of St off (off + len)) ackno).
Proof.
  intros H1 H2 H3 Hs Hf. right. right. exists off. unfold ex_hdr. split; cbn [ih_seg sg_seqno sg_len sg_data].
  - done.
  - rewrite bytes_len; lia.
  - rewrite bytes_len; lia.
  - rewrite bytes_len by lia. f_equal. lia.
  - unfold has_syn. cbn [sg_flags]. by rewrite Hs.
  - unfold has_fin. cbn [sg_flags]. rewrite bytes_len by lia. intros Hx. destruct Hf as [E|E]; [by rewrite E in Hx|lia].
Qed.

Lemma ex_evs_ok : Forall (event_ok ex_stream ex_base) ex_evs.
Proof.
  pose proof (zlen_nonneg ex_stream). assert (zlen ex_stream = 6) as E6 by reflexivity.
  repeat (apply Forall_cons; split); [| | |exact I| |exact I|by apply Forall_nil].
  - apply (hdr_piece ex_stream ex_base 3 3); try lia; try done; by right.
  - apply (hdr_piece ex_stream ex_base 1 4); try lia; try done; by left.
  - replace (u32 ex_base) with (u32 (ex_base + 0)) by (by rewrite Z.add_0_r). apply (hdr_piece ex_stream ex_base 0 2); try lia; try done; by left.
  - apply (hdr_piece ex_stream ex_base 2 4); try lia; try done; by right.
Qed.

Lemma ex_new_ok : conn_new ex_base ex_new.
Proof. split; try done; cbn; unfold TCP_WND, ESTABLISHED, LAST_ACK; lia. Qed.

(** All six bytes arrive, out of order, are refused once and then taken, then the end. *)
Lemma tcp_stream_in_order_witness :
  (accepted (ti_events (conn_run ex_evs ex_new).2) = ex_stream /\ told_closed (ti_events (conn_run ex_evs ex_new).2) = 1%nat) /\
  let '(gone, t') := conn_run ex_evs ex_new in
  accepted (ti_events t') `prefix_of` ex_stream /\
  (gone = false -> state (ti_pcb t') <> TIME_WAIT ->
   exists n, 0 <= n <= zlen ex_stream + 1 /\ rcv_nxt (ti_pcb t') = u32 (ex_base + n) /\ accepted (ti_events t') ++ held t' = ztake n ex_stream /\
     match refused_data (ti_pcb t') with
     | None => told_closed (ti_events t') = if n =? zlen ex_stream + 1 then 1%nat else 0%nat
     | Some (_, fin) => fin = (n =? zlen ex_stream + 1) /\ told_closed (ti_events t') = 0%nat
     end).
Proof.
  split; [by vm_compute|]. exact (tcp_stream_in_order ex_stream ex_base ex_new ex_evs ltac:(done) ex_new_ok ex_evs_ok).
Defined.

(** ** Data that is lost *)

(** Nothing that happens in TIME_WAIT tells the application anything. *)
Lemma timewait_silent e h t : same_rcv t (tcp_timewait_input e h t).
Proof.
  unfold tcp_timewait_input. cbv zeta. destruct (ih_flag h TCP_RST); [done|]. destruct (_ && _); [apply rst_rcv|]. set (t1 := if _ && _ then _ else t). assert (H : same_rcv t t1) by (unfold t1; by destruct (_ && _)). clearbody t1.
  destruct (0 <? _); [|done]. etrans; [exact H|]. etrans; [|apply output_rcv]. done.
Qed.

(** The last data and FIN arrive while the application has no room for it: after its own
    side was shut down, or while both sides close. *)
Definition ex_shut : tcp_in :=
  (conn_run [InShutTx ex_env true] (set_ti_sends [Some ERR_OK] (ex_tcp (ex_pcb ESTABLISHED 0 1000 ex_snd) []))).2.

Definition ex_half_closed : tcp_in := set_ti_app [ex_refuse] (conn_run [InSegment ex_env true (ex_hdr 0 TCP_ACK [] 1001)] ex_shut).2.

Definition ex_last : conn_event := InSegment ex_env true (ex_hdr 0 (TCP_ACK .| TCP_FIN) [1; 2; 3] 1000).

Definition ex_closing : tcp_in := set_ti_app [ex_refuse; ex_refuse] ex_shut.

(** ** FIN in the wrong place *)

(** The peer closes its window; the application writes twenty bytes and shuts down its side;
    the peer opens the window for sixteen, and the persist timer is about to run out. *)
Definition ex_window (seqno : Z) (data : list Z) (wnd : Z) : conn_event :=
  InSegment ex_env true (InHdr (TcpSeg seqno (zlen data) TCP_ACK data 0 1 false) 1000 wnd [] (fun _ => 0)).

Definition ex_twenty : list Z := seqZ 1 20.

Definition ex_small_window : tcp_in :=
  let t := (conn_run [ex_window 0 [7] 0; ex_window 1 [] 0] (ex_tcp (ex_pcb ESTABLISHED 0 1000 ex_snd) [])).2 in
  set_ti_sends [Some ERR_OK] (conn_run [InShutTx ex_env true; ex_window 1 [] 1; InSlow ex_env true 1; InSlow ex_env true 1] (ex_write ex_twenty t)).2.

(** Six bytes in flight in three segments. *)
Definition ex_in_flight : tcp_snd :=
  set_snd_nxt 1006 (set_snd_lbb 1006 (set_rtime 0 (set_snd_queuelen 3 (set_unacked
    [TcpSeg 1000 2 TCP_ACK [1; 2] 0 1 false; TcpSeg 1002 2 TCP_ACK [3; 4] 0 1 false; TcpSeg 1004 2 TCP_ACK [5; 6] 0 1 false] ex_snd)))).

(** Sending the fast retransmission fails; then the application shuts down its side. *)
Definition ex_fast_rexmit : tcp_in := set_ti_sends [Some ERR_MEM; Some ERR_OK] (ex_tcp (ex_pcb ESTABLISHED 0 1000 ex_in_flight) []).

(** The data segments with FIN that have gone to IP: their first sequence number, their data. *)
Fixpoint fins_sent (l : list tcp_packet) : list (Z * list Z) :=
  match l with
  | [] => []
  | PSeg g _ _ _ :: l => (if has_fin g then [(sg_seqno g, sg_data g)] else []) ++ fins_sent l
  | _ :: l => fins_sent l
  end.

(** The persist timer is due, with a window that is smaller than the first unsent segment [g]. *)
Record probe_due (e : tcp_env) (t : tcp_in) (g : tcp_seg) (rest : list tcp_seg) : Prop := ProbeDue {
  pd_unsent : unsent (p_snd (ti_pcb t)) = g :: rest;
  pd_seg : sg_busy g = false /\ sg_len g < 65536 /\ sg_seqno g = lastack (p_snd (ti_pcb t));
  pd_window : 0 < snd_wnd (p_snd (ti_pcb t)) < sg_len g /\ snd_wnd (p_snd (ti_pcb t)) <= cwnd (p_snd (ti_pcb t));
  pd_probes : persist_probe (p_snd (ti_pcb t)) < TCP_MAXRTX;
  pd_timer : nth (Z.to_nat (persist_backoff (p_snd (ti_pcb t)) - 1)) tcp_persist_backoff 0 <= persist_cnt (p_snd (ti_pcb t)) + 1;
  pd_closing : state (ti_pcb t) <> SYN_SENT /\ pflags (ti_pcb t) .& TF_FIN <> 0;
  pd_env : te_input e = false /\ is_Some (te_route e) /\ te_local e = true;
}.

Lemma fin_kept g k : has_fin g = true -> negb ((sg_flags g .| k) .& TCP_FIN =? 0) = true.
Proof.
  unfold has_fin. rewrite !negb_true_iff, !Z.eqb_neq. intros Hf E. apply Hf. rewrite Z.land_lor_distr_l in E. by apply Z.lor_eq_0_iff in E as [E _].
Qed.

Lemma fin_moved g : has_fin g = true -> negb (sg_flags g .& (TCP_PSH .| TCP_FIN) .& TCP_FIN =? 0) = true.
Proof. unfold has_fin. rewrite <- Z.land_assoc. change ((TCP_PSH .| TCP_FIN) .& TCP_FIN) with TCP_FIN. done. Qed.

(** One segment goes out, the next one does not fit. *)
Lemma output_one e t a b rest more :
  unsent (p_snd (ti_pcb t)) = a :: b :: rest -> sg_busy a = false -> te_input e = false -> is_Some (te_route e) -> te_local e = true ->
  ti_sends t = Some ERR_OK :: more -> state (ti_pcb t) <> SYN_SENT -> pflags (ti_pcb t) .& TF_FIN <> 0 ->
  let wnd := Z.min (snd_wnd (p_snd (ti_pcb t))) (cwnd (p_snd (ti_pcb t))) in
  fits wnd (lastack (p_snd (ti_pcb t))) a = true -> fits wnd (lastack (p_snd (ti_pcb t))) b = false ->
  (tcp_output e t).1 = ERR_OK /\
  (exists k w o, ti_out (tcp_output e t).2 = ti_out t ++ [PSeg (set_ack a) k w o]) /\ unsent (p_snd (ti_pcb (tcp_output e t).2)) = b :: rest.
Proof.
  intros Eu Hb He [mtu Hr] Hl Hsend Hst Hfin wnd Fa Fb. unfold tcp_output. rewrite He. cbv zeta. rewrite Eu, Hr, Hl. cbn [negb]. fold wnd. rewrite Fa. cbn [negb output_loop].
  change (lastack (p_snd (ti_pcb (on_pcb (on_snd (set_persist_backoff 0)) t)))) with (lastack (p_snd (ti_pcb t))). rewrite Fa.
  assert (Hn : (pflags (ti_pcb t) .& (TF_NAGLEMEMERR .| TF_FIN) =? 0) = false).
  { apply Z.eqb_neq. intros E. apply Hfin. rewrite Z.land_lor_distr_r in E. by apply Z.lor_eq_0_iff in E as [_ E]. }
  change (pflags (ti_pcb (on_pcb (on_snd (set_persist_backoff 0)) t))) with (pflags (ti_pcb t)). rewrite Hn, andb_false_r.
  change (state (ti_pcb (on_pcb (on_snd (set_persist_backoff 0)) t))) with (state (ti_pcb t)). rewrite (proj2 (Z.eqb_neq _ _) Hst). cbn [negb].
  set (t1 := on_pcb (on_snd (set_unsent (set_ack a :: b :: rest))) _). unfold tcp_output_segment. change (sg_busy (set_ack a)) with (sg_busy a). rewrite Hb. cbv zeta.
  set (p1 := if rttest _ =? 0 then _ else _). assert (Hp1 : lastack (p_snd p1) = lastack (p_snd (ti_pcb t)) /\ state p1 = state (ti_pcb t)).
  { unfold p1. repeat case_match; done. }
  clearbody p1. destruct Hp1 as [L1 S1]. unfold next_send. change (ti_sends (set_ti_pcb p1 t1)) with (ti_sends t). rewrite Hsend. cbn [default negb]. change (negb (ERR_OK =? ERR_OK)) with false. cbv iota.
  match goal with |- context [on_pcb (segment_sent ?x ?l) ?y] => set (t2 := on_pcb (segment_sent x l) y) end.
  assert (H2 : lastack (p_snd (ti_pcb t2)) = lastack (p_snd (ti_pcb t)) /\ unsent (p_snd (ti_pcb t2)) = b :: rest).
  { unfold t2, on_pcb, segment_sent. cbv zeta. cbn [ti_pcb set_ti_pcb]. rewrite <- L1. split; repeat case_match; reflexivity. }
  destruct H2 as [L2 U2]. rewrite L2, Fb. unfold output_end, output_done, on_pcb. cbn [fst snd ti_pcb set_ti_pcb]. split; [done|]. rewrite U2. split; [|exact U2].
  do 3 eexists. reflexivity.
Qed.

(** C33. FIN can be sent before the last data, which cuts the stream short for the peer.
    [tcp_split_unsent_seg] wants to move FIN to the second part of a segment, but
    [TCPH_SET_FLAG] does not clear it in the first.  Whenever the persist timer is due, the
    window is not zero but smaller than the first unsent segment, that segment has FIN, and
    there are memory and a route, [tcp_slowtmr] sends the bytes that fit with FIN, and
    the others, which come after that FIN, stay behind. *)
Theorem tcp_fin_too_early (e : tcp_env) (clen : Z) (t : tcp_in) (g : tcp_seg) (rest : list tcp_seg) (more : list (option Z)) :
  probe_due e t g rest -> has_fin g = true -> ti_sends t = Some ERR_OK :: more ->
  let wnd := snd_wnd (p_snd (ti_pcb t)) in
  let t' := (slow_persist e true clen t).2 in
  exists a b k w o, ti_out t' = ti_out t ++ [PSeg a k w o] /\ has_fin a = true /\ sg_len a = wnd /\ sg_data a = ztake wnd (sg_data g) /\
    unsent (p_snd (ti_pcb t')) = b :: rest /\ has_fin b = true /\ sg_len b = sg_len g - wnd /\ sg_data b = zdrop wnd (sg_data g).
Proof.
  intros [Eu (Hb & Hlen & Hseq) [Hw Hcw] Hp Ht [Hst Hfl] (He & Hr & Hl)] Hfin Hs wnd t'. subst t'. unfold slow_persist. cbv zeta.
  destruct (Z.leb_spec TCP_MAXRTX (persist_probe (p_snd (ti_pcb t)))); [lia|]. set (cnt := nth _ _ 0) in *. set (t0 := if persist_cnt _ <? cnt then _ else t).
  assert (H0 : cnt <= persist_cnt (p_snd (ti_pcb t0)) /\ unsent (p_snd (ti_pcb t0)) = unsent (p_snd (ti_pcb t)) /\ snd_wnd (p_snd (ti_pcb t0)) = wnd /\ cwnd (p_snd (ti_pcb t0)) = cwnd (p_snd (ti_pcb t)) /\
    lastack (p_snd (ti_pcb t0)) = lastack (p_snd (ti_pcb t)) /\ state (ti_pcb t0) = state (ti_pcb t) /\ pflags (ti_pcb t0) = pflags (ti_pcb t) /\ ti_sends t0 = ti_sends t /\ ti_out t0 = ti_out t).
  { unfold t0. destruct (Z.ltb_spec (persist_cnt (p_snd (ti_pcb t))) cnt); split; [change (cnt <= persist_cnt (p_snd (ti_pcb t)) + 1); exact Ht|done|lia|done]. }
  clearbody t0. destruct H0 as (Z0 & U0 & W0 & C0 & L0 & S0 & F0 & N0 & O0). rewrite (proj2 (Z.leb_le _ _) Z0). fold wnd in Hw |- *. destruct (Z.eqb_spec wnd 0); [lia|].
  rewrite (u16_small wnd) by lia. unfold tcp_split_unsent_seg. cbv zeta. rewrite U0, Eu. destruct (Z.eqb_spec wnd 0); [lia|]. destruct (Z.leb_spec (sg_len g) wnd); [lia|]. cbn [negb].
  set (b := TcpSeg (u32 (sg_seqno g + wnd)) _ _ _ _ _ _). set (a := TcpSeg (sg_seqno g) wnd _ _ _ _ _). change (ERR_OK =? ERR_OK) with true. cbv iota.
  match goal with |- context [tcp_output e (set_ti_pcb ?p t0)] => set (t1 := set_ti_pcb p t0) end.
  assert (Hq : unsent (p_snd (ti_pcb t1)) = a :: b :: rest /\ snd_wnd (p_snd (ti_pcb t1)) = wnd /\ cwnd (p_snd (ti_pcb t1)) = cwnd (p_snd (ti_pcb t)) /\
    lastack (p_snd (ti_pcb t1)) = lastack (p_snd (ti_pcb t)) /\ state (ti_pcb t1) = state (ti_pcb t) /\ pflags (ti_pcb t1) = pflags (ti_pcb t)) by (unfold t1; rewrite <- W0, <- C0, <- L0, <- S0, <- F0; by destruct rest).
  destruct Hq as (U1 & W1 & C1 & L1 & S1 & F1). pose proof (output_one e t1 a b rest more U1 Hb He Hr Hl (eq_trans N0 Hs) ltac:(congruence) ltac:(congruence)) as HO. cbv zeta in HO.
  rewrite W1, C1, L1, Z.min_l in HO by lia. destruct HO as (E1 & (k & w & o & E2) & E3).
  - unfold fits. cbn. rewrite Hseq, Z.sub_diag, Z.add_0_l. rewrite u32_small by lia. apply Z.leb_refl.
  - unfold fits. cbn. apply Z.leb_gt. rewrite Hseq. replace (u32 (u32 (lastack (p_snd (ti_pcb t)) + wnd) - lastack (p_snd (ti_pcb t)) + (sg_len g - wnd))) with (sg_len g); [lia|].
    unfold u32. rewrite <- (Z.mod_small (sg_len g) (2 ^ 32)) at 1 by lia. rewrite <- Zplus_mod_idemp_l, Zminus_mod_idemp_l, Zplus_mod_idemp_l. f_equal. lia.
  - destruct (tcp_output e t1) as [err t2]. cbn [fst snd] in *. rewrite E1. cbn [negb]. exists (set_ack a), b, k, w, o. split; [change (ti_out t1) with (ti_out t0) in E2; rewrite <- O0; exact E2|].
    split; [unfold has_fin; cbn; rewrite <- Z.lor_assoc; by apply fin_kept|]. split_and!; try done. by apply fin_moved.
Qed.

(** ** Out-of-sequence data *)
Definition ex_oos (wnd : Z) : tcp_in := set_ti_sends [Some ERR_OK] (ex_tcp (tcp_set_flags TF_SACK (ex_pcb ESTABLISHED 0 wnd ex_snd)) []).

Definition ex_seg (copied : bool) (seqno len : Z) : conn_event := InSegment ex_env copied (ex_hdr seqno TCP_ACK (zeros len) 1000).

(** What out-of-sequence segments do to the window and the queue, against the intent of
    the code.  The first segment of the queue is not cut to the window: with a window of ten
    bytes, 1000 bytes from the fifth on are stored and taken, and the window wraps to almost
    2^32.  A short segment inside the last one of the queue replaces its end, so that bytes
    that were received and announced are forgotten.  And when [tcp_seg_copy] has no memory
    for the first segment, the ACK still announces it as received. *)
Theorem tcp_oos_errors :
  (let t := (conn_run [ex_seg true 5 1000; ex_seg true 0 5] (ex_oos 10)).2 in
   rcv_nxt (ti_pcb t) = 1005 /\ rcv_wnd (ti_pcb t) = 2 ^ 32 - 995 /\ zlen (accepted (ti_events t)) = 1005) /\
  (let t := (conn_run [ex_seg true 10 20] (ex_oos 1000)).2 in
   ti_out t = [PAck 1000 0 62 [(10, 30)]] /\ map (fun g => (sg_seqno g, sg_len g)) (ooseq (ti_pcb t)) = [(10, 20)] /\
   map (fun g => (sg_seqno g, sg_len g)) (ooseq (ti_pcb (conn_step (ex_seg true 15 5) t).2)) = [(10, 5); (15, 5)]) /\
  (let t := (conn_run [ex_seg false 10 20] (ex_oos 1000)).2 in ooseq (ti_pcb t) = [] /\ ti_out t = [PAck 1000 0 62 [(10, 30)]]).
Proof. split_and!; by vm_compute. Qed.

(** An ACK that [tcp_fasttmr] fails to send is forgotten.  [tcp_send_empty_ack] sets both
    ACK flags when it fails, "let tcp_fasttmr retry sending this ACK", but [tcp_fasttmr]
    clears them after [tcp_output], whatever that has returned. *)
Theorem fasttmr_forgets_ack :
  let t := set_ti_sends [None] (ex_tcp (tcp_set_flags TF_ACK_DELAY (ex_pcb ESTABLISHED 0 1000 ex_snd)) []) in
  pflags (ti_pcb (tcp_send_empty_ack t).2) .& (TF_ACK_DELAY .| TF_ACK_NOW) = TF_ACK_DELAY .| TF_ACK_NOW /\
  let t' := (fasttmr_pcb ex_env true t).2 in
  ti_out t' = [] /\ pflags (ti_pcb t') .& (TF_ACK_DELAY .| TF_ACK_NOW) = 0.
Proof. by vm_compute. Qed.

(** ** The state machine *)

Lemma advance_state seqno k p : state (advance seqno k p) = state p.
Proof. unfold advance. destruct (ann_wnd_keeps (set_rcv_wnd (u32 (rcv_wnd p - k)) (set_rcv_nxt (u32 (seqno + k)) p))) as (_ & _ & _ & ->). done. Qed.

Lemma gf_pass d g t : got_fin t = true -> got_fin (pass_data d g t) = true.
Proof. intros H. unfold pass_data. destruct (has_fin g); [by rewrite gf_set|]. by destruct (0 <? _). Qed.

Lemma drain_fin : forall l t, (got_fin t = true -> got_fin (drain l t) = true) /\ (state (ti_pcb (drain l t)) = state (ti_pcb t) \/ got_fin (drain l t) = true).
Proof.
  induction l as [|g l IH]; intros t; cbn [drain]; [by split; [|left]|]. destruct (_ =? _); [|by split; [|left]]. set (t1 := pass_data _ g _). assert (Est : state (ti_pcb t1) = state (ti_pcb t)).
  { unfold t1, pass_data. transitivity (state (advance (rcv_nxt (ti_pcb t)) (TCP_TCPLEN g) (ti_pcb t))); [by destruct (0 <? _), (has_fin g)|]. apply advance_state. }
  destruct (IH (if has_fin g && (state (ti_pcb t1) =? ESTABLISHED) then on_pcb (set_state CLOSE_WAIT) t1 else t1)) as [I1 I2]. split.
  - intros H. apply I1. assert (H1 : got_fin t1 = true) by (by apply gf_pass). by destruct (_ && _).
  - destruct (has_fin g) eqn:Ef; cbn [andb] in *; [right; apply I1; assert (H1 : got_fin t1 = true) by (unfold t1, pass_data; rewrite Ef; apply gf_set); by destruct (_ =? _)|]. destruct I2 as [->|I2]; [by left|by right].
Qed.

(** Receiving data changes the state only with a FIN. *)
Lemma receive_state copied g t : state (ti_pcb (tcp_receive_data copied g t)) = state (ti_pcb t) \/ got_fin (tcp_receive_data copied g t) = true.
Proof.
  unfold tcp_receive_data. destruct (_ && _); [|left; by destruct (negb _)]. destruct (trim_front g _ (ti_pcb t)) as [g' p] eqn:E. assert (Ep : state p = state (ti_pcb t)).
  { unfold trim_front in E. destruct (TCP_SEQ_BETWEEN _ _ _); simplify_eq; [done|]. by destruct (TCP_SEQ_LT _ _). }
  cbv zeta. assert (Hack : forall t', state (ti_pcb (tcp_send_empty_ack t').2) = state (ti_pcb t') /\ got_fin (tcp_send_empty_ack t').2 = got_fin t') by (intros t'; destruct (empty_ack_rcv t') as [_ _ _ _ ? _ Hf _]; split; [done|unfold got_fin; by rewrite Hf]).
  destruct (TCP_SEQ_BETWEEN _ _ _); [|left; by rewrite (proj1 (Hack _))]. destruct (_ =? _).
  - unfold receive_inseq. cbv zeta. destruct (match ooseq _ with [] => _ | _ => _ end) as [g2 l]. set (t1 := pass_data [] g2 _). destruct (drain_fin l t1) as [_ D].
    assert (E1 : state (ti_pcb t1) = state (ti_pcb t)).
    { rewrite <- Ep. unfold t1, pass_data. transitivity (state (advance (sg_seqno g2) (u16 (TCP_TCPLEN g2)) p)); [by destruct (0 <? _), (has_fin g2)|]. apply advance_state. }
    set (t2 := drain l t1) in *. set (t3 := on_pcb tcp_ack (on_pcb sacks_inseq t2)). assert (E3 : state (ti_pcb t3) = state (ti_pcb t2) /\ got_fin t3 = got_fin t2).
    { split; [|done]. unfold t3. cbn. transitivity (state (sacks_inseq (ti_pcb t2))); [unfold tcp_ack; by destruct (negb _)|]. unfold sacks_inseq. destruct (negb _); [|done]. destruct (ooseq _); [by destruct (LWIP_TCP_SACK_VALID _ _)|].
      unfold tcp_remove_sacks_lt. by destruct (sack_sweep _ _ _ _ _). }
    destruct E3 as [E3 E4]. destruct (LWIP_TCP_SACK_VALID _ _); [destruct (Hack t3) as [-> ->]|]; rewrite E3, E4; (destruct D as [->|D]; [by left|by right]).
  - left. destruct (receive_oos_same copied g' (u16 (TCP_TCPLEN g)) (set_ti_pcb p t)) as (_ & -> & _). done.
Qed.

(** The connection after [tcp_receive] has taken in the segment's acknowledgement and data,
    the state on which the transitions of the synchronised states are decided. *)
Definition received (e : tcp_env) (copied : bool) (h : in_hdr) (t : tcp_in) : tcp_in :=
  let p := ti_pcb t in
  let p := if pflags p .& TF_RXCLOSED =? 0 then set_tmr (te_ticks e) p else p in
  tcp_receive e copied h (set_ti_pcb (tcp_parseopt h (on_snd (set_persist_probe 0) (set_keep_cnt_sent 0 p))) t).

(** Our FIN, the last thing that was queued, has been sent and is acknowledged. *)
Definition fin_acked (h : in_hdr) (r : tcp_in) : Prop :=
  ih_flag h TCP_ACK = true /\ ih_ackno h = snd_nxt (p_snd (ti_pcb r)) /\ unsent (p_snd (ti_pcb r)) = [].

(** The transitions of RFC 793 for a segment [h] that takes the connection from [t] over
    [r], where the segment has been received, to [t']. *)
Inductive transition (h : in_hdr) (t r t' : tcp_in) : Z -> Z -> Prop :=
  | TrStay st : transition h t r t' st st
  | TrSynSent : ih_flag h TCP_SYN = true -> ih_flag h TCP_ACK = true -> ih_ackno h = u32 (lastack (p_snd (ti_pcb t)) + 1) -> transition h t r t' SYN_SENT ESTABLISHED
  | TrSynRcvd st : ih_flag h TCP_ACK = true -> TCP_SEQ_BETWEEN (ih_ackno h) (u32 (lastack (p_snd (ti_pcb t)) + 1)) (snd_nxt (p_snd (ti_pcb t))) = true ->
      st = ESTABLISHED \/ st = CLOSE_WAIT /\ got_fin t' = true -> transition h t r t' SYN_RCVD st
  | TrFin : got_fin t' = true -> transition h t r t' ESTABLISHED CLOSE_WAIT
  | TrFinAcked : fin_acked h r -> transition h t r t' FIN_WAIT_1 FIN_WAIT_2
  | TrBothFin : got_fin t' = true -> ~ fin_acked h r -> transition h t r t' FIN_WAIT_1 CLOSING
  | TrFinAckedFin : got_fin t' = true -> fin_acked h r -> transition h t r t' FIN_WAIT_1 TIME_WAIT
  | TrFinWait2 : got_fin t' = true -> transition h t r t' FIN_WAIT_2 TIME_WAIT
  | TrClosing : fin_acked h r -> transition h t r t' CLOSING TIME_WAIT.

Lemma parseopt_keeps h : forall fuel i p, state (parseopt_loop fuel h i p) = state p /\ p_snd (parseopt_loop fuel h i p) = p_snd p /\ listener (parseopt_loop fuel h i p) = listener p.
Proof.
  induction fuel as [|fuel IH]; intros i p; cbn [parseopt_loop]; cbv zeta; [done|]. destruct (negb _); [done|]. destruct (_ =? LWIP_TCP_OPT_EOL); [done|]. destruct (_ =? LWIP_TCP_OPT_NOP); [apply IH|].
  destruct (_ =? LWIP_TCP_OPT_MSS); [destruct (_ || _); [done|]; apply (IH (i + 4) (opt_mss _ p))|].
  destruct (_ =? LWIP_TCP_OPT_WS); [destruct (_ || _); [done|]; destruct (IH (i + 3) (opt_ws h (tcp_get_next_optbyte h (i + 2)) p)) as (-> & -> & ->); unfold opt_ws; by destruct (_ && _)|].
  destruct (_ =? LWIP_TCP_OPT_SACK_PERM); [destruct (_ || _); [done|]; destruct (IH (i + 2) (if ih_flag h TCP_SYN then tcp_set_flags TF_SACK p else p)) as (-> & -> & ->); by destruct (ih_flag h TCP_SYN)|].
  destruct (_ <? 2); [done|]. apply IH.
Qed.

(** What a transition depends on. *)
Lemma transition_ext h t0 t r t' st st' : p_snd (ti_pcb t0) = p_snd (ti_pcb t) \/ lastack (p_snd (ti_pcb t0)) = lastack (p_snd (ti_pcb t)) /\ snd_nxt (p_snd (ti_pcb t0)) = snd_nxt (p_snd (ti_pcb t)) ->
  transition h t0 r t' st st' -> transition h t r t' st st'.
Proof.
  intros He. assert (E : lastack (p_snd (ti_pcb t0)) = lastack (p_snd (ti_pcb t)) /\ snd_nxt (p_snd (ti_pcb t0)) = snd_nxt (p_snd (ti_pcb t))) by (destruct He as [->|]; done). destruct E as [E1 E2].
  intros []; rewrite ?E1, ?E2 in *; by constructor.
Qed.

Lemma syn_sent_transition e h t r : state (ti_pcb t) = SYN_SENT -> transition h t r (process_syn_sent e h t).2 SYN_SENT (state (ti_pcb (process_syn_sent e h t).2)).
Proof.
  intros Est. unfold process_syn_sent. cbv zeta. set (rst := if nrtx (p_snd (ti_pcb t)) <? TCP_SYNMAXRTX then _ else _). assert (Erst : state (ti_pcb rst) = SYN_SENT).
  { unfold rst. destruct (rst_rcv (ih_ackno h) (u32 (sg_seqno (ih_seg h) + tcplen h)) t) as [_ _ _ _ H _ _ _]. set (t1 := tcp_rst _ _ t) in *. destruct (_ <? _); [|congruence].
    destruct (rexmit_rto_rcv e (on_pcb (on_snd (set_rtime 0)) t1)) as [_ _ _ _ H' _ _ _]. rewrite H'. cbn. congruence. }
  clearbody rst. destruct (ih_flag h TCP_ACK && ih_flag h TCP_SYN && (ih_ackno h =? u32 (lastack (p_snd (ti_pcb t)) + 1))) eqn:E.
  - apply andb_true_iff in E as [[Ea Es]%andb_true_iff E%Z.eqb_eq].
    match goal with |- context [callback ?e ?ev ?t] => destruct (callback_rcv e ev t) as (err & _ & H); destruct (callback e ev t) as [err' t1] end. cbn [snd] in H. destruct H as [_ _ _ _ H _ _ _].
    assert (E1 : state (ti_pcb t1) = ESTABLISHED) by (by rewrite H). destruct (err' =? ERR_ABRT); cbn; rewrite E1; by constructor.
  - destruct (ih_flag h TCP_ACK); cbn [snd]; rewrite ?Erst, ?Est; constructor.
Qed.

Lemma receive_transition e copied h t : state (ti_pcb (tcp_receive e copied h t)) = state (ti_pcb t) \/ state (ti_pcb t) = ESTABLISHED /\ state (ti_pcb (tcp_receive e copied h t)) = CLOSE_WAIT /\ got_fin (tcp_receive e copied h t) = true.
Proof.
  unfold tcp_receive. destruct (receive_ack_rcv e h t) as [_ _ _ _ Est _ _ _]. set (t1 := receive_ack e h t) in *. rewrite <- Est. destruct (receive_data_kept copied (ih_seg h) t1) as [_ _ [E|[E1 E2]]]; [by left|].
  destruct (receive_state copied (ih_seg h) t1) as [E|E]; [by left|]. right. done.
Qed.

Lemma syn_rcvd_transition e copied h t r0 : state (ti_pcb t) = SYN_RCVD -> transition h t r0 (process_syn_rcvd e copied h t).2 SYN_RCVD (state (ti_pcb (process_syn_rcvd e copied h t).2)).
Proof.
  intros Est. unfold process_syn_rcvd. cbv zeta. destruct (ih_flag h TCP_ACK) eqn:Ea.
  2: { destruct (_ && _); cbn [snd]; [|rewrite Est; constructor]. assert (E : state (ti_pcb (on_pcb (fun p => (tcp_rexmit p).2) t)) = SYN_RCVD) by (destruct (rexmit_snd (ti_pcb t)) as (_ & _ & _ & _ & H); cbn in *; congruence). rewrite E. constructor. }
  destruct (TCP_SEQ_BETWEEN _ _ _) eqn:Eb.
  2: { cbn [snd]. destruct (rst_rcv (ih_ackno h) (u32 (sg_seqno (ih_seg h) + tcplen h)) t) as [_ _ _ _ -> _ _ _]. rewrite Est. constructor. }
  set (r := match listener (ti_pcb t) with None => _ | Some _ => _ end). assert (Er : state (ti_pcb r.2) = ESTABLISHED).
  { unfold r. destruct (listener (ti_pcb t)); [|done]. destruct (callback_rcv e (fun _ => EvAccept) (on_pcb tcp_backlog_accepted (on_pcb (set_state ESTABLISHED) t))) as (err & _ & [_ _ _ _ H _ _ _]). rewrite H.
    cbn. unfold tcp_backlog_accepted. destruct (listener _); [|done]. by destruct (negb _). }
  clearbody r. destruct r as [err t1]. cbn [snd] in Er. destruct (negb (err =? ERR_OK)); cbn [snd].
  { assert (E : state (ti_pcb (if negb (err =? ERR_ABRT) then tcp_abort t1 else t1)) = ESTABLISHED).
    { destruct (negb _); [|done]. unfold tcp_abort. destruct (_ =? TIME_WAIT); [done|]. cbn. destruct (rst_rcv (snd_nxt (p_snd (ti_pcb t1))) (rcv_nxt (ti_pcb t1)) (on_pcb tcp_backlog_accepted t1)) as [_ _ _ _ -> _ _ _].
      cbn. unfold tcp_backlog_accepted. destruct (listener _); [|done]. by destruct (negb _). }
    rewrite E. constructor; [done|done|by left]. }
  pose proof (receive_transition e copied h t1) as H. set (t2 := tcp_receive e copied h t1) in *. set (t3 := if negb (recv_acked t2 =? 0) then _ else t2).
  assert (E3 : state (ti_pcb t3) = state (ti_pcb t2) /\ got_fin t3 = got_fin t2) by (unfold t3; by destruct (negb _)). destruct E3 as [E3 E4]. clearbody t3. set (t4 := on_pcb (fun p => on_snd _ p) t3).
  change (negb (recv_flags t4 .& TF_GOT_FIN =? 0)) with (got_fin t3). rewrite E4. destruct (got_fin t2) eqn:Eg.
  - apply TrSynRcvd; [done|done|]. right. split; [done|]. change (got_fin t3 = true). by rewrite E4.
  - apply TrSynRcvd; [done|done|]. left. change (state (ti_pcb t4)) with (state (ti_pcb t3)). destruct H as [H|(_ & _ & H)]; congruence.
Qed.

Lemma all_acked_iff h r :
  ih_flag h TCP_ACK && (ih_ackno h =? snd_nxt (p_snd (ti_pcb r))) && match unsent (p_snd (ti_pcb r)) with [] => true | _ => false end = true <-> fin_acked h r.
Proof. unfold fin_acked. rewrite !andb_true_iff, Z.eqb_eq. destruct (unsent _); naive_solver. Qed.

(** The states in which both sides are synchronised, after [tcp_receive]. *)
Lemma synced_transition h t r st : ESTABLISHED <= st <= LAST_ACK ->
  state (ti_pcb r) = st \/ st = ESTABLISHED /\ state (ti_pcb r) = CLOSE_WAIT /\ got_fin r = true ->
  transition h t r (process_synced h st r) st (state (ti_pcb (process_synced h st r))) /\
  (fin_acked h r -> st = FIN_WAIT_1 \/ st = CLOSING -> state (ti_pcb (process_synced h st r)) <> st) /\
  (st = LAST_ACK -> (fin_acked h r /\ process_synced h st r = set_recv_flags (recv_flags r .| TF_CLOSED) r) \/ (~ fin_acked h r /\ process_synced h st r = r)).
Proof.
  intros Hst Hrcv. unfold process_synced. cbv zeta. change (negb (recv_flags r .& TF_GOT_FIN =? 0)) with (got_fin r).
  set (aa := ih_flag h TCP_ACK && _ && _). pose proof (all_acked_iff h r) as Haa. fold aa in Haa.
  assert (Hfa : aa = false -> ~ fin_acked h r) by (intros E F; apply Haa in F; congruence).
  clearbody aa. assert (Hno : got_fin r = false -> state (ti_pcb r) = st) by (intros E; destruct Hrcv as [|(_ & _ & ?)]; [done|congruence]).
  destruct (Z.eqb_spec st ESTABLISHED) as [->|N1]; cbn [orb].
  { split; [|by split; [intros _ [|]|]]. destruct (got_fin r) eqn:Eg; [by apply TrFin|]. rewrite (Hno eq_refl). constructor. }
  assert (Esame : state (ti_pcb r) = st) by (destruct Hrcv as [|(? & _)]; done).
  destruct (Z.eqb_spec st CLOSE_WAIT) as [->|N2]; [split; [destruct (got_fin r); [|rewrite Esame]; constructor|by split; [intros _ [|]|]]|].
  destruct (Z.eqb_spec st FIN_WAIT_1) as [->|N3].
  { split; [|split; [intros ->%Haa _; by destruct (got_fin r)|done]].
    destruct (got_fin r) eqn:Eg, aa; [apply TrFinAckedFin; [done|by apply Haa]|apply TrBothFin; [done|by apply Hfa]|by apply TrFinAcked, Haa|rewrite Esame; constructor]. }
  destruct (Z.eqb_spec st FIN_WAIT_2) as [->|N4]; [split; [destruct (got_fin r) eqn:Eg; [by apply TrFinWait2|rewrite Esame; constructor]|by split; [intros _ [|]|]]|].
  destruct (Z.eqb_spec st CLOSING) as [->|N5].
  { split; [|split; [intros ->%Haa _; done|done]]. destruct aa; [by apply TrClosing, Haa|rewrite Esame; constructor]. }
  destruct (Z.eqb_spec st LAST_ACK) as [->|N6].
  { split; [destruct aa; cbn; rewrite Esame; constructor|]. split; [by intros _ [|]|]. intros _. destruct aa; [left|right]; (split; [|done]); [by apply Haa|by apply Hfa]. }
  split; [rewrite Esame; constructor|]. split; [intros _ [|]; done|done].
Qed.

(** What the purge does to an open connection. *)
Lemma purge_refused p : ESTABLISHED <= state p <= LAST_ACK -> refused_data (tcp_pcb_purge p) = None.
Proof.
  intros Hp. unfold tcp_pcb_purge. rewrite !(proj2 (Z.eqb_neq _ _)) by (unfold ESTABLISHED, LAST_ACK, CLOSED, TIME_WAIT, LISTEN in *; lia). cbn [negb andb].
  cbv zeta. by destruct (ooseq _).
Qed.

Lemma synced_purges h st t : ESTABLISHED <= state (ti_pcb t) <= LAST_ACK -> state (ti_pcb (process_synced h st t)) = TIME_WAIT ->
  refused_data (ti_pcb (process_synced h st t)) = None /\ ti_events (process_synced h st t) = ti_events t.
Proof.
  intros Hs. pose proof (purge_refused (ti_pcb t) Hs) as P1. pose proof (purge_refused (tcp_ack_now (ti_pcb t)) Hs) as P2.
  assert (Hne : state (ti_pcb t) <> TIME_WAIT) by (unfold LAST_ACK, TIME_WAIT in *; lia).
  unfold process_synced. cbv zeta. repeat match goal with |- context [if ?c then _ else _] => destruct c end; cbn; try done; intros; done.
Qed.

Lemma transition_no_time_wait h t r t' st : st = SYN_SENT \/ st = SYN_RCVD -> ~ transition h t r t' st TIME_WAIT.
Proof. intros Hst HT. inversion HT; subst; destruct Hst as [E|E]; try discriminate E; match goal with H : _ \/ _ /\ _ |- _ => destruct H as [|[? _]]; discriminate end. Qed.

Lemma enters_time_wait e copied h t : SYN_SENT <= state (ti_pcb t) <= LAST_ACK -> state (ti_pcb (tcp_process e copied h t).2) = TIME_WAIT ->
  refused_data (ti_pcb (tcp_process e copied h t).2) = None /\ ti_events (tcp_process e copied h t).2 = ti_events t.
Proof.
  intros Hst. assert (Hno : forall x, SYN_SENT <= x <= LAST_ACK -> x <> TIME_WAIT) by (unfold LAST_ACK, TIME_WAIT; lia).
  unfold tcp_process. cbv zeta. destruct (ih_flag h TCP_RST).
  { unfold process_rst. cbv zeta. set (t1 := if _ && _ then on_pcb tcp_ack_now t else t). assert (E1 : state (ti_pcb t1) = state (ti_pcb t)) by (unfold t1; by destruct (_ && _)). clearbody t1.
    destruct (if state (ti_pcb t) =? SYN_SENT then _ else _); cbn; rewrite E1; intros E; by apply Hno in Hst. }
  destruct (_ && negb _ && negb _); [cbn; intros E; by apply Hno in Hst|].
  set (p1 := if pflags (ti_pcb t) .& TF_RXCLOSED =? 0 then _ else _). set (p2 := on_snd _ (set_keep_cnt_sent 0 p1)). assert (A1 : state p2 = state (ti_pcb t)) by (unfold p2, p1; by destruct (_ =? 0)). clearbody p2. clear p1.
  unfold tcp_parseopt. destruct (parseopt_keeps h (length (ih_opts h)) 0 p2) as (B1 & _ & _). set (t1 := set_ti_pcb _ t). assert (C1 : state (ti_pcb t1) = state (ti_pcb t)) by (cbn; congruence).
  assert (C2 : ti_events t1 = ti_events t) by done. clearbody t1. rewrite A1. rewrite <- C2.
  destruct (Z.eqb_spec (state (ti_pcb t)) SYN_SENT) as [E|N1].
  { pose proof (syn_sent_transition e h t1 t1 ltac:(congruence)) as H. intros E'. rewrite E' in H. apply transition_no_time_wait in H; [done|by left]. }
  destruct (Z.eqb_spec (state (ti_pcb t)) SYN_RCVD) as [E|N2].
  { pose proof (syn_rcvd_transition e copied h t1 t1 ltac:(congruence)) as H. intros E'. rewrite E' in H. apply transition_no_time_wait in H; [done|by right]. }
  assert (Hs : ESTABLISHED <= state (ti_pcb t) <= LAST_ACK) by (unfold SYN_SENT, SYN_RCVD, ESTABLISHED in *; lia). destruct (Z.leb_spec ESTABLISHED (state (ti_pcb t))); [|lia]. destruct (Z.leb_spec (state (ti_pcb t)) LAST_ACK); [|lia]. cbn [andb snd].
  assert (Hr : ESTABLISHED <= state (ti_pcb (tcp_receive e copied h t1)) <= LAST_ACK).
  { destruct (receive_transition e copied h t1) as [->|(_ & -> & _)]; [by rewrite C1|unfold ESTABLISHED, CLOSE_WAIT, LAST_ACK; lia]. }
  assert (He : ti_events (tcp_receive e copied h t1) = ti_events t1).
  { unfold tcp_receive. destruct (receive_data_kept copied (ih_seg h) (receive_ack e h t1)) as [_ -> _]. by destruct (receive_ack_rcv e h t1). }
  rewrite <- He. by apply synced_purges.
Qed.

(** C32. Data that the application has not taken, although it has been acknowledged, is lost
    when the connection enters TIME_WAIT.  Whenever a segment takes the connection there,
    [tcp_pcb_purge] has dropped the data that was refused before and the application has been
    told nothing.  Data that is refused after that (the last data, when the connection was
    in FIN_WAIT_2) stays on the PCB for ever: whatever segments follow, [tcp_timewait_input]
    offers nothing to the application, and [tcp_pcb_purge], which [tcp_slowtmr] calls before
    it frees the PCB, does not free it.  The application hears neither of the data nor of the
    end. *)
Theorem tcp_closing_loses_data :
  (forall e copied h t, SYN_SENT <= state (ti_pcb t) <= LAST_ACK ->
     let t' := (tcp_process e copied h t).2 in
     state (ti_pcb t') = TIME_WAIT -> refused_data (ti_pcb t') = None /\ ti_events t' = ti_events t) /\
  (forall segs t, state (ti_pcb t) = TIME_WAIT ->
     let t' := fold_left (fun t x => tcp_timewait_input x.1 x.2 t) segs t in
     refused_data (ti_pcb t') = refused_data (ti_pcb t) /\ ti_events t' = ti_events t /\ tcp_pcb_purge (ti_pcb t') = ti_pcb t').
Proof.
  split.
  - intros e copied h t Hst. cbv zeta. apply enters_time_wait. exact Hst.
  - intros segs. induction segs as [|[e h] segs IH]; intros t Et; cbn [fold_left fst snd].
    + split_and!; [done|done|]. unfold tcp_pcb_purge. by rewrite Et.
    + destruct (timewait_silent e h t) as [_ _ _ Hr Hs _ _ He]. rewrite <- Hr, <- He. apply IH. by rewrite Hs.
Qed.

(** C20. [tcp_process] makes only the transitions of RFC 793, and on the exact conditions of
    the code.  For every segment, in every state from SYN_SENT to LAST_ACK: the state changes to
    ESTABLISHED only with a SYN that acknowledges ours, or from SYN_RCVD with an
    acknowledgement of ours; to CLOSE_WAIT, CLOSING and TIME_WAIT only when all data of the
    peer and its FIN have been received, or from CLOSING when our FIN is acknowledged; to
    FIN_WAIT_2 only when it is.  "Our FIN is acknowledged" is decided after the segment has
    been received: it carries an ACK of [snd_nxt] and nothing is left to be sent; then
    FIN_WAIT_1 and CLOSING are always left, and in LAST_ACK the connection is marked as closed
    exactly then, and is otherwise as [tcp_receive] left it.  A reset
    changes no state here; unless it has exactly the next sequence number (in SYN_SENT: unless
    it acknowledges our SYN), it does nothing but ask for an ACK. *)
Theorem tcp_process_transitions (e : tcp_env) (copied : bool) (h : in_hdr) (t : tcp_in) :
  SYN_SENT <= state (ti_pcb t) <= LAST_ACK ->
  let '(err, t') := tcp_process e copied h t in
  let r := received e copied h t in
  transition h t r t' (state (ti_pcb t)) (state (ti_pcb t')) /\
  (ih_flag h TCP_RST = false -> ih_flag h TCP_SYN = false ->
   (fin_acked h r -> state (ti_pcb t) = FIN_WAIT_1 \/ state (ti_pcb t) = CLOSING -> state (ti_pcb t') <> state (ti_pcb t)) /\
   (state (ti_pcb t) = LAST_ACK -> (fin_acked h r /\ t' = set_recv_flags (recv_flags r .| TF_CLOSED) r) \/ (~ fin_acked h r /\ t' = r))) /\
  (ih_flag h TCP_RST = true ->
   state (ti_pcb t') = state (ti_pcb t) /\
   ((if state (ti_pcb t) =? SYN_SENT then ih_ackno h <> snd_nxt (p_snd (ti_pcb t)) else sg_seqno (ih_seg h) <> rcv_nxt (ti_pcb t)) ->
    err = ERR_OK /\ (t' = t \/ t' = on_pcb tcp_ack_now t))).
Proof.
  intros Hst. unfold tcp_process. destruct (ih_flag h TCP_RST) eqn:Er.
  { unfold process_rst. cbv zeta. set (acc := if state (ti_pcb t) =? SYN_SENT then _ =? _ else _ =? _). set (t1 := if _ && _ then on_pcb tcp_ack_now t else t).
    assert (E1 : state (ti_pcb t1) = state (ti_pcb t) /\ (t1 = t \/ t1 = on_pcb tcp_ack_now t)) by (unfold t1; destruct (_ && _); auto). destruct E1 as [E1 E2]. clearbody t1.
    destruct acc eqn:Eacc; cbn [ti_pcb on_pcb set_ti_pcb set_recv_flags tcp_clear_flags set_pflags state]; rewrite E1; (split; [constructor|]); (split; [done|]); intros _; (split; [done|]); [|done].
    intros Hx. exfalso. unfold acc in Eacc. destruct (state (ti_pcb t) =? SYN_SENT); apply Z.eqb_eq in Eacc; done. }
  destruct (ih_flag h TCP_SYN && negb (state (ti_pcb t) =? SYN_SENT) && negb (state (ti_pcb t) =? SYN_RCVD)) eqn:Esyn.
  { split; [constructor|]. split; [|done]. intros _ Hs. by rewrite Hs in Esyn. }
  unfold received. set (p1 := if pflags (ti_pcb t) .& TF_RXCLOSED =? 0 then _ else _). cbv zeta. set (p2 := on_snd _ (set_keep_cnt_sent 0 p1)).
  assert (E2 : state p2 = state (ti_pcb t) /\ lastack (p_snd p2) = lastack (p_snd (ti_pcb t)) /\ snd_nxt (p_snd p2) = snd_nxt (p_snd (ti_pcb t))) by (unfold p2, p1; by destruct (_ =? 0)). clearbody p2. clear p1. destruct E2 as (A1 & A2 & A3).
  unfold tcp_parseopt. destruct (parseopt_keeps h (length (ih_opts h)) 0 p2) as (B1 & B2 & _). set (t1 := set_ti_pcb _ t). assert (C1 : state (ti_pcb t1) = state (ti_pcb t)) by (cbn; congruence).
  assert (C2 : lastack (p_snd (ti_pcb t1)) = lastack (p_snd (ti_pcb t)) /\ snd_nxt (p_snd (ti_pcb t1)) = snd_nxt (p_snd (ti_pcb t))) by (cbn; rewrite B2; done). clearbody t1. rewrite A1.
  set (r := tcp_receive e copied h t1).
  assert (Hext : forall t' st st', transition h t1 r t' st st' -> transition h t r t' st st') by (intros t' st st'; apply transition_ext; by right).
  assert (Hother : forall P : Prop, state (ti_pcb t) = SYN_SENT \/ state (ti_pcb t) = SYN_RCVD -> state (ti_pcb t) = FIN_WAIT_1 \/ state (ti_pcb t) = CLOSING \/ state (ti_pcb t) = LAST_ACK -> P)
    by (intros P [E|E]; rewrite E; by intros [|[|]]).
  destruct (Z.eqb_spec (state (ti_pcb t)) SYN_SENT) as [E|N1].
  { pose proof (syn_sent_transition e h t1 r ltac:(congruence)) as H. destruct (process_syn_sent e h t1). split; [rewrite E; by apply Hext|].
    split; [|done]. intros _ _. split; [intros _ [|]|intros]; apply Hother; auto. }
  destruct (Z.eqb_spec (state (ti_pcb t)) SYN_RCVD) as [E|N2].
  { pose proof (syn_rcvd_transition e copied h t1 r ltac:(congruence)) as H. destruct (process_syn_rcvd e copied h t1). split; [rewrite E; by apply Hext|].
    split; [|done]. intros _ _. split; [intros _ [|]|intros]; apply Hother; auto. }
  assert (Hs : ESTABLISHED <= state (ti_pcb t) <= LAST_ACK) by (unfold SYN_SENT, SYN_RCVD, ESTABLISHED in *; lia). destruct (Z.leb_spec ESTABLISHED (state (ti_pcb t))); [|lia]. destruct (Z.leb_spec (state (ti_pcb t)) LAST_ACK); [|lia]. cbn [andb].
  destruct (synced_transition h t1 r (state (ti_pcb t)) Hs) as (H1 & H2 & H3).
  { unfold r. destruct (receive_transition e copied h t1) as [->|(G1 & G2 & G3)]; [by left|right]. split_and!; [congruence|done|done]. }
  split; [by apply Hext|]. split; [|done]. done.
Qed.

(** FIN for a connection in FIN_WAIT_1, with the acknowledgement of ours. *)
Definition ex_fin : in_hdr := ex_hdr 0 (TCP_ACK .| TCP_FIN) [1; 2; 3] 1001.

(** In FIN_WAIT_2 the data is refused once the PCB is in TIME_WAIT; in CLOSING it is dropped. *)
Lemma tcp_closing_loses_data_witness :
  (exists t, conn_run [ex_last] ex_half_closed = (false, t) /\ rcv_nxt (ti_pcb t) = 4 /\ accepted (ti_events t) = [] /\ told_closed (ti_events t) = 0%nat /\
     forall segs, refused_data (ti_pcb (fold_left (fun t x => tcp_timewait_input x.1 x.2 t) segs t)) = Some ([1; 2; 3], true)) /\
  (exists t, conn_run [ex_last] ex_closing = (false, t) /\ rcv_nxt (ti_pcb t) = 4 /\ refused_data (ti_pcb t) = Some ([1; 2; 3], true) /\
     refused_data (ti_pcb (tcp_process ex_env true (ex_hdr 4 TCP_ACK [] 1001) t).2) = None).
Proof.
  destruct tcp_closing_loses_data as [H1 H2]. split.
  - eexists. split; [vm_compute; reflexivity|]. split; [reflexivity|]. split; [reflexivity|]. split; [reflexivity|].
    intros segs. match goal with |- refused_data (ti_pcb (fold_left _ _ ?t)) = _ => exact (proj1 (H2 segs t eq_refl)) end.
  - eexists. split; [vm_compute; reflexivity|]. split; [reflexivity|]. split; [reflexivity|].
    match goal with |- refused_data (ti_pcb (tcp_process ?e ?c ?h ?t).2) = _ => exact (proj1 (H1 e c h t ltac:(split; by vm_compute) ltac:(vm_compute; reflexivity))) end.
Defined.

Lemma tcp_fin_too_early_witness :
  exists t' a b, t' = (slow_persist ex_env true 1 ex_small_window).2 /\ fins_sent (ti_out t') = [(1000, ztake 16 ex_twenty)] /\
    unsent (p_snd (ti_pcb t')) = [b] /\ sg_data b = [17; 18; 19; 20] /\ (exists k w o, ti_out t' = [PSeg a k w o] /\ has_fin a = true).
Proof.
  destruct (tcp_fin_too_early ex_env 1 ex_small_window (TcpSeg 1000 20 (TCP_PSH .| TCP_FIN) ex_twenty 0 1 false) [] []) as (a & b & k & w & o & E1 & E2 & _ & _ & E3 & _ & _ & E4).
  - split.
    + by vm_compute.
    + split_and!; by vm_compute.
    + repeat split; by vm_compute.
    + by vm_compute.
    + by vm_compute.
    + split; by vm_compute.
    + split; [reflexivity|]. split; [by eexists|reflexivity].
  - reflexivity.
  - by vm_compute.
  - exists (slow_persist ex_env true 1 ex_small_window).2, a, b. split; [reflexivity|]. split; [vm_compute; reflexivity|]. split; [exact E3|].
    split; [rewrite E4; vm_compute; reflexivity|]. exists k, w, o. split; [rewrite E1; by vm_compute|exact E2].
Defined.

Lemma tcp_process_transitions_witness :
  transition ex_fin ex_closing (received ex_env true ex_fin ex_closing) (tcp_process ex_env true ex_fin ex_closing).2 FIN_WAIT_1 TIME_WAIT /\
  fin_acked ex_fin (received ex_env true ex_fin ex_closing).
Proof.
  assert (Hf : fin_acked ex_fin (received ex_env true ex_fin ex_closing)) by (split_and!; vm_compute; reflexivity). split; [|exact Hf].
  pose proof (tcp_process_transitions ex_env true ex_fin ex_closing ltac:(split; by vm_compute)) as H.
  assert (E1 : state (ti_pcb ex_closing) = FIN_WAIT_1) by (vm_compute; reflexivity).
  assert (E2 : state (ti_pcb (tcp_process ex_env true ex_fin ex_closing).2) = TIME_WAIT) by (vm_compute; reflexivity).
  destruct (tcp_process ex_env true ex_fin ex_closing) as [err t']. cbn [snd] in *. destruct H as [H _]. by rewrite E1, E2 in H.
Defined.

(** ** The sender *)
Definition ex_ack (ackno : Z) : snd_op := OpAck ex_env (ex_hdr 0 TCP_ACK [] ackno).

(** A fast retransmission whose sending fails at first, and an acknowledgement that ends
    inside the second segment. *)
Definition ex_ops : list snd_op := [ex_ack 1000; ex_ack 1000; ex_ack 1000; ex_ack 1000; OpOutput ex_env; OpOutput ex_env; ex_ack 1003; OpOutput ex_env].

Lemma ex_send_ok : send_ok 1000 0 6 (p_snd (ti_pcb ex_fast_rexmit)).
Proof.
  assert (Hq : q_ok 1000 (unacked ex_in_flight)).
  { split; [repeat (apply Forall_cons; split); try apply Forall_nil; split; by vm_compute|]. repeat constructor; unfold precedes; by vm_compute. }
  split; [done|done|lia|exact Hq|split; [apply Forall_nil_2|constructor]|intros g g' _ Hg'; destruct (not_elem_of_nil g' Hg')|].
  apply (bool_decide_unpack _). vm_compute. exact I.
Qed.

Lemma ex_ops_ok : Forall op_ok ex_ops.
Proof. repeat (apply Forall_cons; split); try apply Forall_nil; by vm_compute. Qed.

Lemma tcp_sender_keeps_witness :
  map payload (unacked (p_snd (ti_pcb (foldl snd_step ex_fast_rexmit ex_ops))) ++ unsent (p_snd (ti_pcb (foldl snd_step ex_fast_rexmit ex_ops)))) = [(1002, 2, [3; 4]); (1004, 2, [5; 6])] /\
  exists L' N', 0 <= L' <= N' /\ lastack (p_snd (ti_pcb (foldl snd_step ex_fast_rexmit ex_ops))) = u32 (1000 + L') /\ snd_nxt (p_snd (ti_pcb (foldl snd_step ex_fast_rexmit ex_ops))) = u32 (1000 + N') /\
    StronglySorted (precedes 1000) (unacked (p_snd (ti_pcb (foldl snd_step ex_fast_rexmit ex_ops)))) /\ StronglySorted (precedes 1000) (unsent (p_snd (ti_pcb (foldl snd_step ex_fast_rexmit ex_ops)))) /\
    map payload (unacked (p_snd (ti_pcb (foldl snd_step ex_fast_rexmit ex_ops))) ++ unsent (p_snd (ti_pcb (foldl snd_step ex_fast_rexmit ex_ops)))) ≡ₚ
    filter (fun x => L' < pl_end 1000 x) (map payload (unacked (p_snd (ti_pcb ex_fast_rexmit)) ++ unsent (p_snd (ti_pcb ex_fast_rexmit)))).
Proof.
  split; [by vm_compute|]. refine (tcp_sender_keeps 1000 0 6 ex_fast_rexmit ex_ops _ _); [exact ex_send_ok|exact ex_ops_ok].
Defined.

(** ** Options *)

(** The two bytes of a maximum segment size. *)
Lemma mss_bytes m : 0 < m <= 1460 -> exists x y, TCP_BUILD_MSS_OPTION m = [2; 4; x; y] /\ u16 (x .<< 8) .| y = m.
Proof.
  intros Hm. exists (u8 ((0x02040000 .| (m .& 0xFFFF)) .>> 8)), (u8 (0x02040000 .| (m .& 0xFFFF))).
  set (P := fun m => bool_decide (TCP_BUILD_MSS_OPTION m = [2; 4; u8 ((0x02040000 .| (m .& 0xFFFF)) .>> 8); u8 (0x02040000 .| (m .& 0xFFFF))]) && (u16 (u8 ((0x02040000 .| (m .& 0xFFFF)) .>> 8) .<< 8) .| u8 (0x02040000 .| (m .& 0xFFFF)) =? m)).
  assert (Hall : forallb P (seqZ 1 1460) = true) by (vm_compute; reflexivity). rewrite forallb_forall in Hall. specialize (Hall m). assert (Hin : In m (seqZ 1 1460)) by (apply list_elem_of_In, elem_of_seqZ; lia).
  specialize (Hall Hin). unfold P in Hall. apply andb_true_iff in Hall as [H1%bool_decide_eq_true H2%Z.eqb_eq]. done.
Qed.

(** What a SYN offers: always in a first SYN, in the answer to one only what that had. *)
Definition offers (p : tcp_pcb) (flag : Z) : bool := negb (state p =? SYN_RCVD) || negb (pflags p .& flag =? 0).

Definition scaled (q : tcp_pcb) : tcp_pcb :=
  set_rcv_wnd TCP_WND (set_rcv_ann_wnd TCP_WND (tcp_set_flags TF_WND_SCALE (set_rcv_scale TCP_RCV_SCALE (set_snd_scale TCP_RCV_SCALE q)))).

Lemma syn_options e p flags g :
  flags = TCP_SYN \/ flags = TCP_SYN .| TCP_ACK -> last (unsent (p_snd (tcp_enqueue_flags true flags p).2)) = Some g ->
  seg_options e g = TCP_BUILD_MSS_OPTION (tcp_eff_send_mss_netif TCP_MSS (te_route e)) ++ (if offers p TF_WND_SCALE then [1; 3; 3; 4] else []) ++ (if offers p TF_SACK then [1; 1; 4; 2] else []).
Proof.
  intros Hf Hg. assert (Eg : sg_opts g = TF_SEG_OPTS_MSS .| (if offers p TF_WND_SCALE then TF_SEG_OPTS_WND_SCALE else 0) .| (if offers p TF_SACK then TF_SEG_OPTS_SACK_PERM else 0)).
  { assert (Eu : unsent (p_snd (tcp_enqueue_flags true flags p).2) = unsent (p_snd p) ++
      [TcpSeg (snd_lbb (p_snd p)) 0 flags [] (TF_SEG_OPTS_MSS .| (if offers p TF_WND_SCALE then TF_SEG_OPTS_WND_SCALE else 0) .| (if offers p TF_SACK then TF_SEG_OPTS_SACK_PERM else 0)) 1 false])
      by (destruct Hf as [-> | ->]; reflexivity).
    rewrite Eu, last_snoc in Hg. by injection Hg as <-. }
  unfold seg_options. rewrite Eg. by destruct (offers p TF_WND_SCALE), (offers p TF_SACK).
Qed.

(** One option. *)
Section parse.
  Context (h : in_hdr) (fuel : nat) (i : Z) (q : tcp_pcb).

Lemma parse_end : negb (i <? zlen (ih_opts h)) = true -> parseopt_loop fuel h i q = q.
Proof. intros H. destruct fuel; cbn [parseopt_loop]; [done|]. cbv zeta. by rewrite H. Qed.

Lemma parse_nop : (i <? zlen (ih_opts h)) = true -> tcp_get_next_optbyte h i = 1 -> parseopt_loop (S fuel) h i q = parseopt_loop fuel h (i + 1) q.
Proof. intros H1 H2. cbn [parseopt_loop]. cbv zeta. by rewrite H1, H2. Qed.

Lemma parse_mss :
  (i <? zlen (ih_opts h)) = true -> tcp_get_next_optbyte h i = 2 -> tcp_get_next_optbyte h (i + 1) = 4 -> (zlen (ih_opts h) <? i + 4) = false ->
  parseopt_loop (S fuel) h i q = parseopt_loop fuel h (i + 4) (opt_mss (u16 (tcp_get_next_optbyte h (i + 2) .<< 8) .| tcp_get_next_optbyte h (i + 3)) q).
Proof. intros H1 H2 H3 H4. cbn [parseopt_loop]. cbv zeta. by rewrite H1, H2, H3, H4. Qed.

Lemma parse_ws :
  (i <? zlen (ih_opts h)) = true -> tcp_get_next_optbyte h i = 3 -> tcp_get_next_optbyte h (i + 1) = 3 -> (zlen (ih_opts h) <? i + 3) = false ->
  parseopt_loop (S fuel) h i q = parseopt_loop fuel h (i + 3) (opt_ws h (tcp_get_next_optbyte h (i + 2)) q).
Proof. intros H1 H2 H3 H4. cbn [parseopt_loop]. cbv zeta. by rewrite H1, H2, H3, H4. Qed.

Lemma parse_sack :
  (i <? zlen (ih_opts h)) = true -> tcp_get_next_optbyte h i = 4 -> tcp_get_next_optbyte h (i + 1) = 2 -> (zlen (ih_opts h) <? i + 2) = false ->
  parseopt_loop (S fuel) h i q = parseopt_loop fuel h (i + 2) (if ih_flag h TCP_SYN then tcp_set_flags TF_SACK q else q).
Proof. intros H1 H2 H3 H4. cbn [parseopt_loop]. cbv zeta. by rewrite H1, H2, H3, H4. Qed.
End parse.

Lemma parse_syn g ackno wnd past x y (ws sack : bool) q :
  ih_flag (InHdr g ackno wnd ([2; 4; x; y] ++ (if ws then [1; 3; 3; 4] else []) ++ (if sack then [1; 1; 4; 2] else [])) past) TCP_SYN = true -> pflags q .& TF_WND_SCALE = 0 ->
  tcp_parseopt (InHdr g ackno wnd ([2; 4; x; y] ++ (if ws then [1; 3; 3; 4] else []) ++ (if sack then [1; 1; 4; 2] else [])) past) q =
  (let q := opt_mss (u16 (x .<< 8) .| y) q in let q := if ws then scaled q else q in if sack then tcp_set_flags TF_SACK q else q).
Proof.
  set (h := InHdr _ _ _ _ _). intros Hs Hq. unfold tcp_parseopt. set (m := u16 (x .<< 8) .| y).
  assert (Hws : forall q, pflags q .& TF_WND_SCALE = 0 -> opt_ws h 4 q = scaled q) by (intros q' Hq'; unfold opt_ws; rewrite Hs, Hq'; done).
  assert (Hm : pflags (opt_mss m q) .& TF_WND_SCALE = 0) by exact Hq. destruct ws, sack.
  - change (length (ih_opts h)) with 12%nat. rewrite (parse_mss h _ 0), (parse_nop h _ 4), (parse_ws h _ 5), (parse_nop h _ 8), (parse_nop h _ 9), (parse_sack h _ 10), (parse_end h _ 12) by reflexivity. rewrite Hs. cbv zeta. change (tcp_get_next_optbyte h (5 + 2)) with 4. change (u16 (tcp_get_next_optbyte h (0 + 2) .<< 8) .| tcp_get_next_optbyte h (0 + 3)) with m. by rewrite (Hws _ Hm).
  - change (length (ih_opts h)) with 8%nat. rewrite (parse_mss h _ 0), (parse_nop h _ 4), (parse_ws h _ 5), (parse_end h _ 8) by reflexivity. cbv zeta. change (tcp_get_next_optbyte h (5 + 2)) with 4. change (u16 (tcp_get_next_optbyte h (0 + 2) .<< 8) .| tcp_get_next_optbyte h (0 + 3)) with m. by rewrite (Hws _ Hm).
  - change (length (ih_opts h)) with 8%nat. rewrite (parse_mss h _ 0), (parse_nop h _ 4), (parse_nop h _ 5), (parse_sack h _ 6), (parse_end h _ 8) by reflexivity. by rewrite Hs.
  - change (length (ih_opts h)) with 4%nat. by rewrite (parse_mss h _ 0), (parse_end h _ 4) by reflexivity.
Qed.

(** C22. The options of a SYN mean to the peer what they say.  For a SYN or a SYN with ACK that
    [tcp_enqueue_flags] makes and [tcp_output_segment] sends over an interface with any MTU,
    a peer that parses it with [tcp_parseopt], whatever lies in memory behind the options,
    gets the maximum segment size of the interface, at most 1460; window scaling with the
    factor of the sender, and the full window, exactly when it is offered; and SACK exactly
    when that is offered.  An answer in SYN_RCVD offers only what the SYN had. *)
Theorem syn_options_roundtrip (e : tcp_env) (mtu flags : Z) (p q : tcp_pcb) (g : tcp_seg) (h : in_hdr) :
  te_route e = Some mtu -> 40 < mtu < 65536 -> flags = TCP_SYN \/ flags = TCP_SYN .| TCP_ACK ->
  last (unsent (p_snd (tcp_enqueue_flags true flags p).2)) = Some g -> ih_opts h = seg_options e g -> ih_flag h TCP_SYN = true -> pflags q .& TF_WND_SCALE = 0 ->
  tcp_parseopt h q =
  (let q := set_mss (Z.min TCP_MSS (mtu - 40)) q in
   let q := if offers p TF_WND_SCALE then scaled q else q in
   if offers p TF_SACK then tcp_set_flags TF_SACK q else q).
Proof.
  intros Hr Hm Hf Hg Ho Hs Hq. rewrite (syn_options e p flags g Hf Hg), Hr in Ho. unfold tcp_eff_send_mss_netif in Ho. destruct (Z.eqb_spec mtu 0) as [|_]; [lia|]. cbn [negb] in Ho. destruct (Z.ltb_spec 40 mtu); [|lia]. rewrite u16_small in Ho by lia.
  set (m := Z.min TCP_MSS (mtu - 40)) in *. assert (Hm' : 0 < m <= 1460) by (unfold m, TCP_MSS; lia). destruct (mss_bytes m Hm') as (x & y & E1 & E2). rewrite E1 in Ho.
  destruct h as [seg ackno wnd opts past]. cbn [ih_opts] in Ho. subst opts. rewrite parse_syn by done. rewrite E2. clearbody m.
  assert (Eo : opt_mss m q = set_mss m q) by (unfold opt_mss, TCP_MSS; destruct (Z.ltb_spec 1460 m); [lia|]; destruct (Z.eqb_spec m 0); [lia|done]). cbv zeta. by rewrite Eo.
Qed.

(** A first SYN over an MTU of 1400, with a byte behind the options that looks like one. *)
Definition ex_syn : in_hdr :=
  InHdr (TcpSeg 0 0 TCP_SYN [] 0 1 false) 0 0xFFFF [2; 4; 5; 80; 1; 3; 3; 4; 1; 1; 4; 2] (fun _ => 2).

Definition ex_mtu : tcp_env := TcpEnv (Some 1400) true 1 false.

Definition ex_unscaled : tcp_pcb := set_pflags 0 (ex_pcb SYN_RCVD 0 0xFFFF ex_snd).

Lemma syn_options_roundtrip_witness :
  tcp_parseopt ex_syn ex_unscaled =
  (let q := set_mss (Z.min TCP_MSS (1400 - 40)) ex_unscaled in
   let q := if offers (ex_pcb SYN_SENT 0 0xFFFF ex_snd) TF_WND_SCALE then scaled q else q in
   if offers (ex_pcb SYN_SENT 0 0xFFFF ex_snd) TF_SACK then tcp_set_flags TF_SACK q else q).
Proof.
  refine (syn_options_roundtrip ex_mtu 1400 TCP_SYN (ex_pcb SYN_SENT 0 0xFFFF ex_snd) ex_unscaled (TcpSeg 1000 0 TCP_SYN [] 0x19 1 false) ex_syn _ _ _ _ _ _ _);
    [reflexivity|lia|by left|reflexivity|reflexivity|reflexivity|reflexivity].
Defined.

(** ** Writing *)
(** Three bytes wait, with room for two more in their pbuf. *)
Definition ex_waiting : tcp_pcb :=
  ex_pcb ESTABLISHED 0 1000 (set_unsent_oversize 2 (set_snd_lbb 1003 (set_snd_queuelen 1 (set_unsent [TcpSeg 1000 3 0 [1; 2; 3] 0 1 false] ex_snd)))).

Lemma ex_tail_ok : tail_ok false ex_waiting.
Proof. split; [done|]. cbn. split_and!; try done; by left. Qed.

(** Two bytes go into the room, two into a pbuf that is chained to the segment. *)
Lemma tcp_write_appends_witness :
  map bare (unsent (p_snd (tcp_write ex_mem false (Some [4; 5; 6; 7]) TCP_WRITE_FLAG_COPY ex_waiting).2)) = [(1000, 7, [1; 2; 3; 4; 5; 6; 7])] /\
  let '(err, p') := tcp_write ex_mem false (Some [4; 5; 6; 7]) TCP_WRITE_FLAG_COPY ex_waiting in
  (forall n, write_room n ex_mem [4; 5; 6; 7] ex_waiting -> err = ERR_OK) /\
  if err =? ERR_OK then
    tiles 1000 (snd_lbb (p_snd p')) (unsent (p_snd p')) /\ concat (map sg_data (unsent (p_snd p'))) = concat (map sg_data (unsent (p_snd ex_waiting))) ++ [4; 5; 6; 7] /\
    snd_lbb (p_snd p') = u32 (snd_lbb (p_snd ex_waiting) + zlen [4; 5; 6; 7]) /\ snd_buf (p_snd p') = u32 (snd_buf (p_snd ex_waiting) - zlen [4; 5; 6; 7]) /\ unacked (p_snd p') = unacked (p_snd ex_waiting) /\
    Forall (fun g => sg_len g <= write_mss ex_waiting) (drop (length (unsent (p_snd ex_waiting)) - 1) (unsent (p_snd p')))
  else p' = ex_waiting \/ p' = tcp_set_flags TF_NAGLEMEMERR ex_waiting.
Proof.
  split; [by vm_compute|]. refine (tcp_write_appends ex_mem false [4; 5; 6; 7] TCP_WRITE_FLAG_COPY ex_waiting 1000 _ _); [exact ex_tail_ok|by vm_compute].
Defined.

(** Five bytes are written in two calls, sent in two segments, the first of which is
    acknowledged in between; the peer gets the second one first, and the first one twice. *)
Definition ex_w0 : tcp_in := set_ti_sends [Some ERR_OK; Some ERR_OK] (ex_tcp (ex_pcb ESTABLISHED 0 1000 ex_snd) []).
Definition ex_w1 : tcp_in := set_ti_pcb (tcp_write ex_mem false (Some [1; 2; 3]) TCP_WRITE_FLAG_COPY (ti_pcb ex_w0)).2 ex_w0.
Definition ex_w3 : tcp_in := receive_ack ex_env (ex_hdr 0 TCP_ACK [] 1003) (tcp_output ex_env ex_w1).2.
Definition ex_w4 : tcp_in := set_ti_pcb (tcp_write ex_mem false (Some [4; 5]) 0 (ti_pcb ex_w3)).2 ex_w3.
Definition ex_w5 : tcp_in := (tcp_output ex_env ex_w4).2.

Lemma ex_sender : sender 1000 [1; 2; 3; 4; 5] ex_w5.
Proof.
  apply SndOutput. change [1; 2; 3; 4; 5] with ([1; 2; 3] ++ [4; 5]). apply SndWrite; [|by split; vm_compute|by vm_compute]. apply SndAck, SndOutput. change [1; 2; 3] with ([] ++ [1; 2; 3]). apply SndWrite; [by apply SndNew|by split; vm_compute|by vm_compute].
Qed.

Definition ex_peer : tcp_in := ex_tcp (ex_pcb ESTABLISHED 1000 TCP_WND ex_snd) [].

Definition ex_crossed : list conn_event :=
  [InSegment ex_env true (ex_hdr 1003 (TCP_PSH .| TCP_ACK) [4; 5] 0); InSegment ex_env true (ex_hdr 1000 (TCP_PSH .| TCP_ACK) [1; 2; 3] 0); InSegment ex_env true (ex_hdr 1000 (TCP_PSH .| TCP_ACK) [1; 2; 3] 0)].

Lemma ex_crossed_ok : Forall (from_wire (ti_out ex_w5)) ex_crossed.
Proof.
  assert (E : exists x1 x2 x3 y1 y2 y3, ti_out ex_w5 = [PSeg (TcpSeg 1000 3 (TCP_PSH .| TCP_ACK) [1; 2; 3] 0 1 false) x1 x2 x3; PSeg (TcpSeg 1003 2 (TCP_PSH .| TCP_ACK) [4; 5] 0 2 false) y1 y2 y3]) by (do 6 eexists; vm_compute; reflexivity).
  destruct E as (x1 & x2 & x3 & y1 & y2 & y3 & ->). repeat (apply Forall_cons; split); [| | |by apply Forall_nil]; eexists; [split; [by right; left|done]|split; [by left|done]|split; [by left|done]].
Qed.

Lemma ex_peer_ok : conn_new 1000 ex_peer.
Proof. split; try done; cbn; unfold TCP_WND, ESTABLISHED, LAST_ACK; lia. Qed.

Lemma tcp_end_to_end_witness :
  accepted (ti_events (conn_run ex_crossed ex_peer).2) = [1; 2; 3; 4; 5] /\
  let '(gone, r') := conn_run ex_crossed ex_peer in
  accepted (ti_events r') `prefix_of` [1; 2; 3; 4; 5] /\
  (gone = false -> state (ti_pcb r') <> TIME_WAIT ->
   exists n, 0 <= n /\ rcv_nxt (ti_pcb r') = u32 (1000 + n) /\ accepted (ti_events r') ++ held r' = ztake n [1; 2; 3; 4; 5]).
Proof.
  split; [by vm_compute|]. exact (tcp_end_to_end 1000 [1; 2; 3; 4; 5] ex_w5 ex_peer ex_crossed ex_sender ltac:(done) ex_peer_ok ex_crossed_ok).
Defined.

Lemma data_pos (data : list Z) : data <> [] -> 0 < zlen data.
Proof. intros H. destruct data; [done|]. rewrite zlen_cons. pose proof (zlen_nonneg data). lia. Qed.

Lemma write_checks_ok len p p' : tcp_write_checks len p = (ERR_OK, p') -> p' = p.
Proof. unfold tcp_write_checks. repeat (match goal with |- context [if ?c then _ else _] => destruct c end); intros [=]; done. Qed.

(** Wherever the last unsent segment ends: if it has data, the bytes that [tcp_write] believes
    to fit are put behind it. *)
Lemma write_grows mem follows data fl p p' l g :
  unsent (p_snd p) = l ++ [g] -> unsent_oversize (p_snd p) = 0 -> data <> [] -> 0 < sg_len g < 65536 ->
  let space := u16 (write_mss p - (sg_len g + LWIP_TCP_OPT_LENGTH (sg_opts g))) in
  0 < space -> tcp_write mem follows (Some data) fl p = (ERR_OK, p') ->
  let n := Z.min space (zlen data) in
  unacked (p_snd p') = unacked (p_snd p) /\ snd_lbb (p_snd p') = u32 (snd_lbb (p_snd p) + zlen data) /\
  exists queue, map bare (unsent (p_snd p')) = map bare l ++ (sg_seqno g, u16 (sg_len g + n), sg_data g ++ ztake n data) :: map bare queue /\
    segs_of (write_mss p) (snd_lbb (p_snd p)) data n queue.
Proof.
  intros Eu Eo Hd Hg space Hsp. pose proof (data_pos data Hd) as Hz. unfold tcp_write. cbv zeta. destruct (tcp_write_checks (zlen data) p) as [err p0] eqn:Ec.
  destruct (Z.eqb_spec err ERR_OK) as [->|]; [|intros [= -> _]; done]. cbn [negb]. apply write_checks_ok in Ec as ->. rewrite Eu, last_snoc.
  set (n := Z.min space (zlen data)). destruct (write_into_tail mem follows data fl p g) as [w|] eqn:Ew; [|done].
  assert (Hw : wt_pos w = n /\ bare (wt_seg w) = (sg_seqno g, u16 (sg_len g + n), sg_data g ++ ztake n data)).
  { unfold write_into_tail in Ew. cbv zeta in Ew. fold space in Ew. rewrite Eo in Ew. cbn [Z.ltb Z.compare] in Ew. rewrite !Z.sub_0_r in Ew.
    rewrite (proj2 (Z.ltb_lt _ _) Hz), (proj2 (Z.ltb_lt _ _) Hsp), (proj2 (Z.ltb_lt 0 _) (proj1 Hg)) in Ew. cbn [andb] in Ew. fold n in Ew. rewrite Z.add_0_l, zdrop_0 in Ew.
    assert (Hb : forall c, bare (grow n (ztake n data) c (grow 0 (ztake 0 data) 0 g)) = (sg_seqno g, u16 (sg_len g + n), sg_data g ++ ztake n data)).
    { intros c. unfold grow, bare. cbn. rewrite Z.add_0_r, (u16_small (sg_len g)), ztake_0, app_nil_r by lia. done. }
    destruct (negb _); [|destruct follows]; try (injection Ew as <-; split; [done|apply Hb]); destruct (next_mem mem) as [[] m]; try done; injection Ew as <-; (split; [done|apply Hb]). }
  destruct Hw as [W1 W2]. destruct (write_segs _ _ _ _ _ _ _ _ _) as [[[over qlen] queue]|] eqn:Es; [|done]. rewrite W1 in Es. apply write_segs_ok in Es as (new & E & Hn); [|lia]. cbn in E. subst new.
  intros [= <-]. split; [done|]. split; [done|]. exists queue. split; [|done]. unfold on_snd, write_commit. cbn [p_snd set_p_snd unsent set_snd_queuelen set_snd_buf set_snd_lbb set_unsent].
  rewrite alter_last_snoc. destruct (_ && _); rewrite ?bare_psh, !map_app, <- app_assoc; cbn [map app]; by rewrite W2.
Qed.

Lemma rexmit_alone p p1 g rest : unsent (p_snd p) = [] -> unacked (p_snd p) = g :: rest -> tcp_rexmit p = (ERR_OK, p1) ->
  unsent (p_snd p1) = [g] /\ unacked (p_snd p1) = rest /\ unsent_oversize (p_snd p1) = 0 /\ write_mss p1 = write_mss p /\ snd_lbb (p_snd p1) = snd_lbb (p_snd p).
Proof. intros Eu Ea. unfold tcp_rexmit. rewrite Ea, Eu. destruct (sg_busy g); [done|]. intros [= <-]. unfold inc_nrtx. destruct (_ <? _); by split_and!. Qed.



(** Three small writes are in flight; the byte 9 gets number 1002 instead of 1006. *)
Definition ex_flying : tcp_in := ex_send [5; 6] (ex_send [3; 4] (ex_send [1; 2] (ex_tcp (tcp_set_flags TF_NODELAY (ex_pcb ESTABLISHED 0 1000 ex_snd)) []))).

Definition ex_rexmitted : tcp_pcb := (tcp_rexmit (ti_pcb ex_flying)).2.


(** A connection is opened, 536 bytes are written while it opens, and the peer answers that it
    takes segments of 300 bytes and has a window of 300; then 1000 more are written. *)
Definition ex_connecting : tcp_in :=
  let s := TcpSnd 1000 999 999 TCP_WND 0 0 999 TCP_SND_BUF 0 0 [] [] 1 65535 0 0 0 (-1) 0 0 0 3 3 0 0 0 0 0 in
  let p := (tcp_enqueue_flags true TCP_SYN (set_mss 536 (ex_pcb CLOSED 0 65535 s))).2 in
  ex_write (zeros 536) (tcp_output ex_env (set_ti_sends [Some ERR_OK] (ex_tcp (set_state SYN_SENT p) []))).2.

Definition ex_shrunk : tcp_pcb :=
  ti_pcb (conn_run [InSegment ex_env true (InHdr (TcpSeg 5000 0 (TCP_SYN .| TCP_ACK) [] 0 1 false) 1000 300 [2; 4; 1; 44] (fun _ => 0))] ex_connecting).2.

